(* ===== verification/_CoqProject ===== *)
-Q . S2P
Prelude.v
PyStr.v
PyVal.v
JsonCodec.v
FS.v
FSLaws.v
WeightManifest.v
WeightManifestSpec.v
Ephemeral.v
EphemeralSpec.v
EphemeralProducer.v
EphemeralCleanup.v
Backend.v
Base.v
BaseSpec.v
BaseEquiv.v
Dist.v
DistSpec.v
Tuna.v
TunaSpec.v
KTConfig.v
KTConfigSpec.v
WrapSettings.v
Checkpoint.v
CheckpointSpec.v
CheckpointRestore.v
CheckpointExample.v
WeightSource.v
WrapSettingsSpec.v
Arch.v
ArchSpec.v
Wrapping.v
WrappingSpec.v
ModelLoad.v
ModelLoadSpec.v
ModelLoadExample.v
Artifacts.v
ArtifactsSpec.v
ArtifactsExample.v
RawInt4Identity.v
RawInt4Spec.v
RawInt4Example.v
Routing.v
RoutingSpec.v
Layer.v
LayerSpec.v
LayerDist.v
LayerDistSpec.v
PretrainedLoad.v
PretrainedLoadSpec.v
PretrainedLoadExample.v
ModelGraph.v
Modules.v
Ownership.v
OwnershipSpec.v
OwnershipExample.v
ExpertWeights.v
ExpertWeightsSpec.v
ExpertWeightsExample.v
Placeholders.v
PlaceholdersSpec.v
EmptyingSpec.v
Extraction.v
ExtractionSpec.v
PlaceholdersExample.v
Lora.v
LoraViews.v
LoraAdapt.v
LoraSpec.v
LoraViewsSpec.v
LoraAdaptSpec.v
LoraExample.v
Adapter.v
AdapterFiles.v
AdapterSpec.v
AdapterRoundTrip.v
AdapterAccept.v
AdapterLoad.v
AdapterExample.v
