(* ===== verification/Prelude.v ===== *)
(** * A verification library for the fine-tuning runtime of KT-Kernel

    The repository holds KT-Kernel, a runtime that keeps the routed experts of a
    mixture-of-experts model on the CPU, and tools around it.  The development
    models the Python code that decides what the runtime trusts and what it does
    to its surroundings: the package [kt-kernel/python/sft/] (supervised
    fine-tuning) and the tuner [kt-kernel/python/cli/utils/tuna_engine.py].
    Every definition is executable and is translated from the function whose
    name it carries; a leading underscore of a Python name is dropped.

    ** The program's parts

    A fine-tuning process builds a configuration (config.py), chooses where
    expert weights come from and wraps the layers of the model on every rank
    (wrapper.py, arch.py), settles the backend and the quantisation contract of
    the base checkpoint (backend.py), and validates the files it is given: a
    persistent INT8 weight tree (weight_manifest.py), a short-lived weight tree
    that a producer publishes in /dev/shm and a consumer deletes layer by layer
    while it loads (ephemeral.py), a converted non-expert cache and the identity
    of a RAWINT4 base (artifacts.py). The trained adapter is published as a
    bundle with a manifest and checked when it is loaded (artifacts.py,
    lora.py). One wrapper per layer (base.py) then drives the C++ engine through
    forward and backward calls, on behalf of the layer that takes the place of
    the model's own (layer.py, autograd.py): it routes tokens to experts, follows
    the phases of activation checkpointing and cleans up after failures.  The
    ranks agree on control flow and exchange rows of variable length
    (dist_utils.py); full expert weights are saved and
    restored with the model (checkpoint.py). The tuner is a separate command
    that launches inference servers.

    ** Files and what they model

    - [Prelude]: exceptions, the result type [res] and the state-and-exception
      monad [M], loops, tactics ([inv_bind], [inv_guard], [bools], [run]-style
      rewriting) and hint databases, lemmas on lists, options and integers.
    - [PyStr], [PyVal]: texts, and Python values as [json.load] gives them, with
      Python's [==], [isinstance], [dict.get], [int()] and sorted keys.  The
      class [Platform] has the standard-library functions on values whose text
      is not fixed here (SHA-256, [json.loads], [json.dumps], [repr]).
      [JsonCodec] is an instance that satisfies the round-trip law.
    - [FS], [FSLaws]: a POSIX tree with symbolic links, lookup as the kernel
      does it, and mutating calls over a [world] that keeps every intermediate
      tree, so that crash consistency is a statement about the history.
    - [WeightManifest], [WeightManifestSpec]: weight_manifest.py.  A validated
      tree is exactly the described one: names, sizes, digests, totals.
    - [Ephemeral], [EphemeralSpec], [EphemeralProducer], [EphemeralCleanup]:
      ephemeral.py.  Publication and consumption step by step: write-ahead
      logging before deletion, atomic publication, reclaiming that spares live
      producers, cleanup that removes only what is owned.
    - [Backend]: backend.py.  Names, the RAWINT4 contract, runtime metadata.
    - [Base], [BaseSpec], [BaseEquiv]: base.py.  Parameters and gradients are objects of a
      heap; the engine is the class [Engine], whose operations may raise.  The
      gradient window, the cache depth and the checkpoint cache are state
      machines; the theorems hold for every engine and every call sequence.
      [BaseEquiv] compares the asynchronous calls with the synchronous ones.
    - [Dist], [DistSpec]: dist_utils.py.  The process group is a class of
      queries and a delivery function; the ranks run the same code on their own
      inputs, and the theorems relate all of them.
    - [KTConfig], [KTConfigSpec]: config.py.
    - [Routing], [RoutingSpec]: the routing of layer.py, token by token, over
      torch's operators on rows as the class [RouterOps].
    - [Layer], [LayerSpec]: the forward and backward passes of a layer in one
      process (layer.py, autograd.py).  [LayerDist], [LayerDistSpec]: the same on
      several ranks, run side by side; a rank that enters a collective which
      another never enters is left [Waiting].
    - [WrapSettings]: the settings of [wrap_moe_layers_with_kt_wrapper]
      (wrapper.py) and its first checks.  [WeightSource]: its checks of
      tensor-parallel slices and its choice of a weight source, over [FS].
      [WrapSettingsSpec]: how all of these treat an accepted configuration.  [Arch], [ArchSpec]: the architectures of
      arch.py and the device maps of wrapper.py.  [Wrapping], [WrappingSpec]: the
      whole function as each rank runs it, with the messages between ranks; what
      moves tensors into the engine is the class [Kernels].  [ModelLoad],
      [ModelLoadSpec], [ModelLoadExample]: [load_kt_model] around it.
    - [Checkpoint], [CheckpointSpec], [CheckpointRestore], [CheckpointExample]:
      checkpoint.py.  A directory is a map of names to contents with its
      history; every file operation may fail and may leave a torn file.
    - [Artifacts], [ArtifactsSpec], [ArtifactsExample]: the non-expert cache of
      artifacts.py, its producer and its validator, over [FS].
    - [RawInt4Identity], [RawInt4Spec], [RawInt4Example]: the base identity of
      artifacts.py, with what a reader of a changing file observes as argument.
    - [PretrainedLoad], [PretrainedLoadSpec], [PretrainedLoadExample]: resolving
      the artifacts of a configuration on every rank and checking the loaded
      model (artifacts.py).
    - [ModelGraph]: the search through the objects that wrap a model, over a heap
      that may have cycles.  [Adapter]: what an adapter's manifest says of its
      model.  [AdapterFiles]: publishing, checking and loading an adapter bundle
      (artifacts.py and lora.py), over two directories with their history, where
      every operation may fail.  [AdapterSpec] has the crash consistency of a
      save, [AdapterRoundTrip] what a save that returns has done,
      [AdapterAccept] that its check accepts it, [AdapterLoad] that loading
      restores the tensors, [AdapterExample] concrete bundles.
    - [Modules]: torch modules, tensors and the private attributes set on them,
      as a heap; how torch walks it is the class [Torch].  [Ownership],
      [OwnershipSpec], [OwnershipExample]: the routed experts that the package
      claims, hides from device maps and dispatch, and puts back (artifacts.py).
    - [ExpertWeights], [ExpertWeightsSpec], [ExpertWeightsExample]: the loaders of
      weights.py, from checkpoint files and INT8 partitions, over operations on
      tensors as the class [Tensors].  [Extraction], [ExtractionSpec]: reading
      the weights that a model holds instead.
    - [Placeholders], [PlaceholdersSpec], [EmptyingSpec], [PlaceholdersExample]:
      what takes the place of the experts' weights once the engine has them, and
      the inventory of placeholders (weights.py), over the heap of [Modules].
    - [Lora], [LoraSpec]: which parameters are trained, under which names, and who
      owns their gradients (lora.py).  [LoraViews], [LoraViewsSpec]: contiguous
      buffers, of which PEFT's weights become views, in a heap of storages.
      [LoraAdapt], [LoraAdaptSpec], [LoraExample]: [kt_adapt_peft_lora], wrapper by
      wrapper.
    - [Tuna], [TunaSpec]: tuna_engine.py.  What a launched server does is a
      parameter, one [host] per launch.

    ** Conventions

    A raised exception is [Err (Raise class message)]; the message keeps the
    fixed part of the source's text.  Mutating code is [M state A], a function
    from a state to a state and a result: the state survives an exception, so
    clean-up clauses and half-done work are visible.  A Python [int] is [Z]; a
    [float] is a [spec_float] of the Standard Library; a dictionary read from
    JSON is an association list with its order, a lookup table is a [gmap].
    Objects that are shared and changed in place, such as modules, parameters and
    buffers, live in a heap and are compared by identity.

    ** What the theorems show

    - Validation: accepting means meeting an abstract description
      ([validated_tree_is_exact], [validated_cache_is_exact]), refusing has the
      documented exception, and what one side publishes the other accepts
      ([published_cache_validates], [save_load_roundtrip],
      [saved_adapter_is_accepted], [fused_tensors_load_back]).
    - Crash consistency: invariants of every state in the history
      ([consume_layer_write_ahead], [publish_is_atomic], [save_is_atomic],
      [ready_manifest_is_last]).
    - State machines: invariants and outcomes over all call sequences
      ([wrapper_lifecycle], [backward_outcome], [checkpoint_cache_lifecycle]).
    - Agreement: all ranks take the same decision and receive the same rows
      ([checkpoint_agreement], [gather_scatter_exact],
      [restore_verdict_is_shared], [ranks_resolve_together]), and no rank is left
      waiting ([ranks_wrap_together], [ranks_pass_forward_together],
      [ranks_pass_backward_together]).
    - Failures: after any of them a layer's backward pass keeps no output and
      leaves no gradient published ([layer_backward_outcome]); a recomputation
      returns the kept output ([recomputation_returns_the_kept_output]).
    - Undoing: a claim is made as a whole or rolled back to the same heap
      ([claim_is_all_or_nothing]); what a context manager replaced is put back
      whatever happens in its block ([experts_are_projected_and_put_back],
      [experts_are_hidden_and_put_back]).
    - Loading: what loading leaves out wrapping has one source for
      ([loading_settles_the_source]).
    - Weights: a loader returns exactly the tensors that the checkpoint has
      ([loaded_fp8_experts_are_exact], [loaded_rawint4_experts_are_exact]) and
      extraction those of the model ([extraction_is_exact_until_emptied]).
      Emptying a layer keeps the contract that its claim recorded
      ([emptied_experts_keep_their_contract]), and placeholders keep their names
      ([inventory_is_exact_and_stable]).
    - LoRA: adaptation leaves every weight a view of its own row with the value
      that it had ([adapted_weights_are_views]); what the optimiser is given is
      named once ([trained_parameters_are_named_once]).
    - Bounds: accepted routing metadata keep the selection of experts in range
      ([accepted_routing_stays_in_groups]).
    - Equivalence and composition: [async_calls_match_sync]; what [KTConfig]
      accepts wrapping accepts, with its exceptions ([accepted_config_wraps]).
    - Termination: the searches and traversals end
      ([find_max_gpu_experts_maximum], [from_object_terminates],
      [unwrapping_visits_everything]).

    ** Parameters, fuel and bounds

    Symbolic links are followed forty times at most, the kernel's own limit.
    The binary search of the tuner has fuel one above the interval's length and
    is proved to end before it is spent; a traversal of directories has fuel one
    above the longest path of the tree, deeper than any directory; the unwrapping of configuration
    containers has fuel two above the number of objects in the store, and is
    proved total for it; the search through a model's wrappers has fuel two above
    four times the number of objects, each of which is visited once and adds at
    most three; the search for a model's layers has two above seven times that
    number, for at most six.  All other recursion is structural.
    Hypotheses on the parameters are stated at the theorems: that a SHA-256
    digest is 64 lowercase hexadecimal digits, that [json.load] reads back
    what [json.dump] wrote, which [JsonCodec] satisfies, and the contract of
    [torch.topk], which [RoutingSpec] satisfies by sorting.

    ** Not modelled

    The C++ and CUDA engine under kt-kernel/ and its bindings; numerical contents
    of tensors and CUDA streams, so that of layer.py and autograd.py the control
    is modelled and the tensors are operations that may fail; routers that the
    layer keeps as they are; the rest of amx.py; what transformers and PEFT
    do, and how it is asked for a model's files (wrapper.py); of lora.py its own small LoRA experts, the flags
    that [update_kt_lora_pointers] sets after an optimiser's step, and how
    numbers are initialised; DeepSpeed's context for gathering parameters; the
    rest of the command line and of kt-kernel/python/, scripts, tests, migration tools; the
    code under archive/ and third_party/.  Concurrency inside one process is
    modelled only as the order of calls; two processes meet in the file tree.

    Some failures have no place in the models.  A handler of [Exception] is
    [on_exception], which runs for every class, so that an interrupt is handled
    as well.  Removing and renaming in [FS] fail for what is there and for what
    is missing, but not for permissions or input and output, so that the removal
    of a tree does not stop halfway; the directories of [Checkpoint] and
    [AdapterFiles] are models in which every operation may fail.  An interrupt
    comes in place of a call of [setattr] in [Ownership], never between the call
    and the record of it.  The log of [Tuna] has the tests that ended, not one
    that an interrupt broke off.

    Where the code does not do what it means to, a theorem has the hypothesis that
    excludes the case, and an example shows the case: a previous index that names
    itself ([CheckpointExample]), a symbolic link in an owned directory
    ([EphemeralCleanup]), a gradient that cannot be viewed as a matrix
    ([LayerSpec], [LayerDistSpec]), a pickled adapter beside LoRA experts
    ([AdapterExample]). *)
From stdpp Require Export base tactics option list numbers strings gmap sets sorting.
From Stdlib Require Export ZArith Lia.

(** ** Python exceptions and fallible computations *)

(** The exception classes the modelled sources raise. *)
Inductive exn_class :=
  | ValueError | TypeError | RuntimeError | KeyError | AttributeError
  | PermissionError | FileExistsError | FileNotFoundError | OSError
  | IndexError | KeyboardInterrupt | SafetensorError | NotImplementedError | AssertionError | OverflowError
  | ZeroDivisionError
  | KTArtifactError | KTAMXConfigError | KTAMXNotAvailableError | KTAMXModelNotSupportedError | SystemExit.

(** An exception is its class and the fixed part of its message; the values
    that a message interpolates are left out. *)
Record pyexn := Raise { exn_cls : exn_class; exn_msg : string }.

#[export] Instance exn_class_eq_dec : EqDecision exn_class.
Proof. solve_decision. Defined.
#[export] Instance pyexn_eq_dec : EqDecision pyexn.
Proof. solve_decision. Defined.

(** The outcome of a call: a value, or an exception that propagates. *)
Inductive res (A : Type) :=
  | Ok (a : A)
  | Err (e : pyexn).
Arguments Ok {A} a.
Arguments Err {A} e.

#[export] Instance res_ret : MRet res := fun A a => Ok a.
#[export] Instance res_bind : MBind res := fun A B f m =>
  match m with Ok a => f a | Err e => Err e end.
#[export] Instance res_fmap : FMap res := fun A B f m =>
  match m with Ok a => Ok (f a) | Err e => Err e end.
#[export] Instance res_eq_dec `{EqDecision A} : EqDecision (res A).
Proof. solve_decision. Defined.

Definition is_ok {A} (m : res A) : bool :=
  match m with Ok _ => true | Err _ => false end.

(** [raise_if c cls msg] is the statement [if c: raise cls(msg)]. *)
Definition raise_if (c : bool) (cls : exn_class) (msg : string) : res unit :=
  if c then Err (Raise cls msg) else Ok tt.

(** [of_option o cls msg] is the value of [o], or the exception. *)
Definition of_option {A} (o : option A) (cls : exn_class) (msg : string) : res A :=
  match o with Some a => Ok a | None => Err (Raise cls msg) end.

(** [try: m  except E: h] for the classes [E] selected by [f]. *)
Definition catch {A} (m : res A) (f : exn_class -> bool) (h : pyexn -> res A) : res A :=
  match m with
  | Ok a => Ok a
  | Err e => if f (exn_cls e) then h e else Err e
  end.

(** [for x in l: acc = body(acc, x)], stopping at the first exception. *)
Fixpoint for_each {A B} (l : list A) (acc : B) (body : B -> A -> res B) : res B :=
  match l with
  | [] => Ok acc
  | x :: l' => acc' ← body acc x; for_each l' acc' body
  end.

(** ** Stateful computations

    A computation over a state [S] returns the state it leaves, also when it
    raises: an exception does not undo the writes made before it. *)
Definition M (S A : Type) : Type := S -> S * res A.

#[export] Instance M_ret {S} : MRet (M S) := fun A a s => (s, Ok a).
#[export] Instance M_bind {S} : MBind (M S) := fun A B f m s =>
  match m s with
  | (s', Ok a) => f a s'
  | (s', Err e) => (s', Err e)
  end.

Definition lift {S A} (r : res A) : M S A := fun s => (s, r).
Definition get {S} : M S S := fun s => (s, Ok s).
Definition gets {S A} (f : S -> A) : M S A := fun s => (s, Ok (f s)).
Definition gets_res {S A} (f : S -> res A) : M S A := fun s => (s, f s).
Definition modify {S} (f : S -> S) : M S unit := fun s => (f s, Ok tt).
Definition raise {S A} (cls : exn_class) (msg : string) : M S A :=
  fun s => (s, Err (Raise cls msg)).
Definition raise_ifM {S} (c : bool) (cls : exn_class) (msg : string) : M S unit :=
  lift (raise_if c cls msg).

(** [try: m  except Exception: h; raise]: the handler runs on the state the
    body left, and the body's exception is raised again.  It runs for every class
    of exception. *)
Definition on_exception {S A} (m : M S A) (h : M S unit) : M S A := fun s =>
  match m s with
  | (s', Ok a) => (s', Ok a)
  | (s', Err e) => match h s' with
                   | (s'', Ok _) => (s'', Err e)
                   | (s'', Err e') => (s'', Err e')
                   end
  end.

(** [try: m  except E: h(exn)] for the classes selected by [f]. *)
Definition catchM {S A} (m : M S A) (f : exn_class -> bool) (h : pyexn -> M S A) : M S A :=
  fun s => match m s with
           | (s', Ok a) => (s', Ok a)
           | (s', Err e) => if f (exn_cls e) then h e s' else (s', Err e)
           end.

(** [try: m  finally: h]. *)
Definition finallyM {S A} (m : M S A) (h : M S unit) : M S A := fun s =>
  match m s with
  | (s', r) => match h s' with
               | (s'', Ok _) => (s'', r)
               | (s'', Err e') => (s'', Err e')
               end
  end.

Fixpoint for_eachM {S A B} (l : list A) (acc : B) (body : B -> A -> M S B) : M S B :=
  match l with
  | [] => mret acc
  | x :: l' => acc' ← body acc x; for_eachM l' acc' body
  end.

(** [for x in l: body(x)]. *)
Definition for_M {S A} (l : list A) (body : A -> M S unit) : M S unit :=
  for_eachM l tt (fun _ x => body x).

(** ** Inverting successful computations *)

Create HintDb res.
Create HintDb keeps.

Lemma bind_ok {A B} (m : res A) (f : A -> res B) b :
  (m ≫= f) = Ok b ↔ ∃ a, m = Ok a ∧ f a = Ok b.
Proof. destruct m; simpl; naive_solver. Qed.

Lemma bind_run {A B} (m : res A) (f : A → res B) a : m = Ok a → (m ≫= f) = f a.
Proof. by intros ->. Qed.

Lemma raise_if_ok c cls msg u : raise_if c cls msg = Ok u ↔ c = false.
Proof. destruct c, u; simpl; naive_solver. Qed.

Lemma of_option_ok {A} (o : option A) cls msg a : of_option o cls msg = Ok a ↔ o = Some a.
Proof. destruct o; simpl; naive_solver. Qed.

Section for_each_lemmas.
Context {A B : Type}.

(** The loop invariant rule: [P pre acc] holds of the elements already seen. *)
Lemma for_each_inv (P : list A → B → Prop) (l : list A) (acc acc' : B) body :
  P [] acc →
  (∀ pre x b b', pre ++ [x] `prefix_of` l → P pre b → body b x = Ok b' → P (pre ++ [x]) b') →
  for_each l acc body = Ok acc' →
  P l acc'.
Proof.
  intros H0 Hs.
  assert (∀ l2 pre b, l = pre ++ l2 → P pre b →
            for_each l2 b body = Ok acc' → P l acc') as Hgen; [|by apply (Hgen l [])].
  induction l2 as [|x l2 IH]; intros pre b Hl HP; simpl.
  - intros [= ->]. rewrite app_nil_r in Hl. by subst.
  - intros (b' & Hb & Hr)%bind_ok.
    assert (l = (pre ++ [x]) ++ l2) as Hl' by (by rewrite Hl, <-app_assoc).
    apply (IH (pre ++ [x]) b'); [done| |done].
    eapply Hs; eauto. rewrite Hl'. by apply prefix_app_r.
Qed.

Lemma for_each_app (l1 l2 : list A) (acc : B) body :
  for_each (l1 ++ l2) acc body = (acc' ← for_each l1 acc body; for_each l2 acc' body).
Proof.
  revert acc; induction l1 as [|x l1 IH]; intros acc; simpl; [done|].
  destruct (body acc x); simpl; [apply IH|done].
Qed.
End for_each_lemmas.

(** [for_each] on a body that keeps no accumulator checks every element. *)
Lemma for_each_unit {A} (l : list A) (body : A -> res unit) u :
  for_each l tt (fun _ x => body x) = Ok u ↔ Forall (fun x => body x = Ok tt) l.
Proof.
  destruct u. induction l as [|x l IH]; simpl.
  - by rewrite Forall_nil.
  - rewrite bind_ok, Forall_cons, <-IH. split.
    + intros ([] & ? & ?). done.
    + intros [? ?]. eauto.
Qed.

#[export] Hint Rewrite @bind_ok raise_if_ok @of_option_ok : res.

(** [m] raises no exception of another class. *)
Definition raises_only {A} (cls : exn_class) (m : res A) : Prop :=
  ∀ e, m = Err e → exn_cls e = cls.

Section raises_only.
Context (cls : exn_class).

Lemma raises_only_ok {A} (a : A) : raises_only cls (Ok a).
Proof. by intros e. Qed.
Lemma raises_only_ret {A} (a : A) : raises_only cls (mret a).
Proof. by intros e. Qed.
Lemma raises_only_raise_if c msg : raises_only cls (raise_if c cls msg).
Proof. intros e. destruct c; [by intros [= <-]|done]. Qed.
Lemma raises_only_of_option {A} (o : option A) msg : raises_only cls (of_option o cls msg).
Proof. intros e. destruct o; [done|by intros [= <-]]. Qed.
Lemma raises_only_bind {A B} (m : res A) (f : A → res B) :
  raises_only cls m → (∀ a, raises_only cls (f a)) → raises_only cls (m ≫= f).
Proof. intros Hm Hf e. destruct m as [a|e']; simpl; [apply Hf|]. intros [= ->]. by apply Hm. Qed.
Lemma raises_only_for_each {A B} (l : list A) (acc : B) body :
  (∀ b x, raises_only cls (body b x)) → raises_only cls (for_each l acc body).
Proof.
  intros Hb. revert acc. induction l as [|x l IH]; intros acc; [apply raises_only_ok|].
  apply raises_only_bind; auto.
Qed.
Lemma raises_only_if {A} (c : bool) (m1 m2 : res A) :
  raises_only cls m1 → raises_only cls m2 → raises_only cls (if c then m1 else m2).
Proof. by destruct c. Qed.
End raises_only.

#[export] Hint Resolve raises_only_ok raises_only_ret raises_only_raise_if raises_only_of_option
  raises_only_bind raises_only_for_each raises_only_if : res.

(** Proves [raises_only] of a sequence of statements. *)
Ltac raises :=
  repeat lazymatch goal with
  | |- raises_only _ (Ok _) => apply raises_only_ok
  | |- raises_only _ (mret _) => apply raises_only_ret
  | |- raises_only _ (raise_if _ _ _) => apply raises_only_raise_if
  | |- raises_only _ (of_option _ _ _) => apply raises_only_of_option
  | |- raises_only _ (_ ≫= _) => apply raises_only_bind
  | |- raises_only _ (for_each _ _ _) => apply raises_only_for_each
  | |- raises_only _ (if _ then _ else _) => apply raises_only_if
  | |- raises_only _ _ => fail
  | |- ∀ _, _ => intros ?
  end.

(** [inv_ok] splits hypotheses [m = Ok _] about sequenced computations into
    one equation per statement. *)
Ltac inv_ok1 :=
  match goal with
  | H : Ok _ = Ok _ |- _ => injection H as H
  | H : Ok _ = Err _ |- _ => discriminate H
  | H : Err _ = Ok _ |- _ => discriminate H
  | H : mret _ = Ok _ |- _ => unfold mret, res_ret in H
  | H : (_ ≫= _) = Ok _ |- _ => apply bind_ok in H as (?a & ?H & H); simpl in H
  | H : raise_if _ _ _ = Ok _ |- _ => apply raise_if_ok in H
  | H : of_option _ _ _ = Ok _ |- _ => apply of_option_ok in H
  | u : unit |- _ => destruct u
  end.
Ltac inv_ok := repeat inv_ok1.

(** Turns boolean equations into propositions. *)
Ltac bools :=
  repeat match goal with
  | H : _ && _ = true |- _ => apply andb_true_iff in H as [? ?]
  | H : _ || _ = false |- _ => apply orb_false_iff in H as [? ?]
  | H : negb _ = false |- _ => apply negb_false_iff in H
  | H : negb _ = true |- _ => apply negb_true_iff in H
  | H : bool_decide _ = true |- _ => apply bool_decide_eq_true in H
  | H : bool_decide _ = false |- _ => apply bool_decide_eq_false in H
  | H : (_ =? _)%Z = true |- _ => apply Z.eqb_eq in H
  | H : (_ =? _)%Z = false |- _ => apply Z.eqb_neq in H
  | H : (_ <? _)%Z = true |- _ => apply Z.ltb_lt in H
  | H : (_ <? _)%Z = false |- _ => apply Z.ltb_ge in H
  | H : (_ <=? _)%Z = true |- _ => apply Z.leb_le in H
  | H : (_ <=? _)%Z = false |- _ => apply Z.leb_gt in H
  | H : String.eqb _ _ = true |- _ => apply String.eqb_eq in H
  | H : String.eqb _ _ = false |- _ => apply String.eqb_neq in H
  end.

(** One statement of a sequence that succeeded. *)
Tactic Notation "inv_bind" hyp(H) "as" simple_intropattern(x) simple_intropattern(Hx) :=
  apply bind_ok in H as (x & Hx & H).
(** One guard of a sequence that succeeded. *)
Tactic Notation "inv_guard" hyp(H) "as" simple_intropattern(Hx) :=
  let H0 := fresh in apply bind_ok in H as ([] & H0 & H); apply raise_if_ok in H0; revert H0; intros Hx.

(** ** Running stateful computations *)

Section runs.
Context {S A B : Type}.
Implicit Types (m : M S A) (f : A → M S B) (s : S).

Lemma bindM_inv m f s s' r : (m ≫= f) s = (s', r) →
  (∃ s1 a, m s = (s1, Ok a) ∧ f a s1 = (s', r)) ∨ (∃ e, m s = (s', Err e) ∧ r = Err e).
Proof. unfold mbind, M_bind. destruct (m s) as [s1 [a|e]]; naive_solver. Qed.

Lemma bindM_ok m f s s' b : (m ≫= f) s = (s', Ok b) ↔
  ∃ s1 a, m s = (s1, Ok a) ∧ f a s1 = (s', Ok b).
Proof. unfold mbind, M_bind. destruct (m s) as [s1 [a|e]]; naive_solver. Qed.

Lemma bindM_run m f s s1 a : m s = (s1, Ok a) → (m ≫= f) s = f a s1.
Proof. unfold mbind, M_bind. by intros ->. Qed.

Lemma bindM_fail m f s s1 e : m s = (s1, Err e) → (m ≫= f) s = (s1, Err e).
Proof. unfold mbind, M_bind. by intros ->. Qed.

Lemma bindM_gets (g : S → A) f s : (gets g ≫= f) s = f (g s) s.
Proof. done. Qed.

Lemma bindM_lift (r : res A) f s :
  (lift r ≫= f) s = match r with Ok a => f a s | Err e => (s, Err e) end.
Proof. by destruct r. Qed.

Lemma bindM_gets_res (g : S → res A) f s :
  (gets_res g ≫= f) s = match g s with Ok a => f a s | Err e => (s, Err e) end.
Proof. unfold mbind, M_bind, gets_res. by destruct (g s). Qed.
End runs.

Lemma bindM_raise_if {S A} c cls msg (f : unit → M S A) s :
  (raise_ifM c cls msg ≫= f) s = if c then (s, Err (Raise cls msg)) else f tt s.
Proof. by destruct c. Qed.

Lemma bindM_modify {S A} (g : S → S) (f : unit → M S A) s : (modify g ≫= f) s = f tt (g s).
Proof. done. Qed.

Lemma run_result {S A} (m : M S A) s r : (m s).2 = r → m s = ((m s).1, r).
Proof. intros <-. by destruct (m s). Qed.

#[export] Hint Rewrite @bindM_gets @bindM_lift @bindM_gets_res @bindM_raise_if @bindM_modify : run.

(** The loop rule of [for_M]: [P] holds of the state before each round and
    after the last, [E] of the state an exception leaves. *)
Lemma for_M_inv {S A} (P : list A → S → Prop) (E : pyexn → S → Prop) (l : list A) body s s' r :
  P [] s →
  (∀ pre x post s1 s2 r', l = pre ++ x :: post → P pre s1 → body x s1 = (s2, r') →
     match r' with Ok _ => P (pre ++ [x]) s2 | Err e => E e s2 end) →
  for_M l body s = (s', r) →
  match r with Ok _ => P l s' | Err e => E e s' end.
Proof.
  intros H0 Hs.
  assert (∀ l2 pre s1, l = pre ++ l2 → P pre s1 → for_M l2 body s1 = (s', r) →
    match r with Ok _ => P l s' | Err e => E e s' end) as Hgen; [|by apply (Hgen l [])].
  induction l2 as [|x l2 IH]; intros pre s1 Hl HP Hf.
  - injection Hf as <- <-. rewrite app_nil_r in Hl. by subst.
  - unfold for_M in Hf. simpl in Hf. apply bindM_inv in Hf as [(s2 & [] & Hb & Hf)|(e & Hb & ->)].
    + apply (IH (pre ++ [x]) s2); [by rewrite Hl, <-app_assoc| |done].
      by apply (Hs pre x l2 s1 s2 (Ok tt)).
    + by apply (Hs pre x l2 s1 s' (Err e)).
Qed.

(** The rule for a loop that ends without an exception. *)
Lemma for_M_ok {S A} (P : list A → S → Prop) (l : list A) (body : A → M S unit) s s' u :
  P [] s →
  (∀ pre x post s1 s2 v, l = pre ++ x :: post → P pre s1 → body x s1 = (s2, Ok v) → P (pre ++ [x]) s2) →
  for_M l body s = (s', Ok u) → P l s'.
Proof.
  intros H0 Hs Hx. apply (for_M_inv P (fun _ _ => True) l body s s' (Ok u)); [done| |done].
  intros pre x post s1 s2 [v|e] Hl HP Hb; [by eapply Hs|done].
Qed.


(** [keeps I m]: [m] keeps the invariant [I] of the state, whether it returns
    or raises. *)
Definition keeps {S A} (I : S → Prop) (m : M S A) : Prop :=
  ∀ s s' r, I s → m s = (s', r) → I s'.

Section keeps.
Context {S : Type} (I : S → Prop).

Lemma keeps_ret {A} (a : A) : keeps I (mret a).
Proof. intros s s' r Hs Hx. unfold mret, M_ret in Hx. by injection Hx as <- _. Qed.

Lemma keeps_lift {A} (x : res A) : keeps I (lift x).
Proof. intros s s' r Hs Hx. by injection Hx as <- _. Qed.

Lemma keeps_raise_if c cls msg : keeps I (raise_ifM c cls msg).
Proof. apply keeps_lift. Qed.

Lemma keeps_bind {A B} (m : M S A) (f : A → M S B) :
  keeps I m → (∀ a, keeps I (f a)) → keeps I (m ≫= f).
Proof.
  intros Hm Hf s s' r Hs [(s1 & a & H1 & H2)|(e & H1 & ->)]%bindM_inv; [|by eapply Hm].
  eapply Hf; [|exact H2]. by eapply Hm.
Qed.

(** What is read from the state may be used in the rest. *)
Lemma keeps_gets {A B} (g : S → A) (f : A → M S B) :
  (∀ s s' r, I s → f (g s) s = (s', r) → I s') → keeps I (gets g ≫= f).
Proof. intros Hf s s' r Hs Hx. rewrite bindM_gets in Hx. by eapply Hf. Qed.

(** A pure step: its value is known in the rest. *)
Lemma keeps_lift_bind {A B} (x : res A) (f : A → M S B) :
  (∀ a, x = Ok a → keeps I (f a)) → keeps I (lift x ≫= f).
Proof.
  intros Hf s s' r Hs Hx. rewrite bindM_lift in Hx.
  destruct x as [a|e]; [by eapply Hf|]. by injection Hx as <- _.
Qed.

Lemma keeps_for_M {A} (l : list A) (body : A → M S unit) :
  (∀ x, x ∈ l → keeps I (body x)) → keeps I (for_M l body).
Proof.
  intros Hb. induction l as [|x l IH]; [apply keeps_ret|].
  apply (keeps_bind (body x)); [apply Hb; left|]. intros []. apply IH.
  intros y Hy. apply Hb. by right.
Qed.

Lemma keeps_catch {A} (m : M S A) f h :
  keeps I m → (∀ e, keeps I (h e)) → keeps I (catchM m f h).
Proof.
  intros Hm Hh s0 s' r Hs. unfold catchM. destruct (m s0) as [s1 [a|e]] eqn:E.
  - intros Hx. injection Hx as <- _. by eapply Hm.
  - assert (I s1) by by eapply Hm. destruct (f (exn_cls e)); [by apply Hh|].
    intros Hx. by injection Hx as <- _.
Qed.

Lemma keeps_read {A} (g : S → A) : keeps I (gets g).
Proof. intros s s' r Hs Hx. by injection Hx as <- _. Qed.

Lemma keeps_get : keeps I get.
Proof. intros s s' r Hs Hx. by injection Hx as <- _. Qed.

Lemma keeps_gets_res {A} (g : S → res A) : keeps I (gets_res g).
Proof. intros s s' r Hs Hx. by injection Hx as <- _. Qed.

Lemma keeps_raise {A} cls msg : keeps I (raise (A := A) cls msg).
Proof. intros s s' r Hs Hx. by injection Hx as <- _. Qed.

Lemma keeps_modify (f : S → S) : (∀ s, I s → I (f s)) → keeps I (modify f).
Proof. intros Hf s s' r Hs Hx. injection Hx as <- _. by apply Hf. Qed.

Lemma keeps_on_exception {A} (m : M S A) h : keeps I m → keeps I h → keeps I (on_exception m h).
Proof.
  intros Hm Hh s0 s' r Hs. unfold on_exception. destruct (m s0) as [s1 [a|e]] eqn:E.
  - intros Hx. injection Hx as <- _. by eapply Hm.
  - assert (I s1) as H1 by by eapply Hm. destruct (h s1) as [s2 [u|e']] eqn:Eh; intros Hx;
      injection Hx as <- _; by eapply Hh.
Qed.
End keeps.

(** Proves [keeps] of a sequence of statements, up to its elementary writes. *)
Ltac keeps :=
  repeat lazymatch goal with
  | |- keeps _ (mret _) => apply keeps_ret
  | |- keeps _ (lift _) => apply keeps_lift
  | |- keeps _ (raise_ifM _ _ _) => apply keeps_raise_if
  | |- keeps _ (raise _ _) => apply keeps_raise
  | |- keeps _ (gets _) => apply keeps_read
  | |- keeps _ (gets_res _) => apply keeps_gets_res
  | |- keeps _ get => apply keeps_get
  | |- keeps _ (_ ≫= _) => apply keeps_bind
  | |- keeps _ (on_exception _ _) => apply keeps_on_exception
  | |- keeps _ (catchM _ _ _) => apply keeps_catch
  | |- keeps _ (if ?b then _ else _) => destruct b
  | |- keeps _ (match ?x with _ => _ end) => destruct x
  | |- keeps _ _ => fail
  | |- ∀ _, _ => intros ?
  end.

#[export] Hint Resolve keeps_ret keeps_lift keeps_raise_if keeps_bind keeps_for_M : keeps.

(** A loop whose every round succeeds succeeds. *)
Lemma for_M_total {S A} (P : list A → S → Prop) (l : list A) (body : A → M S unit) s :
  P [] s →
  (∀ pre x post s1, l = pre ++ x :: post → P pre s1 →
     ∃ s2, body x s1 = (s2, Ok tt) ∧ P (pre ++ [x]) s2) →
  ∃ s', for_M l body s = (s', Ok tt) ∧ P l s'.
Proof.
  intros H0 Hs.
  assert (∀ l2 pre s1, l = pre ++ l2 → P pre s1 →
    ∃ s', for_M l2 body s1 = (s', Ok tt) ∧ P l s') as Hgen; [|by apply (Hgen l [])].
  induction l2 as [|x l2 IH]; intros pre s1 Hl HP.
  - exists s1. split; [done|]. rewrite app_nil_r in Hl. by subst.
  - destruct (Hs pre x l2 s1 Hl HP) as (s2 & Hb & HP2).
    destruct (IH (pre ++ [x]) s2) as (s' & Hf & HP'); [by rewrite Hl, <-app_assoc|done|].
    exists s'. split; [|done]. unfold for_M. simpl. by rewrite (bindM_run _ _ _ _ _ Hb).
Qed.

(** ** Lists *)

Lemma prefix_of_snoc {A} (q p : list A) x :
  q `prefix_of` p ++ [x] → q = p ++ [x] ∨ q `prefix_of` p.
Proof.
  intros [r Hr]. destruct r as [|y r _] using rev_ind.
  - left. by rewrite app_nil_r in Hr.
  - right. rewrite app_assoc in Hr. apply app_inj_tail in Hr as [-> _]. by exists r.
Qed.

Lemma Forall2_impl_in {A B} (P Q : A → B → Prop) l k :
  Forall2 P l k → (∀ x y, x ∈ l → P x y → Q x y) → Forall2 Q l k.
Proof.
  induction 1 as [|x y l k Hxy Hlk IH]; intros H; constructor; [by apply H; [left|]|].
  apply IH. intros x' y' Hx'. apply H. by right.
Qed.

(** [sum(f(x) for x in l)] *)
Definition sumZ {A} (f : A -> Z) (l : list A) : Z := foldr (fun x acc => f x + acc)%Z 0%Z l.

Lemma sumZ_app {A} (f : A -> Z) l1 l2 : sumZ f (l1 ++ l2) = (sumZ f l1 + sumZ f l2)%Z.
Proof. induction l1 as [|x l1 IH]; simpl; lia. Qed.

#[export] Instance sumZ_perm {A} (f : A -> Z) : Proper ((≡ₚ) ==> (=)) (sumZ f).
Proof. induction 1; simpl; lia. Qed.

Lemma sumZ_bind {A B} (f : B -> Z) (g : A -> list B) l :
  sumZ f (l ≫= g) = sumZ (fun x => sumZ f (g x)) l.
Proof. induction l as [|x l IH]; [done|]. rewrite bind_cons, sumZ_app, IH. done. Qed.

Lemma sumZ_fmap {A B} (f : B -> Z) (g : A -> B) l : sumZ f (g <$> l) = sumZ (fun x => f (g x)) l.
Proof. induction l as [|x l IH]; [done|]. by apply (f_equal (Z.add (f (g x)))). Qed.

Lemma sumZ_ext {A} (f g : A -> Z) l : (∀ x, x ∈ l → f x = g x) → sumZ f l = sumZ g l.
Proof.
  induction l as [|x l IH]; intros H; [done|]. simpl.
  f_equal; [apply H; left|]. apply IH. intros y Hy. apply H. by right.
Qed.

Lemma sumZ_const {A} (c : Z) (l : list A) : sumZ (fun _ => c) l = (Z.of_nat (length l) * c)%Z.
Proof. induction l as [|x l IH]; [done|].
  change (c + sumZ (fun _ => c) l = Z.of_nat (length (x :: l)) * c)%Z.
  rewrite IH, length_cons. lia.
Qed.

(** [sorted(set(l))] on integers *)
Definition sorted_set (l : list Z) : list Z := merge_sort Z.le (remove_dups l).

Lemma elem_of_sorted_set l x : x ∈ sorted_set l ↔ x ∈ l.
Proof. unfold sorted_set. by rewrite merge_sort_Permutation, elem_of_remove_dups. Qed.

Lemma NoDup_sorted_set l : NoDup (sorted_set l).
Proof. unfold sorted_set. rewrite merge_sort_Permutation. apply NoDup_remove_dups. Qed.

(** Lists without duplicates that hold the same elements are permutations. *)
Lemma NoDup_same_perm {A} (l1 l2 : list A) :
  NoDup l1 → NoDup l2 → (∀ x, x ∈ l1 ↔ x ∈ l2) → l1 ≡ₚ l2.
Proof. apply NoDup_Permutation. Qed.

Lemma list_to_set_snoc `{Countable A} (l : list A) x :
  ({[x]} ∪ list_to_set l : gset A) = list_to_set (l ++ [x]).
Proof. by rewrite list_to_set_app_L, (comm_L (∪)), list_to_set_cons, list_to_set_nil, union_empty_r_L. Qed.

Lemma NoDup_fst_functional {A B} (l : list (A * B)) x y y' :
  NoDup (fst <$> l) → (x, y) ∈ l → (x, y') ∈ l → y = y'.
Proof.
  induction l as [|[a b] l IH]; simpl; [by intros _ ?%elem_of_nil|].
  intros [Ha Hl]%NoDup_cons [[= -> ->]|Hy]%elem_of_cons [[= Ex]|Hy']%elem_of_cons;
    try congruence; [| |by apply IH].
  - destruct Ha. apply list_elem_of_fmap. by exists (a, y').
  - subst. destruct Ha. apply list_elem_of_fmap. by exists (a, y).
Qed.

(** [len(set(l)) == len(l)]: nothing occurs twice. *)
Lemma length_remove_dups_le `{EqDecision A} (l : list A) : length (remove_dups l) ≤ length l.
Proof. induction l as [|x l IH]; simpl; [done|]. case_decide; simpl; lia. Qed.

Lemma NoDup_remove_dups_length `{EqDecision A} (l : list A) :
  length (remove_dups l) = length l → NoDup l.
Proof.
  induction l as [|x l IH]; simpl; [constructor|].
  pose proof (length_remove_dups_le l). case_decide; simpl; [lia|].
  intros. apply NoDup_cons. split; [done|]. apply IH. lia.
Qed.
