(* ===== verification/PyStr.v ===== *)
(** * Python strings and path texts

    [str] values are [string]s: sequences of code points below 256.  The file
    holds the operations of [str], [int()], [os.path] and [pathlib] that the
    modelled sources use on texts, and their round-trip lemmas. *)
From S2P Require Import Prelude.
From stdpp Require Export pretty.
From Stdlib Require Import Ascii.

Local Open Scope string_scope.
Local Open Scope Z_scope.

(** ** Decimal texts *)

Definition char_code (c : ascii) : Z := Z.of_N (N_of_ascii c).

Definition is_digit (c : ascii) : bool := (48 <=? char_code c) && (char_code c <=? 57).
Definition is_lower_hex (c : ascii) : bool :=
  is_digit c || ((97 <=? char_code c) && (char_code c <=? 102)).
Definition is_alnum (c : ascii) : bool :=
  is_digit c || ((65 <=? char_code c) && (char_code c <=? 90))
             || ((97 <=? char_code c) && (char_code c <=? 122)).

Fixpoint str_forall (f : ascii -> bool) (s : string) : bool :=
  match s with
  | EmptyString => true
  | String c s' => f c && str_forall f s'
  end.

(** [str(n)] *)
Definition str_of_Z (n : Z) : string := pretty n.

Fixpoint digits_val (acc : Z) (s : string) : option Z :=
  match s with
  | EmptyString => Some acc
  | String c s' =>
      if is_digit c then digits_val (10 * acc + (char_code c - 48)) s' else None
  end.

(** [int(s)] on a text that [\d+] matches. *)
Definition parse_digits (s : string) : option Z :=
  match s with EmptyString => None | _ => digits_val 0 s end.

(** The longest prefix of digits, and the rest. *)
Fixpoint span_digits (s : string) : string * string :=
  match s with
  | String c s' =>
      if is_digit c then let '(d, r) := span_digits s' in (String c d, r) else ("", s)
  | EmptyString => ("", "")
  end.

(** ** Substrings *)

Fixpoint strip_prefix (p s : string) : option string :=
  match p, s with
  | EmptyString, _ => Some s
  | String a p', String b s' => if Ascii.eqb a b then strip_prefix p' s' else None
  | String _ _, EmptyString => None
  end.

Definition starts_with (p s : string) : bool :=
  match strip_prefix p s with Some _ => true | None => false end.

(** [p in s] *)
Fixpoint contains (p s : string) : bool :=
  starts_with p s ||
  match s with EmptyString => false | String _ s' => contains p s' end.

Fixpoint str_rev (s acc : string) : string :=
  match s with EmptyString => acc | String c s' => str_rev s' (String c acc) end.

(** [s.endswith(p)] *)
Definition ends_with (p s : string) : bool := starts_with (str_rev p "") (str_rev s "").

Definition lower_char (c : ascii) : ascii :=
  if (65 <=? char_code c) && (char_code c <=? 90)
  then ascii_of_N (N_of_ascii c + 32) else c.

(** [s.lower()] on ASCII text *)
Fixpoint lower (s : string) : string :=
  match s with EmptyString => "" | String c s' => String (lower_char c) (lower s') end.

Definition is_space (c : ascii) : bool :=
  ((9 <=? char_code c) && (char_code c <=? 13)) ||
  ((28 <=? char_code c) && (char_code c <=? 32)).

Fixpoint lstrip (s : string) : string :=
  match s with
  | String c s' => if is_space c then lstrip s' else s
  | EmptyString => ""
  end.

(** [s.strip()] on ASCII text *)
Definition strip (s : string) : string := str_rev (lstrip (str_rev (lstrip s) "")) "".

(** [s.replace(a, b)] for one-character texts *)
Fixpoint replace_char (a b : ascii) (s : string) : string :=
  match s with
  | EmptyString => ""
  | String c s' => String (if Ascii.eqb c a then b else c) (replace_char a b s')
  end.

(** ** Path texts *)

Definition slash : ascii := "/"%char.

Fixpoint split_on (c : ascii) (s : string) : list string :=
  match s with
  | EmptyString => [""]
  | String a s' =>
      if Ascii.eqb a c then "" :: split_on c s'
      else match split_on c s' with
           | w :: ws => String a w :: ws
           | [] => [String a ""]
           end
  end.

(** [Path(s).is_absolute()] *)
Definition is_absolute (s : string) : bool := starts_with "/" s.

(** [Path(s).parts] of a relative path: empty and [.] components are dropped. *)
Definition path_parts (s : string) : list string :=
  List.filter (fun w => negb (String.eqb w "") && negb (String.eqb w ".")) (split_on slash s).

(** [Path.as_posix()] of the relative path with the given components. *)
Fixpoint posix_join (ps : list string) : string :=
  match ps with
  | [] => "."
  | [p] => p
  | p :: ps' => p ++ "/" ++ posix_join ps'
  end.

(** [os.path.basename(s)]: the text after the last slash. *)
Definition basename (s : string) : string := List.last (split_on slash s) "".

Definition no_slash (s : string) : bool := str_forall (fun c => negb (Ascii.eqb c slash)) s.

(** What a directory entry's name can be. *)
Definition name_ok (s : string) : bool :=
  no_slash s && negb (String.eqb s "") && negb (String.eqb s ".") && negb (String.eqb s "..").

(** ** Facts about decimal texts *)

Lemma pretty_N_char_digit n : (n < 10)%N →
  is_digit (pretty_N_char n) = true ∧ char_code (pretty_N_char n) - 48 = Z.of_N n.
Proof.
  intros Hn.
  assert (n = 0 ∨ n = 1 ∨ n = 2 ∨ n = 3 ∨ n = 4 ∨ n = 5 ∨ n = 6 ∨ n = 7 ∨ n = 8 ∨ n = 9)%N
    as Hc by lia.
  by repeat destruct Hc as [->|Hc]; subst.
Qed.

Lemma digits_val_pretty_go (n : N) s :
  digits_val 0 (pretty_N_go n s) = digits_val (Z.of_N n) s.
Proof.
  revert s. induction (N.lt_wf_0 n) as [n _ IH]; intros s.
  destruct (decide (n = 0)%N) as [->|Hn]; [by rewrite pretty_N_go_0|].
  rewrite pretty_N_go_step, IH by (try apply N.div_lt; lia). simpl.
  destruct (pretty_N_char_digit (n mod 10)%N) as [-> ->]; [by apply N.mod_lt|].
  f_equal. rewrite (N.div_mod n 10) at 3 by done. rewrite N2Z.inj_add, N2Z.inj_mul. lia.
Qed.

Lemma pretty_N_go_nonempty (n : N) s : (0 < n)%N ∨ s ≠ "" → pretty_N_go n s ≠ "".
Proof.
  revert s. induction (N.lt_wf_0 n) as [n _ IH]; intros s H.
  destruct (decide (n = 0)%N) as [->|Hn]; [rewrite pretty_N_go_0; intuition lia|].
  rewrite pretty_N_go_step by lia. apply IH; [apply N.div_lt; lia|by right].
Qed.

Lemma parse_digits_eq s : s ≠ "" → parse_digits s = digits_val 0 s.
Proof. by destruct s. Qed.

(** [int(str(n)) == n] for a natural number. *)
Lemma parse_str_of_Z n : 0 <= n → parse_digits (str_of_Z n) = Some n.
Proof.
  intros Hn. destruct n as [|p|p]; [done| |lia].
  unfold str_of_Z, pretty, pretty_Z, pretty, pretty_positive, pretty, pretty_N. simpl.
  rewrite parse_digits_eq by (apply pretty_N_go_nonempty; lia).
  by rewrite digits_val_pretty_go.
Qed.

Lemma str_of_Z_inj n m : str_of_Z n = str_of_Z m → n = m.
Proof. apply (inj pretty). Qed.

Lemma digits_val_all acc s v : digits_val acc s = Some v → str_forall is_digit s = true.
Proof.
  revert acc; induction s as [|c s IH]; intros acc; simpl; [done|].
  destruct (is_digit c); [|done]. apply IH.
Qed.

Lemma digits_val_is_some acc s : str_forall is_digit s = true → is_Some (digits_val acc s).
Proof.
  revert acc; induction s as [|c s IH]; intros acc; simpl; [by eexists|].
  destruct (is_digit c); [|done]. apply IH.
Qed.

Lemma digits_val_ge acc s v : 0 <= acc → digits_val acc s = Some v → 0 <= v.
Proof.
  revert acc; induction s as [|c s IH]; intros acc Ha; simpl; [naive_solver|].
  destruct (is_digit c) eqn:E; [|done]. apply IH.
  unfold is_digit in E. bools. lia.
Qed.

Lemma parse_digits_ge s v : parse_digits s = Some v → 0 <= v.
Proof. destruct s; [done|]. by apply digits_val_ge. Qed.

Lemma str_forall_app f s t : str_forall f (s ++ t) = str_forall f s && str_forall f t.
Proof. induction s as [|c s IH]; simpl; [done|]. by rewrite IH, andb_assoc. Qed.

Lemma str_forall_impl f g s :
  (∀ c, f c = true → g c = true) → str_forall f s = true → str_forall g s = true.
Proof.
  intros Hfg. induction s as [|c s IH]; simpl; [done|]. intros; bools.
  rewrite Hfg, IH by done. done.
Qed.

Lemma digit_not_slash c : is_digit c = true → negb (Ascii.eqb c slash) = true.
Proof.
  intros H. destruct (Ascii.eqb_spec c slash) as [->|]; [|done].
  vm_compute in H. done.
Qed.

Lemma str_of_Z_digits n : 0 <= n → str_forall is_digit (str_of_Z n) = true.
Proof.
  intros H. pose proof (parse_str_of_Z n H) as Hp.
  destruct (str_of_Z n) eqn:E; [done|]. by apply digits_val_all in Hp.
Qed.

Lemma str_of_Z_no_slash n : 0 <= n → no_slash (str_of_Z n) = true.
Proof.
  intros H. eapply str_forall_impl, str_of_Z_digits; [|done]. apply digit_not_slash.
Qed.

Lemma str_of_Z_no_slash' n : no_slash (str_of_Z n) = true.
Proof.
  destruct n as [|q|q]; [done|by apply str_of_Z_no_slash|].
  change (str_of_Z (Z.neg q)) with ("-" ++ str_of_Z (Z.pos q))%string.
  pose proof (str_of_Z_no_slash (Z.pos q) ltac:(done)) as H. revert H.
  unfold no_slash. by simpl.
Qed.

Lemma no_slash_app s t : no_slash (s ++ t) = no_slash s && no_slash t.
Proof. apply str_forall_app. Qed.

(** ** Facts about substrings *)

Lemma strip_prefix_app p s : strip_prefix p (p ++ s) = Some s.
Proof. induction p as [|a p IH]; simpl; [done|]. by rewrite Ascii.eqb_refl. Qed.

Lemma strip_prefix_Some p s r : strip_prefix p s = Some r ↔ s = p ++ r.
Proof.
  split; [|intros ->; apply strip_prefix_app].
  revert s; induction p as [|a p IH]; intros [|b s]; simpl; try naive_solver.
  destruct (Ascii.eqb_spec a b); [|done]. intros ?%IH. by subst.
Qed.

Lemma starts_with_app p s : starts_with p (p ++ s) = true.
Proof. unfold starts_with. by rewrite strip_prefix_app. Qed.

Lemma starts_with_true p s : starts_with p s = true ↔ ∃ r, s = p ++ r.
Proof.
  unfold starts_with. split.
  - destruct (strip_prefix p s) as [r|] eqn:E; [|done]. apply strip_prefix_Some in E. eauto.
  - intros [r ->]. by rewrite strip_prefix_app.
Qed.

Lemma span_digits_spec s d r : span_digits s = (d, r) → s = d ++ r ∧ str_forall is_digit d = true.
Proof.
  revert d r; induction s as [|c s IH]; simpl; intros d r; [naive_solver|].
  destruct (is_digit c) eqn:E; [|naive_solver].
  destruct (span_digits s) as [d' r'] eqn:E'. intros [= <- <-].
  destruct (IH d' r') as [-> ?]; [done|]. simpl. by rewrite E.
Qed.

Lemma span_digits_app d r :
  str_forall is_digit d = true →
  match r with String c _ => is_digit c = false | EmptyString => True end →
  span_digits (d ++ r) = (d, r).
Proof.
  intros Hd Hr. induction d as [|c d IH]; simpl in *.
  - destruct r as [|c r]; simpl; [done|]. by rewrite Hr.
  - bools. rewrite H, IH by done. done.
Qed.

Lemma str_app_inj_l p s t : (p ++ s = p ++ t)%string → s = t.
Proof. induction p as [|a p IH]; simpl; [done|]. intros [= ?]. auto. Qed.

Lemma str_app_assoc a b c : ((a ++ b) ++ c = a ++ (b ++ c))%string.
Proof. induction a as [|x a IH]; [done|]. by apply (f_equal (String x)). Qed.

Lemma str_app_nil_r a : (a ++ "" = a)%string.
Proof. induction a as [|x a IH]; [done|]. by apply (f_equal (String x)). Qed.

(** ** Splitting and joining *)

Lemma split_on_no c s : str_forall (fun a => negb (Ascii.eqb a c)) s = true →
  split_on c s = [s].
Proof.
  induction s as [|a s IH]; simpl; [done|]. intros. bools.
  rewrite H, IH by done. done.
Qed.

Lemma split_on_app c s t : str_forall (fun a => negb (Ascii.eqb a c)) s = true →
  split_on c (s ++ String c t) = s :: split_on c t.
Proof.
  induction s as [|a s IH]; simpl; intros; bools.
  - by rewrite Ascii.eqb_refl.
  - rewrite H, IH by done. done.
Qed.

(** [Path("/".join(ps)).parts == ps] when every part is a file name. *)
Lemma path_parts_posix_join ps :
  ps ≠ [] → Forall (fun p => name_ok p = true) ps → path_parts (posix_join ps) = ps.
Proof.
  intros Hne Hps. unfold path_parts.
  assert (split_on slash (posix_join ps) = ps) as ->.
  { induction Hps as [|p ps Hp Hps IH]; [done|].
    unfold name_ok in Hp. bools.
    destruct ps as [|q ps]; [by apply split_on_no|].
    change (posix_join (p :: q :: ps)) with (p ++ String slash (posix_join (q :: ps)))%string.
    rewrite split_on_app by done. by rewrite IH. }
  clear Hne. induction Hps as [|p ps Hp Hps IH]; simpl; [done|].
  unfold name_ok in Hp. bools.
  destruct (String.eqb_spec p ""), (String.eqb_spec p "."); simpl; congruence.
Qed.

Lemma posix_join_inj ps qs :
  ps ≠ [] → qs ≠ [] → Forall (fun p => name_ok p = true) ps →
  Forall (fun p => name_ok p = true) qs → posix_join ps = posix_join qs → ps = qs.
Proof.
  intros ?? Hp Hq H. by rewrite <-(path_parts_posix_join ps), H, path_parts_posix_join.
Qed.

Lemma posix_join_relative ps : ps ≠ [] → Forall (fun p => name_ok p = true) ps →
  is_absolute (posix_join ps) = false.
Proof.
  intros Hne Hp. destruct Hp as [|p ps Hp Hps]; [done|].
  unfold name_ok in Hp. bools.
  assert (∃ r, posix_join (p :: ps) = p ++ r)%string as [r ->].
  { destruct ps; [exists ""; by rewrite str_app_nil_r|by eexists]. }
  destruct p as [|c p]; [done|]. unfold no_slash in *. simpl in *. bools.
  unfold is_absolute. destruct (starts_with "/" _) eqn:E; [|done].
  apply starts_with_true in E as [r' [= -> _]]. done.
Qed.

(** The parts of an absolute path's text. *)
Lemma path_parts_absolute ps : Forall (fun p => name_ok p = true) ps →
  path_parts ("/" ++ match ps with [] => "" | _ => posix_join ps end) = ps.
Proof.
  intros Hps. destruct ps as [|p ps]; [done|].
  rewrite <-(path_parts_posix_join (p :: ps)) at 2 by done. done.
Qed.

Lemma split_on_no_sep c s : Forall (fun w => str_forall (fun a => negb (Ascii.eqb a c)) w = true)
                                   (split_on c s).
Proof.
  induction s as [|a s IH]; simpl; [by constructor|].
  destruct (Ascii.eqb a c) eqn:E; [by constructor|].
  destruct (split_on c s) as [|w ws]; [by repeat constructor; simpl; rewrite E|].
  apply Forall_cons in IH as [Hw Hws]. constructor; [|done]. simpl. by rewrite E.
Qed.

(** Without [..], the components of a path are file names. *)
Lemma path_parts_names s : ".." ∉ path_parts s → Forall (fun c => name_ok c = true) (path_parts s).
Proof.
  intros Hdd. apply Forall_forall. intros c Hc.
  assert (c ≠ "..") as Hne by (by intros ->).
  unfold path_parts in Hc. apply list_elem_of_In, filter_In in Hc as [Hin Hc]. bools.
  pose proof (split_on_no_sep slash s) as Hs. rewrite Forall_forall in Hs.
  apply list_elem_of_In, Hs in Hin. unfold name_ok, no_slash. rewrite Hin. simpl.
  apply String.eqb_neq in Hne. rewrite Hne.
  destruct (String.eqb_spec c ""), (String.eqb_spec c "."); done.
Qed.

(** ** Reversal *)

Lemma str_rev_app s acc : str_rev s acc = (str_rev s "" ++ acc)%string.
Proof.
  revert acc. induction s as [|c s IH]; intros acc; [done|]. simpl.
  rewrite (IH (String c acc)), (IH (String c "")). by rewrite str_app_assoc.
Qed.

Lemma str_rev_snoc s c : str_rev (s ++ String c "") "" = String c (str_rev s "").
Proof.
  induction s as [|d s IH]; [done|]. simpl. rewrite str_rev_app, IH, (str_rev_app s (String d "")). done.
Qed.

Lemma str_rev_rev s : str_rev (str_rev s "") "" = s.
Proof.
  induction s as [|c s IH]; [done|]. simpl. by rewrite (str_rev_app s (String c "")), str_rev_snoc, IH.
Qed.

Lemma str_forall_rev f s : str_forall f (str_rev s "") = str_forall f s.
Proof.
  induction s as [|c s IH]; [done|]. simpl. rewrite (str_rev_app s (String c "")), str_forall_app, IH. simpl.
  by rewrite andb_true_r, andb_comm.
Qed.
