(* ===== verification/PyVal.v ===== *)
(** * Python values as [json.load] returns them

    The data type, Python's [==], [isinstance] tests, [dict.get], [int()] and
    [str()], and the class of the standard-library functions the sources call
    on such values. *)
From S2P Require Import Prelude PyStr.
From Stdlib Require Export SpecFloat.
From Stdlib Require Import Ascii.

Local Open Scope string_scope.
Local Open Scope Z_scope.

(** A [dict] keeps its insertion order; its keys are distinct texts. *)
Inductive pyval :=
  | PNone
  | PBool (b : bool)
  | PInt (n : Z)
  | PFloat (f : spec_float)
  | PStr (s : string)
  | PList (l : list pyval)
  | PDict (d : list (string * pyval)).

(** Induction that reaches the elements of lists and dicts. *)
Section pyval_ind_strong.
Context (P : pyval -> Prop).
Context (HNone : P PNone) (HBool : forall b, P (PBool b)) (HInt : forall n, P (PInt n)).
Context (HFloat : forall f, P (PFloat f)) (HStr : forall s, P (PStr s)).
Context (HList : forall l, Forall P l -> P (PList l)).
Context (HDict : forall d, Forall (fun kv => P kv.2) d -> P (PDict d)).

Fixpoint pyval_ind_strong (v : pyval) : P v :=
  match v with
  | PNone => HNone
  | PBool b => HBool b
  | PInt n => HInt n
  | PFloat f => HFloat f
  | PStr s => HStr s
  | PList l =>
      HList l ((fix go l := match l return Forall P l with
                            | [] => Forall_nil_2 _
                            | x :: l' => Forall_cons_2 _ _ _ (pyval_ind_strong x) (go l')
                            end) l)
  | PDict d =>
      HDict d ((fix go d := match d return Forall (fun kv => P kv.2) d with
                            | [] => Forall_nil_2 _
                            | (k, x) :: d' =>
                                Forall_cons_2 (fun kv => P kv.2) (k, x) d'
                                  (pyval_ind_strong x) (go d')
                            end) d)
  end.
End pyval_ind_strong.

(** ** Dictionaries *)

Fixpoint dict_get {A} (k : string) (d : list (string * A)) : option A :=
  match d with
  | [] => None
  | (k', v) :: d' => if String.eqb k k' then Some v else dict_get k d'
  end.

(** [d[k] = v]: the key keeps its place, a new key comes last. *)
Fixpoint dict_set {A} (k : string) (v : A) (d : list (string * A)) : list (string * A) :=
  match d with
  | [] => [(k, v)]
  | (k', v') :: d' => if String.eqb k k' then (k, v) :: d' else (k', v') :: dict_set k v d'
  end.

(** [v.get(k)]: [None] when the key is absent. *)
Definition pget (k : string) (d : list (string * pyval)) : pyval :=
  default PNone (dict_get k d).

(** ** Equality *)

(** The exact integer that a finite binary float stands for, when there is one. *)
Definition float_as_Z (f : spec_float) : option Z :=
  match f with
  | S754_zero _ => Some 0
  | S754_finite s m e =>
      let sgn := if s then -1 else 1 in
      if 0 <=? e then Some (sgn * Zpos m * 2 ^ e)
      else if Zpos m mod 2 ^ (- e) =? 0 then Some (sgn * (Zpos m / 2 ^ (- e))) else None
  | S754_infinity _ | S754_nan => None
  end.

(** Python compares booleans, integers and floats by their exact values. *)
Inductive pynum := NInt (n : Z) | NFloat (f : spec_float).

Definition as_num (v : pyval) : option pynum :=
  match v with
  | PBool b => Some (NInt (Z.b2z b))
  | PInt n => Some (NInt n)
  | PFloat f => Some (NFloat f)
  | _ => None
  end.

Definition num_eq (a b : pynum) : bool :=
  match a, b with
  | NInt n, NInt m => n =? m
  | NInt n, NFloat f | NFloat f, NInt n => bool_decide (float_as_Z f = Some n)
  | NFloat f, NFloat g => SFeqb f g
  end.

Section list_eqb.
Context {A : Type} (eqb : A -> A -> bool).
Fixpoint list_eqb (l1 l2 : list A) : bool :=
  match l1, l2 with
  | [], [] => true
  | x :: l1', y :: l2' => eqb x y && list_eqb l1' l2'
  | _, _ => false
  end.
End list_eqb.

(** [a == b] *)
Fixpoint py_eq (a b : pyval) : bool :=
  match a, b with
  | PNone, PNone => true
  | PStr s, PStr t => String.eqb s t
  | PList l, PList m =>
      (fix go l m := match l, m with
                     | [], [] => true
                     | x :: l', y :: m' => py_eq x y && go l' m'
                     | _, _ => false
                     end) l m
  | PDict d, PDict e =>
      (length d =? length e)%nat &&
      (fix go d := match d with
                   | [] => true
                   | (k, x) :: d' =>
                       match dict_get k e with Some y => py_eq x y | None => false end && go d'
                   end) d
  | _, _ => match as_num a, as_num b with
            | Some n, Some m => num_eq n m
            | _, _ => false
            end
  end.

(** ** [isinstance] *)

Definition is_str (v : pyval) : bool := match v with PStr _ => true | _ => false end.
Definition is_dict (v : pyval) : bool := match v with PDict _ => true | _ => false end.
Definition is_list (v : pyval) : bool := match v with PList _ => true | _ => false end.
Definition is_bool (v : pyval) : bool := match v with PBool _ => true | _ => false end.
(** [bool] is a subclass of [int]. *)
Definition is_int (v : pyval) : bool :=
  match v with PInt _ | PBool _ => true | _ => false end.
Definition is_none (v : pyval) : bool := match v with PNone => true | _ => false end.

(** [v] as an integer that is no boolean. *)
Definition as_int (v : pyval) : option Z := match v with PInt n => Some n | _ => None end.
Definition as_str (v : pyval) : option string := match v with PStr s => Some s | _ => None end.
Definition as_list (v : pyval) : option (list pyval) :=
  match v with PList l => Some l | _ => None end.
Definition as_dict (v : pyval) : option (list (string * pyval)) :=
  match v with PDict d => Some d | _ => None end.

(** [bool(v)] *)
Definition truthy (v : pyval) : bool :=
  match v with
  | PNone => false
  | PBool b => b
  | PInt n => negb (n =? 0)
  | PFloat (S754_zero _) => false
  | PFloat _ => true
  | PStr s => negb (String.eqb s "")
  | PList l => match l with [] => false | _ => true end
  | PDict d => match d with [] => false | _ => true end
  end.

(** ** [int(v)] *)

Definition float_trunc (f : spec_float) : res Z :=
  match f with
  | S754_zero _ => Ok 0
  | S754_finite s m e =>
      let n := if 0 <=? e then Zpos m * 2 ^ e else Zpos m / 2 ^ (- e) in
      Ok (if s then - n else n)
  | S754_infinity _ => Err (Raise OverflowError "cannot convert float infinity to integer")
  | S754_nan => Err (Raise ValueError "cannot convert float NaN to integer")
  end.

(** Digits with single underscores between them. *)
Fixpoint underscored_digits (prev : bool) (acc : Z) (s : string) : option Z :=
  match s with
  | EmptyString => if prev then Some acc else None
  | String c s' =>
      if is_digit c then underscored_digits true (10 * acc + (char_code c - 48)) s'
      else if Ascii.eqb c "_"%char then (if prev then underscored_digits false acc s' else None)
      else None
  end.

Definition int_of_text (s : string) : res Z :=
  let bad := Err (Raise ValueError "invalid literal for int()") in
  match strip s with
  | String c s' =>
      let body := if Ascii.eqb c "-"%char || Ascii.eqb c "+"%char then s' else String c s' in
      match underscored_digits false 0 body with
      | Some n => Ok (if Ascii.eqb c "-"%char then - n else n)
      | None => bad
      end
  | EmptyString => bad
  end.

Definition py_int (v : pyval) : res Z :=
  match v with
  | PInt n => Ok n
  | PBool b => Ok (Z.b2z b)
  | PFloat f => float_trunc f
  | PStr s => int_of_text s
  | PNone | PList _ | PDict _ => Err (Raise TypeError "int() argument")
  end.

(** ** The standard library functions outside the model

    [hashlib.sha256(.).hexdigest()], [json.loads], [json.dumps] and the text
    [str()] gives a float or a container.  Definitions take them as arguments,
    so a theorem that names no law of theirs holds whatever they compute. *)
Class Platform := {
  sha256 : string -> string;
  json_loads : string -> option pyval;
  json_dumps : pyval -> string;
  py_repr : pyval -> string;
}.

Definition py_str `{Platform} (v : pyval) : string :=
  match v with
  | PNone => "None"
  | PBool true => "True"
  | PBool false => "False"
  | PInt n => str_of_Z n
  | PStr s => s
  | _ => py_repr v
  end.

(** [0.0] and [1.0] in binary64 *)
Definition float_zero : spec_float := S754_zero false.
Definition float_one : spec_float := S754_finite false 4503599627370496 (-52).

(** ** Sorted keys *)

(** What [json.dumps(v, sort_keys=True)] serialises. *)
Fixpoint insert_key (kv : string * pyval) (d : list (string * pyval)) : list (string * pyval) :=
  match d with
  | [] => [kv]
  | kv' :: d' => if String.leb kv.1 kv'.1 then kv :: d else kv' :: insert_key kv d'
  end.
Fixpoint sort_keys (v : pyval) : pyval :=
  match v with
  | PList l => PList (List.map sort_keys l)
  | PDict d => PDict ((fix go d := match d with
                                   | [] => []
                                   | (k, x) :: d' => insert_key (k, sort_keys x) (go d')
                                   end) d)
  | _ => v
  end.

(** What a reader of [json.dumps(v) + "\n"] gets back. *)
Definition json_round_trip `{Platform} : Prop :=
  ∀ v, json_loads (json_dumps v ++ String "010" "") = Some v.

(** ** Facts *)

Lemma dict_get_In {A} k (d : list (string * A)) v : dict_get k d = Some v → (k, v) ∈ d.
Proof.
  induction d as [|[k' v'] d IH]; simpl; [done|].
  destruct (String.eqb_spec k k') as [->|]; [intros [= ->]; left|]. right. auto.
Qed.

Lemma dict_get_set_eq {A} k (v : A) d : dict_get k (dict_set k v d) = Some v.
Proof.
  induction d as [|[k' v'] d IH]; simpl; [by rewrite String.eqb_refl|].
  destruct (String.eqb k k') eqn:E; simpl; [by rewrite String.eqb_refl|]. by rewrite E.
Qed.

Lemma dict_get_set_ne {A} k k' (v : A) d : k ≠ k' → dict_get k' (dict_set k v d) = dict_get k' d.
Proof.
  intros Hne. induction d as [|[k2 v2] d IH]; simpl.
  - destruct (String.eqb_spec k' k); [congruence|done].
  - destruct (String.eqb_spec k k2) as [->|]; simpl.
    + destruct (String.eqb_spec k' k2); [congruence|done].
    + by rewrite IH.
Qed.

Lemma as_int_Some v n : as_int v = Some n ↔ v = PInt n.
Proof. destruct v; naive_solver. Qed.
Lemma as_str_Some v s : as_str v = Some s ↔ v = PStr s.
Proof. destruct v; naive_solver. Qed.
Lemma as_list_Some v l : as_list v = Some l ↔ v = PList l.
Proof. destruct v; naive_solver. Qed.
Lemma as_dict_Some v d : as_dict v = Some d ↔ v = PDict d.
Proof. destruct v; naive_solver. Qed.

Lemma py_eq_str v s : py_eq v (PStr s) = true ↔ v = PStr s.
Proof.
  destruct v; simpl; try (split; [done|naive_solver]);
    try (destruct (as_num _); naive_solver).
  rewrite String.eqb_eq. naive_solver.
Qed.

Lemma py_eq_int v n : py_eq v (PInt n) = true ↔
  match as_num v with Some m => num_eq m (NInt n) = true | None => False end.
Proof. destruct v; simpl; naive_solver. Qed.

(** ** Sorted keys *)

Definition sort_dict (d : list (string * pyval)) : list (string * pyval) :=
  foldr (fun kv acc => insert_key (kv.1, sort_keys kv.2) acc) [] d.

Lemma sort_keys_dict d : sort_keys (PDict d) = PDict (sort_dict d).
Proof. simpl. f_equal. induction d as [|[k x] d IH]; [done|]. simpl. by rewrite IH. Qed.

Lemma string_leb_refl s : String.leb s s = true.
Proof. by destruct (String.leb_total s s). Qed.

Lemma dict_get_insert_key k kv d :
  dict_get k (insert_key kv d) = if String.eqb k kv.1 then Some kv.2 else dict_get k d.
Proof.
  destruct kv as [k0 x0]. induction d as [|[k1 x1] d IH]; [done|]. simpl in *.
  destruct (String.leb k0 k1) eqn:E; [done|]. simpl. rewrite IH.
  destruct (String.eqb_spec k k1) as [->|]; [|done].
  destruct (String.eqb_spec k1 k0) as [->|]; [|done]. by rewrite string_leb_refl in E.
Qed.

Lemma dict_get_sort_dict k d : dict_get k (sort_dict d) = sort_keys <$> dict_get k d.
Proof.
  induction d as [|[k1 x1] d IH]; [done|]. simpl. rewrite dict_get_insert_key. simpl.
  by destruct (String.eqb k k1).
Qed.

Lemma pget_sort_dict k d : pget k (sort_dict d) = sort_keys (pget k d).
Proof. unfold pget. rewrite dict_get_sort_dict. by destruct (dict_get k d). Qed.

(** A value without floats whose dictionaries have distinct keys. *)
Fixpoint plain (v : pyval) : bool :=
  match v with
  | PFloat _ => false
  | PList l => forallb plain l
  | PDict d => bool_decide (NoDup (fst <$> d)) && forallb (fun kv => plain kv.2) d
  | _ => true
  end.

Lemma insert_key_perm kv d : insert_key kv d ≡ₚ kv :: d.
Proof.
  induction d as [|kv' d IH]; [done|]. simpl. destruct (String.leb kv.1 kv'.1); [done|].
  rewrite IH. constructor.
Qed.

Lemma sort_dict_perm d : sort_dict d ≡ₚ (fun kv => (kv.1, sort_keys kv.2)) <$> d.
Proof. induction d as [|kv d IH]; [done|]. simpl. by rewrite insert_key_perm, IH. Qed.

Lemma length_sort_dict d : length (sort_dict d) = length d.
Proof. by rewrite sort_dict_perm, length_fmap. Qed.

Lemma dict_get_NoDup {A} k (v : A) d : NoDup (fst <$> d) → (k, v) ∈ d → dict_get k d = Some v.
Proof.
  induction d as [|[k' v'] d IH]; [by intros _ ?%elem_of_nil|]. simpl.
  intros [Hn Hd]%NoDup_cons [[= -> ->]|Hin]%elem_of_cons; [by rewrite String.eqb_refl|].
  destruct (String.eqb_spec k k') as [->|]; [|by apply IH].
  destruct Hn. apply list_elem_of_fmap. by exists (k', v).
Qed.

Lemma py_eq_list l m : py_eq (PList l) (PList m) = list_eqb py_eq l m.
Proof. revert m. by induction l as [|x l IH]; intros [|y m]. Qed.

Lemma py_eq_dict d e : py_eq (PDict d) (PDict e) =
  (length d =? length e)%nat &&
  forallb (fun kv => match dict_get kv.1 e with Some y => py_eq kv.2 y | None => false end) d.
Proof. simpl. f_equal. induction d as [|[k x] d IH]; [done|]. simpl. by rewrite IH. Qed.

(** What is read back compares equal to what was written. *)
Lemma py_eq_sort_keys v : plain v = true → py_eq (sort_keys v) v = true.
Proof.
  induction v as [|b|n|f|s|l IH|d IH] using pyval_ind_strong; intros Hp.
  - done.
  - by destruct b.
  - simpl. apply Z.eqb_refl.
  - done.
  - simpl. apply String.eqb_refl.
  - simpl in Hp. change (sort_keys (PList l)) with (PList (List.map sort_keys l)). rewrite py_eq_list.
    induction IH as [|x l Hx _ IHl]; [done|]. simpl in *. apply andb_true_iff in Hp as [H1 H2].
    by rewrite Hx, IHl.
  - cbn [plain] in Hp. bools. rewrite sort_keys_dict, py_eq_dict, length_sort_dict, Nat.eqb_refl. simpl.
    apply forallb_forall. intros [k sx] Hin%list_elem_of_In. rewrite sort_dict_perm in Hin.
    apply list_elem_of_fmap in Hin as ([k0 x] & [= -> ->] & Hin). simpl.
    rewrite (dict_get_NoDup _ _ _ H Hin). rewrite Forall_forall in IH. apply (IH _ Hin).
    rewrite forallb_forall in H0. apply list_elem_of_In in Hin. by apply (H0 _ Hin).
Qed.

(** ** Assignment and lookup *)

Lemma elem_of_dict_set {A} k (v : A) d kv : kv ∈ dict_set k v d → kv = (k, v) ∨ kv ∈ d.
Proof.
  induction d as [|[k' v'] d IH]; simpl; [set_solver|]. destruct (String.eqb_spec k k') as [->|];
    intros [->|Hin]%elem_of_cons; [by left|right; by right|right; by left|].
  destruct (IH Hin) as [->|]; [by left|right; by right].
Qed.

Lemma dict_set_has {A} k (v : A) d : k ∈ fst <$> dict_set k v d ∧ ∀ k', k' ∈ fst <$> d → k' ∈ fst <$> dict_set k v d.
Proof.
  induction d as [|[k0 v0] d [IH1 IH2]]; simpl; [set_solver|].
  destruct (String.eqb_spec k k0) as [->|]; rewrite !fmap_cons; set_solver.
Qed.

Lemma dict_get_app {A} k (d e : list (string * A)) :
  dict_get k (d ++ e) = match dict_get k d with Some v => Some v | None => dict_get k e end.
Proof. induction d as [|[k' v] d IH]; [done|]. simpl. by destruct (String.eqb k k'). Qed.

Lemma dict_get_None {A} k (d : list (string * A)) : k ∉ fst <$> d → dict_get k d = None.
Proof.
  induction d as [|[k' v] d IH]; [done|]. rewrite fmap_cons. intros [Hk Hd]%not_elem_of_cons. simpl.
  destruct (String.eqb_spec k k'); [done|by apply IH].
Qed.

Lemma NoDup_dict_set {A} k (v : A) d : NoDup (fst <$> d) → NoDup (fst <$> dict_set k v d).
Proof.
  intros Hd. assert (∀ k', k' ∈ fst <$> dict_set k v d → k' = k ∨ k' ∈ fst <$> d) as Hin.
  { clear Hd. intros k'. induction d as [|[k1 v1] d IH]; simpl; [set_solver|].
    destruct (String.eqb_spec k k1) as [->|]; simpl; set_solver. }
  induction d as [|[k1 v1] d IH]; simpl in *; [apply NoDup_singleton|].
  apply NoDup_cons in Hd as [Hk Hd]. destruct (String.eqb_spec k k1) as [->|Hne]; simpl; [by apply NoDup_cons|].
  apply NoDup_cons. split.
  - clear IH Hin. induction d as [|[k2 v2] d IH]; simpl in *; [set_solver|].
    destruct (String.eqb_spec k k2) as [->|]; simpl in *; [set_solver|].
    apply NoDup_cons in Hd as [? Hd]. set_solver.
  - apply IH; [done|]. clear. intros k'. induction d as [|[k2 v2] d IH]; simpl; [set_solver|].
    destruct (String.eqb_spec k k2) as [->|]; simpl; set_solver.
Qed.

Lemma dict_set_fresh {A} k (v : A) d : k ∉ fst <$> d → dict_set k v d = (d ++ [(k, v)])%list.
Proof.
  induction d as [|[k' v'] d IH]; [done|]. rewrite fmap_cons. simpl. intros [Hk Hd]%not_elem_of_cons.
  destruct (String.eqb_spec k k'); [done|]. by rewrite IH.
Qed.
