(* ===== verification/JsonCodec.v ===== *)
(** * A concrete serialiser of Python values

    An instance of the serialisation functions of [Platform] that satisfies the
    round-trip law the checkpoint theorems assume of [json.dump] and [json.load]:
    values are countable, and the text is the binary numeral of a value's code. *)
From S2P Require Import Prelude PyStr PyVal.
From stdpp Require Import countable.
From Stdlib Require Import Ascii.

Local Open Scope string_scope.
Local Open Scope Z_scope.

(** ** Floats *)

#[export] Instance spec_float_eq_dec : EqDecision spec_float.
Proof. solve_decision. Defined.

#[export] Instance float_countable : Countable spec_float.
Proof.
  refine (inj_countable'
    (fun f => match f with
              | S754_zero s => inl (inl s)
              | S754_infinity s => inl (inr s)
              | S754_nan => inr (inl ())
              | S754_finite s m e => inr (inr (s, m, e))
              end)
    (fun x => match x with
              | inl (inl s) => S754_zero s
              | inl (inr s) => S754_infinity s
              | inr (inl ()) => S754_nan
              | inr (inr (s, m, e)) => S754_finite s m e
              end) _).
  by intros [].
Defined.

(** ** Values as trees *)

Definition leaf : Type := bool + (Z + (spec_float + string)).

Fixpoint to_tree (v : pyval) : gen_tree leaf :=
  match v with
  | PNone => GenNode 0 []
  | PBool b => GenLeaf (inl b)
  | PInt n => GenLeaf (inr (inl n))
  | PFloat f => GenLeaf (inr (inr (inl f)))
  | PStr s => GenLeaf (inr (inr (inr s)))
  | PList l => GenNode 1 (List.map to_tree l)
  | PDict d => GenNode 2 (List.map (fun kv => GenNode 3 [GenLeaf (inr (inr (inr kv.1))); to_tree kv.2]) d)
  end.

Fixpoint of_tree (t : gen_tree leaf) : pyval :=
  match t with
  | GenLeaf (inl b) => PBool b
  | GenLeaf (inr (inl n)) => PInt n
  | GenLeaf (inr (inr (inl f))) => PFloat f
  | GenLeaf (inr (inr (inr s))) => PStr s
  | GenNode 1 ts => PList (List.map of_tree ts)
  | GenNode 2 ts => PDict (List.map (fun t => match t with
                                              | GenNode 3 [GenLeaf (inr (inr (inr k))); x] => (k, of_tree x)
                                              | _ => ("", PNone)
                                              end) ts)
  | _ => PNone
  end.

Lemma of_to_tree v : of_tree (to_tree v) = v.
Proof.
  induction v as [|b|n|f|s|l IH|d IH] using pyval_ind_strong; try done; cbn [to_tree of_tree]; f_equal;
    rewrite List.map_map.
  - induction IH as [|x l Hx _ IHl]; [done|]. cbn [List.map]. by rewrite Hx, IHl.
  - induction IH as [|[k x] d Hx _ IHd]; [done|]. cbn [List.map fst snd] in *. by rewrite Hx, IHd.
Qed.

Definition code (v : pyval) : positive := encode (to_tree v).
Definition decode_value (p : positive) : option pyval := of_tree <$> decode p.

Lemma decode_code v : decode_value (code v) = Some v.
Proof. unfold decode_value, code. rewrite decode_encode. simpl. by rewrite of_to_tree. Qed.

(** ** Binary numerals *)

Fixpoint bits (p : positive) : string :=
  match p with xH => "" | xO p => String "0" (bits p) | xI p => String "1" (bits p) end.

(** A numeral that ends with a newline. *)
Fixpoint read_bits (s : string) : option positive :=
  match s with
  | String c s' =>
      if Ascii.eqb c "0" then xO <$> read_bits s'
      else if Ascii.eqb c "1" then xI <$> read_bits s'
      else if Ascii.eqb c "010" && String.eqb s' "" then Some xH else None
  | EmptyString => None
  end.

Lemma read_write_bits p : read_bits (bits p ++ String "010" "") = Some p.
Proof. induction p as [p IH|p IH|]; simpl; [by rewrite IH..|done]. Qed.

#[export] Instance codec : Platform := {|
  sha256 s := s;
  json_loads s := read_bits s ≫= decode_value;
  json_dumps v := bits (code v);
  py_repr _ := "...";
|}.

Lemma codec_round_trip : json_round_trip.
Proof. intros v. unfold json_loads, json_dumps, codec. rewrite read_write_bits. apply decode_code. Qed.
