(* ===== verification/FS.v ===== *)
(** * A POSIX file tree and the file operations of [os] and [pathlib]

    A tree maps absolute paths (their components from the root) to nodes.
    Path lookup follows symbolic links, at most forty of them, as the kernel
    does.  The second half holds the mutating calls, as computations over a
    [world] that records every tree the calls went through. *)
From S2P Require Import Prelude PyStr PyVal.

Local Open Scope string_scope.
Local Open Scope list_scope.

Abbreviation path := (list string).

(** [st_uid] and the permission bits of [st_mode]. *)
Record meta := Meta { m_uid : Z; m_mode : Z }.

Inductive node :=
  | NFile (m : meta) (data : string)
  | NDir (m : meta)
  | NLink (absolute : bool) (target : path)
  | NOther (m : meta).

#[export] Instance meta_eq_dec : EqDecision meta.
Proof. solve_decision. Defined.
#[export] Instance node_eq_dec : EqDecision node.
Proof. solve_decision. Defined.

Abbreviation fs := (gmap path node).

Definition is_NDir (n : node) : bool := match n with NDir _ => true | _ => false end.
Definition is_NFile (n : node) : bool := match n with NFile _ _ => true | _ => false end.
Definition is_NLink (n : node) : bool := match n with NLink _ _ => true | _ => false end.

Definition node_meta (n : node) : meta :=
  match n with NFile m _ | NDir m | NOther m => m | NLink _ _ => Meta 0 511 end.

(** [st_size] of a regular file *)
Definition file_size (data : string) : Z := Z.of_nat (String.length data).

(** ** Lookup *)

Section lookup.
Context (t : fs).

(** The canonical path of [cur/todo], links of the last component included. *)
Fixpoint walk (links : nat) : path -> path -> option path :=
  fix go (cur todo : path) {struct todo} : option path :=
    match todo with
    | [] => Some cur
    | c :: rest =>
        if String.eqb c "" || String.eqb c "." then go cur rest
        else if String.eqb c ".." then go (removelast cur) rest
        else match t !! (cur ++ [c]) with
             | Some (NDir _) => go (cur ++ [c]) rest
             | Some (NLink absolute target) =>
                 match links with
                 | O => None
                 | S k => walk k (if absolute then [] else cur) (target ++ rest)
                 end
             | Some _ => match rest with [] => Some (cur ++ [c]) | _ => None end
             | None => None
             end
    end.

Definition max_links : nat := 40.

(** [os.path.realpath(p, strict=True)] *)
Definition realpath (p : path) : option path := walk max_links [] p.

Definition stat (p : path) : option node := q ← realpath p; t !! q.

(** The canonical place of [p] itself: links are followed up to its parent. *)
Definition place (p : path) : option path :=
  match last p with
  | None => Some []
  | Some c =>
      if String.eqb c "" || String.eqb c "." || String.eqb c ".." then realpath p
      else q ← realpath (removelast p); Some (q ++ [c])
  end.

Definition lstat (p : path) : option node := q ← place p; t !! q.

Definition p_exists (p : path) : bool := match stat p with Some _ => true | None => false end.
Definition p_is_file (p : path) : bool :=
  match stat p with Some n => is_NFile n | None => false end.
Definition p_is_dir (p : path) : bool :=
  match stat p with Some n => is_NDir n | None => false end.
Definition p_is_symlink (p : path) : bool :=
  match lstat p with Some n => is_NLink n | None => false end.

(** The name [n] when [k] is the path [q/n]. *)
Fixpoint child_name (q k : path) : option string :=
  match q, k with
  | [], [n] => Some n
  | a :: q', b :: k' => if String.eqb a b then child_name q' k' else None
  | _, _ => None
  end.

Definition children (q : path) : list string :=
  omap (fun kn => child_name q kn.1) (map_to_list t).

(** [list(p.iterdir())], as the entries' names; the order is unspecified. *)
Definition iterdir (p : path) : res (list string) :=
  match realpath p with
  | Some q => match t !! q with
              | Some (NDir _) => Ok (children q)
              | _ => Err (Raise OSError "not a directory")
              end
  | None => Err (Raise FileNotFoundError "no such directory")
  end.

(** [open(p, "rb").read()] *)
Definition read_bytes (p : path) : res string :=
  match stat p with
  | Some (NFile _ data) => Ok data
  | Some _ => Err (Raise OSError "not a regular file")
  | None => Err (Raise FileNotFoundError "no such file")
  end.
End lookup.

(** What every tree satisfies: the root is a directory, every node's parent is
    one, and entries have proper names. *)
Record fs_wf (t : fs) : Prop := {
  wf_root : ∃ m, t !! [] = Some (NDir m);
  wf_parent : ∀ p n x, t !! (p ++ [n]) = Some x → ∃ m, t !! p = Some (NDir m);
  wf_name : ∀ p n x, t !! (p ++ [n]) = Some x → name_ok n = true;
}.

(** [p] is reached from the root through directories only. *)
Definition real_dir (t : fs) (p : path) : Prop :=
  Forall (fun c => name_ok c = true) p ∧
  ∀ q, q `prefix_of` p → q ≠ [] → ∃ m, t !! q = Some (NDir m).

(** ** Lemmas on lookup *)

Lemma child_name_Some q k n : child_name q k = Some n ↔ k = q ++ [n].
Proof.
  revert k; induction q as [|a q IH]; intros k; simpl.
  - destruct k as [|b [|c k]]; naive_solver.
  - destruct k as [|b k]; [naive_solver|].
    destruct (String.eqb_spec a b) as [->|]; [rewrite IH|]; naive_solver.
Qed.

Lemma elem_of_children t q n : n ∈ children t q ↔ is_Some (t !! (q ++ [n])).
Proof.
  unfold children. rewrite list_elem_of_omap. split.
  - intros ([k x] & Hk & Hn). apply child_name_Some in Hn. simpl in *; subst.
    apply elem_of_map_to_list in Hk. eauto.
  - intros [x Hx]. exists (q ++ [n], x). split; [by apply elem_of_map_to_list|].
    by apply child_name_Some.
Qed.

Lemma NoDup_children t q : NoDup (children t q).
Proof.
  unfold children.
  pose proof (NoDup_fst_map_to_list t) as Hnd.
  induction (map_to_list t) as [|[k x] l IH]; simpl; [constructor|].
  simpl in Hnd. apply NoDup_cons in Hnd as [Hk Hnd].
  destruct (child_name q k) as [n|] eqn:E; [|by apply IH].
  apply NoDup_cons; split; [|by apply IH].
  rewrite list_elem_of_omap. intros ([k' x'] & Hk' & Hn').
  apply child_name_Some in E, Hn'. simpl in Hn'. subst.
  apply Hk, list_elem_of_fmap. by exists (q ++ [n], x').
Qed.

Lemma name_ok_neq c : name_ok c = true →
  String.eqb c "" = false ∧ String.eqb c "." = false ∧ String.eqb c ".." = false.
Proof. unfold name_ok. intros. bools. by rewrite !String.eqb_neq. Qed.

Lemma walk_step t k cur c todo : name_ok c = true →
  walk t k cur (c :: todo) =
  match t !! (cur ++ [c]) with
  | Some (NDir _) => walk t k (cur ++ [c]) todo
  | Some (NLink absolute target) =>
      match k with
      | O => None
      | S k' => walk t k' (if absolute then [] else cur) (target ++ todo)
      end
  | Some _ => match todo with [] => Some (cur ++ [c]) | _ => None end
  | None => None
  end.
Proof.
  intros Hc. apply name_ok_neq in Hc as (H1 & H2 & H3).
  destruct k; simpl; rewrite H1, H2, H3; simpl; done.
Qed.

(** Directories on the way are walked through. *)
Lemma walk_dirs t k cur p rest :
  Forall (fun c => name_ok c = true) p →
  (∀ q, q `prefix_of` p → q ≠ [] → ∃ m, t !! (cur ++ q) = Some (NDir m)) →
  walk t k cur (p ++ rest) = walk t k (cur ++ p) rest.
Proof.
  revert cur; induction p as [|c p IH]; intros cur Hn Hd; simpl.
  - by rewrite app_nil_r.
  - apply Forall_cons in Hn as [Hc Hn].
    rewrite walk_step by done.
    destruct (Hd [c]) as [m ->]; [by apply prefix_cons, prefix_nil|done|].
    rewrite IH; [by rewrite <-app_assoc| done |].
    intros q Hq Hne. rewrite <-app_assoc. simpl. apply Hd; [by apply prefix_cons|done].
Qed.

Lemma realpath_real_dir t p : real_dir t p → realpath t p = Some p.
Proof.
  intros [Hn Hd]. unfold realpath. rewrite <-(app_nil_r p) at 1.
  by rewrite (walk_dirs t max_links [] p []) by done.
Qed.

Lemma removelast_snoc {A} (l : list A) x : removelast (l ++ [x]) = l.
Proof. apply removelast_last. Qed.

Lemma place_child t p n : real_dir t p → name_ok n = true → place t (p ++ [n]) = Some (p ++ [n]).
Proof.
  intros Hp Hn. unfold place. rewrite last_snoc.
  apply name_ok_neq in Hn as (-> & -> & ->). simpl.
  by rewrite removelast_snoc, realpath_real_dir.
Qed.

Lemma lstat_child t p n : real_dir t p → name_ok n = true → lstat t (p ++ [n]) = t !! (p ++ [n]).
Proof. intros. unfold lstat. by rewrite place_child. Qed.

Lemma stat_child t p n : real_dir t p → name_ok n = true →
  match t !! (p ++ [n]) with
  | Some (NLink _ _) => True
  | x => stat t (p ++ [n]) = x
  end.
Proof.
  intros [Hp Hd] Hn. unfold stat, realpath.
  rewrite (walk_dirs t max_links [] p [n]) by done. rewrite walk_step by done. simpl.
  destruct (t !! (p ++ [n])) as [[]|] eqn:E; simpl; done.
Qed.

Lemma real_dir_child t p n m :
  real_dir t p → name_ok n = true → t !! (p ++ [n]) = Some (NDir m) → real_dir t (p ++ [n]).
Proof.
  intros [Hp Hd] Hn Hx. split; [by apply Forall_app_2; [|constructor]|].
  intros q Hq Hne. apply prefix_of_snoc in Hq as [->|Hq]; [eauto|]. by apply Hd.
Qed.

Lemma child_is_dir t p n :
  real_dir t p → name_ok n = true →
  p_is_symlink t (p ++ [n]) = false → p_is_dir t (p ++ [n]) = true →
  ∃ m, t !! (p ++ [n]) = Some (NDir m).
Proof.
  intros Hp Hn. unfold p_is_symlink, p_is_dir. rewrite lstat_child by done.
  pose proof (stat_child t p n Hp Hn) as Hs.
  destruct (t !! (p ++ [n])) as [[]|]; simpl; try rewrite Hs; simpl; naive_solver.
Qed.

Lemma child_is_file t p n :
  real_dir t p → name_ok n = true →
  p_is_symlink t (p ++ [n]) = false → p_is_file t (p ++ [n]) = true →
  ∃ m data, t !! (p ++ [n]) = Some (NFile m data).
Proof.
  intros Hp Hn. unfold p_is_symlink, p_is_file. rewrite lstat_child by done.
  pose proof (stat_child t p n Hp Hn) as Hs.
  destruct (t !! (p ++ [n])) as [[]|]; simpl; try rewrite Hs; simpl; naive_solver.
Qed.

Lemma real_dir_lookup t p : fs_wf t → real_dir t p → ∃ m, t !! p = Some (NDir m).
Proof.
  intros Hwf [_ Hd]. destruct p as [|c p]; [apply Hwf|]. by apply Hd.
Qed.

Lemma iterdir_real t p : fs_wf t → real_dir t p → iterdir t p = Ok (children t p).
Proof.
  intros Hwf Hp. unfold iterdir. rewrite realpath_real_dir by done.
  by destruct (real_dir_lookup t p Hwf Hp) as [m ->].
Qed.

Lemma children_name_ok t p n : fs_wf t → n ∈ children t p → name_ok n = true.
Proof. intros Hwf [x Hx]%elem_of_children. by eapply (wf_name t). Qed.

Lemma real_dir_parent t p n : real_dir t (p ++ [n]) → real_dir t p ∧ name_ok n = true.
Proof.
  intros [Hn Hd]. apply Forall_app in Hn as [Hn Hc]. apply Forall_cons in Hc as [Hc _].
  split; [split; [done|]|done]. intros q Hq Hne. apply Hd; [by apply prefix_app_r|done].
Qed.

Lemma walk_cons t k cur c todo :
  walk t k cur (c :: todo) =
  if String.eqb c "" || String.eqb c "." then walk t k cur todo
  else if String.eqb c ".." then walk t k (removelast cur) todo
  else match t !! (cur ++ [c]) with
       | Some (NDir _) => walk t k (cur ++ [c]) todo
       | Some (NLink absolute target) =>
           match k with O => None
           | S k' => walk t k' (if absolute then [] else cur) (target ++ todo) end
       | Some _ => match todo with [] => Some (cur ++ [c]) | _ => None end
       | None => None
       end.
Proof. by destruct k. Qed.

(** A canonical path that is a directory is reached through directories. *)
Lemma walk_real_dir t k cur todo q :
  fs_wf t → real_dir t cur → walk t k cur todo = Some q →
  real_dir t q ∨
  ∃ p n x, q = p ++ [n] ∧ real_dir t p ∧ t !! q = Some x ∧ is_NDir x = false ∧ is_NLink x = false.
Proof.
  intros Hwf. revert cur todo. induction k as [k IHk] using lt_wf_ind.
  intros cur todo. revert cur. induction todo as [|c todo IH]; intros cur Hc.
  - destruct k; simpl; intros [= ->]; by left.
  - rewrite walk_cons.
    destruct (String.eqb c "" || String.eqb c "."); [by apply IH|].
    destruct (String.eqb c "..").
    { apply IH. destruct cur as [|x cur _] using rev_ind; [done|].
      rewrite removelast_snoc. by apply real_dir_parent in Hc as [? _]. }
    destruct (t !! (cur ++ [c])) as [[m data|m|absolute target|m]|] eqn:E; try done.
    + destruct todo; [intros [= <-]|done]. right. exists cur, c. eexists. by rewrite E.
    + apply IH. eapply real_dir_child; [done| |done]. by eapply (wf_name t).
    + destruct k as [|k']; [done|]. apply IHk; [lia|]. destruct absolute; [|done].
      split; [done|]. intros q' Hq' Hne. by apply prefix_nil_inv in Hq'.
    + destruct todo; [intros [= <-]|done]. right. exists cur, c. eexists. by rewrite E.
Qed.

(** A walk goes through the end of every first part of its path. *)
Lemma walk_app_inv t k cur p r q :
  walk t k cur (p ++ r) = Some q →
  ∃ q' k', walk t k cur p = Some q' ∧ walk t k' q' r = Some q.
Proof.
  revert cur p. induction k as [k IHk] using lt_wf_ind.
  intros cur p. revert cur. induction p as [|c p IH]; intros cur; simpl.
  { intros Hw. exists cur, k. by destruct k. }
  rewrite !walk_cons.
  destruct (String.eqb c "" || String.eqb c "."); [by apply IH|].
  destruct (String.eqb c ".."); [by apply IH|].
  destruct (t !! (cur ++ [c])) as [[m data|m|absolute target|m]|]; try done.
  - destruct p as [|? ?], r as [|? ?]; try done. simpl. intros [= <-].
    exists (cur ++ [c]), O. done.
  - by apply IH.
  - destruct k as [|k']; [done|]. rewrite app_assoc. apply IHk. lia.
  - destruct p as [|? ?], r as [|? ?]; try done. simpl. intros [= <-].
    exists (cur ++ [c]), O. done.
Qed.

(** Resolving a path whose last component is no link keeps that component. *)
Lemma realpath_keeps_name t p n q :
  name_ok n = true → p_is_symlink t (p ++ [n]) = false → realpath t (p ++ [n]) = Some q →
  ∃ q', q = q' ++ [n].
Proof.
  intros Hn Hs Hq. apply walk_app_inv in Hq as (q' & k & Hq' & Hw). exists q'.
  unfold p_is_symlink, lstat, place in Hs. rewrite last_snoc in Hs.
  pose proof (name_ok_neq n Hn) as (E1 & E2 & E3). rewrite E1, E2, E3 in Hs. simpl in Hs.
  rewrite removelast_snoc in Hs. unfold realpath in Hs. rewrite Hq' in Hs. simpl in Hs.
  rewrite walk_cons, E1, E2, E3 in Hw. simpl in Hw.
  destruct (t !! (q' ++ [n])) as [[]|]; try done; try congruence.
  destruct k; simpl in Hw; congruence.
Qed.

Lemma real_dir_nil t : real_dir t [].
Proof. split; [done|]. intros q Hq Hne. by apply prefix_nil_inv in Hq. Qed.

(** [p.resolve(strict=True)] of a directory. *)
Lemma realpath_dir t p q :
  fs_wf t → realpath t p = Some q → p_is_dir t q = true → real_dir t q.
Proof.
  intros Hwf Hq Hd.
  apply walk_real_dir in Hq as [?|(p' & n & x & -> & Hp' & Hx & Hnd & Hnl)];
    [done| |done|apply real_dir_nil].
  assert (name_ok n = true) as Hn by (by eapply (wf_name t)).
  unfold p_is_dir in Hd. pose proof (stat_child t p' n Hp' Hn) as Hs. rewrite Hx in Hs.
  destruct x; try done; rewrite Hs in Hd; done.
Qed.

(** [fs_wf] of a finite tree, decided. *)
Definition fs_wfb (t : fs) : bool :=
  match t !! [] with Some (NDir _) => true | _ => false end &&
  forallb (fun kn : path * node =>
             match last kn.1 with
             | None => true
             | Some n => name_ok n && match t !! removelast kn.1 with
                                      | Some (NDir _) => true | _ => false end
             end) (map_to_list t).

Lemma fs_wfb_sound t : fs_wfb t = true → fs_wf t.
Proof.
  unfold fs_wfb. intros [Hr Hall]%andb_true_iff. rewrite forallb_forall in Hall.
  assert (∀ p n x, t !! (p ++ [n]) = Some x →
            name_ok n && match t !! p with Some (NDir _) => true | _ => false end = true) as Hk.
  { intros p n x Hx. apply elem_of_map_to_list, list_elem_of_In, Hall in Hx.
    simpl in Hx. by rewrite last_snoc, removelast_snoc in Hx. }
  split.
  - destruct (t !! []) as [[]|]; naive_solver.
  - intros p n x Hx%Hk. bools. destruct (t !! p) as [[]|]; naive_solver.
  - intros p n x Hx%Hk. by bools.
Qed.

(** ** Mutating calls *)

(** The part [r] of [k = s/r] below [s]. *)
Fixpoint strip_path (s k : path) : option path :=
  match s, k with
  | [], _ => Some k
  | a :: s', b :: k' => if String.eqb a b then strip_path s' k' else None
  | _ :: _, [] => None
  end.

(** Exchanges the subtrees named [s] and [d]. *)
Definition swap_path (s d k : path) : path :=
  match strip_path s k with
  | Some r => d ++ r
  | None => match strip_path d k with Some r => s ++ r | None => k end
  end.

(** The tree after a directory [s] took the place of [d], which is empty. *)
Definition move_tree (t : fs) (s d : path) : fs := kmap (swap_path s d) (delete d t).

(** A process's view of the machine: the tree, the trees that earlier calls
    left behind (newest first), its user and process ids, the clock, and
    which nodes it may read. *)
Record world := World {
  w_fs : fs;
  w_hist : list fs;
  w_uid : Z;
  w_pid : Z;
  w_clock : Z;
  w_can_read : meta -> bool;
}.

Definition set_tree (t : fs) (w : world) : world :=
  World t (t :: w_hist w) (w_uid w) (w_pid w) (w_clock w) (w_can_read w).

Definition io_err (cls : exn_class) : world -> world * res unit := raise cls "os error".

(** The mode of a file that this process creates. *)
Definition new_meta (w : world) : meta := Meta (w_uid w) 420.

(** [os.unlink(p)] *)
Definition unlink (p : path) : M world unit := fun w =>
  match place (w_fs w) p with
  | None => io_err FileNotFoundError w
  | Some q =>
      match w_fs w !! q with
      | None => io_err FileNotFoundError w
      | Some (NDir _) => io_err OSError w
      | Some _ => (set_tree (delete q (w_fs w)) w, Ok tt)
      end
  end.

(** [os.rmdir(p)] *)
Definition rmdir (p : path) : M world unit := fun w =>
  match place (w_fs w) p with
  | None => io_err FileNotFoundError w
  | Some q =>
      match w_fs w !! q, q with
      | None, _ => io_err FileNotFoundError w
      | Some (NDir _), _ :: _ =>
          match children (w_fs w) q with
          | [] => (set_tree (delete q (w_fs w)) w, Ok tt)
          | _ => io_err OSError w
          end
      | Some _, _ => io_err OSError w
      end
  end.

Definition parent_is_dir (t : fs) (q : path) : bool :=
  match t !! removelast q with Some (NDir _) => true | _ => false end.

(** [with open(p, "x") as h: h.write(data)]: creation, then the write. *)
Definition write_new (p : path) (data : string) : M world unit := fun w =>
  match place (w_fs w) p with
  | None => io_err FileNotFoundError w
  | Some q =>
      match w_fs w !! q with
      | Some _ => io_err FileExistsError w
      | None =>
          if parent_is_dir (w_fs w) q then
            let w1 := set_tree (<[q := NFile (new_meta w) ""]> (w_fs w)) w in
            (set_tree (<[q := NFile (new_meta w) data]> (w_fs w1)) w1, Ok tt)
          else io_err OSError w
      end
  end.

(** [os.replace(src, dst)] *)
Definition replace (src dst : path) : M world unit := fun w =>
  let t := w_fs w in
  match place t src, place t dst with
  | Some s, Some d =>
      match t !! s with
      | None => io_err FileNotFoundError w
      | Some (NDir m) =>
          if bool_decide (s `prefix_of` d) || bool_decide (d `prefix_of` s)
             || negb (parent_is_dir t d) then io_err OSError w
          else match t !! d with
               | None => (set_tree (move_tree t s d) w, Ok tt)
               | Some (NDir _) =>
                   match children t d with
                   | [] => (set_tree (move_tree t s d) w, Ok tt)
                   | _ => io_err OSError w
                   end
               | Some _ => io_err OSError w
               end
      | Some n =>
          if negb (parent_is_dir t d) then io_err OSError w
          else match t !! d with
               | Some (NDir _) => io_err OSError w
               | _ => (set_tree (<[d := n]> (delete s t)) w, Ok tt)
               end
      end
  | _, _ => io_err FileNotFoundError w
  end.

(** ** Lemmas on the mutating calls *)

Lemma strip_path_Some s k r : strip_path s k = Some r ↔ k = s ++ r.
Proof.
  revert k; induction s as [|a s IH]; intros k; simpl; [naive_solver|].
  destruct k as [|b k]; [naive_solver|].
  destruct (String.eqb_spec a b) as [->|]; [rewrite IH|]; naive_solver.
Qed.

Lemma strip_path_None s k : strip_path s k = None ↔ ¬ s `prefix_of` k.
Proof.
  split.
  - intros H [r ->]. assert (strip_path s (s ++ r) = Some r) as Hs by by apply strip_path_Some.
    congruence.
  - intros H. destruct (strip_path s k) as [r|] eqn:E; [|done].
    apply strip_path_Some in E as ->. destruct H. by exists r.
Qed.

Lemma strip_path_app s r : strip_path s (s ++ r) = Some r.
Proof. by apply strip_path_Some. Qed.

Section move.
Context (s d : path).
Context (Hsd : ¬ s `prefix_of` d) (Hds : ¬ d `prefix_of` s).

Lemma not_prefix_app r : strip_path s (d ++ r) = None.
Proof.
  apply strip_path_None. intros H.
  assert (d `prefix_of` d ++ r) as Hd by by exists r.
  destruct (prefix_weak_total s d _ H Hd) as [?|?]; done.
Qed.

Lemma swap_path_invol k : swap_path s d (swap_path s d k) = k.
Proof.
  unfold swap_path.
  destruct (strip_path s k) as [r|] eqn:Es.
  - apply strip_path_Some in Es as ->. by rewrite not_prefix_app, strip_path_app.
  - destruct (strip_path d k) as [r|] eqn:Ed.
    + apply strip_path_Some in Ed as ->. by rewrite strip_path_app.
    + by rewrite Es, Ed.
Qed.

#[local] Instance swap_path_inj : Inj (=) (=) (swap_path s d).
Proof. intros x y H. by rewrite <-(swap_path_invol x), H, swap_path_invol. Qed.

Lemma lookup_move_tree t k : move_tree t s d !! k = delete d t !! swap_path s d k.
Proof. unfold move_tree.
  rewrite <-(swap_path_invol k) at 1. by rewrite lookup_kmap by apply _. Qed.

(** The moved tree is found below [d], [s] is gone, the rest is untouched. *)
Lemma move_tree_below t r : move_tree t s d !! (d ++ r) = t !! (s ++ r).
Proof.
  rewrite lookup_move_tree. unfold swap_path.
  rewrite not_prefix_app, strip_path_app. apply lookup_delete_ne.
  intros ->. apply Hsd. by exists r.
Qed.

Lemma move_tree_other t k :
  ¬ s `prefix_of` k → ¬ d `prefix_of` k → move_tree t s d !! k = t !! k.
Proof.
  intros Hs Hd. rewrite lookup_move_tree. unfold swap_path.
  apply strip_path_None in Hs as ->. pose proof Hd as Hd'. apply strip_path_None in Hd as ->.
  apply lookup_delete_ne. intros ->. by apply Hd'.
Qed.

Lemma move_tree_gone t r :
  (∀ r', r' ≠ [] → t !! (d ++ r') = None) → move_tree t s d !! (s ++ r) = None.
Proof.
  intros Hd. rewrite lookup_move_tree. unfold swap_path. rewrite strip_path_app.
  destruct r as [|a r]; [by rewrite app_nil_r, lookup_delete_eq|].
  rewrite lookup_delete_ne; [by apply Hd|].
  intros H. apply (f_equal length) in H. rewrite length_app in H. simpl in H. lia.
Qed.
End move.
