(* ===== verification/FSLaws.v ===== *)
(** * Laws of the mutating file operations

    What [unlink], [rmdir], [write_new] and [replace] do at an entry of a real
    directory, that they keep trees well formed, and the relation between a
    world and a later one with an invariant of every tree in between. *)
From S2P Require Import Prelude PyStr PyVal FS.

Local Open Scope string_scope.
Local Open Scope list_scope.

(** ** Later worlds *)

(** [w'] is [w] after some writes, each of which left a tree with [I]. *)
Definition evolves (I : fs -> Prop) (w w' : world) : Prop :=
  ∃ l, w_hist w' = l ++ w_hist w ∧ Forall I l ∧
       w_fs w' = default (w_fs w) (head l) ∧
       w_uid w' = w_uid w ∧ w_pid w' = w_pid w ∧ w_clock w' = w_clock w ∧
       w_can_read w' = w_can_read w.

Lemma evolves_refl I w : evolves I w w.
Proof. by exists []. Qed.

Lemma evolves_step (I : fs → Prop) w t : I t → evolves I w (set_tree t w).
Proof. intros Ht. exists [t]. split_and!; try done. by constructor. Qed.

Lemma evolves_trans I w1 w2 w3 : evolves I w1 w2 → evolves I w2 w3 → evolves I w1 w3.
Proof.
  intros (l1 & H1 & HI1 & Ht1 & Hu1 & Hp1 & Hc1 & Hr1) (l2 & H2 & HI2 & Ht2 & Hu2 & Hp2 & Hc2 & Hr2).
  exists (l2 ++ l1). split_and!; try congruence.
  - by rewrite H2, H1, app_assoc.
  - by apply Forall_app_2.
  - rewrite Ht2, Ht1. by destruct l2.
Qed.

Lemma evolves_weaken (I J : fs → Prop) w w' :
  (∀ t, I t → J t) → evolves I w w' → evolves J w w'.
Proof.
  intros HIJ (l & ? & Hl & ?). exists l. split; [done|]. split; [|done].
  by eapply Forall_impl.
Qed.

Lemma evolves_now (I : fs → Prop) w w' : evolves I w w' → I (w_fs w) → I (w_fs w').
Proof.
  intros (l & _ & Hl & -> & _) Hw. destruct l as [|t l]; [done|]. by apply Forall_cons in Hl as [? _].
Qed.

Lemma evolves_pid I w w' : evolves I w w' → w_pid w' = w_pid w.
Proof. intros (l & _ & _ & _ & _ & ? & _). done. Qed.

Lemma evolves_uid I w w' : evolves I w w' → w_uid w' = w_uid w.
Proof. intros (l & _ & _ & _ & ? & _). done. Qed.

#[export] Hint Resolve evolves_refl evolves_step : fs.

(** ** Directories that stay *)

Definition same_dirs (t t' : fs) : Prop :=
  ∀ q m, t !! q = Some (NDir m) → t' !! q = Some (NDir m).

#[export] Instance same_dirs_preorder : PreOrder same_dirs.
Proof. split; unfold same_dirs; [by intros t|]. intros t1 t2 t3 H1 H2 q m ?. by apply H2, H1. Qed.

Lemma real_dir_same t t' p : same_dirs t t' → real_dir t p → real_dir t' p.
Proof.
  intros Hs [Hn Hd]. split; [done|]. intros q Hq Hne.
  destruct (Hd q Hq Hne) as [m Hm]. exists m. by apply Hs.
Qed.

Lemma real_dir_prefix t p q : real_dir t p → q `prefix_of` p → real_dir t q.
Proof.
  intros [Hn Hd] Hq. split.
  - destruct Hq as [r ->]. by apply Forall_app in Hn as [? _].
  - intros q' Hq' Hne. apply Hd; [by etrans|done].
Qed.

Lemma not_below_nil t q n x : fs_wf t → t !! (q ++ n :: x) = None ∨ is_Some (t !! (q ++ [n])).
Proof.
  intros Hwf. destruct (t !! (q ++ n :: x)) eqn:E; [right|by left].
  revert n0 E. induction x as [|c x IH] using rev_ind; intros y E; [by eexists|].
  replace (q ++ n :: x ++ [c]) with ((q ++ n :: x) ++ [c]) in E by (by rewrite <-app_assoc).
  apply (wf_parent t Hwf) in E as [m Hm]. by eapply IH.
Qed.

(** An empty directory has nothing below it. *)
Lemma empty_dir_below t q r : fs_wf t → children t q = [] → r ≠ [] → t !! (q ++ r) = None.
Proof.
  intros Hwf Hc Hr. destruct r as [|n r]; [done|].
  destruct (not_below_nil t q n r Hwf) as [?|Hn]; [done|].
  apply elem_of_children in Hn. rewrite Hc in Hn. by apply elem_of_nil in Hn.
Qed.

(** A node that is no directory has nothing below it. *)
Lemma leaf_below t q x r : fs_wf t → t !! q = Some x → is_NDir x = false → r ≠ [] →
  t !! (q ++ r) = None.
Proof.
  intros Hwf Hq Hx Hr. destruct r as [|n r]; [done|].
  destruct (not_below_nil t q n r Hwf) as [?|[y Hn]]; [done|].
  apply (wf_parent t Hwf) in Hn as [m Hm]. rewrite Hq in Hm. by injection Hm as ->.
Qed.

Lemma missing_below t q r : fs_wf t → t !! q = None → t !! (q ++ r) = None.
Proof.
  intros Hwf Hq. destruct r as [|n r]; [by rewrite app_nil_r|].
  destruct (not_below_nil t q n r Hwf) as [?|[y Hn]]; [done|].
  apply (wf_parent t Hwf) in Hn as [m Hm]. congruence.
Qed.

(** ** Well-formedness is kept *)

Lemma snoc_neq_nil {A} (l : list A) x : l ++ [x] ≠ [].
Proof. by destruct l. Qed.

(** Deleting a node that has nothing below it. *)
Lemma fs_wf_delete t q : fs_wf t → q ≠ [] → (∀ n, t !! (q ++ [n]) = None) → fs_wf (delete q t).
Proof.
  intros Hwf Hq Hb. split.
  - destruct (wf_root t Hwf) as [m Hm]. exists m. by rewrite lookup_delete_ne.
  - intros p n x Hx. apply lookup_delete_Some in Hx as [Hne Hx].
    destruct (wf_parent t Hwf p n x Hx) as [m Hm]. exists m.
    rewrite lookup_delete_ne; [done|]. intros <-. by rewrite Hb in Hx.
  - intros p n x Hx. apply lookup_delete_Some in Hx as [Hne Hx]. by eapply (wf_name t).
Qed.

(** Putting a node that is no directory where there was none. *)
Lemma fs_wf_insert t p n x m :
  fs_wf t → name_ok n = true → t !! p = Some (NDir m) →
  (∀ m', t !! (p ++ [n]) ≠ Some (NDir m')) → fs_wf (<[p ++ [n] := x]> t).
Proof.
  intros Hwf Hn Hp Hnd. split.
  - destruct (wf_root t Hwf) as [mr Hm]. exists mr. rewrite lookup_insert_ne; [done|].
    apply snoc_neq_nil.
  - intros p' n' x' Hx. apply lookup_insert_Some in Hx as [[Heq <-]|[Hne Hx]].
    + apply app_inj_tail in Heq as [<- <-]. exists m. rewrite lookup_insert_ne; [done|].
      intros E. apply (f_equal length) in E. rewrite length_app in E. simpl in E. lia.
    + destruct (wf_parent t Hwf p' n' x' Hx) as [m' Hm]. exists m'.
      rewrite lookup_insert_ne; [done|]. intros <-. by apply (Hnd m').
  - intros p' n' x' Hx. apply lookup_insert_Some in Hx as [[Heq <-]|[Hne Hx]].
    + by apply app_inj_tail in Heq as [_ <-].
    + by eapply (wf_name t).
Qed.

Lemma same_dirs_delete t q : (∀ m, t !! q ≠ Some (NDir m)) → same_dirs t (delete q t).
Proof. intros Hq q' m Hm. rewrite lookup_delete_ne; [done|]. intros <-. by apply (Hq m). Qed.

Lemma same_dirs_insert t q x : (∀ m, t !! q ≠ Some (NDir m)) → same_dirs t (<[q := x]> t).
Proof. intros Hq q' m Hm. rewrite lookup_insert_ne; [done|]. intros <-. by apply (Hq m). Qed.

(** ** The operations at an entry of a real directory *)

Section child.
Context (w : world) (p : path) (n : string).
Let t := w_fs w.
Context (Hp : real_dir t p) (Hn : name_ok n = true).

Lemma unlink_child :
  unlink (p ++ [n]) w =
  match t !! (p ++ [n]) with
  | None => (w, Err (Raise FileNotFoundError "os error"))
  | Some (NDir _) => (w, Err (Raise OSError "os error"))
  | Some _ => (set_tree (delete (p ++ [n]) t) w, Ok tt)
  end.
Proof. unfold unlink. fold t. rewrite place_child by done. by destruct (t !! _) as [[]|]. Qed.

Lemma rmdir_child :
  rmdir (p ++ [n]) w =
  match t !! (p ++ [n]) with
  | None => (w, Err (Raise FileNotFoundError "os error"))
  | Some (NDir _) =>
      match children t (p ++ [n]) with
      | [] => (set_tree (delete (p ++ [n]) t) w, Ok tt)
      | _ => (w, Err (Raise OSError "os error"))
      end
  | Some _ => (w, Err (Raise OSError "os error"))
  end.
Proof.
  unfold rmdir. fold t. rewrite place_child by done.
  destruct (p ++ [n]) eqn:E; [by apply snoc_neq_nil in E|].
  by destruct (t !! _) as [[]|].
Qed.

Context (Hwf : fs_wf t).

Lemma write_new_child data :
  write_new (p ++ [n]) data w =
  match t !! (p ++ [n]) with
  | Some _ => (w, Err (Raise FileExistsError "os error"))
  | None =>
      let t1 := <[p ++ [n] := NFile (new_meta w) ""]> t in
      (set_tree (<[p ++ [n] := NFile (new_meta w) data]> t1) (set_tree t1 w), Ok tt)
  end.
Proof.
  unfold write_new. fold t. rewrite place_child by done.
  destruct (t !! (p ++ [n])); [done|].
  unfold parent_is_dir. rewrite removelast_snoc.
  by destruct (real_dir_lookup t p Hwf Hp) as [m ->].
Qed.
End child.

(** Renaming a file within a real directory. *)
Lemma replace_child w p a b x :
  fs_wf (w_fs w) → real_dir (w_fs w) p → name_ok a = true → name_ok b = true →
  w_fs w !! (p ++ [a]) = Some x → is_NDir x = false →
  replace (p ++ [a]) (p ++ [b]) w =
  match w_fs w !! (p ++ [b]) with
  | Some (NDir _) => (w, Err (Raise OSError "os error"))
  | _ => (set_tree (<[p ++ [b] := x]> (delete (p ++ [a]) (w_fs w))) w, Ok tt)
  end.
Proof.
  intros Hwf Hp Ha Hb Hx Hnd. unfold replace. rewrite !place_child by done. rewrite Hx.
  unfold parent_is_dir. rewrite removelast_snoc.
  destruct (real_dir_lookup _ _ Hwf Hp) as [m Hm]. rewrite Hm. simpl.
  destruct x; try done; by destruct (w_fs w !! (p ++ [b])) as [[]|].
Qed.

(** ** The operations anywhere *)

Lemma unlink_effect p w w' r : unlink p w = (w', r) →
  w' = w ∨ ∃ q x, place (w_fs w) p = Some q ∧ w_fs w !! q = Some x ∧ is_NDir x = false ∧
                  w' = set_tree (delete q (w_fs w)) w.
Proof.
  unfold unlink, io_err, raise. intros Hx. repeat case_match; simplify_eq; auto; right; eauto 6.
Qed.

Lemma rmdir_effect p w w' r : rmdir p w = (w', r) →
  w' = w ∨ ∃ q m, place (w_fs w) p = Some q ∧ q ≠ [] ∧ w_fs w !! q = Some (NDir m) ∧
                  children (w_fs w) q = [] ∧ w' = set_tree (delete q (w_fs w)) w.
Proof.
  unfold rmdir, io_err, raise. intros Hx. repeat case_match; simplify_eq; auto; right; eauto 8.
Qed.

(** No node at or below [root] is a symbolic link. *)
Definition link_free (t : fs) (root : path) : Prop :=
  ∀ r a tg, t !! (root ++ r) ≠ Some (NLink a tg).

Lemma walk_link_free t k cur p q :
  link_free t cur → Forall (fun c => name_ok c = true) p → walk t k cur p = Some q → q = cur ++ p.
Proof.
  revert cur. induction p as [|c p IH]; intros cur Hl Hn Hw.
  - destruct k; simpl in Hw; rewrite app_nil_r; congruence.
  - apply Forall_cons in Hn as [Hc Hn]. rewrite walk_step in Hw by done.
    destruct (t !! (cur ++ [c])) as [[m data|m|a tg|m]|] eqn:E; try done.
    + destruct p; [|done]. congruence.
    + apply IH in Hw; [by rewrite Hw, <-app_assoc| |done].
      intros r a tg. rewrite <-app_assoc. apply Hl.
    + by apply Hl in E.
    + destruct p; [|done]. congruence.
Qed.

(** Below a link-free real directory, a path is its own place. *)
Lemma place_link_free t root p q :
  real_dir t root → root ≠ [] → link_free t root → Forall (fun c => name_ok c = true) p →
  place t (root ++ p) = Some q → q = root ++ p.
Proof.
  intros Hr Hne Hl Hn. destruct p as [|n p _] using rev_ind.
  - rewrite app_nil_r. destruct root as [|n root _] using rev_ind; [done|].
    apply real_dir_parent in Hr as [Hr Hok]. rewrite place_child by done. congruence.
  - apply Forall_app in Hn as [Hn Hc]. apply Forall_cons in Hc as [Hc _].
    unfold place. rewrite app_assoc, last_snoc.
    pose proof (name_ok_neq n Hc) as (-> & -> & ->). simpl. rewrite removelast_snoc.
    intros (q' & Hq' & [= <-])%bind_Some. unfold realpath in Hq'. destruct Hr as [Hrn Hrd].
    rewrite (walk_dirs t max_links [] root p) in Hq' by done.
    rewrite app_nil_l in Hq'. by apply walk_link_free in Hq' as ->.
Qed.
