(* ===== verification/WeightManifest.v ===== *)
(** * Validation of a persistent pre-quantised INT8 weight tree

    Models [kt-kernel/python/sft/weight_manifest.py]: the validator reads a
    manifest and the tree it describes, and raises [ValueError] unless the two
    agree file for file.  It only reads, so every function is a pure function
    of the tree. *)
From S2P Require Import Prelude PyStr PyVal FS.

Local Open Scope string_scope.
Local Open Scope list_scope.
Local Open Scope Z_scope.

Definition INT8_WEIGHT_LAYOUT : string := "kt-int8-n32-k64-vnni-v1".
Definition MANIFEST_NAME : string := "kt-weight-manifest.json".
Definition LEGACY_MANIFEST_NAME : string := "kt-ephemeral-manifest.json".
Definition SCHEMA_VERSION : Z := 2.
Definition SUPPORTED_SCHEMA_VERSIONS : list Z := [1; SCHEMA_VERSION].

Record ValidatedKTWeightManifest := {
  vm_root : path;
  vm_path : path;
  vm_schema_version : Z;
  vm_layout : string;
  vm_layer_indices : list Z;
  vm_file_count : Z;
  vm_size_bytes : Z;
}.

Definition is_legacy (v : ValidatedKTWeightManifest) : bool := vm_schema_version v =? 1.

(** [^[0-9a-f]{64}$] *)
Definition is_sha256_text (s : string) : bool :=
  (Z.of_nat (String.length s) =? 64) && str_forall is_lower_hex s.

Definition strip_one_of (ps : list string) (s : string) : option (string * string) :=
  list_find (fun p => is_Some (strip_prefix p s)) ps ≫= fun ip =>
    r ← strip_prefix ip.2 s; Some (ip.2, r).

(** [^INT8_(gate|up|down)_(\d+)_(\d+)Byte_(quant|scale)_\.kt$] and its groups *)
Definition kt_file_match (name : string) : option (string * string * string * string) :=
  r0 ← strip_prefix "INT8_" name;
  '(projection, r1) ← strip_one_of ["gate"; "up"; "down"] r0;
  r2 ← strip_prefix "_" r1;
  let '(expert_text, r3) := span_digits r2 in
  r4 ← strip_prefix "_" r3;
  let '(size_text, r5) := span_digits r4 in
  r6 ← strip_prefix "Byte_" r5;
  '(kind, r7) ← strip_one_of ["quant"; "scale"] r6;
  if negb (String.eqb expert_text "") && negb (String.eqb size_text "")
     && String.eqb r7 "_.kt"
  then Some (projection, expert_text, size_text, kind) else None.

(** [_numa_(\d+)] and its group *)
Definition numa_match (s : string) : option string :=
  r ← strip_prefix "_numa_" s;
  if negb (String.eqb r "") && str_forall is_digit r then Some r else None.

Definition positive_int (v : pyval) : res Z :=
  match as_int v with
  | Some n => if n <=? 0 then Err (Raise ValueError "must be a positive integer") else Ok n
  | None => Err (Raise ValueError "must be a positive integer")
  end.

Definition nonnegative_int (v : pyval) : res Z :=
  match as_int v with
  | Some n => if n <? 0 then Err (Raise ValueError "must be a non-negative integer") else Ok n
  | None => Err (Raise ValueError "must be a non-negative integer")
  end.

Definition layer_dir_name (i : Z) : string := "_layer_" +:+ str_of_Z i.
Definition numa_dir_name (i : Z) : string := "_numa_" +:+ str_of_Z i.

(** The dimensions the caller expects. *)
Record dims := Dims {
  d_numa : Z;
  d_experts : Z;
  d_hidden : Z;
  d_intermediate : Z;
}.

(** What one file holds: NUMA node, projection, expert, kind. *)
Abbreviation identity := (Z * string * Z * string)%type.

Definition projections : list string := ["gate"; "up"; "down"].
Definition kinds : list string := ["quant"; "scale"].

Section validate.
Context `{Platform}.
Context (can_read : meta -> bool) (t : fs).

Definition resolve_root (root : string) : res path :=
  _ ← raise_if (negb (is_absolute root)) ValueError "root must be an absolute path";
  let p := path_parts root in
  _ ← raise_if (p_is_symlink t p) ValueError "root must not be a symlink";
  resolved ← of_option (realpath t p) FileNotFoundError "no such root";
  _ ← raise_if (negb (p_is_dir t resolved)) ValueError "root must be a directory";
  mret resolved.

Definition load_manifest (root : path) : res (string * list (string * pyval) * Z) :=
  let candidates :=
    List.filter (fun n => p_exists t (root ++ [n]) || p_is_symlink t (root ++ [n]))
                [MANIFEST_NAME; LEGACY_MANIFEST_NAME] in
  match candidates with
  | [name] =>
      let p := root ++ [name] in
      _ ← raise_if (p_is_symlink t p || negb (p_is_file t p)) ValueError
            "manifest must be a regular file";
      manifest ← catch (text ← read_bytes t p;
                        of_option (json_loads text) ValueError "invalid JSON")
                       (fun c => bool_decide (c ∈ [OSError; FileNotFoundError; ValueError]))
                       (fun _ => Err (Raise ValueError "cannot read INT8 manifest"));
      manifest ← of_option (as_dict manifest) ValueError "manifest root must be an object";
      schema_version ← of_option (as_int (pget "schema_version" manifest)) ValueError
                         "unsupported schema_version";
      _ ← raise_if (negb (bool_decide (schema_version ∈ SUPPORTED_SCHEMA_VERSIONS))) ValueError
            "unsupported schema_version";
      _ ← raise_if ((schema_version =? 1) && negb (String.eqb name LEGACY_MANIFEST_NAME))
            ValueError "schema-1 manifests must use the legacy name";
      _ ← raise_if ((schema_version =? SCHEMA_VERSION) && negb (String.eqb name MANIFEST_NAME))
            ValueError "schema-2 manifests must use the current name";
      mret (name, manifest, schema_version)
  | _ => Err (Raise ValueError "root requires exactly one manifest")
  end.

Definition sha256_file (p : path) : res string :=
  data ← read_bytes t p; mret (sha256 data).

(** The bytes a projection's file must have. *)
Definition projection_size (d : dims) (projection kind : string) : Z :=
  let intermediate_per_numa := d_intermediate d / d_numa d in
  if String.eqb kind "quant" then d_hidden d * intermediate_per_numa
  else if String.eqb projection "down" then d_hidden d * 4
  else intermediate_per_numa * 4.

(** The NUMA directories of a layer: their set, and that they are directories. *)
Definition check_layer_entries (d : dims) (root : path) (layer_idx : Z) : res unit :=
  let layer_dir := root ++ [layer_dir_name layer_idx] in
  _ ← raise_if (p_is_symlink t layer_dir || negb (p_is_dir t layer_dir)) ValueError
        "missing or unsafe layer directory";
  entries ← iterdir t layer_dir;
  _ ← raise_if (existsb (fun e => p_is_symlink t (layer_dir ++ [e])
                                  || negb (p_is_dir t (layer_dir ++ [e]))) entries)
        ValueError "entries outside NUMA directories";
  raise_if (negb (bool_decide (list_to_set entries
                    =@{gset string} list_to_set (numa_dir_name <$> seqZ 0 (d_numa d)))))
    ValueError "NUMA directories mismatch".

(** [actual_file_sizes]: the regular files below the layer and their sizes. *)
Definition scan_numa (root : path) (layer_idx : Z) (sizes : gmap string Z) (numa_idx : Z)
    : res (gmap string Z) :=
  let dir := [layer_dir_name layer_idx; numa_dir_name numa_idx] in
  entries ← iterdir t (root ++ dir);
  for_each entries sizes (fun sizes e =>
    match lstat t (root ++ dir ++ [e]) with
    | Some (NFile _ data) => Ok (<[posix_join (dir ++ [e]) := file_size data]> sizes)
    | Some _ => Err (Raise ValueError "unexpected non-regular entry")
    | None => Err (Raise FileNotFoundError "entry vanished")
    end).

Record item_acc := ItemAcc {
  seen_paths : gset string;
  seen_identities : gset identity;
  actual_size : Z;
}.

(** The path of an item, and the identity its name spells. *)
Definition item_identity (d : dims) (layer_idx : Z) (relative : string)
    : res (identity * Z) :=
  let parts := path_parts relative in
  _ ← raise_if (is_absolute relative || bool_decide (".." ∈ parts)) ValueError
        "unsafe manifest path";
  match parts with
  | [layer_part; numa_part; name] =>
      _ ← raise_if (negb (String.eqb layer_part (layer_dir_name layer_idx))) ValueError
            "path is outside the layer";
      numa_text ← of_option (numa_match numa_part) ValueError "invalid NUMA path";
      numa_idx ← of_option (parse_digits numa_text) ValueError "invalid NUMA path";
      _ ← raise_if (negb ((0 <=? numa_idx) && (numa_idx <? d_numa d))) ValueError
            "out-of-range NUMA index";
      '(projection, expert_text, size_text, kind) ←
        of_option (kt_file_match name) ValueError "unexpected .kt filename";
      expert_idx ← of_option (parse_digits expert_text) ValueError "unexpected .kt filename";
      _ ← raise_if (negb ((0 <=? expert_idx) && (expert_idx <? d_experts d))) ValueError
            "out-of-range expert";
      encoded_size ← of_option (parse_digits size_text) ValueError "unexpected .kt filename";
      mret ((numa_idx, projection, expert_idx, kind), encoded_size)
  | _ => Err (Raise ValueError "unexpected manifest path depth")
  end.

Definition check_hash (schema_version : Z) (verify_hashes : bool) (item : list (string * pyval))
    (absolute : path) : res unit :=
  let expected_hash := pget "sha256" item in
  _ ← raise_if ((2 <=? schema_version)
                && negb (match as_str expected_hash with
                         | Some h => is_sha256_text h | None => false end))
        ValueError "file requires a lowercase SHA256 digest";
  if verify_hashes then
    expected_hash ← of_option (as_str expected_hash) ValueError
                      "hash verification is unavailable";
    actual_hash ← sha256_file absolute;
    raise_if (negb (String.eqb actual_hash expected_hash)) ValueError "SHA256 mismatch"
  else mret tt.

Definition check_item (d : dims) (root : path) (layer_idx schema_version : Z)
    (verify_hashes : bool) (sizes : gmap string Z) (acc : item_acc) (item : pyval)
    : res item_acc :=
  item ← of_option (as_dict item) ValueError "non-object file entry";
  relative ← of_option (as_str (pget "path" item)) ValueError "invalid or duplicate path";
  _ ← raise_if (bool_decide (relative ∈ seen_paths acc)) ValueError "invalid or duplicate path";
  '(ident, encoded_size) ← item_identity d layer_idx relative;
  _ ← raise_if (bool_decide (ident ∈ seen_identities acc)) ValueError
        "duplicate file identity";
  let absolute := root ++ path_parts relative in
  observed_size ← of_option (sizes !! relative) ValueError "missing or unsafe manifest file";
  _ ← raise_if (negb (match stat t absolute with
                      | Some n => can_read (node_meta n) | None => false end))
        PermissionError "weight file is not readable";
  expected_size ← positive_int (pget "size_bytes" item);
  let '(_, projection, _, kind) := ident in
  let contract := projection_size d projection kind in
  _ ← raise_if (negb (encoded_size =? contract) || negb (expected_size =? contract)) ValueError
        "size contract mismatch";
  _ ← raise_if (negb (observed_size =? expected_size)) ValueError "manifest size mismatch";
  _ ← check_hash schema_version verify_hashes item absolute;
  mret (ItemAcc ({[relative]} ∪ seen_paths acc) ({[ident]} ∪ seen_identities acc)
                (actual_size acc + observed_size)).

Definition expected_identities (d : dims) : list identity :=
  n ← seqZ 0 (d_numa d);
  p ← projections;
  e ← seqZ 0 (d_experts d);
  k ← kinds;
  [(n, p, e, k)].

Definition validate_layer (d : dims) (root : path) (schema_version : Z) (verify_hashes : bool)
    (layer : pyval) : res (Z * Z) :=
  layer ← of_option (as_dict layer) ValueError "layer entries must be objects";
  layer_idx ← nonnegative_int (pget "index" layer);
  _ ← raise_if (negb (py_eq (pget "state" layer) (PStr "ready"))) ValueError
        "layer must be in state 'ready'";
  numa_count ← positive_int (pget "numa_count" layer);
  _ ← raise_if (negb (numa_count =? d_numa d)) ValueError "layer NUMA count mismatch";
  _ ← check_layer_entries d root layer_idx;
  sizes ← for_each (seqZ 0 (d_numa d)) ∅ (scan_numa root layer_idx);
  files ← of_option (as_list (pget "files" layer)) ValueError "must list exactly n files";
  _ ← raise_if (negb (Z.of_nat (length files) =? d_numa d * d_experts d * 3 * 2)) ValueError
        "must list exactly n files";
  acc ← for_each files (ItemAcc ∅ ∅ 0)
          (check_item d root layer_idx schema_version verify_hashes sizes);
  _ ← raise_if (negb (bool_decide (seen_identities acc = list_to_set (expected_identities d))))
        ValueError "file inventory is incomplete";
  _ ← raise_if (negb (bool_decide (dom sizes = seen_paths acc))) ValueError
        "file set differs from manifest";
  manifest_size ← positive_int (pget "bytes" layer);
  _ ← raise_if (negb (actual_size acc =? manifest_size)) ValueError
        "layer byte total mismatch";
  mret (Z.of_nat (length files), actual_size acc).

(** The metadata every manifest must repeat. *)
Definition expected_metadata (d : dims) : list (string * pyval) :=
  [("state", PStr "ready"); ("expert_weight_format", PStr "int8");
   ("threadpool_count", PInt (d_numa d)); ("expert_num", PInt (d_experts d));
   ("hidden_size", PInt (d_hidden d)); ("intermediate_size", PInt (d_intermediate d))].

Definition check_metadata (d : dims) (manifest : list (string * pyval)) : res unit :=
  for_each (expected_metadata d) tt (fun _ kv =>
    raise_if (negb (py_eq (pget kv.1 manifest) kv.2)) ValueError "manifest metadata mismatch").

(** The layout, which a schema-1 manifest leaves implicit. *)
Definition check_layout (schema_version : Z) (manifest : list (string * pyval)) : res string :=
  if schema_version =? 1 then
    let backend := lower (strip (py_str (default (PStr "") (dict_get "backend" manifest)))) in
    _ ← raise_if (negb (bool_decide (backend ∈ ["amxint8"; "int8"]))) ValueError
          "legacy manifest backend must be AMXINT8 or INT8";
    mret INT8_WEIGHT_LAYOUT
  else
    _ ← raise_if (negb (py_eq (pget "layout" manifest) (PStr INT8_WEIGHT_LAYOUT))) ValueError
          "manifest layout mismatch";
    _ ← raise_if (match dict_get "backend" manifest with
                  | Some b => negb (bool_decide (lower (strip (py_str b)) ∈ ["auto"; "int8"]))
                  | None => false
                  end) ValueError "manifest backend must be hardware-neutral";
    mret INT8_WEIGHT_LAYOUT.

Definition layer_index (layer : pyval) : res Z :=
  layer ← of_option (as_dict layer) ValueError "layers must contain objects";
  index ← of_option (as_int (pget "index" layer)) ValueError "index must be non-negative";
  _ ← raise_if (index <? 0) ValueError "index must be non-negative";
  mret index.

Definition check_layer_set (expected_layers : list Z) (layers : list pyval) : res unit :=
  actual ← for_each layers [] (fun acc layer => i ← layer_index layer; mret (acc ++ [i]));
  _ ← raise_if (negb (length (remove_dups actual) =? length actual)%nat) ValueError
        "duplicate layer indices";
  raise_if (negb (bool_decide (merge_sort Z.le actual = expected_layers))) ValueError
    "layer set mismatch".

Definition check_root_entries (root : path) (manifest_name : string) (expected_layers : list Z)
    : res unit :=
  root_entries ← iterdir t root;
  _ ← raise_if (existsb (fun e => p_is_symlink t (root ++ [e])) root_entries) ValueError
        "root must not contain symlinks";
  raise_if (negb (bool_decide (list_to_set root_entries
      =@{gset string} list_to_set (manifest_name :: (layer_dir_name <$> expected_layers)))))
    ValueError "root entries differ from the manifest".

(** The tree part of the validation, once the manifest is loaded. *)
Definition validate_tree (d : dims) (expected_layers : list Z) (verify_hashes : option bool)
    (resolved : path) (name : string) (manifest : list (string * pyval)) (schema_version : Z)
    : res ValidatedKTWeightManifest :=
  let effective_verify_hashes :=
    match verify_hashes with None => 2 <=? schema_version | Some b => b end in
  _ ← check_metadata d manifest;
  layout ← check_layout schema_version manifest;
  layers ← of_option (as_list (pget "layers" manifest)) ValueError "layers must be a list";
  _ ← check_layer_set expected_layers layers;
  '(file_count, size_bytes) ←
    for_each layers (0, 0) (fun acc layer =>
      '(layer_files, layer_bytes) ←
        validate_layer d resolved schema_version effective_verify_hashes layer;
      mret (acc.1 + layer_files, acc.2 + layer_bytes));
  manifest_bytes ← positive_int (pget "bytes" manifest);
  _ ← raise_if (negb (size_bytes =? manifest_bytes)) ValueError
        "manifest byte total mismatch";
  _ ← check_root_entries resolved name expected_layers;
  mret {| vm_root := resolved; vm_path := resolved ++ [name];
          vm_schema_version := schema_version; vm_layout := layout;
          vm_layer_indices := expected_layers; vm_file_count := file_count;
          vm_size_bytes := size_bytes |}.

Definition validate_persistent_int8_weights (root : string) (layer_indices : list Z)
    (numa_count expert_num hidden_size intermediate_size : Z) (verify_hashes : option bool)
    : res ValidatedKTWeightManifest :=
  expected_numa_count ← positive_int (PInt numa_count);
  expected_expert_num ← positive_int (PInt expert_num);
  expected_hidden_size ← positive_int (PInt hidden_size);
  expected_intermediate_size ← positive_int (PInt intermediate_size);
  _ ← raise_if (negb (expected_intermediate_size mod expected_numa_count =? 0)) ValueError
        "intermediate_size must be divisible by threadpool_count";
  let expected_layers := sorted_set layer_indices in
  _ ← raise_if (bool_decide (expected_layers = []) || existsb (fun i => i <? 0) expected_layers)
        ValueError "requires non-negative layer indices";
  resolved ← resolve_root root;
  '(name, manifest, schema_version) ← load_manifest resolved;
  validate_tree (Dims expected_numa_count expected_expert_num expected_hidden_size
                      expected_intermediate_size)
    expected_layers verify_hashes resolved name manifest schema_version.
End validate.
