(* ===== verification/WeightManifestSpec.v ===== *)
(** * What a validated INT8 weight tree is

    The abstract specification of [WeightManifest] and the proof that the
    validator accepts only trees that meet it. *)
From S2P Require Import Prelude PyStr PyVal FS WeightManifest.
From Stdlib Require Import Ascii.

Local Open Scope string_scope.
Local Open Scope list_scope.
Local Open Scope Z_scope.

(** ** The names of weight files *)

Definition kt_file_name (projection expert_text size_text kind : string) : string :=
  "INT8_" +:+ projection +:+ "_" +:+ expert_text +:+ "_" +:+ size_text +:+ "Byte_"
    +:+ kind +:+ "_.kt".

Definition digit_text (s : string) : Prop := s ≠ "" ∧ str_forall is_digit s = true.

Lemma digit_text_bool s : digit_text s ↔ negb (String.eqb s "") && str_forall is_digit s = true.
Proof.
  unfold digit_text. rewrite andb_true_iff, negb_true_iff, String.eqb_neq. done.
Qed.

Lemma digit_text_parse s : digit_text s → is_Some (parse_digits s).
Proof. intros [Hne H]. rewrite parse_digits_eq by done. by apply digits_val_is_some. Qed.

Lemma str_of_Z_digit_text n : 0 <= n → digit_text (str_of_Z n).
Proof.
  intros H. split; [|by apply str_of_Z_digits].
  intros E. pose proof (parse_str_of_Z n H) as Hp. by rewrite E in Hp.
Qed.

Lemma strip_one_of_Some ps s p r : strip_one_of ps s = Some (p, r) → p ∈ ps ∧ s = p +:+ r.
Proof.
  unfold strip_one_of. intros ([i q] & Hf & (r' & Hr & [= <- <-])%bind_Some)%bind_Some.
  apply list_find_Some in Hf as (Hl & _ & _). simpl in *.
  apply strip_prefix_Some in Hr. split; [by eapply list_elem_of_lookup_2|done].
Qed.

Lemma elem_of_projections p : p ∈ projections ↔ p = "gate" ∨ p = "up" ∨ p = "down".
Proof. unfold projections. rewrite !elem_of_cons, elem_of_nil. tauto. Qed.

Lemma elem_of_kinds k : k ∈ kinds ↔ k = "quant" ∨ k = "scale".
Proof. unfold kinds. rewrite !elem_of_cons, elem_of_nil. tauto. Qed.

(** The pattern of weight file names, read both ways. *)
Lemma kt_file_match_Some name p e s k :
  kt_file_match name = Some (p, e, s, k) ↔
  name = kt_file_name p e s k ∧ p ∈ projections ∧ k ∈ kinds ∧ digit_text e ∧ digit_text s.
Proof.
  split.
  - unfold kt_file_match.
    intros (r0 & Hr0 & H)%bind_Some.
    apply bind_Some in H as ([p' r1] & Hp & H).
    apply bind_Some in H as (r2 & Hr2 & H).
    destruct (span_digits r2) as [e' r3] eqn:He.
    apply bind_Some in H as (r4 & Hr4 & H).
    destruct (span_digits r4) as [s' r5] eqn:Hs.
    apply bind_Some in H as (r6 & Hr6 & H).
    apply bind_Some in H as ([k' r7] & Hk & H).
    destruct (negb (String.eqb e' "") && negb (String.eqb s' "") && String.eqb r7 "_.kt") eqn:Hc;
      [|done].
    injection H as -> -> -> ->. bools. subst.
    apply span_digits_spec in He as [-> ?], Hs as [-> ?].
    apply strip_one_of_Some in Hp as [Hp ->], Hk as [Hk ->].
    apply strip_prefix_Some in Hr0 as ->, Hr2 as ->, Hr4 as ->, Hr6 as ->. done.
  - intros (-> & Hp & Hk & [Hene He] & [Hsne Hs]).
    unfold kt_file_match, kt_file_name. rewrite strip_prefix_app. cbn [mbind option_bind].
    assert (∀ r, strip_one_of ["gate"; "up"; "down"] (p +:+ r) = Some (p, r)) as Hpr.
    { intros r. apply elem_of_projections in Hp. by destruct Hp as [->|[->| ->]]. }
    rewrite Hpr. cbn [mbind option_bind]. rewrite strip_prefix_app. cbn [mbind option_bind].
    rewrite span_digits_app by done. rewrite strip_prefix_app. cbn [mbind option_bind].
    rewrite span_digits_app by done. rewrite strip_prefix_app. cbn [mbind option_bind].
    assert (∀ r, strip_one_of ["quant"; "scale"] (k +:+ r) = Some (k, r)) as Hkr.
    { intros r. apply elem_of_kinds in Hk. by destruct Hk as [->| ->]. }
    rewrite Hkr. cbn [mbind option_bind].
    apply String.eqb_neq in Hene as ->, Hsne as ->. done.
Qed.

Lemma numa_match_Some s r : numa_match s = Some r ↔ s = "_numa_" +:+ r ∧ digit_text r.
Proof.
  unfold numa_match. rewrite bind_Some, digit_text_bool. split.
  - intros (r' & Hr & H). apply strip_prefix_Some in Hr as ->.
    destruct (negb _ && _) eqn:E; naive_solver.
  - intros [-> H]. exists r. rewrite strip_prefix_app. split; [done|]. by rewrite H.
Qed.

Lemma name_ok_prefixed p s c :
  no_slash (String c p) = true → no_slash s = true → c ≠ "."%char →
  name_ok (String c (p +:+ s)) = true.
Proof.
  intros Hp Hs Hc. unfold name_ok, no_slash in *. cbn [str_forall] in *.
  rewrite str_forall_app. bools. rewrite H, H0, Hs. simpl.
  destruct (Ascii.eqb_spec c "."%char); [done|].
  by rewrite andb_true_r.
Qed.

Lemma layer_dir_name_ok i : 0 <= i → name_ok (layer_dir_name i) = true.
Proof.
  intros. apply (name_ok_prefixed "layer_" (str_of_Z i) "_"%char); [done| |done].
  by apply str_of_Z_no_slash.
Qed.

Lemma numa_dir_name_ok i : 0 <= i → name_ok (numa_dir_name i) = true.
Proof.
  intros. apply (name_ok_prefixed "numa_" (str_of_Z i) "_"%char); [done| |done].
  by apply str_of_Z_no_slash.
Qed.

Lemma layer_dir_name_inj i j : layer_dir_name i = layer_dir_name j → i = j.
Proof. intros H%str_app_inj_l. by apply str_of_Z_inj. Qed.

Lemma numa_dir_name_inj i j : numa_dir_name i = numa_dir_name j → i = j.
Proof. intros H%str_app_inj_l. by apply str_of_Z_inj. Qed.

(** ** The inventory of a layer *)

Definition identity_size (d : dims) (ident : identity) : Z :=
  let '(_, p, _, k) := ident in projection_size d p k.

Lemma elem_of_expected d n p e k :
  (n, p, e, k) ∈ expected_identities d ↔
  0 <= n < d_numa d ∧ p ∈ projections ∧ 0 <= e < d_experts d ∧ k ∈ kinds.
Proof.
  unfold expected_identities.
  repeat setoid_rewrite list_elem_of_bind. setoid_rewrite list_elem_of_singleton.
  setoid_rewrite elem_of_seqZ. split.
  - intros (n' & (p' & (e' & (k' & [= -> -> -> ->] & Hk) & He) & Hp) & Hn).
    split_and!; done || lia.
  - intros (? & ? & ? & ?). exists n; split; [exists p; split; [exists e; split; [by exists k|]|]|];
      done || lia.
Qed.

Lemma NoDup_expected d : NoDup (expected_identities d).
Proof.
  unfold expected_identities.
  repeat (apply NoDup_bind; [| |first [apply NoDup_seqZ | by apply (bool_decide_unpack _)]];
          [intros *; repeat setoid_rewrite list_elem_of_bind;
           setoid_rewrite list_elem_of_singleton; naive_solver | intros ? _]).
  apply NoDup_singleton.
Qed.

(** The bytes of a complete layer, in closed form. *)
Definition layer_bytes (d : dims) : Z :=
  let per_numa := d_intermediate d / d_numa d in
  d_numa d * d_experts d * (3 * (d_hidden d * per_numa) + 8 * per_numa + 4 * d_hidden d).

Lemma sum_expected d : 0 <= d_numa d → 0 <= d_experts d →
  sumZ (identity_size d) (expected_identities d) = layer_bytes d.
Proof.
  intros HN HE. unfold expected_identities. rewrite sumZ_bind.
  rewrite (sumZ_ext _ (fun _ => d_experts d * (3 * (d_hidden d * (d_intermediate d / d_numa d))
             + 8 * (d_intermediate d / d_numa d) + 4 * d_hidden d))).
  { rewrite sumZ_const, length_seqZ. unfold layer_bytes. rewrite Z2Nat.id by done. lia. }
  intros n _. rewrite sumZ_bind. unfold projections. simpl.
  rewrite !sumZ_bind. unfold kinds. simpl.
  unfold projection_size. simpl. rewrite !sumZ_const, length_seqZ, Z2Nat.id by done. lia.
Qed.

Lemma length_expected d : 0 <= d_numa d → 0 <= d_experts d →
  Z.of_nat (length (expected_identities d)) = d_numa d * d_experts d * 6.
Proof.
  intros HN HE.
  assert (sumZ (fun _ => 1) (expected_identities d) = d_numa d * d_experts d * 6) as <-.
  { unfold expected_identities. rewrite sumZ_bind.
    rewrite (sumZ_ext _ (fun _ => d_experts d * 6)).
    { rewrite sumZ_const, length_seqZ, Z2Nat.id by done. lia. }
    intros n _. rewrite sumZ_bind. simpl. rewrite !sumZ_bind. simpl.
    rewrite !sumZ_const, length_seqZ, Z2Nat.id by done. lia. }
  rewrite sumZ_const. lia.
Qed.

(** ** The tree below a layer *)

(** The components of a weight file's path below the root. *)
Definition kt_path (i n : Z) (name : string) : path := [layer_dir_name i; numa_dir_name n; name].

(** [name] spells the identity [ident] and the size the contract gives it. *)
Definition kt_entry (d : dims) (ident : identity) (name : string) : Prop :=
  let '(_, p, e, k) := ident in
  ∃ expert_text size_text,
    kt_file_match name = Some (p, expert_text, size_text, k) ∧
    parse_digits expert_text = Some e ∧ parse_digits size_text = Some (projection_size d p k).

Definition pair_key (i : Z) (pr : Z * string) : string := posix_join (kt_path i pr.1 pr.2).
Definition pair_ok (pr : Z * string) : Prop := 0 <= pr.1 ∧ name_ok pr.2 = true.

Lemma kt_path_ok i n name : 0 <= i → 0 <= n → name_ok name = true →
  Forall (fun c => name_ok c = true) (kt_path i n name).
Proof. intros. repeat constructor; auto using layer_dir_name_ok, numa_dir_name_ok. Qed.

Lemma pair_key_inj i pr pr' : 0 <= i → pair_ok pr → pair_ok pr' →
  pair_key i pr = pair_key i pr' → pr = pr'.
Proof.
  intros Hi [] [] Hk. apply posix_join_inj in Hk; try done; try by apply kt_path_ok.
  assert (numa_dir_name pr.1 = numa_dir_name pr'.1 ∧ pr.2 = pr'.2) as [Hn%numa_dir_name_inj ?]
    by (unfold kt_path in Hk; split; congruence).
  by destruct pr, pr'; simpl in *; subst.
Qed.

Section layer.
Context (t : fs) (Hwf : fs_wf t) (d : dims) (root : path) (i : Z).
Context (Hroot : real_dir t root) (Hi : 0 <= i).

Definition entry_size (pr : Z * string) : option Z :=
  match t !! (root ++ kt_path i pr.1 pr.2) with
  | Some (NFile _ data) => Some (file_size data)
  | _ => None
  end.

(** [sizes] records exactly the files of the listed places. *)
Definition covers (pairs : list (Z * string)) (sizes : gmap string Z) : Prop :=
  Forall (fun pr => pair_ok pr ∧ is_Some (entry_size pr)) pairs ∧
  ∀ rel sz, sizes !! rel = Some sz ↔
    ∃ pr, pr ∈ pairs ∧ pair_key i pr = rel ∧ entry_size pr = Some sz.

Lemma covers_nil : covers [] ∅.
Proof.
  split; [done|]. intros rel sz. rewrite lookup_empty.
  split; [done|]. by intros (pr & Hpr%elem_of_nil & _).
Qed.

Lemma covers_snoc pairs sizes pr sz :
  covers pairs sizes → pair_ok pr → entry_size pr = Some sz →
  covers (pairs ++ [pr]) (<[pair_key i pr := sz]> sizes).
Proof.
  intros [Hall Hs] Hok Hsz. split.
  { apply Forall_app_2; [done|]. constructor; [|done]. split; [done|by eexists]. }
  intros rel sz'. rewrite lookup_insert. setoid_rewrite elem_of_app.
  setoid_rewrite list_elem_of_singleton. case_decide as Hk.
  - split; [intros [= <-]; exists pr; naive_solver|].
    intros (pr' & Hin & Hk' & Hsz'). assert (pr' = pr) as ->; [|congruence].
    destruct Hin as [Hin|]; [|done]. rewrite Forall_forall in Hall.
    apply Hall in Hin as [? _]. eapply pair_key_inj; eauto. congruence.
  - rewrite Hs. naive_solver.
Qed.

(** Every NUMA directory of the layer is a real directory. *)
Definition numa_dirs_real : Prop :=
  real_dir t (root ++ [layer_dir_name i]) ∧
  (∀ n, 0 <= n < d_numa d → real_dir t (root ++ [layer_dir_name i; numa_dir_name n])) ∧
  (∀ e, is_Some (t !! (root ++ [layer_dir_name i; e])) →
     ∃ n, 0 <= n < d_numa d ∧ e = numa_dir_name n).

Lemma check_layer_entries_ok u : check_layer_entries t d root i = Ok u → numa_dirs_real.
Proof.
  unfold check_layer_entries. intros H.
  inv_guard H as Hl0. inv_bind H as entries Hent. inv_guard H as Hex.
  apply raise_if_ok in H. bools. rename H into Hc.
  assert (name_ok (layer_dir_name i) = true) as Hl by by apply layer_dir_name_ok.
  assert (real_dir t (root ++ [layer_dir_name i])) as Hlayer.
  { destruct (child_is_dir t root (layer_dir_name i)) as [m Hm]; try done.
    by eapply real_dir_child. }
  rewrite iterdir_real in Hent by done. injection Hent as <-.
  assert (∀ e, e ∈ children t (root ++ [layer_dir_name i]) ↔
               ∃ n, 0 <= n < d_numa d ∧ e = numa_dir_name n) as Hset.
  { intros e. rewrite <-(elem_of_list_to_set (C := gset string)), Hc, elem_of_list_to_set,
      list_elem_of_fmap. setoid_rewrite elem_of_seqZ. naive_solver lia. }
  assert (∀ r, (root ++ [layer_dir_name i]) ++ r = root ++ layer_dir_name i :: r) as Happ
    by (intros; by rewrite <-app_assoc).
  split_and!; [done| |].
  - intros n Hn. rewrite <-(Happ [numa_dir_name n]).
    assert (numa_dir_name n ∈ children t (root ++ [layer_dir_name i])) as Hin
      by (apply Hset; eauto).
    assert (p_is_symlink t ((root ++ [layer_dir_name i]) ++ [numa_dir_name n])
            || negb (p_is_dir t ((root ++ [layer_dir_name i]) ++ [numa_dir_name n])) = false)
      as Hns.
    { apply not_true_is_false. intros Ht. apply not_true_iff_false in Hex. apply Hex.
      apply existsb_exists. exists (numa_dir_name n).
      rewrite <-list_elem_of_In. done. }
    bools. assert (name_ok (numa_dir_name n) = true) by (apply numa_dir_name_ok; lia).
    destruct (child_is_dir t (root ++ [layer_dir_name i]) (numa_dir_name n)) as [m Hm]; try done.
    by eapply real_dir_child.
  - intros e He. apply Hset, elem_of_children. by rewrite Happ.
Qed.

Definition numa_pairs (n : Z) : list (Z * string) :=
  (n,.) <$> children t (root ++ [layer_dir_name i; numa_dir_name n]).

Lemma scan_numa_ok pairs sizes sizes' n :
  numa_dirs_real → 0 <= n < d_numa d → covers pairs sizes →
  scan_numa t root i sizes n = Ok sizes' → covers (pairs ++ numa_pairs n) sizes'.
Proof.
  intros (_ & Hd & _) Hn Hcov. unfold scan_numa, numa_pairs. intros H.
  inv_bind H as entries Hent. rewrite iterdir_real in Hent by eauto. injection Hent as <-.
  pose proof (Hd n Hn) as Hnd. revert H.
  apply (for_each_inv (fun pre sizes => covers (pairs ++ ((n,.) <$> pre)) sizes)).
  { by rewrite app_nil_r. }
  intros pre e b b' Hpre Hb He. rewrite fmap_app, app_assoc.
  assert (e ∈ children t (root ++ [layer_dir_name i; numa_dir_name n])) as Hin.
  { destruct Hpre as [l ->]. rewrite !elem_of_app, list_elem_of_singleton. auto. }
  assert (name_ok e = true) as Hne by (by eapply children_name_ok).
  assert (root ++ kt_path i n e = (root ++ [layer_dir_name i; numa_dir_name n]) ++ [e]) as Hp
    by (by rewrite <-app_assoc).
  change (root ++ [layer_dir_name i; numa_dir_name n] ++ [e]) with (root ++ kt_path i n e) in He.
  rewrite Hp, lstat_child in He by done. rewrite <-Hp in He.
  destruct (t !! (root ++ kt_path i n e)) as [[]|] eqn:E; try done.
  injection He as <-. apply (covers_snoc _ _ (n, e)); [done|split; [simpl; lia|done]|].
  unfold entry_size. simpl. by rewrite E.
Qed.

Lemma scan_layer_ok sizes :
  numa_dirs_real → for_each (seqZ 0 (d_numa d)) ∅ (scan_numa t root i) = Ok sizes →
  covers (seqZ 0 (d_numa d) ≫= numa_pairs) sizes.
Proof.
  intros Hd.
  apply (for_each_inv (fun pre sizes => covers (pre ≫= numa_pairs) sizes)).
  { apply covers_nil. }
  intros pre n b b' Hpre Hb Hs. rewrite bind_app. simpl. rewrite app_nil_r.
  apply (scan_numa_ok _ b); try done.
  assert (n ∈ seqZ 0 (d_numa d)) as Hn; [|apply elem_of_seqZ in Hn; lia].
  destruct Hpre as [l ->]. rewrite !elem_of_app, list_elem_of_singleton. auto.
Qed.

(** The files found are the entries of the NUMA directories. *)
Lemma layer_sizes_spec sizes rel sz :
  numa_dirs_real → covers (seqZ 0 (d_numa d) ≫= numa_pairs) sizes →
  sizes !! rel = Some sz ↔
  ∃ n name, 0 <= n < d_numa d ∧ name_ok name = true ∧ rel = posix_join (kt_path i n name) ∧
            entry_size (n, name) = Some sz.
Proof.
  intros (_ & Hd & _) [Hall Hs]. rewrite Hs. unfold numa_pairs, pair_key.
  setoid_rewrite list_elem_of_bind. setoid_rewrite elem_of_seqZ.
  setoid_rewrite list_elem_of_fmap. split.
  - intros ([? ?] & (n & (name & [= -> ->] & Hin) & Hn) & <- & Hsz).
    exists n, name. split_and!; try done; try lia. by eapply children_name_ok.
  - intros (n & name & Hn & Hok & -> & Hsz). exists (n, name). split_and!; try done.
    exists n. split; [|lia]. exists name. split; [done|].
    apply elem_of_children. unfold entry_size in Hsz. simpl in Hsz.
    rewrite <-app_assoc. change ([layer_dir_name i; numa_dir_name n] ++ [name])
      with (kt_path i n name).
    destruct (t !! (root ++ kt_path i n name)); [by eexists|done].
Qed.

Lemma layer_entries_are_files sizes n name :
  covers (seqZ 0 (d_numa d) ≫= numa_pairs) sizes → 0 <= n < d_numa d →
  is_Some (t !! (root ++ kt_path i n name)) → is_Some (entry_size (n, name)).
Proof.
  intros [Hall _] Hn Hx. rewrite Forall_forall in Hall. apply Hall.
  apply list_elem_of_bind. exists n. split; [|apply elem_of_seqZ; lia].
  apply list_elem_of_fmap. exists name. split; [done|].
  apply elem_of_children. by rewrite <-app_assoc.
Qed.
End layer.

(** ** The items of a layer *)

Definition numa_of (ident : identity) : Z := let '(n, _, _, _) := ident in n.

Section items.
Context `{Platform} (can_read : meta → bool).
Context (t : fs) (Hwf : fs_wf t) (d : dims) (root : path) (i : Z).
Context (Hroot : real_dir t root) (Hi : 0 <= i).
Context (schema_version : Z) (verify_hashes : bool).

(** [item] records the file [name] that holds [ident], which is as recorded. *)
Definition item_ok (item : pyval) (ent : identity * string) : Prop :=
  let '(ident, name) := ent in
  ∃ dct m data,
    item = PDict dct ∧
    ident ∈ expected_identities d ∧
    kt_entry d ident name ∧ name_ok name = true ∧
    pget "path" dct = PStr (posix_join (kt_path i (numa_of ident) name)) ∧
    t !! (root ++ kt_path i (numa_of ident) name) = Some (NFile m data) ∧
    file_size data = identity_size d ident ∧
    (2 <= schema_version → ∃ h, pget "sha256" dct = PStr h ∧ is_sha256_text h = true) ∧
    (verify_hashes = true → pget "sha256" dct = PStr (sha256 data)).

Context (Hd : numa_dirs_real t d root i) (sizes : gmap string Z).
Context (Hcov : covers t root i (seqZ 0 (d_numa d) ≫= numa_pairs t root i) sizes).

Lemma numa_dir_name_match n s : 0 <= n → numa_match (numa_dir_name n) = Some s → s = str_of_Z n.
Proof. intros Hn [Heq _]%numa_match_Some. by apply str_app_inj_l in Heq. Qed.

Lemma item_identity_ok n name ident sz :
  0 <= n → name_ok name = true →
  item_identity d i (posix_join (kt_path i n name)) = Ok (ident, sz) →
  numa_of ident = n ∧ ident ∈ expected_identities d ∧
  (sz = identity_size d ident → kt_entry d ident name).
Proof.
  intros Hn Hok. unfold item_identity.
  rewrite path_parts_posix_join by (done || by apply kt_path_ok). intros Hx.
  inv_guard Hx as _. unfold kt_path in Hx. inv_guard Hx as _.
  inv_bind Hx as numa_text Hnt. apply of_option_ok in Hnt.
  apply numa_dir_name_match in Hnt as ->; [|done].
  inv_bind Hx as n' Hn'. rewrite parse_str_of_Z in Hn' by done. injection Hn' as <-.
  inv_guard Hx as Hrange. inv_bind Hx as [[[p et] st] k] Hm. apply of_option_ok in Hm.
  inv_bind Hx as e He. apply of_option_ok in He. inv_guard Hx as Herange.
  inv_bind Hx as sz' Hsz. apply of_option_ok in Hsz. injection Hx as <- <-. bools.
  pose proof (proj1 (kt_file_match_Some _ _ _ _ _) Hm) as (_ & Hp & Hk & _).
  split_and!; [done| |].
  - apply elem_of_expected. bools. split_and!; done || lia.
  - intros ->. exists et, st. done.
Qed.

Lemma sha256_file_ok n name m data h :
  0 <= n → name_ok name = true → real_dir t (root ++ [layer_dir_name i; numa_dir_name n]) →
  t !! (root ++ kt_path i n name) = Some (NFile m data) →
  sha256_file t (root ++ kt_path i n name) = Ok h → h = sha256 data.
Proof.
  intros Hn Hok Hnd Hf. unfold sha256_file, read_bytes.
  assert (root ++ kt_path i n name = (root ++ [layer_dir_name i; numa_dir_name n]) ++ [name])
    as Hp by (by rewrite <-app_assoc).
  pose proof (stat_child t _ name Hnd Hok) as Hs. rewrite <-Hp, Hf in Hs. rewrite Hs. simpl.
  by intros [= <-].
Qed.

(** One round of the loop over the items. *)
Lemma check_item_ok acc item acc' :
  check_item can_read t d root i schema_version verify_hashes sizes acc item = Ok acc' →
  ∃ ident name, item_ok item (ident, name) ∧
    let rel := posix_join (kt_path i (numa_of ident) name) in
    rel ∉ seen_paths acc ∧ ident ∉ seen_identities acc ∧
    acc' = ItemAcc ({[rel]} ∪ seen_paths acc) ({[ident]} ∪ seen_identities acc)
                   (actual_size acc + identity_size d ident).
Proof.
  unfold check_item. intros Hx.
  inv_bind Hx as dct Hdct. apply of_option_ok, as_dict_Some in Hdct as ->.
  inv_bind Hx as rel Hrel. apply of_option_ok, as_str_Some in Hrel.
  inv_guard Hx as Hnew. inv_bind Hx as [ident enc] Hident. inv_guard Hx as Hnewi.
  inv_bind Hx as obs Hobs. apply of_option_ok in Hobs. inv_guard Hx as _.
  inv_bind Hx as exp Hexp. destruct ident as [[[n0 p] e] k] eqn:Hid. rewrite <-Hid in *.
  inv_guard Hx as Hsz. inv_guard Hx as Hsz2. inv_bind Hx as u Hhash. injection Hx as <-. bools.
  apply (layer_sizes_spec t Hwf d root i sizes) in Hobs as (n & name & Hn & Hok & -> & Hes);
    [|done|done].
  apply item_identity_ok in Hident as (Hnu & Hin & Hent); [|lia|done].
  assert (enc = identity_size d ident ∧ obs = identity_size d ident) as [-> ->]
    by (rewrite Hid; simpl; split; congruence).
  pose proof Hd as (_ & Hnd & _). specialize (Hnd n Hn).
  unfold entry_size in Hes. simpl in Hes.
  destruct (t !! (root ++ kt_path i n name)) as [[m data| | |]|] eqn:Hf; try done.
  injection Hes as Hes. rewrite path_parts_posix_join in Hhash
    by (done || apply kt_path_ok; done || lia).
  exists ident, name. cbn zeta. rewrite Hnu. split; [|done].
  exists dct, m, data. rewrite Hnu. split_and!; try done; [by apply Hent| |].
  - intros Hsv. unfold check_hash in Hhash. inv_guard Hhash as Hg.
    assert (2 <=? schema_version = true) as Hle by by apply Z.leb_le. rewrite Hle in Hg.
    destruct (as_str (pget "sha256" dct)) as [h|] eqn:Eh; [|done].
    apply as_str_Some in Eh. exists h. simpl in Hg. by bools.
  - intros ->. unfold check_hash in Hhash. inv_guard Hhash as _.
    inv_bind Hhash as h Hh. apply of_option_ok, as_str_Some in Hh.
    inv_bind Hhash as h' Hh'. apply raise_if_ok in Hhash. bools. subst h'.
    rewrite Hh. f_equal. apply (sha256_file_ok n name m data); done || lia.
Qed.

(** What the loop has established after the items [pre]. *)
Definition items_inv (pre : list pyval) (acc : item_acc) : Prop :=
  ∃ ents, Forall2 item_ok pre ents ∧ NoDup (fst <$> ents) ∧
    seen_paths acc = list_to_set ((fun en => posix_join (kt_path i (numa_of en.1) en.2)) <$> ents) ∧
    seen_identities acc = list_to_set (fst <$> ents) ∧
    actual_size acc = sumZ (identity_size d) (fst <$> ents).

Lemma items_inv_loop files acc :
  for_each files (ItemAcc ∅ ∅ 0)
    (check_item can_read t d root i schema_version verify_hashes sizes) = Ok acc →
  items_inv files acc.
Proof.
  apply (for_each_inv items_inv).
  { exists []. split_and!; [constructor|constructor|done..]. }
  intros pre item b b' _ (ents & Hok & Hnd & Hp & Hids & Hsum) Hc.
  apply check_item_ok in Hc as (ident & name & Hitem & Hnp & Hni & ->).
  exists (ents ++ [(ident, name)]). rewrite !fmap_app. simpl. split_and!.
  - apply Forall2_app; [done|]. by constructor.
  - apply NoDup_app. split_and!; [done| |apply NoDup_singleton].
    intros x Hx ->%list_elem_of_singleton. apply Hni. rewrite Hids.
    by apply elem_of_list_to_set.
  - simpl. by rewrite Hp, list_to_set_snoc.
  - simpl. by rewrite Hids, list_to_set_snoc.
  - simpl. rewrite Hsum, sumZ_app. simpl. lia.
Qed.
End items.

(** ** What the validator promises *)

(** Layer [i] of the tree: [N] NUMA directories and nothing else, and in them
    exactly one weight file per identity, of the size the contract gives. *)
Record layer_spec (t : fs) (d : dims) (root : path) (i : Z) : Prop := {
  ls_numa_dirs : numa_dirs_real t d root i;
  ls_only : ∀ n name, 0 <= n < d_numa d → is_Some (t !! (root ++ kt_path i n name)) →
    ∃ ident, ident ∈ expected_identities d ∧ numa_of ident = n ∧ kt_entry d ident name;
  ls_each : ∀ ident, ident ∈ expected_identities d →
    ∃ name, kt_entry d ident name ∧
      (∃ m data, t !! (root ++ kt_path i (numa_of ident) name) = Some (NFile m data) ∧
                 file_size data = identity_size d ident) ∧
      ∀ name', kt_entry d ident name' →
        is_Some (t !! (root ++ kt_path i (numa_of ident) name')) → name' = name;
}.

(** Every weight file below layer [i] has the digest the manifest records. *)
Definition layer_hashes `{Platform} (t : fs) (d : dims) (root : path) (i : Z)
    (layer : list (string * pyval)) : Prop :=
  ∀ n name m data, 0 <= n < d_numa d → t !! (root ++ kt_path i n name) = Some (NFile m data) →
    ∃ files dct, pget "files" layer = PList files ∧ PDict dct ∈ files ∧
      pget "path" dct = PStr (posix_join (kt_path i n name)) ∧
      pget "sha256" dct = PStr (sha256 data).

Lemma kt_entry_identity d ident ident' name :
  kt_entry d ident name → kt_entry d ident' name → numa_of ident = numa_of ident' →
  ident = ident'.
Proof.
  destruct ident as [[[n p] e] k], ident' as [[[n' p'] e'] k']. simpl.
  intros (et & st & Hm & He & _) (et' & st' & Hm' & He' & _) ->.
  rewrite Hm in Hm'. injection Hm' as -> -> _ ->. rewrite He in He'. by injection He' as ->.
Qed.

Section layer_theorem.
Context `{Platform} (can_read : meta → bool).
Context (t : fs) (Hwf : fs_wf t) (d : dims) (root : path) (i : Z).
Context (Hroot : real_dir t root) (Hi : 0 <= i) (sv : Z) (vh : bool).
Context (Hd : numa_dirs_real t d root i) (sizes : gmap string Z).
Context (Hcov : covers t root i (seqZ 0 (d_numa d) ≫= numa_pairs t root i) sizes).
Context (ents : list (identity * string)) (files : list pyval).
Context (Hents : Forall2 (item_ok t d root i sv vh) files ents) (Hnodup : NoDup (fst <$> ents)).
Context (Hpaths : dom sizes =
  list_to_set ((fun en => posix_join (kt_path i (numa_of en.1) en.2)) <$> ents)).
Context (Hids : list_to_set (fst <$> ents) =@{gset identity}
  list_to_set (expected_identities d)).

Lemma ent_item en : en ∈ ents → ∃ item, item ∈ files ∧ item_ok t d root i sv vh item en.
Proof.
  intros [j Hj]%list_elem_of_lookup_1.
  destruct (Forall2_lookup_r _ _ _ _ _ Hents Hj) as (item & Hitem & Hok).
  exists item. split; [by eapply list_elem_of_lookup_2|done].
Qed.

(** Every entry of a NUMA directory is the file of some item. *)
Lemma file_ent n name : 0 <= n < d_numa d → is_Some (t !! (root ++ kt_path i n name)) →
  ∃ ident, (ident, name) ∈ ents ∧ numa_of ident = n.
Proof.
  intros Hn Hx.
  assert (name_ok name = true) as Hok.
  { destruct Hx as [x Hx]. change (kt_path i n name) with
      ([layer_dir_name i; numa_dir_name n] ++ [name]) in Hx.
    rewrite app_assoc in Hx. by eapply (wf_name t). }
  apply (layer_entries_are_files t d root i sizes) in Hx as [sz Hsz]; try done.
  assert (sizes !! posix_join (kt_path i n name) = Some sz) as Hl.
  { apply (layer_sizes_spec t Hwf d root i); try done. by exists n, name. }
  apply elem_of_dom_2 in Hl. rewrite Hpaths in Hl.
  apply elem_of_list_to_set, list_elem_of_fmap in Hl as ([ident name'] & Heq & Hin).
  destruct (ent_item _ Hin) as (item & _ & dct & m & data & _ & Hexp & _ & Hok' & _).
  cbn [fst snd] in Heq. destruct ident as [[[n' p] e] k]. apply elem_of_expected in Hexp as (? & _).
  cbn [numa_of] in *. apply posix_join_inj in Heq; try done; [|apply kt_path_ok; done || lia..].
  unfold kt_path in Heq. injection Heq as Hn' ->.
  apply str_of_Z_inj in Hn' as ->.
  by exists (n', p, e, k).
Qed.

Lemma items_layer_spec : layer_spec t d root i.
Proof.
  split; [done| |].
  - intros n name Hn Hx. destruct (file_ent n name Hn Hx) as (ident & Hin & <-).
    destruct (ent_item _ Hin) as (item & _ & dct & m & data & _ & Hexp & He & _). eauto.
  - intros ident Hident.
    assert (∃ name, (ident, name) ∈ ents) as [name Hin].
    { apply (elem_of_list_to_set (C := gset identity)) in Hident. rewrite <-Hids in Hident.
      apply elem_of_list_to_set, list_elem_of_fmap in Hident as ([? name] & -> & ?). eauto. }
    destruct (ent_item _ Hin) as (item & _ & dct & m & data & _ & _ & He & _ & _ & Hf & Hsz & _).
    exists name. split_and!; eauto. intros name' He' Hx.
    assert (0 <= numa_of ident < d_numa d) as Hn.
    { destruct ident as [[[? ?] ?] ?]. by apply elem_of_expected in Hident as [? _]. }
    destruct (file_ent _ name' Hn Hx) as (ident' & Hin' & Hnu).
    destruct (ent_item _ Hin') as (item' & Hi' & dct' & m' & data' & _ & _ & He'' & _).
    assert (ident' = ident) as -> by by eapply kt_entry_identity.
    by eapply NoDup_fst_functional.
Qed.
End layer_theorem.

Section validate_layer_theorem.
Context `{Platform} (can_read : meta → bool).
Context (t : fs) (Hwf : fs_wf t) (d : dims) (root : path).
Context (Hroot : real_dir t root) (HN : 0 <= d_numa d) (HE : 0 <= d_experts d).

Lemma nonnegative_int_ok v n : nonnegative_int v = Ok n → v = PInt n ∧ 0 <= n.
Proof.
  unfold nonnegative_int. destruct v; simpl; try done.
  destruct (n0 <? 0) eqn:E; [done|]. intros [= <-]. by bools.
Qed.

Lemma positive_int_ok v n : positive_int v = Ok n → v = PInt n ∧ 0 < n.
Proof.
  unfold positive_int. destruct v; simpl; try done.
  destruct (n0 <=? 0) eqn:E; [done|]. intros [= <-]. by bools.
Qed.

Lemma items_layer_hashes i sv sizes ents files dct :
  0 <= i → numa_dirs_real t d root i →
  covers t root i (seqZ 0 (d_numa d) ≫= numa_pairs t root i) sizes →
  Forall2 (item_ok t d root i sv true) files ents → NoDup (fst <$> ents) →
  dom sizes = list_to_set ((fun en => posix_join (kt_path i (numa_of en.1) en.2)) <$> ents) →
  pget "files" dct = PList files → layer_hashes t d root i dct.
Proof.
  intros Hi Hd Hcov Hents Hnd Hp Hfiles n name m data Hn Hf.
  destruct (file_ent t Hwf d root i Hi sv true Hd sizes Hcov ents files Hents Hp n name)
    as (ident & Hin & <-); [done|by eexists|].
  destruct (ent_item t d root i sv true ents files Hents _ Hin)
    as (item & Hitem & dct' & m' & data' & -> & _ & _ & _ & Hpath & Hf' & _ & _ & Hh).
  exists files, dct'. split_and!; try done. rewrite Hh by done. congruence.
Qed.

(** The record of a layer that the validator accepts. *)
Lemma validate_layer_ok sv vh layer fc bytes :
  validate_layer can_read t d root sv vh layer = Ok (fc, bytes) →
  ∃ dct i, layer = PDict dct ∧ pget "index" dct = PInt i ∧ 0 <= i ∧
    pget "state" dct = PStr "ready" ∧ pget "numa_count" dct = PInt (d_numa d) ∧
    pget "bytes" dct = PInt (layer_bytes d) ∧
    layer_spec t d root i ∧ (vh = true → layer_hashes t d root i dct) ∧
    fc = d_numa d * d_experts d * 6 ∧ bytes = layer_bytes d.
Proof.
  unfold validate_layer. intros Hx.
  inv_bind Hx as dct Hdct. apply of_option_ok, as_dict_Some in Hdct as ->.
  inv_bind Hx as i Hidx. apply nonnegative_int_ok in Hidx as [Hidx Hi].
  inv_guard Hx as Hst. inv_bind Hx as nc Hnc. apply positive_int_ok in Hnc as [Hnc _].
  inv_guard Hx as Hnceq. inv_bind Hx as u Hle.
  apply (check_layer_entries_ok t Hwf d root i Hroot Hi) in Hle as Hd.
  inv_bind Hx as sizes Hsz. apply (scan_layer_ok t Hwf d root i Hi) in Hsz as Hcov; [|done].
  inv_bind Hx as files Hfiles. apply of_option_ok, as_list_Some in Hfiles.
  inv_guard Hx as Hlen. inv_bind Hx as acc Hacc.
  apply items_inv_loop in Hacc as (ents & Hents & Hnd & Hp & Hids & Hsum); [|done..].
  inv_guard Hx as Hinv. inv_guard Hx as Hset. inv_bind Hx as ms Hms. inv_guard Hx as Hms2.
  injection Hx as <- <-. bools. apply positive_int_ok in Hms as [Hms _].
  apply py_eq_str in Hst. rewrite Hids in Hinv.
  assert ((fst <$> ents) ≡ₚ expected_identities d) as Hperm.
  { apply NoDup_same_perm; [done|apply NoDup_expected|].
    intros x. rewrite <-!(elem_of_list_to_set (C := gset identity)). by rewrite Hinv. }
  assert (actual_size acc = layer_bytes d) as Hbytes
    by (rewrite Hsum, Hperm; by apply sum_expected).
  exists dct, i. split_and!; try done; try congruence.
  - apply (items_layer_spec t Hwf d root i Hi sv vh Hd sizes Hcov ents files); try done.
    congruence.
  - intros ->. eapply items_layer_hashes; eauto. congruence.
  - lia.
Qed.
End validate_layer_theorem.

(** A persistent tree of the given layers, described by the file [name]. *)
Record tree_spec (t : fs) (d : dims) (layers : list Z) (root : path) (name : string) : Prop := {
  ts_root : real_dir t root;
  ts_manifest : ∃ m data, t !! (root ++ [name]) = Some (NFile m data);
  ts_only : ∀ e, is_Some (t !! (root ++ [e])) ↔
    e = name ∨ ∃ i, i ∈ layers ∧ e = layer_dir_name i;
  ts_layer : ∀ i, i ∈ layers → layer_spec t d root i;
}.

Lemma resolve_root_ok t s p : fs_wf t → resolve_root t s = Ok p → real_dir t p.
Proof.
  unfold resolve_root. intros Hwf Hx. inv_guard Hx as _. inv_guard Hx as _.
  inv_bind Hx as q Hq. apply of_option_ok in Hq. inv_guard Hx as Hd. injection Hx as <-.
  bools. by eapply realpath_dir.
Qed.

Lemma load_manifest_ok `{Platform} t root name manifest sv :
  fs_wf t → real_dir t root → load_manifest t root = Ok (name, manifest, sv) →
  name = (if sv =? 1 then LEGACY_MANIFEST_NAME else MANIFEST_NAME) ∧ (sv = 1 ∨ sv = 2) ∧
  pget "schema_version" manifest = PInt sv ∧
  ∃ m data, t !! (root ++ [name]) = Some (NFile m data) ∧ json_loads data = Some (PDict manifest).
Proof.
  unfold load_manifest. intros Hwf Hroot.
  set (cands := List.filter _ _).
  assert (∀ x, x ∈ cands → x = MANIFEST_NAME ∨ x = LEGACY_MANIFEST_NAME) as Hc.
  { intros x Hx%list_elem_of_In%filter_In. destruct Hx as [[<-|[<-|[]]] _]; auto. }
  clearbody cands. destruct cands as [|nm [|? ?]]; try done.
  specialize (Hc nm ltac:(left)). intros Hx.
  inv_guard Hx as Hf. inv_bind Hx as mf Hmf. inv_bind Hx as dct Hdct.
  apply of_option_ok, as_dict_Some in Hdct as ->.
  inv_bind Hx as v Hv. apply of_option_ok, as_int_Some in Hv.
  inv_guard Hx as Hsup. inv_guard Hx as H1. inv_guard Hx as H2. injection Hx as -> -> ->.
  bools. assert (name_ok name = true) as Hok by (by destruct Hc as [->| ->]).
  destruct (child_is_file t root name) as (m & data & Hdata); try done.
  assert (sv = 1 ∨ sv = 2) as Hsv.
  { unfold SUPPORTED_SCHEMA_VERSIONS, SCHEMA_VERSION in Hsup. set_solver. }
  split_and!; try done.
  - destruct Hsv as [->| ->]; simpl in *; by bools.
  - exists m, data. split; [done|].
    pose proof (stat_child t root name Hroot Hok) as Hs. rewrite Hdata in Hs.
    unfold read_bytes in Hmf. rewrite Hs in Hmf. simpl in Hmf.
    destruct (json_loads data) as [v|]; simpl in Hmf; [congruence|].
    done.
Qed.

Lemma layer_index_ok layer i : layer_index layer = Ok i →
  ∃ dct, layer = PDict dct ∧ pget "index" dct = PInt i ∧ 0 <= i.
Proof.
  unfold layer_index. intros Hx. inv_bind Hx as dct Hd. apply of_option_ok, as_dict_Some in Hd.
  inv_bind Hx as j Hj. apply of_option_ok, as_int_Some in Hj. inv_guard Hx as Hg.
  injection Hx as <-. bools. eauto.
Qed.

(** The indices of the manifest's layers are the expected ones, each once. *)
Lemma check_layer_set_ok expected layers u : check_layer_set expected layers = Ok u →
  ∃ idx, Forall2 (fun l i => layer_index l = Ok i) layers idx ∧ NoDup idx ∧ idx ≡ₚ expected.
Proof.
  unfold check_layer_set. intros Hx. inv_bind Hx as idx Hidx. inv_guard Hx as Hdup.
  apply raise_if_ok in Hx. bools. exists idx. split_and!.
  - revert Hidx. apply (for_each_inv (fun pre acc =>
      Forall2 (fun l i => layer_index l = Ok i) pre acc)); [done|].
    intros pre x b b' _ Hb Hs. inv_bind Hs as i Hi. injection Hs as <-.
    apply Forall2_app; [done|]. by constructor.
  - apply Nat.eqb_eq in Hdup. by apply NoDup_remove_dups_length.
  - by rewrite <-Hx, merge_sort_Permutation.
Qed.

Section tree_theorem.
Context `{Platform} (can_read : meta → bool).
Context (t : fs) (Hwf : fs_wf t) (d : dims) (HN : 0 <= d_numa d) (HE : 0 <= d_experts d).

(** The totals the loop over the layers adds up, and what it has checked. *)
Definition layers_done (root : path) (vh : bool) (pre : list pyval) (acc : Z * Z) : Prop :=
  acc = (Z.of_nat (length pre) * (d_numa d * d_experts d * 6),
         Z.of_nat (length pre) * layer_bytes d) ∧
  Forall (fun layer => ∃ dct i, layer = PDict dct ∧ pget "index" dct = PInt i ∧
    layer_spec t d root i ∧ (vh = true → layer_hashes t d root i dct)) pre.

Lemma layers_loop root sv vh layers acc :
  real_dir t root →
  for_each layers (0, 0) (fun acc layer =>
      '(layer_files, layer_bytes) ← validate_layer can_read t d root sv vh layer;
      mret (acc.1 + layer_files, acc.2 + layer_bytes)) = Ok acc →
  layers_done root vh layers acc.
Proof.
  intros Hroot. apply (for_each_inv (layers_done root vh)); [done|].
  intros pre layer b b' _ [-> Hall] Hb. inv_bind Hb as [fc by'] Hl. injection Hb as <-.
  apply validate_layer_ok in Hl
    as (dct & i & -> & Hidx & _ & _ & _ & _ & Hspec & Hh & -> & ->); [|done..].
  split; [rewrite length_app; simpl; f_equal; lia|].
  apply Forall_app_2; [done|]. constructor; [eauto 6|done].
Qed.

Lemma check_root_entries_ok root name expected u :
  real_dir t root → check_root_entries t root name expected = Ok u →
  ∀ e, is_Some (t !! (root ++ [e])) ↔ e = name ∨ ∃ i, i ∈ expected ∧ e = layer_dir_name i.
Proof.
  intros Hroot. unfold check_root_entries. rewrite iterdir_real by done. simpl. intros Hx.
  inv_guard Hx as _. apply raise_if_ok in Hx. bools. intros e.
  rewrite <-elem_of_children, <-(elem_of_list_to_set (C := gset string)), Hx.
  rewrite elem_of_union, elem_of_singleton, elem_of_list_to_set, list_elem_of_fmap. naive_solver.
Qed.

Lemma validate_tree_ok layers vh root name manifest sv v :
  real_dir t root → (∃ m data, t !! (root ++ [name]) = Some (NFile m data)) →
  validate_tree can_read t d layers vh root name manifest sv = Ok v →
  tree_spec t d layers root name ∧
  vm_root v = root ∧ vm_path v = root ++ [name] ∧ vm_schema_version v = sv ∧
  vm_layout v = INT8_WEIGHT_LAYOUT ∧ vm_layer_indices v = layers ∧
  vm_file_count v = Z.of_nat (length layers) * (d_numa d * d_experts d * 6) ∧
  vm_size_bytes v = Z.of_nat (length layers) * layer_bytes d ∧
  (match vh with None => 2 <=? sv | Some b => b end = true →
   ∃ ls, pget "layers" manifest = PList ls ∧
   ∀ i, i ∈ layers → ∃ dct, PDict dct ∈ ls ∧ pget "index" dct = PInt i ∧
                            layer_hashes t d root i dct).
Proof.
  intros Hroot Hm. unfold validate_tree. intros Hx.
  inv_bind Hx as u Hmeta. inv_bind Hx as layout Hlay. inv_bind Hx as ls Hls.
  apply of_option_ok, as_list_Some in Hls. inv_bind Hx as u' Hset.
  inv_bind Hx as [fc sb] Hloop. inv_bind Hx as mb Hmb. inv_guard Hx as _.
  inv_bind Hx as u'' Hre. injection Hx as <-. simpl.
  apply check_layer_set_ok in Hset as (idx & Hidx & Hnd & Hperm).
  pose proof (check_root_entries_ok _ _ _ _ Hroot Hre) as Hentries.
  apply layers_loop in Hloop as [[= -> ->] Hall]; [|done].
  assert (length ls = length layers) as Hlen
    by (rewrite (Forall2_length _ _ _ Hidx); by rewrite Hperm).
  assert (∀ i, i ∈ layers → ∃ dct, PDict dct ∈ ls ∧ pget "index" dct = PInt i ∧
    layer_spec t d root i ∧
    (match vh with None => 2 <=? sv | Some b => b end = true → layer_hashes t d root i dct))
    as Hlayer.
  { intros i Hi. rewrite <-Hperm in Hi. apply list_elem_of_lookup in Hi as [j Hj].
    destruct (Forall2_lookup_r _ _ _ _ _ Hidx Hj) as (l & Hl & Hli).
    apply layer_index_ok in Hli as (dct & -> & Hi & _).
    pose proof (proj1 (Forall_lookup _ _) Hall _ _ Hl) as (dct' & i' & [= <-] & Hi' & Hs & Hh).
    assert (i' = i) as -> by congruence.
    exists dct. split_and!; try done. by eapply list_elem_of_lookup_2. }
  split_and!; try done; try congruence.
  - split; try done. intros i Hi. by destruct (Hlayer i Hi) as (? & _ & _ & ? & _).
  - unfold check_layout in Hlay. destruct (sv =? 1).
    + inv_guard Hlay as _. by injection Hlay as <-.
    + inv_guard Hlay as _. inv_guard Hlay as _. by injection Hlay as <-.
  - intros Hv. exists ls. split; [done|]. intros i Hi.
    destruct (Hlayer i Hi) as (dct & ? & ? & _ & ?). eauto.
Qed.
End tree_theorem.

(** ** The properties of [validate_persistent_int8_weights] *)

Section properties.
Context `{Platform} (can_read : meta → bool).

Lemma validate_ok t root layers n e h im vh v :
  fs_wf t →
  validate_persistent_int8_weights can_read t root layers n e h im vh = Ok v →
  ∃ name manifest sv,
    0 < n ∧ 0 < e ∧ 0 < h ∧ 0 < im ∧ (n | im) ∧
    sorted_set layers ≠ [] ∧ (∀ i, i ∈ layers → 0 <= i) ∧
    resolve_root t root = Ok (vm_root v) ∧
    load_manifest t (vm_root v) = Ok (name, manifest, sv) ∧
    validate_tree can_read t (Dims n e h im) (sorted_set layers) vh (vm_root v) name manifest sv
      = Ok v.
Proof.
  intros Hwf. unfold validate_persistent_int8_weights. intros Hx.
  inv_bind Hx as n' Hn. apply positive_int_ok in Hn as [[= <-] Hn].
  inv_bind Hx as e' He. apply positive_int_ok in He as [[= <-] He].
  inv_bind Hx as h' Hh. apply positive_int_ok in Hh as [[= <-] Hh].
  inv_bind Hx as im' Him. apply positive_int_ok in Him as [[= <-] Him].
  inv_guard Hx as Hmod. inv_guard Hx as Hl. inv_bind Hx as r Hr.
  inv_bind Hx as [[name manifest] sv] Hm.
  assert (real_dir t r) as Hrd by by eapply resolve_root_ok.
  pose proof (load_manifest_ok _ _ _ _ _ Hwf Hrd Hm) as (_ & _ & _ & m & data & Hmd & _).
  pose proof (validate_tree_ok can_read t Hwf (Dims n e h im) ltac:(simpl; lia)
    ltac:(simpl; lia) _ _ _ _ _ _ _ Hrd ltac:(eauto) Hx) as (_ & Hroot & _).
  subst r. bools. exists name, manifest, sv. split_and!; try done.
  - by apply Z.mod_divide; [lia|].
  - intros i Hi. apply Z.nlt_ge. intros Hneg.
    assert (existsb (fun i => i <? 0) (sorted_set layers) = true) as Hex; [|congruence].
    apply existsb_exists. exists i. rewrite <-list_elem_of_In, elem_of_sorted_set.
    split; [done|]. by apply Z.ltb_lt.
Qed.

Lemma validate_tree_facts t root layers n e h im vh v :
  fs_wf t →
  validate_persistent_int8_weights can_read t root layers n e h im vh = Ok v →
  let d := Dims n e h im in
  ∃ name manifest sv,
    tree_spec t d (sorted_set layers) (vm_root v) name ∧
    load_manifest t (vm_root v) = Ok (name, manifest, sv) ∧
    vm_path v = vm_root v ++ [name] ∧ vm_schema_version v = sv ∧
    vm_layout v = INT8_WEIGHT_LAYOUT ∧ vm_layer_indices v = sorted_set layers ∧
    vm_file_count v = Z.of_nat (length (sorted_set layers)) * (n * e * 6) ∧
    vm_size_bytes v = Z.of_nat (length (sorted_set layers)) * layer_bytes d ∧
    (match vh with None => 2 <=? sv | Some b => b end = true →
     ∃ ls, pget "layers" manifest = PList ls ∧
     ∀ i, i ∈ sorted_set layers → ∃ dct, PDict dct ∈ ls ∧ pget "index" dct = PInt i ∧
                              layer_hashes t d (vm_root v) i dct).
Proof.
  intros Hwf Hv. destruct (validate_ok _ _ _ _ _ _ _ _ _ Hwf Hv)
    as (name & manifest & sv & Hn & He & _ & _ & _ & _ & _ & Hr & Hm & Ht).
  assert (real_dir t (vm_root v)) as Hrd by by eapply resolve_root_ok.
  pose proof (load_manifest_ok _ _ _ _ _ Hwf Hrd Hm) as (_ & _ & _ & m & data & Hmd & _).
  pose proof (validate_tree_ok can_read t Hwf (Dims n e h im) ltac:(simpl; lia)
    ltac:(simpl; lia) _ _ _ _ _ _ _ Hrd ltac:(eauto) Ht)
    as (? & _ & ? & ? & ? & ? & ? & ? & ?).
  exists name, manifest, sv. done.
Qed.

(** C1.  A tree that [validate_persistent_int8_weights] accepts holds exactly
    what it must: below the resolved root, the manifest and one directory per
    requested layer and nothing else; in each layer, one directory per NUMA
    node and nothing else; in those, exactly one regular file for every
    (NUMA node, projection, expert, kind) and nothing else, named after it and
    of the size the layout prescribes. *)
Theorem validated_tree_is_exact t root layers n e h im vh v :
  fs_wf t →
  validate_persistent_int8_weights can_read t root layers n e h im vh = Ok v →
  ∃ name, vm_path v = vm_root v ++ [name] ∧
    (name = MANIFEST_NAME ∨ name = LEGACY_MANIFEST_NAME) ∧
    tree_spec t (Dims n e h im) (vm_layer_indices v) (vm_root v) name.
Proof.
  intros Hwf Hv. destruct (validate_tree_facts _ _ _ _ _ _ _ _ _ Hwf Hv)
    as (name & manifest & sv & Hspec & Hm & Hp & _ & _ & -> & _).
  exists name. split; [done|]. split; [|done].
  apply load_manifest_ok in Hm as (-> & _); [|done|apply Hspec].
  destruct (sv =? 1); auto.
Qed.

(** C2.  Integrity: when hashes are verified, which [verify_hashes=None] asks
    for on every schema-2 manifest, the content of every weight file of every
    requested layer has the digest that the manifest records for its path. *)
Theorem validated_tree_digests t root layers n e h im vh v :
  fs_wf t →
  validate_persistent_int8_weights can_read t root layers n e h im vh = Ok v →
  vh = Some true ∨ vh = None ∧ is_legacy v = false →
  ∃ name data manifest ls,
    read_bytes t (vm_root v ++ [name]) = Ok data ∧ json_loads data = Some (PDict manifest) ∧
    pget "layers" manifest = PList ls ∧
    ∀ i, i ∈ layers → ∃ layer, PDict layer ∈ ls ∧ pget "index" layer = PInt i ∧
      layer_hashes t (Dims n e h im) (vm_root v) i layer.
Proof.
  intros Hwf Hv Hvh. destruct (validate_tree_facts _ _ _ _ _ _ _ _ _ Hwf Hv)
    as (name & manifest & sv & Hspec & Hm & Hp & Hsv & _ & _ & _ & _ & Hh).
  apply load_manifest_ok in Hm as (Hname & Hsvs & _ & m & data & Hd & Hj); [|done|apply Hspec].
  destruct Hh as (ls & Hls & Hh).
  { destruct Hvh as [->|[-> Hl]]; [done|]. unfold is_legacy in Hl. rewrite Hsv in Hl.
    destruct Hsvs as [->| ->]; done. }
  exists name, data, manifest, ls. split_and!; try done.
  - assert (name_ok name = true) as Hok by (rewrite Hname; by destruct (sv =? 1)).
    pose proof (stat_child t _ name (ts_root _ _ _ _ _ Hspec) Hok) as Hs. rewrite Hd in Hs.
    unfold read_bytes. by rewrite Hs.
  - intros i Hi. apply Hh. by apply elem_of_sorted_set.
Qed.

(**  The totals that are reported are those of the layout, in closed form:
    [6NE] files per layer and [NE(3HI/N + 8I/N + 4H)] bytes per layer. *)
Theorem validated_tree_totals t root layers n e h im vh v :
  fs_wf t →
  validate_persistent_int8_weights can_read t root layers n e h im vh = Ok v →
  let nl := Z.of_nat (length (sorted_set layers)) in
  vm_layer_indices v = sorted_set layers ∧
  vm_file_count v = nl * (n * e * 6) ∧
  vm_size_bytes v = nl * (e * (3 * (h * im) + 8 * im + 4 * (n * h))) ∧
  0 < vm_size_bytes v.
Proof.
  intros Hwf Hv. destruct (validate_tree_facts _ _ _ _ _ _ _ _ _ Hwf Hv)
    as (name & manifest & sv & _ & _ & _ & _ & _ & Hl & Hfc & Hsz & _).
  destruct (validate_ok _ _ _ _ _ _ _ _ _ Hwf Hv)
    as (_ & _ & _ & Hn & He & Hh & Him & [k ->] & Hne & _).
  assert (0 < length (sorted_set layers))%nat by (destruct (sorted_set layers); [done|simpl; lia]).
  cbv zeta. split; [done|]. split; [done|].
  rewrite Hsz. unfold layer_bytes. simpl. rewrite Z.div_mul by lia.
  split; [lia|]. assert (0 < k) by nia. repeat apply Z.mul_pos_pos; try lia; nia.
Qed.

(** Bad dimensions are refused before the file system is consulted: the
    answer is the same [ValueError] whatever the tree is. *)
Theorem validate_rejects_dimensions t root layers n e h im vh :
  n <= 0 ∨ e <= 0 ∨ h <= 0 ∨ im <= 0 ∨ im mod n ≠ 0 ∨ layers = [] ∨ (∃ i, i ∈ layers ∧ i < 0) →
  ∃ msg, validate_persistent_int8_weights can_read t root layers n e h im vh
         = Err (Raise ValueError msg).
Proof.
  intros Hbad. unfold validate_persistent_int8_weights, positive_int. simpl.
  destruct (n <=? 0) eqn:En; simpl; [by eexists|].
  destruct (e <=? 0) eqn:Ee; simpl; [by eexists|].
  destruct (h <=? 0) eqn:Eh; simpl; [by eexists|].
  destruct (im <=? 0) eqn:Ei; simpl; [by eexists|].
  destruct (im mod n =? 0) eqn:Em; simpl; [|by eexists].
  assert (bool_decide (sorted_set layers = []) || existsb (fun i => i <? 0) (sorted_set layers)
          = true) as ->; [|by eexists].
  bools. destruct Hbad as [?|[?|[?|[?|[?|[->|(i & Hi & Hneg)]]]]]]; try lia; try done.
  apply orb_true_iff. right. apply existsb_exists. exists i.
  rewrite <-list_elem_of_In, elem_of_sorted_set. split; [done|]. by apply Z.ltb_lt.
Qed.
End properties.

(** ** A concrete tree *)
Module Example.
Definition digest : string := "00112233445566778899aabbccddeeff00112233445566778899aabbccddeeff".

Definition dm : meta := Meta 0 493.
Definition file_names : list (string * Z) :=
  [("INT8_gate_0_2Byte_quant_.kt", 2); ("INT8_gate_0_4Byte_scale_.kt", 4);
   ("INT8_up_0_2Byte_quant_.kt", 2); ("INT8_up_0_4Byte_scale_.kt", 4);
   ("INT8_down_0_2Byte_quant_.kt", 2); ("INT8_down_0_8Byte_scale_.kt", 8)].

Definition item (nm : string * Z) : pyval :=
  PDict [("path", PStr ("_layer_3/_numa_0/" +:+ nm.1)); ("size_bytes", PInt nm.2);
         ("sha256", PStr digest)].

Definition manifest : pyval :=
  PDict [("schema_version", PInt 2); ("state", PStr "ready");
         ("expert_weight_format", PStr "int8"); ("layout", PStr INT8_WEIGHT_LAYOUT);
         ("backend", PStr "INT8"); ("threadpool_count", PInt 1); ("expert_num", PInt 1);
         ("hidden_size", PInt 2); ("intermediate_size", PInt 1); ("bytes", PInt 22);
         ("layers", PList [PDict [("index", PInt 3); ("state", PStr "ready");
            ("numa_count", PInt 1); ("bytes", PInt 22);
            ("files", PList (item <$> file_names))]])].

#[export] Instance platform : Platform := {
  sha256 := fun _ => digest;
  json_loads := fun s => if String.eqb s "manifest" then Some manifest else None;
  json_dumps := fun _ => "manifest";
  py_repr := fun _ => "";
}.

Definition data (n : Z) : string := String.concat "" (replicate (Z.to_nat n) "w").

Definition tree : fs :=
  list_to_map (
    [([], NDir dm); (["w"], NDir dm); (["w"; MANIFEST_NAME], NFile dm "manifest");
     (["w"; "_layer_3"], NDir dm); (["w"; "_layer_3"; "_numa_0"], NDir dm)]
    ++ ((fun nm => (["w"; "_layer_3"; "_numa_0"; nm.1], NFile dm (data nm.2))) <$> file_names)).

Definition validated : ValidatedKTWeightManifest :=
  {| vm_root := ["w"]; vm_path := ["w"; MANIFEST_NAME]; vm_schema_version := 2;
     vm_layout := INT8_WEIGHT_LAYOUT; vm_layer_indices := [3]; vm_file_count := 6;
     vm_size_bytes := 22 |}.

Lemma tree_wf : fs_wf tree.
Proof. apply fs_wfb_sound. vm_compute. reflexivity. Qed.

Lemma tree_valid :
  validate_persistent_int8_weights (fun _ => true) tree "/w" [3] 1 1 2 1 None = Ok validated.
Proof. vm_compute. reflexivity. Qed.

Lemma validated_tree_is_exact_witness : ∃ name, vm_path validated = vm_root validated ++ [name] ∧
    (name = MANIFEST_NAME ∨ name = LEGACY_MANIFEST_NAME) ∧
    tree_spec tree (Dims 1 1 2 1) (vm_layer_indices validated) (vm_root validated) name.
Proof. exact (validated_tree_is_exact _ _ _ _ _ _ _ _ _ _ tree_wf tree_valid). Defined.

Lemma validated_tree_digests_witness :
  ∃ name data manifest ls,
    read_bytes tree (["w"] ++ [name]) = Ok data ∧ json_loads data = Some (PDict manifest) ∧
    pget "layers" manifest = PList ls ∧
    ∀ i, i ∈ [3] → ∃ layer, PDict layer ∈ ls ∧ pget "index" layer = PInt i ∧
      layer_hashes tree (Dims 1 1 2 1) ["w"] i layer.
Proof.
  apply (validated_tree_digests _ _ _ _ _ _ _ _ _ _ tree_wf tree_valid). by right.
Defined.

Lemma validated_tree_totals_witness :
  vm_layer_indices validated = sorted_set [3] ∧
  vm_file_count validated = Z.of_nat (length (sorted_set [3])) * (1 * 1 * 6) ∧
  vm_size_bytes validated =
    Z.of_nat (length (sorted_set [3])) * (1 * (3 * (2 * 1) + 8 * 1 + 4 * (1 * 2))) ∧
  0 < vm_size_bytes validated.
Proof. exact (validated_tree_totals _ _ _ _ _ _ _ _ _ _ tree_wf tree_valid). Defined.

Lemma validate_rejects_dimensions_witness :
  ∃ msg, validate_persistent_int8_weights (fun _ => true) tree "/w" [3] 2 1 2 1 None
         = Err (Raise ValueError msg).
Proof. apply validate_rejects_dimensions. do 4 right. left. done. Defined.
End Example.
