(* ===== verification/Ephemeral.v ===== *)
(** * The life cycle of ephemeral pre-quantised expert weights

    Models [kt-kernel/python/sft/ephemeral.py]: a producer publishes a staging
    tree below [/dev/shm] by renaming it, a consumer deletes it layer by layer
    while it loads, and either side can clean up or reclaim after a crash.
    Every mutating call goes through the [world] of [FS], whose history keeps
    each intermediate tree, so that what a crash would leave is a statement
    about that history. *)
From S2P Require Import Prelude PyStr PyVal FS WeightManifest.
From Stdlib Require Import Ascii.

Local Open Scope string_scope.
Local Open Scope list_scope.
Local Open Scope Z_scope.

Module Eph.
Definition MANIFEST_NAME : string := "kt-ephemeral-manifest.json".
Definition STAGING_LEASE_NAME : string := "kt-ephemeral-staging-lease.json".
Definition SCHEMA_VERSION : Z := 1.
Definition EPHEMERAL_BASE : path := ["dev"; "shm"].

(** [^[A-Za-z0-9][A-Za-z0-9._-]{5,127}$] *)
Definition run_id_char (c : ascii) : bool :=
  is_alnum c || Ascii.eqb c "."%char || Ascii.eqb c "_"%char || Ascii.eqb c "-"%char.
Definition run_id_match (s : string) : bool :=
  match s with
  | String c r =>
      is_alnum c && str_forall run_id_char r &&
      (5 <=? Z.of_nat (String.length r)) && (Z.of_nat (String.length r) <=? 127)
  | EmptyString => false
  end.

Definition validated_run_id (run_id : string) : res string :=
  _ ← raise_if (negb (run_id_match run_id)) ValueError "run_id must be 6-128 characters";
  mret run_id.

Definition strip_suffix (p s : string) : option string :=
  r ← strip_prefix (str_rev p "") (str_rev s ""); Some (str_rev r "").

Definition newline : ascii := "010"%char.

(** [^INT8_(gate|up|down)_(\d+)_.*Byte_(quant|scale)_\.kt$] and its groups *)
Definition kt_file_match (name : string) : option (string * string * string) :=
  r0 ← strip_prefix "INT8_" name;
  '(projection, r1) ← strip_one_of ["gate"; "up"; "down"] r0;
  r2 ← strip_prefix "_" r1;
  let '(expert_text, r3) := span_digits r2 in
  r4 ← strip_prefix "_" r3;
  let ending k := r ← strip_suffix ("Byte_" +:+ k +:+ "_.kt") r4;
                  if str_forall (fun c => negb (Ascii.eqb c newline)) r then Some k else None in
  if String.eqb expert_text "" then None
  else match ending "quant", ending "scale" with
       | Some k, _ | None, Some k => Some (projection, expert_text, k)
       | None, None => None
       end.

Definition staging_name (run_id : string) (staging : bool) : string :=
  "kt-int8-" +:+ run_id +:+ (if staging then ".staging" else "").

(** [stat.S_IWGRP | stat.S_IWOTH] *)
Definition group_or_world_write : Z := Z.lor 16 2.

(** [path.name] *)
Definition path_name (p : path) : string := default "" (last p).

Section tree_checks.
Context `{Platform} (t : fs).

Definition validate_owned_root (uid : Z) (root : string) (run_id : string) (staging : bool)
    : res path :=
  run_id ← validated_run_id run_id;
  base ← of_option (realpath t EPHEMERAL_BASE) FileNotFoundError "no /dev/shm";
  let p := path_parts root in
  _ ← raise_if (negb (is_absolute root)) ValueError "root must be an absolute path";
  _ ← raise_if (negb (String.eqb (path_name p) (staging_name run_id staging))) ValueError
        "root must be named after its run";
  _ ← raise_if (p_is_symlink t p) ValueError "root must not be a symlink";
  resolved ← of_option (realpath t p) FileNotFoundError "no such root";
  _ ← raise_if (negb (bool_decide (removelast resolved = base))) ValueError
        "root must be a direct child of /dev/shm";
  n ← of_option (stat t resolved) FileNotFoundError "root vanished";
  let root_stat := node_meta n in
  _ ← raise_if (negb (m_uid root_stat =? uid)) PermissionError "root has another owner";
  _ ← raise_if (negb (Z.land (m_mode root_stat) group_or_world_write =? 0)) PermissionError
        "root must not be group- or world-writable";
  mret resolved.

(** The text of a manifest or lease, as an object; [json.load] raises
    [JSONDecodeError], a [ValueError]. *)
Definition load_json (p : path) : res pyval :=
  text ← read_bytes t p; of_option (json_loads text) ValueError "invalid JSON".

(** [v.get] of a value that must be a [dict]. *)
Definition need_dict (v : pyval) : res (list (string * pyval)) :=
  of_option (as_dict v) AttributeError "object has no attribute 'get'".

(** The loop [for key, value in expected.items(): if d.get(key) != value: raise]. *)
Definition check_fields (cls : exn_class) (msg : string) (expected : list (string * pyval))
    (d : list (string * pyval)) : res unit :=
  for_each expected tt (fun _ kv => raise_if (negb (py_eq (pget kv.1 d) kv.2)) cls msg).

(** ** [_scan_layer] *)

Record scan_acc := ScanAcc {
  sc_observed : gset identity;
  sc_files : list (string * Z);
}.

Definition scan_entry (root : path) (layer_idx numa_idx expert_num : Z) (acc : scan_acc)
    (name : string) : res scan_acc :=
  let dir := [layer_dir_name layer_idx; numa_dir_name numa_idx] in
  let entry := root ++ dir ++ [name] in
  _ ← raise_if (p_is_symlink t entry || negb (p_is_file t entry)) ValueError
        "unexpected non-regular entry";
  '(projection, expert_text, kind) ←
    of_option (kt_file_match name) ValueError "unexpected .kt filename";
  expert_idx ← of_option (parse_digits expert_text) ValueError "unexpected .kt filename";
  _ ← raise_if (negb ((0 <=? expert_idx) && (expert_idx <? expert_num))) ValueError
        "out-of-range expert";
  let ident := (numa_idx, projection, expert_idx, kind) in
  _ ← raise_if (bool_decide (ident ∈ sc_observed acc)) ValueError "duplicate file";
  data ← read_bytes t entry;
  let size_bytes := file_size data in
  _ ← raise_if (size_bytes <=? 0) ValueError "file is empty";
  mret (ScanAcc ({[ident]} ∪ sc_observed acc)
                (sc_files acc ++ [(posix_join (dir ++ [name]), size_bytes)])).

Definition scan_numa_dir (root : path) (layer_idx expert_num : Z) (acc : scan_acc)
    (numa_idx : Z) : res scan_acc :=
  let numa_dir := root ++ [layer_dir_name layer_idx; numa_dir_name numa_idx] in
  _ ← raise_if (p_is_symlink t numa_dir) ValueError "NUMA directory must not be a symlink";
  entries ← iterdir t numa_dir;
  for_each entries acc (scan_entry root layer_idx numa_idx expert_num).

Definition path_leb (a b : string * Z) : Prop := String.leb a.1 b.1 = true.
#[export] Instance path_leb_dec : RelDecision path_leb.
Proof. intros a b. unfold path_leb, Decision. decide equality. Defined.

(** What [_scan_layer] records of one layer. *)
Record scanned_layer := ScannedLayer {
  sl_index : Z;
  sl_numa_count : Z;
  sl_files : list (string * Z);
  sl_bytes : Z;
}.

Definition scan_layer (root : path) (layer_idx numa_count expert_num : Z) : res scanned_layer :=
  let layer_dir := root ++ [layer_dir_name layer_idx] in
  _ ← raise_if (negb (p_is_dir t layer_dir) || p_is_symlink t layer_dir) ValueError
        "missing or unsafe layer directory";
  layer_entries ← iterdir t layer_dir;
  _ ← raise_if (existsb (fun e => negb (p_is_dir t (layer_dir ++ [e]))) layer_entries) ValueError
        "entries outside NUMA directories";
  _ ← raise_if (negb (bool_decide (list_to_set layer_entries
          =@{gset string} list_to_set (numa_dir_name <$> seqZ 0 numa_count))))
        ValueError "NUMA directories mismatch";
  acc ← for_each (seqZ 0 numa_count) (ScanAcc ∅ []) (scan_numa_dir root layer_idx expert_num);
  let expected := list_to_set (expected_identities (Dims numa_count expert_num 0 0)) in
  _ ← raise_if (negb (bool_decide (expected ∖ sc_observed acc = ∅))) ValueError
        "layer is missing files";
  mret (ScannedLayer layer_idx numa_count (merge_sort path_leb (sc_files acc))
                     (sumZ snd (sc_files acc))).

Definition layer_value (l : scanned_layer) : pyval :=
  PDict [("index", PInt (sl_index l)); ("numa_count", PInt (sl_numa_count l));
         ("state", PStr "ready");
         ("files", PList ((fun f => PDict [("path", PStr f.1); ("size_bytes", PInt f.2)])
                            <$> sl_files l));
         ("bytes", PInt (sl_bytes l))].
End tree_checks.

(** ** Publishing and reclaiming a staging tree *)

Section producer.
Context `{Platform}.

(** The file is created under a temporary name, then takes its final one. *)
Definition atomic_write (root : path) (name : string) (value : pyval) : M world unit :=
  pid ← gets w_pid;
  let target := root ++ [name] in
  let temporary := root ++ ["." +:+ name +:+ "." +:+ str_of_Z pid +:+ ".tmp"] in
  let payload := json_dumps value in
  _ ← write_new temporary payload;
  replace temporary target.

Definition atomic_write_manifest (root : path) (manifest : list (string * pyval))
    : M world unit := atomic_write root MANIFEST_NAME (PDict manifest).

(** What identifies a run in its lease. *)
Definition lease_fields (run_id : string) (uid : Z) : list (string * pyval) :=
  [("schema_version", PInt SCHEMA_VERSION); ("run_id", PStr run_id); ("owner_uid", PInt uid)].

(** A producer that publishes gives up its lease first. *)
Definition release_lease (staging : path) (run_id : string) : M world unit :=
  let lease_path := staging ++ [STAGING_LEASE_NAME] in
  t ← gets w_fs;
  uid ← gets w_uid;
  if p_exists t lease_path || p_is_symlink t lease_path then
    _ ← raise_ifM (p_is_symlink t lease_path || negb (p_is_file t lease_path)) ValueError
          "unsafe ephemeral staging lease";
    lease ← lift (load_json t lease_path);
    lease ← lift (need_dict lease);
    _ ← lift (check_fields ValueError "staging lease mismatch" (lease_fields run_id uid) lease);
    unlink lease_path
  else mret tt.

Definition scan_staging (staging : path) (unique_layers : list Z) (numa_count expert_num : Z)
    (t : fs) : res (list scanned_layer) :=
  entries ← iterdir t staging;
  _ ← raise_if (negb (bool_decide (list_to_set entries
          =@{gset string} list_to_set (layer_dir_name <$> unique_layers)))) ValueError
        "staging root entries mismatch";
  layers ← for_each unique_layers [] (fun acc layer_idx =>
    l ← scan_layer t staging layer_idx numa_count expert_num; mret (acc ++ [l]));
  _ ← raise_if (match layers with [] => true | _ => false end) ValueError
        "requires at least one expert layer";
  mret layers.

Definition ready_manifest (run_id : string) (uid pid clock : Z) (d : dims)
    (layers : list scanned_layer) : list (string * pyval) :=
  [("schema_version", PInt SCHEMA_VERSION); ("state", PStr "ready"); ("run_id", PStr run_id);
   ("owner_uid", PInt uid); ("producer_pid", PInt pid); ("created_unix_ns", PInt clock);
   ("expert_weight_format", PStr "int8"); ("backend", PStr "AMXINT8");
   ("threadpool_count", PInt (d_numa d)); ("expert_num", PInt (d_experts d));
   ("hidden_size", PInt (d_hidden d)); ("intermediate_size", PInt (d_intermediate d));
   ("layers", PList (layer_value <$> layers)); ("bytes", PInt (sumZ sl_bytes layers))].

Definition publish_ephemeral_int8_weights (staging_root : string) (run_id : string)
    (layer_indices : list Z) (d : dims) : M world path :=
  _ ← raise_ifM ((d_numa d <=? 0) || (d_experts d <=? 0) || (d_hidden d <=? 0)
                 || (d_intermediate d <=? 0)) ValueError "dimensions must be positive";
  uid ← gets w_uid;
  staging ← gets_res (fun w => validate_owned_root (w_fs w) uid staging_root run_id true);
  _ ← release_lease staging run_id;
  let unique_layers := sorted_set layer_indices in
  layers ← gets_res (fun w => scan_staging staging unique_layers (d_numa d) (d_experts d) (w_fs w));
  pid ← gets w_pid;
  clock ← gets w_clock;
  _ ← atomic_write_manifest staging (ready_manifest run_id uid pid clock d layers);
  let ready := removelast staging ++ [staging_name run_id false] in
  t ← gets w_fs;
  _ ← raise_ifM (p_exists t ready || p_is_symlink t ready) FileExistsError
        "ready root already exists";
  _ ← replace staging ready;
  mret ready.

(** [os.walk(root, topdown=False, followlinks=False)] with the body of
    [cleanup_ephemeral_int8_staging]; a directory that cannot be listed counts
    as empty.  Each level of nesting takes one unit of fuel. *)
Fixpoint remove_below (fuel : nat) (current : path) : M world unit :=
  match fuel with
  | O => mret tt
  | S fuel' =>
      t ← gets w_fs;
      let entries := match iterdir t current with Ok es => es | Err _ => [] end in
      let directories := List.filter (fun e => p_is_dir t (current ++ [e])) entries in
      let files := List.filter (fun e => negb (p_is_dir t (current ++ [e]))) entries in
      _ ← for_M directories (fun e =>
            t' ← gets w_fs;
            if p_is_symlink t' (current ++ [e]) then mret tt
            else remove_below fuel' (current ++ [e]));
      _ ← for_M files (fun e => unlink (current ++ [e]));
      for_M directories (fun e =>
        t' ← gets w_fs;
        if p_is_symlink t' (current ++ [e]) then unlink (current ++ [e])
        else rmdir (current ++ [e]))
  end.

(** The length of the longest path. *)
Definition tree_depth (t : fs) : nat :=
  foldr (fun kn : path * node => Nat.max (length kn.1)) O (map_to_list t).

Definition cleanup_ephemeral_int8_staging (staging_root : string) (run_id : string)
    : M world unit :=
  uid ← gets w_uid;
  root ← gets_res (fun w => validate_owned_root (w_fs w) uid staging_root run_id true);
  t ← gets w_fs;
  _ ← remove_below (S (tree_depth t)) root;
  rmdir root.

Definition write_ephemeral_staging_lease (staging_root run_id : string) (producer_pid : Z)
    : M world unit :=
  _ ← raise_ifM (producer_pid <=? 0) ValueError "producer_pid must be positive";
  uid ← gets w_uid;
  root ← gets_res (fun w => validate_owned_root (w_fs w) uid staging_root run_id true);
  atomic_write root STAGING_LEASE_NAME
    (PDict (lease_fields run_id uid ++ [("producer_pid", PInt producer_pid)])).

(** The text [str(p)] of an absolute path. *)
Definition path_text (p : path) : string := "/" +:+ match p with [] => "" | _ => posix_join p end.

Definition reclaim_stale_ephemeral_int8_staging (staging_root run_id : string) : M world bool :=
  uid ← gets w_uid;
  root ← gets_res (fun w => validate_owned_root (w_fs w) uid staging_root run_id true);
  let lease_path := root ++ [STAGING_LEASE_NAME] in
  t ← gets w_fs;
  _ ← raise_ifM (p_is_symlink t lease_path || negb (p_is_file t lease_path)) RuntimeError
        "refusing to reclaim staging root without a regular lease";
  lease ← lift (load_json t lease_path);
  lease ← lift (need_dict lease);
  _ ← lift (check_fields RuntimeError "refusing to reclaim staging root with mismatched lease"
              (lease_fields run_id uid) lease);
  producer_pid ← lift (py_int (default (PInt 0) (dict_get "producer_pid" lease)));
  _ ← raise_ifM (producer_pid <=? 0) RuntimeError "invalid producer_pid";
  if p_exists t ["proc"; str_of_Z producer_pid] then mret false
  else _ ← cleanup_ephemeral_int8_staging (path_text root) run_id; mret true.
End producer.

(** ** [EphemeralKTWeightStore] *)

Inductive signum := SIGINT | SIGTERM.
#[export] Instance signum_eq_dec : EqDecision signum.
Proof. solve_decision. Defined.
Definition signal_number (s : signum) : Z := match s with SIGINT => 2 | SIGTERM => 15 end.

(** What [signal.getsignal] returns: the default action, the ignored signal,
    nothing set from Python, a function of the program (another store's handler
    is one), or the handler this store installs, which remembers the one it
    replaced. *)
Inductive handler :=
  | SigDfl
  | SigIgn
  | SigUnknown
  | SigUser (id : Z)
  | SigStore (previous : handler).
#[export] Instance handler_eq_dec : EqDecision handler.
Proof. solve_decision. Defined.

(** The process: its view of the machine, its signal table, whether the
    store's [cleanup] is registered with [atexit], and the calls of the
    program's own handlers, oldest first. *)
Record proc := Proc {
  p_world : world;
  p_signals : signum -> handler;
  p_atexit : bool;
  p_calls : list (Z * signum);
}.

Record store := Store {
  st_root : path;
  st_manifest : list (string * pyval);
  st_closed : bool;
  st_previous : list (signum * handler);
}.

Definition upd_signal (f : signum -> handler) (s : signum) (h : handler) : signum -> handler :=
  fun s' => if decide (s' = s) then h else f s'.

Definition set_world (p : proc) (w : world) : proc :=
  Proc w (p_signals p) (p_atexit p) (p_calls p).

(** A call on the machine, made by a method of the store. *)
Definition on_world {A} (m : M world A) : M (proc * store) A := fun ps =>
  let '(w, r) := m (p_world ps.1) in ((set_world ps.1 w, ps.2), r).

Definition the_tree : M (proc * store) fs := gets (fun ps => w_fs (p_world ps.1)).

Definition set_closed (b : bool) (s : store) : store :=
  Store (st_root s) (st_manifest s) b (st_previous s).

Definition signums : list signum := [SIGINT; SIGTERM].

(** [__init__] and [_install_signal_handlers] *)
Definition init_store (root : path) (manifest : list (string * pyval)) (p : proc)
    : proc * store :=
  (Proc (p_world p)
        (foldl (fun f s => upd_signal f s (SigStore (f s))) (p_signals p) signums)
        true (p_calls p),
   Store root manifest false ((fun s => (s, p_signals p s)) <$> signums)).

Definition restore_signal_handlers : M (proc * store) unit := modify (fun '(p, s) =>
  (Proc (p_world p) (foldl (fun f sh => upd_signal f sh.1 sh.2) (p_signals p) (st_previous s))
        (p_atexit p) (p_calls p),
   Store (st_root s) (st_manifest s) (st_closed s) [])).

(** [atexit.unregister(self.cleanup)] *)
Definition atexit_unregister : M (proc * store) unit := modify (fun '(p, s) =>
  (Proc (p_world p) (p_signals p) false (p_calls p), s)).

Definition close_store : M (proc * store) unit :=
  modify (fun '(p, s) => (p, set_closed true s)).

Definition log_call (id : Z) (received : signum) : M (proc * store) unit := modify (fun '(p, s) =>
  (Proc (p_world p) (p_signals p) (p_atexit p) (p_calls p ++ [(id, received)]), s)).

Section store_checks.
Context `{Platform} (t : fs).

(** The non-directories that [os.walk(top, followlinks=False)] lists. *)
Fixpoint os_walk_files (fuel : nat) (top : path) : list path :=
  match fuel with
  | O => []
  | S fuel' =>
      let entries := match iterdir t top with Ok es => es | Err _ => [] end in
      ((fun e => top ++ [e]) <$> List.filter (fun e => negb (p_is_dir t (top ++ [e]))) entries)
      ++ (List.filter (fun e => p_is_dir t (top ++ [e]) && negb (p_is_symlink t (top ++ [e])))
            entries ≫= fun e => os_walk_files fuel' (top ++ [e]))
  end.

(** [entry.relative_to(root).as_posix()] *)
Definition relative_posix (root p : path) : string := posix_join (drop (length root) p).

(** [d[k]] of a [dict] *)
Definition need_key (k : string) (d : list (string * pyval)) : res pyval :=
  of_option (dict_get k d) KeyError "missing key".

(** One round of the loop of [_validate_manifest_layer]. *)
Definition check_manifest_item (root : path) (layer_idx : Z) (acc : Z * gset string)
    (item : pyval) : res (Z * gset string) :=
  let '(actual_bytes, seen) := acc in
  item ← need_dict item;
  relative ← of_option (as_str (pget "path" item)) ValueError "invalid or duplicate file entry";
  _ ← raise_if (bool_decide (relative ∈ seen)) ValueError "invalid or duplicate file entry";
  let parts := path_parts relative in
  _ ← raise_if (is_absolute relative || bool_decide (".." ∈ parts)) ValueError
        "unsafe manifest path";
  _ ← raise_if (negb (bool_decide (take 1 parts = [layer_dir_name layer_idx]))) ValueError
        "manifest path is outside the layer";
  let absolute := root ++ parts in
  _ ← raise_if (p_is_symlink t absolute || negb (p_is_file t absolute)) ValueError
        "missing or unsafe manifest file";
  expected_size ← py_int (default (PInt (-1)) (dict_get "size_bytes" item));
  data ← read_bytes t absolute;
  let actual_size := file_size data in
  _ ← raise_if ((expected_size <=? 0) || negb (actual_size =? expected_size)) ValueError
        "manifest size mismatch";
  mret (actual_bytes + actual_size, {[relative]} ∪ seen).

Definition validate_manifest_layer (root : path) (layer : list (string * pyval)) : res unit :=
  index ← need_key "index" layer;
  layer_idx ← py_int index;
  files ← of_option (as_list (pget "files" layer)) ValueError "manifest has no files";
  _ ← raise_if (match files with [] => true | _ => false end) ValueError
        "manifest has no files";
  '(actual_bytes, seen) ← for_each files (0, ∅) (check_manifest_item root layer_idx);
  let layer_dir := root ++ [layer_dir_name layer_idx] in
  let actual_files : gset string :=
    list_to_set (relative_posix root <$> os_walk_files (S (tree_depth t)) layer_dir) in
  _ ← raise_if (negb (bool_decide (actual_files = seen))) ValueError
        "file set differs from its manifest";
  expected_bytes ← py_int (default (PInt (-1)) (dict_get "bytes" layer));
  raise_if (negb (actual_bytes =? expected_bytes)) ValueError "byte total mismatch".

(** [sorted(values)], when every value is a number equal to an integer; a list
    with another number or with texts only is sorted too, but differs from any
    list of integers. *)
Definition index_value (v : pyval) : option Z :=
  match v with
  | PInt n => Some n
  | PBool b => Some (Z.b2z b)
  | PFloat f => float_as_Z f
  | _ => None
  end.
Definition orderable (vs : list pyval) : bool :=
  match vs with
  | [] | [_] => true
  | _ => forallb (fun v => match as_num v with Some _ => true | None => false end) vs
         || forallb is_str vs
  end.
Definition sorted_indices_eq (vs : list pyval) (expected : list Z) : res bool :=
  match mapM index_value vs with
  | Some zs => Ok (bool_decide (merge_sort Z.le zs = expected))
  | None => if orderable vs then Ok false
            else Err (Raise TypeError "'<' not supported between instances")
  end.

(** The metadata a manifest must repeat. *)
Definition expected_metadata (uid : Z) (d : dims) : list (string * pyval) :=
  [("schema_version", PInt SCHEMA_VERSION); ("state", PStr "ready"); ("owner_uid", PInt uid);
   ("expert_weight_format", PStr "int8"); ("backend", PStr "AMXINT8");
   ("threadpool_count", PInt (d_numa d)); ("expert_num", PInt (d_experts d));
   ("hidden_size", PInt (d_hidden d)); ("intermediate_size", PInt (d_intermediate d))].

(** [open] up to the construction of the store. *)
Definition check_ready_root (uid : Z) (root : string) (layer_indices : list Z) (d : dims)
    : res (path * list (string * pyval)) :=
  let manifest_path := path_parts root ++ [MANIFEST_NAME] in
  _ ← raise_if (p_is_symlink t manifest_path || negb (p_is_file t manifest_path)) ValueError
        "root requires a manifest";
  manifest ← load_json t manifest_path;
  manifest ← need_dict manifest;
  let run_id := py_str (default (PStr "") (dict_get "run_id" manifest)) in
  resolved ← validate_owned_root t uid root run_id false;
  _ ← check_fields ValueError "manifest mismatch" (expected_metadata uid d) manifest;
  let expected_layers := sorted_set layer_indices in
  layers ← of_option (as_list (pget "layers" manifest)) ValueError "layers must be a list";
  layers ← for_each layers [] (fun acc v => l ← need_dict v; mret (acc ++ [l]));
  same ← sorted_indices_eq (pget "index" <$> layers) expected_layers;
  _ ← raise_if (negb same) ValueError "layer set mismatch";
  _ ← for_each layers tt (fun _ layer =>
        _ ← raise_if (negb (py_eq (pget "state" layer) (PStr "ready"))) ValueError
              "runs cannot be resumed after partial consumption";
        validate_manifest_layer resolved layer);
  entries ← iterdir t resolved;
  _ ← raise_if (negb (bool_decide (list_to_set entries
          =@{gset string} list_to_set (MANIFEST_NAME :: (layer_dir_name <$> expected_layers)))))
        ValueError "root contains files outside its manifest";
  mret (resolved, manifest).
End store_checks.

Section store_methods.
Context `{Platform}.

(** [EphemeralKTWeightStore.open] *)
Definition open_store (root : string) (layer_indices : list Z) (d : dims) (p : proc)
    : res (proc * store) :=
  '(resolved, manifest) ←
    check_ready_root (w_fs (p_world p)) (w_uid (p_world p)) root layer_indices d;
  mret (init_store resolved manifest p).

(** [_layer]: the first layer object with this index, and its place. *)
Fixpoint find_layer (layers : list pyval) (layer_idx : Z) (pos : nat)
    : res (nat * list (string * pyval)) :=
  match layers with
  | [] => Err (Raise KeyError "layer is not listed in the ephemeral manifest")
  | v :: layers' =>
      layer ← of_option (as_dict v) TypeError "object is not subscriptable";
      index ← need_key "index" layer;
      index ← py_int index;
      if index =? layer_idx then mret (pos, layer) else find_layer layers' layer_idx (S pos)
  end.

Definition manifest_layers (manifest : list (string * pyval)) : res (list pyval) :=
  layers ← need_key "layers" manifest;
  of_option (as_list layers) TypeError "layers is not a list".

(** [layer["state"] = state], where [layer] is the object in the manifest. *)
Definition set_layer_state (manifest : list (string * pyval)) (pos : nat) (state : string)
    : list (string * pyval) :=
  match dict_get "layers" manifest with
  | Some (PList layers) =>
      dict_set "layers" (PList (alter (fun v => match v with
        | PDict layer => PDict (dict_set "state" (PStr state) layer)
        | v => v end) pos layers)) manifest
  | _ => manifest
  end.

Definition mark_layer (pos : nat) (state : string) : M (proc * store) unit := modify (fun '(p, s) =>
  (p, Store (st_root s) (set_layer_state (st_manifest s) pos state) (st_closed s)
            (st_previous s))).

Definition write_manifest : M (proc * store) unit :=
  s ← gets snd; on_world (atomic_write_manifest (st_root s) (st_manifest s)).

(** The loop that deletes the files of a layer. *)
Definition delete_item (root : path) (item : pyval) : M (proc * store) unit :=
  item ← lift (of_option (as_dict item) TypeError "object is not subscriptable");
  relative ← lift (need_key "path" item);
  relative ← lift (of_option (as_str relative) TypeError "unsupported operand");
  let p := root ++ path_parts relative in
  t ← the_tree;
  _ ← raise_ifM (p_is_symlink t p || negb (p_is_file t p)) RuntimeError
        "refusing to delete unsafe ephemeral file";
  on_world (unlink p).

Definition consume_layer (layer_idx : Z) : M (proc * store) unit :=
  s ← gets snd;
  _ ← raise_ifM (st_closed s) RuntimeError "ephemeral INT8 store is already closed";
  layers ← lift (manifest_layers (st_manifest s));
  '(pos, layer) ← lift (find_layer layers layer_idx O);
  state ← lift (need_key "state" layer);
  _ ← raise_ifM (negb (py_eq state (PStr "ready"))) RuntimeError "layer is in another state";
  t ← the_tree;
  _ ← lift (validate_manifest_layer t (st_root s) layer);
  _ ← mark_layer pos "consuming";
  _ ← write_manifest;
  files ← lift (need_key "files" layer);
  files ← lift (of_option (as_list files) TypeError "object is not iterable");
  _ ← for_M files (delete_item (st_root s));
  let layer_dir := st_root s ++ [layer_dir_name layer_idx] in
  numa_count ← lift (need_key "numa_count" layer);
  numa_count ← lift (py_int numa_count);
  _ ← for_M (rev (seqZ 0 numa_count)) (fun numa_idx =>
        on_world (rmdir (layer_dir ++ [numa_dir_name numa_idx])));
  _ ← on_world (rmdir layer_dir);
  _ ← mark_layer pos "consumed";
  write_manifest.

Definition layer_consumed (v : pyval) : res bool :=
  layer ← of_option (as_dict v) TypeError "object is not subscriptable";
  state ← need_key "state" layer;
  mret (py_eq state (PStr "consumed")).

(** [any(layer["state"] != "consumed" for layer in layers)], which stops at the
    first hit. *)
Fixpoint any_unconsumed (layers : list pyval) : res bool :=
  match layers with
  | [] => mret false
  | v :: layers' => 
      consumed ← layer_consumed v;
      match consumed with true => any_unconsumed layers' | false => Ok true end
  end.

Definition finish : M (proc * store) unit :=
  s ← gets snd;
  layers ← lift (manifest_layers (st_manifest s));
  unconsumed ← lift (any_unconsumed layers);
  _ ← raise_ifM unconsumed RuntimeError "cannot finish with unconsumed layers";
  _ ← on_world (unlink (st_root s ++ [MANIFEST_NAME]));
  _ ← on_world (rmdir (st_root s));
  _ ← close_store;
  _ ← restore_signal_handlers;
  atexit_unregister.

(** [OSError] and its subclasses *)
Definition is_os_error (c : exn_class) : bool :=
  bool_decide (c ∈ [OSError; FileNotFoundError; FileExistsError; PermissionError]).

(** [if p.is_file() and not p.is_symlink(): p.unlink()] *)
Definition remove_file (p : path) : M (proc * store) unit :=
  t ← the_tree;
  if p_is_file t p && negb (p_is_symlink t p) then on_world (unlink p) else mret tt.

(** [if p.is_dir() and not p.is_symlink(): try: p.rmdir() except OSError: pass] *)
Definition remove_dir (p : path) : M (proc * store) unit :=
  t ← the_tree;
  if p_is_dir t p && negb (p_is_symlink t p)
  then catchM (on_world (rmdir p)) is_os_error (fun _ => mret tt) else mret tt.

(** The list [d.get(k, [])]. *)
Definition get_list (k : string) (d : list (string * pyval)) : res (list pyval) :=
  match dict_get k d with
  | None => Ok []
  | Some (PList l) => Ok l
  | Some _ => Err (Raise TypeError "object is not iterable")
  end.

Definition cleanup_item (root : path) (item : pyval) : M (proc * store) unit :=
  item ← lift (need_dict item);
  let relative := py_str (default (PStr "") (dict_get "path" item)) in
  if is_absolute relative || bool_decide (".." ∈ path_parts relative) then mret tt
  else remove_file (root ++ path_parts relative).

Definition cleanup_layer (root : path) (v : pyval) : M (proc * store) unit :=
  layer ← lift (need_dict v);
  if py_eq (pget "state" layer) (PStr "consumed") then mret tt
  else
    files ← lift (get_list "files" layer);
    _ ← for_M files (cleanup_item root);
    index ← lift (need_key "index" layer);
    layer_idx ← lift (py_int index);
    let layer_dir := root ++ [layer_dir_name layer_idx] in
    numa_count ← lift (py_int (default (PInt 0) (dict_get "numa_count" layer)));
    _ ← for_M (rev (seqZ 0 numa_count)) (fun numa_idx =>
          remove_dir (layer_dir ++ [numa_dir_name numa_idx]));
    remove_dir layer_dir.

(** The [try] block of [cleanup]. *)
Definition cleanup_body (s : store) : M (proc * store) unit :=
  layers ← lift (get_list "layers" (st_manifest s));
  _ ← for_M layers (cleanup_layer (st_root s));
  pid ← gets (fun ps => w_pid (p_world ps.1));
  _ ← for_M [MANIFEST_NAME; "." +:+ MANIFEST_NAME +:+ "." +:+ str_of_Z pid +:+ ".tmp"]
        (fun name => remove_file (st_root s ++ [name]));
  catchM (on_world (rmdir (st_root s))) is_os_error (fun _ => mret tt).

Definition cleanup : M (proc * store) unit :=
  s ← gets snd;
  if st_closed s then mret tt
  else
    _ ← close_store;
    finallyM (cleanup_body s) (_ ← restore_signal_handlers; atexit_unregister).

(** What a handler does when its signal is received.  The default action of a
    signal that Python leaves to the system ends the process. *)
Fixpoint run_handler (h : handler) (received : signum) : M (proc * store) unit :=
  match h with
  | SigIgn => mret tt
  | SigDfl | SigUnknown => raise SystemExit "terminated by signal"
  | SigUser id => log_call id received
  | SigStore previous =>
      _ ← cleanup;
      match previous with
      | SigUser _ | SigStore _ => run_handler previous received
      | SigIgn => mret tt
      | SigDfl | SigUnknown => raise SystemExit "128 + signal number"
      end
  end.

Definition deliver_signal (received : signum) : M (proc * store) unit :=
  h ← gets (fun ps => p_signals ps.1 received); run_handler h received.
End store_methods.
End Eph.
