(* ===== verification/EphemeralSpec.v ===== *)
(** * Crash consistency of the ephemeral weight life cycle

    Theorems on [Ephemeral]: publication is atomic, consumption is logged
    before it deletes, reclaiming spares live producers, cleanup removes what
    it owns and nothing else. *)
From S2P Require Import Prelude PyStr PyVal FS FSLaws WeightManifest WeightManifestSpec Ephemeral.
From Stdlib Require Import Ascii.
Import Eph.

Local Open Scope string_scope.
Local Open Scope list_scope.
Local Open Scope Z_scope.

(** ** Atomic writes *)

Definition tmp_name (name : string) (pid : Z) : string :=
  "." +:+ name +:+ "." +:+ str_of_Z pid +:+ ".tmp".

Lemma str_length_app a b : String.length (a +:+ b) = (String.length a + String.length b)%nat.
Proof. induction a as [|c a IH]; [done|]. simpl. by f_equal. Qed.

Lemma tmp_name_neq name pid : tmp_name name pid ≠ name.
Proof.
  intros E. apply (f_equal String.length) in E. unfold tmp_name in E.
  rewrite !str_length_app in E. simpl in E. lia.
Qed.

Lemma tmp_name_ok name pid : no_slash name = true → name_ok (tmp_name name pid) = true.
Proof.
  intros Hn. unfold name_ok, tmp_name.
  assert (no_slash ("." +:+ name +:+ "." +:+ str_of_Z pid +:+ ".tmp") = true) as ->.
  { rewrite !no_slash_app, Hn, str_of_Z_no_slash'. done. }
  assert (∀ short, (String.length short < 6)%nat → negb (tmp_name name pid =? short)%string = true)
    as Hlong.
  { intros short Hs. apply negb_true_iff, String.eqb_neq. intros <-. unfold tmp_name in Hs.
    rewrite !str_length_app in Hs. simpl in Hs. lia. }
  unfold tmp_name in Hlong. by rewrite !Hlong by (simpl; lia).
Qed.

Section atomic.
Context `{Platform} (w : world) (p : path) (name : string) (value : pyval).
Let t := w_fs w.
Let target := p ++ [name].
Let tmp := p ++ [tmp_name name (w_pid w)].
Context (Hwf : fs_wf t) (Hp : real_dir t p) (Hname : name_ok name = true).

Lemma tmp_neq_target : tmp ≠ target.
Proof. intros E. apply app_inj_tail in E as [_ E]. by apply tmp_name_neq in E. Qed.

(** The trees an atomic write goes through. *)
Lemma atomic_write_ok :
  t !! tmp = None → (∀ m, t !! target ≠ Some (NDir m)) →
  atomic_write p name value w =
  let file := NFile (new_meta w) (json_dumps value) in
  (set_tree (<[target := file]> t)
     (set_tree (<[tmp := file]> t)
        (set_tree (<[tmp := NFile (new_meta w) ""]> t) w)), Ok tt).
Proof.
  intros Htmp Htgt. pose proof tmp_neq_target as Hne.
  assert (name_ok (tmp_name name (w_pid w)) = true) as Htn.
  { apply tmp_name_ok. unfold name_ok in Hname. by bools. }
  unfold atomic_write. rewrite bindM_gets. cbv zeta. fold (tmp_name name (w_pid w)).
  pose proof (write_new_child w p _ Hp Htn Hwf (json_dumps value)) as Hw.
  fold t tmp in Hw. rewrite Htmp in Hw. cbv zeta in Hw. rewrite insert_insert_eq in Hw.
  rewrite (bindM_run _ _ _ _ _ Hw).
  assert (∀ m, <[tmp:=NFile (new_meta w) (json_dumps value)]> t !! target ≠ Some (NDir m))
    as Htgt' by (intros m; by rewrite lookup_insert_ne).
  destruct (real_dir_lookup _ _ Hwf Hp) as [m Hm].
  unfold tmp. rewrite (replace_child _ _ _ _ (NFile (new_meta w) (json_dumps value))); try done.
  - cbn [w_fs set_tree]. fold tmp target. rewrite delete_insert_id by done.
    destruct (<[tmp:=_]> t !! target) as [[|m0| |]|]; try done. by destruct (Htgt' m0).
  - eapply fs_wf_insert; try done. fold t. intros m'. fold tmp. by rewrite Htmp.
  - eapply real_dir_same; [|done]. apply same_dirs_insert. intros m'. fold tmp. by rewrite Htmp.
  - cbn [w_fs set_tree]. by rewrite lookup_insert_eq.
Qed.

Lemma atomic_write_err w' e :
  atomic_write p name value w = (w', Err e) →
  (t !! tmp ≠ None ∧ w' = w) ∨
  (t !! tmp = None ∧ ∃ m, t !! target = Some (NDir m)).
Proof.
  intros Hx. destruct (decide (t !! tmp = None)) as [Htmp|Htmp].
  - right. split; [done|]. destruct (t !! target) as [[|m| |]|] eqn:E; [|by exists m|..];
      rewrite atomic_write_ok in Hx; try done; by rewrite E.
  - left. split; [done|]. unfold atomic_write in Hx. rewrite bindM_gets in Hx. cbv zeta in Hx.
    fold (tmp_name name (w_pid w)) in Hx.
    assert (name_ok (tmp_name name (w_pid w)) = true) as Htn.
    { apply tmp_name_ok. unfold name_ok in Hname. by bools. }
    pose proof (write_new_child w p _ Hp Htn Hwf (json_dumps value)) as Hw. fold t tmp in Hw.
    destruct (t !! tmp) eqn:E; [|done].
    rewrite (bindM_fail _ _ _ _ _ Hw) in Hx. by injection Hx as <- _.
Qed.
End atomic.

(** ** What [os.walk] finds *)

Lemma real_dir_snoc_walk t p e :
  fs_wf t → real_dir t p → name_ok e = true →
  p_is_dir t (p ++ [e]) && negb (p_is_symlink t (p ++ [e])) = true → real_dir t (p ++ [e]).
Proof.
  intros Hwf Hp He Hx. bools. destruct (child_is_dir t p e) as [m Hm]; try done.
  by eapply real_dir_child.
Qed.

Lemma not_is_dir_child t p e x : real_dir t p → name_ok e = true →
  p_is_dir t (p ++ [e]) = false → t !! (p ++ [e]) = Some x → is_NDir x = false.
Proof.
  intros Hp He Hd Hx. unfold p_is_dir in Hd. pose proof (stat_child t p e Hp He) as Hs.
  rewrite Hx in Hs. destruct x; try done. by rewrite Hs in Hd.
Qed.

(** A file found below a real directory lies in a real directory. *)
Lemma os_walk_real t fuel top p :
  fs_wf t → real_dir t top → p ∈ os_walk_files t fuel top →
  ∃ q e, p = q ++ [e] ∧ top `prefix_of` q ∧ real_dir t q ∧ name_ok e = true.
Proof.
  intros Hwf. revert top. induction fuel as [|fuel IH]; intros top Htop; simpl.
  { by intros ?%elem_of_nil. }
  rewrite iterdir_real by done.
  intros [(e & -> & He)%list_elem_of_fmap|(e & Hin & He)%list_elem_of_bind]%elem_of_app;
    apply list_elem_of_In, filter_In in He as [He%list_elem_of_In Hf].
  - exists top, e. split_and!; try done. by eapply children_name_ok.
  - assert (name_ok e = true) by by eapply children_name_ok.
    apply real_dir_snoc_walk in Hf; [|done..].
    destruct (IH _ Hf Hin) as (q & e' & -> & Hq & ?). exists q, e'. split_and!; try done.
    + etrans; [|done]. by exists [e].
    + naive_solver.
    + naive_solver.
Qed.

Lemma os_walk_not_dir t fuel top : (∀ es, iterdir t top ≠ Ok es) → os_walk_files t fuel top = [].
Proof. intros Hn. destruct fuel; [done|]. simpl. destruct (iterdir t top); naive_solver. Qed.

(** ** The files of a layer *)

(** The place of a manifest entry's file. *)
Definition item_path (root : path) (v : pyval) : option path :=
  dct ← as_dict v; rel ← as_str (pget "path" dct); Some (root ++ path_parts rel).

Definition layer_paths (root : path) (layer : list (string * pyval)) : list path :=
  match pget "files" layer with PList files => omap (item_path root) files | _ => [] end.

Lemma layer_path_names t root q e :
  real_dir t q → name_ok e = true → root `prefix_of` q →
  ∃ rest, q ++ [e] = root ++ rest ∧ rest ≠ [] ∧ Forall (fun c => name_ok c = true) rest ∧
          relative_posix root (q ++ [e]) = posix_join rest.
Proof.
  intros [Hn _] He [r ->]. exists (r ++ [e]). rewrite <-app_assoc. split_and!; [done| | |].
  - apply snoc_neq_nil.
  - apply Forall_app in Hn as [_ ?]. apply Forall_app_2; [done|]. by constructor.
  - unfold relative_posix. by rewrite drop_app_length.
Qed.

Section layer.
Context `{Platform} (t : fs) (Hwf : fs_wf t) (root : path) (Hroot : real_dir t root).

(** What validation establishes about the files of a layer. *)
Definition file_at (layer_dir p : path) : Prop :=
  ∃ q e m data, p = q ++ [e] ∧ layer_dir `prefix_of` q ∧ real_dir t q ∧ name_ok e = true ∧
    t !! p = Some (NFile m data).

Lemma check_items_ok i files acc :
  for_each files (0, ∅) (check_manifest_item t root i) = Ok acc →
  Forall (fun v => ∃ dct rel p, v = PDict dct ∧ dict_get "path" dct = Some (PStr rel) ∧
            rel ∈ acc.2 ∧ p = root ++ path_parts rel ∧
            p_is_symlink t p = false ∧ p_is_file t p = true) files.
Proof.
  apply (for_each_inv (fun pre acc => Forall (fun v => ∃ dct rel p, v = PDict dct ∧
    dict_get "path" dct = Some (PStr rel) ∧ rel ∈ acc.2 ∧ p = root ++ path_parts rel ∧
    p_is_symlink t p = false ∧ p_is_file t p = true) pre)); [done|].
  intros pre v [ab seen] b' _ IH Hx. unfold check_manifest_item in Hx.
  inv_bind Hx as dct Hd. apply of_option_ok, as_dict_Some in Hd as ->.
  inv_bind Hx as rel Hr. apply of_option_ok, as_str_Some in Hr.
  inv_guard Hx as _. inv_guard Hx as _. inv_guard Hx as _. inv_guard Hx as Hf.
  inv_bind Hx as sz _. inv_bind Hx as data _. inv_guard Hx as _. injection Hx as <-. bools.
  apply Forall_app_2.
  - eapply Forall_impl; [done|]. simpl. intros v' (dct' & rel' & p' & ? & ? & ? & ?).
    exists dct', rel', p'. split_and!; try done; set_solver.
  - constructor; [|done]. exists dct, rel, (root ++ path_parts rel). split_and!; try done.
    + unfold pget in Hr. by destruct (dict_get "path" dct); simpl in Hr; [subst|].
    + simpl. set_solver.
Qed.

Lemma validate_manifest_layer_ok layer i u :
  dict_get "index" layer = Some i →
  (∀ n absolute target, py_int i = Ok n →
     t !! (root ++ [layer_dir_name n]) ≠ Some (NLink absolute target)) →
  validate_manifest_layer t root layer = Ok u →
  ∃ n files, py_int i = Ok n ∧ pget "files" layer = PList files ∧
    name_ok (layer_dir_name n) = true ∧ real_dir t (root ++ [layer_dir_name n]) ∧
    Forall (fun v => ∃ p, item_path root v = Some p ∧
                          file_at (root ++ [layer_dir_name n]) p) files.
Proof.
  unfold validate_manifest_layer. intros Hi Hnl Hx.
  inv_bind Hx as i' Hi'. unfold need_key in Hi'. rewrite Hi in Hi'. injection Hi' as <-.
  inv_bind Hx as n Hn. inv_bind Hx as files Hfiles. apply of_option_ok, as_list_Some in Hfiles.
  inv_guard Hx as Hne. inv_bind Hx as [ab seen] Hacc. inv_guard Hx as Hset. bools.
  apply check_items_ok in Hacc as Hall. simpl in *.
  assert (name_ok (layer_dir_name n) = true) as Hok.
  { unfold layer_dir_name. apply (name_ok_prefixed "layer_" (str_of_Z n) "_"%char); try done.
    apply str_of_Z_no_slash'. }
  assert (∀ rel, rel ∈ seen → ∃ p, rel = relative_posix root p ∧
    p ∈ os_walk_files t (S (tree_depth t)) (root ++ [layer_dir_name n])) as Hseen.
  { intros rel Hr. rewrite <-Hset in Hr. apply elem_of_list_to_set, list_elem_of_fmap in Hr.
    naive_solver. }
  assert (real_dir t (root ++ [layer_dir_name n])) as Hl.
  { destruct files as [|v files]; [done|]. apply Forall_cons in Hall as [(dct & rel & p & _ & _ & Hr & _) _].
    apply Hseen in Hr as (p' & _ & Hp').
    destruct (t !! (root ++ [layer_dir_name n])) as [x|] eqn:E.
    - destruct x as [m data|m|absolute target|m]; [|by eapply real_dir_child| |];
        [|by destruct (Hnl n absolute target)|];
        rewrite os_walk_not_dir in Hp'; try (by apply elem_of_nil in Hp'); intros es;
        unfold iterdir; pose proof (stat_child t root _ Hroot Hok) as Hs; rewrite E in Hs;
        unfold stat in Hs; destruct (realpath t _); simpl in Hs; try done; by rewrite Hs.
    - rewrite os_walk_not_dir in Hp'; [by apply elem_of_nil in Hp'|]. intros es.
      unfold iterdir. pose proof (stat_child t root _ Hroot Hok) as Hs. rewrite E in Hs.
      unfold stat in Hs. destruct (realpath t _); simpl in Hs; try done. by rewrite Hs. }
  exists n, files. split_and!; try done.
  eapply Forall_impl; [exact Hall|]. intros v (dct & rel & p & -> & Hrel & Hr & -> & Hns & Hfile).
  apply Hseen in Hr as (p & -> & Hp). apply os_walk_real in Hp as (q & e & -> & Hq & Hqd & He);
    [|done..].
  assert (root `prefix_of` q) as Hrq by (etrans; [|done]; by exists [layer_dir_name n]).
  destruct (layer_path_names t root q e Hqd He Hrq) as (rest & Heq & Hrne & Hrn & Hrel').
  rewrite Hrel', path_parts_posix_join, <-Heq in Hns, Hfile by done.
  exists (q ++ [e]). split.
  - unfold item_path, pget. simpl. rewrite Hrel. simpl.
    by rewrite Hrel', path_parts_posix_join, <-Heq.
  - destruct (child_is_file t q e) as (m & data & Hd); try done. by exists q, e, m, data.
Qed.
End layer.

(** ** The phases of a consumption *)

Definition same_outside (D : path → Prop) (t t' : fs) : Prop := ∀ k, ¬ D k → t' !! k = t !! k.

#[export] Instance same_outside_preorder D : PreOrder (same_outside D).
Proof. split; [by intros t k|]. intros t1 t2 t3 H1 H2 k Hk. by rewrite H2, H1. Qed.

Lemma same_outside_delete (D : path → Prop) t q : D q → same_outside D t (delete q t).
Proof. intros Hq k Hk. apply lookup_delete_ne. by intros <-. Qed.

Section phases.
Context `{Platform} (t1 : fs) (ps1 : proc * store) (D : path → Prop).

(** The process after some deletions inside [D]; nothing else has changed. *)
Record deleting (ps : proc * store) : Prop := {
  de_wf : fs_wf (w_fs (p_world ps.1));
  de_frame : same_outside D t1 (w_fs (p_world ps.1));
  de_evolves : evolves (same_outside D t1) (p_world ps1.1) (p_world ps.1);
  de_proc : ps.1 = set_world ps1.1 (p_world ps.1);
  de_store : ps.2 = ps1.2;
}.

Lemma deleting_step ps q :
  deleting ps → D q → q ≠ [] →
  (∀ n, w_fs (p_world ps.1) !! (q ++ [n]) = None) →
  deleting (set_world ps.1 (set_tree (delete q (w_fs (p_world ps.1))) (p_world ps.1)), ps.2).
Proof.
  intros [Hwf Hf He Hp Hs] Hq Hne Hb.
  assert (same_outside D t1 (delete q (w_fs (p_world ps.1)))) as Hf'
    by (etrans; [exact Hf|by apply same_outside_delete]).
  split; simpl; try done.
  - by apply fs_wf_delete.
  - eapply evolves_trans; [done|]. by apply evolves_step.
  - by rewrite Hp.
Qed.

Definition tree_of (ps : proc * store) : fs := w_fs (p_world ps.1).

Lemma on_world_unlink ps q e ps' r :
  deleting ps → real_dir (tree_of ps) q → name_ok e = true → D (q ++ [e]) →
  on_world (unlink (q ++ [e])) ps = (ps', r) →
  deleting ps' ∧ same_dirs (tree_of ps) (tree_of ps').
Proof.
  intros Hde Hq He HD Hx. unfold on_world in Hx. rewrite (unlink_child _ _ _ Hq He) in Hx.
  fold (tree_of ps) in Hx.
  assert (ps = (set_world ps.1 (p_world ps.1), ps.2)) as Hps by (by destruct ps as [[] ?]).
  destruct (tree_of ps !! (q ++ [e])) as [x|] eqn:E; [|injection Hx as <- _; by rewrite <-Hps].
  destruct x as [m data|m|a tg|m]; injection Hx as <- _; try (by rewrite <-Hps).
  all: split; [apply deleting_step; try done; [apply snoc_neq_nil|]; intros n;
    eapply leaf_below; try done; try exact E; apply Hde
   |apply same_dirs_delete; intros m'; by rewrite E].
Qed.

Lemma on_world_rmdir ps q e ps' r :
  deleting ps → real_dir (tree_of ps) q → name_ok e = true → D (q ++ [e]) →
  on_world (rmdir (q ++ [e])) ps = (ps', r) →
  deleting ps' ∧
  (∀ k, ¬ (q ++ [e]) `prefix_of` k → tree_of ps' !! k = tree_of ps !! k) ∧
  (r = Ok tt → ∀ k, (q ++ [e]) `prefix_of` k → tree_of ps' !! k = None).
Proof.
  intros Hde Hq He HD Hx. unfold on_world in Hx. rewrite (rmdir_child _ _ _ Hq He) in Hx.
  fold (tree_of ps) in Hx.
  assert (ps = (set_world ps.1 (p_world ps.1), ps.2)) as Hps by (by destruct ps as [[] ?]).
  destruct (tree_of ps !! (q ++ [e])) as [x|] eqn:E;
    [|injection Hx as <- <-; by rewrite <-Hps].
  destruct x as [m data|m|a tg|m]; try (injection Hx as <- <-; by rewrite <-Hps).
  destruct (children (tree_of ps) (q ++ [e])) as [|c cs] eqn:Ec;
    [|injection Hx as <- <-; by rewrite <-Hps].
  injection Hx as <- <-.
  assert (∀ r, r ≠ [] → tree_of ps !! ((q ++ [e]) ++ r) = None) as Hb.
  { intros r Hr. apply empty_dir_below; try done. apply Hde. }
  split; [|split].
  - apply deleting_step; try done; [apply snoc_neq_nil|]. intros n. by apply Hb.
  - intros k Hk. apply lookup_delete_ne. intros <-. by apply Hk.
  - intros _ k [r ->]. destruct r as [|c r].
    + rewrite app_nil_r. apply lookup_delete_eq.
    + unfold tree_of at 1. simpl. rewrite lookup_delete_ne; [by apply Hb|].
      intros Heq. apply (f_equal length) in Heq. rewrite !length_app in Heq. simpl in Heq. lia.
Qed.
End phases.

Definition below (q : path) : path → Prop := prefix q.

Section consume.
Context `{Platform} (root : path) (n : Z).
Let layer_dir := root ++ [layer_dir_name n].
Context (Hname : name_ok (layer_dir_name n) = true).

(** The files of a validated layer are deleted one by one. *)
Lemma delete_files_phase ps1 files ps' r :
  let t1 := tree_of ps1 in
  fs_wf t1 → real_dir t1 layer_dir →
  Forall (fun v => ∃ p, item_path root v = Some p ∧ file_at t1 layer_dir p) files →
  for_M files (delete_item root) ps1 = (ps', r) →
  deleting t1 ps1 (below layer_dir) ps' ∧ same_dirs t1 (tree_of ps').
Proof.
  intros t1 Hwf Hl Hall Hx.
  set (P := fun ps => deleting t1 ps1 (below layer_dir) ps ∧ same_dirs t1 (tree_of ps)).
  assert (P ps1) as H1.
  { split; [|done]. split; try done; [apply evolves_refl|by destruct ps1 as [[] ?]]. }
  assert (match r with Ok _ => P ps' | Err _ => P ps' end) as Hr; [|by destruct r].
  revert Hx. apply (for_M_inv (fun _ => P) (fun _ => P)); [done|].
  intros pre v post s1 s2 r' -> [Hde Hsd] Hx.
  apply Forall_app in Hall as [_ Hv]. apply Forall_cons in Hv as [(p & Hp & Hf) _].
  destruct Hf as (q & e & m & data & -> & [rq ->] & Hq & He & _).
  assert (P s2); [|by destruct r'].
  unfold item_path in Hp. destruct v; try done. simpl in Hp.
  unfold delete_item in Hx. rewrite bindM_lift in Hx. simpl in Hx. rewrite bindM_lift in Hx.
  unfold need_key, pget in *. destruct (dict_get "path" d) as [[| | | |rel| |]|]; try done.
  simpl in Hp, Hx. rewrite bindM_lift in Hx. simpl in Hx. injection Hp as Hp. rewrite Hp in Hx.
  unfold the_tree in Hx. rewrite bindM_gets, bindM_raise_if in Hx.
  destruct (p_is_symlink _ _ || _); [by injection Hx as <- _|].
  eapply on_world_unlink in Hx as [Hde' Hsd']; try done.
  - split; [done|]. by etrans.
  - by eapply real_dir_same.
  - exists (rq ++ [e]). by rewrite app_assoc.
Qed.

(** The emptied directories of the layer are removed. *)
Lemma rmdir_phase t1 ps1 numas ps0 ps' r :
  deleting t1 ps1 (below layer_dir) ps0 → real_dir (tree_of ps0) layer_dir →
  for_M numas (fun k => on_world (rmdir (layer_dir ++ [numa_dir_name k]))) ps0 = (ps', r) →
  deleting t1 ps1 (below layer_dir) ps' ∧ real_dir (tree_of ps') layer_dir.
Proof.
  intros Hde Hl Hx.
  set (P := fun ps => deleting t1 ps1 (below layer_dir) ps ∧ real_dir (tree_of ps) layer_dir).
  assert (match r with Ok _ => P ps' | Err _ => P ps' end) as Hr; [|by destruct r].
  revert Hx. apply (for_M_inv (fun _ => P) (fun _ => P)); [done|].
  intros pre k post s1 s2 r' _ [Hde' Hl'] Hx.
  assert (P s2); [|by destruct r'].
  assert (name_ok (numa_dir_name k) = true) as Hk.
  { unfold numa_dir_name. apply (name_ok_prefixed "numa_" (str_of_Z k) "_"%char); try done.
    apply str_of_Z_no_slash'. }
  eapply on_world_rmdir in Hx as (Hde2 & Hf & _); try done; [|by eexists].
  split; [done|]. destruct Hl' as [Hn Hd]. split; [done|]. intros q Hq Hne.
  rewrite Hf; [by apply Hd|]. intros Hp. apply prefix_length in Hp, Hq.
  rewrite length_app in Hp. simpl in Hp. lia.
Qed.
End consume.

(** ** [consume_layer] *)

(** What a store's methods rely on: its root is a real directory with a
    manifest file, and no layer directory is a symbolic link. *)
Record store_ok (ps : proc * store) : Prop := {
  so_wf : fs_wf (tree_of ps);
  so_root : real_dir (tree_of ps) (st_root ps.2);
  so_manifest : ∃ m data, tree_of ps !! (st_root ps.2 ++ [MANIFEST_NAME]) = Some (NFile m data);
  so_no_link : ∀ i a tg, tree_of ps !! (st_root ps.2 ++ [layer_dir_name i]) ≠ Some (NLink a tg);
}.

(** The manifest file holds [manifest]. *)
Definition on_disk `{Platform} (root : path) (manifest : list (string * pyval)) (t : fs) : Prop :=
  ∃ m, t !! (root ++ [MANIFEST_NAME]) = Some (NFile m (json_dumps (PDict manifest))).

Lemma layer_dir_ok n : name_ok (layer_dir_name n) = true.
Proof.
  apply (name_ok_prefixed "layer_" (str_of_Z n) "_"%char); try done. apply str_of_Z_no_slash'.
Qed.

Lemma manifest_not_below root n : ¬ below (root ++ [layer_dir_name n]) (root ++ [MANIFEST_NAME]).
Proof.
  intros [r Hr]. rewrite <-app_assoc in Hr. apply app_inv_head in Hr. discriminate Hr.
Qed.

Lemma tmp_not_below root n pid :
  ¬ below (root ++ [layer_dir_name n]) (root ++ [tmp_name MANIFEST_NAME pid]).
Proof.
  intros [r Hr]. rewrite <-app_assoc in Hr. apply app_inv_head in Hr. discriminate Hr.
Qed.

Section consume_layer.
Context `{Platform}.

Definition tmp_path (ps : proc * store) : path :=
  st_root ps.2 ++ [tmp_name MANIFEST_NAME (w_pid (p_world ps.1))].

(** The trees and the final state of a manifest write. *)
Lemma write_manifest_spec ps ps' r :
  store_ok ps → write_manifest ps = (ps', r) →
  (ps' = ps ∧ tree_of ps !! tmp_path ps ≠ None ∧ ∃ e, r = Err e) ∨
  (r = Ok tt ∧ tree_of ps !! tmp_path ps = None ∧ store_ok ps' ∧
   ps'.1 = set_world ps.1 (p_world ps'.1) ∧ ps'.2 = ps.2 ∧ same_dirs (tree_of ps) (tree_of ps') ∧
   same_outside (eq (st_root ps.2 ++ [MANIFEST_NAME])) (tree_of ps) (tree_of ps') ∧
   on_disk (st_root ps.2) (st_manifest ps.2) (tree_of ps') ∧
   evolves (fun t' => same_outside (eq (tmp_path ps)) (tree_of ps) t' ∨ t' = tree_of ps')
           (p_world ps.1) (p_world ps'.1)).
Proof.
  intros [Hwf Hroot (m & data & Hm) Hnl]. unfold write_manifest, atomic_write_manifest.
  rewrite bindM_gets. unfold on_world.
  assert (ps = (set_world ps.1 (p_world ps.1), ps.2)) as Hps by (by destruct ps as [[] ?]).
  destruct (decide (tree_of ps !! tmp_path ps = None)) as [Ht|Ht].
  - assert (name_ok MANIFEST_NAME = true) as Hmn by done.
    rewrite (atomic_write_ok (p_world ps.1) _ _ _ Hwf Hroot Hmn Ht);
      [|intros m'; fold (tree_of ps); by rewrite Hm].
    cbv zeta. intros [= <- <-]. right.
    set (file := NFile (new_meta (p_world ps.1)) (json_dumps (PDict (st_manifest ps.2)))).
    fold (tree_of ps). set (target := st_root ps.2 ++ [MANIFEST_NAME]) in *.
    change (st_root ps.2 ++ [tmp_name MANIFEST_NAME (w_pid (p_world ps.1))]) with (tmp_path ps).
    set (t' := <[target:=file]> (tree_of ps)).
    assert (tree_of (set_world ps.1 (set_tree t' (set_tree (<[tmp_path ps:=file]> (tree_of ps))
      (set_tree (<[tmp_path ps:=NFile (new_meta (p_world ps.1)) ""]> (tree_of ps))
        (p_world ps.1)))), ps.2) = t') as -> by done.
    assert (same_dirs (tree_of ps) t') as Hsd
      by (apply same_dirs_insert; intros m'; by rewrite Hm).
    split_and!; try done.
    + split; simpl.
      * destruct (real_dir_lookup _ _ Hwf Hroot) as [mr Hmr].
        eapply fs_wf_insert; try done. intros m'. fold target. by rewrite Hm.
      * by eapply real_dir_same.
      * exists (new_meta (p_world ps.1)), (json_dumps (PDict (st_manifest ps.2))).
        change (t' !! target = Some file). unfold t'. by rewrite lookup_insert_eq.
      * intros i a tg. change (t' !! (st_root ps.2 ++ [layer_dir_name i]) ≠ Some (NLink a tg)).
        unfold t'. rewrite lookup_insert_ne; [by apply Hnl|].
        intros E. by apply app_inj_tail in E as [_ [=]].
    + intros k Hk. by apply lookup_insert_ne.
    + exists (new_meta (p_world ps.1)). unfold t'. by rewrite lookup_insert_eq.
    + assert (∀ x, same_outside (eq (tmp_path ps)) (tree_of ps) (<[tmp_path ps:=x]> (tree_of ps)))
        as Hi by (intros x k Hk; by apply lookup_insert_ne).
      simpl. do 2 (eapply evolves_trans; [apply evolves_step; by left; apply Hi|]).
      apply evolves_step. by right.
  - destruct (atomic_write (st_root ps.2) MANIFEST_NAME (PDict (st_manifest ps.2)) (p_world ps.1))
      as [w' [[]|e]] eqn:E.
    + exfalso. unfold atomic_write in E. rewrite bindM_gets in E. cbv zeta in E.
      fold (tmp_name MANIFEST_NAME (w_pid (p_world ps.1))) in E.
      pose proof (write_new_child (p_world ps.1) (st_root ps.2)
        (tmp_name MANIFEST_NAME (w_pid (p_world ps.1))) Hroot
        ltac:(by apply tmp_name_ok) Hwf (json_dumps (PDict (st_manifest ps.2)))) as Hw.
      fold (tree_of ps) in Hw. fold (tmp_path ps) in Hw.
      destruct (tree_of ps !! tmp_path ps); [|done].
      rewrite (bindM_fail _ _ _ _ _ Hw) in E. done.
    + intros [= <- <-]. left.
      apply atomic_write_err in E as [[_ ->]|[Ht' _]]; try done.
      split_and!; [done|done|by eexists].
Qed.

Lemma find_layer_ok layers n k pos layer : find_layer layers n k = Ok (pos, layer) →
  ∃ iv, dict_get "index" layer = Some iv ∧ py_int iv = Ok n.
Proof.
  revert k. induction layers as [|v layers IH]; intros k; simpl; [done|]. intros Hx.
  inv_bind Hx as l Hl. inv_bind Hx as iv Hiv. inv_bind Hx as i Hi.
  destruct (Z.eqb_spec i n) as [->|]; [|by eapply IH].
  injection Hx as <- <-. unfold need_key in Hiv. apply of_option_ok in Hiv. eauto.
Qed.

(** Either the listed files are untouched, or the manifest on disk already
    says that the layer is being, or has been, consumed. *)
Definition logged (root : path) (t : fs) (layer m : list (string * pyval)) (pos : nat)
    (t' : fs) : Prop :=
  (∀ q, q ∈ layer_paths root layer → t' !! q = t !! q) ∨
  on_disk root (set_layer_state m pos "consuming") t' ∨
  on_disk root (set_layer_state (set_layer_state m pos "consuming") pos "consumed") t'.

(** What a completed consumption leaves. *)
Record consumed_ok (n : Z) (pos : nat) (ps ps' : proc * store) : Prop := {
  co_store : ps'.2 = Store (st_root ps.2)
    (set_layer_state (set_layer_state (st_manifest ps.2) pos "consuming") pos "consumed")
    (st_closed ps.2) (st_previous ps.2);
  co_proc : ps'.1 = set_world ps.1 (p_world ps'.1);
  co_ok : store_ok ps';
  co_gone : ∀ k, below (st_root ps.2 ++ [layer_dir_name n]) k → tree_of ps' !! k = None;
  co_kept : ∀ k, ¬ below (st_root ps.2 ++ [layer_dir_name n]) k →
    k ≠ st_root ps.2 ++ [MANIFEST_NAME] → tree_of ps' !! k = tree_of ps !! k;
  co_disk : on_disk (st_root ps.2) (st_manifest ps'.2) (tree_of ps');
}.

Lemma logged_write root t layer m pos t0 t1 t' n pid :
  (∀ q, q ∈ layer_paths root layer → below (root ++ [layer_dir_name n]) q) →
  (∀ q, q ∈ layer_paths root layer → t0 !! q = t !! q) →
  logged root t layer m pos t1 →
  same_outside (eq (root ++ [tmp_name MANIFEST_NAME pid])) t0 t' ∨ t' = t1 →
  logged root t layer m pos t'.
Proof.
  intros Hb H0 H1 [Hs| ->]; [|done]. left. intros q Hq. rewrite Hs; [by apply H0|].
  intros <-. by apply Hb, tmp_not_below in Hq.
Qed.

Lemma logged_write2 root t layer m pos m' t0 t1 t' pid :
  (m' = set_layer_state m pos "consuming" ∨
   m' = set_layer_state (set_layer_state m pos "consuming") pos "consumed") →
  on_disk root m' t0 → logged root t layer m pos t1 →
  same_outside (eq (root ++ [tmp_name MANIFEST_NAME pid])) t0 t' ∨ t' = t1 →
  logged root t layer m pos t'.
Proof.
  intros Hm [mt Hd] H1 [Hs| ->]; [|done]. right.
  assert (on_disk root m' t') as Hd'.
  { exists mt. rewrite Hs; [done|]. intros E. apply app_inj_tail in E as [_ E].
    by apply tmp_name_neq in E. }
  destruct Hm as [->| ->]; auto.
Qed.

Lemma layer_paths_below root layer files t n :
  pget "files" layer = PList files →
  Forall (fun v => ∃ p, item_path root v = Some p ∧
                        file_at t (root ++ [layer_dir_name n]) p) files →
  ∀ q, q ∈ layer_paths root layer → below (root ++ [layer_dir_name n]) q.
Proof.
  intros Hf Hall q. unfold layer_paths. rewrite Hf, list_elem_of_omap.
  intros (v & Hv & Hq). rewrite Forall_forall in Hall.
  destruct (Hall v Hv) as (p & Hp & (q' & e & m & data & -> & [r ->] & _)).
  rewrite Hq in Hp. injection Hp as ->. exists (r ++ [e]). by rewrite <-!app_assoc.
Qed.

(** The part of [consume_layer] after the first manifest write. *)
Definition consume_rest (root : path) (n : Z) (pos : nat) (layer : list (string * pyval))
    : M (proc * store) unit :=
  files ← lift (need_key "files" layer);
  files ← lift (of_option (as_list files) TypeError "object is not iterable");
  _ ← for_M files (delete_item root);
  let layer_dir := root ++ [layer_dir_name n] in
  numa_count ← lift (need_key "numa_count" layer);
  numa_count ← lift (py_int numa_count);
  _ ← for_M (rev (seqZ 0 numa_count)) (fun numa_idx =>
        on_world (rmdir (layer_dir ++ [numa_dir_name numa_idx])));
  _ ← on_world (rmdir layer_dir);
  _ ← mark_layer pos "consumed";
  write_manifest.

Lemma consume_layer_unfold n ps layers pos layer :
  manifest_layers (st_manifest ps.2) = Ok layers → find_layer layers n O = Ok (pos, layer) →
  consume_layer n ps =
  if st_closed ps.2 then (ps, Err (Raise RuntimeError "ephemeral INT8 store is already closed"))
  else match need_key "state" layer with
  | Err e => (ps, Err e)
  | Ok state =>
      if negb (py_eq state (PStr "ready"))
      then (ps, Err (Raise RuntimeError "layer is in another state"))
      else match validate_manifest_layer (tree_of ps) (st_root ps.2) layer with
           | Err e => (ps, Err e)
           | Ok _ => (_ ← mark_layer pos "consuming"; _ ← write_manifest;
                      consume_rest (st_root ps.2) n pos layer) ps
           end
  end.
Proof.
  intros Hl Hf. unfold consume_layer. rewrite bindM_gets, bindM_raise_if.
  destruct (st_closed ps.2); [done|]. rewrite bindM_lift, Hl, bindM_lift, Hf, bindM_lift.
  destruct (need_key "state" layer) as [state|e]; [|done].
  rewrite bindM_raise_if. destruct (negb _); [done|].
  unfold the_tree. rewrite bindM_gets, bindM_lift. fold (tree_of ps).
  by destruct (validate_manifest_layer _ _ _).
Qed.

(** Deleting the files and directories of a layer. *)
Lemma consume_rest_spec root n pos layer files ps1 ps' r :
  let layer_dir := root ++ [layer_dir_name n] in
  fs_wf (tree_of ps1) → real_dir (tree_of ps1) layer_dir → pget "files" layer = PList files →
  Forall (fun v => ∃ p, item_path root v = Some p ∧ file_at (tree_of ps1) layer_dir p) files →
  consume_rest root n pos layer ps1 = (ps', r) →
  ∃ ps2, deleting (tree_of ps1) ps1 (below layer_dir) ps2 ∧
    ((ps' = ps2 ∧ ∃ e, r = Err e) ∨
     ((∀ k, below layer_dir k → tree_of ps2 !! k = None) ∧
      (_ ← mark_layer pos "consumed"; write_manifest) ps2 = (ps', r))).
Proof.
  intros layer_dir Hwf Hl Hfiles Hall Hx. unfold consume_rest in Hx.
  assert (deleting (tree_of ps1) ps1 (below layer_dir) ps1) as H1
    by (split; try done; [apply evolves_refl|by destruct ps1 as [[] ?]]).
  rewrite bindM_lift in Hx. unfold need_key, pget in *.
  destruct (dict_get "files" layer) as [v|]; [simpl in Hfiles; subst v|done].
  simpl in Hx. rewrite bindM_lift in Hx. simpl in Hx.
  apply bindM_inv in Hx as [(ps2 & [] & Hdel & Hx)|(e & Hdel & ->)];
    apply (delete_files_phase root n) in Hdel as [Hde Hsd]; try done;
    [|exists ps'; split; [done|]; left; by eauto].
  fold layer_dir in Hx. rewrite bindM_lift in Hx.
  destruct (dict_get "numa_count" layer) as [nv|]; simpl in Hx;
    [|injection Hx as <- <-; exists ps2; split; [done|]; left; by eauto].
  rewrite bindM_lift in Hx. destruct (py_int nv) as [nc|e];
    [|injection Hx as <- <-; exists ps2; split; [done|]; left; by eauto].
  assert (real_dir (tree_of ps2) layer_dir) as Hl2 by by eapply real_dir_same.
  apply bindM_inv in Hx as [(ps3 & [] & Hrm & Hx)|(e & Hrm & ->)];
    apply (rmdir_phase root n (tree_of ps1) ps1) in Hrm as [Hde3 Hl3]; try done;
    [|exists ps'; split; [done|]; left; by eauto].
  assert (real_dir (tree_of ps3) root ∧ name_ok (layer_dir_name n) = true) as [Hroot Hok]
    by by apply real_dir_parent.
  apply bindM_inv in Hx as [(ps4 & [] & Hrm & Hx)|(e & Hrm & ->)];
    eapply (on_world_rmdir (tree_of ps1) ps1 (below layer_dir)) in Hrm as (Hde4 & _ & Hgone);
    try done.
  - exists ps4. split; [done|]. right. split; [by apply Hgone|done].
  - exists ps'. split; [done|]. left. by eauto.
Qed.

(** [ps] with the layer object at [pos] marked. *)
Definition marked (pos : nat) (state : string) (ps : proc * store) : proc * store :=
  (ps.1, Store (st_root ps.2) (set_layer_state (st_manifest ps.2) pos state) (st_closed ps.2)
               (st_previous ps.2)).

Lemma bindM_mark {B} pos state (f : unit → M (proc * store) B) ps :
  (mark_layer pos state ≫= f) ps = f tt (marked pos state ps).
Proof. unfold mark_layer. rewrite bindM_modify. by destruct ps. Qed.

Lemma marked_ok pos state ps : store_ok ps → store_ok (marked pos state ps).
Proof. intros []. by split. Qed.

(** The second half: from the manifest that says "consuming" to the end. *)
Lemma consume_rest_logged n pos layer files t m ps1 ps' r :
  let root := st_root ps1.2 in
  let layer_dir := root ++ [layer_dir_name n] in
  store_ok ps1 → real_dir (tree_of ps1) layer_dir → pget "files" layer = PList files →
  Forall (fun v => ∃ p, item_path root v = Some p ∧ file_at (tree_of ps1) layer_dir p) files →
  st_manifest ps1.2 = set_layer_state m pos "consuming" →
  on_disk root (st_manifest ps1.2) (tree_of ps1) →
  consume_rest root n pos layer ps1 = (ps', r) →
  evolves (logged root t layer m pos) (p_world ps1.1) (p_world ps'.1) ∧
  (r = Ok tt →
   ps'.2 = Store root (set_layer_state (st_manifest ps1.2) pos "consumed") (st_closed ps1.2)
                 (st_previous ps1.2) ∧
   ps'.1 = set_world ps1.1 (p_world ps'.1) ∧ store_ok ps' ∧
   (∀ k, below layer_dir k → tree_of ps' !! k = None) ∧
   (∀ k, ¬ below layer_dir k → k ≠ root ++ [MANIFEST_NAME] →
      tree_of ps' !! k = tree_of ps1 !! k) ∧
   on_disk root (st_manifest ps'.2) (tree_of ps')).
Proof.
  intros root layer_dir Hok Hl Hfiles Hall Hm Hd Hx.
  apply (consume_rest_spec root n pos layer files ps1) in Hx as (ps2 & Hde & Hx);
    [|by apply Hok|done..]. fold layer_dir in Hde, Hx.
  assert (∀ t', same_outside (below layer_dir) (tree_of ps1) t' →
            on_disk root (st_manifest ps1.2) t') as Hdisk.
  { intros t' Ht'. destruct Hd as [mt Hd]. exists mt. rewrite Ht'; [done|].
    apply manifest_not_below. }
  assert (evolves (logged root t layer m pos) (p_world ps1.1) (p_world ps2.1)) as He.
  { eapply evolves_weaken; [|apply Hde]. intros t' Ht'. right; left. rewrite <-Hm. by apply Hdisk. }
  destruct Hx as [[-> [e ->]]|[Hgone Hx]]; [done|].
  assert (store_ok ps2) as Hok2.
  { destruct Hde as [Hwf2 Hf2 _ _ Hs2]. destruct Hok as [Hwf Hroot (mm & data & Hmm) Hnl].
    split; [done| | |]; rewrite Hs2; fold root.
    - destruct Hroot as [Hrn Hrd]. split; [done|]. intros q Hq Hne.
      unfold tree_of. rewrite Hf2; [by apply Hrd|]. intros Hb.
      apply prefix_length in Hb, Hq. unfold layer_dir in Hb. rewrite length_app in Hb.
      simpl in Hb. lia.
    - exists mm, data. unfold tree_of. rewrite Hf2; [done|]. apply manifest_not_below.
    - intros i a tg E.
      destruct (decide (below layer_dir (root ++ [layer_dir_name i]))) as [Hb|Hb];
        [by rewrite Hgone in E|].
      unfold tree_of in E. rewrite Hf2 in E by done. by apply Hnl in E. }
  rewrite bindM_mark in Hx. apply marked_ok with (pos := pos) (state := "consumed") in Hok2.
  assert (st_root ps2.2 = root) as Hroot2 by (by rewrite (de_store _ _ _ _ Hde)).
  apply write_manifest_spec in Hx as [(-> & _ & e & ->)|(-> & Ht & Hok' & Hp & Hs & Hsd & Hout & Hdisk' & He')];
    [done| |done].
  cbn [st_root st_manifest marked snd fst] in *. rewrite Hroot2 in *.
  assert (st_manifest (marked pos "consumed" ps2).2
          = set_layer_state (set_layer_state m pos "consuming") pos "consumed") as Hm2.
  { simpl. by rewrite (de_store _ _ _ _ Hde), Hm. }
  split.
  - eapply evolves_trans; [exact He|]. eapply evolves_weaken; [|exact He'].
    intros t' Ht'. eapply (logged_write2 root t layer m pos _ (tree_of ps2) (tree_of ps')); try done.
    + left. exact eq_refl.
    + rewrite <-Hm. apply Hdisk. apply Hde.
    + right; right. by rewrite <-Hm2.
    + unfold tmp_path in Ht'. simpl in Ht'. rewrite Hroot2 in Ht'. exact Ht'.
  - intros _. split_and!.
    + rewrite Hs. unfold marked. cbn [snd]. by rewrite (de_store _ _ _ _ Hde).
    + rewrite Hp. unfold marked. cbn [fst]. rewrite (de_proc _ _ _ _ Hde). done.
    + done.
    + intros k Hk. rewrite Hout; [by apply Hgone|]. intros <-. by apply manifest_not_below in Hk.
    + intros k Hk Hne. rewrite Hout by (intros <-; by apply Hne). by apply Hde.
    + rewrite Hs. exact Hdisk'.
Qed.

Lemma consume_layer_spec n ps ps' r layers pos layer :
  store_ok ps →
  manifest_layers (st_manifest ps.2) = Ok layers → find_layer layers n O = Ok (pos, layer) →
  consume_layer n ps = (ps', r) →
  evolves (logged (st_root ps.2) (tree_of ps) layer (st_manifest ps.2) pos)
          (p_world ps.1) (p_world ps'.1) ∧
  (r = Ok tt → consumed_ok n pos ps ps').
Proof.
  intros Hok Hl Hf Hx. rewrite (consume_layer_unfold n ps layers pos layer Hl Hf) in Hx.
  destruct (st_closed ps.2); [injection Hx as <- <-; split; [apply evolves_refl|done]|].
  destruct (need_key "state" layer) as [state|e];
    [|injection Hx as <- <-; split; [apply evolves_refl|done]].
  destruct (negb (py_eq state _)); [injection Hx as <- <-; split; [apply evolves_refl|done]|].
  destruct (validate_manifest_layer _ _ _) as [u|e] eqn:Hv;
    [|injection Hx as <- <-; split; [apply evolves_refl|done]].
  destruct (find_layer_ok _ _ _ _ _ Hf) as (iv & Hiv & Hin).
  apply (validate_manifest_layer_ok _ (so_wf _ Hok) _ (so_root _ Hok) layer iv) in Hv
    as (n' & files & Hn' & Hfiles & Hname & Hld & Hall); [|done|].
  2:{ intros n' a tg _. by apply (so_no_link _ Hok). }
  assert (n' = n) as -> by congruence.
  set (root := st_root ps.2) in *. set (m := st_manifest ps.2) in *.
  pose proof (layer_paths_below root layer files (tree_of ps) n Hfiles Hall) as Hbelow.
  rewrite bindM_mark in Hx.
  assert (store_ok (marked pos "consuming" ps)) as Hokm by by apply marked_ok.
  apply bindM_inv in Hx as [(ps1 & [] & Hw & Hx)|(e & Hw & ->)];
    apply write_manifest_spec in Hw
      as [(-> & _ & e' & Hr)|(Hr & Ht & Hok1 & Hp1 & Hs1 & Hsd & Hout & Hdisk & He)]; try done.
  2:{ split; [|done]. apply evolves_refl. }
  cbn [st_root st_manifest marked snd fst] in *. fold root m in Hx, Hout, Hdisk, Hs1.
  fold (tree_of ps) in Hx.
  assert (st_root ps1.2 = root) as Hr1 by (by rewrite Hs1).
  assert (real_dir (tree_of ps1) (root ++ [layer_dir_name n])) as Hld1
    by by eapply real_dir_same.
  assert (Forall (fun v => ∃ p, item_path root v = Some p ∧
            file_at (tree_of ps1) (root ++ [layer_dir_name n]) p) files) as Hall1.
  { eapply Forall_impl; [exact Hall|]. intros v (p & Hp & (q & e & mm & data & -> & Hq & Hqd & He' & Hlk)).
    exists (q ++ [e]). split; [done|]. exists q, e, mm, data. split_and!; try done.
    - by eapply real_dir_same.
    - rewrite Hout; [exact Hlk|]. intros Heq. apply (manifest_not_below root n).
      rewrite Heq. destruct Hq as [rq ->]. exists (rq ++ [e]). by rewrite app_assoc. }
  assert (logged root (tree_of ps) layer m pos (tree_of ps1)) as Hlog1 by (by right; left).
  rewrite <-Hr1 in Hx, Hld1, Hall1.
  apply (consume_rest_logged n pos layer files (tree_of ps) m) in Hx as [He2 Hfin]; try done;
    [|by rewrite Hs1|by rewrite Hr1, Hs1].
  rewrite Hr1 in He2, Hfin. split.
  - eapply evolves_trans; [|exact He2]. eapply evolves_weaken; [|exact He].
    intros t' Ht'. eapply (logged_write root (tree_of ps) layer m pos (tree_of ps) (tree_of ps1));
      [exact Hbelow|done|done|exact Ht'].
  - intros ->. destruct Hfin as (Hs' & Hp' & Hok' & Hgone & Hkept & Hdisk'); [done|].
    split; fold root m; try done.
    + rewrite Hs', Hs1. done.
    + rewrite Hp', Hp1. done.
    + intros k Hk Hne. rewrite Hkept by done. apply Hout. by intros <-.
Qed.
End consume_layer.

(** ** [finish] *)

Section finish.
Context `{Platform}.

Lemma any_unconsumed_false layers : any_unconsumed layers = Ok false →
  Forall (fun v => layer_consumed v = Ok true) layers.
Proof.
  induction layers as [|v layers IH]; [constructor|]. simpl. intros Hx.
  inv_bind Hx as b Hb. destruct b; [|done]. constructor; auto.
Qed.

(** The signal table after the handlers that [prev] records are put back. *)
Definition restored (sig : signum → handler) (prev : list (signum * handler)) : signum → handler :=
  foldl (fun f sh => upd_signal f sh.1 sh.2) sig prev.

Record finished (ps ps' : proc * store) : Prop := {
  fi_layers : ∃ layers, manifest_layers (st_manifest ps.2) = Ok layers ∧
    Forall (fun v => layer_consumed v = Ok true) layers;
  fi_gone : ∀ k, below (st_root ps.2) k → tree_of ps' !! k = None;
  fi_kept : ∀ k, ¬ below (st_root ps.2) k → tree_of ps' !! k = tree_of ps !! k;
  fi_store : ps'.2 = Store (st_root ps.2) (st_manifest ps.2) true [];
  fi_signals : p_signals ps'.1 = restored (p_signals ps.1) (st_previous ps.2);
  fi_atexit : p_atexit ps'.1 = false;
}.

Lemma finish_spec ps ps' r :
  store_ok ps → st_root ps.2 ≠ [] → finish ps = (ps', r) →
  match r with
  | Ok _ => finished ps ps'
  | Err _ => st_closed ps'.2 = st_closed ps.2 ∧ p_signals ps'.1 = p_signals ps.1 ∧
             (∀ k, k ≠ st_root ps.2 ++ [MANIFEST_NAME] → tree_of ps' !! k = tree_of ps !! k)
  end.
Proof.
  intros [Hwf Hroot (m & data & Hm) _] Hne Hx. unfold finish in Hx.
  rewrite bindM_gets, bindM_lift in Hx.
  destruct (manifest_layers _) as [layers|e] eqn:Hl; [|by injection Hx as <- <-].
  rewrite bindM_lift in Hx.
  destruct (any_unconsumed layers) as [b|e] eqn:Hu; [|by injection Hx as <- <-].
  rewrite bindM_raise_if in Hx. destruct b; [by injection Hx as <- <-|].
  apply any_unconsumed_false in Hu.
  assert (ps = (set_world ps.1 (p_world ps.1), ps.2)) as Hps by (by destruct ps as [[] ?]).
  assert (deleting (tree_of ps) ps (below (st_root ps.2)) ps) as H0
    by (split; try done; [apply evolves_refl|by destruct ps as [[] ?]]).
  set (root := st_root ps.2) in *.
  assert (∃ p e, root = p ++ [e]) as (p & e & Hr).
  { destruct root as [|? ? _] using rev_ind; [done|]. by do 2 eexists. }
  assert (real_dir (tree_of ps) p ∧ name_ok e = true) as [Hp He]
    by (apply real_dir_parent; by rewrite <-Hr).
  apply bindM_inv in Hx as [(ps1 & [] & H1 & Hx)|(ex & H1 & ->)].
  2:{ unfold on_world in H1. rewrite unlink_child in H1 by done. fold (tree_of ps) in H1.
      rewrite Hm in H1. done. }
  pose proof H1 as H1'. unfold on_world in H1'. rewrite unlink_child in H1' by done.
  fold (tree_of ps) in H1'. rewrite Hm in H1'. injection H1' as Hps1.
  eapply (on_world_unlink _ _ (below root)) in H1 as [Hde1 Hsd1]; try done; [|by eexists].
  apply bindM_inv in Hx as [(ps2 & [] & H2 & Hx)|(ex & H2 & ->)]; rewrite Hr in H2;
    pose proof H2 as H2'; eapply (on_world_rmdir _ _ (below root)) in H2' as (Hde2 & Hout & Hgone);
    try done; try (by eapply real_dir_same); try (by rewrite <-Hr); rewrite <-Hr in *.
  - unfold close_store, restore_signal_handlers, atexit_unregister in Hx.
    rewrite !bindM_modify in Hx. destruct ps2 as [p2 s2] eqn:Eps2. injection Hx as <- <-.
    assert (s2 = ps.2) as Hs2 by apply (de_store _ _ _ _ Hde2).
    assert (p2 = set_world ps.1 (p_world p2)) as Hp2 by apply (de_proc _ _ _ _ Hde2).
    split; fold root.
    + by exists layers.
    + intros k Hk. by apply Hgone.
    + intros k Hk. by apply (de_frame _ _ _ _ Hde2).
    + by rewrite Hs2.
    + simpl. rewrite Hs2, Hp2. done.
    + done.
  - assert (ps1.2 = ps.2 ∧ p_signals ps1.1 = p_signals ps.1) as [Hs1 Hg1] by (by subst ps1).
    assert (ps'.2 = ps.2) as -> by apply (de_store _ _ _ _ Hde2).
    rewrite (de_proc _ _ _ _ Hde2). split_and!; try done. intros k Hk.
    assert (tree_of ps' = tree_of ps1) as Ht.
    { unfold on_world in H2. rewrite Hr in H2.
      rewrite rmdir_child in H2; [|by eapply real_dir_same|done].
      repeat case_match; simplify_eq; done. }
    unfold tree_of in *. rewrite Ht, <-Hps1. simpl. rewrite lookup_delete_ne; [done|].
    by intros <-.
Qed.

(** ** A complete run *)

(** The consumer's calls: the layers in some order, then [finish]. *)
Definition consume_all (order : list Z) : M (proc * store) unit :=
  _ ← for_M order consume_layer; finish.

Lemma manifest_layers_alter n m pos state layers layer :
  manifest_layers m = Ok layers → find_layer layers n O = Ok (pos, layer) →
  ∃ layers', manifest_layers (set_layer_state m pos state) = Ok layers'.
Proof.
  unfold manifest_layers, set_layer_state, need_key. intros Hl _.
  destruct (dict_get "layers" m) as [[]|] eqn:E; try done. simpl.
  rewrite dict_get_set_eq. simpl. by eexists.
Qed.

Lemma consume_layer_root n ps ps' :
  store_ok ps → consume_layer n ps = (ps', Ok tt) →
  store_ok ps' ∧ st_root ps'.2 = st_root ps.2 ∧ st_previous ps'.2 = st_previous ps.2 ∧
  p_signals ps'.1 = p_signals ps.1 ∧
  (∀ k, ¬ below (st_root ps.2) k → tree_of ps' !! k = tree_of ps !! k).
Proof.
  intros Hok Hx. pose proof Hx as Hx'. unfold consume_layer in Hx'.
  rewrite bindM_gets, bindM_raise_if in Hx'. destruct (st_closed ps.2); [done|].
  rewrite bindM_lift in Hx'. destruct (manifest_layers _) as [layers|] eqn:Hl; [|done].
  rewrite bindM_lift in Hx'. destruct (find_layer layers n O) as [[pos layer]|] eqn:Hf; [|done].
  clear Hx'. apply (consume_layer_spec n ps ps' _ layers pos layer) in Hx as [_ Hc]; try done.
  destruct (Hc eq_refl) as [Hs Hp Hok' _ Hkept _]. rewrite Hs. split_and!; try done.
  - by rewrite Hp.
  - intros k Hk. apply Hkept.
    + intros [r ->]. apply Hk. exists (layer_dir_name n :: r). by rewrite <-app_assoc.
    + intros ->. apply Hk. by eexists.
Qed.
End finish.

(** ** Properties of the consumer *)

Section consumer_properties.
Context `{Platform}.

(** C11.  Write-ahead: whatever happens to a [consume_layer] call, and at
    whichever of its file operations the process dies, a tree in which one of
    the layer's files is no longer what it was has a manifest on disk that
    says the layer is being consumed, or has been. *)
Theorem consume_layer_write_ahead n ps ps' r layers pos layer :
  store_ok ps →
  manifest_layers (st_manifest ps.2) = Ok layers → find_layer layers n O = Ok (pos, layer) →
  consume_layer n ps = (ps', r) →
  let consuming := set_layer_state (st_manifest ps.2) pos "consuming" in
  ∃ visited, w_hist (p_world ps'.1) = visited ++ w_hist (p_world ps.1) ∧
    tree_of ps' = default (tree_of ps) (head visited) ∧
    ∀ t q, t ∈ visited → q ∈ layer_paths (st_root ps.2) layer → t !! q ≠ tree_of ps !! q →
      on_disk (st_root ps.2) consuming t ∨
      on_disk (st_root ps.2) (set_layer_state consuming pos "consumed") t.
Proof.
  intros Hok Hl Hf Hx consuming.
  apply (consume_layer_spec n ps ps' r layers pos layer) in Hx as [(l & Hh & HI & Ht & _) _];
    [|done..].
  exists l. split_and!; [done|done|]. intros t q Hin Hq Hne. rewrite Forall_forall in HI.
  destruct (HI t Hin) as [Hsame|Hd]; [|exact Hd]. by destruct Hne; apply Hsame.
Qed.

(**  A [consume_layer] call that returns has deleted exactly the layer:
    nothing is left at or below its directory, every other path except the
    manifest is as before, the manifest on disk is the one in memory and says
    "consumed", and the store can go on. *)
Theorem consume_layer_effect n ps ps' layers pos layer :
  store_ok ps →
  manifest_layers (st_manifest ps.2) = Ok layers → find_layer layers n O = Ok (pos, layer) →
  consume_layer n ps = (ps', Ok tt) →
  consumed_ok n pos ps ps'.
Proof.
  intros Hok Hl Hf Hx.
  apply (consume_layer_spec n ps ps' _ layers pos layer) in Hx as [_ Hc]; auto.
Qed.

Lemma find_layer_alter layers n k pos layer s :
  find_layer layers n k = Ok (pos, layer) →
  (k ≤ pos)%nat ∧
  find_layer (alter (fun v => match v with PDict l => PDict (dict_set "state" (PStr s) l) | v => v end)
                (pos - k)%nat layers) n k = Ok (pos, dict_set "state" (PStr s) layer).
Proof.
  revert k. induction layers as [|v layers IH]; intros k; simpl; [done|]. intros Hx.
  inv_bind Hx as l Hl. apply of_option_ok, as_dict_Some in Hl as ->.
  inv_bind Hx as iv Hiv. inv_bind Hx as i Hi.
  destruct (Z.eqb_spec i n) as [->|Hne].
  - injection Hx as <- <-. split; [done|]. rewrite Nat.sub_diag. simpl.
    unfold need_key in *. rewrite dict_get_set_ne by done. rewrite Hiv. simpl.
    rewrite Hi. simpl. by rewrite Z.eqb_refl.
  - destruct (IH _ Hx) as [Hk Ha]. split; [lia|].
    replace (pos - k)%nat with (S (pos - S k)) by lia. simpl. unfold need_key in *.
    rewrite Hiv. simpl. rewrite Hi. simpl. apply Z.eqb_neq in Hne as ->. exact Ha.
Qed.

(** A layer is consumed at most once: a second call is refused with
    [RuntimeError] and changes nothing. *)
Theorem consume_layer_once n ps ps' :
  store_ok ps → consume_layer n ps = (ps', Ok tt) →
  consume_layer n ps' = (ps', Err (Raise RuntimeError "layer is in another state")).
Proof.
  intros Hok Hx. pose proof Hx as Hx'. unfold consume_layer in Hx'.
  rewrite bindM_gets, bindM_raise_if in Hx'. destruct (st_closed ps.2) eqn:Hcl; [done|].
  rewrite bindM_lift in Hx'. destruct (manifest_layers _) as [layers|] eqn:Hl; [|done].
  rewrite bindM_lift in Hx'. destruct (find_layer layers n O) as [[pos layer]|] eqn:Hf; [|done].
  clear Hx'. apply (consume_layer_spec n ps ps' _ layers pos layer) in Hx as [_ Hc]; try done.
  destruct (Hc eq_refl) as [Hs _ _ _ _ _].
  set (upd s := fun v => match v with PDict l => PDict (dict_set "state" (PStr s) l) | v => v end).
  assert (∀ m ls s, manifest_layers m = Ok ls →
            manifest_layers (set_layer_state m pos s) = Ok (alter (upd s) pos ls)) as Hset.
  { intros m ls s. unfold manifest_layers, set_layer_state, need_key.
    destruct (dict_get "layers" m) as [[]|] eqn:E; try done. simpl. intros [= ->].
    by rewrite dict_get_set_eq. }
  apply (find_layer_alter _ _ _ _ _ "consuming") in Hf as [_ Hf1].
  apply (find_layer_alter _ _ _ _ _ "consumed") in Hf1 as [_ Hf2].
  rewrite Nat.sub_0_r in Hf2.
  rewrite (consume_layer_unfold n ps' (alter (upd "consumed") pos (alter (upd "consuming") pos layers))
             pos (dict_set "state" (PStr "consumed") (dict_set "state" (PStr "consuming") layer))).
  - rewrite Hs. cbn [st_closed]. rewrite Hcl. unfold need_key. by rewrite dict_get_set_eq.
  - rewrite Hs. cbn [st_manifest]. by apply Hset, Hset.
  - exact Hf2.
Qed.

(**  A complete run leaves no trace: when the calls [consume_layer] in some
    order and then [finish] return, nothing is left at or below the root, no
    path outside the root has changed, every layer of the manifest had been
    consumed, and the process has its old signal handlers back and no exit
    hook. *)
Theorem complete_run_leaves_nothing order ps ps' :
  store_ok ps → st_root ps.2 ≠ [] → consume_all order ps = (ps', Ok tt) →
  (∀ k, below (st_root ps.2) k → tree_of ps' !! k = None) ∧
  (∀ k, ¬ below (st_root ps.2) k → tree_of ps' !! k = tree_of ps !! k) ∧
  (∃ layers, manifest_layers (st_manifest ps'.2) = Ok layers ∧
             Forall (fun v => layer_consumed v = Ok true) layers) ∧
  st_closed ps'.2 = true ∧
  p_signals ps'.1 = restored (p_signals ps.1) (st_previous ps.2) ∧ p_atexit ps'.1 = false.
Proof.
  intros Hok Hne Hx. unfold consume_all in Hx. apply bindM_ok in Hx as (ps1 & [] & Hloop & Hfin).
  set (P := fun s => store_ok s ∧ st_root s.2 = st_root ps.2 ∧
    st_previous s.2 = st_previous ps.2 ∧ p_signals s.1 = p_signals ps.1 ∧
    ∀ k, ¬ below (st_root ps.2) k → tree_of s !! k = tree_of ps !! k).
  assert (P ps1) as (Hok1 & Hr1 & Hp1 & Hg1 & Hk1).
  { apply (for_M_inv (fun _ => P) (fun _ _ => True) order consume_layer ps ps1 (Ok tt)); [done| |done].
    intros pre n post s1 s2 [[]|e] _ (Ho & Hr & Hp & Hg & Hk) Hc; [|done].
    apply consume_layer_root in Hc as (Ho' & Hr' & Hp' & Hg' & Hk'); [|done].
    split_and!; try done; try congruence. intros k Hnk. rewrite Hk' by (by rewrite Hr). by apply Hk. }
  apply finish_spec in Hfin as [Hl Hgone Hkept Hs Hsig Hat]; [|done|by rewrite Hr1].
  rewrite Hr1 in *. split_and!.
  - done.
  - intros k Hk. by rewrite Hkept, Hk1.
  - rewrite Hs. exact Hl.
  - by rewrite Hs.
  - by rewrite Hsig, Hg1, Hp1.
  - done.
Qed.
End consumer_properties.

(** ** A concrete run *)
Module EphExample.
#[export] Instance platform : Platform := {
  sha256 := fun _ => "";
  json_loads := fun s => None;
  json_dumps := fun _ => "json";
  py_repr := fun _ => "";
}.

Definition dm : meta := Meta 7 448.
Definition root : path := ["dev"; "shm"; "kt-int8-run-01"].
Definition layer (i : Z) : pyval :=
  PDict [("index", PInt i); ("numa_count", PInt 1); ("state", PStr "ready");
         ("files", PList [PDict [("path", PStr ("_layer_" +:+ str_of_Z i +:+ "/_numa_0/w.kt"));
                                 ("size_bytes", PInt 2)]]);
         ("bytes", PInt 2)].
Definition manifest : list (string * pyval) := [("layers", PList [layer 0; layer 1])].
Definition layer_nodes (i : Z) : list (path * node) :=
  [(root ++ [layer_dir_name i], NDir dm);
   (root ++ [layer_dir_name i; "_numa_0"], NDir dm);
   (root ++ [layer_dir_name i; "_numa_0"; "w.kt"], NFile dm "ww")].
Definition tree : fs := list_to_map (
  [([], NDir dm); (["dev"], NDir dm); (["dev"; "shm"], NDir dm);
   (["dev"; "shm"; "other"], NFile dm "kept");
   (root, NDir dm); (root ++ [MANIFEST_NAME], NFile dm "json")]
  ++ layer_nodes 0 ++ layer_nodes 1).
Definition machine : world := World tree [] 7 4242 0 (fun _ => true).
Definition start : proc * store :=
  init_store root manifest (Proc machine (fun s => match s with SIGINT => SigUser 1 | SIGTERM => SigDfl end)
                                 false []).
Abbreviation after0 := (consume_layer 0 start).1.

Lemma run_tree_wf : fs_wf tree.
Proof. apply fs_wfb_sound. vm_compute. reflexivity. Qed.

Lemma real_dir_intro t p : Forall (fun c => name_ok c = true) p →
  Forall (fun k => match t !! take (S k) p with Some (NDir _) => True | _ => False end)
         (seq 0 (length p)) → real_dir t p.
Proof.
  intros Hn Hall. split; [done|]. intros q [r ->] Hne.
  destruct q as [|c q] using rev_ind; [done|]. rewrite Forall_forall in Hall.
  specialize (Hall (length q)). rewrite length_app in Hall. simpl in Hall.
  rewrite elem_of_seq, length_app, Nat.add_1_r in Hall. specialize (Hall ltac:(simpl; lia)).
  assert (take (S (length q)) ((q ++ [c]) ++ r) = q ++ [c]) as Ht.
  { rewrite take_app_le by (rewrite length_app; simpl; lia).
    apply take_ge. rewrite length_app. simpl. lia. }
  rewrite Ht in Hall. destruct (t !! (q ++ [c])) as [[]|]; naive_solver.
Qed.

(** No node of a tree is a link. *)
Lemma no_links t p a tg :
  forallb (fun kn : path * node => negb (is_NLink kn.2)) (map_to_list t) = true →
  t !! p ≠ Some (NLink a tg).
Proof.
  intros Hall Hp. apply elem_of_map_to_list, list_elem_of_In in Hp.
  rewrite forallb_forall in Hall. by apply Hall in Hp.
Qed.

Lemma start_ok : store_ok start.
Proof.
  split.
  - exact run_tree_wf.
  - apply real_dir_intro; [by repeat constructor|]. vm_compute. repeat constructor.
  - exists dm, "json". vm_compute. reflexivity.
  - intros i a tg. apply no_links. vm_compute. reflexivity.
Qed.

Lemma run_0 : consume_layer 0 start = (after0, Ok tt).
Proof. apply run_result. vm_compute. reflexivity. Qed.

Definition layer_dict (i : Z) : list (string * pyval) :=
  match layer i with PDict d => d | _ => [] end.

Lemma consume_layer_write_ahead_witness :
  ∃ visited, w_hist (p_world after0.1) = visited ++ [] ∧
    tree_of after0 = default (tree_of start) (head visited) ∧
    ∀ t q, t ∈ visited → q ∈ layer_paths root (layer_dict 0) → t !! q ≠ tree_of start !! q →
      on_disk root (set_layer_state manifest 0 "consuming") t ∨
      on_disk root (set_layer_state (set_layer_state manifest 0 "consuming") 0 "consumed") t.
Proof.
  exact (consume_layer_write_ahead 0 start after0 _ _ 0%nat (layer_dict 0) start_ok
           eq_refl eq_refl run_0).
Defined.

Lemma consume_layer_effect_witness : consumed_ok 0 0 start after0.
Proof.
  exact (consume_layer_effect 0 start after0 _ 0%nat (layer_dict 0) start_ok
           eq_refl eq_refl run_0).
Defined.

Lemma consume_layer_once_witness :
  consume_layer 0 after0 = (after0, Err (Raise RuntimeError "layer is in another state")).
Proof. exact (consume_layer_once 0 start after0 start_ok run_0). Defined.

Abbreviation finished_run := (consume_all [1; 0] start).1.

Lemma complete_run_leaves_nothing_witness :
  (∀ k, below root k → tree_of finished_run !! k = None) ∧
  (∀ k, ¬ below root k → tree_of finished_run !! k = tree_of start !! k) ∧
  (∃ layers, manifest_layers (st_manifest finished_run.2) = Ok layers ∧
             Forall (fun v => layer_consumed v = Ok true) layers) ∧
  st_closed finished_run.2 = true ∧
  p_signals finished_run.1 = restored (p_signals start.1) (st_previous start.2) ∧
  p_atexit finished_run.1 = false.
Proof.
  apply (complete_run_leaves_nothing [1; 0] start finished_run start_ok); [done|].
  apply run_result. vm_compute. reflexivity.
Defined.
End EphExample.
