(* ===== verification/EphemeralProducer.v ===== *)
(** * The producer's side of the ephemeral life cycle

    Theorems on [Ephemeral]: cleaning up and reclaiming a staging tree remove
    the tree and nothing else, a live producer's tree is spared, and a
    publication becomes visible in one step. *)
From S2P Require Import Prelude PyStr PyVal FS FSLaws WeightManifest WeightManifestSpec Ephemeral EphemeralSpec.
From Stdlib Require Import Ascii.
Import Eph.

Local Open Scope string_scope.
Local Open Scope list_scope.
Local Open Scope Z_scope.

(** ** Clearing a directory *)

Definition strictly_below (q k : path) : Prop := ∃ r, r ≠ [] ∧ k = q ++ r.

Lemma strictly_below_child q n k : below (q ++ [n]) k → strictly_below q k.
Proof. intros [r ->]. exists (n :: r). split; [done|]. by rewrite <-app_assoc. Qed.

Lemma strictly_below_not_child q e e' : ¬ strictly_below (q ++ [e]) (q ++ [e']).
Proof.
  intros (r & Hr & H). apply (f_equal length) in H. rewrite !length_app in H. simpl in H.
  destruct r; [done|]. simpl in H. lia.
Qed.

Section clearing.
Context (w0 : world) (cur : path).
Let t := w_fs w0.
Context (Hwf : fs_wf t) (Hcur : real_dir t cur).

(** Some of the nodes strictly below [cur] are gone, and nothing else happened. *)
Record clearing (w : world) : Prop := {
  cl_wf : fs_wf (w_fs w);
  cl_only : ∀ k, w_fs w !! k = None ∨ w_fs w !! k = t !! k;
  cl_out : ∀ k, ¬ strictly_below cur k → w_fs w !! k = t !! k;
  cl_evolves : evolves (same_outside (strictly_below cur) t) w0 w;
}.

Lemma clearing_refl : clearing w0.
Proof. split; auto using evolves_refl. Qed.

Lemma clearing_real w : clearing w → real_dir (w_fs w) cur.
Proof.
  intros Hc. destruct Hcur as [Hn Hd]. split; [done|]. intros q Hq Hne.
  rewrite (cl_out _ Hc); [by apply Hd|]. intros (r & Hr & ->).
  apply prefix_length in Hq. rewrite length_app in Hq. destruct r; [done|]. simpl in Hq. lia.
Qed.

Lemma clearing_delete w e :
  clearing w → (∀ n, w_fs w !! ((cur ++ [e]) ++ [n]) = None) →
  clearing (set_tree (delete (cur ++ [e]) (w_fs w)) w).
Proof.
  intros [Hw Ho Hout He] Hb. 
  assert (∀ k, ¬ strictly_below cur k → delete (cur ++ [e]) (w_fs w) !! k = t !! k) as Hout'.
  { intros k Hk. rewrite lookup_delete_ne; [by apply Hout|]. intros <-. apply Hk.
    by exists [e]. }
  split; simpl; [| |done|].
  - apply fs_wf_delete; [done|apply snoc_neq_nil|done].
  - intros k. destruct (decide (k = cur ++ [e])) as [->|Hne].
    + left. apply lookup_delete_eq.
    + rewrite lookup_delete_ne by done. apply Ho.
  - eapply evolves_trans; [exact He|]. apply evolves_step. exact Hout'.
Qed.

(** A recursive call on a subdirectory, seen from the directory. *)
Lemma clearing_sub w w' e :
  clearing w → (∀ k, w_fs w' !! k = None ∨ w_fs w' !! k = w_fs w !! k) → fs_wf (w_fs w') →
  (∀ k, ¬ strictly_below (cur ++ [e]) k → w_fs w' !! k = w_fs w !! k) →
  evolves (same_outside (strictly_below (cur ++ [e])) (w_fs w)) w w' →
  clearing w'.
Proof.
  intros [Hw Ho Hout He] Ho' Hw' Hout' He'.
  assert (∀ k, strictly_below (cur ++ [e]) k → strictly_below cur k) as Hsub.
  { intros k (r & _ & ->). apply (strictly_below_child _ e). by exists r. }
  split; [done| | |].
  - intros k. destruct (Ho' k) as [?| ->]; auto.
  - intros k Hk. rewrite Hout' by auto. by apply Hout.
  - eapply evolves_trans; [exact He|]. eapply evolves_weaken; [|exact He'].
    intros t' Ht' k Hk. rewrite Ht' by auto. by apply Hout.
Qed.

(** When every entry is gone, all that was below is. *)
Lemma clearing_done w :
  clearing w → (∀ e, w_fs w !! (cur ++ [e]) = None) →
  ∀ k, strictly_below cur k → w_fs w !! k = None.
Proof.
  intros Hc He k (r & Hr & ->). destruct r as [|n r]; [done|].
  destruct (not_below_nil (w_fs w) cur n r (cl_wf _ Hc)) as [?|[x Hx]]; [done|].
  by rewrite He in Hx.
Qed.
End clearing.

Section loops.
Context `{Platform} (w0 : world) (cur : path).
Let t := w_fs w0.
Context (Hwf : fs_wf t) (Hcur : real_dir t cur).

(** Below every real subdirectory of [cur] nothing is left. *)
Definition subdirs_empty (pre : list string) (w : world) : Prop :=
  ∀ e m, e ∈ pre → t !! (cur ++ [e]) = Some (NDir m) →
  ∀ k, strictly_below (cur ++ [e]) k → w_fs w !! k = None.

(** The entries of [pre] are gone, the others as they were. *)
Definition entries_gone (pre : list string) (w : world) : Prop :=
  (∀ e, e ∈ pre → w_fs w !! (cur ++ [e]) = None) ∧
  (∀ e, e ∉ pre → w_fs w !! (cur ++ [e]) = t !! (cur ++ [e])).

Lemma entry_symlink w e : clearing w0 cur w → name_ok e = true →
  w_fs w !! (cur ++ [e]) = t !! (cur ++ [e]) →
  p_is_symlink (w_fs w) (cur ++ [e]) =
    match t !! (cur ++ [e]) with Some (NLink _ _) => true | _ => false end.
Proof.
  intros Hc He Hk. unfold p_is_symlink. rewrite lstat_child by (by eapply clearing_real || done).
  rewrite Hk. fold t. by destruct (t !! (cur ++ [e])) as [[]|].
Qed.

Lemma directory_entry e : name_ok e = true → p_is_dir t (cur ++ [e]) = true →
  (∃ m, t !! (cur ++ [e]) = Some (NDir m)) ∨ (∃ a tg, t !! (cur ++ [e]) = Some (NLink a tg)).
Proof.
  intros He Hd. unfold p_is_dir in Hd. pose proof (stat_child t cur e Hcur He) as Hs.
  destruct (t !! (cur ++ [e])) as [[]|]; eauto; by rewrite Hs in Hd.
Qed.

(** One entry that is no directory, or an empty one, is removed. *)
Lemma unlink_entry w e x pre :
  clearing w0 cur w → entries_gone pre w → name_ok e = true → e ∉ pre →
  t !! (cur ++ [e]) = Some x → is_NDir x = false →
  ∃ w', unlink (cur ++ [e]) w = (w', Ok tt) ∧ clearing w0 cur w' ∧
        entries_gone (pre ++ [e]) w' ∧ (∀ k, w_fs w !! k = None → w_fs w' !! k = None).
Proof.
  intros Hc [Hg Hi] He Hne Hx Hd.
  rewrite unlink_child by (by eapply clearing_real || done).
  rewrite Hi by done. rewrite Hx. exists (set_tree (delete (cur ++ [e]) (w_fs w)) w).
  split; [by destruct x|]. split_and!.
  - apply clearing_delete; [done|]. intros n. eapply leaf_below; [apply Hc| |exact Hd|done].
    by rewrite Hi.
  - split; intros e' He'; simpl.
    + apply elem_of_app in He' as [He'| ->%list_elem_of_singleton]; [|apply lookup_delete_eq].
      apply lookup_delete_None. right. by apply Hg.
    + rewrite not_elem_of_app, list_elem_of_singleton in He'. destruct He' as [He' Hee].
      rewrite lookup_delete_ne; [by apply Hi|]. intros Heq. apply app_inj_tail in Heq as [_ Heq].
      by subst.
  - intros k Hk. simpl. apply lookup_delete_None. by right.
Qed.

Lemma rmdir_entry w e m pre :
  clearing w0 cur w → entries_gone pre w → name_ok e = true → e ∉ pre →
  t !! (cur ++ [e]) = Some (NDir m) →
  (∀ k, strictly_below (cur ++ [e]) k → w_fs w !! k = None) →
  ∃ w', rmdir (cur ++ [e]) w = (w', Ok tt) ∧ clearing w0 cur w' ∧
        entries_gone (pre ++ [e]) w' ∧ (∀ k, w_fs w !! k = None → w_fs w' !! k = None).
Proof.
  intros Hc [Hg Hi] He Hne Hx Hb.
  rewrite rmdir_child by (by eapply clearing_real || done).
  rewrite Hi by done. rewrite Hx. exists (set_tree (delete (cur ++ [e]) (w_fs w)) w).
  assert (∀ n, w_fs w !! ((cur ++ [e]) ++ [n]) = None) as Hn.
  { intros n. apply Hb. by exists [n]. }
  assert (children (w_fs w) (cur ++ [e]) = []) as ->.
  { destruct (children (w_fs w) (cur ++ [e])) as [|c cs] eqn:E; [done|].
    assert (c ∈ children (w_fs w) (cur ++ [e])) as [x' Hx']%elem_of_children
      by (rewrite E; by left). by rewrite Hn in Hx'. }
  split; [done|]. split_and!.
  - by apply clearing_delete.
  - split; intros e' He'; simpl.
    + apply elem_of_app in He' as [He'| ->%list_elem_of_singleton]; [|apply lookup_delete_eq].
      apply lookup_delete_None. right. by apply Hg.
    + rewrite not_elem_of_app, list_elem_of_singleton in He'. destruct He' as [He' Hee].
      rewrite lookup_delete_ne; [by apply Hi|]. intros Heq. apply app_inj_tail in Heq as [_ Heq].
      by subst.
  - intros k Hk. simpl. apply lookup_delete_None. by right.
Qed.
End loops.

Lemma NoDup_app_not_elem {A} (pre post : list A) x : NoDup (pre ++ x :: post) → x ∉ pre.
Proof. intros (_ & Hd & _)%NoDup_app Hx. by apply (Hd x Hx); left. Qed.

Lemma NoDup_filter_bool {A} (f : A → bool) l : NoDup l → NoDup (List.filter f l).
Proof.
  induction 1 as [|x l Hx Hl IH]; simpl; [constructor|]. destruct (f x); [|done].
  constructor; [|done]. intros Hin%list_elem_of_In%filter_In. apply Hx, list_elem_of_In. naive_solver.
Qed.

Lemma elem_of_filter_bool {A} (f : A → bool) l x : x ∈ List.filter f l ↔ x ∈ l ∧ f x = true.
Proof. by rewrite !list_elem_of_In, filter_In. Qed.

Section remove_below.
Context `{Platform}.

(** [remove_below] empties a directory, whatever it holds, and touches nothing
    else at any moment. *)
Lemma remove_below_spec fuel w0 cur :
  fs_wf (w_fs w0) → real_dir (w_fs w0) cur →
  (∀ k, is_Some (w_fs w0 !! k) → (length k < length cur + fuel)%nat) →
  ∃ w', remove_below fuel cur w0 = (w', Ok tt) ∧ clearing w0 cur w' ∧
        ∀ k, strictly_below cur k → w_fs w' !! k = None.
Proof.
  revert w0 cur. induction fuel as [|fuel IH]; intros w0 cur Hwf Hcur Hdepth.
  { exfalso. destruct (real_dir_lookup _ _ Hwf Hcur) as [m Hm].
    specialize (Hdepth cur ltac:(by eexists)). lia. }
  simpl. rewrite bindM_gets, iterdir_real by done.
  set (dirs := List.filter _ (children (w_fs w0) cur)). set (files := List.filter _ (children (w_fs w0) cur)).
  assert (∀ e, e ∈ children (w_fs w0) cur → name_ok e = true) as Hok
    by (intros e; by apply children_name_ok).
  (* the subdirectories are emptied *)
  destruct (for_M_total (fun pre w => clearing w0 cur w ∧ subdirs_empty w0 cur pre w ∧
      entries_gone w0 cur [] w) dirs
    (fun e => t' ← gets w_fs;
       if p_is_symlink t' (cur ++ [e]) then mret tt else remove_below fuel (cur ++ [e])) w0)
    as (w1 & Hrun1 & Hc1 & Hsub1 & Hg1).
  { split_and!; [by apply clearing_refl|by intros ? ? ?%elem_of_nil|].
    split; [by intros ? ?%elem_of_nil|done]. }
  { intros pre e post s1 Hl (Hc & Hsub & [_ Hi]).
    assert (e ∈ dirs) as [Hch Hdir]%elem_of_filter_bool
      by (rewrite Hl; apply elem_of_app; right; left).
    rewrite bindM_gets.
    rewrite (entry_symlink w0 cur Hcur) by (done || by apply Hok || by apply Hi, not_elem_of_nil).
    destruct (directory_entry w0 cur Hcur e (Hok e Hch) Hdir) as [[m Hm]|(a & tg & Hm)];
      rewrite Hm.
    - assert (w_fs s1 !! (cur ++ [e]) = Some (NDir m)) as Hm1 by (by rewrite Hi by apply not_elem_of_nil).
      destruct (IH s1 (cur ++ [e])) as (s2 & Hrun & Hc2 & Hb2).
      + apply Hc.
      + eapply real_dir_child; [by eapply clearing_real|by apply Hok|exact Hm1].
      + intros k Hk. rewrite length_app. simpl.
        assert (is_Some (w_fs w0 !! k)) as Hk'.
        { destruct (cl_only _ _ _ Hc k) as [E|E]; rewrite E in Hk; [by destruct Hk|done]. }
        specialize (Hdepth k Hk'). lia.
      + exists s2. split; [exact Hrun|].
        pose proof (cl_only _ _ _ Hc2) as Ho2. pose proof (cl_out _ _ _ Hc2) as Hout2.
        split_and!.
        * eapply clearing_sub; try done; [apply Hc2..].
        * intros e' m' He' Hm' k Hk.
          apply elem_of_app in He' as [He'| ->%list_elem_of_singleton]; [|by apply Hb2].
          destruct (Ho2 k) as [?| ->]; [done|]. by eapply Hsub.
        * split; [by intros ? ?%elem_of_nil|]. intros e' _.
          rewrite Hout2 by apply strictly_below_not_child. by apply Hi, not_elem_of_nil.
    - exists s1. split; [done|]. split_and!; [done| |by split; [intros ? ?%elem_of_nil|]].
      intros e' m' He' Hm'. apply elem_of_app in He' as [He'| ->%list_elem_of_singleton];
        [by eapply Hsub|]. by rewrite Hm in Hm'. }
  rewrite (bindM_run _ _ _ _ _ Hrun1).
  (* the files are deleted *)
  destruct (for_M_total (fun pre w => clearing w0 cur w ∧ subdirs_empty w0 cur dirs w ∧
      entries_gone w0 cur pre w) files (fun e => unlink (cur ++ [e])) w1)
    as (w2 & Hrun2 & Hc2 & Hsub2 & Hg2); [done| |].
  { intros pre e post s1 Hl (Hc & Hsub & Hg).
    assert (e ∈ files) as [Hch Hdir]%elem_of_filter_bool
      by (rewrite Hl; apply elem_of_app; right; left).
    apply negb_true_iff in Hdir. pose proof Hch as [x Hx]%elem_of_children.
    destruct (unlink_entry w0 cur Hcur s1 e x pre) as (s2 & Hu & Hc' & Hg' & Hnone); try done.
    - by apply Hok.
    - apply (NoDup_app_not_elem _ post). rewrite <-Hl. apply NoDup_filter_bool, NoDup_children.
    - eapply not_is_dir_child; [exact Hcur|by apply Hok|exact Hdir|exact Hx].
    - exists s2. split; [done|]. split_and!; try done. intros e' m' ? ? k ?. eapply Hnone, Hsub; eauto. }
  rewrite (bindM_run _ _ _ _ _ Hrun2).
  (* the subdirectories are removed *)
  destruct (for_M_total (fun pre w => clearing w0 cur w ∧ subdirs_empty w0 cur dirs w ∧
      entries_gone w0 cur (files ++ pre) w) dirs
    (fun e => t' ← gets w_fs;
       if p_is_symlink t' (cur ++ [e]) then unlink (cur ++ [e]) else rmdir (cur ++ [e])) w2)
    as (w3 & Hrun3 & Hc3 & Hsub3 & Hg3); [by rewrite app_nil_r| |].
  { intros pre e post s1 Hl (Hc & Hsub & Hg).
    assert (e ∈ dirs) as Hed by (rewrite Hl; apply elem_of_app; right; left).
    pose proof Hed as [Hch Hdir]%elem_of_filter_bool.
    assert (e ∉ files ++ pre) as Hnew.
    { rewrite not_elem_of_app. split.
      - intros [_ Hf]%elem_of_filter_bool. by rewrite Hdir in Hf.
      - apply (NoDup_app_not_elem _ post). rewrite <-Hl. apply NoDup_filter_bool, NoDup_children. }
    rewrite bindM_gets, (entry_symlink w0 cur Hcur)
      by (done || by apply Hok || by apply Hg). rewrite app_assoc.
    destruct (directory_entry w0 cur Hcur e (Hok e Hch) Hdir) as [[m Hm]|(a & tg & Hm)];
      rewrite Hm.
    - destruct (rmdir_entry w0 cur Hcur s1 e m (files ++ pre)) as (s2 & Hu & Hc' & Hg' & Hnone);
        try done; [by apply Hok|by eapply Hsub|].
      exists s2. split; [done|]. split_and!; try done. intros e' m' ? ? k ?. eapply Hnone, Hsub; eauto.
    - destruct (unlink_entry w0 cur Hcur s1 e (NLink a tg) (files ++ pre))
        as (s2 & Hu & Hc' & Hg' & Hnone); try done; [by apply Hok|].
      exists s2. split; [done|]. split_and!; try done. intros e' m' ? ? k ?. eapply Hnone, Hsub; eauto. }
  exists w3. split; [done|]. split; [done|]. apply clearing_done with w0; [done|].
  intros e. destruct Hg3 as [Hgone _]. destruct (cl_only _ _ _ Hc3 (cur ++ [e])) as [?|E]; [done|].
  destruct (w_fs w3 !! (cur ++ [e])) as [x|] eqn:Ex; [|done].
  assert (e ∈ children (w_fs w0) cur) as Hch by (apply elem_of_children; rewrite <-E; by eexists).
  rewrite <-Ex. apply Hgone, elem_of_app. destruct (p_is_dir (w_fs w0) (cur ++ [e])) eqn:Ed.
  - right. by apply elem_of_filter_bool.
  - left. apply elem_of_filter_bool. by rewrite Ed.
Qed.
End remove_below.

(** ** [cleanup_ephemeral_int8_staging] *)

(** [root] and all below it are gone, the rest is untouched. *)
Definition removed (root : path) (t t' : fs) : Prop :=
  (∀ k, below root k → t' !! k = None) ∧ (∀ k, ¬ below root k → t' !! k = t !! k).

Lemma tree_depth_bound (t : fs) k : is_Some (t !! k) → (length k <= tree_depth t)%nat.
Proof.
  intros [x Hx]. unfold tree_depth. apply elem_of_map_to_list in Hx.
  induction (map_to_list t) as [|[k' x'] l IH]; [by apply elem_of_nil in Hx|].
  simpl. apply elem_of_cons in Hx as [[= <- <-]|Hx]; [lia|]. specialize (IH Hx). lia.
Qed.

Section cleanup_staging.
Context `{Platform}.

Lemma run_id_name_ok run st : run_id_match run = true → name_ok (staging_name run st) = true.
Proof.
  intros Hr. unfold staging_name. apply (name_ok_prefixed "t-int8-" _ "k"%char); [done| |done].
  rewrite no_slash_app. destruct run as [|c run]; [done|]. unfold run_id_match in Hr. bools.
  assert (∀ a, run_id_char a = true → negb (Ascii.eqb a slash) = true) as Hc.
  { intros a. destruct (Ascii.eqb_spec a slash) as [->|]; done. }
  unfold no_slash. cbn [str_forall]. rewrite (str_forall_impl _ _ _ Hc) by done.
  rewrite Hc by (unfold run_id_char; destruct (is_alnum c); done). by destruct st.
Qed.

(** What [_validate_owned_root] establishes of the root it returns. *)
Lemma validate_owned_root_facts t uid s run st root :
  fs_wf t → validate_owned_root t uid s run st = Ok root →
  ∃ base n, root = base ++ [staging_name run st] ∧ name_ok (staging_name run st) = true ∧
    run_id_match run = true ∧ realpath t EPHEMERAL_BASE = Some base ∧
    realpath t root = Some root ∧ t !! root = Some n ∧ is_NLink n = false ∧
    m_uid (node_meta n) = uid ∧ Z.land (m_mode (node_meta n)) group_or_world_write = 0 ∧
    (real_dir t root ∨ real_dir t base ∧ is_NDir n = false).
Proof.
  intros Hwf. unfold validate_owned_root. intros Hx.
  inv_bind Hx as run' Hrun. unfold validated_run_id in Hrun. inv_guard Hrun as Hmatch.
  injection Hrun as <-. inv_bind Hx as base Hbase. apply of_option_ok in Hbase.
  inv_guard Hx as _. inv_guard Hx as Hname. inv_guard Hx as Hnl. inv_bind Hx as res Hres.
  apply of_option_ok in Hres. inv_guard Hx as Hb. inv_bind Hx as n Hn. apply of_option_ok in Hn.
  inv_guard Hx as Hu. inv_guard Hx as Hm. injection Hx as <-. bools. subst base.
  pose proof (run_id_name_ok run st Hmatch) as Hok.
  unfold path_name in Hname. destruct (path_parts s) as [|p c _] using rev_ind.
  { simpl in Hname. by rewrite <-Hname in Hok. }
  rewrite last_snoc in Hname. simpl in Hname. subst p.
  destruct (realpath_keeps_name _ _ _ _ Hok Hnl Hres) as [base ->].
  rewrite removelast_snoc in Hbase.
  assert (real_dir t (base ++ [staging_name run st]) ∨
    ∃ p n x, base ++ [staging_name run st] = p ++ [n] ∧ real_dir t p ∧
      t !! (base ++ [staging_name run st]) = Some x ∧ is_NDir x = false ∧ is_NLink x = false)
    as Hor by (eapply walk_real_dir; [done|apply real_dir_nil|exact Hres]).
  assert (realpath t (base ++ [staging_name run st]) = Some (base ++ [staging_name run st])
    ∧ is_NLink n = false ∧ (real_dir t (base ++ [staging_name run st]) ∨ real_dir t base ∧ is_NDir n = false)
    ∧ t !! (base ++ [staging_name run st]) = Some n) as (Hrp & Hnln & Hor' & Hlk).
  { destruct Hor as [Hd|(p' & n' & x & Heq & Hp' & Hx & Hxd & Hxl)].
    - destruct (real_dir_lookup _ _ Hwf Hd) as [mm Hmm].
      unfold stat in Hn. rewrite (realpath_real_dir _ _ Hd) in Hn. simpl in Hn. rewrite Hmm in Hn.
      injection Hn as <-. split_and!; auto using realpath_real_dir.
    - apply app_inj_tail in Heq as [-> <-].
      assert (realpath t (p' ++ [staging_name run st]) = Some (p' ++ [staging_name run st])) as Hrp.
      { unfold realpath. destruct Hp' as [Hpn Hpd].
        rewrite (walk_dirs t max_links [] p' [_]) by done. rewrite walk_step by done. simpl.
        rewrite Hx. by destruct x. }
      unfold stat in Hn. rewrite Hrp in Hn. simpl in Hn. rewrite Hx in Hn. injection Hn as <-.
      split_and!; auto. }
  exists base, n. split_and!; done.
Qed.

(** A root that holds a regular file is a directory. *)
Lemma owned_root_with_file t uid s run st root name :
  fs_wf t → validate_owned_root t uid s run st = Ok root → name_ok name = true →
  p_is_file t (root ++ [name]) = true → real_dir t root.
Proof.
  intros Hwf Hv Hname Hf.
  destruct (validate_owned_root_facts _ _ _ _ _ _ Hwf Hv)
    as (base & n & -> & Hok & _ & _ & _ & Hn & Hnl & _ & _ & [?|[Hb Hd]]); [done|].
  exfalso. unfold p_is_file, stat, realpath in Hf. rewrite <-app_assoc in Hf.
  destruct Hb as [Hbn Hbd]. rewrite (walk_dirs t max_links [] base _) in Hf by done. simpl app in Hf.
  rewrite walk_step in Hf by done. rewrite Hn in Hf. by destruct n.
Qed.

(** The text of a validated root resolves to it again. *)
Lemma validate_path_text t uid uid' s run st root root' :
  fs_wf t → validate_owned_root t uid s run st = Ok root → real_dir t root →
  validate_owned_root t uid' (path_text root) run st = Ok root' → root' = root.
Proof.
  intros Hwf _ Hd. unfold validate_owned_root. intros Hx.
  assert (path_parts (path_text root) = root) as Hpt by (apply path_parts_absolute, Hd).
  inv_bind Hx as run' Hrun. inv_bind Hx as base Hbase. rewrite Hpt in Hx.
  inv_guard Hx as _. inv_guard Hx as _. inv_guard Hx as _. inv_bind Hx as res Hres.
  apply of_option_ok in Hres. rewrite realpath_real_dir in Hres by done. injection Hres as <-.
  inv_guard Hx as _. inv_bind Hx as n Hn. inv_guard Hx as _. inv_guard Hx as _. by injection Hx as <-.
Qed.

Lemma cleanup_staging_spec s run w root :
  fs_wf (w_fs w) → validate_owned_root (w_fs w) (w_uid w) s run true = Ok root →
  real_dir (w_fs w) root →
  ∃ w', cleanup_ephemeral_int8_staging s run w = (w', Ok tt) ∧
    removed root (w_fs w) (w_fs w') ∧
    evolves (same_outside (below root) (w_fs w)) w w'.
Proof.
  intros Hwf Hv Hd. destruct (validate_owned_root_facts _ _ _ _ _ _ Hwf Hv)
    as (base & n & Hroot & Hok & _ & _ & _ & Hn & _ & _).
  unfold cleanup_ephemeral_int8_staging.
  rewrite bindM_gets, bindM_gets_res, Hv, bindM_gets.
  destruct (remove_below_spec (S (tree_depth (w_fs w))) w root Hwf Hd) as (w1 & Hrun & Hc & Hgone).
  { intros k Hk%tree_depth_bound. lia. }
  rewrite (bindM_run _ _ _ _ _ Hrun).
  pose proof (clearing_real w root Hd w1 Hc) as Hd1.
  destruct (real_dir_lookup _ _ Hwf Hd) as [m Hm].
  assert (w_fs w1 !! root = Some (NDir m)) as Hm1.
  { rewrite (cl_out _ _ _ Hc); [done|]. intros (r & Hr & Heq).
    apply (f_equal length) in Heq. rewrite length_app in Heq. destruct r; [done|]. simpl in Heq. lia. }
  rewrite Hroot in Hd1. apply real_dir_parent in Hd1 as [Hbase _].
  pose proof (rmdir_child w1 base _ Hbase Hok) as Hrm. rewrite <-Hroot, Hm1 in Hrm.
  assert (children (w_fs w1) root = []) as Hch.
  { destruct (children (w_fs w1) root) as [|c cs] eqn:E; [done|].
    assert (c ∈ children (w_fs w1) root) as [x Hx]%elem_of_children by (rewrite E; by left).
    rewrite Hgone in Hx; [done|]. by exists [c]. }
  rewrite Hch in Hrm. rewrite Hrm. eexists. split; [done|]. simpl.
  assert (∀ k, ¬ below root k → delete root (w_fs w1) !! k = w_fs w !! k) as Hout.
  { intros k Hk. rewrite lookup_delete_ne by (intros <-; by apply Hk).
    apply (cl_out _ _ _ Hc). intros (r & _ & ->). apply Hk. by exists r. }
  split; [split; [|exact Hout]|].
  - intros k [r ->]. destruct r as [|c r]; [rewrite app_nil_r; apply lookup_delete_eq|].
    apply lookup_delete_None. right. apply Hgone. by exists (c :: r).
  - eapply evolves_trans; [|by apply evolves_step].
    eapply evolves_weaken; [|apply (cl_evolves _ _ _ Hc)].
    intros t' Ht' k Hk. apply Ht'. intros (r & _ & ->). apply Hk. by exists r.
Qed.
End cleanup_staging.

(** ** [publish_ephemeral_int8_weights] *)

Section publish.
Context `{Platform} (run : string) (base : path).
Let staging := base ++ [staging_name run true].
Let ready := base ++ [staging_name run false].
Let lease := staging ++ [STAGING_LEASE_NAME].

Lemma ready_neq_staging : staging_name run true ≠ staging_name run false.
Proof.
  unfold staging_name. intros E. apply (f_equal String.length) in E.
  rewrite !str_length_app in E. simpl in E. lia.
Qed.

Lemma ready_not_below_staging k : below ready k → ¬ below staging k.
Proof.
  intros [r ->] [r' Hr]. unfold ready, staging in Hr. rewrite <-!app_assoc in Hr.
  apply app_inv_head, (f_equal (fun l => default "" (head l))) in Hr.
  change (staging_name run false = staging_name run true) in Hr. by apply ready_neq_staging.
Qed.

(** Releasing the lease deletes at most the lease file. *)
Lemma release_lease_spec w w1 r :
  fs_wf (w_fs w) → real_dir (w_fs w) staging → release_lease staging run w = (w1, r) →
  w1 = w ∧ (r = Ok tt → w_fs w !! lease = None) ∨
  r = Ok tt ∧ w1 = set_tree (delete lease (w_fs w)) w ∧ ∃ m data, w_fs w !! lease = Some (NFile m data).
Proof.
  intros Hwf Hd Hx. unfold release_lease in Hx. rewrite !bindM_gets in Hx. fold lease in Hx.
  assert (name_ok STAGING_LEASE_NAME = true) as Hok by done.
  pose proof (stat_child (w_fs w) staging _ Hd Hok) as Hst. fold lease in Hst.
  pose proof (lstat_child (w_fs w) staging _ Hd Hok) as Hls. fold lease in Hls.
  unfold p_exists, p_is_symlink in Hx. rewrite Hls in Hx.
  destruct (w_fs w !! lease) as [x|] eqn:El.
  2:{ left. rewrite Hst in Hx. simpl in Hx. injection Hx as <- <-. done. }
  unfold p_is_file in Hx. destruct x as [m data|m|a tg|m]; try rewrite Hst in Hx.
  2,4: simpl in Hx; injection Hx as <- <-; by left.
  2:{ rewrite orb_true_r, bindM_raise_if in Hx. injection Hx as <- <-. by left. }
  simpl in Hx. rewrite bindM_raise_if, bindM_lift in Hx.
  destruct (load_json _ _) as [v|e]; [|injection Hx as <- <-; by left].
  rewrite bindM_lift in Hx. destruct (need_dict v) as [dct|e]; [|injection Hx as <- <-; by left].
  rewrite bindM_lift in Hx. destruct (check_fields _ _ _ _) as [u|e]; [|injection Hx as <- <-; by left].
  unfold lease in Hx. rewrite unlink_child in Hx by done. fold lease in Hx. rewrite El in Hx.
  injection Hx as <- <-. right. eauto.
Qed.

Lemma scan_staging_entries t layers numa experts ls :
  fs_wf t → real_dir t staging → scan_staging staging layers numa experts t = Ok ls →
  ∀ e, is_Some (t !! (staging ++ [e])) ↔ ∃ i, i ∈ layers ∧ e = layer_dir_name i.
Proof.
  intros Hwf Hd Hx e. unfold scan_staging in Hx. rewrite iterdir_real in Hx by done. simpl in Hx.
  inv_guard Hx as Hset. bools.
  rewrite <-elem_of_children, <-(elem_of_list_to_set (C := gset string)), Hset,
    elem_of_list_to_set, list_elem_of_fmap. naive_solver.
Qed.

(** The renaming of the finished tree. *)
Lemma replace_staging w :
  fs_wf (w_fs w) → real_dir (w_fs w) staging → name_ok (staging_name run false) = true →
  w_fs w !! ready = None →
  replace staging ready w = (set_tree (move_tree (w_fs w) staging ready) w, Ok tt).
Proof.
  intros Hwf Hd Hok Hr. pose proof (real_dir_parent _ _ _ Hd) as [Hb Hsok].
  unfold replace. unfold staging at 1, ready at 1. rewrite !place_child by done.
  fold staging ready. destruct (real_dir_lookup _ _ Hwf Hd) as [m Hm]. rewrite Hm.
  assert (¬ staging `prefix_of` ready) as Hsr.
  { intros Hp. by apply (ready_not_below_staging ready). }
  assert (¬ ready `prefix_of` staging) as Hrs.
  { intros Hp. by apply (ready_not_below_staging staging). }
  rewrite !bool_decide_eq_false_2 by done. unfold parent_is_dir.
  unfold ready at 1. rewrite removelast_snoc.
  destruct (real_dir_lookup _ _ Hwf Hb) as [mb Hmb]. rewrite Hmb, Hr. done.
Qed.

(** The trees of a publication before its last step. *)
Definition unpublished (t t' : fs) : Prop := ∀ k, ¬ below staging k → t' !! k = t !! k.

(** The published tree: the staged one with its manifest, without the lease. *)
Record published (t t' : fs) (manifest : list (string * pyval)) : Prop := {
  pu_manifest : on_disk ready manifest t';
  pu_content : ∀ r, r ≠ [MANIFEST_NAME] → r ≠ [STAGING_LEASE_NAME] →
    t' !! (ready ++ r) = t !! (staging ++ r);
  pu_no_lease : t' !! (ready ++ [STAGING_LEASE_NAME]) = None;
  pu_moved : ∀ k, below staging k → t' !! k = None;
  pu_kept : ∀ k, ¬ below staging k → ¬ below ready k → t' !! k = t !! k;
}.

(** From the scanned tree on: the manifest is written, the tree renamed. *)
Lemma publish_tail t w layers numa experts ls manifest w' r :
  fs_wf (w_fs w) → real_dir (w_fs w) staging → name_ok (staging_name run false) = true →
  scan_staging staging layers numa experts (w_fs w) = Ok ls →
  unpublished t (w_fs w) → (∀ r, r ≠ [STAGING_LEASE_NAME] → w_fs w !! (staging ++ r) = t !! (staging ++ r)) →
  (_ ← atomic_write_manifest staging manifest;
   t ← gets w_fs;
   _ ← raise_ifM (p_exists t ready || p_is_symlink t ready) FileExistsError
         "ready root already exists";
   _ ← replace staging ready;
   mret ready) w = (w', r) →
  evolves (fun t' => unpublished t t' ∨ (r = Ok ready ∧ t' = w_fs w')) w w' ∧
  (∀ p, r = Ok p → p = ready ∧ published t (w_fs w') manifest).
Proof.
  intros Hwf Hd Hrok Hscan Hun Hsame Hx.
  pose proof (scan_staging_entries _ _ _ _ _ Hwf Hd Hscan) as Hent.
  assert (∀ e, (∀ i, e ≠ layer_dir_name i) → w_fs w !! (staging ++ [e]) = None) as Habs.
  { intros e He. destruct (w_fs w !! (staging ++ [e])) as [x|] eqn:E; [|done].
    destruct (proj1 (Hent e) ltac:(by eexists)) as (i & _ & ->). by destruct (He i). }
  assert (w_fs w !! (staging ++ [MANIFEST_NAME]) = None) as Hm0 by (by apply Habs).
  assert (w_fs w !! (staging ++ [tmp_name MANIFEST_NAME (w_pid w)]) = None) as Ht0
    by (by apply Habs).
  assert (w_fs w !! (staging ++ [STAGING_LEASE_NAME]) = None) as Hl0 by (by apply Habs).
  pose proof (atomic_write_ok w staging MANIFEST_NAME (PDict manifest) Hwf Hd
    ltac:(reflexivity) Ht0) as Haw.
  rewrite Hm0 in Haw. specialize (Haw ltac:(done)). cbv zeta in Haw.
  unfold atomic_write_manifest in Hx. rewrite (bindM_run _ _ _ _ _ Haw) in Hx. clear Haw.
  set (file := NFile (new_meta w) (json_dumps (PDict manifest))) in *.
  set (w1 := set_tree _ _) in Hx.
  set (t1 := <[staging ++ [MANIFEST_NAME] := file]> (w_fs w)) in *.
  assert (∀ n x, unpublished t (<[staging ++ [n] := x]> (w_fs w))) as Hins.
  { intros n x k Hk. rewrite lookup_insert_ne; [by apply Hun|]. intros <-. apply Hk. by eexists. }
  assert (evolves (unpublished t) w w1) as He1.
  { unfold w1. do 3 (eapply evolves_trans; [|apply evolves_step; apply Hins]).
    apply evolves_refl. }
  destruct (real_dir_lookup _ _ Hwf Hd) as [md Hmd].
  assert (fs_wf t1) as Hwf1 by (eapply fs_wf_insert; try done; intros m'; fold staging; by rewrite Hm0).
  assert (real_dir t1 staging) as Hd1.
  { eapply real_dir_same; [|exact Hd]. apply same_dirs_insert. intros m'. by rewrite Hm0. }
  rewrite bindM_gets, bindM_raise_if in Hx.
  destruct (p_exists (w_fs w1) ready || p_is_symlink (w_fs w1) ready) eqn:Hex.
  { injection Hx as <- <-. split; [|done]. eapply evolves_weaken; [|exact He1]. by left. }
  assert (t1 !! ready = None) as Hr.
  { apply orb_false_iff in Hex as [He Hs]. change (w_fs w1) with t1 in *.
    apply real_dir_parent in Hd1 as [Hb _]. unfold ready in *.
    pose proof (stat_child t1 base _ Hb Hrok) as Hst. unfold p_exists in He.
    unfold p_is_symlink in Hs. rewrite lstat_child in Hs by done.
    destruct (t1 !! (base ++ [staging_name run false])) as [[]|]; try done; by rewrite Hst in He. }
  rewrite (bindM_run _ _ _ _ _ (replace_staging w1 Hwf1 Hd1 Hrok Hr)) in Hx.
  injection Hx as <- <-. split.
  - eapply evolves_trans; [eapply evolves_weaken; [|exact He1]; by left|].
    apply evolves_step. by right.
  - intros p [= <-]. split; [done|]. simpl. change (w_fs w1) with t1.
    assert (¬ staging `prefix_of` ready) as Hsr by (intros Hp; by apply (ready_not_below_staging ready)).
    assert (¬ ready `prefix_of` staging) as Hrs by (intros Hp; by apply (ready_not_below_staging staging)).
    split.
    + exists (new_meta w). rewrite move_tree_below by done. unfold t1. apply lookup_insert_eq.
    + intros r Hr1 Hr2. rewrite move_tree_below by done. unfold t1.
      rewrite lookup_insert_ne; [by apply Hsame|]. intros Heq%app_inv_head. by subst.
    + rewrite move_tree_below by done. unfold t1. rewrite lookup_insert_ne; [done|].
      intros Heq%app_inv_head. discriminate Heq.
    + intros k [r ->]. apply move_tree_gone; [done|done|]. intros r' Hr'. by apply missing_below.
    + intros k Hk1 Hk2. rewrite move_tree_other by done. unfold t1.
      rewrite lookup_insert_ne; [by apply Hun|]. intros <-. apply Hk1. by eexists.
Qed.
End publish.

(** ** Properties of the producer *)

Section producer_properties.
Context `{Platform}.

(**  Cleaning up a staging root that passes the ownership checks always
    succeeds, whatever it holds: the root and everything below it are gone,
    symbolic links are not followed, and at no moment is any path outside the
    root different. *)
Theorem cleanup_staging_exact s run w root :
  fs_wf (w_fs w) → validate_owned_root (w_fs w) (w_uid w) s run true = Ok root →
  real_dir (w_fs w) root →
  ∃ w' visited, cleanup_ephemeral_int8_staging s run w = (w', Ok tt) ∧
    removed root (w_fs w) (w_fs w') ∧
    w_hist w' = visited ++ w_hist w ∧
    ∀ t k, t ∈ visited → ¬ below root k → t !! k = w_fs w !! k.
Proof.
  intros Hwf Hv Hd. destruct (cleanup_staging_spec s run w root Hwf Hv Hd)
    as (w' & Hrun & Hrem & (l & Hh & HI & _)).
  exists w', l. split_and!; try done. intros t k Ht. rewrite Forall_forall in HI. by apply HI.
Qed.

Lemma check_fields_ok cls msg expected d u : check_fields cls msg expected d = Ok u →
  Forall (fun kv => py_eq (pget kv.1 d) kv.2 = true) expected.
Proof.
  unfold check_fields. intros Hx%(for_each_unit expected _ u).
  eapply Forall_impl; [exact Hx|]. intros kv Hk%raise_if_ok. by bools.
Qed.

(** C13.  Reclaiming is safe: a staging tree is removed only when its lease is a
    regular file that names this run and user and a producer that [/proc]
    does not list; then exactly the root is removed.  In every other case,
    errors included, the machine is left as it was. *)
Theorem reclaim_spares_live_producers s run w w' r :
  fs_wf (w_fs w) → reclaim_stale_ephemeral_int8_staging s run w = (w', r) →
  match r with
  | Ok true => ∃ root lease pid,
      validate_owned_root (w_fs w) (w_uid w) s run true = Ok root ∧
      load_json (w_fs w) (root ++ [STAGING_LEASE_NAME]) = Ok (PDict lease) ∧
      pget "run_id" lease = PStr run ∧
      py_eq (pget "owner_uid" lease) (PInt (w_uid w)) = true ∧
      py_int (default (PInt 0) (dict_get "producer_pid" lease)) = Ok pid ∧ 0 < pid ∧
      p_exists (w_fs w) ["proc"; str_of_Z pid] = false ∧
      removed root (w_fs w) (w_fs w')
  | Ok false => w' = w
  | Err _ => w' = w
  end.
Proof.
  intros Hwf Hx. unfold reclaim_stale_ephemeral_int8_staging in Hx.
  rewrite bindM_gets, bindM_gets_res in Hx.
  destruct (validate_owned_root _ _ _ _ _) as [root|e] eqn:Hv; [|by injection Hx as <- <-].
  rewrite bindM_gets, bindM_raise_if in Hx.
  destruct (p_is_symlink _ _ || _) eqn:Hl; [by injection Hx as <- <-|]. bools.
  assert (real_dir (w_fs w) root) as Hd
    by by apply (owned_root_with_file _ _ _ _ _ _ STAGING_LEASE_NAME Hwf Hv).
  rewrite bindM_lift in Hx. destruct (load_json _ _) as [v|e] eqn:Hj; [|by injection Hx as <- <-].
  rewrite bindM_lift in Hx. destruct (need_dict v) as [lease|e] eqn:Hdct; [|by injection Hx as <- <-].
  apply of_option_ok, as_dict_Some in Hdct as ->.
  rewrite bindM_lift in Hx.
  destruct (check_fields _ _ _ _) as [u|e] eqn:Hc; [|by injection Hx as <- <-].
  apply check_fields_ok in Hc. unfold lease_fields in Hc.
  apply Forall_cons in Hc as [_ Hc]. apply Forall_cons in Hc as [Hrun Hc].
  apply Forall_cons in Hc as [Huid _]. apply py_eq_str in Hrun.
  rewrite bindM_lift in Hx. destruct (py_int _) as [pid|e] eqn:Hpid; [|by injection Hx as <- <-].
  rewrite bindM_raise_if in Hx. destruct (pid <=? 0) eqn:Hp; [by injection Hx as <- <-|].
  destruct (p_exists (w_fs w) ["proc"; _]) eqn:Hproc; [by injection Hx as <- <-|]. bools.
  apply bindM_inv in Hx as [(w1 & [] & Hcl & Hx)|(e & Hcl & ->)].
  - injection Hx as <- <-. exists root, lease, pid. split_and!; try done.
    destruct (validate_owned_root (w_fs w) (w_uid w) (path_text root) run true) as [root'|e] eqn:Hv'.
    + apply (validate_path_text _ (w_uid w) _ s) in Hv' as Hr; try done. subst root'.
      destruct (cleanup_staging_spec _ _ _ _ Hwf Hv' Hd) as (w2 & Hrun2 & Hrem & _).
      rewrite Hrun2 in Hcl. by injection Hcl as <-.
    + unfold cleanup_ephemeral_int8_staging in Hcl. rewrite bindM_gets, bindM_gets_res, Hv' in Hcl.
      done.
  - destruct (validate_owned_root (w_fs w) (w_uid w) (path_text root) run true) as [root'|e'] eqn:Hv'.
    + apply (validate_path_text _ (w_uid w) _ s) in Hv' as Hr; try done. subst root'.
      destruct (cleanup_staging_spec _ _ _ _ Hwf Hv' Hd) as (w2 & Hrun2 & _).
      by rewrite Hrun2 in Hcl.
    + unfold cleanup_ephemeral_int8_staging in Hcl. rewrite bindM_gets, bindM_gets_res, Hv' in Hcl.
      by injection Hcl as <- _.
Qed.

(** C12.  Publication is atomic: until its last step no path outside the
    staging root differs, so no partial tree is ever visible under the ready
    name; a publication that returns has moved the scanned staging tree, with
    its manifest and without its lease, to the ready name in one step. *)
Theorem publish_is_atomic s run layers d w w' r staging :
  fs_wf (w_fs w) → validate_owned_root (w_fs w) (w_uid w) s run true = Ok staging →
  real_dir (w_fs w) staging →
  publish_ephemeral_int8_weights s run layers d w = (w', r) →
  let base := removelast staging in
  ∃ visited, w_hist w' = visited ++ w_hist w ∧
    (∀ t, t ∈ visited → unpublished run base (w_fs w) t ∨ is_ok r = true ∧ t = w_fs w') ∧
    (∀ p, r = Ok p → p = base ++ [staging_name run false] ∧
       ∃ tree ls, scan_staging staging (sorted_set layers) (d_numa d) (d_experts d) tree = Ok ls ∧
         published run base (w_fs w) (w_fs w')
           (ready_manifest run (w_uid w) (w_pid w) (w_clock w) d ls)).
Proof.
  intros Hwf Hv Hd Hx base.
  destruct (validate_owned_root_facts _ _ _ _ _ _ Hwf Hv)
    as (base' & n & Hs & Hok & Hmatch & _).
  assert (base' = base) as -> by (unfold base; by rewrite Hs, removelast_snoc).
  clearbody base.
  pose proof (run_id_name_ok run false Hmatch) as Hrok.
  unfold publish_ephemeral_int8_weights in Hx. rewrite bindM_raise_if in Hx.
  destruct (_ || _); [injection Hx as <- <-; exists []; split_and!; [done|by intros ? ?%elem_of_nil|done]|].
  rewrite bindM_gets, bindM_gets_res, Hv in Hx. subst staging.
  apply bindM_inv in Hx as [(w1 & [] & Hl & Hx)|(e & Hl & ->)];
    apply release_lease_spec in Hl as Hrel; try done.
  2:{ destruct Hrel as [[-> _]|[? _]]; [|done]. exists [].
      split_and!; [done|by intros ? ?%elem_of_nil|done]. }
  assert (evolves (unpublished run base (w_fs w)) w w1 ∧ fs_wf (w_fs w1) ∧
    real_dir (w_fs w1) (base ++ [staging_name run true]) ∧
    unpublished run base (w_fs w) (w_fs w1) ∧
    (∀ r, r ≠ [STAGING_LEASE_NAME] → w_fs w1 !! ((base ++ [staging_name run true]) ++ r)
            = w_fs w !! ((base ++ [staging_name run true]) ++ r)))
    as (He1 & Hwf1 & Hd1 & Hun1 & Hsame1).
  { destruct Hrel as [[-> _]|(_ & -> & m & data & Hf)];
      [split_and!; [apply evolves_refl|done|done|by intros k ?|done]|].
    assert (unpublished run base (w_fs w)
      (delete ((base ++ [staging_name run true]) ++ [STAGING_LEASE_NAME]) (w_fs w))) as Hu.
    { intros k Hk. apply lookup_delete_ne. intros <-. apply Hk. by eexists. }
    split_and!; simpl; try done.
    - by apply evolves_step.
    - apply fs_wf_delete; [done|apply snoc_neq_nil|]. intros c. by eapply leaf_below.
    - eapply real_dir_same; [|exact Hd]. apply same_dirs_delete. intros m'. by rewrite Hf.
    - intros r' Hr'. apply lookup_delete_ne. intros Heq%app_inv_head. by subst. }
  rewrite bindM_gets_res in Hx.
  destruct (scan_staging _ _ _ _ _) as [ls|e] eqn:Hscan.
  2:{ injection Hx as <- <-. destruct He1 as (l & Hh & HI & _). exists l.
      split_and!; [done| |done]. intros t Ht. left. rewrite Forall_forall in HI. by apply HI. }
  rewrite !bindM_gets in Hx. cbv zeta in Hx. rewrite removelast_snoc in Hx.
  assert (w_pid w1 = w_pid w ∧ w_clock w1 = w_clock w) as [Ep Ec]
    by (destruct He1 as (? & _ & _ & _ & _ & ? & ? & _); done).
  rewrite Ep, Ec in Hx.
  apply (publish_tail run base (w_fs w) w1 _ _ _ ls _ _ _ Hwf1 Hd1 Hrok Hscan Hun1 Hsame1) in Hx as [He2 Hpub]; try done.
  assert (evolves (fun t' => unpublished run base (w_fs w) t' ∨ is_ok r = true ∧ t' = w_fs w') w w')
    as (l & Hh & HI & _).
  { eapply evolves_trans; [eapply evolves_weaken; [|exact He1]; by left|].
    eapply evolves_weaken; [|exact He2]. intros t' [?|[-> ?]]; [by left|by right]. }
  exists l. split_and!; [done|by apply Forall_forall|].
  intros p Hp. destruct (Hpub p Hp) as [-> Hpu]. split; [done|]. by exists (w_fs w1), ls.
Qed.
End producer_properties.

(** ** A concrete producer *)
Module ProducerExample.
Definition run : string := "run-01".
Definition lease : pyval :=
  PDict (lease_fields run 7 ++ [("producer_pid", PInt 31)]).

#[export] Instance platform : Platform := {
  sha256 := fun _ => "";
  json_loads := fun s => if String.eqb s "lease" then Some lease else None;
  json_dumps := fun _ => "json";
  py_repr := fun _ => "";
}.

Definition dm : meta := Meta 7 448.
Definition staging : path := ["dev"; "shm"; staging_name run true].
Definition staging_text : string := "/dev/shm/kt-int8-run-01.staging".
Definition tree : fs := list_to_map (
  [([], NDir dm); (["dev"], NDir dm); (["dev"; "shm"], NDir dm);
   (["dev"; "shm"; "other"], NFile dm "kept"); (staging, NDir dm);
   (staging ++ [STAGING_LEASE_NAME], NFile dm "lease");
   (staging ++ ["_layer_3"], NDir dm); (staging ++ ["_layer_3"; "_numa_0"], NDir dm)]
  ++ ((fun nm => (staging ++ ["_layer_3"; "_numa_0"; nm.1], NFile dm (Example.data nm.2)))
        <$> Example.file_names)).
Definition machine : world := World tree [] 7 4242 0 (fun _ => true).

Lemma staging_tree_wf : fs_wf tree.
Proof. apply fs_wfb_sound. vm_compute. reflexivity. Qed.

Lemma staging_real : real_dir tree staging.
Proof.
  apply EphExample.real_dir_intro; [by repeat constructor|]. vm_compute. repeat constructor.
Qed.

Lemma staging_owned :
  validate_owned_root (w_fs machine) (w_uid machine) staging_text run true = Ok staging.
Proof. vm_compute. reflexivity. Qed.

Lemma cleanup_staging_exact_witness :
  ∃ w' visited, cleanup_ephemeral_int8_staging staging_text run machine = (w', Ok tt) ∧
    removed staging tree (w_fs w') ∧ w_hist w' = visited ++ [] ∧
    ∀ t k, t ∈ visited → ¬ below staging k → t !! k = tree !! k.
Proof. exact (cleanup_staging_exact _ _ machine staging staging_tree_wf staging_owned staging_real). Defined.

Abbreviation reclaimed := (reclaim_stale_ephemeral_int8_staging staging_text run machine).1.

Lemma reclaim_spares_live_producers_witness :
  ∃ root lease pid,
      validate_owned_root tree 7 staging_text run true = Ok root ∧
      load_json tree (root ++ [STAGING_LEASE_NAME]) = Ok (PDict lease) ∧
      pget "run_id" lease = PStr run ∧ py_eq (pget "owner_uid" lease) (PInt 7) = true ∧
      py_int (default (PInt 0) (dict_get "producer_pid" lease)) = Ok pid ∧ 0 < pid ∧
      p_exists tree ["proc"; str_of_Z pid] = false ∧
      removed root tree (w_fs reclaimed).
Proof.
  apply (reclaim_spares_live_producers staging_text run machine reclaimed (Ok true) staging_tree_wf).
  apply run_result. vm_compute. reflexivity.
Defined.

Definition d : dims := Dims 1 1 2 1.
Abbreviation after := (publish_ephemeral_int8_weights staging_text run [3] d machine).1.

Lemma publish_is_atomic_witness :
  ∃ visited, w_hist after = visited ++ w_hist machine ∧
    (∀ t, t ∈ visited → unpublished run ["dev"; "shm"] (w_fs machine) t ∨
                        is_ok (Ok (A := path) ["dev"; "shm"; "kt-int8-run-01"]) = true ∧ t = w_fs after) ∧
    (∀ p, Ok (A := path) ["dev"; "shm"; "kt-int8-run-01"] = Ok p →
       p = ["dev"; "shm"] ++ [staging_name run false] ∧
       ∃ tree ls, scan_staging staging (sorted_set [3]) (d_numa d) (d_experts d) tree = Ok ls ∧
         published run ["dev"; "shm"] (w_fs machine) (w_fs after)
           (ready_manifest run (w_uid machine) (w_pid machine) (w_clock machine) d ls)).
Proof.
  apply (publish_is_atomic staging_text run [3] d machine after _ staging staging_tree_wf staging_owned
           staging_real).
  apply run_result. vm_compute. reflexivity.
Defined.
End ProducerExample.
