(* ===== verification/EphemeralCleanup.v ===== *)
(** * Best-effort cleanup of an ephemeral weight store

    Theorems on [EphemeralKTWeightStore.cleanup]: it removes only what the
    manifest lists, always closes the store and gives the process its signal
    handlers back, and runs at most once. *)
From S2P Require Import Prelude PyStr PyVal FS FSLaws WeightManifest WeightManifestSpec Ephemeral EphemeralSpec.
From Stdlib Require Import Ascii.
Import Eph.

Local Open Scope string_scope.
Local Open Scope list_scope.
Local Open Scope Z_scope.

Section owned.
Context `{Platform}.

(** The directories of the layer [i]. *)
Definition layer_dirs (root : path) (i : Z) (k : path) : Prop :=
  k = root ++ [layer_dir_name i] ∨ ∃ n, k = root ++ [layer_dir_name i; numa_dir_name n].

(** The file that a manifest entry names. *)
Definition entry_file (root : path) (v : pyval) (k : path) : Prop :=
  ∃ dct, v = PDict dct ∧
    let relative := py_str (default (PStr "") (dict_get "path" dct)) in
    ".." ∉ path_parts relative ∧ k = root ++ path_parts relative.

(** What an unconsumed layer of the manifest owns. *)
Definition layer_owns (root : path) (v : pyval) (k : path) : Prop :=
  ∃ layer, v = PDict layer ∧ py_eq (pget "state" layer) (PStr "consumed") = false ∧
    ((∃ files item, get_list "files" layer = Ok files ∧ item ∈ files ∧ entry_file root item k) ∨
     (∃ iv i, dict_get "index" layer = Some iv ∧ py_int iv = Ok i ∧ layer_dirs root i k)).

(** What the store may remove. *)
Definition owned (root : path) (manifest : list (string * pyval)) (pid : Z) (k : path) : Prop :=
  k = root ∨ k = root ++ [MANIFEST_NAME] ∨ k = root ++ [tmp_name MANIFEST_NAME pid] ∨
  ∃ layers v, get_list "layers" manifest = Ok layers ∧ v ∈ layers ∧ layer_owns root v k.
End owned.

Section trimming.
Context `{Platform} (t0 : fs) (p0 : proc) (s0 : store) (own : path → Prop).
Let root := st_root s0.
Context (Hne : root ≠ []).

(** The process during a cleanup: owned nodes may be gone, nothing else has
    happened. *)
Record trimming (ps : proc * store) : Prop := {
  tr_wf : fs_wf (tree_of ps);
  tr_root : real_dir (tree_of ps) root;
  tr_links : link_free (tree_of ps) root;
  tr_only : ∀ k, tree_of ps !! k = t0 !! k ∨ tree_of ps !! k = None ∧ own k;
  tr_proc : ps.1 = set_world p0 (p_world ps.1);
  tr_pid : w_pid (p_world ps.1) = w_pid (p_world p0);
  tr_store : ps.2 = s0;
}.

Lemma trimming_delete ps r :
  trimming ps → own (root ++ r) → r ≠ [] →
  (∀ n, tree_of ps !! ((root ++ r) ++ [n]) = None) →
  trimming (set_world ps.1 (set_tree (delete (root ++ r) (tree_of ps)) (p_world ps.1)), ps.2).
Proof.
  intros [Hwf [Hrn Hrd] Hl Ho Hp Hpid Hs] Hown Hr Hb.
  assert (root ++ r ≠ []) as Hne' by (intros [? _]%app_eq_nil; done).
  split; unfold tree_of; simpl; try done.
  - by apply fs_wf_delete.
  - split; [done|]. intros q Hq Hqne. rewrite lookup_delete_ne; [by apply Hrd|].
    intros <-. apply prefix_length in Hq. rewrite length_app in Hq. destruct r; [done|].
    simpl in Hq. lia.
  - intros r' a tg E. apply lookup_delete_Some in E as [_ E]. by apply Hl in E.
  - intros k. destruct (decide (root ++ r = k)) as [<-|Hk].
    + right. split; [apply lookup_delete_eq|done].
    + rewrite lookup_delete_ne by done. apply Ho.
  - by rewrite Hp.
Qed.

Lemma trimming_unlink r :
  Forall (fun c => name_ok c = true) r → own (root ++ r) →
  keeps trimming (on_world (unlink (root ++ r))).
Proof.
  intros Hn Hown ps ps' res Htr Hx. unfold on_world in Hx.
  assert (ps = (set_world ps.1 (p_world ps.1), ps.2)) as Hps by (by destruct ps as [[] ?]).
  destruct (unlink (root ++ r) (p_world ps.1)) as [w' rr] eqn:E. injection Hx as <- _.
  apply unlink_effect in E as [->|(q & x & Hq & Hx & Hd & ->)]; [by rewrite <-Hps|].
  apply (place_link_free _ root r q) in Hq as ->; try apply Htr; try done.
  fold (tree_of ps) in Hx |- *. apply trimming_delete; try done.
  - intros ->. rewrite app_nil_r in Hx.
    destruct (real_dir_lookup _ _ (tr_wf _ Htr) (tr_root _ Htr)) as [m Hm].
    rewrite Hm in Hx. by injection Hx as <-.
  - intros n. eapply leaf_below; try done. apply Htr.
Qed.

Lemma trimming_rmdir r :
  Forall (fun c => name_ok c = true) r → r ≠ [] → own (root ++ r) →
  keeps trimming (on_world (rmdir (root ++ r))).
Proof.
  intros Hn Hr Hown ps ps' res Htr Hx. unfold on_world in Hx.
  assert (ps = (set_world ps.1 (p_world ps.1), ps.2)) as Hps by (by destruct ps as [[] ?]).
  destruct (rmdir (root ++ r) (p_world ps.1)) as [w' rr] eqn:E. injection Hx as <- _.
  apply rmdir_effect in E as [->|(q & m & Hq & _ & Hm & Hc & ->)]; [by rewrite <-Hps|].
  apply (place_link_free _ root r q) in Hq as ->; try apply Htr; try done.
  fold (tree_of ps) in Hc |- *. apply trimming_delete; try done.
  intros n. apply empty_dir_below; try done. apply Htr.
Qed.

Lemma trimming_remove_file r :
  Forall (fun c => name_ok c = true) r → own (root ++ r) →
  keeps trimming (remove_file (root ++ r)).
Proof.
  intros Hn Hown. apply keeps_bind; [apply keeps_read|]. intros t.
  destruct (_ && _); [by apply trimming_unlink|apply keeps_ret].
Qed.

Lemma trimming_remove_dir r :
  Forall (fun c => name_ok c = true) r → r ≠ [] → own (root ++ r) →
  keeps trimming (remove_dir (root ++ r)).
Proof.
  intros Hn Hr Hown. apply keeps_bind; [apply keeps_read|]. intros t.
  destruct (_ && _); [|apply keeps_ret].
  apply keeps_catch; [by apply trimming_rmdir|intros e; apply keeps_ret].
Qed.

Lemma numa_dir_ok n : name_ok (numa_dir_name n) = true.
Proof.
  apply (name_ok_prefixed "numa_" (str_of_Z n) "_"%char); try done. apply str_of_Z_no_slash'.
Qed.

Lemma trimming_layer v : (∀ k, layer_owns root v k → own k) → keeps trimming (cleanup_layer root v).
Proof.
  intros Hown. unfold cleanup_layer. apply keeps_lift_bind. intros layer Hl.
  apply of_option_ok, as_dict_Some in Hl as ->.
  destruct (py_eq (pget "state" layer) _) eqn:Hst; [apply keeps_ret|].
  apply keeps_lift_bind. intros files Hf. apply keeps_bind.
  { apply keeps_for_M. intros item Hitem. unfold cleanup_item. apply keeps_lift_bind.
    intros dct Hd. apply of_option_ok, as_dict_Some in Hd as ->.
    destruct (is_absolute _ || _) eqn:Hdd; [apply keeps_ret|]. bools.
    apply trimming_remove_file; [by apply path_parts_names|]. apply Hown.
    exists layer. split_and!; [done|done|]. left. exists files, (PDict dct).
    split_and!; [done|done|]. by exists dct. }
  intros []. apply keeps_lift_bind. intros iv Hiv. apply keeps_lift_bind. intros i Hi.
  unfold need_key in Hiv. apply of_option_ok in Hiv.
  assert (∀ k, layer_dirs root i k → own k) as Hdirs.
  { intros k Hk. apply Hown. exists layer. split_and!; [done|done|]. right. by exists iv, i. }
  apply keeps_lift_bind. intros nc _. apply keeps_bind.
  - apply keeps_for_M. intros n _. rewrite <-app_assoc. simpl app.
    apply trimming_remove_dir; [|done|apply Hdirs; right; eauto].
    repeat constructor; [apply layer_dir_ok|apply numa_dir_ok].
  - intros []. apply trimming_remove_dir; [|done|apply Hdirs; by left].
    repeat constructor. apply layer_dir_ok.
Qed.
End trimming.

Section cleanup.
Context `{Platform}.

(** What the [try] block leaves, however it ends. *)
Lemma cleanup_body_spec ps ps' r :
  let root := st_root ps.2 in
  let own := owned root (st_manifest ps.2) (w_pid (p_world ps.1)) in
  fs_wf (tree_of ps) → real_dir (tree_of ps) root → link_free (tree_of ps) root → root ≠ [] →
  cleanup_body ps.2 ps = (ps', r) →
  (∀ k, tree_of ps' !! k = tree_of ps !! k ∨ tree_of ps' !! k = None ∧ own k) ∧
  ps'.2 = ps.2 ∧ ps'.1 = set_world ps.1 (p_world ps'.1).
Proof.
  intros root own Hwf Hroot Hl Hne Hx.
  set (I := trimming (tree_of ps) ps.1 ps.2 own).
  assert (I ps) as H0 by (split; auto; by destruct ps as [[] ?]).
  assert (∀ q, I q → (∀ k, tree_of q !! k = tree_of ps !! k ∨ tree_of q !! k = None ∧ own k) ∧
    q.2 = ps.2 ∧ q.1 = set_world ps.1 (p_world q.1)) as Hfin by (by intros q []).
  unfold cleanup_body in Hx. rewrite bindM_lift in Hx.
  destruct (get_list "layers" _) as [layers|e] eqn:Hls; [|injection Hx as <- _; by apply Hfin].
  assert (keeps I (for_M layers (cleanup_layer root))) as Hk1.
  { apply keeps_for_M. intros v Hv. apply trimming_layer; [done|].
    intros k Hk. do 3 right. by exists layers, v. }
  apply bindM_inv in Hx as [(ps1 & [] & H1 & Hx)|(e & H1 & ->)];
    pose proof (Hk1 _ _ _ H0 H1) as HI1; [|by apply Hfin].
  rewrite bindM_gets in Hx. rewrite (tr_pid _ _ _ _ _ HI1) in Hx.
  match type of Hx with (for_M ?l ?b ≫= _) _ = _ => assert (keeps I (for_M l b)) as Hk2 end.
  { apply keeps_for_M. intros nm Hnm.
    apply elem_of_cons in Hnm as [->|Hnm%list_elem_of_singleton]; [|subst nm].
    - apply trimming_remove_file; [done|by repeat constructor|by right; left].
    - apply trimming_remove_file; [done| |by right; right; left].
      constructor; [|done]. exact (tmp_name_ok MANIFEST_NAME _ eq_refl). }
  apply bindM_inv in Hx as [(ps2 & [] & H2 & Hx)|(e & H2 & ->)];
    pose proof (Hk2 _ _ _ HI1 H2) as HI2; [|by apply Hfin].
  unfold catchM, on_world in Hx.
  destruct (rmdir (st_root ps.2) (p_world ps2.1)) as [w' rr] eqn:E.
  assert (ps2 = (set_world ps2.1 (p_world ps2.1), ps2.2)) as Hps2 by (by destruct ps2 as [[] ?]).
  assert (ps' = (set_world ps2.1 w', ps2.2)) as ->.
  { destruct rr as [u|e]; [by injection Hx as <- _|].
    destruct (is_os_error _); by injection Hx as <- _. }
  apply rmdir_effect in E as [->|(q & m & Hq & _ & Hm & Hc & ->)];
    [rewrite <-Hps2; by apply Hfin|].
  rewrite <-(app_nil_r (st_root ps.2)) in Hq.
  apply (place_link_free _ root [] q) in Hq as ->; [|by apply HI2|done|by apply HI2|done].
  rewrite app_nil_r. fold (tree_of ps2). simpl. split_and!.
  - intros k.
    change (tree_of (set_world ps2.1 (set_tree (delete root (tree_of ps2)) (p_world ps2.1)), ps2.2))
      with (delete root (tree_of ps2)).
    destruct (decide (root = k)) as [<-|Hk].
    + right. split; [apply lookup_delete_eq|by left].
    + rewrite lookup_delete_ne by done. apply HI2.
  - apply HI2.
  - by rewrite (tr_proc _ _ _ _ _ HI2).
Qed.

(** C14.  Cleanup is confined and final.  Of a store whose root holds no
    symbolic link, [cleanup] removes only paths that the manifest owns, its
    unconsumed layers' files and directories, the manifest, its temporary and
    the root; whatever the outcome, the store is closed, the signal handlers
    that it had replaced are back, the exit hook is gone, and a second
    [cleanup] does nothing. *)
Theorem cleanup_removes_only_owned ps ps' r :
  st_closed ps.2 = false → fs_wf (tree_of ps) → real_dir (tree_of ps) (st_root ps.2) →
  link_free (tree_of ps) (st_root ps.2) → st_root ps.2 ≠ [] →
  cleanup ps = (ps', r) →
  (∀ k, tree_of ps' !! k = tree_of ps !! k ∨
        tree_of ps' !! k = None ∧
        owned (st_root ps.2) (st_manifest ps.2) (w_pid (p_world ps.1)) k) ∧
  st_closed ps'.2 = true ∧
  p_signals ps'.1 = restored (p_signals ps.1) (st_previous ps.2) ∧
  p_atexit ps'.1 = false ∧ p_calls ps'.1 = p_calls ps.1 ∧
  cleanup ps' = (ps', Ok tt).
Proof.
  intros Hcl Hwf Hroot Hl Hne Hx. destruct ps as [p s]. unfold cleanup in Hx.
  rewrite bindM_gets in Hx. simpl in Hcl, Hx. rewrite Hcl in Hx. unfold close_store in Hx.
  rewrite bindM_modify in Hx. unfold finallyM in Hx.
  destruct (cleanup_body s (p, set_closed true s)) as [[p1 s1] r1] eqn:Hb.
  change (cleanup_body s) with (cleanup_body (set_closed true s)) in Hb.
  apply (cleanup_body_spec (p, set_closed true s)) in Hb as (Honly & Hs1 & Hp1); try done.
  simpl in Hs1, Hp1. subst s1.
  unfold restore_signal_handlers, atexit_unregister in Hx. rewrite bindM_modify in Hx.
  cbn in Hx. assert (ps' = (Proc (p_world p1) (restored (p_signals p1) (st_previous s)) false (p_calls p1),
    Store (st_root s) (st_manifest s) true [])) as ->.
  { by destruct r1; injection Hx as <- _. }
  rewrite Hp1. split_and!; try done.
Qed.
End cleanup.

(** ** A concrete cleanup *)
Module CleanupExample.
Import EphExample.

Lemma link_free_start : link_free (tree_of start) root.
Proof. intros r a tg. apply no_links. vm_compute. reflexivity. Qed.

Abbreviation cleaned := (cleanup start).1.

Lemma cleanup_removes_only_owned_witness :
  (∀ k, tree_of cleaned !! k = tree_of start !! k ∨
        tree_of cleaned !! k = None ∧ owned root manifest 4242 k) ∧
  st_closed cleaned.2 = true ∧
  p_signals cleaned.1 = restored (p_signals start.1) (st_previous start.2) ∧
  p_atexit cleaned.1 = false ∧ p_calls cleaned.1 = p_calls start.1 ∧
  cleanup cleaned = (cleaned, Ok tt).
Proof.
  apply (cleanup_removes_only_owned start cleaned (Ok tt)); [done|exact run_tree_wf| | |done|].
  - apply start_ok.
  - exact link_free_start.
  - apply run_result. vm_compute. reflexivity.
Defined.
End CleanupExample.

(** ** A layer directory that is a symbolic link *)
Module LinkExample.
Definition root : path := ["dev"; "shm"; "kt-int8-run-01"].
Definition dm : meta := Meta 7 448.
Definition manifest : list (string * pyval) :=
  [("run_id", PStr "run-01")] ++ expected_metadata 7 (Dims 1 1 1 1) ++
  [("layers", PList [EphExample.layer 0])].

#[export] Instance platform : Platform := {
  sha256 := fun _ => "";
  json_loads := fun s => if String.eqb s "manifest" then Some (PDict manifest) else None;
  json_dumps := fun _ => "json";
  py_repr := fun _ => "";
}.

(** [_layer_0] points to a directory of the user's outside the root. *)
Definition tree : fs := list_to_map
  [([], NDir dm); (["dev"], NDir dm); (["dev"; "shm"], NDir dm); (["home"], NDir dm);
   (["home"; "_numa_0"], NDir dm); (["home"; "_numa_0"; "w.kt"], NFile dm "ww");
   (root, NDir dm); (root ++ [MANIFEST_NAME], NFile dm "manifest");
   (root ++ ["_layer_0"], NLink true ["home"])].
Definition machine : world := World tree [] 7 4242 0 (fun _ => true).
Definition process : proc := Proc machine (fun _ => SigDfl) false [].

(**  [EphemeralKTWeightStore] does not look at whether a layer directory is
    a symbolic link, as the producer's scan does: a root whose [_layer_0] is a
    link is opened, and consuming the layer deletes the file that the link
    leads to, outside the root. *)
Theorem symlinked_layer_is_followed :
  ∃ ps, open_store "/dev/shm/kt-int8-run-01" [0] (Dims 1 1 1 1) process = Ok ps ∧
    tree_of ps !! ["home"; "_numa_0"; "w.kt"] = Some (NFile dm "ww") ∧
    tree_of (consume_layer 0 ps).1 !! ["home"; "_numa_0"; "w.kt"] = None.
Proof.
  exists (init_store root manifest process). split_and!; vm_compute; reflexivity.
Qed.
End LinkExample.
