(* ===== verification/Backend.v ===== *)
(** * Backend names, checkpoint contracts and loaded runtimes

    Models [kt-kernel/python/sft/backend.py]: which names select which
    quantised backend, the compressed-tensors contract of a RAWINT4 checkpoint,
    and the checks on the metadata of the loaded extension. *)
From S2P Require Import Prelude PyStr PyVal.
From Stdlib Require Import Ascii.

Local Open Scope string_scope.
Local Open Scope list_scope.
Local Open Scope Z_scope.

Definition INT8_BACKEND : string := "INT8".
Definition INT8_SFT_METHOD : string := "INT8_SFT".
Definition INT8_WEIGHT_LAYOUT : string := "kt-int8-n32-k64-vnni-v1".
Definition INT8_SFT_METHOD_ALIASES : list string := [INT8_SFT_METHOD; "AMXINT8_SFT"].
Definition FP8_BACKEND : string := "FP8".
Definition FP8_SFT_METHOD : string := "AMXFP8_SFT".
Definition FP8_WEIGHT_LAYOUT : string := "block-e4m3-128x128".
Definition FP8_KERNEL : string := "avx512-fp8-decode-bf16".
Definition FP8_SFT_METHOD_ALIASES : list string := [FP8_SFT_METHOD; "FP8_SFT"].
Definition RAWINT4_BACKEND : string := "RAWINT4".
Definition RAWINT4_SFT_METHOD : string := "RAWINT4_SFT".
Definition RAWINT4_WEIGHT_LAYOUT : string := "compressed-tensors-rawint4-g32-v1".
Definition RAWINT4_KERNEL : string := "amx-int4-kgroup-g32".
Definition RAWINT4_GROUP_SIZE : Z := 32.
Definition RAWINT4_SFT_METHOD_ALIASES : list string :=
  [RAWINT4_SFT_METHOD; "AMXINT4_KGroup_SFT"].

Definition is_int8_sft_method (method : string) : bool :=
  bool_decide (method ∈ INT8_SFT_METHOD_ALIASES).
Definition is_fp8_sft_method (method : string) : bool :=
  bool_decide (method ∈ FP8_SFT_METHOD_ALIASES).
Definition is_rawint4_sft_method (method : string) : bool :=
  bool_decide (method ∈ RAWINT4_SFT_METHOD_ALIASES).

(** The backend's public name, and whether a [FutureWarning] was issued. *)
Definition normalize_sft_backend (backend : string) (expert_weight_format : option string)
    : string * bool :=
  let normalized := lower (strip backend) in
  if String.eqb normalized "auto" then
    match expert_weight_format with
    | Some f => if String.eqb f "int8" then (INT8_BACKEND, false)
                else if String.eqb f "fp8" then (FP8_BACKEND, false)
                else if String.eqb f "rawint4" then (RAWINT4_BACKEND, false)
                else ("AMXBF16", false)
    | None => ("AMXBF16", false)
    end
  else if String.eqb normalized "int8" then (INT8_BACKEND, false)
  else if String.eqb normalized "amxint8" then (INT8_BACKEND, true)
  else if String.eqb normalized "fp8" then (FP8_BACKEND, false)
  else if String.eqb normalized "amxfp8" then (FP8_BACKEND, true)
  else if String.eqb normalized "rawint4" then (RAWINT4_BACKEND, false)
  else if String.eqb normalized "amxint4_kgroup" then (RAWINT4_BACKEND, true)
  else (backend, false).

(** ** Configuration values *)

(** A model configuration: a mapping, an object with attributes, or a plain
    value. *)
Inductive cfg :=
  | CVal (v : pyval)
  | CMap (d : list (string * cfg))
  | CObj (d : list (string * cfg)).

Definition config_value (config : cfg) (name : string) (dflt : cfg) : cfg :=
  match config with
  | CMap d | CObj d => default dflt (dict_get name d)
  | CVal _ => dflt
  end.

Definition cnone : cfg := CVal PNone.
Definition is_cnone (c : cfg) : bool := match c with CVal PNone => true | _ => false end.

(** [c == v] for a plain value [v]. *)
Definition cfg_eq (c : cfg) (v : pyval) : bool :=
  match c with CVal w => py_eq w v | _ => false end.

Section backend.
Context `{Platform} (cfg_repr : cfg -> string).

(** [str(c)] *)
Definition cfg_str (c : cfg) : string := match c with CVal v => py_str v | _ => cfg_repr c end.

Record RAWINT4CheckpointContract := {
  rc_bits : Z;
  rc_group_size : Z;
  rc_signed : bool;
  rc_symmetric : bool;
  rc_zero_point : bool;
  rc_format : string;
}.

Definition rawint4_contract : RAWINT4CheckpointContract :=
  {| rc_bits := 4; rc_group_size := RAWINT4_GROUP_SIZE; rc_signed := true; rc_symmetric := true;
     rc_zero_point := false; rc_format := "pack-quantized" |}.

(** The weight scheme of every quantised group. *)
Definition expected_scheme : list (string * pyval) :=
  [("type", PStr "int"); ("num_bits", PInt 4); ("strategy", PStr "group");
   ("group_size", PInt RAWINT4_GROUP_SIZE); ("dynamic", PBool false); ("symmetric", PBool true);
   ("actorder", PNone); ("block_structure", PNone)].

Definition scheme_matches (weights : cfg) : bool :=
  forallb (fun kv => cfg_eq (config_value weights kv.1 cnone) kv.2) expected_scheme.

Definition explicit_zero_point (weights : cfg) : bool :=
  match weights with
  | CMap d => match dict_get "zero_point" d with Some _ => true | None => false end
  | _ => negb (is_cnone (config_value weights "zero_point" cnone))
  end.

Definition check_group (checked : Z) (group : cfg) : res Z :=
  _ ← raise_if (negb (is_cnone (config_value group "input_activations" cnone))
                || negb (is_cnone (config_value group "output_activations" cnone))) ValueError
        "group must be weight-only quantization";
  let weights := config_value group "weights" cnone in
  if is_cnone weights then mret checked
  else
    _ ← raise_if (negb (scheme_matches weights)) ValueError "unsupported weight scheme";
    _ ← raise_if (explicit_zero_point weights) ValueError "must not declare zero-point metadata";
    mret (checked + 1).

(** [str(value).lower().replace("_", "-")] *)
Definition dashed (c : cfg) : string := replace_char "_" "-" (lower (cfg_str c)).

Definition find_quant_config (model_config : cfg) : cfg :=
  let text_config := config_value model_config "text_config" cnone in
  let quant_config := config_value model_config "quantization_config" cnone in
  if is_cnone quant_config && negb (is_cnone text_config)
  then config_value text_config "quantization_config" cnone else quant_config.

Definition get_rawint4_checkpoint_contract (model_config : cfg) : res RAWINT4CheckpointContract :=
  let quant_config := find_quant_config model_config in
  _ ← raise_if (is_cnone quant_config) ValueError "requires quantization_config metadata";
  let quant_method := dashed (config_value quant_config "quant_method" (CVal (PStr ""))) in
  let weight_format := dashed (config_value quant_config "format" (CVal (PStr ""))) in
  let status := lower (cfg_str (config_value quant_config "quantization_status" (CVal (PStr "")))) in
  _ ← raise_if (negb (String.eqb quant_method "compressed-tensors")) ValueError
        "requires quant_method='compressed-tensors'";
  _ ← raise_if (negb (String.eqb weight_format "pack-quantized")) ValueError
        "requires format='pack-quantized'";
  _ ← raise_if (negb (String.eqb status "compressed")) ValueError
        "requires quantization_status='compressed'";
  groups ← of_option (match config_value quant_config "config_groups" cnone with
                      | CMap ((_ :: _) as d) => Some d | _ => None end) ValueError
             "requires non-empty config_groups";
  checked ← for_each groups 0 (fun checked kv => check_group checked kv.2);
  _ ← raise_if (checked =? 0) ValueError "quantization_config has no weight scheme";
  mret rawint4_contract.

(** ** The loaded extension *)

(** The attributes of the extension module, and those of its [moe] module. *)
Record extension := Extension {
  ext_attrs : list (string * pyval);
  ext_moe : option (list string);
}.

Definition has_attr (ext : extension) (name : string) : bool :=
  match dict_get name (ext_attrs ext) with Some _ => true | None => false end.
Definition attr_text (ext : extension) (name : string) : string :=
  py_str (default PNone (dict_get name (ext_attrs ext))).
Definition moe_provides (ext : extension) (cls : string) : bool :=
  match ext_moe ext with Some names => bool_decide (cls ∈ names) | None => false end.

Record runtime := Runtime { rt_cpu_variant : string; rt_kernel : string; rt_weight_layout : string }.

Definition missing_metadata (ext : extension) (required : list string) : list string :=
  List.filter (fun name => negb (has_attr ext name)) required.

Definition get_int8_runtime (ext : extension) : res runtime :=
  _ ← raise_if (negb (bool_decide (missing_metadata ext
        ["__cpu_variant__"; "__int8_kernel__"; "__int8_weight_layout__"] = []))) RuntimeError
        "extension predates production INT8 runtime metadata";
  _ ← raise_if (negb (moe_provides ext "AMXInt8_SFT_MOE")) RuntimeError
        "extension does not provide INT8 SFT";
  let cpu_variant := lower (attr_text ext "__cpu_variant__") in
  let kernel := lower (attr_text ext "__int8_kernel__") in
  _ ← raise_if (negb (bool_decide (kernel ∈ ["amx-int8"; "avx512-vnni"; "onednn-vnni"])))
        RuntimeError "INT8 SFT requires an AMX-INT8 or AVX512-VNNI+BF16 extension";
  let layout := attr_text ext "__int8_weight_layout__" in
  _ ← raise_if (negb (String.eqb layout INT8_WEIGHT_LAYOUT)) RuntimeError
        "INT8 SFT weight-layout mismatch";
  mret (Runtime cpu_variant kernel layout).

Definition get_fp8_runtime (ext : extension) : res runtime :=
  _ ← raise_if (negb (bool_decide (missing_metadata ext
        ["__cpu_variant__"; "__fp8_kernel__"; "__fp8_weight_layout__"] = []))) RuntimeError
        "extension predates native FP8 runtime metadata";
  _ ← raise_if (negb (moe_provides ext "AMXFP8_SFT_MOE")) RuntimeError
        "extension does not provide native FP8 SFT";
  let cpu_variant := lower (attr_text ext "__cpu_variant__") in
  let kernel := lower (attr_text ext "__fp8_kernel__") in
  _ ← raise_if (negb (String.eqb kernel FP8_KERNEL)) RuntimeError
        "Native FP8 SFT requires the AVX512-BF16+VBMI FP8 decode kernel";
  let layout := attr_text ext "__fp8_weight_layout__" in
  _ ← raise_if (negb (String.eqb layout FP8_WEIGHT_LAYOUT)) RuntimeError
        "FP8 SFT weight-layout mismatch";
  mret (Runtime cpu_variant kernel layout).

Definition get_rawint4_runtime (ext : extension) : res runtime :=
  _ ← raise_if (negb (bool_decide (missing_metadata ext
        ["__cpu_variant__"; "__rawint4_kernel__"; "__rawint4_weight_layout__"] = [])))
        RuntimeError "extension predates RAWINT4 SFT runtime metadata";
  _ ← raise_if (negb (moe_provides ext "AMXInt4_KGroup_SFT_MOE")) RuntimeError
        "extension does not provide RAWINT4 SFT";
  let cpu_variant := lower (attr_text ext "__cpu_variant__") in
  let kernel := lower (attr_text ext "__rawint4_kernel__") in
  _ ← raise_if (negb (String.eqb kernel RAWINT4_KERNEL)) RuntimeError
        "RAWINT4 SFT requires the signed group-32 AMX KGroup kernel";
  let layout := attr_text ext "__rawint4_weight_layout__" in
  _ ← raise_if (negb (String.eqb layout RAWINT4_WEIGHT_LAYOUT)) RuntimeError
        "RAWINT4 SFT weight-layout mismatch";
  mret (Runtime cpu_variant kernel layout).
End backend.

(** ** Theorems *)

(**  Backend names are stable: the name that normalisation returns
    normalises to itself, without a deprecation warning, under every expert
    weight format; and no method name belongs to two quantised families. *)
Theorem normalize_sft_backend_stable backend fmt fmt' method :
  let n := (normalize_sft_backend backend fmt).1 in
  normalize_sft_backend n fmt' = (n, false) ∧
  lower (strip n) ≠ "auto" ∧
  (Z.b2z (is_int8_sft_method method) + Z.b2z (is_fp8_sft_method method)
   + Z.b2z (is_rawint4_sft_method method) <= 1).
Proof.
  cbv zeta. set (n := (normalize_sft_backend backend fmt).1).
  assert (lower (strip n) ≠ "auto" ∧ normalize_sft_backend n fmt' = (n, false)) as [Ha Hn].
  { unfold n, normalize_sft_backend. repeat (case_match; cbn [fst] in *; try done; try congruence).
    split; [|done]. by apply String.eqb_neq. }
  split_and!; [done|done|].
  unfold is_int8_sft_method, is_fp8_sft_method, is_rawint4_sft_method.
  unfold INT8_SFT_METHOD_ALIASES, FP8_SFT_METHOD_ALIASES, RAWINT4_SFT_METHOD_ALIASES,
    INT8_SFT_METHOD, FP8_SFT_METHOD, RAWINT4_SFT_METHOD.
  repeat case_bool_decide; simpl; try lia; set_solver.
Qed.

Section contract.
Context `{Platform} (cfg_repr : cfg -> string).

(** What the kernels require of a quantisation group. *)
Definition group_ok (group : cfg) : Prop :=
  is_cnone (config_value group "input_activations" cnone) = true ∧
  is_cnone (config_value group "output_activations" cnone) = true ∧
  (is_cnone (config_value group "weights" cnone) = true ∨
   scheme_matches (config_value group "weights" cnone) = true ∧
   explicit_zero_point (config_value group "weights" cnone) = false).

Definition has_weights (group : cfg) : Prop :=
  is_cnone (config_value group "weights" cnone) = false.

(** What they require of a checkpoint's quantisation metadata. *)
Record contract_met (q : cfg) : Prop := {
  cm_method : dashed cfg_repr (config_value q "quant_method" (CVal (PStr ""))) = "compressed-tensors";
  cm_format : dashed cfg_repr (config_value q "format" (CVal (PStr ""))) = "pack-quantized";
  cm_status : lower (cfg_str cfg_repr (config_value q "quantization_status" (CVal (PStr "")))) = "compressed";
  cm_groups : ∃ groups, config_value q "config_groups" cnone = CMap groups ∧
    Forall (fun kv => group_ok kv.2) groups ∧ Exists (fun kv => has_weights kv.2) groups;
}.

Lemma check_group_ok n m g : check_group n g = Ok m ↔
  group_ok g ∧ m = (if is_cnone (config_value g "weights" cnone) then n else n + 1).
Proof.
  unfold check_group, group_ok. rewrite bind_ok. setoid_rewrite raise_if_ok.
  setoid_rewrite orb_false_iff. setoid_rewrite negb_false_iff.
  destruct (is_cnone (config_value g "weights" cnone)).
  - unfold mret, res_ret. naive_solver.
  - setoid_rewrite bind_ok. setoid_rewrite bind_ok. setoid_rewrite raise_if_ok.
    setoid_rewrite negb_false_iff. unfold mret, res_ret.
    split; [naive_solver|]. intros [(? & ? & [?|[? ?]]) ->]; [done|]. exists tt. split; [done|].
    exists tt. split; [done|]. exists tt. by split.
Qed.

Lemma check_groups_ok groups n m :
  for_each groups n (fun c (kv : string * cfg) => check_group c kv.2) = Ok m ↔
  Forall (fun kv => group_ok kv.2) groups ∧
  m = n + sumZ (fun kv => if is_cnone (config_value kv.2 "weights" cnone) then 0 else 1) groups.
Proof.
  revert n. induction groups as [|[k g] groups IH]; intros n; simpl.
  - rewrite Forall_nil, Z.add_0_r. naive_solver.
  - rewrite bind_ok, Forall_cons. setoid_rewrite check_group_ok. setoid_rewrite IH. simpl.
    split.
    + intros (a & [Hg ->] & Hgs & ->). split; [done|]. destruct (is_cnone _); lia.
    + intros [[Hg Hgs] ->]. eexists. split; [done|]. split; [done|]. destruct (is_cnone _); lia.
Qed.

Lemma weights_count groups :
  sumZ (fun kv : string * cfg => if is_cnone (config_value kv.2 "weights" cnone) then 0 else 1) groups
    ≠ 0 ↔ Exists (fun kv => has_weights kv.2) groups.
Proof.
  assert (∀ gs, 0 <= sumZ (fun kv : string * cfg =>
    if is_cnone (config_value kv.2 "weights" cnone) then 0 else 1) gs) as Hpos.
  { induction gs as [|g gs IH]; simpl; [done|]. destruct (is_cnone _); lia. }
  induction groups as [|g groups IH]; simpl; [by rewrite Exists_nil|].
  rewrite Exists_cons, <-IH. unfold has_weights. specialize (Hpos groups).
  destruct (is_cnone _); split.
  - intros. right. lia.
  - intros [?|?]; [done|lia].
  - by left.
  - lia.
Qed.

(**  [get_rawint4_checkpoint_contract] decides the checkpoint contract: it
    returns, and always the same 4-bit, group-32, symmetric contract, exactly
    when the quantisation metadata meet what the kernels require; in every
    other case it raises [ValueError]. *)
Theorem rawint4_contract_decided model_config :
  (is_ok (get_rawint4_checkpoint_contract cfg_repr model_config) = true ↔
   contract_met (find_quant_config model_config)) ∧
  match get_rawint4_checkpoint_contract cfg_repr model_config with
  | Ok c => c = rawint4_contract
  | Err e => exn_cls e = ValueError
  end.
Proof.
  set (q := find_quant_config model_config).
  assert (∀ c, get_rawint4_checkpoint_contract cfg_repr model_config = Ok c ↔
    c = rawint4_contract ∧ contract_met q) as Hiff.
  { intros c. unfold get_rawint4_checkpoint_contract. fold q. split.
    - intros Hx. inv_guard Hx as _. inv_guard Hx as Hm. inv_guard Hx as Hf. inv_guard Hx as Hs.
      inv_bind Hx as groups Hg. apply of_option_ok in Hg. inv_bind Hx as m Hgs.
      inv_guard Hx as Hne. injection Hx as <-. bools.
      apply check_groups_ok in Hgs as [Hall ->]. split; [done|]. split; try done.
      exists groups. split_and!; [|done|by apply weights_count; lia].
      destruct (config_value q "config_groups" cnone) as [|[|]|]; try done. by simplify_eq/=.
    - intros [-> [Hm Hf Hs (groups & Hg & Hall & Hex)]].
      assert (is_cnone q = false) as ->.
      { destruct q as [v| |]; [|done|done]. done. }
      simpl. rewrite Hm, Hf, Hs. simpl. rewrite Hg.
      destruct groups as [|g groups]; [by apply Exists_nil in Hex|]. simpl of_option.
      cbn [mbind res_bind].
      rewrite (proj2 (check_groups_ok _ _ _) (conj Hall eq_refl)). cbn [mbind res_bind].
      apply weights_count in Hex. rewrite Z.add_0_l. apply Z.eqb_neq in Hex as ->. done. }
  split.
  - destruct (get_rawint4_checkpoint_contract cfg_repr model_config) as [c|e] eqn:E; simpl.
    + split; [|done]. intros _. by apply (Hiff c).
    + split; [done|]. intros Hc.
      discriminate (proj2 (Hiff rawint4_contract) (conj eq_refl Hc)).
  - destruct (get_rawint4_checkpoint_contract cfg_repr model_config) as [c|e] eqn:E.
    + by apply (Hiff c).
    + clear Hiff. revert e E. change (raises_only ValueError (get_rawint4_checkpoint_contract cfg_repr model_config)).
      unfold get_rawint4_checkpoint_contract, check_group. raises.
Qed.
End contract.
