(* ===== verification/Base.v ===== *)
(** * The state machine of an SFT MoE wrapper

    Models [kt-kernel/python/sft/base.py]: the optimizer-gradient window, the
    checkpoint-output cache, the shared buffer and the synchronous and
    asynchronous forward and backward calls.  Tensors and parameters are
    objects of a heap, so that "[parameter.grad] is the registered view" is an
    identity of objects.  The C++ engine and torch's copies are operations of a
    class, each of which may raise. *)
From S2P Require Import Prelude PyStr PyVal Backend.

Local Open Scope string_scope.
Local Open Scope list_scope.
Local Open Scope Z_scope.

(** ** Tensors *)

Abbreviation obj := Z.

(** A tensor's dtype, layout, device, shape, strides, offset and storage. *)
Record tensor_meta := TensorMeta {
  t_dtype : string;
  t_layout : string;
  t_device_type : string;
  t_device_index : option Z;
  t_shape : list Z;
  t_stride : list Z;
  t_offset : Z;
  t_ptr : Z;
}.
#[export] Instance tensor_meta_eq_dec : EqDecision tensor_meta.
Proof. solve_decision. Defined.

Record tensor := Tensor {
  tn_meta : tensor_meta;
  tn_is_parameter : bool;
  tn_grad : option obj;
}.

Abbreviation heap := (gmap obj tensor).

(** The tuple [_authoritative_grad_metadata] builds. *)
Record grad_metadata := GradMetadata {
  g_dtype : string;
  g_layout : string;
  g_device_type : string;
  g_device_index : Z;
  g_shape : list Z;
  g_stride : list Z;
  g_offset : Z;
  g_ptr : Z;
}.
#[export] Instance grad_metadata_eq_dec : EqDecision grad_metadata.
Proof. solve_decision. Defined.

Definition authoritative_grad_metadata (m : tensor_meta) : grad_metadata :=
  GradMetadata (t_dtype m) (t_layout m) (t_device_type m) (default (-1) (t_device_index m))
    (t_shape m) (t_stride m) (t_offset m) (t_ptr m).

Definition same_device (a b : tensor_meta) : bool :=
  String.eqb (t_device_type a) (t_device_type b)
  && bool_decide (t_device_index a = t_device_index b).

(** [t.grad = g] *)
Definition set_grad (g : option obj) (h : heap) (p : obj) : heap :=
  alter (fun t => Tensor (tn_meta t) (tn_is_parameter t) g) p h.

(** ** Buffers *)

(** The shared buffer: which allocation it is, and its capacity in tokens. *)
Record buffer := Buffer { b_id : Z; b_qlen : Z }.
#[export] Instance buffer_eq_dec : EqDecision buffer.
Proof. solve_decision. Defined.

(** ** The engine *)

Inductive task :=
  | ForwardTask (b : buffer) (save_for_backward : bool)
  | BackwardTask (b : buffer) (accumulate_optimizer_grads : bool) (scale : spec_float).

(** The C++ extension, the copies between devices, and the subclass's task
    constructors.  Each call may change the engine's state and may raise. *)
Class Engine := {
  estate : Type;
  make_task : task -> M estate unit;
  submit : task -> M estate unit;
  sync : M estate unit;
  copy_inputs : buffer -> M estate unit;
  copy_grad_output : buffer -> M estate unit;
  copy_out : M estate unit;
  repack_submit : M estate unit;
  repack_wait : M estate unit;
  has_repack_submit : bool;
  has_repack_wait : bool;
}.

(** ** The wrapper *)

Record grad_entry := GradEntry {
  ge_name : string;
  ge_parameter : obj;
  ge_view : obj;
  ge_metadata : grad_metadata;
}.

(** The optimizer-gradient window. *)
Record window := Window {
  wi_uses : bool;
  wi_entries : list grad_entry;
  wi_pending : bool;
  wi_accumulate : bool;
}.

Inductive cache_state := EMPTY | READY | POISONED.
#[export] Instance cache_state_eq_dec : EqDecision cache_state.
Proof. solve_decision. Defined.

(** A checkpointed expert output: its tensor and how many rows it has. *)
Record cached_output := CachedOutput { co_obj : obj; co_rows : Z }.

Record checkpoint := Checkpoint {
  ck_state : cache_state;
  ck_error : option string;
  ck_output : option cached_output;
  ck_qlen : Z;
}.

Record pending_forward := PendingForward {
  pf_buffer : buffer;
  pf_save : bool;
  pf_qlen : Z;
}.

Record pending_backward := PendingBackward {
  pb_qlen : Z;
  pb_device : option string;
  pb_authoritative : bool;
}.

(** What [__init__] fixes. *)
Record config := Config {
  cf_lora_rank : Z;
  cf_experts_per_tok : Z;
  cf_chunked_prefill_size : Z;
  cf_max_cache_depth : Z;
}.

Record sft `{Engine} := Sft {
  s_cfg : config;
  s_heap : heap;
  s_shared : option buffer;
  s_next_buffer : Z;
  s_weights_loaded : bool;
  s_lora_initialized : bool;
  s_skip_lora : bool;
  s_has_moe : bool;
  s_window : window;
  s_depth : Z;
  s_ckpt : checkpoint;
  s_forward : option pending_forward;
  s_backward : option pending_backward;
  s_repack : bool;
  s_engine : estate;
}.

Section setters.
Context `{Engine}.
Implicit Types s : sft.

Definition set_heap (h : heap) s : sft :=
  Sft _ (s_cfg s) h (s_shared s) (s_next_buffer s) (s_weights_loaded s) (s_lora_initialized s)
    (s_skip_lora s) (s_has_moe s) (s_window s) (s_depth s) (s_ckpt s) (s_forward s) (s_backward s)
    (s_repack s) (s_engine s).
Definition set_shared (b : option buffer) (n : Z) s : sft :=
  Sft _ (s_cfg s) (s_heap s) b n (s_weights_loaded s) (s_lora_initialized s)
    (s_skip_lora s) (s_has_moe s) (s_window s) (s_depth s) (s_ckpt s) (s_forward s) (s_backward s)
    (s_repack s) (s_engine s).
Definition set_window (w : window) s : sft :=
  Sft _ (s_cfg s) (s_heap s) (s_shared s) (s_next_buffer s) (s_weights_loaded s)
    (s_lora_initialized s) (s_skip_lora s) (s_has_moe s) w (s_depth s) (s_ckpt s) (s_forward s)
    (s_backward s) (s_repack s) (s_engine s).
Definition set_depth (d : Z) s : sft :=
  Sft _ (s_cfg s) (s_heap s) (s_shared s) (s_next_buffer s) (s_weights_loaded s)
    (s_lora_initialized s) (s_skip_lora s) (s_has_moe s) (s_window s) d (s_ckpt s) (s_forward s)
    (s_backward s) (s_repack s) (s_engine s).
Definition set_ckpt (c : checkpoint) s : sft :=
  Sft _ (s_cfg s) (s_heap s) (s_shared s) (s_next_buffer s) (s_weights_loaded s)
    (s_lora_initialized s) (s_skip_lora s) (s_has_moe s) (s_window s) (s_depth s) c (s_forward s)
    (s_backward s) (s_repack s) (s_engine s).
Definition set_forward (f : option pending_forward) s : sft :=
  Sft _ (s_cfg s) (s_heap s) (s_shared s) (s_next_buffer s) (s_weights_loaded s)
    (s_lora_initialized s) (s_skip_lora s) (s_has_moe s) (s_window s) (s_depth s) (s_ckpt s) f
    (s_backward s) (s_repack s) (s_engine s).
Definition set_backward (b : option pending_backward) s : sft :=
  Sft _ (s_cfg s) (s_heap s) (s_shared s) (s_next_buffer s) (s_weights_loaded s)
    (s_lora_initialized s) (s_skip_lora s) (s_has_moe s) (s_window s) (s_depth s) (s_ckpt s)
    (s_forward s) b (s_repack s) (s_engine s).
Definition set_repack (b : bool) s : sft :=
  Sft _ (s_cfg s) (s_heap s) (s_shared s) (s_next_buffer s) (s_weights_loaded s)
    (s_lora_initialized s) (s_skip_lora s) (s_has_moe s) (s_window s) (s_depth s) (s_ckpt s)
    (s_forward s) (s_backward s) b (s_engine s).
Definition set_engine (e : estate) s : sft :=
  Sft _ (s_cfg s) (s_heap s) (s_shared s) (s_next_buffer s) (s_weights_loaded s)
    (s_lora_initialized s) (s_skip_lora s) (s_has_moe s) (s_window s) (s_depth s) (s_ckpt s)
    (s_forward s) (s_backward s) (s_repack s) e.

(** A call on the engine. *)
Definition on_engine {A} (m : M estate A) : M sft A := fun s =>
  let '(e, r) := m (s_engine s) in (set_engine e s, r).
End setters.

(** ** Configuration *)

Definition supports_authoritative_optimizer_grads (method : string) (num_gpu_experts : Z)
    (full_weight_grad : bool) (lora_rank : Z) : bool :=
  if negb (num_gpu_experts =? 0) then false
  else if String.eqb method "AMXBF16_SFT" then true
  else (is_int8_sft_method method || is_fp8_sft_method method || is_rawint4_sft_method method)
       && negb full_weight_grad && (0 <? lora_rank).

Definition validate_sft_config (lora_rank : Z) (lora_alpha lora_dropout : spec_float)
    (max_cache_depth : Z) (full_weight_grad : bool) : res unit :=
  _ ← raise_if (negb full_weight_grad && (lora_rank <=? 0)) ValueError
        "lora_rank must be positive in LoRA mode";
  _ ← raise_if ((0 <? lora_rank) && SFleb lora_alpha float_zero) ValueError
        "lora_alpha must be positive";
  _ ← raise_if (negb (SFleb float_zero lora_dropout && SFltb lora_dropout float_one)) ValueError
        "lora_dropout must be in [0, 1)";
  raise_if (max_cache_depth <=? 0) ValueError "max_cache_depth must be positive".

Section wrapper.
Context `{Engine}.

(** ** The optimizer-gradient window *)

Definition window_of : M sft window := gets s_window.
Definition heap_of : M sft heap := gets s_heap.

(** The tensor that an object is. *)
Definition the_tensor (h : heap) (o : obj) : res tensor :=
  of_option (h !! o) AttributeError "not a tensor".

Definition set_pending (pending accumulate : bool) : M sft unit := modify (fun s =>
  let w := s_window s in
  set_window (Window (wi_uses w) (wi_entries w) pending accumulate) s).

(** [for entry in entries: entry.parameter.grad = value(entry)] *)
Definition write_grads (value : grad_entry -> option obj) : M sft unit := modify (fun s =>
  set_heap (foldl (fun h e => set_grad (value e) h (ge_parameter e)) (s_heap s)
                  (wi_entries (s_window s))) s).

Definition register_authoritative_optimizer_grad (name : string) (parameter grad_view : obj)
    : M sft unit :=
  w ← window_of;
  if negb (wi_uses w) then mret tt
  else
    h ← heap_of;
    p ← lift (of_option (h !! parameter) TypeError "expected nn.Parameter");
    _ ← raise_ifM (negb (tn_is_parameter p)) TypeError "expected nn.Parameter";
    g ← lift (of_option (h !! grad_view) TypeError "expected Tensor grad view");
    let pm := tn_meta p in
    let gm := tn_meta g in
    _ ← raise_ifM (negb (bool_decide (t_shape pm = t_shape gm))) ValueError
          "Parameter/grad shape mismatch";
    _ ← raise_ifM (negb (String.eqb (t_dtype pm) (t_dtype gm)) || negb (same_device pm gm))
          ValueError "Parameter/grad dtype or device mismatch";
    _ ← lift (for_each (wi_entries w) tt (fun _ e =>
          _ ← raise_if (ge_parameter e =? parameter) RuntimeError "Parameter is already registered";
          raise_if (ge_view e =? grad_view) RuntimeError "grad view is already registered"));
    modify (fun s =>
      set_window (Window (wi_uses w)
                    (wi_entries w ++ [GradEntry name parameter grad_view
                                        (authoritative_grad_metadata gm)])
                    (wi_pending w) (wi_accumulate w))
        (set_heap (set_grad None (s_heap s) parameter) s)).

Definition validate_entry_metadata (h : heap) (e : grad_entry) : res unit :=
  p ← the_tensor h (ge_parameter e);
  g ← the_tensor h (ge_view e);
  _ ← raise_if (negb (bool_decide (authoritative_grad_metadata (tn_meta g) = ge_metadata e)))
        RuntimeError "authoritative grad view metadata changed";
  _ ← raise_if (negb (bool_decide (t_shape (tn_meta p) = t_shape (tn_meta g)))
                || negb (String.eqb (t_dtype (tn_meta p)) (t_dtype (tn_meta g)))) RuntimeError
        "Parameter metadata no longer matches its authoritative grad view";
  raise_if (negb (same_device (tn_meta p) (tn_meta g))) RuntimeError
    "Parameter device no longer matches its authoritative grad view".

(** The number of entries whose grad is [None], and whose grad is the view. *)
Definition count_entry (h : heap) (acc : Z * Z) (e : grad_entry) : res (Z * Z) :=
  let '(none_count, alias_count) := acc in
  p ← the_tensor h (ge_parameter e);
  match tn_grad p with
  | None => mret (none_count + 1, alias_count)
  | Some g => if g =? ge_view e then mret (none_count, alias_count + 1)
              else Err (Raise RuntimeError "Parameter.grad was externally replaced")
  end.

Inductive window_state := WEmpty | WClosed | WOpen.
#[export] Instance window_state_eq_dec : EqDecision window_state.
Proof. solve_decision. Defined.

Definition validate_window (w : window) (h : heap) : res window_state :=
  if negb (wi_uses w) || bool_decide (wi_entries w = []) then mret WEmpty
  else
    _ ← for_each (wi_entries w) tt (fun _ e => validate_entry_metadata h e);
    '(none_count, alias_count) ← for_each (wi_entries w) (0, 0) (count_entry h);
    let total := Z.of_nat (length (wi_entries w)) in
    if none_count =? total then mret WClosed
    else if alias_count =? total then mret WOpen
    else Err (Raise RuntimeError "Mixed authoritative optimizer-gradient state").

Definition validate_authoritative_optimizer_grad_state : M sft window_state :=
  gets_res (fun s => validate_window (s_window s) (s_heap s)).

Definition float_is_finite (f : spec_float) : bool :=
  match f with S754_zero _ | S754_finite _ _ _ => true | _ => false end.

(** [not math.isfinite(scale) or scale <= 0.0] *)
Definition bad_scale (scale : spec_float) : bool :=
  negb (float_is_finite scale) || SFleb scale float_zero.

Definition prepare_authoritative_optimizer_grad_write (scale : spec_float) : M sft bool :=
  w ← window_of;
  _ ← raise_ifM (wi_pending w) RuntimeError "a backward submission is already pending";
  _ ← raise_ifM (bad_scale scale) ValueError "optimizer_grad_scale must be finite and positive";
  state ← validate_authoritative_optimizer_grad_state;
  let accumulate := bool_decide (state = WOpen) in
  _ ← set_pending true accumulate;
  mret accumulate.

Definition abort_authoritative_optimizer_grad_write : M sft unit :=
  _ ← write_grads (fun _ => None);
  set_pending false false.

Definition publish_authoritative_optimizer_grads : M sft unit :=
  w ← window_of;
  _ ← raise_ifM (negb (wi_pending w)) RuntimeError "no backward submission is pending";
  let expected_state := if wi_accumulate w then WOpen else WClosed in
  _ ← on_exception
        (state ← validate_authoritative_optimizer_grad_state;
         _ ← raise_ifM (negb (bool_decide (state ∈ [WEmpty; expected_state]))) RuntimeError
               "state changed during C++ backward";
         write_grads (fun e => Some (ge_view e)))
        abort_authoritative_optimizer_grad_write;
  set_pending false false.

Definition release_authoritative_optimizer_grads : M sft unit :=
  w ← window_of;
  if negb (wi_uses w) then mret tt
  else
    _ ← raise_ifM (wi_pending w) RuntimeError "cannot release while C++ backward is pending";
    _ ← validate_authoritative_optimizer_grad_state;
    write_grads (fun _ => None).

(** ** The checkpoint cache *)

Definition poison_checkpoint_output (error : string) : M sft unit :=
  modify (set_ckpt (Checkpoint POISONED (Some error) None 0)).

(** [raise error] after the cache has been poisoned with it. *)
Definition poison_and_raise {A} (cls : exn_class) (msg : string) : M sft A :=
  _ ← poison_checkpoint_output msg; raise cls msg.

Definition validate_checkpoint_output (qlen : Z) : M sft unit :=
  c ← gets s_ckpt;
  _ ← raise_ifM (bool_decide (ck_state c = POISONED)) RuntimeError
        "Checkpoint forward cache is poisoned";
  _ ← raise_ifM (negb (bool_decide (ck_state c = READY)) || bool_decide (ck_output c = None))
        RuntimeError "No cached checkpoint forward output is available.";
  if negb (qlen =? ck_qlen c)
  then poison_and_raise RuntimeError "Cached checkpoint qlen mismatch" else mret tt.

Definition validate_checkpoint_cache_empty : M sft unit :=
  c ← gets s_ckpt;
  _ ← raise_ifM (bool_decide (ck_state c = POISONED)) RuntimeError
        "Checkpoint forward cache is poisoned";
  if negb (bool_decide (ck_state c = EMPTY)) || negb (bool_decide (ck_output c = None))
  then poison_and_raise RuntimeError "Checkpoint forward cache is still live" else mret tt.

(** [try: m  except Exception as exc: self.poison_checkpoint_output(exc); raise] *)
Definition poison_on_error {A} (m : M sft A) : M sft A := fun s =>
  match m s with
  | (s', Ok a) => (s', Ok a)
  | (s', Err e) => (_ ← poison_checkpoint_output (exn_msg e); lift (Err e)) s'
  end.

(** The rows of [output[:qlen]]. *)
Definition sliced_rows (rows qlen : Z) : Z :=
  if qlen <? 0 then Z.max 0 (rows + qlen) else Z.min rows qlen.

Definition cache_checkpoint_output (output_cpu : obj) (device : string) (rows qlen : Z)
    : M sft unit :=
  _ ← poison_on_error (
        c ← gets s_ckpt;
        _ ← (if bool_decide (ck_state c = POISONED) then validate_checkpoint_output qlen
             else mret tt);
        _ ← raise_ifM (negb (bool_decide (ck_state c = EMPTY))) RuntimeError
              "Cannot replace a live checkpoint forward cache";
        _ ← raise_ifM (negb (String.eqb device "cpu")) ValueError
              "checkpoint CPU expert output must reside on CPU";
        raise_ifM (rows <? qlen) ValueError "checkpoint output is shorter than qlen");
  modify (set_ckpt (Checkpoint READY None
                      (Some (CachedOutput output_cpu (sliced_rows rows qlen))) qlen)).

(** The cached output, or its copy on another device. *)
Definition get_checkpoint_output (qlen : Z) (output_device : option string)
    : M sft (cached_output * option string) :=
  _ ← validate_checkpoint_output qlen;
  c ← gets s_ckpt;
  output ← lift (of_option (ck_output c) AssertionError "");
  match output_device with
  | None => mret (output, None)
  | Some dev => poison_on_error (_ ← on_engine copy_out; mret (output, Some dev))
  end.

Definition clear_checkpoint_output : M sft unit := modify (fun s =>
  let c := s_ckpt s in
  if bool_decide (ck_state c = POISONED)
  then set_ckpt (Checkpoint POISONED (ck_error c) None 0) s
  else set_ckpt (Checkpoint EMPTY None None 0) s).

(** ** Buffers and inputs *)

(** [KExpertsSFTBuffer.get_buffer] *)
Definition get_buffer (qlen : Z) : M sft buffer := fun s =>
  let fresh := Buffer (s_next_buffer s) qlen in
  let grown := (set_shared (Some fresh) (s_next_buffer s + 1) s, Ok fresh) in
  match s_shared s with
  | Some buf => if qlen <=? b_qlen buf then (s, Ok buf) else grown
  | None => grown
  end.

Definition clear_cache : M sft unit := modify (fun s => set_shared None (s_next_buffer s) s).

(** The shapes of the three inputs of a forward call. *)
Record forward_inputs := ForwardInputs {
  in_qlen : Z;
  in_ids : Z * Z;
  in_weights : Z * Z;
}.

Definition validate_forward_inputs (x : forward_inputs) : M sft unit :=
  s ← get;
  let cf := s_cfg s in
  _ ← raise_ifM (negb (s_weights_loaded s)) RuntimeError "Weights not loaded";
  _ ← raise_ifM ((0 <? cf_lora_rank cf) && negb (s_lora_initialized s) && negb (s_skip_lora s))
        RuntimeError "LoRA weights not initialized";
  let qlen := in_qlen x in
  _ ← raise_ifM (cf_chunked_prefill_size cf <? qlen) ValueError "qlen exceeds chunked_prefill_size";
  _ ← raise_ifM (negb ((in_ids x).1 =? qlen) || negb ((in_ids x).2 =? cf_experts_per_tok cf))
        ValueError "expert_ids shape";
  raise_ifM (negb ((in_weights x).1 =? qlen) || negb ((in_weights x).2 =? cf_experts_per_tok cf))
    ValueError "weights shape".

Definition wait_backward_repack : M sft unit :=
  s ← get;
  if negb (s_weights_loaded s) || negb (s_has_moe s) then modify (set_repack false)
  else
    _ ← (if has_repack_wait then on_engine repack_wait else mret tt);
    modify (set_repack false).

Definition submit_backward_repack : M sft unit :=
  s ← get;
  if negb (s_weights_loaded s) || negb (s_has_moe s) then mret tt
  else if has_repack_submit then
    _ ← on_engine repack_submit;
    modify (set_repack true)
  else mret tt.

Definition wait_for_pending_backward_repack : M sft unit :=
  s ← get; if s_repack s then wait_backward_repack else mret tt.

(** Building a task, and queueing it. *)
Definition submit_task (t : task) : M sft unit :=
  _ ← on_engine (make_task t); on_engine (submit t).

Definition return_output (buf : buffer) (qlen : Z) (output_device : option string)
    : M sft (buffer * Z * option string) :=
  _ ← on_engine copy_out; mret (buf, qlen, output_device).

(** [_return_grads]: two copies out of the buffer. *)
Definition return_grads (buf : buffer) (qlen : Z) (output_device : option string)
    : M sft (buffer * Z * option string) :=
  _ ← on_engine copy_out; _ ← on_engine copy_out; mret (buf, qlen, output_device).

(** [if save_for_backward and self._cache_depth == 0: self._cache_depth += 1] *)
Definition count_forward (save_for_backward : bool) : M sft unit := modify (fun s =>
  if save_for_backward && (s_depth s =? 0) then set_depth (s_depth s + 1) s else s).

(** ** Forward *)

Definition forward (x : forward_inputs) (save_for_backward : bool) (output_device : option string)
    : M sft (buffer * Z * option string) :=
  _ ← validate_forward_inputs x;
  let qlen := in_qlen x in
  buf ← get_buffer qlen;
  _ ← on_engine (copy_inputs buf);
  _ ← wait_for_pending_backward_repack;
  _ ← submit_task (ForwardTask buf save_for_backward);
  _ ← on_engine sync;
  _ ← count_forward save_for_backward;
  return_output buf qlen output_device.

Definition submit_forward (x : forward_inputs) (save_for_backward : bool) : M sft unit :=
  _ ← validate_forward_inputs x;
  let qlen := in_qlen x in
  buf ← get_buffer qlen;
  _ ← on_engine (copy_inputs buf);
  _ ← modify (set_forward (Some (PendingForward buf save_for_backward qlen)));
  _ ← wait_for_pending_backward_repack;
  submit_task (ForwardTask buf save_for_backward).

Definition sync_forward (output_device : option string) : M sft (buffer * Z * option string) :=
  f ← gets s_forward;
  f ← lift (of_option f RuntimeError "No pending forward");
  _ ← on_engine sync;
  _ ← count_forward (pf_save f);
  _ ← modify (set_forward None);
  return_output (pf_buffer f) (pf_qlen f) output_device.

(** ** Backward *)

(** The checks that open [backward] and [submit_backward_async]. *)
Definition check_backward (scale : spec_float) : M sft unit :=
  s ← get;
  _ ← raise_ifM (s_depth s <=? 0) RuntimeError "No forward cache available";
  _ ← raise_ifM (wi_uses (s_window s) && wi_pending (s_window s)) RuntimeError
        "a backward submission is already pending";
  raise_ifM (bad_scale scale) ValueError "optimizer_grad_scale must be finite and positive".

(** The buffer and the accumulation flag of a backward task. *)
Definition begin_backward (qlen : Z) (scale : spec_float) : M sft (buffer * bool) :=
  buf ← get_buffer qlen;
  _ ← on_engine (copy_grad_output buf);
  w ← window_of;
  accumulate ← (if wi_uses w then prepare_authoritative_optimizer_grad_write scale
                else mret false);
  mret (buf, accumulate).

(** A legacy backend is asked with its default arguments when the scale is 1. *)
Definition backward_task (uses_authoritative : bool) (buf : buffer) (accumulate : bool)
    (scale : spec_float) : task :=
  if uses_authoritative then BackwardTask buf accumulate scale
  else if negb (SFeqb scale float_one) then BackwardTask buf false scale
  else BackwardTask buf false float_one.

(** [self._cache_depth = max(0, self._cache_depth - 1)] *)
Definition drop_forward : M sft unit := modify (fun s => set_depth (Z.max 0 (s_depth s - 1)) s).

Definition backward (qlen : Z) (output_device : option string) (scale : spec_float)
    : M sft (buffer * Z * option string) :=
  _ ← check_backward scale;
  w ← window_of;
  let use_authoritative := wi_uses w in
  '(buf, accumulate) ← begin_backward qlen scale;
  result ← on_exception
    (_ ← on_engine (make_task (backward_task use_authoritative buf accumulate scale));
     _ ← wait_for_pending_backward_repack;
     _ ← on_engine (submit (backward_task use_authoritative buf accumulate scale));
     _ ← on_engine sync;
     result ← return_grads buf qlen output_device;
     _ ← (if use_authoritative then publish_authoritative_optimizer_grads else mret tt);
     mret result)
    (if use_authoritative
     then _ ← abort_authoritative_optimizer_grad_write; drop_forward else mret tt);
  _ ← modify (fun s => set_depth (s_depth s - 1) s);
  mret result.

Definition submit_backward_async (qlen : Z) (output_device : option string) (scale : spec_float)
    : M sft unit :=
  _ ← check_backward scale;
  w ← window_of;
  let use_authoritative := wi_uses w in
  '(buf, accumulate) ← begin_backward qlen scale;
  _ ← on_exception
    (_ ← on_engine (make_task (backward_task use_authoritative buf accumulate scale));
     _ ← wait_for_pending_backward_repack;
     on_engine (submit (backward_task use_authoritative buf accumulate scale)))
    (_ ← (if use_authoritative then
            _ ← catchM (on_engine sync) (fun _ => true) (fun _ => mret tt);
            _ ← abort_authoritative_optimizer_grad_write;
            drop_forward
          else mret tt);
     modify (set_backward None));
  modify (set_backward (Some (PendingBackward qlen output_device use_authoritative))).

Definition sync_backward : M sft (buffer * Z * option string) :=
  b ← gets s_backward;
  b ← lift (of_option b RuntimeError "No pending backward");
  let use_authoritative := pb_authoritative b in
  result ← on_exception
    (_ ← on_engine sync;
     buf ← get_buffer (pb_qlen b);
     result ← return_grads buf (pb_qlen b) (pb_device b);
     _ ← (if use_authoritative then publish_authoritative_optimizer_grads else mret tt);
     mret result)
    (_ ← (if use_authoritative then
            _ ← abort_authoritative_optimizer_grad_write; drop_forward
          else mret tt);
     modify (set_backward None));
  _ ← modify (fun s => set_backward None (set_depth (s_depth s - 1) s));
  mret result.
End wrapper.

(** The calls of a training process on a wrapper, and what the rest of the
    process may do to the tensors in between. *)
Inductive call :=
  | CRegister (name : string) (parameter grad_view : obj)
  | CForward (x : forward_inputs) (save : bool) (dev : option string)
  | CSubmitForward (x : forward_inputs) (save : bool)
  | CSyncForward (dev : option string)
  | CBackward (qlen : Z) (dev : option string) (scale : spec_float)
  | CSubmitBackward (qlen : Z) (dev : option string) (scale : spec_float)
  | CSyncBackward
  | CRelease
  | CCacheOutput (o : obj) (dev : string) (rows qlen : Z)
  | CGetOutput (qlen : Z) (dev : option string)
  | CCheckEmpty
  | CClearOutput
  | CSubmitRepack
  | CWaitRepack
  | COtherBuffer (qlen : Z)
  | COtherHeap (h : heap).

Definition discard {S A} (m : M S A) : M S unit := _ ← m; mret tt.

Definition run_call `{Engine} (c : call) : M sft unit :=
  match c with
  | CRegister name p g => register_authoritative_optimizer_grad name p g
  | CForward x save dev => discard (forward x save dev)
  | CSubmitForward x save => submit_forward x save
  | CSyncForward dev => discard (sync_forward dev)
  | CBackward q dev sc => discard (backward q dev sc)
  | CSubmitBackward q dev sc => submit_backward_async q dev sc
  | CSyncBackward => discard sync_backward
  | CRelease => release_authoritative_optimizer_grads
  | CCacheOutput o dev rows q => cache_checkpoint_output o dev rows q
  | CGetOutput q dev => discard (get_checkpoint_output q dev)
  | CCheckEmpty => validate_checkpoint_cache_empty
  | CClearOutput => clear_checkpoint_output
  | CSubmitRepack => submit_backward_repack
  | CWaitRepack => wait_backward_repack
  | COtherBuffer q => discard (get_buffer q)
  | COtherHeap h => modify (set_heap h)
  end.

(** One call, whether it returns or raises. *)
Inductive step `{Engine} : sft -> sft -> Prop :=
  | step_call c s s' r : run_call c s = (s', r) -> step s s'.

Inductive steps `{Engine} : sft -> sft -> Prop :=
  | steps_refl s : steps s s
  | steps_next s1 s2 s3 : step s1 s2 -> steps s2 s3 -> steps s1 s3.
