(* ===== verification/BaseSpec.v ===== *)
(** * The life cycles of an SFT MoE wrapper

    Theorems on [Base], for every engine: what a backward call leaves in the
    optimizer-gradient window, when gradients are accumulated, the cache-depth
    and checkpoint-cache state machines over all call sequences, and the
    shared buffer. *)
From S2P Require Import Prelude PyStr PyVal Backend Base.

Local Open Scope string_scope.
Local Open Scope list_scope.
Local Open Scope Z_scope.

Section wrapper_lemmas.
Context `{Engine}.

(** ** Calls that leave parts of the state alone *)

Lemma on_engine_keeps {A} (m : M estate A) (I : sft → Prop) :
  (∀ e s, I s → I (set_engine e s)) → keeps I (on_engine m).
Proof.
  intros Hi s s' r Hs. unfold on_engine. destruct (m (s_engine s)) as [e x].
  intros Hx. injection Hx as <- _. by apply Hi.
Qed.

Lemma get_buffer_keeps q (I : sft → Prop) :
  (∀ b n s, I s → I (set_shared b n s)) → keeps I (get_buffer q).
Proof.
  intros Hi s s' r Hs. unfold get_buffer.
  destruct (s_shared s) as [b|]; [destruct (q <=? b_qlen b)|]; intros Hx;
    injection Hx as <- _; auto.
Qed.

(** An invariant that none of the bookkeeping of buffers, engine and repacking
    touches. *)
Record framed (I : sft → Prop) : Prop := {
  fr_engine : ∀ e s, I s → I (set_engine e s);
  fr_shared : ∀ b n s, I s → I (set_shared b n s);
  fr_repack : ∀ b s, I s → I (set_repack b s);
}.

Section framed.
Context (I : sft → Prop) (Hf : framed I).

Lemma keeps_engine {A} (m : M estate A) : keeps I (on_engine m).
Proof. apply on_engine_keeps, Hf. Qed.
Lemma keeps_buffer q : keeps I (get_buffer q).
Proof. apply get_buffer_keeps, Hf. Qed.
Lemma keeps_set_repack b : keeps I (modify (set_repack b)).
Proof. apply keeps_modify, Hf. Qed.

Lemma keeps_wait_repack : keeps I wait_backward_repack.
Proof. unfold wait_backward_repack. keeps; auto using keeps_engine, keeps_set_repack. Qed.
Lemma keeps_submit_repack : keeps I submit_backward_repack.
Proof. unfold submit_backward_repack. keeps; auto using keeps_engine, keeps_set_repack. Qed.
Lemma keeps_wait_pending : keeps I wait_for_pending_backward_repack.
Proof. unfold wait_for_pending_backward_repack. keeps. apply keeps_wait_repack. Qed.
Lemma keeps_submit_task t : keeps I (submit_task t).
Proof. unfold submit_task. keeps; apply keeps_engine. Qed.
Lemma keeps_return_output b q dev : keeps I (return_output b q dev).
Proof. unfold return_output. keeps; apply keeps_engine. Qed.
Lemma keeps_return_grads b q dev : keeps I (return_grads b q dev).
Proof. unfold return_grads. keeps; apply keeps_engine. Qed.
Lemma keeps_validate_inputs x : keeps I (validate_forward_inputs x).
Proof. unfold validate_forward_inputs. keeps. Qed.
Lemma keeps_check_backward sc : keeps I (check_backward sc).
Proof. unfold check_backward. keeps. Qed.
End framed.
End wrapper_lemmas.

(** ** The part of the state that the life cycles are about *)

Record core := Core {
  c_heap : heap;
  c_window : window;
  c_depth : Z;
  c_ckpt : checkpoint;
  c_backward : option pending_backward;
}.

Definition idle (w : window) : window := Window (wi_uses w) (wi_entries w) false false.

Definition write_views (h : heap) (w : window) : heap :=
  foldl (fun h e => set_grad (Some (ge_view e)) h (ge_parameter e)) h (wi_entries w).
Definition clear_grads (h : heap) (w : window) : heap :=
  foldl (fun h e => set_grad None h (ge_parameter e)) h (wi_entries w).

(** The core after a call gave up on a gradient write. *)
Definition given_up (c : core) : core :=
  Core (clear_grads (c_heap c) (c_window c)) (idle (c_window c)) (Z.max 0 (c_depth c - 1)) (c_ckpt c)
       (c_backward c).

Definition drop_pending (c : core) : core :=
  Core (c_heap c) (c_window c) (c_depth c) (c_ckpt c) None.

Section core_lemmas.
Context `{Engine}.

Definition core_of (s : sft) : core :=
  Core (s_heap s) (s_window s) (s_depth s) (s_ckpt s) (s_backward s).

Lemma core_framed c : framed (fun s => core_of s = c).
Proof. by split. Qed.

Lemma keeps_core {A} (m : M sft A) s s' r :
  (∀ c, keeps (fun s => core_of s = c) m) → m s = (s', r) → core_of s' = core_of s.
Proof. intros Hk Hx. by eapply (Hk (core_of s)). Qed.

Lemma clear_grads_clear h w :
  ∀ e t, e ∈ wi_entries w → clear_grads h w !! ge_parameter e = Some t → tn_grad t = None.
Proof.
  unfold clear_grads. generalize (wi_entries w) as es. intros es.
  induction es as [|e0 es IH] using rev_ind; intros e t He Ht; [by apply elem_of_nil in He|].
  rewrite foldl_snoc in Ht. unfold set_grad in Ht.
  destruct (decide (ge_parameter e0 = ge_parameter e)) as [Heq|Hne].
  - rewrite Heq, lookup_alter_eq in Ht. apply fmap_Some in Ht as (t' & _ & ->). done.
  - rewrite lookup_alter_ne in Ht by done.
    apply elem_of_app in He as [He| ->%list_elem_of_singleton]; [|done]. by eapply IH.
Qed.

Lemma write_views_open h w :
  NoDup (ge_parameter <$> wi_entries w) →
  ∀ e t, e ∈ wi_entries w → write_views h w !! ge_parameter e = Some t →
  tn_grad t = Some (ge_view e).
Proof.
  unfold write_views. generalize (wi_entries w) as es. intros es.
  induction es as [|e0 es IH] using rev_ind; intros Hnd e t He Ht; [by apply elem_of_nil in He|].
  rewrite fmap_app in Hnd. apply NoDup_app in Hnd as (Hnd & Hd & _).
  rewrite foldl_snoc in Ht. unfold set_grad in Ht.
  apply elem_of_app in He as [He| ->%list_elem_of_singleton].
  - rewrite lookup_alter_ne in Ht; [by eapply IH|]. intros Heq.
    apply (Hd (ge_parameter e)); [by apply list_elem_of_fmap_2|]. rewrite <-Heq. by left.
  - rewrite lookup_alter_eq in Ht. apply fmap_Some in Ht as (t' & _ & ->). done.
Qed.

Lemma abort_run s : ∃ s', abort_authoritative_optimizer_grad_write s = (s', Ok tt) ∧
  core_of s' = Core (clear_grads (s_heap s) (s_window s)) (idle (s_window s)) (s_depth s) (s_ckpt s)
                    (s_backward s).
Proof. by eexists. Qed.

Lemma give_up_run s : ∃ s',
  (_ ← abort_authoritative_optimizer_grad_write; drop_forward) s = (s', Ok tt) ∧
  core_of s' = given_up (core_of s).
Proof. by eexists. Qed.

Lemma clear_grads_twice h w : clear_grads (clear_grads h w) w = clear_grads h w.
Proof.
  apply map_eq. intros k.
  assert (∀ g es, foldl (fun h e => set_grad None h (ge_parameter e)) g es !! k =
    if bool_decide (k ∈ ge_parameter <$> es)
    then (fun t => Tensor (tn_meta t) (tn_is_parameter t) None) <$> g !! k else g !! k) as Hl.
  { intros g es. induction es as [|e es IH] using rev_ind; [done|].
    rewrite foldl_snoc, fmap_app. unfold set_grad at 1.
    destruct (decide (ge_parameter e = k)) as [<-|Hne].
    - rewrite lookup_alter_eq, IH, (bool_decide_eq_true_2 (_ ∈ _ ++ _)); [|apply elem_of_app; right; left].
      case_bool_decide; [|done]. by destruct (g !! _).
    - rewrite lookup_alter_ne, IH by done.
      assert (bool_decide (k ∈ ge_parameter <$> es)
              = bool_decide (k ∈ (ge_parameter <$> es) ++ (ge_parameter <$> [e]))) as <-; [|done].
      apply bool_decide_ext. rewrite elem_of_app.
      split; [by left|]. intros [?|[e' [? ?%list_elem_of_singleton]]%list_elem_of_fmap]; [done|by subst]. }
  unfold clear_grads. rewrite !Hl. case_bool_decide; [|done]. by destruct (h !! k).
Qed.

Lemma given_up_cleared h w d c b :
  given_up (Core (clear_grads h w) (idle w) d c b) = given_up (Core h w d c b).
Proof.
  unfold given_up. cbn [c_heap c_window c_depth c_ckpt c_backward].
  change (clear_grads (clear_grads h w) (idle w)) with (clear_grads (clear_grads h w) w).
  by rewrite clear_grads_twice.
Qed.

(** Publishing the gradients of a pending submission. *)
Lemma publish_spec s s' r :
  wi_pending (s_window s) = true → publish_authoritative_optimizer_grads s = (s', r) →
  core_of s' = match r with
    | Ok _ => Core (write_views (s_heap s) (s_window s)) (idle (s_window s)) (s_depth s) (s_ckpt s)
                   (s_backward s)
    | Err _ => Core (clear_grads (s_heap s) (s_window s)) (idle (s_window s)) (s_depth s) (s_ckpt s)
                    (s_backward s)
    end.
Proof.
  intros Hp Hx. unfold publish_authoritative_optimizer_grads, window_of in Hx.
  rewrite bindM_gets, bindM_raise_if, Hp in Hx. simpl in Hx.
  apply bindM_inv in Hx as [(s1 & [] & H1 & Hx)|(e & H1 & ->)].
  - injection Hx as <- <-. unfold on_exception in H1.
    unfold validate_authoritative_optimizer_grad_state in H1. rewrite bindM_gets_res in H1.
    destruct (validate_window _ _) as [st|e] eqn:Hv.
    + rewrite bindM_raise_if in H1.
      destruct (negb _); [|by injection H1 as <-].
      by destruct (abort_authoritative_optimizer_grad_write s) as [? [|]].
    + by destruct (abort_authoritative_optimizer_grad_write s) as [? [|]].
  - unfold on_exception, validate_authoritative_optimizer_grad_state in H1.
    rewrite bindM_gets_res in H1. destruct (validate_window _ _) as [st|e'] eqn:Hv.
    + rewrite bindM_raise_if in H1. destruct (negb _); [|done]. by injection H1 as <- _.
    + by injection H1 as <- _.
Qed.

Lemma prepare_spec sc s s' r :
  prepare_authoritative_optimizer_grad_write sc s = (s', r) →
  match r with
  | Ok acc => wi_pending (s_window s) = false ∧ bad_scale sc = false ∧
      (∃ st, validate_window (s_window s) (s_heap s) = Ok st ∧ acc = bool_decide (st = WOpen)) ∧
      core_of s' = Core (s_heap s) (Window (wi_uses (s_window s)) (wi_entries (s_window s)) true acc)
                        (s_depth s) (s_ckpt s) (s_backward s)
  | Err _ => s' = s
  end.
Proof.
  intros Hx. unfold prepare_authoritative_optimizer_grad_write, window_of,
    validate_authoritative_optimizer_grad_state in Hx.
  rewrite bindM_gets, bindM_raise_if in Hx.
  destruct (wi_pending (s_window s)) eqn:Hp; [by injection Hx as <- <-|].
  rewrite bindM_raise_if in Hx. destruct (bad_scale sc); [by injection Hx as <- <-|].
  rewrite bindM_gets_res in Hx.
  destruct (validate_window _ _) as [st|e] eqn:Hv; [|by injection Hx as <- <-].
  cbv zeta in Hx. unfold set_pending in Hx. rewrite bindM_modify in Hx.
  injection Hx as <- <-. split_and!; try done. by exists st.
Qed.

Lemma begin_backward_spec q sc s s' r :
  begin_backward q sc s = (s', r) →
  match r with
  | Ok (buf, acc) =>
      if wi_uses (s_window s) then
        wi_pending (s_window s) = false ∧
        (∃ st, validate_window (s_window s) (s_heap s) = Ok st ∧ acc = bool_decide (st = WOpen)) ∧
        core_of s' = Core (s_heap s) (Window true (wi_entries (s_window s)) true acc)
                          (s_depth s) (s_ckpt s) (s_backward s)
      else acc = false ∧ core_of s' = core_of s
  | Err _ => core_of s' = core_of s
  end.
Proof.
  intros Hx. unfold begin_backward in Hx.
  apply bindM_inv in Hx as [(s1 & buf & H1 & Hx)|(e & H1 & ->)];
    apply keeps_core in H1 as Hc1; try (intros c; apply keeps_buffer, core_framed); [|done].
  apply bindM_inv in Hx as [(s2 & [] & H2 & Hx)|(e & H2 & ->)];
    apply keeps_core in H2 as Hc2; try (intros c; apply keeps_engine, core_framed);
    [|by rewrite Hc2].
  unfold window_of in Hx. rewrite bindM_gets in Hx.
  assert (core_of s2 = core_of s) as Hc by (by rewrite Hc2).
  assert (s_window s2 = s_window s ∧ s_heap s2 = s_heap s ∧ s_depth s2 = s_depth s ∧
          s_ckpt s2 = s_ckpt s ∧ s_backward s2 = s_backward s) as (Ew & Eh & Ed & Ec & Eb)
    by (unfold core_of in Hc; by injection Hc).
  rewrite Ew in Hx. destruct (wi_uses (s_window s)) eqn:Hu.
  - apply bindM_inv in Hx as [(s3 & acc & H3 & Hx)|(e & H3 & ->)]; apply prepare_spec in H3.
    + injection Hx as <- <-. rewrite Ew, Eh, Ed, Ec, Eb, Hu in H3. naive_solver.
    + by subst.
  - injection Hx as <- <-. done.
Qed.
Lemma check_backward_spec sc s s' r :
  check_backward sc s = (s', r) →
  s' = s ∧ (r = Ok tt → 0 < s_depth s ∧ bad_scale sc = false ∧
            (wi_uses (s_window s) = true → wi_pending (s_window s) = false)).
Proof.
  unfold check_backward. intros Hx. unfold get in Hx.
  change (((s0 ← gets id; _ ← raise_ifM (s_depth s0 <=? 0) RuntimeError "No forward cache available";
    _ ← raise_ifM (wi_uses (s_window s0) && wi_pending (s_window s0)) RuntimeError
        "a backward submission is already pending";
    raise_ifM (bad_scale sc) ValueError "optimizer_grad_scale must be finite and positive")
    : M sft unit) s = (s', r)) in Hx.
  rewrite bindM_gets, bindM_raise_if in Hx. unfold id in Hx.
  destruct (s_depth s <=? 0) eqn:E1; [injection Hx as <- <-; by split|].
  rewrite bindM_raise_if in Hx.
  destruct (wi_uses _ && wi_pending _) eqn:E2; [injection Hx as <- <-; by split|].
  unfold raise_ifM, lift in Hx. destruct (bad_scale sc); injection Hx as <- <-; split; try done.
  intros _. apply Z.leb_gt in E1. split_and!; [done..|]. intros Hu. by rewrite Hu in E2.
Qed.

(** The statements of a backward call that come before the gradients are
    published: they move data, not the wrapper's state. *)
Lemma with_publish_spec {A} (m : M sft A) (h : M sft unit) (K : core → core) s s' r :
  (∀ c, keeps (fun s => core_of s = c) m) → wi_pending (s_window s) = true →
  (∀ st, ∃ st', h st = (st', Ok tt) ∧ core_of st' = K (given_up (core_of st))) →
  on_exception (x ← m; _ ← publish_authoritative_optimizer_grads; mret x) h s = (s', r) →
  core_of s' = match r with
    | Ok _ => Core (write_views (s_heap s) (s_window s)) (idle (s_window s)) (s_depth s) (s_ckpt s)
                   (s_backward s)
    | Err _ => K (given_up (core_of s))
    end.
Proof.
  intros Hk Hp Hh. unfold on_exception.
  destruct ((x ← m; _ ← publish_authoritative_optimizer_grads; mret x) s) as [s1 [a|e]] eqn:Hb.
  - intros Hx. injection Hx as <- <-.
    apply bindM_ok in Hb as (s2 & x & Hm & Hb). apply bindM_ok in Hb as (s3 & [] & Hpub & Hb).
    injection Hb as <- _. apply keeps_core in Hm; [|done].
    unfold core_of in Hm. injection Hm as Eh Ew Ed Ec Eb.
    apply publish_spec in Hpub; [|by rewrite Ew]. by rewrite Hpub, Eh, Ew, Ed, Ec, Eb.
  - destruct (Hh s1) as (s2 & Hg & Hc). rewrite Hg. intros Hx. injection Hx as <- <-.
    rewrite Hc. f_equal. apply bindM_inv in Hb as [(s3 & x & Hm & Hb)|(e' & Hm & _)].
    + apply keeps_core in Hm; [|done]. unfold core_of in Hm. injection Hm as Eh Ew Ed Ec Eb.
      apply bindM_inv in Hb as [(s4 & [] & _ & Hb)|(e' & Hpub & _)]; [discriminate Hb|].
      apply publish_spec in Hpub; [|by rewrite Ew]. rewrite Hpub, Eh, Ew, Ed, Ec, Eb.
      apply given_up_cleared.
    + apply keeps_core in Hm; [|done]. by rewrite Hm.
Qed.

Lemma on_exception_ext {A} (m m' : M sft A) h s :
  (∀ s, m s = m' s) → on_exception m h s = on_exception m' h s.
Proof. intros He. unfold on_exception. by rewrite He. Qed.

(** What a call to [backward] with authoritative gradients leaves. *)
Lemma backward_core q dev sc s s' r :
  wi_uses (s_window s) = true → backward q dev sc s = (s', r) →
  match r with
  | Ok _ => 0 < s_depth s ∧ wi_pending (s_window s) = false ∧ bad_scale sc = false ∧
            core_of s' = Core (write_views (s_heap s) (s_window s)) (idle (s_window s)) (s_depth s - 1)
                              (s_ckpt s) (s_backward s)
  | Err _ => core_of s' = core_of s ∨
             core_of s' = given_up (core_of s) ∧ 0 < s_depth s ∧ wi_pending (s_window s) = false
  end.
Proof.
  intros Hu Hx. unfold backward in Hx.
  apply bindM_inv in Hx as [(s0 & [] & Hc & Hx)|(e & Hc & ->)];
    apply check_backward_spec in Hc as [-> Hc]; [|by left].
  destruct (Hc eq_refl) as (Hd & Hsc & Hp). specialize (Hp Hu).
  unfold window_of in Hx. rewrite bindM_gets in Hx. rewrite Hu in Hx. cbv zeta in Hx.
  apply bindM_inv in Hx as [(s1 & [buf acc] & Hb & Hx)|(e & Hb & ->)];
    apply begin_backward_spec in Hb; [|by left].
  rewrite Hu in Hb. destruct Hb as (_ & _ & Hb).
  assert (s_heap s1 = s_heap s ∧ s_window s1 = Window true (wi_entries (s_window s)) true acc ∧
          s_depth s1 = s_depth s ∧ s_ckpt s1 = s_ckpt s ∧ s_backward s1 = s_backward s)
    as (Eh & Ew & Ed & Ec & Eb) by (unfold core_of in Hb; by injection Hb).
  assert (idle (s_window s1) = idle (s_window s)) as Hi by (rewrite Ew; unfold idle; by rewrite Hu).
  set (m := (_ ← on_engine (make_task (backward_task true buf acc sc));
     _ ← wait_for_pending_backward_repack;
     _ ← on_engine (submit (backward_task true buf acc sc));
     _ ← on_engine sync; return_grads buf q dev) : M sft _).
  assert (∀ c, keeps (fun s => core_of s = c) m) as Hm.
  { intros c. unfold m. pose proof (core_framed c).
    keeps; auto using keeps_engine, keeps_wait_pending, keeps_return_grads. }
  assert (∀ st, (_ ← on_engine (make_task (backward_task true buf acc sc));
     _ ← wait_for_pending_backward_repack;
     _ ← on_engine (submit (backward_task true buf acc sc)); _ ← on_engine sync;
     result ← return_grads buf q dev; _ ← publish_authoritative_optimizer_grads; mret result) st
     = (x ← m; _ ← publish_authoritative_optimizer_grads; mret x) st) as Hassoc.
  { intros st. unfold m, mbind, M_bind. repeat case_match; congruence. }
  apply bindM_inv in Hx as [(s2 & x & H2 & Hx)|(e & H2 & ->)];
    rewrite (on_exception_ext _ _ _ _ Hassoc) in H2;
    (apply (with_publish_spec _ _ id) in H2; [|done|by rewrite Ew|apply give_up_run]).
  - rewrite bindM_modify in Hx. injection Hx as <- <-. split_and!; [done..|].
    unfold core_of in *. cbn [s_heap s_window s_depth s_ckpt s_backward set_depth].
    injection H2 as -> -> -> -> ->. by rewrite Hi, Eh, Ew, Ed, Ec, Eb.
  - right. split_and!; [|done..]. rewrite H2. unfold given_up, core_of.
    cbn [c_heap c_window c_depth c_ckpt c_backward]. by rewrite Hi, Eh, Ew, Ed, Ec, Eb.
Qed.
(** The same for a submission without waiting, which leaves the write pending. *)
Lemma submit_backward_core q dev sc s s' r :
  wi_uses (s_window s) = true → submit_backward_async q dev sc s = (s', r) →
  match r with
  | Ok _ => 0 < s_depth s ∧ wi_pending (s_window s) = false ∧
            ∃ acc, core_of s' = Core (s_heap s) (Window true (wi_entries (s_window s)) true acc)
                                     (s_depth s) (s_ckpt s) (Some (PendingBackward q dev true))
  | Err _ => core_of s' = core_of s ∨
             wi_pending (s_window s) = false ∧ 0 < s_depth s ∧
             core_of s' = given_up (Core (s_heap s) (s_window s) (s_depth s) (s_ckpt s) None)
  end.
Proof.
  intros Hu Hx. unfold submit_backward_async in Hx.
  apply bindM_inv in Hx as [(s0 & [] & Hc & Hx)|(e & Hc & ->)];
    apply check_backward_spec in Hc as [-> Hc]; [|by left].
  destruct (Hc eq_refl) as (Hd & Hsc & Hp). specialize (Hp Hu).
  unfold window_of in Hx. rewrite bindM_gets in Hx. rewrite Hu in Hx. cbv zeta in Hx.
  apply bindM_inv in Hx as [(s1 & [buf acc] & Hb & Hx)|(e & Hb & ->)];
    apply begin_backward_spec in Hb; [|by left].
  rewrite Hu in Hb. destruct Hb as (_ & _ & Hb).
  set (m := (_ ← on_engine (make_task (backward_task true buf acc sc));
     _ ← wait_for_pending_backward_repack;
     on_engine (submit (backward_task true buf acc sc))) : M sft _) in Hx.
  assert (∀ c, keeps (fun s => core_of s = c) m) as Hm.
  { intros c. unfold m. pose proof (core_framed c).
    keeps; auto using keeps_engine, keeps_wait_pending. }
  unfold mbind at 1, M_bind at 1 in Hx. unfold on_exception in Hx.
  destruct (m s1) as [s2 [x|e]] eqn:Em; apply keeps_core in Em; try done.
  - injection Hx as <- <-. split_and!; [done..|]. exists acc.
    assert (core_of s2 = core_of s1) as E by done. rewrite Hb in E. unfold core_of in *.
    cbn [s_heap s_window s_depth s_ckpt s_backward set_backward].
    by injection E as -> -> -> -> _.
  - set (drain := catchM (on_engine sync) (fun _ => true) (fun _ => mret tt) : M sft unit) in Hx.
    assert (∀ c, keeps (fun s => core_of s = c) drain) as Hk.
    { intros c. unfold drain. keeps. apply keeps_engine, core_framed. }
    assert (∃ s3, drain s2 = (s3, Ok tt)) as [s3 E3].
    { unfold drain, catchM, mret, M_ret. destruct (on_engine sync s2) as [s3 [[]|]]; by eexists. }
    apply keeps_core in E3 as Hc3; [|done]. clearbody drain m.
    assert ((_ ← (_ ← drain; _ ← abort_authoritative_optimizer_grad_write; drop_forward);
             modify (set_backward None)) s2
            = (_ ← abort_authoritative_optimizer_grad_write;
               _ ← drop_forward; modify (set_backward None)) s3) as Eh.
    { unfold mbind, M_bind. rewrite E3. repeat case_match; congruence. }
    rewrite Eh in Hx. injection Hx as <- <-. right. split_and!; [done..|].
    assert (core_of s3 = core_of s1) as E by congruence. rewrite Hb in E.
    unfold core_of in E. injection E as E1 E2 E4 E5 _.
    change (Core (clear_grads (s_heap s3) (s_window s3)) (idle (s_window s3))
              (Z.max 0 (s_depth s3 - 1)) (s_ckpt s3) None
            = given_up (Core (s_heap s) (s_window s) (s_depth s) (s_ckpt s) None)).
    rewrite E1, E2, E4, E5. unfold given_up, idle. simpl. by rewrite Hu.
Qed.

Lemma sync_backward_core s s' r :
  wi_pending (s_window s) = true →
  (∀ pb, s_backward s = Some pb → pb_authoritative pb = true) →
  sync_backward s = (s', r) →
  match s_backward s with
  | None => s' = s
  | Some _ =>
      core_of s' = match r with
        | Ok _ => Core (write_views (s_heap s) (s_window s)) (idle (s_window s)) (s_depth s - 1)
                       (s_ckpt s) None
        | Err _ => given_up (Core (s_heap s) (s_window s) (s_depth s) (s_ckpt s) None)
        end
  end.
Proof.
  intros Hp Ha Hx. unfold sync_backward in Hx. rewrite bindM_gets in Hx.
  destruct (s_backward s) as [pb|] eqn:Eb; [|by injection Hx as <- _].
  specialize (Ha pb eq_refl). simpl in Hx. rewrite bindM_lift in Hx. cbv zeta in Hx. rewrite Ha in Hx.
  set (m := (_ ← on_engine sync; buf ← get_buffer (pb_qlen pb);
             return_grads buf (pb_qlen pb) (pb_device pb)) : M sft _).
  assert (∀ c, keeps (fun s => core_of s = c) m) as Hm.
  { intros c. unfold m. pose proof (core_framed c).
    keeps; auto using keeps_engine, keeps_buffer, keeps_return_grads. }
  assert (∀ st, (_ ← on_engine sync; buf ← get_buffer (pb_qlen pb);
     result ← return_grads buf (pb_qlen pb) (pb_device pb);
     _ ← publish_authoritative_optimizer_grads; mret result) st
     = (x ← m; _ ← publish_authoritative_optimizer_grads; mret x) st) as Hassoc.
  { intros st. unfold m, mbind, M_bind. repeat case_match; congruence. }
  apply bindM_inv in Hx as [(s2 & x & H2 & Hx)|(e & H2 & ->)];
    rewrite (on_exception_ext _ _ _ _ Hassoc) in H2;
    (apply (with_publish_spec _ _ drop_pending) in H2; [|done|done|by eexists]).
  - rewrite bindM_modify in Hx. injection Hx as <- <-. unfold core_of in *.
    cbn [s_heap s_window s_depth s_ckpt s_backward set_depth set_backward].
    by injection H2 as -> -> -> -> _.
  - done.
Qed.
(** ** Invariants over all sequences of calls *)

(** With authoritative gradients: at most one forward is waiting for its
    backward, a submission is pending exactly when a write is, and then the
    forward it belongs to is still counted. *)
Definition coherent (c : core) : Prop :=
  wi_uses (c_window c) = true →
  (c_depth c = 0 ∨ c_depth c = 1) ∧
  (wi_pending (c_window c) = true ↔ is_Some (c_backward c)) ∧
  (wi_pending (c_window c) = true → c_depth c = 1) ∧
  (∀ pb, c_backward c = Some pb → pb_authoritative pb = true).

Lemma steps_keep (I : sft → Prop) s s' :
  (∀ c, keeps I (run_call c)) → steps s s' → I s → I s'.
Proof.
  intros Hk. induction 1 as [|s1 s2 s3 Hs _ IH]; [done|]. intros H1. apply IH.
  destruct Hs as [c s1 s2 r Hx]. by eapply Hk.
Qed.

Lemma keeps_discard {A} (I : sft → Prop) (m : M sft A) : keeps I m → keeps I (discard m).
Proof. intros Hm. unfold discard. keeps. done. Qed.

Lemma release_run s s' r :
  release_authoritative_optimizer_grads s = (s', r) →
  (r = Ok tt ∧ wi_uses (s_window s) = true ∧ wi_pending (s_window s) = false ∧
   s' = set_heap (clear_grads (s_heap s) (s_window s)) s) ∨
  s' = s ∧ (r = Ok tt → wi_uses (s_window s) = false).
Proof.
  unfold release_authoritative_optimizer_grads, window_of,
    validate_authoritative_optimizer_grad_state. rewrite bindM_gets.
  destruct (wi_uses _) eqn:Hu; [|intros Hx; injection Hx as <- <-; by right].
  cbn [negb]. rewrite bindM_raise_if.
  destruct (wi_pending _); [intros Hx; injection Hx as <- <-; by right|].
  rewrite bindM_gets_res. destruct (validate_window _ _); intros Hx; injection Hx as <- <-;
    [by left|by right].
Qed.

(** An invariant about the registered entries or the checkpoint cache: no
    forward or backward call touches it. *)
Record quiet (I : sft → Prop) : Prop := {
  qu_framed : framed I;
  qu_heap : ∀ h s, I s → I (set_heap h s);
  qu_depth : ∀ d s, I s → I (set_depth d s);
  qu_forward : ∀ f s, I s → I (set_forward f s);
  qu_backward : ∀ b s, I s → I (set_backward b s);
  qu_pending : ∀ p a s, I s →
    I (set_window (Window (wi_uses (s_window s)) (wi_entries (s_window s)) p a) s);
}.

(** The calls on the registered entries and on the checkpoint cache. *)
Definition special_call (c : call) : bool :=
  match c with
  | CRegister _ _ _ | CCacheOutput _ _ _ _ | CGetOutput _ _ | CCheckEmpty | CClearOutput => true
  | _ => false
  end.

Section quiet.
Context (I : sft → Prop) (Hq : quiet I).

Lemma quiet_write f : keeps I (write_grads f).
Proof. apply keeps_modify. intros s. apply Hq. Qed.
Lemma quiet_set_pending p a : keeps I (set_pending p a).
Proof. apply keeps_modify. intros s. apply Hq. Qed.
Lemma quiet_drop : keeps I drop_forward.
Proof. apply keeps_modify. intros s. apply Hq. Qed.
Lemma quiet_count save : keeps I (count_forward save).
Proof. apply keeps_modify. intros s Hs. destruct (save && _); [by apply Hq|done]. Qed.
Lemma quiet_set_backward b : keeps I (modify (set_backward b)).
Proof. apply keeps_modify. intros s. apply Hq. Qed.
Lemma quiet_set_forward f : keeps I (modify (set_forward f)).
Proof. apply keeps_modify. intros s. apply Hq. Qed.
Lemma quiet_finish : keeps I (modify (fun s => set_backward None (set_depth (s_depth s - 1) s))).
Proof. apply keeps_modify. intros s Hs. by apply Hq, Hq. Qed.
Lemma quiet_pop : keeps I (modify (fun s => set_depth (s_depth s - 1) s)).
Proof. apply keeps_modify. intros s. apply Hq. Qed.
Lemma quiet_abort : keeps I abort_authoritative_optimizer_grad_write.
Proof.
  unfold abort_authoritative_optimizer_grad_write. keeps; [apply quiet_write|apply quiet_set_pending].
Qed.
Lemma quiet_publish : keeps I publish_authoritative_optimizer_grads.
Proof.
  unfold publish_authoritative_optimizer_grads, window_of, validate_authoritative_optimizer_grad_state.
  keeps; auto using quiet_write, quiet_set_pending, quiet_abort.
Qed.
Lemma quiet_begin q sc : keeps I (begin_backward q sc).
Proof.
  pose proof (qu_framed I Hq). unfold begin_backward, prepare_authoritative_optimizer_grad_write,
    window_of, validate_authoritative_optimizer_grad_state.
  keeps; auto using keeps_buffer, keeps_engine, quiet_set_pending.
Qed.

Lemma quiet_call c : special_call c = false → keeps I (run_call c).
Proof.
  pose proof (qu_framed I Hq) as Hf.
  intros Hc. destruct c; try discriminate Hc; simpl; unfold discard, forward, submit_forward,
    sync_forward, backward, submit_backward_async, sync_backward,
    release_authoritative_optimizer_grads, window_of, validate_authoritative_optimizer_grad_state;
    keeps; auto using keeps_validate_inputs, keeps_buffer, keeps_engine, keeps_wait_pending,
      keeps_submit_task, keeps_return_output, keeps_return_grads, keeps_check_backward,
      keeps_submit_repack, keeps_wait_repack, quiet_write, quiet_drop, quiet_count, quiet_set_backward,
      quiet_set_forward, quiet_finish, quiet_pop, quiet_abort, quiet_publish, quiet_begin.
  apply keeps_modify. intros s. apply Hq.
Qed.
End quiet.

Lemma entries_quiet (P : bool → list grad_entry → Prop) :
  quiet (fun s => P (wi_uses (s_window s)) (wi_entries (s_window s))).
Proof. by repeat split. Qed.

Lemma ckpt_quiet (P : checkpoint → Prop) : quiet (fun s => P (s_ckpt s)).
Proof. by repeat split. Qed.

(** The checkpoint operations write nothing but the cache. *)
Section ckpt_only.
Context (I : sft → Prop) (Hf : framed I).
Context (Hp : ∀ msg s, I s → I (set_ckpt (Checkpoint POISONED (Some msg) None 0) s)).

Lemma keeps_poison msg : keeps I (poison_checkpoint_output msg).
Proof. apply keeps_modify. auto. Qed.
Lemma keeps_poison_and_raise {A} cls msg : keeps I (poison_and_raise (A := A) cls msg).
Proof. unfold poison_and_raise. keeps. apply keeps_poison. Qed.
Lemma keeps_poison_on_error {A} (m : M sft A) : keeps I m → keeps I (poison_on_error m).
Proof.
  intros Hm s s' r Hs. unfold poison_on_error. destruct (m s) as [s1 [a|e]] eqn:E; intros Hx;
    injection Hx as <- _; [by eapply Hm|]. apply Hp. by eapply Hm.
Qed.
Lemma keeps_validate_output q : keeps I (validate_checkpoint_output q).
Proof. unfold validate_checkpoint_output. keeps; apply keeps_poison_and_raise. Qed.
Lemma keeps_get_output q dev : keeps I (get_checkpoint_output q dev).
Proof.
  unfold get_checkpoint_output. keeps; [apply keeps_validate_output|].
  apply keeps_poison_on_error. keeps. by apply keeps_engine.
Qed.
Lemma keeps_check_empty : keeps I validate_checkpoint_cache_empty.
Proof. unfold validate_checkpoint_cache_empty. keeps; apply keeps_poison_and_raise. Qed.
End ckpt_only.

(** The cache holds an output exactly when it is ready, with the rows asked for. *)
Definition cache_ok (c : checkpoint) : Prop :=
  match ck_state c with
  | READY => ∃ o, ck_output c = Some o ∧ (0 ≤ ck_qlen c → co_rows o = ck_qlen c)
  | _ => ck_output c = None
  end.

Lemma cache_output_run o dev rows q s s' r :
  cache_checkpoint_output o dev rows q s = (s', r) →
  (r = Ok tt ∧ ck_state (s_ckpt s) = EMPTY ∧ q ≤ rows ∧
   s' = set_ckpt (Checkpoint READY None (Some (CachedOutput o (sliced_rows rows q))) q) s) ∨
  (∃ msg, s' = set_ckpt (Checkpoint POISONED (Some msg) None 0) s ∧ r ≠ Ok tt).
Proof.
  unfold cache_checkpoint_output, poison_on_error, mbind at 1, M_bind at 1. rewrite bindM_gets.
  destruct (ck_state (s_ckpt s)) eqn:Ec; cbn [bool_decide decide_rel].
  - change (bool_decide (EMPTY = POISONED)) with false. cbv iota.
    rewrite (bindM_run _ _ _ s tt eq_refl), bindM_raise_if.
    change (bool_decide (EMPTY = EMPTY)) with true. cbn [negb]. rewrite bindM_raise_if.
    destruct (negb _); [intros Hx; injection Hx as <- <-; right; by eexists|].
    unfold raise_ifM, lift. destruct (rows <? q) eqn:Er; intros Hx; injection Hx as <- <-.
    + right. by eexists.
    + left. apply Z.ltb_ge in Er. done.
  - intros Hx. injection Hx as <- <-. right. by eexists.
  - unfold validate_checkpoint_output. change (bool_decide (POISONED = POISONED)) with true. cbv iota.
    unfold mbind, M_bind, gets at 1, raise_ifM, lift. rewrite Ec.
    change (bool_decide (POISONED = POISONED)) with true.
    intros Hx. injection Hx as <- <-. right. by eexists.
Qed.

Lemma register_run name p g s s' r :
  register_authoritative_optimizer_grad name p g s = (s', r) →
  s' = s ∨
  (∃ m, wi_uses (s_window s) = true ∧
        p ∉ (ge_parameter <$> wi_entries (s_window s)) ∧ g ∉ (ge_view <$> wi_entries (s_window s)) ∧
        s' = set_window (Window (wi_uses (s_window s))
               (wi_entries (s_window s) ++ [GradEntry name p g m])
               (wi_pending (s_window s)) (wi_accumulate (s_window s)))
             (set_heap (set_grad None (s_heap s) p) s)).
Proof.
  unfold register_authoritative_optimizer_grad, window_of, heap_of. rewrite bindM_gets.
  destruct (wi_uses (s_window s)) eqn:Hu; [|intros Hx; injection Hx as <- _; by left].
  cbn [negb]. rewrite bindM_gets, bindM_lift.
  destruct (of_option _ _ _) as [pt|]; [|intros Hx; injection Hx as <- _; by left].
  rewrite bindM_raise_if. destruct (negb _); [intros Hx; injection Hx as <- _; by left|].
  rewrite bindM_lift. destruct (of_option _ _ _) as [gt|]; [|intros Hx; injection Hx as <- _; by left].
  cbv zeta. rewrite bindM_raise_if. destruct (negb _); [intros Hx; injection Hx as <- _; by left|].
  rewrite bindM_raise_if. destruct (_ || _); [intros Hx; injection Hx as <- _; by left|].
  rewrite bindM_lift. destruct (for_each _ _ _) as [u|] eqn:Hf; intros Hx; injection Hx as <- _;
    [right|by left]. eexists. split_and!; [done| | |done].
  - intros [e [-> He]]%list_elem_of_fmap. apply for_each_unit, Forall_forall with (x := e) in Hf as H1; [|done].
    inv_ok. bools. congruence.
  - intros [e [-> He]]%list_elem_of_fmap. apply for_each_unit, Forall_forall with (x := e) in Hf as H1; [|done].
    inv_ok. bools. congruence.
Qed.

Section coherent.
Let J (s : sft) := coherent (core_of s).

Lemma coherent_framed : framed J.
Proof. by split. Qed.

Lemma coherent_ckpt c : keeps J (modify (set_ckpt c)).
Proof. apply keeps_modify. done. Qed.

Lemma keeps_count_forward save : keeps J (count_forward save).
Proof.
  apply keeps_modify. intros s Hs. destruct (save && (s_depth s =? 0)) eqn:E; [|done].
  apply andb_true_iff in E as [_ E%Z.eqb_eq]. intros Hu. destruct (Hs Hu) as (_ & Hp & Hd & Ha).
  simpl in *. rewrite E. split_and!; [by right|done|done|done].
Qed.

Lemma coherent_idle h w d ck b :
  coherent (Core h w d ck b) → b = None → wi_uses w = true →
  ∀ h' d' ck', d' = Z.max 0 (d - 1) ∨ d' = d - 1 ∧ 0 < d → coherent (Core h' (idle w) d' ck' None).
Proof.
  intros Hc -> Hu h' d' ck' Hd _. destruct (Hc Hu) as (H1 & _). simpl in *.
  split_and!; [lia|by split; [|intros []]|done|done].
Qed.

(** Without authoritative gradients there is nothing to show. *)
Lemma coherent_by_uses c :
  special_call c = false →
  (∀ s s' r, wi_uses (s_window s) = true → J s → run_call c s = (s', r) → J s') →
  keeps J (run_call c).
Proof.
  intros Hc Hm s s' r Hs Hx. destruct (wi_uses (s_window s)) eqn:Hu; [by eapply Hm|].
  intros Hu'. pose proof (quiet_call _ (entries_quiet (fun b _ => b = false)) c Hc s s' r Hu Hx) as Hf.
  simpl in *. congruence.
Qed.

Lemma discard_inv {A} (m : M sft A) s s' r : discard m s = (s', r) → ∃ r0, m s = (s', r0).
Proof.
  unfold discard, mbind, M_bind. destruct (m s) as [s1 [a|e]]; intros Hx; injection Hx as <- _;
    by eexists.
Qed.

Lemma coherent_not_pending s :
  J s → wi_uses (s_window s) = true → wi_pending (s_window s) = false → s_backward s = None.
Proof.
  intros Hs Hu E. destruct (Hs Hu) as (_ & Hp & _). simpl in Hp. rewrite E in Hp.
  destruct (s_backward s); [|done]. destruct Hp as [_ Hp]. discriminate Hp. by eexists.
Qed.

Lemma coherent_backward q dev sc : keeps J (run_call (CBackward q dev sc)).
Proof.
  apply coherent_by_uses; [done|]. intros s s' r Hu Hs Hx. apply discard_inv in Hx as [r0 Hx].
  apply backward_core in Hx; [|done]. pose proof (coherent_not_pending s Hs Hu) as Hb.
  unfold J. destruct r0 as [x|e].
  - destruct Hx as (Hd & Hw & _ & ->). rewrite (Hb Hw).
    eapply coherent_idle; [exact Hs|by apply Hb|done|lia].
  - destruct Hx as [->|(-> & Hd & Hw)]; [done|]. unfold given_up, core_of. simpl. rewrite (Hb Hw).
    eapply coherent_idle; [exact Hs|by apply Hb|done|lia].
Qed.

Lemma coherent_submit_backward q dev sc : keeps J (run_call (CSubmitBackward q dev sc)).
Proof.
  apply coherent_by_uses; [done|]. intros s s' r Hu Hs Hx.
  apply submit_backward_core in Hx; [|done]. unfold J. destruct r as [x|e].
  - destruct Hx as (Hd & Hw & acc & ->). intros _. destruct (Hs Hu) as (H1 & _). simpl in *.
    split_and!; [lia|by split; [eexists|]|lia|]. intros pb Hpb. by injection Hpb as <-.
  - destruct Hx as [->|(Hw & Hd & ->)]; [done|].
    eapply coherent_idle; [exact Hs|by eapply coherent_not_pending|done|]. simpl. lia.
Qed.

Lemma coherent_sync_backward : keeps J (run_call CSyncBackward).
Proof.
  apply coherent_by_uses; [done|]. intros s s' r Hu Hs Hx. apply discard_inv in Hx as [r0 Hx].
  destruct (Hs Hu) as (H1 & H2 & H3 & H4). simpl in *.
  destruct (wi_pending (s_window s)) eqn:Hp.
  - apply sync_backward_core in Hx; [|done|done]. destruct (s_backward s) eqn:Eb; [|by subst].
    assert (s_depth s = 1) as Hd by auto. unfold J. rewrite Hx.
    destruct r0; unfold given_up; simpl; intros _; simpl;
      (split_and!; [lia|by split; [|intros []]|done|done]).
  - pose proof (coherent_not_pending s Hs Hu Hp) as Hb.
    unfold sync_backward in Hx. rewrite bindM_gets, Hb in Hx. by injection Hx as <- _.
Qed.

Lemma coherent_release : keeps J release_authoritative_optimizer_grads.
Proof.
  intros s s' r Hs Hx. apply release_run in Hx as [(_ & _ & _ & ->)|[-> _]]; done.
Qed.

Lemma coherent_call c : keeps J (run_call c).
Proof.
  pose proof coherent_framed. assert (∀ ck, keeps J (modify (set_ckpt ck))) by apply coherent_ckpt.
  assert (∀ f, (∀ s, core_of (f s) = core_of s) → keeps J (modify f)) as Hcore.
  { intros f Hf. apply keeps_modify. intros s Hs. unfold J. by rewrite Hf. }
  destruct c; try apply coherent_backward; try apply coherent_submit_backward;
    try apply coherent_sync_backward; simpl; try apply keeps_discard.
  - intros s s' r Hs Hx. by apply register_run in Hx as [->|(g & _ & _ & _ & ->)].
  - unfold forward. keeps; auto using keeps_validate_inputs, keeps_buffer, keeps_engine,
      keeps_wait_pending, keeps_submit_task, keeps_count_forward, keeps_return_output.
  - unfold submit_forward. keeps; auto using keeps_validate_inputs, keeps_buffer, keeps_engine,
      keeps_wait_pending, keeps_submit_task.
  - unfold sync_forward. keeps; auto using keeps_engine, keeps_count_forward, keeps_return_output.
  - apply coherent_release.
  - intros s s' r Hs Hx. by apply cache_output_run in Hx as [(_ & _ & _ & ->)|(msg & -> & _)].
  - by apply keeps_get_output.
  - by apply keeps_check_empty.
  - apply keeps_modify. intros s Hs. cbv zeta. by destruct (bool_decide _).
  - by apply keeps_submit_repack.
  - by apply keeps_wait_repack.
  - by apply keeps_buffer.
  - by apply keeps_modify.
Qed.
End coherent.

Lemma cache_ok_call c : keeps (fun s => cache_ok (s_ckpt s)) (run_call c).
Proof.
  assert (framed (fun s => cache_ok (s_ckpt s))) by by repeat split.
  destruct (special_call c) eqn:Hc; [|by apply quiet_call; [apply ckpt_quiet|]].
  destruct c; try discriminate Hc; simpl; try apply keeps_discard.
  - intros s s' r Hs Hx. by apply register_run in Hx as [->|(g & _ & _ & _ & ->)].
  - intros s s' r _ Hx. apply cache_output_run in Hx as [(_ & _ & Hq & ->)|(msg & -> & _)]; [|done].
    eexists. split; [done|]. simpl. unfold sliced_rows. intros. case_match; lia.
  - by apply keeps_get_output.
  - by apply keeps_check_empty.
  - apply keeps_modify. intros s _. cbv zeta. by destruct (bool_decide _).
Qed.

Lemma poisoned_call c : keeps (fun s => ck_state (s_ckpt s) = POISONED) (run_call c).
Proof.
  assert (framed (fun s => ck_state (s_ckpt s) = POISONED)) by by repeat split.
  destruct (special_call c) eqn:Hc;
    [|by apply quiet_call; [apply (ckpt_quiet (fun c => ck_state c = POISONED))|]].
  destruct c; try discriminate Hc; simpl; try apply keeps_discard.
  - intros s s' r Hs Hx. by apply register_run in Hx as [->|(g & _ & _ & _ & ->)].
  - intros s s' r Hs Hx. apply cache_output_run in Hx as [(_ & He & _)|(msg & -> & _)]; [congruence|done].
  - by apply keeps_get_output.
  - by apply keeps_check_empty.
  - apply keeps_modify. intros s Hs. cbv zeta. by rewrite Hs.
Qed.

(** Every parameter and every view is registered once. *)
Definition distinct (es : list grad_entry) : Prop :=
  NoDup (ge_parameter <$> es) ∧ NoDup (ge_view <$> es).

Lemma distinct_call c : keeps (fun s => distinct (wi_entries (s_window s))) (run_call c).
Proof.
  assert (framed (fun s => distinct (wi_entries (s_window s)))) by by split; intros.
  destruct (special_call c) eqn:Hc;
    [|by apply quiet_call; [apply (entries_quiet (fun _ => distinct))|]].
  destruct c; try discriminate Hc; simpl; try apply keeps_discard.
  - intros s s' r [H1 H2] Hx. apply register_run in Hx as [->|(g & _ & Hp & Hg & ->)]; [done|].
    split; simpl; rewrite fmap_app; (apply NoDup_app; split_and!; [done| |apply NoDup_singleton]);
      intros x Hx ->%list_elem_of_singleton; done.
  - intros s s' r Hs Hx. by apply cache_output_run in Hx as [(_ & He & _ & ->)|(msg & -> & _)].
  - by apply keeps_get_output.
  - by apply keeps_check_empty.
  - apply keeps_modify. intros s Hs. cbv zeta. by destruct (bool_decide _).
Qed.

End core_lemmas.

(** ** The properties *)

(** The parameters' gradients are the registered views / are all [None]. *)
Definition grads_published (h : heap) (es : list grad_entry) : Prop :=
  ∀ e t, e ∈ es → h !! ge_parameter e = Some t → tn_grad t = Some (ge_view e).
Definition grads_cleared (h : heap) (es : list grad_entry) : Prop :=
  ∀ e t, e ∈ es → h !! ge_parameter e = Some t → tn_grad t = None.

Section properties.
Context `{Engine}.

(** C3. A synchronous backward call with authoritative gradients, whatever the
    engine, the copies and the repacking do: if it returns, every registered
    parameter's grad is its view, nothing is pending and one forward has been
    used up; if it raises, either nothing of that has changed, or every grad is
    [None], nothing is pending and the forward is used up. *)
Theorem backward_outcome (q : Z) (dev : option string) (sc : spec_float) (s s' : sft) r :
  wi_uses (s_window s) = true →
  distinct (wi_entries (s_window s)) →
  backward q dev sc s = (s', r) →
  match r with
  | Ok _ => 0 < s_depth s ∧ grads_published (s_heap s') (wi_entries (s_window s)) ∧
            s_window s' = idle (s_window s) ∧ s_depth s' = s_depth s - 1
  | Err _ =>
      (s_heap s' = s_heap s ∧ s_window s' = s_window s ∧ s_depth s' = s_depth s) ∨
      (grads_cleared (s_heap s') (wi_entries (s_window s)) ∧
       s_window s' = idle (s_window s) ∧ s_depth s' = s_depth s - 1)
  end.
Proof.
  intros Hu [Hd _] Hx. apply backward_core in Hx; [|done]. unfold core_of in Hx. destruct r as [x|e].
  - destruct Hx as (H1 & H2 & _ & Hc). injection Hc as -> -> -> _ _. split_and!; try done.
    intros e t He Ht. by eapply write_views_open.
  - destruct Hx as [Hc|(Hc & H1 & H2)]; injection Hc as -> -> -> _ _; [by left|right].
    split_and!; [|done|simpl; lia]. intros e' t He Ht. by eapply clear_grads_clear.
Qed.

End properties.

Lemma count_entries h es n k :
  for_each es (0, 0) (count_entry h) = Ok (n, k) →
  n + k = Z.of_nat (length es) ∧ (grads_cleared h es → k = 0) ∧ (grads_published h es → n = 0).
Proof.
  intros Hf.
  pose proof (for_each_inv (fun l '(n, k) => n + k = Z.of_nat (length l) ∧
    (grads_cleared h es → k = 0) ∧ (grads_published h es → n = 0)) es (0, 0) (n, k) (count_entry h))
    as Hi. simpl in Hi. apply Hi in Hf; [done|done|].
  intros pre x [n0 k0] [n1 k1] Hl (H1 & H2 & H3) Hc.
  assert (x ∈ es) as Hx by (destruct Hl as [l ->]; apply elem_of_app; left; apply elem_of_app; right; left).
  unfold count_entry in Hc. inv_ok. unfold the_tensor in *. inv_ok.
  rewrite length_app. simpl length.
  destruct (tn_grad a) as [g|] eqn:Eg; [destruct (g =? ge_view x) eqn:E; [|done]|]; injection Hc as <- <-.
  - split_and!; [lia| |done]. intros Hg. rewrite (Hg x a) in Eg; done.
  - split_and!; [lia|done|]. intros Hg. rewrite (Hg x a) in Eg; done.
Qed.

Lemma window_closed h w st :
  grads_cleared h (wi_entries w) → validate_window w h = Ok st → st ≠ WOpen.
Proof.
  intros Hc. unfold validate_window. destruct (_ || _) eqn:E; [by intros [= <-]|].
  intros Hv. inv_bind Hv as u Hm. inv_bind Hv as [n k] H1.
  apply count_entries in H1 as (Hs & Hk & _).
  rewrite (Hk Hc) in *. replace (n =? _) with true in Hv by (symmetry; apply Z.eqb_eq; lia).
  by injection Hv as <-.
Qed.

Lemma window_open h w st :
  wi_uses w = true → wi_entries w ≠ [] →
  grads_published h (wi_entries w) → validate_window w h = Ok st → st = WOpen.
Proof.
  intros Hu He Hc. unfold validate_window. rewrite Hu. rewrite bool_decide_eq_false_2 by done.
  cbn [negb orb]. intros Hv. inv_bind Hv as u Hm. inv_bind Hv as [n k] H1.
  apply count_entries in H1 as (Hs & _ & Hn). rewrite (Hn Hc) in *.
  destruct (wi_entries w) as [|e es]; [done|]. simpl length in *.
  replace (0 =? _) with false in Hv by (symmetry; apply Z.eqb_neq; lia).
  replace (k =? _) with true in Hv by (symmetry; apply Z.eqb_eq; lia).
  by injection Hv as <-.
Qed.

Section more_properties.
Context `{Engine}.

(** Gradients are accumulated over a window: after a backward call that
    returned, the next backward adds to the gradients; after a release, or
    after a call that gave up its write, the next one overwrites them. *)
Theorem accumulation_window (q1 q2 : Z) dev1 (sc1 sc2 : spec_float) (s s1 : sft) r1 :
  wi_uses (s_window s) = true → wi_entries (s_window s) ≠ [] → distinct (wi_entries (s_window s)) →
  backward q1 dev1 sc1 s = (s1, r1) →
  (∀ x s2 buf acc, r1 = Ok x → begin_backward q2 sc2 s1 = (s2, Ok (buf, acc)) → acc = true) ∧
  (∀ s2 s3 buf acc, release_authoritative_optimizer_grads s1 = (s2, Ok tt) →
     begin_backward q2 sc2 s2 = (s3, Ok (buf, acc)) → acc = false) ∧
  (∀ e s2 buf acc, r1 = Err e → s_depth s1 ≠ s_depth s →
     begin_backward q2 sc2 s1 = (s2, Ok (buf, acc)) → acc = false).
Proof.
  intros Hu He Hd Hx. assert (wi_uses (s_window s1) = true) as Hu1.
  { by apply (quiet_call _ (entries_quiet (fun b _ => b = true)) (CBackward q1 dev1 sc1) eq_refl s s1
        (x ← r1; Ok tt) Hu); simpl; unfold discard, mbind, M_bind; rewrite Hx; destruct r1. }
  apply backward_outcome in Hx; [|done|done]. split_and!.
  - intros x s2 buf acc -> Hb. apply begin_backward_spec in Hb. rewrite Hu1 in Hb.
    destruct Hb as (_ & (st & Hv & ->) & _). destruct Hx as (_ & Hg & Hw & _).
    apply bool_decide_eq_true. eapply window_open; [done| | |exact Hv]; by rewrite Hw.
  - intros s2 s3 buf acc Hr Hb. apply begin_backward_spec in Hb.
    apply release_run in Hr as [(_ & _ & _ & ->)|[_ Hr]]; [|by rewrite Hr in Hu1].
    simpl in Hb. rewrite Hu1 in Hb. destruct Hb as (_ & (st & Hv & ->) & _).
    apply bool_decide_eq_false. eapply window_closed; [|exact Hv].
    intros e t He' Ht. by eapply clear_grads_clear.
  - intros e s2 buf acc -> Hne Hb. apply begin_backward_spec in Hb. rewrite Hu1 in Hb.
    destruct Hb as (_ & (st & Hv & ->) & _).
    destruct Hx as [(_ & _ & Hx)|(Hg & Hw & _)]; [done|].
    apply bool_decide_eq_false. eapply window_closed; [|exact Hv]. by rewrite Hw.
Qed.

(** An asynchronous backward is a synchronous one in two steps: a
    submission that raises leaves no backward pending and either nothing
    changed or the write given up; one that returns leaves the write pending,
    and [sync_backward] then publishes every view, or clears every grad, and
    in both cases uses up the forward and leaves nothing pending. *)
Theorem async_backward_outcome (q : Z) dev (sc : spec_float) (s s1 : sft) r1 :
  wi_uses (s_window s) = true → distinct (wi_entries (s_window s)) → s_backward s = None →
  submit_backward_async q dev sc s = (s1, r1) →
  match r1 with
  | Err _ =>
      s_backward s1 = None ∧
      ((s_heap s1 = s_heap s ∧ s_window s1 = s_window s ∧ s_depth s1 = s_depth s) ∨
       (grads_cleared (s_heap s1) (wi_entries (s_window s)) ∧
        s_window s1 = idle (s_window s) ∧ s_depth s1 = s_depth s - 1))
  | Ok _ =>
      s_heap s1 = s_heap s ∧ wi_pending (s_window s1) = true ∧
      s_backward s1 = Some (PendingBackward q dev true) ∧
      ∀ s2 r2, sync_backward s1 = (s2, r2) →
        s_window s2 = idle (s_window s) ∧ s_depth s2 = s_depth s - 1 ∧ s_backward s2 = None ∧
        (if is_ok r2 then grads_published (s_heap s2) (wi_entries (s_window s))
         else grads_cleared (s_heap s2) (wi_entries (s_window s)))
  end.
Proof.
  intros Hu [Hd _] Hb Hx. apply submit_backward_core in Hx; [|done]. destruct r1 as [x|e].
  - destruct Hx as (Hpos & _ & acc & Hc). unfold core_of in Hc. injection Hc as Eh Ew Ed _ Eb.
    rewrite Eh, Eb. split_and!; [done|by rewrite Ew|done|]. intros s2 r2 Hs.
    apply sync_backward_core in Hs; [|by rewrite Ew|by rewrite Eb; intros pb [= <-]].
    rewrite Eb in Hs. assert (idle (s_window s1) = idle (s_window s)) as Ei.
    { rewrite Ew. unfold idle. by rewrite Hu. }
    unfold core_of in Hs. destruct r2 as [y|e]; unfold given_up in Hs; simpl in Hs;
      injection Hs as -> -> -> _ ->; rewrite Ei, Ed; (split_and!; [done|lia|done|]); intros e0 t He Ht.
    + eapply write_views_open; [| |exact Ht]; by rewrite Ew.
    + eapply clear_grads_clear; [|exact Ht]. by rewrite Ew.
  - destruct Hx as [Hc|(_ & Hpos & Hc)]; unfold core_of in Hc; injection Hc as -> -> -> _ ->.
    + split; [done|by left].
    + split; [done|right]. split_and!; [|done|simpl; lia]. intros e' t He Ht. by eapply clear_grads_clear.
Qed.

(** C6. Over every sequence of calls of the wrapper, interleaved with other
    layers' use of the shared buffer and with writes to the tensors, and
    whichever of them raise: with authoritative gradients the cache depth is 0
    or 1, a gradient write is pending exactly when an asynchronous backward is,
    and only while its forward is counted; no parameter or view is registered
    twice. *)
Theorem wrapper_lifecycle (s0 s : sft) :
  s_depth s0 = 0 → wi_pending (s_window s0) = false → s_backward s0 = None →
  wi_entries (s_window s0) = [] →
  steps s0 s →
  coherent (core_of s) ∧ distinct (wi_entries (s_window s)).
Proof.
  intros Hd Hp Hb He Hs. split.
  - eapply (steps_keep (fun s => coherent (core_of s))); [apply coherent_call|done|].
    intros _. simpl. rewrite Hd, Hp, Hb. split_and!; [by left|by split; [|intros []]|done|done].
  - eapply (steps_keep (fun s => distinct (wi_entries (s_window s)))); [apply distinct_call|done|].
    rewrite He. split; constructor.
Qed.

(** C31. Over every sequence of calls, the checkpoint cache never serves a wrong
    output: it stays well formed, a poisoned cache stays poisoned, and an output
    is served only from a ready cache, for the query length it was stored with,
    with that many rows. *)
Theorem checkpoint_cache_lifecycle (s0 s : sft) :
  cache_ok (s_ckpt s0) → steps s0 s →
  cache_ok (s_ckpt s) ∧
  (ck_state (s_ckpt s0) = POISONED → ck_state (s_ckpt s) = POISONED) ∧
  (∀ q dev s' o d, get_checkpoint_output q dev s = (s', Ok (o, d)) →
     ck_state (s_ckpt s) = READY ∧ ck_qlen (s_ckpt s) = q ∧ ck_output (s_ckpt s) = Some o ∧ d = dev ∧
     (0 ≤ q → co_rows o = q) ∧ s_ckpt s' = s_ckpt s).
Proof.
  intros H0 Hs. assert (cache_ok (s_ckpt s)) as Hok.
  { eapply (steps_keep (fun s => cache_ok (s_ckpt s))); [apply cache_ok_call|done|done]. }
  split_and!; [done| |].
  - intros Hp. eapply (steps_keep (fun s => ck_state (s_ckpt s) = POISONED)); [apply poisoned_call|done|done].
  - intros q dev s' o d Hx. unfold get_checkpoint_output in Hx.
    apply bindM_ok in Hx as (s1 & [] & Hv & Hx). unfold validate_checkpoint_output in Hv.
    rewrite bindM_gets, bindM_raise_if in Hv.
    destruct (bool_decide (_ = POISONED)); [done|]. rewrite bindM_raise_if in Hv.
    destruct (negb _ || _) eqn:Er; [done|]. destruct (negb (q =? _)) eqn:Eq; [done|].
    injection Hv as <-. bools. rewrite bindM_gets in Hx.
    destruct (ck_output (s_ckpt s)) as [co|] eqn:Eo; [|done]. rewrite bindM_lift in Hx. simpl in Hx.
    assert (o = co ∧ d = dev ∧ s_ckpt s' = s_ckpt s) as (-> & -> & Hc).
    { destruct dev as [dv|]; [|by injection Hx as <- <- <-]. unfold poison_on_error in Hx.
      destruct ((_ ← on_engine copy_out; mret (co, Some dv)) s) as [s1 [y|e]] eqn:Ey; [|done]. injection Hx as <- ->.
      apply bindM_ok in Ey as (s2 & [] & Hcopy & Hret). injection Hret as <- <- <-.
      unfold on_engine in Hcopy. destruct (copy_out _). by injection Hcopy as <- _. }
    unfold cache_ok in Hok. rewrite Eo in Hok. destruct (ck_state (s_ckpt s)); try done.
    destruct Hok as (o' & [= <-] & Hr). split_and!; try done. intros. rewrite Hr; lia.
Qed.
End more_properties.

(** ** A concrete wrapper *)

Module BaseExample.

(** An engine whose queue records the tasks. *)
#[local] Instance recorder : Engine := {|
  estate := list task;
  make_task _ := mret tt;
  submit t := modify (fun l => l ++ [t]);
  sync := mret tt;
  copy_inputs _ := mret tt;
  copy_grad_output _ := mret tt;
  copy_out := mret tt;
  repack_submit := mret tt;
  repack_wait := mret tt;
  has_repack_submit := true;
  has_repack_wait := true;
|}.

Definition meta (ptr : Z) : tensor_meta :=
  TensorMeta "bfloat16" "strided" "cpu" None [8; 4] [4; 1] 0 ptr.

(** One registered parameter, object 1, with view 2. *)
Definition entry : grad_entry :=
  GradEntry "gate_lora_a" 1 2 (authoritative_grad_metadata (meta 200)).
Definition tensors : heap :=
  {[ 1 := Tensor (meta 100) true None; 2 := Tensor (meta 200) false None ]}.

Definition wrapper_with (uses : bool) (entries : list grad_entry) (depth : Z) : sft :=
  Sft _ (Config 8 2 1024 1) tensors None 0 true true false true
    (Window uses entries false false) depth (Checkpoint EMPTY None None 0) None None false [].

Definition ready : sft := wrapper_with true [entry] 1.
Definition inputs : forward_inputs := ForwardInputs 4 (4, 2) (4, 2).

Lemma entry_distinct : distinct [entry].
Proof. split; apply NoDup_singleton. Defined.

Abbreviation ran m s := ((m) s).1.

Lemma backward_outcome_witness :
  wi_uses (s_window ready) = true ∧ distinct (wi_entries (s_window ready)) ∧
  grads_published (s_heap (ran (backward 4 None float_one) ready)) [entry] ∧
  s_depth (ran (backward 4 None float_one) ready) = 0.
Proof.
  split; [reflexivity|]. split; [exact entry_distinct|].
  refine ((fun H => conj (proj1 (proj2 H)) _) (backward_outcome 4 None float_one ready
    (ran (backward 4 None float_one) ready) (Ok (Buffer 0 4, 4, None)) eq_refl entry_distinct _)).
  - vm_compute. reflexivity.
  - apply run_result. vm_compute. reflexivity.
Defined.

Lemma accumulation_window_witness :
  wi_uses (s_window ready) = true ∧ wi_entries (s_window ready) ≠ [] ∧
  distinct (wi_entries (s_window ready)) ∧
  (∀ s2 buf acc, begin_backward 4 float_one (ran (backward 4 None float_one) ready) = (s2, Ok (buf, acc)) →
     acc = true) ∧
  (begin_backward 4 float_one (ran (backward 4 None float_one) ready)).2 = Ok (Buffer 0 4, true).
Proof.
  split; [reflexivity|]. split; [discriminate|]. split; [exact entry_distinct|]. split.
  - intros s2 buf acc. refine (proj1 (accumulation_window 4 4 None float_one float_one ready
      (ran (backward 4 None float_one) ready) (Ok (Buffer 0 4, 4, None)) eq_refl _ entry_distinct _)
      _ s2 buf acc eq_refl).
    + discriminate.
    + apply run_result. vm_compute. reflexivity.
  - vm_compute. reflexivity.
Defined.

(** A fresh wrapper registers its parameter, runs forward and queues a backward. *)
Definition fresh_wrapper : sft := wrapper_with true [] 0.
Definition training : list call :=
  [CRegister "gate_lora_a" 1 2; CForward inputs true None; CSubmitBackward 4 None float_one].

Definition run_calls (cs : list call) (s : sft) : sft :=
  foldl (fun s c => ran (run_call c) s) s cs.

Lemma run_calls_steps cs s : steps s (run_calls cs s).
Proof.
  revert s. induction cs as [|c cs IH]; intros s; [apply steps_refl|].
  apply (steps_next _ (ran (run_call c) s)); [|apply IH].
  destruct (run_call c s) as [s' r] eqn:E. by eapply step_call.
Qed.

Lemma wrapper_lifecycle_witness :
  steps fresh_wrapper (run_calls training fresh_wrapper) ∧
  coherent (core_of (run_calls training fresh_wrapper)) ∧
  wi_pending (s_window (run_calls training fresh_wrapper)) = true.
Proof.
  split; [apply run_calls_steps|]. split.
  - exact (proj1 (wrapper_lifecycle fresh_wrapper _ eq_refl eq_refl eq_refl eq_refl (run_calls_steps training _))).
  - vm_compute. reflexivity.
Defined.

Lemma async_backward_outcome_witness :
  wi_uses (s_window ready) = true ∧ distinct (wi_entries (s_window ready)) ∧
  s_backward ready = None ∧
  s_backward (ran (submit_backward_async 4 None float_one) ready)
    = Some (PendingBackward 4 None true) ∧
  is_ok (sync_backward (ran (submit_backward_async 4 None float_one) ready)).2 = true.
Proof.
  split; [reflexivity|]. split; [exact entry_distinct|]. split; [reflexivity|]. split.
  - refine (proj1 (proj2 (proj2 (async_backward_outcome 4 None float_one ready
      (ran (submit_backward_async 4 None float_one) ready) (Ok tt) eq_refl entry_distinct eq_refl _)))).
    apply run_result. vm_compute. reflexivity.
  - vm_compute. reflexivity.
Defined.

Definition caching : list call := [CCacheOutput 7 "cpu" 6 4].

Lemma checkpoint_cache_lifecycle_witness :
  cache_ok (s_ckpt ready) ∧ steps ready (run_calls caching ready) ∧
  ck_state (s_ckpt (run_calls caching ready)) = READY ∧
  (get_checkpoint_output 4 None (run_calls caching ready)).2 = Ok (CachedOutput 7 4, None).
Proof.
  split; [reflexivity|]. split; [apply run_calls_steps|]. split.
  - refine (proj1 (proj2 (proj2 (checkpoint_cache_lifecycle ready (run_calls caching ready) eq_refl (run_calls_steps caching ready)))
      4 None (ran (get_checkpoint_output 4 None) (run_calls caching ready)) (CachedOutput 7 4) None _)).
    apply run_result. vm_compute. reflexivity.
  - vm_compute. reflexivity.
Defined.

(** [sync_backward] asks for the shared buffer again.  When another layer has
    grown it since the submission, the gradients are read from a buffer the
    task never wrote to. *)
Definition grown : list call := [CSubmitBackward 4 None float_one; COtherBuffer 8].

Lemma sync_backward_reads_another_buffer :
  s_engine (run_calls grown ready) = [BackwardTask (Buffer 0 4) false float_one] ∧
  (sync_backward (run_calls grown ready)).2 = Ok (Buffer 1 8, 4, None).
Proof. split; vm_compute; reflexivity. Qed.

(** Without authoritative gradients no second submission is refused, so the
    cache depth goes below 0; from there no forward is counted any more. *)
Definition twice : list call :=
  [CSubmitBackward 4 None float_one; CBackward 4 None float_one; CSyncBackward].

Lemma legacy_depth_below_zero :
  let s := run_calls twice (wrapper_with false [] 1) in
  s_depth s = -1 ∧ s_depth (ran (forward inputs true None) s) = -1 ∧
  (backward 4 None float_one (ran (forward inputs true None) s)).2
    = Err (Raise RuntimeError "No forward cache available").
Proof. split_and!; vm_compute; reflexivity. Qed.

(** A NaN [lora_alpha] passes the test [lora_alpha <= 0.0]. *)
Lemma nan_alpha_accepted : validate_sft_config 8 S754_nan float_zero 1 false = Ok tt.
Proof. reflexivity. Qed.
End BaseExample.
