(* ===== verification/BaseEquiv.v ===== *)
(** * An asynchronous call is the synchronous call in two steps

    The methods of [Base] that submit a task and those that wait for it, run one
    after the other, have the outcome of the method that does both.  The two
    slots for pending work are all that can differ, so states are compared up
    to them. *)
From S2P Require Import Prelude PyStr Base.
From Stdlib Require Import SpecFloat.

Local Open Scope Z_scope.

Section equivalence.
Context `{Engine}.
Implicit Types s : sft.

(** The state without the slots for pending work. *)
Definition erase s : sft := set_forward None (set_backward None s).

(** [m] neither reads nor writes what [g] changes. *)
Definition commutes {A} (g : sft → sft) (m : M sft A) : Prop := ∀ s, m (g s) = (g (m s).1, (m s).2).

Lemma commutes_bind {A B} g (m : M sft A) (f : A → M sft B) :
  commutes g m → (∀ a, commutes g (f a)) → commutes g (m ≫= f).
Proof.
  intros Hm Hf s. unfold mbind, M_bind. rewrite Hm. destruct (m s) as [s' [a|e]]; simpl; [apply Hf|done].
Qed.

Lemma commutes_ret {A} g (a : A) : commutes g (mret a).
Proof. done. Qed.
Lemma commutes_lift {A} g (r : res A) : commutes g (lift r).
Proof. done. Qed.
Lemma commutes_raise_if g c cls msg : commutes g (raise_ifM c cls msg).
Proof. done. Qed.
Lemma commutes_gets {A} g (f : sft → A) : (∀ s, f (g s) = f s) → commutes g (gets f).
Proof. intros Hf s. unfold gets. simpl. by rewrite Hf. Qed.
Lemma commutes_modify g (h : sft → sft) : (∀ s, h (g s) = g (h s)) → commutes g (modify h).
Proof. intros Hh s. unfold modify. simpl. by rewrite Hh. Qed.
Lemma commutes_on_exception {A} g (m : M sft A) h : commutes g m → commutes g h → commutes g (on_exception m h).
Proof.
  intros Hm Hh s. unfold on_exception. rewrite Hm. destruct (m s) as [s' [a|e]]; simpl; [done|].
  rewrite Hh. by destruct (h s') as [s'' [|]].
Qed.
Lemma commutes_if {A} g (c : bool) (m1 m2 : M sft A) : commutes g m1 → commutes g m2 → commutes g (if c then m1 else m2).
Proof. by destruct c. Qed.

(** One of the two slots. *)
Inductive slot : (sft → sft) → Prop :=
  | slot_forward f : slot (set_forward f)
  | slot_backward b : slot (set_backward b).

Context (g : sft → sft) (Hg : slot g).

Lemma commutes_engine {A} (m : M estate A) : commutes g (on_engine m).
Proof. intros s. destruct Hg; unfold on_engine; simpl; by destruct (m (s_engine s)). Qed.

Lemma commutes_get_buffer qlen : commutes g (get_buffer qlen).
Proof. intros s. destruct Hg; unfold get_buffer; simpl; (destruct (s_shared s) as [buf|]; [by destruct (_ <=? _)|done]). Qed.

Lemma commutes_validate_inputs x : commutes g (validate_forward_inputs x).
Proof.
  intros s. destruct Hg; unfold validate_forward_inputs, mbind, M_bind, get, raise_ifM, lift; simpl;
    repeat (destruct (raise_if _ _ _); simpl; [|done]); done.
Qed.

Lemma commutes_wait_repack : commutes g wait_for_pending_backward_repack.
Proof.
  intros s. unfold wait_for_pending_backward_repack, wait_backward_repack, mbind, M_bind, get.
  destruct Hg; simpl; (destruct (s_repack s); [|done]); (destruct (_ || _); [done|]);
    (destruct has_repack_wait; [|done]); unfold on_engine; simpl; by destruct (repack_wait _) as [e [|]].
Qed.

Lemma commutes_submit t : commutes g (submit_task t).
Proof. apply commutes_bind; [|intros _]; apply commutes_engine. Qed.

Lemma commutes_count b : commutes g (count_forward b).
Proof. apply commutes_modify. intros s. destruct Hg; simpl; by destruct (_ && _). Qed.

Lemma commutes_output buf qlen dev : commutes g (return_output buf qlen dev).
Proof. apply commutes_bind; [apply commutes_engine|done]. Qed.

Lemma commutes_grads buf qlen dev : commutes g (return_grads buf qlen dev).
Proof. do 2 (apply commutes_bind; [apply commutes_engine|intros _]). done. Qed.

Lemma commutes_publish : commutes g publish_authoritative_optimizer_grads.
Proof.
  intros s. destruct Hg; unfold publish_authoritative_optimizer_grads, on_exception,
    validate_authoritative_optimizer_grad_state, mbind, M_bind, window_of, gets, gets_res, raise_ifM, lift; simpl;
    (destruct (raise_if _ _ _) as [[]|]; [|done]); simpl; (destruct (validate_window _ _); simpl; [|done]);
    (destruct (raise_if _ _ _) as [[]|]; simpl; done).
Qed.

Lemma commutes_publish_if (c : bool) : commutes (A:=unit) g (if c then publish_authoritative_optimizer_grads else mret tt).
Proof. destruct c; [apply commutes_publish|done]. Qed.
End equivalence.

#[export] Hint Constructors slot : commutes.
#[export] Hint Resolve @commutes_bind @commutes_engine @commutes_get_buffer @commutes_validate_inputs
  @commutes_wait_repack @commutes_submit @commutes_count @commutes_output @commutes_grads @commutes_publish_if : commutes.

Section forward.
Context `{Engine}.
Implicit Types s : sft.

Lemma forward_equiv x save dev s :
  let sync := forward x save dev s in
  let async := (_ ← submit_forward x save; sync_forward dev) s in
  async.2 = sync.2 ∧ erase async.1 = erase sync.1 ∧ (is_ok sync.2 = true → s_forward async.1 = None).
Proof.
  cbv zeta. unfold forward, submit_forward, sync_forward, mbind, M_bind, gets, modify, lift.
  destruct (validate_forward_inputs x s) as [s1 [[]|e]]; simpl; [|done].
  destruct (get_buffer (in_qlen x) s1) as [s2 [buf|e]]; simpl; [|done].
  destruct (on_engine (copy_inputs buf) s2) as [s3 [[]|e]]; simpl; [|done].
  set (g := set_forward _). assert (slot g) as Hg by constructor.
  rewrite (commutes_wait_repack g Hg). destruct (wait_for_pending_backward_repack s3) as [s4 [[]|e]]; simpl; [|done].
  rewrite (commutes_submit g Hg). destruct (submit_task _ s4) as [s5 [[]|e]]; simpl; [|done].
  change (s_forward (g s5)) with (Some (PendingForward buf save (in_qlen x))). cbn [of_option pf_save pf_buffer pf_qlen].
  rewrite (commutes_engine g Hg). destruct (on_engine sync s5) as [s6 [[]|e]]; simpl; [|done].
  set (s7 := if save && _ then set_depth _ s6 else s6).
  assert (set_forward None (if save && (s_depth s6 =? 0) then set_depth (s_depth s6 + 1) (g s6) else g s6)
          = set_forward None s7) as -> by (unfold s7; by destruct (save && _)).
  rewrite (commutes_output (set_forward None) (slot_forward _)). by destruct (return_output _ _ _ s7).
Qed.
End forward.

Section backward.
Context `{Engine}.
Implicit Types s : sft.

(** The shared buffer stays the same. *)
Definition same_buffer {A} (m : M sft A) : Prop := ∀ s, s_shared (m s).1 = s_shared s.

Lemma same_buffer_engine {A} (m : M estate A) : same_buffer (on_engine m).
Proof. intros s. unfold on_engine. by destruct (m _). Qed.

Lemma same_buffer_wait : same_buffer wait_for_pending_backward_repack.
Proof.
  intros s. unfold wait_for_pending_backward_repack, wait_backward_repack, mbind, M_bind, get.
  destruct (s_repack s); [|done]. destruct (_ || _); [done|]. destruct has_repack_wait; [|done].
  unfold on_engine. simpl. by destruct (repack_wait _) as [e [|]].
Qed.

Lemma same_buffer_prepare sc : same_buffer (prepare_authoritative_optimizer_grad_write sc).
Proof.
  intros s. unfold prepare_authoritative_optimizer_grad_write, validate_authoritative_optimizer_grad_state,
    set_pending, mbind, M_bind, window_of, gets, gets_res, raise_ifM, lift, modify.
  destruct (raise_if _ _ _); [|done]. destruct (raise_if _ _ _); [|done]. by destruct (validate_window _ _).
Qed.

Lemma get_buffer_again q s s' buf : get_buffer q s = (s', Ok buf) → s_shared s' = Some buf ∧ q ≤ b_qlen buf.
Proof.
  unfold get_buffer. destruct (s_shared s) as [b|] eqn:E; [destruct (Z.leb_spec q (b_qlen b))|];
    intros [= <- <-]; simpl; (split; [done|lia]).
Qed.

Lemma get_buffer_present q s buf : s_shared s = Some buf → q ≤ b_qlen buf → get_buffer q s = (s, Ok buf).
Proof. intros Hs Hq. unfold get_buffer. rewrite Hs. by apply Z.leb_le in Hq as ->. Qed.

Lemma begin_backward_buffer q sc s s' buf acc : begin_backward q sc s = (s', Ok (buf, acc)) →
  s_shared s' = Some buf ∧ q ≤ b_qlen buf.
Proof.
  unfold begin_backward. intros (s1 & b & Hb & Hx)%bindM_ok. apply bindM_ok in Hx as (s2 & [] & Hc & Hx).
  apply bindM_ok in Hx as (s3 & w & Hw & Hx). injection Hw as <- <-.
  apply bindM_ok in Hx as (s4 & a & Ha & Hx). injection Hx as <- <- <-.
  apply get_buffer_again in Hb as [Hb Hq]. split; [|done]. rewrite <-Hb.
  pose proof (same_buffer_engine (copy_grad_output b) s1) as H1. rewrite Hc in H1. rewrite <-H1. simpl in Ha |- *.
  destruct (wi_uses _); [|by injection Ha as <-]. pose proof (same_buffer_prepare sc s2) as H2. by rewrite Ha in H2.
Qed.

(** The synchronous handler; it cannot fail. *)
Definition abandon (use : bool) s : sft :=
  if use then set_depth (Z.max 0 (s_depth s - 1)) (abort_authoritative_optimizer_grad_write s).1 else s.

Lemma abandon_ends use s :
  (if use : bool then _ ← abort_authoritative_optimizer_grad_write; drop_forward else mret tt) s = (abandon use s, Ok tt).
Proof. by destruct use. Qed.

(** States that agree up to the pending slots, and the engine when [e] is set. *)
Definition agrees (engine_too : bool) s1 s2 : Prop :=
  erase s1 = erase (if engine_too then s2 else set_engine (s_engine s1) s2).

Lemma agrees_abandon use engine_too s1 s2 : agrees engine_too s1 s2 → agrees engine_too (abandon use s1) (abandon use s2).
Proof.
  unfold agrees, erase, abandon. destruct s1, s2, engine_too, use; simpl; intros [= -> -> -> -> -> -> -> -> -> ->]; subst; done.
Qed.

Lemma agrees_refl b s : agrees b s s.
Proof. by destruct b, s. Qed.

(** A handler that does not fail re-raises. *)
Lemma on_exception_run {A} (m : M sft A) h f s : (∀ s', h s' = (f s', Ok tt)) →
  on_exception m h s = match m s with (s', Ok a) => (s', Ok a) | (s', Err e) => (f s', Err e) end.
Proof. intros Hh. unfold on_exception. destruct (m s) as [s' [a|e]]; [done|]. by rewrite Hh. Qed.

(** Submitting a backward task, and collecting its gradients. *)
Definition start (t : task) : M sft unit :=
  _ ← on_engine (make_task t); _ ← wait_for_pending_backward_repack; on_engine (submit t).
Definition collect (use : bool) (buf : buffer) (q : Z) (dev : option string) : M sft (buffer * Z * option string) :=
  _ ← on_engine sync;
  result ← return_grads buf q dev;
  _ ← (if use then publish_authoritative_optimizer_grads else mret tt);
  mret result.

Lemma commutes_collect g use buf q dev : slot g → commutes g (collect use buf q dev).
Proof.
  intros Hg. apply commutes_bind; [by apply commutes_engine|intros _].
  apply commutes_bind; [by apply commutes_grads|intros r].
  apply commutes_bind; [by apply commutes_publish_if|done].
Qed.

(** The handler of a submission, which waits for the engine first. *)
Definition abandon_start (use : bool) s : sft :=
  set_backward None (abandon use (if use then (on_engine sync s).1 else s)).

Lemma abandon_start_run use s :
  (_ ← (if use : bool then
          _ ← catchM (on_engine sync) (fun _ => true) (fun _ => mret tt);
          _ ← abort_authoritative_optimizer_grad_write; drop_forward
        else mret tt);
   modify (set_backward None)) s = (abandon_start use s, Ok tt).
Proof.
  destruct use; [|done]. unfold abandon_start, catchM, mbind, M_bind, on_engine.
  by destruct (sync (s_engine s)) as [e [[]|]].
Qed.

Lemma abandon_finish_run use s :
  (_ ← (if use : bool then _ ← abort_authoritative_optimizer_grad_write; drop_forward else mret tt);
   modify (set_backward None)) s = (set_backward None (abandon use s), Ok tt).
Proof. by destruct use. Qed.

Lemma start_buffer t : same_buffer (start t).
Proof.
  intros s. unfold start, mbind, M_bind. pose proof (same_buffer_engine (make_task t) s) as H1.
  destruct (on_engine (make_task t) s) as [s1 [[]|]]; [|done]. pose proof (same_buffer_wait s1) as H2.
  destruct (wait_for_pending_backward_repack s1) as [s2 [[]|]]; simpl in *; [|congruence].
  rewrite same_buffer_engine. congruence.
Qed.

(** Asking for the buffer again has no effect while it is there. *)
Lemma collect_again use buf q dev s : s_shared s = Some buf → q ≤ b_qlen buf →
  (_ ← on_engine sync;
   buf ← get_buffer q;
   result ← return_grads buf q dev;
   _ ← (if use : bool then publish_authoritative_optimizer_grads else mret tt);
   mret result) s = collect use buf q dev s.
Proof.
  intros Hs Hq. unfold collect, mbind, M_bind. pose proof (same_buffer_engine sync s) as H1.
  destruct (on_engine sync s) as [s1 [[]|]]; [|done]. simpl in H1. rewrite Hs in H1.
  by rewrite (get_buffer_present q s1 buf).
Qed.

Section run.
Context (q : Z) (dev : option string) (sc : spec_float) (s s1 s2 : sft) (buf : buffer) (acc : bool).
Context (Hcheck : check_backward sc s = (s1, Ok tt)) (Hbegin : begin_backward q sc s1 = (s2, Ok (buf, acc))).
Let use := wi_uses (s_window s1).
Let t := backward_task use buf acc sc.

Lemma backward_run : backward q dev sc s =
  match start t s2 with
  | (s3, Err e) => (abandon use s3, Err e)
  | (s3, Ok _) =>
      match collect use buf q dev s3 with
      | (s4, Err e) => (abandon use s4, Err e)
      | (s4, Ok r) => (set_depth (s_depth s4 - 1) s4, Ok r)
      end
  end.
Proof.
  unfold backward. rewrite (bindM_run _ _ _ _ _ Hcheck). unfold window_of. rewrite bindM_gets. cbv zeta.
  rewrite (bindM_run _ _ _ _ _ Hbegin). cbn beta iota. fold use. fold t.
  unfold mbind at 1, M_bind at 1. rewrite (on_exception_run _ _ _ _ (abandon_ends use)).
  unfold start, collect, mbind, M_bind. destruct (on_engine (make_task t) s2) as [s3 [[]|]]; [|done].
  destruct (wait_for_pending_backward_repack s3) as [s4 [[]|]]; [|done].
  destruct (on_engine (submit t) s4) as [s5 [[]|]]; [|done]. 
  destruct (on_engine sync s5) as [s6 [[]|]]; [|done].
  destruct (return_grads buf q dev s6) as [s7 [r|]]; [|done].
  by destruct ((if use then publish_authoritative_optimizer_grads else mret tt) s7) as [s8 [[]|]].
Qed.

Lemma async_run : (_ ← submit_backward_async q dev sc; sync_backward) s =
  match start t s2 with
  | (s3, Err e) => (abandon_start use s3, Err e)
  | (s3, Ok _) =>
      match collect use buf q dev (set_backward (Some (PendingBackward q dev use)) s3) with
      | (s4, Err e) => (set_backward None (abandon use s4), Err e)
      | (s4, Ok r) => (set_backward None (set_depth (s_depth s4 - 1) s4), Ok r)
      end
  end.
Proof.
  unfold submit_backward_async. unfold mbind at 1, M_bind at 1. rewrite (bindM_run _ _ _ _ _ Hcheck).
  unfold window_of. rewrite bindM_gets. cbv zeta.
  rewrite (bindM_run _ _ _ _ _ Hbegin). cbn beta iota. fold use. fold t.
  unfold mbind at 1, M_bind at 1. rewrite (on_exception_run _ _ _ _ (abandon_start_run use)).
  fold (start t). destruct (start t s2) as [s3 [[]|]] eqn:Hs; [|done].
  pose proof (start_buffer t s2) as Hs3. rewrite Hs in Hs3. simpl in Hs3.
  destruct (begin_backward_buffer _ _ _ _ _ _ Hbegin) as [Hbuf Hq]. rewrite Hbuf in Hs3.
  unfold modify at 1. unfold sync_backward. rewrite bindM_gets. cbn [s_backward set_backward of_option].
  rewrite bindM_lift. cbn [pb_authoritative pb_qlen pb_device].
  unfold mbind at 1, M_bind at 1. rewrite (on_exception_run _ _ _ _ (abandon_finish_run use)).
  rewrite (collect_again use buf q dev) by done. by destruct (collect use buf q dev _) as [s4 [r|]].
Qed.

Lemma agrees_start use' s3 : agrees false (abandon_start use' s3) (abandon use' s3).
Proof.
  unfold agrees, erase, abandon_start, abandon, on_engine. destruct use'; [|by destruct s3].
  simpl. by destruct (sync (s_engine s3)).
Qed.

(** The two calls end in the same way. *)
Lemma backward_same_end :
  let sync := backward q dev sc s in
  let async := (_ ← submit_backward_async q dev sc; sync_backward) s in
  async.2 = sync.2 ∧ agrees (is_ok sync.2) async.1 sync.1 ∧ s_backward async.1 = None.
Proof.
  cbv zeta. rewrite backward_run, async_run. destruct (start t s2) as [s3 [[]|e]]; simpl.
  - rewrite (commutes_collect (set_backward _)) by constructor.
    destruct (collect use buf q dev s3) as [s4 [r|e]]; simpl; (split_and!; [done| |done]).
    + done.
    + unfold agrees, erase, abandon. by destruct use, s4.
  - split_and!; [done|apply agrees_start|done].
Qed.
End run.

Lemma backward_equiv q dev sc s :
  let sync := backward q dev sc s in
  let async := (_ ← submit_backward_async q dev sc; sync_backward) s in
  async.2 = sync.2 ∧ agrees (is_ok sync.2) async.1 sync.1 ∧ (is_ok sync.2 = true → s_backward async.1 = None).
Proof.
  destruct (check_backward sc s) as [s1 [[]|e]] eqn:Hc.
  - destruct (begin_backward q sc s1) as [s2 [[buf acc]|e]] eqn:Hb.
    + destruct (backward_same_end q dev sc s s1 s2 buf acc Hc Hb) as (? & ? & ?). by split_and!.
    + assert (backward q dev sc s = (s2, Err e)) as ->.
      { unfold backward. rewrite (bindM_run _ _ _ _ _ Hc). unfold window_of. rewrite bindM_gets. by rewrite (bindM_fail _ _ _ _ _ Hb). }
      assert ((_ ← submit_backward_async q dev sc; sync_backward) s = (s2, Err e)) as ->.
      { apply bindM_fail. unfold submit_backward_async. rewrite (bindM_run _ _ _ _ _ Hc). unfold window_of.
        rewrite bindM_gets. by rewrite (bindM_fail _ _ _ _ _ Hb). }
      split_and!; [done|apply agrees_refl|done].
  - assert (backward q dev sc s = (s1, Err e)) as -> by (by apply bindM_fail).
    assert ((_ ← submit_backward_async q dev sc; sync_backward) s = (s1, Err e)) as -> by (by do 2 apply bindM_fail).
    split_and!; [done|apply agrees_refl|done].
Qed.

(** C34. The asynchronous calls are the synchronous ones in two steps: submitting and
    then waiting returns what the one call returns or raises what it raises, and
    leaves the same state up to the slots for pending work, which are empty
    again after a return; when a backward raises, the engine too may be left
    in another state, because the submission waits for it before it gives up. *)
Theorem async_calls_match_sync q dev sc x save s :
  (let sync := forward x save dev s in
   let async := (_ ← submit_forward x save; sync_forward dev) s in
   async.2 = sync.2 ∧ agrees true async.1 sync.1 ∧ (is_ok sync.2 = true → s_forward async.1 = None)) ∧
  (let sync := backward q dev sc s in
   let async := (_ ← submit_backward_async q dev sc; sync_backward) s in
   async.2 = sync.2 ∧ agrees (is_ok sync.2) async.1 sync.1 ∧ (is_ok sync.2 = true → s_backward async.1 = None)).
Proof. split; [apply forward_equiv|apply backward_equiv]. Qed.
End backward.
