(* ===== verification/Dist.v ===== *)
(** * Agreement and data exchange between ranks

    Models [kt-kernel/python/sft/dist_utils.py]: the launcher environment, the
    agreement on checkpoint control flow before a conditional collective, the
    variable-length gather to and scatter from rank 0, the sequence offsets, and
    the detection of the activation-checkpoint phase.  The process group of
    [torch.distributed] is a parameter: a class of its queries, and a delivery
    function for batches of point-to-point operations. *)
From S2P Require Import Prelude PyStr PyVal.

Local Open Scope string_scope.
Local Open Scope list_scope.
Local Open Scope Z_scope.

(** ** Rank and world size *)

(** [group]: what the initialised process group answers; [vars]: the environment. *)
Record launcher := Launcher { la_group : option (Z * Z); la_vars : list (string * string) }.

Definition distributed_rank_world_size (e : launcher) : res (Z * Z) :=
  match la_group e with
  | Some group => mret group
  | None =>
      match dict_get "RANK" (la_vars e), dict_get "WORLD_SIZE" (la_vars e) with
      | Some rank_text, Some world_text =>
          '(rank, world_size) ← catch
             (rank ← int_of_text rank_text;
              world_size ← int_of_text world_text;
              mret (rank, world_size))
             (fun c => bool_decide (c = ValueError))
             (fun _ => Err (Raise RuntimeError "Invalid distributed launcher environment"));
          _ ← raise_if ((world_size <=? 0) || (rank <? 0) || (world_size <=? rank)) RuntimeError
                "Invalid distributed launcher environment";
          mret (rank, world_size)
      | _, _ => mret (0, 1)
      end
  end.

(** ** Agreement on checkpoint control flow *)

Definition CHECKPOINT_PHASE_IDS : list (string * Z) :=
  [("none", 0); ("first_forward", 1); ("recompute", 2); ("other", 3); ("error", 4)].
Definition CHECKPOINT_ACTION_IDS : list (string * Z) :=
  [("normal", 0); ("cache_first_forward", 1); ("reuse_recompute", 2)].
Definition ACTIVATION_POLICY_IDS : list (string * Z) := [("recompute", 1); ("retain", 2)].

Definition policy_id (policy : option string) : Z :=
  match policy with None => 0 | Some p => default (-1) (dict_get p ACTIVATION_POLICY_IDS) end.

(** The seven entries of [local_state]. *)
Record ckpt_state := CkptState {
  cs_qlen : Z;
  cs_layer : Z;
  cs_phase : Z;
  cs_action : Z;
  cs_cpu_policy : Z;
  cs_gpu_policy : Z;
  cs_owner_valid : Z;
}.
#[export] Instance ckpt_state_eq_dec : EqDecision ckpt_state.
Proof. solve_decision. Defined.

Definition local_state (local_qlen layer_idx : Z) (phase action : string)
    (cpu_policy gpu_policy : option string) (owner_valid : bool) : ckpt_state :=
  CkptState local_qlen layer_idx
    (default (-1) (dict_get phase CHECKPOINT_PHASE_IDS))
    (default (-1) (dict_get action CHECKPOINT_ACTION_IDS))
    (policy_id cpu_policy) (policy_id gpu_policy) (if owner_valid then 1 else 0).

(** Everything but the sequence length. *)
Definition controls (s : ckpt_state) : Z * Z * Z * Z * Z * Z :=
  (cs_layer s, cs_phase s, cs_action s, cs_cpu_policy s, cs_gpu_policy s, cs_owner_valid s).

Definition invalid_state (s : ckpt_state) : bool :=
  (cs_qlen s <? 0) || (cs_layer s <? 0) || (cs_phase s <? 0) || (cs_action s <? 0)
  || (cs_cpu_policy s <? 0) || (cs_gpu_policy s <? 0).

Definition check_states (states : list ckpt_state) : res (list Z) :=
  _ ← raise_if (existsb invalid_state states
                || negb (Nat.eqb (length (remove_dups (controls <$> states))) 1)) RuntimeError
        "KT checkpoint control flow differs across ranks";
  mret (cs_qlen <$> states).

(** The process group as one rank sees it. *)
Record group := Group {
  gr_initialized : bool;
  gr_world_size : Z;
  gr_all_gather : ckpt_state -> res (list ckpt_state);
}.

Definition all_gather_checkpoint_state (g : group) (state : ckpt_state) (world_size : Z)
    : res (list Z) :=
  states ← (if world_size =? 1 then mret [state]
            else
              _ ← raise_if (negb (gr_initialized g)) RuntimeError
                    "Checkpoint state agreement requires an initialized process group";
              _ ← raise_if (negb (gr_world_size g =? world_size)) RuntimeError
                    "Checkpoint state world-size mismatch";
              gr_all_gather g state);
  check_states states.

(** ** Sequence offsets *)

Definition qlen_offsets (all_qlens : list Z) : list Z :=
  foldl (fun offsets q => offsets ++ [List.last offsets 0 + q]) [0] all_qlens.

(** ** Gather to and scatter from rank 0 *)

Section exchange.
Context {row : Type}.

(** A tensor is the list of its rows; only the leading dimension varies. *)
Abbreviation tensor := (list row).

Inductive p2p :=
  | isend (chunk : tensor) (peer : nat)
  | irecv (rows : Z) (peer : nat).

Definition shape0 (t : tensor) : Z := Z.of_nat (length t).

(** [all_qlens[i]] *)
Definition qlen_at (all_qlens : list Z) (i : nat) : res Z :=
  of_option (all_qlens !! i) IndexError "list index out of range".

(** [torch.empty((qlen, ...))] *)
Definition empty_tensor (qlen : Z) : res unit :=
  raise_if (qlen <? 0) RuntimeError "Trying to create tensor with negative dimension".

(** What a rank asks of its batch, and its result once the batch is done: the
    argument gives the tensor received from a peer. *)
Abbreviation comm A := (res (list p2p * ((nat -> tensor) -> A))).

Definition dist_gather_varlen_to_rank0 (local_tensor : tensor) (all_qlens : list Z) (rank world_size : nat)
    : comm (option (list tensor)) :=
  local_expected ← qlen_at all_qlens rank;
  _ ← raise_if (negb (shape0 local_tensor =? local_expected)) RuntimeError
        "Local leading dim mismatch";
  if (rank =? 0)%nat then
    _ ← raise_if (world_size =? 0)%nat IndexError "list assignment index out of range";
    peers ← for_each (seq 1 (world_size - 1)) [] (fun peers src =>
              qlen_src ← qlen_at all_qlens src;
              _ ← empty_tensor qlen_src;
              mret (peers ++ [(src, qlen_src)]));
    mret ((fun '(src, q) => irecv q src) <$> List.filter (fun p => 0 <? p.2) peers,
          fun received => Some (local_tensor ::
            ((fun '(src, q) => if 0 <? q then received src else []) <$> peers)))
  else
    mret (if 0 <? local_expected then [isend local_tensor 0] else [], fun _ => None).

Definition dist_scatter_varlen_from_rank0 (rank0_chunks : option (list tensor)) (all_qlens : list Z)
    (rank world_size : nat) : comm tensor :=
  local_qlen ← qlen_at all_qlens rank;
  _ ← empty_tensor local_qlen;
  if (rank =? 0)%nat then
    chunks ← of_option (match rank0_chunks with
                        | Some chunks => if (length chunks =? world_size)%nat then Some chunks else None
                        | None => None
                        end) RuntimeError "rank0_chunks must contain one chunk per rank on rank0.";
    chunk0 ← of_option (chunks !! 0%nat) IndexError "list index out of range";
    _ ← raise_if (negb (shape0 chunk0 =? local_qlen)) RuntimeError "Rank0 local chunk mismatch";
    ops ← for_each (seq 1 (world_size - 1)) [] (fun ops dst =>
            qlen_dst ← qlen_at all_qlens dst;
            if qlen_dst <=? 0 then mret ops
            else
              chunk ← of_option (chunks !! dst) IndexError "list index out of range";
              _ ← raise_if (negb (shape0 chunk =? qlen_dst)) RuntimeError "chunk mismatch on rank0";
              mret (ops ++ [isend chunk dst]));
    mret (ops, fun _ => chunk0)
  else
    mret (if 0 <? local_qlen then [irecv local_qlen 0] else [],
          fun received => if 0 <? local_qlen then received 0%nat else []).

(** *** A batch on every rank *)

(** The chunks that [src] sends to [dst]. *)
Definition sends_to (ops : list (list p2p)) (src dst : nat) : list tensor :=
  default [] (ops !! src) ≫= fun op =>
    match op with isend c peer => if (peer =? dst)%nat then [c] else [] | irecv _ _ => [] end.
(** The sizes that [dst] expects from [src]. *)
Definition recvs_from (ops : list (list p2p)) (dst src : nat) : list Z :=
  default [] (ops !! dst) ≫= fun op =>
    match op with irecv q peer => if (peer =? src)%nat then [q] else [] | isend _ _ => [] end.

(** Every send meets a receive of its size, in order, and every receive a send. *)
Definition matched (ops : list (list p2p)) : Prop :=
  ∀ src dst, shape0 <$> sends_to ops src dst = recvs_from ops dst src.

(** The operations a rank hands to its batch. *)
Definition batch_of {A} (c : comm A) : list p2p := match c with Ok (ops, _) => ops | Err _ => [] end.

(** Every rank runs its part, with what the network delivers to it. *)
Definition collective {A} (deliver : list (list p2p) -> nat -> nat -> tensor) (cs : list (comm A))
    : list (res A) :=
  imap (fun rank c => match c with
                      | Ok (_, finish) => Ok (finish (deliver (batch_of <$> cs) rank))
                      | Err e => Err e
                      end) cs.
End exchange.
Arguments p2p : clear implicits.
Arguments matched {row} ops.

(** ** The activation-checkpoint phase *)

(** [_CHECKPOINT_PHASE.set(phase)], the body, and [_CHECKPOINT_PHASE.reset(token)]. *)
Definition activation_checkpoint_phase {A} (phase : string) (body : M (option string) A)
    : M (option string) A :=
  token ← get;
  _ ← modify (fun _ => Some phase);
  finallyM body (modify (fun _ => token)).

Definition get_activation_checkpoint_context_fn {A} :
    (M (option string) A -> M (option string) A) * (M (option string) A -> M (option string) A) :=
  (activation_checkpoint_phase "first_forward", activation_checkpoint_phase "recompute").

(** The top of autograd's stack of saved-tensor hooks: the query fails, there
    is none, it has no readable name, or the tag of its pack function. *)
Inductive hook_top := HookError | NoHook | Unreadable | Hook (tag : string).

Definition checkpoint_hook_mode (phase : option string) (top : hook_top) : string :=
  match phase with
  | Some explicit_phase => explicit_phase
  | None =>
      match top with
      | HookError => "error"
      | NoHook => "none"
      | Unreadable => "other"
      | Hook tag =>
          if contains "_recomputation_hook.__init__.<locals>.pack_hook" tag then "recompute"
          else if contains "_checkpoint_hook.__init__.<locals>.pack_hook" tag then "first_forward"
          else "other"
      end
  end.
