(* ===== verification/DistSpec.v ===== *)
(** * Ranks agree, and exchange whole tensors

    Theorems on [Dist]: the agreement decides the same on every rank, gather and
    scatter are matched and inverse, sequence offsets cut a concatenation back
    into its parts, the launcher environment gives a valid rank. *)
From S2P Require Import Prelude PyStr PyVal Dist.

Local Open Scope string_scope.
Local Open Scope list_scope.
Local Open Scope Z_scope.

(** ** Lists *)

Lemma for_each_append {A B} (l : list A) (acc : list B) (g : A → list B) body :
  (∀ b x, x ∈ l → body b x = Ok (b ++ g x)) → for_each l acc body = Ok (acc ++ (l ≫= g)).
Proof.
  revert acc. induction l as [|x l IH]; intros acc Hb; [by rewrite app_nil_r|].
  change (for_each (x :: l) acc body) with (acc' ← body acc x; for_each l acc' body).
  rewrite Hb by left. change (for_each l (acc ++ g x) body = Ok (acc ++ ((x :: l) ≫= g))).
  rewrite bind_cons, (IH (acc ++ g x)); [by rewrite <-app_assoc|]. intros b y Hy. apply Hb. by right.
Qed.

Lemma bind_select {B} (l : list nat) (s : nat) (g : nat → list B) :
  NoDup l → (l ≫= fun i => if (i =? s)%nat then g i else []) = if bool_decide (s ∈ l) then g s else [].
Proof.
  induction 1 as [|i l Hi Hl IH]; [done|]. rewrite bind_cons, IH.
  destruct (Nat.eqb_spec i s) as [->|Hne].
  - rewrite (bool_decide_eq_true_2 (s ∈ s :: l)) by left.
    rewrite bool_decide_eq_false_2 by done. by rewrite app_nil_r.
  - simpl. f_equal. assert (bool_decide (s ∈ l) = bool_decide (s ∈ i :: l)) as ->; [|done].
    apply bool_decide_ext. rewrite elem_of_cons. naive_solver.
Qed.

Lemma bind_Ok {A B} (a : A) (f : A → res B) : (Ok a ≫= f) = f a.
Proof. done. Qed.

Lemma raise_if_bind {B} (f : unit → res B) c cls msg :
  (raise_if c cls msg ≫= f) = if c then Err (Raise cls msg) else f tt.
Proof. by destruct c. Qed.

Section exchange.
Context {row : Type}.
Abbreviation tensor := (list row).
Implicit Types ls : list tensor.

(** The whole world runs a gather of [ls], one tensor per rank. *)
Definition gather_world ls : list (res (list (p2p row) * ((nat → tensor) → option (list tensor)))) :=
  imap (fun rank l => dist_gather_varlen_to_rank0 l (shape0 <$> ls) rank (length ls)) ls.

(** The whole world runs a scatter of rank 0's chunks. *)
Definition scatter_world ls : list (res (list (p2p row) * ((nat → tensor) → tensor))) :=
  imap (fun rank _ => dist_scatter_varlen_from_rank0 (if (rank =? 0)%nat then Some ls else None)
          (shape0 <$> ls) rank (length ls)) ls.

Definition rows_at ls (i : nat) : Z := shape0 (default [] (ls !! i)).

Lemma qlen_at_lookup ls i l : ls !! i = Some l → qlen_at (shape0 <$> ls) i = Ok (shape0 l).
Proof. intros Hl. unfold qlen_at. by rewrite list_lookup_fmap, Hl. Qed.

Lemma shape0_nonneg (l : tensor) : 0 <= shape0 l.
Proof. unfold shape0. lia. Qed.

Lemma shape0_zero (l : tensor) : (0 <? shape0 l) = false → l = [].
Proof. destruct l; [done|]. unfold shape0. simpl length. intros ?%Z.ltb_ge. lia. Qed.

Lemma peer_lookup ls i : i ∈ seq 1 (length ls - 1) → ∃ l, ls !! i = Some l.
Proof. intros Hi%elem_of_seq. apply lookup_lt_is_Some. lia. Qed.

Definition gather_ops ls (r : nat) (l : tensor) : list (p2p row) :=
  if (r =? 0)%nat
  then seq 1 (length ls - 1) ≫= fun i => if 0 <? rows_at ls i then [irecv (rows_at ls i) i] else []
  else if 0 <? shape0 l then [isend l 0] else [].

Lemma peers_recvs (g : nat → Z) js :
  (fun '(src, q) => irecv (row := row) q src) <$>
    List.filter (fun p => 0 <? p.2) (js ≫= fun i => [(i, g i)]) =
  js ≫= fun i => if 0 <? g i then [irecv (g i) i] else [].
Proof.
  induction js as [|i js IH]; [done|]. rewrite !bind_cons. cbn [app List.filter snd].
  rewrite <-IH. by destruct (0 <? g i).
Qed.

Lemma peers_received (received : nat → tensor) (g : nat → Z) js :
  (fun '(src, q) => if 0 <? q then received src else []) <$> (js ≫= fun i => [(i, g i)]) =
  (fun i => if 0 <? g i then received i else []) <$> js.
Proof. induction js as [|i js IH]; [done|]. rewrite bind_cons, fmap_app, IH. done. Qed.

Lemma gather_rank ls r l :
  ls !! r = Some l →
  ∃ k, dist_gather_varlen_to_rank0 l (shape0 <$> ls) r (length ls) = Ok (gather_ops ls r l, k) ∧
    ∀ received, k received =
      if (r =? 0)%nat
      then Some (l :: ((fun i => if 0 <? rows_at ls i then received i else []) <$> seq 1 (length ls - 1)))
      else None.
Proof.
  intros Hl. unfold dist_gather_varlen_to_rank0, gather_ops. rewrite (qlen_at_lookup _ _ _ Hl).
  rewrite bind_Ok, raise_if_bind, Z.eqb_refl. cbn [negb].
  destruct (Nat.eqb_spec r 0) as [->|Hr]; [|by eexists].
  rewrite raise_if_bind. destruct ls as [|l0 ls']; [done|]. cbn [length Nat.eqb].
  set (ls := l0 :: ls') in *. change (S (length ls')) with (length ls).
  rewrite (for_each_append _ _ (fun i => [(i, rows_at ls i)])).
  2: { intros b i [li Hi]%peer_lookup. rewrite (qlen_at_lookup _ _ _ Hi). rewrite bind_Ok.
       unfold empty_tensor. rewrite raise_if_bind. pose proof (shape0_nonneg li).
       replace (shape0 li <? 0) with false by (symmetry; apply Z.ltb_ge; lia).
       unfold rows_at. by rewrite Hi. }
  rewrite bind_Ok. eexists. split.
  - unfold mret, res_ret. cbn [app]. by rewrite peers_recvs.
  - intros received. cbn [app]. by rewrite peers_received.
Qed.

Lemma gather_batches ls r :
  (batch_of <$> gather_world ls) !! r = (fun l => gather_ops ls r l) <$> ls !! r.
Proof.
  unfold gather_world. rewrite list_lookup_fmap, list_lookup_imap.
  destruct (ls !! r) as [l|] eqn:Hl; [|done]. simpl.
  destruct (gather_rank ls r l Hl) as (k & -> & _). done.
Qed.

Lemma gather_sends ls src dst :
  sends_to (batch_of <$> gather_world ls) src dst =
  if negb (src =? 0)%nat && (dst =? 0)%nat && (0 <? rows_at ls src)
  then [default [] (ls !! src)] else [].
Proof.
  unfold sends_to. rewrite gather_batches. unfold gather_ops, rows_at.
  destruct (ls !! src) as [l|]; simpl; [|by rewrite !andb_false_r].
  destruct (Nat.eqb_spec src 0) as [->|Hs]; simpl.
  - generalize (seq 1 (length ls - 1)) as js. induction js as [|i js IH]; [done|].
    rewrite bind_cons, bind_app, IH. by destruct (0 <? _).
  - destruct (0 <? shape0 l); simpl; [|by rewrite andb_false_r]. destruct dst; done.
Qed.

Lemma recvs_select (g : nat → Z) js src :
  ((js ≫= fun i => if 0 <? g i then [irecv (row := row) (g i) i] else []) ≫= fun op =>
    match op with irecv q peer => if (peer =? src)%nat then [q] else [] | isend _ _ => [] end) =
  js ≫= fun i => if (i =? src)%nat then (if 0 <? g i then [g i] else []) else [].
Proof.
  induction js as [|i js IH]; [done|]. rewrite !bind_cons, bind_app, IH. f_equal.
  destruct (0 <? g i); simpl; destruct (i =? src)%nat; done.
Qed.

Lemma peers_seq ls i :
  bool_decide (i ∈ seq 1 (length ls - 1)) = negb (i =? 0)%nat && (i <? length ls)%nat.
Proof.
  destruct (_ && _) eqn:E; [apply bool_decide_eq_true|apply bool_decide_eq_false]; rewrite elem_of_seq.
  - apply andb_true_iff in E as [E1 E2%Nat.ltb_lt]. apply negb_true_iff, Nat.eqb_neq in E1. lia.
  - intros [H1 H2]. apply andb_false_iff in E as [E|E%Nat.ltb_ge]; [|lia].
    apply negb_false_iff, Nat.eqb_eq in E. lia.
Qed.

Lemma gather_recvs ls dst src :
  recvs_from (batch_of <$> gather_world ls) dst src =
  if negb (src =? 0)%nat && (dst =? 0)%nat && (0 <? rows_at ls src) then [rows_at ls src] else [].
Proof.
  unfold recvs_from. rewrite gather_batches. unfold gather_ops.
  destruct (Nat.eqb_spec dst 0) as [->|Hd].
  - destruct ls as [|l0 ls']; [by rewrite !andb_true_r; destruct src|]. set (ls := l0 :: ls').
    change (ls !! 0%nat) with (Some l0). cbn [fmap option_fmap option_map default].
    unfold id. rewrite recvs_select, bind_select by apply NoDup_seq.
    rewrite peers_seq.
    rewrite andb_true_r. destruct (negb _); cbn [andb]; [|done].
    destruct (Nat.ltb_spec src (length ls)) as [Hs|Hs]; [done|].
    unfold rows_at. by rewrite lookup_ge_None_2 by done.
  - rewrite andb_false_r. destruct (ls !! dst) as [l|]; simpl; [|done]. by destruct (0 <? shape0 l).
Qed.

Lemma gather_matched ls : matched (batch_of <$> gather_world ls).
Proof.
  intros src dst. rewrite gather_sends, gather_recvs. by destruct (_ && _ && _).
Qed.

(** The same for the scatter. *)
Definition scatter_ops ls (r : nat) (l : tensor) : list (p2p row) :=
  if (r =? 0)%nat
  then seq 1 (length ls - 1) ≫= fun i => if 0 <? rows_at ls i then [isend (default [] (ls !! i)) i] else []
  else if 0 <? shape0 l then [irecv (shape0 l) 0] else [].

Lemma scatter_rank ls r l :
  ls !! r = Some l →
  ∃ k, dist_scatter_varlen_from_rank0 (if (r =? 0)%nat then Some ls else None)
         (shape0 <$> ls) r (length ls) = Ok (scatter_ops ls r l, k) ∧
    ∀ received, k received =
      if (r =? 0)%nat then l else if 0 <? shape0 l then received 0%nat else [].
Proof.
  intros Hl. unfold dist_scatter_varlen_from_rank0, scatter_ops. rewrite (qlen_at_lookup _ _ _ Hl).
  rewrite bind_Ok. unfold empty_tensor. rewrite raise_if_bind. pose proof (shape0_nonneg l).
  replace (shape0 l <? 0) with false by (symmetry; apply Z.ltb_ge; lia).
  destruct (Nat.eqb_spec r 0) as [->|Hr]; [|by eexists].
  rewrite Nat.eqb_refl. cbn [of_option]. rewrite bind_Ok, Hl. cbn [of_option].
  rewrite bind_Ok, raise_if_bind, Z.eqb_refl. cbn [negb].
  rewrite (for_each_append _ _
    (fun i => if 0 <? rows_at ls i then [isend (default [] (ls !! i)) i] else [])).
  - rewrite bind_Ok. by eexists.
  - intros b i [li Hi]%peer_lookup. rewrite (qlen_at_lookup _ _ _ Hi), bind_Ok, Hi.
    unfold rows_at. rewrite Hi. cbn [default of_option]. unfold id. rewrite Z.ltb_antisym.
    destruct (shape0 li <=? 0); cbn [negb]; [by rewrite app_nil_r|].
    by rewrite bind_Ok, raise_if_bind, Z.eqb_refl.
Qed.

Lemma scatter_batches ls r :
  (batch_of <$> scatter_world ls) !! r = (fun l => scatter_ops ls r l) <$> ls !! r.
Proof.
  unfold scatter_world. rewrite list_lookup_fmap, list_lookup_imap.
  destruct (ls !! r) as [l|] eqn:Hl; [|done]. simpl.
  destruct (scatter_rank ls r l Hl) as (k & -> & _). done.
Qed.

Lemma sends_select (g : nat → Z) (c : nat → tensor) js dst :
  ((js ≫= fun i => if 0 <? g i then [isend (c i) i] else []) ≫= fun op =>
    match op with isend c peer => if (peer =? dst)%nat then [c] else [] | irecv _ _ => [] end) =
  js ≫= fun i => if (i =? dst)%nat then (if 0 <? g i then [c i] else []) else [].
Proof.
  induction js as [|i js IH]; [done|]. rewrite !bind_cons, bind_app, IH. f_equal.
  destruct (0 <? g i); simpl; destruct (i =? dst)%nat; done.
Qed.

Lemma scatter_sends ls src dst :
  sends_to (batch_of <$> scatter_world ls) src dst =
  if (src =? 0)%nat && negb (dst =? 0)%nat && (0 <? rows_at ls dst)
  then [default [] (ls !! dst)] else [].
Proof.
  unfold sends_to. rewrite scatter_batches. unfold scatter_ops.
  destruct (Nat.eqb_spec src 0) as [->|Hs].
  - destruct ls as [|l0 ls']; [by destruct dst|]. set (ls := l0 :: ls').
    change (ls !! 0%nat) with (Some l0). cbn [fmap option_fmap option_map default].
    unfold id. rewrite sends_select, bind_select by apply NoDup_seq. rewrite peers_seq. cbn [andb].
    destruct (negb _); cbn [andb]; [|done].
    destruct (Nat.ltb_spec dst (length ls)) as [Hd|Hd]; [done|].
    unfold rows_at. by rewrite lookup_ge_None_2 by done.
  - cbn [andb]. destruct (ls !! src) as [l|]; simpl; [|done]. by destruct (0 <? shape0 l).
Qed.

Lemma scatter_recvs ls dst src :
  recvs_from (batch_of <$> scatter_world ls) dst src =
  if (src =? 0)%nat && negb (dst =? 0)%nat && (0 <? rows_at ls dst) then [rows_at ls dst] else [].
Proof.
  unfold recvs_from. rewrite scatter_batches. unfold scatter_ops, rows_at.
  destruct (ls !! dst) as [l|]; simpl; [|by rewrite andb_false_r].
  destruct (Nat.eqb_spec dst 0) as [->|Hs]; simpl.
  - rewrite andb_false_r. cbn [andb].
    generalize (seq 1 (length ls - 1)) as js. induction js as [|i js IH]; [done|].
    rewrite bind_cons, bind_app, IH. by destruct (0 <? _).
  - rewrite andb_true_r. destruct (0 <? shape0 l); simpl; [|by rewrite andb_false_r]. by destruct src.
Qed.

Lemma scatter_matched ls : matched (batch_of <$> scatter_world ls).
Proof. intros src dst. rewrite scatter_sends, scatter_recvs. by destruct (_ && _ && _). Qed.
End exchange.

(** ** The properties *)

Section transfers.
Context {row : Type}.
Implicit Types ls : list (list row).

Lemma gather_world_lookup ls r : gather_world ls !! r =
  (fun l => dist_gather_varlen_to_rank0 l (shape0 <$> ls) r (length ls)) <$> ls !! r.
Proof. apply list_lookup_imap. Qed.

Lemma scatter_world_lookup ls r : scatter_world ls !! r =
  (fun _ => dist_scatter_varlen_from_rank0 (if (r =? 0)%nat then Some ls else None)
              (shape0 <$> ls) r (length ls)) <$> ls !! r.
Proof. apply list_lookup_imap. Qed.

(** C35. Gather and scatter of any tensors, on a network that delivers every
    chunk of a matched batch: no rank waits for a peer that never answers and
    no sizes disagree; after the gather rank 0 holds every rank's tensor in rank
    order, and a scatter of those tensors gives each rank its own back. *)
Theorem gather_scatter_exact (deliver : list (list (p2p row)) → nat → nat → list row) ls :
  (∀ ops src dst c, matched ops → sends_to ops src dst = [c] → deliver ops dst src = c) →
  matched (batch_of <$> gather_world ls) ∧
  collective deliver (gather_world ls) =
    imap (fun rank _ => Ok (if (rank =? 0)%nat then Some ls else None)) ls ∧
  matched (batch_of <$> scatter_world ls) ∧
  collective deliver (scatter_world ls) = Ok <$> ls.
Proof.
  intros Hdel.
  assert (∀ ls src li, src ≠ 0%nat → ls !! src = Some li → (0 <? shape0 li) = true →
    deliver (batch_of <$> gather_world ls) 0%nat src = li) as Hg.
  { intros ls' src li Hs Hl E. apply Hdel; [apply gather_matched|]. rewrite gather_sends.
    unfold rows_at. rewrite Hl. simpl. apply Nat.eqb_neq in Hs. by rewrite Hs, E. }
  split_and!; [apply gather_matched| |apply scatter_matched|]; apply list_eq; intros r;
    unfold collective; rewrite list_lookup_imap.
  - rewrite gather_world_lookup, list_lookup_imap.
    destruct (ls !! r) as [l|] eqn:Hl; [|done]. cbn [fmap option_fmap option_map].
    destruct (gather_rank ls r l Hl) as (k & -> & Hk). rewrite Hk. do 3 f_equal.
    destruct (Nat.eqb_spec r 0) as [->|Hr]; [|done]. f_equal.
    destruct ls as [|l0 ls']; [done|]. injection Hl as ->. f_equal.
    apply list_eq. intros i. rewrite list_lookup_fmap.
    destruct (decide (i < length ls')%nat) as [Hi|Hi].
    + rewrite lookup_seq_lt by (simpl; lia). simpl.
      destruct (lookup_lt_is_Some_2 ls' i Hi) as [li Hli]. rewrite Hli. f_equal.
      set (ls := l :: ls'). assert (ls !! S i = Some li) as HS by done.
      destruct (0 <? rows_at ls (S i)) eqn:E; unfold rows_at in E; rewrite HS in E; simpl in E.
      * exact (Hg ls (S i) li (Nat.neq_succ_0 i) HS E).
      * symmetry. by apply shape0_zero.
    + rewrite lookup_ge_None_2 by (rewrite length_seq; simpl; lia).
      symmetry. apply lookup_ge_None_2. lia.
  - rewrite scatter_world_lookup, list_lookup_fmap.
    destruct (ls !! r) as [l|] eqn:Hl; [|done]. cbn [fmap option_fmap option_map].
    destruct (scatter_rank ls r l Hl) as (k & -> & Hk). rewrite Hk. do 2 f_equal.
    destruct (Nat.eqb_spec r 0) as [->|Hr]; [done|].
    destruct (0 <? shape0 l) eqn:E; [|symmetry; by apply shape0_zero].
    apply Hdel; [apply scatter_matched|]. rewrite scatter_sends. unfold rows_at. rewrite Hl. simpl.
    apply Nat.eqb_neq in Hr. by rewrite Hr, E.
Qed.

Lemma offsets_snoc qs q : qlen_offsets (qs ++ [q]) = qlen_offsets qs ++ [List.last (qlen_offsets qs) 0 + q].
Proof. unfold qlen_offsets. by rewrite foldl_snoc. Qed.

Lemma offsets_sums qs :
  qlen_offsets qs = (fun n => sumZ id (take n qs)) <$> seq 0 (S (length qs)).
Proof.
  induction qs as [|q qs IH] using rev_ind; [done|].
  rewrite offsets_snoc, length_app. cbn [length].
  replace (S (length qs + 1)) with (S (length qs) + 1)%nat by lia. rewrite seq_app, fmap_app.
  assert (List.last (qlen_offsets qs) 0 = sumZ id qs) as Hl.
  { rewrite IH, seq_S, fmap_app. simpl. rewrite List.last_last. by rewrite firstn_all. }
  f_equal.
  - rewrite IH. apply list_fmap_ext. intros i n Hn. apply lookup_seq in Hn as [-> Hi].
    rewrite take_app_le by lia. done.
  - simpl. rewrite Hl. rewrite take_app_ge by lia.
    replace (S (length qs) - length qs)%nat with 1%nat by lia. simpl. rewrite sumZ_app. simpl.
    f_equal. unfold id. lia.
Qed.

Lemma shape0_concat ls : shape0 (concat ls) = sumZ id (shape0 <$> ls).
Proof.
  induction ls as [|l ls IH]; [done|].
  change (shape0 (l ++ concat ls) = shape0 l + sumZ id (shape0 <$> ls)).
  rewrite <-IH. unfold shape0. rewrite length_app. lia.
Qed.

(** The offsets of the gathered lengths cut the concatenation of all ranks'
    rows back into each rank's tensor: one offset per rank and a last one, the
    total, and rank [r]'s rows are those from its offset to the next. *)
Theorem qlen_offsets_cut ls :
  length (qlen_offsets (shape0 <$> ls)) = S (length ls) ∧
  List.last (qlen_offsets (shape0 <$> ls)) 0 = shape0 (concat ls) ∧
  ∀ r l a b, ls !! r = Some l →
    qlen_offsets (shape0 <$> ls) !! r = Some a → qlen_offsets (shape0 <$> ls) !! S r = Some b →
    0 ≤ a ≤ b ∧ take (Z.to_nat (b - a)) (drop (Z.to_nat a) (concat ls)) = l.
Proof.
  rewrite offsets_sums. split_and!.
  - by rewrite length_fmap, length_seq, length_fmap.
  - rewrite seq_S, fmap_app, list_fmap_singleton, List.last_last, Nat.add_0_l, firstn_all.
    by rewrite shape0_concat.
  - intros r l a b Hl Ha Hb. pose proof (lookup_lt_Some _ _ _ Hl).
    rewrite !list_lookup_fmap, lookup_seq_lt in Ha by (rewrite length_fmap; lia).
    rewrite !list_lookup_fmap, lookup_seq_lt in Hb by (rewrite length_fmap; lia).
    injection Ha as <-. injection Hb as <-. rewrite <-!fmap_take.
    rewrite (take_S_r ls r l Hl), fmap_app, sumZ_app. rewrite <-!shape0_concat.
    assert (concat ls = concat (take r ls) ++ l ++ concat (drop (S r) ls)) as ->.
    { rewrite <-(take_drop_middle ls r l Hl) at 1. by rewrite concat_app. }
    unfold shape0. cbn [concat]. rewrite app_nil_r, Nat2Z.id, drop_app_length.
    replace (Z.to_nat _) with (length l) by lia. split; [lia|]. by rewrite take_app_length.
Qed.
End transfers.

Lemma one_control (l : list (Z * Z * Z * Z * Z * Z)) :
  length (remove_dups l) = 1%nat ↔ l ≠ [] ∧ ∀ x y, x ∈ l → y ∈ l → x = y.
Proof.
  split.
  - intros Hl. destruct (remove_dups l) as [|c [|]] eqn:E; try done. split.
    + intros ->. discriminate E.
    + intros x y Hx%elem_of_remove_dups Hy%elem_of_remove_dups. rewrite E in Hx, Hy.
      apply list_elem_of_singleton in Hx, Hy. congruence.
  - intros [Hne Heq]. pose proof (NoDup_remove_dups l) as Hd.
    destruct (remove_dups l) as [|x [|y r]] eqn:E; [| done|].
    + destruct l as [|x l]; [done|]. assert (x ∈ remove_dups (x :: l)) as Hx
        by (apply elem_of_remove_dups; left). rewrite E in Hx. by apply elem_of_nil in Hx.
    + assert (∀ z, z ∈ x :: y :: r → z ∈ l) as Hin by (intros z; rewrite <-E; apply elem_of_remove_dups).
      apply NoDup_cons in Hd as [Hd _]. destruct Hd.
      rewrite (Heq x y); [left|apply Hin; left|apply Hin; right; left].
Qed.

(** Whatever states the ranks contribute, they all decide the same: either
    every rank gets the sequence lengths of all ranks, or every rank raises
    [RuntimeError]; and they go on exactly when no rank's state is invalid and
    layer, phase, action, policies and owner flag are the same on all. *)
Theorem checkpoint_agreement (groups : nat → group) (locals : list ckpt_state) :
  locals ≠ [] →
  (∀ r s, locals !! r = Some s →
     gr_initialized (groups r) = true ∧ gr_world_size (groups r) = Z.of_nat (length locals) ∧
     gr_all_gather (groups r) s = Ok locals) →
  ∃ outcome,
    (∀ r s, locals !! r = Some s →
       all_gather_checkpoint_state (groups r) s (Z.of_nat (length locals)) = outcome) ∧
    (outcome = Ok (cs_qlen <$> locals) ∨ ∃ msg, outcome = Err (Raise RuntimeError msg)) ∧
    (is_ok outcome = true ↔
       (∀ s, s ∈ locals → invalid_state s = false) ∧
       (∀ s t, s ∈ locals → t ∈ locals → controls s = controls t)).
Proof.
  intros Hne Hg. exists (check_states locals). split_and!.
  - intros r s Hs. destruct (Hg r s Hs) as (Hi & Hw & Ha). unfold all_gather_checkpoint_state.
    destruct (Z.eqb_spec (Z.of_nat (length locals)) 1) as [E|_].
    + destruct locals as [|s0 [|]]; simpl in E; try lia; try done. destruct r; [|done].
      by injection Hs as ->.
    + rewrite Hi, Hw, Z.eqb_refl. cbn [negb]. by rewrite !raise_if_bind, Ha, bind_Ok.
  - unfold check_states. rewrite raise_if_bind. destruct (_ || _); [right; by eexists|by left].
  - unfold check_states. rewrite raise_if_bind.
    assert (∀ s, s ∈ locals → controls s ∈ controls <$> locals) as Hc by apply list_elem_of_fmap_2.
    assert ((existsb invalid_state locals = false) ↔ ∀ s, s ∈ locals → invalid_state s = false) as He.
    { rewrite <-not_true_iff_false, existsb_exists. setoid_rewrite <-list_elem_of_In.
      split; [|intros Hf [x [Hx Hi]]; by rewrite Hf in Hi].
      intros Hn s Hs. apply not_true_iff_false. intros Hi. destruct Hn. by exists s. }
    rewrite <-He. destruct (existsb _ _); [simpl; split; [done|intros [? _]; done]|]. cbn [orb].
    destruct (Nat.eqb_spec (length (remove_dups (controls <$> locals))) 1) as [E|E]; simpl.
    + apply one_control in E as [_ E]. split; [|done]. intros _. split; [done|]. auto.
    + split; [done|]. intros [_ Hs]. destruct E. apply one_control. split.
      * by destruct locals.
      * intros x y [s [-> Hs']]%list_elem_of_fmap [t [-> Ht]]%list_elem_of_fmap. auto.
Qed.

(** Without a process group the launcher environment is read: the rank is
    between 0 and the world size, or [RuntimeError] is raised. *)
Theorem launcher_rank_bounds vars :
  match distributed_rank_world_size (Launcher None vars) with
  | Ok (rank, world_size) => 0 ≤ rank < world_size
  | Err e => exn_cls e = RuntimeError
  end.
Proof.
  unfold distributed_rank_world_size. cbn [la_group la_vars].
  destruct (dict_get "RANK" vars) as [rt|]; [|simpl; lia].
  destruct (dict_get "WORLD_SIZE" vars) as [wt|]; [|simpl; lia].
  assert (∀ t, raises_only ValueError (int_of_text t)) as Hint.
  { intros t e. unfold int_of_text. destruct (strip t) as [|c u]; [by intros [= <-]|].
    destruct (underscored_digits _ _ _); by intros [= <-]. }
  destruct (int_of_text rt) as [rank|e] eqn:Er; simpl.
  - destruct (int_of_text wt) as [w|e] eqn:Ew; simpl.
    + destruct (w <=? 0) eqn:E1; [done|]. destruct (rank <? 0) eqn:E2; [done|].
      destruct (w <=? rank) eqn:E3; simpl; bools; [done|lia].
    + by rewrite (Hint _ _ Ew).
  - by rewrite (Hint _ _ Er).
Qed.

(** The checkpoint phase: a block runs in its phase and leaves the phase it
    found, whether it returns or raises; and the mode that is reported is always
    one that the ranks can agree on. *)
Theorem checkpoint_phase_scoped {A} (body : M (option string) A) (p : string) (phase : option string) :
  activation_checkpoint_phase p body phase = (phase, (body (Some p)).2) ∧
  ∀ top, p ∈ ["first_forward"; "recompute"] →
    ∃ i, dict_get (checkpoint_hook_mode (Some p) top) CHECKPOINT_PHASE_IDS = Some i ∧ 0 ≤ i ∧
    ∃ j, dict_get (checkpoint_hook_mode None top) CHECKPOINT_PHASE_IDS = Some j ∧ 0 ≤ j.
Proof.
  split.
  - unfold activation_checkpoint_phase. unfold mbind, M_bind, get, modify, finallyM.
    by destruct (body (Some p)) as [st r].
  - intros top Hp. assert (∃ j, dict_get (checkpoint_hook_mode None top) CHECKPOINT_PHASE_IDS = Some j ∧ 0 ≤ j)
      as Hj.
    { unfold checkpoint_hook_mode. destruct top; [by exists 4|by exists 0|by exists 3|].
      destruct (contains _ _); [by exists 2|]. destruct (contains _ _); [by exists 1|by exists 3]. }
    repeat (apply elem_of_cons in Hp as [->|Hp]); [by exists 1|by exists 2|]. by apply elem_of_nil in Hp.
Qed.

(** ** Concrete worlds *)

Module DistExample.
Definition deliver (ops : list (list (p2p Z))) (dst src : nat) : list Z :=
  default [] (head (sends_to ops src dst)).

Definition rows : list (list Z) := [[1; 2; 3]; []; [4; 5]].

Lemma gather_scatter_exact_witness :
  (∀ ops src dst c, matched ops → sends_to ops src dst = [c] → deliver ops dst src = c) ∧
  collective deliver (gather_world rows) = [Ok (Some rows); Ok None; Ok None] ∧
  batch_of <$> gather_world rows = [[irecv 2 2]; []; [isend [4; 5] 0]].
Proof.
  assert (∀ ops src dst c, matched ops → sends_to ops src dst = [c] → deliver ops dst src = c) as Hd.
  { intros ops src dst c _ Hs. unfold deliver. by rewrite Hs. }
  split; [exact Hd|]. split.
  - exact (proj1 (proj2 (gather_scatter_exact deliver rows Hd))).
  - vm_compute. reflexivity.
Defined.

Definition state (q : Z) : ckpt_state := local_state q 3 "first_forward" "cache_first_forward" (Some "retain") None true.
Definition states : list ckpt_state := [state 5; state 0].
Definition process_group (_ : nat) : group := Group true 2 (fun _ => Ok states).

Lemma checkpoint_agreement_witness :
  states ≠ [] ∧
  (∀ r s, states !! r = Some s →
     gr_initialized (process_group r) = true ∧ gr_world_size (process_group r) = 2 ∧
     gr_all_gather (process_group r) s = Ok states) ∧
  (∃ outcome, ∀ r s, states !! r = Some s →
     all_gather_checkpoint_state (process_group r) s 2 = outcome) ∧
  all_gather_checkpoint_state (process_group 0) (state 5) 2 = Ok [5; 0].
Proof.
  assert (∀ r s, states !! r = Some s →
     gr_initialized (process_group r) = true ∧ gr_world_size (process_group r) = 2 ∧
     gr_all_gather (process_group r) s = Ok states) as Hg by done.
  split; [discriminate|]. split; [exact Hg|]. split.
  - destruct (checkpoint_agreement process_group states ltac:(discriminate) Hg) as (o & Ho & _).
    by exists o.
  - vm_compute. reflexivity.
Defined.

Lemma qlen_offsets_cut_witness :
  rows !! 2%nat = Some [4; 5] ∧ qlen_offsets (shape0 <$> rows) !! 2%nat = Some 3 ∧
  qlen_offsets (shape0 <$> rows) !! 3%nat = Some 5 ∧
  take (Z.to_nat (5 - 3)) (drop (Z.to_nat 3) (concat rows)) = [4; 5].
Proof.
  split; [reflexivity|]. split; [vm_compute; reflexivity|]. split; [vm_compute; reflexivity|].
  refine (proj2 (proj2 (proj2 (qlen_offsets_cut rows)) 2%nat [4; 5] 3 5 eq_refl _ _)); vm_compute; reflexivity.
Defined.

Lemma checkpoint_phase_scoped_witness :
  "recompute" ∈ ["first_forward"; "recompute"] ∧
  activation_checkpoint_phase "recompute" (raise (A := unit) ValueError "boom") (Some "first_forward")
    = (Some "first_forward", Err (Raise ValueError "boom")).
Proof.
  split; [right; left|].
  exact (proj1 (checkpoint_phase_scoped (raise ValueError "boom") "recompute" (Some "first_forward"))).
Defined.
End DistExample.
