(* ===== verification/Tuna.v ===== *)
(** * Tuning the number of GPU experts

    Models [kt-kernel/python/cli/utils/tuna_engine.py]: reading the number of
    experts, recognising out-of-memory lines, building the server's command
    line, launching, watching and stopping one test server, the binary search
    over the number of GPU experts, and the final verdict.  What a test server
    does is a parameter, one [host] per launch; the calls on the process are
    logged. *)
From S2P Require Import Prelude PyStr PyVal.

Local Open Scope string_scope.
Local Open Scope list_scope.
Local Open Scope Z_scope.

(** ** The model's configuration *)

Definition possible_keys : list string :=
  ["num_experts_per_tok"; "num_local_experts"; "n_routed_experts"; "num_experts"].

(** [key in config] and [config[key]] on a value that [json.loads] returned:
    [None] when the key is not in it. *)
Definition subscript (config : pyval) (key : string) : res (option pyval) :=
  match config with
  | PDict d => mret (dict_get key d)
  | PList l => if existsb (py_eq (PStr key)) l
               then Err (Raise TypeError "list indices must be integers") else mret None
  | PStr s => if contains key s
              then Err (Raise TypeError "string indices must be integers") else mret None
  | _ => Err (Raise TypeError "argument is not iterable")
  end.

Fixpoint first_key (config : pyval) (keys : list string) : res pyval :=
  match keys with
  | [] => Err (Raise ValueError "Cannot find num_experts field")
  | key :: keys' =>
      v ← subscript config key;
      match v with Some n => mret n | None => first_key config keys' end
  end.

(** [config_json]: [None] when there is no file, and what parsing it gives. *)
Definition get_num_experts (config_json : option (res pyval)) : res pyval :=
  text ← of_option config_json ValueError "config.json not found";
  config ← catch text (fun c => negb (bool_decide (c = KeyboardInterrupt)))
             (fun _ => Err (Raise ValueError "Failed to parse config.json"));
  first_key config possible_keys.

(** ** Out-of-memory lines *)

Definition oom_patterns : list string :=
  ["cuda out of memory"; "out of memory"; "outofmemoryerror"; "oom"; "failed to allocate";
   "cumemalloc failed"; "cumemallocasync failed"; "allocation failed"].

Definition detect_oom (log_line : option string) : bool :=
  match log_line with
  | None => false
  | Some line => existsb (fun pattern => contains pattern (lower line)) oom_patterns
  end.

(** ** The command line *)

Section command.
Context `{Platform}.

(** [0.98] in binary64 *)
Definition float_098 : spec_float := S754_finite false 8827055269646172 (-53).

Definition get_or (config : list (string * pyval)) (key : string) (dflt : pyval) : pyval :=
  default dflt (dict_get key config).

Definition text (v : pyval) : pyval := PStr (py_str v).

(** [cmd.extend(v)] *)
Definition iterate (v : pyval) : res (list pyval) :=
  match v with
  | PList l => mret l
  | PDict d => mret ((fun kv => PStr kv.1) <$> d)
  | PStr s => mret ((fun c => PStr (String c "")) <$> String.list_ascii_of_string s)
  | _ => Err (Raise TypeError "object is not iterable")
  end.

Definition need (config : list (string * pyval)) (key : string) : res pyval :=
  of_option (dict_get key config) KeyError key.

Definition build_command (executable : string) (test_port num_gpu_experts : Z) (model_path : string)
    (config : list (string * pyval)) : res (list pyval) :=
  tensor_parallel_size ← need config "tensor_parallel_size";
  max_total_tokens ← need config "max_total_tokens";
  let cmd := [PStr executable; PStr "-m"; PStr "sglang.launch_server"; PStr "--model"; PStr model_path;
              PStr "--port"; PStr (str_of_Z test_port); PStr "--host"; PStr "127.0.0.1";
              PStr "--tensor-parallel-size"; text tensor_parallel_size;
              PStr "--kt-num-gpu-experts"; PStr (str_of_Z num_gpu_experts);
              PStr "--max-total-tokens"; text max_total_tokens] in
  let weights := get_or config "weights_path" PNone in
  let cmd := cmd ++ (if truthy weights then [PStr "--kt-weight-path"; text weights]
                     else [PStr "--kt-weight-path"; PStr model_path]) in
  let cmd := cmd ++
    [PStr "--kt-cpuinfer"; text (get_or config "cpu_threads" (PInt 64));
     PStr "--kt-threadpool-count"; text (get_or config "numa_nodes" (PInt 2));
     PStr "--kt-method"; get_or config "kt_method" (PStr "AMXINT4");
     PStr "--kt-gpu-prefill-token-threshold"; text (get_or config "kt_gpu_prefill_threshold" (PInt 4096))] in
  let attention := get_or config "attention_backend" PNone in
  let cmd := cmd ++ (if truthy attention then [PStr "--attention-backend"; attention] else []) in
  let cmd := cmd ++
    [PStr "--trust-remote-code";
     PStr "--mem-fraction-static"; text (get_or config "mem_fraction_static" (PFloat float_098));
     PStr "--chunked-prefill-size"; text (get_or config "chunked_prefill_size" (PInt 4096));
     PStr "--max-running-requests"; text (get_or config "max_running_requests" (PInt 1));
     PStr "--watchdog-timeout"; text (get_or config "watchdog_timeout" (PInt 3000));
     PStr "--enable-mixed-chunk"; PStr "--enable-p2p-check"] in
  let cmd := cmd ++ (if truthy (get_or config "disable_shared_experts_fusion" PNone)
                     then [PStr "--disable-shared-experts-fusion"] else []) in
  let extra := get_or config "extra_args" PNone in
  extra_args ← (if truthy extra then iterate extra else mret []);
  mret (cmd ++ extra_args).
End command.

(** ** One test server *)

(** What one round of the monitoring loop sees: the process has exited, a line
    (empty at the end of the output), a failed read, or Ctrl-C. *)
Inductive tick := Exited | Line (line : string) | ReadError | Interrupt.

(** One launch: whether [Popen] works, what the loop sees in the 60 seconds,
    the inference test, and whether the process stops within each wait. *)
Record host := Host {
  ho_starts : bool;
  ho_ticks : list tick;
  ho_inference : res bool;
  ho_stops : bool;
  ho_dies : bool;
}.

Inductive proc_op := Popen (cmd : list pyval) | Terminate | Wait (timeout : Z) | Kill.

(** How the monitoring loop ends. *)
Inductive watched := ServerReady | ProcessExited | OutOfMemory | NotReady | Interrupted.

Definition startup_line (line : string) : bool :=
  contains "Uvicorn running" line || contains "Application startup complete" line.

Fixpoint watch (ticks : list tick) : watched :=
  match ticks with
  | [] => NotReady
  | Exited :: _ => ProcessExited
  | ReadError :: _ => NotReady
  | Interrupt :: _ => Interrupted
  | Line line :: ticks' =>
      if String.eqb line "" then watch ticks'
      else if detect_oom (Some line) then OutOfMemory
      else if startup_line line then ServerReady
      else watch ticks'
  end.

(** The launches to come, the calls made on processes, and the tests done. *)
Record lab := Lab { lb_hosts : list host; lb_ops : list proc_op; lb_tests : list (Z * bool) }.

Definition op (o : proc_op) : M lab unit :=
  modify (fun l => Lab (lb_hosts l) (lb_ops l ++ [o]) (lb_tests l)).

(** [process.terminate(); try: process.wait(timeout) except TimeoutExpired: process.kill()] *)
Definition stop (h : host) (timeout : Z) : M lab unit :=
  _ ← op Terminate; _ ← op (Wait timeout); if ho_stops h then mret tt else op Kill.

(** After a killed process that does not die within the second wait, the
    [TimeoutExpired] reaches the outer handler. *)
Definition stop_ready (h : host) (success : bool) : M lab bool :=
  _ ← stop h 5;
  if ho_stops h then mret success
  else
    _ ← op (Wait 2);
    if ho_dies h then mret success
    else
      _ ← op Terminate; _ ← op (Wait 2); _ ← op Kill; mret false.

(** The next launch's host; a machine that launches nothing more is one where
    [Popen] fails. *)
Definition next_host : M lab host := fun l =>
  match lb_hosts l with
  | h :: hs => (Lab hs (lb_ops l) (lb_tests l), Ok h)
  | [] => (l, Ok (Host false [] (Ok false) true true))
  end.

Section tuna.
Context `{Platform}.
Context (executable : string) (test_port : Z) (model_path : string).

Definition test_config (num_gpu_experts : Z) (config : list (string * pyval)) : M lab bool :=
  cmd ← lift (build_command executable test_port num_gpu_experts model_path config);
  h ← next_host;
  _ ← op (Popen cmd);
  if negb (ho_starts h) then mret false
  else
    match watch (ho_ticks h) with
    | ProcessExited => mret false
    | OutOfMemory | NotReady => _ ← stop h 2; mret false
    | Interrupted => _ ← stop h 2; raise KeyboardInterrupt ""
    | ServerReady =>
        match ho_inference h with
        | Ok success => stop_ready h success
        | Err _ => _ ← stop h 2; raise KeyboardInterrupt ""
        end
    end.

(** ** The binary search *)

(** The number that is shown as the total: [math.ceil(math.log2(num_experts + 1))]. *)
Definition total_iterations (num_experts : Z) : Z := Z.log2_up (num_experts + 1).

Definition tested (config : list (string * pyval)) (mid : Z) : M lab bool :=
  success ← test_config mid config;
  _ ← modify (fun l => Lab (lb_hosts l) (lb_ops l) (lb_tests l ++ [(mid, success)]));
  mret success.

Fixpoint search (fuel : nat) (config : list (string * pyval)) (left right result : Z)
    : M lab Z :=
  match fuel with
  | O => raise AssertionError "out of fuel"
  | S fuel =>
      if left <=? right then
        let mid := (left + right) / 2 in
        success ← tested config mid;
        if success : bool then search fuel config (mid + 1) right mid
        else search fuel config left (mid - 1) result
      else mret result
  end.

(** A number of experts that is no [int] is not modelled further. *)
Definition find_max_gpu_experts (config_json : option (res pyval)) (config : list (string * pyval))
    : M lab Z :=
  v ← lift (get_num_experts config_json);
  num_experts ← lift (of_option (as_int v) TypeError "must be real number");
  _ ← raise_ifM (num_experts + 1 <=? 0) ValueError "math domain error";
  search (Z.to_nat num_experts + 2) config 0 num_experts 0.

Definition run_tuna (config_json : option (res pyval)) (tensor_parallel_size max_total_tokens : Z)
    (kt_method : string) (kwargs : list (string * pyval)) : M lab Z :=
  let config := [("tensor_parallel_size", PInt tensor_parallel_size);
                 ("max_total_tokens", PInt max_total_tokens);
                 ("kt_method", PStr kt_method)] ++ kwargs in
  result ← find_max_gpu_experts config_json config;
  if result =? 0 then
    success ← tested config 0;
    _ ← raise_ifM (negb success) ValueError "Minimum GPU memory requirements not met";
    mret result
  else mret result.
End tuna.
