(* ===== verification/TunaSpec.v ===== *)
(** * Tuning finds the largest number of GPU experts that works

    Theorems on [Tuna]: the binary search ends, within a logarithmic number of
    launches, at a tested boundary between working and failing numbers; the
    verdict of a run; and no test server is left running. *)
From S2P Require Import Prelude PyStr PyVal Tuna.

Local Open Scope string_scope.
Local Open Scope list_scope.
Local Open Scope Z_scope.

Section tuna.
Context `{Platform}.
Context (executable : string) (test_port : Z) (model_path : string).

Abbreviation run_test := (test_config executable test_port model_path).
Abbreviation try_one := (tested executable test_port model_path).
Abbreviation bsearch := (search executable test_port model_path).

(** ** The log of tests *)

Lemma op_keeps (I : lab → Prop) o :
  (∀ hs os os' ts, I (Lab hs os ts) → I (Lab hs os' ts)) → keeps I (op o).
Proof. intros Hi. apply keeps_modify. intros [hs os ts]. apply Hi. Qed.

Lemma next_host_run l : ∃ h hs, next_host l = (Lab hs (lb_ops l) (lb_tests l), Ok h).
Proof. destruct l as [[|h hs] os ts]; by do 2 eexists. Qed.

Lemma test_config_tests mid config l l' r :
  run_test mid config l = (l', r) → lb_tests l' = lb_tests l.
Proof.
  pose (I := fun l' => lb_tests l' = lb_tests l).
  assert (∀ o, keeps I (op o)) as Ho by (intros o; by apply op_keeps).
  assert (keeps I next_host) as Hn.
  { intros l1 l2 r' H1 Hx. destruct (next_host_run l1) as (h & hs & Hr). rewrite Hr in Hx.
    by injection Hx as <- _. }
  assert (keeps I (run_test mid config)) as Hk; [|by intros Hx; eapply Hk; [|exact Hx]].
  unfold test_config, stop_ready, stop. keeps; auto.
Qed.

Lemma tested_run config mid l l' r :
  try_one config mid l = (l', r) →
  match r with
  | Ok b => lb_tests l' = lb_tests l ++ [(mid, b)]
  | Err e => lb_tests l' = lb_tests l ∧ (∃ l1, run_test mid config l = (l1, Err e))
  end.
Proof.
  intros Hx. unfold tested in Hx. apply bindM_inv in Hx as [(l1 & b & H1 & Hx)|(e & H1 & ->)].
  - rewrite bindM_modify in Hx. injection Hx as <- <-. simpl. by rewrite (test_config_tests _ _ _ _ _ H1).
  - split; [by eapply test_config_tests|by eexists].
Qed.

(** ** The binary search *)

(** What the new tests and the result say about each other. *)
Definition boundary (left right result : Z) (new : list (Z * bool)) (x : Z) : Prop :=
  (x = result ∧ (∀ m, (m, true) ∉ new) ∧ (left ≤ right → (left, false) ∈ new)) ∨
  ((x, true) ∈ new ∧ (∀ m, (m, true) ∈ new → m ≤ x) ∧ (∀ m, (m, false) ∈ new → x < m) ∧
   (x = right ∨ (x + 1, false) ∈ new)).

Definition budget (left right : Z) : Z := if left <=? right then Z.log2 (right - left + 1) + 1 else 0.

Lemma budget_step left right mid :
  left ≤ right → mid = (left + right) / 2 →
  left ≤ mid ≤ right ∧
  budget (mid + 1) right + 1 ≤ budget left right ∧ budget left (mid - 1) + 1 ≤ budget left right.
Proof.
  intros Hle ->. pose proof (Z.div_mod (left + right) 2). pose proof (Z.mod_pos_bound (left + right) 2).
  set (mid := (left + right) / 2) in *. assert (left ≤ mid ≤ right) by lia. split; [done|].
  assert (∀ a b, 2 * (b - a + 1) ≤ right - left + 1 → budget a b + 1 ≤ budget left right) as Hb;
    [|split; apply Hb; lia].
  intros a b Hab. unfold budget. replace (left <=? right) with true by (symmetry; apply Z.leb_le; lia).
  destruct (a <=? b) eqn:E; bools; [|pose proof (Z.log2_nonneg (right - left + 1)); lia].
  assert (Z.log2 (2 * (b - a + 1)) ≤ Z.log2 (right - left + 1)) as Hl by (apply Z.log2_le_mono; lia).
  rewrite Z.log2_double in Hl by lia. lia.
Qed.

Lemma search_run fuel config left right result l l' r :
  bsearch fuel config left right result l = (l', r) →
  Z.of_nat fuel > right - left + 1 → (0 < fuel)%nat →
  ∃ new, lb_tests l' = lb_tests l ++ new ∧
    (∀ m b, (m, b) ∈ new → left ≤ m ≤ right) ∧ NoDup (fst <$> new) ∧
    Z.of_nat (length new) ≤ budget left right ∧
    match r with
    | Ok x => boundary left right result new x
    | Err e => ∃ mid l1 l2, run_test mid config l1 = (l2, Err e)
    end.
Proof.
  revert left right result l. induction fuel as [|fuel IH]; intros left right result l Hx Hf Hp; [lia|].
  cbn [search] in Hx. destruct (left <=? right) eqn:Hlr; bools.
  - cbv zeta in Hx. set (mid := (left + right) / 2) in *.
    destruct (budget_step left right mid Hlr eq_refl) as (Hm & Hb1 & Hb2).
    apply bindM_inv in Hx as [(l1 & b & H1 & Hx)|(e & H1 & ->)]; apply tested_run in H1.
    + destruct b.
      * apply IH in Hx as (new & Hn & Hr & Hd & Hl & Hres); [|lia|lia].
        exists ((mid, true) :: new). split_and!.
        -- by rewrite Hn, H1, <-app_assoc.
        -- intros m b [[= -> ->]|Hin]%elem_of_cons; [lia|]. apply Hr in Hin. lia.
        -- cbn [fmap list_fmap fst]. apply NoDup_cons. split; [|done].
           intros [[m b] [-> Hin]]%list_elem_of_fmap. apply Hr in Hin. simpl in Hin. lia.
        -- simpl length. lia.
        -- destruct r as [x|e]; [|done]. right.
           destruct Hres as [(-> & Hno & Hl0)|(Hx0 & Hs & Hf0 & Ht)].
           ++ split_and!; [left| | |].
              ** intros m [[= ->]|Hin]%elem_of_cons; [lia|]. by apply Hno in Hin.
              ** intros m [[=]|Hin]%elem_of_cons. apply Hr in Hin. lia.
              ** destruct (decide (mid + 1 ≤ right)); [right; right; auto|left; lia].
           ++ pose proof (Hr _ _ Hx0). split_and!; [by right| | |].
              ** intros m [[= ->]|Hin]%elem_of_cons; [lia|]. by apply Hs.
              ** intros m [[=]|Hin]%elem_of_cons. by apply Hf0.
              ** destruct Ht as [->|Ht]; [by left|right; by right].
      * apply IH in Hx as (new & Hn & Hr & Hd & Hl & Hres); [|lia|lia].
        exists ((mid, false) :: new). split_and!.
        -- by rewrite Hn, H1, <-app_assoc.
        -- intros m b [[= -> ->]|Hin]%elem_of_cons; [lia|]. apply Hr in Hin. lia.
        -- cbn [fmap list_fmap fst]. apply NoDup_cons. split; [|done].
           intros [[m b] [-> Hin]]%list_elem_of_fmap. apply Hr in Hin. simpl in Hin. lia.
        -- simpl length. lia.
        -- destruct r as [x|e]; [|done].
           destruct Hres as [(-> & Hno & Hl0)|(Hx0 & Hs & Hf0 & Ht)]; [left|right].
           ++ split_and!; [done| |].
              ** intros m [[=]|Hin]%elem_of_cons. by apply Hno in Hin.
              ** intros _. destruct (decide (left ≤ mid - 1)); [right; auto|].
                 replace left with mid by lia. left.
           ++ pose proof (Hr _ _ Hx0). split_and!; [by right| | |].
              ** intros m [[=]|Hin]%elem_of_cons. by apply Hs.
              ** intros m [[= ->]|Hin]%elem_of_cons; [lia|]. by apply Hf0.
              ** right. destruct Ht as [->|Ht]; [|by right].
                 replace (mid - 1 + 1) with mid by lia. left.
    + destruct H1 as (Ht & l2 & Hrt). exists []. rewrite app_nil_r. split_and!; try done.
      * by intros m b ?%elem_of_nil.
      * constructor.
      * unfold budget. destruct (left <=? right); simpl; [|done].
        pose proof (Z.log2_nonneg (right - left + 1)). lia.
      * by do 3 eexists.
  - injection Hx as <- <-. exists []. rewrite app_nil_r. split_and!; [done| | | |].
    + by intros m b ?%elem_of_nil.
    + constructor.
    + unfold budget. replace (left <=? right) with false by (symmetry; by apply Z.leb_gt). done.
    + left. split_and!; [done|by intros m ?%elem_of_nil|lia].
Qed.

(** The tests agree with a property of the number that, when it holds of a
    number, holds of every smaller one. *)
Definition explained (works : Z → bool) (n : Z) (new : list (Z * bool)) : Prop :=
  (∀ j k, 0 ≤ j ≤ k → k ≤ n → works k = true → works j = true) ∧
  (∀ m b, (m, b) ∈ new → b = works m).

Lemma boundary_maximum works n new x :
  explained works n new → (∀ m b, (m, b) ∈ new → 0 ≤ m ≤ n) → 0 ≤ n → boundary 0 n 0 new x →
  (works x = true ∧ 0 ≤ x ≤ n ∧ ∀ k, 0 ≤ k ≤ n → works k = true → k ≤ x) ∨
  (x = 0 ∧ ∀ k, 0 ≤ k ≤ n → works k = false).
Proof.
  intros [Hmono Hlog] Hr Hn [(-> & _ & Hl)|(Hx & _ & _ & Ht)].
  - right. split; [done|]. intros k Hk. destruct (works k) eqn:E; [|done].
    rewrite (Hlog 0 false) by auto. symmetry. apply (Hmono 0 k); [lia|lia|done].
  - left. pose proof (Hr _ _ Hx). split_and!; [by rewrite <-(Hlog _ _ Hx)|lia|lia|].
    intros k Hk Hw. destruct Ht as [->|Ht]; [lia|]. pose proof (Hr _ _ Ht).
    destruct (decide (k ≤ x)); [done|]. exfalso.
    assert (works (x + 1) = true) as Hw1 by (apply (Hmono (x + 1) k); [lia|lia|done]).
    rewrite <-(Hlog _ _ Ht) in Hw1. done.
Qed.

Lemma find_max_run config_json config l l' r n :
  get_num_experts config_json = Ok (PInt n) → 0 ≤ n →
  find_max_gpu_experts executable test_port model_path config_json config l = (l', r) →
  ∃ new, lb_tests l' = lb_tests l ++ new ∧
    (∀ m b, (m, b) ∈ new → 0 ≤ m ≤ n) ∧ NoDup (fst <$> new) ∧
    Z.of_nat (length new) ≤ Z.log2 (n + 1) + 1 ∧
    match r with
    | Ok x => boundary 0 n 0 new x
    | Err e => ∃ mid l1 l2, run_test mid config l1 = (l2, Err e)
    end.
Proof.
  intros Hg Hn Hx. unfold find_max_gpu_experts in Hx. rewrite Hg, bindM_lift in Hx. cbn [of_option as_int] in Hx.
  rewrite bindM_lift, bindM_raise_if in Hx.
  replace (n + 1 <=? 0) with false in Hx by (symmetry; apply Z.leb_gt; lia).
  apply search_run in Hx; [|lia|lia]. unfold budget in Hx.
  replace (0 <=? n) with true in Hx by (symmetry; apply Z.leb_le; lia). by rewrite Z.sub_0_r in Hx.
Qed.

(** C37. The search over [0 .. n] always ends, whatever each launch does: it
    launches at most [log2 (n + 1) + 1] servers, for different numbers between
    0 and [n]; an error is one that a test raised; and a result is the largest
    number that works, or 0 when none does, whenever some monotone property
    explains the outcomes. *)
Theorem find_max_gpu_experts_maximum config_json config (l l' : lab) r n :
  get_num_experts config_json = Ok (PInt n) → 0 ≤ n →
  find_max_gpu_experts executable test_port model_path config_json config l = (l', r) →
  ∃ new, lb_tests l' = lb_tests l ++ new ∧
    (∀ m b, (m, b) ∈ new → 0 ≤ m ≤ n) ∧ NoDup (fst <$> new) ∧
    Z.of_nat (length new) ≤ Z.log2 (n + 1) + 1 ∧
    match r with
    | Ok x => ∀ works, explained works n new →
        (works x = true ∧ 0 ≤ x ≤ n ∧ ∀ k, 0 ≤ k ≤ n → works k = true → k ≤ x) ∨
        (x = 0 ∧ ∀ k, 0 ≤ k ≤ n → works k = false)
    | Err e => ∃ mid l1 l2, test_config executable test_port model_path mid config l1 = (l2, Err e)
    end.
Proof.
  intros Hg Hn Hx. apply (find_max_run _ _ _ _ _ n) in Hx as (new & Hl & Hr & Hd & Hb & Hres); [|done|done].
  exists new. split_and!; [done..|]. destruct r as [x|e]; [|done].
  intros works He. by eapply boundary_maximum.
Qed.

(** A run's verdict: a number is returned only if a server started with it
    and no larger one works, and the run is refused with the memory error only
    if no number works. *)
Theorem run_tuna_verdict config_json tp mt kt_method kwargs (l l' : lab) r n :
  get_num_experts config_json = Ok (PInt n) → 0 ≤ n →
  run_tuna executable test_port model_path config_json tp mt kt_method kwargs l = (l', r) →
  ∃ new, lb_tests l' = lb_tests l ++ new ∧ ∀ works, explained works n new →
    match r with
    | Ok x => works x = true ∧ 0 ≤ x ≤ n ∧ ∀ k, 0 ≤ k ≤ n → works k = true → k ≤ x
    | Err e => e = Raise ValueError "Minimum GPU memory requirements not met" →
               (∀ mid c l1 l2, test_config executable test_port model_path mid c l1 ≠ (l2, Err e)) →
               ∀ k, 0 ≤ k ≤ n → works k = false
    end.
Proof.
  intros Hg Hn Hx. unfold run_tuna in Hx. cbv zeta in Hx.
  apply bindM_inv in Hx as [(l1 & x & Hf & Hx)|(e & Hf & ->)];
    apply (find_max_run _ _ _ _ _ n) in Hf as (new & Hl & Hr & _ & _ & Hres); try done.
  2: { exists new. split; [done|]. intros works _ _ Hno. destruct Hres as (mid & l1 & l2 & Ht).
       by apply Hno in Ht. }
  destruct (Z.eqb_spec x 0) as [->|Hx0].
  - apply bindM_inv in Hx as [(l2 & b & Ht & Hx)|(e & Ht & ->)]; apply tested_run in Ht.
    + rewrite bindM_raise_if in Hx. exists (new ++ [(0, b)]). split.
      { assert (l' = l2) as -> by (destruct b; by injection Hx as -> _). by rewrite Ht, Hl, <-app_assoc. }
      intros works He. assert (explained works n new) as He'.
      { destruct He as [H1 H2]. split; [done|]. intros m b' Hin. apply H2, elem_of_app. by left. }
      assert (b = works 0) as Hb by (apply He, elem_of_app; right; left).
      destruct (boundary_maximum works n new 0 He' Hr Hn Hres) as [(Hw & H0 & Hm)|[_ Hno]].
      * destruct b; injection Hx as <- <-; [done|]. by rewrite Hw in Hb.
      * destruct b; injection Hx as <- <-; [|done]. rewrite Hno in Hb by lia. done.
    + destruct Ht as (Ht & l2 & Hrt). exists new. split; [by rewrite Ht|].
      intros works _ _ Hno. by apply Hno in Hrt.
  - injection Hx as <- <-. exists new. split; [done|]. intros works He.
    destruct (boundary_maximum works n new x He Hr Hn Hres) as [?|[? _]]; done.
Qed.

(** No test server is left running: whatever a test returns or raises, its
    process did not start, had exited by itself, or was told to terminate and,
    if it did not stop in time, killed. *)
Theorem test_config_stops_server mid config (l l' : lab) r h hs :
  lb_hosts l = h :: hs →
  test_config executable test_port model_path mid config l = (l', r) →
  ∃ ops, lb_ops l' = lb_ops l ++ ops ∧
    ((∀ cmd, Popen cmd ∉ ops) ∨ ho_starts h = false ∨ watch (ho_ticks h) = ProcessExited ∨
     (Terminate ∈ ops ∧ (ho_stops h = true ∨ Kill ∈ ops))).
Proof.
  intros Hh Hx. unfold test_config in Hx. rewrite bindM_lift in Hx.
  destruct (build_command _ _ _ _ _) as [cmd|e]; cycle 1.
  { injection Hx as <- <-. exists []. rewrite app_nil_r. split; [done|]. left.
    by intros cmd ?%elem_of_nil. }
  destruct l as [hosts os ts]. simpl in Hh. subst hosts.
  unfold stop_ready, stop, op, next_host, raise, modify, mbind, M_bind, mret, M_ret in Hx. cbn in Hx.
  destruct (ho_starts h); cbn in Hx; cycle 1.
  { injection Hx as <- <-. eexists. split; [done|]. by right; left. }
  destruct (watch (ho_ticks h)); cbn in Hx; try (destruct (ho_inference h)); cbn in Hx;
    try (destruct (ho_stops h); cbn in Hx); try (destruct (ho_dies h); cbn in Hx);
    injection Hx as <- <-; cbn [lb_ops]; rewrite <-?app_assoc; eexists; (split; [reflexivity|]);
    try (by right; right; left); right; right; right; (split; [right; left|]); try (by left);
    right; do 3 right; left.
Qed.

End tuna.

(** ** Concrete runs *)

Module TunaExample.
#[local] Instance plain : Platform := {|
  sha256 s := s; json_loads _ := None; json_dumps _ := ""; py_repr _ := "?";
|}.

(** A machine on which servers with up to two GPU experts start. *)
Definition good : host := Host true [Line "Loading"; Line "Uvicorn running"] (Ok true) true true.
Definition bad : host := Host true [Line "CUDA out of memory"] (Ok true) false true.
Definition config : list (string * pyval) :=
  [("tensor_parallel_size", PInt 1); ("max_total_tokens", PInt 40000); ("kt_method", PStr "AMXINT4")].
Definition model_config (n : Z) : option (res pyval) := Some (Ok (PDict [("num_experts", PInt n)])).
Definition machine (hosts : list host) : lab := Lab hosts [] [].

Abbreviation search_of n hosts :=
  (find_max_gpu_experts "python" 30000 "/m" (model_config n) config (machine hosts)).
Abbreviation run_of n hosts :=
  (run_tuna "python" 30000 "/m" (model_config n) 1 40000 "AMXINT4" [] (machine hosts)).

Definition hosts5 : list host := [good; bad; bad].

Lemma find_max_gpu_experts_maximum_witness :
  get_num_experts (model_config 5) = Ok (PInt 5) ∧ 0 ≤ 5 ∧
  (search_of 5 hosts5).2 = Ok 2 ∧ lb_tests (search_of 5 hosts5).1 = [(2, true); (4, false); (3, false)] ∧
  ∃ new, lb_tests (search_of 5 hosts5).1 = [] ++ new ∧ Z.of_nat (length new) ≤ Z.log2 (5 + 1) + 1.
Proof.
  split; [reflexivity|]. split; [lia|]. split; [vm_compute; reflexivity|].
  split; [vm_compute; reflexivity|].
  destruct (find_max_gpu_experts_maximum "python" 30000 "/m" (model_config 5) config (machine hosts5)
    (search_of 5 hosts5).1 (Ok 2) 5 eq_refl) as (new & Hn & _ & _ & Hb & _).
  - lia.
  - apply run_result. vm_compute. reflexivity.
  - exists new. split; [exact Hn|exact Hb].
Defined.

Lemma run_tuna_verdict_witness :
  get_num_experts (model_config 5) = Ok (PInt 5) ∧ 0 ≤ 5 ∧
  explained (fun k => k <=? 2) 5 [(2, true); (4, false); (3, false)] ∧
  (run_of 5 hosts5).2 = Ok 2 ∧
  ∃ new, lb_tests (run_of 5 hosts5).1 = [] ++ new ∧
    (explained (fun k => k <=? 2) 5 new → ∀ k, 0 ≤ k ≤ 5 → (k <=? 2) = true → k ≤ 2).
Proof.
  split; [reflexivity|]. split; [lia|]. split.
  { split.
    - intros j k Hjk _ Hk. apply Z.leb_le in Hk. apply Z.leb_le. lia.
    - intros m b Hin. repeat (apply elem_of_cons in Hin as [[= -> ->]|Hin]; [reflexivity|]).
      by apply elem_of_nil in Hin. }
  split; [vm_compute; reflexivity|].
  destruct (run_tuna_verdict "python" 30000 "/m" (model_config 5) 1 40000 "AMXINT4" [] (machine hosts5)
    (run_of 5 hosts5).1 (Ok 2) 5 eq_refl) as (new & Hn & Hv).
  - lia.
  - apply run_result. vm_compute. reflexivity.
  - exists new. split; [exact Hn|]. intros He. exact (proj2 (proj2 (Hv _ He))).
Defined.

Lemma test_config_stops_server_witness :
  lb_hosts (machine [bad]) = bad :: [] ∧
  lb_ops (test_config "python" 30000 "/m" 4 config (machine [bad])).1 !! 3%nat = Some Kill ∧
  ∃ ops, lb_ops (test_config "python" 30000 "/m" 4 config (machine [bad])).1 = [] ++ ops ∧
    ((∀ cmd, Popen cmd ∉ ops) ∨ ho_starts bad = false ∨ watch (ho_ticks bad) = ProcessExited ∨
     (Terminate ∈ ops ∧ (ho_stops bad = true ∨ Kill ∈ ops))).
Proof.
  split; [reflexivity|]. split; [vm_compute; reflexivity|].
  apply (test_config_stops_server "python" 30000 "/m" 4 config (machine [bad]) _ (Ok false) bad []).
  - reflexivity.
  - apply run_result. vm_compute. reflexivity.
Defined.

(** The shown total is [ceil(log2(n + 1))], but a search may take one round more:
    with one expert that works the rounds are shown as [1/1] and [2/1]. *)
Lemma more_rounds_than_shown :
  total_iterations 1 = 1 ∧ (search_of 1 [good; good]).2 = Ok 1 ∧
  lb_tests (search_of 1 [good; good]).1 = [(0, true); (1, true)].
Proof. split_and!; vm_compute; reflexivity. Qed.

(** A configuration with both names is read at [num_experts_per_tok], the number
    of experts that are active for a token, not the number of experts per layer. *)
Lemma active_experts_are_counted :
  get_num_experts (Some (Ok (PDict [("n_routed_experts", PInt 256); ("num_experts_per_tok", PInt 8)])))
    = Ok (PInt 8).
Proof. reflexivity. Qed.
End TunaExample.
