(* ===== verification/KTConfig.v ===== *)
(** * The configuration of a fine-tuning run

    Models [kt-kernel/python/sft/config.py]: the activation policy and its
    environment forms, the environment readers, the OpenMP thread budget, the
    resolution and validation that [KTConfig.__post_init__] does, and the
    unwrapping of configuration containers.  Fields hold values of their
    annotated types; [float] of a text is a parameter. *)
From S2P Require Import Prelude PyStr PyVal Backend.

Local Open Scope string_scope.
Local Open Scope list_scope.
Local Open Scope Z_scope.

(** [os.environ] *)
Abbreviation environ := (list (string * string)).

(** ** The activation policy *)

Record KTActivationPolicy := Policy { ap_cpu : string; ap_gpu : string }.
#[export] Instance policy_eq_dec : EqDecision KTActivationPolicy.
Proof. solve_decision. Defined.

(** [v not in {"retain", "recompute"}]: hashing a list or a dict raises. *)
Definition retention (v : pyval) : res string :=
  match v with
  | PList _ | PDict _ => Err (Raise TypeError "unhashable type")
  | PStr s => if bool_decide (s ∈ ["retain"; "recompute"]) then mret s
              else Err (Raise ValueError "activation_policy must be one of ['recompute', 'retain']")
  | _ => Err (Raise ValueError "activation_policy must be one of ['recompute', 'retain']")
  end.

(** [KTActivationPolicy(cpu=cpu, gpu=gpu)] with its [__post_init__] *)
Definition make_policy (cpu gpu : pyval) : res KTActivationPolicy :=
  cpu ← retention cpu;
  gpu ← retention gpu;
  _ ← raise_if (String.eqb cpu "recompute" && String.eqb gpu "retain") NotImplementedError
        "activation_policy cpu=recompute, gpu=retain is not implemented";
  mret (Policy cpu gpu).

(** A policy object, or any other value. *)
Inductive policy_arg := APolicy (p : KTActivationPolicy) | AValue (v : pyval).

Definition policy_from_value (value : policy_arg) : res KTActivationPolicy :=
  match value with
  | APolicy p => mret p
  | AValue (PDict d) =>
      _ ← raise_if (negb (forallb (fun kv => bool_decide (kv.1 ∈ ["cpu"; "gpu"])) d)
                    || bool_decide (dict_get "cpu" d = None) || bool_decide (dict_get "gpu" d = None))
            ValueError "kt_activation_policy must contain exactly 'cpu' and 'gpu'";
      make_policy (pget "cpu" d) (pget "gpu" d)
  | AValue _ => Err (Raise TypeError "kt_activation_policy must be a KTActivationPolicy or a mapping")
  end.

Definition legacy_activation_policy_from_env (value : string) : res KTActivationPolicy :=
  let normalized := lower (strip value) in
  cpu ← (if bool_decide (normalized ∈ ["1"; "true"; "yes"; "on"]) then mret "retain"
         else if bool_decide (normalized ∈ ["0"; "false"; "no"; "off"]) then mret "recompute"
         else Err (Raise ValueError "KT_REUSE_CHECKPOINT_FORWARD must be a boolean value"));
  make_policy (PStr cpu) (PStr "recompute").

Definition activation_policy_from_env `{Platform} (value : string) : res KTActivationPolicy :=
  policy ← of_option (json_loads value) ValueError
             "ACCELERATE_KT_ACTIVATION_POLICY must be a JSON object with exactly the keys 'cpu' and 'gpu'";
  policy_from_value (AValue policy).

(** ** Environment readers *)

(** The text of a variable that is set and not empty. *)
Definition env_text (env : environ) (key : string) : option string :=
  match dict_get key env with Some "" => None | v => v end.

Definition env_int (env : environ) (key : string) (dflt : option Z) : res (option Z) :=
  match env_text env key with
  | None => mret dflt
  | Some value => n ← int_of_text value; mret (Some n)
  end.

Definition env_float (float_of_text : string -> option spec_float) (env : environ) (key : string)
    (dflt : option spec_float) : res (option spec_float) :=
  match env_text env key with
  | None => mret dflt
  | Some value => f ← of_option (float_of_text value) ValueError "could not convert string to float";
                  mret (Some f)
  end.

Definition env_bool (env : environ) (key : string) (dflt : bool) : bool :=
  match env_text env key with
  | None => dflt
  | Some value => bool_decide (lower value ∈ ["1"; "true"; "yes"])
  end.

(** ** The OpenMP thread budget *)

(** What the machine answers: the affinity mask when it can be asked, the
    number of logical CPUs, and the texts of a CPU's two topology files. *)
Record machine := Machine {
  ma_affinity : option (list Z);
  ma_cpu_count : option Z;
  ma_topology : Z -> option string * option string;
}.

Definition available_cpu_ids (m : machine) : list Z :=
  match ma_affinity m with
  | Some ids => remove_dups ids
  | None =>
      let n := match ma_cpu_count m with Some 0 | None => 1 | Some n => n end in
      Z.of_nat <$> seq 0 (Z.to_nat n)
  end.

Definition read_cpu_topology (m : machine) (cpu_id : Z) : option (Z * Z) :=
  match ma_topology m cpu_id with
  | (Some package_text, Some core_text) =>
      match int_of_text (strip package_text), int_of_text (strip core_text) with
      | Ok package_id, Ok core_id => Some (package_id, core_id)
      | _, _ => None
      end
  | _ => None
  end.

Definition detect_physical_cpu_count (m : machine) : Z :=
  let cpu_ids := available_cpu_ids m in
  let physical_cores := remove_dups (omap (read_cpu_topology m) cpu_ids) in
  Z.max 1 (match physical_cores with
           | [] => Z.of_nat (length cpu_ids)
           | _ => Z.of_nat (length physical_cores)
           end).

Definition omp_budget (m : machine) (env : environ) : res Z :=
  kt_override ← env_int env "ACCELERATE_KT_OMP_NUM_THREADS" None;
  current_omp ← env_int env "OMP_NUM_THREADS" None;
  match kt_override with
  | Some n => mret n
  | None =>
      if 1 <? default 0 current_omp then mret (default 0 current_omp)
      else
        world_size ← env_int env "WORLD_SIZE" (Some 1);
        non_owner ← (if 1 <? default 1 world_size
                     then rank ← env_int env "RANK" (Some 0); mret (negb (default 0 rank =? 0))
                     else mret false);
        mret (if non_owner : bool then 1 else detect_physical_cpu_count m)
  end.

(** The call on torch's thread pool is left out. *)
Definition configure_omp_threads (m : machine) : M environ Z :=
  num_threads ← gets_res (omp_budget m);
  _ ← raise_ifM (num_threads <? 1) ValueError "OpenMP thread count must be positive";
  _ ← modify (dict_set "OMP_NUM_THREADS" (str_of_Z num_threads));
  mret num_threads.

(** ** The configuration *)

Record ktconfig := KTCfg {
  kt_backend : option string;
  kt_num_threads : option Z;
  kt_tp_enabled : option bool;
  kt_threadpool_count : option Z;
  kt_weight_path : option string;
  kt_non_expert_weight_path : option string;
  kt_expert_weight_format : option string;
  kt_weight_lifecycle : option string;
  kt_expert_checkpoint_path : option string;
  kt_num_gpu_experts : option Z;
  kt_skip_expert_loading : option bool;
  kt_share_backward_bb : option bool;
  kt_share_cache_pool : option bool;
  kt_force_fused_expert_lora : option bool;
  kt_max_cache_depth : option Z;
  kt_model_max_length : option Z;
  kt_activation_policy : option policy_arg;
  kt_lora_rank : option Z;
  kt_lora_alpha : option spec_float;
  kt_lora_dropout : option spec_float;
  kt_train_mode : option string;
  kt_full_weight_grad : option bool;
  kt_use_lora_experts : option bool;
  kt_lora_expert_num : option Z;
  kt_lora_expert_intermediate_size : option Z;
  kt_checkpoint_files : option pyval;
  kt_sharded_metadata : option pyval;
  kt_wrap : list pyval;
}.

(** [KTConfig] with no argument, before [__post_init__] *)
Definition empty_config : ktconfig :=
  KTCfg None None None None None None None None None None None None None None None None None None None
    None None None None None None None None [].

Definition ACTIVATION_POLICY_ENV : string := "ACCELERATE_KT_ACTIVATION_POLICY".
Definition LEGACY_REUSE_ENV : string := "KT_REUSE_CHECKPOINT_FORWARD".
Definition KNOWN_SFT_BACKENDS : list string :=
  ["auto"; "int8"; "fp8"; "amxbf16"; "amxint8"; "amxfp8"; "amxint4"; "rawint4"; "amxint4_kgroup";
   "amxbf16_skiplora"; "amxint8_skiplora"; "amxint4_skiplora"].

(** A field, or the value its environment variable gives. *)
Definition or_else {A} (field : option A) (dflt : res (option A)) : res (option A) :=
  match field with Some v => mret (Some v) | None => dflt end.

Definition resolve_format (env : environ) (field : option string) : res (option string) :=
  let given := match field with Some f => Some f | None => dict_get "ACCELERATE_KT_EXPERT_WEIGHT_FORMAT" env end in
  match given with
  | None => mret None
  | Some f =>
      let f := lower (strip f) in
      _ ← raise_if (negb (bool_decide (f ∈ ["bf16"; "int8"; "fp8"; "rawint4"]))) ValueError
            "kt_expert_weight_format must be one of ['bf16', 'fp8', 'int8', 'rawint4']";
      mret (Some f)
  end.

Definition resolve_lifecycle (env : environ) (field : option string) : res string :=
  let given := match field with
               | Some l => l
               | None => default "persistent" (dict_get "ACCELERATE_KT_WEIGHT_LIFECYCLE" env)
               end in
  let l := lower (strip given) in
  _ ← raise_if (negb (bool_decide (l ∈ ["persistent"; "ephemeral"]))) ValueError
        "kt_weight_lifecycle must be one of ['ephemeral', 'persistent']";
  mret l.

(** [value is not None and value.strip() != ""] *)
Definition explicit_text (env : environ) (key : string) : option string :=
  match dict_get key env with
  | Some v => if String.eqb (strip v) "" then None else Some v
  | None => None
  end.

Definition resolve_policy `{Platform} (env : environ) (field : option policy_arg)
    : res KTActivationPolicy :=
  let forwarded_policy := explicit_text env ACTIVATION_POLICY_ENV in
  let legacy_reuse := explicit_text env LEGACY_REUSE_ENV in
  _ ← raise_if (negb (bool_decide (forwarded_policy = None)) &&
                match field with Some _ => true | None => false end) ValueError
        "kt_activation_policy conflicts with ACCELERATE_KT_ACTIVATION_POLICY";
  _ ← raise_if (negb (bool_decide (legacy_reuse = None)) &&
                match field with Some _ => true | None => false end) ValueError
        "kt_activation_policy conflicts with legacy KT_REUSE_CHECKPOINT_FORWARD";
  _ ← raise_if (negb (bool_decide (forwarded_policy = None)) && negb (bool_decide (legacy_reuse = None)))
        ValueError "ACCELERATE_KT_ACTIVATION_POLICY conflicts with legacy KT_REUSE_CHECKPOINT_FORWARD";
  match field with
  | Some arg => policy_from_value arg
  | None =>
      match forwarded_policy, legacy_reuse with
      | Some v, _ => activation_policy_from_env v
      | None, Some v => legacy_activation_policy_from_env v
      | None, None => mret (Policy "recompute" "recompute")
      end
  end.

(** [kt_backend] after its default, before normalisation. *)
Definition default_backend (env : environ) (field fmt : option string) : string :=
  match field with
  | Some b => b
  | None =>
      match env_text env "ACCELERATE_KT_BACKEND" with
      | Some b => b
      | None => if bool_decide (default "" fmt ∈ ["int8"; "fp8"; "rawint4"]) then "auto" else "AMXBF16"
      end
  end.

(** The weight format that a backend implies. *)
Definition infer_format (backend_lower : string) (fmt : option string) : option string :=
  match fmt with
  | Some f => Some f
  | None => if String.eqb backend_lower "int8" then Some "int8"
            else if String.eqb backend_lower "fp8" then Some "fp8"
            else if String.eqb backend_lower "rawint4" then Some "rawint4"
            else if String.eqb backend_lower "amxbf16" then Some "bf16"
            else None
  end.

Definition expected_backend (fmt : option string) : option string :=
  match fmt with
  | Some "bf16" => Some "amxbf16"
  | Some "int8" => Some "int8"
  | Some "fp8" => Some "fp8"
  | Some "rawint4" => Some "rawint4"
  | _ => None
  end.

(** The backend's public name and the weight format that goes with it. *)
Definition resolve_backend (env : environ) (field fmt : option string) : res (string * option string) :=
  let backend := default_backend env field fmt in
  _ ← raise_if (negb (bool_decide (lower backend ∈ KNOWN_SFT_BACKENDS))) ValueError "unknown kt_backend";
  let backend := (normalize_sft_backend backend fmt).1 in
  let fmt := infer_format (lower backend) fmt in
  _ ← raise_if (match expected_backend fmt with
                | Some expected => negb (String.eqb (lower backend) expected)
                | None => false
                end) ValueError "kt_expert_weight_format conflicts with kt_backend";
  mret (backend, fmt).

(** [float(n)] *)
Definition float_of_int (n : Z) : res spec_float :=
  match binary_normalize 53 1024 n 0 false with
  | S754_infinity _ => Err (Raise OverflowError "int too large to convert to float")
  | f => mret f
  end.

(** [bool(field)] *)
Definition flag (field : option bool) : bool := default false field.
(** [int(field or dflt)] *)
Definition int_or (field : option Z) (dflt : Z) : Z :=
  match field with Some 0 | None => dflt | Some n => n end.
(** [bool(text)] *)
Definition given (field : option string) : bool :=
  match field with Some "" | None => false | Some _ => true end.

Section post_init.
Context `{Platform} (float_of_text : string -> option spec_float).

(** The last part of [__post_init__] before the checks: every field that is
    [None] is taken from its variable, or gets its default. *)
Definition fill_defaults (env : environ) (c : ktconfig) (backend : string) (fmt : option string)
    (lifecycle : string) (policy : KTActivationPolicy) : res ktconfig :=
  num_threads ← or_else (kt_num_threads c) (env_int env "ACCELERATE_KT_NUM_THREADS" (Some 1));
  let tp_enabled := default (env_bool env "ACCELERATE_KT_TP_ENABLED" false) (kt_tp_enabled c) in
  threadpool_count ← or_else (kt_threadpool_count c) (env_int env "ACCELERATE_KT_THREADPOOL_COUNT" (Some 1));
  let path field key := match field with Some p => Some p | None => dict_get key env end in
  let weight_path := path (kt_weight_path c) "ACCELERATE_KT_WEIGHT_PATH" in
  let non_expert_weight_path := path (kt_non_expert_weight_path c) "ACCELERATE_KT_NON_EXPERT_WEIGHT_PATH" in
  let expert_checkpoint_path := path (kt_expert_checkpoint_path c) "ACCELERATE_KT_EXPERT_CHECKPOINT_PATH" in
  num_gpu_experts ← or_else (kt_num_gpu_experts c) (env_int env "ACCELERATE_KT_NUM_GPU_EXPERTS" (Some 0));
  max_cache_depth ← or_else (kt_max_cache_depth c) (env_int env "ACCELERATE_KT_MAX_CACHE_DEPTH" (Some 2));
  let share_backward_bb := default (env_bool env "ACCELERATE_KT_SHARE_BACKWARD_BB"
        (negb (bool_decide (fmt = Some "rawint4")))) (kt_share_backward_bb c) in
  let share_cache_pool := default false (kt_share_cache_pool c) in
  let force_fused := default (env_bool env "ACCELERATE_KT_FORCE_FUSED_EXPERT_LORA" false)
                       (kt_force_fused_expert_lora c) in
  let use_lora_experts := default (env_bool env "ACCELERATE_KT_USE_LORA_EXPERTS" false)
                            (kt_use_lora_experts c) in
  lora_expert_num ← or_else (kt_lora_expert_num c) (env_int env "ACCELERATE_KT_LORA_EXPERT_NUM" None);
  lora_expert_size ← or_else (kt_lora_expert_intermediate_size c)
                       (env_int env "ACCELERATE_KT_LORA_EXPERT_INTERMEDIATE_SIZE" None);
  lora_rank ← or_else (kt_lora_rank c) (env_int env "ACCELERATE_KT_LORA_RANK" None);
  lora_alpha ← or_else (kt_lora_alpha c) (env_float float_of_text env "ACCELERATE_KT_LORA_ALPHA" None);
  lora_alpha ← or_else lora_alpha
                 (match lora_rank with
                  | Some rank => alpha ← float_of_int (rank * 2); mret (Some alpha)
                  | None => mret None
                  end);
  lora_dropout ← or_else (kt_lora_dropout c)
                   (env_float float_of_text env "ACCELERATE_KT_LORA_DROPOUT" (Some float_zero));
  let dropout := default float_zero lora_dropout in
  _ ← raise_if (negb (SFleb float_zero dropout && SFltb dropout float_one)) ValueError
        "kt_lora_dropout must be in [0, 1)";
  let train_mode := default (default "lora" (dict_get "ACCELERATE_KT_TRAIN_MODE" env)) (kt_train_mode c) in
  let full_weight_grad := default (bool_decide (train_mode ∈ ["full"; "hybrid"])) (kt_full_weight_grad c) in
  model_max_length ← or_else (kt_model_max_length c) (env_int env "ACCELERATE_KT_MODEL_MAX_LENGTH" None);
  let skip := match kt_skip_expert_loading c with
              | Some b => Some b
              | None => match dict_get "ACCELERATE_KT_SKIP_EXPERT_LOADING" env with
                        | Some _ => Some (env_bool env "ACCELERATE_KT_SKIP_EXPERT_LOADING" true)
                        | None => None
                        end
              end in
  mret (KTCfg (Some backend) num_threads (Some tp_enabled) threadpool_count weight_path
          non_expert_weight_path fmt (Some lifecycle) expert_checkpoint_path num_gpu_experts skip
          (Some share_backward_bb) (Some share_cache_pool) (Some force_fused) max_cache_depth
          model_max_length (Some (APolicy policy)) lora_rank lora_alpha (Some dropout) (Some train_mode)
          (Some full_weight_grad) (Some use_lora_experts) lora_expert_num lora_expert_size
          (kt_checkpoint_files c) (kt_sharded_metadata c) (kt_wrap c)).

Definition backend_is (c : ktconfig) (name : string) : bool :=
  String.eqb (lower (default "None" (kt_backend c))) name.
Definition full_training (c : ktconfig) : bool :=
  negb (bool_decide (kt_train_mode c = Some "lora")) || flag (kt_full_weight_grad c).

Definition check_int8 (c : ktconfig) : res unit :=
  _ ← raise_if (negb (backend_is c "int8")) ValueError "INT8 SFT requires kt_backend='auto' or kt_backend='INT8'";
  _ ← raise_if (full_training c) ValueError "INT8 SFT supports frozen-base LoRA only";
  _ ← raise_if (negb (int_or (kt_num_gpu_experts c) 0 =? 0)) ValueError "INT8 SFT requires kt_num_gpu_experts=0";
  _ ← raise_if (flag (kt_use_lora_experts c)) ValueError "INT8 SFT does not support GPU LoRA experts";
  _ ← raise_if (negb (flag (kt_share_backward_bb c))) ValueError "INT8 SFT requires kt_share_backward_bb=true";
  _ ← raise_if (given (kt_expert_checkpoint_path c)) ValueError "kt_expert_checkpoint_path is not supported";
  raise_if (negb (given (kt_weight_path c))) ValueError "INT8 SFT requires kt_weight_path".

Definition check_fp8 (c : ktconfig) : res unit :=
  _ ← raise_if (negb (backend_is c "fp8")) ValueError "FP8 SFT requires kt_backend='auto' or kt_backend='FP8'";
  _ ← raise_if (full_training c) ValueError "FP8 SFT supports frozen-base LoRA only";
  _ ← raise_if (int_or (kt_lora_rank c) 0 <=? 0) ValueError "FP8 SFT requires kt_lora_rank > 0";
  _ ← raise_if (negb (int_or (kt_num_gpu_experts c) 0 =? 0)) ValueError "FP8 SFT requires kt_num_gpu_experts=0";
  _ ← raise_if (flag (kt_use_lora_experts c)) ValueError "FP8 SFT does not support GPU LoRA experts";
  _ ← raise_if (negb (flag (kt_share_backward_bb c))) ValueError "FP8 SFT requires kt_share_backward_bb=true";
  raise_if (negb (bool_decide (kt_weight_lifecycle c = Some "persistent"))) ValueError
    "FP8 SFT requires kt_weight_lifecycle='persistent'".

Definition effective_threadpool_count (c : ktconfig) : Z :=
  if flag (kt_tp_enabled c) then int_or (kt_threadpool_count c) 1 else 1.

Definition check_rawint4 (c : ktconfig) : res unit :=
  _ ← raise_if (negb (backend_is c "rawint4")) ValueError
        "RAWINT4 SFT requires kt_backend='auto' or kt_backend='RAWINT4'";
  _ ← raise_if (full_training c) ValueError "RAWINT4 SFT supports frozen-base LoRA only";
  _ ← raise_if (negb (int_or (kt_lora_rank c) 0 =? 8)) ValueError "RAWINT4 SFT v1 requires kt_lora_rank=8";
  _ ← raise_if (negb (SFeqb (default float_zero (kt_lora_dropout c)) float_zero)) ValueError
        "RAWINT4 SFT v1 requires kt_lora_dropout=0";
  _ ← raise_if (negb (bool_decide (effective_threadpool_count c ∈ [1; 2]))) ValueError
        "RAWINT4 SFT v1 supports TP1/TP2 only";
  _ ← raise_if (negb (int_or (kt_num_gpu_experts c) 0 =? 0)) ValueError "RAWINT4 SFT requires kt_num_gpu_experts=0";
  _ ← raise_if (flag (kt_use_lora_experts c)) ValueError "RAWINT4 SFT does not support GPU LoRA experts";
  _ ← raise_if (flag (kt_share_backward_bb c)) ValueError "kt_share_backward_bb must be false";
  _ ← raise_if (negb (flag (kt_force_fused_expert_lora c))) ValueError
        "RAWINT4 SFT requires kt_force_fused_expert_lora=true";
  _ ← raise_if (given (kt_expert_checkpoint_path c)) ValueError "kt_expert_checkpoint_path is not supported";
  _ ← raise_if (negb (bool_decide (kt_weight_lifecycle c = Some "persistent"))) ValueError
        "RAWINT4 SFT requires kt_weight_lifecycle='persistent'";
  raise_if (match kt_activation_policy c with
            | Some (APolicy p) => String.eqb (ap_cpu p) "retain" && String.eqb (ap_gpu p) "recompute"
            | _ => false
            end) ValueError "checkpoint-forward reuse (cpu=retain,gpu=recompute) is not supported".

Definition format_is (c : ktconfig) (fmt : string) : bool :=
  bool_decide (kt_expert_weight_format c = Some fmt).

Definition check_config (c : ktconfig) : res unit :=
  _ ← raise_if (given (kt_non_expert_weight_path c) && negb (format_is c "int8")) ValueError
        "kt_non_expert_weight_path is supported only with kt_expert_weight_format='int8'";
  _ ← (if format_is c "int8" then check_int8 c else mret tt);
  _ ← (if format_is c "fp8" then check_fp8 c else mret tt);
  _ ← (if format_is c "rawint4" then check_rawint4 c else mret tt);
  if bool_decide (kt_weight_lifecycle c = Some "ephemeral")
  then raise_if (negb (format_is c "int8")) ValueError
         "kt_weight_lifecycle='ephemeral' is supported only for INT8 .kt weights"
  else mret tt.

(** [__post_init__] after the thread budget is set *)
Definition resolve (env : environ) (c : ktconfig) : res ktconfig :=
  fmt ← resolve_format env (kt_expert_weight_format c);
  lifecycle ← resolve_lifecycle env (kt_weight_lifecycle c);
  policy ← resolve_policy env (kt_activation_policy c);
  '(backend, fmt) ← resolve_backend env (kt_backend c) fmt;
  c ← fill_defaults env c backend fmt lifecycle policy;
  _ ← check_config c;
  mret c.

Definition post_init (m : machine) (c : ktconfig) : M environ ktconfig :=
  _ ← configure_omp_threads m;
  gets_res (fun env => resolve env c).

(** ** Configuration containers *)

(** A mapping: its keys, [None] for one that is no text; its ["enabled"] entry;
    and the configuration that its fields make. *)
Record mapping := Mapping {
  mp_keys : list (option string);
  mp_enabled : option pyval;
  mp_fields : ktconfig;
}.

(** The values that a container overrides in what it holds. *)
Record overrides := Overrides {
  ov_checkpoint_files : option pyval;
  ov_sharded_metadata : option pyval;
  ov_skip_expert_loading : option bool;
}.

Inductive kobj := OConfig (c : ktconfig) | OMapping (mp : mapping) | OContainer (id : Z).

(** An object: its attributes' names, and its two container attributes, where
    [Some None] is an attribute that holds [None]. *)
Record container := Container {
  ct_attributes : list string;
  ct_kt_config : option (option kobj);
  ct_config : option (option kobj);
  ct_overrides : overrides;
}.

Definition field_names : list string :=
  ["kt_backend"; "kt_num_threads"; "kt_tp_enabled"; "kt_threadpool_count"; "kt_weight_path";
   "kt_non_expert_weight_path"; "kt_expert_weight_format"; "kt_weight_lifecycle";
   "kt_expert_checkpoint_path"; "kt_num_gpu_experts"; "kt_skip_expert_loading"; "kt_share_backward_bb";
   "kt_share_cache_pool"; "kt_force_fused_expert_lora"; "kt_max_cache_depth"; "kt_model_max_length";
   "kt_activation_policy"; "kt_lora_rank"; "kt_lora_alpha"; "kt_lora_dropout"; "kt_train_mode";
   "kt_full_weight_grad"; "kt_use_lora_experts"; "kt_lora_expert_num";
   "kt_lora_expert_intermediate_size"; "kt_checkpoint_files"; "kt_sharded_metadata"; "kt_wrap_fn";
   "kt_wrap_kwargs"].

Definition validated_mapping (mp : mapping) : res ktconfig :=
  _ ← raise_if (existsb (fun k => bool_decide (k = None)) (mp_keys mp)) TypeError
        "KTConfig field names must be strings";
  _ ← raise_if (match mp_enabled mp with
                | None | Some PNone | Some (PBool _) => false | Some _ => true end) TypeError
        "KT framework field 'enabled' must be a bool or None";
  _ ← raise_if (existsb (fun k => match k with
                                  | Some k => negb (bool_decide (k ∈ "enabled" :: field_names))
                                  | None => false end) (mp_keys mp)) TypeError
        "Unknown KTConfig fields";
  mret (mp_fields mp).

Definition override {A} (o v : option A) : option A := match o with Some _ => o | None => v end.

Definition apply_overrides (o : overrides) (c : ktconfig) : ktconfig :=
  KTCfg (kt_backend c) (kt_num_threads c) (kt_tp_enabled c) (kt_threadpool_count c) (kt_weight_path c)
    (kt_non_expert_weight_path c) (kt_expert_weight_format c) (kt_weight_lifecycle c)
    (kt_expert_checkpoint_path c) (kt_num_gpu_experts c)
    (override (ov_skip_expert_loading o) (kt_skip_expert_loading c)) (kt_share_backward_bb c)
    (kt_share_cache_pool c) (kt_force_fused_expert_lora c) (kt_max_cache_depth c)
    (kt_model_max_length c) (kt_activation_policy c) (kt_lora_rank c) (kt_lora_alpha c)
    (kt_lora_dropout c) (kt_train_mode c) (kt_full_weight_grad c) (kt_use_lora_experts c)
    (kt_lora_expert_num c) (kt_lora_expert_intermediate_size c)
    (override (ov_checkpoint_files o) (kt_checkpoint_files c))
    (override (ov_sharded_metadata o) (kt_sharded_metadata c)) (kt_wrap c).

Definition unknown_attribute (name : string) : bool :=
  starts_with "kt_" name && negb (bool_decide (name ∈ field_names)) && negb (String.eqb name "kt_config").

(** [_from_object]; [Ok None] is a recursion that the fuel does not cover. *)
Fixpoint from_object_fuel (fuel : nat) (m : machine) (store : gmap Z container) (seen : gset Z)
    (obj : kobj) : M environ (option ktconfig) :=
  match fuel with
  | O => mret None
  | S fuel =>
      match obj with
      | OConfig c => mret (Some c)
      | OMapping mp => c ← lift (validated_mapping mp); c ← post_init m c; mret (Some c)
      | OContainer id =>
          _ ← raise_ifM (bool_decide (id ∈ seen)) ValueError "Cyclic KT configuration container";
          let seen := {[id]} ∪ seen in
          ct ← lift (of_option (store !! id) AttributeError "");
          _ ← raise_ifM (existsb unknown_attribute (ct_attributes ct)) TypeError "Unknown KTConfig fields";
          let held := match ct_kt_config ct with
                      | Some (Some nested) => Some nested
                      | _ => match ct_config ct with Some (Some nested) => Some nested | _ => None end
                      end in
          match held with
          | Some (OContainer id') =>
              _ ← raise_ifM (id' =? id) ValueError "Cyclic KT configuration container";
              resolved ← from_object_fuel fuel m store seen (OContainer id');
              mret (apply_overrides (ct_overrides ct) <$> resolved)
          | Some (OMapping mp) =>
              c ← lift (validated_mapping mp);
              c ← post_init m (apply_overrides (ct_overrides ct) c);
              mret (Some c)
          | Some (OConfig c) => mret (Some (apply_overrides (ct_overrides ct) c))
          | None =>
              if bool_decide (ct_kt_config ct = None) && bool_decide (ct_config ct = None)
              then raise TypeError "KT configuration must be a KTConfig, mapping, or public container"
              else c ← post_init m empty_config; mret (Some c)
          end
      end
  end.

Definition from_object (m : machine) (store : gmap Z container) (obj : kobj) : M environ ktconfig :=
  c ← from_object_fuel (S (S (size store))) m store ∅ obj;
  lift (of_option c AssertionError "out of fuel").
End post_init.
