(* ===== verification/KTConfigSpec.v ===== *)
(** * A resolved configuration is valid and stable

    Theorems on [KTConfig]: the activation policy has one source and one of
    three values, resolving a resolved configuration changes nothing, quantised
    base weights are only accepted for pure LoRA on the CPU, the OpenMP budget
    is positive and settled by one call, and unwrapping containers ends. *)
From S2P Require Import Prelude PyStr PyVal Backend KTConfig.
From Stdlib Require Import Ascii.

Local Open Scope string_scope.
Local Open Scope list_scope.
Local Open Scope Z_scope.

(** ** Texts and dictionaries *)

Lemma digit_not_space c : is_digit c = true → is_space c = false.
Proof.
  unfold is_digit, is_space. intros Hd. bools. apply orb_false_iff.
  split; apply andb_false_iff; [right|right]; apply Z.leb_gt; lia.
Qed.

Lemma lstrip_digits s : str_forall is_digit s = true → lstrip s = s.
Proof. destruct s as [|c s]; [done|]. simpl. intros [Hc _]%andb_true_iff. by rewrite digit_not_space. Qed.

Lemma strip_digits s : str_forall is_digit s = true → strip s = s.
Proof.
  intros Hs. unfold strip. rewrite (lstrip_digits s) by done.
  rewrite lstrip_digits by (by rewrite str_forall_rev). apply str_rev_rev.
Qed.

Lemma underscored_digits_val s acc n :
  digits_val acc s = Some n → underscored_digits true acc s = Some n.
Proof.
  revert acc. induction s as [|c s IH]; intros acc; [done|]. simpl.
  destruct (is_digit c); [|done]. apply IH.
Qed.

Lemma int_of_str_of_Z n : 0 ≤ n → int_of_text (str_of_Z n) = Ok n.
Proof.
  intros Hn. pose proof (str_of_Z_digits n Hn) as Hd. pose proof (parse_str_of_Z n Hn) as Hp.
  unfold int_of_text. rewrite strip_digits by done.
  destruct (str_of_Z n) as [|c s] eqn:E; [discriminate Hp|].
  simpl in Hd. apply andb_true_iff in Hd as [Hc Hd].
  assert (Ascii.eqb c "-"%char = false) as -> by (apply Ascii.eqb_neq; intros ->; discriminate Hc).
  assert (Ascii.eqb c "+"%char = false) as -> by (apply Ascii.eqb_neq; intros ->; discriminate Hc).
  cbn [orb]. assert (underscored_digits false 0 (String c s) = Some n) as ->; [|done].
  rewrite parse_digits_eq in Hp by done. cbn [underscored_digits digits_val] in *.
  destruct (is_digit c); [|done]. by apply underscored_digits_val.
Qed.

Lemma dict_set_set {A} k (v : A) d : dict_set k v (dict_set k v d) = dict_set k v d.
Proof.
  induction d as [|[k' v'] d IH]; simpl; [by rewrite String.eqb_refl|].
  destruct (String.eqb k k') eqn:E; simpl; [by rewrite String.eqb_refl|]. by rewrite E, IH.
Qed.

Lemma env_int_other env k v key dflt :
  key ≠ k → env_int (dict_set k v env) key dflt = env_int env key dflt.
Proof. intros Hne. unfold env_int, env_text. by rewrite dict_get_set_ne by done. Qed.

(** ** The OpenMP thread budget *)

Lemma configure_run m env env' r :
  configure_omp_threads m env = (env', r) →
  match r with
  | Ok n => omp_budget m env = Ok n ∧ 1 ≤ n ∧ env' = dict_set "OMP_NUM_THREADS" (str_of_Z n) env
  | Err _ => env' = env
  end.
Proof.
  unfold configure_omp_threads. rewrite bindM_gets_res.
  destruct (omp_budget m env) as [n|e]; [|by intros [= <- <-]].
  rewrite bindM_raise_if. destruct (n <? 1) eqn:E; [by intros [= <- <-]|].
  rewrite bindM_modify. intros Hx. injection Hx as <- <-. bools. done.
Qed.

Lemma budget_settled m env n :
  omp_budget m env = Ok n → 1 ≤ n →
  omp_budget m (dict_set "OMP_NUM_THREADS" (str_of_Z n) env) = Ok n.
Proof.
  unfold omp_budget. intros Hb Hn.
  rewrite (env_int_other env _ _ "ACCELERATE_KT_OMP_NUM_THREADS"), (env_int_other env _ _ "WORLD_SIZE"),
    (env_int_other env _ _ "RANK") by done.
  inv_bind Hb as o Ho. inv_bind Hb as cur Hc. rewrite Ho. simpl.
  assert (env_int (dict_set "OMP_NUM_THREADS" (str_of_Z n) env) "OMP_NUM_THREADS" None = Ok (Some n)) as ->.
  { unfold env_int, env_text. rewrite dict_get_set_eq.
    pose proof (parse_str_of_Z n ltac:(lia)) as Hp.
    pose proof (int_of_str_of_Z n ltac:(lia)) as Hi.
    destruct (str_of_Z n); [discriminate Hp|]. by rewrite Hi. }
  simpl. destruct o as [o|]; [done|]. destruct (1 <? n) eqn:E1; [done|].
  destruct (1 <? default 0 cur) eqn:E2; [|done]. injection Hb as <-. bools. lia.
Qed.

Lemma cpu_count_bounds m :
  1 ≤ detect_physical_cpu_count m ≤ Z.max 1 (Z.of_nat (length (available_cpu_ids m))).
Proof.
  unfold detect_physical_cpu_count. set (ids := available_cpu_ids m).
  assert (length (remove_dups (omap (read_cpu_topology m) ids)) ≤ length ids)%nat as Hl.
  { etrans; [apply length_remove_dups_le|]. clear. induction ids as [|i js IH]; [done|].
    cbn [omap list_omap length]. destruct (read_cpu_topology m i); cbn [length];
      change (list_omap _ _ (read_cpu_topology m) js) with (omap (read_cpu_topology m) js); lia. }
  destruct (remove_dups _) eqn:E; lia.
Qed.

(** The OpenMP budget of a run is positive and is written to the
    environment, where a second call finds it and changes nothing; an explicit
    override wins, otherwise a thread count above one is kept, otherwise a
    distributed rank that owns nothing gets one thread, otherwise the count of
    physical cores, which never exceeds the CPUs the process may use. *)
Theorem omp_budget_settled (m : machine) (env env' : environ) (n : Z) :
  configure_omp_threads m env = (env', Ok n) →
  1 ≤ n ∧ dict_get "OMP_NUM_THREADS" env' = Some (str_of_Z n) ∧
  configure_omp_threads m env' = (env', Ok n) ∧
  (∀ k, env_int env "ACCELERATE_KT_OMP_NUM_THREADS" None = Ok (Some k) → n = k) ∧
  (env_int env "ACCELERATE_KT_OMP_NUM_THREADS" None = Ok None →
   (∀ k, env_int env "OMP_NUM_THREADS" None = Ok (Some k) → 1 < k → n = k) ∧
   (env_int env "OMP_NUM_THREADS" None = Ok None →
    n ≤ Z.max 1 (Z.of_nat (length (available_cpu_ids m))))).
Proof.
  intros Hx. pose proof (configure_run _ _ _ _ Hx) as (Hb & Hn & ->).
  split_and!; [done|by rewrite dict_get_set_eq| | |].
  - unfold configure_omp_threads. rewrite bindM_gets_res, budget_settled by done.
    rewrite bindM_raise_if. replace (n <? 1) with false by (symmetry; apply Z.ltb_ge; lia).
    rewrite bindM_modify, dict_set_set. done.
  - intros k Hk. unfold omp_budget in Hb. rewrite Hk in Hb. simpl in Hb. inv_bind Hb as cur Hc.
    by injection Hb as <-.
  - intros Ho. unfold omp_budget in Hb. rewrite Ho in Hb. simpl in Hb. split.
    + intros k Hk H1. rewrite Hk in Hb. simpl in Hb. apply Z.ltb_lt in H1. rewrite H1 in Hb.
      by injection Hb as <-.
    + intros Hc. rewrite Hc in Hb. simpl in Hb. inv_bind Hb as w Hw. inv_bind Hb as b Hbb.
      injection Hb as <-. pose proof (cpu_count_bounds m). destruct b; lia.
Qed.

(** ** The activation policy *)

Definition supported (p : KTActivationPolicy) : Prop :=
  p ∈ [Policy "recompute" "recompute"; Policy "retain" "recompute"; Policy "retain" "retain"].

Lemma retention_ok v s : retention v = Ok s → v = PStr s ∧ (s = "retain" ∨ s = "recompute").
Proof.
  unfold retention. destruct v; try done. case_bool_decide as Hin; [|done]. intros [= <-].
  split; [done|]. by apply elem_of_cons in Hin as [->| ->%list_elem_of_singleton]; [left|right].
Qed.

Lemma make_policy_ok cpu gpu p :
  make_policy cpu gpu = Ok p → supported p ∧ cpu = PStr (ap_cpu p) ∧ gpu = PStr (ap_gpu p).
Proof.
  unfold make_policy. intros Hx. inv_bind Hx as c Hc. inv_bind Hx as g Hg. inv_guard Hx as Hr.
  injection Hx as <-. apply retention_ok in Hc as [-> Hc], Hg as [-> Hg]. simpl. split; [|done].
  unfold supported. rewrite !elem_of_cons.
  destruct Hc as [->| ->], Hg as [->| ->]; simpl in *; try discriminate Hr; auto.
Qed.

Lemma from_value_ok arg p :
  policy_from_value arg = Ok p → (∀ q, arg = APolicy q → supported q) →
  supported p ∧ (∀ v, arg = AValue v → ∃ d, v = PDict d ∧
    dict_get "cpu" d = Some (PStr (ap_cpu p)) ∧ dict_get "gpu" d = Some (PStr (ap_gpu p)) ∧
    ∀ k w, (k, w) ∈ d → k = "cpu" ∨ k = "gpu").
Proof.
  intros Hx Hs. destruct arg as [q|v]; [injection Hx as <-; split; [by apply Hs|done]|].
  destruct v; try done. simpl in Hx. inv_guard Hx as Hg. apply make_policy_ok in Hx as (Hp & Hc & Hgp).
  split; [done|]. intros v [= <-]. exists d. apply orb_false_iff in Hg as [Hg H3].
  apply orb_false_iff in Hg as [H1 H2]. apply negb_false_iff in H1. bools. unfold pget in *.
  destruct (dict_get "cpu" d) as [c|]; [|done]. destruct (dict_get "gpu" d) as [g|]; [|done].
  simpl in *. subst. split_and!; [done..|]. intros k w Hk.
  apply forallb_forall with (x := (k, w)) in H1; [|by apply list_elem_of_In].
  apply bool_decide_eq_true in H1. simpl in H1. by apply elem_of_cons in H1 as [->| ->%list_elem_of_singleton]; auto.
Qed.

Section resolve.
Context `{Platform} (float_of_text : string → option spec_float).

(** A field that holds a policy object holds one that was constructed. *)
Definition constructed (field : option policy_arg) : Prop := ∀ p, field = Some (APolicy p) → supported p.

Lemma policy_supported env field p :
  constructed field → resolve_policy env field = Ok p → supported p.
Proof.
  intros Hc Hx. unfold resolve_policy in Hx. inv_guard Hx as _. inv_guard Hx as _. inv_guard Hx as _.
  destruct field as [arg|].
  - apply from_value_ok in Hx as [Hx _]; [done|]. intros q ->. by apply Hc.
  - destruct (explicit_text env ACTIVATION_POLICY_ENV) as [fw|].
    + unfold activation_policy_from_env in Hx. inv_bind Hx as v Hv.
      by apply from_value_ok in Hx as [Hx _].
    + destruct (explicit_text env LEGACY_REUSE_ENV) as [lg|]; [|injection Hx as <-; left].
      unfold legacy_activation_policy_from_env in Hx. inv_bind Hx as c Hcpu.
      by apply make_policy_ok in Hx as [Hx _].
Qed.

(** The activation policy comes from one source: if the field, the forwarded
    variable and the legacy variable give more than one, [ValueError] is raised;
    otherwise the result is one of the three supported policies, the default
    only when there is no source. *)
Theorem activation_policy_has_one_source (env : environ) (field : option policy_arg) :
  constructed field →
  let sources := [bool_decide (explicit_text env ACTIVATION_POLICY_ENV = None);
                  bool_decide (explicit_text env LEGACY_REUSE_ENV = None);
                  match field with None => true | Some _ => false end] in
  match resolve_policy env field with
  | Ok p => (length (List.filter negb sources) ≤ 1)%nat ∧ supported p ∧
            (List.filter negb sources = [] → p = Policy "recompute" "recompute")
  | Err e => (2 ≤ length (List.filter negb sources))%nat → exn_cls e = ValueError
  end.
Proof.
  intros Hc. cbv zeta. pose proof (policy_supported env field) as Hs. unfold resolve_policy in *. cbv zeta.
  destruct (explicit_text env ACTIVATION_POLICY_ENV) as [fw|] eqn:Ef;
    destruct (explicit_text env LEGACY_REUSE_ENV) as [lg|] eqn:El; destruct field as [arg|]; cbn in *; try done.
  - destruct (activation_policy_from_env fw) as [p|e] eqn:Hp; [|intros; lia].
    split_and!; [lia|by apply Hs|done].
  - destruct (legacy_activation_policy_from_env lg) as [p|e] eqn:Hp; [|intros; lia].
    split_and!; [lia|by apply Hs|done].
  - destruct (policy_from_value arg) as [p|e] eqn:Hp; [|intros; lia].
    split_and!; [lia|by apply Hs|done].
  - split_and!; [lia|left|done].
Qed.

(** ** Stability *)

Definition formats : list (option string) := [None; Some "bf16"; Some "int8"; Some "fp8"; Some "rawint4"].

Lemma resolve_format_ok env field f :
  resolve_format env field = Ok f → f ∈ formats ∧ (f = None → resolve_format env None = Ok None).
Proof.
  unfold resolve_format. cbv zeta.
  destruct (match field with Some f => Some f | None => _ end) as [g|] eqn:Eg.
  - intros Hx. inv_guard Hx as Hg. injection Hx as <-. bools. split; [|done].
    unfold formats. rewrite !elem_of_cons, elem_of_nil in Hg.
    rewrite !elem_of_cons. destruct Hg as [->|[->|[->|[->|[]]]]]; auto 10.
  - intros Hx. injection Hx as <-. split; [left|]. intros _. destruct field; [done|].
    by rewrite Eg.
Qed.

Lemma resolve_format_known env f : Some f ∈ formats → resolve_format env (Some f) = Ok (Some f).
Proof.
  unfold formats. rewrite !elem_of_cons. intros [E|[E|[E|[E|[E|E]]]]]; try discriminate E;
    try (injection E as ->; reflexivity). by apply elem_of_nil in E.
Qed.

Lemma infer_format_ok b f : f ∈ formats → infer_format b f ∈ formats ∧ infer_format b (infer_format b f) = infer_format b f.
Proof.
  intros Hf. destruct f as [f|]; [done|]. destruct (infer_format b None) as [g|] eqn:E; [|split; [left|done]].
  split; [|done]. unfold infer_format in E. unfold formats. rewrite !elem_of_cons.
  repeat (destruct (String.eqb b _); [injection E as <-; auto 10|]). done.
Qed.

Lemma normalize_cases backend fmt :
  let n := (normalize_sft_backend backend fmt).1 in
  n ∈ [INT8_BACKEND; FP8_BACKEND; RAWINT4_BACKEND; "AMXBF16"] ∨
  n = backend ∧ ∀ fmt', normalize_sft_backend backend fmt' = (backend, false).
Proof.
  cbv zeta. unfold normalize_sft_backend. rewrite !elem_of_cons.
  destruct (String.eqb _ "auto"); [left; repeat case_match; simpl; auto 10|].
  repeat (destruct (String.eqb (lower (strip backend)) _); [left; simpl; auto 10|]). by right.
Qed.

Lemma normalize_known backend fmt fmt' :
  lower backend ∈ KNOWN_SFT_BACKENDS →
  let n := (normalize_sft_backend backend fmt).1 in
  lower n ∈ KNOWN_SFT_BACKENDS ∧ (normalize_sft_backend n fmt').1 = n.
Proof.
  intros Hk. cbv zeta. destruct (normalize_cases backend fmt) as [Hn|[-> Hn]]; [|by rewrite Hn].
  revert Hn. generalize (normalize_sft_backend backend fmt).1 as n. intros n.
  rewrite !elem_of_cons, elem_of_nil.
  intros [->|[->|[->|[->|[]]]]]; (split; [refine (bool_decide_eq_true_1 _ _)|]; reflexivity).
Qed.

Lemma resolve_backend_stable env field f b f' :
  f ∈ formats → resolve_backend env field f = Ok (b, f') →
  f' ∈ formats ∧ (f' = None → f = None) ∧ resolve_backend env (Some b) f' = Ok (b, f').
Proof.
  intros Hf Hx. unfold resolve_backend in Hx. inv_guard Hx as Hk. inv_guard Hx as He. injection Hx as Eb Ef.
  bools. pose proof (normalize_known _ f f' Hk) as [Hk' Hn]. rewrite Eb in *.
  destruct (infer_format_ok (lower b) f Hf) as [H1 H2]. rewrite Ef in *.
  split_and!; [done|by destruct f; simpl in Ef; subst|].
  unfold resolve_backend, default_backend. rewrite (bool_decide_eq_true_2 (lower b ∈ _)) by done.
  cbn [negb raise_if]. rewrite Hn, H2, He. done.
Qed.

Lemma or_else_stable {A} (field : option A) d r : or_else field d = Ok r → or_else r d = Ok r.
Proof. destruct field; simpl; [by intros [= <-]|]. intros ->. by destruct r. Qed.
Lemma fill_defaults_stable env c b f l p c' :
  fill_defaults float_of_text env c b f l p = Ok c' →
  fill_defaults float_of_text env c' b f l p = Ok c' ∧
  kt_backend c' = Some b ∧ kt_expert_weight_format c' = f ∧ kt_weight_lifecycle c' = Some l ∧
  kt_activation_policy c' = Some (APolicy p).
Proof.
  unfold fill_defaults. cbv zeta. intros Hx.
  inv_bind Hx as v1 E1. inv_bind Hx as v2 E2. inv_bind Hx as v3 E3. inv_bind Hx as v4 E4.
  inv_bind Hx as v5 E5. inv_bind Hx as v6 E6. inv_bind Hx as v7 E7. inv_bind Hx as v8 E8.
  inv_bind Hx as v9 E9. inv_bind Hx as v10 E10. inv_guard Hx as Hd. inv_bind Hx as v11 E11.
  injection Hx as <-.
  cbn [kt_backend kt_num_threads kt_tp_enabled kt_threadpool_count kt_weight_path
    kt_non_expert_weight_path kt_expert_weight_format kt_weight_lifecycle kt_expert_checkpoint_path
    kt_num_gpu_experts kt_skip_expert_loading kt_share_backward_bb kt_share_cache_pool
    kt_force_fused_expert_lora kt_max_cache_depth kt_model_max_length kt_activation_policy kt_lora_rank
    kt_lora_alpha kt_lora_dropout kt_train_mode kt_full_weight_grad kt_use_lora_experts
    kt_lora_expert_num kt_lora_expert_intermediate_size kt_checkpoint_files kt_sharded_metadata kt_wrap].
  split; [|done].
  rewrite (or_else_stable _ _ _ E1), (or_else_stable _ _ _ E2), (or_else_stable _ _ _ E3),
    (or_else_stable _ _ _ E4), (or_else_stable _ _ _ E5), (or_else_stable _ _ _ E6),
    (or_else_stable _ _ _ E7).
  assert (or_else v9 (env_float float_of_text env "ACCELERATE_KT_LORA_ALPHA" None) = Ok v9) as ->.
  { destruct v9 as [a|]; [done|]. destruct v8 as [a|]; [discriminate E9|]. by apply or_else_stable in E8. }
  rewrite (or_else_stable _ _ _ E11).
  cbn [mbind res_bind]. rewrite (or_else_stable _ _ _ E9).
  cbn [mbind res_bind or_else mret res_ret from_option id]. unfold id in Hd |- *. rewrite Hd. cbn [raise_if mbind res_bind].
  unfold mret, res_ret. f_equal. f_equal.
  - by destruct (kt_weight_path c); [|destruct (dict_get _ env)].
  - by destruct (kt_non_expert_weight_path c); [|destruct (dict_get _ env)].
  - by destruct (kt_expert_checkpoint_path c); [|destruct (dict_get _ env)].
  - by destruct (kt_skip_expert_loading c); [|destruct (dict_get _ env)].
Qed.

Lemma resolve_inv env c c' : resolve float_of_text env c = Ok c' →
  ∃ f0 l p b f, resolve_format env (kt_expert_weight_format c) = Ok f0 ∧
    resolve_lifecycle env (kt_weight_lifecycle c) = Ok l ∧
    resolve_policy env (kt_activation_policy c) = Ok p ∧
    resolve_backend env (kt_backend c) f0 = Ok (b, f) ∧
    fill_defaults float_of_text env c b f l p = Ok c' ∧ check_config c' = Ok tt.
Proof.
  unfold resolve. intros Hx. inv_bind Hx as f0 E1. inv_bind Hx as l E2. inv_bind Hx as p E3.
  inv_bind Hx as [b f] E4. inv_bind Hx as c1 E5. inv_bind Hx as [] E6. injection Hx as ->.
  by exists f0, l, p, b, f.
Qed.

Lemma resolve_stable env c c' :
  explicit_text env ACTIVATION_POLICY_ENV = None → explicit_text env LEGACY_REUSE_ENV = None →
  resolve float_of_text env c = Ok c' → resolve float_of_text env c' = Ok c'.
Proof.
  intros Hp Hl Hx. apply resolve_inv in Hx as (f0 & l & p & b & f & E1 & E2 & E3 & E4 & E5 & E6).
  pose proof (resolve_format_ok _ _ _ E1) as [Hf0 Hnone].
  pose proof (resolve_backend_stable _ _ _ _ _ Hf0 E4) as (Hf & Hff & Hb).
  pose proof (fill_defaults_stable _ _ _ _ _ _ _ E5) as (Hfill & Eb & Ef & El & Ep).
  unfold resolve. rewrite Eb, Ef, El, Ep.
  assert (resolve_format env f = Ok f) as ->.
  { destruct f as [f|]; [by apply resolve_format_known|]. apply Hnone. auto. }
  assert (resolve_lifecycle env (Some l) = Ok l) as ->.
  { unfold resolve_lifecycle in E2 |- *. inv_guard E2 as Hg. injection E2 as <-. bools.
    rewrite !elem_of_cons, elem_of_nil in Hg. by destruct Hg as [->|[->|[]]]. }
  assert (resolve_policy env (Some (APolicy p)) = Ok p) as ->.
  { unfold resolve_policy. rewrite Hp, Hl. done. }
  cbn [mbind res_bind]. rewrite Hb. cbn [mbind res_bind]. rewrite Hfill. cbn [mbind res_bind].
  by rewrite E6.
Qed.

(** Construction is idempotent: a configuration that [KTConfig] has resolved
    is its own resolution, field by field, in the environment that the first
    construction left, and this second construction changes the environment no
    more, unless a policy variable is set, which then conflicts with the field. *)
Theorem post_init_idempotent (m : machine) (env env' : environ) (c c' : ktconfig) :
  explicit_text env' ACTIVATION_POLICY_ENV = None → explicit_text env' LEGACY_REUSE_ENV = None →
  post_init float_of_text m c env = (env', Ok c') →
  post_init float_of_text m c' env' = (env', Ok c').
Proof.
  intros Hp Hl Hx. unfold post_init in *. apply bindM_ok in Hx as (e1 & n & Ho & Hx).
  unfold gets_res in Hx. injection Hx as -> Hr.
  pose proof (configure_run _ _ _ _ Ho) as (Hb & Hn & He).
  assert (configure_omp_threads m env' = (env', Ok n)) as Ho'.
  { unfold configure_omp_threads. rewrite bindM_gets_res, He, budget_settled by done.
    rewrite bindM_raise_if. replace (n <? 1) with false by (symmetry; apply Z.ltb_ge; lia).
    by rewrite bindM_modify, dict_set_set. }
  rewrite (bindM_run _ _ _ _ _ Ho'). unfold gets_res. by rewrite (resolve_stable _ _ _ Hp Hl Hr).
Qed.

(** ** What an accepted configuration guarantees *)

Lemma check_config_quantized c fmt :
  check_config c = Ok tt → kt_expert_weight_format c = Some fmt → fmt ∈ ["int8"; "fp8"; "rawint4"] →
  backend_is c fmt = true ∧ full_training c = false ∧ int_or (kt_num_gpu_experts c) 0 = 0 ∧
  flag (kt_use_lora_experts c) = false ∧
  flag (kt_share_backward_bb c) = negb (String.eqb fmt "rawint4") ∧
  (kt_weight_lifecycle c = Some "ephemeral" → fmt = "int8") ∧
  (fmt = "int8" → given (kt_weight_path c) = true) ∧
  (fmt = "fp8" → 0 < int_or (kt_lora_rank c) 0) ∧
  (fmt = "rawint4" → int_or (kt_lora_rank c) 0 = 8 ∧ effective_threadpool_count c ∈ [1; 2] ∧
                     flag (kt_force_fused_expert_lora c) = true).
Proof.
  intros Hc Hf Hin. unfold check_config, format_is in Hc. rewrite Hf in Hc.
  inv_guard Hc as _. inv_bind Hc as [] H8. inv_bind Hc as [] Hfp. inv_bind Hc as [] H4.
  rewrite !elem_of_cons, elem_of_nil in Hin. destruct Hin as [->|[->|[->|[]]]].
  - change (check_int8 c = Ok tt) in H8. unfold check_int8 in H8.
    inv_guard H8 as B1. inv_guard H8 as B2. inv_guard H8 as B3. inv_guard H8 as B4. inv_guard H8 as B5.
    inv_guard H8 as B6. apply raise_if_ok in H8. bools. split_and!; done.
  - change (check_fp8 c = Ok tt) in Hfp. unfold check_fp8 in Hfp.
    inv_guard Hfp as B1. inv_guard Hfp as B2. inv_guard Hfp as B3. inv_guard Hfp as B4.
    inv_guard Hfp as B5. inv_guard Hfp as B6. apply raise_if_ok in Hfp. bools.
    split_and!; try done. intros He. congruence.
  - change (check_rawint4 c = Ok tt) in H4. unfold check_rawint4 in H4.
    inv_guard H4 as B1. inv_guard H4 as B2. inv_guard H4 as B3. inv_guard H4 as B4. inv_guard H4 as B5.
    inv_guard H4 as B6. inv_guard H4 as B7. inv_guard H4 as B8. inv_guard H4 as B9. inv_guard H4 as B10.
    inv_guard H4 as B11. bools. split_and!; try done. intros He. congruence.
Qed.

(** C38. A configuration that construction accepts has a supported activation
    policy, a known life cycle and a dropout in [0, 1); and with quantised base
    weights it trains pure LoRA on the CPU with the backend of its format:
    ephemeral weights only for INT8, which needs a weight path, a positive rank
    for FP8, rank 8 and one or two thread pools for RAWINT4. *)
Theorem accepted_config_is_consistent (m : machine) (env env' : environ) (c c' : ktconfig) :
  constructed (kt_activation_policy c) →
  post_init float_of_text m c env = (env', Ok c') →
  (∃ p, kt_activation_policy c' = Some (APolicy p) ∧ supported p) ∧
  (kt_weight_lifecycle c' = Some "persistent" ∨ kt_weight_lifecycle c' = Some "ephemeral") ∧
  (∃ d, kt_lora_dropout c' = Some d ∧ SFleb float_zero d = true ∧ SFltb d float_one = true) ∧
  ∀ fmt, kt_expert_weight_format c' = Some fmt → fmt ∈ ["int8"; "fp8"; "rawint4"] →
    backend_is c' fmt = true ∧ kt_train_mode c' = Some "lora" ∧ flag (kt_full_weight_grad c') = false ∧
    int_or (kt_num_gpu_experts c') 0 = 0 ∧ flag (kt_use_lora_experts c') = false ∧
    flag (kt_share_backward_bb c') = negb (String.eqb fmt "rawint4") ∧
    (kt_weight_lifecycle c' = Some "ephemeral" → fmt = "int8") ∧
    (fmt = "int8" → given (kt_weight_path c') = true) ∧
    (fmt = "fp8" → 0 < int_or (kt_lora_rank c') 0) ∧
    (fmt = "rawint4" → int_or (kt_lora_rank c') 0 = 8 ∧ effective_threadpool_count c' ∈ [1; 2] ∧
                       flag (kt_force_fused_expert_lora c') = true).
Proof.
  intros Hcon Hx. unfold post_init in Hx. apply bindM_ok in Hx as (e1 & n & _ & Hx).
  unfold gets_res in Hx. injection Hx as -> Hr.
  apply resolve_inv in Hr as (f0 & l & p & b & f & _ & El & Ep & _ & Efill & Echeck).
  pose proof (fill_defaults_stable _ _ _ _ _ _ _ Efill) as (_ & _ & _ & Hl & Hp). split_and!.
  - exists p. split; [done|]. pose proof (policy_supported env' _ p Hcon Ep). done.
  - unfold resolve_lifecycle in El. inv_guard El as Hg. injection El as El. bools.
    rewrite El in Hg. rewrite Hl. rewrite !elem_of_cons, elem_of_nil in Hg.
    destruct Hg as [->|[->|[]]]; auto.
  - unfold fill_defaults in Efill. cbv zeta in Efill.
    do 10 (apply bind_ok in Efill as (? & _ & Efill)). inv_guard Efill as Hd.
    apply bind_ok in Efill as (? & _ & Efill). injection Efill as <-. bools. by eexists.
  - intros fmt Hf Hin. pose proof (check_config_quantized c' fmt Echeck Hf Hin)
      as (H1 & H2 & H3 & H4 & H5 & H6 & H7 & H8 & H9).
    unfold full_training in H2. bools. split_and!; done.
Qed.

(** ** Unwrapping containers *)

Lemma post_init_some (m : machine) c (env env' : environ) (r : res (option ktconfig)) :
  (c ← post_init float_of_text m c; mret (Some c)) env = (env', r) → r ≠ Ok None.
Proof.
  intros Hx. apply bindM_inv in Hx as [(e & c' & _ & Hx)|(e & _ & ->)]; [|done]. by injection Hx as _ <-.
Qed.

(** The containers that have not been entered yet bound the recursion. *)
Lemma fuel_enough (m : machine) (store : gmap Z container) fuel fuel' seen obj env :
  (size (dom store ∖ seen) < fuel)%nat → (size (dom store ∖ seen) < fuel')%nat →
  from_object_fuel float_of_text fuel m store seen obj env =
    from_object_fuel float_of_text fuel' m store seen obj env ∧
  (from_object_fuel float_of_text fuel m store seen obj env).2 ≠ Ok None.
Proof.
  revert fuel' seen obj env. induction fuel as [|fuel IH]; intros fuel' seen obj env H1 H2; [lia|].
  destruct fuel' as [|fuel']; [lia|]. cbn [from_object_fuel]. destruct obj as [c|mp|id]; [done| |].
  - split; [done|]. rewrite bindM_lift. destruct (validated_mapping mp) as [c|]; [|done].
    destruct ((c0 ← post_init _ m c; _) env) as [e r] eqn:E. by eapply post_init_some.
  - rewrite !bindM_raise_if. case_bool_decide as Hin; [done|]. cbv zeta. rewrite !bindM_lift.
    destruct (store !! id) as [ct|] eqn:Hid; [|done]. cbn [of_option]. rewrite !bindM_raise_if.
    destruct (existsb _ _); [done|].
    assert (size (dom store ∖ ({[id]} ∪ seen)) < size (dom store ∖ seen))%nat as Hsize.
    { apply subset_size. split; [set_solver|]. intros Hs.
      apply elem_of_dom_2 in Hid. specialize (Hs id). set_solver. }
    destruct (match ct_kt_config ct with Some (Some n) => Some n | _ => _ end) as [[c|mp|id']|].
    + done.
    + split; [done|]. rewrite bindM_lift. destruct (validated_mapping mp) as [c|]; [|done].
      destruct ((c0 ← post_init _ m _; _) env) as [e r] eqn:E. by eapply post_init_some.
    + rewrite !bindM_raise_if. destruct (id' =? id); [done|].
      destruct (IH fuel' ({[id]} ∪ seen) (OContainer id') env) as [Heq Hne]; [lia|lia|].
      unfold mbind, M_bind. rewrite <-Heq. split; [done|].
      destruct (from_object_fuel _ fuel _ _ _ _ env) as [e [[c|]|x]]; done.
    + destruct (_ && _); [done|]. split; [done|].
      destruct ((c0 ← post_init _ m _; _) env) as [e r] eqn:E. by eapply post_init_some.
Qed.

(** Unwrapping ends for every object graph, cyclic ones included: the fuel
    that [from_object] uses is never exhausted and more would change nothing;
    a container that is reached from itself raises [ValueError]. *)
Theorem from_object_terminates (m : machine) (store : gmap Z container) (obj : kobj) (env : environ) :
  (from_object_fuel float_of_text (S (S (size store))) m store ∅ obj env).2 ≠ Ok None ∧
  (∀ fuel, (S (S (size store)) ≤ fuel)%nat →
     from_object_fuel float_of_text fuel m store ∅ obj env =
     from_object_fuel float_of_text (S (S (size store))) m store ∅ obj env) ∧
  (∀ id fuel seen, id ∈ seen →
     from_object_fuel float_of_text (S fuel) m store seen (OContainer id) env =
     (env, Err (Raise ValueError "Cyclic KT configuration container"))).
Proof.
  assert (size (dom store ∖ ∅) < S (S (size store)))%nat as Hs.
  { rewrite difference_empty_L, size_dom. lia. }
  split_and!.
  - eapply fuel_enough; exact Hs.
  - intros fuel Hf. apply fuel_enough; lia.
  - intros id fuel seen Hin. cbn [from_object_fuel]. rewrite bindM_raise_if.
    by rewrite bool_decide_eq_true_2.
Qed.
End resolve.

(** ** A concrete run *)

Module ConfigExample.
#[local] Instance plain : Platform := {|
  sha256 s := s; json_loads _ := None; json_dumps _ := ""; py_repr _ := "?";
|}.

(** Four logical CPUs on two cores. *)
Definition box : machine :=
  Machine (Some [0; 1; 2; 3]) (Some 4) (fun cpu => (Some "0", Some (str_of_Z (cpu / 2)))).

Definition shell : environ :=
  [("OMP_NUM_THREADS", "1"); ("ACCELERATE_KT_WEIGHT_PATH", "/weights"); ("ACCELERATE_KT_LORA_RANK", "8")].

(** [KTConfig(kt_backend="AMXINT8")] *)
Definition asked : ktconfig :=
  KTCfg (Some "AMXINT8") None None None None None None None None None None None None None None None None
    None None None None None None None None None None [].

Abbreviation built := (post_init (fun _ => None) box asked shell).

Definition budget_env : environ := dict_set "OMP_NUM_THREADS" "2" shell.

Definition resolved : ktconfig := match built.2 with Ok c => c | Err _ => asked end.

Lemma omp_budget_settled_witness :
  configure_omp_threads box shell = (budget_env, Ok 2) ∧
  configure_omp_threads box budget_env = (budget_env, Ok 2).
Proof.
  assert (configure_omp_threads box shell = (budget_env, Ok 2)) as Hc by (vm_compute; reflexivity).
  split; [exact Hc|].
  exact (proj1 (proj2 (proj2 (omp_budget_settled box shell budget_env 2 Hc)))).
Defined.

Lemma activation_policy_has_one_source_witness :
  constructed None ∧ resolve_policy [(LEGACY_REUSE_ENV, " Yes ")] None = Ok (Policy "retain" "recompute") ∧
  supported (Policy "retain" "recompute").
Proof.
  assert (constructed None) as Hc by (intros p Hp; discriminate Hp).
  split; [exact Hc|]. split; [vm_compute; reflexivity|].
  exact (proj1 (proj2 (activation_policy_has_one_source [(LEGACY_REUSE_ENV, " Yes ")] None Hc))).
Defined.

Lemma post_init_idempotent_witness :
  explicit_text built.1 ACTIVATION_POLICY_ENV = None ∧ explicit_text built.1 LEGACY_REUSE_ENV = None ∧
  kt_backend resolved = Some "INT8" ∧ kt_expert_weight_format resolved = Some "int8" ∧
  post_init (fun _ => None) box resolved built.1 = (built.1, Ok resolved).
Proof.
  split; [vm_compute; reflexivity|]. split; [vm_compute; reflexivity|].
  split; [vm_compute; reflexivity|]. split; [vm_compute; reflexivity|].
  refine (post_init_idempotent (fun _ => None) box shell built.1 asked resolved _ _ _);
    vm_compute; reflexivity.
Defined.

Lemma accepted_config_is_consistent_witness :
  constructed (kt_activation_policy asked) ∧ built = (built.1, Ok resolved) ∧
  kt_train_mode resolved = Some "lora".
Proof.
  assert (constructed (kt_activation_policy asked)) as Hc by (intros p Hp; discriminate Hp).
  assert (built = (built.1, Ok resolved)) as Hb by (vm_compute; reflexivity).
  split; [exact Hc|]. split; [exact Hb|].
  refine (proj1 (proj2 (proj2 (proj2 (proj2 (accepted_config_is_consistent (fun _ => None) box shell
    built.1 asked resolved Hc Hb))) "int8" _ _))).
  - vm_compute. reflexivity.
  - left.
Defined.

(** A container that holds another that holds the first. *)
Definition nothing : overrides := Overrides None None None.
Definition ring : gmap Z container :=
  {[ 1 := Container ["config"] None (Some (Some (OContainer 2))) nothing;
     2 := Container ["kt_config"] (Some (Some (OContainer 1))) None nothing ]}.

Lemma from_object_terminates_witness :
  (1 ∈ ({[1]} : gset Z)) ∧
  (from_object (fun _ => None) box ring (OContainer 1) shell).2
    = Err (Raise ValueError "Cyclic KT configuration container") ∧
  (from_object_fuel (fun _ => None) (S (S (size ring))) box ring ∅ (OContainer 1) shell).2 ≠ Ok None.
Proof.
  split; [set_solver|]. split; [vm_compute; reflexivity|].
  exact (proj1 (from_object_terminates (fun _ => None) box ring (OContainer 1) shell)).
Defined.
End ConfigExample.
