(* ===== verification/WrapSettings.v ===== *)
(** * The settings of a wrapped model

    Models what [wrap_moe_layers_with_kt_wrapper] of
    [kt-kernel/python/sft/wrapper.py] decides before it touches a layer: the
    effective training mode, the engine's method, and the checks on quantised
    formats and on activation retention.  The checks that the function makes
    later, of slices and of weight sources, are in [WeightSource]. *)
From S2P Require Import Prelude PyStr PyVal Backend Base KTConfig.
From Stdlib Require Import SpecFloat.

Local Open Scope string_scope.
Local Open Scope list_scope.
Local Open Scope Z_scope.

(** ** The engine's method *)

Definition kt_backend_map : list (string * string) :=
  [("AMXBF16", "AMXBF16_SFT"); (FP8_BACKEND, "AMXFP8_SFT"); ("AMXFP8", "AMXFP8_SFT"); (INT8_BACKEND, "INT8_SFT");
   ("AMXINT8", "INT8_SFT"); (RAWINT4_BACKEND, RAWINT4_SFT_METHOD); ("AMXINT4_KGroup", RAWINT4_SFT_METHOD);
   ("AMXINT4", "AMXINT4_SFT"); ("AMXBF16_SkipLoRA", "AMXBF16_SFT_SkipLoRA");
   ("AMXINT8_SkipLoRA", "AMXINT8_SFT_SkipLoRA"); ("AMXINT4_SkipLoRA", "AMXINT4_SFT_SkipLoRA")].
Definition kt_backend_map_lower : list (string * string) :=
  fold_left (fun d '(k, v) => dict_set (lower k) v d) kt_backend_map [].

Definition kt_method_of (kt_backend : string) : res string :=
  of_option (match dict_get kt_backend kt_backend_map with
             | Some method => Some method
             | None => dict_get (lower kt_backend) kt_backend_map_lower
             end) KTAMXConfigError "Unknown kt_backend".

(** ** The training mode *)

Definition mode_is (c : ktconfig) (mode : string) : bool := bool_decide (kt_train_mode c = Some mode).

(** The rank that the engine is built with. *)
Definition effective_lora_rank (c : ktconfig) : Z :=
  let lora_rank := default 1 (kt_lora_rank c) in
  if mode_is c "full" then 0
  else if flag (kt_full_weight_grad c) && negb (mode_is c "hybrid") && (0 <? lora_rank)
  then match kt_lora_rank c with Some _ => lora_rank | None => 0 end
  else lora_rank.

Definition supports_checkpoint_forward_reuse (full_weight_grad : bool) (lora_rank : Z) : bool :=
  (full_weight_grad && (lora_rank =? 0)) || (negb full_weight_grad && (0 <? lora_rank)).

(** ** Checks *)

Record settings := Settings {
  ws_method : string;
  ws_lora_rank : Z;
  ws_lora_alpha : spec_float;
  ws_lora_dropout : spec_float;
  ws_full_weight_grad : bool;
  ws_num_gpu_experts : Z;
  ws_use_lora_experts : bool;
  ws_lora_expert_num : Z;
  ws_lora_expert_intermediate_size : Z;
  ws_force_fused : bool;
  ws_reuse_checkpoint_forward : bool;
  ws_authoritative : bool;
}.

(** [full_weight_grad or train_mode != "lora"] *)
Definition trains_base (c : ktconfig) : bool := flag (kt_full_weight_grad c) || negb (mode_is c "lora").
Definition uses_gpu (c : ktconfig) : bool :=
  negb (int_or (kt_num_gpu_experts c) 0 =? 0) || flag (kt_use_lora_experts c).
Definition persistent (c : ktconfig) : bool := bool_decide (kt_weight_lifecycle c = Some "persistent").

Definition check_int8_wrap (c : ktconfig) (method : string) (lora_rank : Z) : res unit :=
  _ ← raise_if (negb (String.eqb method "INT8_SFT")) KTAMXConfigError
        "kt_expert_weight_format='int8' requires kt_backend='auto' or 'INT8'";
  _ ← raise_if (trains_base c || (lora_rank <=? 0)) KTAMXConfigError "INT8 SFT supports frozen-base LoRA only";
  _ ← raise_if (uses_gpu c) KTAMXConfigError "INT8 SFT requires all base experts and LoRA execution on CPU";
  raise_if (negb (flag (kt_share_backward_bb c))) KTAMXConfigError "INT8 SFT requires kt_share_backward_bb=true".

Definition check_fp8_wrap (c : ktconfig) (method : string) (lora_rank : Z) : res unit :=
  _ ← raise_if (negb (String.eqb method "AMXFP8_SFT")) KTAMXConfigError
        "kt_expert_weight_format='fp8' requires kt_backend='auto' or 'FP8'";
  _ ← raise_if (trains_base c || (lora_rank <=? 0)) KTAMXConfigError "FP8 SFT supports frozen-base LoRA only";
  _ ← raise_if (uses_gpu c) KTAMXConfigError "FP8 SFT requires all base experts and LoRA execution on CPU";
  _ ← raise_if (negb (flag (kt_share_backward_bb c))) KTAMXConfigError "FP8 SFT requires kt_share_backward_bb=true";
  raise_if (negb (persistent c)) KTAMXConfigError "FP8 SFT requires persistent checkpoint weights".

Definition check_rawint4_wrap (c : ktconfig) (method : string) (lora_rank : Z) (lora_dropout : spec_float)
    (force_fused : bool) : res unit :=
  _ ← raise_if (negb (String.eqb method RAWINT4_SFT_METHOD)) KTAMXConfigError
        "kt_expert_weight_format='rawint4' requires kt_backend='auto' or 'RAWINT4'";
  _ ← raise_if (trains_base c || negb (lora_rank =? 8)) KTAMXConfigError
        "RAWINT4 SFT v1 supports frozen-base rank-8 LoRA only";
  _ ← raise_if (negb (SFeqb lora_dropout float_zero)) KTAMXConfigError "RAWINT4 SFT v1 requires lora_dropout=0";
  _ ← raise_if (uses_gpu c) KTAMXConfigError "RAWINT4 SFT requires all base experts and LoRA execution on CPU";
  _ ← raise_if (flag (kt_share_backward_bb c)) KTAMXConfigError "kt_share_backward_bb must be false";
  _ ← raise_if (negb force_fused) KTAMXConfigError "RAWINT4 SFT requires kt_force_fused_expert_lora=true";
  raise_if (negb (persistent c)) KTAMXConfigError "RAWINT4 SFT requires persistent checkpoint weights".

Definition RETAIN_METHODS : list string := ["AMXBF16_SFT"; "AMXFP8_SFT"; "INT8_SFT"; RAWINT4_SFT_METHOD].

Definition check_retention (c : ktconfig) (policy : KTActivationPolicy) (method : string) (lora_rank : Z) : res unit :=
  raise_if (String.eqb (ap_cpu policy) "retain"
            && (negb (supports_checkpoint_forward_reuse (flag (kt_full_weight_grad c)) lora_rank)
                || negb (bool_decide (method ∈ RETAIN_METHODS)) || uses_gpu c))
    KTAMXConfigError "activation_policy.cpu=retain requires CPU-only AMXBF16 Full/LoRA".

Definition validate_rawint4_activation_policy (format : option string) (policy : KTActivationPolicy) : res unit :=
  raise_if (bool_decide (format = Some "rawint4") && String.eqb (ap_cpu policy) "retain"
            && String.eqb (ap_gpu policy) "recompute") KTAMXConfigError
    "RAWINT4 SFT v1: checkpoint-forward reuse (cpu=retain,gpu=recompute) is not supported".

(** The settings of a configuration, from reading it to the choice of gradients. *)
Definition wrap_settings (c : ktconfig) : res settings :=
  let lora_rank := effective_lora_rank c in
  let lora_dropout := default float_zero (kt_lora_dropout c) in
  let full_weight_grad := flag (kt_full_weight_grad c) in
  method ← kt_method_of (default "None" (kt_backend c));
  let force_fused := flag (kt_force_fused_expert_lora c) in
  _ ← raise_if (force_fused && contains "SkipLoRA" method) KTAMXConfigError
        "kt_force_fused_expert_lora is incompatible with SkipLoRA backends";
  let num_gpu_experts := int_or (kt_num_gpu_experts c) 0 in
  _ ← (if format_is c "int8" then check_int8_wrap c method lora_rank else mret tt);
  _ ← (if format_is c "fp8" then check_fp8_wrap c method lora_rank else mret tt);
  _ ← (if format_is c "rawint4" then check_rawint4_wrap c method lora_rank lora_dropout force_fused else mret tt);
  policy ← of_option (match kt_activation_policy c with Some (APolicy p) => Some p | _ => None end) AttributeError
             "object has no attribute 'cpu'";
  _ ← check_retention c policy method lora_rank;
  _ ← validate_rawint4_activation_policy (kt_expert_weight_format c) policy;
  mret {| ws_method := method; ws_lora_rank := lora_rank; ws_lora_alpha := default float_one (kt_lora_alpha c);
          ws_lora_dropout := lora_dropout; ws_full_weight_grad := full_weight_grad;
          ws_num_gpu_experts := num_gpu_experts; ws_use_lora_experts := flag (kt_use_lora_experts c);
          ws_lora_expert_num := int_or (kt_lora_expert_num c) 2;
          ws_lora_expert_intermediate_size := int_or (kt_lora_expert_intermediate_size c) 1024;
          ws_force_fused := force_fused;
          ws_reuse_checkpoint_forward := String.eqb (ap_cpu policy) "retain" && String.eqb (ap_gpu policy) "recompute";
          ws_authoritative := supports_authoritative_optimizer_grads method num_gpu_experts full_weight_grad lora_rank |}.
