(* ===== verification/Checkpoint.v ===== *)
(** * Full-weight checkpoints

    Models [kt-kernel/python/sft/checkpoint.py]: publishing the expert
    parameters as per-layer shards with an index, inspecting and loading a
    layer, and restoring all layers on rank 0 with the failure shared by all
    ranks.  A checkpoint directory is a map from file names to contents, with
    the history of its states; every file operation may fail.  The safetensors
    format is a record of its tensors and metadata. *)
From S2P Require Import Prelude PyStr PyVal Dist.
From Stdlib Require Import Ascii.

Local Open Scope string_scope.
Local Open Scope list_scope.
Local Open Scope Z_scope.

Definition FULL_WEIGHT_CHECKPOINT_FORMAT : string := "kt_full_experts".
Definition FULL_WEIGHT_CHECKPOINT_VERSION : Z := 1.
Definition FULL_WEIGHT_INDEX_NAME : string := "kt_full_experts.index.json".
Definition DTYPE_NAME : string := "BF16".

Inductive proj := Gate | Up | Down.
#[export] Instance proj_eq_dec : EqDecision proj.
Proof. solve_decision. Defined.
Definition projections : list proj := [Gate; Up; Down].
Definition proj_name (p : proj) : string :=
  match p with Gate => "gate_proj" | Up => "up_proj" | Down => "down_proj" end.

(** ** Paths *)

(** [os.path.join(a, b)] for a relative [b] *)
Definition path_join (a b : string) : string :=
  (if String.eqb a "" || ends_with "/" a then a ++ b else a ++ "/" ++ b)%string.

(** A text up to its last slash, reversed. *)
Fixpoint to_slash (s : string) : string :=
  match s with
  | EmptyString => ""
  | String c s' => if Ascii.eqb c slash then s else to_slash s'
  end.
Fixpoint lstrip_slash (s : string) : string :=
  match s with
  | EmptyString => ""
  | String c s' => if Ascii.eqb c slash then lstrip_slash s' else s
  end.
(** [os.path.dirname(s)] *)
Definition dirname (s : string) : string :=
  let head := to_slash (str_rev s "") in
  let stripped := lstrip_slash head in
  str_rev (if String.eqb stripped "" then head else stripped) "".

(** [is_file] and [abspath] are [os.path]'s. *)
Definition resolve_full_weight_checkpoint (is_file : string -> bool) (abspath : string -> string)
    (path : option string) : option string :=
  candidate ← path;
  if is_file candidate then
    if String.eqb (basename candidate) FULL_WEIGHT_INDEX_NAME then Some (dirname (abspath candidate)) else None
  else if is_file (path_join candidate FULL_WEIGHT_INDEX_NAME) then Some (abspath candidate) else None.

(** ** Wrappers and their parameters *)

(** What an attribute [<name>_buf] holds: whether it is an [nn.Parameter], and
    the tensor's metadata and contents. *)
Record param := Param {
  pm_is_parameter : bool;
  pm_shape : list Z;
  pm_dtype : string;
  pm_device_type : string;
  pm_contiguous : bool;
  pm_requires_grad : bool;
  pm_data : string;
}.

Record backend := Backend {
  bk_params : proj -> option param;
  bk_dirty : bool;
  bk_load_failed : bool;
}.

Record wrapper := Wrapper {
  w_layer_idx : Z;
  w_full_weight_grad : bool;
  w_expert_num : Z;
  w_intermediate_size : Z;
  w_hidden_size : Z;
  w_backend : option backend;
}.

Definition full_weight_wrappers (wrappers : list wrapper) : list wrapper :=
  List.filter w_full_weight_grad wrappers.

Definition expected_shapes (w : wrapper) (p : proj) : list Z :=
  match p with
  | Gate | Up => [w_expert_num w; w_intermediate_size w; w_hidden_size w]
  | Down => [w_expert_num w; w_hidden_size w; w_intermediate_size w]
  end.

Definition backend_parameters (w : wrapper) : res (list (proj * param)) :=
  b ← of_option (w_backend w) RuntimeError "rank 0 does not own the KT Full backend";
  for_each projections [] (fun params p =>
    param ← of_option (match bk_params b p with
                       | Some pm => if pm_is_parameter pm then Some pm else None
                       | None => None
                       end) RuntimeError "missing authoritative Parameter";
    mret (params ++ [(p, param)])).

Definition validate_parameter (w : wrapper) (p : proj) (pm : param) : res unit :=
  _ ← raise_if (negb (bool_decide (pm_shape pm = expected_shapes w p))) RuntimeError "shape mismatch";
  _ ← raise_if (negb (String.eqb (pm_dtype pm) "bfloat16")) RuntimeError "dtype mismatch";
  _ ← raise_if (negb (String.eqb (pm_device_type pm) "cpu")) RuntimeError "must be on CPU";
  _ ← raise_if (negb (pm_contiguous pm)) RuntimeError "must be contiguous";
  raise_if (negb (pm_requires_grad pm)) RuntimeError "must require gradients".

Definition validate_parameter_set (w : wrapper) (params : list (proj * param)) : res unit :=
  for_each params tt (fun _ '(p, pm) => validate_parameter w p pm).

(** ** The checkpoint directory *)

(** A tensor of a safetensors file: shape, dtype and contents. *)
Record stored := Stored { st_shape : list Z; st_dtype : string; st_data : string }.
Record shard := Shard { sh_tensors : list (string * stored); sh_metadata : list (string * string) }.

Inductive file := Text (s : string) | Safetensors (sh : shard) | Junk (n : Z).
#[export] Instance stored_eq_dec : EqDecision stored.
Proof. solve_decision. Defined.
#[export] Instance shard_eq_dec : EqDecision shard.
Proof. solve_decision. Defined.
#[export] Instance file_eq_dec : EqDecision file.
Proof. solve_decision. Defined.

Abbreviation files := (gmap string file).

(** What becomes of a file operation: it works, it fails, or it fails and
    leaves something under the name it was writing. *)
Inductive io_outcome := Fine | Fails | Leaves (f : file).

(** The files, every earlier state of them, and the number of operations done. *)
Record disk := Disk { dk_files : files; dk_past : list files; dk_clock : nat }.

Section checkpoint.
Context `{Platform}.
(** [os.path.getsize] of a file, and the outcome of the n-th operation. *)
Context (file_size : file -> Z) (io : nat -> io_outcome).

(** ** Writing *)

Definition set_files (fs : files) (d : disk) : disk :=
  Disk fs (dk_past d ++ [dk_files d]) (S (dk_clock d)).

Definition tick (d : disk) : disk := Disk (dk_files d) (dk_past d) (S (dk_clock d)).

Definition write_file (name : string) (content : file) : M disk unit := fun d =>
  match io (dk_clock d) with
  | Fine => (set_files (<[name := content]> (dk_files d)) d, Ok tt)
  | Fails => (tick d, Err (Raise OSError "write"))
  | Leaves f => (set_files (<[name := f]> (dk_files d)) d, Err (Raise OSError "write"))
  end.

(** [os.replace(src, dst)] *)
Definition replace_file (src dst : string) : M disk unit := fun d =>
  match dk_files d !! src, io (dk_clock d) with
  | None, _ => (tick d, Err (Raise FileNotFoundError src))
  | Some content, Fine => (set_files (<[dst := content]> (delete src (dk_files d))) d, Ok tt)
  | Some _, _ => (tick d, Err (Raise OSError "replace"))
  end.

(** [os.remove(name)] *)
Definition remove_file (name : string) : M disk unit := fun d =>
  match dk_files d !! name, io (dk_clock d) with
  | None, _ => (tick d, Err (Raise FileNotFoundError name))
  | Some _, Fine => (set_files (delete name (dk_files d)) d, Ok tt)
  | Some _, _ => (tick d, Err (Raise OSError "remove"))
  end.

Definition getsize (name : string) : M disk Z := gets_res (fun d =>
  f ← of_option (dk_files d !! name) FileNotFoundError name; mret (file_size f)).

(** [try: os.remove(path)  except FileNotFoundError: pass] *)
Definition remove_if_there (name : string) : M disk unit :=
  catchM (remove_file name) (fun c => bool_decide (c = FileNotFoundError)) (fun _ => mret tt).

(** ** The index *)

(** [resolve_full_weight_checkpoint] of the directory itself *)
Definition has_index (fs : files) : bool :=
  match fs !! FULL_WEIGHT_INDEX_NAME with Some _ => true | None => false end.

Definition read_index (fs : files) : res (list (string * pyval)) :=
  content ← of_option (fs !! FULL_WEIGHT_INDEX_NAME) FileNotFoundError "Missing KT Full checkpoint index";
  text ← (match content with Text s => mret s | _ => Err (Raise ValueError "codec can't decode") end);
  v ← of_option (json_loads text) RuntimeError "Failed to read KT Full checkpoint index";
  index ← of_option (as_dict v) AttributeError "get";
  _ ← raise_if (negb (py_eq (pget "format" index) (PStr FULL_WEIGHT_CHECKPOINT_FORMAT))) RuntimeError
        "Unsupported KT Full checkpoint format";
  _ ← raise_if (negb (py_eq (pget "version" index) (PInt FULL_WEIGHT_CHECKPOINT_VERSION))) RuntimeError
        "Unsupported KT Full checkpoint version";
  _ ← raise_if (negb (py_eq (pget "dtype" index) (PStr DTYPE_NAME))) RuntimeError
        "Unsupported KT Full checkpoint dtype";
  _ ← raise_if (match pget "generation" index with PStr "" => true | PStr _ => false | _ => true end)
        RuntimeError "KT Full checkpoint index must contain a non-empty generation";
  _ ← raise_if (negb (is_dict (pget "layers" index))) RuntimeError
        "KT Full checkpoint index must contain a 'layers' object";
  mret index.

(** [index["generation"]] and [index["layers"]] of an index that was read. *)
Definition index_generation (index : list (string * pyval)) : string :=
  default "" (as_str (pget "generation" index)).
Definition index_layers (index : list (string * pyval)) : list (string * pyval) :=
  default [] (as_dict (pget "layers" index)).

(** The name in the directory that an index entry gives. *)
Definition safe_shard_path (filename : pyval) : res string :=
  name ← of_option (match filename with PStr "" => None | PStr s => Some s | _ => None end) RuntimeError
           "Invalid KT Full checkpoint shard filename";
  _ ← raise_if (negb (String.eqb (basename name) name)) RuntimeError
        "KT Full checkpoint shard must be a basename";
  mret name.

(** ** Inspecting a shard *)

Definition shapes_value (shapes : proj -> list Z) : pyval :=
  PDict ((fun p => (proj_name p, PList (PInt <$> shapes p))) <$> projections).

Definition metadata_is (sh : shard) (key value : string) : bool :=
  bool_decide (dict_get key (sh_metadata sh) = Some value).

Definition check_stored (shapes : proj -> list Z) (sh : shard) (p : proj) : res unit :=
  t ← of_option (dict_get (proj_name p) (sh_tensors sh)) SafetensorError "no such tensor";
  _ ← raise_if (negb (bool_decide (st_shape t = shapes p))) RuntimeError "shape mismatch";
  raise_if (negb (String.eqb (st_dtype t) DTYPE_NAME)) RuntimeError "dtype mismatch".

Definition check_shard (layer_idx : Z) (shapes : proj -> list Z) (generation : string) (sh : shard) : res unit :=
  let keys := fst <$> sh_tensors sh in
  _ ← raise_if (negb (forallb (fun k => bool_decide (k ∈ proj_name <$> projections)) keys
                      && forallb (fun p => bool_decide (proj_name p ∈ keys)) projections)) RuntimeError
        "KT Full checkpoint keys mismatch";
  _ ← raise_if (negb (metadata_is sh "format" FULL_WEIGHT_CHECKPOINT_FORMAT)) RuntimeError
        "invalid KT Full checkpoint shard format metadata";
  _ ← raise_if (negb (metadata_is sh "version" (str_of_Z FULL_WEIGHT_CHECKPOINT_VERSION))) RuntimeError
        "invalid KT Full checkpoint shard version metadata";
  _ ← raise_if (negb (metadata_is sh "generation" generation)) RuntimeError
        "shard generation metadata does not match the index";
  _ ← raise_if (negb (metadata_is sh "layer_idx" (str_of_Z layer_idx))) RuntimeError
        "shard layer metadata does not match the index";
  for_each projections tt (fun _ p => check_stored shapes sh p).

(** [safe_open(path)]: a file of another kind is refused. *)
Definition safe_open (fs : files) (name : string) : res shard :=
  match fs !! name with
  | Some (Safetensors sh) => mret sh
  | Some _ => Err (Raise SafetensorError "Error while deserializing header")
  | None => Err (Raise FileNotFoundError name)
  end.

Definition positive_int (v : pyval) : option Z :=
  match v with
  | PInt n => if 0 <? n then Some n else None
  | PBool true => Some 1
  | _ => None
  end.

Definition inspect_layer_shard (fs : files) (layer_idx : Z) (layer_entry : pyval)
    (shapes : proj -> list Z) (expected_generation : string) : res string :=
  entry ← of_option (as_dict layer_entry) RuntimeError "invalid KT Full checkpoint index entry";
  _ ← raise_if (negb (py_eq (pget "shapes" entry) (shapes_value shapes))) RuntimeError
        "KT Full checkpoint index shapes mismatch";
  shard_path ← safe_shard_path (pget "file" entry);
  content ← of_option (fs !! shard_path) FileNotFoundError "missing KT Full checkpoint shard";
  expected_size ← of_option (positive_int (pget "size_bytes" entry)) RuntimeError
                    "invalid shard size in KT Full checkpoint index";
  _ ← raise_if (negb (file_size content =? expected_size)) RuntimeError
        "KT Full checkpoint shard size mismatch";
  _ ← catch (sh ← safe_open fs shard_path; check_shard layer_idx shapes expected_generation sh)
        (fun c => bool_decide (c ∈ [OSError; FileNotFoundError; ValueError]))
        (fun _ => Err (Raise RuntimeError "failed to inspect KT Full checkpoint shard"));
  mret shard_path.

(** The three tensors of a shard, in the order of the projections. *)
Definition read_tensors (fs : files) (name : string) : res (list string) :=
  sh ← safe_open fs name;
  for_each projections [] (fun acc p =>
    t ← of_option (dict_get (proj_name p) (sh_tensors sh)) SafetensorError "no such tensor";
    mret (acc ++ [st_data t])).

Definition load_full_weight_layer (fs : files) (layer_idx : Z) (shapes : proj -> list Z)
    : res (list string) :=
  _ ← raise_if (negb (has_index fs)) FileNotFoundError "No kt_full_experts.index.json found";
  index ← read_index fs;
  entry ← of_option (match pget (str_of_Z layer_idx) (index_layers index) with PNone => None | e => Some e end)
            RuntimeError "missing from KT Full checkpoint index";
  shard_path ← inspect_layer_shard fs layer_idx entry shapes (index_generation index);
  read_tensors fs shard_path.
(** ** Saving *)

(** What [json.dump(index, handle, indent=2, sort_keys=True)] and the final
    newline write. *)
Definition index_text (index : pyval) : string := (json_dumps (sort_keys index) ++ String "010" "")%string.

(** [f"{n:05d}"] of a natural number *)
Fixpoint zeros (n : nat) (s : string) : string :=
  match n with O => s | S n => String "0" (zeros n s) end.
Definition pad5 (n : Z) : string :=
  let s := str_of_Z n in zeros (5 - String.length s) s.

Definition shard_name (generation : string) (layer_idx : Z) : string :=
  ("kt_full_experts-" ++ generation ++ "-layer-" ++ pad5 layer_idx ++ ".safetensors")%string.
Definition temp_name (generation : string) (layer_idx : Z) : string :=
  (shard_name generation layer_idx ++ ".tmp")%string.
Definition temp_index_name (generation : string) : string :=
  (FULL_WEIGHT_INDEX_NAME ++ "." ++ generation ++ ".tmp")%string.

(** The dtype name that safetensors stores. *)
Definition stored_dtype (dtype : string) : string :=
  if String.eqb dtype "bfloat16" then "BF16" else dtype.

Definition shard_of (generation : string) (layer_idx : Z) (params : list (proj * param)) : shard :=
  Shard ((fun '(p, pm) => (proj_name p, Stored (pm_shape pm) (stored_dtype (pm_dtype pm)) (pm_data pm))) <$> params)
    [("format", FULL_WEIGHT_CHECKPOINT_FORMAT); ("version", str_of_Z FULL_WEIGHT_CHECKPOINT_VERSION);
     ("generation", generation); ("layer_idx", str_of_Z layer_idx)].

Definition layer_entry (generation : string) (layer_idx size_bytes : Z) (params : list (proj * param)) : pyval :=
  PDict [("file", PStr (shard_name generation layer_idx)); ("size_bytes", PInt size_bytes);
         ("shapes", PDict ((fun '(p, pm) => (proj_name p, PList (PInt <$> pm_shape pm))) <$> params))].

Definition index_value (generation : string) (entries : list (string * pyval)) : pyval :=
  PDict [("format", PStr FULL_WEIGHT_CHECKPOINT_FORMAT); ("version", PInt FULL_WEIGHT_CHECKPOINT_VERSION);
         ("dtype", PStr DTYPE_NAME); ("generation", PStr generation); ("layers", PDict entries)].

(** The disk and the local variables of [save_full_weight_checkpoint]. *)
Record saving := Saving {
  sv_disk : disk;
  sv_entries : list (string * pyval);
  sv_created : list string;
  sv_temporary : list string;
  sv_seen : list Z;
}.

Definition on_disk {A} (m : M disk A) : M saving A := fun s =>
  let '(d, r) := m (sv_disk s) in
  (Saving d (sv_entries s) (sv_created s) (sv_temporary s) (sv_seen s), r).

Definition add_temporary (name : string) : M saving unit := modify (fun s =>
  Saving (sv_disk s) (sv_entries s) (sv_created s) (sv_temporary s ++ [name]) (sv_seen s)).
(** [l.remove(name)] of a list that holds the name *)
Fixpoint remove_first (name : string) (l : list string) : list string :=
  match l with
  | [] => []
  | n :: l' => if String.eqb n name then l' else n :: remove_first name l'
  end.
Definition drop_temporary (name : string) : M saving unit := modify (fun s =>
  Saving (sv_disk s) (sv_entries s) (sv_created s)
    (remove_first name (sv_temporary s)) (sv_seen s)).
Definition see_layer (layer_idx : Z) : M saving unit := modify (fun s =>
  Saving (sv_disk s) (sv_entries s) (sv_created s) (sv_temporary s) (layer_idx :: sv_seen s)).
Definition add_created (name : string) : M saving unit := modify (fun s =>
  Saving (sv_disk s) (sv_entries s) (sv_created s ++ [name]) (sv_temporary s) (sv_seen s)).
Definition add_entry (layer_idx : Z) (entry : pyval) : M saving unit := modify (fun s =>
  Saving (sv_disk s) (dict_set (str_of_Z layer_idx) entry (sv_entries s)) (sv_created s)
    (sv_temporary s) (sv_seen s)).

Definition save_layer (generation : string) (w : wrapper) : M saving unit :=
  let layer_idx := w_layer_idx w in
  _ ← raise_ifM (layer_idx <? 0) RuntimeError "Invalid negative KT Full layer index";
  seen ← gets sv_seen;
  _ ← raise_ifM (bool_decide (layer_idx ∈ seen)) RuntimeError "Duplicate KT Full wrapper";
  _ ← see_layer layer_idx;
  params ← lift (backend_parameters w);
  _ ← lift (validate_parameter_set w params);
  let filename := shard_name generation layer_idx in
  let temp_path := temp_name generation layer_idx in
  _ ← add_temporary temp_path;
  _ ← on_disk (write_file temp_path (Safetensors (shard_of generation layer_idx params)));
  _ ← on_disk (replace_file temp_path filename);
  _ ← drop_temporary temp_path;
  _ ← add_created filename;
  size ← on_disk (getsize filename);
  add_entry layer_idx (layer_entry generation layer_idx size params).

Definition write_index (generation : string) : M saving unit :=
  entries ← gets sv_entries;
  let temp_index_path := temp_index_name generation in
  _ ← add_temporary temp_index_path;
  _ ← on_disk (write_file temp_index_path (Text (index_text (index_value generation entries))));
  _ ← on_disk (replace_file temp_index_path FULL_WEIGHT_INDEX_NAME);
  drop_temporary temp_index_path.

Definition clean_up : M saving unit :=
  temporary ← gets sv_temporary;
  _ ← for_M temporary (fun name => on_disk (remove_if_there name));
  created ← gets sv_created;
  for_M created (fun name => on_disk (remove_if_there name)).

(** [sorted(full_wrappers, key=lambda item: int(item.layer_idx))] *)
Definition by_layer (a b : wrapper) : Prop := w_layer_idx a <= w_layer_idx b.
#[local] Instance by_layer_dec : RelDecision by_layer := fun a b => Z_le_dec _ _.
Definition sorted_wrappers (ws : list wrapper) : list wrapper := merge_sort by_layer ws.

(** The shard of an entry of the superseded index is removed, errors ignored. *)
Definition remove_superseded (entry : pyval) : M saving unit :=
  match as_dict entry with
  | None => mret tt
  | Some d =>
      match safe_shard_path (pget "file" d) with
      | Err _ => mret tt
      | Ok old_path =>
          created ← gets sv_created;
          if bool_decide (old_path ∈ created) then mret tt
          else on_disk (catchM (remove_file old_path)
                          (fun c => bool_decide (c ∈ [FileNotFoundError; OSError])) (fun _ => mret tt))
      end
  end.

(** The index of the directory, when it has a valid one. *)
Definition previous_index (fs : files) : option (list (string * pyval)) :=
  if has_index fs then match read_index fs with Ok index => Some index | Err _ => None end else None.

Definition publish (generation : string) (full_wrappers : list wrapper) : M saving unit :=
  on_exception
    (_ ← for_M (sorted_wrappers full_wrappers) (save_layer generation);
     write_index generation)
    clean_up.

Definition remove_previous (previous : option (list (string * pyval))) : M saving unit :=
  match previous with
  | Some index => for_M (snd <$> index_layers index) remove_superseded
  | None => mret tt
  end.

Definition save_full_weight_checkpoint (launch : launcher) (generation : string) (wrappers : list wrapper)
    : M disk bool := fun d =>
  let full_wrappers := full_weight_wrappers wrappers in
  match full_wrappers with
  | [] => (d, Ok false)
  | _ =>
      match distributed_rank_world_size launch with
      | Err e => (d, Err e)
      | Ok (rank, _) =>
          if negb (rank =? 0) then (d, Ok false)
          else
            let previous := previous_index (dk_files d) in
            let '(s, r) := (_ ← publish generation full_wrappers; _ ← remove_previous previous; mret true)
                             (Saving d [] [] [] []) in
            (sv_disk s, r)
      end
  end.

(** ** Restoring on rank 0 *)

(** [wrapper_map] of the full wrappers: a dict by layer, in the order of insertion. *)
Definition check_wrappers (wrappers : list wrapper) : res (list Z) :=
  for_each wrappers [] (fun layers w =>
    let layer_idx := w_layer_idx w in
    _ ← raise_if (bool_decide (layer_idx ∈ layers)) RuntimeError "Duplicate KT Full wrapper";
    params ← backend_parameters w;
    _ ← validate_parameter_set w params;
    mret (layers ++ [layer_idx])).

(** The layers that the keys of an index name. *)
Definition saved_layers (keys : list string) : res (list Z) :=
  for_each keys [] (fun layers key =>
    layer_idx ← catch (int_of_text key) (fun c => bool_decide (c = ValueError))
                  (fun _ => Err (Raise RuntimeError "Invalid layer key in KT Full checkpoint index"));
    _ ← raise_if ((layer_idx <? 0) || negb (String.eqb (str_of_Z layer_idx) key)
                  || bool_decide (layer_idx ∈ layers)) RuntimeError
          "Non-canonical or duplicate layer key in KT Full checkpoint index";
    mret (layer_idx :: layers)).

Definition same_layers (a b : list Z) : bool :=
  forallb (fun x => bool_decide (x ∈ b)) a && forallb (fun x => bool_decide (x ∈ a)) b.

(** Everything that is checked before a parameter is written: the shard of each
    wrapper, in the order of the wrappers. *)
Definition plan_restore (fs : files) (wrappers : list wrapper) : res (list (Z * string)) :=
  index ← read_index fs;
  expected_layers ← check_wrappers wrappers;
  saved ← saved_layers (fst <$> index_layers index);
  _ ← raise_if (negb (same_layers saved expected_layers)) RuntimeError
        "KT Full checkpoint layer set mismatch";
  for_each wrappers [] (fun shards w =>
    entry ← of_option (dict_get (str_of_Z (w_layer_idx w)) (index_layers index)) KeyError "";
    shard_path ← inspect_layer_shard fs (w_layer_idx w) entry (expected_shapes w) (index_generation index);
    mret (shards ++ [(w_layer_idx w, shard_path)])).

(** The wrappers that are being restored, and whether a copy fails. *)
Context (copy_error : Z -> proj -> option pyexn).

Definition on_backend (f : backend -> backend) (w : wrapper) : wrapper :=
  Wrapper (w_layer_idx w) (w_full_weight_grad w) (w_expert_num w) (w_intermediate_size w)
    (w_hidden_size w) (f <$> w_backend w).

Definition with_data (data : string) (pm : param) : param :=
  Param (pm_is_parameter pm) (pm_shape pm) (pm_dtype pm) (pm_device_type pm) (pm_contiguous pm)
    (pm_requires_grad pm) data.
Definition set_data (p : proj) (data : string) (b : backend) : backend :=
  Backend (fun q => if decide (q = p) then with_data data <$> bk_params b p else bk_params b q)
    (bk_dirty b) (bk_load_failed b).

(** [parameter_map[layer_idx][name].copy_(tensor)] *)
Definition copy_parameter (layer_idx : Z) (p : proj) (data : string) : M (list wrapper) unit :=
  match copy_error layer_idx p with
  | Some e => lift (Err e)
  | None => modify (List.map (fun w => if w_layer_idx w =? layer_idx
                                       then on_backend (set_data p data) w else w))
  end.

Definition restore_layer (fs : files) (shards : list (Z * string)) (layer_idx : Z) : M (list wrapper) unit :=
  name ← lift (of_option (snd <$> List.find (fun s => s.1 =? layer_idx) shards) KeyError "");
  sh ← lift (safe_open fs name);
  for_M projections (fun p =>
    t ← lift (of_option (dict_get (proj_name p) (sh_tensors sh)) SafetensorError "no such tensor");
    copy_parameter layer_idx p (st_data t)).

Definition mark_failed (failed : bool) : M (list wrapper) unit :=
  modify (List.map (on_backend (fun b => Backend (bk_params b) (bk_dirty b) failed))).
Definition mark_dirty : M (list wrapper) unit :=
  modify (List.map (on_backend (fun b => Backend (bk_params b) true (bk_load_failed b)))).

Definition load_full_weight_checkpoint_rank0 (fs : files) : M (list wrapper) Z :=
  wrappers ← get;
  shards ← lift (plan_restore fs wrappers);
  _ ← on_exception
        (_ ← for_M (sorted_set (w_layer_idx <$> wrappers)) (restore_layer fs shards);
         _ ← mark_dirty;
         mark_failed false)
        (mark_failed true);
  mret (Z.of_nat (length wrappers)).

(** ** Restoring on every rank *)

(** The wrappers after the full ones among them were changed. *)
Fixpoint merge_full (wrappers full : list wrapper) : list wrapper :=
  match wrappers, full with
  | w :: ws, f :: fs => if w_full_weight_grad w then f :: merge_full ws fs else w :: merge_full ws full
  | _, _ => wrappers
  end.

(** What rank 0 tells the others: its error, and how many layers it restored. *)
Definition status : Type := option string * Z.

(** The part of a rank before the broadcast: rank 0 restores, the others do nothing. *)
Definition local_status (directory : option files) (rank : Z) : M (list wrapper) status :=
  if rank =? 0 then
    match directory with
    | None => mret (Some "No kt_full_experts.index.json found", 0)
    | Some fs => fun ws =>
        match load_full_weight_checkpoint_rank0 fs ws with
        | (ws', Ok n) => (ws', Ok (None, n))
        | (ws', Err e) => (ws', Ok (Some (exn_msg e), 0))
        end
    end
  else mret (None, 0).

(** [broadcast] is what a rank has after the broadcast from rank 0. *)
Definition load_full_weight_checkpoint (directory : option files) (launch : launcher)
    (initialized : bool) (broadcast : status -> status) : M (list wrapper) bool :=
  full_wrappers ← gets full_weight_wrappers;
  match full_wrappers with
  | [] => mret false
  | _ =>
      '(rank, world_size) ← lift (distributed_rank_world_size launch);
      mine ← (fun ws =>
        let '(full', r) := local_status directory rank (full_weight_wrappers ws) in
        (merge_full ws full', r));
      let '(error_text, loaded_layers) :=
        if (1 <? world_size) && initialized then broadcast mine else mine in
      match error_text with
      | Some text => raise RuntimeError "Failed to load KT Full checkpoint"
      | None => mret true
      end
  end.
End checkpoint.
