(* ===== verification/CheckpointSpec.v ===== *)
(** * Properties of the full-weight checkpoints

    A save publishes atomically: whenever it stops, the directory holds either
    everything it held before or the complete new checkpoint.  What a save
    publishes loads back exactly, a restore writes nothing before every shard
    was inspected, and its failure reaches every rank. *)
From S2P Require Import Prelude PyStr PyVal Dist Checkpoint JsonCodec KTConfigSpec.
From Stdlib Require Import Ascii.

Local Open Scope string_scope.
Local Open Scope list_scope.
Local Open Scope Z_scope.

(** ** File names *)

(** The names that a save of a generation writes, apart from the index. *)
Definition ours (generation name : string) : Prop :=
  name = temp_index_name generation ∨
  ∃ layer_idx, name = shard_name generation layer_idx ∨ name = temp_name generation layer_idx.

Lemma str_rev_cat s t : str_rev (s ++ t)%string "" = (str_rev t "" ++ str_rev s "")%string.
Proof.
  induction s as [|c s IH]; simpl; [by rewrite str_app_nil_r|].
  rewrite (str_rev_app (s ++ t)), IH, (str_rev_app s (String c "")). by rewrite str_app_assoc.
Qed.

Lemma str_app_inj_r s t p : (s ++ p = t ++ p)%string → s = t.
Proof.
  intros H. apply (f_equal (fun x => str_rev x "")) in H. rewrite !str_rev_cat in H.
  apply str_app_inj_l, (f_equal (fun x => str_rev x "")) in H. by rewrite !str_rev_rev in H.
Qed.

Lemma digits_zeros n s : digits_val 0 (zeros n s) = digits_val 0 s.
Proof. induction n as [|n IH]; [done|]. exact IH. Qed.

Lemma str_of_Z_nonempty n : 0 ≤ n → str_of_Z n ≠ "".
Proof. intros Hn E. pose proof (parse_str_of_Z n Hn) as H. by rewrite E in H. Qed.

Lemma digits_pad5 n : 0 ≤ n → digits_val 0 (pad5 n) = Some n.
Proof.
  intros Hn. unfold pad5. rewrite digits_zeros, <-parse_digits_eq by by apply str_of_Z_nonempty.
  by apply parse_str_of_Z.
Qed.

Lemma pad5_inj n m : 0 ≤ n → 0 ≤ m → pad5 n = pad5 m → n = m.
Proof. intros Hn Hm E. pose proof (digits_pad5 n Hn) as H. rewrite E, digits_pad5 in H by done. congruence. Qed.

Lemma shard_name_inj generation n m : 0 ≤ n → 0 ≤ m →
  shard_name generation n = shard_name generation m → n = m.
Proof.
  intros Hn Hm E. unfold shard_name in E.
  apply str_app_inj_l, str_app_inj_l, str_app_inj_l, str_app_inj_r in E. by apply pad5_inj.
Qed.

Lemma shard_not_temp generation n m : shard_name generation n ≠ temp_name generation m.
Proof.
  intros E. apply (f_equal (fun x => str_rev x "")) in E. revert E.
  unfold temp_name. rewrite str_rev_cat. unfold shard_name at 1. rewrite !str_rev_cat.
  rewrite !str_app_assoc. simpl. discriminate.
Qed.

Lemma temp_index_not_shard generation n : temp_index_name generation ≠ shard_name generation n.
Proof. unfold temp_index_name, shard_name, FULL_WEIGHT_INDEX_NAME. discriminate. Qed.

Lemma index_not_ours generation : ¬ ours generation FULL_WEIGHT_INDEX_NAME.
Proof.
  intros [E|(n & [E|E])]; [|by vm_compute in E..].
  unfold temp_index_name in E. rewrite <-(str_app_nil_r FULL_WEIGHT_INDEX_NAME) in E at 1.
  apply str_app_inj_l in E. discriminate.
Qed.

Lemma ours_shard generation n : ours generation (shard_name generation n).
Proof. right. eauto. Qed.
Lemma ours_temp generation n : ours generation (temp_name generation n).
Proof. right. eauto. Qed.
Lemma ours_temp_index generation : ours generation (temp_index_name generation).
Proof. by left. Qed.
#[export] Hint Resolve ours_shard ours_temp ours_temp_index : core.

(** Whether a name begins like the ones of a generation. *)
Definition claimed (generation name : string) : bool :=
  starts_with ("kt_full_experts-" ++ generation)%string name
  || starts_with (FULL_WEIGHT_INDEX_NAME ++ "." ++ generation)%string name.

Lemma ours_claimed generation name : ours generation name → claimed generation name = true.
Proof.
  intros Ho. apply orb_true_iff. rewrite !starts_with_true.
  destruct Ho as [->|(n & [-> | ->])]; [right|left..]; unfold temp_index_name, temp_name, shard_name;
    rewrite ?str_app_assoc; eauto.
Qed.

Section checkpoint.
Context `{Platform}.
Context (file_size : file → Z) (io : nat → io_outcome).

(** ** Loading from a larger directory *)

Lemma safe_open_mono fs fs' name sh : fs ⊆ fs' → safe_open fs name = Ok sh → safe_open fs' name = Ok sh.
Proof.
  unfold safe_open. intros Hs. destruct (fs !! name) as [f|] eqn:E; [|done].
  by rewrite (lookup_weaken _ _ _ _ E Hs).
Qed.

Lemma read_index_mono fs fs' index : fs ⊆ fs' → read_index fs = Ok index → read_index fs' = Ok index.
Proof.
  unfold read_index. intros Hs Hr. inv_bind Hr as content Hc. apply of_option_ok in Hc.
  by rewrite (lookup_weaken _ _ _ _ Hc Hs).
Qed.

Lemma inspect_mono fs fs' layer_idx entry shapes generation path : fs ⊆ fs' →
  inspect_layer_shard file_size fs layer_idx entry shapes generation = Ok path →
  inspect_layer_shard file_size fs' layer_idx entry shapes generation = Ok path.
Proof.
  unfold inspect_layer_shard. intros Hs Hr. inv_bind Hr as d Hd. rewrite Hd. simpl.
  inv_bind Hr as u Hu. rewrite Hu. simpl. inv_bind Hr as name Hn. rewrite Hn. simpl.
  inv_bind Hr as content Hc. apply of_option_ok in Hc. rewrite (lookup_weaken _ _ _ _ Hc Hs). simpl.
  inv_bind Hr as n Hz. rewrite Hz. simpl. inv_bind Hr as u' Hu'. rewrite Hu'. simpl.
  revert Hr. unfold safe_open. by rewrite Hc, (lookup_weaken _ _ _ _ Hc Hs).
Qed.

(** What loads from a directory loads from every directory that extends it. *)
Lemma load_mono fs fs' layer_idx shapes data : fs ⊆ fs' →
  load_full_weight_layer file_size fs layer_idx shapes = Ok data →
  load_full_weight_layer file_size fs' layer_idx shapes = Ok data.
Proof.
  unfold load_full_weight_layer. intros Hs Hr. inv_guard Hr as Hi. inv_bind Hr as index Hx.
  rewrite (read_index_mono _ _ _ Hs Hx).
  assert (has_index fs' = true) as ->.
  { bools. unfold has_index in *. destruct (fs !! _) as [f|] eqn:E; [|done].
    by rewrite (lookup_weaken _ _ _ _ E Hs). }
  simpl. inv_bind Hr as entry He. rewrite He. simpl. inv_bind Hr as path Hp.
  rewrite (inspect_mono _ _ _ _ _ _ _ Hs Hp). simpl. unfold read_tensors in *.
  inv_bind Hr as sh Hsh. by rewrite (safe_open_mono _ _ _ _ Hs Hsh).
Qed.

(** ** What a file operation leaves *)

(** Every state the directory has been in. *)
Definition states (d : disk) : list files := dk_past d ++ [dk_files d].

(** At most one new state, which differs under the names [N] only. *)
Definition one_step (N : list string) (d d' : disk) : Prop :=
  (dk_files d' = dk_files d ∧ states d' = states d ∨ states d' = states d ++ [dk_files d']) ∧
  ∀ name, name ∉ N → dk_files d' !! name = dk_files d !! name.

Lemma one_step_tick N d : one_step N d (tick d).
Proof. split; [by left|done]. Qed.

Lemma one_step_set N fs d : (∀ name, name ∉ N → fs !! name = dk_files d !! name) →
  one_step N d (set_files fs d).
Proof. intros Hn. split; [by right|done]. Qed.

Lemma write_file_run name content d d' r : write_file io name content d = (d', r) →
  one_step [name] d d' ∧
  match r with
  | Ok _ => dk_files d' = <[name := content]> (dk_files d)
  | Err e => e = Raise OSError "write"
  end.
Proof.
  unfold write_file. destruct (io (dk_clock d)); intros [= <- <-]; (split; [|done]);
    [apply one_step_set|apply one_step_tick|apply one_step_set];
    intros n Hn; rewrite lookup_insert_ne; set_solver.
Qed.

Lemma replace_file_run src dst d d' r : replace_file io src dst d = (d', r) →
  one_step [src; dst] d d' ∧
  match r with
  | Ok _ => ∃ content, dk_files d !! src = Some content ∧
                       dk_files d' = <[dst := content]> (delete src (dk_files d))
  | Err e => e ≠ Raise OSError "remove" ∧ dk_files d' = dk_files d ∧ states d' = states d
  end.
Proof.
  unfold replace_file. destruct (dk_files d !! src) as [content|] eqn:E.
  - destruct (io (dk_clock d)); intros [= <- <-];
      [|split; [apply one_step_tick|done]..]. split; [|eauto].
    apply one_step_set. intros n Hn. rewrite lookup_insert_ne, lookup_delete_ne; set_solver.
  - intros [= <- <-]. split; [apply one_step_tick|done].
Qed.

Lemma remove_file_run name d d' r : remove_file io name d = (d', r) →
  one_step [name] d d' ∧
  match r with
  | Ok _ => dk_files d' = delete name (dk_files d)
  | Err e => dk_files d' = dk_files d ∧ states d' = states d ∧
             (e = Raise OSError "remove" ∨ e = Raise FileNotFoundError name ∧ dk_files d !! name = None)
  end.
Proof.
  unfold remove_file. destruct (dk_files d !! name) as [content|] eqn:E.
  - destruct (io (dk_clock d)); intros [= <- <-];
      [|split; [apply one_step_tick|auto]..]. split; [|eauto].
    apply one_step_set. intros n Hn. rewrite lookup_delete_ne; set_solver.
  - intros [= <- <-]. split; [apply one_step_tick|auto].
Qed.

Lemma remove_if_there_run name d d' r : remove_if_there io name d = (d', r) →
  one_step [name] d d' ∧
  match r with
  | Ok _ => dk_files d' = delete name (dk_files d)
  | Err e => e = Raise OSError "remove" ∧ dk_files d' = dk_files d
  end.
Proof.
  unfold remove_if_there, catchM. destruct (remove_file io name d) as [d1 [u|e]] eqn:E;
    apply remove_file_run in E as [H1 H2].
  - intros [= <- <-]. done.
  - destruct H2 as (Hf & Hs & [->|[-> Hn]]); simpl; intros [= <- <-]; [done|].
    split; [done|]. by rewrite Hf, delete_id.
Qed.

(** ** The state of a save *)

(** Until the index is replaced: every state of the directory extends the one
    the save found, by names of the generation that the save remembers. *)
Record clean (generation : string) (fs0 : files) (s : saving) : Prop := {
  cl_states : ∀ fs, fs ∈ states (sv_disk s) → fs0 ⊆ fs;
  cl_extra : ∀ name, name ∉ sv_temporary s ++ sv_created s → dk_files (sv_disk s) !! name = fs0 !! name;
  cl_ours : ∀ name, name ∈ sv_temporary s ++ sv_created s → ours generation name;
}.

(** No file has a name of the generation, which is a fresh UUID. *)
Definition fresh (generation : string) (fs : files) : Prop := ∀ name, ours generation name → fs !! name = None.

Lemma fresh_unclaimed generation fs :
  forallb (fun kv => negb (claimed generation kv.1)) (map_to_list fs) = true → fresh generation fs.
Proof.
  intros Hf name Ho. destruct (fs !! name) as [f|] eqn:E; [|done].
  apply elem_of_map_to_list, list_elem_of_In in E. apply forallb_forall with (x := (name, f)) in Hf; [|done].
  simpl in Hf. by rewrite (ours_claimed _ _ Ho) in Hf.
Qed.

Lemma clean_step generation fs0 s s' N : fresh generation fs0 → clean generation fs0 s →
  one_step N (sv_disk s) (sv_disk s') →
  (∀ name, name ∈ N → ours generation name) →
  (∀ name, name ∈ sv_temporary s ++ sv_created s ∨ name ∈ N →
     name ∈ sv_temporary s' ++ sv_created s' ∨
     dk_files (sv_disk s') !! name = None) →
  (∀ name, name ∈ sv_temporary s' ++ sv_created s' → ours generation name) →
  clean generation fs0 s'.
Proof.
  intros Hfr [Hst Hex Ho] [Hs Hn] HN Hk Ho'.
  assert (fs0 ⊆ dk_files (sv_disk s')) as Hsub.
  { apply map_subseteq_spec. intros name f Hf. rewrite Hn.
    - rewrite Hex; [done|]. intros Hin. apply Ho, Hfr in Hin. congruence.
    - intros Hin%HN%Hfr. congruence. }
  split; [| |done].
  - destruct Hs as [[_ ->]| ->]; [done|]. intros fs [?| ->%list_elem_of_singleton]%elem_of_app; auto.
  - intros name Hnot. destruct (decide (name ∈ sv_temporary s ++ sv_created s ∨ name ∈ N)) as [Hin|Hout].
    + destruct (Hk name Hin) as [?|Hnone]; [done|]. rewrite Hnone. symmetry. apply Hfr.
      destruct Hin; auto.
    + rewrite Hn by tauto. apply Hex. tauto.
Qed.

(** ** One layer *)

(** A wrapper's parameters as they were when its shard was written, the shard,
    and the entry that describes it. *)
Definition saved (generation : string) (fs : files) (entries : list (string * pyval)) (w : wrapper) : Prop :=
  ∃ params, backend_parameters w = Ok params ∧ validate_parameter_set w params = Ok tt ∧
    let content := Safetensors (shard_of generation (w_layer_idx w) params) in
    fs !! shard_name generation (w_layer_idx w) = Some content ∧
    dict_get (str_of_Z (w_layer_idx w)) entries =
      Some (layer_entry generation (w_layer_idx w) (file_size content) params).

Record progress (generation : string) (fs0 : files) (pre : list wrapper) (s : saving) : Prop := {
  pg_clean : clean generation fs0 s;
  pg_temporary : sv_temporary s = [];
  pg_created : sv_created s = (fun w => shard_name generation (w_layer_idx w)) <$> pre;
  pg_seen : ∀ layer_idx, layer_idx ∈ sv_seen s ↔ layer_idx ∈ w_layer_idx <$> pre;
  pg_layers : Forall (fun w => 0 ≤ w_layer_idx w) pre ∧ NoDup (w_layer_idx <$> pre);
  pg_keys : fst <$> sv_entries s = (fun w => str_of_Z (w_layer_idx w)) <$> pre;
  pg_saved : ∀ w, w ∈ pre → saved generation (dk_files (sv_disk s)) (sv_entries s) w;
}.

(** The exception of a failed removal is raised by the clean-up only. *)
Definition other_error (e : pyexn) : Prop := e ≠ Raise OSError "remove".

Lemma runtime_error_other {A} (m : res A) e : raises_only RuntimeError m → m = Err e → other_error e.
Proof. intros Hm He. apply Hm in He. intros ->. discriminate. Qed.

Lemma backend_parameters_raises w : raises_only RuntimeError (backend_parameters w).
Proof. unfold backend_parameters. raises. Qed.

Lemma validate_parameter_set_raises w params : raises_only RuntimeError (validate_parameter_set w params).
Proof. unfold validate_parameter_set, validate_parameter. raises. by destruct x as [q pm]; raises. Qed.

Lemma dict_set_keys {A} k (v : A) d : k ∉ fst <$> d → fst <$> dict_set k v d = (fst <$> d) ++ [k].
Proof.
  induction d as [|[k' v'] d IH]; simpl; [done|]. intros Hk.
  destruct (String.eqb_spec k k') as [->|]; [set_solver|]. simpl. f_equal. apply IH. set_solver.
Qed.

Lemma clean_same generation fs0 s s' : clean generation fs0 s → sv_disk s' = sv_disk s →
  sv_temporary s' ++ sv_created s' = sv_temporary s ++ sv_created s → clean generation fs0 s'.
Proof. intros [H1 H2 H3] Hd Hl. split; rewrite ?Hd, ?Hl; done. Qed.

(** What is left to do for a layer once its parameters are checked. *)
Definition write_shard (generation : string) (layer_idx : Z) (params : list (proj * param)) : M saving unit :=
  let filename := shard_name generation layer_idx in
  let temp_path := temp_name generation layer_idx in
  _ ← add_temporary temp_path;
  _ ← on_disk (write_file io temp_path (Safetensors (shard_of generation layer_idx params)));
  _ ← on_disk (replace_file io temp_path filename);
  _ ← drop_temporary temp_path;
  _ ← add_created filename;
  size ← on_disk (getsize file_size filename);
  add_entry layer_idx (layer_entry generation layer_idx size params).

Lemma on_disk_inv {A} (m : M disk A) s s' r : on_disk m s = (s', r) →
  ∃ d', m (sv_disk s) = (d', r) ∧
        s' = Saving d' (sv_entries s) (sv_created s) (sv_temporary s) (sv_seen s).
Proof. unfold on_disk. destruct (m (sv_disk s)) as [d' r']. intros [= <- <-]. eauto. Qed.

Lemma on_disk_getsize s name f : dk_files (sv_disk s) !! name = Some f →
  on_disk (getsize file_size name) s = (s, Ok (file_size f)).
Proof. intros Hf. unfold on_disk, getsize, gets_res. rewrite Hf. by destruct s. Qed.

(** Which names are remembered. *)
Local Ltac names := intros ?; rewrite ?elem_of_app, ?elem_of_cons, ?elem_of_app, ?elem_of_nil; naive_solver.

Lemma write_shard_run generation fs0 layer_idx params s s' r :
  fresh generation fs0 → clean generation fs0 s → sv_temporary s = [] →
  write_shard generation layer_idx params s = (s', r) →
  clean generation fs0 s' ∧
  match r with
  | Ok _ =>
      let content := Safetensors (shard_of generation layer_idx params) in
      sv_temporary s' = [] ∧ sv_created s' = sv_created s ++ [shard_name generation layer_idx] ∧
      sv_seen s' = sv_seen s ∧
      sv_entries s' = dict_set (str_of_Z layer_idx)
                        (layer_entry generation layer_idx (file_size content) params) (sv_entries s) ∧
      dk_files (sv_disk s') !! shard_name generation layer_idx = Some content ∧
      ∀ name, name ∉ [shard_name generation layer_idx; temp_name generation layer_idx] →
        dk_files (sv_disk s') !! name = dk_files (sv_disk s) !! name
  | Err e => other_error e
  end.
Proof.
  intros Hfr Hcl Ht. unfold write_shard. cbv zeta. unfold add_temporary at 1. rewrite bindM_modify, Ht. simpl app.
  set (temp := temp_name generation layer_idx). set (filename := shard_name generation layer_idx).
  assert (ours generation temp ∧ ours generation filename ∧ filename ≠ temp) as (Hot & Hof & Hne)
    by (split_and!; [apply ours_temp|apply ours_shard|apply shard_not_temp]).
  pose proof (cl_ours _ _ _ Hcl) as Ho. rewrite Ht in Ho. simpl in Ho.
  set (s1 := Saving _ _ _ _ _).
  assert (clean generation fs0 s1) as Hcl1.
  { apply (clean_step _ _ s _ [] Hfr Hcl); rewrite ?Ht; simpl; [split; [by left|done]|names..]. }
  intros [(s2 & [] & Hw & Hr)|(e & Hw & ->)]%bindM_inv; apply on_disk_inv in Hw as (d2 & Hw & ->);
    apply write_file_run in Hw as [Hst Hw].
  2: { split; [|by rewrite Hw]. apply (clean_step _ _ s1 _ [temp] Hfr Hcl1); simpl; [done|names..]. }
  set (s2 := Saving _ _ _ _ _) in Hr.
  assert (clean generation fs0 s2) as Hcl2.
  { apply (clean_step _ _ s1 _ [temp] Hfr Hcl1); simpl; [done|names..]. }
  apply bindM_inv in Hr as [(s3 & [] & Hp & Hr)|(e & Hp & ->)]; apply on_disk_inv in Hp as (d3 & Hp & ->);
    apply replace_file_run in Hp as [Hst3 Hp]; simpl in Hp.
  2: { destruct Hp as (He & Hf & Hs). split; [|done].
       apply (clean_step _ _ s2 _ [] Hfr Hcl2); simpl; [|names..].
       split; [left; done|]. intros n _. by rewrite Hf. }
  destruct Hp as (content & Hc & Hf). rewrite Hw, lookup_insert in Hc.
  rewrite decide_True in Hc by done. injection Hc as <-.
  unfold drop_temporary, add_created in Hr. rewrite !bindM_modify in Hr. simpl in Hr.
  rewrite String.eqb_refl in Hr.
  assert (dk_files d3 !! filename = Some (Safetensors (shard_of generation layer_idx params))) as Hin
    by by rewrite Hf, lookup_insert, decide_True.
  rewrite (bindM_run _ _ _ _ _ (on_disk_getsize (Saving d3 _ _ _ _) filename _ Hin)) in Hr.
  unfold add_entry, modify in Hr. injection Hr as <- <-. split.
  - apply (clean_step _ _ s2 _ [temp; filename] Hfr Hcl2); simpl;
      [done|names| |by intros n [?| ->%list_elem_of_singleton]%elem_of_app; auto].
    intros n Hn. destruct (decide (n = temp)) as [->|Hnt]; [right|left; clear -Hn Hnt; simpl in Hn; set_solver].
    rewrite Hf, lookup_insert_ne, lookup_delete by done. by rewrite decide_True.
  - simpl. split_and!; try done. intros n [? [? _]%not_elem_of_cons]%not_elem_of_cons.
    by rewrite Hf, lookup_insert_ne, lookup_delete_ne, Hw, lookup_insert_ne.
Qed.

Lemma save_layer_run generation fs0 pre w s s' r :
  fresh generation fs0 → progress generation fs0 pre s →
  save_layer file_size io generation w s = (s', r) →
  match r with
  | Ok _ => progress generation fs0 (pre ++ [w]) s'
  | Err e => clean generation fs0 s' ∧ other_error e
  end.
Proof.
  intros Hfr Hp. unfold save_layer. cbv zeta. rewrite bindM_raise_if.
  destruct (Z.ltb_spec (w_layer_idx w) 0) as [|Hpos]; [intros [= <- <-]; split; [apply Hp|done]|].
  rewrite bindM_gets, bindM_raise_if. case_bool_decide as Hseen; [intros [= <- <-]; split; [apply Hp|done]|].
  rewrite (pg_seen _ _ _ _ Hp) in Hseen. unfold see_layer. rewrite bindM_modify.
  set (s1 := Saving _ _ _ _ _). assert (clean generation fs0 s1) as Hcl by by eapply clean_same; [apply Hp|..].
  rewrite bindM_lift. destruct (backend_parameters w) as [params|e] eqn:Eb;
    [|intros [= <- <-]; split; [done|]; by eapply runtime_error_other; [apply backend_parameters_raises|]].
  rewrite bindM_lift. destruct (validate_parameter_set w params) as [[]|e] eqn:Ev;
    [|intros [= <- <-]; split; [done|]; by eapply runtime_error_other; [apply validate_parameter_set_raises|]].
  intros Hr. apply (write_shard_run _ fs0) in Hr as [Hcl' Hr]; [|done..|by apply Hp].
  destruct r as [[]|e]; [|done]. destruct Hr as (Ht & Hc & Hs & He & Hin & Hother). simpl in *.
  destruct Hp as [_ _ Hcr Hse [Hnn Hnd] Hk Hsv]. set (l := w_layer_idx w) in *.
  assert (∀ w', w' ∈ pre → 0 ≤ w_layer_idx w' ∧ w_layer_idx w' ≠ l) as Hold.
  { intros w' Hw'. rewrite Forall_forall in Hnn. split; [auto|]. intros E. apply Hseen. rewrite <-E.
    apply list_elem_of_fmap. eauto. }
  split; rewrite ?Hs, ?He, ?Hc, ?Hcr, ?fmap_app; try done.
  - intros i. simpl. rewrite elem_of_cons, Hse, elem_of_app, list_elem_of_singleton. tauto.
  - split; [by apply Forall_app; split; [|constructor]|].
    apply NoDup_app. split_and!; [done| |apply NoDup_singleton]. set_solver.
  - rewrite dict_set_keys, Hk; [done|]. rewrite Hk. intros (w' & E & Hw')%list_elem_of_fmap.
    apply str_of_Z_inj in E. by apply (Hold w').
  - intros w' [Hw'| ->%list_elem_of_singleton]%elem_of_app.
    + destruct (Hold w' Hw') as [Hw0 Hne]. destruct (Hsv w' Hw') as (ps & H1 & H2 & H3 & H4).
      exists ps. cbv zeta. split_and!; [done..| |].
      * rewrite Hother; [done|]. intros [E|[E|[]%elem_of_nil]%elem_of_cons]%elem_of_cons;
          [by apply shard_name_inj in E|by apply shard_not_temp in E].
      * rewrite dict_get_set_ne; [done|]. intros E. by apply str_of_Z_inj in E.
    + exists params. cbv zeta. split_and!; [done..|]. apply dict_get_set_eq.
Qed.

(** ** Replacing the index *)

(** The complete checkpoint of a generation: its index, which lists exactly the
    layers of the full wrappers, and the shard of each. *)
Definition published (generation : string) (ws : list wrapper) (fs : files) : Prop :=
  ∃ entries,
    fs !! FULL_WEIGHT_INDEX_NAME = Some (Text (index_text (index_value generation entries))) ∧
    fst <$> entries ≡ₚ (fun w => str_of_Z (w_layer_idx w)) <$> full_weight_wrappers ws ∧
    ∀ w, w ∈ full_weight_wrappers ws → saved generation fs entries w.

(** The file an entry of an index names. *)
Definition entry_file (entry : pyval) : option string :=
  d ← as_dict entry;
  match safe_shard_path (pget "file" d) with Ok name => Some name | Err _ => None end.

(** The files that the index of a directory names. *)
Definition superseded (fs : files) : list string :=
  match previous_index fs with
  | Some index => omap entry_file (snd <$> index_layers index)
  | None => []
  end.

Record swapped (generation : string) (ws : list wrapper) (fs0 : files) (s : saving) : Prop := {
  sw_states : ∀ fs, fs ∈ states (sv_disk s) → fs0 ⊆ fs ∨ published generation ws fs;
  sw_published : published generation ws (dk_files (sv_disk s));
  sw_created : ∀ w, w ∈ full_weight_wrappers ws → shard_name generation (w_layer_idx w) ∈ sv_created s;
  sw_rest : ∀ name, name ∉ FULL_WEIGHT_INDEX_NAME :: superseded fs0 → ¬ ours generation name →
    dk_files (sv_disk s) !! name = fs0 !! name;
}.

Lemma saved_frame generation fs fs' entries w :
  fs' !! shard_name generation (w_layer_idx w) = fs !! shard_name generation (w_layer_idx w) →
  saved generation fs entries w → saved generation fs' entries w.
Proof. intros E (ps & H1 & H2 & H3 & H4). exists ps. cbv zeta in *. by rewrite E. Qed.

Lemma sorted_wrappers_perm ws : sorted_wrappers ws ≡ₚ ws.
Proof. apply merge_sort_Permutation. Qed.

Lemma progress_published generation ws fs0 s fs :
  progress generation fs0 (sorted_wrappers (full_weight_wrappers ws)) s →
  fs !! FULL_WEIGHT_INDEX_NAME = Some (Text (index_text (index_value generation (sv_entries s)))) →
  (∀ layer_idx, fs !! shard_name generation layer_idx = dk_files (sv_disk s) !! shard_name generation layer_idx) →
  published generation ws fs.
Proof.
  intros Hp Hi Hf. exists (sv_entries s). split_and!; [done| |].
  - rewrite (pg_keys _ _ _ _ Hp). by rewrite sorted_wrappers_perm.
  - intros w Hw. apply (saved_frame _ (dk_files (sv_disk s))); [apply Hf|]. apply (pg_saved _ _ _ _ Hp).
    by rewrite sorted_wrappers_perm.
Qed.

Lemma clean_at generation fs0 s name : clean generation fs0 s → name ∉ sv_temporary s ++ sv_created s →
  dk_files (sv_disk s) !! name = fs0 !! name.
Proof. intros Hcl. apply Hcl. Qed.

Lemma write_index_run generation ws fs0 s s' r :
  fresh generation fs0 → progress generation fs0 (sorted_wrappers (full_weight_wrappers ws)) s →
  write_index io generation s = (s', r) →
  match r with
  | Ok _ => swapped generation ws fs0 s'
  | Err e => clean generation fs0 s' ∧ other_error e
  end.
Proof.
  intros Hfr Hp. pose proof (pg_clean _ _ _ _ Hp) as Hcl. pose proof (pg_temporary _ _ _ _ Hp) as Ht.
  pose proof (cl_ours _ _ _ Hcl) as Ho. rewrite Ht in Ho. simpl in Ho.
  unfold write_index. rewrite bindM_gets. cbv zeta. unfold add_temporary at 1. rewrite bindM_modify, Ht. simpl app.
  set (temp := temp_index_name generation). assert (ours generation temp) as Hot by apply ours_temp_index.
  set (s1 := Saving _ _ _ _ _). set (content := index_text _).
  assert (clean generation fs0 s1) as Hcl1.
  { apply (clean_step _ _ s _ [] Hfr Hcl); rewrite ?Ht; simpl; [split; [by left|done]|names..]. }
  intros [(s2 & [] & Hw & Hr)|(e & Hw & ->)]%bindM_inv; apply on_disk_inv in Hw as (d2 & Hw & ->);
    apply write_file_run in Hw as [Hst Hw].
  2: { split; [|by rewrite Hw]. apply (clean_step _ _ s1 _ [temp] Hfr Hcl1); simpl; [done|names..]. }
  set (s2 := Saving _ _ _ _ _) in Hr.
  assert (clean generation fs0 s2) as Hcl2.
  { apply (clean_step _ _ s1 _ [temp] Hfr Hcl1); simpl; [done|names..]. }
  apply bindM_inv in Hr as [(s3 & [] & Hx & Hr)|(e & Hx & ->)]; apply on_disk_inv in Hx as (d3 & Hx & ->);
    apply replace_file_run in Hx as [Hst3 Hx]; simpl in Hx.
  2: { destruct Hx as (He & Hf & Hs). split; [|done].
       apply (clean_step _ _ s2 _ [] Hfr Hcl2); simpl; [|names..].
       split; [left; done|]. intros n _. by rewrite Hf. }
  destruct Hx as (c & Hc & Hf). rewrite Hw, lookup_insert, decide_True in Hc by done. injection Hc as <-.
  unfold drop_temporary, modify in Hr. injection Hr as <- <-.
  assert (∀ i, shard_name generation i ≠ FULL_WEIGHT_INDEX_NAME) as Hni
    by (intros i E; apply (index_not_ours generation); rewrite <-E; apply ours_shard).
  assert (published generation ws (dk_files d3)) as Hpub.
  { apply (progress_published _ _ _ _ _ Hp); rewrite Hf; [by rewrite lookup_insert, decide_True|].
    intros i. pose proof (temp_index_not_shard generation i) as Hti. pose proof (Hni i).
    by rewrite lookup_insert_ne, lookup_delete_ne, Hw, lookup_insert_ne. }
  split; simpl.
  - destruct Hst3 as [[[_ ->]| ->] _].
    + intros fs Hfs. left. by apply (cl_states _ _ _ Hcl2).
    + intros fs [Hfs| ->%list_elem_of_singleton]%elem_of_app; [left; by apply (cl_states _ _ _ Hcl2)|by right].
  - done.
  - intros w Hw'. rewrite (pg_created _ _ _ _ Hp). apply list_elem_of_fmap. exists w. by rewrite sorted_wrappers_perm.
  - intros n [Hn _]%not_elem_of_cons Hno. rewrite Hf, lookup_insert_ne by done.
    rewrite lookup_delete_ne by by intros ->. apply (clean_at _ _ s2 _ Hcl2). simpl.
    intros [->|Hin]%elem_of_cons; auto.
Qed.

(** ** Superseded shards *)

Lemma published_delete generation ws fs name : published generation ws fs →
  name ≠ FULL_WEIGHT_INDEX_NAME →
  (∀ w, w ∈ full_weight_wrappers ws → name ≠ shard_name generation (w_layer_idx w)) →
  published generation ws (delete name fs).
Proof.
  intros (entries & Hi & Hk & Hs) Hn Hw. exists entries. split_and!; [by rewrite lookup_delete_ne|done|].
  intros w Hin. apply (saved_frame _ fs); [|by apply Hs]. rewrite lookup_delete_ne; [done|]. by apply Hw.
Qed.

Lemma remove_superseded_run generation ws fs0 entry s :
  FULL_WEIGHT_INDEX_NAME ∉ superseded fs0 →
  (∀ name, entry_file entry = Some name → name ∈ superseded fs0) →
  swapped generation ws fs0 s →
  ∃ s', remove_superseded io entry s = (s', Ok tt) ∧ swapped generation ws fs0 s'.
Proof.
  intros Hidx Hent Hsw. unfold remove_superseded, entry_file in *.
  destruct (as_dict entry) as [d|]; simpl in *; [|by eauto].
  destruct (safe_shard_path _) as [name|e]; [|by eauto]. specialize (Hent name eq_refl).
  rewrite bindM_gets. case_bool_decide as Hcr; [by eauto|].
  unfold on_disk, catchM. destruct (remove_file io name (sv_disk s)) as [d' r] eqn:E.
  apply remove_file_run in E as [Hst E].
  set (s' := Saving d' (sv_entries s) (sv_created s) (sv_temporary s) (sv_seen s)).
  assert (swapped generation ws fs0 s' ∧
          match r with Ok _ => True | Err e => exn_cls e = FileNotFoundError ∨ exn_cls e = OSError end) as [Hs' Hr].
  - destruct r as [u|e].
    + split; [|done]. destruct Hsw as [H1 H2 H3 H4].
      assert (published generation ws (dk_files d')) as Hp.
      { rewrite E. apply published_delete; [done|by intros ->|]. intros w Hw ->. by apply Hcr, H3. }
      split; [|done..|].
      * simpl. destruct Hst as [[[_ ->]| ->] _]; [done|].
        intros fs [?| ->%list_elem_of_singleton]%elem_of_app; auto.
      * simpl. intros n Hn Hno. rewrite E, lookup_delete_ne; [by apply H4|].
        intros ->. apply Hn. by apply elem_of_cons; right.
    + destruct E as (Hf & Hs & E). split; [|destruct E as [->|[-> _]]; auto].
      destruct Hsw as [H1 H2 H3 H4]. split; simpl; rewrite ?Hf, ?Hs; done.
  - destruct r as [[]|e]; [by exists s'|]. exists s'. split; [|done].
    rewrite bool_decide_true; [done|]. destruct Hr as [-> | ->]; set_solver.
Qed.

(** ** Cleaning up *)

Lemma remove_all_run generation fs0 l s s' r :
  fresh generation fs0 → clean generation fs0 s → (∀ name, name ∈ l → name ∈ sv_temporary s ++ sv_created s) →
  for_M l (fun name => on_disk (remove_if_there io name)) s = (s', r) →
  clean generation fs0 s' ∧ sv_temporary s' = sv_temporary s ∧ sv_created s' = sv_created s ∧
  (∀ name, dk_files (sv_disk s) !! name = None → dk_files (sv_disk s') !! name = None) ∧
  match r with
  | Ok _ => ∀ name, name ∈ l → dk_files (sv_disk s') !! name = None
  | Err e => e = Raise OSError "remove"
  end.
Proof.
  intros Hfr Hcl Hl Hrun.
  set (kept s1 := clean generation fs0 s1 ∧ sv_temporary s1 = sv_temporary s ∧ sv_created s1 = sv_created s ∧
    ∀ name, dk_files (sv_disk s) !! name = None → dk_files (sv_disk s1) !! name = None).
  apply (for_M_inv
    (fun pre s1 => kept s1 ∧ ∀ name, name ∈ pre → dk_files (sv_disk s1) !! name = None)
    (fun e s1 => kept s1 ∧ e = Raise OSError "remove")) in Hrun.
  - destruct r; unfold kept in Hrun; naive_solver.
  - split; [done|]. by intros name ?%elem_of_nil.
  - intros pre name post s1 s2 r' -> [(Hc1 & Ht & Hcr & Hn) Hpre] Hb.
    apply on_disk_inv in Hb as (d & Hb & ->). apply remove_if_there_run in Hb as [Hst Hb].
    assert (name ∈ sv_temporary s1 ++ sv_created s1) as Hin.
    { rewrite Ht, Hcr. apply Hl, elem_of_app. right. left. }
    assert (∀ n, dk_files (sv_disk s1) !! n = None → n ≠ name → dk_files d !! n = None) as Hkeep.
    { intros n Hn1 Hne. rewrite (proj2 Hst); [done|]. by rewrite list_elem_of_singleton. }
    assert (clean generation fs0 (Saving d (sv_entries s1) (sv_created s1) (sv_temporary s1) (sv_seen s1))) as Hc2.
    { apply (clean_step _ _ s1 _ [name] Hfr Hc1); simpl; [done| | |apply (cl_ours _ _ _ Hc1)].
      - intros n ->%list_elem_of_singleton. by apply (cl_ours _ _ _ Hc1).
      - intros n [?| ->%list_elem_of_singleton]; auto. }
    assert (∀ n, dk_files (sv_disk s1) !! n = None → dk_files d !! n = None) as Hkeep'.
    { intros n Hn1. destruct (decide (n = name)) as [->|Hne]; [|by apply Hkeep].
      destruct (proj1 Hst) as [[-> _]|_]; [done|].
      destruct r' as [u|e]; [by rewrite Hb, lookup_delete, decide_True|]. by rewrite (proj2 Hb). }
    destruct r' as [u|e]; (split; [split_and!; simpl; auto|]); [|apply Hb].
    intros n [?| ->%list_elem_of_singleton]%elem_of_app; simpl; [by apply Hkeep', Hpre|].
    by rewrite Hb, lookup_delete, decide_True.
Qed.

Lemma clean_up_run generation fs0 s s' r :
  fresh generation fs0 → clean generation fs0 s → clean_up io s = (s', r) →
  clean generation fs0 s' ∧
  match r with
  | Ok _ => dk_files (sv_disk s') = fs0
  | Err e => e = Raise OSError "remove"
  end.
Proof.
  intros Hfr Hcl. unfold clean_up. rewrite bindM_gets.
  intros Hr. apply bindM_inv in Hr as [(s1 & [] & Hr1 & Hr)|(e & Hr1 & ->)];
    pose proof (remove_all_run _ fs0 _ _ _ _ Hfr Hcl (λ n Hn, proj2 (elem_of_app _ _ n) (or_introl Hn)) Hr1)
      as (Hc1 & Ht & Hcr & Hn & H1); [|done].
  rewrite bindM_gets in Hr.
  pose proof (remove_all_run _ fs0 _ _ _ _ Hfr Hc1 (λ n Hn, proj2 (elem_of_app _ _ n) (or_intror Hn)) Hr)
    as (Hc2 & Ht2 & Hcr2 & Hn2 & H2).
  split; [done|]. destruct r as [u|e]; [|done]. apply map_eq. intros n.
  destruct (decide (n ∈ sv_temporary s' ++ sv_created s')) as [Hin|Hout]; [|by apply (cl_extra _ _ _ Hc2)].
  rewrite (Hfr n) by by apply (cl_ours _ _ _ Hc2).
  rewrite Ht2, Ht, Hcr2 in Hin. apply elem_of_app in Hin as [Hin|Hin]; [by apply Hn2, H1|by apply H2].
Qed.

(** ** A whole save *)

Lemma publish_run generation ws fs0 s s' r :
  fresh generation fs0 → progress generation fs0 [] s →
  publish file_size io generation (full_weight_wrappers ws) s = (s', r) →
  match r with
  | Ok _ => swapped generation ws fs0 s'
  | Err e => clean generation fs0 s' ∧ (other_error e → dk_files (sv_disk s') = fs0)
  end.
Proof.
  intros Hfr Hp. unfold publish, on_exception. destruct (mbind (M := M saving) _ _ s) as [s2 r2] eqn:Hrun.
  assert (match r2 with Ok _ => swapped generation ws fs0 s2 | Err e => clean generation fs0 s2 ∧ other_error e end)
    as Hbody.
  { apply bindM_inv in Hrun as [(s1 & [] & H1 & H2)|(e & H1 & ->)];
      apply (for_M_inv (progress generation fs0) (fun e s => clean generation fs0 s ∧ other_error e)) in H1;
      try done; [by eapply write_index_run| |];
      intros pre w post s3 s4 r' Hl Hpre Hb; by apply (save_layer_run _ fs0 pre) in Hb. }
  destruct r2 as [u|e2]; [by intros [= <- <-]|]. destruct Hbody as [Hc2 He2].
  destruct (clean_up io s2) as [s3 r3] eqn:Hcl. apply (clean_up_run generation fs0) in Hcl as [Hc3 H3]; [|done..].
  destruct r3 as [u|e3]; intros [= <- <-]; [done|]. split; [done|]. by rewrite H3.
Qed.

Lemma remove_previous_run generation ws fs0 s :
  FULL_WEIGHT_INDEX_NAME ∉ superseded fs0 → swapped generation ws fs0 s →
  ∃ s', remove_previous io (previous_index fs0) s = (s', Ok tt) ∧ swapped generation ws fs0 s'.
Proof.
  intros Hi Hs. unfold superseded in *. destruct (previous_index fs0) as [index|] eqn:E; [|by eauto].
  apply (for_M_total (fun _ s => swapped generation ws fs0 s)); [done|].
  intros pre entry post s1 Hl Hs1. apply (remove_superseded_run _ _ _ _ _); [|..|done].
  - unfold superseded. by rewrite E.
  - intros name Hn. unfold superseded. rewrite E. apply list_elem_of_omap. exists entry. split; [|done].
    rewrite Hl. apply elem_of_app. right. left.
Qed.

(** A save at a directory whose files are [fs0]. *)
Definition at_start (fs0 : files) (d : disk) : Prop := dk_files d = fs0 ∧ dk_past d = [].

Lemma progress_start generation fs0 d : at_start fs0 d → progress generation fs0 [] (Saving d [] [] [] []).
Proof.
  intros [<- Hp]. split; simpl; try done.
  - split; simpl; try done.
    + intros fs. unfold states. rewrite Hp. by intros ->%list_elem_of_singleton.
    + by intros n ?%elem_of_nil.
  - split; [done|constructor].
  - by intros w ?%elem_of_nil.
Qed.

(** The main part of a save, on rank 0 and with full wrappers. *)
Lemma save_run launch generation ws fs0 d d' r rank world :
  full_weight_wrappers ws ≠ [] → distributed_rank_world_size launch = Ok (rank, world) → rank = 0 →
  fresh generation fs0 → FULL_WEIGHT_INDEX_NAME ∉ superseded fs0 → at_start fs0 d →
  save_full_weight_checkpoint file_size io launch generation ws d = (d', r) →
  (∃ s, sv_disk s = d' ∧ r = Ok true ∧ swapped generation ws fs0 s) ∨
  (∃ s e, sv_disk s = d' ∧ r = Err e ∧ clean generation fs0 s ∧ (other_error e → dk_files d' = fs0)).
Proof.
  intros Hne Hl -> Hfr Hidx Hst. pose proof (progress_start generation _ _ Hst) as Hp0.
  unfold save_full_weight_checkpoint. rewrite Hl. simpl.
  destruct (full_weight_wrappers ws) as [|w0 ws0] eqn:Hws; [done|]. rewrite <-Hws.
  destruct (mbind (M := M saving) _ _ (Saving d [] [] [] [])) as [s r'] eqn:Hb. intros [= <- <-].
  apply bindM_inv in Hb as [(s1 & [] & H1 & H2)|(e & H1 & ->)]; apply (publish_run generation ws fs0) in H1; try done.
  - destruct (remove_previous_run generation ws fs0 s1 Hidx H1) as (s3 & Hs3 & Hsw).
    destruct Hst as [Hf0 _]. rewrite Hf0, (bindM_run _ _ _ _ _ Hs3) in H2. injection H2 as -> <-. left. eauto.
  - destruct H1. right. eauto 10.
Qed.

(** C4. With a fresh generation, and a previous index that does not name the index
    file itself among its shards, [save_full_weight_checkpoint] publishes
    atomically, whatever file operation fails and however: in every state the directory passes through,
    a crash finds either every file of before (so every layer that loaded still
    loads with the same data) or the complete new checkpoint.  A save that
    returns [True] leaves the new checkpoint and touches no file but the index, the
    files the superseded index names and the ones of its own generation; one that
    returns [False] changes nothing; a save that raises leaves the directory as it was, unless a removal of its
    clean-up failed too. *)
Theorem save_is_atomic (launch : launcher) (generation : string) (ws : list wrapper) (fs0 : files)
    (d d' : disk) (r : res bool) :
  fresh generation fs0 → FULL_WEIGHT_INDEX_NAME ∉ superseded fs0 → at_start fs0 d →
  save_full_weight_checkpoint file_size io launch generation ws d = (d', r) →
  (∀ fs, fs ∈ states d' →
     published generation ws fs ∨
     fs0 ⊆ fs ∧ ∀ layer_idx shapes data,
       load_full_weight_layer file_size fs0 layer_idx shapes = Ok data →
       load_full_weight_layer file_size fs layer_idx shapes = Ok data) ∧
  match r with
  | Ok true =>
      published generation ws (dk_files d') ∧
      ∀ name, name ∉ FULL_WEIGHT_INDEX_NAME :: superseded fs0 → ¬ ours generation name →
        dk_files d' !! name = fs0 !! name
  | Ok false => d' = d
  | Err e => other_error e → dk_files d' = fs0
  end.
Proof.
  intros Hfr Hidx Hst Hsave.
  assert (∀ fs, fs0 ⊆ fs → published generation ws fs ∨ fs0 ⊆ fs ∧ ∀ layer_idx shapes data,
       load_full_weight_layer file_size fs0 layer_idx shapes = Ok data →
       load_full_weight_layer file_size fs layer_idx shapes = Ok data) as Hold
    by (intros fs Hfs; right; split; [done|]; intros; by eapply load_mono).
  assert (d' = d → (∀ fs, fs ∈ states d' → fs0 ⊆ fs) ∧ (dk_files d' = fs0)) as Hstay.
  { intros ->. destruct Hst as [<- Hp]. split; [|done]. unfold states. rewrite Hp.
    by intros fs ->%list_elem_of_singleton. }
  destruct (distributed_rank_world_size launch) as [[rank world]|e] eqn:Hl.
  2: { revert Hsave. unfold save_full_weight_checkpoint. rewrite Hl.
       destruct (full_weight_wrappers ws); intros [= <- <-]; destruct (Hstay eq_refl); split; auto. }
  destruct (decide (full_weight_wrappers ws ≠ [] ∧ rank = 0)) as [[Hne Hr]|Hnot].
  - destruct (save_run _ _ _ _ _ _ _ _ _ Hne Hl Hr Hfr Hidx Hst Hsave)
      as [(s & <- & -> & Hsw)|(s & e & <- & -> & Hcl & He)].
    + destruct Hsw as [H1 H2 H3 H4]. split; [|done]. intros fs [Hs|Hs]%H1; auto.
    + split; [|done]. intros fs Hs. apply Hold. by apply (cl_states _ _ _ Hcl).
  - revert Hsave. unfold save_full_weight_checkpoint. rewrite Hl.
    destruct (full_weight_wrappers ws) as [|w0 ws0]; [|destruct (Z.eqb_spec rank 0); [by destruct Hnot|]];
      intros [= <- <-]; destruct (Hstay eq_refl); split; auto.
Qed.

(** ** Reading what was published *)

(** [uuid.uuid4().hex] *)
Definition uuid_hex (s : string) : Prop := String.length s = 32%nat ∧ str_forall is_lower_hex s = true.

Lemma hex_no_slash s : str_forall is_lower_hex s = true → no_slash s = true.
Proof.
  apply str_forall_impl. intros c Hc. destruct (Ascii.eqb_spec c slash) as [->|]; [|done]. by vm_compute in Hc.
Qed.

Lemma zeros_no_slash n s : no_slash (zeros n s) = no_slash s.
Proof. induction n as [|n IH]; [done|]. exact IH. Qed.

Lemma shard_name_safe generation n : uuid_hex generation →
  safe_shard_path (PStr (shard_name generation n)) = Ok (shard_name generation n).
Proof.
  intros [_ Hx]. set (name := shard_name generation n).
  assert (no_slash name = true) as Hns.
  { unfold name, shard_name. rewrite !no_slash_app, (hex_no_slash _ Hx). unfold pad5.
    by rewrite zeros_no_slash, str_of_Z_no_slash'. }
  assert (basename name = name) as Hb by (unfold basename; by rewrite split_on_no).
  unfold safe_shard_path. destruct name as [|c t] eqn:E; [by unfold name, shard_name in E|].
  simpl of_option. unfold mbind, res_bind. rewrite Hb, String.eqb_refl. done.
Qed.

Context (round_trip : json_round_trip).

Definition index_dict (generation : string) (entries : list (string * pyval)) : list (string * pyval) :=
  [("format", PStr FULL_WEIGHT_CHECKPOINT_FORMAT); ("version", PInt FULL_WEIGHT_CHECKPOINT_VERSION);
   ("dtype", PStr DTYPE_NAME); ("generation", PStr generation); ("layers", PDict entries)].

Lemma read_published generation fs entries : uuid_hex generation →
  fs !! FULL_WEIGHT_INDEX_NAME = Some (Text (index_text (index_value generation entries))) →
  read_index fs = Ok (sort_dict (index_dict generation entries)).
Proof.
  intros [Hlen _] Hi. pose proof (fun k => pget_sort_dict k (index_dict generation entries)) as HD.
  assert (sort_keys (index_value generation entries) = PDict (sort_dict (index_dict generation entries))) as HI
    by apply sort_keys_dict.
  revert HI HD. generalize (sort_dict (index_dict generation entries)). intros D' HI HD.
  unfold read_index. rewrite Hi. simpl. unfold index_text. rewrite round_trip, HI.
  cbn [as_dict of_option mbind res_bind].
  assert (pget "format" D' = PStr FULL_WEIGHT_CHECKPOINT_FORMAT) as -> by apply HD.
  assert (pget "version" D' = PInt FULL_WEIGHT_CHECKPOINT_VERSION) as -> by apply HD.
  assert (pget "dtype" D' = PStr DTYPE_NAME) as -> by apply HD.
  assert (pget "generation" D' = PStr generation) as -> by apply HD.
  assert (is_dict (pget "layers" D') = true) as -> by by rewrite HD.
  by destruct generation.
Qed.

Lemma backend_parameters_inv w params : backend_parameters w = Ok params →
  ∃ b g u d, w_backend w = Some b ∧ bk_params b Gate = Some g ∧ bk_params b Up = Some u ∧
    bk_params b Down = Some d ∧ params = [(Gate, g); (Up, u); (Down, d)].
Proof.
  unfold backend_parameters. intros Hr. inv_bind Hr as b Hb. apply of_option_ok in Hb. simpl in Hr.
  destruct (bk_params b Gate) as [g|] eqn:Hg; [|done]. destruct (pm_is_parameter g); [|done]. simpl in Hr.
  destruct (bk_params b Up) as [u|] eqn:Hu; [|done]. destruct (pm_is_parameter u); [|done]. simpl in Hr.
  destruct (bk_params b Down) as [d|] eqn:Hd; [|done]. destruct (pm_is_parameter d); [|done].
  injection Hr as <-. by exists b, g, u, d.
Qed.

Lemma validate_parameter_ok w p pm : validate_parameter w p pm = Ok tt →
  pm_shape pm = expected_shapes w p ∧ pm_dtype pm = "bfloat16".
Proof.
  unfold validate_parameter. intros Hr. inv_guard Hr as H1. inv_guard Hr as H2. by bools.
Qed.

Lemma validated_parameters w params : validate_parameter_set w params = Ok tt →
  ∀ p pm, (p, pm) ∈ params → pm_shape pm = expected_shapes w p ∧ pm_dtype pm = "bfloat16".
Proof.
  unfold validate_parameter_set. intros Hv%for_each_unit p pm Hin. rewrite Forall_forall in Hv.
  by apply validate_parameter_ok, (Hv (p, pm)).
Qed.

(** The shapes that a save writes are the ones that a load expects. *)
Lemma shapes_match w g u d :
  pm_shape g = expected_shapes w Gate → pm_shape u = expected_shapes w Up → pm_shape d = expected_shapes w Down →
  py_eq (sort_keys (PDict ((fun '(p, pm) => (proj_name p, PList (PInt <$> pm_shape pm))) <$>
                             [(Gate, g); (Up, u); (Down, d)])))
    (shapes_value (expected_shapes w)) = true.
Proof. intros E1 E2 E3. simpl. rewrite E1, E2, E3. simpl. by rewrite !Z.eqb_refl. Qed.

Lemma check_shard_of generation layer_idx w g u d :
  pm_shape g = expected_shapes w Gate → pm_shape u = expected_shapes w Up → pm_shape d = expected_shapes w Down →
  pm_dtype g = "bfloat16" → pm_dtype u = "bfloat16" → pm_dtype d = "bfloat16" →
  check_shard layer_idx (expected_shapes w) generation
    (shard_of generation layer_idx [(Gate, g); (Up, u); (Down, d)]) = Ok tt.
Proof.
  intros E1 E2 E3 D1 D2 D3. unfold check_shard, shard_of, metadata_is, check_stored. simpl.
  rewrite (bool_decide_true (Some generation = Some generation)) by done.
  rewrite (bool_decide_true (Some (str_of_Z layer_idx) = Some (str_of_Z layer_idx))) by done.
  unfold for_each. simpl. rewrite E1, E2, E3, D1, D2, D3. simpl. by rewrite !bool_decide_true.
Qed.

Context (file_size_positive : ∀ f, 0 < file_size f).

Lemma inspect_saved generation fs entries w g u d :
  uuid_hex generation → validate_parameter_set w [(Gate, g); (Up, u); (Down, d)] = Ok tt →
  let params := [(Gate, g); (Up, u); (Down, d)] in
  let content := Safetensors (shard_of generation (w_layer_idx w) params) in
  let name := shard_name generation (w_layer_idx w) in
  fs !! name = Some content →
  dict_get (str_of_Z (w_layer_idx w)) entries =
    Some (layer_entry generation (w_layer_idx w) (file_size content) params) →
  inspect_layer_shard file_size fs (w_layer_idx w) (pget (str_of_Z (w_layer_idx w)) (sort_dict entries))
    (expected_shapes w) generation = Ok name.
Proof.
  intros Hx Hv params content name Hf He.
  assert (∀ p pm, (p, pm) ∈ params → pm_shape pm = expected_shapes w p ∧ pm_dtype pm = "bfloat16") as Hpm
    by by apply validated_parameters.
  destruct (Hpm Gate g) as [E1 D1]; [left|]. destruct (Hpm Up u) as [E2 D2]; [right; left|].
  destruct (Hpm Down d) as [E3 D3]; [right; right; left|].
  rewrite pget_sort_dict. unfold pget at 1. rewrite He. simpl default. unfold layer_entry. rewrite sort_keys_dict.
  set (entry := [("file", _); _; _]). pose proof (fun k => pget_sort_dict k entry) as HE.
  generalize dependent (sort_dict entry). intros D HE.
  unfold inspect_layer_shard. cbn [as_dict of_option mbind res_bind].
  assert (py_eq (pget "shapes" D) (shapes_value (expected_shapes w)) = true) as ->
    by (rewrite HE; by apply shapes_match).
  assert (pget "file" D = PStr name) as -> by apply HE.
  assert (pget "size_bytes" D = PInt (file_size content)) as -> by apply HE.
  unfold name at 1. rewrite shard_name_safe by done. fold name.
  cbn [negb raise_if mbind res_bind]. rewrite Hf. cbn [of_option mbind res_bind positive_int].
  pose proof (file_size_positive content) as Hz%Z.ltb_lt. rewrite Hz.
  cbn [of_option mbind res_bind]. rewrite Z.eqb_refl. cbn [negb raise_if mbind res_bind].
  unfold safe_open. rewrite Hf. unfold content. cbn [mret res_ret mbind res_bind].
  unfold params. by rewrite check_shard_of.
Qed.

Lemma published_layers generation ws fs : uuid_hex generation → published generation ws fs →
  ∃ index entries, read_index fs = Ok index ∧ has_index fs = true ∧ index_generation index = generation ∧
    index_layers index = sort_dict entries ∧
    fst <$> entries ≡ₚ (fun w => str_of_Z (w_layer_idx w)) <$> full_weight_wrappers ws ∧
    ∀ w, w ∈ full_weight_wrappers ws → saved generation fs entries w.
Proof.
  intros Hx (entries & Hi & Hk & Hs). exists (sort_dict (index_dict generation entries)), entries.
  split_and!; [by apply read_published|unfold has_index; by rewrite Hi| | |done|done].
  - unfold index_generation. by rewrite pget_sort_dict.
  - unfold index_layers. rewrite pget_sort_dict.
    assert (pget "layers" (index_dict generation entries) = PDict entries) as -> by done.
    by rewrite sort_keys_dict.
Qed.

Lemma published_load generation ws fs w params : uuid_hex generation → published generation ws fs →
  w ∈ full_weight_wrappers ws → backend_parameters w = Ok params →
  load_full_weight_layer file_size fs (w_layer_idx w) (expected_shapes w) =
    Ok ((fun p => pm_data p.2) <$> params).
Proof.
  intros Hx Hp Hw Hb. destruct (published_layers _ _ _ Hx Hp) as (index & entries & Hr & Hi & Hg & Hl & _ & Hs).
  destruct (Hs w Hw) as (ps & Hb' & Hv & Hf & He). rewrite Hb in Hb'. injection Hb' as <-.
  destruct (backend_parameters_inv _ _ Hb) as (b & g & u & d & _ & _ & _ & _ & ->).
  pose proof (inspect_saved _ _ entries _ _ _ _ Hx Hv Hf He) as Hins.
  unfold load_full_weight_layer. rewrite Hi, Hr. cbn [negb raise_if mbind res_bind]. rewrite Hl, Hg.
  destruct (pget _ (sort_dict entries)) eqn:E; try discriminate Hins.
  cbn [of_option mbind res_bind]. rewrite Hins. cbn [mbind res_bind].
  unfold read_tensors, safe_open. rewrite Hf. done.
Qed.

Lemma published_missing generation ws fs layer_idx shapes : uuid_hex generation → published generation ws fs →
  layer_idx ∉ w_layer_idx <$> full_weight_wrappers ws →
  load_full_weight_layer file_size fs layer_idx shapes =
    Err (Raise RuntimeError "missing from KT Full checkpoint index").
Proof.
  intros Hx Hp Hn. destruct (published_layers _ _ _ Hx Hp) as (index & entries & Hr & Hi & _ & Hl & Hk & _).
  unfold load_full_weight_layer. rewrite Hi, Hr. cbn [negb raise_if mbind res_bind].
  rewrite Hl, pget_sort_dict. unfold pget. destruct (dict_get _ entries) as [e|] eqn:E; [|done].
  apply dict_get_In in E. exfalso. apply Hn.
  assert (str_of_Z layer_idx ∈ fst <$> entries) as Hin by (apply list_elem_of_fmap; by exists (str_of_Z layer_idx, e)).
  rewrite Hk in Hin. apply list_elem_of_fmap in Hin as (w & Ew & Hw). apply str_of_Z_inj in Ew as ->.
  apply list_elem_of_fmap. by exists w.
Qed.

(** C5. What [save_full_weight_checkpoint] publishes loads back: after a save
    that returns [True], [load_full_weight_layer] returns for the layer of every
    full wrapper the three tensors its backend held, and refuses every layer
    that no full wrapper has.  [json.load] reads what [json.dump] wrote and no
    file is empty; the generation is a fresh UUID, and the previous index does not
    name the index file itself among its shards, which the save would remove. *)
Theorem save_load_roundtrip (launch : launcher) (generation : string) (ws : list wrapper) (fs0 : files)
    (d d' : disk) :
  uuid_hex generation → fresh generation fs0 → FULL_WEIGHT_INDEX_NAME ∉ superseded fs0 → at_start fs0 d →
  save_full_weight_checkpoint file_size io launch generation ws d = (d', Ok true) →
  (∀ w, w ∈ full_weight_wrappers ws → ∃ params, backend_parameters w = Ok params ∧
     load_full_weight_layer file_size (dk_files d') (w_layer_idx w) (expected_shapes w) =
       Ok ((fun p => pm_data p.2) <$> params)) ∧
  ∀ layer_idx shapes, layer_idx ∉ w_layer_idx <$> full_weight_wrappers ws →
    load_full_weight_layer file_size (dk_files d') layer_idx shapes =
      Err (Raise RuntimeError "missing from KT Full checkpoint index").
Proof.
  intros Hx Hfr Hidx Hst Hsave.
  assert (published generation ws (dk_files d')) as Hp.
  { destruct (distributed_rank_world_size launch) as [[rank world]|e] eqn:Hl;
      [|revert Hsave; unfold save_full_weight_checkpoint; rewrite Hl; by destruct (full_weight_wrappers ws)].
    destruct (decide (full_weight_wrappers ws ≠ [] ∧ rank = 0)) as [[Hne Hr]|Hnot].
    - destruct (save_run _ _ _ _ _ _ _ _ _ Hne Hl Hr Hfr Hidx Hst Hsave)
        as [(s & <- & _ & Hsw)|(s & e & _ & ? & _)]; [by destruct Hsw|done].
    - revert Hsave. unfold save_full_weight_checkpoint. rewrite Hl.
      destruct (full_weight_wrappers ws); [done|]. destruct (Z.eqb_spec rank 0); [by destruct Hnot|done]. }
  split; [|intros; by eapply published_missing].
  intros w Hw. pose proof Hp as (entries & _ & _ & Hs). destruct (Hs w Hw) as (params & Hb & _).
  exists params. split; [done|]. by eapply published_load.
Qed.
End checkpoint.
