(* ===== verification/CheckpointRestore.v ===== *)
(** * Restoring a full-weight checkpoint

    The restore of rank 0 writes nothing before every shard was inspected, and
    then either copies every tensor or marks every backend as failed; all ranks
    return or raise together. *)
From S2P Require Import Prelude PyStr PyVal Dist Checkpoint CheckpointSpec.
From Stdlib Require Import Ascii.

Local Open Scope string_scope.
Local Open Scope list_scope.
Local Open Scope Z_scope.

Section restore.
Context `{Platform}.
Context (file_size : file → Z) (copy_error : Z → proj → option pyexn).

(** ** What the checks establish *)

Lemma inspect_ok fs layer_idx entry shapes generation path :
  inspect_layer_shard file_size fs layer_idx entry shapes generation = Ok path →
  entry ≠ PNone ∧ ∃ sh, safe_open fs path = Ok sh ∧ check_shard layer_idx shapes generation sh = Ok tt.
Proof.
  unfold inspect_layer_shard. intros Hr. inv_bind Hr as d Hd. inv_guard Hr as H1. inv_bind Hr as name Hn.
  inv_bind Hr as content Hc. inv_bind Hr as size Hs. inv_guard Hr as H2. inv_bind Hr as u Hu.
  injection Hr as ->. split; [by destruct entry|]. unfold catch in Hu.
  destruct (safe_open fs path) as [sh|e]; simpl in Hu; [|by destruct (bool_decide _)].
  exists sh. split; [done|]. destruct (check_shard _ _ _ sh) as [[]|e]; [done|by destruct (bool_decide _)].
Qed.

Lemma check_shard_tensor layer_idx shapes generation sh p :
  check_shard layer_idx shapes generation sh = Ok tt →
  ∃ t, dict_get (proj_name p) (sh_tensors sh) = Some t ∧ st_shape t = shapes p ∧ st_dtype t = DTYPE_NAME.
Proof.
  unfold check_shard. intros Hr. do 5 inv_guard Hr as ?. apply for_each_unit in Hr. rewrite Forall_forall in Hr.
  assert (check_stored shapes sh p = Ok tt) as Hp by (apply Hr; destruct p; set_solver).
  unfold check_stored in Hp. inv_bind Hp as t Ht. apply of_option_ok in Ht. inv_guard Hp as Hsh.
  apply raise_if_ok in Hp. bools. eauto.
Qed.

Lemma check_wrappers_ok ws layers : check_wrappers ws = Ok layers →
  layers = w_layer_idx <$> ws ∧ NoDup layers ∧ ∀ w, w ∈ ws → is_Some (w_backend w).
Proof.
  intros Hr. apply (for_each_inv (fun pre layers => layers = w_layer_idx <$> pre ∧ NoDup layers ∧
    ∀ w, w ∈ pre → is_Some (w_backend w))) in Hr; [done| |].
  - split_and!; [done|constructor|by intros w ?%elem_of_nil].
  - intros pre w b b' _ (-> & Hnd & Hb) Hw. inv_guard Hw as Hin. bools. inv_bind Hw as params Hp.
    inv_bind Hw as u Hu. injection Hw as <-. split_and!.
    + by rewrite fmap_app.
    + apply NoDup_app. split_and!; [done|set_solver|apply NoDup_singleton].
    + intros w' [?| ->%list_elem_of_singleton]%elem_of_app; [auto|].
      unfold backend_parameters in Hp. inv_bind Hp as b Hbk. apply of_option_ok in Hbk. eauto.
Qed.

(** The tensor of a shard. *)
Definition shard_tensor (fs : files) (name : string) (p : proj) : string :=
  match safe_open fs name with
  | Ok sh => default "" (st_data <$> dict_get (proj_name p) (sh_tensors sh))
  | Err _ => ""
  end.

Record planned (fs : files) (ws : list wrapper) (shards : list (Z * string)) : Prop := {
  pl_layers : fst <$> shards = w_layer_idx <$> ws;
  pl_nodup : NoDup (w_layer_idx <$> ws);
  pl_backend : ∀ w, w ∈ ws → is_Some (w_backend w);
  pl_shard : ∀ w, w ∈ ws → ∃ name sh, (w_layer_idx w, name) ∈ shards ∧ safe_open fs name = Ok sh ∧
    (∀ p, is_Some (dict_get (proj_name p) (sh_tensors sh))) ∧
    load_full_weight_layer file_size fs (w_layer_idx w) (expected_shapes w) =
      Ok (shard_tensor fs name <$> projections);
}.

Lemma read_index_has fs index : read_index fs = Ok index → has_index fs = true.
Proof.
  unfold read_index, has_index. intros Hr. inv_bind Hr as content Hc. apply of_option_ok in Hc. by rewrite Hc.
Qed.

Lemma load_of_inspect fs index w entry name : read_index fs = Ok index →
  dict_get (str_of_Z (w_layer_idx w)) (index_layers index) = Some entry →
  inspect_layer_shard file_size fs (w_layer_idx w) entry (expected_shapes w) (index_generation index) = Ok name →
  load_full_weight_layer file_size fs (w_layer_idx w) (expected_shapes w) = Ok (shard_tensor fs name <$> projections).
Proof.
  intros Hr He Hi. unfold load_full_weight_layer. rewrite (read_index_has _ _ Hr), Hr.
  cbn [negb raise_if mbind res_bind]. unfold pget. rewrite He.
  destruct (inspect_ok _ _ _ _ _ _ Hi) as (Hn & sh & Hs & Hc).
  assert (of_option (match default PNone (Some entry) with PNone => None | e => Some e end) RuntimeError
            "missing from KT Full checkpoint index" = Ok entry) as -> by by destruct entry.
  cbn [mbind res_bind]. rewrite Hi. cbn [mbind res_bind]. unfold read_tensors, shard_tensor. rewrite Hs.
  destruct (check_shard_tensor _ _ _ _ Gate Hc) as (t1 & E1 & _).
  destruct (check_shard_tensor _ _ _ _ Up Hc) as (t2 & E2 & _).
  destruct (check_shard_tensor _ _ _ _ Down Hc) as (t3 & E3 & _).
  unfold projections. cbn [fmap list_fmap mbind res_bind for_each]. by rewrite E1, E2, E3.
Qed.

Lemma plan_restore_ok fs ws shards : plan_restore file_size fs ws = Ok shards → planned fs ws shards.
Proof.
  unfold plan_restore. intros Hr. inv_bind Hr as index Hi. inv_bind Hr as layers Hl. inv_bind Hr as sv Hsv.
  inv_guard Hr as Hsame. apply check_wrappers_ok in Hl as (-> & Hnd & Hb).
  apply (for_each_inv (fun pre shards => fst <$> shards = w_layer_idx <$> pre ∧
    ∀ w, w ∈ pre → ∃ name sh, (w_layer_idx w, name) ∈ shards ∧ safe_open fs name = Ok sh ∧
      (∀ p, is_Some (dict_get (proj_name p) (sh_tensors sh))) ∧
      load_full_weight_layer file_size fs (w_layer_idx w) (expected_shapes w) =
        Ok (shard_tensor fs name <$> projections))) in Hr.
  - destruct Hr. by split.
  - split; [done|]. by intros w ?%elem_of_nil.
  - intros pre w b b' _ [Hk Hs] Hw. inv_bind Hw as entry He. apply of_option_ok in He.
    inv_bind Hw as name Hn. injection Hw as <-. split; [by rewrite !fmap_app, Hk|].
    intros w' [Hw'| ->%list_elem_of_singleton]%elem_of_app.
    + destruct (Hs w' Hw') as (name' & sh & H1 & H2). exists name', sh. split; [set_solver|done].
    + destruct (inspect_ok _ _ _ _ _ _ Hn) as (_ & sh & Hsh & Hc).
      exists name, sh. split_and!; [set_solver|done| |by eapply load_of_inspect].
      intros p. destruct (check_shard_tensor _ _ _ _ p Hc) as (t & E & _). eauto.
Qed.

(** ** Copying *)

Definition same_wrapper (w w' : wrapper) : Prop :=
  w_layer_idx w' = w_layer_idx w ∧ w_full_weight_grad w' = w_full_weight_grad w ∧
  w_expert_num w' = w_expert_num w ∧ w_intermediate_size w' = w_intermediate_size w ∧
  w_hidden_size w' = w_hidden_size w.

(** [w'] is [w] with the tensors [T] copied into the parameters that [D] names. *)
Definition copied (T : Z → proj → string) (D : Z → proj → bool) (w w' : wrapper) : Prop :=
  same_wrapper w w' ∧ ∃ b b', w_backend w = Some b ∧ w_backend w' = Some b' ∧
    bk_dirty b' = bk_dirty b ∧ bk_load_failed b' = bk_load_failed b ∧
    ∀ p, bk_params b' p =
      if D (w_layer_idx w) p then with_data (T (w_layer_idx w) p) <$> bk_params b p else bk_params b p.

Lemma copied_refl T w : is_Some (w_backend w) → copied T (fun _ _ => false) w w.
Proof. intros [b Hb]. split; [done|]. by exists b, b. Qed.

Lemma copied_ext T D D' w w' : (∀ p, D (w_layer_idx w) p = D' (w_layer_idx w) p) →
  copied T D w w' → copied T D' w w'.
Proof.
  intros HD (Hs & b & b' & H1 & H2 & H3 & H4 & H5). split; [done|]. exists b, b'. split_and!; try done.
  intros p. by rewrite H5, HD.
Qed.

Definition mark (D : Z → proj → bool) (layer_idx : Z) (p : proj) : Z → proj → bool :=
  fun i q => D i q || ((i =? layer_idx) && bool_decide (q = p)).

Lemma copied_step T D layer_idx p ws wsk : Forall2 (copied T D) ws wsk →
  Forall2 (copied T (mark D layer_idx p)) ws
    (List.map (fun w => if w_layer_idx w =? layer_idx then on_backend (set_data p (T layer_idx p)) w else w) wsk).
Proof.
  intros Hc. rewrite Forall2_fmap_r. eapply Forall2_impl; [exact Hc|]. intros w w' Hw.
  pose proof Hw as (Hs & b & b' & H1 & H2 & H3 & H4 & H5). pose proof (proj1 Hs) as Hl.
  unfold compose. destruct (Z.eqb_spec (w_layer_idx w') layer_idx) as [E|E].
  - split; [done|]. exists b, (set_data p (T layer_idx p) b'). simpl. rewrite H2. split_and!; try done.
    intros q. unfold mark. rewrite <-Hl, E, Z.eqb_refl. simpl.
    case_decide as Hq; rewrite H5, <-Hl, E.
    + subst q. rewrite bool_decide_true, orb_true_r by done.
      destruct (D layer_idx p); [|done]. by destruct (bk_params b p).
    + by rewrite bool_decide_false, orb_false_r.
  - eapply copied_ext; [|exact Hw]. intros q. unfold mark. rewrite <-Hl.
    apply Z.eqb_neq in E. by rewrite E, orb_false_r.
Qed.

Section shards.
Context (fs : files) (shards : list (Z * string)).

Definition shard_of_layer (layer_idx : Z) : string :=
  default "" (snd <$> List.find (fun s => s.1 =? layer_idx) shards).
Definition tensors (layer_idx : Z) (p : proj) : string := shard_tensor fs (shard_of_layer layer_idx) p.

Lemma find_shard layer_idx name : NoDup (fst <$> shards) → (layer_idx, name) ∈ shards →
  List.find (fun s => s.1 =? layer_idx) shards = Some (layer_idx, name).
Proof.
  intros Hnd Hin. destruct (List.find _ shards) as [[i n]|] eqn:E.
  - apply List.find_some in E as [Hi Ei]. simpl in Ei. bools. subst i.
    apply list_elem_of_In in Hi. by rewrite (NoDup_fst_functional _ _ _ _ Hnd Hin Hi).
  - apply list_elem_of_In in Hin. apply (List.find_none _ _ E) in Hin. simpl in Hin.
    by rewrite Z.eqb_refl in Hin.
Qed.

(** Every error of the copying is one that a copy raised. *)
Definition copy_failed (layer_idx : Z) (e : pyexn) : Prop := ∃ p, copy_error layer_idx p = Some e.

Lemma restore_layer_run ws D wsk wsk' layer_idx name sh r :
  List.find (fun s => s.1 =? layer_idx) shards = Some (layer_idx, name) → safe_open fs name = Ok sh →
  (∀ p, is_Some (dict_get (proj_name p) (sh_tensors sh))) →
  Forall2 (copied tensors D) ws wsk → restore_layer copy_error fs shards layer_idx wsk = (wsk', r) →
  match r with
  | Ok _ => Forall2 (copied tensors (fun i p => D i p || (i =? layer_idx))) ws wsk'
  | Err e => copy_failed layer_idx e ∧ ∃ D', Forall2 (copied tensors D') ws wsk'
  end.
Proof.
  intros Hf Hs Ht Hc. unfold restore_layer. rewrite Hf, bindM_lift. simpl. rewrite Hs, bindM_lift. intros Hr.
  apply (for_M_inv
    (fun pre wsk => Forall2 (copied tensors (fun i p => D i p || ((i =? layer_idx) && bool_decide (p ∈ pre)))) ws wsk)
    (fun e wsk => copy_failed layer_idx e ∧ ∃ D', Forall2 (copied tensors D') ws wsk)) in Hr.
  - destruct r as [u|e]; [|done]. eapply Forall2_impl; [exact Hr|]. intros w w'. apply copied_ext. intros p.
    rewrite bool_decide_true, andb_true_r; [done|]. destruct p; set_solver.
  - eapply Forall2_impl; [exact Hc|]. intros w w'. apply copied_ext. intros p. by rewrite andb_false_r, orb_false_r.
  - intros pre p post s1 s2 r' _ Hpre Hb. destruct (Ht p) as [t Et]. rewrite Et, bindM_lift in Hb. simpl in Hb.
    unfold copy_parameter in Hb. destruct (copy_error layer_idx p) as [e|] eqn:Ee.
    + injection Hb as <- <-. split; [by exists p|eauto].
    + injection Hb as <- <-.
      assert (st_data t = tensors layer_idx p) as ->.
      { unfold tensors, shard_of_layer, shard_tensor. rewrite Hf. simpl. by rewrite Hs, Et. }
      eapply Forall2_impl; [by apply copied_step|]. intros w w'. apply copied_ext. intros q. unfold mark.
      rewrite <-orb_assoc, <-andb_orb_distrib_r. f_equal. f_equal.
      clear. repeat case_bool_decide; set_solver.
Qed.
End shards.

Lemma restore_layers_run fs ws shards wsk' r : planned fs ws shards →
  for_M (sorted_set (w_layer_idx <$> ws)) (restore_layer copy_error fs shards) ws = (wsk', r) →
  match r with
  | Ok _ => Forall2 (copied (tensors fs shards) (fun _ _ => true)) ws wsk'
  | Err e => (∃ w, w ∈ ws ∧ copy_failed (w_layer_idx w) e) ∧ ∃ D, Forall2 (copied (tensors fs shards) D) ws wsk'
  end.
Proof.
  intros [Hk Hnd Hb Hsh] Hr. set (layers := sorted_set _) in Hr.
  assert (∀ i, i ∈ layers ↔ i ∈ w_layer_idx <$> ws) as Hlayers by apply elem_of_sorted_set.
  apply (for_M_inv
    (fun pre wsk => Forall2 (copied (tensors fs shards) (fun i _ => bool_decide (i ∈ pre))) ws wsk)
    (fun e wsk => (∃ w, w ∈ ws ∧ copy_failed (w_layer_idx w) e) ∧
       ∃ D, Forall2 (copied (tensors fs shards) D) ws wsk)) in Hr.
  - destruct r as [u|e]; [|done]. eapply Forall2_impl_in; [exact Hr|]. intros w w' Hw. apply copied_ext.
    intros p. apply bool_decide_true, Hlayers, list_elem_of_fmap. eauto.
  - apply Forall_Forall2_diag, Forall_forall. intros w Hw. by apply copied_refl, Hb.
  - intros pre i post s1 s2 r' Hl Hpre Hbody.
    assert (i ∈ w_layer_idx <$> ws) as (w & -> & Hw)%list_elem_of_fmap
      by (apply Hlayers; rewrite Hl; apply elem_of_app; right; left).
    destruct (Hsh w Hw) as (name & sh & Hin & Hs & Ht & _).
    eapply restore_layer_run in Hbody; [|by apply find_shard; [rewrite Hk|]|done..].
    destruct r' as [u|e]; [|destruct Hbody; eauto].
    eapply Forall2_impl; [exact Hbody|]. intros w1 w2. apply copied_ext. intros p.
    clear. destruct (Z.eqb_spec (w_layer_idx w1) (w_layer_idx w)) as [->|Hne]; repeat case_bool_decide; set_solver.
Qed.

(** A wrapper after a complete restore. *)
Definition restored (fs : files) (w w' : wrapper) : Prop :=
  same_wrapper w w' ∧ ∃ b b' data, w_backend w = Some b ∧ w_backend w' = Some b' ∧
    load_full_weight_layer file_size fs (w_layer_idx w) (expected_shapes w) = Ok (data <$> projections) ∧
    (∀ p, bk_params b' p = with_data (data p) <$> bk_params b p) ∧
    bk_dirty b' = true ∧ bk_load_failed b' = false.

(** A wrapper after a restore that broke off. *)
Definition spoiled (w w' : wrapper) : Prop :=
  same_wrapper w w' ∧ ∃ b b', w_backend w = Some b ∧ w_backend w' = Some b' ∧
    (∀ p, bk_params b' p = bk_params b p ∨ ∃ data, bk_params b' p = with_data data <$> bk_params b p) ∧
    bk_dirty b' = bk_dirty b ∧ bk_load_failed b' = true.

Lemma copied_restored fs ws shards w w' : planned fs ws shards → w ∈ ws →
  copied (tensors fs shards) (fun _ _ => true) w w' →
  restored fs w (on_backend (fun b => Backend (bk_params b) (bk_dirty b) false)
                  (on_backend (fun b => Backend (bk_params b) true (bk_load_failed b)) w')).
Proof.
  intros [Hk Hnd Hb Hsh] Hw (Hs & b & b' & H1 & H2 & H3 & H4 & H5). split; [done|].
  destruct (Hsh w Hw) as (name & sh & Hin & _ & _ & Hload).
  exists b, (Backend (bk_params b') true false), (tensors fs shards (w_layer_idx w)).
  simpl. rewrite H2. split_and!; try done.
  assert (shard_of_layer shards (w_layer_idx w) = name) as <-; [|exact Hload].
  unfold shard_of_layer. erewrite find_shard; [done| |exact Hin]. by rewrite Hk.
Qed.

Lemma copied_spoiled T D w w' : copied T D w w' →
  spoiled w (on_backend (fun b => Backend (bk_params b) (bk_dirty b) true) w').
Proof.
  intros (Hs & b & b' & H1 & H2 & H3 & H4 & H5). split; [done|].
  exists b, (Backend (bk_params b') (bk_dirty b') true). simpl. rewrite H2. split_and!; try done.
  intros p. rewrite H5. destruct (D _ p); eauto.
Qed.

(** C30. [_load_full_weight_checkpoint_rank0] validates before it writes: an
    error of the index, of a wrapper or of any shard leaves every parameter and
    flag as it was.  After that it returns the number of layers with every
    parameter holding the tensor of its layer's shard, the base weights marked
    dirty and the load not failed; or a copy raised, and every backend is
    marked as failed and holds, parameter by parameter, its old or a shard's
    data. *)
Theorem restore_validates_first (fs : files) (ws ws' : list wrapper) (r : res Z) :
  load_full_weight_checkpoint_rank0 file_size copy_error fs ws = (ws', r) →
  match plan_restore file_size fs ws, r with
  | Err e, _ => ws' = ws ∧ r = Err e
  | Ok _, Ok n => n = Z.of_nat (length ws) ∧ Forall2 (restored fs) ws ws'
  | Ok _, Err e => (∃ w, w ∈ ws ∧ copy_failed (w_layer_idx w) e) ∧ Forall2 spoiled ws ws'
  end.
Proof.
  unfold load_full_weight_checkpoint_rank0. rewrite bindM_run with (s1 := ws) (a := ws) by done.
  rewrite bindM_lift. destruct (plan_restore file_size fs ws) as [shards|e] eqn:Hplan; [|by intros [= <- <-]].
  apply plan_restore_ok in Hplan. intros [(s1 & [] & H1 & [= <- <-])|(e & H1 & ->)]%bindM_inv;
    unfold on_exception in H1;
    destruct (mbind (M := M (list wrapper)) _ _ ws) as [s2 [[]|e2]] eqn:Hrun in H1; simpl in H1; try discriminate H1.
  - injection H1 as <-. apply bindM_inv in Hrun as [(s3 & [] & H3 & H4)|(e & _ & ?)]; [|done].
    apply (restore_layers_run _ _ _ _ _ Hplan) in H3. unfold mark_dirty, mark_failed, modify in H4.
    injection H4 as <-. split; [done|]. rewrite !Forall2_fmap_r. eapply Forall2_impl_in; [exact H3|].
    intros w w' Hw Hc. by eapply copied_restored.
  - injection H1 as <- <-. apply bindM_inv in Hrun as [(s3 & [] & _ & H4)|(e' & H3 & [= ->])]; [done|].
    apply (restore_layers_run _ _ _ _ _ Hplan) in H3 as [He [D HD]]. split; [done|].
    rewrite Forall2_fmap_r. eapply Forall2_impl; [exact HD|]. intros w w' Hc. by eapply copied_spoiled.
Qed.

(** ** All ranks *)

(** What rank 0 broadcasts, and what every rank makes of it. *)
Definition rank0_status (directory : option files) (ws : list wrapper) : status :=
  match (local_status file_size copy_error directory 0 (full_weight_wrappers ws)).2 with
  | Ok s => s
  | Err _ => (None, 0)
  end.
Definition verdict (s : status) : res bool :=
  match s.1 with
  | Some _ => Err (Raise RuntimeError "Failed to load KT Full checkpoint")
  | None => Ok true
  end.

(** The full wrappers satisfy [R], the others are untouched. *)
Definition full_only (R : wrapper → wrapper → Prop) (w w' : wrapper) : Prop :=
  if w_full_weight_grad w then R w w' else w' = w.

Lemma merge_full_rel (R : wrapper → wrapper → Prop) ws full : Forall2 R (full_weight_wrappers ws) full →
  Forall2 (full_only R) ws (merge_full ws full).
Proof.
  revert full. unfold full_only. induction ws as [|w ws IH]; intros full Hf; [constructor|].
  simpl in Hf. destruct (w_full_weight_grad w) eqn:E.
  - inv Hf. simpl. rewrite E. constructor; [by rewrite E|]. by apply IH.
  - destruct full as [|f full].
    + apply Forall2_nil_inv_r in Hf. simpl. constructor; [by rewrite E|].
      apply Forall_Forall2_diag, Forall_forall. intros w1 Hw1.
      destruct (w_full_weight_grad w1) eqn:E1; [|done].
      assert (w1 ∈ full_weight_wrappers ws) as Hin; [|rewrite Hf in Hin; by apply elem_of_nil in Hin].
      apply list_elem_of_In, List.filter_In. split; [by apply list_elem_of_In|done].
    + simpl. rewrite E. constructor; [by rewrite E|]. by apply IH.
Qed.

Lemma local_status_run directory ws : ∃ ws', local_status file_size copy_error directory 0 (full_weight_wrappers ws)
    = (ws', Ok (rank0_status directory ws)).
Proof.
  unfold rank0_status, local_status. simpl. destruct directory as [fs|]; [|by eexists].
  destruct (load_full_weight_checkpoint_rank0 _ _ _ _) as [ws' [n|e]]; simpl; eauto.
Qed.

(** What the restore leaves in rank 0's wrappers. *)
Definition rank0_result (directory : option files) (ws ws' : list wrapper) : Prop :=
  match directory with
  | None => ws' = ws
  | Some fs =>
      match plan_restore file_size fs (full_weight_wrappers ws), (rank0_status directory ws).1 with
      | Err _, _ => ws' = ws
      | Ok _, None => Forall2 (full_only (restored fs)) ws ws'
      | Ok _, Some _ => Forall2 (full_only spoiled) ws ws'
      end
  end.

Lemma merge_full_same ws : merge_full ws (full_weight_wrappers ws) = ws.
Proof.
  assert (Forall2 (full_only (fun w w' => w' = w)) ws (merge_full ws (full_weight_wrappers ws))) as Hf
    by (apply merge_full_rel, Forall_Forall2_diag, Forall_true; done).
  symmetry. apply list_eq_Forall2. eapply Forall2_impl; [exact Hf|]. intros w w'. unfold full_only.
  by destruct (w_full_weight_grad w).
Qed.

Lemma rank0_merge directory ws full' :
  local_status file_size copy_error directory 0 (full_weight_wrappers ws) = (full', Ok (rank0_status directory ws)) →
  rank0_result directory ws (merge_full ws full').
Proof.
  unfold rank0_result. generalize (rank0_status directory ws). intros st. unfold local_status. simpl.
  destruct directory as [fs|]; [|intros [= <- _]; apply merge_full_same].
  destruct (load_full_weight_checkpoint_rank0 _ _ _ _) as [ws' r] eqn:E. apply restore_validates_first in E.
  destruct (plan_restore _ _ _) as [shards|e].
  - destruct r as [n|e]; intros [= <- <-]; simpl; by apply merge_full_rel, E.
  - destruct E as [-> ->]. intros [= <- <-]. apply merge_full_same.
Qed.

(** [load_full_weight_checkpoint] synchronises the outcome: once the group
    is initialised every rank with full wrappers returns or raises exactly as
    rank 0 does, only rank 0 changes its wrappers, and there only the full ones:
    restored when the ranks return, untouched when the checks fail, marked as
    failed when a copy does. *)
Theorem restore_verdict_is_shared (directory : option files) (ws0 : list wrapper) (launch : launcher)
    (rank world : Z) (broadcast : status → status) (ws ws' : list wrapper) (r : res bool) :
  full_weight_wrappers ws ≠ [] → distributed_rank_world_size launch = Ok (rank, world) → 1 < world →
  (rank = 0 → ws = ws0) → (∀ mine, broadcast mine = rank0_status directory ws0) →
  load_full_weight_checkpoint file_size copy_error directory launch true broadcast ws = (ws', r) →
  r = verdict (rank0_status directory ws0) ∧
  if rank =? 0 then rank0_result directory ws ws' else ws' = ws.
Proof.
  intros Hne Hl Hw H0 Hbc. unfold load_full_weight_checkpoint. rewrite bindM_gets.
  destruct (full_weight_wrappers ws) as [|f fs] eqn:Hfull; [done|]. rewrite bindM_lift, Hl.
  apply Z.ltb_lt in Hw. rewrite Hw. cbn [andb].
  assert (∃ full' mine, local_status file_size copy_error directory rank (full_weight_wrappers ws) = (full', Ok mine) ∧
    if rank =? 0 then rank0_result directory ws (merge_full ws full') else full' = full_weight_wrappers ws)
    as (full' & mine & Hm & Hf).
  { destruct (Z.eqb_spec rank 0) as [->|Hr].
    - destruct (local_status_run directory ws) as [full' Hm]. exists full', (rank0_status directory ws).
      split; [done|]. by apply rank0_merge.
    - exists (full_weight_wrappers ws), (None, 0). split; [|done]. unfold local_status.
      apply Z.eqb_neq in Hr. by rewrite Hr. }
  intros Hr. erewrite bindM_run in Hr; [|by rewrite Hm]. rewrite Hbc in Hr.
  destruct (rank0_status directory ws0) as [[text|] n]; injection Hr as <- <-; (split; [done|]);
    (destruct (rank =? 0); [done|]; rewrite Hf; apply merge_full_same).
Qed.
End restore.
