(* ===== verification/CheckpointExample.v ===== *)
(** * Checkpoint runs

    Concrete saves and restores: they instantiate the theorems on the
    checkpoints, with the serialiser of JsonCodec, and show what a crafted
    index makes of the next save. *)
From S2P Require Import Prelude PyStr PyVal Dist Checkpoint JsonCodec CheckpointSpec CheckpointRestore.
From Stdlib Require Import Ascii.

Local Open Scope string_scope.
Local Open Scope list_scope.
Local Open Scope Z_scope.

(** ** Two layers *)

Definition sizes (f : file) : Z := match f with Text s => 1 + Z.of_nat (String.length s) | _ => 7 end.
Definition always_fine (n : nat) : io_outcome := Fine.

Definition tensor_param (shape : list Z) (data : string) : param :=
  Param true shape "bfloat16" "cpu" true true data.
Definition layer (layer_idx : Z) (g u d : string) : wrapper :=
  Wrapper layer_idx true 2 1 1
    (Some (Backend (fun p => Some (tensor_param [2; 1; 1] (match p with Gate => g | Up => u | Down => d end)))
             false false)).
Definition frozen (layer_idx : Z) : wrapper := Wrapper layer_idx false 2 1 1 None.

Definition model : list wrapper := [layer 12 "g12" "u12" "d12"; frozen 1; layer 0 "g0" "u0" "d0"].
Definition alone : launcher := Launcher None [].
Definition generation1 : string := "0123456789abcdef0123456789abcdef".
Definition generation2 : string := "fedcba9876543210fedcba9876543210".

Definition new_disk (fs : files) : disk := Disk fs [] 0.

Abbreviation saved1 := (save_full_weight_checkpoint sizes always_fine alone generation1 model (new_disk ∅)).
Definition directory1 : files := dk_files saved1.1.


(** ** A save that breaks off, and one that does not *)

(** The second shard is written in part. *)
Definition torn (n : nat) : io_outcome := if (n =? 2)%nat then Leaves (Junk 3) else Fine.
Abbreviation broken := (save_full_weight_checkpoint sizes torn alone generation2 model (new_disk directory1)).
Abbreviation replaced :=
  (save_full_weight_checkpoint sizes always_fine alone generation2 (model ++ [layer 3 "g3" "u3" "d3"])
     (new_disk directory1)).

Lemma fresh2 : fresh generation2 directory1.
Proof. apply fresh_unclaimed. vm_compute. reflexivity. Qed.
Lemma index_kept : FULL_WEIGHT_INDEX_NAME ∉ superseded directory1.
Proof. apply (bool_decide_unpack _). vm_compute. exact I. Qed.

Lemma start2 : at_start directory1 (new_disk directory1).
Proof. by split. Qed.

(** The broken save leaves the first checkpoint, and each of the six states
    it passes through holds it. *)
Lemma save_is_atomic_witness :
  broken.2 = Err (Raise OSError "write") ∧ length (states broken.1) = 6%nat ∧ dk_files broken.1 = directory1.
Proof.
  assert (broken.2 = Err (Raise OSError "write")) as Hr by (vm_compute; reflexivity).
  split; [done|]. split; [vm_compute; reflexivity|].
  destruct (save_is_atomic sizes torn alone generation2 model directory1 (new_disk directory1) broken.1 _
    fresh2 index_kept start2 (run_result _ _ _ Hr)) as [_ H].
  apply H. discriminate.
Defined.

Lemma uuid1 : uuid_hex generation1.
Proof. done. Qed.

(** The second layer of the first checkpoint. *)
Lemma save_load_roundtrip_witness :
  load_full_weight_layer sizes directory1 12 (expected_shapes (layer 12 "" "" "")) = Ok ["g12"; "u12"; "d12"].
Proof.
  assert (saved1.2 = Ok true) as Hr by (vm_compute; reflexivity).
  assert (∀ f, 0 < sizes f) as Hpos by (intros [s| |]; simpl; lia).
  assert (fresh generation1 (∅ : files)) as Hfr by (intros n _; apply lookup_empty).
  assert (FULL_WEIGHT_INDEX_NAME ∉ superseded ∅) as Hi by (by intros ?%elem_of_nil).
  destruct (save_load_roundtrip sizes always_fine codec_round_trip Hpos alone generation1 model ∅ (new_disk ∅) saved1.1
    uuid1 Hfr Hi (conj eq_refl eq_refl) (run_result _ _ _ Hr)) as [Hl _].
  destruct (Hl (layer 12 "g12" "u12" "d12")) as (params & Hp & Hload); [left|].
  injection Hp as <-. exact Hload.
Defined.

(** ** Restoring *)

Definition no_copy_error (layer_idx : Z) (p : proj) : option pyexn := None.
Definition copy_breaks (layer_idx : Z) (p : proj) : option pyexn :=
  if (layer_idx =? 12) && bool_decide (p = Up) then Some (Raise RuntimeError "out of memory") else None.

Definition blank : list wrapper := [layer 12 "" "" ""; frozen 1; layer 0 "" "" ""].
Definition data_of (w : wrapper) : list (option string) :=
  (fun p => b ← w_backend w; pm_data <$> bk_params b p) <$> projections.

(** Both layers get their tensors back. *)
Abbreviation restore1 :=
  (load_full_weight_checkpoint_rank0 sizes no_copy_error directory1 (full_weight_wrappers blank)).
Lemma restore_validates_first_witness :
  is_ok (plan_restore sizes directory1 (full_weight_wrappers blank)) = true ∧
  Forall2 (restored sizes directory1) (full_weight_wrappers blank) restore1.1.
Proof.
  assert (restore1.2 = Ok 2) as Hr by (vm_compute; reflexivity).
  pose proof (restore_validates_first sizes no_copy_error directory1 (full_weight_wrappers blank) restore1.1 _
    (run_result _ _ _ Hr)) as H.
  destruct (plan_restore sizes directory1 (full_weight_wrappers blank)) as [shards|e]; [|by destruct H].
  split; [done|]. apply H.
Defined.

Example restored_data : data_of <$> restore1.1 =
  [[Some "g12"; Some "u12"; Some "d12"]; [Some "g0"; Some "u0"; Some "d0"]].
Proof. vm_compute. reflexivity. Qed.

(** Rank 0 fails in a copy, and rank 1, which holds no backend, raises too. *)
Definition second : launcher := Launcher (Some (1, 2)) [].
Definition remote : list wrapper := [Wrapper 12 true 2 1 1 None; Wrapper 0 true 2 1 1 None].
Definition from_rank0 (s : status) : status := rank0_status sizes copy_breaks (Some directory1) blank.
Abbreviation restore2 :=
  (load_full_weight_checkpoint sizes copy_breaks (Some directory1) second true from_rank0 remote).
Lemma restore_verdict_is_shared_witness :
  restore2.2 = Err (Raise RuntimeError "Failed to load KT Full checkpoint") ∧ restore2.1 = remote.
Proof.
  assert (restore2 = (restore2.1, restore2.2)) as Hr by apply surjective_pairing.
  destruct (restore_verdict_is_shared sizes copy_breaks (Some directory1) blank second 1 2 from_rank0 remote
    restore2.1 restore2.2 ltac:(discriminate) eq_refl ltac:(lia) ltac:(discriminate) (fun _ => eq_refl) Hr) as [Hv Hw].
  split; [|exact Hw]. rewrite Hv. vm_compute. reflexivity.
Defined.

(** ** An index that names itself *)

(** A valid index whose only entry gives the name of the index file. *)
Definition crafted : files :=
  {[ FULL_WEIGHT_INDEX_NAME :=
       Text (index_text (index_value generation1 [("0", PDict [("file", PStr FULL_WEIGHT_INDEX_NAME)])])) ]}.
Abbreviation saved2 := (save_full_weight_checkpoint sizes always_fine alone generation2 model (new_disk crafted)).

(** The removal of superseded shards excludes the shards the save created,
    and not the index: when an entry of the previous index, which [_read_index]
    accepts, names the index file, a save on which every file operation
    succeeds returns [True] and leaves a directory without an index. *)
Theorem save_can_remove_its_own_index :
  saved2.2 = Ok true ∧ dk_files saved2.1 !! FULL_WEIGHT_INDEX_NAME = None ∧
  load_full_weight_layer sizes (dk_files saved2.1) 0 (expected_shapes (layer 0 "" "" "")) =
    Err (Raise FileNotFoundError "No kt_full_experts.index.json found").
Proof. vm_compute. done. Qed.
