(* ===== verification/WeightSource.v ===== *)
(** * Where a wrapped model's expert weights come from

    Models [_native_fp8_block_size], [_resolve_raw_safetensors_checkpoint_files]
    and the choice of weight source in [wrap_moe_layers_with_kt_wrapper] of
    [kt-kernel/python/sft/wrapper.py], with its checks of tensor-parallel slices.
    [_resolve_checkpoint_files] asks the transformers library and is a
    parameter; paths are absolute. *)
From S2P Require Import Prelude PyStr PyVal FS Ephemeral Backend Checkpoint KTConfig WrapSettings.
From Stdlib Require Import Ascii.

Local Open Scope string_scope.
Local Open Scope list_scope.
Local Open Scope Z_scope.

(** ** The native FP8 contract *)

(** [getattr(c, name, None)] *)
Definition attribute (c : cfg) (name : string) : cfg :=
  match c with CObj d => default cnone (dict_get name d) | _ => cnone end.

Definition cfg_truthy (c : cfg) : bool :=
  match c with CVal v => truthy v | CMap [] => false | CMap _ | CObj _ => true end.

(** [tuple(block_size) != (128, 128)] *)
Definition other_block_size (block_size : cfg) : res bool :=
  match block_size with
  | CVal (PList l) => mret (negb (py_eq (PList l) (PList [PInt 128; PInt 128])))
  | CVal (PStr _) | CVal (PDict _) | CMap _ => mret true
  | _ => Err (Raise TypeError "object is not iterable")
  end.

Definition native_fp8_block_size `{Platform} (cfg_repr : cfg -> string) (model_config : cfg) : res (Z * Z) :=
  let text_config := attribute model_config "text_config" in
  let quant_config := attribute model_config "quantization_config" in
  let quant_config := if is_cnone quant_config && negb (is_cnone text_config)
                      then attribute text_config "quantization_config" else quant_config in
  _ ← raise_if (is_cnone quant_config) KTAMXConfigError "native FP8 SFT requires model quantization_config metadata";
  let read name := config_value quant_config name cnone in
  let quant_method := lower (if cfg_truthy (read "quant_method") then cfg_str cfg_repr (read "quant_method") else "") in
  _ ← raise_if (negb (contains "fp8" quant_method)) KTAMXConfigError "native FP8 SFT requires an FP8 checkpoint";
  let block_size := read "weight_block_size" in
  let block_size := if is_cnone block_size then read "weight_block_shape" else block_size in
  other ← (if is_cnone block_size then mret true else other_block_size block_size);
  _ ← raise_if other KTAMXConfigError "native FP8 SFT requires weight_block_size=[128, 128]";
  mret (128, 128).

(** ** Tensor-parallel slices *)

(** [getattr(cfg, "kt_threadpool_count", 1) if getattr(cfg, "kt_tp_enabled", False) else 1],
    of a configuration whose count is set. *)
Definition threadpool_count_of (c : ktconfig) : Z :=
  if flag (kt_tp_enabled c) then default 1 (kt_threadpool_count c) else 1.

(** [n % m], which is true when it is not zero; [m] is not zero. *)
Definition has_rest (n m : Z) : bool := negb (n mod m =? 0).

Definition check_fp8_slices (hidden_size intermediate_size threadpool_count : Z) : res unit :=
  _ ← raise_if (has_rest hidden_size 128 || has_rest intermediate_size 128) KTAMXConfigError
        "FP8 SFT requires hidden and routed intermediate dimensions divisible by 128";
  raise_if ((threadpool_count <? 1) || has_rest intermediate_size threadpool_count
            || has_rest (intermediate_size / threadpool_count) 128) KTAMXConfigError
    "FP8 SFT requires each TP intermediate slice divisible by 128".

Definition check_rawint4_slices (hidden_size intermediate_size threadpool_count : Z) : res unit :=
  _ ← raise_if (negb (bool_decide (threadpool_count ∈ [1; 2]))) KTAMXConfigError "RAWINT4 SFT v1 supports TP1/TP2 only";
  _ ← raise_if (has_rest hidden_size RAWINT4_GROUP_SIZE || has_rest intermediate_size RAWINT4_GROUP_SIZE)
        KTAMXConfigError "RAWINT4 SFT requires hidden and routed intermediate dimensions divisible by the group size";
  raise_if (has_rest intermediate_size threadpool_count
            || has_rest (intermediate_size / threadpool_count) RAWINT4_GROUP_SIZE) KTAMXConfigError
    "RAWINT4 SFT requires every TP intermediate slice divisible by the group size".

(** The checks between the choice of a kernel and the choice of weights. *)
Definition check_slices `{Platform} (cfg_repr : cfg -> string) (c : ktconfig) (model_config : cfg)
    (hidden_size intermediate_size : Z) : res unit :=
  let threadpool_count := threadpool_count_of c in
  _ ← (if format_is c "fp8"
       then _ ← native_fp8_block_size cfg_repr model_config;
            check_fp8_slices hidden_size intermediate_size threadpool_count
       else mret tt);
  if format_is c "rawint4" then check_rawint4_slices hidden_size intermediate_size threadpool_count else mret tt.

(** ** Raw safetensors files *)

(** What a resolution found: files, if any, and the metadata of their shards. *)
Abbreviation resolution := (option (list string) * pyval)%type.

Definition none_found : resolution := (None, PNone).

Definition SAFETENSORS_INDEX : string := "model.safetensors.index.json".
Definition is_safetensors (name : string) : bool := ends_with ".safetensors" name.

(** [files and all(f.endswith(".safetensors") for f in files)] *)
Definition usable_files (r : resolution) : option (list string) :=
  match r.1 with
  | Some ((_ :: _) as files) => if forallb is_safetensors files then Some files else None
  | _ => None
  end.

(** [p.suffix == ".safetensors"], for the last component [name] of [p] *)
Definition has_safetensors_suffix (name : string) : bool :=
  is_safetensors name && negb (String.eqb name ".safetensors").

Definition text_le (a b : string) : Prop := is_true (String.leb a b).
#[export] Instance text_le_dec : RelDecision text_le := fun a b => decide (String.leb a b = true).

(** [sorted(...)] of a list of texts *)
Definition sorted_texts (l : list string) : list string := merge_sort text_le l.

(** [p / name] *)
Definition joined (p : path) (name : string) : path :=
  if is_absolute name then path_parts name else p ++ path_parts name.

Section raw.
Context `{Platform} (t : fs) (resolve_checkpoint_files : string -> resolution).

(** The files that an index names, each once. *)
Definition index_files (checkpoint_path : path) (weight_map : list (string * pyval)) : res (list path) :=
  for_each weight_map [] (fun files kv =>
    filename ← of_option (as_str kv.2) TypeError "unsupported operand type(s) for /";
    let file := joined checkpoint_path filename in
    mret (if bool_decide (file ∈ files) then files else files ++ [file])).

Definition read_weight_map (index_path : path) : res (list (string * pyval) * pyval) :=
  text ← read_bytes t index_path;
  metadata ← of_option (json_loads text) ValueError "Expecting value";
  d ← of_option (as_dict metadata) AttributeError "object has no attribute 'get'";
  weight_map ← of_option (match pget "weight_map" d with PDict ((_ :: _) as m) => Some m | _ => None end)
                 KTAMXConfigError "invalid safetensors index without weight_map";
  mret (weight_map, metadata).

Definition resolve_raw_safetensors_checkpoint_files (model_name_or_path : string) : res resolution :=
  let resolved := resolve_checkpoint_files model_name_or_path in
  match usable_files resolved with
  | Some files => mret (Some files, resolved.2)
  | None =>
      let checkpoint_path := path_parts model_name_or_path in
      if p_is_file t checkpoint_path && has_safetensors_suffix (List.last checkpoint_path "")
      then mret (Some [Eph.path_text checkpoint_path], PNone)
      else if negb (p_is_dir t checkpoint_path) then mret none_found
      else
        let index_path := checkpoint_path ++ [SAFETENSORS_INDEX] in
        if p_is_file t index_path
        then
          '(weight_map, metadata) ← read_weight_map index_path;
          files ← index_files checkpoint_path weight_map;
          _ ← raise_if (negb (forallb (p_is_file t) files)) FileNotFoundError
                "safetensors index references missing shard";
          mret (Some (sorted_texts (Eph.path_text <$> files)), metadata)
        else
          names ← iterdir t checkpoint_path;
          let files := (fun name => Eph.path_text (checkpoint_path ++ [name])) <$> List.filter is_safetensors names in
          match files with
          | [] => mret none_found
          | _ => mret (Some (sorted_texts files), PNone)
          end
  end.

(** ** The choice of source *)

(** [cfg.kt_checkpoint_files = files; cfg.kt_sharded_metadata = metadata] *)
Definition set_checkpoint (files : list string) (metadata : pyval) (c : ktconfig) : ktconfig :=
  let '(KTCfg a1 a2 a3 a4 a5 a6 a7 a8 a9 a10 a11 a12 a13 a14 a15 a16 a17 a18 a19 a20 a21 a22 a23 a24 a25 _ _ w) := c in
  KTCfg a1 a2 a3 a4 a5 a6 a7 a8 a9 a10 a11 a12 a13 a14 a15 a16 a17 a18 a19 a20 a21 a22 a23 a24 a25
    (Some (PList (PStr <$> files))) (Some metadata) w.

(** The three flags that select a source, and the Full checkpoint's directory. *)
Record weight_source := Source {
  src_full : option string;
  src_kt_weight_path : bool;
  src_checkpoint_files : bool;
}.

Definition has_files (c : ktconfig) : bool :=
  match kt_checkpoint_files c with Some v => truthy v | None => false end.
Definition is_given {A} (o : option A) : bool := match o with Some _ => true | None => false end.

(** [kt_weight_path is not None and expert_weight_format not in {"fp8", "rawint4"}] *)
Definition uses_kt_weight_path (c : ktconfig) : bool :=
  is_given (kt_weight_path c) && negb (format_is c "fp8" || format_is c "rawint4").

(** Files are taken over when the resolution is usable. *)
Definition take_resolved (r : resolution) (c : ktconfig) : ktconfig :=
  match usable_files r with Some files => set_checkpoint files r.2 c | None => c end.

Definition resolve_expert_checkpoint (full : option string) (c : ktconfig) : ktconfig :=
  match full, kt_expert_checkpoint_path c with
  | None, Some p => if String.eqb p "" then c else take_resolved (resolve_checkpoint_files p) c
  | _, _ => c
  end.

Definition resolve_native_files (c : ktconfig) : res ktconfig :=
  match kt_weight_path c with
  | Some p =>
      if (format_is c "fp8" || format_is c "rawint4") && negb (has_files c) && negb (String.eqb p "")
      then
        r ← resolve_raw_safetensors_checkpoint_files p;
        mret (match r.1 with Some ((_ :: _) as files) => set_checkpoint files r.2 c | _ => c end)
      else mret c
  | None => mret c
  end.

Definition check_source (full : option string) (kt_path : bool) (c : ktconfig) : res unit :=
  let alternate := is_given full || given (kt_expert_checkpoint_path c) in
  _ ← (if format_is c "int8"
       then _ ← raise_if (negb kt_path) KTAMXConfigError "INT8 SFT requires kt_weight_path with pre-quantized .kt weights";
            raise_if alternate KTAMXConfigError
              "INT8 SFT does not support Full checkpoints or online expert conversion"
       else mret tt);
  _ ← raise_if (format_is c "fp8" && is_given full) KTAMXConfigError "FP8 SFT does not support KT Full checkpoints";
  raise_if (format_is c "rawint4" && alternate) KTAMXConfigError
    "RAWINT4 SFT does not support KT Full or alternate expert checkpoints".

(** Experts that loading skipped are resolved by the model's own name. *)
Definition resolve_skipped (name_or_path : option string) (use_files : bool) (full : option string) (kt_path : bool)
    (c : ktconfig) : res (ktconfig * bool) :=
  if negb (is_given full) && negb use_files && negb kt_path && flag (kt_skip_expert_loading c)
  then
    let r := match name_or_path with
             | Some name => if String.eqb name "" then none_found else resolve_checkpoint_files name
             | None => none_found
             end in
    _ ← raise_if (negb (is_given (usable_files r))) KTAMXConfigError
          "KT skip_expert_loading is enabled but no checkpoint files could be resolved";
    mret (take_resolved r c, true)
  else mret (c, use_files).

(** [is_file] and [abspath] are [os.path]'s; [name_or_path] is the model's. *)
Definition select_weight_source (is_file : string -> bool) (abspath : string -> string)
    (name_or_path : option string) (c : ktconfig) : res (ktconfig * weight_source) :=
  let kt_path := uses_kt_weight_path c in
  let full := resolve_full_weight_checkpoint is_file abspath (kt_expert_checkpoint_path c) in
  _ ← raise_if (is_given full && kt_path) KTAMXConfigError
        "A KT Full checkpoint and kt_weight_path were both selected";
  let c := resolve_expert_checkpoint full c in
  c ← resolve_native_files c;
  let use_files := has_files c && negb kt_path && negb (is_given full) in
  _ ← check_source full kt_path c;
  '(c, use_files) ← resolve_skipped name_or_path use_files full kt_path c;
  _ ← raise_if (format_is c "fp8" && negb use_files) KTAMXConfigError
        "FP8 SFT requires raw safetensors checkpoint files";
  _ ← raise_if (format_is c "rawint4" && negb use_files) KTAMXConfigError
        "RAWINT4 SFT requires raw compressed-tensors safetensors checkpoint files";
  mret (c, Source full kt_path use_files).
End raw.

(** ** One source *)

Definition same_options (c c' : ktconfig) : Prop :=
  kt_weight_path c' = kt_weight_path c ∧ kt_expert_weight_format c' = kt_expert_weight_format c ∧
  kt_expert_checkpoint_path c' = kt_expert_checkpoint_path c ∧
  kt_skip_expert_loading c' = kt_skip_expert_loading c ∧ kt_weight_lifecycle c' = kt_weight_lifecycle c.

#[export] Instance same_options_refl : Reflexive same_options.
Proof. by intros c. Qed.
#[export] Instance same_options_trans : Transitive same_options.
Proof. intros a b c (? & ? & ? & ? & ?) (? & ? & ? & ? & ?). split_and!; congruence. Qed.

Lemma set_checkpoint_options files metadata c : same_options c (set_checkpoint files metadata c).
Proof. by destruct c. Qed.

Lemma set_checkpoint_files f files metadata c : has_files (set_checkpoint (f :: files) metadata c) = true.
Proof. by destruct c. Qed.

Lemma usable_files_some r files : usable_files r = Some files →
  ∃ f l, files = f :: l ∧ Forall (fun name => is_safetensors name = true) files.
Proof.
  unfold usable_files. destruct r.1 as [[|f l]|]; [done| |done].
  destruct (forallb _ _) eqn:Hall; [|done]. intros [= <-]. exists f, l. split; [done|].
  apply Forall_forall. intros name Hn. rewrite forallb_forall in Hall. by apply Hall, list_elem_of_In.
Qed.

Lemma take_resolved_options r c : same_options c (take_resolved r c).
Proof. unfold take_resolved. destruct (usable_files r); [apply set_checkpoint_options|done]. Qed.

Section unique.
Context `{Platform} (t : fs) (resolve_checkpoint_files : string → resolution).

Lemma resolve_native_options c c' : resolve_native_files t resolve_checkpoint_files c = Ok c' → same_options c c'.
Proof.
  unfold resolve_native_files. destruct (kt_weight_path c); [|by intros [= <-]].
  destruct (_ && _); [|by intros [= <-]]. intros Hx. inv_bind Hx as r Hr. injection Hx as <-.
  destruct r.1 as [[|]|]; [done|apply set_checkpoint_options|done].
Qed.

Lemma resolve_expert_options full c : same_options c (resolve_expert_checkpoint resolve_checkpoint_files full c).
Proof.
  unfold resolve_expert_checkpoint. destruct full, (kt_expert_checkpoint_path c); try done.
  destruct (String.eqb _ _); [done|apply take_resolved_options].
Qed.

Lemma resolve_skipped_ok name use full kt_path c c' use' :
  resolve_skipped resolve_checkpoint_files name use full kt_path c = Ok (c', use') →
  same_options c c' ∧
  (use' = use ∧ c' = c ∧ (is_given full || use || kt_path = true ∨ flag (kt_skip_expert_loading c) = false) ∨
   use' = true ∧ has_files c' = true ∧ full = None ∧ kt_path = false).
Proof.
  unfold resolve_skipped. destruct (_ && flag _) eqn:Hc.
  - intros Hx. inv_guard Hx as Hu. injection Hx as <- <-. bools. destruct full; [done|].
    split; [apply take_resolved_options|]. right. split_and!; try done. unfold take_resolved.
    destruct (usable_files _) as [files|] eqn:Hf; [|done].
    destruct (usable_files_some _ _ Hf) as (f & l & -> & _). apply set_checkpoint_files.
  - intros [= <- <-]. split; [done|]. left. split_and!; try done.
    by destruct (is_given full), use, kt_path, (flag _); auto.
Qed.

Definition sources (s : weight_source) : Z :=
  Z.b2z (is_given (src_full s)) + Z.b2z (src_kt_weight_path s) + Z.b2z (src_checkpoint_files s).

(** At most one source of expert weights is selected, and exactly one when
    loading skipped the experts, so that they are never read from modules that
    were not filled; INT8 experts come from prepared .kt files, FP8 and RAWINT4
    experts from checkpoint files, which are there when they are selected; the
    choice changes the configuration's checkpoint files and nothing else that it
    reads. *)
Theorem weight_source_is_unique is_file abspath name c c' s :
  select_weight_source t resolve_checkpoint_files is_file abspath name c = Ok (c', s) →
  sources s <= 1 ∧ (flag (kt_skip_expert_loading c) = true → sources s = 1) ∧
  (src_checkpoint_files s = true → has_files c' = true) ∧
  (kt_expert_weight_format c = Some "int8" → src_kt_weight_path s = true ∧ is_given (kt_weight_path c) = true) ∧
  (∀ fmt, kt_expert_weight_format c = Some fmt → fmt ∈ ["fp8"; "rawint4"] → src_checkpoint_files s = true) ∧
  (∀ d, src_full s = Some d →
     resolve_full_weight_checkpoint is_file abspath (kt_expert_checkpoint_path c) = Some d) ∧
  same_options c c'.
Proof.
  unfold select_weight_source. set (full := resolve_full_weight_checkpoint _ _ _). set (kt := uses_kt_weight_path c).
  intros Hx. inv_guard Hx as Hboth. inv_bind Hx as c1 Hc1. inv_bind Hx as [] Hcheck.
  inv_bind Hx as [c2 use] Hskip. inv_guard Hx as Hf8. inv_guard Hx as Hr4. injection Hx as <- <-.
  pose proof (resolve_expert_options full c) as Ho1.
  pose proof (resolve_native_options _ _ Hc1) as Ho2.
  apply resolve_skipped_ok in Hskip as [Ho3 Hskip].
  assert (same_options c c1) as Hs1 by (by etrans). assert (same_options c c2) as Hs2 by (by etrans).
  assert (∀ fmt, format_is c1 fmt = format_is c fmt ∧ format_is c2 fmt = format_is c fmt) as Hfmt.
  { intros fmt. unfold format_is. destruct Hs1 as (_ & -> & _), Hs2 as (_ & -> & _). done. }
  unfold check_source in Hcheck. rewrite !(proj1 (Hfmt _)) in Hcheck. rewrite (proj2 (Hfmt _)) in Hf8. rewrite (proj2 (Hfmt _)) in Hr4.
  unfold sources. cbn [src_full src_kt_weight_path src_checkpoint_files].
  assert (flag (kt_skip_expert_loading c1) = flag (kt_skip_expert_loading c)) as Hfl
    by (by destruct Hs1 as (_ & _ & _ & -> & _)). rewrite Hfl in Hskip.
  assert (use = true → is_given full = false ∧ kt = false ∧ has_files c2 = true) as Huse.
  { intros ->. destruct Hskip as [(Hu & -> & _)|(_ & Hh & -> & ->)]; [|done].
    symmetry in Hu. bools. done. }
  assert (flag (kt_skip_expert_loading c) = true → is_given full || use || kt = true) as Hany.
  { intros Hfs. destruct Hskip as [(-> & _ & [Hd|Hd])|(-> & _)]; [done|congruence|by rewrite orb_true_r]. }
  split_and!; try done.
  - destruct (is_given full), kt, use; simpl in *; try lia; try discriminate Hboth; naive_solver.
  - intros Hfs. specialize (Hany Hfs). destruct (is_given full), kt, use; simpl in *; try lia; try discriminate Hboth; naive_solver.
  - intros Hu. by apply Huse.
  - intros Hf. unfold format_is in Hcheck. rewrite Hf in Hcheck. cbn [bool_decide decide_rel] in Hcheck.
    change (bool_decide (Some "int8" = Some "int8")) with true in Hcheck.
    inv_bind Hcheck as [] Hi. inv_guard Hi as Hk. apply negb_false_iff in Hk. split; [done|].
    unfold kt, uses_kt_weight_path in Hk. by apply andb_true_iff in Hk as [? _].
  - intros fmt Hf Hin. unfold format_is in Hf8, Hr4. rewrite Hf in Hf8, Hr4.
    rewrite !elem_of_cons, elem_of_nil in Hin. by destruct Hin as [->|[->|[]]]; cbn in Hf8, Hr4; destruct use.
Qed.
End unique.

Module SourceExample.
#[local] Instance plain : Platform := {|
  sha256 s := s; json_loads _ := None; json_dumps _ := ""; py_repr _ := "?";
|}.

(** A directory with two shards and no index. *)
Definition tree : fs :=
  {[ [] := NDir (Meta 0 493); ["w"] := NDir (Meta 0 493);
     ["w"; "b.safetensors"] := NFile (Meta 0 420) ""; ["w"; "a.safetensors"] := NFile (Meta 0 420) "" ]}.

(** [KTConfig(kt_expert_weight_format="rawint4", kt_weight_path="/w")] *)
Definition native : ktconfig :=
  KTCfg None None None None (Some "/w") None (Some "rawint4") None None None (Some true) None None None None None
    None None None None None None None None None None None [].

Definition selected := select_weight_source tree (fun _ => none_found) (fun _ => false) (fun p => p) None native.

Lemma weight_source_is_unique_witness :
  selected = Ok (set_checkpoint ["/w/a.safetensors"; "/w/b.safetensors"] PNone native, Source None false true) ∧
  sources (Source None false true) = 1.
Proof.
  assert (selected = Ok (set_checkpoint ["/w/a.safetensors"; "/w/b.safetensors"] PNone native, Source None false true))
    as Hs by (vm_compute; reflexivity).
  split; [exact Hs|].
  exact (proj1 (proj2 (weight_source_is_unique tree _ _ _ _ _ _ _ Hs)) eq_refl).
Defined.
End SourceExample.
