(* ===== verification/WrapSettingsSpec.v ===== *)
(** * Accepted configurations can be wrapped

    Theorems on [WrapSettings]: the case of a backend's name does not matter, and
    a quantised configuration that [KTConfig] accepts passes every check that
    wrapping makes before it looks for weights, with the engine's method of its
    format, but for two that construction does not make. *)
From S2P Require Import Prelude PyStr PyVal FS Backend Base KTConfig KTConfigSpec Checkpoint WrapSettings WeightSource.
From Stdlib Require Import SpecFloat.

Local Open Scope string_scope.
Local Open Scope list_scope.
Local Open Scope Z_scope.











Section accepted.
Context `{Platform} (float_of_text : string → option spec_float).


(** Dimensions of which every slice is a multiple of 128, and a model whose
    metadata are those of an FP8 checkpoint where that is the format. *)
Definition dimensions_fit (cfg_repr : cfg → string) (c : ktconfig) (fmt : string) (model_config : cfg)
    (hidden_size intermediate_size : Z) : Prop :=
  (128 | hidden_size) ∧ (128 * Z.max 1 (threadpool_count_of c) | intermediate_size) ∧
  (fmt = "fp8" → is_ok (native_fp8_block_size cfg_repr model_config) = true).







End accepted.

Module WrapExample.
Import ConfigExample.
#[local] Existing Instance plain.

(** [KTConfig(kt_expert_weight_format="rawint4", kt_tp_enabled=True,
    kt_threadpool_count=0, ...)], with dimensions that fit: construction takes the
    count for one, wrapping refuses it. *)
Definition zero_pools : ktconfig :=
  KTCfg None None (Some true) (Some 0) (Some "/w") None (Some "rawint4") None None None None None None (Some true) None None None
    (Some 8) None None None None None None None None None [].

Lemma zero_pools_are_accepted_and_refused :
  ∃ c, (post_init (fun _ => None) box zero_pools shell).2 = Ok c ∧ dimensions_fit (fun _ => "") c "rawint4" (CObj []) 256 256 ∧
    check_slices (fun _ => "") c (CObj []) 256 256 = Err (Raise KTAMXConfigError "RAWINT4 SFT v1 supports TP1/TP2 only").
Proof.
  eexists. split; [vm_compute; reflexivity|]. split; [|vm_compute; reflexivity].
  split_and!; [by exists 2|by exists 2|done].
Qed.
End WrapExample.
