(* ===== verification/Arch.v ===== *)
(** * Architectures of mixture-of-experts models

    Models [kt-kernel/python/sft/arch.py]: the table of supported
    architectures, the modules it names in a layer, the checkpoint's layer
    prefix; and the device maps that [wrapper.py] builds from them.  The numbers
    of a model configuration are integers; another value raises [TypeError]
    here rather than where it is first used. *)
From S2P Require Import Prelude PyStr PyVal Backend KTConfig WeightSource.
From Stdlib Require Import SpecFloat.

Local Open Scope string_scope.
Local Open Scope list_scope.
Local Open Scope Z_scope.

(** ** The table *)

Record MOEArchConfig := Arch {
  ma_moe_layer_attr : string;
  ma_router_attr : string;
  ma_experts_attr : string;
  ma_weight_names : list string;
  ma_expert_num : Z;
  ma_intermediate_size : Z;
  ma_num_experts_per_tok : Z;
  ma_has_shared_experts : bool;
  ma_router_type : string;
}.

(** [getattr(c, name, dflt)] *)
Definition getattr_or (c : cfg) (name : string) (dflt : cfg) : cfg :=
  match c with CObj d => default dflt (dict_get name d) | _ => dflt end.

(** [c.name], an integer *)
Definition int_attr (c : cfg) (name : string) : res Z :=
  match c with
  | CObj d =>
      v ← of_option (dict_get name d) AttributeError "object has no attribute";
      match v with
      | CVal (PInt n) => mret n
      | _ => Err (Raise TypeError "not an integer")
      end
  | _ => Err (Raise AttributeError "object has no attribute")
  end.

(** [getattr(c, name, 0) > 0] *)
Definition positive_attr (c : cfg) (name : string) : res bool :=
  match getattr_or c name (CVal (PInt 0)) with
  | CVal v =>
      match as_num v with
      | Some (NInt n) => mret (0 <? n)
      | Some (NFloat f) => mret (SFltb float_zero f)
      | None => Err (Raise TypeError "'>' not supported between instances")
      end
  | _ => Err (Raise TypeError "'>' not supported between instances")
  end.

(** A device map: from the paths of modules to devices. *)
Abbreviation device_map := (list (string * string)).

Section arch.
Context `{Platform} (cfg_repr : cfg -> string).

(** [config.architectures[0] if getattr(config, "architectures", None) else ""] *)
Definition architecture (config : cfg) : res string :=
  let architectures := getattr_or config "architectures" cnone in
  if cfg_truthy architectures
  then match architectures with
       | CVal (PList (PStr arch :: _)) => mret arch
       | _ => Err (Raise TypeError "argument is not iterable")
       end
  else mret "".

(** [str(getattr(c, "model_type", ""))] *)
Definition model_type_of (c : cfg) : string := cfg_str cfg_repr (getattr_or c "model_type" (CVal (PStr ""))).

Definition KIMI_MODEL_TYPES : list string := ["kimi_k2"; "kimi_k25"; "kimi_k2_5"; "kimi_k26"; "kimi_k2_6"].

(** An entry of the table whose attributes are read from [c]. *)
Definition gated (c : cfg) (experts intermediate shared router_type : string) : res MOEArchConfig :=
  expert_num ← int_attr c experts;
  intermediate_size ← int_attr c intermediate;
  num_experts_per_tok ← int_attr c "num_experts_per_tok";
  has_shared_experts ← positive_attr c shared;
  mret (Arch "mlp" "gate" "experts" ["gate_proj"; "up_proj"; "down_proj"] expert_num intermediate_size
          num_experts_per_tok has_shared_experts router_type).

Definition get_moe_arch_config (config : cfg) : res MOEArchConfig :=
  arch ← architecture config;
  let cfg := getattr_or config "text_config" config in
  let has name := contains name arch in
  if has "KimiK2" || bool_decide (model_type_of config ∈ KIMI_MODEL_TYPES)
     || String.eqb (model_type_of cfg) "kimi_k2"
  then gated cfg "n_routed_experts" "moe_intermediate_size" "n_shared_experts" "deepseek_gate"
  else if has "DeepseekV2"
  then gated config "n_routed_experts" "moe_intermediate_size" "n_shared_experts" "deepseek_gate"
  else if has "DeepseekV3"
  then gated config "n_routed_experts" "moe_intermediate_size" "n_shared_experts" "deepseek_gate"
  else if has "Qwen2Moe" || has "Qwen3Moe" || has "Qwen3VLMoe" || has "Qwen3_5Moe"
  then gated cfg "num_experts" "moe_intermediate_size" "shared_expert_intermediate_size" "linear"
  else if has "Glm4Moe"
  then gated config "n_routed_experts" "moe_intermediate_size" "n_shared_experts" "glm4_moe_gate"
  else if has "Mixtral"
  then
    expert_num ← int_attr config "num_local_experts";
    intermediate_size ← int_attr config "intermediate_size";
    num_experts_per_tok ← int_attr config "num_experts_per_tok";
    mret (Arch "block_sparse_moe" "gate" "experts" ["w1"; "w3"; "w2"] expert_num intermediate_size
            num_experts_per_tok false "linear")
  else Err (Raise KTAMXModelNotSupportedError "Model architecture not supported for KT AMX").

Definition get_layers_prefix (config : cfg) : res string :=
  arch ← architecture config;
  let model_type := model_type_of config in
  let text_config := getattr_or config "text_config" cnone in
  let composite := bool_decide (model_type ∈ ["kimi_k25"; "kimi_k2_5"; "kimi_k26"; "kimi_k2_6"])
                   || bool_decide (arch ∈ ["KimiK25ForConditionalGeneration"; "KimiK26ForConditionalGeneration"]) in
  if negb (is_cnone text_config) && composite then mret "language_model.model.layers"
  else
    _ ← raise_if (String.eqb (model_type_of text_config) "kimi_k2") KTAMXModelNotSupportedError
          "Unknown composite Kimi architecture cannot be assigned a checkpoint layer prefix";
    if contains "Qwen3_5Moe" arch || contains "Qwen3VLMoe" arch then mret "model.language_model.layers"
    else mret "model.layers".

(** [is_kt_supported_moe_model] of [artifacts.py], for the model's configuration *)
Definition SUPPORTED_MOE_ARCHITECTURES : list string :=
  ["DeepseekV2"; "DeepseekV3"; "KimiK2"; "Qwen2Moe"; "Qwen3Moe"; "Qwen3_5Moe"; "Glm4Moe"; "Mixtral"].

Definition is_kt_supported_moe_model (config : cfg) : bool :=
  let architecture_match := match getattr_or config "architectures" cnone with
    | CVal (PList l) => existsb (fun a => match a with
        | PStr a => existsb (fun marker => contains marker a) SUPPORTED_MOE_ARCHITECTURES
        | _ => false end) l
    | _ => false
    end in
  architecture_match || bool_decide (model_type_of config ∈ KIMI_MODEL_TYPES)
  || bool_decide (model_type_of (getattr_or config "text_config" cnone) ∈ KIMI_MODEL_TYPES).

(** ** Modules of a layer *)

(** What an attribute of a module holds. *)
Inductive pyobj := OModule (attrs : list (string * pyobj)) | OTensor (dim : Z) | ONone.

Definition attr_of (o : pyobj) (name : string) : option pyobj :=
  match o with OModule attrs => dict_get name attrs | _ => None end.

Definition get_moe_module (layer : pyobj) (moe_config : MOEArchConfig) : option pyobj :=
  match attr_of layer (ma_moe_layer_attr moe_config) with
  | None | Some ONone => None
  | Some moe_module =>
      match attr_of moe_module (ma_experts_attr moe_config) with Some _ => Some moe_module | None => None end
  end.

(** [detect_fused_experts(getattr(moe_module, experts_attr, None))] *)
Definition detect_fused_experts (experts : option pyobj) : bool :=
  match experts with
  | Some e =>
      match attr_of e "gate_up_proj", attr_of e "down_proj" with
      | Some (OTensor d1), Some (OTensor d2) => (d1 =? 3) && (d2 =? 3)
      | _, _ => false
      end
  | None => false
  end.

(** ** Device maps *)

Definition device_map_model_contract (config : cfg) : res (Z * string * string * string) :=
  let text_config := getattr_or config "text_config" cnone in
  let effective_config := if is_cnone text_config then config else text_config in
  num_layers ← of_option (match getattr_or effective_config "num_hidden_layers" cnone with
                          | CVal (PInt n) => if n <=? 0 then None else Some n
                          | _ => None
                          end) KTAMXConfigError "model text config has invalid num_hidden_layers";
  layers_prefix ← get_layers_prefix config;
  mret (if String.eqb layers_prefix "language_model.model.layers"
        then (num_layers, "language_model.model.embed_tokens", "language_model.model.norm", "language_model.lm_head")
        else if String.eqb layers_prefix "model.language_model.layers"
        then (num_layers, "model.language_model.embed_tokens", "model.language_model.norm", "lm_head")
        else (num_layers, "model.embed_tokens", "model.norm", "lm_head")).

(** [f"{prefix}.{index}"] *)
Definition indexed (prefix : string) (index : Z) : string := prefix +:+ "." +:+ str_of_Z index.
(** [f"{layer_prefix}.{moe_layer_attr}.{experts_attr}"] *)
Definition experts_path (layer_prefix : string) (moe_config : MOEArchConfig) : string :=
  layer_prefix +:+ "." +:+ ma_moe_layer_attr moe_config +:+ "." +:+ ma_experts_attr moe_config.

Definition base_device_map (embed norm head device : string) : device_map :=
  dict_set head device (dict_set norm device (dict_set embed device [])).

Definition place_expert (num_gpu_experts : Z) (device prefix : string) (m : device_map) (expert_idx : Z) : device_map :=
  dict_set (indexed prefix expert_idx) (if expert_idx <? num_gpu_experts then device else "cpu") m.

Definition place_layer (moe_config : MOEArchConfig) (num_gpu_experts : Z) (layers_prefix device : string)
    (m : device_map) (layer_idx : Z) : device_map :=
  let layer_prefix := indexed layers_prefix layer_idx in
  fold_left (place_expert num_gpu_experts device (experts_path layer_prefix moe_config))
    (seqZ 0 (ma_expert_num moe_config)) (dict_set layer_prefix device m).

(** [c] is the resolved configuration. *)
Definition build_kt_device_map (config : cfg) (c : ktconfig) (device : string) : res device_map :=
  moe_config ← get_moe_arch_config config;
  layers_prefix ← get_layers_prefix config;
  '(num_layers, embed_path, norm_path, lm_head_path) ← device_map_model_contract config;
  mret (fold_left (place_layer moe_config (int_or (kt_num_gpu_experts c) 0) layers_prefix device)
          (seqZ 0 num_layers) (base_device_map embed_path norm_path lm_head_path device)).

Definition place_layer_simplified (moe_config : MOEArchConfig) (layers_prefix device : string)
    (m : device_map) (layer_idx : Z) : device_map :=
  let layer_prefix := indexed layers_prefix layer_idx in
  dict_set (experts_path layer_prefix moe_config) "cpu" (dict_set layer_prefix device m).

(** There is at least one layer, and the first sends the builder elsewhere when
    experts go to the GPU. *)
Definition build_kt_device_map_simplified (config : cfg) (c : ktconfig) (device : string) : res device_map :=
  moe_config ← get_moe_arch_config config;
  layers_prefix ← get_layers_prefix config;
  '(num_layers, embed_path, norm_path, lm_head_path) ← device_map_model_contract config;
  if int_or (kt_num_gpu_experts c) 0 =? 0
  then mret (fold_left (place_layer_simplified moe_config layers_prefix device)
               (seqZ 0 num_layers) (base_device_map embed_path norm_path lm_head_path device))
  else build_kt_device_map config c device.
End arch.
