(* ===== verification/ArchSpec.v ===== *)
(** * Device maps cover the model

    Theorems on [Arch]: which keys and devices the two device maps have, and
    when they are the same. *)
From S2P Require Import Prelude PyStr PyVal Backend KTConfig WeightSource Arch.

Local Open Scope string_scope.
Local Open Scope list_scope.
Local Open Scope Z_scope.

(** ** Dictionaries built by assignments *)

Definition assign {A} (us : list (string * A)) (d : list (string * A)) : list (string * A) :=
  fold_left (fun d kv => dict_set kv.1 kv.2 d) us d.

(** No key is assigned two values. *)
Definition functional {A} (us : list (string * A)) : Prop := ∀ k v w, (k, v) ∈ us → (k, w) ∈ us → v = w.

Lemma assign_other {A} (us : list (string * A)) d k : k ∉ us.*1 → dict_get k (assign us d) = dict_get k d.
Proof.
  revert d. induction us as [|[k' v] us IH]; intros d Hk; [done|].
  rewrite fmap_cons, not_elem_of_cons in Hk. simpl in Hk. destruct Hk as [Hk Hks]. unfold assign in *. simpl.
  rewrite IH by done. apply dict_get_set_ne. congruence.
Qed.

Lemma assign_last {A} (us : list (string * A)) d k v : functional us → (k, v) ∈ us → dict_get k (assign us d) = Some v.
Proof.
  revert d. induction us as [|[k' w] us IH]; intros d Hf Hin; [by apply elem_of_nil in Hin|].
  change (dict_get k (assign us (dict_set k' w d)) = Some v).
  destruct (decide (k ∈ us.*1)) as [Hk|Hk].
  - apply list_elem_of_fmap in Hk as ([k1 v'] & -> & Hk). cbn in *.
    assert (v = v') as -> by (eapply Hf; [exact Hin|by right]). apply IH; [|done].
    intros ? ? ? ? ?. by eapply Hf; right.
  - apply elem_of_cons in Hin as [[= -> ->]|Hin]; [|by destruct Hk; apply list_elem_of_fmap; eexists (_, _)].
    rewrite assign_other by done. apply dict_get_set_eq.
Qed.

Lemma assign_get {A} (us : list (string * A)) k v : functional us → dict_get k (assign us []) = Some v ↔ (k, v) ∈ us.
Proof.
  intros Hf. split; [|by apply assign_last]. intros Hg.
  destruct (decide (k ∈ us.*1)) as [Hk|Hk]; [|by rewrite assign_other in Hg].
  apply list_elem_of_fmap in Hk as ([k1 v'] & -> & Hk). cbn in *.
  rewrite (assign_last us [] k1 v') in Hg by done. by injection Hg as ->.
Qed.

Lemma assign_app {A} (us vs : list (string * A)) d : assign (us ++ vs) d = assign vs (assign us d).
Proof. apply fold_left_app. Qed.

Lemma assign_bind {A B} (f : B → list (string * A)) (l : list B) d :
  assign (l ≫= f) d = fold_left (fun d x => assign (f x) d) l d.
Proof.
  revert d. induction l as [|x l IH]; intros d; [done|]. cbn [mbind list_bind fold_left].
  rewrite assign_app. apply IH.
Qed.

Lemma assign_fmap {A B} (f : B → string * A) (l : list B) d :
  assign (f <$> l) d = fold_left (fun d x => dict_set (f x).1 (f x).2 d) l d.
Proof. revert d. induction l as [|x l IH]; intros d; [done|]. simpl. unfold assign in *. simpl. apply IH. Qed.

(** ** The keys of a device map *)

Section keys.
Context (a : MOEArchConfig) (num_gpu_experts : Z) (layers_prefix device : string).

Definition expert_key (layer_idx expert_idx : Z) : string :=
  indexed (experts_path (indexed layers_prefix layer_idx) a) expert_idx.

Definition expert_device (expert_idx : Z) : string := if expert_idx <? num_gpu_experts then device else "cpu".

Definition layer_updates (layer_idx : Z) : list (string * string) :=
  (indexed layers_prefix layer_idx, device)
  :: ((fun j => (expert_key layer_idx j, expert_device j)) <$> seqZ 0 (ma_expert_num a)).

Definition simplified_updates (layer_idx : Z) : list (string * string) :=
  [(indexed layers_prefix layer_idx, device); (experts_path (indexed layers_prefix layer_idx) a, "cpu")].

Lemma place_layers ls d :
  fold_left (place_layer a num_gpu_experts layers_prefix device) ls d = assign (ls ≫= layer_updates) d.
Proof.
  rewrite assign_bind. revert d. induction ls as [|i ls IH]; intros d; [done|]. cbn [fold_left].
  replace (assign (layer_updates i) d) with (place_layer a num_gpu_experts layers_prefix device d i); [apply IH|].
  unfold layer_updates. change (?x :: ?l) with ([x] ++ l). rewrite assign_app, assign_fmap. done.
Qed.

Lemma place_layers_simplified ls d :
  fold_left (place_layer_simplified a layers_prefix device) ls d = assign (ls ≫= simplified_updates) d.
Proof.
  rewrite assign_bind. revert d. induction ls as [|i ls IH]; intros d; [done|]. apply IH.
Qed.

(** A layer's digits in a key, and what follows them. *)
Definition decode (key : string) : option (string * string) :=
  span_digits <$> strip_prefix (layers_prefix +:+ ".") key.

Definition after_digits (rest : string) : Prop :=
  match rest with String c _ => is_digit c = false | EmptyString => True end.

Lemma decode_layer i rest : 0 <= i → after_digits rest →
  decode (indexed layers_prefix i +:+ rest) = Some (str_of_Z i, rest).
Proof.
  intros Hi Hr. unfold decode, indexed. rewrite !str_app_assoc.
  replace (layers_prefix +:+ "." +:+ str_of_Z i +:+ rest) with ((layers_prefix +:+ ".") +:+ (str_of_Z i +:+ rest))
    by apply str_app_assoc. rewrite strip_prefix_app. simpl. rewrite span_digits_app; [done| |done].
  by apply str_of_Z_digits.
Qed.

Definition experts_rest : string := "." +:+ ma_moe_layer_attr a +:+ "." +:+ ma_experts_attr a.

Lemma decode_plain i : 0 <= i → decode (indexed layers_prefix i) = Some (str_of_Z i, "").
Proof. intros Hi. rewrite <-(str_app_nil_r (indexed layers_prefix i)) at 1. by apply decode_layer. Qed.

Lemma decode_experts i : 0 <= i → decode (experts_path (indexed layers_prefix i) a) = Some (str_of_Z i, experts_rest).
Proof. intros Hi. unfold experts_path. by apply (decode_layer i experts_rest). Qed.

Lemma decode_expert i j : 0 <= i → decode (expert_key i j) = Some (str_of_Z i, experts_rest +:+ "." +:+ str_of_Z j).
Proof.
  intros Hi. unfold expert_key, indexed at 1, experts_path. rewrite str_app_assoc. by apply decode_layer.
Qed.

Lemma decode_base key : starts_with (layers_prefix +:+ ".") key = false → decode key = None.
Proof. unfold starts_with, decode. by destruct (strip_prefix _ _). Qed.

(** The two maps, with their first three entries. *)
Context (n : Z) (embed norm head : string).
Context (Hbase : Forall (fun key => starts_with (layers_prefix +:+ ".") key = false) [embed; norm; head]).

Definition base_updates : list (string * string) := [(embed, device); (norm, device); (head, device)].

Definition full_entry (k v : string) : Prop :=
  (k ∈ [embed; norm; head] ∧ v = device) ∨
  (∃ i, 0 <= i < n ∧ k = indexed layers_prefix i ∧ v = device) ∨
  (∃ i j, 0 <= i < n ∧ 0 <= j < ma_expert_num a ∧ k = expert_key i j ∧ v = expert_device j).

Definition simplified_entry (k v : string) : Prop :=
  (k ∈ [embed; norm; head] ∧ v = device) ∨
  (∃ i, 0 <= i < n ∧ k = indexed layers_prefix i ∧ v = device) ∨
  (∃ i, 0 <= i < n ∧ k = experts_path (indexed layers_prefix i) a ∧ v = "cpu").

Lemma in_base k v : (k, v) ∈ base_updates ↔ k ∈ [embed; norm; head] ∧ v = device.
Proof. unfold base_updates. rewrite !elem_of_cons, !elem_of_nil. naive_solver. Qed.

Lemma in_full k v : (k, v) ∈ base_updates ++ (seqZ 0 n ≫= layer_updates) ↔ full_entry k v.
Proof.
  rewrite elem_of_app, in_base, list_elem_of_bind. unfold full_entry, layer_updates. f_equiv. split.
  - intros (i & Hin & Hi%elem_of_seqZ). apply elem_of_cons in Hin as [[= -> ->]|Hin]; [left; exists i; split_and!; [lia|lia|done..]|].
    apply list_elem_of_fmap in Hin as (j & [= -> ->] & Hj%elem_of_seqZ). right. exists i, j. split_and!; [lia|lia|lia|lia|done|done].
  - intros [(i & Hi & -> & ->)|(i & j & Hi & Hj & -> & ->)]; exists i; (split; [|apply elem_of_seqZ; lia]); [by left|].
    right. apply list_elem_of_fmap. exists j. split; [done|]. apply elem_of_seqZ. lia.
Qed.

Lemma in_simplified k v : (k, v) ∈ base_updates ++ (seqZ 0 n ≫= simplified_updates) ↔ simplified_entry k v.
Proof.
  rewrite elem_of_app, in_base, list_elem_of_bind. unfold simplified_entry, simplified_updates. f_equiv. split.
  - intros (i & Hin & Hi%elem_of_seqZ). rewrite !elem_of_cons, elem_of_nil in Hin.
    destruct Hin as [[= -> ->]|[[= -> ->]|[]]]; [left|right]; exists i; (split_and!; [lia|lia|done..]).
  - intros [(i & Hi & -> & ->)|(i & Hi & -> & ->)]; exists i; (split; [|apply elem_of_seqZ; lia]); [by left|right; by left].
Qed.

Lemma decode_in_base k : k ∈ [embed; norm; head] → decode k = None.
Proof. intros Hk. rewrite Forall_forall in Hbase. by apply decode_base, Hbase. Qed.

Lemma full_functional k v w : full_entry k v → full_entry k w → v = w.
Proof.
  intros [[H1 ->]|[(i & Hi & Hk & ->)|(i & j & Hi & Hj & Hk & ->)]]
    [[H2 ->]|[(i' & Hi' & Hk' & ->)|(i' & j' & Hi' & Hj' & Hk' & ->)]]; try done;
    try (apply decode_in_base in H1); try (apply decode_in_base in H2); subst k.
  all: try (rewrite decode_expert in * by lia; congruence).
  all: try (rewrite decode_plain in * by lia; congruence).
  - pose proof (decode_expert i' j' ltac:(lia)) as Hd. rewrite <-Hk', decode_plain in Hd by lia. done.
  - pose proof (decode_expert i j ltac:(lia)) as Hd. rewrite Hk', decode_plain in Hd by lia. done.
  - pose proof (decode_expert i j ltac:(lia)) as Hd. rewrite Hk', decode_expert in Hd by lia.
    injection Hd as _ Hd. apply str_app_inj_l in Hd. injection Hd as Hd. by apply str_of_Z_inj in Hd as ->.
Qed.

Lemma simplified_functional k v w : simplified_entry k v → simplified_entry k w → v = w.
Proof.
  intros [[H1 ->]|[(i & Hi & Hk & ->)|(i & Hi & Hk & ->)]]
    [[H2 ->]|[(i' & Hi' & Hk' & ->)|(i' & Hi' & Hk' & ->)]]; try done;
    try (apply decode_in_base in H1); try (apply decode_in_base in H2); subst k.
  all: try (rewrite decode_experts in * by lia; congruence).
  - pose proof (decode_experts i' ltac:(lia)) as Hd. rewrite <-Hk', decode_plain in Hd by lia. done.
  - pose proof (decode_experts i ltac:(lia)) as Hd. rewrite Hk', decode_plain in Hd by lia. done.
Qed.
End keys.

(** ** The two builders *)

Section builders.
Context `{Platform} (cfg_repr : cfg → string).

Lemma prefix_of_base config n L embed norm head :
  get_layers_prefix cfg_repr config = Ok L → device_map_model_contract cfg_repr config = Ok (n, embed, norm, head) →
  Forall (fun key => starts_with (L +:+ ".") key = false) [embed; norm; head].
Proof.
  intros HL Hc. unfold device_map_model_contract in Hc. inv_bind Hc as n' Hn. rewrite HL in Hc. cbn [mbind res_bind] in Hc.
  assert (L ∈ ["language_model.model.layers"; "model.language_model.layers"; "model.layers"]) as Hin.
  { unfold get_layers_prefix in HL. inv_bind HL as arch Ha. cbv zeta in HL.
    destruct (_ && _); [injection HL as <-; set_solver|]. inv_guard HL as Hk.
    destruct (_ || _); injection HL as <-; set_solver. }
  rewrite !elem_of_cons, elem_of_nil in Hin.
  destruct Hin as [->|[->|[->|[]]]]; injection Hc as <- <- <- <-; repeat constructor.
Qed.

(** What the two maps say, for the parts of the model that the configuration names. *)
Definition maps_agree (a : MOEArchConfig) (L : string) (m ms : device_map) : Prop :=
  ∀ k, (∀ i j, k ≠ expert_key a L i j) → (∀ i, k ≠ experts_path (indexed L i) a) → dict_get k ms = dict_get k m.

(** C40. A device map places the embedding, the final norm, the head and every
    layer on the device, and expert [j] of every layer there too when [j] is
    below the number of GPU experts and on the CPU otherwise, and has no other
    entry.  The simplified builder returns this very map when some experts go
    to the GPU; when none do, its map has in place of a layer's experts the one
    entry that puts their container on the CPU, and is the same elsewhere. *)
Theorem device_map_places_experts config c device m :
  build_kt_device_map cfg_repr config c device = Ok m →
  ∃ a L n embed norm head ms,
    get_moe_arch_config cfg_repr config = Ok a ∧ get_layers_prefix cfg_repr config = Ok L ∧
    device_map_model_contract cfg_repr config = Ok (n, embed, norm, head) ∧
    let gpu := int_or (kt_num_gpu_experts c) 0 in
    (∀ k v, dict_get k m = Some v ↔ full_entry a gpu L device n embed norm head k v) ∧
    build_kt_device_map_simplified cfg_repr config c device = Ok ms ∧
    if gpu =? 0
    then (∀ k v, dict_get k ms = Some v ↔ simplified_entry a L device n embed norm head k v) ∧ maps_agree a L m ms
    else ms = m.
Proof.
  intros Hx. pose proof Hx as Hbuild. unfold build_kt_device_map in Hx. inv_bind Hx as a Ha. inv_bind Hx as L HL.
  inv_bind Hx as [[[n embed] norm] head] Hc. injection Hx as Hm. set (gpu := int_or _ 0) in *.
  pose proof (prefix_of_base _ _ _ _ _ _ HL Hc) as Hbase.
  assert (∀ k v, dict_get k m = Some v ↔ full_entry a gpu L device n embed norm head k v) as Hfull.
  { intros k v. rewrite <-Hm, place_layers, <-in_full, <-assign_get, assign_app; [done|].
    intros k' v' w' Hv%in_full Hw%in_full. by eapply full_functional. }
  unfold build_kt_device_map_simplified. rewrite Ha, HL, Hc, Hbuild. cbn [mbind res_bind]. fold gpu.
  destruct (gpu =? 0) eqn:Hg; [|by exists a, L, n, embed, norm, head, m].
  set (ms := fold_left _ (seqZ 0 n) _).
  assert (∀ k v, dict_get k ms = Some v ↔ simplified_entry a L device n embed norm head k v) as Hs.
  { intros k v. unfold ms. rewrite place_layers_simplified, <-in_simplified, <-assign_get, assign_app; [done|].
    intros k' v' w' Hv%in_simplified Hw%in_simplified. by eapply simplified_functional. }
  exists a, L, n, embed, norm, head, ms. split_and!; try done.
  intros k Hk Hk'. apply option_eq. intros v. rewrite Hs, Hfull. unfold simplified_entry, full_entry. naive_solver.
Qed.
End builders.

Module ArchExample.
#[local] Instance plain : Platform := {|
  sha256 s := s; json_loads _ := None; json_dumps _ := ""; py_repr _ := "?";
|}.

(** Two layers of three experts, of which one goes to the GPU. *)
Definition model_config : cfg :=
  CObj [("architectures", CVal (PList [PStr "Qwen3MoeForCausalLM"])); ("num_hidden_layers", CVal (PInt 2));
        ("num_experts", CVal (PInt 3)); ("moe_intermediate_size", CVal (PInt 8)); ("num_experts_per_tok", CVal (PInt 2))].
Definition one_on_gpu : ktconfig :=
  KTCfg None None None None None None None None None (Some 1) None None None None None None None None None
    None None None None None None None None [].

Abbreviation built_map := (build_kt_device_map (fun _ => "") model_config one_on_gpu "cuda:0").

Definition placed : device_map := match built_map with Ok m => m | Err _ => [] end.

Lemma device_map_places_experts_witness :
  built_map = Ok placed ∧ build_kt_device_map_simplified (fun _ => "") model_config one_on_gpu "cuda:0" = Ok placed ∧
  dict_get "model.layers.1.mlp.experts.0" placed = Some "cuda:0" ∧
  dict_get "model.layers.1.mlp.experts.2" placed = Some "cpu".
Proof.
  assert (built_map = Ok placed) as Hb by (vm_compute; reflexivity).
  split; [exact Hb|]. split.
  - destruct (device_map_places_experts (fun _ => "") model_config one_on_gpu "cuda:0" placed Hb)
      as (a & L & n & e & no & h & ms & _ & _ & _ & _ & Hs & Heq). cbn in Heq. subst ms. exact Hs.
  - split; vm_compute; reflexivity.
Defined.
(** Qwen3-VL is in the table, but is not taken for a supported model where
    routed experts are claimed. *)
Definition qwen3_vl : cfg :=
  CObj [("architectures", CVal (PList [PStr "Qwen3VLMoeForConditionalGeneration"]));
        ("text_config", CObj [("num_experts", CVal (PInt 128)); ("moe_intermediate_size", CVal (PInt 768));
                              ("num_experts_per_tok", CVal (PInt 8))])].

Lemma qwen3_vl_is_not_claimed :
  is_ok (get_moe_arch_config (fun _ => "") qwen3_vl) = true ∧ is_kt_supported_moe_model (fun _ => "") qwen3_vl = false.
Proof. split; vm_compute; reflexivity. Qed.
End ArchExample.
