(* ===== verification/Wrapping.v ===== *)
(** * Wrapping a model's layers on every rank

    Models [wrap_moe_layers_with_kt_wrapper] and [_sync_rank0_wrap_error] of
    [kt-kernel/python/sft/wrapper.py].  Every rank runs the same code; rank 0
    alone touches the engine and the weights, and after each such stage tells
    the others whether it failed.  A rank's run is a computation that broadcasts
    to, or receives from, the other ranks, and that may wait for a message which
    never comes.

    The engine's constructor and the functions that load tensors are the class
    [Kernels]; the ephemeral store, the manifest validator, the kernel's selection
    and the weight sources are the definitions of their own files.  Torch
    modules that are created or emptied on every rank are left out. *)
From S2P Require Import Prelude PyStr PyVal FS WeightManifest Ephemeral Backend Base KTConfig WrapSettings WeightSource Arch.

Local Open Scope string_scope.
Local Open Scope list_scope.
Local Open Scope Z_scope.

(** ** Ranks that exchange messages *)

Record who := Who { wh_rank : Z; wh_world : Z; wh_group : bool }.

Inductive outcome (A : Type) := Returned (a : A) | Raised (e : pyexn) | Waiting.
Arguments Returned {A} a.
Arguments Raised {A} e.
Arguments Waiting {A}.

(** A rank's own state, the messages it has broadcast, and those that wait for
    it. *)
Record rank_state (L : Type) := Rank { rk_local : L; rk_sent : list (option string); rk_inbox : list (option string) }.
Arguments Rank {L}.
Arguments rk_local {L}.
Arguments rk_sent {L}.
Arguments rk_inbox {L}.

Definition W (L A : Type) : Type := who -> rank_state L -> rank_state L * outcome A.

#[export] Instance W_ret {L} : MRet (W L) := fun A a _ s => (s, Returned a).
#[export] Instance W_bind {L} : MBind (W L) := fun A B f m w s =>
  match m w s with
  | (s', Returned a) => f a w s'
  | (s', Raised e) => (s', Raised e)
  | (s', Waiting) => (s', Waiting)
  end.

Section ranks.
Context {L : Type}.

Definition outcome_of {A} (r : res A) : outcome A := match r with Ok a => Returned a | Err e => Raised e end.

(** What every rank computes from what all of them know. *)
Definition everywhere {A} (r : res A) : W L A := fun _ s => (s, outcome_of r).

Definition set_local (l : L) (s : rank_state L) : rank_state L := Rank l (rk_sent s) (rk_inbox s).

Definition world_size : W L Z := fun w s => (s, Returned (wh_world w)).

(** A change of the rank's own state. *)
Definition update (f : who -> L -> L) : W L unit := fun w s => (set_local (f w (rk_local s)) s, Returned tt).

(** [if is_rank_0: try: m  except E as exc: error = convert(exc)] *)
Definition try_rank0 (catches : exn_class -> bool) (convert : pyexn -> pyexn) (m : M L unit) : W L (option pyexn) :=
  fun w s =>
    if wh_rank w =? 0
    then
      let '(l, r) := m (rk_local s) in
      match r with
      | Ok _ => (set_local l s, Returned None)
      | Err e => if catches (exn_cls e) then (set_local l s, Returned (Some (convert e))) else (set_local l s, Raised e)
      end
    else (s, Returned None).

(** [dist.broadcast_object_list(payload, src=0)] *)
Definition broadcast (payload : option string) : W L (option string) := fun w s =>
  if wh_rank w =? 0 then (Rank (rk_local s) (rk_sent s ++ [payload]) (rk_inbox s), Returned payload)
  else
    match rk_inbox s with
    | p :: rest => (Rank (rk_local s) (rk_sent s) rest, Returned p)
    | [] => (s, Waiting)
    end.

Definition raise_error (error : option pyexn) : W L unit := fun _ s =>
  match error with Some e => (s, Raised e) | None => (s, Returned tt) end.

(** [type(error).__name__] *)
Definition class_name (c : exn_class) : string :=
  match c with
  | ValueError => "ValueError" | TypeError => "TypeError" | RuntimeError => "RuntimeError" | KeyError => "KeyError"
  | AttributeError => "AttributeError" | PermissionError => "PermissionError" | FileExistsError => "FileExistsError"
  | FileNotFoundError => "FileNotFoundError" | OSError => "OSError" | IndexError => "IndexError"
  | KeyboardInterrupt => "KeyboardInterrupt" | SafetensorError => "SafetensorError"
  | NotImplementedError => "NotImplementedError" | AssertionError => "AssertionError" | OverflowError => "OverflowError"
  | KTArtifactError => "KTArtifactError" | KTAMXConfigError => "KTAMXConfigError"
  | KTAMXNotAvailableError => "KTAMXNotAvailableError" | KTAMXModelNotSupportedError => "KTAMXModelNotSupportedError"
  | SystemExit => "SystemExit" | ZeroDivisionError => "ZeroDivisionError"
  end.

Definition error_text (e : pyexn) : string := class_name (exn_cls e) +:+ ": " +:+ exn_msg e.
Definition remote_error (context text : string) : pyexn :=
  Raise RuntimeError (context +:+ ": rank 0 failed: " +:+ text).

(** What a rank raises for a payload that is not [None]. *)
Definition report (error : option pyexn) (context : string) (payload : option string) : W L unit := fun w s =>
  match payload, error with
  | None, _ => (s, Returned tt)
  | Some text, Some e => (s, Raised (if wh_rank w =? 0 then e else remote_error context text))
  | Some text, None => (s, Raised (remote_error context text))
  end.

Definition exchange (error : option pyexn) (context : string) : W L unit :=
  payload ← broadcast (error_text <$> error); report error context payload.

Definition sync_rank0_wrap_error (error : option pyexn) (context : string) : W L unit := fun w s =>
  if (wh_world w <=? 1) || negb (wh_group w) then raise_error error w s else exchange error context w s.

(** A stage of rank 0 whose error every rank learns. *)
Definition stage_as (catches : exn_class -> bool) (convert : pyexn -> pyexn) (context : string) (m : M L unit) : W L unit :=
  error ← try_rank0 catches convert m; sync_rank0_wrap_error error context.
Definition stage (context : string) (m : M L unit) : W L unit := stage_as (fun _ => true) (fun e => e) context m.

(** [for x in l: body(x)] *)
Fixpoint for_W {A} (l : list A) (body : A -> W L unit) : W L unit :=
  match l with [] => mret tt | x :: l' => _ ← body x; for_W l' body end.
End ranks.

(** ** The run *)

(** The functions that move weights: reading a layer's weights from a source,
    building the engine's object for a layer, and loading it. *)
Inductive loader :=
  | FromFull (directory : string) | FromKtPath | FromBlockFp8 | FromRawInt4 | FromFiles | FromModule.
Inductive load_kind := LoadBlockFp8 | LoadRawInt4 | LoadKt | LoadTensors.

Class Kernels := {
  kn_state : Type;
  kn_resolve : loader -> Z -> M kn_state unit;
  kn_construct : settings -> Z -> Z -> Z -> M kn_state unit;
  kn_load : load_kind -> Z -> M kn_state unit;
  kn_init_buffers : Z -> M kn_state unit;
}.

(** [KTMoELayerWrapper] of a layer, and whether it holds an engine object. *)
Record layer_wrapper := LayerWrapper {
  lw_layer : Z;
  lw_fused : bool;
  lw_use_fused_lora : bool;
  lw_kernel : bool;
}.

(** What a rank has: its process, the ephemeral store, the engine, and the
    layers it has wrapped. *)
Record local `{Kernels} := Local {
  lo_proc : Eph.proc;
  lo_store : option Eph.store;
  lo_engine : kn_state;
  lo_wrapped : list layer_wrapper;
}.

(** What all ranks see alike: the configuration, the model, its layers, and
    the files that hold weights when wrapping starts. *)
Record inputs := Inputs {
  in_available : bool;
  in_config : ktconfig;
  in_model : cfg;
  in_layers : res (list pyobj);
  in_tree : fs;
  in_resolve : string -> resolution;
  in_is_file : string -> bool;
  in_abspath : string -> string;
}.

Section run.
Context `{Platform} `{Kernels} (cfg_repr : cfg -> string) (ext : extension) (inp : inputs).

Definition on_kernel (m : M kn_state unit) : M local unit := fun l =>
  let '(e, r) := m (lo_engine l) in (Local _ (lo_proc l) (lo_store l) e (lo_wrapped l), r).

(** A method of the store, when there is one. *)
Definition on_store (m : M (Eph.proc * Eph.store) unit) : M local unit := fun l =>
  match lo_store l with
  | Some st => let '((p, st), r) := m (lo_proc l, st) in (Local _ p (Some st) (lo_engine l) (lo_wrapped l), r)
  | None => (l, Ok tt)
  end.

(** [try: store.cleanup()  except BaseException: logger.exception(...)] *)
Definition cleanup_quietly : M local unit := catchM (on_store Eph.cleanup) (fun _ => true) (fun _ => mret tt).

Definition open_ephemeral (weight_path : option string) (layer_indices : list Z) (d : dims) : M local unit := fun l =>
  match weight_path with
  | None => (l, Err (Raise TypeError "expected str, bytes or os.PathLike object, not NoneType"))
  | Some root =>
      match Eph.open_store root layer_indices d (lo_proc l) with
      | Ok (p, st) => (Local _ p (Some st) (lo_engine l) (lo_wrapped l), Ok tt)
      | Err e => (l, Err e)
      end
  end.

Definition validate_manifest (weight_path : option string) (layer_indices : list Z) (d : dims) : M local unit := fun l =>
  let w := Eph.p_world (lo_proc l) in
  match weight_path with
  | None => (l, Err (Raise TypeError "expected str, bytes or os.PathLike object, not NoneType"))
  | Some root =>
      match validate_persistent_int8_weights (w_can_read w) (w_fs w) root layer_indices
              (d_numa d) (d_experts d) (d_hidden d) (d_intermediate d) None with
      | Ok _ => (l, Ok tt)
      | Err e => (l, Err e)
      end
  end.

Definition is_runtime_error (c : exn_class) : bool := bool_decide (c = RuntimeError).
Definition unavailable (e : pyexn) : pyexn := Raise KTAMXNotAvailableError (exn_msg e).

(** The kernel of the format is selected on rank 0. *)
Definition select_kernel (context : string) (selected : res runtime) : W local unit :=
  stage_as is_runtime_error unavailable context (lift (_ ← selected; mret tt)).

Definition select_kernels (c : ktconfig) : W local unit :=
  _ ← (if format_is c "int8" then select_kernel "selecting the INT8 SFT kernel" (get_int8_runtime ext) else mret tt);
  _ ← (if format_is c "fp8" then select_kernel "selecting the native FP8 SFT kernel" (get_fp8_runtime ext) else mret tt);
  if format_is c "rawint4"
  then
    _ ← everywhere (catch (_ ← get_rawint4_checkpoint_contract cfg_repr (in_model inp); mret tt)
                      (fun cls => bool_decide (cls = ValueError))
                      (fun e => Err (Raise KTAMXConfigError (exn_msg e))));
    select_kernel "selecting the RAWINT4 SFT kernel" (get_rawint4_runtime ext)
  else mret tt.

(** *** One layer *)

(** The function that reads a layer's weights, and the method that loads them. *)
Definition loader_of (src : weight_source) (c : ktconfig) : loader :=
  match src_full src with
  | Some directory => FromFull directory
  | None =>
      if src_kt_weight_path src then FromKtPath
      else if format_is c "fp8" then FromBlockFp8
      else if format_is c "rawint4" then FromRawInt4
      else if src_checkpoint_files src then FromFiles
      else FromModule
  end.

Definition load_kind_of (src : weight_source) (c : ktconfig) : load_kind :=
  if format_is c "fp8" then LoadBlockFp8
  else if format_is c "rawint4" then LoadRawInt4
  else if src_kt_weight_path src then LoadKt
  else LoadTensors.

(** Prepared files of an ephemeral store are used up once they are loaded. *)
Definition load_layer (sets : settings) (kind : load_kind) (layer_idx : Z) : M local unit :=
  _ ← on_kernel (kn_load kind layer_idx);
  _ ← (match kind with LoadKt => on_store (Eph.consume_layer layer_idx) | _ => mret tt end);
  if ws_full_weight_grad sets then on_kernel (kn_init_buffers layer_idx) else mret tt.

Definition add_wrapper (layer_idx : Z) (fused use_fused_lora : bool) : W local unit :=
  update (fun w l => Local _ (lo_proc l) (lo_store l) (lo_engine l)
    (lo_wrapped l ++ [LayerWrapper layer_idx fused use_fused_lora (wh_rank w =? 0)])).

(** [int(chunked_prefill_size)] *)
Definition chunked_prefill_size (c : ktconfig) : res Z :=
  match kt_model_max_length c with
  | Some n => mret n
  | None =>
      match getattr_or (in_model inp) "max_position_embeddings" (CVal (PInt 4096)) with
      | CVal v => py_int v
      | _ => Err (Raise TypeError "int() argument")
      end
  end.

Definition layer_context (doing : string) (layer_idx : Z) : string := doing +:+ " " +:+ str_of_Z layer_idx.

Definition wrap_layer (sets : settings) (src : weight_source) (c : ktconfig) (moe_config : MOEArchConfig)
    (layer_idx : Z) (layer : pyobj) : W local unit :=
  match get_moe_module layer moe_config with
  | None => mret tt
  | Some moe_module =>
      let fused := detect_fused_experts (attr_of moe_module (ma_experts_attr moe_config)) in
      _ ← everywhere (raise_if ((format_is c "int8" || format_is c "fp8" || format_is c "rawint4")
              && negb fused && negb (ws_force_fused sets)) KTAMXConfigError
            "LoRA with non-fused runtime experts requires kt_force_fused_expert_lora=true");
      _ ← stage (layer_context "resolving expert weights for layer" layer_idx)
            (on_kernel (kn_resolve (loader_of src c) layer_idx));
      chunk ← everywhere (chunked_prefill_size c);
      world_size ← world_size;
      _ ← stage (layer_context "constructing KT layer" layer_idx)
            (on_exception (on_kernel (kn_construct sets layer_idx (threadpool_count_of c) (chunk * world_size)))
               cleanup_quietly);
      _ ← stage (layer_context "loading KT layer" layer_idx)
            (on_exception (load_layer sets (load_kind_of src c) layer_idx) cleanup_quietly);
      add_wrapper layer_idx fused (fused || ws_force_fused sets)
  end.

(** *** All layers *)

(** [enumerate(layers)] *)
Definition enumerate (layers : list pyobj) : list (Z * pyobj) := zip (seqZ 0 (Z.of_nat (length layers))) layers.

Definition expert_layer_indices (layers : list pyobj) (moe_config : MOEArchConfig) : list Z :=
  fst <$> List.filter (fun il => match get_moe_module il.2 moe_config with Some _ => true | None => false end)
            (enumerate layers).

(** The ephemeral store is opened, or the prepared files are validated. *)
Definition open_weights (c : ktconfig) (layer_indices : list Z) (d : dims) : W local unit :=
  if bool_decide (kt_weight_lifecycle c = Some "ephemeral")
  then stage "opening ephemeral INT8 weights" (open_ephemeral (kt_weight_path c) layer_indices d)
  else if format_is c "int8"
  then stage "validating persistent INT8 weights" (validate_manifest (kt_weight_path c) layer_indices d)
  else mret tt.

Definition finish_weights (c : ktconfig) : W local unit :=
  if bool_decide (kt_weight_lifecycle c = Some "ephemeral")
  then stage "finishing ephemeral INT8 weights" (on_exception (on_store Eph.finish) cleanup_quietly)
  else mret tt.

Definition hidden_size_of (model : cfg) : res Z := int_attr (getattr_or model "text_config" model) "hidden_size".
Definition name_or_path (model : cfg) : option string :=
  match getattr_or model "name_or_path" cnone with CVal (PStr name) => Some name | _ => None end.

Definition wrap_moe_layers_with_kt_wrapper : W local unit :=
  _ ← everywhere (raise_if (negb (in_available inp)) KTAMXNotAvailableError "kt_kernel not found");
  moe_config ← everywhere (get_moe_arch_config cfg_repr (in_model inp));
  hidden_size ← everywhere (hidden_size_of (in_model inp));
  sets ← everywhere (wrap_settings (in_config inp));
  _ ← select_kernels (in_config inp);
  _ ← everywhere (check_slices cfg_repr (in_config inp) (in_model inp) hidden_size (ma_intermediate_size moe_config));
  '(c, src) ← everywhere (select_weight_source (in_tree inp) (in_resolve inp) (in_is_file inp) (in_abspath inp)
                            (name_or_path (in_model inp)) (in_config inp));
  layers ← everywhere (in_layers inp);
  let d := Dims (threadpool_count_of c) (ma_expert_num moe_config) hidden_size (ma_intermediate_size moe_config) in
  _ ← open_weights c (expert_layer_indices layers moe_config) d;
  _ ← for_W (enumerate layers) (fun il => wrap_layer sets src c moe_config il.1 il.2);
  finish_weights c.

(** [wrappers[i].wrapper._next_backward_wrapper = wrappers[i - 1].wrapper]: for
    each engine object the layer whose weights it prepares next. *)
Fixpoint backward_links (previous : option layer_wrapper) (wrappers : list layer_wrapper) : list (Z * option Z) :=
  match wrappers with
  | [] => []
  | w :: wrappers' =>
      (if lw_kernel w
       then [(lw_layer w, match previous with
                          | Some p => if lw_kernel p then Some (lw_layer p) else None
                          | None => None
                          end)]
       else [])
      ++ backward_links (Some w) wrappers'
  end.
End run.
