(* ===== verification/WrappingSpec.v ===== *)
(** * The ranks wrap together

    Theorems on [Wrapping]: with an initialised process group no rank waits for
    a message that never comes, and the ranks end in the same way; without one
    they need not. *)
From S2P Require Import Prelude PyStr PyVal FS WeightManifest Ephemeral Backend Base KTConfig WrapSettings WeightSource Arch Wrapping.

Local Open Scope string_scope.
Local Open Scope list_scope.
Local Open Scope Z_scope.

(** ** Two ranks side by side *)

(** How another rank ends when rank 0 ends with [o]. *)
Definition follows {A} (o0 o1 : outcome A) : Prop :=
  match o0 with
  | Returned a => o1 = Returned a
  | Raised e => o1 = Raised e ∨ ∃ context, o1 = Raised (remote_error context (error_text e))
  | Waiting => False
  end.

Section coupled.
Context {L : Type} (agree untouched : L → L → Prop) `{!PreOrder untouched}.
Context (n r : Z) (Hn : 1 < n) (Hr : r ≠ 0).

(** Rank 0 broadcasts what rank [r] reads, in this order and no more; rank [r]
    ends in a state and an outcome that fit rank 0's. *)
Definition coupled {A} (m : W L A) : Prop := ∀ l0 l1 sent inbox0, agree l0 l1 →
  ∃ l0' new inbox' o0 l1' o1,
    m (Who 0 n true) (Rank l0 sent inbox0) = (Rank l0' (sent ++ new) inbox', o0) ∧
    (∀ sent1 rest, m (Who r n true) (Rank l1 sent1 (new ++ rest)) = (Rank l1' sent1 rest, o1)) ∧
    untouched l1 l1' ∧ agree l0' l1' ∧ follows o0 o1.

Lemma coupled_everywhere {A} (x : res A) : coupled (everywhere x).
Proof.
  intros l0 l1 sent inbox0 Ha. exists l0, [], inbox0, (outcome_of x), l1, (outcome_of x). rewrite app_nil_r.
  split_and!; try done. destruct x; simpl; [done|by left].
Qed.

Lemma coupled_ret {A} (a : A) : coupled (mret a).
Proof. apply (coupled_everywhere (Ok a)). Qed.

Lemma coupled_world_size : coupled world_size.
Proof. intros l0 l1 sent inbox0 Ha. exists l0, [], inbox0, (Returned n), l1, (Returned n). by rewrite app_nil_r. Qed.

Lemma coupled_bind {A B} (m : W L A) (f : A → W L B) : coupled m → (∀ a, coupled (f a)) → coupled (m ≫= f).
Proof.
  intros Hm Hf l0 l1 sent inbox0 Ha.
  destruct (Hm l0 l1 sent inbox0 Ha) as (l0' & new & inbox' & o0 & l1' & o1 & E0 & E1 & Hu & Ha' & Ho).
  unfold mbind, W_bind. rewrite E0. destruct o0 as [a|e|]; simpl in Ho; [|..|done].
  - subst o1. destruct (Hf a l0' l1' (sent ++ new) inbox' Ha')
      as (l0'' & new' & inbox'' & o0 & l1'' & o1 & F0 & F1 & Hu' & Ha'' & Ho).
    exists l0'', (new ++ new'), inbox'', o0, l1'', o1. rewrite F0, <-app_assoc. split_and!; try done; [|by etrans].
    intros sent1 rest. by rewrite <-app_assoc, E1, F1.
  - exists l0', new, inbox', (Raised e), l1'.
    destruct Ho as [->|[context ->]]; (eexists; split_and!; [done|intros sent1 rest; by rewrite E1|done|done|]);
      [by left|right; by exists context].
Qed.

Lemma coupled_for {A} (l : list A) (body : A → W L unit) : (∀ x, coupled (body x)) → coupled (for_W l body).
Proof. intros Hb. induction l as [|x l IH]; [apply coupled_ret|]. apply coupled_bind; [done|]. by intros _. Qed.

(** What rank 0 does alone does not change what the ranks agree on. *)
Definition private (m : M L unit) : Prop := ∀ l0 l1, agree l0 l1 → agree (m l0).1 l1.

Lemma coupled_stage_as catches convert context m : private m →
  (∀ l e, (m l).2 = Err e → catches (exn_cls e) = true) →
  coupled (stage_as catches convert context m).
Proof.
  intros Hm Hc l0 l1 sent inbox0 Ha. specialize (Hm l0 l1 Ha). specialize (Hc l0).
  unfold stage_as, mbind, W_bind, try_rank0, sync_rank0_wrap_error. simpl.
  assert (n <=? 1 = false) as -> by lia. pose proof (proj2 (Z.eqb_neq r 0) Hr) as Hr0. simpl.
  destruct (m l0) as [l0' [[]|e]]; simpl in *.
  - eexists l0', [None], _, (Returned tt), l1, (Returned tt). split_and!; try done.
    intros sent1 rest. unfold exchange, mbind, W_bind, broadcast. simpl. by rewrite Hr0.
  - rewrite Hc by done. simpl.
    eexists l0', [Some (error_text (convert e))], _, (Raised (convert e)), l1, (Raised (remote_error context (error_text (convert e)))).
    split_and!; try done; [|by right; exists context].
    intros sent1 rest. unfold exchange, mbind, W_bind, broadcast. simpl. by rewrite Hr0.
Qed.

Lemma coupled_stage context m : private m → coupled (stage context m).
Proof. intros Hm. by apply coupled_stage_as. Qed.

Lemma coupled_update f : (∀ l0 l1, agree l0 l1 → agree (f (Who 0 n true) l0) (f (Who r n true) l1)) →
  (∀ l, untouched l (f (Who r n true) l)) → coupled (update f).
Proof.
  intros Hf Hu l0 l1 sent inbox0 Ha.
  exists (f (Who 0 n true) l0), [], inbox0, (Returned tt), (f (Who r n true) l1), (Returned tt). rewrite app_nil_r.
  split_and!; [done|done|apply Hu|by apply Hf|done].
Qed.
End coupled.

(** ** The run *)

Section run.
Context `{Platform} `{Kernels} (cfg_repr : cfg → string) (inp : inputs).

(** What two ranks have in common: the layers they have wrapped. *)
Definition shape (w : layer_wrapper) : Z * bool * bool := (lw_layer w, lw_fused w, lw_use_fused_lora w).
Definition same_wrapped (l0 l1 : local) : Prop := shape <$> lo_wrapped l0 = shape <$> lo_wrapped l1.
(** What a rank other than 0 leaves alone. *)
Definition hands_off (l l' : local) : Prop :=
  lo_proc l' = lo_proc l ∧ lo_store l' = lo_store l ∧ lo_engine l' = lo_engine l.

#[local] Instance hands_off_preorder : PreOrder hands_off.
Proof. split; [by intros l|]. intros a b c (? & ? & ?) (? & ? & ?). split_and!; congruence. Qed.

(** [m] wraps no layer. *)
Definition wraps_none (m : M local unit) : Prop := ∀ l, lo_wrapped (m l).1 = lo_wrapped l.

Lemma wraps_none_private m : wraps_none m → private same_wrapped m.
Proof. intros Hm l0 l1 Ha. unfold same_wrapped. by rewrite Hm. Qed.

Lemma wraps_none_ret : wraps_none (mret tt).
Proof. done. Qed.
Lemma wraps_none_lift (x : res unit) : wraps_none (lift x).
Proof. done. Qed.
Lemma wraps_none_bind (m : M local unit) f : wraps_none m → (∀ a, wraps_none (f a)) → wraps_none (m ≫= f).
Proof.
  intros Hm Hf l. unfold mbind, M_bind. specialize (Hm l). destruct (m l) as [l' [a|e]]; [|done]. by rewrite Hf.
Qed.
Lemma wraps_none_on_kernel m : wraps_none (on_kernel m).
Proof. intros l. unfold on_kernel. by destruct (m _). Qed.
Lemma wraps_none_on_store m : wraps_none (on_store m).
Proof. intros l. unfold on_store. destruct (lo_store l); [|done]. by destruct (m _) as [[p st] x]. Qed.
Lemma wraps_none_cleanup : wraps_none cleanup_quietly.
Proof.
  intros l. unfold cleanup_quietly, catchM. pose proof (wraps_none_on_store Eph.cleanup l) as Hc.
  by destruct (on_store _ l) as [l' [|]].
Qed.
Lemma wraps_none_on_exception m h : wraps_none m → wraps_none h → wraps_none (on_exception m h).
Proof.
  intros Hm Hh l. unfold on_exception. specialize (Hm l). destruct (m l) as [l' [a|e]]; [done|].
  specialize (Hh l'). destruct (h l') as [l'' [|]]; simpl in *; congruence.
Qed.
Lemma wraps_none_load sets kind i : wraps_none (load_layer sets kind i).
Proof.
  apply wraps_none_bind; [apply wraps_none_on_kernel|intros _]. apply wraps_none_bind.
  - destruct kind; try apply wraps_none_ret. apply wraps_none_on_store.
  - intros _. destruct (ws_full_weight_grad sets); [apply wraps_none_on_kernel|apply wraps_none_ret].
Qed.
Lemma wraps_none_open path idx d : wraps_none (open_ephemeral path idx d).
Proof. intros l. unfold open_ephemeral. destruct path; [|done]. by destruct (Eph.open_store _ _ _ _) as [[p st]|]. Qed.
Lemma wraps_none_validate path idx d : wraps_none (validate_manifest path idx d).
Proof. intros l. unfold validate_manifest. destruct path; [|done]. by destruct (validate_persistent_int8_weights _ _ _ _ _ _ _ _ _). Qed.

Context (n r : Z) (Hn : 1 < n) (Hr : r ≠ 0) (ext : extension).

Abbreviation together := (coupled same_wrapped hands_off n r).

Lemma together_stage context m : wraps_none m → together (stage context m).
Proof. intros Hm. apply coupled_stage; try apply _; try done. by apply wraps_none_private. Qed.

Lemma runtime_errors_only : raises_only RuntimeError (get_int8_runtime ext) ∧
  raises_only RuntimeError (get_fp8_runtime ext) ∧ raises_only RuntimeError (get_rawint4_runtime ext).
Proof. unfold get_int8_runtime, get_fp8_runtime, get_rawint4_runtime. split_and!; cbv zeta; raises. Qed.

Lemma together_select_kernel context x : raises_only RuntimeError x → together (select_kernel context x).
Proof.
  intros Hx. apply coupled_stage_as; try apply _; try done; [apply wraps_none_private, wraps_none_lift|].
  intros l e He. apply bool_decide_eq_true. apply Hx. unfold lift in He. simpl in He. destruct x; naive_solver.
Qed.

Lemma together_if (b : bool) (m1 m2 : W local unit) : together m1 → together m2 → together (if b then m1 else m2).
Proof. by destruct b. Qed.

Lemma together_select_kernels c : together (select_kernels cfg_repr ext inp c).
Proof.
  destruct runtime_errors_only as (H8 & Hf & H4). unfold select_kernels.
  apply (coupled_bind _ _); [apply together_if; [by apply together_select_kernel|apply coupled_ret; apply _]|intros _].
  apply (coupled_bind _ _); [apply together_if; [by apply together_select_kernel|apply coupled_ret; apply _]|intros _].
  apply together_if; [|apply coupled_ret; apply _].
  apply (coupled_bind _ _); [apply coupled_everywhere; apply _|intros _; by apply together_select_kernel].
Qed.

Lemma together_wrap_layer sets src c a i layer : together (wrap_layer inp sets src c a i layer).
Proof.
  unfold wrap_layer. destruct (get_moe_module layer a) as [moe|]; [|apply coupled_ret; apply _].
  apply (coupled_bind _ _); [apply coupled_everywhere; apply _|intros _].
  apply (coupled_bind _ _); [apply together_stage, wraps_none_on_kernel|intros _].
  apply (coupled_bind _ _); [apply coupled_everywhere; apply _|intros chunk].
  apply (coupled_bind _ _); [apply coupled_world_size; apply _|intros world].
  apply (coupled_bind _ _).
  { apply together_stage, wraps_none_on_exception; [apply wraps_none_on_kernel|apply wraps_none_cleanup]. }
  intros _. apply (coupled_bind _ _).
  { apply together_stage, wraps_none_on_exception; [apply wraps_none_load|apply wraps_none_cleanup]. }
  intros _. apply coupled_update; [|done]. intros l0 l1 Ha. unfold same_wrapped in *. simpl.
  by rewrite !fmap_app, Ha.
Qed.

Lemma together_wrap : together (wrap_moe_layers_with_kt_wrapper cfg_repr ext inp).
Proof.
  unfold wrap_moe_layers_with_kt_wrapper.
  apply (coupled_bind _ _); [apply coupled_everywhere; apply _|intros _].
  apply (coupled_bind _ _); [apply coupled_everywhere; apply _|intros a].
  apply (coupled_bind _ _); [apply coupled_everywhere; apply _|intros hidden].
  apply (coupled_bind _ _); [apply coupled_everywhere; apply _|intros sets].
  apply (coupled_bind _ _); [apply together_select_kernels|intros _].
  apply (coupled_bind _ _); [apply coupled_everywhere; apply _|intros _].
  apply (coupled_bind _ _); [apply coupled_everywhere; apply _|intros [c src]].
  apply (coupled_bind _ _); [apply coupled_everywhere; apply _|intros layers]. cbv zeta.
  apply (coupled_bind _ _).
  { unfold open_weights. repeat apply together_if; [apply together_stage, wraps_none_open
      |apply together_stage, wraps_none_validate|apply coupled_ret; apply _]. }
  intros _. apply (coupled_bind _ _).
  { apply coupled_for; [apply _|]. intros [i layer]. apply together_wrap_layer. }
  intros _. unfold finish_weights. apply together_if; [|apply coupled_ret; apply _].
  apply together_stage, wraps_none_on_exception; [apply wraps_none_on_store|apply wraps_none_cleanup].
Qed.
End run.

Section theorems.
Context `{Platform} `{Kernels} (cfg_repr : cfg → string) (ext : extension) (inp : inputs).

(** C9. With an initialised process group of two or more ranks, the ranks wrap
    together: rank 0 broadcasts exactly the messages that another rank reads, so
    that no rank is left waiting; if rank 0 returns so does the other, with the
    same layers wrapped in the same way, and if rank 0 raises the other raises
    that exception or a [RuntimeError] that names the stage and quotes it.  The
    other rank never touches its process, its store or an engine. *)
Theorem ranks_wrap_together (n r : Z) (l0 l1 : local) :
  1 < n → r ≠ 0 → lo_wrapped l0 = lo_wrapped l1 →
  let run0 := wrap_moe_layers_with_kt_wrapper cfg_repr ext inp (Who 0 n true) (Rank l0 [] []) in
  let run1 := wrap_moe_layers_with_kt_wrapper cfg_repr ext inp (Who r n true) (Rank l1 [] (rk_sent run0.1)) in
  run0.2 ≠ Waiting ∧ follows run0.2 run1.2 ∧ rk_inbox run1.1 = [] ∧ rk_sent run1.1 = [] ∧
  hands_off l1 (rk_local run1.1) ∧ same_wrapped (rk_local run0.1) (rk_local run1.1).
Proof.
  intros Hn Hr Hw run0 run1. subst run0 run1.
  destruct (together_wrap cfg_repr inp n r Hn Hr ext l0 l1 [] [])
    as (l0' & new & inbox' & o0 & l1' & o1 & E0 & E1 & Hu & Ha & Ho); [unfold same_wrapped; by rewrite Hw|].
  rewrite E0. simpl. specialize (E1 [] []). rewrite app_nil_r in E1. rewrite E1. simpl.
  split_and!; try done; [|apply Hu..]. by destruct o0.
Qed.

(** Before the process group is initialised there is nothing to broadcast over:
    a stage that fails on rank 0 raises there, and every other rank goes on. *)
Theorem ungrouped_ranks_diverge (n r : Z) (context : string) (m : M local unit) (l0 l0' l1 : local) (e : pyexn) :
  r ≠ 0 → m l0 = (l0', Err e) →
  stage context m (Who 0 n false) (Rank l0 [] []) = (Rank l0' [] [], Raised e) ∧
  stage context m (Who r n false) (Rank l1 [] []) = (Rank l1 [] [], Returned tt).
Proof.
  intros Hr Hm. pose proof (proj2 (Z.eqb_neq r 0) Hr) as Hr0.
  unfold stage, stage_as, mbind, W_bind, try_rank0, sync_rank0_wrap_error. simpl. rewrite Hm, Hr0, orb_true_r. done.
Qed.
End theorems.

Module WrapRunExample.
#[local] Instance plain : Platform := {|
  sha256 s := s; json_loads _ := None; json_dumps _ := ""; py_repr _ := "?";
|}.

(** An engine that accepts everything. *)
#[local] Instance willing : Kernels := {|
  kn_state := list Z;
  kn_resolve _ _ := mret tt;
  kn_construct _ _ _ _ := mret tt;
  kn_load _ i := modify (fun loaded => loaded ++ [i]);
  kn_init_buffers _ := mret tt;
|}.

(** Two layers: a dense one, and one with fused experts; BF16 LoRA from the
    model's own modules. *)
Definition dense : pyobj := OModule [("mlp", OModule [])].
Definition sparse : pyobj :=
  OModule [("mlp", OModule [("experts", OModule [("gate_up_proj", OTensor 3); ("down_proj", OTensor 3)])])].
Definition model_config : cfg :=
  CObj [("architectures", CVal (PList [PStr "Qwen3MoeForCausalLM"])); ("num_hidden_layers", CVal (PInt 2));
        ("num_experts", CVal (PInt 3)); ("moe_intermediate_size", CVal (PInt 8)); ("hidden_size", CVal (PInt 4));
        ("num_experts_per_tok", CVal (PInt 2))].
Definition bf16 : ktconfig :=
  KTCfg (Some "AMXBF16") None None None None None (Some "bf16") (Some "persistent") None None None None None None None None
    (Some (APolicy (Policy "recompute" "recompute"))) (Some 8) None None (Some "lora") None None None None None None [].
Definition wrapping (layers : list pyobj) : inputs :=
  Inputs true bf16 model_config (Ok layers) ∅ (fun _ => none_found) (fun _ => false) (fun p => p).

Definition idle : local :=
  Local _ (Eph.Proc (World ∅ [] 0 1 0 (fun _ => true)) (fun _ => Eph.SigDfl) false []) None [] [].

Abbreviation wrap := (wrap_moe_layers_with_kt_wrapper (fun _ => "") (Extension [] None) (wrapping [dense; sparse; sparse])).

Definition first : rank_state local * outcome unit := wrap (Who 0 2 true) (Rank idle [] []).
Definition second : rank_state local * outcome unit := wrap (Who 1 2 true) (Rank idle [] (rk_sent first.1)).

Lemma ranks_wrap_together_witness :
  first.2 = Returned tt ∧ lo_engine (rk_local first.1) = [1; 2] ∧ rk_sent first.1 = [None; None; None; None; None; None] ∧
  backward_links None (lo_wrapped (rk_local first.1)) = [(1, None); (2, Some 1)] ∧
  follows first.2 second.2 ∧ rk_inbox second.1 = [] ∧ lo_engine (rk_local second.1) = [].
Proof.
  assert (1 < 2) as Hn by lia. assert (1 ≠ 0) as Hr by lia.
  pose proof (ranks_wrap_together (fun _ => "") (Extension [] None) (wrapping [dense; sparse; sparse]) 2 1 idle idle Hn Hr eq_refl)
    as (_ & Hf & Hi & _ & (_ & _ & He) & _).
  do 4 (split; [vm_compute; reflexivity|]). split; [exact Hf|]. split; [exact Hi|exact He].
Defined.
End WrapRunExample.
