(* ===== verification/ModelLoad.v ===== *)
(** * Loading a model

    Models [load_kt_model] of [kt-kernel/python/sft/wrapper.py] with the plugin
    that it builds ([_build_kt_plugin_from_args]): it settles whether
    transformers reads the experts, keeps the configuration in place while
    transformers loads the model, moves what is no expert, and wraps.

    A plugin holds a [KTConfig], which is then changed in place, or a mapping, of
    which a new [KTConfig] is made each time.  Reading files by name
    ([_resolve_checkpoint_files]), loading through transformers, moving and
    wrapping are operations on a world; wrapping itself is in [Wrapping]. *)
From S2P Require Import Prelude PyStr PyVal FS Backend KTConfig Checkpoint WrapSettings Arch WeightSource.

Local Open Scope string_scope.
Local Open Scope list_scope.
Local Open Scope Z_scope.

(** [cfg.kt_skip_expert_loading = b] *)
Definition set_skip (b : bool) (c : ktconfig) : ktconfig :=
  let '(KTCfg a1 a2 a3 a4 a5 a6 a7 a8 a9 a10 _ a12 a13 a14 a15 a16 a17 a18 a19 a20 a21 a22 a23 a24 a25 a26 a27 w) := c in
  KTCfg a1 a2 a3 a4 a5 a6 a7 a8 a9 a10 (Some b) a12 a13 a14 a15 a16 a17 a18 a19 a20 a21 a22 a23 a24 a25 a26 a27 w.

(** [cfg.kt_expert_checkpoint_path = p] *)
Definition set_expert_checkpoint (p : string) (c : ktconfig) : ktconfig :=
  let '(KTCfg a1 a2 a3 a4 a5 a6 a7 a8 _ a10 a11 a12 a13 a14 a15 a16 a17 a18 a19 a20 a21 a22 a23 a24 a25 a26 a27 w) := c in
  KTCfg a1 a2 a3 a4 a5 a6 a7 a8 (Some p) a10 a11 a12 a13 a14 a15 a16 a17 a18 a19 a20 a21 a22 a23 a24 a25 a26 a27 w.

(** The arguments that [_build_kt_plugin_from_args] gives to [KTConfig]: [c] holds
    those of the model, and what is not given stays [None]. *)
Definition plugin_fields (rank : option Z) (alpha dropout : option spec_float) (mode : option string) (c : ktconfig) : ktconfig :=
  KTCfg (kt_backend c) (kt_num_threads c) (kt_tp_enabled c) (kt_threadpool_count c) (kt_weight_path c) None
    (kt_expert_weight_format c) (kt_weight_lifecycle c) (kt_expert_checkpoint_path c) (kt_num_gpu_experts c)
    None None None (kt_force_fused_expert_lora c) (kt_max_cache_depth c) (kt_model_max_length c) (kt_activation_policy c)
    rank alpha dropout mode None (kt_use_lora_experts c) (kt_lora_expert_num c) (kt_lora_expert_intermediate_size c)
    None None [].

(** ** Whether transformers reads the experts *)

Section settle.
Context `{Platform} (resolve_checkpoint_files : string -> resolution).

Definition native_experts (c : ktconfig) : bool := format_is c "fp8" || format_is c "rawint4".

Definition needs_checkpoint_resolution (c : ktconfig) : bool :=
  (native_experts c && negb (has_files c))
  || negb (is_given (kt_skip_expert_loading c))
  || (flag (kt_skip_expert_loading c) && negb (has_files c) && negb (given (kt_weight_path c))).

(** The outcome of a resolution. *)
Definition adopt_resolution (r : resolution) (c : ktconfig) : ktconfig :=
  match usable_files r with
  | Some files => set_checkpoint files r.2 (set_skip (native_experts c || negb (is_given (kt_weight_path c))) c)
  | None => if native_experts c then c else set_skip false c
  end.

(** [all(str(path).endswith(".safetensors") for path in files)], of a value that
    is true *)
Definition all_safetensors (files : pyval) : res bool :=
  match files with
  | PList l => mret (forallb (fun path => is_safetensors (py_str path)) l)
  | PStr _ => mret false
  | PDict d => mret (forallb (fun e => is_safetensors e.1) d)
  | _ => Err (Raise TypeError "object is not iterable")
  end.

(** [not checkpoint_files or not all(...)] *)
Definition check_native_files (c : ktconfig) : res unit :=
  ok ← (if has_files c then all_safetensors (default PNone (kt_checkpoint_files c)) else mret false);
  raise_if (negb ok) KTAMXConfigError "native SFT requires raw safetensors checkpoint files".

(** [kt_skip_expert_loading] and [kt_checkpoint_files], before they are checked *)
Definition resolve_expert_loading (model_name_or_path : string) (c : ktconfig) : ktconfig :=
  let c := if native_experts c then set_skip true c else c in
  if needs_checkpoint_resolution c then adopt_resolution (resolve_checkpoint_files model_name_or_path) c else c.

Definition check_expert_loading (c : ktconfig) : res ktconfig :=
  if native_experts c then _ ← check_native_files c; mret (set_skip true c) else mret c.

Definition settle_expert_loading (model_name_or_path : string) (c : ktconfig) : res ktconfig :=
  check_expert_loading (resolve_expert_loading model_name_or_path c).
End settle.

(** ** Plugins *)

Inductive kt_plugin := PluginConfig (c : ktconfig) | PluginMapping (mp : mapping).

(** What [load_kt_model] reads of [model_args]: [getattr(model_args, name, None)]
    of the fields that configure KT, and the model's name. *)
Record model_arguments := ModelArguments { ma_fields : ktconfig; ma_model_name_or_path : option string }.
Record finetuning_arguments := FinetuningArguments {
  fa_finetuning_type : option string;
  fa_lora_rank : option Z;
  fa_lora_alpha : option spec_float;
  fa_lora_dropout : option spec_float;
}.

Definition kt_train_mode_map : list (string * string) :=
  [("full", "full"); ("freeze", "hybrid"); ("lora", "lora"); ("galore", "full"); ("badam", "full")].

Record model_attributes := ModelAttributes {
  at_wrappers : list Z;
  at_tp_enabled : bool;
  at_use_lora_experts : bool;
  at_full_weight_grad : bool;
  at_train_mode : option string;
  at_expert_weight_format : string;
}.

(** The environment, the configuration that transformers sees, the plugin, what
    was set on the model, and the world. *)
Record load_state (W : Type) := LoadState {
  ld_environ : environ;
  ld_global : option ktconfig;
  ld_plugin : option kt_plugin;
  ld_model : option (Z * model_attributes);
  ld_world : W;
}.
Arguments LoadState {W}. Arguments ld_environ {W}. Arguments ld_global {W}. Arguments ld_plugin {W}.
Arguments ld_model {W}. Arguments ld_world {W}.

Section load.
Context `{Platform} (float_of_text : string -> option spec_float) (m : machine) (cfg_repr : cfg -> string).
Context (resolve_checkpoint_files : string -> resolution) (is_file : string -> bool) (abspath : string -> string).

Context {W : Type}.
(** [from_pretrained], with the configuration that it sees; the model is an object. *)
Context (from_pretrained : option ktconfig -> string -> M W Z).
Context (move_non_experts_to_gpu : Z -> MOEArchConfig -> string -> M W unit).
Context (existing_wrappers : W -> Z -> list Z).
Context (wrap_moe_layers : ktconfig -> Z -> M W (list Z)).

Abbreviation state := (load_state W).

Definition on_environ {A} (c : M environ A) : M state A := fun s =>
  let '(e, r) := c (ld_environ s) in (LoadState e (ld_global s) (ld_plugin s) (ld_model s) (ld_world s), r).
Definition on_world {A} (c : M W A) : M state A := fun s =>
  let '(w, r) := c (ld_world s) in (LoadState (ld_environ s) (ld_global s) (ld_plugin s) (ld_model s) w, r).
Definition set_global (c : option ktconfig) : M state unit :=
  modify (fun s => LoadState (ld_environ s) c (ld_plugin s) (ld_model s) (ld_world s)).
Definition set_plugin (p : kt_plugin) : M state unit :=
  modify (fun s => LoadState (ld_environ s) (ld_global s) (Some p) (ld_model s) (ld_world s)).
Definition set_model (a : Z * model_attributes) : M state unit :=
  modify (fun s => LoadState (ld_environ s) (ld_global s) (ld_plugin s) (Some a) (ld_world s)).

Definition build_kt_plugin_from_args (model_args : model_arguments) (finetuning_args : option finetuning_arguments) : M environ kt_plugin :=
  let kt_train_mode := finetuning_args ≫= fun f => fa_finetuning_type f ≫= fun t => dict_get t kt_train_mode_map in
  let full := bool_decide (kt_train_mode = Some "full") in
  let configured {A} (field : finetuning_arguments -> option A) : option A := if full then None else finetuning_args ≫= field in
  c ← post_init float_of_text m (plugin_fields (configured fa_lora_rank) (configured fa_lora_alpha) (configured fa_lora_dropout)
                                   kt_train_mode (ma_fields model_args));
  mret (PluginConfig c).

(** [_get_kt_config(kt_plugin)] *)
Definition get_kt_config (p : kt_plugin) : M environ ktconfig :=
  match p with
  | PluginConfig c => mret c
  | PluginMapping mp => c ← lift (validated_mapping mp); post_init float_of_text m c
  end.

(** What the plugin holds once [cfg] was changed: its own object, or a mapping of
    which the path alone is set. *)
Definition write_back (p : kt_plugin) (full : option string) (c : ktconfig) : kt_plugin :=
  match p, full with
  | PluginConfig _, _ => PluginConfig c
  | PluginMapping mp, Some full =>
      PluginMapping (Mapping (if bool_decide (Some "kt_expert_checkpoint_path" ∈ mp_keys mp) then mp_keys mp
                              else mp_keys mp ++ [Some "kt_expert_checkpoint_path"]) (mp_enabled mp)
                       (set_expert_checkpoint full (mp_fields mp)))
  | PluginMapping mp, None => PluginMapping mp
  end.

(** The Full checkpoint in the model's directory, where no other was chosen. *)
Definition detected_full_checkpoint (model_name_or_path : string) (c : ktconfig) : option string :=
  if is_given (kt_expert_checkpoint_path c) then None
  else resolve_full_weight_checkpoint is_file abspath (Some model_name_or_path).

Definition adopt_full_checkpoint (full : option string) (c : ktconfig) : ktconfig :=
  match full with Some p => set_expert_checkpoint p c | None => c end.

(** The configuration that the model is loaded with. *)
Definition settled_config (p : kt_plugin) (model_name_or_path : string) : M state ktconfig :=
  cfg ← on_environ (get_kt_config p);
  let full := detected_full_checkpoint model_name_or_path cfg in
  let cfg := adopt_full_checkpoint full cfg in
  let cfg := resolve_expert_loading resolve_checkpoint_files model_name_or_path cfg in
  _ ← set_plugin (write_back p full cfg);
  cfg ← lift (check_expert_loading cfg);
  _ ← set_plugin (write_back p full cfg);
  mret cfg.

(** [set_kt_config(cfg); try: ... finally: unset_kt_config()] *)
Definition loaded_model (cfg : ktconfig) (model_name_or_path : string) : M state Z :=
  _ ← set_global (Some cfg);
  finallyM (s ← get; on_world (from_pretrained (ld_global s) model_name_or_path)) (set_global None).

Definition attributes_of (wrappers : list Z) (c : ktconfig) : model_attributes :=
  ModelAttributes wrappers (flag (kt_tp_enabled c)) (flag (kt_use_lora_experts c)) (flag (kt_full_weight_grad c)) (kt_train_mode c)
    (match kt_expert_weight_format c with Some "" | None => "bf16" | Some f => f end).

Definition wrapped_layers (model : Z) : M state (list Z) :=
  s ← get;
  match existing_wrappers (ld_world s) model with
  | [] =>
      p ← lift (of_option (ld_plugin s) AttributeError "no plugin");
      cfg ← on_environ (get_kt_config p);
      on_world (wrap_moe_layers cfg model)
  | wrappers => mret wrappers
  end.

(** The plugin that is given, or one that the arguments make. *)
Definition chosen_plugin (plugin : option kt_plugin) (model_args : option model_arguments)
    (finetuning_args : option finetuning_arguments) : M state kt_plugin :=
  match plugin, model_args with
  | Some p, _ => mret p
  | None, None => lift (Err (Raise KTAMXConfigError "Either kt_plugin or model_args must be provided to load_kt_model()."))
  | None, Some model_args => on_environ (build_kt_plugin_from_args model_args finetuning_args)
  end.

(** What happens to the model that transformers loaded. *)
Definition finish_loading (config : cfg) (cfg : ktconfig) (model : Z) : M state Z :=
  moe_config ← lift (get_moe_arch_config cfg_repr config);
  s ← get;
  local_rank ← lift (int_of_text (default "0" (dict_get "LOCAL_RANK" (ld_environ s))));
  _ ← on_world (move_non_experts_to_gpu model moe_config ("cuda:" +:+ str_of_Z local_rank));
  wrappers ← wrapped_layers model;
  _ ← set_model (model, attributes_of wrappers cfg);
  mret model.

Definition load_kt_model (config : cfg) (model_args : option model_arguments) (finetuning_args : option finetuning_arguments)
    (plugin : option kt_plugin) (model_name_or_path : option string) : M state Z :=
  p ← chosen_plugin plugin model_args finetuning_args;
  name ← lift (of_option (match model_name_or_path with Some n => Some n | None => model_args ≫= ma_model_name_or_path end)
                 KTAMXConfigError "model_name_or_path is required to load_kt_model().");
  _ ← lift (get_moe_arch_config cfg_repr config);
  cfg ← settled_config p name;
  model ← loaded_model cfg name;
  finish_loading config cfg model.
End load.
