(* ===== verification/ModelLoadSpec.v ===== *)
(** * Loading a model: properties

    Where loading leaves the experts out, wrapping has exactly one source for
    them and need not look for it; and the configuration is in place while
    transformers loads the model, and at no other time. *)
From S2P Require Import Prelude PyStr PyVal FS Backend KTConfig Checkpoint WrapSettings Arch WeightSource ModelLoad.

Local Open Scope string_scope.
Local Open Scope list_scope.
Local Open Scope Z_scope.

(** ** The source of experts that were left out *)

Section settle.
Context `{Platform} (resolve_checkpoint_files : string → resolution).

Abbreviation settle := (settle_expert_loading resolve_checkpoint_files).

Lemma set_skip_fields b c : kt_skip_expert_loading (set_skip b c) = Some b ∧ has_files (set_skip b c) = has_files c ∧
  kt_weight_path (set_skip b c) = kt_weight_path c ∧ native_experts (set_skip b c) = native_experts c ∧
  kt_checkpoint_files (set_skip b c) = kt_checkpoint_files c.
Proof. by destruct c. Qed.

Lemma set_checkpoint_fields files md c : kt_skip_expert_loading (set_checkpoint files md c) = kt_skip_expert_loading c ∧
  kt_weight_path (set_checkpoint files md c) = kt_weight_path c ∧ native_experts (set_checkpoint files md c) = native_experts c.
Proof. by destruct c. Qed.

Lemma adopt_native r c : native_experts (adopt_resolution r c) = native_experts c.
Proof. unfold adopt_resolution. destruct (usable_files r), (native_experts c) eqn:E; destruct c; exact E. Qed.

(** Files that are there stay there. *)
Lemma take_keeps_files r c : has_files c = true → has_files (take_resolved r c) = true.
Proof.
  intros Hf. unfold take_resolved. destruct (usable_files r) as [files|] eqn:E; [|done].
  destruct (usable_files_some _ _ E) as (f & l & -> & _). apply set_checkpoint_files.
Qed.

Lemma expert_keeps_files full c : has_files c = true → has_files (resolve_expert_checkpoint resolve_checkpoint_files full c) = true.
Proof.
  intros Hf. unfold resolve_expert_checkpoint. destruct full, (kt_expert_checkpoint_path c); try done.
  destruct (String.eqb _ _); [done|by apply take_keeps_files].
Qed.

Lemma native_keeps_files t c c' : has_files c = true → resolve_native_files t resolve_checkpoint_files c = Ok c' → has_files c' = true.
Proof.
  intros Hf. unfold resolve_native_files. rewrite Hf, andb_false_r. by destruct (kt_weight_path c); intros [= <-].
Qed.

(** Experts that are left out are in files, or under a path of prepared weights. *)
Definition provided (c : ktconfig) : Prop := has_files c = true ∨ uses_kt_weight_path c = true.

Lemma adopt_provides r c : flag (kt_skip_expert_loading (adopt_resolution r c)) = true →
  (native_experts c = true → has_files (adopt_resolution r c) = false → False) → provided (adopt_resolution r c).
Proof.
  unfold adopt_resolution, provided. destruct (usable_files r) as [files|] eqn:Ef.
  - intros _ _. destruct (usable_files_some _ _ Ef) as (f & l & -> & _). left. apply set_checkpoint_files.
  - destruct (native_experts c) eqn:En; [|by destruct c]. intros _ Hn. left.
    destruct (has_files c) eqn:Eh; [done|]. by destruct (Hn eq_refl eq_refl).
Qed.

Lemma settled_is_provided name c c' : settle name c = Ok c' → flag (kt_skip_expert_loading c') = true → provided c'.
Proof.
  unfold settle_expert_loading, check_expert_loading. set (c1 := resolve_expert_loading _ name c).
  assert (native_experts c1 = native_experts c) as Hn.
  { unfold c1, resolve_expert_loading. destruct (needs_checkpoint_resolution _); rewrite ?adopt_native; destruct (native_experts c) eqn:E; destruct c; exact E. }
  rewrite Hn. destruct (native_experts c) eqn:En.
  - intros ([] & Hx & [= <-])%bind_ok _. unfold check_native_files in Hx. apply bind_ok in Hx as (ok & Hok & Hr%raise_if_ok).
    left. destruct (set_skip_fields true c1) as (_ & -> & _). revert Hok. destruct (has_files c1); [done|]. intros [= <-]. done.
  - intros [= <-] Hs. unfold c1, resolve_expert_loading in Hs |- *. rewrite En in Hs |- *.
    destruct (needs_checkpoint_resolution c) eqn:Eneed.
    + apply adopt_provides; [done|]. by rewrite En.
    + unfold needs_checkpoint_resolution in Eneed. rewrite Hs, !orb_false_iff in Eneed. destruct Eneed as [_ Ef]. simpl in Ef.
      apply andb_false_iff in Ef as [Ef|Ef]; apply negb_false_iff in Ef; [by left|right]. unfold uses_kt_weight_path.
      unfold native_experts in En. rewrite En. unfold given in Ef. by destruct (kt_weight_path c).
Qed.

(** The source of provided experts does not depend on the model's name. *)
Lemma source_without_name t is_file abspath n1 n2 c : provided c →
  select_weight_source t resolve_checkpoint_files is_file abspath n1 c =
  select_weight_source t resolve_checkpoint_files is_file abspath n2 c.
Proof.
  intros Hp. unfold select_weight_source. destruct (raise_if _ _ _) as [[]|]; [|done].
  change (Ok ?x ≫= ?f) with (f x). set (full := resolve_full_weight_checkpoint _ _ _). cbv beta.
  destruct (resolve_native_files _ _ _) as [c1|] eqn:E1; [|done]. change (Ok ?x ≫= ?f) with (f x). cbv beta.
  destruct (check_source _ _ _); [|done]. change (Ok ?x ≫= ?f) with (f x). cbv beta.
  assert (∀ n, resolve_skipped resolve_checkpoint_files n (has_files c1 && negb (uses_kt_weight_path c) && negb (is_given full)) full
    (uses_kt_weight_path c) c1 = mret (c1, has_files c1 && negb (uses_kt_weight_path c) && negb (is_given full))) as Hr; [|by rewrite !Hr].
  intros n. unfold resolve_skipped. destruct Hp as [Hf| ->]; [|by rewrite !andb_false_r].
  assert (has_files c1 = true) as ->; [|by destruct (is_given full), (uses_kt_weight_path c)].
  by eapply native_keeps_files, E1; apply expert_keeps_files.
Qed.
End settle.


(** ** Loading *)

Section load.
Context `{Platform} (float_of_text : string → option spec_float) (m : machine) (cfg_repr : cfg → string).
Context (resolve_checkpoint_files : string → resolution) (is_file : string → bool) (abspath : string → string).
Context {W : Type} (from_pretrained : option ktconfig → string → M W Z).
Context (move_non_experts_to_gpu : Z → MOEArchConfig → string → M W unit).
Context (existing_wrappers : W → Z → list Z) (wrap_moe_layers : ktconfig → Z → M W (list Z)).

Abbreviation settle := (settle_expert_loading resolve_checkpoint_files).
Abbreviation load := (load_kt_model float_of_text m cfg_repr resolve_checkpoint_files is_file abspath from_pretrained
  move_non_experts_to_gpu existing_wrappers wrap_moe_layers).

(** What transformers sees, and what the plugin holds. *)
Definition fixed (g : option ktconfig) (p : option kt_plugin) (s : load_state W) : Prop := ld_global s = g ∧ ld_plugin s = p.

Lemma keeps_on_world {A} (c : M W A) g p : keeps (fixed g p) (on_world c).
Proof. intros s s' r Hs. unfold on_world. destruct (c _). by intros [= <- _]. Qed.

Lemma keeps_on_environ {A} (c : M environ A) g p : keeps (fixed g p) (on_environ c).
Proof. intros s s' r Hs. unfold on_environ. destruct (c _). by intros [= <- _]. Qed.

Lemma keeps_set_model x g p : keeps (fixed g p) (set_model x : M (load_state W) unit).
Proof. apply keeps_modify. by intros s. Qed.

Lemma keeps_wrapped model g p : keeps (fixed g p) (wrapped_layers float_of_text m existing_wrappers wrap_moe_layers model).
Proof. unfold wrapped_layers. keeps; auto using keeps_on_world, keeps_on_environ. Qed.

(** Loading through transformers sees the configuration, which is gone once it
    is over, however it ends. *)
Lemma loaded_model_run cfg name s s' r : loaded_model from_pretrained cfg name s = (s', r) →
  fixed None (ld_plugin s) s' ∧ from_pretrained (Some cfg) name (ld_world s) = (ld_world s', r).
Proof.
  unfold loaded_model, set_global. rewrite bindM_modify. unfold finallyM, on_world, mbind, M_bind, get. simpl.
  destruct (from_pretrained _ _ _) as [w r1] eqn:E. intros [= <- <-]. by split.
Qed.

(** The settled configuration is the plugin's, where it holds one. *)
Lemma settled_run p name (s s' : load_state W) r : ld_global s = None →
  settled_config float_of_text m resolve_checkpoint_files is_file abspath p name s = (s', r) →
  ld_global s' = None ∧ ∀ cfg, r = Ok cfg → ∃ c, settle name c = Ok cfg ∧ ∀ c0, p = PluginConfig c0 → ld_plugin s' = Some (PluginConfig cfg).
Proof.
  intros Hg. unfold settled_config. intros [(s1 & c0 & E1 & Hx)|(e & E1 & ->)]%bindM_inv.
  - eapply (keeps_on_environ _ None (ld_plugin s)) in E1 as [Hg1 _]; [|done]. unfold set_plugin in Hx.
    rewrite bindM_modify, bindM_lift in Hx. set (c := adopt_full_checkpoint _ c0) in Hx. destruct (check_expert_loading _) as [cfg|e] eqn:Ec.
    + rewrite bindM_modify in Hx. injection Hx as <- <-. split; [done|]. intros ? [= <-]. exists c. split; [exact Ec|]. by intros c1 ->.
    + injection Hx as <- <-. by split.
  - eapply (keeps_on_environ _ None (ld_plugin s)) in E1 as [Hg1 _]; [|done]. by split.
Qed.

(** The rest of loading leaves both alone, and describes the model. *)
Lemma finish_run config cfg model s s' r :
  finish_loading float_of_text m cfg_repr move_non_experts_to_gpu existing_wrappers wrap_moe_layers config cfg model s = (s', r) →
  ld_global s' = ld_global s ∧ ld_plugin s' = ld_plugin s ∧
  ∀ model', r = Ok model' → model' = model ∧ ∃ wrappers, ld_model s' = Some (model, attributes_of wrappers cfg).
Proof.
  intros Hx. assert (fixed (ld_global s) (ld_plugin s) s') as [-> ->].
  { enough (keeps (fixed (ld_global s) (ld_plugin s)) (finish_loading float_of_text m cfg_repr move_non_experts_to_gpu
      existing_wrappers wrap_moe_layers config cfg model)) as Hk by by eapply (Hk s).
    unfold finish_loading. keeps; auto using keeps_on_world, keeps_wrapped, keeps_set_model. }
  split_and!; [done..|]. intros model' ->. unfold finish_loading in Hx. do 5 apply bindM_ok in Hx as (? & ? & _ & Hx).
  apply bindM_ok in Hx as (? & ? & E & Hx). injection E as <-. injection Hx as <- <-. split; [done|]. by eexists.
Qed.

Lemma keeps_chosen plugin model_args finetuning_args g p :
  keeps (fixed g p) (chosen_plugin float_of_text m plugin model_args finetuning_args : M (load_state W) kt_plugin).
Proof. unfold chosen_plugin. keeps. apply keeps_on_environ. Qed.

(** C10. The configuration that loading settles is in place while transformers
    loads the model, and gone afterwards, however loading ends.  Where it leaves
    the experts out, wrapping with it has exactly one source for their weights
    and need not know the model's name.  A plugin that holds a configuration has
    the settled one, and the model is described by it. *)
Theorem loading_settles_the_source config model_args finetuning_args plugin name s s' r :
  ld_global s = None → load config model_args finetuning_args plugin name s = (s', r) →
  ld_global s' = None ∧ ∀ model, r = Ok model → ∃ name' c cfg wrappers w,
    settle name' c = Ok cfg ∧ (from_pretrained (Some cfg) name' w).2 = Ok model ∧
    ld_model s' = Some (model, attributes_of wrappers cfg) ∧
    (∀ c0, plugin = Some (PluginConfig c0) → ld_plugin s' = Some (PluginConfig cfg)) ∧
    (flag (kt_skip_expert_loading cfg) = true → ∀ t is_file1 abspath1 n1 n2,
       select_weight_source t resolve_checkpoint_files is_file1 abspath1 n1 cfg =
       select_weight_source t resolve_checkpoint_files is_file1 abspath1 n2 cfg ∧
       ∀ c' src, select_weight_source t resolve_checkpoint_files is_file1 abspath1 n1 cfg = Ok (c', src) → sources src = 1).
Proof.
  intros Hg Hx. unfold load_kt_model in Hx. apply bindM_inv in Hx as [(s1 & p & E1 & Hx)|(e & E1 & ->)];
    destruct (keeps_chosen _ _ _ None (ld_plugin s) s _ _ (conj Hg eq_refl) E1) as [Hg1 _]; [|by split].
  rewrite bindM_lift in Hx. destruct (of_option _ _ _) as [name'|]; [|injection Hx as <- <-; by split].
  rewrite bindM_lift in Hx. destruct (get_moe_arch_config _ _); [|injection Hx as <- <-; by split].
  apply bindM_inv in Hx as [(s2 & cfg & E2 & Hx)|(e & E2 & ->)];
    destruct (settled_run _ _ _ _ _ Hg1 E2) as [Hg2 Hc]; [|by split].
  destruct (Hc _ eq_refl) as (c & Hset & Hplug).
  apply bindM_inv in Hx as [(s3 & model & E3 & Hx)|(e & E3 & ->)];
    destruct (loaded_model_run _ _ _ _ _ E3) as [[Hg3 Hp3] Hfp]; [|by split].
  destruct (finish_run _ _ _ _ _ _ Hx) as (Hg4 & Hp4 & Hfin). split; [congruence|]. intros model' Hr.
  destruct (Hfin _ Hr) as (-> & wrappers & Hm). exists name', c, cfg, wrappers, (ld_world s2). rewrite Hfp. split_and!; try done.
  - intros c0 ->. injection E1 as <- <-. rewrite Hp4, Hp3. by eapply Hplug.
  - intros Hskip t is_file1 abspath1 n1 n2. split; [by eapply source_without_name, settled_is_provided|].
    intros c' src Hs. by eapply (weight_source_is_unique t resolve_checkpoint_files).
Qed.
End load.
