(* ===== verification/ModelLoadExample.v ===== *)
(** * Loading a small model

    With a plugin that holds a configuration, wrapping sees what loading settled;
    with one that holds a mapping it does not. *)
From S2P Require Import Prelude PyStr PyVal FS Backend KTConfig Checkpoint WrapSettings Arch ArchSpec WeightSource ModelLoad ModelLoadSpec.

Local Open Scope string_scope.
Local Open Scope list_scope.
Local Open Scope Z_scope.

Module LoadExample.
#[local] Instance plain : Platform := {|
  sha256 s := s; json_loads _ := None; json_dumps _ := ""; py_repr _ := "?";
|}.

Definition resolve_files (name : string) : resolution :=
  if String.eqb name "qwen" then (Some ["/m/a.safetensors"; "/m/b.safetensors"], PNone) else none_found.

Definition box : machine := Machine (Some [0; 1]) (Some 2) (fun i => (Some "0", Some (str_of_Z i))).

(** The world is the configuration that transformers saw, and the one that
    wrapping saw. *)
Abbreviation seen := (option ktconfig * option ktconfig)%type.

Definition from_pretrained (c : option ktconfig) (name : string) : M seen Z :=
  fun w => ((c, w.2), if String.eqb name "broken" then Err (Raise RuntimeError "cannot load") else Ok 7).
Definition wrap_layers (c : ktconfig) (model : Z) : M seen (list Z) := fun w => ((w.1, Some c), Ok [11; 12]).

Definition start : load_state seen := LoadState [("LOCAL_RANK", "1")] None None None (None, None).

Abbreviation load plugin name :=
  (load_kt_model (fun _ => None) box (fun _ => "") resolve_files (fun _ => false) id from_pretrained (fun _ _ _ => mret tt)
     (fun _ _ => []) wrap_layers ArchExample.model_config None None plugin (Some name) start).

(** [KTConfig()] *)
Definition given_config : ktconfig :=
  match (post_init (fun _ => None) box empty_config []).2 with Ok c => c | Err _ => empty_config end.
Definition settled : ktconfig := set_checkpoint ["/m/a.safetensors"; "/m/b.safetensors"] PNone (set_skip true given_config).

Definition loaded := load (Some (PluginConfig given_config)) "qwen".

Lemma loading_settles_the_source_witness :
  loaded.2 = Ok 7 ∧ ld_world loaded.1 = (Some settled, Some settled) ∧ ld_model loaded.1 = Some (7, attributes_of [11; 12] settled) ∧
  flag (kt_skip_expert_loading settled) = true ∧
  ld_global loaded.1 = None ∧ ∃ name c cfg wrappers w,
    settle_expert_loading resolve_files name c = Ok cfg ∧ (from_pretrained (Some cfg) name w).2 = Ok 7 ∧
    ld_model loaded.1 = Some (7, attributes_of wrappers cfg).
Proof.
  split; [vm_compute; reflexivity|]. split; [vm_compute; reflexivity|]. split; [vm_compute; reflexivity|]. split; [vm_compute; reflexivity|].
  destruct (loading_settles_the_source (fun _ => None) box (fun _ => "") resolve_files (fun _ => false) id from_pretrained
    (fun _ _ _ => mret tt) (fun _ _ => []) wrap_layers ArchExample.model_config None None (Some (PluginConfig given_config)) (Some "qwen")
    start loaded.1 loaded.2 eq_refl (surjective_pairing loaded)) as [Hg Hl].
  split; [exact Hg|].
  destruct (Hl 7 ltac:(vm_compute; reflexivity)) as (name & c & cfg & wrappers & w & Hs & Hf & Hm & _).
  exists name, c, cfg, wrappers, w. exact (conj Hs (conj Hf Hm)).
Defined.

(** A load that fails leaves no configuration in place. *)
Example failed_load_leaves_nothing :
  (load (Some (PluginConfig given_config)) "broken").2 = Err (Raise RuntimeError "cannot load") ∧
  ld_global (load (Some (PluginConfig given_config)) "broken").1 = None.
Proof. split; vm_compute; reflexivity. Qed.

(** A plugin that holds a mapping: transformers leaves the experts out, and
    wrapping does not know that it did, nor where their files are. *)
Example mapping_loses_what_loading_settled :
  ∃ transformers wrapping,
    ld_world (load (Some (PluginMapping (Mapping [] None empty_config))) "qwen").1 = (Some transformers, Some wrapping) ∧
    kt_skip_expert_loading transformers = Some true ∧ has_files transformers = true ∧
    kt_skip_expert_loading wrapping = None ∧ has_files wrapping = false.
Proof. eexists _, _. split_and!; vm_compute; reflexivity. Qed.
End LoadExample.
