(* ===== verification/Artifacts.v ===== *)
(** * The BF16 non-expert cache

    Models the first half of [kt-kernel/python/sft/artifacts.py]: the readers
    and checks of manifest fields, the fingerprints, the inspection of the
    cache's safetensors shards, the producer of the cache manifest and its
    validator.  The safetensors library is a parameter: what [safe_open] finds
    in a file's bytes. *)
From S2P Require Import Prelude PyStr PyVal FS.
From Stdlib Require Import Ascii.

Local Open Scope string_scope.
Local Open Scope list_scope.
Local Open Scope Z_scope.

Definition KT_NON_EXPERT_MANIFEST_NAME : string := "kt_non_expert_manifest.json".
Definition KT_NON_EXPERT_INDEX_NAME : string := "model.safetensors.index.json".
Definition KT_NON_EXPERT_MANIFEST_VERSION : Z := 2.
Definition LEGACY_NON_EXPERT_VERSION : Z := 1.
Definition LEGACY_NON_EXPERT_PRODUCER : string := "llamafactory.prepare-kt-cache".
Definition NON_EXPERT_PRODUCER : string := "kt-kernel.prepare-non-expert-cache".

(** ** Patterns *)

(** [^model\.layers\.\d+\.mlp\.gate\.e_score_correction_bias$] *)
Definition fp32_router_bias (key : string) : bool :=
  match strip_prefix "model.layers." key with
  | Some rest =>
      let '(digits, tail) := span_digits rest in
      negb (String.eqb digits "") && String.eqb tail ".mlp.gate.e_score_correction_bias"
  | None => false
  end.

(** [(?:^|\.)experts(?:\.|$)]: a component [experts]; [$] also matches before a
    final newline. *)
Definition routed_expert (key : string) : bool :=
  let parts := split_on "."%char key in
  existsb (String.eqb "experts") parts || String.eqb (List.last parts "") ("experts" ++ String "010" "")%string.

(** [^[0-9a-f]{64}$] *)
Definition sha256_text (s : string) : bool :=
  (Z.of_nat (String.length s) =? 64) && str_forall is_lower_hex s.

(** ** Fields *)

Definition artifact_error {A} (msg : string) : res A := Err (Raise KTArtifactError msg).

Definition require_string (value : pyval) : res string :=
  match value with
  | PStr s => if String.eqb s "" then artifact_error "must be a non-empty string" else mret s
  | _ => artifact_error "must be a non-empty string"
  end.

Definition require_sha256 (value : pyval) : res string :=
  s ← require_string value;
  _ ← raise_if (negb (sha256_text s)) KTArtifactError "must be a lowercase SHA256 digest";
  mret s.

Definition positive_int (value : pyval) : res Z :=
  match value with
  | PInt n => if n <=? 0 then artifact_error "must be a positive integer" else mret n
  | _ => artifact_error "must be a positive integer"
  end.

(** ** Paths *)

(** [root / name] *)
Definition join_path (root : path) (name : string) : path :=
  if is_absolute name then path_parts name else root ++ path_parts name.

(** [str(p)] of an absolute path *)
Definition path_text (p : path) : string := "/" +:+ match p with [] => "" | _ => posix_join p end.

(** [path.name] *)
Definition path_name (p : path) : string := List.last p "".

Section reads.
Context `{Platform}.
Context (t : fs).

(** [_safe_root(path)] *)
Definition safe_root (root : string) : res path :=
  _ ← raise_if (negb (is_absolute root)) KTArtifactError "must be an absolute path";
  let p := path_parts root in
  _ ← raise_if (p_is_symlink t p || negb (p_is_dir t p)) KTArtifactError "must be a real directory";
  of_option (realpath t p) KTArtifactError "must be a real directory".

Definition read_json (p : path) : res (list (string * pyval)) :=
  _ ← raise_if (p_is_symlink t p || negb (p_is_file t p)) KTArtifactError "must be a regular file";
  payload ← catch (text ← read_bytes t p; of_option (json_loads text) ValueError "invalid JSON")
              (fun c => bool_decide (c ∈ [OSError; FileNotFoundError; ValueError]))
              (fun _ => artifact_error "could not read");
  of_option (as_dict payload) KTArtifactError "must contain a JSON object".

Definition sha256_file (p : path) : res string := data ← read_bytes t p; mret (sha256 data).

(** [os.path.realpath] without [strict]: a missing component stays as it is. *)
Fixpoint walk_lax (links : nat) : path -> path -> path :=
  fix go (cur todo : path) {struct todo} : path :=
    match todo with
    | [] => cur
    | c :: rest =>
        if String.eqb c "" || String.eqb c "." then go cur rest
        else if String.eqb c ".." then go (removelast cur) rest
        else match t !! (cur ++ [c]) with
             | Some (NLink absolute target) =>
                 match links with
                 | O => cur ++ c :: rest
                 | S k => walk_lax k (if absolute then [] else cur) (target ++ rest)
                 end
             | _ => go (cur ++ [c]) rest
             end
    end.

(** The path of a text; [cwd] is the working directory. *)
Definition abs_parts (cwd : path) (s : string) : path :=
  if is_absolute s then path_parts s else cwd ++ path_parts s.

Definition same_source (cwd : path) (expected actual : string) : bool :=
  let e := abs_parts cwd expected in
  let a := abs_parts cwd actual in
  if p_exists t e || p_exists t a
  then bool_decide (walk_lax max_links [] e = walk_lax max_links [] a)
  else String.eqb expected actual.

(** ** Fingerprints *)

(** A file of the cache: the fields of its record that the fingerprint reads. *)
Record file_record := FileRecord { fr_name : string; fr_size : Z; fr_sha256 : string }.

(** The byte [0] between the parts of a digest. *)
Definition nul : string := String "000" "".

Definition by_name (a b : file_record) : Prop := is_true (String.leb (fr_name a) (fr_name b)).
#[local] Instance by_name_dec : RelDecision by_name := fun a b => decide (String.leb (fr_name a) (fr_name b) = true).

(** [json.dumps(v, sort_keys=True, separators=(",", ":"))] of a value whose keys
    are sorted *)
Context (json_compact : pyval -> string).

Definition counts_value (dtype_counts : list (string * Z)) : pyval :=
  PDict ((fun kv => (kv.1, PInt kv.2)) <$> dtype_counts).

Definition cache_fingerprint (version : Z) (source_fingerprint : string) (file_records : list file_record)
    (tensor_count tensor_bytes : Z) (dtype_counts : list (string * Z)) : string :=
  sha256 (String.concat ""
    (["kt-non-expert-cache-v" ++ str_of_Z version ++ nul; source_fingerprint; nul; str_of_Z tensor_count; nul;
      str_of_Z tensor_bytes; nul; json_compact (sort_keys (counts_value dtype_counts)); nul]%string
     ++ (merge_sort by_name file_records ≫= fun record =>
           [fr_name record; nul; str_of_Z (fr_size record); nul; fr_sha256 record; nul]))).

Definition source_fingerprint_of (config_digest index_digest : string) : string :=
  sha256 (String.concat "" ["kt-source-checkpoint-v2" ++ nul; config_digest; nul; index_digest]%string).

(** ** The cache's tensors *)

(** What [safe_open] finds in a file's bytes: for each key its dtype and shape. *)
Context (safetensors : string -> option (list (string * (string * list Z)))).

Definition string_le (a b : string) : Prop := is_true (String.leb a b).
#[local] Instance string_le_dec : RelDecision string_le := fun a b => decide (String.leb a b = true).

(** [sorted(s)] of a set of texts *)
Definition sorted_names (s : gset string) : list string := merge_sort string_le (elements s).

(** The shards that the index names. *)
Definition index_shards (weight_map : list (string * pyval)) : res (gset string) :=
  for_each weight_map ∅ (fun shard_names '(key, shard_name) =>
    _ ← raise_if (String.eqb key "") KTArtifactError "tensor names must be non-empty strings";
    name ← of_option (as_str shard_name) KTArtifactError "unsafe shard name";
    _ ← raise_if (negb (String.eqb name (basename name))) KTArtifactError "unsafe shard name";
    _ ← raise_if (negb (ends_with ".safetensors" name)) KTArtifactError "every shard must use safetensors";
    mret ({[name]} ∪ shard_names)).

Definition weight_map_of (index : list (string * pyval)) : res (list (string * pyval)) :=
  match pget "weight_map" index with
  | PDict ((_ :: _) as m) => mret m
  | _ => artifact_error "weight_map must be a non-empty object"
  end.

(** The observed keys, their bytes, the tensors per dtype and the shards. *)
Record inspected := Inspected {
  in_keys : gset string;
  in_bytes : Z;
  in_dtypes : list (string * Z);
  in_files : list string;
}.

(** The prefix of the tensors of the multi-token prediction layer, when they are
    rejected. *)
Definition mtp_prefix (source_config : list (string * pyval)) : option string :=
  let layer_count := pget "num_hidden_layers" source_config in
  if is_int layer_count && py_eq (pget "model_type" source_config) (PStr "deepseek_v3")
  then Some ("model.layers." ++ py_str layer_count ++ ".")%string else None.

Definition inspect_tensor (source_config : list (string * pyval)) (acc : inspected)
    (tensor : string * (string * list Z)) : res inspected :=
  let '(key, (dtype, shape)) := tensor in
  _ ← raise_if (bool_decide (key ∈ in_keys acc)) KTArtifactError "duplicate tensor across cache shards";
  _ ← raise_if (negb (String.eqb dtype (if fp32_router_bias key then "F32" else "BF16"))) KTArtifactError
        "cache tensor has the wrong dtype";
  _ ← raise_if (routed_expert key || ends_with ".weight_scale_inv" key) KTArtifactError
        "cache contains routed/quantized tensor";
  _ ← raise_if (match mtp_prefix source_config with Some p => starts_with p key | None => false end)
        KTArtifactError "cache contains excluded MTP tensor";
  let elements := fold_left Z.mul shape 1 in
  mret (Inspected ({[key]} ∪ in_keys acc)
          (in_bytes acc + elements * (if String.eqb dtype "F32" then 4 else 2))
          (dict_set dtype (default 0 (dict_get dtype (in_dtypes acc)) + 1) (in_dtypes acc)) (in_files acc)).

(** A record of the manifest: [record.get("size")] and [record.get("sha256")]. *)
Record manifest_record := ManifestRecord { mr_size : pyval; mr_sha256 : pyval }.

Definition inspect_file (root : path) (source_config : list (string * pyval)) (verify_hashes : bool)
    (file_records : gmap string manifest_record) (acc : inspected) (name : string) : res inspected :=
  let p := root ++ [name] in
  _ ← raise_if (p_is_symlink t p || negb (p_is_file t p)) KTArtifactError
        "cache artifact must be a regular file";
  record ← of_option (file_records !! name) KeyError name;
  data ← read_bytes t p;
  _ ← raise_if (negb (py_eq (PInt (FS.file_size data)) (mr_size record))) KTArtifactError
        "cache size mismatch";
  _ ← (if (verify_hashes : bool) then
         digest ← sha256_file p;
         raise_if (negb (py_eq (PStr digest) (mr_sha256 record))) KTArtifactError "cache SHA256 mismatch"
       else mret tt);
  if String.eqb name KT_NON_EXPERT_INDEX_NAME then mret acc
  else
    tensors ← of_option (safetensors data) SafetensorError "Error while deserializing header";
    acc ← for_each tensors (Inspected (in_keys acc) (in_bytes acc) (in_dtypes acc)
                              (in_files acc ++ [path_text p])) (inspect_tensor source_config);
    mret acc.

Definition inspect_cache_tensors (root : path) (index source_config : list (string * pyval))
    (verify_hashes : bool) (file_records : gmap string manifest_record) : res inspected :=
  weight_map ← weight_map_of index;
  shard_names ← index_shards weight_map;
  let expected_files := {[KT_NON_EXPERT_INDEX_NAME]} ∪ shard_names in
  _ ← raise_if (negb (bool_decide (dom file_records = expected_files))) KTArtifactError
        "cache file inventory differs from its index";
  acc ← for_each (sorted_names expected_files) (Inspected ∅ 0 [] [])
          (inspect_file root source_config verify_hashes file_records);
  _ ← raise_if (negb (bool_decide (in_keys acc = list_to_set (fst <$> weight_map)))) KTArtifactError
        "cache shard keys do not match the safetensors index";
  mret acc.

(** ** The validator *)

(** A completely validated cache. *)
Record KTNonExpertCache := {
  nc_path : string;
  nc_manifest_path : string;
  nc_manifest : list (string * pyval);
  nc_checkpoint_files : list string;
  nc_weight_keys : gset string;
  nc_source_config : list (string * pyval);
}.

(** [quantization_config] of an FP8 checkpoint, and its block size. *)
Definition fp8_quantization (source_config : list (string * pyval)) : res (list (string * pyval)) :=
  match pget "quantization_config" source_config with
  | PDict q => if py_eq (pget "quant_method" q) (PStr "fp8") then mret q
               else artifact_error "source config must describe an FP8 checkpoint"
  | _ => artifact_error "source config must describe an FP8 checkpoint"
  end.

Definition fp8_block_size (quantization : list (string * pyval)) : res (list pyval) :=
  match pget "weight_block_size" quantization with
  | PList [PInt a; PInt b] =>
      if (a <=? 0) || (b <=? 0) then artifact_error "invalid source FP8 weight_block_size"
      else mret [PInt a; PInt b]
  | _ => artifact_error "invalid source FP8 weight_block_size"
  end.

Definition converter_value (producer : string) (version : pyval) (block_size : list pyval) : pyval :=
  PDict [("name", PStr producer); ("version", version); ("default_dtype", PStr "BF16");
         ("fp32_exceptions", PList [PStr "model.layers.*.mlp.gate.e_score_correction_bias"]);
         ("weight_block_size", PList block_size)].

(** [version not in {1, 2}] *)
Definition check_version (version : pyval) : res unit :=
  _ ← raise_if (is_list version || is_dict version) TypeError "unhashable type";
  raise_if (negb (py_eq version (PInt LEGACY_NON_EXPERT_VERSION)
                  || py_eq version (PInt KT_NON_EXPERT_MANIFEST_VERSION))) KTArtifactError "unsupported version".

Definition check_source_file (source_record : list (string * pyval)) (field : string) (p : path) : res string :=
  expected ← require_sha256 (pget field source_record);
  _ ← raise_if (p_is_symlink t p || negb (p_is_file t p)) KTArtifactError "source does not match";
  digest ← sha256_file p;
  _ ← raise_if (negb (String.eqb digest expected)) KTArtifactError "source does not match";
  mret expected.

Definition check_source (cwd source : path) (version : pyval) (source_record : list (string * pyval)) : res string :=
  recorded_source ← require_string (pget "model_name_or_path" source_record);
  _ ← raise_if (negb (same_source cwd (path_text source) recorded_source)) KTArtifactError
        "cache source does not match";
  source_fingerprint ← require_sha256 (pget "fingerprint" source_record);
  config_digest ← check_source_file source_record "config_sha256" (source ++ ["config.json"]);
  index_digest ← check_source_file source_record "index_sha256" (source ++ [KT_NON_EXPERT_INDEX_NAME]);
  _ ← raise_if (py_eq version (PInt KT_NON_EXPERT_MANIFEST_VERSION)
                && negb (String.eqb source_fingerprint (source_fingerprint_of config_digest index_digest)))
        KTArtifactError "source fingerprint is invalid";
  mret source_fingerprint.

(** A record of the manifest joins the ones before it. *)
Definition read_record (acc : list file_record * gmap string manifest_record) (item : pyval)
    : res (list file_record * gmap string manifest_record) :=
  let '(l, records) := acc in
  record ← of_option (as_dict item) KTArtifactError "must be an object";
  name ← require_string (pget "name" record);
  _ ← raise_if (negb (String.eqb name (basename name)) || bool_decide (name ∈ dom records)) KTArtifactError
        "invalid or duplicate filename";
  size ← positive_int (pget "size" record);
  digest ← require_sha256 (pget "sha256" record);
  mret (l ++ [FileRecord name size digest], <[name := ManifestRecord (PInt size) (PStr digest)]> records).

(** The records of the manifest: what the fingerprint reads, in the order of the
    list, and by name. *)
Definition manifest_files (files : pyval) : res (list file_record * gmap string manifest_record) :=
  items ← of_option (match as_list files with Some ((_ :: _) as l) => Some l | _ => None end) KTArtifactError
            "files must be a non-empty list";
  for_each items ([], ∅) read_record.

Definition check_tensors (tensors : pyval) (found : inspected) : res unit :=
  d ← of_option (as_dict tensors) KTArtifactError "tensors must be an object";
  _ ← raise_if (negb (py_eq (pget "count" d) (PInt (Z.of_nat (size (in_keys found)))))) KTArtifactError
        "tensor count does not match the index";
  raise_if (negb (py_eq (pget "bytes" d) (PInt (in_bytes found))) ||
            negb (py_eq (pget "dtypes" d) (counts_value (in_dtypes found)))) KTArtifactError
    "tensor metadata does not match cache shards".

Definition validate_non_expert_cache (cwd : path) (cache_path source_model : string) (verify_hashes : bool)
    : res KTNonExpertCache :=
  root ← safe_root cache_path;
  source ← safe_root source_model;
  let manifest_path := root ++ [KT_NON_EXPERT_MANIFEST_NAME] in
  manifest ← read_json manifest_path;
  let version := pget "version" manifest in
  _ ← check_version version;
  _ ← raise_if (negb (py_eq (pget "status" manifest) (PStr "ready"))) KTArtifactError "status must be 'ready'";
  fingerprint ← require_sha256 (pget "fingerprint" manifest);
  source_record ← of_option (as_dict (pget "source" manifest)) KTArtifactError "source must be an object";
  source_fingerprint ← check_source cwd source version source_record;
  source_config ← read_json (source ++ ["config.json"]);
  quantization ← fp8_quantization source_config;
  block_size ← fp8_block_size quantization;
  let producer := if py_eq version (PInt 1) then LEGACY_NON_EXPERT_PRODUCER else NON_EXPERT_PRODUCER in
  _ ← raise_if (negb (py_eq (pget "converter" manifest) (converter_value producer version block_size)))
        KTArtifactError "converter contract is unsupported";
  '(files, records) ← manifest_files (pget "files" manifest);
  cache_index ← read_json (root ++ [KT_NON_EXPERT_INDEX_NAME]);
  found ← inspect_cache_tensors root cache_index source_config verify_hashes records;
  _ ← check_tensors (pget "tensors" manifest) found;
  version ← py_int version;
  _ ← raise_if (negb (String.eqb fingerprint
                        (cache_fingerprint version source_fingerprint files (Z.of_nat (size (in_keys found)))
                           (in_bytes found) (in_dtypes found)))) KTArtifactError
        "fingerprint does not match its records";
  mret {| nc_path := path_text root; nc_manifest_path := path_text manifest_path; nc_manifest := manifest;
          nc_checkpoint_files := in_files found; nc_weight_keys := in_keys found;
          nc_source_config := source_config |}.

(** ** The producer *)

(** [set(cache_index.get("weight_map", {}).values())] *)
Definition shard_values (index : list (string * pyval)) : res (gset string) :=
  match dict_get "weight_map" index with
  | None => mret ∅
  | Some (PDict m) =>
      for_each m ∅ (fun names kv =>
        name ← of_option (as_str kv.2) TypeError "not a file name";
        mret ({[name]} ∪ names))
  | Some _ => Err (Raise AttributeError "values")
  end.

Definition cache_records (files : list path) : res (list file_record) :=
  for_each files [] (fun records p =>
    _ ← raise_if (p_is_symlink t p || negb (p_is_file t p)
                  || bool_decide (path_name p ∈ fr_name <$> records)) KTArtifactError
          "invalid or duplicate cache artifact";
    data ← read_bytes t p;
    digest ← sha256_file p;
    mret (records ++ [FileRecord (path_name p) (FS.file_size data) digest])).

Definition record_value (r : file_record) : pyval :=
  PDict [("name", PStr (fr_name r)); ("size", PInt (fr_size r)); ("sha256", PStr (fr_sha256 r))].

Definition records_map (records : list file_record) : gmap string manifest_record :=
  list_to_map ((fun r => (fr_name r, ManifestRecord (PInt (fr_size r)) (PStr (fr_sha256 r)))) <$> records).

Definition manifest_value (source : path) (source_fingerprint config_digest index_digest : string)
    (block_size : list pyval) (records : list file_record) (found : inspected) : list (string * pyval) :=
  let count := Z.of_nat (size (in_keys found)) in
  [("version", PInt KT_NON_EXPERT_MANIFEST_VERSION); ("status", PStr "ready");
   ("fingerprint", PStr (cache_fingerprint KT_NON_EXPERT_MANIFEST_VERSION source_fingerprint records count
                           (in_bytes found) (in_dtypes found)));
   ("source", PDict [("model_name_or_path", PStr (path_text source)); ("fingerprint", PStr source_fingerprint);
                     ("config_sha256", PStr config_digest); ("index_sha256", PStr index_digest)]);
   ("converter", converter_value NON_EXPERT_PRODUCER (PInt KT_NON_EXPERT_MANIFEST_VERSION) block_size);
   ("files", PList (record_value <$> records));
   ("tensors", PDict [("count", PInt count); ("bytes", PInt (in_bytes found));
                      ("dtypes", counts_value (in_dtypes found))])].

(** Everything the producer computes before it writes. *)
Definition non_expert_manifest (cache_path source_model : string) : res (path * list (string * pyval)) :=
  root ← safe_root cache_path;
  source ← safe_root source_model;
  _ ← raise_if (p_exists t (root ++ [KT_NON_EXPERT_MANIFEST_NAME])) KTArtifactError
        "cache manifest already exists";
  source_config ← read_json (source ++ ["config.json"]);
  _ ← read_json (source ++ [KT_NON_EXPERT_INDEX_NAME]);
  cache_index ← read_json (root ++ [KT_NON_EXPERT_INDEX_NAME]);
  config_digest ← sha256_file (source ++ ["config.json"]);
  index_digest ← sha256_file (source ++ [KT_NON_EXPERT_INDEX_NAME]);
  let source_fingerprint := source_fingerprint_of config_digest index_digest in
  names ← shard_values cache_index;
  records ← cache_records ((root ++ [KT_NON_EXPERT_INDEX_NAME]) :: (join_path root <$> sorted_names names));
  found ← inspect_cache_tensors root cache_index source_config true (records_map records);
  quantization ← fp8_quantization source_config;
  block_size ← fp8_block_size quantization;
  let record_list := merge_sort by_name records in
  mret (root, manifest_value source source_fingerprint config_digest index_digest block_size record_list found).
End reads.

(** [_write_json_atomic(path, payload)]: [rnd] is the random part of the name
    that [mkstemp] takes. *)
Definition temp_json_name (name rnd : string) : string := ("." ++ name ++ "." ++ rnd ++ ".tmp")%string.

Definition write_json_atomic `{Platform} (parent : path) (name rnd : string) (payload : list (string * pyval))
    : M world unit :=
  let tmp := parent ++ [temp_json_name name rnd] in
  _ ← write_new tmp (json_dumps (sort_keys (PDict payload)) ++ String "010" "")%string;
  on_exception (replace tmp (parent ++ [name]))
    (catchM (unlink tmp) (fun c => bool_decide (c = FileNotFoundError)) (fun _ => mret tt)).

Definition write_kt_non_expert_cache_manifest `{Platform} (json_compact : pyval -> string)
    (safetensors : string -> option (list (string * (string * list Z)))) (rnd : string)
    (cache_path source_model : string) : M world (list (string * pyval)) :=
  '(root, payload) ← gets_res (fun w => non_expert_manifest (w_fs w) json_compact safetensors cache_path source_model);
  _ ← write_json_atomic root KT_NON_EXPERT_MANIFEST_NAME rnd payload;
  mret payload.
