(* ===== verification/ArtifactsSpec.v ===== *)
(** * Properties of the non-expert cache

    The manifest that the producer publishes is accepted by the validator, and a
    validated cache is exactly what its manifest describes. *)
From S2P Require Import Prelude PyStr PyVal FS FSLaws Artifacts.
From Stdlib Require Import Ascii.

Local Open Scope string_scope.
Local Open Scope list_scope.
Local Open Scope Z_scope.

(** ** Reading from a larger tree *)

Lemma walk_mono t t' k cur todo q : t ⊆ t' → walk t k cur todo = Some q → walk t' k cur todo = Some q.
Proof.
  intros Hs. revert cur todo. induction k as [k IHk] using lt_wf_ind.
  intros cur todo. revert cur. induction todo as [|c todo IH]; intros cur; [by destruct k|].
  rewrite !walk_cons. destruct (String.eqb c "" || String.eqb c "."); [by apply IH|].
  destruct (String.eqb c ".."); [by apply IH|].
  destruct (t !! (cur ++ [c])) as [n|] eqn:E; [|done]. rewrite (lookup_weaken _ _ _ _ E Hs).
  destruct n as [m data|m|absolute target|m]; try done; [by apply IH|].
  destruct k as [|k']; [done|]. apply IHk. lia.
Qed.

Lemma realpath_mono t t' p q : t ⊆ t' → realpath t p = Some q → realpath t' p = Some q.
Proof. apply walk_mono. Qed.

(** A path that resolves has an entry of its own. *)
Lemma lstat_exists t p q : fs_wf t → realpath t p = Some q → p_is_dir t q = true → ∃ n, lstat t p = Some n.
Proof.
  intros Hwf Hq Hd. destruct p as [|c p _] using rev_ind.
  - unfold lstat, place. simpl. destruct (wf_root t Hwf) as [m Hm]. eauto.
  - unfold lstat, place. rewrite last_snoc.
    destruct (String.eqb c "" || String.eqb c "." || String.eqb c "..") eqn:E.
    + rewrite Hq. simpl. pose proof (realpath_dir t _ _ Hwf Hq Hd) as Hr.
      destruct (real_dir_lookup t q Hwf Hr) as [m Hm]. eauto.
    + rewrite removelast_snoc. apply walk_app_inv in Hq as (q' & k & Hq' & Hw).
      unfold realpath. rewrite Hq'. simpl. apply orb_false_iff in E as [E1 E2].
      rewrite walk_cons, E1, E2 in Hw. destruct (t !! (q' ++ [c])) as [n|]; [eauto|done].
Qed.

Lemma lstat_mono t t' p n : t ⊆ t' → lstat t p = Some n → lstat t' p = Some n.
Proof.
  intros Hs. unfold lstat. intros (q & Hq & Hn)%bind_Some. apply bind_Some. exists q.
  split; [|by eapply lookup_weaken]. unfold place in *. destruct (last p) as [c|]; [|done].
  destruct (String.eqb c "" || String.eqb c "." || String.eqb c ".."); [by eapply realpath_mono|].
  apply bind_Some in Hq as (q' & Hq' & [= <-]). by rewrite (realpath_mono _ _ _ _ Hs Hq').
Qed.

Lemma p_is_dir_mono t t' p : t ⊆ t' → p_is_dir t p = true → p_is_dir t' p = true.
Proof.
  intros Hs. unfold p_is_dir, stat. destruct (realpath t p) as [q|] eqn:Hq; [|done]. simpl.
  rewrite (realpath_mono _ _ _ _ Hs Hq). simpl. destruct (t !! q) as [n|] eqn:E; [|done].
  by rewrite (lookup_weaken _ _ _ _ E Hs).
Qed.

Lemma p_is_dir_realpath t p q : fs_wf t → realpath t p = Some q → p_is_dir t p = true → p_is_dir t q = true.
Proof.
  intros Hwf Hq. unfold p_is_dir, stat. rewrite Hq. simpl.
  destruct (walk_real_dir t _ _ _ _ Hwf (real_dir_nil t) Hq) as [Hr|(p' & n & x & -> & Hp' & Hx & Hnd & _)].
  - by rewrite (realpath_real_dir t q Hr).
  - rewrite Hx. by destruct x.
Qed.

Lemma safe_root_mono t t' s root : fs_wf t → t ⊆ t' → safe_root t s = Ok root → safe_root t' s = Ok root.
Proof.
  unfold safe_root. intros Hwf Hs Hr. inv_guard Hr as Ha. rewrite Ha. inv_guard Hr as Hd. simpl.
  apply orb_false_iff in Hd as [Hl Hd]. apply negb_false_iff in Hd. apply of_option_ok in Hr.
  pose proof (p_is_dir_realpath _ _ _ Hwf Hr Hd) as Hq.
  destruct (lstat_exists t _ _ Hwf Hr Hq) as [n Hn]. unfold p_is_symlink in *. rewrite Hn in Hl.
  rewrite (lstat_mono _ _ _ _ Hs Hn), Hl, (p_is_dir_mono _ _ _ Hs Hd). simpl.
  by rewrite (realpath_mono _ _ _ _ Hs Hr).
Qed.

Lemma safe_root_real t s root : fs_wf t → safe_root t s = Ok root → real_dir t root.
Proof.
  unfold safe_root. intros Hwf Hr. inv_guard Hr as Ha. inv_guard Hr as Hd. apply orb_false_iff in Hd as [_ Hd].
  apply negb_false_iff in Hd. apply of_option_ok in Hr.
  eapply realpath_dir; [done|exact Hr|]. by eapply p_is_dir_realpath.
Qed.

(** ** Files of a real directory *)

(** What is read of an entry depends on the entry only. *)
Section entry.
Context (t t' : fs) (p : path) (n : string).
Context (Ht : real_dir t p) (Ht' : real_dir t' p) (Hn : name_ok n = true).
Context (Hsame : t' !! (p ++ [n]) = t !! (p ++ [n])).

Lemma symlink_same : p_is_symlink t' (p ++ [n]) = p_is_symlink t (p ++ [n]).
Proof. unfold p_is_symlink. by rewrite !lstat_child, Hsame. Qed.

Lemma stat_same : p_is_symlink t (p ++ [n]) = false → stat t' (p ++ [n]) = stat t (p ++ [n]).
Proof.
  unfold p_is_symlink. rewrite lstat_child by done. intros Hl.
  pose proof (stat_child t p n Ht Hn) as H1. pose proof (stat_child t' p n Ht' Hn) as H2. rewrite Hsame in H2.
  destruct (t !! (p ++ [n])) as [[]|]; try done; by rewrite H1, H2.
Qed.

Lemma regular_same : p_is_symlink t' (p ++ [n]) || negb (p_is_file t' (p ++ [n])) =
                     p_is_symlink t (p ++ [n]) || negb (p_is_file t (p ++ [n])).
Proof.
  rewrite symlink_same. destruct (p_is_symlink t (p ++ [n])) eqn:E; [done|]. simpl.
  unfold p_is_file. by rewrite stat_same.
Qed.

Lemma bytes_same : p_is_symlink t (p ++ [n]) || negb (p_is_file t (p ++ [n])) = false →
  read_bytes t' (p ++ [n]) = read_bytes t (p ++ [n]).
Proof. intros [Hl _]%orb_false_iff. unfold read_bytes. by rewrite stat_same. Qed.
End entry.

Section spec.
Context `{Platform}.
Context (json_compact : pyval → string).
Context (safetensors : string → option (list (string * (string * list Z)))).

Lemma read_json_same t t' p n : real_dir t p → real_dir t' p → name_ok n = true →
  t' !! (p ++ [n]) = t !! (p ++ [n]) → read_json t' (p ++ [n]) = read_json t (p ++ [n]).
Proof.
  intros H1 H2 Hn Hs. unfold read_json. rewrite (regular_same t t') by done.
  destruct (_ || _) eqn:E; [done|]. simpl. by rewrite (bytes_same t t').
Qed.

Lemma inspect_file_same t t' root name cfg vh records acc : real_dir t root → real_dir t' root →
  name_ok name = true → t' !! (root ++ [name]) = t !! (root ++ [name]) →
  inspect_file t' safetensors root cfg vh records acc name = inspect_file t safetensors root cfg vh records acc name.
Proof.
  intros H1 H2 Hn Hs. unfold inspect_file. rewrite (regular_same t t') by done.
  destruct (_ || _) eqn:E; [done|]. simpl. unfold sha256_file. by rewrite (bytes_same t t').
Qed.

(** ** Names *)

Lemma basename_no_slash s : basename s = s → no_slash s = true.
Proof.
  intros Hb. pose proof (split_on_no_sep slash s) as Hf. rewrite Forall_forall in Hf.
  rewrite <-Hb. apply Hf. unfold basename. assert (split_on slash s ≠ []) as Hne.
  { destruct s as [|c s]; simpl; [done|]. destruct (Ascii.eqb c slash); [done|]. by destruct (split_on slash s). }
  destruct (exists_last Hne) as (l & x & ->). rewrite List.last_last. apply elem_of_app. right. left.
Qed.

Definition shard_ok (name : string) : Prop := basename name = name ∧ ends_with ".safetensors" name = true.

Lemma shard_ok_name name : shard_ok name → name_ok name = true ∧ name ≠ KT_NON_EXPERT_MANIFEST_NAME.
Proof.
  intros [Hb He]. split; [|intros ->; by vm_compute in He].
  unfold name_ok. rewrite (basename_no_slash _ Hb).
  destruct (String.eqb_spec name "") as [->|]; [by vm_compute in He|].
  destruct (String.eqb_spec name ".") as [->|]; [by vm_compute in He|].
  destruct (String.eqb_spec name "..") as [->|]; [by vm_compute in He|]. done.
Qed.

Lemma index_shards_ok wm shards : index_shards wm = Ok shards → set_Forall shard_ok shards.
Proof.
  unfold index_shards. intros Hr. apply (for_each_inv (fun _ shards => set_Forall shard_ok shards)) in Hr; [done| |].
  - intros n Hn. set_solver.
  - intros pre [key v] acc acc' _ Hacc Hb. inv_guard Hb as H1. inv_bind Hb as name Hn. inv_guard Hb as H2.
    inv_guard Hb as H3. injection Hb as <-. bools. intros n [->%elem_of_singleton|?]%elem_of_union; [|auto].
    by split.
Qed.

(** ** What the inspection establishes *)

Definition expected_files (shards : gset string) : gset string := {[KT_NON_EXPERT_INDEX_NAME]} ∪ shards.

Lemma expected_name_ok shards name : (∀ n, n ∈ shards → shard_ok n) → name ∈ expected_files shards →
  name_ok name = true ∧ name ≠ KT_NON_EXPERT_MANIFEST_NAME ∧ basename name = name.
Proof.
  intros Hs [->%elem_of_singleton|Hn]%elem_of_union; [done|]. apply Hs in Hn.
  destruct (shard_ok_name _ Hn). destruct Hn. auto.
Qed.

Lemma elem_of_sorted_names s name : name ∈ sorted_names s ↔ name ∈ s.
Proof. unfold sorted_names. rewrite merge_sort_Permutation. apply elem_of_elements. Qed.

(** A file of the cache agrees with its record. *)
Definition file_matches (t : fs) (root : path) (vh : bool) (records : gmap string manifest_record) (name : string) : Prop :=
  ∃ m data record, t !! (root ++ [name]) = Some (NFile m data) ∧ records !! name = Some record ∧
    py_eq (PInt (FS.file_size data)) (mr_size record) = true ∧
    (vh = true → py_eq (PStr (sha256 data)) (mr_sha256 record) = true) ∧
    (name ≠ KT_NON_EXPERT_INDEX_NAME → is_Some (safetensors data)).

Lemma regular_child t p n : real_dir t p → name_ok n = true →
  p_is_symlink t (p ++ [n]) || negb (p_is_file t (p ++ [n])) = false →
  ∃ m data, t !! (p ++ [n]) = Some (NFile m data) ∧ read_bytes t (p ++ [n]) = Ok data.
Proof.
  intros Hp Hn [Hl Hf]%orb_false_iff. apply negb_false_iff in Hf.
  destruct (child_is_file t p n Hp Hn Hl Hf) as (m & data & E). exists m, data. split; [done|].
  unfold read_bytes. pose proof (stat_child t p n Hp Hn) as Hs. rewrite E in Hs. by rewrite Hs.
Qed.

(** The tensors were counted under distinct dtypes. *)
Definition counted (acc : inspected) : Prop := NoDup (fst <$> in_dtypes acc).

Lemma inspect_tensor_counted cfg acc tensor acc' : inspect_tensor cfg acc tensor = Ok acc' →
  counted acc → counted acc'.
Proof.
  unfold inspect_tensor. destruct tensor as [key [dtype shape]]. intros Hr Hc. do 4 inv_guard Hr as ?.
  injection Hr as <-. by apply NoDup_dict_set.
Qed.

Lemma inspect_file_ok t root cfg vh records acc name acc' : real_dir t root → name_ok name = true →
  inspect_file t safetensors root cfg vh records acc name = Ok acc' →
  file_matches t root vh records name ∧ (counted acc → counted acc').
Proof.
  intros Hr Hn. unfold inspect_file. intros Hx. inv_guard Hx as Hreg.
  destruct (regular_child _ _ _ Hr Hn Hreg) as (m & data & E & Hb). inv_bind Hx as record Hrec.
  apply of_option_ok in Hrec. unfold sha256_file in Hx. rewrite Hb in Hx. cbn [mbind res_bind] in Hx.
  inv_guard Hx as Hsize. inv_bind Hx as u Hsha. bools.
  assert (vh = true → py_eq (PStr (sha256 data)) (mr_sha256 record) = true) as Hsha'.
  { intros ->. apply raise_if_ok in Hsha. by bools. }
  destruct (String.eqb_spec name KT_NON_EXPERT_INDEX_NAME) as [->|Hne].
  - injection Hx as <-. split; [|done]. by exists m, data, record.
  - inv_bind Hx as tensors Ht. apply of_option_ok in Ht. inv_bind Hx as acc1 Ha. injection Hx as <-.
    split; [exists m, data, record; split_and!; eauto|].
    intros Hc. apply (for_each_inv (fun _ acc => counted acc)) in Ha; [done|done|].
    intros pre x b b' _ Hb1 Hb2. by eapply inspect_tensor_counted.
Qed.

Record inspection (t : fs) (root : path) (index : list (string * pyval)) (vh : bool)
    (records : gmap string manifest_record) (found : inspected) (shards : gset string) : Prop := {
  is_names : ∀ name, name ∈ shards → shard_ok name;
  is_records : dom records = expected_files shards;
  is_files : ∀ name, name ∈ expected_files shards → file_matches t root vh records name;
  is_counted : counted found;
  is_keys : ∃ wm, weight_map_of index = Ok wm ∧ in_keys found = list_to_set (fst <$> wm) ∧ index_shards wm = Ok shards;
}.

Lemma inspect_cache_ok t root index cfg vh records found : real_dir t root →
  inspect_cache_tensors t safetensors root index cfg vh records = Ok found →
  ∃ shards, inspection t root index vh records found shards.
Proof.
  intros Hr. unfold inspect_cache_tensors. intros Hx. inv_bind Hx as wm Hwm. inv_bind Hx as shards Hs.
  inv_guard Hx as Hdom. inv_bind Hx as acc Ha. inv_guard Hx as Hk. injection Hx as <-. bools.
  pose proof (index_shards_ok _ _ Hs) as Hok.
  apply (for_each_inv (fun pre acc => (∀ name, name ∈ pre → file_matches t root vh records name) ∧ counted acc)) in Ha
    as [Hf Hc].
  - exists shards. split; try done; [|by exists wm]. intros name Hn. by apply Hf, elem_of_sorted_names.
  - split; [by intros n ?%elem_of_nil|constructor].
  - intros pre name b b' Hpre [Hf Hc] Hb.
    assert (name ∈ expected_files shards) as Hin.
    { apply elem_of_sorted_names. eapply elem_of_prefix; [|exact Hpre]. apply elem_of_app. right. left. }
    destruct (expected_name_ok _ _ Hok Hin) as (Hn & _).
    destruct (inspect_file_ok _ _ _ _ _ _ _ _ Hr Hn Hb) as [Hm Hcc]. split; [|auto].
    intros n [?| ->%list_elem_of_singleton]%elem_of_app; auto.
Qed.

(** The inspection gives the same result in a tree that has the same files, and
    without the hashes. *)
Lemma for_each_ext {A B} (l : list A) (acc acc' : B) (body body' : B → A → res B) :
  (∀ b x b', x ∈ l → body b x = Ok b' → body' b x = Ok b') → for_each l acc body = Ok acc' →
  for_each l acc body' = Ok acc'.
Proof.
  revert acc. induction l as [|x l IH]; intros acc Hb Hr; [done|]. simpl in *. inv_bind Hr as b Hx.
  rewrite (Hb _ _ _ ltac:(left) Hx). simpl. apply IH; [|done]. intros. by apply Hb; [right|].
Qed.

Lemma inspect_file_unhashed t root cfg vh records acc name acc' :
  inspect_file t safetensors root cfg true records acc name = Ok acc' →
  inspect_file t safetensors root cfg vh records acc name = Ok acc'.
Proof.
  destruct vh; [done|]. unfold inspect_file. intros Hx. inv_guard Hx as H1. rewrite H1. cbn [raise_if mbind res_bind].
  inv_bind Hx as record Hrec. rewrite Hrec. cbn [mbind res_bind]. inv_bind Hx as data Hd. rewrite Hd. cbn [mbind res_bind].
  inv_guard Hx as H2. rewrite H2. cbn [raise_if mbind res_bind]. by inv_bind Hx as u Hu.
Qed.

Lemma inspect_transfer t t' root index cfg vh records found : real_dir t root → real_dir t' root →
  (∀ name, name_ok name = true → name ≠ KT_NON_EXPERT_MANIFEST_NAME → t' !! (root ++ [name]) = t !! (root ++ [name])) →
  inspect_cache_tensors t safetensors root index cfg true records = Ok found →
  inspect_cache_tensors t' safetensors root index cfg vh records = Ok found.
Proof.
  intros Hr Hr' Hsame. unfold inspect_cache_tensors. intros Hx. inv_bind Hx as wm Hwm. rewrite Hwm. simpl.
  inv_bind Hx as shards Hs. rewrite Hs. simpl. inv_guard Hx as Hdom. rewrite Hdom. simpl.
  inv_bind Hx as acc Ha. pose proof (index_shards_ok _ _ Hs) as Hok.
  assert (for_each (sorted_names ({[KT_NON_EXPERT_INDEX_NAME]} ∪ shards)) (Inspected ∅ 0 [] [])
    (inspect_file t' safetensors root cfg vh records) = Ok acc) as ->; [|done].
  eapply for_each_ext; [|exact Ha]. intros b name b' Hin Hb.
  apply elem_of_sorted_names in Hin. destruct (expected_name_ok _ _ Hok Hin) as (Hn & Hne & _).
  rewrite (inspect_file_same t t') by auto. by apply inspect_file_unhashed.
Qed.

(** A tensor that the cache may hold. *)
Definition tensor_ok (cfg : list (string * pyval)) (tensor : string * (string * list Z)) : Prop :=
  tensor.2.1 = (if fp32_router_bias tensor.1 then "F32" else "BF16") ∧ routed_expert tensor.1 = false ∧
  ends_with ".weight_scale_inv" tensor.1 = false ∧
  ∀ p, mtp_prefix cfg = Some p → starts_with p tensor.1 = false.

Lemma inspect_tensors_ok cfg tensors acc acc' : for_each tensors acc (inspect_tensor cfg) = Ok acc' →
  Forall (tensor_ok cfg) tensors ∧ in_keys acc' = list_to_set (fst <$> tensors) ∪ in_keys acc ∧
  in_files acc' = in_files acc.
Proof.
  intros Hr. apply (for_each_inv (fun pre acc1 => Forall (tensor_ok cfg) pre ∧
    in_keys acc1 = list_to_set (fst <$> pre) ∪ in_keys acc ∧ in_files acc1 = in_files acc)) in Hr; [done| |].
  - split_and!; [constructor|set_solver|done].
  - intros pre [key [dtype shape]] b b' _ (Hf & Hk & Hi) Hb. unfold inspect_tensor in Hb.
    inv_guard Hb as H1. inv_guard Hb as H2. inv_guard Hb as H3. inv_guard Hb as H4. injection Hb as <-. bools.
    simpl. split_and!; [|rewrite fmap_app, list_to_set_app_L, Hk; simpl; set_solver|done].
    apply Forall_app. split; [done|]. constructor; [|constructor]. split_and!; [done..|]. simpl.
    intros p Hp. by rewrite Hp in H4.
Qed.

(** The shards among the inspected files hold exactly the observed keys. *)
Definition holds_key (t : fs) (root : path) (names : list string) (key : string) : Prop :=
  ∃ name m data tensors, name ∈ names ∧ name ≠ KT_NON_EXPERT_INDEX_NAME ∧
    t !! (root ++ [name]) = Some (NFile m data) ∧ safetensors data = Some tensors ∧ key ∈ fst <$> tensors.

Definition shard_tensors_ok (t : fs) (root : path) (cfg : list (string * pyval)) (name : string) : Prop :=
  ∀ m data tensors, name ≠ KT_NON_EXPERT_INDEX_NAME → t !! (root ++ [name]) = Some (NFile m data) →
    safetensors data = Some tensors → Forall (tensor_ok cfg) tensors.

Lemma inspect_file_tensors t root cfg vh records acc name acc' : real_dir t root → name_ok name = true →
  inspect_file t safetensors root cfg vh records acc name = Ok acc' →
  shard_tensors_ok t root cfg name ∧
  (∀ key, key ∈ in_keys acc' ↔ key ∈ in_keys acc ∨ holds_key t root [name] key) ∧
  in_files acc' = in_files acc ++ (if String.eqb name KT_NON_EXPERT_INDEX_NAME then [] else [path_text (root ++ [name])]).
Proof.
  intros Hr Hn. unfold inspect_file. intros Hx. inv_guard Hx as Hreg.
  destruct (regular_child _ _ _ Hr Hn Hreg) as (m & data & E & Hb). inv_bind Hx as record Hrec.
  rewrite Hb in Hx. cbn [mbind res_bind] in Hx. inv_guard Hx as Hsize. inv_bind Hx as u Hsha.
  destruct (String.eqb_spec name KT_NON_EXPERT_INDEX_NAME) as [->|Hne].
  - injection Hx as <-. split_and!; [by intros m1 d1 ts1 ?| |by rewrite app_nil_r].
    intros key. split; [auto|]. intros [?|(n & m1 & d1 & ts & ->%list_elem_of_singleton & ? & _)]; done.
  - inv_bind Hx as tensors Ht. apply of_option_ok in Ht. inv_bind Hx as acc1 Ha. injection Hx as <-.
    apply inspect_tensors_ok in Ha as (Hf & Hk & Hi). split_and!; [|rewrite Hk; simpl|done].
    + intros m1 d1 ts1 _ E1 Hts1. rewrite E in E1. injection E1 as <- <-. rewrite Ht in Hts1. by injection Hts1 as <-.
    + intros key. rewrite elem_of_union, elem_of_list_to_set. split.
      * intros [Hin|Hin]; [right|auto]. exists name, m, data, tensors. set_solver.
      * intros [Hin|(n & m1 & d1 & ts & ->%list_elem_of_singleton & _ & E1 & Hts & Hin)]; [auto|left].
        rewrite E in E1. injection E1 as <- <-. rewrite Ht in Hts. by injection Hts as <-.
Qed.

Lemma inspect_keys t root index cfg vh records found : real_dir t root →
  inspect_cache_tensors t safetensors root index cfg vh records = Ok found →
  ∃ shards, inspection t root index vh records found shards ∧
    (∀ name, name ∈ shards → shard_tensors_ok t root cfg name) ∧
    (∀ key, key ∈ in_keys found ↔ holds_key t root (sorted_names (expected_files shards)) key) ∧
    in_files found = (fun name => path_text (root ++ [name])) <$>
      List.filter (fun name => negb (String.eqb name KT_NON_EXPERT_INDEX_NAME)) (sorted_names (expected_files shards)).
Proof.
  intros Hr Hx. destruct (inspect_cache_ok _ _ _ _ _ _ _ Hr Hx) as [shards Hins]. exists shards. split; [done|].
  destruct (is_keys _ _ _ _ _ _ _ Hins) as (wm & Hwm & _ & Hs). pose proof (is_names _ _ _ _ _ _ _ Hins) as Hok.
  unfold inspect_cache_tensors in Hx. rewrite Hwm in Hx. cbn [mbind res_bind] in Hx. rewrite Hs in Hx.
  cbn [mbind res_bind] in Hx. inv_guard Hx as Hdom. inv_bind Hx as acc Ha. inv_guard Hx as Hk. injection Hx as <-.
  fold (expected_files shards) in Ha.
  apply (for_each_inv (fun pre acc => Forall (shard_tensors_ok t root cfg) pre ∧
    (∀ key, key ∈ in_keys acc ↔ holds_key t root pre key) ∧
    in_files acc = (fun name => path_text (root ++ [name])) <$>
      List.filter (fun name => negb (String.eqb name KT_NON_EXPERT_INDEX_NAME)) pre)) in Ha as (Hf & Hkeys & Hfiles).
  - split_and!; [|done..]. rewrite Forall_forall in Hf. intros name Hn. apply Hf, elem_of_sorted_names. set_solver.
  - split_and!; [constructor| |done]. intros key. split; [set_solver|].
    by intros (n & m & d & ts & ?%elem_of_nil & _).
  - intros pre name b b' Hpre (Hf & Hkeys & Hfiles) Hb.
    assert (name ∈ expected_files shards) as Hin.
    { apply elem_of_sorted_names. eapply elem_of_prefix; [|exact Hpre]. apply elem_of_app. right. left. }
    destruct (expected_name_ok _ _ Hok Hin) as (Hn & _).
    destruct (inspect_file_tensors _ _ _ _ _ _ _ _ Hr Hn Hb) as (Ht & Hk1 & Hf1). split_and!.
    + apply Forall_app. split; [done|]. by constructor.
    + intros key. rewrite Hk1, Hkeys. unfold holds_key. setoid_rewrite elem_of_app. naive_solver.
    + rewrite Hf1, Hfiles, List.filter_app, fmap_app. f_equal. simpl. by destruct (String.eqb name _).
Qed.

(** ** The records of a manifest *)

(** What the standard library and safetensors document: digests are 64 hex
    digits, and the empty text is neither JSON nor a safetensors file. *)
(** ** The tally of the tensors *)

(** The tensors of the inspected files, file by file, in the order of the files. *)
Definition file_tensors (t : fs) (root : path) (name : string) : list (string * (string * list Z)) :=
  if String.eqb name KT_NON_EXPERT_INDEX_NAME then []
  else match t !! (root ++ [name]) with
       | Some (NFile _ data) => default [] (safetensors data)
       | _ => []
       end.
Definition cache_tensors (t : fs) (root : path) (names : list string) : list (string * (string * list Z)) :=
  names ≫= file_tensors t root.

(** The bytes of tensors, and how many have a dtype. *)
Definition tensor_bytes (tensor : string * (string * list Z)) : Z :=
  fold_left Z.mul tensor.2.2 1 * (if String.eqb tensor.2.1 "F32" then 4 else 2).
Definition total_bytes (tensors : list (string * (string * list Z))) : Z := foldr (fun x n => tensor_bytes x + n) 0 tensors.
Definition dtype_count (tensors : list (string * (string * list Z))) (dtype : string) : nat :=
  length (List.filter (fun x => String.eqb x.2.1 dtype) tensors).

(** [counts] says of every dtype how many tensors have it. *)
Definition counts_dtypes (tensors : list (string * (string * list Z))) (counts : list (string * Z)) : Prop :=
  NoDup (fst <$> counts) ∧
  ∀ dtype n, dict_get dtype counts = Some n ↔ n = Z.of_nat (dtype_count tensors dtype) ∧ 0 < n.

(** An inspection that has seen [tensors]. *)
Record tallied (tensors : list (string * (string * list Z))) (acc : inspected) : Prop := {
  ta_once : NoDup (fst <$> tensors);
  ta_keys : in_keys acc = list_to_set (fst <$> tensors);
  ta_bytes : in_bytes acc = total_bytes tensors;
  ta_dtypes : counts_dtypes tensors (in_dtypes acc);
}.

Lemma total_bytes_snoc tensors x : total_bytes (tensors ++ [x]) = total_bytes tensors + tensor_bytes x.
Proof. unfold total_bytes. induction tensors as [|y l IH]; simpl in *; lia. Qed.

Lemma dtype_count_snoc tensors x dtype :
  dtype_count (tensors ++ [x]) dtype = (dtype_count tensors dtype + if String.eqb x.2.1 dtype then 1 else 0)%nat.
Proof. unfold dtype_count. rewrite List.filter_app, length_app. simpl. by destruct (String.eqb _ _). Qed.

Lemma counts_dtypes_snoc tensors x counts : counts_dtypes tensors counts →
  counts_dtypes (tensors ++ [x]) (dict_set x.2.1 (default 0 (dict_get x.2.1 counts) + 1) counts).
Proof.
  intros [Hnd Hc]. split; [by apply NoDup_dict_set|]. intros dtype n. rewrite dtype_count_snoc.
  destruct (String.eqb_spec x.2.1 dtype) as [<-|Hne].
  - rewrite dict_get_set_eq. assert (default 0 (dict_get x.2.1 counts) = Z.of_nat (dtype_count tensors x.2.1)) as ->.
    { destruct (dict_get x.2.1 counts) as [k|] eqn:E; [by apply Hc in E as [-> _]|]. simpl.
      destruct (dtype_count tensors x.2.1) as [|k] eqn:Ek; [done|].
      assert (dict_get x.2.1 counts = Some (Z.of_nat (S k))) as E2 by (apply Hc; lia). congruence. }
    split; [intros [= <-]; lia|]. intros [-> _]. f_equal. lia.
  - rewrite dict_get_set_ne by done. by rewrite Nat.add_0_r.
Qed.

Lemma inspect_tensor_tallied cfg tensors acc x acc' : tallied tensors acc → inspect_tensor cfg acc x = Ok acc' →
  tallied (tensors ++ [x]) acc'.
Proof.
  intros [Hn Hk Hb Hd]. destruct x as [key [dtype shape]]. unfold inspect_tensor. intros Hx. inv_guard Hx as Hnew.
  do 3 (inv_guard Hx as _). injection Hx as <-. apply bool_decide_eq_false in Hnew. rewrite Hk, elem_of_list_to_set in Hnew.
  split; simpl; rewrite ?fmap_app; simpl.
  - apply NoDup_app. split_and!; [done| |apply NoDup_singleton]. by intros k Hin ->%list_elem_of_singleton.
  - rewrite Hk, list_to_set_app_L. simpl. set_solver.
  - by rewrite total_bytes_snoc, Hb.
  - by apply (counts_dtypes_snoc tensors (key, (dtype, shape))).
Qed.

Lemma inspect_file_tallied t root cfg vh records acc name acc' tensors : real_dir t root → name_ok name = true →
  tallied tensors acc → inspect_file t safetensors root cfg vh records acc name = Ok acc' →
  tallied (tensors ++ file_tensors t root name) acc'.
Proof.
  intros Hr Hn Hta. unfold inspect_file. intros Hx. inv_guard Hx as Hreg.
  destruct (regular_child _ _ _ Hr Hn Hreg) as (m & data & E & Hb). inv_bind Hx as record Hrec.
  rewrite Hb in Hx. cbn [mbind res_bind] in Hx. inv_guard Hx as Hsize. inv_bind Hx as u Hsha. unfold file_tensors. rewrite E.
  destruct (String.eqb name _); [injection Hx as <-; by rewrite app_nil_r|].
  inv_bind Hx as ts Ht. apply of_option_ok in Ht. inv_bind Hx as acc1 Ha. injection Hx as <-. rewrite Ht. cbn [default].
  apply (for_each_inv (fun pre acc => tallied (tensors ++ pre) acc)) in Ha; [done| |].
  - rewrite app_nil_r. by destruct Hta.
  - intros pre x b b' _ Hp Hb1. rewrite app_assoc. by eapply inspect_tensor_tallied.
Qed.

Lemma inspect_cache_tallied t root index cfg vh records found shards : real_dir t root →
  inspection t root index vh records found shards →
  inspect_cache_tensors t safetensors root index cfg vh records = Ok found →
  tallied (cache_tensors t root (sorted_names (expected_files shards))) found.
Proof.
  intros Hr Hins Hx. destruct (is_keys _ _ _ _ _ _ _ Hins) as (wm & Hwm & _ & Hs). pose proof (is_names _ _ _ _ _ _ _ Hins) as Hok.
  unfold inspect_cache_tensors in Hx. rewrite Hwm in Hx. cbn [mbind res_bind] in Hx. rewrite Hs in Hx.
  cbn [mbind res_bind] in Hx. inv_guard Hx as Hdom. inv_bind Hx as acc Ha. inv_guard Hx as Hk. injection Hx as <-.
  fold (expected_files shards) in Ha. apply (for_each_inv (fun pre acc => tallied (cache_tensors t root pre) acc)) in Ha; [done| |].
  - split; [constructor|done|done|]. split; [constructor|]. intros dtype n. simpl. split; [done|]. unfold dtype_count. simpl. lia.
  - intros pre name b b' Hpre Hp Hb.
    assert (name ∈ expected_files shards) as Hin.
    { apply elem_of_sorted_names. eapply elem_of_prefix; [|exact Hpre]. apply elem_of_app. right. left. }
    destruct (expected_name_ok _ _ Hok Hin) as (Hn & _).
    unfold cache_tensors. rewrite bind_app. simpl. rewrite app_nil_r. by eapply inspect_file_tallied.
Qed.

Lemma tallied_size tensors acc : tallied tensors acc → Z.of_nat (size (in_keys acc)) = Z.of_nat (length tensors).
Proof. intros [Hn -> _ _]. by rewrite size_list_to_set, length_fmap. Qed.

Context (sha256_hex : ∀ s, sha256_text (sha256 s) = true).
Context (json_nonempty : json_loads "" = None) (safetensors_nonempty : safetensors "" = None).
Context (round_trip : json_round_trip).

Definition record_ok (r : file_record) : Prop :=
  fr_name r ≠ "" ∧ basename (fr_name r) = fr_name r ∧ 0 < fr_size r ∧ sha256_text (fr_sha256 r) = true.

Lemma record_fields r : sort_keys (record_value r) =
  PDict (sort_dict [("name", PStr (fr_name r)); ("size", PInt (fr_size r)); ("sha256", PStr (fr_sha256 r))]).
Proof. unfold record_value. by rewrite sort_keys_dict. Qed.

Lemma records_map_snoc l r : NoDup (fr_name <$> l ++ [r]) →
  records_map (l ++ [r]) = <[fr_name r := ManifestRecord (PInt (fr_size r)) (PStr (fr_sha256 r))]> (records_map l).
Proof.
  intros Hnd. unfold records_map. rewrite fmap_app. simpl. apply list_to_map_snoc.
  rewrite fmap_app in Hnd. apply NoDup_app in Hnd as (_ & Hnd & _).
  rewrite <-list_fmap_compose. simpl. intros Hin. apply (Hnd (fr_name r)); [exact Hin|left].
Qed.

Lemma dom_records_map l name : name ∈ dom (records_map l) ↔ name ∈ fr_name <$> l.
Proof. unfold records_map. rewrite dom_list_to_map, elem_of_list_to_set, <-list_fmap_compose. done. Qed.

Lemma read_record_written l r : NoDup (fr_name <$> l ++ [r]) → record_ok r →
  read_record (l, records_map l) (sort_keys (record_value r)) = Ok (l ++ [r], records_map (l ++ [r])).
Proof.
  intros Hnd (Hn & Hb & Hz & Hs). rewrite records_map_snoc by done. rewrite record_fields.
  pose proof (fun k => pget_sort_dict k [("name", PStr (fr_name r)); ("size", PInt (fr_size r));
                                         ("sha256", PStr (fr_sha256 r))]) as HD.
  generalize dependent (sort_dict [("name", PStr (fr_name r)); ("size", PInt (fr_size r));
                                   ("sha256", PStr (fr_sha256 r))]). intros D HD.
  unfold read_record. cbn [as_dict of_option mbind res_bind].
  assert (pget "name" D = PStr (fr_name r)) as -> by apply HD.
  assert (pget "size" D = PInt (fr_size r)) as -> by apply HD.
  assert (pget "sha256" D = PStr (fr_sha256 r)) as -> by apply HD.
  unfold require_sha256, require_string, positive_int.
  apply String.eqb_neq in Hn. rewrite Hn. cbn [mret res_ret mbind res_bind]. rewrite Hb, String.eqb_refl.
  rewrite bool_decide_false; [|rewrite dom_records_map; rewrite fmap_app in Hnd;
    apply NoDup_app in Hnd as (_ & Hnd & _); intros Hin; apply (Hnd (fr_name r)); [exact Hin|left]].
  cbn [negb orb raise_if mbind res_bind]. apply Z.leb_gt in Hz. rewrite Hz. cbn [mret res_ret mbind res_bind].
  destruct (String.eqb_spec (fr_sha256 r) "") as [E|_]; [rewrite E in Hs; by vm_compute in Hs|].
  cbn [mret res_ret mbind res_bind]. rewrite Hs. cbn [negb raise_if mbind res_bind]. by destruct r.
Qed.

Lemma manifest_files_written records : records ≠ [] → NoDup (fr_name <$> records) → Forall record_ok records →
  manifest_files (sort_keys (PList (record_value <$> records))) = Ok (records, records_map records).
Proof.
  intros Hne Hnd Hok. destruct records as [|r0 rs]; [done|]. unfold manifest_files.
  cbn [sort_keys as_list fmap list_fmap List.map of_option mbind res_bind].
  assert (∀ l2 l1, l1 ++ l2 = r0 :: rs →
    for_each (sort_keys <$> (record_value <$> l2)) (l1, records_map l1) read_record =
      Ok (r0 :: rs, records_map (r0 :: rs))) as Hgen; [|exact (Hgen (r0 :: rs) [] eq_refl)].
  induction l2 as [|r l2 IH]; intros l1 Hl.
  - rewrite app_nil_r in Hl. by subst.
  - rewrite !fmap_cons. cbn [for_each]. rewrite read_record_written; [apply IH; by rewrite <-app_assoc| |].
    + rewrite <-Hl in Hnd. replace (l1 ++ r :: l2) with ((l1 ++ [r]) ++ l2) in Hnd by by rewrite <-app_assoc.
      rewrite fmap_app in Hnd. by apply NoDup_app in Hnd as (Hnd & _).
    + rewrite Forall_forall in Hok. apply Hok. rewrite <-Hl. apply elem_of_app. right. left.
Qed.

Lemma records_map_perm l l' : NoDup (fr_name <$> l) → l ≡ₚ l' → records_map l = records_map l'.
Proof.
  intros Hnd Hp. unfold records_map. apply list_to_map_proper; [|by rewrite Hp].
  by rewrite <-list_fmap_compose.
Qed.

(** The records that the producer takes, as the inspection confirms them. *)
Lemma cache_records_ok t files records : cache_records t files = Ok records →
  fr_name <$> records = path_name <$> files ∧ NoDup (fr_name <$> records) ∧
  Forall (fun r => sha256_text (fr_sha256 r) = true) records.
Proof.
  unfold cache_records. intros Hr. apply (for_each_inv (fun pre records =>
    fr_name <$> records = path_name <$> pre ∧ NoDup (fr_name <$> records) ∧
    Forall (fun r => sha256_text (fr_sha256 r) = true) records)) in Hr; [done| |].
  - split_and!; [done|constructor|constructor].
  - intros pre p b b' _ (Hn & Hnd & Hs) Hb. inv_guard Hb as Hg. apply orb_false_iff in Hg as [_ Hg]. bools.
    inv_bind Hb as data Hd. inv_bind Hb as digest Hsha. injection Hb as <-. unfold sha256_file in Hsha.
    rewrite Hd in Hsha. injection Hsha as <-. rewrite !fmap_app, Hn. split_and!; [done| |].
    + apply NoDup_app. split_and!; [by rewrite <-Hn| |apply NoDup_singleton]. simpl.
      intros n Hin1 ->%list_elem_of_singleton. by rewrite <-Hn in Hin1.
    + apply Forall_app. split; [done|]. by constructor; [apply sha256_hex|].
Qed.

Lemma producer_records_ok t root index cfg files records found : real_dir t root →
  cache_records t files = Ok records →
  inspect_cache_tensors t safetensors root index cfg true (records_map records) = Ok found →
  is_Some (json_loads (match t !! (root ++ [KT_NON_EXPERT_INDEX_NAME]) with Some (NFile _ data) => data | _ => "" end)) →
  Forall record_ok records.
Proof.
  intros Hr Hc Hi Hj. destruct (cache_records_ok _ _ _ Hc) as (_ & Hnd & Hsha).
  destruct (inspect_cache_ok _ _ _ _ _ _ _ Hr Hi) as [shards [Hnames Hdom Hfiles _ _]].
  rewrite Forall_forall in Hsha |- *. intros r Hin.
  assert (fr_name r ∈ expected_files shards) as Hexp.
  { rewrite <-Hdom. apply dom_records_map, list_elem_of_fmap. eauto. }
  destruct (expected_name_ok _ _ Hnames Hexp) as (Hok & _ & Hb).
  destruct (Hfiles _ Hexp) as (m & data & record & E & Hrec & Hsize & _ & Hst).
  assert (records_map records !! fr_name r = Some (ManifestRecord (PInt (fr_size r)) (PStr (fr_sha256 r)))) as Hrec'.
  { unfold records_map. apply elem_of_list_to_map_1; [by rewrite <-list_fmap_compose|].
    apply list_elem_of_fmap. eauto. }
  rewrite Hrec in Hrec'. injection Hrec' as ->. simpl in Hsize. apply Z.eqb_eq in Hsize.
  assert (data ≠ "") as Hne.
  { intros ->. destruct (decide (fr_name r = KT_NON_EXPERT_INDEX_NAME)) as [En|En].
    - rewrite En in E. rewrite E, json_nonempty in Hj. by destruct Hj.
    - destruct (Hst En) as [x Hx]. by rewrite safetensors_nonempty in Hx. }
  split_and!; [intros En; by rewrite En in Hok|done| |by apply Hsha].
  rewrite <-Hsize. unfold FS.file_size. destruct data; [done|]. simpl. lia.
Qed.

(** ** Reading back what was published *)

Lemma require_sha256_ok s : sha256_text s = true → require_sha256 (PStr s) = Ok s.
Proof.
  intros Hs. unfold require_sha256, require_string.
  destruct (String.eqb_spec s "") as [->|_]; [by vm_compute in Hs|].
  cbn [mret res_ret mbind res_bind]. by rewrite Hs.
Qed.

Lemma same_source_refl t cwd s : same_source t cwd s s = true.
Proof.
  unfold same_source. destruct (_ || _); [by apply bool_decide_true|apply String.eqb_refl].
Qed.

(** A file of the source that the producer hashed. *)
Definition hashed (t : fs) (p : path) (digest : string) : Prop :=
  p_is_symlink t p || negb (p_is_file t p) = false ∧ ∃ data, read_bytes t p = Ok data ∧ digest = sha256 data.

Lemma read_json_hashed t p d : read_json t p = Ok d →
  p_is_symlink t p || negb (p_is_file t p) = false ∧ ∃ data, read_bytes t p = Ok data ∧ json_loads data = Some (PDict d).
Proof.
  unfold read_json. intros Hr. inv_guard Hr as Hg. split; [done|]. inv_bind Hr as v Hv. unfold catch in Hv.
  destruct (read_bytes t p) as [data|e]; cbn [mbind res_bind] in Hv; [|by case_bool_decide].
  exists data. split; [done|]. apply of_option_ok, as_dict_Some in Hr as ->.
  destruct (json_loads data) as [v|]; [by injection Hv as ->|by vm_compute in Hv].
Qed.

Lemma check_source_file_ok t record field p digest : pget field record = PStr digest → hashed t p digest →
  check_source_file t record field p = Ok digest.
Proof.
  intros Hf (Hg & data & Hd & ->). unfold check_source_file. rewrite Hf, require_sha256_ok by apply sha256_hex.
  cbn [mbind res_bind]. rewrite Hg. cbn [raise_if mbind res_bind]. unfold sha256_file. rewrite Hd.
  cbn [mret res_ret mbind res_bind]. by rewrite String.eqb_refl.
Qed.

Lemma check_source_written t cwd source config_digest index_digest D :
  let fingerprint := source_fingerprint_of config_digest index_digest in
  (∀ k, pget k D = sort_keys (pget k [("model_name_or_path", PStr (path_text source));
     ("fingerprint", PStr fingerprint); ("config_sha256", PStr config_digest); ("index_sha256", PStr index_digest)])) →
  hashed t (source ++ ["config.json"]) config_digest →
  hashed t (source ++ [KT_NON_EXPERT_INDEX_NAME]) index_digest →
  check_source t cwd source (PInt KT_NON_EXPERT_MANIFEST_VERSION) D = Ok fingerprint.
Proof.
  intros fingerprint HD Hc Hi. unfold check_source.
  assert (pget "model_name_or_path" D = PStr (path_text source)) as -> by apply HD.
  assert (pget "fingerprint" D = PStr fingerprint) as -> by apply HD.
  assert (require_string (PStr (path_text source)) = Ok (path_text source)) as -> by done.
  cbn [mbind res_bind]. rewrite same_source_refl. cbn [negb raise_if mbind res_bind].
  rewrite require_sha256_ok by apply sha256_hex. cbn [mbind res_bind].
  rewrite (check_source_file_ok _ _ "config_sha256" _ config_digest) by (done || apply HD). cbn [mbind res_bind].
  rewrite (check_source_file_ok _ _ "index_sha256" _ index_digest) by (done || apply HD). cbn [mbind res_bind].
  fold fingerprint. by rewrite String.eqb_refl.
Qed.

Lemma plain_counts d : NoDup (fst <$> d) → plain (counts_value d) = true.
Proof.
  intros Hd. unfold counts_value. cbn [plain]. rewrite <-list_fmap_compose. simpl.
  rewrite bool_decide_true by done. simpl. apply forallb_forall. intros [k v] Hin%list_elem_of_In.
  by apply list_elem_of_fmap in Hin as ([k1 v1] & [= -> ->] & _).
Qed.

Lemma check_tensors_written found D :
  counted found →
  (∀ k, pget k D = sort_keys (pget k [("count", PInt (Z.of_nat (size (in_keys found)))); ("bytes", PInt (in_bytes found));
                                      ("dtypes", counts_value (in_dtypes found))])) →
  check_tensors (PDict D) found = Ok tt.
Proof.
  intros Hc HD. unfold check_tensors. cbn [as_dict of_option mbind res_bind].
  assert (pget "count" D = PInt (Z.of_nat (size (in_keys found)))) as -> by apply HD.
  assert (pget "bytes" D = PInt (in_bytes found)) as -> by apply HD.
  assert (pget "dtypes" D = sort_keys (counts_value (in_dtypes found))) as -> by apply HD.
  rewrite (py_eq_sort_keys _ (plain_counts _ Hc)). simpl. by rewrite !Z.eqb_refl.
Qed.

Lemma fp8_block_size_ok q l : fp8_block_size q = Ok l → ∃ a b, l = [PInt a; PInt b].
Proof. unfold fp8_block_size, artifact_error, mret, res_ret. intros Hr. repeat case_match; simplify_eq; eauto. Qed.

Lemma converter_written producer a b :
  py_eq (sort_keys (converter_value producer (PInt 2) [PInt a; PInt b])) (converter_value producer (PInt 2) [PInt a; PInt b])
    = true.
Proof. by apply py_eq_sort_keys. Qed.

(** The fields of a published manifest, as they are read back. *)
Lemma manifest_fields source sf cd sd bs rl found D :
  (∀ k, pget k D = sort_keys (pget k (manifest_value json_compact source sf cd sd bs rl found))) →
  pget "version" D = PInt 2 ∧ pget "status" D = PStr "ready" ∧
  pget "fingerprint" D = PStr (cache_fingerprint json_compact 2 sf rl (Z.of_nat (size (in_keys found)))
                                 (in_bytes found) (in_dtypes found)) ∧
  pget "source" D = sort_keys (PDict [("model_name_or_path", PStr (path_text source)); ("fingerprint", PStr sf);
                                      ("config_sha256", PStr cd); ("index_sha256", PStr sd)]) ∧
  pget "converter" D = sort_keys (converter_value NON_EXPERT_PRODUCER (PInt 2) bs) ∧
  pget "files" D = sort_keys (PList (record_value <$> rl)) ∧
  pget "tensors" D = sort_keys (PDict [("count", PInt (Z.of_nat (size (in_keys found)))); ("bytes", PInt (in_bytes found));
                                       ("dtypes", counts_value (in_dtypes found))]).
Proof.
  intros HD. rewrite !HD. unfold manifest_value, KT_NON_EXPERT_MANIFEST_VERSION. generalize (cache_fingerprint json_compact
    2 sf rl (Z.of_nat (size (in_keys found))) (in_bytes found) (in_dtypes found)).
  intros fp. split_and!; reflexivity.
Qed.

(** The tree after the manifest was published. *)
Definition with_manifest (t : fs) (root : path) (m : meta) (payload : list (string * pyval)) : fs :=
  <[root ++ [KT_NON_EXPERT_MANIFEST_NAME] :=
      NFile m (json_dumps (sort_keys (PDict payload)) ++ String "010" "")%string]> t.

Lemma with_manifest_sub t root m payload : t !! (root ++ [KT_NON_EXPERT_MANIFEST_NAME]) = None →
  t ⊆ with_manifest t root m payload.
Proof. apply insert_subseteq. Qed.

Lemma with_manifest_other t root m payload p n : real_dir t p → n ≠ KT_NON_EXPERT_MANIFEST_NAME →
  with_manifest t root m payload !! (p ++ [n]) = t !! (p ++ [n]).
Proof. intros _ Hn. apply lookup_insert_ne. intros E. apply app_inj_tail in E as [_ E]. congruence. Qed.

Lemma read_manifest t root m payload : real_dir (with_manifest t root m payload) root →
  read_json (with_manifest t root m payload) (root ++ [KT_NON_EXPERT_MANIFEST_NAME]) = Ok (sort_dict payload).
Proof.
  intros Hr. set (t' := with_manifest t root m payload) in *. set (name := KT_NON_EXPERT_MANIFEST_NAME).
  assert (t' !! (root ++ [name]) = Some (NFile m (json_dumps (sort_keys (PDict payload)) ++ String "010" "")%string)) as E
    by (unfold t', with_manifest; by rewrite lookup_insert, decide_True).
  assert (name_ok name = true) as Hn by done.
  pose proof (stat_child t' root name Hr Hn) as Hs. rewrite E in Hs.
  unfold read_json, p_is_symlink, p_is_file, read_bytes. rewrite lstat_child, E, Hs by done.
  cbn [is_NLink is_NFile negb orb raise_if mbind res_bind]. rewrite round_trip, sort_keys_dict. done.
Qed.

Lemma real_dir_mono t t' p : t ⊆ t' → real_dir t p → real_dir t' p.
Proof.
  intros Hs [Hn Hd]. split; [done|]. intros q Hq Hne. destruct (Hd q Hq Hne) as [m Hm]. exists m.
  by eapply lookup_weaken.
Qed.

Lemma hashed_same t t' p n digest : real_dir t p → real_dir t' p → name_ok n = true →
  t' !! (p ++ [n]) = t !! (p ++ [n]) → hashed t (p ++ [n]) digest → hashed t' (p ++ [n]) digest.
Proof.
  intros H1 H2 Hn Hs (Hg & data & Hd & Hx). split; [by rewrite (regular_same t t')|].
  exists data. by rewrite (bytes_same t t').
Qed.

Lemma written_manifest_validates t cwd cache_path source_model root payload m vh : fs_wf t →
  non_expert_manifest t json_compact safetensors cache_path source_model = Ok (root, payload) →
  t !! (root ++ [KT_NON_EXPERT_MANIFEST_NAME]) = None →
  ∃ c, validate_non_expert_cache (with_manifest t root m payload) json_compact safetensors cwd cache_path source_model vh
         = Ok c ∧ nc_path c = path_text root ∧ nc_manifest c = sort_dict payload.
Proof.
  intros Hwf Hp Hnone. unfold non_expert_manifest in Hp. set (t' := with_manifest t root m payload).
  inv_bind Hp as root0 Hroot. inv_bind Hp as source Hsource. inv_guard Hp as Hex. inv_bind Hp as cfg Hcfg.
  inv_bind Hp as sidx Hsidx. inv_bind Hp as cidx Hcidx. inv_bind Hp as cd Hcd. inv_bind Hp as sd Hsd.
  inv_bind Hp as names Hnames. inv_bind Hp as records Hrec. inv_bind Hp as found Hfound.
  inv_bind Hp as q Hq. inv_bind Hp as bs Hbs. injection Hp as -> Hpay.
  pose proof (with_manifest_sub t root m payload Hnone) as Hsub. fold t' in Hsub.
  pose proof (safe_root_real _ _ _ Hwf Hroot) as Hr. pose proof (safe_root_real _ _ _ Hwf Hsource) as Hs.
  pose proof (real_dir_mono _ _ _ Hsub Hr) as Hr'. pose proof (real_dir_mono _ _ _ Hsub Hs) as Hs'.
  assert (∀ p n, real_dir t p → name_ok n = true → n ≠ KT_NON_EXPERT_MANIFEST_NAME →
            t' !! (p ++ [n]) = t !! (p ++ [n])) as Hsame by (intros; by apply with_manifest_other).
  assert (hashed t (source ++ ["config.json"]) cd) as Hhc.
  { destruct (read_json_hashed _ _ _ Hcfg) as (Hg & data & Hd & _). split; [done|]. exists data. split; [done|].
    unfold sha256_file in Hcd. rewrite Hd in Hcd. by injection Hcd. }
  assert (hashed t (source ++ [KT_NON_EXPERT_INDEX_NAME]) sd) as Hhi.
  { destruct (read_json_hashed _ _ _ Hsidx) as (Hg & data & Hd & _). split; [done|]. exists data. split; [done|].
    unfold sha256_file in Hsd. rewrite Hd in Hsd. by injection Hsd. }
  apply (hashed_same t t') in Hhc; [|done..|by apply Hsame]. apply (hashed_same t t') in Hhi; [|done..|by apply Hsame].
  destruct (inspect_cache_ok _ _ _ _ _ _ _ Hr Hfound) as [shards Hins].
  destruct (cache_records_ok _ _ _ Hrec) as (Hnm & Hnd & _).
  set (rl := merge_sort by_name records) in *.
  assert (rl ≡ₚ records) as Hperm by apply merge_sort_Permutation.
  assert (Forall record_ok rl) as Hok.
  { rewrite Hperm. eapply (producer_records_ok t root); [exact Hr|exact Hrec|exact Hfound|].
    destruct (read_json_hashed _ _ _ Hcidx) as (Hg & data & Hd & Hj).
    destruct (regular_child t root KT_NON_EXPERT_INDEX_NAME Hr eq_refl Hg) as (m1 & data1 & E & Hd1).
    rewrite E. rewrite Hd in Hd1. injection Hd1 as <-. by rewrite Hj. }
  destruct (fp8_block_size_ok _ _ Hbs) as (a & b & ->).
  pose proof (fun k => pget_sort_dict k payload) as HD. pose proof (read_manifest t root m payload Hr') as Hman.
  fold t' in Hman. revert HD Hman. generalize (sort_dict payload). intros D HD Hman.
  unfold validate_non_expert_cache. rewrite (safe_root_mono t t' _ _ Hwf Hsub Hroot). cbn [mbind res_bind].
  rewrite (safe_root_mono t t' _ _ Hwf Hsub Hsource). cbn [mbind res_bind]. rewrite Hman. cbn [mbind res_bind].
  rewrite <-Hpay in HD. destruct (manifest_fields _ _ _ _ _ _ _ _ HD) as (-> & -> & -> & -> & -> & -> & ->).
  rewrite !sort_keys_dict. set (Dsrc := sort_dict [("model_name_or_path", _); _; _; _]).
  set (Dten := sort_dict [("count", _); _; _]).
  assert (check_source t' cwd source (PInt 2) Dsrc = Ok (source_fingerprint_of cd sd)) as Hsrc
    by (apply check_source_written; [intros k; apply pget_sort_dict|done..]).
  assert (check_tensors (PDict Dten) found = Ok tt) as Hten
    by (apply check_tensors_written; [apply Hins|intros k; apply pget_sort_dict]).
  rewrite (bind_run (check_version (PInt 2)) _ tt eq_refl). rewrite (bind_run (raise_if _ _ _) _ tt) by reflexivity.
  rewrite (bind_run _ _ _ (require_sha256_ok (cache_fingerprint json_compact 2 _ rl _ _ _) (sha256_hex _))).
  rewrite (bind_run (of_option (as_dict (PDict Dsrc)) _ _) _ Dsrc eq_refl).
  rewrite (bind_run _ _ _ Hsrc). rewrite (read_json_same t t' source "config.json") by (done || by apply Hsame).
  rewrite (bind_run _ _ _ Hcfg), (bind_run _ _ _ Hq), (bind_run _ _ _ Hbs).
  change (if py_eq (PInt 2) (PInt 1) then LEGACY_NON_EXPERT_PRODUCER else NON_EXPERT_PRODUCER) with NON_EXPERT_PRODUCER.
  rewrite converter_written. rewrite (bind_run (raise_if _ _ _) _ tt) by reflexivity.
  assert (manifest_files (sort_keys (PList (record_value <$> rl))) = Ok (rl, records_map records)) as Hmf.
  { rewrite <-(records_map_perm rl records); [|by rewrite Hperm|done].
    apply manifest_files_written; [|by rewrite Hperm|done].
    intros E. rewrite E in Hperm. apply Permutation_nil_l in Hperm. rewrite <-Hperm in Hnm. discriminate Hnm. }
  rewrite (bind_run _ _ _ Hmf). rewrite (read_json_same t t' root KT_NON_EXPERT_INDEX_NAME) by (done || by apply Hsame).
  rewrite (bind_run _ _ _ Hcidx).
  rewrite (bind_run _ _ found) by (eapply (inspect_transfer t); [exact Hr|exact Hr'| |exact Hfound]; intros; by apply Hsame).
  rewrite (bind_run _ _ _ Hten). rewrite (bind_run (py_int (PInt 2)) _ 2 eq_refl). rewrite String.eqb_refl.
  rewrite (bind_run (raise_if _ _ _) _ tt) by reflexivity. by eexists.
Qed.

(** ** What a validated cache is *)

Lemma require_sha256_inv v s : require_sha256 v = Ok s → v = PStr s.
Proof.
  unfold require_sha256. intros He. inv_bind He as s1 Hs. inv_guard He as Hok. injection He as ->.
  unfold require_string, artifact_error in Hs. destruct v as [| | | |s0| |]; try done. destruct (String.eqb s0 ""); [done|].
  by injection Hs as ->.
Qed.

Lemma check_source_file_inv t record field p digest : check_source_file t record field p = Ok digest →
  pget field record = PStr digest ∧ hashed t p digest.
Proof.
  unfold check_source_file. intros Hr. inv_bind Hr as expected He. inv_guard Hr as Hg. inv_bind Hr as d Hd.
  inv_guard Hr as Hx. injection Hr as ->. apply negb_false_iff, String.eqb_eq in Hx. subst d. apply require_sha256_inv in He.
  split; [done|]. split; [done|]. unfold sha256_file in Hd. inv_bind Hd as data Hdata. injection Hd as <-. eauto.
Qed.

Lemma check_source_inv t cwd source version record fingerprint : check_source t cwd source version record = Ok fingerprint →
  ∃ config_digest index_digest,
    hashed t (source ++ ["config.json"]) config_digest ∧ pget "config_sha256" record = PStr config_digest ∧
    hashed t (source ++ [KT_NON_EXPERT_INDEX_NAME]) index_digest ∧ pget "index_sha256" record = PStr index_digest ∧
    pget "fingerprint" record = PStr fingerprint ∧
    (py_eq version (PInt KT_NON_EXPERT_MANIFEST_VERSION) = true → fingerprint = source_fingerprint_of config_digest index_digest).
Proof.
  unfold check_source. intros Hx. inv_bind Hx as rs Hrs. inv_guard Hx as Hsame. inv_bind Hx as sfp Hsfp.
  inv_bind Hx as cd Hcd. inv_bind Hx as sd Hsd. inv_guard Hx as Hver. injection Hx as <-.
  apply check_source_file_inv in Hcd as [Hcd1 Hcd2]. apply check_source_file_inv in Hsd as [Hsd1 Hsd2].
  exists cd, sd. split_and!; try done; [by apply require_sha256_inv|]. intros E. rewrite E in Hver. simpl in Hver.
  by apply negb_false_iff, String.eqb_eq in Hver.
Qed.

Lemma check_tensors_inv tensors found : check_tensors tensors found = Ok tt → ∃ d, tensors = PDict d ∧
  py_eq (pget "count" d) (PInt (Z.of_nat (size (in_keys found)))) = true ∧
  py_eq (pget "bytes" d) (PInt (in_bytes found)) = true ∧ py_eq (pget "dtypes" d) (counts_value (in_dtypes found)) = true.
Proof.
  unfold check_tensors. intros Hx. inv_bind Hx as d Hd. inv_guard Hx as Hc. apply raise_if_ok in Hx.
  apply of_option_ok, as_dict_Some in Hd. exists d. apply orb_false_iff in Hx as [Hb Hdt].
  apply negb_false_iff in Hc, Hb, Hdt. done.
Qed.

(** Whatever was checked of a validated cache. *)
Record valid_cache (t : fs) (root source : path) (vh : bool) (c : KTNonExpertCache) (index : list (string * pyval))
    (records : gmap string manifest_record) (shards : gset string) : Prop := {
  vc_manifest : read_json t (root ++ [KT_NON_EXPERT_MANIFEST_NAME]) = Ok (nc_manifest c);
  vc_config : read_json t (source ++ ["config.json"]) = Ok (nc_source_config c);
  vc_status : py_eq (pget "status" (nc_manifest c)) (PStr "ready") = true;
  vc_source : ∃ record config_digest index_digest, pget "source" (nc_manifest c) = PDict record ∧
    hashed t (source ++ ["config.json"]) config_digest ∧ pget "config_sha256" record = PStr config_digest ∧
    hashed t (source ++ [KT_NON_EXPERT_INDEX_NAME]) index_digest ∧ pget "index_sha256" record = PStr index_digest ∧
    (py_eq (pget "version" (nc_manifest c)) (PInt KT_NON_EXPERT_MANIFEST_VERSION) = true →
     pget "fingerprint" record = PStr (source_fingerprint_of config_digest index_digest));
  vc_converter : ∃ producer quantization block_size, producer ∈ [LEGACY_NON_EXPERT_PRODUCER; NON_EXPERT_PRODUCER] ∧
    fp8_quantization (nc_source_config c) = Ok quantization ∧ fp8_block_size quantization = Ok block_size ∧
    py_eq (pget "converter" (nc_manifest c)) (converter_value producer (pget "version" (nc_manifest c)) block_size) = true;
  vc_index : read_json t (root ++ [KT_NON_EXPERT_INDEX_NAME]) = Ok index;
  vc_inventory : dom records = expected_files shards;
  vc_files : ∀ name, name ∈ expected_files shards → file_matches t root vh records name;
  vc_tensors : ∀ name, name ∈ shards → shard_tensors_ok t root (nc_source_config c) name;
  vc_keys : ∀ key, key ∈ nc_weight_keys c ↔ holds_key t root (sorted_names (expected_files shards)) key;
  vc_tally : ∃ record tensors version source_fingerprint counts files,
    let held := cache_tensors t root (sorted_names (expected_files shards)) in
    NoDup (fst <$> held) ∧ counts_dtypes held counts ∧
    pget "tensors" (nc_manifest c) = PDict tensors ∧
    py_eq (pget "count" tensors) (PInt (Z.of_nat (length held))) = true ∧
    py_eq (pget "bytes" tensors) (PInt (total_bytes held)) = true ∧
    py_eq (pget "dtypes" tensors) (counts_value counts) = true ∧
    py_int (pget "version" (nc_manifest c)) = Ok version ∧
    pget "source" (nc_manifest c) = PDict record ∧ pget "fingerprint" record = PStr source_fingerprint ∧
    manifest_files (pget "files" (nc_manifest c)) = Ok (files, records) ∧
    pget "fingerprint" (nc_manifest c) =
      PStr (cache_fingerprint json_compact version source_fingerprint files (Z.of_nat (length held)) (total_bytes held) counts);
  vc_weight_map : ∃ wm, weight_map_of index = Ok wm ∧ nc_weight_keys c = list_to_set (fst <$> wm) ∧
    index_shards wm = Ok shards;
  vc_checkpoint_files : nc_checkpoint_files c = (fun name => path_text (root ++ [name])) <$>
    List.filter (fun name => negb (String.eqb name KT_NON_EXPERT_INDEX_NAME)) (sorted_names (expected_files shards));
}.

(** The facts behind an accepted cache. *)
Lemma validated_cache_facts (t : fs) (cwd : path) (cache_path source_model : string) (verify_hashes : bool)
    (c : KTNonExpertCache) :
  fs_wf t →
  validate_non_expert_cache t json_compact safetensors cwd cache_path source_model verify_hashes = Ok c →
  ∃ root source index records shards,
    safe_root t cache_path = Ok root ∧ safe_root t source_model = Ok source ∧
    valid_cache t root source verify_hashes c index records shards.
Proof.
  intros Hwf. unfold validate_non_expert_cache. intros Hx. inv_bind Hx as root Hroot. inv_bind Hx as source Hsource.
  inv_bind Hx as manifest Hman. inv_bind Hx as u1 Hver. inv_guard Hx as Hst. inv_bind Hx as fp Hfp.
  inv_bind Hx as srec Hsrec. inv_bind Hx as sf Hsf. inv_bind Hx as cfg Hcfg. inv_bind Hx as q Hq.
  inv_bind Hx as bs Hbs. inv_guard Hx as Hconv. inv_bind Hx as [files records] Hfiles. inv_bind Hx as index Hidx.
  inv_bind Hx as found Hfound. inv_bind Hx as [] Hten. inv_bind Hx as ver Hv. inv_guard Hx as Hfpr.
  injection Hx as <-. pose proof (safe_root_real _ _ _ Hwf Hroot) as Hr.
  destruct (inspect_keys _ _ _ _ _ _ _ Hr Hfound) as (shards & Hins & Ht & Hk & Hf).
  exists root, source, index, records, shards. split; [done|]. split; [done|].
  pose proof (inspect_cache_tallied _ _ _ _ _ _ _ _ Hr Hins Hfound) as Hta. pose proof (tallied_size _ _ Hta) as Hsize.
  destruct Hins as [Hnames Hdom Hfm _ Hwm]. apply of_option_ok, as_dict_Some in Hsrec.
  destruct (check_source_inv _ _ _ _ _ _ Hsf) as (cd & sd & Hcd1 & Hcd2 & Hsd1 & Hsd2 & Hsfp & Hsver).
  destruct (check_tensors_inv _ _ Hten) as (ts & Hts & Hcount & Hbytes & Hdtypes).
  apply require_sha256_inv in Hfp. apply negb_false_iff, String.eqb_eq in Hfpr. rewrite Hsize in Hcount, Hfpr.
  pose proof (ta_bytes _ _ Hta) as Hb. rewrite Hb in Hbytes, Hfpr. apply negb_false_iff in Hst, Hconv.
  split; simpl; try done.
  - exists srec, cd, sd. split_and!; try done. intros E. by rewrite <-(Hsver E).
  - eexists _, q, bs. split; [|exact (conj Hq (conj Hbs Hconv))]. destruct (py_eq _ (PInt 1)); [left|right; left].
  - exists srec, ts, ver, sf, (in_dtypes found), files. split_and!; try done; [apply Hta..|]. by rewrite Hfp, Hfpr.
Qed.

(** C18. A cache that [_validate_non_expert_cache] accepts is exactly what its
    manifest and index say: the inventory of the manifest is the index and the
    shards it names, each a regular file of the recorded size and, when hashes
    are verified, of the recorded SHA-256; the weight keys are the index's keys
    and the keys the shards hold; every tensor is BF16, or F32 for a router
    bias, none occurs twice, and none belongs to a routed expert, to an FP8 scale
    or to the rejected prediction layer; the recorded number of tensors, their
    bytes and their number of each dtype are those of the shards; the source's
    configuration and index have the recorded digests; and the fingerprint is
    that of the files' records, of these counts and of the source. *)
Theorem validated_cache_is_exact (t : fs) (cwd : path) (cache_path source_model : string) (verify_hashes : bool)
    (c : KTNonExpertCache) :
  fs_wf t →
  validate_non_expert_cache t json_compact safetensors cwd cache_path source_model verify_hashes = Ok c →
  ∃ root source index records shards,
    safe_root t cache_path = Ok root ∧ safe_root t source_model = Ok source ∧
    valid_cache t root source verify_hashes c index records shards.
Proof. apply validated_cache_facts. Qed.

(** ** Publishing *)

Lemma temp_json_name_ok rnd : no_slash rnd = true →
  name_ok (temp_json_name KT_NON_EXPERT_MANIFEST_NAME rnd) = true ∧
  temp_json_name KT_NON_EXPERT_MANIFEST_NAME rnd ≠ KT_NON_EXPERT_MANIFEST_NAME.
Proof.
  intros Hr. split; [|discriminate]. unfold name_ok.
  assert (no_slash (temp_json_name KT_NON_EXPERT_MANIFEST_NAME rnd) = true) as ->; [|done].
  unfold temp_json_name. by rewrite !no_slash_app, Hr.
Qed.

Lemma write_json_atomic_ok w w' root rnd payload : fs_wf (w_fs w) → real_dir (w_fs w) root → no_slash rnd = true →
  w_fs w !! (root ++ [KT_NON_EXPERT_MANIFEST_NAME]) = None →
  write_json_atomic root KT_NON_EXPERT_MANIFEST_NAME rnd payload w = (w', Ok tt) →
  w_fs w' = with_manifest (w_fs w) root (new_meta w) payload ∧
  ∀ tr, tr ∈ w_hist w' →
    tr ∈ w_hist w ∨ tr !! (root ++ [KT_NON_EXPERT_MANIFEST_NAME]) = None ∨ tr = w_fs w'.
Proof.
  intros Hwf Hr Hrnd Hnone. destruct (temp_json_name_ok rnd Hrnd) as [Hn Hne]. unfold write_json_atomic.
  set (temp := temp_json_name _ _) in *. set (text := (_ ++ String "010" "")%string). set (t := w_fs w) in *.
  assert (root ++ [KT_NON_EXPERT_MANIFEST_NAME] ≠ root ++ [temp]) as Hne'
    by (intros E; apply app_inj_tail in E as [_ E]; congruence).
  intros Hx. apply bindM_ok in Hx as (w1 & [] & H1 & H2).
  rewrite write_new_child in H1 by done. fold t in H1. destruct (t !! (root ++ [temp])) eqn:Et; [done|].
  simpl in H1. injection H1 as <-.
  set (t1 := <[root ++ [temp] := NFile (new_meta w) text]> (<[root ++ [temp] := NFile (new_meta w) ""]> t)) in *.
  assert (t1 = <[root ++ [temp] := NFile (new_meta w) text]> t) as Ht1 by (unfold t1; by rewrite insert_insert_eq).
  assert (t1 !! (root ++ [KT_NON_EXPERT_MANIFEST_NAME]) = None) as Hn1 by by rewrite Ht1, lookup_insert_ne.
  unfold on_exception in H2.
  destruct (real_dir_lookup t root Hwf Hr) as [md Hmd].
  rewrite (replace_child _ root temp KT_NON_EXPERT_MANIFEST_NAME (NFile (new_meta w) text)) in H2; simpl; try done.
  - simpl in H2. rewrite Hn1 in H2. injection H2 as <-. simpl. split.
    + rewrite Ht1, delete_insert_id; [done|]. done.
    + intros tr [-> |[-> |[-> |Hin]%elem_of_cons]%elem_of_cons]%elem_of_cons; auto.
      right. left. by rewrite lookup_insert_ne.
  - rewrite Ht1. eapply fs_wf_insert; [done|done|exact Hmd|by rewrite Et].
  - rewrite Ht1. apply (real_dir_same t); [|done]. apply same_dirs_insert. by rewrite Et.
  - by rewrite Ht1, lookup_insert, decide_True.
Qed.

(** C17. The manifest that [write_kt_non_expert_cache_manifest] publishes is one
    that [_validate_non_expert_cache] accepts: after the producer returns, the
    cache of the same source validates, with or without hashing, from any
    working directory, and the validated manifest is the one published.  The
    manifest appears at once: every tree of the write is without it or the
    final one.  No link lies under the manifest's name, SHA-256 digests are 64
    hex digits, the empty text is no JSON and no safetensors file, and
    [json.load] reads what [json.dump] wrote. *)
Theorem published_cache_validates (w w' : world) (cache_path source_model rnd : string)
    (payload : list (string * pyval)) :
  fs_wf (w_fs w) → no_slash rnd = true →
  (∀ root, safe_root (w_fs w) cache_path = Ok root → w_fs w !! (root ++ [KT_NON_EXPERT_MANIFEST_NAME]) = None) →
  write_kt_non_expert_cache_manifest json_compact safetensors rnd cache_path source_model w = (w', Ok payload) →
  ∃ root, safe_root (w_fs w) cache_path = Ok root ∧
    (∀ cwd verify_hashes, ∃ c,
       validate_non_expert_cache (w_fs w') json_compact safetensors cwd cache_path source_model verify_hashes = Ok c ∧
       nc_path c = path_text root ∧ nc_manifest c = sort_dict payload) ∧
    (∀ k, k ≠ root ++ [KT_NON_EXPERT_MANIFEST_NAME] → w_fs w' !! k = w_fs w !! k) ∧
    ∀ tr, tr ∈ w_hist w' →
      tr ∈ w_hist w ∨ tr !! (root ++ [KT_NON_EXPERT_MANIFEST_NAME]) = None ∨ tr = w_fs w'.
Proof.
  intros Hwf Hrnd Hnone. unfold write_kt_non_expert_cache_manifest. rewrite bindM_gets_res.
  destruct (non_expert_manifest _ _ _ _ _) as [[root p]|e] eqn:Hp; [|done]. intros Hx.
  apply bindM_ok in Hx as (w1 & [] & Hw & Hx). unfold mret, M_ret in Hx. injection Hx as -> ->.
  assert (safe_root (w_fs w) cache_path = Ok root) as Hroot.
  { unfold non_expert_manifest in Hp. inv_bind Hp as r Hr. inv_bind Hp as src Hs. inv_guard Hp as Hex.
    do 5 (inv_bind Hp as ? ?). do 5 (inv_bind Hp as ? ?). by injection Hp as -> _. }
  exists root. split; [done|]. specialize (Hnone _ Hroot).
  apply write_json_atomic_ok in Hw as [Ht Hh]; [|done|by eapply safe_root_real|done..].
  rewrite Ht. split_and!.
  - intros cwd vh. by apply (written_manifest_validates _ cwd _ _ _ _ (new_meta w) vh Hwf Hp Hnone).
  - intros k Hk. unfold with_manifest. by rewrite lookup_insert_ne.
  - intros tr Htr. rewrite <-Ht. by apply Hh.
Qed.
End spec.
