(* ===== verification/ArtifactsExample.v ===== *)
(** * A non-expert cache

    A small source checkpoint and its converted cache: the producer publishes
    the manifest and the validator accepts it.  Digests are constant, the
    serialiser is the one of JsonCodec. *)
From S2P Require Import Prelude PyStr PyVal JsonCodec FS Artifacts ArtifactsSpec.
From Stdlib Require Import Ascii.

Local Open Scope string_scope.
Local Open Scope list_scope.
Local Open Scope Z_scope.

Definition digest : string := "00112233445566778899aabbccddeeff00112233445566778899aabbccddeeff".

#[local] Instance demo : Platform := {|
  sha256 _ := digest;
  json_loads := @json_loads codec;
  json_dumps := @json_dumps codec;
  py_repr := @py_repr codec;
|}.

Lemma demo_hex s : sha256_text (sha256 s) = true.
Proof. reflexivity. Qed.

Definition norm : string := "model.norm.weight".
Definition router_bias : string := "model.layers.3.mlp.gate.e_score_correction_bias".

Definition tensors_of (data : string) : option (list (string * (string * list Z))) :=
  if String.eqb data "shard" then Some [(norm, ("BF16", [4])); (router_bias, ("F32", [2; 3]))] else None.

Definition text (v : pyval) : string := (json_dumps v ++ String "010" "")%string.
Definition dm : meta := Meta 0 493.
Definition fm : meta := Meta 0 420.

Definition source_config : pyval :=
  PDict [("num_hidden_layers", PInt 4); ("model_type", PStr "deepseek_v3");
         ("quantization_config", PDict [("quant_method", PStr "fp8"); ("weight_block_size", PList [PInt 128; PInt 128])])].
Definition cache_index : pyval :=
  PDict [("weight_map", PDict [(norm, PStr "part-1.safetensors"); (router_bias, PStr "part-1.safetensors")])].

Definition tree : fs := list_to_map [
  ([], NDir dm); (["src"], NDir dm); (["cache"], NDir dm);
  (["src"; "config.json"], NFile fm (text source_config));
  (["src"; KT_NON_EXPERT_INDEX_NAME], NFile fm (text (PDict [])));
  (["cache"; KT_NON_EXPERT_INDEX_NAME], NFile fm (text cache_index));
  (["cache"; "part-1.safetensors"], NFile fm "shard")].
Definition before : world := World tree [] 0 1 0 (fun _ => true).

Abbreviation published :=
  (write_kt_non_expert_cache_manifest json_dumps tensors_of "x7" "/cache" "/src" before).
Definition payload : list (string * pyval) := match published.2 with Ok p => p | Err _ => [] end.

Lemma source_tree_wf : fs_wf tree.
Proof. apply fs_wfb_sound. vm_compute. reflexivity. Qed.

Lemma published_ok : published.2 = Ok payload.
Proof. vm_compute. reflexivity. Qed.

Lemma no_manifest root : safe_root tree "/cache" = Ok root → tree !! (root ++ [KT_NON_EXPERT_MANIFEST_NAME]) = None.
Proof. assert (safe_root tree "/cache" = Ok ["cache"]) as -> by (vm_compute; reflexivity). by intros [= <-]. Qed.

(** The cache validates after the write, from the root directory and with the
    hashes. *)
Lemma published_cache_validates_witness :
  ∃ c, validate_non_expert_cache (w_fs published.1) json_dumps tensors_of [] "/cache" "/src" true = Ok c ∧
       nc_path c = "/cache".
Proof.
  destruct (published_cache_validates json_dumps tensors_of demo_hex eq_refl eq_refl codec_round_trip before published.1
    "/cache" "/src" "x7" payload source_tree_wf eq_refl no_manifest (run_result _ _ _ published_ok)) as (root & Hr & Hv & _).
  assert (safe_root tree "/cache" = Ok ["cache"]) as Hc by (vm_compute; reflexivity).
  simpl in Hr. rewrite Hc in Hr. injection Hr as <-. destruct (Hv [] true) as (c & H1 & H2 & _).
  exists c. split; [exact H1|exact H2].
Defined.

Definition ready : fs := w_fs published.1.
Abbreviation checked := (validate_non_expert_cache ready json_dumps tensors_of [] "/cache" "/src" true).
Definition validated : KTNonExpertCache :=
  match checked with
  | Ok c => c
  | Err _ => {| nc_path := ""; nc_manifest_path := ""; nc_manifest := []; nc_checkpoint_files := [];
                nc_weight_keys := ∅; nc_source_config := [] |}
  end.

Lemma ready_wf : fs_wf ready.
Proof. apply fs_wfb_sound. vm_compute. reflexivity. Qed.

Lemma checked_ok : checked = Ok validated.
Proof. vm_compute. reflexivity. Qed.

(** The two tensors are its weight keys, and one shard is its checkpoint. *)
Lemma validated_cache_is_exact_witness :
  nc_checkpoint_files validated = ["/cache/part-1.safetensors"] ∧
  ∃ root source index records shards, valid_cache json_dumps tensors_of ready root source true validated index records shards.
Proof.
  split; [vm_compute; reflexivity|].
  destruct (validated_cache_is_exact json_dumps tensors_of ready [] "/cache" "/src" true validated ready_wf checked_ok)
    as (root & source & index & records & shards & _ & _ & H).
  exists root, source, index, records, shards. exact H.
Defined.
