(* ===== verification/RawInt4Identity.v ===== *)
(** * The identity of a RAWINT4 base checkpoint

    Models [_rawint4_shard_record], [_rawint4_base_fingerprint],
    [_rawint4_base_identity] and [_validate_rawint4_base_identity] of
    [kt-kernel/python/sft/artifacts.py]: a portable fingerprint that samples
    each shard, and the check that an adapter's recorded base is the current
    one.  What the process observes of a shard while it reads it is an
    argument, because the file may change under the reader. *)
From S2P Require Import Prelude PyStr PyVal FS Artifacts.
From Stdlib Require Import Ascii.

Local Open Scope string_scope.
Local Open Scope list_scope.
Local Open Scope Z_scope.

Definition RAWINT4_BASE_IDENTITY_SCHEMA : string := "safetensors-sharded-sampled-v1".
Definition RAWINT4_SAMPLE_BYTES : Z := 64 * 1024.
Definition RAWINT4_SAMPLE_COUNT : Z := 8.

(** ** A shard *)

(** The fields of a [stat] result that identify a file. *)
Record stat_result := StatResult { st_dev : Z; st_ino : Z; st_ctime_ns : Z; st_size : Z }.
#[export] Instance stat_result_eq_dec : EqDecision stat_result.
Proof. solve_decision. Defined.

(** What a reader of a shard sees: [fstat] before and after, [stat] of the path
    afterwards, and the bytes that reading some bytes at an offset returns. *)
Record observation := Observation {
  ob_stat : stat_result;
  ob_read : Z -> Z -> string;
  ob_final : stat_result;
  ob_path : stat_result;
}.

(** [int.from_bytes(s, byteorder="little")] *)
Fixpoint from_little_endian (s : string) : Z :=
  match s with
  | EmptyString => 0
  | String c s' => char_code c + 256 * from_little_endian s'
  end.

Definition str_len (s : string) : Z := Z.of_nat (String.length s).

(** The offsets of the sampled windows, in increasing order. *)
Definition window_size (payload_size : Z) : Z := Z.min RAWINT4_SAMPLE_BYTES payload_size.
Definition sample_offsets (payload_start payload_size : Z) : list Z :=
  let span := payload_size - window_size payload_size in
  sorted_set (payload_start ::
    (if window_size payload_size <? payload_size
     then (fun i => payload_start + span * Z.of_nat i / (RAWINT4_SAMPLE_COUNT - 1))
            <$> seq 0 (Z.to_nat RAWINT4_SAMPLE_COUNT)
     else [])).

Record shard_record := ShardRecord {
  sr_name : string;
  sr_size : Z;
  sr_header_sha256 : string;
  sr_sample_sha256 : string;
  sr_device : Z;
  sr_inode : Z;
  sr_ctime_ns : Z;
}.

Section identity.
Context `{Platform}.
Context (json_compact : pyval -> string).

Definition sample_shard (ob : observation) (payload_start window : Z) (offsets : list Z) : res string :=
  chunks ← for_each offsets [] (fun chunks offset =>
    let chunk := ob_read ob offset window in
    _ ← raise_if (negb (str_len chunk =? window)) KTArtifactError
          "RAWINT4 base shard changed while fingerprinting";
    mret (chunks ++ [str_of_Z (offset - payload_start); nul; chunk]));
  mret (sha256 (String.concat "" chunks)).

Definition rawint4_shard_record (is_file : bool) (name : string) (ob : observation) : res shard_record :=
  _ ← raise_if (negb is_file) KTArtifactError "RAWINT4 base shard must be a readable file";
  let stat := ob_stat ob in
  let size := st_size stat in
  let prefix := ob_read ob 0 8 in
  _ ← raise_if (negb (str_len prefix =? 8)) KTArtifactError "RAWINT4 base shard has no safetensors header";
  let header_size := from_little_endian prefix in
  _ ← raise_if ((header_size <=? 0) || (size - 8 <? header_size)) KTArtifactError
        "RAWINT4 base shard has an invalid safetensors header";
  let header := ob_read ob 8 header_size in
  _ ← raise_if (negb (str_len header =? header_size)) KTArtifactError
        "RAWINT4 base shard has a truncated safetensors header";
  let payload_start := 8 + header_size in
  let payload_size := size - payload_start in
  sample ← sample_shard ob payload_start (window_size payload_size) (sample_offsets payload_start payload_size);
  _ ← raise_if (negb (bool_decide (stat = ob_final ob))) KTArtifactError
        "RAWINT4 base shard changed while fingerprinting";
  _ ← raise_if (negb (bool_decide (stat = ob_path ob))) KTArtifactError
        "RAWINT4 base shard was replaced while fingerprinting";
  mret (ShardRecord name size (sha256 header) sample (st_dev stat) (st_ino stat) (st_ctime_ns stat)).

(** The record as a dictionary. *)
Definition shard_value (r : shard_record) : pyval :=
  PDict [("name", PStr (sr_name r)); ("size", PInt (sr_size r)); ("header_sha256", PStr (sr_header_sha256 r));
         ("sample_sha256", PStr (sr_sample_sha256 r));
         ("file_identity", PDict [("device", PInt (sr_device r)); ("inode", PInt (sr_inode r));
                                  ("ctime_ns", PInt (sr_ctime_ns r))])].

(** ** The fingerprint *)

(** [str(item.get("name", ""))] *)
Definition sort_name (d : list (string * pyval)) : string := py_str (default (PStr "") (dict_get "name" d)).
Definition by_sort_name (a b : list (string * pyval)) : Prop := is_true (String.leb (sort_name a) (sort_name b)).
#[export] Instance by_sort_name_dec : RelDecision by_sort_name :=
  fun a b => decide (String.leb (sort_name a) (sort_name b) = true).

Definition portable (d : list (string * pyval)) : pyval :=
  PDict [("name", pget "name" d); ("size", pget "size" d); ("header_sha256", pget "header_sha256" d);
         ("sample_sha256", pget "sample_sha256" d)].

Definition rawint4_base_fingerprint (config_sha256 index_sha256 : string) (shards : list (list (string * pyval)))
    : string :=
  sha256 (String.concat ""
    (["kt-rawint4-base-safetensors-v1" ++ nul; config_sha256; nul; index_sha256; nul]%string
     ++ (merge_sort by_sort_name shards ≫= fun record => [json_compact (sort_keys (portable record)); nul]))).

(** ** The identity of a checkpoint *)

Definition canonical_json_sha256 (payload : list (string * pyval)) : string :=
  sha256 (json_compact (sort_keys (PDict payload))).

(** The shards that the index names. *)
Definition rawint4_shard_names (weight_map : list (string * pyval)) : res (gset string) :=
  for_each weight_map ∅ (fun shard_names '(key, shard_name) =>
    _ ← raise_if (String.eqb key "") KTArtifactError "tensor names must be non-empty strings";
    name ← of_option (as_str shard_name) KTArtifactError "unsafe safetensors shard";
    _ ← raise_if (negb (String.eqb name (basename name)) || negb (ends_with ".safetensors" name)) KTArtifactError
          "unsafe safetensors shard";
    mret ({[name]} ∪ shard_names)).

(** [path.resolve(strict=True)] *)
Definition resolve_strict (t : fs) (p : path) : res path :=
  of_option (realpath t p) KTArtifactError "could not resolve RAWINT4 base checkpoint metadata".

Definition base_value (root : path) (config_digest index_digest : string) (shards : list shard_record) : pyval :=
  let values := (fun r => default [] (as_dict (shard_value r))) <$> shards in
  PDict [("model_name_or_path", PStr (path_text root)); ("fingerprint_schema", PStr RAWINT4_BASE_IDENTITY_SCHEMA);
         ("fingerprint", PStr (rawint4_base_fingerprint config_digest index_digest values));
         ("config_sha256", PStr config_digest); ("index_sha256", PStr index_digest);
         ("shards", PList (PDict <$> values))].

Definition rawint4_base_identity (t : fs) (observe : path -> observation) (model_name_or_path : string) : res pyval :=
  root ← safe_root t model_name_or_path;
  config_path ← resolve_strict t (root ++ ["config.json"]);
  index_path ← resolve_strict t (root ++ [KT_NON_EXPERT_INDEX_NAME]);
  config ← read_json t config_path;
  index ← read_json t index_path;
  weight_map ← weight_map_of index;
  names ← rawint4_shard_names weight_map;
  shards ← for_each (sorted_names names) [] (fun shards name =>
    r ← rawint4_shard_record (p_is_file t (root ++ [name])) name (observe (root ++ [name]));
    mret (shards ++ [r]));
  mret (base_value root (canonical_json_sha256 config) (canonical_json_sha256 index) shards).

(** ** The check *)

Definition valid_file_identity (v : pyval) : bool :=
  match v with
  | PDict d => forallb (fun field => match pget field d with PInt _ => true | _ => false end)
                 ["device"; "inode"; "ctime_ns"]
  | _ => false
  end.

Definition check_shard_record (names : gset string) (v : pyval) : res (gset string) :=
  record ← of_option (as_dict v) KTArtifactError "must be an object";
  name ← require_string (pget "name" record);
  _ ← raise_if (negb (String.eqb name (basename name)) || negb (ends_with ".safetensors" name)
                || bool_decide (name ∈ names)) KTArtifactError "invalid RAWINT4 base shard name";
  _ ← positive_int (pget "size" record);
  _ ← require_sha256 (pget "header_sha256" record);
  _ ← require_sha256 (pget "sample_sha256" record);
  _ ← raise_if (negb (valid_file_identity (pget "file_identity" record))) KTArtifactError
        "invalid file_identity";
  mret ({[name]} ∪ names).

(** One of the two identities; its shards. *)
Definition check_identity (value : list (string * pyval)) : res (list (list (string * pyval))) :=
  _ ← raise_if (negb (py_eq (pget "fingerprint_schema" value) (PStr RAWINT4_BASE_IDENTITY_SCHEMA))) KTArtifactError
        "unsupported RAWINT4 base fingerprint schema";
  fingerprint ← require_sha256 (pget "fingerprint" value);
  config_digest ← require_sha256 (pget "config_sha256" value);
  index_digest ← require_sha256 (pget "index_sha256" value);
  shards ← of_option (match as_list (pget "shards" value) with Some ((_ :: _) as l) => Some l | _ => None end)
             KTArtifactError "shards must be non-empty";
  _ ← for_each shards ∅ check_shard_record;
  let records := (fun v => default [] (as_dict v)) <$> shards in
  _ ← raise_if (negb (String.eqb fingerprint (rawint4_base_fingerprint config_digest index_digest records)))
        KTArtifactError "RAWINT4 base fingerprint is invalid";
  mret records.

(** [{record["name"]: record["file_identity"] for record in shards}] *)
Definition identities (shards : list (list (string * pyval))) : pyval :=
  PDict (fold_left (fun d record => dict_set (default "" (as_str (pget "name" record))) (pget "file_identity" record) d)
           shards []).

Definition validate_rawint4_base_identity (t : fs) (cwd : path) (saved current : pyval) : res unit :=
  s ← of_option (as_dict saved) KTArtifactError "RAWINT4 base identity must be an object";
  c ← of_option (as_dict current) KTArtifactError "RAWINT4 base identity must be an object";
  saved_shards ← check_identity s;
  current_shards ← check_identity c;
  _ ← raise_if (negb (py_eq (pget "fingerprint" s) (pget "fingerprint" c))) KTArtifactError
        "RAWINT4 base checkpoint fingerprint changed";
  saved_path ← require_string (pget "model_name_or_path" s);
  current_path ← require_string (pget "model_name_or_path" c);
  raise_if (same_source t cwd current_path saved_path
            && negb (py_eq (identities saved_shards) (identities current_shards))) KTArtifactError
    "RAWINT4 base shards were replaced at the recorded path".
End identity.
