(* ===== verification/RawInt4Spec.v ===== *)
(** * Properties of the RAWINT4 base identity

    The sampled windows lie inside the payload and cover both ends, and an
    identity that was recorded in a manifest is accepted exactly when the
    portable fingerprints agree and, at the same path, the files are the same. *)
From S2P Require Import Prelude PyStr PyVal FS Artifacts ArtifactsSpec RawInt4Identity.
From Stdlib Require Import Ascii.

Local Open Scope string_scope.
Local Open Scope list_scope.
Local Open Scope Z_scope.

(** ** The windows *)

Lemma sample_point (start span : Z) (i : nat) : 0 ≤ span → (i < 8)%nat →
  start ≤ start + span * Z.of_nat i / 7 ≤ start + span.
Proof.
  intros Hs Hi. split.
  - assert (0 ≤ span * Z.of_nat i / 7) by (apply Z.div_pos; nia). lia.
  - assert (span * Z.of_nat i / 7 ≤ span) by (apply Z.div_le_upper_bound; nia). lia.
Qed.

Lemma elem_of_sample_offsets start payload o : o ∈ sample_offsets start payload ↔
  o = start ∨ (window_size payload < payload ∧
    ∃ i : nat, (i < 8)%nat ∧ o = start + (payload - window_size payload) * Z.of_nat i / 7).
Proof.
  unfold sample_offsets. rewrite elem_of_sorted_set, elem_of_cons.
  destruct (Z.ltb_spec (window_size payload) payload).
  - rewrite list_elem_of_fmap. setoid_rewrite elem_of_seq. change (Z.to_nat RAWINT4_SAMPLE_COUNT) with 8%nat.
    change (RAWINT4_SAMPLE_COUNT - 1) with 7. split.
    + intros [->|(i & -> & Hi)]; [auto|right]. split; [done|]. exists i. split; [lia|done].
    + intros [->|(_ & i & Hi & ->)]; [auto|right]. exists i. split; [done|lia].
  - rewrite elem_of_nil. naive_solver lia.
Qed.

(** Every sampled window of a shard lies inside its payload, whatever the
    payload's size; there is a window at each end, so the first and the last
    bytes are always covered; a payload of at most 64 KiB is one window; and
    there are at most nine windows, in increasing order. *)
Theorem sample_windows_fit (payload_start payload_size : Z) :
  0 ≤ payload_size →
  let window := window_size payload_size in
  let offsets := sample_offsets payload_start payload_size in
  (∀ o, o ∈ offsets → payload_start ≤ o ∧ o + window ≤ payload_start + payload_size) ∧
  payload_start ∈ offsets ∧ payload_start + payload_size - window ∈ offsets ∧
  (payload_size ≤ RAWINT4_SAMPLE_BYTES → offsets = [payload_start] ∧ window = payload_size) ∧
  (length offsets ≤ 9)%nat ∧ StronglySorted Z.lt offsets.
Proof.
  intros Hp window offsets.
  assert (0 ≤ window ≤ payload_size) as Hw by (unfold window, window_size, RAWINT4_SAMPLE_BYTES; lia).
  split_and!.
  - intros o [->|(Hlt & i & Hi & ->)]%elem_of_sample_offsets; [lia|].
    pose proof (sample_point payload_start (payload_size - window) i). change (window_size payload_size) with window in Hlt |- *. lia.
  - apply elem_of_sample_offsets. by left.
  - apply elem_of_sample_offsets. fold window. destruct (decide (window < payload_size)) as [Hlt|]; [right|left; lia].
    split; [done|]. exists 7%nat. split; [lia|]. rewrite Z.div_mul by lia. lia.
  - intros Hs. unfold offsets, sample_offsets. fold window.
    assert (window = payload_size) as Ew by (unfold window, window_size; lia).
    replace (window <? payload_size) with false by (symmetry; apply Z.ltb_ge; lia). done.
  - unfold offsets, sample_offsets, sorted_set. rewrite merge_sort_Permutation. etrans; [apply length_remove_dups_le|].
    destruct (_ <? _); simpl; lia.
  - unfold offsets, sample_offsets. set (l := payload_start :: _).
    pose proof (NoDup_sorted_set l) as Hnd.
    assert (StronglySorted Z.le (sorted_set l)) as Hs by apply (StronglySorted_merge_sort Z.le).
    induction Hs as [|x k Hk IH Hx]; [constructor|]. apply NoDup_cons in Hnd as [Hni Hnd].
    constructor; [by apply IH|]. rewrite Forall_forall in *. intros y Hy. specialize (Hx y Hy).
    assert (x ≠ y) by (by intros ->). lia.
Qed.

(** ** The order of texts *)

Lemma string_leb_cons a s b t : String.leb (String a s) (String b t) =
  match (N_of_ascii a ?= N_of_ascii b)%N with Lt => true | Eq => String.leb s t | Gt => false end.
Proof. unfold String.leb. simpl. unfold Ascii.compare. by destruct (N_of_ascii a ?= N_of_ascii b)%N. Qed.

Lemma string_leb_trans s t u : String.leb s t = true → String.leb t u = true → String.leb s u = true.
Proof.
  revert t u. induction s as [|a s IH]; intros [|b t] [|c u]; try done.
  rewrite !string_leb_cons. intros H1 H2.
  destruct (N.compare_spec (N_of_ascii a) (N_of_ascii b)), (N.compare_spec (N_of_ascii b) (N_of_ascii c)),
    (N.compare_spec (N_of_ascii a) (N_of_ascii c)); try done; try (by apply (IH t u)); exfalso; clear IH H1 H2; lia.
Qed.

#[export] Instance string_le_trans : Transitive string_le.
Proof. intros s t u H1 H2. by apply (string_leb_trans s t u). Qed.
#[export] Instance string_le_total : Total string_le.
Proof. intros s t. apply String.leb_total. Qed.

Lemma sorted_names_sorted s : StronglySorted string_le (sorted_names s).
Proof. apply StronglySorted_merge_sort; apply _. Qed.

Lemma NoDup_sorted_names s : NoDup (sorted_names s).
Proof. unfold sorted_names. rewrite merge_sort_Permutation. apply NoDup_elements. Qed.

(** Sorting a list that is sorted without ties leaves it. *)
Lemma merge_sort_id {A} (R : relation A) `{∀ x y, Decision (R x y), !Total R, !Transitive R} l :
  StronglySorted R l → (∀ x y, x ∈ l → y ∈ l → R x y → R y x → x = y) → merge_sort R l = l.
Proof.
  intros Hl Ha. eapply (StronglySorted_unique_strong R); [|by apply StronglySorted_merge_sort|exact Hl|].
  - intros x y Hx Hy. apply Ha; [|done]. by rewrite merge_sort_Permutation in Hx.
  - apply merge_sort_Permutation.
Qed.

(** ** What a reader of an identity finds *)

(** The two forms of a record: as it was built and as it is read back from a
    manifest, with its keys in order. *)
Definition shard_dict (sorted : bool) (r : shard_record) : list (string * pyval) :=
  let d := default [] (as_dict (shard_value r)) in if sorted then sort_dict d else d.

Definition file_identity (sorted : bool) (r : shard_record) : pyval :=
  let v := PDict [("device", PInt (sr_device r)); ("inode", PInt (sr_inode r)); ("ctime_ns", PInt (sr_ctime_ns r))] in
  if sorted then sort_keys v else v.

(** What stays the same when a shard is not replaced. *)
Definition shard_guard (r : shard_record) : string * (Z * Z * Z) :=
  (sr_name r, (sr_device r, sr_inode r, sr_ctime_ns r)).

Lemma py_eq_file_identity b b' r r' : py_eq (file_identity b r) (file_identity b' r') = true ↔
  (sr_device r, sr_inode r, sr_ctime_ns r) = (sr_device r', sr_inode r', sr_ctime_ns r').
Proof.
  destruct b, b'; simpl; rewrite !andb_true_iff, !Z.eqb_eq;
    (split; [intros Hx; destruct_and?; congruence|intros [= -> -> ->]; done]).
Qed.

Lemma NoDup_fmap_elem {A B} (f : A → B) (l : list A) x y :
  NoDup (f <$> l) → x ∈ l → y ∈ l → f x = f y → x = y.
Proof.
  induction l as [|a l IH]; [by intros _ ?%elem_of_nil|]. rewrite fmap_cons. intros [Hn Hd]%NoDup_cons Hx Hy E.
  apply elem_of_cons in Hx as [->|Hx], Hy as [->|Hy]; [done|..|by apply IH].
  - destruct Hn. rewrite E. by apply list_elem_of_fmap_2.
  - destruct Hn. rewrite <- E. by apply list_elem_of_fmap_2.
Qed.

Section recorded.
Context `{Platform}.
Context (json_compact : pyval → string).

(** A record that [check_shard_record] accepts. *)
Record sound_record (r : shard_record) : Prop := {
  sr_base : sr_name r = basename (sr_name r);
  sr_suffix : ends_with ".safetensors" (sr_name r) = true;
  sr_positive : 0 < sr_size r;
  sr_header_hex : sha256_text (sr_header_sha256 r) = true;
  sr_sample_hex : sha256_text (sr_sample_sha256 r) = true;
}.

(** The records of an identity: one per name, in the order of the names. *)
Record sound_records (rs : list shard_record) : Prop := {
  srs_sound : Forall sound_record rs;
  srs_nonempty : rs ≠ [];
  srs_sorted : StronglySorted string_le (sr_name <$> rs);
  srs_distinct : NoDup (sr_name <$> rs);
}.

Lemma shard_dict_name b r : pget "name" (shard_dict b r) = PStr (sr_name r).
Proof. by destruct b. Qed.

Lemma portable_shard_dict b r : portable (shard_dict b r) = portable (shard_dict false r).
Proof. by destruct b. Qed.

Lemma sort_name_shard_dict b r : sort_name (shard_dict b r) = sr_name r.
Proof. by destruct b. Qed.

Lemma check_shard_record_ok b names r : sound_record r → sr_name r ∉ names →
  check_shard_record names (PDict (shard_dict b r)) = Ok ({[sr_name r]} ∪ names).
Proof.
  intros [Hb Hs Hp Hh Hm] Hn. unfold check_shard_record. simpl. rewrite shard_dict_name.
  assert (pget "size" (shard_dict b r) = PInt (sr_size r)) as -> by by destruct b.
  assert (pget "header_sha256" (shard_dict b r) = PStr (sr_header_sha256 r)) as -> by by destruct b.
  assert (pget "sample_sha256" (shard_dict b r) = PStr (sr_sample_sha256 r)) as -> by by destruct b.
  assert (valid_file_identity (pget "file_identity" (shard_dict b r)) = true) as -> by by destruct b.
  assert (require_string (PStr (sr_name r)) = Ok (sr_name r)) as ->.
  { simpl. destruct (String.eqb_spec (sr_name r) "") as [E|]; [|done]. by rewrite E in Hs. }
  simpl. rewrite <- Hb, String.eqb_refl, Hs, bool_decide_eq_false_2 by done. simpl.
  destruct (Z.leb_spec (sr_size r) 0); [lia|]. simpl.
  by rewrite (require_sha256_ok _ Hh), (require_sha256_ok _ Hm).
Qed.

Lemma check_shard_records_ok b rs names : Forall sound_record rs → NoDup (sr_name <$> rs) →
  (∀ r, r ∈ rs → sr_name r ∉ names) →
  ∃ names', for_each ((fun r => PDict (shard_dict b r)) <$> rs) names check_shard_record = Ok names'.
Proof.
  revert names. induction rs as [|r rs IH]; intros names Hs Hd Hn; [by eexists|].
  apply Forall_cons in Hs as [Hr Hs]. apply NoDup_cons in Hd as [Hni Hd]. rewrite fmap_cons. simpl.
  rewrite (bind_run _ _ _ (check_shard_record_ok b names r Hr (Hn r ltac:(left)))).
  apply IH; [done..|]. intros r' Hr'. apply not_elem_of_union. split.
  - rewrite elem_of_singleton. intros E. apply Hni. rewrite <- E. by apply list_elem_of_fmap_2.
  - apply Hn. by right.
Qed.

(** Records with distinct names in order are not moved by the fingerprint's sort. *)
Lemma by_sort_name_sorted b rs : StronglySorted string_le (sr_name <$> rs) → NoDup (sr_name <$> rs) →
  merge_sort by_sort_name (shard_dict b <$> rs) = shard_dict b <$> rs.
Proof.
  intros Hs Hd.
  assert (Total by_sort_name) by (intros x y; apply String.leb_total).
  assert (Transitive by_sort_name) by (intros x y z H1 H2; by apply (string_leb_trans _ (sort_name y))).
  apply (merge_sort_id _).
  - clear Hd. induction rs as [|r rs IH]; [constructor|]. apply StronglySorted_inv in Hs as [Hs Hr].
    rewrite fmap_cons. constructor; [by apply IH|]. apply Forall_forall.
    intros d (r' & -> & Hin)%list_elem_of_fmap. unfold by_sort_name. rewrite !sort_name_shard_dict.
    apply (proj1 (Forall_forall _ _) Hr). by apply list_elem_of_fmap_2.
  - intros x y (r & -> & Hr)%list_elem_of_fmap (r' & -> & Hr')%list_elem_of_fmap.
    unfold by_sort_name. rewrite !sort_name_shard_dict. intros L1 L2.
    by rewrite (NoDup_fmap_elem sr_name rs r r' Hd Hr Hr' (String.leb_antisym _ _ L1 L2)).
Qed.

Lemma fingerprint_shard_dict b cd id rs : StronglySorted string_le (sr_name <$> rs) → NoDup (sr_name <$> rs) →
  rawint4_base_fingerprint json_compact cd id (shard_dict b <$> rs) =
  rawint4_base_fingerprint json_compact cd id (shard_dict false <$> rs).
Proof.
  intros Hs Hd. unfold rawint4_base_fingerprint. rewrite !by_sort_name_sorted by done.
  do 3 f_equal. clear Hs Hd. induction rs as [|r rs IH]; [done|]. rewrite !fmap_cons, !bind_cons.
  by rewrite portable_shard_dict, IH.
Qed.

(** ** The two identities *)

(** An identity as it was built, or as it is read back. *)
Definition identity_dict (sorted : bool) root cd id rs : list (string * pyval) :=
  let d := default [] (as_dict (base_value json_compact root cd id rs)) in if sorted then sort_dict d else d.

Definition fingerprint_of cd id rs : string := rawint4_base_fingerprint json_compact cd id (shard_dict false <$> rs).

Context (sha256_hex : ∀ s, sha256_text (sha256 s) = true).

(** Reading the fields of either form of an identity. *)
Lemma identity_fields b root cd id rs :
  let d := identity_dict b root cd id rs in
  pget "fingerprint_schema" d = PStr RAWINT4_BASE_IDENTITY_SCHEMA ∧
  pget "fingerprint" d = PStr (fingerprint_of cd id rs) ∧
  pget "config_sha256" d = PStr cd ∧ pget "index_sha256" d = PStr id ∧
  pget "model_name_or_path" d = PStr (path_text root) ∧
  pget "shards" d = PList ((fun r => PDict (shard_dict b r)) <$> rs).
Proof.
  assert (∀ k, pget k (identity_dict true root cd id rs) = sort_keys (pget k (identity_dict false root cd id rs))) as E
    by (intros k; apply pget_sort_dict).
  assert (pget "shards" (identity_dict false root cd id rs) = PList ((fun r => PDict (shard_dict false r)) <$> rs)) as Es.
  { change (PList (PDict <$> (shard_dict false <$> rs)) = PList ((fun r => PDict (shard_dict false r)) <$> rs)).
    by rewrite <- list_fmap_compose. }
  cbv zeta. destruct b; [|exact (conj eq_refl (conj eq_refl (conj eq_refl (conj eq_refl (conj eq_refl Es)))))].
  rewrite !E, Es. refine (conj eq_refl (conj eq_refl (conj eq_refl (conj eq_refl (conj eq_refl _))))).
  change (PList (List.map sort_keys ((fun r => PDict (shard_dict false r)) <$> rs)) = PList ((fun r => PDict (shard_dict true r)) <$> rs)).
  f_equal. clear. induction rs as [|r rs IH]; [done|]. rewrite !fmap_cons. simpl List.map.
  f_equal. exact IH.
Qed.

Lemma check_identity_ok b root cd id rs : sound_records rs → sha256_text cd = true → sha256_text id = true →
  check_identity json_compact (identity_dict b root cd id rs) = Ok (shard_dict b <$> rs).
Proof.
  intros [Hs Hne Hso Hd] Hcd Hid. destruct (identity_fields b root cd id rs) as (E1 & E2 & E3 & E4 & _ & E6).
  unfold check_identity. rewrite E1, E2, E3, E4, E6. clear E1 E2 E3 E4 E6.
  rewrite (bind_run (raise_if _ _ _) _ tt) by reflexivity.
  rewrite (bind_run _ _ _ (require_sha256_ok (fingerprint_of cd id rs) (sha256_hex _))).
  rewrite (bind_run _ _ _ (require_sha256_ok _ Hcd)), (bind_run _ _ _ (require_sha256_ok _ Hid)).
  destruct (check_shard_records_ok b rs ∅ Hs Hd) as [names' Hn]; [set_solver|].
  rewrite (bind_run (of_option _ _ _) _ ((fun r => PDict (shard_dict b r)) <$> rs)) by by destruct rs.
  rewrite (bind_run _ _ _ Hn). rewrite <- list_fmap_compose.
  change ((fun v => default [] (as_dict v)) ∘ (fun r => PDict (shard_dict b r))) with (shard_dict b).
  unfold fingerprint_of. rewrite <- (fingerprint_shard_dict b) by done. by rewrite String.eqb_refl.
Qed.

(** The two maps from the shards' names to their file identities. *)
Lemma identities_shard_dict b rs : NoDup (sr_name <$> rs) →
  identities (shard_dict b <$> rs) = PDict ((fun r => (sr_name r, file_identity b r)) <$> rs).
Proof.
  intros Hd. unfold identities. f_equal.
  cut (∀ acc, NoDup ((fst <$> acc) ++ (sr_name <$> rs)) →
    fold_left (fun d record => dict_set (default "" (as_str (pget "name" record))) (pget "file_identity" record) d)
      (shard_dict b <$> rs) acc = acc ++ ((fun r => (sr_name r, file_identity b r)) <$> rs)).
  { intros Hcut. by apply (Hcut []). }
  clear Hd. induction rs as [|r rs IH]; intros acc Hd; [by rewrite app_nil_r|].
  rewrite !fmap_cons. cbn [fold_left]. rewrite shard_dict_name.
  assert (pget "file_identity" (shard_dict b r) = file_identity b r) as -> by by destruct b.
  rewrite dict_set_fresh.
  - rewrite IH by by rewrite fmap_app, <- app_assoc. by rewrite <- app_assoc.
  - rewrite fmap_cons in Hd. apply NoDup_app in Hd as (_ & Hd & _). intros Hin. apply (Hd _ Hin). by left.
Qed.

Lemma shard_guards_NoDup rs : NoDup (sr_name <$> rs) → NoDup (shard_guard <$> rs).
Proof.
  intros Hd. apply (NoDup_fmap_1 fst). by rewrite <- list_fmap_compose.
Qed.

(** The maps compare equal exactly when the same shards have the same guards. *)
Lemma py_eq_identities b b' rs rs' : NoDup (sr_name <$> rs) → NoDup (sr_name <$> rs') →
  py_eq (identities (shard_dict b <$> rs)) (identities (shard_dict b' <$> rs')) =
  bool_decide (shard_guard <$> rs ≡ₚ shard_guard <$> rs').
Proof.
  intros Hd Hd'. rewrite !identities_shard_dict, py_eq_dict, !length_fmap by done.
  set (M := _ <$> rs').
  assert (NoDup (fst <$> M)) as HM by (unfold M; by rewrite <- list_fmap_compose).
  apply eq_bool_prop_intro. rewrite andb_True, bool_decide_spec, Is_true_true, Nat.eqb_eq.
  rewrite Is_true_true, forallb_forall. split.
  - intros [Hl Hall]. apply submseteq_length_Permutation; [|by rewrite !length_fmap; lia].
    apply NoDup_submseteq; [by apply shard_guards_NoDup|].
    intros g (r & -> & Hr)%list_elem_of_fmap.
    specialize (Hall (sr_name r, file_identity b r)). simpl in Hall.
    destruct (dict_get (sr_name r) M) as [y|] eqn:Ey.
    2: { discriminate Hall. apply list_elem_of_In, list_elem_of_fmap. by exists r. }
    apply dict_get_In in Ey. apply list_elem_of_fmap in Ey as (r' & [= En ->] & Hr').
    apply list_elem_of_fmap. exists r'. split; [|done]. unfold shard_guard. rewrite En. f_equal.
    apply (py_eq_file_identity b b'), Hall. apply list_elem_of_In, list_elem_of_fmap. by exists r.
  - intros Hp. split; [apply Permutation_length in Hp; by rewrite !length_fmap in Hp|].
    intros kv (r & -> & Hr)%list_elem_of_In%list_elem_of_fmap. simpl.
    assert (shard_guard r ∈ shard_guard <$> rs') as Hin by (rewrite <- Hp; by apply list_elem_of_fmap_2).
    apply list_elem_of_fmap in Hin as (r' & [= En Ed Ei Ec] & Hr').
    rewrite (dict_get_NoDup _ (file_identity b' r') _ HM); [|apply list_elem_of_fmap; exists r'; by rewrite En].
    apply py_eq_file_identity. by rewrite Ed, Ei, Ec.
Qed.

(** ** Building an identity *)

Lemma rawint4_shard_record_sound is_file name ob r : name = basename name → ends_with ".safetensors" name = true →
  rawint4_shard_record is_file name ob = Ok r →
  sound_record r ∧ sr_name r = name ∧
  shard_guard r = (name, (st_dev (ob_stat ob), st_ino (ob_stat ob), st_ctime_ns (ob_stat ob))).
Proof.
  intros Hb Hs Hr. unfold rawint4_shard_record in Hr. cbv zeta in Hr.
  inv_guard Hr as H1. inv_guard Hr as H2. inv_guard Hr as H3. inv_guard Hr as H4.
  inv_bind Hr as sample Hsample. inv_guard Hr as H5. inv_guard Hr as H6. injection Hr as <-.
  unfold sample_shard in Hsample. inv_bind Hsample as chunks Hchunks. injection Hsample as <-.
  apply orb_false_iff in H3 as [Hz Hh]. apply Z.leb_gt in Hz. apply Z.ltb_ge in Hh.
  split; [|done]. constructor; simpl; [done|done|lia|apply sha256_hex|apply sha256_hex].
Qed.

Lemma rawint4_shard_names_safe weight_map names : rawint4_shard_names weight_map = Ok names →
  (∀ n, n ∈ names → n = basename n ∧ ends_with ".safetensors" n = true) ∧
  (weight_map ≠ [] → names ≠ ∅).
Proof.
  intros Hn. unfold rawint4_shard_names in Hn.
  eapply (for_each_inv (fun l names => (∀ n, n ∈ names → n = basename n ∧ ends_with ".safetensors" n = true) ∧
            (l ≠ [] → names ≠ ∅))) in Hn; [exact Hn|set_solver|].
  intros l1 [key v] names0 names1 _ [Hsafe _] Hb.
  inv_guard Hb as H1. inv_bind Hb as name Hname. inv_guard Hb as H2. injection Hb as <-.
  apply orb_false_iff in H2 as [E1%negb_false_iff%String.eqb_eq E2%negb_false_iff].
  split; [|set_solver]. intros n [->%elem_of_singleton|]%elem_of_union; [done|by apply Hsafe].
Qed.

Lemma rawint4_base_identity_sound t observe src v : rawint4_base_identity json_compact t observe src = Ok v →
  ∃ root cd id rs, safe_root t src = Ok root ∧
    v = PDict (identity_dict false root cd id rs) ∧
    sound_records rs ∧ sha256_text cd = true ∧ sha256_text id = true ∧
    Forall (fun r => shard_guard r = let st := ob_stat (observe (root ++ [sr_name r])) in
                                     (sr_name r, (st_dev st, st_ino st, st_ctime_ns st))) rs.
Proof.
  intros Hv. unfold rawint4_base_identity in Hv.
  inv_bind Hv as root Hroot. inv_bind Hv as cp Hcp. inv_bind Hv as ip Hip. inv_bind Hv as config Hc.
  inv_bind Hv as index Hi. inv_bind Hv as wm Hwm. inv_bind Hv as names Hnames. inv_bind Hv as rs Hrs.
  injection Hv as <-. exists root, (canonical_json_sha256 json_compact config), (canonical_json_sha256 json_compact index), rs.
  apply rawint4_shard_names_safe in Hnames as [Hsafe Hne].
  assert (wm ≠ []) as Hwm' by (unfold weight_map_of in Hwm; intros ->; repeat case_match; simplify_eq).
  eapply (for_each_inv (fun l rs => sr_name <$> rs = l ∧ Forall sound_record rs ∧
            Forall (fun r => shard_guard r = let st := ob_stat (observe (root ++ [sr_name r])) in
                                     (sr_name r, (st_dev st, st_ino st, st_ctime_ns st))) rs)) in Hrs;
    [destruct Hrs as (En & Hs & Hg)|done|].
  - split_and!; [done|done| |apply sha256_hex|apply sha256_hex|done]. constructor; [done| | |].
    + intros ->. apply Hne in Hwm'. destruct (set_choose_L _ Hwm') as [n Hin].
      apply elem_of_sorted_names in Hin. rewrite <- En in Hin. by apply elem_of_nil in Hin.
    + rewrite En. apply sorted_names_sorted.
    + rewrite En. apply NoDup_sorted_names.
  - intros l1 name rs0 rs1 [l2 Hin] (En & Hs & Hg) Hb. inv_bind Hb as r Hr. injection Hb as <-.
    assert (name ∈ names) as Hname.
    { apply elem_of_sorted_names. rewrite Hin. set_solver. }
    destruct (Hsafe _ Hname) as [H1 H2]. destruct (rawint4_shard_record_sound _ _ _ _ H1 H2 Hr) as (Hr1 & <- & Hr3).
    split_and!; [by rewrite fmap_app, En|apply Forall_app; split; [done|by constructor]..].
Qed.

(** The check of two well-formed identities, the first one read back. *)
Lemma identity_check_decided t cwd root cd id rs root' cd' id' rs' :
  sound_records rs → sha256_text cd = true → sha256_text id = true →
  sound_records rs' → sha256_text cd' = true → sha256_text id' = true →
  validate_rawint4_base_identity json_compact t cwd (sort_keys (base_value json_compact root cd id rs))
    (base_value json_compact root' cd' id' rs') =
    if negb (String.eqb (fingerprint_of cd id rs) (fingerprint_of cd' id' rs'))
    then artifact_error "RAWINT4 base checkpoint fingerprint changed"
    else if same_source t cwd (path_text root') (path_text root)
            && negb (bool_decide (shard_guard <$> rs ≡ₚ shard_guard <$> rs'))
    then artifact_error "RAWINT4 base shards were replaced at the recorded path"
    else Ok tt.
Proof.
  intros Hrs Hcd Hid Hrs' Hcd' Hid'.
  change (base_value json_compact root cd id rs) with (PDict (identity_dict false root cd id rs)).
  change (base_value json_compact root' cd' id' rs') with (PDict (identity_dict false root' cd' id' rs')).
  rewrite sort_keys_dict. change (sort_dict (identity_dict false root cd id rs)) with (identity_dict true root cd id rs).
  destruct (identity_fields true root cd id rs) as (_ & E2 & _ & _ & E5 & _).
  destruct (identity_fields false root' cd' id' rs') as (_ & F2 & _ & _ & F5 & _).
  pose proof (check_identity_ok true root cd id rs Hrs Hcd Hid) as HS.
  pose proof (check_identity_ok false root' cd' id' rs' Hrs' Hcd' Hid') as HC.
  revert E2 E5 F2 F5 HS HC. generalize (identity_dict true root cd id rs) (identity_dict false root' cd' id' rs').
  intros S C E2 E5 F2 F5 HS HC. unfold validate_rawint4_base_identity.
  rewrite (bind_run (of_option (as_dict (PDict S)) _ _) _ S) by reflexivity.
  rewrite (bind_run (of_option (as_dict (PDict C)) _ _) _ C) by reflexivity.
  rewrite (bind_run _ _ _ HS), (bind_run _ _ _ HC), E2, E5, F2, F5. cbn [py_eq].
  destruct (String.eqb (fingerprint_of cd id rs) _); [|done]. cbn [negb].
  rewrite (bind_run (raise_if _ _ _) _ tt) by reflexivity.
  rewrite (bind_run (require_string _) _ (path_text root)) by reflexivity.
  rewrite (bind_run (require_string _) _ (path_text root')) by reflexivity.
  rewrite py_eq_identities by (apply Hrs || apply Hrs').
  by destruct (same_source _ _ _ _), (bool_decide _).
Qed.

(** The base identity that an adapter records decides, after it has been
    written to a manifest and read back, whether a later checkpoint is accepted:
    the check never fails on the identities' own structure; it refuses a
    checkpoint whose portable fingerprint differs, refuses the same path when the
    set of shards or the device, inode or change time of one of them differs,
    and accepts every other. *)
Theorem recorded_identity_decided t observe src t' observe' src' cwd saved current :
  rawint4_base_identity json_compact t observe src = Ok saved →
  rawint4_base_identity json_compact t' observe' src' = Ok current →
  ∃ root root' cd id rs cd' id' rs',
    safe_root t src = Ok root ∧ safe_root t' src' = Ok root' ∧
    saved = base_value json_compact root cd id rs ∧ current = base_value json_compact root' cd' id' rs' ∧
    Forall (fun r => shard_guard r = let st := ob_stat (observe (root ++ [sr_name r])) in
                                     (sr_name r, (st_dev st, st_ino st, st_ctime_ns st))) rs ∧
    Forall (fun r => shard_guard r = let st := ob_stat (observe' (root' ++ [sr_name r])) in
                                     (sr_name r, (st_dev st, st_ino st, st_ctime_ns st))) rs' ∧
    validate_rawint4_base_identity json_compact t' cwd (sort_keys saved) current =
      if negb (String.eqb (fingerprint_of cd id rs) (fingerprint_of cd' id' rs'))
      then artifact_error "RAWINT4 base checkpoint fingerprint changed"
      else if same_source t' cwd (path_text root') (path_text root)
              && negb (bool_decide (shard_guard <$> rs ≡ₚ shard_guard <$> rs'))
      then artifact_error "RAWINT4 base shards were replaced at the recorded path"
      else Ok tt.
Proof.
  intros (root & cd & id & rs & Hroot & -> & Hrs & Hcd & Hid & Hg)%rawint4_base_identity_sound
    (root' & cd' & id' & rs' & Hroot' & -> & Hrs' & Hcd' & Hid' & Hg')%rawint4_base_identity_sound.
  exists root, root', cd, id, rs, cd', id', rs'. do 6 (split; [done|]). by apply identity_check_decided.
Qed.
End recorded.
