(* ===== verification/RawInt4Example.v ===== *)
(** * A base checkpoint whose shard is replaced

    A checkpoint of one shard, seen twice: the second time the shard has
    another inode and the same bytes.  The recorded identity is refused at the
    same path, and accepted when the shard is the same file. *)
From S2P Require Import Prelude PyStr PyVal JsonCodec FS Artifacts ArtifactsExample RawInt4Identity RawInt4Spec.
From Stdlib Require Import Ascii.

Local Open Scope string_scope.
Local Open Scope list_scope.
Local Open Scope Z_scope.

#[local] Existing Instance ArtifactsExample.demo.

(** A payload of 100000 bytes is sampled at eight offsets. *)
Lemma sample_windows_fit_witness :
  sample_offsets 100 100000 = [100; 5023; 9946; 14870; 19793; 24717; 29640; 34564] ∧
  (∀ o, o ∈ sample_offsets 100 100000 → 100 ≤ o ∧ o + 65536 ≤ 100100).
Proof.
  split; [vm_compute; reflexivity|]. destruct (sample_windows_fit 100 100000 ltac:(lia)) as [Hfit _]. exact Hfit.
Defined.

Definition base_tree : fs := list_to_map [
  ([], NDir dm); (["base"], NDir dm);
  (["base"; "config.json"], NFile fm (text (PDict [("num_hidden_layers", PInt 4)])));
  (["base"; KT_NON_EXPERT_INDEX_NAME],
     NFile fm (text (PDict [("weight_map", PDict [(norm, PStr "a.safetensors")])])));
  (["base"; "a.safetensors"], NFile fm "shard")].

(** A header of two bytes and a payload of three, in a file of the inode. *)
Definition seen (inode : Z) (_ : path) : observation :=
  let st := StatResult 1 inode 77 13 in
  Observation st (fun offset n =>
    if offset =? 0 then String "002" (String.concat "" (replicate 7 nul))
    else if offset =? 8 then "{}" else "abc") st st.

Abbreviation identity inode := (rawint4_base_identity json_dumps base_tree (seen inode) "/base").
Definition built (inode : Z) : pyval := match identity inode with Ok v => v | Err _ => PNone end.

Lemma built_ok : identity 5 = Ok (built 5) ∧ identity 6 = Ok (built 6).
Proof. split; vm_compute; reflexivity. Qed.

Lemma recorded_identity_decided_witness :
  (∃ root cd id rs, built 6 = base_value json_dumps root cd id rs) ∧
  validate_rawint4_base_identity json_dumps base_tree [] (sort_keys (built 5)) (built 5) = Ok tt ∧
  validate_rawint4_base_identity json_dumps base_tree [] (sort_keys (built 5)) (built 6) =
    artifact_error "RAWINT4 base shards were replaced at the recorded path".
Proof.
  split; [|split; vm_compute; reflexivity].
  destruct (recorded_identity_decided json_dumps demo_hex base_tree (seen 5) "/base" base_tree (seen 6) "/base" []
    (built 5) (built 6) (proj1 built_ok) (proj2 built_ok))
    as (_ & root & _ & _ & _ & cd & id & rs & _ & _ & _ & E & _). exists root, cd, id, rs. exact E.
Defined.
