(* ===== verification/Routing.v ===== *)
(** * Routing tokens to experts

    Models the routing of a wrapped layer in [kt-kernel/python/sft/layer.py]:
    the metadata that [DeepSeekRoutingSpec.from_modules] reads and checks, and
    the selection of experts in [_compute_routing] when the model's router is
    replaced by a linear layer.  A row of a tensor is a list of floats, one
    token at a time; the operators of torch on rows are the class [RouterOps],
    with the documented contract of [torch.topk] as [topk_contract]. *)
From S2P Require Import Prelude PyStr PyVal Backend KTConfig.

Local Open Scope string_scope.
Local Open Scope list_scope.
Local Open Scope Z_scope.

(** ** Metadata of a router *)

Abbreviation attributes := (list (string * pyval)).

(** The four objects that may carry metadata, as [hasattr] and [getattr] see
    them; a module may have no [config]. *)
Record modules := Modules {
  md_moe : attributes;
  md_router : attributes;
  md_moe_config : option attributes;
  md_router_config : option attributes;
}.

Definition sources (m : modules) : list (option attributes) :=
  [Some (md_moe m); Some (md_router m); md_moe_config m; md_router_config m].

(** The first alias that a source has with a value. *)
Fixpoint first_alias (source : attributes) (aliases : list string) : option pyval :=
  match aliases with
  | [] => None
  | alias :: aliases' =>
      match dict_get alias source with
      | Some PNone | None => first_alias source aliases'
      | Some value => Some value
      end
  end.

Definition observed (m : modules) (aliases : list string) : list pyval :=
  omap (fun source => source ≫= fun s => first_alias s aliases) (sources m).

Definition resolve (m : modules) (aliases : list string) : res pyval :=
  match observed m aliases with
  | [] => Err (Raise ValueError "DeepSeek routing metadata is missing")
  | first_value :: rest =>
      _ ← for_each rest tt (fun _ value =>
            raise_if (negb (py_eq value first_value)) ValueError "Conflicting DeepSeek routing metadata");
      mret first_value
  end.

Definition positive_int (m : modules) (aliases : list string) : res Z :=
  value ← resolve m aliases;
  match value with
  | PInt n => _ ← raise_if (n <=? 0) ValueError "DeepSeek routing metadata must be a positive integer"; mret n
  | _ => Err (Raise ValueError "DeepSeek routing metadata must be a positive integer")
  end.

Record DeepSeekRoutingSpec := RoutingSpec {
  sp_expert_num : Z;
  sp_n_group : Z;
  sp_topk_group : Z;
  sp_top_k : Z;
  sp_norm_topk_prob : bool;
  sp_routed_scaling_factor : spec_float;
}.

(** [math.isfinite(f)] *)
Definition is_finite (f : spec_float) : bool :=
  match f with S754_zero _ | S754_finite _ _ _ => true | _ => false end.

Section from_modules.
Context (float_of_text : string -> option spec_float).

(** [float(v)] *)
Definition py_float (v : pyval) : res spec_float :=
  match v with
  | PFloat f => mret f
  | PInt n => float_of_int n
  | PBool b => float_of_int (Z.b2z b)
  | PStr s => of_option (float_of_text s) ValueError "could not convert string to float"
  | PNone | PList _ | PDict _ => Err (Raise TypeError "float() argument")
  end.

Definition from_modules (m : modules) (expert_num : Z) : res DeepSeekRoutingSpec :=
  n_group ← positive_int m ["n_group"];
  topk_group ← positive_int m ["topk_group"];
  routed_expert_num ← positive_int m ["n_routed_experts"; "num_local_experts"];
  top_k ← positive_int m ["top_k"; "num_experts_per_tok"];
  norm ← resolve m ["norm_topk_prob"];
  norm_topk_prob ← (match norm with
                    | PBool b => mret b
                    | _ => Err (Raise ValueError "DeepSeek routing metadata norm_topk_prob must be bool")
                    end);
  factor ← resolve m ["routed_scaling_factor"];
  routed_scaling_factor ← py_float factor;
  _ ← raise_if (negb (is_finite routed_scaling_factor) || SFleb routed_scaling_factor float_zero) ValueError
        "DeepSeek routed_scaling_factor must be finite and positive";
  _ ← raise_if (negb (routed_expert_num =? expert_num)) ValueError
        "DeepSeek routed expert count does not match the KT architecture";
  _ ← raise_if ((expert_num <=? 0) || negb (expert_num mod n_group =? 0)) ValueError
        "DeepSeek expert_num must be positive and divisible by n_group";
  let experts_per_group := expert_num / n_group in
  _ ← raise_if (experts_per_group <? 2) ValueError
        "DeepSeek group-top2 routing requires at least two experts per group";
  _ ← raise_if (n_group <? topk_group) ValueError "DeepSeek topk_group exceeds n_group";
  _ ← raise_if (topk_group * experts_per_group <? top_k) ValueError
        "DeepSeek top_k exceeds the experts available in selected groups";
  mret (RoutingSpec expert_num n_group topk_group top_k norm_topk_prob routed_scaling_factor).
End from_modules.

(** ** Selecting experts *)

(** Torch's operators on rows.  [topk] gives the indices. *)
Class RouterOps := {
  topk : Z -> list spec_float -> res (list nat);
  fadd : spec_float -> spec_float -> spec_float;
  fmul : spec_float -> spec_float -> spec_float;
  fdiv : spec_float -> spec_float -> spec_float;
  row_sum : list spec_float -> spec_float;
  sigmoid : list spec_float -> list spec_float;
  softmax : list spec_float -> list spec_float;
  to_bfloat16 : spec_float -> spec_float;
  to_logits_dtype : spec_float -> spec_float;
  tiny : spec_float;
}.

(** [row[indices]] *)
Definition gather (row : list spec_float) (indices : list nat) : list spec_float :=
  (fun i => nth i row float_zero) <$> indices.

(** [row.view(n, size)] *)
Fixpoint chunks {A} (n size : nat) (row : list A) : list (list A) :=
  match n with O => [] | S n' => take size row :: chunks n' size (drop size row) end.
Definition view_groups (row : list spec_float) (n_group size : Z) : res (list (list spec_float)) :=
  _ ← raise_if ((n_group <? 0) || (size <? 0) || negb (Z.of_nat (length row) =? n_group * size)) RuntimeError
        "shape is invalid for input";
  mret (chunks (Z.to_nat n_group) (Z.to_nat size) row).

Section select.
Context `{RouterOps}.

(** [group.topk(2, dim=-1)[0].sum(dim=-1)] *)
Definition group_score (group : list spec_float) : res spec_float :=
  best ← topk 2 group; mret (row_sum (gather group best)).

(** The experts of the selected groups keep their score, the others get 0. *)
Definition masked_scores (size : Z) (group_idx : list nat) (scores : list spec_float) : list spec_float :=
  imap (fun i s => if bool_decide ((i / Z.to_nat size)%nat ∈ group_idx) then s else float_zero) scores.

Definition select_groups (scores : list spec_float) (n_group size topk_group : Z) : res (list nat) :=
  groups ← view_groups scores n_group size;
  group_scores ← for_each groups [] (fun acc g => score ← group_score g; mret (acc ++ [score]));
  topk topk_group group_scores.

Definition select_experts (scores : list spec_float) (n_group size topk_group top_k : Z) : res (list nat) :=
  group_idx ← select_groups scores n_group size topk_group;
  topk top_k (masked_scores size group_idx scores).

(** The weights of the selected experts. *)
Definition normalised (weights : list spec_float) : list spec_float :=
  (fun w => fdiv w (fadd (row_sum weights) tiny)) <$> weights.
Definition expert_weights (norm : bool) (factor : spec_float) (weights : list spec_float) : list spec_float :=
  (fun w => fmul w factor) <$> (if norm then normalised weights else weights).

(** [finish]; a floating-point row, and whether it is attached to the graph. *)
Definition finish (routing_grad_enabled attached : bool) (ids : list nat) (weights : list spec_float)
    : res (list nat * list spec_float) :=
  _ ← raise_if (routing_grad_enabled && negb attached) RuntimeError
        "routing weights are detached but gradients are required";
  mret (ids, to_bfloat16 <$> weights).

Definition add_bias (row bias : list spec_float) : res (list spec_float) :=
  _ ← raise_if (negb (length row =? length bias)%nat) RuntimeError "The size of tensor a must match the size of tensor b";
  mret (zip_with fadd row bias).

(** The group-limited selection of a DeepSeek router. *)
Definition deepseek_experts (spec : DeepSeekRoutingSpec) (router_probs correction_bias : list spec_float)
    : res (list nat * list spec_float) :=
  scores_for_choice ← add_bias router_probs correction_bias;
  topk_ids ← select_experts scores_for_choice (sp_n_group spec) (sp_expert_num spec / sp_n_group spec)
               (sp_topk_group spec) (sp_top_k spec);
  mret (topk_ids, expert_weights (sp_norm_topk_prob spec) (sp_routed_scaling_factor spec) (gather router_probs topk_ids)).

(** The attributes of the original router that GLM and softmax routers use. *)
Record router_attributes := RouterAttributes {
  ra_n_group : option Z;
  ra_topk_group : option Z;
  ra_top_k : option Z;
  ra_norm_topk_prob : option bool;
  ra_routed_scaling_factor : option spec_float;
}.

(** [expert_num // n_group] *)
Definition floor_div (a b : Z) : res Z :=
  _ ← raise_if (b =? 0) ZeroDivisionError "integer division or modulo by zero"; mret (a / b).

Definition glm4_experts (a : router_attributes) (expert_num num_experts_per_tok : Z)
    (router_probs : list spec_float) (correction_bias : option (list spec_float)) : res (list nat * list spec_float) :=
  router_logits_for_choice ← (match correction_bias with
                              | None => mret router_probs
                              | Some bias => add_bias router_probs bias
                              end);
  let n_group := default 1 (ra_n_group a) in
  let topk_group := default n_group (ra_topk_group a) in
  size ← floor_div expert_num n_group;
  topk_ids ← select_experts router_logits_for_choice n_group size topk_group (default num_experts_per_tok (ra_top_k a));
  mret (topk_ids, expert_weights (default true (ra_norm_topk_prob a)) (default float_one (ra_routed_scaling_factor a))
                    (gather router_probs topk_ids)).

Definition softmax_experts (a : router_attributes) (num_experts_per_tok : Z) (router_probs : list spec_float)
    : res (list nat * list spec_float) :=
  topk_ids ← topk (default num_experts_per_tok (ra_top_k a)) router_probs;
  let weights := gather router_probs topk_ids in
  mret (topk_ids, to_logits_dtype <$> (if default true (ra_norm_topk_prob a)
                                       then (fun w => fdiv w (row_sum weights)) <$> weights else weights)).

(** [_compute_routing] with [_original_router] set, on one token's logits. *)
Definition route_logits (router_type : string) (spec : option DeepSeekRoutingSpec) (a : router_attributes)
    (expert_num num_experts_per_tok : Z) (correction_bias : option (list spec_float))
    (routing_grad_enabled attached : bool) (router_logits : list spec_float) : res (list nat * list spec_float) :=
  if String.eqb router_type "deepseek_gate" then
    spec ← of_option spec RuntimeError "DeepSeek routing spec was not initialized";
    correction_bias ← of_option correction_bias RuntimeError "DeepSeek noaux_tc gate is missing e_score_correction_bias";
    '(ids, weights) ← deepseek_experts spec (sigmoid router_logits) correction_bias;
    finish routing_grad_enabled attached ids weights
  else if String.eqb router_type "glm4_moe_gate" then
    '(ids, weights) ← glm4_experts a expert_num num_experts_per_tok (sigmoid router_logits) correction_bias;
    finish routing_grad_enabled attached ids weights
  else
    '(ids, weights) ← softmax_experts a num_experts_per_tok (softmax router_logits);
    finish routing_grad_enabled attached ids weights.
End select.

(** The test of the correction bias when the layer is built. *)
Definition check_correction_bias (bias_shape : option (list Z)) (expert_num : Z) : res unit :=
  raise_if (negb (bool_decide (bias_shape = Some [expert_num]))) ValueError
    "DeepSeek correction bias must have one entry per expert".

(** *** The router of a layer that is built *)

(** The original router: a linear layer, a module whose weight is a parameter,
    or anything else. *)
Inductive router_kind := LinearRouter | WeightedRouter | OtherRouter.

(** Whether a linear layer takes the router's place; then the original is kept
    aside for the selection of experts. *)
Definition wraps_router (original : option router_kind) : bool :=
  match original with Some WeightedRouter => true | _ => false end.

Definition build_routing_spec float_of_text (router_type : string) (original : option router_kind) (m : modules)
    (expert_num : Z) (bias_shape : option (list Z)) : res (option DeepSeekRoutingSpec) :=
  if String.eqb router_type "deepseek_gate" && wraps_router original then
    spec ← from_modules float_of_text m expert_num;
    _ ← check_correction_bias bias_shape expert_num;
    mret (Some spec)
  else mret None.

(** ** The contract of [torch.topk] *)

Definition is_nan (f : spec_float) : bool := match f with S754_nan => true | _ => false end.

Section contract.
Context `{RouterOps}.

(** A [k] in range gives [k] distinct indices, and in a row without NaN nothing
    left out is larger than something chosen. *)
Definition topk_contract : Prop := ∀ k row,
  0 ≤ k ≤ Z.of_nat (length row) →
  ∃ ids, topk k row = Ok ids ∧ Z.of_nat (length ids) = k ∧ NoDup ids ∧ Forall (fun i => (i < length row)%nat) ids ∧
    (Forall (fun f => is_nan f = false) row → ∀ i j, i ∈ ids → (j < length row)%nat → j ∉ ids →
       SFleb (nth j row float_zero) (nth i row float_zero) = true).
End contract.
