(* ===== verification/RoutingSpec.v ===== *)
(** * Routing stays within the selected groups

    Theorems on [Routing]: what accepted metadata guarantee of the selection,
    for every implementation of torch's operators that keeps the contract of
    [torch.topk]. *)
From S2P Require Import Prelude PyStr PyVal Backend KTConfig Routing.

Local Open Scope string_scope.
Local Open Scope list_scope.
Local Open Scope Z_scope.

(** ** Metadata *)

Lemma positive_int_inv m aliases n : positive_int m aliases = Ok n → 0 < n.
Proof.
  unfold positive_int. intros Hx. inv_bind Hx as v Hv. destruct v; try discriminate Hx.
  inv_guard Hx as Hn. injection Hx as <-. bools. done.
Qed.

(** The relations between the sizes that accepted metadata satisfy. *)
Record sizes_ok (sp : DeepSeekRoutingSpec) : Prop := {
  so_groups : 0 < sp_n_group sp;
  so_size : 2 ≤ sp_expert_num sp / sp_n_group sp;
  so_exact : sp_expert_num sp = sp_n_group sp * (sp_expert_num sp / sp_n_group sp);
  so_topk_group : 0 < sp_topk_group sp ≤ sp_n_group sp;
  so_top_k : 0 < sp_top_k sp ≤ sp_topk_group sp * (sp_expert_num sp / sp_n_group sp);
}.

Lemma from_modules_sizes ft m n sp : from_modules ft m n = Ok sp → sizes_ok sp ∧ sp_expert_num sp = n.
Proof.
  unfold from_modules. intros Hx.
  inv_bind Hx as g Hg. inv_bind Hx as tg Htg. inv_bind Hx as e He. inv_bind Hx as k Hk.
  inv_bind Hx as nm Hnm. inv_bind Hx as b Hb. inv_bind Hx as f Hf. inv_bind Hx as rf Hrf.
  inv_guard Hx as H1. inv_guard Hx as H2. inv_guard Hx as H3. cbv zeta in Hx.
  inv_guard Hx as H4. inv_guard Hx as H5. inv_guard Hx as H6. injection Hx as <-.
  apply positive_int_inv in Hg, Htg, Hk. bools. split; [|done].
  assert (n = g * (n / g)) as Hex by (apply Z.div_exact; lia).
  split; simpl; first [done|lia].
Qed.

(** ** Rows *)

Lemma chunks_length {A} n size (row : list A) : length (chunks n size row) = n.
Proof. revert row. induction n as [|n IH]; intros row; simpl; [done|]. by rewrite IH. Qed.

Lemma chunks_sizes {A} n size (row : list A) :
  length row = (n * size)%nat → Forall (fun c => length c = size) (chunks n size row).
Proof.
  revert row. induction n as [|n IH]; intros row Hl; simpl; constructor.
  - rewrite length_take. lia.
  - apply IH. rewrite length_drop. lia.
Qed.

Lemma masked_length `{RouterOps} size gs scores : length (masked_scores size gs scores) = length scores.
Proof. apply length_imap. Qed.

Lemma masked_nth size gs (scores : list spec_float) i : (i < length scores)%nat →
  nth i (masked_scores size gs scores) float_zero =
    if bool_decide ((i / Z.to_nat size)%nat ∈ gs) then nth i scores float_zero else float_zero.
Proof.
  intros Hi. rewrite !nth_lookup. unfold masked_scores. rewrite list_lookup_imap.
  destruct (lookup_lt_is_Some_2 scores i Hi) as [s ->]. done.
Qed.

Lemma positive_not_below f : SFltb float_zero f = true → SFleb f float_zero = false ∧ is_nan f = false.
Proof. destruct f as [[]|[]| |[] ? ?]; try done. Qed.

(** The experts of a set of groups. *)
Definition members (size : nat) (groups : list nat) : list nat := groups ≫= fun g => seq (g * size) size.

Lemma elem_of_members size groups i : (0 < size)%nat → i ∈ members size groups ↔ (i / size)%nat ∈ groups.
Proof.
  intros Hs. unfold members. rewrite list_elem_of_bind. split.
  - intros (g & Hi & Hg). apply elem_of_seq in Hi.
    assert (i / size = g)%nat as ->; [|done]. symmetry. apply (Nat.div_unique i size g (i - g * size)); lia.
  - intros Hg. exists (i / size)%nat. split; [|done]. apply elem_of_seq.
    pose proof (Nat.div_mod i size). pose proof (Nat.mod_upper_bound i size). lia.
Qed.

Lemma members_length size groups : length (members size groups) = (length groups * size)%nat.
Proof.
  unfold members. induction groups as [|g gs IH]; [done|]. rewrite bind_cons, length_app, length_seq, IH. simpl. lia.
Qed.

Lemma members_NoDup size groups : (0 < size)%nat → NoDup groups → NoDup (members size groups).
Proof.
  intros Hs. induction 1 as [|g gs Hg Hgs IH]; [constructor|]. unfold members in *. rewrite bind_cons.
  apply NoDup_app. split_and!; [apply NoDup_seq| |done]. intros i Hi Hm.
  apply (elem_of_members size gs i Hs) in Hm. apply elem_of_seq in Hi.
  assert (i / size = g)%nat as Hd; [|by rewrite Hd in Hm].
  symmetry. apply (Nat.div_unique i size g (i - g * size)); lia.
Qed.

(** A duplicate-free list that holds all of another, and something else, is longer. *)
Lemma NoDup_subset_length {A} (l k : list A) x :
  NoDup l → (∀ y, y ∈ l → y ∈ k) → x ∈ k → x ∉ l → (length l < length k)%nat.
Proof.
  intros Hl Hs Hx Hn. assert (submseteq (x :: l) k) as Hsub.
  { apply NoDup_submseteq; [by constructor|]. intros y [->|Hy]%elem_of_cons; auto. }
  apply submseteq_length in Hsub. simpl in Hsub. lia.
Qed.

(** ** Selection *)

Section selection.
Context `{RouterOps} (Htopk : topk_contract).

Lemma group_scores_run groups acc :
  Forall (fun g => 2 ≤ Z.of_nat (length g)) groups →
  ∃ out, for_each groups acc (fun acc g => score ← group_score g; mret (acc ++ [score])) = Ok out ∧
    length out = (length acc + length groups)%nat.
Proof.
  revert acc. induction groups as [|g gs IH]; intros acc Hg.
  - exists acc. split; [done|]. simpl. lia.
  - apply Forall_cons in Hg as [Hg Hgs]. simpl. unfold group_score.
    destruct (Htopk 2 g) as (best & -> & _); [lia|]. simpl.
    destruct (IH (acc ++ [row_sum (gather g best)]) Hgs) as (out & Ho & Hl). exists out. split; [done|].
    rewrite Hl, length_app. simpl. lia.
Qed.

Lemma select_groups_run scores n size k :
  Z.of_nat (length scores) = n * size → 0 ≤ n → 2 ≤ size → 0 ≤ k ≤ n →
  ∃ groups, select_groups scores n size k = Ok groups ∧ Z.of_nat (length groups) = k ∧ NoDup groups ∧
    Forall (fun g => Z.of_nat g < n) groups.
Proof.
  intros Hl Hn Hs Hk. unfold select_groups, view_groups. rewrite (bind_run _ _ (chunks (Z.to_nat n) (Z.to_nat size) scores)).
  - destruct (group_scores_run (chunks (Z.to_nat n) (Z.to_nat size) scores) []) as (out & -> & Ho).
    { eapply Forall_impl; [apply chunks_sizes; lia|]. intros c Hc. simpl in Hc. lia. }
    rewrite chunks_length in Ho. simpl in Ho.
    rewrite (bind_run (Ok out) _ out eq_refl).
    destruct (Htopk k out) as (ids & -> & Hi & Hnd & Hr & _); [lia|].
    exists ids. split_and!; try done. eapply Forall_impl; [done|]. intros i Hi'. simpl in Hi'. lia.
  - assert ((n <? 0) || (size <? 0) || negb (Z.of_nat (length scores) =? n * size) = false) as ->; [|done].
    rewrite Hl, Z.eqb_refl. lia.
Qed.

Lemma masked_no_nan size gs scores :
  Forall (fun s => SFltb float_zero s = true) scores → Forall (fun f => is_nan f = false) (masked_scores size gs scores).
Proof.
  rewrite !Forall_lookup. intros Hp i f. unfold masked_scores. rewrite list_lookup_imap.
  destruct (scores !! i) as [s|] eqn:Es; [|done]. simpl. intros [= <-].
  case_bool_decide; [|done]. by apply positive_not_below, (Hp i).
Qed.

(** What is chosen from masked positive scores. *)
Lemma masked_choice scores size k groups ids :
  2 ≤ size → NoDup groups → k ≤ Z.of_nat (length groups) * size →
  Forall (fun g => (g * Z.to_nat size + Z.to_nat size ≤ length scores)%nat) groups →
  Forall (fun s => SFltb float_zero s = true) scores →
  Z.of_nat (length ids) = k → NoDup ids → Forall (fun i => (i < length scores)%nat) ids →
  (∀ i j, i ∈ ids → (j < length scores)%nat → j ∉ ids →
     SFleb (nth j (masked_scores size groups scores) float_zero)
           (nth i (masked_scores size groups scores) float_zero) = true) →
  ∀ i, i ∈ ids → (i / Z.to_nat size)%nat ∈ groups.
Proof.
  intros Hs Hnd Hk Hin Hpos Hlen Hids Hr Hbest i Hi.
  destruct (decide ((i / Z.to_nat size)%nat ∈ groups)) as [|Hout]; [done|exfalso].
  assert (0 < Z.to_nat size)%nat as Hs' by lia. rewrite Forall_forall in Hr; rewrite Forall_forall in Hpos; rewrite Forall_forall in Hin.
  assert (length (members (Z.to_nat size) groups) < length ids)%nat as Hlt.
  { apply (NoDup_subset_length _ _ i); [by apply members_NoDup| |done|by rewrite elem_of_members].
    intros j Hj. destruct (decide (j ∈ ids)) as [|Hnj]; [done|exfalso].
    rewrite elem_of_members in Hj by done. pose proof (Hin _ Hj) as Hb.
    pose proof (Nat.div_mod j (Z.to_nat size)). pose proof (Nat.mod_upper_bound j (Z.to_nat size)).
    assert (j < length scores)%nat as Hjl by lia.
    specialize (Hbest i j Hi Hjl Hnj). rewrite !masked_nth in Hbest by auto.
    rewrite bool_decide_eq_true_2, bool_decide_eq_false_2 in Hbest by done.
    destruct (positive_not_below (nth j scores float_zero)) as [Hp _]; [|congruence].
    apply Hpos. rewrite nth_lookup. destruct (lookup_lt_is_Some_2 scores j Hjl) as [s Hsj].
    rewrite Hsj. by eapply list_elem_of_lookup_2. }
  rewrite members_length in Hlt. nia.
Qed.
End selection.

(** ** The properties *)

Definition all_positive (scores : list spec_float) : Prop := Forall (fun s => SFltb float_zero s = true) scores.

Section routing.
Context `{RouterOps}.

(** C33. Routing metadata that are accepted keep a DeepSeek router within
    bounds: it selects [topk_group] distinct groups and then [top_k] distinct
    experts of the model, with a weight each, and no operator is asked for more
    than there is.  Where all biased scores are positive, the experts chosen are
    members of the selected groups, and the best members. *)
Theorem accepted_routing_stays_in_groups float_of_text (m : modules) (n : Z) (spec : DeepSeekRoutingSpec)
    (router_probs correction_bias : list spec_float) :
  topk_contract →
  from_modules float_of_text m n = Ok spec →
  Z.of_nat (length router_probs) = n → Z.of_nat (length correction_bias) = n →
  let scores := zip_with fadd router_probs correction_bias in
  let size := sp_expert_num spec / sp_n_group spec in
  ∃ groups ids weights,
    select_groups scores (sp_n_group spec) size (sp_topk_group spec) = Ok groups ∧
    Z.of_nat (length groups) = sp_topk_group spec ∧ NoDup groups ∧ Forall (fun g => Z.of_nat g < sp_n_group spec) groups ∧
    deepseek_experts spec router_probs correction_bias = Ok (ids, weights) ∧
    Z.of_nat (length ids) = sp_top_k spec ∧ NoDup ids ∧ Forall (fun i => Z.of_nat i < n) ids ∧
    length weights = length ids ∧
    (all_positive scores →
       (∀ i, i ∈ ids → (i / Z.to_nat size)%nat ∈ groups) ∧
       (∀ i j, i ∈ ids → j ∉ ids → Z.of_nat j < n → (j / Z.to_nat size)%nat ∈ groups →
          SFleb (nth j scores float_zero) (nth i scores float_zero) = true)).
Proof.
  intros Htopk Hspec Hp Hb scores size. apply from_modules_sizes in Hspec as [[H1 H2 H3 H4 H5] Hn].
  assert (Z.of_nat (length scores) = n) as Hl by (unfold scores; rewrite length_zip_with; lia).
  destruct (select_groups_run Htopk scores (sp_n_group spec) size (sp_topk_group spec))
    as (groups & Hsel & Hgl & Hgd & Hgr); [lia..|].
  destruct (Htopk (sp_top_k spec) (masked_scores size groups scores))
    as (ids & Hids & Hil & Hid & Hir & Hbest); [rewrite masked_length; unfold size in *; nia|].
  rewrite masked_length in Hir, Hbest.
  exists groups, ids, (expert_weights (sp_norm_topk_prob spec) (sp_routed_scaling_factor spec) (gather router_probs ids)).
  assert (0 < Z.to_nat size)%nat as Hs0 by (unfold size in *; lia). split_and!; try done.
  - unfold deepseek_experts, add_bias. assert (length router_probs = length correction_bias) as -> by lia.
    rewrite Nat.eqb_refl. simpl. unfold select_experts. fold scores size. rewrite Hsel. simpl. by rewrite Hids.
  - eapply Forall_impl; [done|]. intros i Hi. simpl in Hi. lia.
  - unfold expert_weights, normalised, gather. destruct (sp_norm_topk_prob spec); by rewrite !length_fmap.
  - intros Hpos. specialize (Hbest (masked_no_nan size groups scores Hpos)).
    assert (∀ i, i ∈ ids → (i / Z.to_nat size)%nat ∈ groups) as Hmem.
    { apply (masked_choice scores size (sp_top_k spec) groups ids); try done; [unfold size in *; nia|].
      eapply Forall_impl; [done|]. intros g Hg. simpl in Hg. unfold size in *. nia. }
    split; [done|]. intros i j Hi Hj Hjn Hjg. rewrite Forall_forall in Hir.
    assert (j < length scores)%nat as Hjl by lia. specialize (Hbest i j Hi Hjl Hj).
    rewrite !masked_nth in Hbest by auto. by rewrite !bool_decide_eq_true_2 in Hbest by auto.
Qed.
End routing.

(** ** Concrete operators

    Single precision, and a [topk] that sorts the indices. *)
Module RouterExample.

(** [f] comes before [g] in a descending order; NaN comes first, as in torch. *)
Definition at_least (f g : spec_float) : bool := is_nan f || (negb (is_nan g) && SFleb g f).

Lemma finite_leb s m e m' e' : SFleb (S754_finite s m e) (S754_finite s m' e') = true ↔
  if s then e' < e ∨ (e = e' ∧ (m' ≤ m)%positive) else e < e' ∨ (e = e' ∧ (m ≤ m')%positive).
Proof.
  unfold SFleb, SFcompare. destruct s; destruct (Z.compare_spec e e') as [->|Hlt|Hgt]; simpl;
    try (split; [try done; try (intros _; by left)|intros [?|[? ?]]; by try lia]).
  - change (Pos.compare_cont Eq m m') with (m ?= m')%positive. destruct (Pos.compare_spec m m'); simpl; split; lia || done || (intros; lia).
  - change (Pos.compare_cont Eq m m') with (m ?= m')%positive. destruct (Pos.compare_spec m m'); simpl; split; lia || done || (intros; lia).
Qed.

Lemma at_least_total f g : at_least f g = true ∨ at_least g f = true.
Proof.
  destruct f as [[]|[]| |[] m e], g as [[]|[]| |[] m' e']; auto;
    unfold at_least; cbn [is_nan negb orb andb]; rewrite !finite_leb;
    destruct (Z.lt_trichotomy e e') as [?|[?|?]]; destruct (Pos.leb_spec m m'); lia.
Qed.

Lemma at_least_trans f g h : at_least f g = true → at_least g h = true → at_least f h = true.
Proof.
  destruct f as [[]|[]| |[] m e], g as [[]|[]| |[] m' e'], h as [[]|[]| |[] m2 e2]; try done;
    unfold at_least; cbn [is_nan negb orb andb]; rewrite !finite_leb; lia.
Qed.

Section sorting.
Context (row : list spec_float).
Definition before (i j : nat) : Prop := at_least (nth i row float_zero) (nth j row float_zero) = true.
#[local] Instance before_dec : RelDecision before.
Proof. intros i j. unfold before. apply _. Defined.
#[local] Instance before_total : Total before.
Proof. intros i j. apply at_least_total. Qed.
#[local] Instance before_trans : Transitive before.
Proof. intros i j k. apply at_least_trans. Qed.

Definition sorted_indices : list nat := merge_sort before (seq 0 (length row)).

Lemma sorted_indices_perm : sorted_indices ≡ₚ seq 0 (length row).
Proof. apply merge_sort_Permutation. Qed.

Lemma sorted_take_before k i j : i ∈ take k sorted_indices → j ∈ drop k sorted_indices → before i j.
Proof.
  intros Hi Hj. pose proof (StronglySorted_merge_sort before (seq 0 (length row))) as Hs.
  fold sorted_indices in Hs. rewrite <-(take_drop k sorted_indices) in Hs.
  by eapply StronglySorted_app_1_elem_of.
Qed.
End sorting.

Definition first_indices (k : Z) (row : list spec_float) : res (list nat) :=
  if (k <? 0) || (Z.of_nat (length row) <? k)
  then Err (Raise RuntimeError "selected index k out of range")
  else Ok (take (Z.to_nat k) (sorted_indices row)).

#[local] Instance single : RouterOps := {|
  topk := first_indices;
  fadd := SFadd 24 128;
  fmul := SFmul 24 128;
  fdiv := SFdiv 24 128;
  row_sum := foldl (SFadd 24 128) float_zero;
  sigmoid row := row;
  softmax row := row;
  to_bfloat16 f := f;
  to_logits_dtype f := f;
  tiny := float_zero;
|}.

Lemma single_topk : topk_contract.
Proof.
  intros k row Hk. exists (take (Z.to_nat k) (sorted_indices row)).
  pose proof (sorted_indices_perm row) as Hp.
  assert (NoDup (sorted_indices row)) as Hnd by (rewrite Hp; apply NoDup_seq).
  split_and!.
  - unfold topk, single, first_indices. assert ((k <? 0) || (Z.of_nat (length row) <? k) = false) as -> by lia. done.
  - rewrite length_take, Hp, length_seq. lia.
  - rewrite <-(take_drop (Z.to_nat k)) in Hnd. by apply NoDup_app in Hnd as (? & _).
  - apply Forall_forall. intros i Hi. assert (i ∈ sorted_indices row) as Hin by (by eapply elem_of_take in Hi as (? & ?%list_elem_of_lookup_2 & _)).
    rewrite Hp in Hin. apply elem_of_seq in Hin. lia.
  - intros Hn i j Hi Hj Hout. assert (j ∈ sorted_indices row) as Hin by (rewrite Hp; apply elem_of_seq; lia).
    rewrite <-(take_drop (Z.to_nat k)) in Hin. apply elem_of_app in Hin as [|Hin]; [done|].
    pose proof (sorted_take_before row _ _ _ Hi Hin) as Hb. unfold before, at_least in Hb.
    assert (is_nan (nth i row float_zero) = false) as Hni.
    { rewrite Forall_forall in Hn. destruct (nth_in_or_default i row float_zero) as [Hr| ->]; [|done].
      apply Hn. by apply list_elem_of_In. }
    rewrite Hni in Hb. by apply andb_true_iff in Hb as [_ ?].
Qed.

(** Four experts in two groups; two of one group are chosen. *)
Definition half : spec_float := S754_finite false 8388608 (-24).
Definition quarter : spec_float := S754_finite false 8388608 (-25).
Definition minus_one : spec_float := S754_finite true 8388608 (-23).

Definition metadata : modules := Modules
  [("n_group", PInt 2); ("n_routed_experts", PInt 4)]
  [("topk_group", PInt 1); ("top_k", PInt 2); ("norm_topk_prob", PBool true)]
  (Some [("n_group", PInt 2); ("num_experts_per_tok", PInt 2); ("routed_scaling_factor", PFloat float_one)]) None.
Definition spec : DeepSeekRoutingSpec := RoutingSpec 4 2 1 2 true float_one.

Definition probs : list spec_float := [half; quarter; half; half].
Definition bias : list spec_float := [quarter; quarter; half; quarter].

Lemma accepted_routing_stays_in_groups_witness :
  topk_contract ∧ from_modules (fun _ => None) metadata 4 = Ok spec ∧
  (∃ weights, deepseek_experts spec probs bias = Ok ([2; 3]%nat, weights)) ∧
  ∀ ids weights, deepseek_experts spec probs bias = Ok (ids, weights) → length ids = 2%nat ∧ Forall (fun i => Z.of_nat i < 4) ids.
Proof.
  split; [exact single_topk|]. split; [reflexivity|]. split; [eexists; vm_compute; reflexivity|].
  intros ids weights Hx.
  destruct (accepted_routing_stays_in_groups (fun _ => None) metadata 4 spec probs bias single_topk eq_refl eq_refl eq_refl)
    as (groups & ids' & weights' & _ & _ & _ & _ & Hx' & Hl & _ & Hr & _).
  rewrite Hx in Hx'. injection Hx' as <- _. split; [simpl in Hl; lia|exact Hr].
Defined.

(** A negative correction bias is legitimate, and then the experts of the
    groups that were not selected, whose scores are masked to 0, beat those of
    the groups that were. *)
Lemma negative_bias_leaves_the_groups :
  let bias := [minus_one; minus_one; minus_one; minus_one] in
  let probs := [half; half; quarter; quarter] in
  select_groups (zip_with fadd probs bias) 2 2 1 = Ok [0%nat] ∧
  fst <$> deepseek_experts spec probs bias = Ok [2; 3]%nat.
Proof. split; vm_compute; reflexivity. Qed.

(** Metadata that disagree are refused. *)
Lemma conflicting_metadata_refused :
  from_modules (fun _ => None) (Modules [("n_group", PInt 2)] [("n_group", PInt 4)] None None) 4
  = Err (Raise ValueError "Conflicting DeepSeek routing metadata").
Proof. reflexivity. Qed.
End RouterExample.
