(* ===== verification/Layer.v ===== *)
(** * A wrapped layer in one process

    Models the forward and backward passes of [KTMoELayerWrapper]
    ([kt-kernel/python/sft/layer.py]) and of [KTMoEFunction]
    ([kt-kernel/python/sft/autograd.py]) in a process of its own: the phase of
    activation checkpointing decides whether the engine computes, whether its
    output is kept, or whether a kept output is used again; after a failure the
    kept output is poisoned and published gradients are withdrawn.  The object
    that the layer drives is [Base.sft].

    The numerical work of torch is the class [LayerOps].  As in [Base], every
    exception that a call raises is an [Exception] of Python. *)
From S2P Require Import Prelude PyStr PyVal Backend Base KTConfig Dist.

Local Open Scope string_scope.
Local Open Scope list_scope.
Local Open Scope Z_scope.

(** ** Checkpoint phases *)

(** [_activation_checkpoint_action] *)
Definition activation_checkpoint_action (policy : KTActivationPolicy) (phase : string) : string :=
  if String.eqb (ap_gpu policy) "recompute" && String.eqb (ap_cpu policy) "retain" then
    if String.eqb phase "first_forward" then "cache_first_forward"
    else if String.eqb phase "recompute" then "reuse_recompute"
    else "normal"
  else "normal".

(** [_validate_activation_checkpoint_phase] *)
Definition validate_activation_checkpoint_phase (policy : KTActivationPolicy) (phase : string)
    (requires_backward : bool) : res unit :=
  _ ← raise_if (negb (bool_decide (phase ∈ ["none"; "first_forward"; "recompute"]))) RuntimeError
        "Cannot determine activation checkpoint phase";
  _ ← raise_if (String.eqb (ap_gpu policy) "retain" && bool_decide (phase ∈ ["first_forward"; "recompute"])) RuntimeError
        "activation_policy.gpu=retain conflicts with active gradient checkpointing";
  raise_if (requires_backward && String.eqb (ap_gpu policy) "recompute" && String.eqb phase "none") RuntimeError
    "activation_policy.gpu=recompute requires non-reentrant gradient checkpointing".

(** ** Placeholder parameters in state dictionaries *)

(** A parameter of the module: its name, the mark [_kt_zero_storage], and itself. *)
Record parameter := Param { pr_name : string; pr_zero_storage : bool; pr_obj : obj }.

(** [d.pop(k, None)] *)
Definition dict_pop {A} (k : string) (d : list (string * A)) : list (string * A) :=
  List.filter (fun kv => negb (String.eqb k kv.1)) d.

Definition strip_kt_zero_storage_from_state_dict (prefix : string) (params : list parameter)
    (state_dict : list (string * obj)) : list (string * obj) :=
  foldl (fun d p => if pr_zero_storage p then dict_pop (prefix +:+ pr_name p) d else d) state_dict params.

Definition supply_kt_zero_storage_for_state_dict_load (prefix : string) (params : list parameter)
    (state_dict : list (string * obj)) : list (string * obj) :=
  foldl (fun d p => if pr_zero_storage p then dict_set (prefix +:+ pr_name p) (pr_obj p) d else d) state_dict params.

(** ** The layer *)

(** What torch and the rest of the extension do: the router, which gives the
    sizes of its two results, the experts on the GPU, reshaping and moving the
    expert output and the gradients, adding the outputs, and handing weights
    to the engine. *)
Class LayerOps `{Engine} := {
  lop_routing : M estate (Z * Z);
  lop_gpu_experts : M estate unit;
  lop_place_output : M estate unit;
  lop_move_cached : M estate unit;
  lop_place_grads : M estate unit;
  lop_add_outputs : M estate unit;
  lop_update_lora : M estate unit;
  lop_update_base : M estate unit;
}.

(** What the constructor fixes. *)
Record layer_config := LayerConfig {
  ly_policy : KTActivationPolicy;
  ly_full_weight_grad : bool;
  ly_experts_per_tok : Z;
  ly_shared_expert : bool;
  ly_lora_experts : bool;
}.

Record layer `{Engine} := Layer {
  l_cfg : layer_config;
  l_sft : sft;
  l_next : option (bool * sft);
  l_managed_lora : bool;
  l_peft_modules : Z;
  l_fused_params : Z;
  l_lora_dirty : bool;
  l_base_dirty : bool;
  l_load_failed : bool;
  l_base_buffers : bool;
  l_next_obj : obj;
}.

(** *** The constructor *)

(** The attributes that hold the shared expert and its gate; [present] says
    which attributes of the original module are not [None]. *)
Definition shared_expert_attributes (has_shared_experts : bool) (present : string -> bool)
    : res (option string * option string) :=
  if negb has_shared_experts then mret (None, None)
  else
    attr ← of_option (List.find present ["shared_experts"; "shared_expert"]) ValueError
             "architecture declares shared experts, but the MoE module has none";
    let gate := List.find present (if String.eqb attr "shared_expert"
                                   then ["shared_expert_gate"; "shared_experts_gate"]
                                   else ["shared_experts_gate"; "shared_expert_gate"]) in
    _ ← raise_if (String.eqb attr "shared_expert" && bool_decide (gate = None)) ValueError
          "singular 'shared_expert' requires 'shared_expert_gate' for Qwen-style gated output";
    mret (Some attr, gate).

Definition constructor_policy (activation_policy : option KTActivationPolicy) (reuse_checkpoint_forward : bool)
    : KTActivationPolicy :=
  match activation_policy with
  | Some policy => policy
  | None => if reuse_checkpoint_forward then Policy "retain" "recompute" else Policy "retain" "retain"
  end.

(** [KTMoELayerWrapper(...)] around the wrapper object [s]; [object] is the
    first object that the layer will create. *)
Definition new_layer `{Engine} (has_shared_experts : bool) (present : string -> bool)
    (activation_policy : option KTActivationPolicy) (reuse_checkpoint_forward full_weight_grad base_buffers lora_experts : bool)
    (experts_per_tok : Z) (object : obj) (s : sft) : res layer :=
  '(attr, _) ← shared_expert_attributes has_shared_experts present;
  mret (Layer _ (LayerConfig (constructor_policy activation_policy reuse_checkpoint_forward) full_weight_grad experts_per_tok
                   (bool_decide (attr ≠ None)) lora_experts)
          s None false 0 0 false false false base_buffers object).

Section setters.
Context `{Engine}.
Implicit Types l : layer.

Definition set_sft (s : sft) l : layer :=
  Layer _ (l_cfg l) s (l_next l) (l_managed_lora l) (l_peft_modules l) (l_fused_params l) (l_lora_dirty l)
    (l_base_dirty l) (l_load_failed l) (l_base_buffers l) (l_next_obj l).
Definition set_next (n : option (bool * sft)) l : layer :=
  Layer _ (l_cfg l) (l_sft l) n (l_managed_lora l) (l_peft_modules l) (l_fused_params l) (l_lora_dirty l)
    (l_base_dirty l) (l_load_failed l) (l_base_buffers l) (l_next_obj l).
Definition set_lora_dirty (b : bool) l : layer :=
  Layer _ (l_cfg l) (l_sft l) (l_next l) (l_managed_lora l) (l_peft_modules l) (l_fused_params l) b
    (l_base_dirty l) (l_load_failed l) (l_base_buffers l) (l_next_obj l).
Definition set_base_dirty (b : bool) l : layer :=
  Layer _ (l_cfg l) (l_sft l) (l_next l) (l_managed_lora l) (l_peft_modules l) (l_fused_params l) (l_lora_dirty l)
    b (l_load_failed l) (l_base_buffers l) (l_next_obj l).
Definition set_next_obj (o : obj) l : layer :=
  Layer _ (l_cfg l) (l_sft l) (l_next l) (l_managed_lora l) (l_peft_modules l) (l_fused_params l) (l_lora_dirty l)
    (l_base_dirty l) (l_load_failed l) (l_base_buffers l) o.

(** A method of the layer's wrapper object. *)
Definition on_sft {A} (m : M sft A) : M layer A := fun l =>
  let '(s, r) := m (l_sft l) in (set_sft s l, r).

Definition on_ops {A} (m : M estate A) : M layer A := on_sft (on_engine m).

(** A method of the wrapper object that prepares its weights next; the two
    objects share the engine. *)
Definition on_next (m : M sft unit) : M layer unit := fun l =>
  match l_next l with
  | None => (l, Ok tt)
  | Some (shares, n) =>
      let '(n', r) := m (set_engine (s_engine (l_sft l)) n) in
      (set_next (Some (shares, n')) (set_sft (set_engine (s_engine n') (l_sft l)) l), r)
  end.
End setters.

(** [try: m  except Exception as exc: h(exc); raise] *)
Definition except_reraise {S A} (m : M S A) (h : pyexn -> M S unit) : M S A := fun s =>
  match m s with
  | (s', Ok a) => (s', Ok a)
  | (s', Err e) => match h e s' with
                   | (s'', Ok _) => (s'', Err e)
                   | (s'', Err e') => (s'', Err e')
                   end
  end.

(** [try: m  except Exception: logger.exception(...)] *)
Definition quietly {S} (m : M S unit) : M S unit := catchM m (fun _ => true) (fun _ => mret tt).

(** [try: m  except Exception as exc: error = exc] *)
Definition attempt {S} (m : M S unit) : M S (option pyexn) := fun s =>
  match m s with (s', Ok _) => (s', Ok None) | (s', Err e) => (s', Ok (Some e)) end.

Definition when {S} (c : bool) (m : M S unit) : M S unit := if c then m else mret tt.

(** The expert output of a forward pass: read from the engine's buffer, or an
    output that was kept. *)
Inductive expert_output :=
  | FromEngine (buf : buffer) (rows : Z) (device : option string)
  | FromCache (o : cached_output) (device : option string).

Definition output_rows (out : expert_output) : Z :=
  match out with FromEngine _ rows _ => rows | FromCache o _ => co_rows o end.

(** [KTMoEFunction]'s context. *)
Record moe_ctx := MoeCtx {
  cx_qlen : Z;
  cx_device : string;
  cx_cache_checkpoint_forward : bool;
  cx_reuse_cached_forward : bool;
  cx_full_weight_grad : bool;
  cx_authoritative : bool;
}.

(** The arguments of a forward pass: the sizes and the device of the hidden
    states, and the flags of torch. *)
Record layer_input := LayerInput {
  li_batch_size : Z;
  li_seq_len : Z;
  li_device : string;
  li_training : bool;
  li_grad_enabled : bool;
  li_hidden_requires_grad : bool;
  li_weights_require_grad : bool;
}.

Section layer_ops.
Context `{LayerOps}.

Definition poison_checkpoint_cache (e : pyexn) : M layer unit := on_sft (poison_checkpoint_output (exn_msg e)).

(** *** Weights *)

(** [update_lora_weights] and [update_base_weights] of the engine's wrapper. *)
Definition update_lora_weights : M layer unit :=
  s ← gets l_sft;
  _ ← raise_ifM (negb (s_weights_loaded s)) RuntimeError "Weights not loaded. Call load_weights() first.";
  if s_skip_lora s then mret tt
  else if negb (s_lora_initialized s) then
    if cf_lora_rank (s_cfg s) <=? 0 then mret tt
    else raise RuntimeError "LoRA weights not initialized. Call init_lora_weights() first."
  else on_ops lop_update_lora.

Definition update_base_weights : M layer unit :=
  l ← get;
  _ ← raise_ifM (negb (s_weights_loaded (l_sft l))) RuntimeError "Weights not loaded. Call load_weights() first.";
  if negb (ly_full_weight_grad (l_cfg l)) then mret tt
  else
    _ ← raise_ifM (negb (l_base_buffers l)) RuntimeError "Base weight buffers not initialized.";
    on_ops lop_update_base.

Definition update_lora_pointers : M layer unit :=
  s ← gets l_sft;
  if negb (s_weights_loaded s) then mret tt
  else if negb (s_lora_initialized s) then mret tt
  else update_lora_weights.

Definition refresh_backend_weights : M layer unit :=
  l ← get;
  _ ← when (l_lora_dirty l) (_ ← update_lora_pointers; modify (set_lora_dirty false));
  _ ← raise_ifM (ly_full_weight_grad (l_cfg l) && l_load_failed l) RuntimeError
        "a previous KT Full checkpoint load failed";
  when (ly_full_weight_grad (l_cfg l) && l_base_dirty l)
    (_ ← update_base_weights; modify (set_base_dirty false)).

(** *** Forward *)

(** The experts on the GPU; whether there is an output. *)
Definition compute_gpu : M layer bool :=
  c ← gets l_cfg;
  if ly_shared_expert c || ly_lora_experts c then _ ← on_ops lop_gpu_experts; mret true else mret false.

Definition submit_and_compute_gpu (numels : Z * Z) (qlen : Z) (save_for_backward : bool) (checkpoint_action : string)
    : M layer bool :=
  let cache_first := String.eqb checkpoint_action "cache_first_forward" in
  let reuse_cached_forward := String.eqb checkpoint_action "reuse_recompute" in
  _ ← refresh_backend_weights;
  _ ← when cache_first (except_reraise (on_sft validate_checkpoint_cache_empty) poison_checkpoint_cache);
  c ← gets l_cfg;
  let k := ly_experts_per_tok c in
  _ ← raise_ifM (negb (numels.1 =? qlen * k) || negb (numels.2 =? qlen * k)) RuntimeError "shape is invalid for input";
  _ ← (if reuse_cached_forward then on_sft (validate_checkpoint_output qlen)
       else except_reraise (on_sft (submit_forward (ForwardInputs qlen (qlen, k) (qlen, k)) save_for_backward))
              (fun e => when cache_first (poison_checkpoint_cache e)));
  except_reraise compute_gpu (fun e => when (cache_first || reuse_cached_forward) (poison_checkpoint_cache e)).

Definition new_object : M layer obj := fun l => (set_next_obj (l_next_obj l + 1) l, Ok (l_next_obj l)).

(** [cpu_output.view(batch_size, seq_len, hidden_size).to(dtype=original_dtype)] *)
Definition place_output (qlen : Z) (out : expert_output) : M layer expert_output :=
  _ ← raise_ifM (negb (output_rows out =? qlen)) RuntimeError "shape is invalid for input";
  _ ← on_ops lop_place_output;
  mret out.

(** The expert output, and its copy in the shape and type of the hidden states. *)
Definition sync_expert_output (qlen : Z) (device : string) (cache reuse : bool) : M layer expert_output :=
  out ← (if reuse then
           '(o, dev) ← on_sft (get_checkpoint_output qlen (Some device));
           mret (FromCache o dev)
         else if cache then
           '(_, rows, _) ← on_sft (sync_forward None);
           o ← new_object;
           _ ← on_sft (cache_checkpoint_output o "cpu" rows qlen);
           _ ← on_ops lop_move_cached;
           mret (FromCache (CachedOutput o rows) (Some device))
         else
           '(buf, rows, dev) ← on_sft (sync_forward (Some device));
           mret (FromEngine buf rows dev));
  place_output qlen out.

(** [KTMoEFunction.forward] *)
Definition function_forward (qlen : Z) (device : string) (cache_checkpoint_forward reuse_cached_forward : bool)
    : M layer (expert_output * moe_ctx) :=
  out ← except_reraise (sync_expert_output qlen device cache_checkpoint_forward reuse_cached_forward)
          (fun e => when (cache_checkpoint_forward || reuse_cached_forward) (poison_checkpoint_cache e));
  l ← get;
  mret (out, MoeCtx qlen device cache_checkpoint_forward reuse_cached_forward
               (ly_full_weight_grad (l_cfg l) && l_base_buffers l) (wi_uses (s_window (l_sft l)))).

(** [_sync_forward_output_no_autograd] *)
Definition sync_forward_output_no_autograd (qlen : Z) (device : string) : M layer expert_output :=
  '(buf, rows, dev) ← on_sft (sync_forward (Some device));
  place_output qlen (FromEngine buf rows dev).

(** [train_lora] *)
Definition train_lora (l : layer) : bool := l_managed_lora l || (0 <? l_peft_modules l) || (0 <? l_fused_params l).

Definition save_for_backward_of (l : layer) (x : layer_input) : bool :=
  li_training x && li_grad_enabled x
  && (li_hidden_requires_grad x || li_weights_require_grad x || train_lora l || ly_full_weight_grad (l_cfg l)).

(** What the flags and the phase ask of a forward pass. *)
Record forward_plan := ForwardPlan {
  fp_mode : string;
  fp_action : string;
  fp_use_autograd : bool;
  fp_save_submit : bool;
}.

Definition plan_forward (l : layer) (mode : string) (x : layer_input) : forward_plan :=
  let save_for_backward := save_for_backward_of l x in
  let action := activation_checkpoint_action (ly_policy (l_cfg l)) mode in
  let cache := String.eqb action "cache_first_forward" in
  ForwardPlan mode action save_for_backward
    (if String.eqb mode "first_forward" && negb cache then false else save_for_backward).

(** [KTMoELayerWrapper.forward]; [mode] is what [_checkpoint_hook_mode] gives. *)
Definition layer_forward (mode : string) (x : layer_input) : M layer (expert_output * option moe_ctx) :=
  numels ← on_ops lop_routing;
  l ← get;
  let plan := plan_forward l mode x in
  let qlen := li_batch_size x * li_seq_len x in
  _ ← lift (validate_activation_checkpoint_phase (ly_policy (l_cfg l)) mode (fp_use_autograd plan));
  gpu_output ← submit_and_compute_gpu numels qlen (fp_save_submit plan) (fp_action plan);
  '(moe_output, ctx) ← (if fp_use_autograd plan then
      '(out, ctx) ← function_forward qlen (li_device x)
                      (String.eqb (fp_action plan) "cache_first_forward") (String.eqb (fp_action plan) "reuse_recompute");
      mret (out, Some ctx)
    else out ← sync_forward_output_no_autograd qlen (li_device x); mret (out, None));
  _ ← when gpu_output (on_ops lop_add_outputs);
  mret (moe_output, ctx).

(** *** Backward *)

(** The gradients of a backward pass, and whether the engine's buffers of the
    base weights are returned with them. *)
Record moe_grads := MoeGrads { mg_buffer : buffer; mg_rows : Z; mg_base_buffers : bool }.

Definition retained_cache (c : moe_ctx) : bool := cx_cache_checkpoint_forward c || cx_reuse_cached_forward c.

(** Withdraws gradients that were published; a failure is only logged. *)
Definition close_window (c : moe_ctx) : M layer unit :=
  when (cx_authoritative c) (quietly (on_sft release_authoritative_optimizer_grads)).

Definition run_backward (c : moe_ctx) : M layer (buffer * Z) :=
  finallyM
    (except_reraise
       ('(buf, rows, _) ← on_sft (backward (cx_qlen c) (Some (cx_device c)) float_one);
        _ ← on_ops lop_place_grads;
        mret (buf, rows))
       (fun e => _ ← when (retained_cache c) (poison_checkpoint_cache e); close_window c))
    (on_exception (on_sft clear_checkpoint_output) (close_window c)).

(** The weights of the layer that comes next in the order of backward passes. *)
Definition submit_next_repack (c : moe_ctx) : M layer unit :=
  l ← get;
  match l_next l with
  | Some (true, _) => except_reraise (on_next submit_backward_repack) (fun _ => close_window c)
  | _ => mret tt
  end.

(** [KTMoEFunction.backward].  [recompute] is what reading [ctx.saved_tensors]
    runs: nothing, or the forward pass of the checkpointed part of the model;
    [viewable] is whether [grad_output] can be viewed as a matrix. *)
Definition function_backward (c : moe_ctx) (recompute : M layer unit) (viewable : bool) : M layer moe_grads :=
  recompute_error ← attempt recompute;
  _ ← (match recompute_error with
       | Some e => _ ← when (retained_cache c) (poison_checkpoint_cache e); lift (Err e)
       | None => mret tt
       end);
  _ ← raise_ifM (negb viewable) RuntimeError "view size is not compatible with input tensor's size and stride";
  '(buf, rows) ← run_backward c;
  _ ← submit_next_repack c;
  mret (MoeGrads buf rows (cx_full_weight_grad c && negb (cx_authoritative c))).
End layer_ops.
