(* ===== verification/LayerSpec.v ===== *)
(** * What a layer's passes leave behind

    Theorems on [Layer], for every engine and every implementation of torch's
    part: what a backward pass leaves in the kept output and in the gradients,
    whatever fails on its way, and that a recomputation uses the kept output. *)
From S2P Require Import Prelude PyStr PyVal Backend Base BaseSpec KTConfig Dist Layer.

Local Open Scope string_scope.
Local Open Scope list_scope.
Local Open Scope Z_scope.

(** ** Exceptions that are raised again *)

Section handlers.
Context {S A : Type}.

Lemma except_reraise_ok (m : M S A) h s s' a :
  except_reraise m h s = (s', Ok a) ↔ m s = (s', Ok a).
Proof.
  unfold except_reraise. destruct (m s) as [s1 [x|e]]; [done|]. destruct (h e s1) as [s2 [[]|e']]; naive_solver.
Qed.

Lemma except_reraise_inv (m : M S A) h s s' r :
  except_reraise m h s = (s', r) →
  (∃ a, m s = (s', Ok a) ∧ r = Ok a) ∨
  (∃ s1 e rh e', m s = (s1, Err e) ∧ h e s1 = (s', rh) ∧ r = Err e').
Proof.
  unfold except_reraise. destruct (m s) as [s1 [x|e]] eqn:E; [intros [= <- <-]; left; by exists x|].
  destruct (h e s1) as [s2 [[]|e']] eqn:Eh; intros [= <- <-]; right; [by exists s1, e, (Ok tt), e|by exists s1, e, (Err e'), e'].
Qed.

Lemma keeps_except_reraise I (m : M S A) h : keeps I m → (∀ e, keeps I (h e)) → keeps I (except_reraise m h).
Proof.
  intros Hm Hh s s' r Hs [(a & Hx & _)|(s1 & e & rh & e' & Hx & Hy & _)]%except_reraise_inv; [by eapply Hm|].
  eapply Hh; [|done]. by eapply Hm.
Qed.

Lemma keeps_when I (c : bool) (m : M S unit) : keeps I m → keeps I (when c m).
Proof. intros Hm. unfold when. destruct c; [done|apply keeps_ret]. Qed.

Lemma keeps_quietly I (m : M S unit) : keeps I m → keeps I (quietly m).
Proof. intros Hm. unfold quietly. apply keeps_catch; [done|intros; apply keeps_ret]. Qed.

Lemma quietly_run (m : M S unit) s : quietly m s = ((m s).1, Ok tt).
Proof. unfold quietly, catchM. by destruct (m s) as [s' [[]|e]]. Qed.
End handlers.

Lemma bindM_get {S A} (f : S → M S A) s : (get ≫= f) s = f s s.
Proof. done. Qed.

(** ** Calls on the wrapper object *)

Section layers.
Context `{LayerOps}.

Lemma on_sft_run {A} (m : M sft A) l : on_sft m l = (set_sft (m (l_sft l)).1 l, (m (l_sft l)).2).
Proof. unfold on_sft. by destruct (m (l_sft l)). Qed.

Lemma set_sft_twice (s1 s2 : sft) l : set_sft s1 (set_sft s2 l) = set_sft s1 l.
Proof. by destruct l. Qed.
Lemma set_sft_same l : set_sft (l_sft l) l = l.
Proof. by destruct l. Qed.

Lemma on_sft_inv {A} (m : M sft A) l l' r :
  on_sft m l = (l', r) ↔ ∃ s', m (l_sft l) = (s', r) ∧ l' = set_sft s' l.
Proof. unfold on_sft. destruct (m (l_sft l)) as [s x]. naive_solver. Qed.

Lemma keeps_on_sft {A} (I : sft → Prop) (m : M sft A) : keeps I m → keeps (fun l => I (l_sft l)) (on_sft m).
Proof. intros Hm l l' r Hl (s' & Hx & ->)%on_sft_inv. by eapply Hm. Qed.

(** The parts of a layer that the passes below do not touch are framed. *)
Section framed.
Context (I : sft → Prop) (Hf : framed I).
Abbreviation J := (fun l => I (l_sft l)).

Lemma keeps_on_ops {A} (m : M estate A) : keeps J (on_ops m).
Proof. by apply keeps_on_sft, keeps_engine. Qed.

Lemma keeps_refresh : keeps J refresh_backend_weights.
Proof.
  unfold refresh_backend_weights, update_lora_pointers, update_lora_weights, update_base_weights, when.
  keeps; auto using keeps_on_ops; by apply keeps_modify.
Qed.

Lemma keeps_compute_gpu : keeps J compute_gpu.
Proof. unfold compute_gpu. keeps; auto using keeps_on_ops. Qed.

Lemma keeps_place_output q out : keeps J (place_output q out).
Proof. unfold place_output. keeps; auto using keeps_on_ops. Qed.

Lemma keeps_new_object : keeps J new_object.
Proof. intros l l' r Hl. unfold new_object. by intros [= <- _]. Qed.

Lemma keeps_on_next : keeps J (on_next submit_backward_repack).
Proof.
  intros l l' r Hl. unfold on_next. destruct (l_next l) as [[shares n]|]; [|by intros [= <- _]].
  destruct (submit_backward_repack _) as [n' x]. intros [= <- _]. simpl. by apply Hf.
Qed.
End framed.

(** ** Withdrawing gradients *)

(** No gradient counts as published: a backward pass that comes next does not
    add to what it finds. *)
Definition withdrawn (s : sft) : Prop :=
  wi_pending (s_window s) = false ∧ validate_window (s_window s) (s_heap s) ≠ Ok WOpen.

Lemma withdrawn_overwrites q sc s s' buf acc :
  withdrawn s → begin_backward q sc s = (s', Ok (buf, acc)) → acc = false.
Proof.
  intros [_ Hv] Hb. apply begin_backward_spec in Hb. destruct (wi_uses (s_window s)); [|by destruct Hb].
  destruct Hb as (_ & (st & Hst & ->) & _). apply bool_decide_eq_false. intros ->. done.
Qed.

Lemma core_ckpt s h w d k b : core_of s = Core h w d k b → s_ckpt s = k.
Proof. by intros [= _ _ _ -> _]. Qed.

Lemma withdrawn_core s s' : core_of s' = core_of s → withdrawn s → withdrawn s'.
Proof. unfold core_of, withdrawn. intros [= -> -> _ _ _]. done. Qed.

Lemma release_withdraws s :
  wi_uses (s_window s) = true → wi_pending (s_window s) = false →
  let s' := (release_authoritative_optimizer_grads s).1 in
  withdrawn s' ∧ s_window s' = s_window s ∧ s_depth s' = s_depth s ∧ s_ckpt s' = s_ckpt s ∧ s_backward s' = s_backward s.
Proof.
  intros Hu Hp. unfold release_authoritative_optimizer_grads, window_of, validate_authoritative_optimizer_grad_state.
  rewrite bindM_gets, Hu. cbn [negb]. rewrite bindM_raise_if, Hp, bindM_gets_res.
  destruct (validate_window _ _) as [st|e] eqn:Hv; simpl; (split_and!; [split; simpl; [done|]|done..]).
  - intros Hw. apply (window_closed _ (s_window s)) in Hw; [done|].
    intros e t He Ht. by apply (clear_grads_clear _ _ e t He Ht).
  - by rewrite Hv.
Qed.

(** *** The end of a backward pass *)

(** Nothing is kept, and the gradients are withdrawn. *)
Definition cleaned (s : sft) : Prop := withdrawn s ∧ ck_output (s_ckpt s) = None.

Lemma close_window_run c l :
  cx_authoritative c = true → wi_uses (s_window (l_sft l)) = true → wi_pending (s_window (l_sft l)) = false →
  ∃ s', close_window c l = (set_sft s' l, Ok tt) ∧ withdrawn s' ∧ s_window s' = s_window (l_sft l) ∧
    s_ckpt s' = s_ckpt (l_sft l).
Proof.
  intros Hc Hu Hp. unfold close_window, when. rewrite Hc, quietly_run, on_sft_run. simpl.
  destruct (release_withdraws _ Hu Hp) as (Hw & Hwin & _ & Hck & _). by eexists.
Qed.

(** The optimizer-gradient window is in use and no write is pending. *)
Definition settled (es : list grad_entry) (w : window) : Prop :=
  wi_uses w = true ∧ wi_pending w = false ∧ wi_entries w = es.

Lemma settled_idle es w : settled es w → settled es (idle w).
Proof. by intros (? & ? & ?). Qed.

(** A backward call, and moving the gradients, leave the window settled. *)
Lemma backward_settled es c l l' r :
  settled es (s_window (l_sft l)) → distinct es →
  ('(buf, rows, _) ← on_sft (backward (cx_qlen c) (Some (cx_device c)) float_one);
   _ ← on_ops lop_place_grads; mret (buf, rows)) l = (l', r) →
  settled es (s_window (l_sft l')) ∧ l_next l' = l_next l ∧
  ∀ x, r = Ok x → grads_published (s_heap (l_sft l')) es ∧ s_depth (l_sft l') = s_depth (l_sft l) - 1.
Proof.
  intros Hs Hd Hx. pose proof Hs as (Hu & Hp & He).
  apply bindM_inv in Hx as [(l1 & [[buf rows] dev] & Hb & Hx)|(e & Hb & ->)];
    apply on_sft_inv in Hb as (s1 & Hb & ->); apply backward_outcome in Hb; rewrite ?He in *; try done.
  - destruct Hb as (_ & Hg & Hw & Hdep).
    apply bindM_inv in Hx as [(l2 & [] & Ho & Hx)|(e & Ho & ->)];
      apply on_sft_inv in Ho as (s2 & Ho & ->);
      apply keeps_core in Ho; try (intros; apply keeps_engine, core_framed);
      unfold core_of in Ho; simpl in Ho; injection Ho as Eh Ew Ed _ _.
    + injection Hx as <- <-. simpl. rewrite Ew, Hw, Eh, Ed. split_and!; [by apply settled_idle|done|]. by intros x _.
    + simpl. rewrite Ew, Hw. split_and!; [by apply settled_idle|done|done].
  - simpl. split_and!; [|done|done]. destruct Hb as [(_ & -> & _)|(_ & -> & _)]; [done|by apply settled_idle].
Qed.

Lemma poison_run c e l : ∃ ck,
  when (retained_cache c) (poison_checkpoint_cache e) l = (set_sft (set_ckpt ck (l_sft l)) l, Ok tt) ∧
  (retained_cache c = true → ck_state ck = POISONED).
Proof.
  unfold when. destruct (retained_cache c); [by eexists|]. exists (s_ckpt (l_sft l)). split; [|done].
  by destruct l as [? [] ? ? ? ? ? ? ? ? ?].
Qed.

Lemma clear_run h l : ∃ ck,
  on_exception (on_sft clear_checkpoint_output) h l = (set_sft (set_ckpt ck (l_sft l)) l, Ok tt) ∧
  ck_output ck = None ∧ ck_state ck = (if bool_decide (ck_state (s_ckpt (l_sft l)) = POISONED) then POISONED else EMPTY).
Proof.
  unfold on_exception. rewrite on_sft_run. unfold clear_checkpoint_output, modify. simpl.
  destruct (bool_decide _); by eexists.
Qed.

(** What the engine's part of a backward pass leaves. *)
Lemma run_backward_spec es c l l' r :
  cx_authoritative c = true → settled es (s_window (l_sft l)) → distinct es →
  run_backward c l = (l', r) →
  settled es (s_window (l_sft l')) ∧ ck_output (s_ckpt (l_sft l')) = None ∧ l_next l' = l_next l ∧
  match r with
  | Ok _ => grads_published (s_heap (l_sft l')) es ∧ s_depth (l_sft l') = s_depth (l_sft l) - 1
  | Err _ => withdrawn (l_sft l') ∧ (retained_cache c = true → ck_state (s_ckpt (l_sft l')) = POISONED)
  end.
Proof.
  intros Hc Hs Hd Hx. unfold run_backward, finallyM in Hx.
  destruct (except_reraise _ _ l) as [l1 r1] eqn:Hm in Hx.
  destruct (clear_run (close_window c) l1) as (ck & Hcl & Hck & Hst). rewrite Hcl in Hx. injection Hx as <- <-. simpl.
  apply except_reraise_inv in Hm as [([buf rows] & Hm & ->)|(l2 & e & rh & e' & Hm & Hh & ->)].
  - apply (backward_settled es) in Hm as (Hs1 & Hn & Hok); [|done..]. destruct (Hok _ eq_refl). done.
  - apply (backward_settled es) in Hm as (Hs1 & Hn & _); [|done..].
    destruct (poison_run c e l2) as (ck2 & Hp & Hpk). rewrite (bindM_run _ _ _ _ _ Hp) in Hh.
    destruct Hs1 as (Hu & Hpend & He).
    destruct (close_window_run c (set_sft (set_ckpt ck2 (l_sft l2)) l2)) as (s' & Hcw & Hwd & Hwin & Hckp); [done..|].
    rewrite Hcw in Hh. injection Hh as <- _. simpl in *. rewrite Hwin, Hckp in *.
    split_and!; try done. intros Hr. by rewrite Hst, Hpk.
Qed.

Lemma submit_next_repack_spec es c l l' r :
  cx_authoritative c = true → settled es (s_window (l_sft l)) →
  submit_next_repack c l = (l', r) →
  settled es (s_window (l_sft l')) ∧ s_ckpt (l_sft l') = s_ckpt (l_sft l) ∧
  match r with Ok _ => core_of (l_sft l') = core_of (l_sft l) | Err _ => withdrawn (l_sft l') end.
Proof.
  intros Hc Hs Hx. unfold submit_next_repack, get in Hx.
  change (match l_next l with
          | Some (true, _) => except_reraise (on_next submit_backward_repack) (fun _ => close_window c)
          | _ => mret tt
          end l = (l', r)) in Hx.
  destruct (l_next l) as [[[|] n]|]; try (injection Hx as <- <-; done).
  apply except_reraise_inv in Hx as [([] & Hm & ->)|(l2 & e & rh & e' & Hm & Hh & ->)];
    apply (keeps_on_next _ (core_framed (core_of (l_sft l)))) in Hm as Hcore; try done.
  - pose proof Hcore as Hcore'. unfold core_of in Hcore'. injection Hcore' as _ Ew _ Ec _. by rewrite Ew, Ec.
  - unfold core_of in Hcore. injection Hcore as _ Ew _ Ec _. rewrite <-Ew in Hs. destruct Hs as (Hu & Hp & He).
    destruct (close_window_run c l2) as (s' & Hcw & Hwd & Hwin & Hckp); [done..|].
    rewrite Hcw in Hh. injection Hh as <- _. simpl. rewrite Hwin, Hckp. done.
Qed.

(** ** Backward *)

(** C7. What a layer's backward pass leaves, for every engine, whatever its
    recomputation does and whatever fails: if it returns, every registered
    gradient is published, one forward pass is used up and no output is kept.
    If the recomputation raises, so does the pass, with its exception, and a
    kept output is poisoned.  If anything after that raises, gradients that were
    already published are withdrawn, so that the next pass overwrites them, and
    no output is kept; only a gradient that cannot be viewed as a matrix is
    refused before any of that. *)
Theorem layer_backward_outcome es (c : moe_ctx) (recompute : M layer unit) (viewable : bool) (l l' : layer) r :
  cx_authoritative c = true → distinct es →
  let l1 := (recompute l).1 in
  settled es (s_window (l_sft l1)) →
  function_backward c recompute viewable l = (l', r) →
  match r, (recompute l).2 with
  | Ok _, Ok _ =>
      grads_published (s_heap (l_sft l')) es ∧ s_depth (l_sft l') = s_depth (l_sft l1) - 1 ∧
      ck_output (s_ckpt (l_sft l')) = None
  | Ok _, Err _ => False
  | Err e', Err e =>
      e' = e ∧ core_of (l_sft l') = (if retained_cache c
        then core_of (set_ckpt (Checkpoint POISONED (Some (exn_msg e)) None 0) (l_sft l1)) else core_of (l_sft l1))
  | Err _, Ok _ =>
      if viewable
      then ck_output (s_ckpt (l_sft l')) = None ∧
           ∀ q sc s2 buf acc, begin_backward q sc (l_sft l') = (s2, Ok (buf, acc)) → acc = false
      else l' = l1
  end.
Proof.
  intros Hc Hd. unfold function_backward, attempt. destruct (recompute l) as [l1 [[]|e]] eqn:Er; simpl; intros Hs Hx.
  - unfold mbind at 1, M_bind at 1 in Hx. rewrite Er in Hx. rewrite (bindM_run _ _ l1 l1 tt eq_refl) in Hx.
    rewrite bindM_raise_if in Hx. destruct viewable; cbn [negb] in Hx; [|by injection Hx as <- <-].
    apply bindM_inv in Hx as [(l2 & [buf rows] & Hb & Hx)|(e & Hb & ->)].
    + apply (run_backward_spec es) in Hb as (Hs2 & Hk & Hn & Hg & Hdep); [|done..].
      apply bindM_inv in Hx as [(l3 & [] & Hr & Hx)|(e & Hr & ->)];
        apply (submit_next_repack_spec es) in Hr as (Hs3 & Hck & Hr); try done.
      * injection Hx as <- <-. unfold core_of in Hr. injection Hr as -> _ -> -> _. done.
      * rewrite Hck. split; [done|]. intros q sc s2 b acc. by apply withdrawn_overwrites.
    + apply (run_backward_spec es) in Hb as (_ & Hk & _ & Hw & _); [|done..].
      split; [done|]. intros q sc s2 b acc. by apply withdrawn_overwrites.
  - unfold mbind at 1, M_bind at 1 in Hx. rewrite Er in Hx. unfold when in Hx.
    destruct (retained_cache c); simpl in Hx; by injection Hx as <- <-.
Qed.

(** ** Forward *)

(** The state that a forward pass changes only on purpose. *)
Definition passive (c : core) (f : option pending_forward) (s : sft) : Prop := core_of s = c ∧ s_forward s = f.
Lemma passive_framed c f : framed (passive c f).
Proof. by split. Qed.

Lemma keeps_passive {A} (m : M layer A) l l' r :
  (∀ c f, keeps (fun l => passive c f (l_sft l)) m) → m l = (l', r) →
  core_of (l_sft l') = core_of (l_sft l) ∧ s_forward (l_sft l') = s_forward (l_sft l).
Proof. intros Hk Hx. by eapply (Hk (core_of (l_sft l)) (s_forward (l_sft l))). Qed.

Lemma keeps_cfg_on_sft {A} (m : M sft A) cf : keeps (fun l => l_cfg l = cf) (on_sft m).
Proof. intros l l' r Hl (s' & _ & ->)%on_sft_inv. done. Qed.

Lemma keeps_cfg_refresh cf : keeps (fun l => l_cfg l = cf) refresh_backend_weights.
Proof.
  unfold refresh_backend_weights, update_lora_pointers, update_lora_weights, update_base_weights, on_ops, when.
  keeps; auto using keeps_cfg_on_sft; by apply keeps_modify.
Qed.

(** A refresh changes neither what is passive nor the configuration. *)
Lemma refresh_passive l l' r :
  refresh_backend_weights l = (l', r) →
  core_of (l_sft l') = core_of (l_sft l) ∧ s_forward (l_sft l') = s_forward (l_sft l) ∧ l_cfg l' = l_cfg l.
Proof.
  intros Hx. pose proof (keeps_cfg_refresh _ _ _ _ (eq_refl (l_cfg l)) Hx) as Hc.
  apply keeps_passive in Hx as [? ?]; [done|]. intros. apply keeps_refresh, passive_framed.
Qed.

Lemma compute_gpu_passive l l' r :
  compute_gpu l = (l', r) → core_of (l_sft l') = core_of (l_sft l) ∧ s_forward (l_sft l') = s_forward (l_sft l).
Proof. apply keeps_passive. intros. apply keeps_compute_gpu, passive_framed. Qed.

Lemma on_ops_passive {A} (m : M estate A) l l' r :
  on_ops m l = (l', r) →
  core_of (l_sft l') = core_of (l_sft l) ∧ s_forward (l_sft l') = s_forward (l_sft l) ∧ ∃ s', l' = set_sft s' l.
Proof.
  intros Hx. pose proof Hx as (s' & _ & Hl)%on_sft_inv.
  apply keeps_passive in Hx as [? ?]; [by eauto|]. intros. apply keeps_on_ops, passive_framed.
Qed.

Lemma validate_output_run q s s' :
  validate_checkpoint_output q s = (s', Ok tt) →
  s' = s ∧ ck_state (s_ckpt s) = READY ∧ ck_qlen (s_ckpt s) = q.
Proof.
  unfold validate_checkpoint_output. rewrite bindM_gets, bindM_raise_if. destruct (bool_decide _); [done|].
  rewrite bindM_raise_if. destruct (negb _ || _) eqn:Er; [done|]. destruct (negb (q =? _)) eqn:Eq; [done|].
  intros [= <-]. bools. done.
Qed.

(** A submitted forward call is pending with its size and its purpose. *)
Lemma submit_forward_spec x save s s' :
  submit_forward x save s = (s', Ok tt) →
  core_of s' = core_of s ∧ ∃ buf, s_forward s' = Some (PendingForward buf save (in_qlen x)).
Proof.
  unfold submit_forward. intros Hx. apply bindM_ok in Hx as (s1 & [] & H1 & Hx).
  apply keeps_core in H1; [|intros; apply keeps_validate_inputs].
  apply bindM_ok in Hx as (s2 & buf & H2 & Hx). apply keeps_core in H2; [|intros; apply keeps_buffer, core_framed].
  apply bindM_ok in Hx as (s3 & [] & H3 & Hx). apply keeps_core in H3; [|intros; apply keeps_engine, core_framed].
  rewrite bindM_modify in Hx. set (s4 := set_forward _ s3) in Hx.
  assert (core_of s4 = core_of s) as H4 by (rewrite <-H1, <-H2, <-H3; done).
  apply bindM_ok in Hx as (s5 & [] & H5 & Hx).
  apply (keeps_wait_pending _ (passive_framed (core_of s4) (s_forward s4))) in H5 as [E5 F5]; [|done].
  apply (keeps_submit_task _ (passive_framed (core_of s4) (s_forward s4))) in Hx as [E6 F6]; [|done].
  rewrite E6, F6, H4. split; [done|]. by exists buf.
Qed.

(** Using a kept output submits nothing to the engine. *)
Lemma submit_reuse_spec numels q save l l' g :
  submit_and_compute_gpu numels q save "reuse_recompute" l = (l', Ok g) →
  core_of (l_sft l') = core_of (l_sft l) ∧ s_forward (l_sft l') = s_forward (l_sft l).
Proof.
  unfold submit_and_compute_gpu. intros Hx.
  apply bindM_ok in Hx as (l1 & [] & Hr & Hx). apply refresh_passive in Hr as (E1 & E2 & _).
  apply bindM_ok in Hx as (l2 & [] & Hw & Hx). injection Hw as <-.
  rewrite bindM_gets, bindM_raise_if in Hx. destruct (_ || _); [done|].
  apply bindM_ok in Hx as (l3 & [] & Hv & Hx). cbn [String.eqb Ascii.eqb Bool.eqb] in Hv.
  apply on_sft_inv in Hv as (s' & Hv & ->). apply validate_output_run in Hv as (-> & _).
  apply except_reraise_ok in Hx. apply compute_gpu_passive in Hx as [E3 E4]. simpl in *. by rewrite E3, E4.
Qed.

(** A first pass leaves a submission with its size and its purpose. *)
Lemma submit_first_spec numels q save l l' g :
  submit_and_compute_gpu numels q save "cache_first_forward" l = (l', Ok g) →
  core_of (l_sft l') = core_of (l_sft l) ∧
  ∃ buf, s_forward (l_sft l') = Some (PendingForward buf save q).
Proof.
  unfold submit_and_compute_gpu. intros Hx.
  apply bindM_ok in Hx as (l1 & [] & Hr & Hx). apply refresh_passive in Hr as (E1 & _ & _).
  apply bindM_ok in Hx as (l2 & [] & Hw & Hx). cbn [String.eqb Ascii.eqb Bool.eqb when] in Hw.
  apply except_reraise_ok, on_sft_inv in Hw as (s2 & Hw & ->).
  assert (s2 = l_sft l1) as ->.
  { unfold validate_checkpoint_cache_empty in Hw. rewrite bindM_gets, bindM_raise_if in Hw.
    destruct (bool_decide _); [done|]. destruct (_ || _); [done|]. by injection Hw. }
  rewrite bindM_gets, bindM_raise_if in Hx. destruct (_ || _); [done|].
  apply bindM_ok in Hx as (l3 & [] & Hv & Hx). cbn [String.eqb Ascii.eqb Bool.eqb] in Hv.
  apply except_reraise_ok, on_sft_inv in Hv as (s3 & Hv & ->).
  apply except_reraise_ok in Hx. apply compute_gpu_passive in Hx as [E3 E4]. simpl in *. rewrite E3, E4.
  apply submit_forward_spec in Hv as (Hc & buf & Hf). rewrite Hc, E1. split; [done|by exists buf].
Qed.

(** The number of forward passes that wait for a backward pass, once one more
    has been read. *)
Definition counted (save : bool) (d : Z) : Z := if save && (d =? 0) then d + 1 else d.

Lemma sync_forward_spec dev s s' x :
  sync_forward dev s = (s', Ok x) →
  ∃ f, s_forward s = Some f ∧ x = (pf_buffer f, pf_qlen f, dev) ∧
    core_of s' = Core (s_heap s) (s_window s) (counted (pf_save f) (s_depth s)) (s_ckpt s) (s_backward s).
Proof.
  unfold sync_forward. rewrite bindM_gets, bindM_lift. destruct (s_forward s) as [f|]; [|done].
  intros Hx. exists f. split; [done|]. simpl of_option in Hx. cbv iota in Hx.
  apply bindM_ok in Hx as (s1 & [] & H1 & Hx). apply keeps_core in H1; [|intros; apply keeps_engine, core_framed].
  unfold count_forward in Hx. rewrite !bindM_modify in Hx. unfold return_output in Hx.
  apply bindM_ok in Hx as (s2 & [] & H2 & Hx). apply keeps_core in H2; [|intros; apply keeps_engine, core_framed].
  injection Hx as <- <-. split; [done|]. rewrite H2. unfold core_of in *. injection H1 as <- <- <- <- <-.
  unfold counted. by destruct (pf_save f && _).
Qed.

Lemma place_output_spec q out l l' x :
  place_output q out l = (l', Ok x) → x = out ∧ output_rows out = q ∧ core_of (l_sft l') = core_of (l_sft l).
Proof.
  unfold place_output. rewrite bindM_raise_if. destruct (negb _) eqn:Er; [done|]. intros Hx.
  apply bindM_ok in Hx as (l1 & [] & Ho & Hx). injection Hx as <- <-. apply on_ops_passive in Ho as (E & _).
  bools. done.
Qed.

(** The first pass keeps the output that it returns. *)
Lemma sync_first_spec q dev buf save l l' out :
  0 ≤ q → s_forward (l_sft l) = Some (PendingForward buf save q) →
  sync_expert_output q dev true false l = (l', Ok out) →
  ∃ o, out = FromCache (CachedOutput o q) (Some dev) ∧
    core_of (l_sft l') = Core (s_heap (l_sft l)) (s_window (l_sft l)) (counted save (s_depth (l_sft l)))
      (Checkpoint READY None (Some (CachedOutput o q)) q) (s_backward (l_sft l)).
Proof.
  intros Hq Hf Hx. unfold sync_expert_output in Hx. cbv iota in Hx.
  apply bindM_ok in Hx as (l1 & out1 & H1 & Hx). apply place_output_spec in Hx as (-> & Hrows & Hc). rewrite Hc.
  apply bindM_ok in H1 as (l2 & [[b rows] d] & H2 & H1). apply on_sft_inv in H2 as (s2 & H2 & ->).
  apply sync_forward_spec in H2 as (f & Hf2 & Hout & Hc2). rewrite Hf in Hf2. injection Hf2 as <-. injection Hout as -> -> ->.
  apply bindM_ok in H1 as (l3 & o & H3 & H1). injection H3 as <- <-.
  apply bindM_ok in H1 as (l4 & [] & H4 & H1). apply on_sft_inv in H4 as (s4 & H4 & ->).
  apply cache_output_run in H4 as [(_ & _ & _ & ->)|(msg & _ & Hne)]; [|done].
  apply bindM_ok in H1 as (l5 & [] & H5 & H1). apply on_ops_passive in H5 as (H5 & _). injection H1 as <- <-.
  rewrite H5. eexists. split; [done|]. simpl in *. unfold core_of in *. simpl.
  injection Hc2 as -> -> -> _ ->. assert (sliced_rows q q = q) as ->; [|done]. unfold sliced_rows. case_match; lia.
Qed.

(** A recomputation returns what was kept. *)
Lemma sync_reuse_spec q dev l l' out :
  sync_expert_output q dev false true l = (l', Ok out) →
  core_of (l_sft l') = core_of (l_sft l) ∧ ∃ o, ck_output (s_ckpt (l_sft l)) = Some o ∧ out = FromCache o (Some dev).
Proof.
  intros Hx. unfold sync_expert_output in Hx. cbv iota in Hx.
  apply bindM_ok in Hx as (l1 & out1 & H1 & Hx). apply place_output_spec in Hx as (-> & _ & Hc). rewrite Hc.
  apply bindM_ok in H1 as (l2 & [o d] & H2 & H1). injection H1 as <- <-. apply on_sft_inv in H2 as (s2 & H2 & ->).
  unfold get_checkpoint_output in H2. apply bindM_ok in H2 as (s3 & [] & Hv & H2).
  apply validate_output_run in Hv as (-> & _). rewrite bindM_gets, bindM_lift in H2.
  destruct (ck_output (s_ckpt (l_sft l))) as [o1|] eqn:Eo; [|done]. simpl in H2.
  unfold poison_on_error in H2. destruct ((_ ← on_engine copy_out; mret (o1, Some dev)) (l_sft l)) as [s4 [y|e]] eqn:Ey; [|done].
  injection H2 as <- ->. apply bindM_ok in Ey as (s5 & [] & H5 & Ey). injection Ey as <- <- <-.
  apply keeps_core in H5; [|intros; apply keeps_engine, core_framed]. simpl. split; [done|]. by exists o1.
Qed.

Lemma sync_reuse_forward q dev l l' out :
  sync_expert_output q dev false true l = (l', Ok out) → s_forward (l_sft l') = s_forward (l_sft l).
Proof.
  intros Hx. unfold sync_expert_output in Hx. cbv iota in Hx.
  assert (keeps (fun l0 => s_forward (l_sft l0) = s_forward (l_sft l))
    (out ← ('(o, dev0) ← on_sft (get_checkpoint_output q (Some dev)); mret (FromCache o dev0)); place_output q out)) as Hk.
  { assert (framed (fun s => s_forward s = s_forward (l_sft l))) by done.
    keeps; [apply (keeps_on_sft (fun s => s_forward s = s_forward (l_sft l))); by apply keeps_get_output
           |by apply (keeps_place_output (fun s => s_forward s = s_forward (l_sft l)))]. }
  by apply Hk in Hx.
Qed.

Definition RETAIN_CPU : KTActivationPolicy := Policy "retain" "recompute".

(** A forward pass that returns, when a backward pass will follow, is a
    submission, and then [KTMoEFunction.forward]. *)
Lemma layer_forward_steps mode x l l' out ctx :
  ly_policy (l_cfg l) = RETAIN_CPU → save_for_backward_of l x = true →
  bool_decide (mode ∈ ["first_forward"; "recompute"]) = true →
  layer_forward mode x l = (l', Ok (out, ctx)) →
  let q := li_batch_size x * li_seq_len x in
  let action := activation_checkpoint_action RETAIN_CPU mode in
  ∃ s0 numels l1 g l2 c,
    core_of s0 = core_of (l_sft l) ∧ s_forward s0 = s_forward (l_sft l) ∧
    submit_and_compute_gpu numels q true action (set_sft s0 l) = (l1, Ok g) ∧
    sync_expert_output q (li_device x) (String.eqb action "cache_first_forward") (String.eqb action "reuse_recompute") l1
      = (l2, Ok out) ∧
    ctx = Some c ∧ cx_qlen c = q ∧ retained_cache c = true ∧ core_of (l_sft l') = core_of (l_sft l2) ∧
    s_forward (l_sft l') = s_forward (l_sft l2).
Proof.
  intros Hpol Hsave Hmode Hx q action. apply bool_decide_eq_true in Hmode. unfold layer_forward in Hx.
  apply bindM_ok in Hx as (l0 & numels & Hr & Hx). apply on_ops_passive in Hr as (Er & Fr & s0 & ->).
  rewrite bindM_get in Hx.
  assert (plan_forward (set_sft s0 l) mode x = ForwardPlan mode action true true) as Hplan.
  { unfold plan_forward. change (save_for_backward_of (set_sft s0 l) x) with (save_for_backward_of l x).
    rewrite Hsave. simpl. rewrite Hpol. fold action. subst action.
    by apply elem_of_cons in Hmode as [->| ->%list_elem_of_singleton]. }
  rewrite Hplan in Hx. cbv zeta in Hx. simpl fp_use_autograd in Hx. simpl fp_save_submit in Hx. simpl fp_action in Hx.
  rewrite bindM_lift in Hx. destruct (validate_activation_checkpoint_phase _ _ _); [|done].
  apply bindM_ok in Hx as (l1 & g & Hs & Hx). apply bindM_ok in Hx as (l2 & [out2 ctx2] & Hf & Hx).
  cbv iota in Hf. apply bindM_ok in Hf as (l3 & [out3 c] & Hf & Hret). injection Hret as <- <- <-.
  unfold function_forward in Hf. apply bindM_ok in Hf as (l4 & out4 & Hf & Hret).
  apply except_reraise_ok in Hf. injection Hret as <- <- <-.
  apply bindM_ok in Hx as (l5 & [] & Ha & Hx). injection Hx as <- <- <-.
  exists s0, numels, l1, g, l4. eexists. split_and!; try done.
  - subst action. by apply elem_of_cons in Hmode as [->| ->%list_elem_of_singleton].
  - unfold when in Ha. destruct g; [by apply on_ops_passive in Ha as (? & _)|by injection Ha as <-].
  - unfold when in Ha. destruct g; [by apply on_ops_passive in Ha as (_ & ? & _)|by injection Ha as <-].
Qed.

(** C32. When outputs are kept on the CPU and recomputed on the GPU, a first
    forward pass keeps the very output it returns, for the number of rows it
    has, and one forward pass is counted for the backward pass.  From then on,
    as long as the kept output is untouched, a recomputation that returns
    returns that output, for the same number of rows, and has submitted nothing
    to the engine. *)
Theorem recomputation_returns_the_kept_output (x : layer_input) (l l1 : layer) out ctx :
  ly_policy (l_cfg l) = RETAIN_CPU → save_for_backward_of l x = true →
  0 ≤ li_batch_size x → 0 ≤ li_seq_len x →
  layer_forward "first_forward" x l = (l1, Ok (out, ctx)) →
  let q := li_batch_size x * li_seq_len x in
  ∃ o c, out = FromCache o (Some (li_device x)) ∧ co_rows o = q ∧ ctx = Some c ∧ retained_cache c = true ∧
    core_of (l_sft l1) = Core (s_heap (l_sft l)) (s_window (l_sft l)) (counted true (s_depth (l_sft l)))
                              (Checkpoint READY None (Some o) q) (s_backward (l_sft l)) ∧
    ∀ x' l2 l3 out' ctx',
      ly_policy (l_cfg l2) = RETAIN_CPU → save_for_backward_of l2 x' = true →
      s_ckpt (l_sft l2) = s_ckpt (l_sft l1) →
      layer_forward "recompute" x' l2 = (l3, Ok (out', ctx')) →
      out' = FromCache o (Some (li_device x')) ∧
      core_of (l_sft l3) = core_of (l_sft l2) ∧ s_forward (l_sft l3) = s_forward (l_sft l2).
Proof.
  intros Hpol Hsave Hb Hs Hx q.
  apply layer_forward_steps in Hx as (s0 & numels & l2 & g & l3 & c & E0 & F0 & Hsub & Hsync & -> & _ & Hc & E1 & _); try done.
  apply submit_first_spec in Hsub as (E2 & buf & Hf). fold q in Hsync, Hf.
  assert (0 ≤ q) as Hq by (unfold q; nia).
  apply (sync_first_spec _ _ _ _ _ _ _ Hq Hf) in Hsync as (o & -> & E3).
  exists (CachedOutput o q), c. simpl in E2. rewrite E0 in E2. unfold core_of in E2. injection E2 as Eh Ew Ed _ Eb.
  assert (core_of (l_sft l1) = Core (s_heap (l_sft l)) (s_window (l_sft l)) (counted true (s_depth (l_sft l)))
            (Checkpoint READY None (Some (CachedOutput o q)) q) (s_backward (l_sft l))) as E4
    by (by rewrite E1, E3, Eh, Ew, Ed, Eb).
  split_and!; try done. intros x' l4 l5 out' ctx' Hpol' Hsave' Hck Hx'.
  apply layer_forward_steps in Hx' as (s5 & numels' & l6 & g' & l7 & c' & E5 & F5 & Hsub & Hsync & _ & _ & _ & E6 & F6); try done.
  apply submit_reuse_spec in Hsub as [E7 F7]. pose proof Hsync as Hfwd. apply sync_reuse_forward in Hfwd.
  apply sync_reuse_spec in Hsync as (E8 & o' & Ho & ->). simpl in E7, F7.
  rewrite E6, E8, E7, E5, F6, Hfwd, F7, F5. split_and!; try done. do 2 f_equal.
  assert (s_ckpt (l_sft l6) = s_ckpt (l_sft l1)) as Hck6.
  { rewrite <-Hck. rewrite E5 in E7. unfold core_of in E7. by injection E7. }
  rewrite Hck6 in Ho. unfold core_of in E4. injection E4 as _ _ _ E4 _. rewrite E4 in Ho. by injection Ho.
Qed.
End layers.

(** A shared expert is an attribute that the module has, and one in the
    singular is always gated. *)
Lemma shared_expert_found has present attr gate :
  shared_expert_attributes has present = Ok (Some attr, gate) →
  has = true ∧ present attr = true ∧ (attr = "shared_expert" → ∃ g, gate = Some g ∧ present g = true).
Proof.
  unfold shared_expert_attributes. destruct has; [|done]. cbn [negb]. intros Hx. inv_bind Hx as a Ha.
  apply of_option_ok in Ha. inv_guard Hx as Hg. injection Hx as -> <-. split; [done|].
  apply find_some in Ha as [_ Ha]. split; [done|]. intros ->. simpl in Hg |- *.
  destruct (present "shared_expert_gate") eqn:E1; [by exists "shared_expert_gate"|].
  destruct (present "shared_experts_gate") eqn:E2; [by exists "shared_experts_gate"|done].
Qed.

(** ** Placeholders never reach a checkpoint *)

Section placeholders.
Context (prefix : string).

Definition placeholder_key (params : list parameter) (k : string) : Prop :=
  ∃ p, p ∈ params ∧ pr_zero_storage p = true ∧ k = prefix +:+ pr_name p.

Lemma dict_get_pop {A} k k' (d : list (string * A)) :
  dict_get k (dict_pop k' d) = if String.eqb k k' then None else dict_get k d.
Proof.
  unfold dict_pop. induction d as [|[k0 v] d IH]; [by destruct (String.eqb k k')|]. cbn [List.filter fst].
  destruct (String.eqb_spec k' k0) as [->|Hne]; cbn [negb]; simpl; rewrite IH.
  - by destruct (String.eqb_spec k k0).
  - destruct (String.eqb_spec k k0) as [->|]; [|done]. by destruct (String.eqb_spec k0 k').
Qed.

Lemma strip_cons p params d :
  strip_kt_zero_storage_from_state_dict prefix (p :: params) d =
  strip_kt_zero_storage_from_state_dict prefix params (if pr_zero_storage p then dict_pop (prefix +:+ pr_name p) d else d).
Proof. done. Qed.

Lemma placeholder_cons p params k :
  placeholder_key (p :: params) k ↔ (pr_zero_storage p = true ∧ k = prefix +:+ pr_name p) ∨ placeholder_key params k.
Proof. unfold placeholder_key. setoid_rewrite elem_of_cons. naive_solver. Qed.

Lemma strip_absent params d k :
  dict_get k d = None → dict_get k (strip_kt_zero_storage_from_state_dict prefix params d) = None.
Proof.
  revert d. induction params as [|p ps IH]; intros d Hd; [done|]. rewrite strip_cons. apply IH.
  destruct (pr_zero_storage p); [|done]. rewrite dict_get_pop, Hd. by destruct (String.eqb _ _).
Qed.

(** A saved dictionary has no placeholder and keeps everything else. *)
Lemma strip_keys params d k :
  (placeholder_key params k → dict_get k (strip_kt_zero_storage_from_state_dict prefix params d) = None) ∧
  (¬ placeholder_key params k → dict_get k (strip_kt_zero_storage_from_state_dict prefix params d) = dict_get k d).
Proof.
  revert d. induction params as [|p ps IH]; intros d.
  - split; [intros (p & Hp & _); by apply elem_of_nil in Hp|done].
  - rewrite strip_cons, placeholder_cons. destruct (IH (if pr_zero_storage p then dict_pop (prefix +:+ pr_name p) d else d)) as [H1 H2].
    split; [intros [[Hz ->]|Hk]; [|by apply H1]|intros Hk].
    + rewrite Hz. apply strip_absent. by rewrite dict_get_pop, String.eqb_refl.
    + rewrite H2 by tauto. destruct (pr_zero_storage p); [|done]. rewrite dict_get_pop.
      destruct (String.eqb_spec k (prefix +:+ pr_name p)); [|done]. tauto.
Qed.

(** Loading finds every placeholder again, as the parameter itself, and
    everything else as it was saved. *)
Lemma supply_keys params d k :
  NoDup (pr_name <$> params) →
  (∀ p, p ∈ params → pr_zero_storage p = true →
     dict_get (prefix +:+ pr_name p) (supply_kt_zero_storage_for_state_dict_load prefix params d) = Some (pr_obj p)) ∧
  (¬ placeholder_key params k →
     dict_get k (supply_kt_zero_storage_for_state_dict_load prefix params d) = dict_get k d).
Proof.
  unfold supply_kt_zero_storage_for_state_dict_load.
  induction params as [|p ps IH] using rev_ind; intros Hnd.
  - split; [by intros p ?%elem_of_nil|done].
  - rewrite fmap_app in Hnd. apply NoDup_app in Hnd as (Hnd & Hdis & _). destruct (IH Hnd) as [H1 H2].
    rewrite foldl_snoc. split.
    + intros p' [Hp'| ->%list_elem_of_singleton]%elem_of_app Hz; [|by rewrite Hz, dict_get_set_eq].
      destruct (pr_zero_storage p); [|by apply H1]. rewrite dict_get_set_ne; [by apply H1|].
      intros Heq. apply str_app_inj_l in Heq. apply (Hdis (pr_name p')); [by apply list_elem_of_fmap_2|].
      rewrite <-Heq. by left.
    + intros Hk. assert (¬ placeholder_key ps k) as Hk'.
      { intros (p' & Hp' & Hz). apply Hk. exists p'. split; [apply elem_of_app; by left|done]. }
      destruct (pr_zero_storage p) eqn:Hz; [|by apply H2]. rewrite dict_get_set_ne; [by apply H2|].
      intros <-. apply Hk. exists p. split_and!; [apply elem_of_app; right; left|done|done].
Qed.
End placeholders.

(** ** A concrete training step *)

Module LayerExample.
Import BaseExample.
#[local] Existing Instance recorder.

(** Two experts per token; every operation succeeds. *)
#[local] Instance steady : LayerOps := {|
  lop_routing := mret (8, 8);
  lop_gpu_experts := mret tt;
  lop_place_output := mret tt;
  lop_move_cached := mret tt;
  lop_place_grads := mret tt;
  lop_add_outputs := mret tt;
  lop_update_lora := mret tt;
  lop_update_base := mret tt;
|}.

Definition input : layer_input := LayerInput 2 2 "cuda:0" true true true false.
Definition idle_layer : layer :=
  Layer _ (LayerConfig RETAIN_CPU false 2 true false) (wrapper_with true [entry] 0)
    (Some (true, wrapper_with true [] 0)) true 0 0 true false false false 100.

Definition kept : cached_output := CachedOutput 100 4.
Definition context : moe_ctx := MoeCtx 4 "cuda:0" true false false true.
Abbreviation after_forward := (layer_forward "first_forward" input idle_layer).1.
Definition recompute : M layer unit := discard (layer_forward "recompute" input).
Abbreviation after_backward := (function_backward context recompute true after_forward).1.

(** One forward and one backward task were queued: the recomputation used the
    kept output. *)
Lemma recomputation_returns_the_kept_output_witness :
  layer_forward "first_forward" input idle_layer
    = (after_forward, Ok (FromCache kept (Some "cuda:0"), Some context)) ∧
  s_engine (l_sft after_backward) = [ForwardTask (Buffer 0 4) true; BackwardTask (Buffer 0 4) false float_one] ∧
  ∃ o, ck_output (s_ckpt (l_sft after_forward)) = Some o ∧
    ∀ l3 out' ctx', layer_forward "recompute" input after_forward = (l3, Ok (out', ctx')) →
      out' = FromCache o (Some "cuda:0").
Proof.
  assert (layer_forward "first_forward" input idle_layer
    = (after_forward, Ok (FromCache kept (Some "cuda:0"), Some context))) as Hx.
  { apply run_result. vm_compute. reflexivity. }
  split; [exact Hx|]. split; [vm_compute; reflexivity|].
  destruct (recomputation_returns_the_kept_output input idle_layer after_forward _ _ eq_refl eq_refl
    ltac:(vm_compute; discriminate) ltac:(vm_compute; discriminate) Hx) as (o & c & _ & _ & _ & _ & Hcore & Hr).
  exists o. split.
  - apply core_ckpt in Hcore. by rewrite Hcore.
  - intros l3 out' ctx' Hx'. refine (proj1 (Hr input after_forward l3 out' ctx' _ _ eq_refl Hx')); vm_compute; reflexivity.
Defined.

Lemma layer_backward_outcome_witness :
  cx_authoritative context = true ∧ distinct [entry] ∧
  settled [entry] (s_window (l_sft (recompute after_forward).1)) ∧
  grads_published (s_heap (l_sft after_backward)) [entry] ∧ s_depth (l_sft after_backward) = 0 ∧
  ck_output (s_ckpt (l_sft after_backward)) = None.
Proof.
  split; [reflexivity|]. split; [exact entry_distinct|].
  assert (settled [entry] (s_window (l_sft (recompute after_forward).1))) as Hs by (vm_compute; done).
  split; [exact Hs|].
  pose proof (layer_backward_outcome [entry] context recompute true after_forward after_backward
    (Ok (MoeGrads (Buffer 0 4) 4 false)) eq_refl entry_distinct Hs) as Ho.
  assert ((recompute after_forward).2 = Ok tt) as Hr by (vm_compute; reflexivity). rewrite Hr in Ho.
  destruct Ho as (Hg & Hd & Hk); [apply run_result; vm_compute; reflexivity|].
  split; [exact Hg|]. split; [|exact Hk]. rewrite Hd. vm_compute. reflexivity.
Defined.

(** When outputs are not kept, a step runs the expert forward twice. *)
Definition recomputing_layer : layer :=
  Layer _ (LayerConfig (Policy "recompute" "recompute") false 2 true false) (wrapper_with true [entry] 0)
    None true 0 0 true false false false 100.
Lemma recompute_policy_runs_twice :
  let l1 := (layer_forward "first_forward" input recomputing_layer).1 in
  s_engine (l_sft (function_backward (MoeCtx 4 "cuda:0" false false false true) recompute true l1).1)
  = [ForwardTask (Buffer 0 4) false; ForwardTask (Buffer 0 4) true; BackwardTask (Buffer 0 4) false float_one].
Proof. vm_compute. reflexivity. Qed.

(** A gradient that cannot be viewed as a matrix is refused before the clean-up
    begins: the kept output stays, and the next first forward pass is refused. *)
Lemma unviewable_gradient_keeps_the_output :
  let l1 := (function_backward context (mret tt) false after_forward).1 in
  ck_state (s_ckpt (l_sft l1)) = READY ∧
  (layer_forward "first_forward" input l1).2 = Err (Raise RuntimeError "Checkpoint forward cache is still live").
Proof. split; vm_compute; reflexivity. Qed.

(** Without gradients a checkpointed forward pass keeps nothing, and leaves
    nothing to recompute from. *)
Definition evaluating : layer_input := LayerInput 2 2 "cuda:0" false true true false.
Lemma evaluation_keeps_nothing :
  ck_state (s_ckpt (l_sft (layer_forward "first_forward" evaluating idle_layer).1)) = EMPTY.
Proof. vm_compute. reflexivity. Qed.
End LayerExample.
