(* ===== verification/LayerDist.v ===== *)
(** * A wrapped layer on several ranks

    Models the distributed branches of [KTMoELayerWrapper]
    ([kt-kernel/python/sft/layer.py]) and [KTMoEFunction]
    ([kt-kernel/python/sft/autograd.py]), with the functions that turn a failure
    of one rank into a failure of all.  Rank 0 owns the object that drives the
    engine; its peers take part in the collectives only.

    All ranks are run side by side.  A collective is complete when every rank
    has entered it; when one has raised before, the others wait.  Gathering and
    scattering rows is a collective whose contents are modelled in [Dist]. *)
From S2P Require Import Prelude PyStr PyVal FS WeightManifest Ephemeral Backend Base KTConfig WrapSettings WeightSource Arch Wrapping Dist Layer.

Local Open Scope string_scope.
Local Open Scope list_scope.
Local Open Scope Z_scope.

(** ** Collectives *)

Section collectives.
Context {A B : Type}.

Definition returned (o : outcome A) : option A := match o with Returned a => Some a | _ => None end.

(** What becomes of a rank that enters a collective which not all ranks enter. *)
Definition left_waiting (o : outcome A) : outcome B :=
  match o with Returned _ => Waiting | Raised e => Raised e | Waiting => Waiting end.

(** [f] gives every rank its result from what all of them bring. *)
Definition collective (f : list A -> list (res B)) (ranks : list (outcome A)) : list (outcome B) :=
  match mapM returned ranks with
  | Some values => outcome_of <$> f values
  | None => left_waiting <$> ranks
  end.

(** A step that every rank takes by itself. *)
Definition locally (f : nat -> A -> res B) (ranks : list (outcome A)) : list (outcome B) :=
  imap (fun rank o => match o with
                      | Returned a => outcome_of (f rank a)
                      | Raised e => Raised e
                      | Waiting => Waiting
                      end) ranks.
End collectives.

(** [gather] and [scatter] move rows; here only who takes part matters. *)
Definition exchange_rows {A} : list (outcome A) -> list (outcome A) := collective (fmap Ok).

Definition synced_error (context text : string) : pyexn := Raise RuntimeError (context +:+ ": " +:+ text).

(** [_sync_rank0_exception]: rank 0 has the error, all ranks raise it. *)
Definition sync_rank0_exception {A} (error : option pyexn) (context : string) : list (outcome A) -> list (outcome A) :=
  collective (fun values =>
    match error with
    | None => Ok <$> values
    | Some e => (fun _ => Err (synced_error context (error_text e))) <$> values
    end).

(** [failing_ranks[0]] *)
Fixpoint first_error (rank : nat) (errors : list (option pyexn)) : option (nat * pyexn) :=
  match errors with
  | [] => None
  | Some e :: _ => Some (rank, e)
  | None :: errors' => first_error (S rank) errors'
  end.

(** [_sync_any_rank_exception]: every rank brings its error, or none. *)
Definition sync_any_rank_exception (context : string) : list (outcome (option pyexn)) -> list (outcome unit) :=
  collective (fun errors =>
    match first_error 0 errors with
    | None => (fun _ => Ok tt) <$> errors
    | Some (source, e) =>
        (fun _ => Err (synced_error (context +:+ " on rank " +:+ str_of_Z (Z.of_nat source)) (error_text e))) <$> errors
    end).

(** ** The ranks *)

(** What a rank brings to a forward pass: the size of its world when it was
    wrapped and now, whether it owns a wrapper object, its policy and phase,
    its number of rows, whether it asks for a backward pass, and how its
    experts on the GPU end. *)
Record rank_input := RankInput {
  ri_wrapped_world_size : Z;
  ri_owner : bool;
  ri_policy : KTActivationPolicy;
  ri_mode : string;
  ri_qlen : Z;
  ri_save : bool;
  ri_gpu : option pyexn;
}.

(** The computation of all ranks: rank 0's layer, and how each rank stands. *)
Definition D `{Engine} (A : Type) : Type := layer * list (outcome A).

Section ranks.
Context `{LayerOps} (layer_idx : Z) (ranks : list rank_input).

Definition world_size : Z := Z.of_nat (length ranks).
Definition in_context (what : string) : string := "Layer " +:+ str_of_Z layer_idx +:+ " " +:+ what.

(** A step of rank 0 alone, whose error is kept: [if rank == 0: try: ...]. *)
Definition rank0_step {A} (m : M layer unit) (d : D A) : D A * option pyexn :=
  match d.2 with
  | Returned _ :: _ =>
      match m d.1 with
      | (l, Ok _) => ((l, d.2), None)
      | (l, Err e) => ((l, d.2), Some e)
      end
  | _ => (d, None)
  end.

Definition on_ranks {A B} (f : list (outcome A) -> list (outcome B)) (d : D A) : D B := (d.1, f d.2).

(** [try: collective  except Exception as exc: h(exc); raise] on all ranks; the
    handler does something on rank 0 only, when it has entered the block. *)
Definition guarded {A B} (h : pyexn -> M layer unit) (f : list (outcome A) -> list (outcome B)) (d : D A) : D B :=
  match d.2, f d.2 with
  | Returned _ :: _, Raised e :: _ => ((h e d.1).1, f d.2)
  | _, _ => (d.1, f d.2)
  end.

(** ** Agreement *)

(** [ownership_error] *)
Definition ownership_error (rank : nat) (i : rank_input) : option pyexn :=
  if negb (ri_wrapped_world_size i =? world_size)
  then Some (Raise RuntimeError "KT wrapper was created for another world_size")
  else if (rank =? 0)%nat && negb (ri_owner i) then Some (Raise RuntimeError "rank 0 does not own the KT backend")
  else if negb (rank =? 0)%nat && ri_owner i then Some (Raise RuntimeError "rank unexpectedly owns a KT backend")
  else None.

Definition action_of (i : rank_input) : string := activation_checkpoint_action (ri_policy i) (ri_mode i).

Definition state_of (rank : nat) (i : rank_input) : ckpt_state :=
  local_state (ri_qlen i) layer_idx (ri_mode i) (action_of i) (Some (ap_cpu (ri_policy i))) (Some (ap_gpu (ri_policy i)))
    (bool_decide (ownership_error rank i = None)).

(** [save_for_backward_submit] *)
Definition save_submit (i : rank_input) : bool :=
  if String.eqb (ri_mode i) "first_forward" && negb (String.eqb (action_of i) "cache_first_forward") then false
  else ri_save i.

(** [_all_gather_checkpoint_state] on every rank: the process group hands each
    of them the states of all. *)
Definition agree (l : layer) : D (rank_input * list Z) :=
  (l, collective (fun inputs =>
        let group := Group true world_size (fun _ => Ok (imap state_of inputs)) in
        imap (fun rank i => all_qlens ← all_gather_checkpoint_state group (state_of rank i) world_size;
                            mret (i, all_qlens)) inputs)
      (Returned <$> ranks)).

(** What a rank checks by itself after the agreement. *)
Definition check_rank (rank : nat) (agreed : rank_input * list Z) : res rank_input :=
  let '(i, all_qlens) := agreed in
  qlen ← qlen_at all_qlens rank;
  _ ← raise_if (negb (qlen =? ri_qlen i)) RuntimeError "qlen mismatch";
  _ ← validate_activation_checkpoint_phase (ri_policy i) (ri_mode i) (save_submit i);
  match ownership_error rank i with
  | Some _ => Err (Raise RuntimeError "KT ownership validation failed")
  | None => mret i
  end.

(** ** Forward *)

Definition total_qlen : Z := sumZ ri_qlen ranks.

(** What the agreement makes common to all ranks is read off rank 0. *)
Definition rank0_input : option rank_input := head ranks.
Definition action : string := match rank0_input with Some i => action_of i | None => "normal" end.
Definition cache_first : bool := String.eqb action "cache_first_forward".
Definition reuse : bool := String.eqb action "reuse_recompute".
Definition rank0_save : bool := match rank0_input with Some i => save_submit i | None => false end.
Definition has_gpu_experts (l : layer) : bool := ly_shared_expert (l_cfg l) || ly_lora_experts (l_cfg l).

Definition refresh_rank0 : M layer unit :=
  _ ← refresh_backend_weights;
  when cache_first (on_sft validate_checkpoint_cache_empty).

Definition submit_rank0 : M layer unit :=
  c ← gets l_cfg;
  let k := ly_experts_per_tok c in
  on_sft (submit_forward (ForwardInputs total_qlen (total_qlen, k) (total_qlen, k)) rank0_save).

(** The kept output is validated, or the rows are gathered and submitted. *)
Definition dist_submit (d : D rank_input) : D rank_input :=
  let '(d, refresh_error) := rank0_step refresh_rank0 d in
  let rest := match refresh_error with
              | Some e => lift (Err e)
              | None => if reuse then on_sft (validate_checkpoint_output total_qlen) else submit_rank0
              end in
  let d := if reuse then d else on_ranks exchange_rows d in
  let '(d, error) := rank0_step
      (except_reraise rest (fun e => when (reuse || cache_first) (poison_checkpoint_cache e))) d in
  on_ranks (sync_rank0_exception error
    (in_context (if reuse then "checkpoint cache validation failed" else "CPU forward submission failed"))) d.

(** The experts on the GPU of every rank. *)
Definition dist_gpu_experts (d : D rank_input) : D unit :=
  if has_gpu_experts d.1 then
    guarded (fun e => when (cache_first || reuse) (poison_checkpoint_cache e))
      (fun ranks => sync_any_rank_exception (in_context "local GPU expert forward failed")
                      (locally (fun _ i => Ok (ri_gpu i)) ranks)) d
  else on_ranks (locally (fun _ _ => Ok tt)) d.

Definition dist_submit_and_compute_gpu (l : layer) : D unit :=
  dist_gpu_experts (dist_submit (on_ranks (locally check_rank) (agree l))).

(** [KTMoEFunction.forward] and [_sync_forward_output_no_autograd]: rank 0 reads
    the engine's output or the kept one, and scatters it. *)
Definition use_autograd : bool := match rank0_input with Some i => ri_save i | None => false end.

Definition sync_rank0 (device : string) : M layer unit :=
  if use_autograd
  then except_reraise (_ ← sync_expert_output total_qlen device cache_first reuse; mret tt)
         (fun e => when (cache_first || reuse) (poison_checkpoint_cache e))
  else _ ← sync_forward_output_no_autograd total_qlen device; mret tt.

Definition dist_sync_output (device : string) (d : D unit) : D unit :=
  let '(d, error) := rank0_step (sync_rank0 device) d in
  on_ranks exchange_rows
    (on_ranks (sync_rank0_exception error
      (in_context (if use_autograd then "CPU forward synchronization failed" else "CPU inference forward failed"))) d).

(** A forward pass of all ranks, from the routed tokens on. *)
Definition dist_forward (device : string) (l : layer) : D unit :=
  dist_sync_output device (dist_submit_and_compute_gpu l).

(** ** Backward *)

(** What a rank brings to a backward pass: how its recomputation has ended,
    which is a forward pass of all ranks, and whether its gradient can be viewed
    as a matrix. *)
Record rank_grad := RankGrad { rg_recompute : option pyexn; rg_viewable : bool }.

(** [1.0 / world_size] *)
Definition optimizer_grad_scale : spec_float :=
  SFdiv 53 1024 float_one (binary_normalize 53 1024 world_size 0 false).

(** Rank 0's part.  Only gradients that this call has published are withdrawn. *)
Definition backward_rank0 (c : moe_ctx) : M layer unit :=
  finallyM
    (except_reraise
       (_ ← on_sft (backward total_qlen (Some (cx_device c)) optimizer_grad_scale);
        except_reraise (on_ops lop_place_grads) (fun _ => close_window c))
       (fun e => when (retained_cache c) (poison_checkpoint_cache e)))
    (on_sft clear_checkpoint_output).

(** The recomputation; with a kept output its errors are everybody's. *)
Definition dist_recompute (c : moe_ctx) (grads : list rank_grad) (d : D unit) : D unit :=
  let errors := on_ranks (locally (fun rank _ => Ok (default None (rg_recompute <$> grads !! rank)))) d in
  if retained_cache c
  then guarded poison_checkpoint_cache (sync_any_rank_exception (in_context "checkpoint recompute failed")) errors
  else on_ranks (locally (fun _ error => match error with Some e => Err e | None => Ok tt end)) errors.

(** Rows are scattered, or the published gradients are withdrawn. *)
Definition dist_scatter_grads (c : moe_ctx) (d : D unit) : D unit :=
  guarded (fun _ => close_window c) (fun ranks => exchange_rows (exchange_rows ranks)) d.

Definition dist_next_repack (c : moe_ctx) (d : D unit) : D unit :=
  let '(d, error) := rank0_step (submit_next_repack c) d in
  on_ranks (sync_rank0_exception error (in_context "backward repack submission failed")) d.

Definition dist_backward (c : moe_ctx) (grads : list rank_grad) (l : layer) : D unit :=
  let d := dist_recompute c grads (l, (fun _ => Returned tt) <$> ranks) in
  let d := on_ranks (locally (fun rank _ => raise_if (negb (default true (rg_viewable <$> grads !! rank))) RuntimeError
                                "view size is not compatible with input tensor's size and stride")) d in
  let d := on_ranks exchange_rows d in
  let '(d, error) := rank0_step (backward_rank0 c) d in
  let d := on_ranks (sync_rank0_exception error (in_context "CPU backward failed")) d in
  dist_next_repack c (dist_scatter_grads c d).
End ranks.
