(* ===== verification/LayerDistSpec.v ===== *)
(** * The ranks pass through a layer together

    Theorems on [LayerDist]: with the failures of one rank made the failures of
    all, no rank waits for a collective that another never enters. *)
From S2P Require Import Prelude PyStr PyVal FS WeightManifest Ephemeral Backend Base BaseSpec KTConfig WrapSettings WeightSource Arch Wrapping Dist Layer LayerSpec LayerDist.

Local Open Scope string_scope.
Local Open Scope list_scope.
Local Open Scope Z_scope.

(** ** Ranks that stand alike *)

Definition all_returned {A} (os : list (outcome A)) : Prop := Forall (fun o => ∃ a, o = Returned a) os.
Definition all_raised {A} (os : list (outcome A)) : Prop := Forall (fun o => ∃ e, o = Raised e) os.
(** Every rank returns, or every rank raises. *)
Definition united {A} (os : list (outcome A)) : Prop := all_returned os ∨ all_raised os.

Section united.
Context {A B : Type}.
Implicit Types os : list (outcome A).

Lemma all_returned_values os : all_returned os ↔ ∃ vs, os = Returned <$> vs.
Proof.
  split.
  - induction 1 as [|o os [a ->] _ [vs ->]]; [by exists []|by exists (a :: vs)].
  - intros [vs ->]. apply Forall_fmap, Forall_true. intros a. by exists a.
Qed.

Lemma mapM_returned (vs : list A) : mapM returned (Returned <$> vs) = Some vs.
Proof. apply mapM_Some, Forall2_fmap_l, Forall_Forall2_diag, Forall_true. done. Qed.

Lemma collective_returned (f : list A → list (res B)) vs : collective f (Returned <$> vs) = outcome_of <$> f vs.
Proof. unfold collective. by rewrite mapM_returned. Qed.

Lemma collective_raised (f : list A → list (res B)) os : os ≠ [] → all_raised os → all_raised (collective f os).
Proof.
  intros Hne Hr. unfold collective. destruct Hr as [|o os [e ->] Hr]; [done|]. simpl.
  constructor; [by exists e|]. unfold all_raised. apply Forall_fmap. eapply Forall_impl; [exact Hr|].
  intros o [e' ->]. by exists e'.
Qed.

Lemma locally_raised (f : nat → A → res B) os : all_raised os → all_raised (locally f os).
Proof.
  intros Hr. unfold all_raised, locally. apply Forall_lookup. intros i o Hi. rewrite list_lookup_imap in Hi.
  apply fmap_Some in Hi as (o' & Ho & ->). destruct (Forall_lookup_1 _ _ _ _ Hr Ho) as [e ->]. by exists e.
Qed.

Lemma locally_returned (f : nat → A → res B) vs : locally f (Returned <$> vs) = imap (fun i a => outcome_of (f i a)) vs.
Proof. unfold locally. by rewrite imap_fmap. Qed.

(** Results that are all values, or all exceptions. *)
Definition uniform (rs : list (res B)) : Prop := Forall (fun r => is_ok r = true) rs ∨ Forall (fun r => is_ok r = false) rs.

Lemma uniform_united rs : uniform rs → united (outcome_of <$> rs).
Proof.
  intros [H|H]; [left|right]; apply Forall_fmap; (eapply Forall_impl; [exact H|]);
    intros [a|e]; try done; intros _; by eexists.
Qed.

Lemma collective_length (f : list A → list (res B)) os :
  (∀ vs, length (f vs) = length vs) → length (collective f os) = length os.
Proof.
  intros Hf. unfold collective. destruct (mapM returned os) as [vs|] eqn:E; [|by rewrite length_fmap].
  rewrite length_fmap, Hf. apply mapM_Some in E. symmetry. by apply Forall2_length in E.
Qed.
Lemma locally_length (f : nat → A → res B) os : length (locally f os) = length os.
Proof. apply length_imap. Qed.
End united.

Section shared.
Context {A : Type}.

Lemma exchange_returned (vs : list A) : exchange_rows (Returned <$> vs) = Returned <$> vs.
Proof. unfold exchange_rows. rewrite collective_returned, <-list_fmap_compose. done. Qed.

Lemma sync_rank0_none context (vs : list A) : sync_rank0_exception None context (Returned <$> vs) = Returned <$> vs.
Proof. unfold sync_rank0_exception. rewrite collective_returned, <-list_fmap_compose. done. Qed.

Lemma sync_rank0_some e context (vs : list A) : all_raised (sync_rank0_exception (Some e) context (Returned <$> vs)).
Proof.
  unfold sync_rank0_exception. rewrite collective_returned, <-list_fmap_compose. apply Forall_fmap, Forall_true.
  intros a. by eexists.
Qed.

Lemma sync_any_united context (vs : list (option pyexn)) :
  match first_error 0 vs with
  | None => sync_any_rank_exception context (Returned <$> vs) = (fun _ => Returned tt) <$> vs
  | Some _ => ∃ e, sync_any_rank_exception context (Returned <$> vs) = (fun _ => Raised e) <$> vs
  end.
Proof.
  unfold sync_any_rank_exception. rewrite collective_returned. destruct (first_error 0 vs) as [[source e]|];
    [eexists|]; by rewrite <-list_fmap_compose.
Qed.

Lemma first_error_none n errors : first_error n errors = None ↔ Forall (fun o => o = None) errors.
Proof.
  revert n. induction errors as [|[e|] es IH]; intros n; simpl.
  - done.
  - split; [done|]. intros H. by inversion H.
  - rewrite IH. split; [by constructor|]. intros H. by inversion H.
Qed.
End shared.

(** *** Ranks that have raised stay so *)

Definition down {A} (os : list (outcome A)) : Prop := os ≠ [] ∧ all_raised os.
Definition propagates {A B} (f : list (outcome A) → list (outcome B)) : Prop := ∀ os, down os → down (f os).

Lemma collective_propagates {A B} (f : list A → list (res B)) : propagates (collective f).
Proof.
  intros os [Hne Hr]. split; [|by apply collective_raised]. unfold collective.
  destruct Hr as [|o os [e ->] Hr]; done.
Qed.
Lemma exchange_propagates {A} : propagates (exchange_rows (A := A)).
Proof. apply collective_propagates. Qed.
Lemma sync_rank0_propagates {A} e context : propagates (sync_rank0_exception (A := A) e context).
Proof. apply collective_propagates. Qed.
Lemma sync_any_propagates context : propagates (sync_any_rank_exception context).
Proof. apply collective_propagates. Qed.
Lemma locally_propagates {A B} (f : nat → A → res B) : propagates (locally f).
Proof. intros os [Hne Hr]. split; [|by apply locally_raised]. by destruct os. Qed.
Lemma compose_propagates {A B C} (f : list (outcome A) → list (outcome B)) (g : list (outcome B) → list (outcome C)) :
  propagates f → propagates g → propagates (fun os => g (f os)).
Proof. intros Hf Hg os Hd. by apply Hg, Hf. Qed.
Lemma down_united {A} (os : list (outcome A)) : down os → united os.
Proof. intros [_ Hr]. by right. Qed.
#[local] Hint Resolve exchange_propagates sync_rank0_propagates sync_any_propagates locally_propagates
  collective_propagates : core.

Section phases.
Context `{LayerOps}.

Lemma rank0_step_down {A} (m : M layer unit) (d : D A) : down d.2 → rank0_step m d = (d, None).
Proof. intros [Hne Hr]. unfold rank0_step. by destruct Hr as [|o os [e ->] Hr]. Qed.

Lemma rank0_step_returned {A} (m : M layer unit) l (v : A) vs :
  rank0_step m (l, Returned <$> v :: vs) =
  (((m l).1, Returned <$> v :: vs), match (m l).2 with Ok _ => None | Err e => Some e end).
Proof. unfold rank0_step. simpl. destruct (m l) as [l' [[]|e]]; done. Qed.

Lemma guarded_down {A B} h (f : list (outcome A) → list (outcome B)) (d : D A) :
  down d.2 → guarded h f d = (d.1, f d.2).
Proof. intros [Hne Hr]. unfold guarded. by destruct Hr as [|o os [e ->] Hr]. Qed.

Lemma sync_rank0_down {A} e context (v : A) vs : down (sync_rank0_exception (Some e) context (Returned <$> v :: vs)).
Proof. split; [|apply sync_rank0_some]. unfold sync_rank0_exception. by rewrite collective_returned. Qed.

(** A step of rank 0 whose error all ranks raise. *)
Lemma shared_step {A} (m : M layer unit) context l (v : A) vs :
  let '(d, error) := rank0_step m (l, Returned <$> v :: vs) in
  (on_ranks (sync_rank0_exception error context) d).1 = (m l).1 ∧
  match (m l).2 with
  | Ok _ => (on_ranks (sync_rank0_exception error context) d).2 = Returned <$> v :: vs
  | Err _ => down (on_ranks (sync_rank0_exception error context) d).2
  end.
Proof.
  rewrite rank0_step_returned. destruct (m l) as [l' [[]|e]]; unfold on_ranks; simpl.
  - split; [done|]. apply (sync_rank0_none context (v :: vs)).
  - split; [done|]. apply (sync_rank0_down e context v vs).
Qed.

(** ** Agreement *)

Context (layer_idx : Z) (ranks : list rank_input) (Hworld : 1 < world_size ranks).

Abbreviation states := (imap (state_of layer_idx ranks) ranks).

Lemma ranks_nonempty : ranks ≠ [].
Proof. intros E. unfold world_size in Hworld. rewrite E in Hworld. simpl in Hworld. lia. Qed.

Lemma agree_run l :
  agree layer_idx ranks l = (l, match check_states states with
    | Ok qs => (fun i => Returned (i, qs)) <$> ranks
    | Err e => (fun _ => Raised e) <$> ranks
    end).
Proof.
  unfold agree. f_equal. rewrite collective_returned.
  assert (∀ i st, all_gather_checkpoint_state (Group true (world_size ranks) (fun _ => Ok states))
            (state_of layer_idx ranks i st) (world_size ranks) = check_states states) as Hg.
  { intros i st. unfold all_gather_checkpoint_state. simpl. rewrite Z.eqb_refl.
    assert (world_size ranks =? 1 = false) as -> by lia. done. }
  rewrite fmap_imap. destruct (check_states states) as [qs|e] eqn:Ec; apply list_eq; intros i;
    rewrite list_lookup_imap, list_lookup_fmap; destruct (ranks !! i); simpl; by rewrite ?Hg.
Qed.

Lemma check_states_inv qs : check_states states = Ok qs →
  qs = cs_qlen <$> states ∧ (∀ s, s ∈ states → invalid_state s = false) ∧
  (∀ s t, s ∈ states → t ∈ states → controls s = controls t).
Proof.
  unfold check_states. intros Hx. inv_guard Hx as Hc. injection Hx as <-. apply orb_false_iff in Hc as [Hi Hl].
  split; [done|]. split.
  - intros s Hs. destruct (invalid_state s) eqn:E; [|done].
    assert (existsb invalid_state states = true); [|congruence].
    apply existsb_exists. exists s. split; [by apply list_elem_of_In|done].
  - apply negb_false_iff, Nat.eqb_eq in Hl. intros s t Hs Ht.
    assert (∀ s, s ∈ states → controls s ∈ remove_dups (controls <$> states)) as Hin.
    { intros s0 Hs0. apply elem_of_remove_dups. by apply list_elem_of_fmap_2. }
    destruct (remove_dups (controls <$> states)) as [|c [|]] eqn:E; try done.
    pose proof (Hin s Hs) as H1%list_elem_of_singleton. pose proof (Hin t Ht) as H2%list_elem_of_singleton. congruence.
Qed.

(** Identifiers that agree stand for the same text. *)
Lemma table_inj (t : list (string * Z)) a b :
  NoDup (snd <$> t) → 0 ≤ default (-1) (dict_get a t) → default (-1) (dict_get a t) = default (-1) (dict_get b t) → a = b.
Proof.
  intros Hnd Ha Hab. destruct (dict_get a t) as [n|] eqn:Ea; simpl in *; [|lia].
  destruct (dict_get b t) as [m|] eqn:Eb; simpl in *; [|lia]. subst m.
  apply dict_get_In in Ea, Eb. induction t as [|[k v] t IH]; [by apply elem_of_nil in Ea|].
  apply NoDup_cons in Hnd as [Hv Hnd]. simpl in Hv. apply elem_of_cons in Ea as [Ea|Ea]; apply elem_of_cons in Eb as [Eb|Eb];
    [congruence| | |by apply IH].
  - destruct Hv. apply list_elem_of_fmap. exists (b, n). split; [simpl; congruence|done].
  - destruct Hv. apply list_elem_of_fmap. exists (a, n). split; [simpl; congruence|done].
Qed.

(** What ranks that agreed have in common. *)
Lemma agreed_alike qs r i r' j :
  check_states states = Ok qs → ranks !! r = Some i → ranks !! r' = Some j →
  ri_mode i = ri_mode j ∧ ri_policy i = ri_policy j ∧
  (ownership_error ranks r i = None ↔ ownership_error ranks r' j = None).
Proof.
  intros Hq Hi Hj. apply check_states_inv in Hq as (_ & Hinv & Hctl).
  assert (∀ r i, ranks !! r = Some i → state_of layer_idx ranks r i ∈ states) as Hin.
  { intros r0 i0 Hi0. apply (list_elem_of_lookup_2 _ r0). by rewrite list_lookup_imap, Hi0. }
  pose proof (Hinv _ (Hin _ _ Hi)) as Hvalid. specialize (Hctl _ _ (Hin _ _ Hi) (Hin _ _ Hj)).
  unfold controls, state_of, local_state, invalid_state, policy_id in *. simpl in Hctl, Hvalid.
  injection Hctl as Hmode _ Hcpu Hgpu Hown. bools.
  split_and!.
  - apply (table_inj CHECKPOINT_PHASE_IDS); [|done|done]. apply (bool_decide_unpack _). by vm_compute.
  - destruct (ri_policy i) as [ci gi], (ri_policy j) as [cj gj]. simpl in *.
    f_equal; (apply (table_inj ACTIVATION_POLICY_IDS); [|done|done]; apply (bool_decide_unpack _); by vm_compute).
  - do 2 case_bool_decide; naive_solver.
Qed.

Lemma check_rank_run qs r i :
  check_states states = Ok qs → ranks !! r = Some i →
  check_rank ranks r (i, qs) =
    (_ ← validate_activation_checkpoint_phase (ri_policy i) (ri_mode i) (save_submit i);
     match ownership_error ranks r i with
     | Some _ => Err (Raise RuntimeError "KT ownership validation failed") | None => mret i end).
Proof.
  intros Hq Hi. apply check_states_inv in Hq as (-> & _). unfold check_rank, qlen_at.
  rewrite list_lookup_fmap, list_lookup_imap, Hi. simpl. by rewrite Z.eqb_refl.
Qed.

Lemma ranks_split : ∃ i rest, ranks = i :: rest.
Proof. pose proof ranks_nonempty. destruct ranks; [done|by eauto]. Qed.

(** After the agreement all ranks go on, or all have raised. *)
Lemma checked_run l :
  (∀ i j, i ∈ ranks → j ∈ ranks → save_submit i = save_submit j) →
  let d := on_ranks (locally (check_rank ranks)) (agree layer_idx ranks l) in
  d.1 = l ∧ (d.2 = Returned <$> ranks ∨ down d.2).
Proof.
  intros Hsave d. subst d. rewrite agree_run. unfold on_ranks. simpl. split; [done|].
  destruct (check_states states) as [qs|e] eqn:Hq.
  - assert ((fun i => Returned (i, qs)) <$> ranks = Returned <$> ((fun i => (i, qs)) <$> ranks)) as ->
      by by rewrite <-list_fmap_compose.
    rewrite locally_returned, imap_fmap.
    assert (∃ i0, ranks !! 0%nat = Some i0) as [i0 Hi0] by (apply lookup_lt_is_Some; unfold world_size in Hworld; lia).
    assert (∀ r i, ranks !! r = Some i → is_ok (check_rank ranks r (i, qs)) = is_ok (check_rank ranks 0 (i0, qs))) as Hsame.
    { intros r i Hi. rewrite !(check_rank_run qs) by done.
      destruct (agreed_alike qs r i 0%nat i0 Hq Hi Hi0) as (-> & -> & Ho).
      rewrite (Hsave i i0); [|by eapply list_elem_of_lookup_2..].
      destruct (validate_activation_checkpoint_phase _ _ _); [|done]. simpl.
      destruct (ownership_error ranks r i), (ownership_error ranks 0 i0); try done; destruct Ho; naive_solver. }
    destruct (is_ok (check_rank ranks 0 (i0, qs))) eqn:Eok.
    + left. apply list_eq. intros r. rewrite list_lookup_imap, list_lookup_fmap.
      destruct (ranks !! r) as [i|] eqn:Hi; [|done]. specialize (Hsame r i Hi).
      change (Some (outcome_of (check_rank ranks r (i, qs))) = Some (Returned i)).
      rewrite (check_rank_run qs r i) in Hsame |- * by done.
      destruct (validate_activation_checkpoint_phase _ _ _); [|discriminate Hsame].
      simpl in *. destruct (ownership_error ranks r i); [discriminate Hsame|done].
    + right. split; [intros E; apply (f_equal length) in E; rewrite length_imap in E; simpl in E;
                     unfold world_size in Hworld; lia|]. apply Forall_lookup. intros r o. rewrite list_lookup_imap.
      destruct (ranks !! r) as [i|] eqn:Hi; [|done]. specialize (Hsame r i Hi).
      change (Some (outcome_of (check_rank ranks r (i, qs))) = Some o → ∃ e, o = Raised e).
      intros Ho. apply (inj Some) in Ho. rewrite <-Ho.
      destruct (check_rank ranks r (i, qs)) as [x|e]; [discriminate Hsame|]. by exists e.
  - right. apply (locally_propagates (check_rank ranks)). split.
    { pose proof ranks_nonempty as Hne. intros E%fmap_nil_inv. done. }
    apply Forall_fmap, Forall_true.
    intros i. by eexists.
Qed.

(** ** Forward *)

(** The ranks go on with these values, or have all raised. *)
Definition stand {A} (vs : list A) (os : list (outcome A)) : Prop := os = Returned <$> vs ∨ down os.

Lemma stand_united {A} (vs : list A) os : stand vs os → united os.
Proof. intros [->|Hd]; [left; apply all_returned_values; by exists vs|by apply down_united]. Qed.

Lemma shared_step_stand {A} (m : M layer unit) context (d : D A) v vs :
  stand (v :: vs) d.2 →
  stand (v :: vs) (let '(d, error) := rank0_step m d in on_ranks (sync_rank0_exception error context) d).2.
Proof.
  destruct d as [l os]. simpl. intros [->|Hd].
  - pose proof (shared_step m context l v vs) as Hs. destruct (rank0_step m _) as [d error].
    destruct Hs as [_ Hs]. destruct (m l).2; [by left|by right].
  - rewrite rank0_step_down by done. right. by apply sync_rank0_propagates.
Qed.

Lemma rank0_step_ranks {A} (m : M layer unit) (d : D A) : (rank0_step m d).1.2 = d.2.
Proof. unfold rank0_step. destruct d as [l [|[a|e|] os]]; try done. simpl. by destruct (m l) as [l' [|]]. Qed.

Lemma exchange_stand {A} (vs : list A) os : stand vs os → stand vs (exchange_rows os).
Proof. intros [->|Hd]; [left; apply exchange_returned|right; by apply exchange_propagates]. Qed.

Lemma dist_submit_stand (d : D rank_input) v vs :
  stand (v :: vs) d.2 → stand (v :: vs) (dist_submit layer_idx ranks d).2.
Proof.
  intros Hd. unfold dist_submit. pose proof (rank0_step_ranks (refresh_rank0 ranks) d) as Hr.
  destruct (rank0_step (refresh_rank0 ranks) d) as [d1 error]. simpl in Hr. rewrite <-Hr in Hd. clear Hr.
  apply shared_step_stand. destruct (reuse ranks); [done|]. by apply exchange_stand.
Qed.

Lemma sync_any_stand context (errors : list (option pyexn)) os e0 es :
  errors = e0 :: es → stand errors os → stand ((fun _ => tt) <$> errors) (sync_any_rank_exception context os).
Proof.
  intros He [->|Hd]; [|right; by apply sync_any_propagates].
  pose proof (sync_any_united context errors) as Hs. destruct (first_error 0 errors).
  - destruct Hs as [e ->]. right. split; [by rewrite He|]. apply Forall_fmap, Forall_true. intros a. by exists e.
  - rewrite Hs. left. by rewrite <-list_fmap_compose.
Qed.

Lemma locally_stand {A B} (f : nat → A → B) vs os :
  stand vs os → stand (imap f vs) (locally (fun i a => Ok (f i a)) os).
Proof. intros [->|Hd]; [left|right; by apply locally_propagates]. by rewrite locally_returned, fmap_imap. Qed.

Lemma imap_units {A} (l : list A) : imap (fun _ _ => tt) l = (fun _ => tt) <$> l.
Proof. apply list_eq. intros i. by rewrite list_lookup_imap, list_lookup_fmap. Qed.
Lemma units_imap {A B} (f : nat → A → B) l : (fun _ => tt) <$> imap f l = (fun _ => tt) <$> l.
Proof. apply list_eq. intros i. rewrite !list_lookup_fmap, list_lookup_imap. by destruct (l !! i). Qed.

Lemma guarded_ranks {A B} h (f : list (outcome A) → list (outcome B)) (d : D A) : (guarded h f d).2 = f d.2.
Proof. unfold guarded. destruct d as [l [|[a|e|] os]]; try done. simpl. by destruct (f _) as [|[] ?]. Qed.

Lemma dist_gpu_stand (d : D rank_input) v vs :
  stand (v :: vs) d.2 → stand ((fun _ => tt) <$> v :: vs) (dist_gpu_experts layer_idx ranks d).2.
Proof.
  intros Hd. unfold dist_gpu_experts. destruct (has_gpu_experts d.1).
  - rewrite guarded_ranks. apply (locally_stand (fun _ i => ri_gpu i)) in Hd.
    eapply (sync_any_stand (in_context layer_idx "local GPU expert forward failed")) in Hd; [|done].
    by rewrite units_imap in Hd.
  - apply (locally_stand (fun _ _ => tt)) in Hd. by rewrite imap_units in Hd.
Qed.

Lemma exchange_length {A} (os : list (outcome A)) : length (exchange_rows os) = length os.
Proof. apply collective_length. intros vs. apply length_fmap. Qed.
Lemma sync_rank0_length {A} error context (os : list (outcome A)) :
  length (sync_rank0_exception error context os) = length os.
Proof. apply collective_length. intros vs. destruct error; apply length_fmap. Qed.
Lemma sync_any_length context (os : list (outcome (option pyexn))) :
  length (sync_any_rank_exception context os) = length os.
Proof. apply collective_length. intros vs. destruct (first_error 0 vs) as [[source e]|]; apply length_fmap. Qed.

Lemma shared_step_length {A} (m : M layer unit) context (d : D A) :
  length (let '(d, error) := rank0_step m d in on_ranks (sync_rank0_exception error context) d).2 = length d.2.
Proof.
  pose proof (rank0_step_ranks m d) as Hr. destruct (rank0_step m d) as [d1 error]. simpl in *.
  by rewrite sync_rank0_length, Hr.
Qed.

Lemma dist_submit_length (d : D rank_input) : length (dist_submit layer_idx ranks d).2 = length d.2.
Proof.
  unfold dist_submit. pose proof (rank0_step_ranks (refresh_rank0 ranks) d) as Hr.
  destruct (rank0_step (refresh_rank0 ranks) d) as [d1 error]. simpl in Hr. rewrite <-Hr.
  etrans; [apply shared_step_length|]. destruct (reuse ranks); [done|]. apply exchange_length.
Qed.

Lemma dist_gpu_length (d : D rank_input) : length (dist_gpu_experts layer_idx ranks d).2 = length d.2.
Proof.
  unfold dist_gpu_experts. destruct (has_gpu_experts d.1).
  - by rewrite guarded_ranks, sync_any_length, locally_length.
  - apply locally_length.
Qed.

Lemma dist_forward_length device l : length (dist_forward layer_idx ranks device l).2 = length ranks.
Proof.
  unfold dist_forward, dist_sync_output, dist_submit_and_compute_gpu.
  pose proof (shared_step_length (sync_rank0 ranks device) (in_context layer_idx
    (if use_autograd ranks then "CPU forward synchronization failed" else "CPU inference forward failed"))
    (dist_gpu_experts layer_idx ranks (dist_submit layer_idx ranks (on_ranks (locally (check_rank ranks)) (agree layer_idx ranks l))))) as Hl.
  destruct (rank0_step _ _) as [d error]. simpl in *. rewrite exchange_length, Hl.
  rewrite dist_gpu_length, dist_submit_length, agree_run. unfold on_ranks. cbn [fst snd]. rewrite locally_length.
  destruct (check_states _); apply length_fmap.
Qed.

(** A forward pass of two or more ranks from the routed tokens on, when they
    ask alike for a backward pass: whatever their wrapping, ownership, policies
    and phases are, and whatever fails on whichever rank, either every rank
    returns or every rank raises; none waits for another. *)
Theorem ranks_pass_forward_together (device : string) (l : layer) :
  (∀ i j, i ∈ ranks → j ∈ ranks → save_submit i = save_submit j) →
  united (dist_forward layer_idx ranks device l).2 ∧
  length (dist_forward layer_idx ranks device l).2 = length ranks.
Proof.
  intros Hsave. split; [|apply dist_forward_length]. destruct (checked_run l Hsave) as [_ Hc]. unfold dist_forward, dist_submit_and_compute_gpu.
  destruct ranks_split as (i & rest & Hr).
  assert (stand (i :: rest) (on_ranks (locally (check_rank ranks)) (agree layer_idx ranks l)).2) as Hs
    by (rewrite <-Hr; exact Hc).
  apply dist_submit_stand, dist_gpu_stand in Hs. unfold dist_sync_output.
  apply (shared_step_stand (sync_rank0 ranks device) (in_context layer_idx
    (if use_autograd ranks then "CPU forward synchronization failed" else "CPU inference forward failed"))) in Hs.
  destruct (rank0_step _ _) as [d error]. apply exchange_stand in Hs. by apply stand_united in Hs.
Qed.

(** ** Backward *)

Lemma cleared_withdrawn s :
  wi_pending (s_window s) = false → grads_cleared (s_heap s) (wi_entries (s_window s)) → withdrawn s.
Proof. intros Hp Hg. split; [done|]. intros Hw. by apply (window_closed _ _ _ Hg) in Hw. Qed.

(** The gradients that a failed pass leaves: none, or those it found. *)
Definition not_published (s0 s : sft) : Prop :=
  withdrawn s ∨ s_heap s = s_heap s0 ∧ s_window s = s_window s0.

Lemma poison_when (b : bool) e (l : layer) : ∃ ck,
  when b (poison_checkpoint_cache e) l = (set_sft (set_ckpt ck (l_sft l)) l, Ok tt).
Proof.
  unfold when. destruct b; [by eexists|]. exists (s_ckpt (l_sft l)). by destruct l as [? [] ? ? ? ? ? ? ? ? ?].
Qed.

(** Up to the clean-up of the kept output. *)
Lemma backward_rank0_body es c q sc l l' r :
  cx_authoritative c = true → settled es (s_window (l_sft l)) → distinct es →
  except_reraise
    (_ ← on_sft (backward q (Some (cx_device c)) sc);
     except_reraise (on_ops lop_place_grads) (fun _ => close_window c))
    (fun e => when (retained_cache c) (poison_checkpoint_cache e)) l = (l', r) →
  settled es (s_window (l_sft l')) ∧
  match r with
  | Ok _ => grads_published (s_heap (l_sft l')) es ∧ s_depth (l_sft l') = s_depth (l_sft l) - 1
  | Err _ => not_published (l_sft l) (l_sft l')
  end.
Proof.
  intros Hc Hs Hd Hx. pose proof Hs as (Hu & Hp & He).
  apply except_reraise_inv in Hx as [([] & Hm & ->)|(l1 & e & rh & e' & Hm & Hh & ->)].
  - apply bindM_ok in Hm as (l1 & x & Hb & Hm). apply on_sft_inv in Hb as (s1 & Hb & ->).
    apply backward_outcome in Hb; rewrite ?He in *; try done. destruct Hb as (_ & Hg & Hw & Hdep).
    apply except_reraise_ok, on_ops_passive in Hm as (Hm & _). unfold core_of in Hm. simpl in Hm.
    injection Hm as -> -> -> _ _. rewrite Hw, Hdep. split; [by apply settled_idle|done].
  - destruct (poison_when (retained_cache c) e l1) as (ck & Hpo). rewrite Hpo in Hh. injection Hh as <- _. clear Hpo.
    apply bindM_inv in Hm as [(l2 & x & Hb & Hm)|(e1 & Hb & _)]; apply on_sft_inv in Hb as (s1 & Hb & ->);
      apply backward_outcome in Hb; rewrite ?He in *; try done.
    + destruct Hb as (_ & _ & Hw & _). apply except_reraise_inv in Hm as [(a & _ & Heq)|(l3 & e2 & rh2 & e3 & Hm & Hh & _)];
        [done|]. apply on_ops_passive in Hm as (Hm & _ & s3 & ->). unfold core_of in Hm. simpl in Hm.
      injection Hm as _ Ew _ _ _.
      destruct (close_window_run c (set_sft s3 (set_sft s1 l))) as (s4 & Hcw & Hwd & Hwin & _);
        [done|simpl; by rewrite Ew, Hw..|]. rewrite Hcw in Hh. injection Hh as <- _. simpl in *.
      rewrite Hwin, Ew, Hw. split; [by apply settled_idle|by left].
    + simpl. destruct Hb as [(Eh & Ew & _)|(Hg & Ew & _)].
      * rewrite Ew. split; [done|]. right. simpl. done.
      * rewrite Ew. split; [by apply settled_idle|]. left. apply cleared_withdrawn; simpl; rewrite Ew; [done|].
        simpl. by rewrite He.
Qed.

Lemma backward_rank0_spec es c l l' r :
  cx_authoritative c = true → settled es (s_window (l_sft l)) → distinct es →
  backward_rank0 ranks c l = (l', r) →
  settled es (s_window (l_sft l')) ∧ ck_output (s_ckpt (l_sft l')) = None ∧
  match r with
  | Ok _ => grads_published (s_heap (l_sft l')) es ∧ s_depth (l_sft l') = s_depth (l_sft l) - 1
  | Err _ => not_published (l_sft l) (l_sft l')
  end.
Proof.
  intros Hc Hs Hd Hx. unfold backward_rank0, finallyM in Hx.
  destruct (except_reraise _ _ l) as [l1 r1] eqn:Hm in Hx. apply (backward_rank0_body es) in Hm as (Hs1 & Hr); [|done..].
  rewrite on_sft_run in Hx. unfold clear_checkpoint_output, modify in Hx. simpl in Hx.
  destruct (bool_decide _); injection Hx as <- <-; (split_and!; [exact Hs1|done|by destruct r1]).
Qed.

Abbreviation units := ((fun _ => tt) <$> ranks).

(** How the ranks stand, and what is true of rank 0's layer in either case. *)
Definition stands {A} (vs : list A) (P Q : layer → Prop) (d : D A) : Prop :=
  (d.2 = Returned <$> vs ∧ P d.1) ∨ (down d.2 ∧ Q d.1).

Definition all_viewable (grads : list rank_grad) : Prop := Forall (fun g => rg_viewable g = true) grads.
(** With a kept output every rank learns of a failed recomputation; without
    one, none may fail. *)
Definition recompute_covered (c : moe_ctx) (grads : list rank_grad) : Prop :=
  retained_cache c = true ∨ Forall (fun g => rg_recompute g = None) grads.

(** A failed pass leaves no kept output, and no gradient of its own. *)
Definition undone (l0 l : layer) : Prop :=
  ck_output (s_ckpt (l_sft l)) = None ∧ not_published (l_sft l0) (l_sft l).

Lemma dist_recompute_stands c grads l :
  recompute_covered c grads →
  stands units (fun l' => l' = l) (undone l)
    (dist_recompute layer_idx c grads (l, (fun _ => Returned tt) <$> ranks)).
Proof.
  intros Hcov. assert ((fun _ => Returned tt) <$> ranks = Returned <$> units) as -> by by rewrite <-list_fmap_compose.
  unfold dist_recompute, on_ranks. cbn [fst snd].
  set (error := fun (rank : nat) (_ : ()) => default None (rg_recompute <$> grads !! rank)).
  assert (locally (fun rank _ => Ok (default None (rg_recompute <$> grads !! rank))) (Returned <$> units)
            = Returned <$> imap error units) as -> by by rewrite locally_returned, fmap_imap.
  destruct (retained_cache c) eqn:Hret.
  - pose proof (sync_any_united (in_context layer_idx "checkpoint recompute failed") (imap error units)) as Hs.
    unfold guarded. cbn [fst snd]. assert (∃ e0 es, imap error units = e0 :: es) as (e0 & es & Hes).
    { destruct ranks_split as (i & rest & ->). by do 2 eexists. }
    destruct (first_error 0 (imap error units)).
    + destruct Hs as [e Hs]. right. rewrite Hs, Hes. simpl. split; [|split; [done|by right]].
      split; [done|]. constructor; [by eexists|]. apply Forall_fmap, Forall_true. intros a. by exists e.
    + left. assert ((fun _ => Returned tt) <$> imap error units = Returned <$> units) as Hall.
      { apply list_eq. intros i. rewrite !list_lookup_fmap, list_lookup_imap, !list_lookup_fmap. by destruct (ranks !! i). }
      rewrite Hs, Hall. split; cbn [fst snd]; rewrite Hes; destruct ranks_split as (i & rest & ->); done.
  - left. split; [|done]. destruct Hcov as [Hcov|Hcov]; [congruence|]. cbn [snd]. rewrite locally_returned.
    apply list_eq. intros i. rewrite !list_lookup_imap, !list_lookup_fmap. destruct (ranks !! i); [|done]. simpl.
    unfold error. destruct (grads !! i) as [g|] eqn:Hg; [|done]. simpl. by rewrite (Forall_lookup_1 _ _ _ _ Hcov Hg).
Qed.

Lemma stands_rank0 {A} (m : M layer unit) context v vs (P Q P' : layer → Prop) (d : D A) :
  (∀ l l' r, P l → m l = (l', r) → match r with Ok _ => P' l' | Err _ => Q l' end) →
  stands (v :: vs) P Q d →
  stands (v :: vs) P' Q (let '(d, error) := rank0_step m d in on_ranks (sync_rank0_exception error context) d).
Proof.
  intros Hm [[Hd HP]|[Hd HQ]]; destruct d as [l os]; simpl in *.
  - subst os. pose proof (shared_step m context l v vs) as Hs. destruct (m l) as [l' r] eqn:Em.
    specialize (Hm l l' r HP Em). destruct (rank0_step m _) as [d error]. destruct Hs as [Hl Hs]. simpl in *.
    unfold stands, on_ranks. simpl. rewrite Hl. destruct r; [left|right]; done.
  - rewrite rank0_step_down by done. right. split; [by apply sync_rank0_propagates|done].
Qed.

Lemma stands_exchange {A} (vs : list A) P Q d : stands vs P Q d → stands vs P Q (on_ranks exchange_rows d).
Proof.
  intros [[Hd HP]|[Hd HQ]]; [left|right]; (split; [|done]); simpl; [|by apply exchange_propagates].
  rewrite Hd. apply exchange_returned.
Qed.

Lemma stands_scatter v (vs : list ()) P Q c d :
  stands (v :: vs) P Q d → stands (v :: vs) P Q (dist_scatter_grads c d).
Proof.
  intros [[Hd HP]|[Hd HQ]]; unfold dist_scatter_grads.
  - left. unfold guarded. rewrite Hd. change (Returned <$> v :: vs) with (Returned v :: (Returned <$> vs)) at 1.
    cbn iota. rewrite !exchange_returned. done.
  - right. rewrite guarded_down by done. split; [|done]. by apply exchange_propagates, exchange_propagates.
Qed.

Lemma stands_viewable grads v (vs : list ()) P Q d :
  all_viewable grads → stands (v :: vs) P Q d →
  stands (v :: vs) P Q (on_ranks (locally (fun rank _ =>
    raise_if (negb (default true (rg_viewable <$> grads !! rank))) RuntimeError
      "view size is not compatible with input tensor's size and stride")) d).
Proof.
  intros Hv [[Hd HP]|[Hd HQ]]; [left|right]; (split; [|done]);
    unfold on_ranks; cbn [fst snd]; [|by apply locally_propagates].
  rewrite Hd, locally_returned. apply list_eq. intros i. rewrite list_lookup_imap, list_lookup_fmap.
  destruct ((v :: vs) !! i) as [[]|]; [|done]. simpl. destruct (grads !! i) as [g|] eqn:Hg; [|done]. simpl.
  by rewrite (Forall_lookup_1 _ _ _ _ Hv Hg).
Qed.

(** C8. A backward pass of two or more ranks, once the recomputation has ended
    on each, where every rank's gradient can be viewed as a matrix: when the ranks
    keep outputs, or no recomputation has failed, either
    every rank returns or every rank raises, whatever the engine, the copies and
    the clean-up of rank 0 do.  No output stays kept on rank 0.  If the ranks
    return, every registered gradient is published and one forward pass is used
    up; if they raise, the pass has published none. *)
Theorem ranks_pass_backward_together es (c : moe_ctx) (grads : list rank_grad) (l : layer) :
  cx_authoritative c = true → settled es (s_window (l_sft l)) → distinct es →
  recompute_covered c grads → all_viewable grads →
  let d := dist_backward layer_idx ranks c grads l in
  ck_output (s_ckpt (l_sft d.1)) = None ∧
  (d.2 = Returned <$> units ∧
     grads_published (s_heap (l_sft d.1)) es ∧ s_depth (l_sft d.1) = s_depth (l_sft l) - 1 ∨
   all_raised d.2 ∧ d.2 ≠ [] ∧ not_published (l_sft l) (l_sft d.1)).
Proof.
  intros Hc Hs Hd Hcov Hview d. destruct ranks_split as (i & rest & Hr).
  set (good := fun l' : layer => settled es (s_window (l_sft l')) ∧ ck_output (s_ckpt (l_sft l')) = None ∧
    grads_published (s_heap (l_sft l')) es ∧ s_depth (l_sft l') = s_depth (l_sft l) - 1).
  assert (stands units good (undone l) d) as [[H1 (_ & H2 & H3)]|[[H1 H2] [H3 H4]]]; [|by eauto|by eauto].
  subst d. unfold dist_backward. pose proof (dist_recompute_stands c grads l Hcov) as Hst.
  assert (∃ us, units = tt :: us) as [us Hus] by (rewrite Hr; by eexists). rewrite Hus in *.
  apply (stands_viewable grads), stands_exchange in Hst; [|done].
  apply (stands_rank0 (backward_rank0 ranks c) (in_context layer_idx "CPU backward failed") _ _ _ _ good) in Hst.
  - destruct (rank0_step (backward_rank0 ranks c) _) as [d error]. apply (stands_scatter _ _ _ _ c) in Hst.
    unfold dist_next_repack.
    refine (stands_rank0 (submit_next_repack c) _ _ _ _ _ good _ _ Hst).
    intros l1 l2 r (G1 & G2 & G3) Hx. apply (submit_next_repack_spec es) in Hx as (S1 & S2 & S3); [|done..].
    destruct r as [u|e].
    + pose proof S3 as Hcore. unfold core_of in Hcore. injection Hcore as Eh _ Ed _ _.
      unfold good. rewrite Eh, Ed, S2. done.
    + split; [by rewrite S2|by left].
  - intros l1 l2 r -> Hx. apply (backward_rank0_spec es) in Hx as (S1 & S2 & S3); [|done..].
    by destruct r.
Qed.
End phases.

(** ** Two ranks *)

Module RanksExample.
Import BaseExample LayerExample.
#[local] Existing Instance recorder.
#[local] Existing Instance steady.

Definition rank_of (owner : bool) (policy : KTActivationPolicy) (mode : string) (qlen : Z) (save : bool)
    (gpu : option pyexn) : rank_input := RankInput 2 owner policy mode qlen save gpu.

Definition first_pass : list rank_input :=
  [rank_of true RETAIN_CPU "first_forward" 4 true None; rank_of false RETAIN_CPU "first_forward" 2 true None].
Definition out_of_memory : pyexn := Raise RuntimeError "CUDA out of memory".
Definition failing_pass : list rank_input :=
  [rank_of true RETAIN_CPU "first_forward" 4 true None; rank_of false RETAIN_CPU "first_forward" 2 true (Some out_of_memory)].
Definition second_pass : list rank_input :=
  [rank_of true RETAIN_CPU "recompute" 4 true None; rank_of false RETAIN_CPU "recompute" 2 true None].

Abbreviation forward ranks l := (dist_forward 3 ranks "cuda:0" l).

(** Both return, and rank 0 keeps the six rows; when a peer fails both raise,
    and rank 0's kept output is poisoned. *)
Lemma ranks_pass_forward_together_witness :
  1 < world_size failing_pass ∧
  (∀ i j, i ∈ failing_pass → j ∈ failing_pass → save_submit i = save_submit j) ∧
  (forward first_pass idle_layer).2 = [Returned tt; Returned tt] ∧
  ck_qlen (s_ckpt (l_sft (forward first_pass idle_layer).1)) = 6 ∧
  ck_state (s_ckpt (l_sft (forward failing_pass idle_layer).1)) = POISONED ∧
  united (forward failing_pass idle_layer).2 ∧ length (forward failing_pass idle_layer).2 = 2%nat.
Proof.
  assert (1 < world_size failing_pass) as Hw by (vm_compute; reflexivity).
  assert (∀ i j, i ∈ failing_pass → j ∈ failing_pass → save_submit i = save_submit j) as Hs.
  { intros i j [->|[->|[]%elem_of_nil]%elem_of_cons]%elem_of_cons [->|[->|[]%elem_of_nil]%elem_of_cons]%elem_of_cons; reflexivity. }
  split; [exact Hw|]. split; [exact Hs|]. do 3 (split; [vm_compute; reflexivity|]).
  exact (ranks_pass_forward_together 3 failing_pass Hw "cuda:0" idle_layer Hs).
Defined.

Abbreviation trained := (forward second_pass (forward first_pass idle_layer).1).1.
Abbreviation step grads := (dist_backward 3 second_pass context grads trained).
Definition fine : list rank_grad := [RankGrad None true; RankGrad None true].
Definition broken : list rank_grad := [RankGrad None true; RankGrad (Some out_of_memory) true].

Lemma ranks_pass_backward_together_witness :
  1 < world_size second_pass ∧ cx_authoritative context = true ∧ settled [entry] (s_window (l_sft trained)) ∧
  distinct [entry] ∧ recompute_covered context broken ∧ all_viewable broken ∧
  (step fine).2 = [Returned tt; Returned tt] ∧
  s_engine (l_sft (step fine).1)
    = [ForwardTask (Buffer 0 6) true;
       BackwardTask (Buffer 0 6) false (SFdiv 53 1024 float_one (SFadd 53 1024 float_one float_one))] ∧
  ck_output (s_ckpt (l_sft (step broken).1)) = None.
Proof.
  assert (1 < world_size second_pass) as Hw by (vm_compute; reflexivity).
  assert (settled [entry] (s_window (l_sft trained))) as Hs by (vm_compute; split_and!; reflexivity).
  assert (recompute_covered context broken) as Hc by (left; reflexivity).
  assert (all_viewable broken) as Hv by (repeat constructor).
  split; [exact Hw|]. split; [reflexivity|]. split; [exact Hs|]. split; [exact entry_distinct|].
  split; [exact Hc|]. split; [exact Hv|]. do 2 (split; [vm_compute; reflexivity|]).
  exact (proj1 (ranks_pass_backward_together 3 second_pass Hw [entry] context broken trained eq_refl Hs entry_distinct Hc Hv)).
Defined.

(** When outputs are not kept, a rank raises a failed recomputation by itself,
    and its peers wait for it in the collective that comes next. *)
Lemma uncovered_recompute_strands_the_peers :
  (dist_backward 3 second_pass (MoeCtx 4 "cuda:0" false false false true) broken trained).2 = [Waiting; Raised out_of_memory].
Proof. vm_compute. reflexivity. Qed.

(** A gradient that cannot be viewed as a matrix is refused by its rank alone, and
    no rank hears of it either. *)
Lemma unviewable_gradient_strands_the_peers :
  (step [RankGrad None true; RankGrad None false]).2 = [Waiting; Raised (Raise RuntimeError "view size is not compatible with input tensor's size and stride")].
Proof. vm_compute. reflexivity. Qed.

(** The agreement does not cover whether a rank asks for a backward pass: with
    different answers one rank refuses to go on and the other waits. *)
Lemma different_requests_strand_a_rank :
  let recompute := Policy "recompute" "recompute" in
  (forward [rank_of true recompute "none" 4 true None; rank_of false recompute "none" 2 false None] idle_layer).2
  = [Raised (Raise RuntimeError "activation_policy.gpu=recompute requires non-reentrant gradient checkpointing"); Waiting].
Proof. vm_compute. reflexivity. Qed.
End RanksExample.
