(* ===== verification/PretrainedLoad.v ===== *)
(** * Loading a model from validated artifacts

    Models [resolve_kt_pretrained_artifacts], its agreement between ranks, and
    the checks of a loaded model ([validate_kt_prequantized_loading_info],
    [validate_kt_pretrained_load], [should_disable_kt_source_quantizer]) of
    [kt-kernel/python/sft/artifacts.py].  Every rank has a file system and a
    working directory of its own; the collective of [torch.distributed] is a
    field of the process group. *)
From S2P Require Import Prelude PyStr PyVal FS WeightManifest Backend KTConfig Artifacts.
From Stdlib Require Import Ascii.

Local Open Scope string_scope.
Local Open Scope list_scope.
Local Open Scope Z_scope.

(** ** Configuration *)

(** A KT configuration: its entries or attributes. *)
Definition kt_config : Type := list (string * pyval).

(** [_config_value(config, name, default)] *)
Definition kt_value (config : kt_config) (name : string) (dflt : pyval) : pyval :=
  default dflt (dict_get name config).

Definition config_expert_weight_format (config : kt_config) : string :=
  let by_backend := match kt_value config "kt_backend" PNone with
    | PStr backend => default "" (dict_get (lower (strip backend))
        [("int8", "int8"); ("amxint8", "int8"); ("fp8", "fp8"); ("amxfp8", "fp8"); ("rawint4", "rawint4");
         ("amxint4_kgroup", "rawint4")])
    | _ => ""
    end in
  match kt_value config "kt_expert_weight_format" PNone with
  | PStr weight_format => if String.eqb (strip weight_format) "" then by_backend else lower (strip weight_format)
  | _ => by_backend
  end.

(** [_ROUTED_EXPERT_PARAMETER.search(name)]: after a component [experts] that is
    not the first one, an index and a further component, or a projection. *)
Definition projection_names : list string := ["gate_up_proj"; "down_proj"; "gate_proj"; "up_proj"].

Definition projection_tail (parts : list string) : bool :=
  match parts with
  | [] => false
  | part :: rest =>
      let last := match rest with [] => true | _ => false end in
      (negb (String.eqb part "") && str_forall is_digit part && negb last)
      || existsb (String.eqb part) projection_names
      || last && existsb (fun p => String.eqb part (p ++ String "010" "")) projection_names
  end.

Fixpoint after_experts (parts : list string) : bool :=
  match parts with
  | [] => false
  | part :: rest => (String.eqb part "experts" && projection_tail rest) || after_experts rest
  end.

Definition is_kt_routed_expert_parameter_name (name : string) : bool :=
  match split_on "."%char name with
  | [] => false
  | _ :: parts => after_experts parts
  end.

(** [s.replace(old, new)] for a non-empty [old]. *)
Fixpoint replace_go (fuel : nat) (old new s : string) : string :=
  match fuel with
  | O => s
  | S fuel' =>
      match strip_prefix old s with
      | Some rest => new ++ replace_go fuel' old new rest
      | None => match s with
                | EmptyString => EmptyString
                | String c s' => String c (replace_go fuel' old new s')
                end
      end
  end%string.
Definition replace_text (old new s : string) : string := replace_go (S (String.length s)) old new s.

Definition canonical_loaded_key (key : string) : option string :=
  if contains "._original_router.weight" key then None
  else if contains "._original_router.e_score_correction_bias" key
  then Some (replace_text "._original_router.e_score_correction_bias" ".gate.e_score_correction_bias" key)
  else Some key.

(** ** The plan *)

Record KTPretrainedLoadPlan := {
  lp_source_model_name_or_path : string;
  lp_weight_path : string;
  lp_checkpoint_files : list string;
  lp_weight_keys : gset string;
  lp_manifest : list (string * pyval);
  lp_manifest_path : string;
  lp_routed_weight_path : string;
  lp_routed_manifest : list (string * pyval);
  lp_routed_manifest_path : string;
  lp_lora_rank : option Z;
  lp_lora_alpha : option spec_float;
  lp_disable_source_quantizer : bool;
}.

(** Cache fingerprint and path, routed root, digest of the routed manifest. *)
Definition signature : Type := string * string * string * string.

(** What a rank contributes: its error, or its signature. *)
Definition entry : Type := option string * option signature.

Record process_group := ProcessGroup {
  pg_rank : Z;
  pg_world_size : Z;
  pg_all_gather_object : entry -> list (option entry);
}.

(** [dist]: the initialised process group, if there is one. *)
Definition distributed_validation_context (dist : option process_group) : option process_group :=
  match dist with
  | Some g => if pg_world_size g <=? 1 then None else Some g
  | None => None
  end.

Definition rank_of (context : option process_group) : Z :=
  match context with Some g => pg_rank g | None => 0 end.

Definition synchronize_artifact_validation (context : option process_group) (error : option pyexn)
    (sig : option signature) : res unit :=
  match context with
  | None => match error with Some e => Err e | None => mret tt end
  | Some g =>
      let gathered := pg_all_gather_object g (exn_msg <$> error, sig) in
      let entries := omap id gathered in
      _ ← raise_if (existsb (fun e => bool_decide (is_Some (fst e))) entries) KTArtifactError
            "distributed KT artifact validation failed";
      raise_if (negb (length (remove_dups (snd <$> entries)) =? 1)%nat) KTArtifactError
        "distributed KT ranks resolved different artifact provenance"
  end.

Section resolve.
Context `{Platform}.
Context (json_compact : pyval -> string).
Context (safetensors : string -> option (list (string * (string * list Z)))).

(** Where a rank runs: the files it sees and can read, its directory. *)
Record node := Node { nd_fs : fs; nd_can_read : meta -> bool; nd_cwd : path }.

(** What a rank has validated: the cache, the routed weights and their manifest. *)
Definition validated : Type := KTNonExpertCache * ValidatedKTWeightManifest * list (string * pyval).

Definition first_moe_layer_of (source_config : list (string * pyval)) : res Z :=
  match default (PInt 0) (dict_get "first_k_dense_replace" source_config) with
  | PInt n => if n <? 0 then artifact_error "first_k_dense_replace must be a non-negative integer" else mret n
  | _ => artifact_error "first_k_dense_replace must be a non-negative integer"
  end.

(** [int(d[key])] *)
Definition int_field (key : string) (d : list (string * pyval)) : res Z :=
  v ← of_option (dict_get key d) KeyError key;
  py_int v.

Definition local_validation (nd : node) (rank : Z) (config : kt_config) (cache_path : pyval)
    (source_model weight_path : string) : res validated :=
  cache_text ← of_option (as_str cache_path) TypeError "expected str, bytes or os.PathLike object";
  cache ← validate_non_expert_cache (nd_fs nd) json_compact safetensors (nd_cwd nd) cache_text source_model (rank =? 0);
  let source_config := nc_source_config cache in
  layer_count ← Artifacts.positive_int (pget "num_hidden_layers" source_config);
  first_moe_layer ← first_moe_layer_of source_config;
  let layer_indices := seqZ first_moe_layer (layer_count - first_moe_layer) in
  let threads := kt_value config "kt_threadpool_count" (PInt 1) in
  numa_count ← py_int (if truthy threads then threads else PInt 1);
  expert_num ← int_field "n_routed_experts" source_config;
  hidden_size ← int_field "hidden_size" source_config;
  intermediate_size ← int_field "moe_intermediate_size" source_config;
  routed ← validate_persistent_int8_weights (nd_can_read nd) (nd_fs nd) weight_path layer_indices numa_count
             expert_num hidden_size intermediate_size (if rank =? 0 then None else Some false);
  routed_manifest ← read_json (nd_fs nd) (vm_path routed);
  mret (cache, routed, routed_manifest).

Definition signature_of (v : validated) : signature :=
  let '(cache, routed, routed_manifest) := v in
  (py_str (pget "fingerprint" (nc_manifest cache)), nc_path cache, path_text (vm_root routed),
   sha256 (json_compact (sort_keys (PDict routed_manifest)))).

(** The error of a failed validation, whatever its class was. *)
Definition validation_error (e : pyexn) : pyexn :=
  if decide (exn_cls e = KTArtifactError) then e
  else Raise KTArtifactError "routed INT8 artifact validation failed".

Definition plan_of (config : kt_config) (source_model : string) (v : validated) : res KTPretrainedLoadPlan :=
  let '(cache, routed, routed_manifest) := v in
  let rank := match kt_value config "kt_lora_rank" PNone with PInt n => Some n | _ => None end in
  alpha ← match kt_value config "kt_lora_alpha" PNone with
          | PInt n => f ← float_of_int n; mret (Some f)
          | PFloat f => mret (Some f)
          | _ => mret None
          end;
  mret {| lp_source_model_name_or_path := source_model; lp_weight_path := nc_path cache;
          lp_checkpoint_files := nc_checkpoint_files cache; lp_weight_keys := nc_weight_keys cache;
          lp_manifest := nc_manifest cache; lp_manifest_path := nc_manifest_path cache;
          lp_routed_weight_path := path_text (vm_root routed); lp_routed_manifest := routed_manifest;
          lp_routed_manifest_path := path_text (vm_path routed); lp_lora_rank := rank; lp_lora_alpha := alpha;
          lp_disable_source_quantizer := true |}.

(** What the configuration asks for: the cache and the routed weights. *)
Definition requested (config : kt_config) (quantization_config : option pyval) : res (option (pyval * string)) :=
  let cache_path := kt_value config "kt_non_expert_weight_path" PNone in
  if negb (truthy cache_path) then mret None
  else
    _ ← raise_if (negb (String.eqb (config_expert_weight_format config) "int8")) KTArtifactError
          "kt_non_expert_weight_path requires routed INT8 expert weights";
    _ ← raise_if (bool_decide (is_Some quantization_config)) KTArtifactError
          "kt_non_expert_weight_path cannot be combined with an explicit quantization_config";
    match kt_value config "kt_weight_path" PNone with
    | PStr weight_path => if String.eqb weight_path "" then artifact_error "routed INT8 loading requires kt_weight_path"
                          else mret (Some (cache_path, weight_path))
    | _ => artifact_error "routed INT8 loading requires kt_weight_path"
    end.

Definition resolve_kt_pretrained_artifacts (dist : option process_group) (nd : node) (config : kt_config)
    (source_model : string) (quantization_config : option pyval) : res (option KTPretrainedLoadPlan) :=
  wanted ← requested config quantization_config;
  match wanted with
  | None => mret None
  | Some (cache_path, weight_path) =>
      let context := distributed_validation_context dist in
      let outcome := local_validation nd (rank_of context) config cache_path source_model weight_path in
      let '(local, error) := match outcome with
        | Ok v => (Some v, None)
        | Err e => (None, Some (validation_error e))
        end in
      _ ← synchronize_artifact_validation context error (signature_of <$> local);
      v ← of_option local KTArtifactError "KT artifact validation completed without a load plan";
      plan ← plan_of config source_model v;
      mret (Some plan)
  end.
End resolve.

(** ** The loaded model *)

(** The loader's diagnostics; one that is absent or [None] is empty.  Of a
    mismatch and of a conversion error only the tensor's name is read. *)
Record loading_info := LoadingInfo {
  li_missing_keys : list string;
  li_unexpected_keys : list string;
  li_mismatched_keys : list string;
  li_conversion_errors : list string;
  li_error_msgs : list string;
}.

Definition not_routed (names : list string) : list string :=
  List.filter (fun name => negb (is_kt_routed_expert_parameter_name name)) names.

(** [getattr(config, name, None)] *)
Definition attribute (config : cfg) (name : string) : cfg :=
  match config with CObj d => default cnone (dict_get name d) | _ => cnone end.

(** The model's own prediction layer, whose tensors may be left over. *)
Definition loaded_mtp_prefix `{Platform} (model_config : cfg) : option string :=
  let text_config := attribute model_config "text_config" in
  let effective_config := if is_cnone text_config then model_config else text_config in
  match attribute effective_config "num_hidden_layers" with
  | CVal (PInt layer_count) =>
      if cfg_eq (attribute effective_config "model_type") (PStr "deepseek_v3")
      then Some ("model.layers." ++ str_of_Z layer_count ++ ".")%string else None
  | _ => None
  end.

Definition is_nil {A} (l : list A) : bool := match l with [] => true | _ => false end.

Definition validate_kt_prequantized_loading_info `{Platform} (config : kt_config) (info : loading_info)
    (model_config : cfg) : res unit :=
  let weight_format := config_expert_weight_format config in
  let skip_loading := kt_value config "kt_skip_expert_loading" (PBool true) in
  if negb (existsb (String.eqb weight_format) ["int8"; "fp8"; "rawint4"]) || negb (truthy skip_loading) then mret tt
  else
    let unexpected := List.filter (fun key =>
      negb (match loaded_mtp_prefix model_config with Some p => starts_with p key | None => false end))
      (li_unexpected_keys info) in
    raise_if (negb (is_nil (not_routed (li_missing_keys info)) && is_nil (not_routed (li_mismatched_keys info))
                    && is_nil (not_routed (li_conversion_errors info)) && is_nil unexpected
                    && is_nil (li_error_msgs info))) KTArtifactError
      "checkpoint loading requires an exact non-expert model match".

(** What [validate_kt_pretrained_load] reads and writes of a model. *)
Record loaded_model := LoadedModel {
  md_state_dict : list string;
  (** [config.name_or_path] and [config._name_or_path]: [None] when there is no
      such attribute *)
  md_config : option (option string * option string);
  md_plan : option KTPretrainedLoadPlan;
  md_base_model_name_or_path : option string;
  md_non_expert_cache_path : option string;
  md_non_expert_cache_manifest : option (list (string * pyval));
  md_routed_int8_manifest_path : option string;
  md_routed_int8_manifest : option (list (string * pyval));
}.

Definition loaded_keys (state_dict : list string) : gset string :=
  list_to_set (List.filter (fun key => negb (routed_expert key)) (omap canonical_loaded_key state_dict)).

Definition attach_plan (plan : KTPretrainedLoadPlan) (model : loaded_model) : loaded_model :=
  let rename := fun name : option string => (fun _ => lp_source_model_name_or_path plan) <$> name in
  {| md_state_dict := md_state_dict model;
     md_config := (fun '(name, private_name) => (rename name, rename private_name)) <$> md_config model;
     md_plan := Some plan;
     md_base_model_name_or_path := Some (lp_source_model_name_or_path plan);
     md_non_expert_cache_path := Some (lp_weight_path plan);
     md_non_expert_cache_manifest := Some (lp_manifest plan);
     md_routed_int8_manifest_path := Some (lp_routed_manifest_path plan);
     md_routed_int8_manifest := Some (lp_routed_manifest plan) |}.

Definition load_failures (info : loading_info) : bool :=
  negb (is_nil (List.filter (fun key => negb (routed_expert key)) (li_missing_keys info))
        && is_nil (li_unexpected_keys info) && is_nil (not_routed (li_mismatched_keys info))
        && is_nil (li_error_msgs info) && is_nil (not_routed (li_conversion_errors info))).

Definition validate_kt_pretrained_load (plan : option KTPretrainedLoadPlan) (info : option loading_info)
    : M loaded_model (option KTPretrainedLoadPlan) :=
  match plan with
  | None => mret None
  | Some plan =>
      info ← lift (of_option info KTArtifactError "pretrained loader did not return loading diagnostics");
      _ ← lift (raise_if (load_failures info) KTArtifactError "non-expert checkpoint did not load exactly");
      state_dict ← gets md_state_dict;
      _ ← lift (raise_if (negb (bool_decide (loaded_keys state_dict = lp_weight_keys plan))) KTArtifactError
                  "loaded non-expert keys differ from the validated cache");
      _ ← modify (attach_plan plan);
      mret (Some plan)
  end.

(** [should_disable_kt_source_quantizer] *)
Definition should_disable_kt_source_quantizer `{Platform} (cfg_repr : cfg -> string) (config : kt_config)
    (model_config : cfg) (explicit_quantization_config : option pyval) : res bool :=
  let rawint4_requested := String.eqb (config_expert_weight_format config) "rawint4" in
  let skip_loading := truthy (kt_value config "kt_skip_expert_loading" (PBool true)) in
  if negb rawint4_requested || negb skip_loading then mret false
  else
    _ ← raise_if (bool_decide (is_Some explicit_quantization_config)) KTArtifactError
          "RAWINT4 SFT cannot be combined with an explicit quantization_config";
    _ ← catch (get_rawint4_checkpoint_contract cfg_repr model_config)
          (fun c => bool_decide (c = ValueError)) (fun e => Err (Raise KTArtifactError (exn_msg e)));
    mret true.
