(* ===== verification/PretrainedLoadSpec.v ===== *)
(** * Ranks load one validated model

    All ranks resolve the same artifacts or raise together, a resolved plan
    names artifacts that are valid where the rank runs, and a loaded model that
    is accepted for a plan has exactly the tensors of the cache's shards. *)
From S2P Require Import Prelude PyStr PyVal FS WeightManifest WeightManifestSpec Backend KTConfig Artifacts ArtifactsSpec PretrainedLoad.
From Stdlib Require Import Ascii.

Local Open Scope string_scope.
Local Open Scope list_scope.
Local Open Scope Z_scope.

(** ** The exchange *)

(** The entries of all ranks agree: no error, and one signature. *)
Definition agreed (entries : list entry) : Prop :=
  ∃ sig, ∀ e, e ∈ entries → e = (None, Some sig).

#[export] Instance agreed_dec entries : Decision (agreed entries).
Proof.
  destruct entries as [|e0 l].
  { left. exists ("", "", "", ""). by intros e ?%elem_of_nil. }
  destruct e0 as [[msg|] [sig|]].
  1,2,4: right; intros [s Hs]; by specialize (Hs _ ltac:(left)).
  destruct (decide (Forall (fun e => e = (None, Some sig)) l)) as [Hl|Hl].
  - left. exists sig. intros e [->|He]%elem_of_cons; [done|]. by apply (proj1 (Forall_forall _ _) Hl).
  - right. intros [s Hs]. apply Hl, Forall_forall. intros e He.
    rewrite (Hs e ltac:(by right)). by rewrite <- (Hs _ ltac:(left)).
Defined.

Lemma remove_dups_one {A} `{EqDecision A} (l : list A) :
  length (remove_dups l) = 1%nat ↔ l ≠ [] ∧ ∀ x y, x ∈ l → y ∈ l → x = y.
Proof.
  split.
  - intros Hl. destruct (remove_dups l) as [|x [|]] eqn:E; try done.
    assert (∀ y, y ∈ l → y = x) as Hx.
    { intros y Hy. apply elem_of_remove_dups in Hy. rewrite E in Hy. by apply list_elem_of_singleton in Hy. }
    split; [intros ->; discriminate E|]. intros y z Hy Hz. by rewrite (Hx y Hy), (Hx z Hz).
  - intros [Hne Hall]. destruct l as [|x l]; [done|]. clear Hne.
    assert (remove_dups (x :: l) ≡ₚ [x]) as ->; [|done].
    apply NoDup_Permutation; [apply NoDup_remove_dups|apply NoDup_singleton|].
    intros y. rewrite elem_of_remove_dups, list_elem_of_singleton. split; [|intros ->; by left].
    intros Hy. apply Hall; [done|by left].
Qed.

(** What a rank contributes after its own validation. *)
Definition entry_of (error : option pyexn) (sig : option signature) : entry := (exn_msg <$> error, sig).

Lemma omap_id_Some {A} (l : list A) : omap id (Some <$> l) = l.
Proof. induction l as [|x l IH]; [done|]. rewrite fmap_cons. simpl. f_equal. exact IH. Qed.

(** The exchange raises unless the entries agree. *)
Lemma synchronize_group g error sig entries :
  pg_all_gather_object g (entry_of error sig) = Some <$> entries → entries ≠ [] →
  Forall (fun e => e.1 = None ↔ is_Some e.2) entries →
  (agreed entries → synchronize_artifact_validation (Some g) error sig = Ok tt) ∧
  (¬ agreed entries → ∃ msg, synchronize_artifact_validation (Some g) error sig = Err (Raise KTArtifactError msg)).
Proof.
  intros Hg Hne Hwf. unfold synchronize_artifact_validation. change (exn_msg <$> error, sig) with (entry_of error sig).
  rewrite Hg, omap_id_Some. split.
  - intros [s Hs].
    assert (existsb (fun e => bool_decide (is_Some (fst e))) entries = false) as ->.
    { apply not_true_iff_false. rewrite existsb_exists. intros (e & He & Hb).
      apply list_elem_of_In in He. rewrite (Hs _ He) in Hb. by apply bool_decide_eq_true, is_Some_None in Hb. }
    rewrite (proj2 (remove_dups_one (snd <$> entries))); [done|]. split; [by destruct entries|].
    intros x y (e & -> & He)%list_elem_of_fmap (e' & -> & He')%list_elem_of_fmap. by rewrite (Hs _ He), (Hs _ He').
  - intros Hna. match goal with |- context[existsb ?f entries] => destruct (existsb f entries) eqn:Ex end; [by eexists|]. simpl.
    destruct (Nat.eqb_spec (length (remove_dups (snd <$> entries))) 1) as [E|]; [|by eexists].
    destruct Hna. apply remove_dups_one in E as [_ Hall].
    assert (∀ e, e ∈ entries → e.1 = None) as Hnone.
    { intros e He. destruct (e.1) eqn:E1; [|done]. exfalso.
      assert (existsb (fun e => bool_decide (is_Some (fst e))) entries = true) as Ht; [|congruence].
      apply existsb_exists. exists e. split; [by apply list_elem_of_In|]. rewrite E1. by apply bool_decide_eq_true. }
    destruct entries as [|e0 l]; [done|].
    assert (∀ e, e ∈ e0 :: l → is_Some e.2) as Hsome.
    { intros e He. by apply (proj1 (Forall_forall _ _) Hwf e He), Hnone. }
    destruct (Hsome e0 ltac:(left)) as [s Hs]. exists s. intros [e1 e2] He.
    pose proof (Hnone _ He) as H1. simpl in H1. subst e1. f_equal. rewrite <- Hs.
    apply Hall; apply list_elem_of_fmap; [by exists (None, e2)|exists e0; split; [done|left]].
Qed.

Section resolve_theorems.
Context `{Platform}.
Context (json_compact : pyval → string).
Context (safetensors : string → option (list (string * (string * list Z)))).
Context (config : kt_config) (source_model : string) (quantization : option pyval).

Abbreviation resolve dist nd :=
  (resolve_kt_pretrained_artifacts json_compact safetensors dist nd config source_model quantization).
Abbreviation validation nd rank cache_path weight_path :=
  (local_validation json_compact safetensors nd rank config cache_path source_model weight_path).

(** The entry of a validation's outcome. *)
Definition outcome_entry (outcome : res validated) : entry :=
  match outcome with
  | Ok v => entry_of None (Some (signature_of json_compact v))
  | Err e => entry_of (Some (validation_error e)) None
  end.

Lemma validation_error_class e : exn_cls (validation_error e) = KTArtifactError.
Proof. unfold validation_error. by destruct (decide _). Qed.

(** The exchange after a validation. *)
Definition exchange (context : option process_group) (outcome : res validated) : res unit :=
  match outcome with
  | Ok v => synchronize_artifact_validation context None (Some (signature_of json_compact v))
  | Err e => synchronize_artifact_validation context (Some (validation_error e)) None
  end.

(** The whole call, once the artifacts are requested. *)
Lemma resolve_unfold dist nd cache_path weight_path :
  requested config quantization = Ok (Some (cache_path, weight_path)) →
  let context := distributed_validation_context dist in
  let outcome := validation nd (rank_of context) cache_path weight_path in
  resolve dist nd =
    (_ ← exchange context outcome;
     match outcome with
     | Ok v => plan ← plan_of config source_model v; mret (Some plan)
     | Err e => artifact_error "KT artifact validation completed without a load plan"
     end).
Proof.
  intros Hreq context outcome. unfold resolve_kt_pretrained_artifacts. rewrite (bind_run _ _ _ Hreq).
  fold context. change (local_validation _ _ _ _ _ _ _ _) with outcome.
  destruct outcome as [v|e]; simpl; by destruct (synchronize_artifact_validation _ _ _).
Qed.

Lemma agreed_outcomes (outcomes : list (res validated)) sig :
  (∀ e, e ∈ outcome_entry <$> outcomes → e = (None, Some sig)) ↔
  ∀ o, o ∈ outcomes → ∃ v, o = Ok v ∧ signature_of json_compact v = sig.
Proof.
  split.
  - intros Ha o Ho. specialize (Ha (outcome_entry o) ltac:(by apply list_elem_of_fmap_2)).
    destruct o as [v|e]; [|done]. exists v. split; [done|]. by injection Ha.
  - intros Ha e (o & -> & Ho)%list_elem_of_fmap. destruct (Ha o Ho) as (v & -> & <-). done.
Qed.

(** The exchange of one rank, when every rank's entry arrives. *)
Lemma exchange_decides g (outcomes : list (res validated)) i o : outcomes !! i = Some o → pg_world_size g = Z.of_nat (length outcomes) →
  pg_all_gather_object g (outcome_entry o) = Some <$> (outcome_entry <$> outcomes) →
  (agreed (outcome_entry <$> outcomes) → exchange (distributed_validation_context (Some g)) o = Ok tt) ∧
  (¬ agreed (outcome_entry <$> outcomes) →
     ∃ e, exchange (distributed_validation_context (Some g)) o = Err e ∧ exn_cls e = KTArtifactError).
Proof.
  intros Ho Hw Hg. unfold distributed_validation_context. rewrite Hw.
  destruct (Z.leb_spec (Z.of_nat (length outcomes)) 1) as [Hone|Hmany].
  - destruct outcomes as [|o0 [|]]; [done| |simpl in Hone; lia]. destruct i; [|done]. injection Ho as ->.
    destruct o as [v|e]; simpl.
    + split; [done|]. intros []. exists (signature_of json_compact v). by intros e ->%list_elem_of_singleton.
    + split; [|intros _; eexists; split; [done|apply validation_error_class]].
      intros [s Hs]. by specialize (Hs _ ltac:(left)).
  - assert (Forall (fun e : entry => e.1 = None ↔ is_Some e.2) (outcome_entry <$> outcomes)) as Hwf.
    { apply Forall_fmap, Forall_forall. intros [v|e] _; simpl; split; try done; by intros [? ?]. }
    assert (outcome_entry <$> outcomes ≠ []) as Hne by by destruct outcomes.
    destruct o as [v|e].
    + destruct (synchronize_group g None (Some (signature_of json_compact v)) _ Hg Hne Hwf) as [H1 H2].
      split; [exact H1|]. intros (msg & E)%H2. by eexists.
    + destruct (synchronize_group g (Some (validation_error e)) None _ Hg Hne Hwf) as [H1 H2].
      split; [exact H1|]. intros (msg & E)%H2. by eexists.
Qed.

(** C16. The ranks of a process group resolve together.  Each validates on its own
    files, rank 0 with the hashes; either every rank's validation succeeds and
    all have the same signature, and then every rank returns the plan of what it
    validated, or every rank raises [KTArtifactError], also those whose own
    validation succeeded. *)
Theorem ranks_resolve_together (groups : nat → process_group) (nodes : list node) cache_path weight_path :
  requested config quantization = Ok (Some (cache_path, weight_path)) →
  let outcomes := imap (fun i nd => validation nd (Z.of_nat i) cache_path weight_path) nodes in
  (∀ i o, outcomes !! i = Some o →
     pg_rank (groups i) = Z.of_nat i ∧ pg_world_size (groups i) = Z.of_nat (length nodes) ∧
     pg_all_gather_object (groups i) (outcome_entry o) = Some <$> (outcome_entry <$> outcomes)) →
  ((∃ sig, ∀ o, o ∈ outcomes → ∃ v, o = Ok v ∧ signature_of json_compact v = sig) ∧
   ∀ i nd, nodes !! i = Some nd → ∃ v, outcomes !! i = Some (Ok v) ∧
     resolve (Some (groups i)) nd = (plan ← plan_of config source_model v; mret (Some plan))) ∨
  ((¬ ∃ sig, ∀ o, o ∈ outcomes → ∃ v, o = Ok v ∧ signature_of json_compact v = sig) ∧
   ∀ i nd, nodes !! i = Some nd → ∃ e, resolve (Some (groups i)) nd = Err e ∧ exn_cls e = KTArtifactError).
Proof.
  intros Hreq outcomes Hg.
  assert (agreed (outcome_entry <$> outcomes) ↔
          ∃ sig, ∀ o, o ∈ outcomes → ∃ v, o = Ok v ∧ signature_of json_compact v = sig) as Hagree.
  { apply exist_proper. intros sig. apply agreed_outcomes. }
  assert (∀ i nd, nodes !! i = Some nd → let o := validation nd (Z.of_nat i) cache_path weight_path in
     outcomes !! i = Some o ∧
     resolve (Some (groups i)) nd =
       (_ ← exchange (distributed_validation_context (Some (groups i))) o;
        match o with
        | Ok v => plan ← plan_of config source_model v; mret (Some plan)
        | Err e => artifact_error "KT artifact validation completed without a load plan"
        end)) as Hrun.
  { intros i nd Hi o. assert (outcomes !! i = Some o) as Ho by (unfold outcomes; by rewrite list_lookup_imap, Hi).
    split; [done|]. destruct (Hg i o Ho) as (Hr & Hw & _).
    assert (rank_of (distributed_validation_context (Some (groups i))) = Z.of_nat i) as Hrank.
    { unfold distributed_validation_context. rewrite Hw. apply lookup_lt_Some in Hi.
      destruct (Z.leb_spec (Z.of_nat (length nodes)) 1); simpl; [lia|exact Hr]. }
    pose proof (resolve_unfold (Some (groups i)) nd _ _ Hreq) as E. cbv zeta in E. rewrite Hrank in E. exact E. }
  assert (length outcomes = length nodes) as Hlen by apply length_imap.
  destruct (decide (agreed (outcome_entry <$> outcomes))) as [Ha|Ha]; [left|right];
    (split; [by rewrite <- Hagree|]); intros i nd Hi; destruct (Hrun i nd Hi) as (Ho & ->);
    destruct (Hg i _ Ho) as (_ & Hw & Hgather); rewrite <- Hlen in Hw;
    destruct (exchange_decides _ _ _ _ Ho Hw Hgather) as [Hyes Hno].
  - rewrite (bind_run _ _ _ (Hyes Ha)). destruct (proj1 Hagree Ha) as [sig Hsig].
    destruct (Hsig _ (list_elem_of_lookup_2 _ _ _ Ho)) as (v & E & _). rewrite E in *. by exists v.
  - destruct (Hno Ha) as (e & -> & Hc). by exists e.
Qed.

(** A rank that returns a plan has validated the artifacts itself. *)
Lemma resolve_validated dist nd plan : resolve dist nd = Ok (Some plan) →
  ∃ cache_path weight_path v,
    requested config quantization = Ok (Some (cache_path, weight_path)) ∧
    validation nd (rank_of (distributed_validation_context dist)) cache_path weight_path = Ok v ∧
    plan_of config source_model v = Ok plan.
Proof.
  intros Hx. destruct (requested config quantization) as [[[cache_path weight_path]|]|e] eqn:Hreq.
  - rewrite (resolve_unfold _ _ _ _ Hreq) in Hx. cbv zeta in Hx. inv_bind Hx as u Hu.
    destruct (validation nd _ cache_path weight_path) as [v|e] eqn:Ev; [|done].
    inv_bind Hx as p Hp. injection Hx as <-. by exists cache_path, weight_path, v.
  - unfold resolve_kt_pretrained_artifacts in Hx. by rewrite (bind_run _ _ _ Hreq) in Hx.
  - unfold resolve_kt_pretrained_artifacts in Hx. by rewrite Hreq in Hx.
Qed.

Lemma artifact_positive_int_ok v n : Artifacts.positive_int v = Ok n → v = PInt n ∧ 0 < n.
Proof. unfold Artifacts.positive_int. intros Hx. repeat case_match; try done. injection Hx as ->. bools. split; [done|lia]. Qed.

Lemma plan_weight_keys v plan : plan_of config source_model v = Ok plan → lp_weight_keys plan = nc_weight_keys v.1.1.
Proof. destruct v as [[c r] m]. unfold plan_of. intros Hx. inv_bind Hx as alpha Ha. by injection Hx as <-. Qed.

(** What a validation has found: a valid cache, and the routed weights of the
    layers and dimensions that the cache's source names. *)
Record artifacts_valid (nd : node) (rank : Z) (v : validated) : Prop := {
  av_cache : ∃ root source index records shards,
    valid_cache json_compact safetensors (nd_fs nd) root source (rank =? 0) v.1.1 index records shards;
  av_routed : ∃ count first numa d name,
    pget "num_hidden_layers" (nc_source_config v.1.1) = PInt count ∧
    first_moe_layer_of (nc_source_config v.1.1) = Ok first ∧
    int_field "n_routed_experts" (nc_source_config v.1.1) = Ok (d_experts d) ∧
    int_field "hidden_size" (nc_source_config v.1.1) = Ok (d_hidden d) ∧
    int_field "moe_intermediate_size" (nc_source_config v.1.1) = Ok (d_intermediate d) ∧
    d_numa d = numa ∧ vm_path v.1.2 = vm_root v.1.2 ++ [name] ∧
    tree_spec (nd_fs nd) d (sorted_set (seqZ first (count - first))) (vm_root v.1.2) name ∧
    (rank = 0 → is_legacy v.1.2 = false →
     ∃ manifest ls, load_manifest (nd_fs nd) (vm_root v.1.2) = Ok (name, manifest, vm_schema_version v.1.2) ∧
       pget "layers" manifest = PList ls ∧
       ∀ i, first ≤ i < count → ∃ layer, PDict layer ∈ ls ∧ pget "index" layer = PInt i ∧
         layer_hashes (nd_fs nd) d (vm_root v.1.2) i layer);
  av_manifest : read_json (nd_fs nd) (vm_path v.1.2) = Ok v.2;
}.

Lemma local_validation_ok nd rank cache_path weight_path v : fs_wf (nd_fs nd) →
  validation nd rank cache_path weight_path = Ok v → artifacts_valid nd rank v.
Proof.
  intros Hwf Hx. unfold local_validation in Hx. inv_bind Hx as ct Hct. inv_bind Hx as cache Hcache.
  inv_bind Hx as count Hcount. inv_bind Hx as first Hfirst. inv_bind Hx as numa Hnuma. inv_bind Hx as e He.
  inv_bind Hx as h Hh. inv_bind Hx as im Him. inv_bind Hx as routed Hrouted. inv_bind Hx as m Hm. injection Hx as <-.
  destruct (validated_cache_facts _ _ _ _ _ _ _ _ Hwf Hcache) as (root & source & index & records & shards & _ & _ & Hv).
  destruct (validate_tree_facts (nd_can_read nd) (nd_fs nd) _ _ _ _ _ _ _ _ Hwf Hrouted) as (name & man & sv & Hspec & Hman & Hp & Hsv & _ & _ & _ & _ & Hh').
  split; simpl; [by exists root, source, index, records, shards| |done].
  exists count, first, numa, (Dims numa e h im), name. split_and!; try done.
  { by apply artifact_positive_int_ok in Hcount as [-> _]. }
  intros -> Hleg. unfold is_legacy in Hleg. rewrite Hsv in Hleg |- *.
  destruct (load_manifest_ok _ _ _ _ _ Hwf (ts_root _ _ _ _ _ Hspec) Hman) as (_ & Hver & _).
  destruct Hh' as (ls & Hls & Hall); [simpl; apply Z.eqb_neq in Hleg; apply Z.leb_le; lia|].
  exists man, ls. split_and!; [done..|]. intros i Hi. apply Hall. rewrite elem_of_sorted_set, elem_of_seqZ. lia.
Qed.

(** ** The loaded model *)

Lemma elem_of_loaded_keys state_dict key : key ∈ loaded_keys state_dict ↔
  ∃ k, k ∈ state_dict ∧ canonical_loaded_key k = Some key ∧ routed_expert key = false.
Proof.
  unfold loaded_keys. rewrite elem_of_list_to_set, list_elem_of_In, filter_In, <- list_elem_of_In, negb_true_iff.
  rewrite list_elem_of_omap. naive_solver.
Qed.

(** The check of a loaded model against a plan, decided. *)
Lemma pretrained_load_run plan info model :
  validate_kt_pretrained_load (Some plan) (Some info) model =
    if load_failures info then (model, artifact_error "non-expert checkpoint did not load exactly")
    else if decide (loaded_keys (md_state_dict model) = lp_weight_keys plan) then (attach_plan plan model, Ok (Some plan))
    else (model, artifact_error "loaded non-expert keys differ from the validated cache").
Proof.
  unfold validate_kt_pretrained_load. simpl. unfold mbind, M_bind, lift. simpl.
  destruct (load_failures info); [done|]. simpl. unfold gets. simpl.
  by destruct (decide (loaded_keys (md_state_dict model) = lp_weight_keys plan)) as [E|E];
    [rewrite (bool_decide_eq_true_2 _ E)|rewrite (bool_decide_eq_false_2 _ E)].
Qed.

(** The loaded tensors are those of the cache's shards. *)
Definition loads_exactly (nd : node) (root : path) (shards : gset string) (info : loading_info) (model : loaded_model) : Prop :=
  load_failures info = false ∧
  ∀ key, (∃ k, k ∈ md_state_dict model ∧ canonical_loaded_key k = Some key ∧ routed_expert key = false) ↔
         holds_key safetensors (nd_fs nd) root (sorted_names (expected_files shards)) key.

(** C15. From a configuration to a loaded model.  A rank that resolves a plan has
    valid artifacts in its own files, with the hashes of the cache and of the
    routed weights verified at rank 0.  The model loaded for the plan is then
    accepted, and carries the plan, exactly when the loader reports nothing but
    routed experts and the model's other tensors are, name for name, the tensors
    that the cache's shards hold; otherwise [KTArtifactError] is raised and the
    model is left as it was. *)
Theorem accepted_model_is_the_cache dist nd plan info model : fs_wf (nd_fs nd) → resolve dist nd = Ok (Some plan) →
  let rank := rank_of (distributed_validation_context dist) in
  let '(model', r) := validate_kt_pretrained_load (Some plan) (Some info) model in
  ∃ v root source index records shards,
    artifacts_valid nd rank v ∧ plan_of config source_model v = Ok plan ∧
    valid_cache json_compact safetensors (nd_fs nd) root source (rank =? 0) v.1.1 index records shards ∧
    ((loads_exactly nd root shards info model ∧ r = Ok (Some plan) ∧ model' = attach_plan plan model) ∨
     (¬ loads_exactly nd root shards info model ∧ (∃ msg, r = artifact_error msg) ∧ model' = model)).
Proof.
  intros Hwf (cp & wp & v & _ & Hv & Hp)%resolve_validated rank.
  pose proof (local_validation_ok _ _ _ _ _ Hwf Hv) as Hav.
  destruct (av_cache _ _ _ Hav) as (root & source & index & records & shards & Hvc).
  assert (∀ key, key ∈ lp_weight_keys plan ↔
            holds_key safetensors (nd_fs nd) root (sorted_names (expected_files shards)) key) as Hkeys.
  { intros key. rewrite (plan_weight_keys _ _ Hp). apply (vc_keys _ _ _ _ _ _ _ _ _ _ Hvc). }
  rewrite pretrained_load_run. destruct (load_failures info) eqn:Ef; [|destruct (decide _) as [Ek|Ek]];
    exists v, root, source, index, records, shards; do 3 (split; [done|]).
  - right. split; [by intros [? _]; congruence|]. by split; [eexists|].
  - left. split; [|done]. split; [done|]. intros key. by rewrite <- elem_of_loaded_keys, Ek.
  - right. split; [|by split; [eexists|]]. intros [_ Hall]. apply Ek. apply set_eq. intros key.
    by rewrite elem_of_loaded_keys, Hall.
Qed.
End resolve_theorems.
