(* ===== verification/PretrainedLoadExample.v ===== *)
(** * Two ranks load a model

    A source checkpoint, its converted cache and an INT8 weight tree for its one
    routed layer: two ranks that see them resolve the same plan, a rank that
    does not see the weights makes both raise, and a loaded model is accepted. *)
From S2P Require Import Prelude PyStr PyVal JsonCodec FS WeightManifest WeightManifestSpec Backend KTConfig Artifacts ArtifactsExample PretrainedLoad PretrainedLoadSpec.
From Stdlib Require Import Ascii.

Local Open Scope string_scope.
Local Open Scope list_scope.
Local Open Scope Z_scope.

#[local] Existing Instance ArtifactsExample.demo.

Definition model_config : pyval :=
  PDict [("num_hidden_layers", PInt 4); ("model_type", PStr "deepseek_v3"); ("first_k_dense_replace", PInt 3);
         ("n_routed_experts", PInt 1); ("hidden_size", PInt 2); ("moe_intermediate_size", PInt 1);
         ("quantization_config", PDict [("quant_method", PStr "fp8"); ("weight_block_size", PList [PInt 128; PInt 128])])].

(** The weight tree of [WeightManifestSpec.Example] with a manifest that
    [json.load] reads, beside the cache. *)
Definition weights : fs := <[["w"; MANIFEST_NAME] := NFile dm (text WeightManifestSpec.Example.manifest)]> WeightManifestSpec.Example.tree.
Definition sources : fs := <[["src"; "config.json"] := NFile fm (text model_config)]> ArtifactsExample.tree.

Definition converted : fs :=
  w_fs (write_kt_non_expert_cache_manifest json_dumps tensors_of "x7" "/cache" "/src"
          (World sources [] 0 1 0 (fun _ => true))).1.
Definition with_weights : node := Node (converted ∪ weights) (fun _ => true) [].
Definition without_weights : node := Node converted (fun _ => true) [].

Definition config : kt_config :=
  [("kt_non_expert_weight_path", PStr "/cache"); ("kt_weight_path", PStr "/w");
   ("kt_expert_weight_format", PStr "int8"); ("kt_lora_rank", PInt 8)].

Abbreviation outcomes nodes :=
  (imap (fun i nd => local_validation json_dumps tensors_of nd (Z.of_nat i) config (PStr "/cache") "/src" "/w") nodes).

(** A process group whose collective delivers every entry to every rank. *)
Definition group_of (nodes : list node) (i : nat) : process_group :=
  ProcessGroup (Z.of_nat i) (Z.of_nat (length nodes)) (fun _ => Some <$> (outcome_entry json_dumps <$> outcomes nodes)).

Abbreviation resolved nodes i nd :=
  (resolve_kt_pretrained_artifacts json_dumps tensors_of (Some (group_of nodes i)) nd config "/src" None).

Definition both : list node := [with_weights; with_weights].
Definition plan : KTPretrainedLoadPlan :=
  match resolved both 0%nat with_weights with
  | Ok (Some p) => p
  | _ => {| lp_source_model_name_or_path := ""; lp_weight_path := ""; lp_checkpoint_files := []; lp_weight_keys := ∅;
            lp_manifest := []; lp_manifest_path := ""; lp_routed_weight_path := ""; lp_routed_manifest := [];
            lp_routed_manifest_path := ""; lp_lora_rank := None; lp_lora_alpha := None;
            lp_disable_source_quantizer := false |}
  end.

Lemma resolved_plan : resolved both 0%nat with_weights = Ok (Some plan).
Proof. vm_compute. reflexivity. Qed.

Lemma with_weights_wf : fs_wf (nd_fs with_weights).
Proof. apply fs_wfb_sound. vm_compute. reflexivity. Qed.

Lemma one_rank_without_weights :
  match resolved [with_weights; without_weights] 0%nat with_weights with
  | Err e => exn_cls e = KTArtifactError
  | Ok _ => False
  end.
Proof. vm_compute. reflexivity. Qed.

Lemma requested_both : requested config None = Ok (Some (PStr "/cache", "/w")).
Proof. reflexivity. Qed.

Lemma ranks_resolve_together_witness :
  (∃ v, outcomes both !! 1%nat = Some (Ok v) ∧
        resolved both 1%nat with_weights = (p ← plan_of config "/src" v; mret (Some p))) ∧
  resolved both 1%nat with_weights = Ok (Some plan) ∧
  (∃ e, resolved [with_weights; without_weights] 0%nat with_weights = Err e ∧ exn_cls e = KTArtifactError).
Proof.
  assert (∀ nodes i o, outcomes nodes !! i = Some o →
     pg_rank (group_of nodes i) = Z.of_nat i ∧ pg_world_size (group_of nodes i) = Z.of_nat (length nodes) ∧
     pg_all_gather_object (group_of nodes i) (outcome_entry json_dumps o)
       = Some <$> (outcome_entry json_dumps <$> outcomes nodes)) as Hg by done.
  split; [|split].
  - destruct (ranks_resolve_together json_dumps tensors_of config "/src" None (group_of both) both _ _ requested_both
      (Hg both)) as [[_ Hall]|[_ Hall]]; [exact (Hall 1%nat _ eq_refl)|].
    exfalso. destruct (Hall 0%nat _ eq_refl) as (e & E & _). pose proof resolved_plan as Ep. congruence.
  - vm_compute. reflexivity.
  - destruct (ranks_resolve_together json_dumps tensors_of config "/src" None
      (group_of [with_weights; without_weights]) [with_weights; without_weights] _ _ requested_both
      (Hg [with_weights; without_weights])) as [[_ Hall]|[_ Hall]]; [|exact (Hall 0%nat _ eq_refl)].
    exfalso. destruct (Hall 0%nat _ eq_refl) as (v & _ & E). pose proof one_rank_without_weights as Ep.
    rewrite E in Ep. destruct v as [[? ?] ?]. exact Ep.
Defined.

(** The loaded model: the cache's two tensors, one of them below the wrapped
    router, the router's own weight, and a routed expert. *)
Definition model : loaded_model := {|
  md_state_dict := [norm; "model.layers.3.mlp._original_router.e_score_correction_bias";
                    "model.layers.3.mlp._original_router.weight"; "model.layers.3.mlp.experts.0.up_proj.weight"];
  md_config := Some (Some "cache", None); md_plan := None; md_base_model_name_or_path := None;
  md_non_expert_cache_path := None; md_non_expert_cache_manifest := None; md_routed_int8_manifest_path := None;
  md_routed_int8_manifest := None |}.
Definition info : loading_info := LoadingInfo ["model.layers.3.mlp.experts.0.up_proj.weight"] [] [] [] [].

Lemma accepted_model_is_the_cache_witness :
  (∃ root shards, loads_exactly tensors_of with_weights root shards info model) ∧
  validate_kt_pretrained_load (Some plan) (Some info) model = (attach_plan plan model, Ok (Some plan)).
Proof.
  assert (validate_kt_pretrained_load (Some plan) (Some info) model = (attach_plan plan model, Ok (Some plan))) as E
    by (vm_compute; reflexivity).
  split; [|exact E].
  pose proof (accepted_model_is_the_cache json_dumps tensors_of config "/src" None (Some (group_of both 0%nat))
    with_weights plan info model with_weights_wf resolved_plan) as Hx. cbv zeta in Hx. rewrite E in Hx.
  destruct Hx as (v & root & source & index & records & shards & _ & _ & _ & [(Hl & _)|(_ & (msg & Hm) & _)]);
    [by exists root, shards|discriminate Hm].
Defined.
