(* ===== verification/ModelGraph.v ===== *)
(** * The objects around a model

    Models the search that [_find_wrappers], [_find_plan],
    [_runtime_expert_weight_format], [_runtime_rawint4_quantization] and
    [_base_model_name] of [kt-kernel/python/sft/artifacts.py] make through the
    objects that wrap a model: breadth first over the attributes [base_model],
    [model] and [module], each object once.  Objects live in a heap and may
    refer to each other in cycles. *)
From S2P Require Import Prelude.

(** ** Breadth-first search *)

Section visit.
Context (children : Z -> list Z).

(** [while queue: ...]: the objects in the order in which they are visited. *)
Fixpoint visit (fuel : nat) (queue : list Z) (visited : gset Z) : list Z :=
  match fuel, queue with
  | S fuel', candidate :: queue' =>
      if decide (candidate ∈ visited) then visit fuel' queue' visited
      else candidate :: visit fuel' (queue' ++ children candidate) ({[candidate]} ∪ visited)
  | _, _ => []
  end.

(** *** Every object that can be reached is visited, once *)

(** All objects with children are among [nodes], and none has more than
    [width]. *)
Context (nodes : gset Z) (width : nat).
Context (Hwidth : ∀ i, length (children i) ≤ width) (Houtside : ∀ i, i ∉ nodes → children i = []).

Definition next (i j : Z) : Prop := j ∈ children i.

(** How much work is left: the queue, and the objects not yet visited. *)
Definition remaining (queue : list Z) (visited : gset Z) : nat :=
  length queue + S width * size (nodes ∖ visited).

(** One step of the search uses up some of the work, in the heap or outside. *)
Lemma remaining_step candidate queue visited : candidate ∉ visited →
  remaining (queue ++ children candidate) ({[candidate]} ∪ visited) < remaining (candidate :: queue) visited.
Proof.
  intros Hn. unfold remaining. rewrite length_app. simpl length.
  destruct (decide (candidate ∈ nodes)) as [Hd|Hd].
  - assert (nodes ∖ visited = {[candidate]} ∪ nodes ∖ ({[candidate]} ∪ visited)) as Hs.
    { apply set_eq. intros x. destruct (decide (x = candidate)); set_solver. }
    assert (size (nodes ∖ visited) = 1 + size (nodes ∖ ({[candidate]} ∪ visited))) as ->.
    { rewrite Hs at 1. rewrite size_union by set_solver. by rewrite size_singleton. }
    pose proof (Hwidth candidate). lia.
  - rewrite (Houtside _ Hd). simpl.
    assert (nodes ∖ ({[candidate]} ∪ visited) = nodes ∖ visited) as -> by set_solver. lia.
Qed.

(** A state of the search: what was visited has its references visited or
    queued. *)
Definition closed (queue : list Z) (visited : gset Z) : Prop :=
  ∀ i j, i ∈ visited → next i j → j ∈ visited ∨ j ∈ queue.

Lemma visit_complete fuel queue visited : remaining queue visited < fuel → closed queue visited →
  NoDup (visit fuel queue visited) ∧
  (∀ i, i ∈ visit fuel queue visited → i ∉ visited ∧ ∃ q, q ∈ queue ∧ rtc next q i) ∧
  (∀ i, i ∈ queue → i ∈ visited ∨ i ∈ visit fuel queue visited) ∧
  (∀ i j, i ∈ visited ∨ i ∈ visit fuel queue visited → next i j → j ∈ visited ∨ j ∈ visit fuel queue visited).
Proof.
  revert queue visited. induction fuel as [|fuel IH]; intros queue visited Hf Hc; [lia|].
  destruct queue as [|c queue]; simpl.
  { split_and!; [constructor|by intros i ?%elem_of_nil|by intros i ?%elem_of_nil|].
    intros i j [Hi|?%elem_of_nil] Hr; [|done]. destruct (Hc i j Hi Hr) as [|?%elem_of_nil]; [by left|done]. }
  destruct (decide (c ∈ visited)) as [Hv|Hv].
  - destruct (IH queue visited) as (H1 & H2 & H3 & H4).
    + unfold remaining in *. simpl in Hf. lia.
    + intros i j Hi Hr. destruct (Hc i j Hi Hr) as [|[->|]%elem_of_cons]; auto.
    + split_and!; [done| |intros i [->|]%elem_of_cons; auto|done].
      intros i Hi. destruct (H2 i Hi) as (? & q & ? & ?). split; [done|]. exists q. split; [by right|done].
  - destruct (IH (queue ++ children c) ({[c]} ∪ visited)) as (H1 & H2 & H3 & H4).
    + pose proof (remaining_step c queue visited Hv). lia.
    + intros i j [->%elem_of_singleton|Hi]%elem_of_union Hr; [right; set_solver|].
      destruct (Hc i j Hi Hr) as [|[->|]%elem_of_cons]; set_solver.
    + split_and!.
      * constructor; [|done]. intros Hi. destruct (H2 _ Hi). set_solver.
      * intros i [->|Hi]%elem_of_cons; [split; [done|exists c; split; [by left|done]]|].
        destruct (H2 i Hi) as (Hni & q & Hq & Hrtc). split; [set_solver|].
        apply elem_of_app in Hq as [Hq|Hq]; [exists q; split; [by right|done]|].
        exists c. split; [by left|]. by eapply rtc_l.
      * intros i [->|Hi]%elem_of_cons; [right; by left|].
        destruct (H3 i ltac:(set_solver)) as [[->%elem_of_singleton|Hvis]%elem_of_union|Hi'];
          [right; by left|by left|right; by right].
      * intros i j Hi Hr. destruct (H4 i j) as [[->%elem_of_singleton|Hvis]%elem_of_union|Hj]; [|done|..].
        -- destruct Hi as [Hi|[->|Hi]%elem_of_cons]; set_solver.
        -- right. by left.
        -- by left.
        -- right. by right.
Qed.

(** With one more step than there is work. *)
Lemma visit_exact root : let order := visit (2 + S width * size nodes) [root] ∅ in
  NoDup order ∧ ∀ i, i ∈ order ↔ rtc next root i.
Proof.
  destruct (visit_complete (2 + S width * size nodes) [root] ∅) as (H1 & H2 & H3 & H4).
  - unfold remaining. rewrite difference_empty_L. simpl. lia.
  - intros i j ?%elem_of_empty. done.
  - split; [exact H1|]. intros i. split.
    + intros (_ & q & ->%list_elem_of_singleton & Hr)%H2. done.
    + set (order := visit _ [root] ∅) in *.
      assert (root ∈ order) as Hroot by (destruct (H3 root ltac:(by left)) as [?%elem_of_empty|]; done).
      assert (∀ q, rtc next q i → q ∈ order → i ∈ order) as Hall; [|by intros Hr; apply (Hall root)].
      intros q Hr. induction Hr as [|x y z Hxy _ IH]; [done|]. intros Hx. apply IH.
      destruct (H4 x y ltac:(by right) Hxy) as [?%elem_of_empty|]; done.
Qed.
End visit.

(** ** The objects around a model *)

(** An object's three attributes, and what else the searches read of it. *)
Record object (A : Type) := Object {
  ob_base_model : option Z;
  ob_model : option Z;
  ob_module : option Z;
  ob_data : A;
}.
Arguments Object {A}.
Arguments ob_base_model {A}.
Arguments ob_model {A}.
Arguments ob_module {A}.
Arguments ob_data {A}.

Section search.
Context {A : Type} (heap : gmap Z (object A)).

(** The objects that a candidate adds to the queue. *)
Definition children_of (candidate : Z) : list Z :=
  match heap !! candidate with
  | Some o => List.filter (fun child => negb (child =? candidate)%Z)
                (omap id [ob_base_model o; ob_model o; ob_module o])
  | None => []
  end.

(** Each object of the heap is visited once and adds at most three. *)
Definition visit_fuel : nat := 2 + 4 * size heap.
Definition visit_order (root : Z) : list Z := visit children_of visit_fuel [root] ∅.

(** The data of the visited objects. *)
Definition unwrapped (root : Z) : list A := omap (fun i => ob_data <$> heap !! i) (visit_order root).

(** The first answer of a visited object. *)
Definition first_of {B} (f : A -> option B) (root : Z) : option B := head (omap f (unwrapped root)).

Definition refers (i j : Z) : Prop := j ∈ children_of i.

Lemma length_children i : length (children_of i) ≤ 3.
Proof.
  unfold children_of. destruct (heap !! i) as [o|]; [|simpl; lia].
  etrans; [apply filter_length_le|]. by destruct (ob_base_model o), (ob_model o), (ob_module o); simpl; lia.
Qed.

Lemma children_outside i : i ∉ dom heap → children_of i = [].
Proof. unfold children_of. by intros ->%not_elem_of_dom. Qed.

(** C36. The search ends, within the fuel it is given: it visits the root and
    exactly the objects that can be reached from it over [base_model], [model]
    and [module], each once, cycles included; so an answer is found if any
    object that can be reached has one. *)
Theorem unwrapping_visits_everything (root : Z) :
  NoDup (visit_order root) ∧ ∀ i, i ∈ visit_order root ↔ rtc refers root i.
Proof.
  pose proof (visit_exact children_of (dom heap) 3 length_children children_outside root) as Hv.
  rewrite size_dom in Hv. exact Hv.
Qed.
End search.
