(* ===== verification/Modules.v ===== *)
(** * Torch modules

    The objects that [kt-kernel/python/sft/artifacts.py], [arch.py] and
    [weights.py] read and rewrite: modules with their three registries, tensors,
    and the private attributes that the package sets on either.  Registries are
    changed in place, so modules and tensors live in a heap and are compared by
    identity.

    How torch looks an attribute up and walks a tree of modules is the class
    [Torch]: its operations see the registries, and nothing that this package
    writes elsewhere.  The search for a model's layers,
    [_get_model_container_and_layers] of [arch.py], is the search of
    [ModelGraph]. *)
From S2P Require Import Prelude PyStr PyVal Backend WeightSource Arch ModelGraph.

Local Open Scope string_scope.
Local Open Scope list_scope.
Local Open Scope Z_scope.

(** ** Objects *)

(** A module: whether it is a [ModuleList], and its registries [_modules],
    [_parameters] and [_buffers], which keep their order. *)
Record module := Module_ {
  md_is_list : bool;
  md_modules : list (string * option Z);
  md_parameters : list (string * option Z);
  md_buffers : list (string * option Z);
}.

(** A tensor, with the two attributes that placeholders carry: [_kt_zero_storage]
    and, where it is set, [_kt_original_shape]. *)
Record tensor_obj := TensorObj {
  to_parameter : bool;
  to_shape : list Z;
  to_dtype : string;
  to_device : string;
  to_requires_grad : bool;
  to_zero_storage : bool;
  to_original_shape : option (list Z);
}.

#[export] Instance module_eq_dec : EqDecision module.
Proof. solve_decision. Defined.
#[export] Instance tensor_obj_eq_dec : EqDecision tensor_obj.
Proof. solve_decision. Defined.

Abbreviation module_map := (gmap Z module).
Abbreviation tensor_map := (gmap Z tensor_obj).

(** A tensor's part of a contract: its kind, its name and its shape. *)
Abbreviation contract_entry := (string * string * list Z)%type.

(** The private attributes: [True], [None] or another plain value, or a tuple. *)
Inductive item := IText (s : string) | IRef (i : Z) | IContract (c : list contract_entry).
Inductive attr := AVal (v : pyval) | ATuple (l : list item).

Record objects := Objects { ob_modules : module_map; ob_tensors : tensor_map }.

(** The heap: the objects, and the private attributes that are set on them. *)
Record heap := Heap { hp_objects : objects; hp_attrs : gmap (Z * string) attr }.

(** [getattr(o, name, None)] and [getattr(o, name, False) is True] for a private
    attribute. *)
Definition private (h : heap) (o : Z) (name : string) : attr := default (AVal PNone) (hp_attrs h !! (o, name)).

Definition is_none (a : attr) : bool := match a with AVal PNone => true | _ => false end.

Definition marked (h : heap) (o : Z) (name : string) : bool :=
  match hp_attrs h !! (o, name) with Some (AVal (PBool true)) => true | _ => false end.

(** [bool(getattr(o, name, False))] *)
Definition attr_truthy (h : heap) (o : Z) (name : string) : bool :=
  match hp_attrs h !! (o, name) with
  | Some (AVal v) => truthy v
  | Some (ATuple l) => negb (bool_decide (length l = 0%nat))
  | None => false
  end.

Definition set_attr (o : Z) (name : string) (a : attr) (h : heap) : heap :=
  Heap (hp_objects h) (<[(o, name) := a]> (hp_attrs h)).

(** [with suppress(AttributeError): delattr(o, name)] *)
Definition del_attr (o : Z) (name : string) (h : heap) : heap :=
  Heap (hp_objects h) (delete (o, name) (hp_attrs h)).

(** The greatest identity in use. *)
Definition max_key {A} (m : gmap Z A) : Z := map_fold (fun i _ acc => Z.max i acc) 0 m.

(** An identity that no object has. *)
Definition fresh_id (o : objects) : Z := 1 + max_key (ob_modules o) `max` max_key (ob_tensors o).

Definition new_tensor (t : tensor_obj) (o : objects) : Z * objects :=
  let i := fresh_id o in (i, Objects (ob_modules o) (<[i := t]> (ob_tensors o))).

Definition new_module (m : module) (o : objects) : Z * objects :=
  let i := fresh_id o in (i, Objects (<[i := m]> (ob_modules o)) (ob_tensors o)).

(** ** What torch answers *)

(** The value of an attribute: a module, a tensor, or another object. *)
Inductive value := VModule (i : Z) | VTensor (i : Z) | VSequence | VOther | VNone.

#[export] Instance value_eq_dec : EqDecision value.
Proof. solve_decision. Defined.

Class Torch := {
  (** [getattr(module, name)], where the module has the attribute *)
  get_attribute : module_map -> Z -> string -> option value;
  (** [module.get_base_model()], where it can be called and returns *)
  base_model_of : module_map -> Z -> option value;
  (** the modules that iterating a [ModuleList] yields *)
  list_items : module_map -> Z -> list Z;
  (** [module.modules()] and [module.named_children()] *)
  submodules : module_map -> Z -> list Z;
  named_children : module_map -> Z -> list (string * Z);
  (** [module.named_parameters(recurse=True, remove_duplicate=b)], and
      [named_buffers] likewise *)
  named_parameters : bool -> module_map -> Z -> list (string * Z);
  named_buffers : bool -> module_map -> Z -> list (string * Z);
  (** [module.get_submodule(path)] *)
  get_submodule : module_map -> Z -> string -> res Z;
  (** [torch.device(text).type], where the text names a device *)
  device_type : string -> option string;
}.

(** ** Shapes that survive emptying *)

(** [tuple(int(value) for value in shape)] is the shape; of [None] it raises. *)
Definition effective_runtime_shape (t : tensor_obj) : res (list Z) :=
  let shape := if to_zero_storage t then to_original_shape t else Some (to_shape t) in
  resolved ← of_option shape KTArtifactError "has invalid routed-expert shape metadata";
  _ ← raise_if (bool_decide (resolved = []) || existsb (fun value => value <=? 0) resolved) KTArtifactError
        "has invalid routed-expert shape";
  mret resolved.

(** The tensor that a registry or an attribute refers to. *)
Definition tensor_at (o : objects) (i : Z) : res tensor_obj :=
  of_option (ob_tensors o !! i) AttributeError "no such tensor".

Definition is_parameter (o : objects) (v : option value) : bool :=
  match v with
  | Some (VTensor i) => match ob_tensors o !! i with Some t => to_parameter t | None => false end
  | _ => false
  end.

Definition shape_of_value (o : objects) (v : option value) : res (list Z) :=
  match v with
  | Some (VTensor i) => t ← tensor_at o i; effective_runtime_shape t
  | _ => Err (Raise AttributeError "object has no attribute 'shape'")
  end.

Section torch.
Context `{Torch}.

(** [getattr(v, name, None)]; an object that is no module has none of the
    attributes that are asked for. *)
Definition attr_value (ms : module_map) (v : option value) (name : string) : option value :=
  match v with Some (VModule i) => get_attribute ms i name | _ => None end.

(** ** The layers of a model *)

Definition CHILD_ATTRIBUTES : list string := ["model"; "base_model"; "pretrained_model"; "module"; "language_model"].

(** [isinstance(child, nn.Module) and child is not current] *)
Definition other_module (current : Z) (v : option value) : option Z :=
  match v with Some (VModule i) => if i =? current then None else Some i | _ => None end.

(** What a visited object adds to the queue. *)
Definition unwrapped_children (ms : module_map) (current : Z) : list Z :=
  match ms !! current with
  | Some _ => omap (other_module current)
                ((get_attribute ms current <$> CHILD_ATTRIBUTES) ++ [base_model_of ms current])
  | None => []
  end.

(** [layers] of an object, if it is a list, a tuple or a [ModuleList]. *)
Definition layers_of (ms : module_map) (current : Z) : option value :=
  match get_attribute ms current "layers" with
  | Some VSequence => Some VSequence
  | Some (VModule i) => match ms !! i with Some m => if md_is_list m then Some (VModule i) else None | None => None end
  | _ => None
  end.

Definition container_fuel (ms : module_map) : nat := 2 + 7 * size ms.

Definition get_model_container_and_layers (ms : module_map) (model : Z) : res (Z * value) :=
  of_option (head (omap (fun current => (fun layers => (current, layers)) <$> layers_of ms current)
                     (visit (unwrapped_children ms) (container_fuel ms) [model] ∅)))
    KTAMXConfigError "Model does not expose a .model.layers or .layers attribute for KT".

(** [get_moe_module], of a layer in the heap *)
Definition moe_module_of (ms : module_map) (layer : Z) (moe_config : MOEArchConfig) : option value :=
  match get_attribute ms layer (ma_moe_layer_attr moe_config) with
  | None | Some VNone => None
  | Some moe_module =>
      match attr_value ms (Some moe_module) (ma_experts_attr moe_config) with Some _ => Some moe_module | None => None end
  end.
End torch.

(** ** Changing a registry *)

Inductive registry := Parameters | Buffers | Children.

#[export] Instance registry_eq_dec : EqDecision registry.
Proof. solve_decision. Defined.

Definition entries (r : registry) (m : module) : list (string * option Z) :=
  match r with Parameters => md_parameters m | Buffers => md_buffers m | Children => md_modules m end.

Definition with_entries (r : registry) (l : list (string * option Z)) (m : module) : module :=
  match r with
  | Parameters => Module_ (md_is_list m) (md_modules m) l (md_buffers m)
  | Buffers => Module_ (md_is_list m) (md_modules m) (md_parameters m) l
  | Children => Module_ (md_is_list m) l (md_parameters m) (md_buffers m)
  end.

(** [module._parameters[name] = v], and likewise for the other registries *)
Definition set_entry (r : registry) (i : Z) (name : string) (v : option Z) (ms : module_map) : module_map :=
  alter (fun m => with_entries r (dict_set name v (entries r m)) m) i ms.

(** [registry.get(name)] *)
Definition get_entry (r : registry) (i : Z) (name : string) (ms : module_map) : option (option Z) :=
  m ← ms !! i; dict_get name (entries r m).

(** A change that is to be undone: the registry, the key, and what it held. *)
Record replacement := Replacement { rp_registry : registry; rp_module : Z; rp_name : string; rp_original : option Z }.

(** [for registry, name, original in reversed(replacements): registry[name] = original];
    the latest change comes first in the list. *)
Definition undo (log : list replacement) (ms : module_map) : module_map :=
  foldl (fun ms r => set_entry (rp_registry r) (rp_module r) (rp_name r) (rp_original r) ms) ms log.

Definition on_modules (f : module_map -> module_map) (h : heap) : heap :=
  Heap (Objects (f (ob_modules (hp_objects h))) (ob_tensors (hp_objects h))) (hp_attrs h).

(** *** Changes are undone in reverse *)

Lemma dict_set_get {A} k (v : A) d : dict_get k d = Some v → dict_set k v d = d.
Proof.
  induction d as [|[k' v'] d IH]; [done|]. simpl. destruct (String.eqb_spec k k') as [->|]; [by intros [= ->]|].
  intros Hg. by rewrite IH.
Qed.

Lemma dict_set_over {A} k (v w : A) d : dict_set k v (dict_set k w d) = dict_set k v d.
Proof.
  induction d as [|[k' v'] d IH]; simpl; [by rewrite String.eqb_refl|].
  destruct (String.eqb k k') eqn:E; simpl; [by rewrite String.eqb_refl|]. by rewrite E, IH.
Qed.

Lemma entries_with r l m : entries r (with_entries r l m) = l.
Proof. by destruct r. Qed.
Lemma with_entries_with r l l' m : with_entries r l (with_entries r l' m) = with_entries r l m.
Proof. by destruct r. Qed.
Lemma with_entries_id r m : with_entries r (entries r m) m = m.
Proof. by destruct r, m. Qed.

Lemma set_entry_back r i name v w ms : get_entry r i name ms = Some v →
  set_entry r i name v (set_entry r i name w ms) = ms.
Proof.
  unfold get_entry, set_entry. destruct (ms !! i) as [m|] eqn:Em; [|done]. simpl. intros Hg.
  apply map_eq. intros j. destruct (decide (j = i)) as [->|Hj]; [|by rewrite !lookup_alter_ne].
  rewrite !lookup_alter_eq, Em. simpl. f_equal. rewrite entries_with, with_entries_with, dict_set_over, dict_set_get by done.
  apply with_entries_id.
Qed.

Lemma get_set_entry_eq r i name v ms : is_Some (ms !! i) → get_entry r i name (set_entry r i name v ms) = Some v.
Proof.
  intros [m Hm]. unfold get_entry, set_entry. rewrite lookup_alter_eq, Hm. simpl.
  rewrite entries_with. apply dict_get_set_eq.
Qed.

Lemma get_set_entry_ne r i name v ms r' i' name' : (r, i, name) ≠ (r', i', name') →
  get_entry r' i' name' (set_entry r i name v ms) = get_entry r' i' name' ms.
Proof.
  intros Hne. unfold get_entry, set_entry. destruct (decide (i' = i)) as [->|Hi]; [|by rewrite lookup_alter_ne].
  rewrite lookup_alter_eq. destruct (ms !! i) as [m|]; [|done]. simpl.
  destruct r, r'; simpl; try done; apply dict_get_set_ne; congruence.
Qed.

(** One more change, undone first. *)
Lemma undo_set_entry r i name v w log ms : get_entry r i name ms = Some v →
  undo (Replacement r i name v :: log) (set_entry r i name w ms) = undo log ms.
Proof. intros Hg. unfold undo. simpl. by rewrite set_entry_back. Qed.

Lemma max_key_ge {A} (m : gmap Z A) i x : m !! i = Some x → i ≤ max_key m.
Proof.
  revert i x. unfold max_key. apply (map_fold_weak_ind (fun acc m => ∀ i x, m !! i = Some x → i ≤ acc)); [by intros|].
  intros i x m' acc Hi IH j y Hj. apply lookup_insert_Some in Hj as [[<- _]|[_ Hj]]; [lia|]. specialize (IH _ _ Hj). lia.
Qed.

Lemma fresh_id_new (o : objects) : ob_modules o !! fresh_id o = None ∧ ob_tensors o !! fresh_id o = None.
Proof. unfold fresh_id. split; apply eq_None_not_Some; intros [x Hx%max_key_ge]; lia. Qed.

(** *** The container is found if it can be reached *)

Section container.
Context `{Torch} (ms : module_map).

Definition unwraps (i j : Z) : Prop := next (unwrapped_children ms) i j.

Lemma unwrapped_children_width i : (length (unwrapped_children ms i) ≤ 6)%nat.
Proof.
  unfold unwrapped_children. destruct (ms !! i); [|simpl; lia].
  assert (∀ l : list (option value), length (omap (other_module i) l) ≤ length l)%nat as Ho.
  { induction l as [|v l IH]; [done|]. change (omap (other_module i) (v :: l)) with
      (match other_module i v with Some j => j :: omap (other_module i) l | None => omap (other_module i) l end).
    destruct (other_module i v); cbn [length]; lia. }
  etrans; [apply Ho|]. by rewrite length_app, length_fmap.
Qed.

Lemma unwrapped_children_outside i : i ∉ dom ms → unwrapped_children ms i = [].
Proof. unfold unwrapped_children. by intros ->%not_elem_of_dom. Qed.

(** The search ends within its fuel.  It returns a reachable object and its
    layers, and raises only if no reachable object has layers. *)
Lemma container_found model :
  match get_model_container_and_layers ms model with
  | Ok (container, layers) => rtc unwraps model container ∧ layers_of ms container = Some layers
  | Err e => exn_cls e = KTAMXConfigError ∧ ∀ i, rtc unwraps model i → layers_of ms i = None
  end.
Proof.
  pose proof (visit_exact (unwrapped_children ms) (dom ms) 6 unwrapped_children_width unwrapped_children_outside model) as [_ Hv].
  rewrite size_dom in Hv. unfold get_model_container_and_layers. fold (container_fuel ms) in Hv.
  set (order := visit _ _ _ _) in *. set (f := λ current, _).
  assert (∀ i, i ∈ order → rtc unwraps model i) as Hr by (intros i; apply Hv).
  assert (∀ i, rtc unwraps model i → i ∈ order) as Hin by (intros i; apply Hv). clearbody order. clear Hv.
  destruct (omap f order) as [|[c layers] l] eqn:E; simpl.
  - split; [done|]. intros i Hi%Hin. destruct (layers_of ms i) as [v|] eqn:El; [|done].
    assert ((i, v) ∈ omap f order) as Hx; [|rewrite E in Hx; by apply elem_of_nil in Hx].
    apply list_elem_of_omap. exists i. split; [done|]. unfold f. by rewrite El.
  - assert ((c, layers) ∈ omap f order) as Hx by (rewrite E; left).
    apply list_elem_of_omap in Hx as (i & Hi & Hf). unfold f in Hf. destruct (layers_of ms i) as [v|] eqn:El; [|done].
    injection Hf as <- <-. split; [by apply Hr|done].
Qed.
End container.
