(* ===== verification/Ownership.v ===== *)
(** * Ownership of routed experts

    Models the part of [kt-kernel/python/sft/artifacts.py] that keeps a
    framework away from the routed experts of a model: the enumeration of their
    subtrees and the contract of their tensors, [claim_kt_routed_expert_subtrees]
    with its rollback, the check of a claim, the two context managers that hide
    the subtrees while a device map is inferred or a model is dispatched,
    [prepare_kt_non_expert_device_map], and the marks of the INT8 format with the
    aliases that check them.

    Setting an attribute runs code of the model's own classes and may be
    interrupted: [refuses] is what it raises. *)
From S2P Require Import Prelude PyStr PyVal Backend WeightSource Arch Modules.
From Stdlib Require Import Ascii.

Local Open Scope string_scope.
Local Open Scope list_scope.
Local Open Scope Z_scope.

Definition PARAMETER_MARKER : string := "_is_kt_int8_routed_expert_base_parameter".
Definition MODULE_MARKER : string := "_is_kt_int8_routed_expert_base_module".
Definition MODULE_PATHS : string := "_kt_int8_routed_expert_module_paths".
Definition RUNTIME_PARAMETER_MARKER : string := "_is_kt_routed_expert_runtime_parameter".
Definition RUNTIME_MODULE_MARKER : string := "_is_kt_routed_expert_runtime_module".
Definition RUNTIME_MODULE_PATHS : string := "_kt_routed_expert_runtime_module_paths".
Definition RUNTIME_MODULE_REFS : string := "_kt_routed_expert_runtime_module_refs".
Definition RUNTIME_TENSOR_CONTRACTS : string := "_kt_routed_expert_runtime_tensor_contracts".

#[export] Instance item_eq_dec : EqDecision item.
Proof. solve_decision. Defined.

Definition true_attr : attr := AVal (PBool true).

Definition artifact_raise_if (c : bool) (msg : string) : res unit := raise_if c KTArtifactError msg.

(** [except Exception]: the interrupts of the interpreter pass. *)
Definition is_exception (c : exn_class) : bool :=
  match c with KeyboardInterrupt | SystemExit => false | _ => true end.

(** [except (AttributeError, KeyError) as exc: raise KTArtifactError(msg) from exc] *)
Definition missing_as {A} (msg : string) (m : res A) : res A :=
  catch m (fun c => bool_decide (c ∈ [AttributeError; KeyError])) (fun _ => Err (Raise KTArtifactError msg)).

(** A positive [int] that is no [bool]. *)
Definition positive_of (c : cfg) : option Z :=
  match c with CVal (PInt n) => if 0 <? n then Some n else None | _ => None end.

(** [parent, child = path.rsplit(".", 1)] *)
Fixpoint rsplit_dot (s : string) : option (string * string) :=
  match s with
  | "" => None
  | String c s' =>
      match rsplit_dot s' with
      | Some (p, q) => Some (String c p, q)
      | None => if Ascii.eqb c "."%char then Some ("", s') else None
      end
  end.

Definition deepseek_routed_paths (config : cfg) : res (list string) :=
  let invalid := Err (Raise KTArtifactError "model config has an invalid routed-expert layer range") in
  match getattr_or config "num_hidden_layers" cnone, getattr_or config "first_k_dense_replace" cnone with
  | CVal (PInt layer_count), CVal (PInt first_moe_layer) =>
      if (layer_count <=? 0) || (first_moe_layer <? 0) || (layer_count <=? first_moe_layer) then invalid
      else mret ((fun index => indexed "model.layers" index +:+ ".mlp.experts")
                   <$> seqZ first_moe_layer (layer_count - first_moe_layer))
  | _, _ => invalid
  end.

(** ** Contracts *)

(** [sorted(entries)]: kinds and names are distinct, so shapes are not compared. *)
Definition entry_le (a b : contract_entry) : Prop :=
  Is_true (if String.eqb a.1.1 b.1.1 then String.leb a.1.2 b.1.2 else String.leb a.1.1 b.1.1).
#[export] Instance entry_le_dec : RelDecision entry_le := fun a b => _.

Definition add_contract_entry (o : objects) (entries : list contract_entry) (e : string * string * Z)
    : res (list contract_entry) :=
  let '(kind, name, tensor) := e in
  _ ← artifact_raise_if (existsb (fun '(k, n, _) => String.eqb k kind && String.eqb n name) entries)
        "exposes duplicate routed-expert tensors";
  t ← tensor_at o tensor;
  shape ← effective_runtime_shape t;
  mret (entries ++ [(kind, name, shape)]).

Section ownership.
Context `{Torch}.

Definition runtime_tensor_contract (o : objects) (module : Z) : res (list contract_entry) :=
  entries ← for_each (((fun '(name, i) => ("parameter", name, i)) <$> named_parameters false (ob_modules o) module)
                      ++ ((fun '(name, i) => ("buffer", name, i)) <$> named_buffers false (ob_modules o) module))
              [] (add_contract_entry o);
  _ ← artifact_raise_if (negb (existsb (fun '(kind, _, _) => String.eqb kind "parameter") entries))
        "routed-expert subtree contains no parameters";
  mret (merge_sort entry_le entries).

(** ** The structure of experts *)

Definition check_fused (o : objects) (experts expert_num intermediate_size hidden_size : Z) : res unit :=
  let gate_up := get_attribute (ob_modules o) experts "gate_up_proj" in
  let down := get_attribute (ob_modules o) experts "down_proj" in
  _ ← artifact_raise_if (negb (is_parameter o gate_up) || negb (is_parameter o down))
        "must register both fused gate_up_proj and down_proj parameters";
  actual ← shape_of_value o gate_up;
  _ ← artifact_raise_if (negb (bool_decide (actual = [expert_num; 2 * intermediate_size; hidden_size]))) "shape mismatch";
  actual ← shape_of_value o down;
  artifact_raise_if (negb (bool_decide (actual = [expert_num; hidden_size; intermediate_size]))) "shape mismatch".

Definition check_projection (o : objects) (expert : Z) (projection : string * list Z) : res unit :=
  let weight := attr_value (ob_modules o) (get_attribute (ob_modules o) expert projection.1) "weight" in
  _ ← artifact_raise_if (negb (is_parameter o weight)) "does not expose a weight Parameter";
  actual_shape ← shape_of_value o weight;
  artifact_raise_if (negb (bool_decide (actual_shape = projection.2))) "shape mismatch".

Definition check_expert_list (o : objects) (experts expert_num intermediate_size hidden_size : Z)
    (weight_names : list string) : res unit :=
  let children := named_children (ob_modules o) experts in
  _ ← artifact_raise_if (negb (bool_decide (children.*1 = str_of_Z <$> seqZ 0 expert_num))) "expert inventory mismatch";
  match weight_names with
  | [gate_name; up_name; down_name] =>
      let expected_shapes := dict_set down_name [hidden_size; intermediate_size]
                               (dict_set up_name [intermediate_size; hidden_size]
                                  [(gate_name, [intermediate_size; hidden_size])]) in
      for_each children tt (fun _ child =>
        for_each expected_shapes tt (fun _ projection => check_projection o child.2 projection))
  | _ => Err (Raise ValueError "not enough or too many values to unpack")
  end.

Definition validate_runtime_expert_structure (o : objects) (experts : Z) (moe_config : MOEArchConfig)
    (hidden_size : cfg) : res unit :=
  let invalid := Err (Raise KTArtifactError "has invalid routed-expert dimensions") in
  match positive_of hidden_size with
  | Some hidden_size =>
      if (ma_expert_num moe_config <=? 0) || (ma_intermediate_size moe_config <=? 0) then invalid
      else if is_parameter o (get_attribute (ob_modules o) experts "gate_up_proj")
              || is_parameter o (get_attribute (ob_modules o) experts "down_proj")
      then check_fused o experts (ma_expert_num moe_config) (ma_intermediate_size moe_config) hidden_size
      else check_expert_list o experts (ma_expert_num moe_config) (ma_intermediate_size moe_config) hidden_size
             (ma_weight_names moe_config)
  | None => invalid
  end.

(** ** Enumeration *)

Context `{Platform} (cfg_repr : cfg -> string).

(** [model], and [model.config] where it has one. *)
Context (model : Z) (config : cfg).

(** A layer's routed experts, after those of earlier layers. *)
Definition enumerate_layer (o : objects) (moe_config : MOEArchConfig) (layers_path : string) (hidden_size : cfg)
    (modules : list (string * Z)) (indexed_layer : nat * Z) : res (list (string * Z)) :=
  let '(layer_index, layer) := indexed_layer in
  match moe_module_of (ob_modules o) layer moe_config with
  | None => mret modules
  | Some moe_module =>
      experts ← match attr_value (ob_modules o) (Some moe_module) (ma_experts_attr moe_config) with
                | Some (VModule experts) => mret experts
                | _ => Err (Raise KTArtifactError "layer does not expose a registered routed-expert module")
                end;
      let path := indexed layers_path (Z.of_nat layer_index) +:+ "." +:+ ma_moe_layer_attr moe_config
                  +:+ "." +:+ ma_experts_attr moe_config in
      registered ← missing_as "missing routed-expert subtree" (get_submodule (ob_modules o) model path);
      _ ← artifact_raise_if (negb (registered =? experts)) "routed-expert subtree does not preserve module identity";
      _ ← artifact_raise_if (bool_decide (experts ∈ modules.*2)) "routed-expert subtree shares a module with another layer";
      _ ← validate_runtime_expert_structure o experts moe_config hidden_size;
      mret (modules ++ [(path, experts)])
  end.

(** The [try] at the head of the enumeration: the container, its path, and the
    module that is registered there. *)
Definition locate_layers (o : objects) : res (MOEArchConfig * value * string * Z) :=
  moe_config ← get_moe_arch_config cfg_repr config;
  container ← get_model_container_and_layers (ob_modules o) model;
  layers_path ← get_layers_prefix cfg_repr config;
  registered_layers ← get_submodule (ob_modules o) model layers_path;
  mret (moe_config, container.2, layers_path, registered_layers).

Definition enumerate_runtime_routed_modules (o : objects) : res (list (string * Z)) :=
  if negb (is_kt_supported_moe_model cfg_repr config) then mret []
  else
    located ← catch (locate_layers o) is_exception
                (fun _ => Err (Raise KTArtifactError "could not enumerate KT routed-expert layers"));
    let '(moe_config, layers, layers_path, registered_layers) := located in
    _ ← artifact_raise_if (negb (bool_decide (layers = VModule registered_layers)))
          "model layer path does not resolve to the discovered layer container";
    let hidden_size := getattr_or (getattr_or config "text_config" config) "hidden_size" cnone in
    modules ← for_each (imap pair (list_items (ob_modules o) registered_layers)) []
                (enumerate_layer o moe_config layers_path hidden_size);
    _ ← artifact_raise_if (bool_decide (modules = [])) "supported KT MoE model contains no routed-expert layers";
    mret modules.

(** ** Claims *)

Definition unclaimed (h : heap) : bool :=
  is_none (private h model RUNTIME_MODULE_PATHS) && is_none (private h model RUNTIME_MODULE_REFS)
  && is_none (private h model RUNTIME_TENSOR_CONTRACTS).

(** One claimed subtree is still the one that was claimed. *)
Definition check_claimed (h : heap) (claim : (string * Z) * (item * item)) : res (string * Z) :=
  let '((path, current), (claimed, contract)) := claim in
  _ ← artifact_raise_if (negb (bool_decide (claimed = IRef current))) "routed-expert subtree changed module identity";
  _ ← artifact_raise_if (negb (marked h current RUNTIME_MODULE_MARKER)) "routed-expert subtree lost its runtime ownership marker";
  actual ← runtime_tensor_contract (hp_objects h) current;
  _ ← artifact_raise_if (negb (bool_decide (contract = IContract actual))) "routed-expert subtree changed its tensor contract";
  mret (path, current).

Definition validated_runtime_routed_modules (h : heap) : res (list (string * Z)) :=
  let paths := private h model RUNTIME_MODULE_PATHS in
  let module_refs := private h model RUNTIME_MODULE_REFS in
  let contracts := private h model RUNTIME_TENSOR_CONTRACTS in
  if unclaimed h then mret []
  else
    _ ← artifact_raise_if (is_none paths || is_none module_refs || is_none contracts)
          "routed-expert runtime ownership metadata is incomplete";
    match paths, module_refs, contracts with
    | ATuple paths, ATuple module_refs, ATuple contracts =>
        enumerated ← enumerate_runtime_routed_modules (hp_objects h);
        _ ← artifact_raise_if (negb (bool_decide (paths = IText <$> enumerated.*1)))
              "routed-expert runtime ownership paths changed";
        _ ← artifact_raise_if (negb (bool_decide (length module_refs = length paths))
                               || negb (bool_decide (length contracts = length paths)))
              "routed-expert runtime ownership metadata has inconsistent lengths";
        mapM (check_claimed h) (zip enumerated (zip module_refs contracts))
    | _, _, _ => Err (Raise KTArtifactError "routed-expert runtime ownership metadata has invalid types")
    end.

Context (refuses : heap -> Z -> string -> option pyexn).

Definition setattr (o : Z) (name : string) (a : attr) : M heap unit := fun h =>
  match refuses h o name with
  | Some e => (h, Err e)
  | None => (set_attr o name a h, Ok tt)
  end.

(** A computation on the heap, beside a local variable. *)
Definition on_heap {L A} (m : M heap A) : M (heap * L) A := fun s => let '(h, r) := m s.1 in ((h, s.2), r).

(** The parameters that [module.parameters(recurse=True)] yields. *)
Definition parameters_of (o : objects) (module : Z) : list Z := (named_parameters true (ob_modules o) module).*2.

(** [setattr(parameter, marker, True); marked_parameters.append(parameter)] *)
Definition mark_parameter (parameter : Z) : M (heap * list Z) unit :=
  _ ← on_heap (setattr parameter RUNTIME_PARAMETER_MARKER true_attr);
  modify (fun s => (s.1, s.2 ++ [parameter])).

Definition mark_subtree (entry : string * Z) : M (heap * list Z) unit :=
  _ ← on_heap (setattr entry.2 RUNTIME_MODULE_MARKER true_attr);
  s ← get;
  for_M (parameters_of (hp_objects s.1) entry.2) mark_parameter.

(** The [try] of a claim: its state has [marked_parameters]. *)
Definition try_claim (modules : list (string * Z)) (contracts : list (list contract_entry)) : M (heap * list Z) unit :=
  _ ← for_M modules mark_subtree;
  _ ← on_heap (setattr model RUNTIME_MODULE_PATHS (ATuple (IText <$> modules.*1)));
  _ ← on_heap (setattr model RUNTIME_MODULE_REFS (ATuple (IRef <$> modules.*2)));
  on_heap (setattr model RUNTIME_TENSOR_CONTRACTS (ATuple (IContract <$> contracts))).

(** [except BaseException] *)
Definition rollback_claim (modules : list (string * Z)) (marked_parameters : list Z) (h : heap) : heap :=
  let h := foldl (fun h parameter => del_attr parameter RUNTIME_PARAMETER_MARKER h) h marked_parameters in
  let h := foldl (fun h entry => del_attr entry.2 RUNTIME_MODULE_MARKER h) h modules in
  foldl (fun h name => del_attr model name h) h [RUNTIME_MODULE_PATHS; RUNTIME_MODULE_REFS; RUNTIME_TENSOR_CONTRACTS].

Definition perform_claim (modules : list (string * Z)) (contracts : list (list contract_entry)) : M heap (list string) :=
  fun h => match try_claim modules contracts (h, []) with
           | ((h', _), Ok _) => (h', Ok modules.*1)
           | ((h', marked_parameters), Err e) => (rollback_claim modules marked_parameters h', Err e)
           end.

Definition claim_kt_routed_expert_subtrees : M heap (list string) :=
  h ← get;
  if negb (unclaimed h) then
    validated ← lift (validated_runtime_routed_modules h);
    mret validated.*1
  else
    modules ← lift (enumerate_runtime_routed_modules (hp_objects h));
    if bool_decide (modules = []) then mret []
    else
      _ ← lift (for_each modules tt (fun _ entry => artifact_raise_if (attr_truthy h entry.2 RUNTIME_MODULE_MARKER)
                                                    "routed-expert subtree has an unowned runtime marker"));
      contracts ← lift (mapM (fun entry => runtime_tensor_contract (hp_objects h) entry.2) modules);
      perform_claim modules contracts.

Definition is_kt_routed_expert_base_parameter (h : heap) (parameter : Z) : bool :=
  marked h parameter RUNTIME_PARAMETER_MARKER.

(** ** Projecting experts out of a device map *)

(** [torch.empty(0, dtype=t.dtype, device="meta")], and the parameter around it *)
Definition empty_buffer (t : tensor_obj) : tensor_obj := TensorObj false [0] (to_dtype t) "meta" false false None.
Definition empty_parameter (t : tensor_obj) : tensor_obj :=
  TensorObj true [0] (to_dtype t) "meta" (to_requires_grad t) false None.

Definition projected (r : registry) (t : tensor_obj) : tensor_obj :=
  match r with Parameters => empty_parameter t | _ => empty_buffer t end.

(** One entry of a registry; the state has [replacements], the latest first. *)
Definition project_entry (r : registry) (module : Z) (entry : string * option Z) : M (heap * list replacement) unit :=
  match entry.2 with
  | None => mret tt
  | Some tensor => fun s =>
      let o := hp_objects s.1 in
      match tensor_at o tensor with
      | Err e => (s, Err e)
      | Ok t =>
          if negb (String.eqb (to_device t) "meta")
          then (s, Err (Raise KTArtifactError "must be meta before device-map inference"))
          else
            let '(i, o) := new_tensor (projected r t) o in
            ((on_modules (set_entry r module entry.1 (Some i)) (Heap o (hp_attrs s.1)),
              Replacement r module entry.1 entry.2 :: s.2), Ok tt)
      end
  end.

(** [tuple(registry.items())] *)
Definition entries_at (r : registry) (module : Z) (h : heap) : list (string * option Z) :=
  match ob_modules (hp_objects h) !! module with Some m => entries r m | None => [] end.

Definition project_registry (r : registry) (module : Z) : M (heap * list replacement) unit :=
  s ← get; for_M (entries_at r module s.1) (project_entry r module).

Definition project_module (module : Z) : M (heap * list replacement) unit :=
  _ ← project_registry Parameters module;
  project_registry Buffers module.

Definition project_subtree (entry : string * Z) : M (heap * list replacement) unit :=
  s ← get; for_M (submodules (ob_modules (hp_objects s.1)) entry.2) project_module.

(** [try: change; yield  finally: undo], where the block is [body]. *)
Definition with_replacements {A} (change : M (heap * list replacement) unit) (body : M heap A) : M heap A := fun h =>
  let '((h', replacements), r) := change (h, []) in
  let '(h'', outcome) := match r with Ok _ => body h' | Err e => (h', Err e) end in
  (on_modules (undo replacements) h'', outcome).

Definition project_kt_routed_experts_out_of_device_map {A} (body : M heap A) : M heap A :=
  h ← get;
  modules ← lift (validated_runtime_routed_modules h);
  if bool_decide (modules = []) then body
  else with_replacements (for_M modules project_subtree) body.

(** ** Hiding experts from dispatch *)

Definition empty_module : module := Module_ false [] [] [].

Definition hide_subtree (entry : string * Z) : M (heap * list replacement) unit := fun s =>
  let o := hp_objects s.1 in
  match rsplit_dot entry.1 with
  | None => (s, Err (Raise ValueError "not enough values to unpack (expected 2, got 1)"))
  | Some (parent_path, child_name) =>
      match get_submodule (ob_modules o) model parent_path with
      | Err e => (s, Err e)
      | Ok parent =>
          if negb (bool_decide (get_entry Children parent child_name (ob_modules o) = Some (Some entry.2)))
          then (s, Err (Raise KTArtifactError "routed-expert subtree changed before dispatch"))
          else
            let '(i, o) := new_module empty_module o in
            ((on_modules (set_entry Children parent child_name (Some i)) (Heap o (hp_attrs s.1)),
              Replacement Children parent child_name (Some entry.2) :: s.2), Ok tt)
      end
  end.

Definition hide_kt_routed_experts_from_dispatch {A} (body : M heap A) : M heap A :=
  h ← get;
  modules ← lift (validated_runtime_routed_modules h);
  if bool_decide (modules = []) then body
  else with_replacements (for_M modules hide_subtree) body.

(** ** Device maps without experts *)

(** A device of a map: a text, an index, or a [torch.device]; another object is
    one that [torch.device] does not accept. *)
Inductive device := DText (s : string) | DIndex (n : Z) | DDevice (type : string) | DOther.

Inductive placement := PlacementMap (d : list (string * device)) | PlacementOther.

(** [name == path or name.startswith(f"{path}.")] *)
Definition under (name path : string) : bool := String.eqb name path || starts_with (path +:+ ".") name.

Definition is_host (d : device) : bool :=
  match d with
  | DText s => String.eqb s "disk"
               || match device_type s with Some type => bool_decide (type ∈ ["cpu"; "meta"]) | None => false end
  | DIndex _ => false
  | DDevice type => bool_decide (type ∈ ["cpu"; "meta"])
  | DOther => false
  end.

Definition prepare_kt_non_expert_device_map (h : heap) (device_map : placement) : res placement :=
  modules ← validated_runtime_routed_modules h;
  if bool_decide (modules = []) then mret device_map
  else
    match device_map with
    | PlacementOther => Err (Raise KTArtifactError "non-expert placement requires a resolved device-map dictionary")
    | PlacementMap d =>
        let resolved := List.filter (fun entry => negb (existsb (under entry.1) modules.*1)) d in
        _ ← artifact_raise_if (bool_decide (length resolved = 0%nat)) "device map became empty after removing routed experts";
        _ ← artifact_raise_if (existsb (fun entry => is_host entry.2) resolved)
              "non-expert device map offloaded real tensors to CPU/disk";
        mret (PlacementMap resolved)
    end.

(** ** The INT8 format *)

(** [2 * c]; the double of a float, a text or a list is no [int] either. *)
Definition doubled (c : cfg) : res cfg :=
  match c with
  | CVal (PInt n) => mret (CVal (PInt (2 * n)))
  | CVal (PBool b) => mret (CVal (PInt (if b then 2 else 0)))
  | CVal (PFloat _) | CVal (PStr _) | CVal (PList _) => mret c
  | _ => Err (Raise TypeError "unsupported operand type(s) for *")
  end.

(** The shapes that a claimed subtree's two parameters are to have. *)
Definition int8_expected_shapes : res (list (string * list Z)) :=
  let n_routed_experts := getattr_or config "n_routed_experts" cnone in
  let hidden_size := getattr_or config "hidden_size" cnone in
  gate_up ← doubled (getattr_or config "moe_intermediate_size" (CVal (PInt 0)));
  match positive_of n_routed_experts, positive_of gate_up, positive_of hidden_size,
        positive_of (getattr_or config "moe_intermediate_size" cnone) with
  | Some e, Some g, Some h, Some i => mret [("gate_up_proj", [e; g; h]); ("down_proj", [e; h; i])]
  | _, _, _, _ => Err (Raise KTArtifactError "model config has invalid routed-expert dimensions")
  end.

(** One path: its module, and its parameters in the order of [expected_shapes],
    after those of earlier paths. *)
Definition int8_subtree (o : objects) (expected_shapes : list (string * list Z)) (acc : list Z * list Z) (path : string)
    : res (list Z * list Z) :=
  experts ← missing_as "missing routed-expert subtree" (get_submodule (ob_modules o) model path);
  let actual := foldl (fun d '(name, i) => dict_set name i d) [] (named_parameters true (ob_modules o) experts) in
  _ ← artifact_raise_if (negb (bool_decide (list_to_set actual.*1 =@{gset string} list_to_set expected_shapes.*1)))
        "parameter contract mismatch";
  parameters ← for_each expected_shapes acc.2 (fun parameters '(name, shape) =>
    i ← of_option (dict_get name actual) KeyError "no such parameter";
    t ← tensor_at o i;
    _ ← artifact_raise_if (negb (bool_decide (to_shape t = shape))) "shape mismatch";
    mret (parameters ++ [i]));
  mret (acc.1 ++ [experts], parameters).

(** [has_plan] tells whether a load plan was given. *)
Definition mark_kt_int8_routed_expert_base_parameters (has_plan : bool) : M heap (list string) :=
  match getattr_or config "model_type" cnone with
  | CVal (PStr "deepseek_v3") =>
      if negb has_plan then mret []
      else
        paths ← lift (deepseek_routed_paths config);
        expected_shapes ← lift int8_expected_shapes;
        h ← get;
        found ← lift (for_each paths ([], []) (int8_subtree (hp_objects h) expected_shapes));
        runtime ← lift (enumerate_runtime_routed_modules (hp_objects h));
        _ ← lift (artifact_raise_if (negb (bool_decide (runtime.*1 = paths)))
              "validated INT8 routed-expert paths differ from the runtime ownership contract");
        claimed ← claim_kt_routed_expert_subtrees;
        _ ← lift (artifact_raise_if (negb (bool_decide (claimed = paths)))
              "INT8 routed-expert ownership claim returned inconsistent paths");
        _ ← for_M found.1 (fun module => setattr module MODULE_MARKER true_attr);
        _ ← for_M found.2 (fun parameter => setattr parameter PARAMETER_MARKER true_attr);
        _ ← setattr model MODULE_PATHS (ATuple (IText <$> paths));
        mret paths
  | _ => mret []
  end.

Definition is_kt_int8_routed_expert_base_parameter (h : heap) (parameter : Z) : bool := marked h parameter PARAMETER_MARKER.

(** [tuple(paths)] of the attribute, if all its elements are texts *)
Definition texts_of (a : attr) : res (option (list string)) :=
  match a with
  | ATuple l => mret (mapM (fun i => match i with IText s => Some s | _ => None end) l)
  | AVal (PList l) => mret (mapM (fun v => match v with PStr s => Some s | _ => None end) l)
  | AVal (PStr _) | AVal (PDict _) => mret None
  | AVal _ => Err (Raise TypeError "object is not iterable")
  end.

Definition validated_routed_modules (h : heap) : res (list (string * Z)) :=
  if negb (attr_truthy h model MODULE_PATHS) then mret []
  else
    paths ← texts_of (private h model MODULE_PATHS);
    expected ← deepseek_routed_paths config;
    _ ← artifact_raise_if (negb (bool_decide (paths = Some expected))) "routed-expert ownership metadata changed";
    mapM (fun path =>
      module ← missing_as "routed-expert subtree is no longer registered" (get_submodule (ob_modules (hp_objects h)) model path);
      _ ← artifact_raise_if (negb (marked h module MODULE_MARKER)) "routed-expert subtree lost its ownership marker";
      mret (path, module)) expected.

Definition project_kt_int8_routed_experts_out_of_device_map {A} (body : M heap A) : M heap A :=
  h ← get; _ ← lift (validated_routed_modules h); project_kt_routed_experts_out_of_device_map body.

Definition prepare_kt_int8_non_expert_device_map (h : heap) (device_map : placement) : res placement :=
  _ ← validated_routed_modules h; prepare_kt_non_expert_device_map h device_map.

Definition hide_kt_int8_routed_experts_from_dispatch {A} (body : M heap A) : M heap A :=
  h ← get; _ ← lift (validated_routed_modules h); hide_kt_routed_experts_from_dispatch body.
End ownership.
