(* ===== verification/OwnershipSpec.v ===== *)
(** * Ownership of routed experts: properties

    The context managers put back what they replaced, whatever happens in
    between; what a block sees while experts are projected; a claim is made as a
    whole or not at all, and holds afterwards; a device map without experts. *)
From S2P Require Import Prelude PyStr PyVal Backend WeightSource Arch Modules Ownership.
From Stdlib Require Import Ascii.

Local Open Scope string_scope.
Local Open Scope list_scope.
Local Open Scope Z_scope.

(** Registries are dictionaries: no key occurs twice. *)
Definition dicts (ms : module_map) : Prop := ∀ i m r, ms !! i = Some m → NoDup (entries r m).*1.

Abbreviation mods h := (ob_modules (hp_objects h)).
Abbreviation tensors h := (ob_tensors (hp_objects h)).

Lemma dicts_set_entry r i name v ms : dicts ms → dicts (set_entry r i name v ms).
Proof.
  intros Hd j m r' Hm. unfold set_entry in Hm. destruct (decide (j = i)) as [->|Hj].
  - rewrite lookup_alter_eq in Hm. destruct (ms !! i) as [m0|] eqn:E; [|done]. simplify_eq/=.
    pose proof (Hd i m0 r' E). pose proof (NoDup_dict_set name v _ (Hd i m0 r E)).
    destruct r, r'; simpl in *; done.
  - rewrite lookup_alter_ne in Hm by done. by eapply Hd.
Qed.

Lemma dicts_fresh i m ms : (∀ r, NoDup (entries r m).*1) → dicts ms → dicts (<[i := m]> ms).
Proof. intros Hm Hd j m' r [[_ <-]|[_ Hj]]%lookup_insert_Some; [done|by eapply Hd]. Qed.

Lemma get_entry_elem r i name v ms m : dicts ms → ms !! i = Some m → (name, v) ∈ entries r m →
  get_entry r i name ms = Some v.
Proof. intros Hd Hm He. unfold get_entry. rewrite Hm. simpl. apply dict_get_NoDup; [by eapply Hd|done]. Qed.

Lemma get_entry_elem_of r i name v ms : get_entry r i name ms = Some v →
  ∃ m, ms !! i = Some m ∧ (name, v) ∈ entries r m.
Proof.
  unfold get_entry. destruct (ms !! i) as [m|] eqn:E; [|done]. simpl. intros Hg%dict_get_In. by exists m.
Qed.

(** ** Changes are logged *)

(** [for name, v in tuple(registry.items())]: what a snapshot lists is still
    there for the entries not yet reached. *)
Definition snapshot (r : registry) (i : Z) (l : list (string * option Z)) (ms : module_map) : Prop :=
  NoDup l.*1 ∧ ∀ e, e ∈ l → get_entry r i e.1 ms = Some e.2.

Lemma snapshot_entries r i (h : heap) : dicts (mods h) → snapshot r i (entries_at r i h) (mods h).
Proof.
  intros Hd. unfold snapshot, entries_at. destruct (mods h !! i) as [m|] eqn:E.
  - split; [by eapply Hd|]. intros [n v] He. by apply (get_entry_elem r i n v _ m).
  - split; [constructor|]. by intros e ?%elem_of_nil.
Qed.

Lemma snapshot_tail r i e l v ms : snapshot r i (e :: l) ms → snapshot r i l (set_entry r i e.1 v ms).
Proof.
  intros [Hnd Hl]. rewrite fmap_cons in Hnd. apply NoDup_cons in Hnd as [Hn Hnd]. split; [done|].
  intros e' He'. rewrite get_set_entry_ne; [by apply Hl; right|].
  intros [= Heq]. apply Hn. rewrite Heq. by apply list_elem_of_fmap_2.
Qed.

Lemma snapshot_skip r i e l ms : snapshot r i (e :: l) ms → snapshot r i l ms.
Proof.
  intros [Hnd Hl]. rewrite fmap_cons in Hnd. apply NoDup_cons in Hnd as [_ Hnd]. split; [done|].
  intros e' He'. apply Hl. by right.
Qed.

(** One entry is skipped, refused, or replaced by a new tensor. *)
Inductive entry_step (r : registry) (i : Z) (e : string * option Z) (s : heap * list replacement) :
    heap * list replacement -> res unit -> Prop :=
  | step_none : e.2 = None -> entry_step r i e s s (Ok tt)
  | step_missing t x : e.2 = Some t -> tensors s.1 !! t = None -> entry_step r i e s s (Err x)
  | step_refused t T msg : e.2 = Some t -> tensors s.1 !! t = Some T -> to_device T ≠ "meta" ->
      entry_step r i e s s (Err (Raise KTArtifactError msg))
  | step_replaced t T t' : e.2 = Some t -> tensors s.1 !! t = Some T -> to_device T = "meta" -> tensors s.1 !! t' = None ->
      entry_step r i e s
        (Heap (Objects (set_entry r i e.1 (Some t') (mods s.1)) (<[t' := projected r T]> (tensors s.1))) (hp_attrs s.1),
         Replacement r i e.1 e.2 :: s.2) (Ok tt).

Lemma project_entry_step r i e s s' x : project_entry r i e s = (s', x) → entry_step r i e s s' x.
Proof.
  destruct e as [n [t|]]; unfold project_entry; simpl; [|intros [= <- <-]; by apply step_none].
  unfold tensor_at. destruct (tensors s.1 !! t) as [T|] eqn:ET; simpl; [|intros [= <- <-]; by eapply step_missing].
  destruct (String.eqb_spec (to_device T) "meta") as [Hm|Hm]; simpl; intros [= <- <-].
  - eapply (step_replaced r i (n, Some t)); [done|done|done|apply (fresh_id_new (hp_objects s.1))].
  - by eapply step_refused.
Qed.

(** What has been logged, undone, gives the modules of [before]; new ones may be
    left. *)
Definition logged (before : module_map) (s : heap * list replacement) : Prop :=
  before ⊆ undo s.2 (mods s.1) ∧ dicts (mods s.1).

Lemma set_entry_mono r i name v ms ms' : ms ⊆ ms' → set_entry r i name v ms ⊆ set_entry r i name v ms'.
Proof. intros Hs. unfold set_entry. by apply alter_mono. Qed.

Lemma undo_mono log ms ms' : ms ⊆ ms' → undo log ms ⊆ undo log ms'.
Proof.
  revert ms ms'. induction log as [|x log IH]; intros ms ms' Hs; [done|].
  apply (IH (set_entry _ _ _ _ ms) (set_entry _ _ _ _ ms')). by apply set_entry_mono.
Qed.

Section undo.
Context `{Torch} (before : module_map).

Lemma project_entry_logged r i e s s' x : get_entry r i e.1 (mods s.1) = Some e.2 →
  logged before s → project_entry r i e s = (s', x) → logged before s'.
Proof.
  intros Hg [Hu Hd] Hp%project_entry_step. inversion Hp; subst; try done. split.
  - cbn [fst snd hp_objects ob_modules]. by rewrite undo_set_entry.
  - by apply dicts_set_entry.
Qed.

Lemma project_entries_logged r i l s s' x : snapshot r i l (mods s.1) → logged before s →
  for_M l (project_entry r i) s = (s', x) → logged before s'.
Proof.
  revert s. induction l as [|e l IH]; intros s Hl Hs Hf; [by injection Hf as <- _|].
  unfold for_M in Hf. simpl in Hf. apply bindM_inv in Hf as [(s1 & [] & Hp & Hf)|(x' & Hp & ->)].
  - apply (IH s1); [|by eapply project_entry_logged; [apply Hl; left| |]|done].
    apply project_entry_step in Hp. inversion Hp; subst; simpl; [by eapply snapshot_skip|by eapply snapshot_tail].
  - eapply project_entry_logged; [apply Hl; left|done|done].
Qed.

Lemma project_registry_logged r i : keeps (logged before) (project_registry r i).
Proof.
  intros s s' x Hs Hx. unfold project_registry in Hx.
  apply bindM_inv in Hx as [(s1 & a & Hg & Hx)|(e & Hg & _)]; [injection Hg as <- <-|done].
  eapply project_entries_logged; [|done|done]. apply snapshot_entries, Hs.
Qed.

Lemma project_subtree_logged entry : keeps (logged before) (project_subtree entry).
Proof.
  unfold project_subtree. apply keeps_bind; [apply keeps_get|]. intros s. apply keeps_for_M. intros i _.
  unfold project_module. apply keeps_bind; [|intros []]; apply project_registry_logged.
Qed.

Lemma hide_subtree_logged model entry : keeps (logged before) (hide_subtree model entry).
Proof.
  intros s s' x [Hu Hd]. unfold hide_subtree. destruct (rsplit_dot entry.1) as [[pp cn]|]; [|by intros [= <- _]].
  destruct (get_submodule _ _ _) as [parent|]; [|by intros [= <- _]].
  case_bool_decide as Hg; simpl; [|by intros [= <- _]]. intros [= <- _]. split; simpl.
  - change (before ⊆ undo (Replacement Children parent cn (Some entry.2) :: s.2)
      (set_entry Children parent cn (Some (fresh_id (hp_objects s.1))) (<[fresh_id (hp_objects s.1) := empty_module]> (mods s.1)))).
    pose proof (proj1 (fresh_id_new (hp_objects s.1))) as Hf.
    rewrite undo_set_entry.
    + etrans; [exact Hu|]. apply undo_mono. by apply insert_subseteq.
    + unfold get_entry in *. rewrite lookup_insert_ne; [done|]. intros <-. by rewrite Hf in Hg.
  - apply dicts_set_entry, dicts_fresh; [|done]. intros r. destruct r; constructor.
Qed.
End undo.

(** A block that leaves the registries alone, whether it returns or raises. *)
Definition leaves_registries {A} (body : M heap A) : Prop := ∀ h h' x, body h = (h', x) → mods h' = mods h.

Lemma with_replacements_restores {A} change (body : M heap A) h h' x :
  (∀ before, keeps (logged before) change) → leaves_registries body → dicts (mods h) →
  with_replacements change body h = (h', x) → mods h ⊆ mods h'.
Proof.
  intros Hk Hb Hd. unfold with_replacements. destruct (change (h, [])) as [[h1 log] r] eqn:Ec.
  assert (mods h ⊆ undo log (mods h1)) as Hl.
  { by eapply (Hk (mods h) (h, []) (h1, log) r); [split|]. }
  destruct r as [[]|e].
  - destruct (body h1) as [h2 o] eqn:Eb. intros [= <- _]. simpl. by rewrite (Hb _ _ _ Eb).
  - by intros [= <- _].
Qed.

(** ** What a block sees while experts are projected *)

(** An entry of a registry after projecting: still absent, still empty, or an
    empty tensor in place of one with the same type. *)
Definition shrunk (o o' : objects) (r : registry) (i : Z) (n : string) : Prop :=
  match get_entry r i n (ob_modules o) with
  | Some (Some t) => ∃ t' T, get_entry r i n (ob_modules o') = Some (Some t') ∧ ob_tensors o !! t = Some T
                             ∧ ob_tensors o' !! t' = Some (projected r T)
  | v => get_entry r i n (ob_modules o') = v
  end.

(** The tensors that registries refer to exist. *)
Definition populated (o : objects) : Prop := ∀ r i n t, r ≠ Children →
  get_entry r i n (ob_modules o) = Some (Some t) → is_Some (ob_tensors o !! t).

Definition same_children (ms ms' : module_map) : Prop := ∀ j, md_modules <$> ms !! j = md_modules <$> ms' !! j.

(** From [o] to [o'], entries of the modules in [owned] have shrunk, and nothing
    else has changed. *)
Record projects (owned : list Z) (o o' : objects) : Prop := {
  pj_tensors : ob_tensors o ⊆ ob_tensors o';
  pj_children : same_children (ob_modules o) (ob_modules o');
  pj_dicts : dicts (ob_modules o) → dicts (ob_modules o');
  pj_entries r i n : get_entry r i n (ob_modules o') = get_entry r i n (ob_modules o)
                     ∨ i ∈ owned ∧ r ≠ Children ∧ shrunk o o' r i n;
}.

Lemma projected_twice r T : r ≠ Children → projected r (projected r T) = projected r T.
Proof. by destruct r. Qed.

Section projects.
Context (owned : list Z).

Lemma projects_refl o : projects owned o o.
Proof. split; [done|done|done|by left]. Qed.

Lemma projects_populated o o' : projects owned o o' → populated o → populated o'.
Proof.
  intros Hp Hc r i n t' Hr Ht'. destruct (pj_entries _ _ _ Hp r i n) as [Heq|(Hi & _ & Hs)].
  - rewrite Heq in Ht'. destruct (Hc r i n t' Hr Ht') as [T HT]. exists T. by eapply lookup_weaken, pj_tensors.
  - unfold shrunk in Hs. destruct (get_entry r i n (ob_modules o)) as [[t|]|] eqn:E; [|congruence|congruence].
    destruct Hs as (t'' & T & H1 & _ & H3). rewrite H1 in Ht'. injection Ht' as <-. by exists (projected r T).
Qed.

Lemma shrunk_after o o1 o2 r i n : populated o → r ≠ Children → projects owned o o1 → shrunk o1 o2 r i n → shrunk o o2 r i n.
Proof.
  intros Hc Hr Hp Hs. unfold shrunk in *. destruct (pj_entries _ _ _ Hp r i n) as [Heq|(_ & _ & H1)].
  - rewrite Heq in Hs. destruct (get_entry r i n (ob_modules o)) as [[t|]|] eqn:E; [|done|done].
    destruct Hs as (t' & T & Ht' & HT & HT'). destruct (Hc r i n t Hr E) as [T0 HT0].
    pose proof (lookup_weaken _ _ _ _ HT0 (pj_tensors _ _ _ Hp)). exists t', T. split_and!; [done|congruence|done].
  - unfold shrunk in H1. destruct (get_entry r i n (ob_modules o)) as [[t|]|]; [|by rewrite H1 in Hs|by rewrite H1 in Hs].
    destruct H1 as (t1 & T & Ht1 & HT & HT1). rewrite Ht1 in Hs. destruct Hs as (t2 & T1 & Ht2 & HT1' & HT2).
    rewrite HT1 in HT1'. injection HT1' as <-. rewrite projected_twice in HT2 by done. by exists t2, T.
Qed.

Lemma shrunk_before o o1 o2 r i n : populated o1 → r ≠ Children → shrunk o o1 r i n → projects owned o1 o2 → shrunk o o2 r i n.
Proof.
  intros Hc Hr Hs Hp. destruct (pj_entries _ _ _ Hp r i n) as [Heq|(_ & _ & H2)]; unfold shrunk in *.
  - rewrite Heq. destruct (get_entry r i n (ob_modules o)) as [[t|]|]; [|done|done].
    destruct Hs as (t' & T & ? & ? & HT). exists t', T. split_and!; [done|done|]. by eapply lookup_weaken, pj_tensors.
  - destruct (get_entry r i n (ob_modules o)) as [[t|]|]; [|by rewrite Hs in H2|by rewrite Hs in H2].
    destruct Hs as (t1 & T & Ht1 & HT & HT1). rewrite Ht1 in H2. destruct H2 as (t2 & T1 & Ht2 & HT1' & HT2).
    rewrite HT1 in HT1'. injection HT1' as <-. rewrite projected_twice in HT2 by done. by exists t2, T.
Qed.

Lemma projects_trans o o1 o2 : populated o → projects owned o o1 → projects owned o1 o2 → projects owned o o2.
Proof.
  intros Hc H1 H2. split.
  - etrans; [apply (pj_tensors _ _ _ H1)|apply (pj_tensors _ _ _ H2)].
  - intros j. by rewrite (pj_children _ _ _ H1), (pj_children _ _ _ H2).
  - intros Hd. by apply (pj_dicts _ _ _ H2), (pj_dicts _ _ _ H1).
  - intros r i n. destruct (pj_entries _ _ _ H2 r i n) as [Heq|(Hi & Hr & Hs)].
    + rewrite Heq. destruct (pj_entries _ _ _ H1 r i n) as [|(Hi & Hr & Hs)]; [by left|right].
      split_and!; [done|done|]. apply (shrunk_before o o1 o2); [|done..]. by eapply projects_populated.
    + right. split_and!; [done|done|]. by apply (shrunk_after o o1 o2).
Qed.
End projects.

(** *** Statements that project *)

Abbreviation pstate := (heap * list replacement)%type.
Abbreviation objs s := (hp_objects (fst s)).

Lemma for_M_cons {S A} (x : A) l (body : A → M S unit) s : for_M (x :: l) body s = (_ ← body x; for_M l body) s.
Proof. unfold for_M, mbind, M_bind. simpl. unfold mbind, M_bind. by destruct (body x s) as [s1 [[]|e]]. Qed.

Section statements.
Context `{Torch} (owned : list Z) (o0 : objects).

(** A tensor that is not on the meta device stops the projection. *)
Definition not_meta (o : objects) (e : pyexn) : Prop :=
  e = Raise KTArtifactError "must be meta before device-map inference" ∧
  ∃ r i n t T, r ≠ Children ∧ i ∈ owned ∧ get_entry r i n (ob_modules o) = Some (Some t) ∧
    ob_tensors o !! t = Some T ∧ to_device T ≠ "meta".

Lemma not_meta_before o o1 e : populated o → projects owned o o1 → not_meta o1 e → not_meta o e.
Proof.
  intros Hc Hp [-> (r & i & n & t & T & Hr & Hi & Hg & HT & Hm)]. split; [done|].
  destruct (pj_entries _ _ _ Hp r i n) as [Heq|(_ & _ & Hs)].
  - rewrite Heq in Hg. destruct (Hc r i n t Hr Hg) as [T0 HT0]. exists r, i, n, t, T.
    pose proof (lookup_weaken _ _ _ _ HT0 (pj_tensors _ _ _ Hp)). split_and!; [done|done|done|congruence|done].
  - unfold shrunk in Hs. destruct (get_entry r i n (ob_modules o)) as [[t0|]|] eqn:E; [|congruence|congruence].
    destruct Hs as (t' & T0 & Ht' & HT0 & HT'). rewrite Ht' in Hg. injection Hg as ->. rewrite HT in HT'. injection HT' as ->.
    by destruct r.
Qed.

(** A statement that returns has projected what [K] selects, and at most
    modules in [owned]; one that raises met a tensor that is not on the meta
    device. *)
Definition projecting (K : registry -> Z -> Prop) (m : M pstate unit) : Prop := ∀ s s' x,
  populated (objs s) → dicts (ob_modules (objs s)) → same_children (ob_modules o0) (ob_modules (objs s)) →
  m s = (s', x) →
  match x with
  | Ok _ => projects owned (objs s) (objs s') ∧ ∀ r i n, r ≠ Children → K r i → shrunk (objs s) (objs s') r i n
  | Err e => not_meta (objs s) e
  end.

Lemma projecting_bind K1 K2 m1 m2 : projecting K1 m1 → projecting K2 m2 →
  projecting (λ r i, K1 r i ∨ K2 r i) (_ ← m1; m2).
Proof.
  intros H1 H2 s s' x Hc Hd Hs [(s1 & [] & E1 & E2)|(e & E1 & ->)]%bindM_inv; [|by apply (H1 s s' (Err e))].
  destruct (H1 s s1 (Ok tt)) as [P1 K1s]; [done..|].
  assert (populated (objs s1)) as Hc1 by by eapply projects_populated.
  specialize (H2 s1 s' x Hc1 (pj_dicts _ _ _ P1 Hd)). destruct x as [[]|e].
  - destruct H2 as [P2 K2s]; [|done|].
    { intros j. by rewrite (Hs j), (pj_children _ _ _ P1 j). }
    split; [by eapply projects_trans|]. intros r i n Hr [HK|HK].
    + apply (shrunk_before owned _ (objs s1)); auto.
    + apply (shrunk_after owned _ (objs s1)); auto.
  - apply (not_meta_before _ (objs s1)); [done|done|]. apply H2; [|done].
    intros j. by rewrite (Hs j), (pj_children _ _ _ P1 j).
Qed.

Lemma projecting_weaken (K K' : registry → Z → Prop) m : (∀ r i, r ≠ Children → K' r i → K r i) → projecting K m → projecting K' m.
Proof.
  intros HK Hm s s' x Hc Hd Hs Hx. specialize (Hm s s' x Hc Hd Hs Hx). destruct x; [|done].
  destruct Hm as [HP HS]. split; [done|]. auto.
Qed.

Lemma projecting_for {A} (K : A → registry → Z → Prop) l body : (∀ x, x ∈ l → projecting (K x) (body x)) →
  projecting (λ r i, ∃ x, x ∈ l ∧ K x r i) (for_M l body).
Proof.
  induction l as [|y l IH]; intros Hb.
  - intros s s' x _ _ _ [= <- <-]. split; [apply projects_refl|]. by intros r i n _ (x & ?%elem_of_nil & _).
  - apply (projecting_weaken (λ r i, K y r i ∨ ∃ x, x ∈ l ∧ K x r i)).
    { intros r i _ (x & [->|Hx]%elem_of_cons & HK); [by left|right; eauto]. }
    intros s s' x Hc Hd Hs. rewrite for_M_cons. apply (projecting_bind (K y) (λ r i, ∃ x, x ∈ l ∧ K x r i)); [apply Hb; left| |done..]. apply IH. intros z Hz. apply Hb. by right.
Qed.

(** One entry of a module in [owned], as a snapshot lists it. *)
Lemma project_entry_projects r i e : r ≠ Children → i ∈ owned → ∀ s s' x, get_entry r i e.1 (mods s.1) = Some e.2 →
  populated (objs s) → project_entry r i e s = (s', x) →
  match x with
  | Ok _ => projects owned (objs s) (objs s') ∧ shrunk (objs s) (objs s') r i e.1
  | Err err => not_meta (objs s) err
  end.
Proof.
  intros Hr Hi s s' x Hg Hc Hx. pose proof (project_entry_step _ _ _ _ _ _ Hx) as Hp. destruct e as [n v]. simpl in *.
  inversion Hp as [|t y Hv HT|t T msg Hv HT Hm|t T t' Hv HT Hm Hn]; subst; simpl in *; subst.
  - split; [apply projects_refl|]. unfold shrunk. by rewrite Hg.
  - destruct (Hc r i n t Hr Hg) as [T HT']. congruence.
  - split; [|by exists r, i, n, t, T]. unfold project_entry in Hx. simpl in Hx. unfold tensor_at in Hx. rewrite HT in Hx.
    simpl in Hx. destruct (String.eqb_spec (to_device T) "meta"); simpl in Hx; [done|]. by injection Hx as <-.
  - assert (shrunk (objs s) (Objects (set_entry r i n (Some t') (mods s.1)) (<[t':=projected r T]> (tensors s.1))) r i n) as Hsh.
    { unfold shrunk. rewrite Hg. exists t', T. simpl. rewrite lookup_insert_eq. split_and!; [|done|done].
      apply get_set_entry_eq. apply get_entry_elem_of in Hg as (m & Hm' & _). by exists m. }
    split; [|done]. split; simpl.
    + by apply insert_subseteq.
    + intros j. unfold set_entry. destruct (decide (j = i)) as [->|]; [|by rewrite lookup_alter_ne].
      rewrite lookup_alter_eq. destruct (mods s.1 !! i); [|done]. by destruct r.
    + apply dicts_set_entry.
    + intros r' i' n'. destruct (decide ((r, i, n) = (r', i', n'))) as [[= <- <- <-]|Hne]; [by right|left].
      by apply get_set_entry_ne.
Qed.

Lemma project_entries_projects r i l : r ≠ Children → i ∈ owned → ∀ s s' x, populated (objs s) →
  snapshot r i l (mods s.1) → for_M l (project_entry r i) s = (s', x) →
  match x with
  | Ok _ => projects owned (objs s) (objs s') ∧ ∀ e, e ∈ l → shrunk (objs s) (objs s') r i e.1
  | Err err => not_meta (objs s) err
  end.
Proof.
  intros Hr Hi. induction l as [|e l IH]; intros s s' x Hc Hl Hf.
  - injection Hf as <- <-. split; [apply projects_refl|]. by intros e ?%elem_of_nil.
  - assert (get_entry r i e.1 (mods s.1) = Some e.2) as Hg by (apply Hl; left).
    unfold for_M in Hf. simpl in Hf. apply bindM_inv in Hf as [(s1 & [] & Hp & Hf)|(err & Hp & ->)];
      [|by apply (project_entry_projects r i e Hr Hi s s' (Err err))].
    destruct (project_entry_projects r i e Hr Hi s s1 (Ok tt) Hg Hc Hp) as [P1 S1].
    assert (populated (objs s1)) as Hc1 by by eapply projects_populated.
    assert (snapshot r i l (mods s1.1)) as Hl1.
    { apply project_entry_step in Hp. inversion Hp; subst; simpl; [by eapply snapshot_skip|by eapply snapshot_tail]. }
    specialize (IH s1 s' x Hc1 Hl1 Hf). destruct x as [[]|err]; [|by apply (not_meta_before _ (objs s1))].
    destruct IH as [P2 S2]. split; [by eapply projects_trans|]. intros e' [->|He']%elem_of_cons.
    + apply (shrunk_before owned _ (objs s1)); done.
    + apply (shrunk_after owned _ (objs s1)); auto.
Qed.

Lemma project_registry_projects r i : r ≠ Children → i ∈ owned → projecting (λ r' i', r' = r ∧ i' = i) (project_registry r i).
Proof.
  intros Hr Hi s s' x Hc Hd _ [(s1 & a & [= <- <-] & Hf)|(e & [=] & _)]%bindM_inv.
  pose proof (project_entries_projects r i (entries_at r i s.1) Hr Hi s s' x Hc (snapshot_entries r i s.1 Hd) Hf) as Hp.
  destruct x as [[]|e]; [|done]. destruct Hp as [P S]. split; [done|]. intros r' i' n _ [-> ->].
  destruct (get_entry r i n (mods s.1)) as [v|] eqn:E.
  - apply get_entry_elem_of in E as (m & Hm & He). apply (S (n, v)). unfold entries_at. by rewrite Hm.
  - destruct (pj_entries _ _ _ P r i n) as [Heq|(_ & _ & Hs)]; [|done]. unfold shrunk. by rewrite E, Heq.
Qed.

Lemma project_module_projects i : i ∈ owned → projecting (λ _ i', i' = i) (project_module i).
Proof.
  intros Hi. eapply projecting_weaken; [|apply projecting_bind; apply project_registry_projects; done].
  intros [] i' Hr ->; [by left|by right|done].
Qed.
End statements.

(** What torch documents of [modules()]: it walks the children. *)
Class TorchLaws `{Torch} := {
  submodules_by_children ms ms' i : same_children ms ms' → submodules ms i = submodules ms' i;
}.

Section laws.
Context `{TorchLaws} (o0 : objects).

(** The modules of the claimed subtrees. *)
Definition owned_modules (ms : module_map) (claimed : list (string * Z)) : list Z := claimed.*2 ≫= submodules ms.

Lemma project_subtrees_project (claimed : list (string * Z)) :
  projecting (owned_modules (ob_modules o0) claimed) o0 (λ _ i, i ∈ owned_modules (ob_modules o0) claimed)
    (for_M claimed project_subtree).
Proof.
  set (owned := owned_modules _ claimed).
  eapply projecting_weaken; [|apply (projecting_for owned o0 (λ e _ i, ∃ j, j ∈ submodules (ob_modules o0) e.2 ∧ i = j))].
  - intros r i _ Hi. unfold owned_modules in Hi.
    apply list_elem_of_bind in Hi as (m & Hm & (e & -> & He)%list_elem_of_fmap_1). exists e. eauto.
  - intros e He s s' x Hc Hd Hs [(s1 & a & [= <- <-] & Hf)|(err & [=] & _)]%bindM_inv.
    rewrite <-(submodules_by_children _ _ e.2 Hs) in Hf.
    eapply (projecting_for owned o0 (λ j _ i, i = j)); [|done..]. intros j Hj. apply project_module_projects.
    unfold owned, owned_modules. apply list_elem_of_bind. exists e.2. split; [done|]. by apply list_elem_of_fmap_2.
Qed.
End laws.

(** ** The context managers *)

Lemma run_lift {S A B} (r : res A) (f : A → M S B) s a : r = Ok a → (lift r ≫= f) s = f a s.
Proof. by intros ->. Qed.

Lemma projection_keeps_attrs `{Torch} a (l : list (string * Z)) : keeps (λ s : pstate, hp_attrs s.1 = a) (for_M l project_subtree).
Proof.
  apply keeps_for_M. intros e _. apply keeps_bind; [apply keeps_get|intros s0]. apply keeps_for_M. intros i _.
  apply keeps_bind; [|intros []]; (apply keeps_bind; [apply keeps_get|intros s1]; apply keeps_for_M; intros ent _).
  all: intros s s' x Hs Hp%project_entry_step; by inversion Hp; subst.
Qed.

(** An entry of a parent that a claimed subtree was unregistered from: an empty
    module that the heap did not have. *)
Definition hidden (o o' : objects) (i : Z) (n : string) (experts : Z) : Prop :=
  get_entry Children i n (ob_modules o) = Some (Some experts) ∧
  ∃ j, get_entry Children i n (ob_modules o') = Some (Some j) ∧ ob_modules o !! j = None ∧ ob_modules o' !! j = Some empty_module.

(** From [o] to [o'], subtrees of [claimed] are hidden, and nothing else has
    changed. *)
Record hides (claimed : list (string * Z)) (o o' : objects) : Prop := {
  hd_tensors : ob_tensors o' = ob_tensors o;
  hd_dom : dom (ob_modules o) ⊆ dom (ob_modules o');
  hd_entries r i n : get_entry r i n (ob_modules o') = get_entry r i n (ob_modules o)
                     ∨ r = Children ∧ ∃ e, e ∈ claimed ∧ hidden o o' i n e.2;
  hd_all e : e ∈ claimed → ∃ i n, hidden o o' i n e.2;
}.

Lemma get_entry_fresh r i n j m ms : ms !! j = None → entries r m = [] → get_entry r i n (<[j := m]> ms) = get_entry r i n ms.
Proof.
  intros Hj Hm. unfold get_entry. destruct (decide (i = j)) as [->|]; [|by rewrite lookup_insert_ne].
  rewrite lookup_insert_eq, Hj. simpl. by rewrite Hm.
Qed.

Lemma lookup_set_entry_children i n v j (ms : module_map) : i ≠ j → set_entry Children i n v ms !! j = ms !! j.
Proof. intros. unfold set_entry. by rewrite lookup_alter_ne. Qed.

(** One more subtree is hidden. *)
Lemma hide_subtree_hides `{Torch} model o claimed e s s' : (∀ c, c ∈ e :: claimed → is_Some (ob_modules o !! c.2)) →
  hides claimed o (objs s) → hide_subtree model e s = (s', Ok tt) →
  hides (claimed ++ [e]) o (objs s') ∧ hp_attrs s'.1 = hp_attrs s.1.
Proof.
  intros Hex Hh. unfold hide_subtree. destruct (rsplit_dot e.1) as [[pp cn]|]; [|done].
  destruct (get_submodule _ _ _) as [parent|]; [|done].
  case_bool_decide as Hg; simpl; [|done]. intros [= <-]. split; [|done].
  set (j := fresh_id (objs s)). pose proof (proj1 (fresh_id_new (objs s))) as Hj. fold j in Hj.
  assert (ob_modules o !! j = None) as Hjo.
  { apply not_elem_of_dom. intros Hd. apply (hd_dom _ _ _ Hh) in Hd. by apply not_elem_of_dom in Hj. }
  assert (parent ≠ j) as Hpj by (intros ->; unfold get_entry in Hg; by rewrite Hj in Hg).
  set (ms' := set_entry Children parent cn (Some j) (<[j := empty_module]> (mods s.1))).
  assert (∀ r i n, (r, i, n) ≠ (Children, parent, cn) → get_entry r i n ms' = get_entry r i n (mods s.1)) as Hother.
  { intros r i n Hne. unfold ms'. rewrite get_set_entry_ne by congruence. apply get_entry_fresh; [done|by destruct r]. }
  assert (∀ i, ob_modules o !! i = None → i ≠ j → i ≠ parent → ms' !! i = mods s.1 !! i) as Hlook.
  { intros i _ Hij Hip. unfold ms'. rewrite lookup_set_entry_children by done. by apply lookup_insert_ne. }
  assert (get_entry Children parent cn (ob_modules o) = Some (Some e.2)) as Hg0.
  { destruct (hd_entries _ _ _ Hh Children parent cn) as [Heq|(_ & c & Hc & _ & k & Hk & Hk0 & _)]; [congruence|].
    rewrite Hg in Hk. injection Hk as <-. destruct (Hex e ltac:(left)) as [m Hm]. congruence. }
  assert (hidden o (Objects ms' (ob_tensors (objs s))) parent cn e.2) as Hnew.
  { split; [done|]. exists j. simpl. split_and!; [|done|].
    - apply get_set_entry_eq. rewrite lookup_insert_ne by done. unfold get_entry in Hg. destruct (mods s.1 !! parent); [by eexists|done].
    - unfold ms'. rewrite lookup_set_entry_children by done. apply lookup_insert_eq. }
  assert (∀ i n c, hidden o (objs s) i n c → hidden o (Objects ms' (ob_tensors (objs s))) i n c) as Hkeep.
  { intros i n c (H0 & k & Hk & Hk0 & Hkm). split; [done|].
    assert ((Children, i, n) ≠ (Children, parent, cn)) as Hne.
    { intros [= -> ->]. rewrite Hg in Hk. injection Hk as <-. destruct (Hex e ltac:(left)) as [m Hm]. congruence. }
    assert (k ≠ parent) as Hkp by (intros ->; unfold get_entry in Hg; rewrite Hkm in Hg; done).
    exists k. simpl. rewrite Hother by done. split_and!; [done|done|]. rewrite Hlook; [done|done| |done].
    intros ->. congruence. }
  split; simpl.
  - apply (hd_tensors _ _ _ Hh).
  - etrans; [apply (hd_dom _ _ _ Hh)|]. fold j ms'. unfold ms', set_entry. rewrite dom_alter_L, dom_insert_L. set_solver.
  - fold j ms'. intros r i n. destruct (decide ((r, i, n) = (Children, parent, cn))) as [[= -> -> ->]|Hne].
    + right. split; [done|]. exists e. split; [apply elem_of_app; right; by left|done].
    + rewrite Hother by done. destruct (hd_entries _ _ _ Hh r i n) as [|(Hr & c & Hc & Hhc)]; [by left|right].
      split; [done|]. exists c. split; [apply elem_of_app; by left|]. by apply Hkeep.
  - fold j ms'. intros c [Hc| ->%list_elem_of_singleton]%elem_of_app; [|by exists parent, cn].
    destruct (hd_all _ _ _ Hh c Hc) as (i & n & Hi). exists i, n. by apply Hkeep.
Qed.

Section managers.
Context `{TorchLaws, Platform} (cfg_repr : cfg → string) (model : Z) (config : cfg).

Abbreviation validated := (validated_runtime_routed_modules cfg_repr model config).

(** C20. While a device map is inferred, every parameter and buffer of the
    claimed subtrees is an empty meta tensor of the same type, and nothing else
    has changed; if one of them is not on the meta device the block does not
    run.  Afterwards every module of the heap has the registries it had: whether
    projecting stopped half-way, the block raised, or it returned, and also where
    subtrees share modules. *)
Theorem experts_are_projected_and_put_back {A} (body : M heap A) h h' x claimed :
  dicts (mods h) → populated (hp_objects h) → leaves_registries body →
  validated h = Ok claimed → claimed ≠ [] →
  project_kt_routed_experts_out_of_device_map cfg_repr model config body h = (h', x) →
  let owned := owned_modules (mods h) claimed in
  mods h ⊆ mods h' ∧
  ((∃ h1, projects owned (hp_objects h) (hp_objects h1) ∧ hp_attrs h1 = hp_attrs h ∧
          (∀ r i n, r ≠ Children → i ∈ owned → shrunk (hp_objects h) (hp_objects h1) r i n) ∧
          x = (body h1).2 ∧ tensors h' = tensors (body h1).1)
   ∨ ∃ e, x = Err e ∧ not_meta owned (hp_objects h) e).
Proof.
  intros Hd Hc Hb Hv Hne Hrun owned. unfold project_kt_routed_experts_out_of_device_map in Hrun.
  change ((lift (validated h) ≫= (λ modules, if bool_decide (modules = []) then body
    else with_replacements (for_M modules project_subtree) body)) h = (h', x)) in Hrun.
  rewrite Hv, bindM_lift, bool_decide_false in Hrun by done.
  split.
  { eapply (with_replacements_restores (for_M claimed project_subtree) body h h' x); [|done..].
    intros before. apply keeps_for_M. intros e _. apply project_subtree_logged. }
  unfold with_replacements in Hrun. destruct (for_M claimed project_subtree (h, [])) as [[h1 log] r] eqn:Ef.
  pose proof (project_subtrees_project (hp_objects h) claimed (h, []) (h1, log) r Hc Hd (λ _, eq_refl) Ef) as Hp.
  destruct r as [[]|e]; simpl in Hp.
  - destruct Hp as [P S]. left. exists h1. split_and!; [done| |done|..].
    + by apply (projection_keeps_attrs (hp_attrs h) claimed (h, []) (h1, log) (Ok tt)).
    + destruct (body h1) as [h2 o]. by injection Hrun as _ <-.
    + destruct (body h1) as [h2 o]. by injection Hrun as <- _.
  - right. exists e. injection Hrun as _ <-. done.
Qed.

(** While a model is dispatched, each claimed subtree is unregistered from
    its parent, with a new empty module in its place, and nothing else has
    changed.  Afterwards every module of the heap has the registries it had,
    whether hiding stopped half-way, the block raised, or it returned. *)
Theorem experts_are_hidden_and_put_back {A} (body : M heap A) h h' x claimed :
  dicts (mods h) → (∀ e, e ∈ claimed → is_Some (mods h !! e.2)) → leaves_registries body →
  validated h = Ok claimed → claimed ≠ [] →
  hide_kt_routed_experts_from_dispatch cfg_repr model config body h = (h', x) →
  mods h ⊆ mods h' ∧
  ((∃ h1, hides claimed (hp_objects h) (hp_objects h1) ∧ hp_attrs h1 = hp_attrs h ∧ x = (body h1).2)
   ∨ ∃ e s, x = Err e ∧ for_M claimed (hide_subtree model) (h, []) = (s, Err e)).
Proof.
  intros Hd Hex Hb Hv Hne Hrun. unfold hide_kt_routed_experts_from_dispatch in Hrun.
  change ((lift (validated h) ≫= (λ modules, if bool_decide (modules = []) then body
    else with_replacements (for_M modules (hide_subtree model)) body)) h = (h', x)) in Hrun.
  rewrite Hv, bindM_lift, bool_decide_false in Hrun by done.
  split.
  { eapply (with_replacements_restores (for_M claimed (hide_subtree model)) body h h' x); [|done..].
    intros before. apply keeps_for_M. intros e _. apply hide_subtree_logged. }
  unfold with_replacements in Hrun. destruct (for_M claimed (hide_subtree model) (h, [])) as [[h1 log] r] eqn:Ef.
  destruct r as [[]|e]; [left; exists h1|right; exists e, (h1, log); split; [by injection Hrun as _ <-|done]].
  assert (hides claimed (hp_objects h) (objs (h1, log)) ∧ hp_attrs (h1, log).1 = hp_attrs h) as [Hh Ha].
  { apply (for_M_ok (λ pre s, hides pre (hp_objects h) (objs s) ∧ hp_attrs s.1 = hp_attrs h) claimed (hide_subtree model) (h, []) _ tt);
      [|intros pre e post s1 s2 [] -> [Hh Ha] Hs|done].
    - split; [|done]. split; [done|done|by left|by intros e ?%elem_of_nil].
    - destruct (hide_subtree_hides model (hp_objects h) pre e s1 s2) as [Hh' Ha']; [|done|done|split; [done|congruence]].
      intros c Hc. apply Hex. apply elem_of_cons in Hc as [->|Hc]; apply elem_of_app; [right; by left|by left]. }
  split_and!; [done|done|]. destruct (body h1) as [h2 o]. by injection Hrun as _ <-.
Qed.
End managers.

(** ** Claims *)

Section claims.
Context `{Torch, Platform} (cfg_repr : cfg → string) (model : Z) (config : cfg).
Context (refuses : heap → Z → string → option pyexn).

Abbreviation enumerated := (enumerate_runtime_routed_modules cfg_repr model config).
Abbreviation validated := (validated_runtime_routed_modules cfg_repr model config).
Abbreviation claim := (claim_kt_routed_expert_subtrees cfg_repr model config refuses).

Definition METADATA : list string := [RUNTIME_MODULE_PATHS; RUNTIME_MODULE_REFS; RUNTIME_TENSOR_CONTRACTS].
Definition CLAIM_ATTRS : list string := RUNTIME_PARAMETER_MARKER :: RUNTIME_MODULE_MARKER :: METADATA.

(** No object has an attribute that a claim sets. *)
Definition unmarked (h : heap) : Prop := ∀ o n, n ∈ CLAIM_ATTRS → hp_attrs h !! (o, n) = None.

(** Exactly the modules of [ms] and the marked parameters carry a mark. *)
Definition marks (h : heap) (ms : list Z) (s : heap * list Z) : Prop :=
  hp_objects s.1 = hp_objects h ∧
  ∀ o n, hp_attrs s.1 !! (o, n) =
    if bool_decide (n = RUNTIME_PARAMETER_MARKER ∧ o ∈ s.2) then Some true_attr
    else if bool_decide (n = RUNTIME_MODULE_MARKER ∧ o ∈ ms) then Some true_attr
    else hp_attrs h !! (o, n).

(** Outside these places, and the metadata of the model, nothing was set. *)
Definition within (h : heap) (ms : list Z) (s : heap * list Z) : Prop :=
  hp_objects s.1 = hp_objects h ∧
  ∀ o n, hp_attrs s.1 !! (o, n) = hp_attrs h !! (o, n) ∨ (n = RUNTIME_PARAMETER_MARKER ∧ o ∈ s.2)
         ∨ (n = RUNTIME_MODULE_MARKER ∧ o ∈ ms) ∨ (o = model ∧ n ∈ METADATA).

Lemma marks_within h ms ms' s : ms ⊆ ms' → marks h ms s → within h ms' s.
Proof.
  intros Hms [Ho Ha]. split; [done|]. intros o n. rewrite Ha.
  repeat case_bool_decide; [naive_solver|naive_solver|by left].
Qed.

Lemma mark_module_marks h ms m s : marks h ms s → marks h (ms ++ [m]) (set_attr m RUNTIME_MODULE_MARKER true_attr s.1, s.2).
Proof.
  intros [Ho Ha]. split; [done|]. intros o n. simpl. destruct (decide ((m, RUNTIME_MODULE_MARKER) = (o, n))) as [[= <- <-]|Hne].
  - rewrite lookup_insert_eq. rewrite (bool_decide_false (_ = RUNTIME_PARAMETER_MARKER ∧ _)) by (by intros [? _]).
    rewrite bool_decide_true; [done|]. split; [done|]. apply elem_of_app. right. by left.
  - rewrite lookup_insert_ne, Ha by done. case_bool_decide; [done|].
    rewrite (bool_decide_ext (n = RUNTIME_MODULE_MARKER ∧ o ∈ ms ++ [m]) (n = RUNTIME_MODULE_MARKER ∧ o ∈ ms)); [done|].
    rewrite elem_of_app, list_elem_of_singleton. naive_solver.
Qed.

Lemma mark_parameter_marks h ms p s : marks h ms s → marks h ms (set_attr p RUNTIME_PARAMETER_MARKER true_attr s.1, s.2 ++ [p]).
Proof.
  intros [Ho Ha]. split; [done|]. intros o n. simpl. destruct (decide ((p, RUNTIME_PARAMETER_MARKER) = (o, n))) as [[= <- <-]|Hne].
  - rewrite lookup_insert_eq. rewrite bool_decide_true; [done|]. split; [done|]. apply elem_of_app. right. by left.
  - rewrite lookup_insert_ne, Ha by done.
    rewrite (bool_decide_ext (n = RUNTIME_PARAMETER_MARKER ∧ o ∈ s.2 ++ [p]) (n = RUNTIME_PARAMETER_MARKER ∧ o ∈ s.2)); [done|].
    rewrite elem_of_app, list_elem_of_singleton. naive_solver.
Qed.

(** [on_heap (setattr o n a)], and what follows. *)
Lemma run_setattr {L B} o n a (f : unit → M (heap * L) B) s :
  (on_heap (setattr refuses o n a) ≫= f) s =
    match refuses s.1 o n with Some e => (s, Err e) | None => f tt (set_attr o n a s.1, s.2) end.
Proof. destruct s as [h l]. unfold mbind, M_bind, on_heap, setattr. simpl. by destruct (refuses h o n). Qed.

Lemma mark_parameters_marks h ms ps s s' x : marks h ms s → for_M ps (mark_parameter refuses) s = (s', x) →
  match x with Ok _ => marks h ms s' ∧ s'.2 = s.2 ++ ps | Err _ => marks h ms s' end.
Proof.
  intros Hs. apply (for_M_inv (λ pre s', marks h ms s' ∧ s'.2 = s.2 ++ pre) (λ _ s', marks h ms s')).
  - by rewrite app_nil_r.
  - intros pre p post s1 s2 r _ [H1 H2]. unfold mark_parameter. rewrite run_setattr.
    destruct (refuses _ _ _); intros [= <- <-]; [done|]. split; [by apply mark_parameter_marks|]. simpl. by rewrite H2, app_assoc.
Qed.

(** The parameters of the subtrees, in the order in which they are marked. *)
Definition claimed_parameters (o : objects) (modules : list (string * Z)) : list Z := modules.*2 ≫= parameters_of o.

Lemma mark_subtrees_mark h modules s' x : for_M modules (mark_subtree refuses) (h, []) = (s', x) →
  match x with
  | Ok _ => marks h modules.*2 s' ∧ s'.2 = claimed_parameters (hp_objects h) modules
  | Err _ => within h modules.*2 s'
  end.
Proof.
  apply (for_M_inv (λ pre s, marks h pre.*2 s ∧ s.2 = claimed_parameters (hp_objects h) pre) (λ _ s, within h modules.*2 s)).
  - split; [|done]. split; [done|]. intros o n. simpl. rewrite !bool_decide_false; [done|by intros [_ ?%elem_of_nil]..].
  - intros pre e post s1 s2 r -> [H1 H2]. unfold mark_subtree. rewrite run_setattr.
    assert (∀ l, (pre ++ e :: post).*2 = (pre ++ [e]).*2 ++ l → pre.*2 ⊆ (pre ++ e :: post).*2) as Hsub by (intros; set_solver).
    assert ((pre ++ e :: post).*2 = (pre ++ [e]).*2 ++ post.*2) as Hsplit by (rewrite !fmap_app; simpl; by rewrite <-app_assoc).
    destruct (refuses _ _ _); [intros [= <- <-]; eapply marks_within; [by eapply Hsub|done]|].
    rewrite Hsplit. pose proof (mark_module_marks h _ e.2 s1 H1) as H1'.
    change ((get ≫= λ s, for_M (parameters_of (hp_objects s.1) e.2) (mark_parameter refuses)) ?s) with
      (for_M (parameters_of (hp_objects s.1) e.2) (mark_parameter refuses) s). simpl.
    intros Hf. pose proof (mark_parameters_marks h _ _ _ _ r H1' Hf) as Hm. rewrite fmap_app.
    destruct r as [[]|]; simpl in *.
    + destruct Hm as [Hm1 Hm2]. split; [done|]. rewrite Hm2, H2. unfold claimed_parameters.
      rewrite fmap_app, bind_app. simpl. rewrite app_nil_r. by rewrite (proj1 H1).
    + eapply marks_within; [|done]. set_solver.
Qed.

Lemma within_model h ms n a s : n ∈ METADATA → within h ms s → within h ms (set_attr model n a s.1, s.2).
Proof.
  intros Hn [Ho Ha]. split; [done|]. intros o n'. simpl.
  destruct (decide ((model, n) = (o, n'))) as [[= <- <-]|Hne]; [by do 3 right|]. rewrite lookup_insert_ne by done. apply Ha.
Qed.

(** The heap after a claim that was made: marks, and the metadata. *)
Definition claimed_heap (modules : list (string * Z)) (contracts : list (list contract_entry)) (h : heap) : heap :=
  set_attr model RUNTIME_TENSOR_CONTRACTS (ATuple (IContract <$> contracts))
    (set_attr model RUNTIME_MODULE_REFS (ATuple (IRef <$> modules.*2))
       (set_attr model RUNTIME_MODULE_PATHS (ATuple (IText <$> modules.*1)) h)).

Lemma try_claim_result h modules contracts s' x : try_claim model refuses modules contracts (h, []) = (s', x) →
  match x with
  | Ok _ => ∃ s, marks h modules.*2 s ∧ s.2 = claimed_parameters (hp_objects h) modules ∧ s'.1 = claimed_heap modules contracts s.1
  | Err _ => within h modules.*2 s'
  end.
Proof.
  unfold try_claim. intros Hx. apply bindM_inv in Hx as [(s & [] & Hf & Hx)|(e & Hf & ->)];
    [|by apply (mark_subtrees_mark h modules s' (Err e))].
  destruct (mark_subtrees_mark h modules s (Ok tt) Hf) as [Hm Hp].
  assert (within h modules.*2 s) as Hw by by eapply marks_within.
  rewrite run_setattr in Hx. destruct (refuses _ _ _); [by injection Hx as <- <-|].
  rewrite run_setattr in Hx. simpl in Hx. destruct (refuses _ _ _); [injection Hx as <- <-; apply within_model; [set_solver|done]|].
  unfold on_heap, setattr in Hx. simpl in Hx. destruct (refuses _ _ _); injection Hx as <- <-.
  - apply (within_model h _ RUNTIME_MODULE_REFS _ (_, s.2)); [set_solver|]. apply (within_model h _ RUNTIME_MODULE_PATHS _ s); [set_solver|done].
  - by exists s.
Qed.

(** *** Rolling back *)

Lemma del_attrs_lookup {A} (k : A → Z * string) l h key :
  hp_attrs (foldl (fun h x => del_attr (k x).1 (k x).2 h) h l) !! key =
    if bool_decide (key ∈ k <$> l) then None else hp_attrs h !! key.
Proof.
  revert h. induction l as [|x l IH]; intros h; [done|]. simpl. rewrite IH. simpl.
  destruct (decide (key ∈ k <$> l)) as [Hin|Hin].
  - rewrite !bool_decide_true; [done|by right|done].
  - rewrite (bool_decide_false (key ∈ k <$> l)) by done. destruct (decide (key = k x)) as [->|Hne].
    + rewrite bool_decide_true by by left. rewrite <-surjective_pairing. apply lookup_delete_eq.
    + rewrite bool_decide_false by (intros [?|?]%elem_of_cons; done). rewrite <-surjective_pairing. by apply lookup_delete_ne.
Qed.

Lemma del_attrs_objects {A} (k : A → Z * string) l h :
  hp_objects (foldl (fun h x => del_attr (k x).1 (k x).2 h) h l) = hp_objects h.
Proof. revert h. induction l as [|x l IH]; intros h; [done|]. simpl. by rewrite IH. Qed.

Lemma heap_eq h h' : hp_objects h = hp_objects h' → hp_attrs h = hp_attrs h' → h = h'.
Proof. destruct h, h'. naive_solver. Qed.

Lemma rollback_restores h modules s : unmarked h → within h modules.*2 s → rollback_claim model modules s.2 s.1 = h.
Proof.
  intros Hu [Ho Ha]. set (k1 := λ p : Z, (p, RUNTIME_PARAMETER_MARKER)). set (k2 := λ e : string * Z, (e.2, RUNTIME_MODULE_MARKER)).
  set (k3 := λ n : string, (model, n)).
  change (rollback_claim model modules s.2 s.1) with
    (foldl (fun h x => del_attr (k3 x).1 (k3 x).2 h)
       (foldl (fun h x => del_attr (k2 x).1 (k2 x).2 h)
          (foldl (fun h x => del_attr (k1 x).1 (k1 x).2 h) s.1 s.2) modules) METADATA).
  apply heap_eq; [by rewrite !del_attrs_objects|]. apply map_eq. intros [o n].
  rewrite !del_attrs_lookup. destruct (decide (n ∈ CLAIM_ATTRS)) as [Hn|Hn].
  - rewrite (Hu o n Hn). repeat case_bool_decide; try done.
    destruct (Ha o n) as [->|[[-> Hp]|[[-> Hm]|[-> Hm]]]]; [by apply Hu|exfalso..].
    + by match goal with H : _ ∉ k1 <$> _ |- _ => apply H, (list_elem_of_fmap_2 k1) end.
    + apply list_elem_of_fmap_1 in Hm as (e & -> & He).
      by match goal with H : _ ∉ k2 <$> _ |- _ => apply H, (list_elem_of_fmap_2 k2) end.
    + by match goal with H : _ ∉ k3 <$> _ |- _ => apply H, (list_elem_of_fmap_2 k3) end.
  - destruct (Ha o n) as [->|[[-> _]|[[-> _]|[-> Hm]]]]; [|exfalso; apply Hn; set_solver..].
    rewrite !bool_decide_false; [done|..]; intros (x & [= -> ->] & Hx)%list_elem_of_fmap_1; apply Hn; set_solver.
Qed.

(** *** A claim that was made holds *)

Lemma is_none_default (m : gmap (Z * string) attr) k : m !! k = None → is_none (default (AVal PNone) (m !! k)) = true.
Proof. by intros ->. Qed.

Lemma unmarked_unclaimed h : unmarked h → unclaimed model h = true.
Proof. intros Hu. unfold unclaimed, private. rewrite !Hu by set_solver. done. Qed.

Lemma claimed_heap_lookup modules contracts h o n : n ∉ METADATA ∨ o ≠ model →
  hp_attrs (claimed_heap modules contracts h) !! (o, n) = hp_attrs h !! (o, n).
Proof.
  intros Hn. unfold claimed_heap, set_attr. simpl. rewrite !lookup_insert_ne; [done|..];
    intros [= -> <-]; destruct Hn as [Hn|Hn]; [apply Hn; set_solver|done|apply Hn; set_solver|done|apply Hn; set_solver|done].
Qed.

Lemma claimed_heap_private modules contracts h :
  private (claimed_heap modules contracts h) model RUNTIME_MODULE_PATHS = ATuple (IText <$> modules.*1) ∧
  private (claimed_heap modules contracts h) model RUNTIME_MODULE_REFS = ATuple (IRef <$> modules.*2) ∧
  private (claimed_heap modules contracts h) model RUNTIME_TENSOR_CONTRACTS = ATuple (IContract <$> contracts).
Proof.
  unfold private, claimed_heap, set_attr. simpl. split_and!.
  - by rewrite 2!lookup_insert_ne, lookup_insert_eq by done.
  - by rewrite lookup_insert_ne, lookup_insert_eq by done.
  - by rewrite lookup_insert_eq.
Qed.

(** Every subtree passes the check against its own contract. *)
Lemma check_claimed_all h modules contracts : mapM (fun e => runtime_tensor_contract (hp_objects h) e.2) modules = Ok contracts →
  Forall (λ e, marked h e.2 RUNTIME_MODULE_MARKER = true) modules →
  mapM (check_claimed h) (zip modules (zip (IRef <$> modules.*2) (IContract <$> contracts))) = Ok modules
  ∧ length contracts = length modules.
Proof.
  intros Hc Hm. revert contracts Hc. induction Hm as [|[p e] modules He Hm IH]; intros contracts Hc; [by injection Hc as <-|].
  simpl in Hc. apply bind_ok in Hc as (c & Hc & (cs & Hcs & [= <-])%bind_ok).
  destruct (IH cs Hcs) as [IH1 IH2]. simpl. split; [|by rewrite IH2].
  rewrite bool_decide_true by done. simpl. simpl in He. rewrite He. simpl in Hc |- *. rewrite Hc. simpl.
  rewrite bool_decide_true by done. simpl.
  change ((mapM (check_claimed h) (zip modules (zip (IRef <$> modules.*2) (IContract <$> cs))) ≫= (λ k, mret ((p, e) :: k)))
          = Ok ((p, e) :: modules)). by rewrite IH1.
Qed.

Lemma claimed_heap_validates h modules contracts h' : hp_objects h' = hp_objects h →
  enumerated (hp_objects h) = Ok modules →
  mapM (fun e => runtime_tensor_contract (hp_objects h) e.2) modules = Ok contracts →
  Forall (λ e, marked h' e.2 RUNTIME_MODULE_MARKER = true) modules →
  validated (claimed_heap modules contracts h') = Ok modules.
Proof.
  intros Ho He Hc Hm. unfold validated_runtime_routed_modules, unclaimed.
  destruct (claimed_heap_private modules contracts h') as (-> & -> & ->). simpl.
  rewrite Ho, He. cbn [mbind res_bind]. rewrite (bool_decide_true (IText <$> modules.*1 = _)) by done. cbn [negb artifact_raise_if raise_if].
  destruct (check_claimed_all (claimed_heap modules contracts h') modules contracts) as [Hall Hlen].
  - simpl. by rewrite Ho.
  - eapply Forall_impl; [exact Hm|]. intros e Hme. unfold marked in *. rewrite claimed_heap_lookup by (left; set_solver). done.
  - rewrite !bool_decide_true by (rewrite !length_fmap; lia). done.
Qed.

(** C19. A claim is made as a whole or not at all.  If any attribute is refused,
    or an interrupt arrives at any of them, every mark is gone and the heap is
    what it was; the same where the model is not accepted.  If it returns, no
    object has changed, exactly the parameters of the routed experts are marked,
    the claim holds, and claiming again returns the same paths and changes
    nothing. *)
Theorem claim_is_all_or_nothing h h' x : unmarked h → claim h = (h', x) →
  match x with
  | Err _ => h' = h
  | Ok paths => ∃ modules, enumerated (hp_objects h) = Ok modules ∧ paths = modules.*1 ∧
      hp_objects h' = hp_objects h ∧ validated h' = Ok modules ∧ claim h' = (h', Ok paths) ∧
      ∀ p, is_kt_routed_expert_base_parameter h' p = true ↔ p ∈ claimed_parameters (hp_objects h) modules
  end.
Proof.
  intros Hu. unfold claim_kt_routed_expert_subtrees at 1.
  change ((get ≫= ?f) h) with (f h h). cbv beta. rewrite (unmarked_unclaimed h Hu). cbn [negb].
  rewrite bindM_lift. destruct (enumerated (hp_objects h)) as [modules|e] eqn:He; [|by intros [= <- <-]].
  assert (∀ o, is_kt_routed_expert_base_parameter h o = false) as Hnone.
  { intros o. unfold is_kt_routed_expert_base_parameter, marked. by rewrite Hu by set_solver. }
  case_bool_decide as Hne.
  { intros [= <- <-]. exists modules. subst. split_and!; [done|done|done| | |].
    - unfold validated_runtime_routed_modules. by rewrite unmarked_unclaimed.
    - unfold claim_kt_routed_expert_subtrees. change ((get ≫= ?f) h) with (f h h). cbv beta.
      rewrite unmarked_unclaimed by done. cbn [negb]. by rewrite bindM_lift, He.
    - intros p. rewrite Hnone. split; [done|]. by intros ?%elem_of_nil. }
  rewrite bindM_lift. destruct (for_each modules tt _) as [[]|e] eqn:Ef; [|by intros [= <- <-]].
  rewrite bindM_lift. destruct (mapM _ modules) as [contracts|e] eqn:Ec; [|by intros [= <- <-]].
  unfold perform_claim. destruct (try_claim model refuses modules contracts (h, [])) as [[h1 marked_parameters] r] eqn:Et.
  pose proof (try_claim_result h modules contracts _ _ Et) as Hr. destruct r as [u|e]; intros [= <- <-].
  - destruct Hr as (s & [Ho Ha] & Hs & Heq). simpl in Heq. subst h1.
    assert (Forall (λ e, marked s.1 e.2 RUNTIME_MODULE_MARKER = true) modules) as Hmark.
    { apply Forall_forall. intros e Hin. unfold marked. rewrite Ha. rewrite bool_decide_false by (by intros [? _]).
      rewrite bool_decide_true; [done|]. split; [done|]. by apply list_elem_of_fmap_2. }
    pose proof (claimed_heap_validates h modules contracts s.1 Ho He Ec Hmark) as Hv.
    exists modules. split_and!; [done|done|done|done| |].
    + unfold claim_kt_routed_expert_subtrees. change ((get ≫= ?f) ?a) with (f a a). cbv beta.
      assert (unclaimed model (claimed_heap modules contracts s.1) = false) as ->.
      { unfold unclaimed. by rewrite (proj1 (claimed_heap_private modules contracts s.1)). }
      cbn [negb]. by rewrite bindM_lift, Hv.
    + intros p. unfold is_kt_routed_expert_base_parameter, marked. rewrite claimed_heap_lookup, Ha, <-Hs by (left; set_solver).
      case_bool_decide as Hin; [split; [naive_solver|done]|]. rewrite bool_decide_false by (by intros [? _]).
      rewrite Hu by set_solver. split; [done|]. intros Hp. by destruct Hin.
  - exact (rollback_restores h modules (h1, marked_parameters) Hu Hr).
Qed.
End claims.

(** ** Device maps without experts *)

Section device_maps.
Context `{Torch, Platform} (cfg_repr : cfg → string) (model : Z) (config : cfg).

Lemma bind_raise_if_run {A} c cls msg (f : unit → res A) : (raise_if c cls msg ≫= f) = if c then Err (Raise cls msg) else f tt.
Proof. by destruct c. Qed.

(** A name of a map that belongs to a claimed subtree. *)
Definition belongs (claimed : list (string * Z)) (name : string) : Prop :=
  ∃ path, path ∈ claimed.*1 ∧ (name = path ∨ ∃ rest, name = (path +:+ ".") +:+ rest).

Lemma under_belongs claimed name : existsb (under name) claimed.*1 = true ↔ belongs claimed name.
Proof.
  unfold belongs. rewrite existsb_exists. split; intros (path & Hp & Hu); exists path; rewrite list_elem_of_In in *; (split; [done|]);
    unfold under in *; rewrite orb_true_iff, String.eqb_eq, starts_with_true in *; done.
Qed.

(** What is kept of a device map: the entries outside the claimed subtrees,
    all of them and in their order, and none of them on the host; it is refused
    if nothing is left or if such an entry is on the host.  A model without a
    claim keeps its map. *)
Theorem prepared_map_spares_experts h claimed d :
  validated_runtime_routed_modules cfg_repr model config h = Ok claimed →
  match prepare_kt_non_expert_device_map cfg_repr model config h (PlacementMap d) with
  | Ok m => ∃ kept, m = PlacementMap kept ∧ kept `sublist_of` d ∧
      (∀ e, e ∈ kept ↔ e ∈ d ∧ ¬ belongs claimed e.1) ∧
      (claimed ≠ [] → kept ≠ [] ∧ ∀ e, e ∈ kept → is_host e.2 = false)
  | Err e => exn_cls e = KTArtifactError ∧ claimed ≠ [] ∧
      ((∀ e, e ∈ d → belongs claimed e.1) ∨ ∃ e, e ∈ d ∧ ¬ belongs claimed e.1 ∧ is_host e.2 = true)
  end.
Proof.
  intros Hv. unfold prepare_kt_non_expert_device_map. rewrite (bind_run _ _ _ Hv).
  case_bool_decide as Hne.
  { exists d. subst. split_and!; [done|done| |done]. intros e. split; [|by intros [? _]]. intros He. split; [done|].
    by intros (p & ?%elem_of_nil & _). }
  set (kept := List.filter _ d).
  assert (∀ e, e ∈ kept ↔ e ∈ d ∧ ¬ belongs claimed e.1) as Hk.
  { intros e. unfold kept. rewrite !list_elem_of_In, filter_In, negb_true_iff, <-not_true_iff_false, under_belongs. done. }
  unfold artifact_raise_if. rewrite bind_raise_if_run. case_bool_decide as Hlen.
  { split_and!; [done|done|]. left. intros e He. destruct (existsb (under e.1) claimed.*1) eqn:Eu; [by apply under_belongs|].
    exfalso. apply length_zero_iff_nil in Hlen. apply (elem_of_nil e). rewrite <-Hlen. apply Hk. split; [done|].
    rewrite <-under_belongs. by rewrite Eu. }
  rewrite bind_raise_if_run. destruct (existsb _ kept) eqn:Eh.
  { split_and!; [done|done|]. right. apply existsb_exists in Eh as (e & He & Hh). apply list_elem_of_In, Hk in He as [? ?].
    by exists e. }
  exists kept. split_and!; [done| |done|]. 
  - unfold kept. clear. induction d as [|e d IH]; [done|]. simpl. destruct (negb _); by constructor.
  - intros _. split; [by intros ->|]. intros e He. destruct (is_host e.2) eqn:E; [|done].
    assert (existsb (λ entry, is_host entry.2) kept = true); [|congruence]. apply existsb_exists. exists e.
    by rewrite <-list_elem_of_In.
Qed.
End device_maps.
