(* ===== verification/OwnershipExample.v ===== *)
(** * Ownership of routed experts on a small model

    A torch that walks registries as the library documents, its laws, and a
    DeepSeek model with one dense and two routed layers, whose experts share a
    module.  The properties of [OwnershipSpec] hold of it, with a claim that is
    interrupted, a projection, a dispatch and a device map. *)
From S2P Require Import Prelude PyStr PyVal Backend WeightSource Arch ModelGraph Modules Ownership OwnershipSpec.
From Stdlib Require Import Ascii.

Local Open Scope string_scope.
Local Open Scope list_scope.
Local Open Scope Z_scope.

Module OwnershipExample.

(** ** A concrete torch *)

Definition dotted (prefix name : string) : string := if String.eqb prefix "" then name else prefix +:+ "." +:+ name.

Definition child_list (ms : module_map) (i : Z) : list (string * option Z) :=
  default [] (md_modules <$> ms !! i).

(** [named_modules(remove_duplicate=False)], to a depth of eight *)
Fixpoint named_modules (depth : nat) (ms : module_map) (prefix : string) (i : Z) : list (string * Z) :=
  match depth with
  | O => []
  | S depth => (prefix, i) :: (child_list ms i ≫= λ c : string * option Z,
                 match c.2 with Some j => named_modules depth ms (dotted prefix c.1) j | None => [] end)
  end.

Definition entries_of (r : registry) (ms : module_map) (i : Z) : list (string * option Z) :=
  default [] (entries r <$> ms !! i).

(** The first occurrence of each identity. *)
Fixpoint distinct (seen : list Z) (l : list (string * Z)) : list (string * Z) :=
  match l with
  | [] => []
  | (n, i) :: l => if bool_decide (i ∈ seen) then distinct seen l else (n, i) :: distinct (i :: seen) l
  end.

Definition named_entries (r : registry) (remove_duplicate : bool) (ms : module_map) (i : Z) : list (string * Z) :=
  let all := named_modules 8 ms "" i ≫= λ m : string * Z, omap (λ e : string * option Z, (λ t, (dotted m.1 e.1, t)) <$> e.2)
                                                             (entries_of r ms m.2) in
  if remove_duplicate then distinct [] all else all.

#[local] Instance torch : Torch := {
  get_attribute ms i name :=
    match get_entry Parameters i name ms, get_entry Buffers i name ms, get_entry Children i name ms with
    | Some v, _, _ | None, Some v, _ => Some (match v with Some t => VTensor t | None => VNone end)
    | None, None, Some v => Some (match v with Some j => VModule j | None => VNone end)
    | None, None, None => None
    end;
  base_model_of _ _ := None;
  list_items ms i := omap snd (child_list ms i);
  submodules ms i := (distinct [] (named_modules 8 ms "" i)).*2;
  named_children ms i := distinct [] (omap (λ c, (λ j, (c.1, j)) <$> c.2) (child_list ms i));
  named_parameters := named_entries Parameters;
  named_buffers := named_entries Buffers;
  get_submodule ms i path :=
    foldl (λ r name, i ← r; match dict_get name (child_list ms i) with
                            | Some (Some j) => mret j
                            | _ => Err (Raise AttributeError "object has no attribute")
                            end) (Ok i) (split_on "." path);
  device_type s := let kind := List.hd "" (split_on ":" s) in
    if bool_decide (kind ∈ ["cpu"; "cuda"; "meta"]) then Some kind else None;
}.

Lemma child_list_same ms ms' i : same_children ms ms' → child_list ms i = child_list ms' i.
Proof. intros Hs. unfold child_list. by rewrite (Hs i). Qed.

Lemma named_modules_same depth ms ms' prefix i : same_children ms ms' →
  named_modules depth ms prefix i = named_modules depth ms' prefix i.
Proof.
  intros Hs. revert prefix i. induction depth as [|depth IH]; intros prefix i; [done|]. simpl.
  rewrite (child_list_same _ _ i Hs). f_equal. apply list_bind_ext; [|done]. intros [n [j|]]; simpl; [apply IH|done].
Qed.

#[local] Instance torch_laws : TorchLaws.
Proof. split. intros ms ms' i Hs. unfold submodules, torch. by rewrite (named_modules_same 8 ms ms' "" i Hs). Qed.

(** ** A model *)

Definition parameter (shape : list Z) : tensor_obj := TensorObj true shape "bfloat16" "meta" true false None.
Definition buffer (shape : list Z) : tensor_obj := TensorObj false shape "float32" "meta" false false None.

Definition plain (children params buffers : list (string * Z)) : module :=
  Module_ false (prod_map id Some <$> children) (prod_map id Some <$> params) (prod_map id Some <$> buffers).

(** The model is module 0; its layers are 4, dense, and 5 and 10, routed. *)
Definition model_modules : module_map := list_to_map [
  (0, plain [("model", 1)] [] []);
  (1, plain [("layers", 2); ("embed_tokens", 3)] [] []);
  (2, Module_ true [("0", Some 4); ("1", Some 5); ("2", Some 10)] [] []);
  (3, plain [] [("weight", 100)] []);
  (4, plain [("mlp", 9)] [] []);
  (5, plain [("mlp", 6)] [] []);
  (6, plain [("experts", 7); ("gate", 8)] [] []);
  (7, plain [("act", 13)] [("gate_up_proj", 101); ("down_proj", 102)] [("weight_scale", 103)]);
  (8, plain [] [("weight", 104)] []);
  (9, Module_ false [] [("weight", Some 105); ("bias", None)] []);
  (10, plain [("mlp", 11)] [] []);
  (11, plain [("experts", 12)] [] []);
  (12, plain [("act", 13)] [("gate_up_proj", 106); ("down_proj", 107)] [("weight_scale", 108)]);
  (13, plain [] [("slope", 109)] [])].

Definition model_tensors : tensor_map := list_to_map [
  (100, parameter [8; 4]); (101, parameter [2; 6; 4]); (102, parameter [2; 4; 3]); (103, buffer [2; 1; 1]);
  (104, parameter [2; 4]); (105, parameter [4; 4]); (106, parameter [2; 6; 4]); (107, parameter [2; 4; 3]);
  (108, buffer [2; 1; 1]); (109, parameter [1])].

Definition model_config : cfg := CObj [
  ("architectures", CVal (PList [PStr "DeepseekV3ForCausalLM"])); ("model_type", CVal (PStr "deepseek_v3"));
  ("num_hidden_layers", CVal (PInt 3)); ("first_k_dense_replace", CVal (PInt 1)); ("n_routed_experts", CVal (PInt 2));
  ("hidden_size", CVal (PInt 4)); ("moe_intermediate_size", CVal (PInt 3)); ("num_experts_per_tok", CVal (PInt 1));
  ("n_shared_experts", CVal (PInt 1))].

#[local] Instance platform : Platform :=
  {| sha256 := fun s => s; json_loads := fun _ => None; json_dumps := fun _ => ""; py_repr := fun _ => "" |}.

Definition repr : cfg -> string := fun _ => "".
Definition fresh_model : heap := Heap (Objects model_modules model_tensors) ∅.
Definition never : heap -> Z -> string -> option pyexn := fun _ _ _ => None.

Definition routed : list (string * Z) := [("model.layers.1.mlp.experts", 7); ("model.layers.2.mlp.experts", 12)].

Example layers_are_found : get_model_container_and_layers model_modules 0 = Ok (1, VModule 2).
Proof. vm_compute. reflexivity. Qed.

Example experts_are_enumerated : enumerate_runtime_routed_modules repr 0 model_config (hp_objects fresh_model) = Ok routed.
Proof. vm_compute. reflexivity. Qed.

(** ** Checking a heap *)

Lemma dicts_checked ms : bool_decide (map_Forall (λ _ m, NoDup (entries Parameters m).*1 ∧ NoDup (entries Buffers m).*1
                                                           ∧ NoDup (entries Children m).*1) ms) = true → dicts ms.
Proof. intros Hc%bool_decide_eq_true i m r Hm. destruct (Hc i m Hm) as (? & ? & ?). by destruct r. Qed.

Definition present (o : objects) (e : string * option Z) : bool :=
  match e.2 with Some t => bool_decide (is_Some (ob_tensors o !! t)) | None => true end.

Lemma populated_checked o : bool_decide (map_Forall (λ _ m, Is_true (forallb (present o) (entries Parameters m ++ entries Buffers m)))
                                           (ob_modules o)) = true → populated o.
Proof.
  intros Hc%bool_decide_eq_true r i n t Hr (m & Hm & He)%get_entry_elem_of. specialize (Hc i m Hm). simpl in Hc.
  apply Is_true_eq_true in Hc. rewrite forallb_forall in Hc. specialize (Hc (n, Some t)).
  unfold present in Hc. simpl in Hc. apply (bool_decide_eq_true (is_Some _)), Hc. apply in_or_app.
  destruct r; [left|right|done]; by apply list_elem_of_In.
Qed.

(** ** Claiming *)

Abbreviation claim refuses := (claim_kt_routed_expert_subtrees repr 0 model_config refuses).

(** An interrupt arrives when the second subtree's module is to be marked. *)
Definition interrupt : pyexn := Raise KeyboardInterrupt "".
Definition interrupted : heap -> Z -> string -> option pyexn := fun _ o _ => if o =? 12 then Some interrupt else None.

Lemma fresh_model_unmarked : unmarked fresh_model.
Proof. intros o n _. apply lookup_empty. Qed.

Lemma claim_is_all_or_nothing_witness :
  claim interrupted fresh_model = (fresh_model, Err interrupt) ∧
  (claim never fresh_model).2 = Ok routed.*1 ∧
  claim never (claim never fresh_model).1 = ((claim never fresh_model).1, Ok routed.*1).
Proof.
  split; [|split].
  - assert ((claim interrupted fresh_model).2 = Err interrupt) as Hx by (vm_compute; reflexivity).
    pose proof (claim_is_all_or_nothing repr 0 model_config interrupted fresh_model (claim interrupted fresh_model).1 _
                  fresh_model_unmarked (run_result _ _ _ Hx)) as Hc.
    simpl in Hc. rewrite <-Hc at 2. apply run_result. exact Hx.
  - vm_compute. reflexivity.
  - assert ((claim never fresh_model).2 = Ok routed.*1) as Hx by (vm_compute; reflexivity).
    destruct (claim_is_all_or_nothing repr 0 model_config never fresh_model (claim never fresh_model).1 _
                fresh_model_unmarked (run_result _ _ _ Hx)) as (ms & _ & _ & _ & _ & Hagain & _). exact Hagain.
Defined.

(** ** Projecting and hiding *)

Definition claimed_model : heap := (claim never fresh_model).1.

Lemma claimed_model_validates : validated_runtime_routed_modules repr 0 model_config claimed_model = Ok routed.
Proof. vm_compute. reflexivity. Qed.

(** What a block sees: the shapes of the experts' tensors. *)
Definition seen_shapes (h : heap) : list (list Z) :=
  omap (λ p : string * Z, to_shape <$> tensors h !! p.2)
    (routed.*2 ≫= λ i, named_parameters true (mods h) i ++ named_buffers true (mods h) i).

Definition look : M heap (list (list Z)) := gets seen_shapes.

Lemma look_leaves_registries : leaves_registries look.
Proof. by intros h h' x [= <- _]. Qed.

Abbreviation project := (project_kt_routed_experts_out_of_device_map repr 0 model_config look).

Lemma experts_are_projected_and_put_back_witness :
  seen_shapes claimed_model = [[2; 6; 4]; [2; 4; 3]; [1]; [2; 1; 1]; [2; 6; 4]; [2; 4; 3]; [1]; [2; 1; 1]] ∧
  (project claimed_model).2 = Ok (replicate 8 [0]) ∧
  mods claimed_model ⊆ mods (project claimed_model).1.
Proof.
  split; [vm_compute; reflexivity|]. split; [vm_compute; reflexivity|].
  destruct (experts_are_projected_and_put_back repr 0 model_config look claimed_model (project claimed_model).1
              (project claimed_model).2 routed) as [Hback _].
  - apply dicts_checked. vm_compute. reflexivity.
  - apply populated_checked. vm_compute. reflexivity.
  - apply look_leaves_registries.
  - exact claimed_model_validates.
  - discriminate.
  - apply surjective_pairing.
  - exact Hback.
Defined.

(** What the two paths lead to, and how many tensors are registered there. *)
Definition registered (h : heap) : list (res (Z * nat)) :=
  (λ e : string * Z, i ← get_submodule (mods h) 0 e.1; mret (i, length (named_parameters false (mods h) i))) <$> routed.

Definition look_up : M heap (list (res (Z * nat))) := gets registered.

Lemma look_up_leaves_registries : leaves_registries look_up.
Proof. by intros h h' x [= <- _]. Qed.

Abbreviation hide := (hide_kt_routed_experts_from_dispatch repr 0 model_config look_up).

Lemma experts_are_hidden_and_put_back_witness :
  registered claimed_model = [Ok (7, 3%nat); Ok (12, 3%nat)] ∧ (hide claimed_model).2 = Ok [Ok (110, 0%nat); Ok (111, 0%nat)] ∧
  mods claimed_model ⊆ mods (hide claimed_model).1.
Proof.
  split; [vm_compute; reflexivity|]. split; [vm_compute; reflexivity|].
  destruct (experts_are_hidden_and_put_back repr 0 model_config look_up claimed_model (hide claimed_model).1
              (hide claimed_model).2 routed) as [Hback _].
  - apply dicts_checked. vm_compute. reflexivity.
  - intros e He. apply elem_of_cons in He as [->|He]; [by eexists|]. apply list_elem_of_singleton in He as ->. by eexists.
  - apply look_up_leaves_registries.
  - exact claimed_model_validates.
  - discriminate.
  - apply surjective_pairing.
  - exact Hback.
Defined.

(** ** A device map *)

Definition inferred : list (string * device) :=
  [("model.embed_tokens", DText "cuda:0"); ("model.layers.0", DIndex 0); ("model.layers.1.mlp.experts", DText "cpu");
   ("model.layers.1.mlp.experts.gate_up_proj", DText "disk"); ("model.layers.2.mlp.experts", DText "meta");
   ("model.layers.2.mlp.expertsx", DIndex 1)].

Definition kept : list (string * device) :=
  [("model.embed_tokens", DText "cuda:0"); ("model.layers.0", DIndex 0); ("model.layers.2.mlp.expertsx", DIndex 1)].

Abbreviation prepare d := (prepare_kt_non_expert_device_map repr 0 model_config claimed_model (PlacementMap d)).

Lemma prepared_map_spares_experts_witness :
  prepare inferred = Ok (PlacementMap kept) ∧ (∀ e, e ∈ kept → is_host e.2 = false) ∧
  prepare [("lm_head", DText "cpu")] = Err (Raise KTArtifactError "non-expert device map offloaded real tensors to CPU/disk").
Proof.
  assert (prepare inferred = Ok (PlacementMap kept)) as Hp by (vm_compute; reflexivity).
  split; [exact Hp|]. split; [|vm_compute; reflexivity].
  pose proof (prepared_map_spares_experts repr 0 model_config claimed_model routed inferred claimed_model_validates) as Hk.
  rewrite Hp in Hk. destruct Hk as (k & Heq & _ & _ & Hhost). injection Heq as <-. apply Hhost. discriminate.
Defined.

End OwnershipExample.
