(* ===== verification/ExpertWeights.v ===== *)
(** * Loading the experts of a layer

    Models the loaders of [kt-kernel/python/sft/weights.py]: one layer's routed
    experts from block-FP8, RAWINT4 or BF16 checkpoint files and from a tree of
    INT8 partitions, with every check on keys, types, devices and shapes; and
    the fused layouts they tell apart ([_canonicalize_qwen3_vl_fused_expert_weights]
    of [conv3d_compat.py]).

    A tensor is what torch answers about it; operations on tensors are the class
    [Tensors].  A safetensors file is its tensors by key, or cannot be opened.
    The safetensors package is installed. *)
From S2P Require Import Prelude PyStr PyVal Backend WeightSource Arch Checkpoint.
From Stdlib Require Import Ascii.

Local Open Scope string_scope.
Local Open Scope list_scope.
Local Open Scope Z_scope.

(** ** Tensors *)

Class Tensors := {
  tensor : Type;
  t_shape : tensor -> list Z;
  t_dtype : tensor -> string;
  (** [t.device.type] *)
  t_device : tensor -> string;
  (** [t.reshape(-1).tolist()], of integers *)
  t_values : tensor -> list Z;
  t_contiguous : tensor -> tensor;
  (** [t.to(dtype)] and [t.cpu()] *)
  t_to : string -> tensor -> tensor;
  t_cpu : tensor -> tensor;
  (** [t.view(torch.uint8)], [t.view(shape)] and [t.reshape(shape)] *)
  t_bytes : tensor -> tensor;
  t_view : list Z -> tensor -> res tensor;
  t_reshape : list Z -> tensor -> res tensor;
  (** [torch.stack(ts, dim=0)] and [torch.cat(ts, dim=0)] *)
  t_stack : list tensor -> res tensor;
  t_cat : list tensor -> res tensor;
  (** [t[:, a:b, :]], [t[:, a:, :]] being up to the end *)
  t_rows : Z -> option Z -> tensor -> tensor;
  (** [t.transpose(1, 2)], and [t.split(n, dim=2)] *)
  t_transpose : tensor -> tensor;
  t_split : Z -> tensor -> list tensor;
  (** [w * s[:, :, None, :, None]] *)
  t_scale_blocks : tensor -> tensor -> res tensor;
}.

Definition FP8 : string := "float8_e4m3fn".
Definition BF16 : string := "bfloat16".
Definition FP32 : string := "float32".

(** [sorted] of texts *)
Definition text_le (a b : string) : Prop := Is_true (String.leb a b).
#[export] Instance text_le_dec : RelDecision text_le := fun a b => _.

(** ** Files *)

(** [os.path.join(a, b)] *)
Definition join_file (a b : string) : string :=
  if starts_with "/" b then b
  else if String.eqb a "" || ends_with "/" a then a +:+ b
  else a +:+ "/" +:+ b.

(** [d.setdefault(k, []).append(v)] *)
Definition append_at (k v : string) (d : list (string * list string)) : list (string * list string) :=
  dict_set k (default [] (dict_get k d) ++ [v]) d.

(** [keys_by_file]: the keys that each file is asked for, files in the order in
    which they are first needed. *)
Definition group_keys (file_of : string -> option string) (keys : list string) : list (string * list string) :=
  foldl (fun d key => match file_of key with Some file => append_at file key d | None => d end) [] keys.

Section loaders.
Context `{Tensors}.

(** [safe_open(path)]: the tensors of the file in its order. *)
Context (safe_open : string -> res (list (string * tensor))).

(** [handle.get_tensor(key)] *)
Definition get_tensor (handle : list (string * tensor)) (key : string) : res tensor :=
  of_option (dict_get key handle) SafetensorError "File does not contain tensor".

(** [for file_path, file_keys in keys_by_file.items(): ...] *)
Definition read_file (tensors : list (string * tensor)) (group : string * list string) : res (list (string * tensor)) :=
  handle ← safe_open group.1;
  for_each group.2 tensors (fun tensors key => t ← get_tensor handle key; mret (dict_set key t tensors)).

Definition read_groups (groups : list (string * list string)) : res (list (string * tensor)) :=
  for_each groups [] read_file.

Definition weight_map_of (sharded_metadata : option (list (string * string))) : list (string * string) :=
  default [] sharded_metadata.

(** [_checkpoint_tensor_files]: [sharded_metadata] is the weight map of the
    metadata, where they have one. *)
Definition checkpoint_tensor_files (checkpoint_files : list string) (sharded_metadata : option (list (string * string)))
    : res (list (string * string)) :=
  let base_dir := dirname (List.hd "" checkpoint_files) in
  match weight_map_of sharded_metadata with
  | [] =>
      for_each checkpoint_files [] (fun result file_path =>
        handle ← safe_open file_path;
        mret (foldl (fun result key => dict_set key file_path result) result handle.*1))
  | weight_map => mret ((fun '(key, filename) => (key, join_file base_dir filename)) <$> weight_map)
  end.

(** What the loaders of a layer are given. *)
Record layer_source := LayerSource {
  ls_files : list string;
  ls_metadata : option (list (string * string));
  ls_prefix : string;
  ls_config : MOEArchConfig;
  ls_layer : Z;
}.

Definition experts_prefix (s : layer_source) : string :=
  indexed (ls_prefix s) (ls_layer s) +:+ "." +:+ ma_moe_layer_attr (ls_config s) +:+ "." +:+ ma_experts_attr (ls_config s).

(** [f"{experts_prefix}.{expert_idx}.{projection_name}"] *)
Definition projection_base (s : layer_source) (projection_name : string) (expert_idx : Z) : string :=
  indexed (experts_prefix s) expert_idx +:+ "." +:+ projection_name.

Definition expert_range (s : layer_source) : list Z := seqZ 0 (ma_expert_num (ls_config s)).

(** [gate_name, up_name, down_name = moe_config.weight_names] *)
Definition projection_names (s : layer_source) : res (string * string * string) :=
  match ma_weight_names (ls_config s) with
  | [gate_name; up_name; down_name] => mret (gate_name, up_name, down_name)
  | _ => Err (Raise ValueError "not enough or too many values to unpack")
  end.

(** [[key for key in keys if key not in tensor_files]], and the error *)
Definition check_present (keys : list string) (tensor_files : list (string * string)) (msg : string) : res unit :=
  raise_if (existsb (fun key => match dict_get key tensor_files with None => true | Some _ => false end) keys) FileNotFoundError msg.

Definition tensor_of (key : string) (tensors : list (string * tensor)) : res tensor :=
  of_option (dict_get key tensors) KeyError "no such tensor".

Definition value_error (c : bool) (msg : string) : res unit := raise_if c ValueError msg.

(** ** Block FP8 *)

Definition weight_key (base : string) : string := base +:+ ".weight".
Definition scale_inv_key (base : string) : string := base +:+ ".weight_scale_inv".

(** [projection_specs.values()]: the names and shapes of a layer's projections. *)
Definition projection_specs (names : string * string * string) (hidden_size intermediate_size : Z) : list (string * (Z * Z)) :=
  let '(gate_name, up_name, down_name) := names in
  [(gate_name, (intermediate_size, hidden_size)); (up_name, (intermediate_size, hidden_size));
   (down_name, (hidden_size, intermediate_size))].

Definition fp8_keys (s : layer_source) (specs : list (string * (Z * Z))) : list string :=
  expert_range s ≫= fun e => specs ≫= fun spec =>
    [weight_key (projection_base s spec.1 e); scale_inv_key (projection_base s spec.1 e)].

(** The checks and conversions of one projection of one expert. *)
Definition fp8_projection (tensors : list (string * tensor)) (base : string) (shape : Z * Z) : res (tensor * tensor) :=
  weight ← tensor_of (weight_key base) tensors;
  scale ← tensor_of (scale_inv_key base) tensors;
  _ ← value_error (negb (String.eqb (t_device weight) "cpu") || negb (String.eqb (t_dtype weight) FP8))
        "must be CPU torch.float8_e4m3fn";
  _ ← value_error (negb (bool_decide (t_shape weight = [shape.1; shape.2]))) "shape mismatch";
  _ ← value_error (negb (String.eqb (t_device scale) "cpu") || negb (bool_decide (t_dtype scale ∈ [BF16; FP32])))
        "must be a BF16 or FP32 CPU tensor";
  _ ← value_error (negb (bool_decide (t_shape scale = [shape.1 / 128; shape.2 / 128]))) "shape mismatch for 128x128 blocks";
  mret (t_contiguous weight, t_contiguous (t_cpu (t_to FP32 scale))).

(** [BlockFP8ExpertWeights]: per projection, the weights and scales by expert. *)
Definition fp8_experts : Type := list (list (tensor * tensor)).

Definition load_block_fp8_experts_from_checkpoint_files (s : layer_source) (hidden_size : Z) (block_size : Z * Z)
    : res fp8_experts :=
  _ ← raise_if (bool_decide (ls_files s = [])) FileNotFoundError "checkpoint_files is empty";
  _ ← value_error (negb (bool_decide (block_size = (128, 128)))) "native FP8 SFT requires weight_block_size=[128, 128]";
  let intermediate_size := ma_intermediate_size (ls_config s) in
  _ ← value_error (has_rest hidden_size 128 || has_rest intermediate_size 128)
        "native FP8 SFT requires hidden and routed intermediate dimensions divisible by 128";
  names ← projection_names s;
  tensor_files ← checkpoint_tensor_files (ls_files s) (ls_metadata s);
  let fused_keys := (fun suffix => experts_prefix s +:+ suffix)
                      <$> [".gate_up_proj"; ".gate_up_proj.weight"; ".down_proj"; ".down_proj.weight"] in
  _ ← value_error (existsb (fun key => match dict_get key tensor_files with Some _ => true | None => false end) fused_keys)
        "native FP8 SFT requires non-fused per-expert checkpoint weights";
  let specs := projection_specs names hidden_size intermediate_size in
  let keys := fp8_keys s specs in
  _ ← check_present keys tensor_files "layer is missing native FP8 tensors";
  tensors ← read_groups (group_keys (fun key => dict_get key tensor_files) keys);
  by_expert ← mapM (fun e => mapM (fun spec => fp8_projection tensors (projection_base s spec.1 e) spec.2) specs) (expert_range s);
  mret ((fun p => omap (fun row => row !! p) by_expert) <$> seq 0 3).

(** ** RAWINT4 *)

Definition normalize_rawint4_packed_weight (t : tensor) (rows cols : Z) : res tensor :=
  _ ← value_error (negb (String.eqb (t_device t) "cpu")) "must be a CPU tensor";
  _ ← value_error (has_rest cols 8) "input dimension must be divisible by 8";
  if String.eqb (t_dtype t) "int32" then
    _ ← value_error (negb (bool_decide (t_shape t = [rows; cols / 8]))) "shape mismatch: expected int32";
    v ← t_view [rows; cols / 2] (t_bytes (t_contiguous t));
    mret (t_contiguous v)
  else if String.eqb (t_dtype t) "uint8" then
    _ ← value_error (negb (bool_decide (t_shape t = [rows; cols / 2]))) "shape mismatch: expected uint8";
    mret (t_contiguous t)
  else Err (Raise ValueError "must be torch.int32 or torch.uint8 packed INT4").

Definition packed_key (base : string) : string := base +:+ ".weight_packed".
Definition scale_key (base : string) : string := base +:+ ".weight_scale".
Definition shape_key (base : string) : string := base +:+ ".weight_shape".

(** The checks and conversions of one expert's part of a projection. *)
Definition rawint4_expert (tensors : list (string * tensor)) (rows cols : Z) (base : string) : res (tensor * tensor) :=
  shape_tensor ← tensor_of (shape_key base) tensors;
  _ ← value_error (negb (String.eqb (t_device shape_tensor) "cpu") || negb (bool_decide (t_dtype shape_tensor ∈ ["int32"; "int64"])))
        "must be an INT32 or INT64 CPU tensor";
  _ ← value_error (negb (bool_decide (t_values shape_tensor = [rows; cols]))) "weight_shape mismatch";
  packed ← tensor_of (packed_key base) tensors;
  packed ← normalize_rawint4_packed_weight packed rows cols;
  scale ← tensor_of (scale_key base) tensors;
  _ ← value_error (negb (String.eqb (t_device scale) "cpu") || negb (bool_decide (t_dtype scale ∈ [BF16; FP32])))
        "must be a BF16 or FP32 CPU tensor";
  _ ← value_error (negb (bool_decide (t_shape scale = [rows; cols / RAWINT4_GROUP_SIZE]))) "scale shape mismatch";
  mret (packed, t_contiguous (t_cpu (t_to BF16 scale))).

(** [load_projection(label)] *)
Definition rawint4_projection (s : layer_source) (tensor_files : list (string * string)) (spec : string * (Z * Z))
    : res (tensor * tensor) :=
  let '(projection_name, (rows, cols)) := spec in
  let requested := projection_base s projection_name <$> expert_range s in
  let required_keys := requested ≫= fun base => [packed_key base; scale_key base; shape_key base] in
  _ ← check_present required_keys tensor_files "layer is missing RAWINT4 tensors";
  _ ← value_error (existsb (fun base => existsb (fun key => match dict_get key tensor_files with Some _ => true | None => false end)
                                          [base +:+ ".weight_zero_point"; base +:+ ".zero_point"]) requested)
        "RAWINT4 SFT accepts symmetric weights without zero-point tensors";
  tensors ← read_groups (group_keys (fun key => dict_get key tensor_files) required_keys);
  experts ← mapM (rawint4_expert tensors rows cols) requested;
  packed ← t_stack experts.*1;
  scales ← t_stack experts.*2;
  mret (t_contiguous packed, t_contiguous scales).

Definition load_rawint4_experts_from_checkpoint_files (s : layer_source) (hidden_size group_size : Z)
    : res (list (tensor * tensor)) :=
  _ ← raise_if (bool_decide (ls_files s = [])) FileNotFoundError "checkpoint_files is empty";
  _ ← value_error (negb (group_size =? RAWINT4_GROUP_SIZE)) "RAWINT4 SFT requires group_size=32";
  let intermediate_size := ma_intermediate_size (ls_config s) in
  _ ← value_error (has_rest hidden_size group_size || has_rest intermediate_size group_size)
        "RAWINT4 group_size must divide hidden_size and intermediate_size";
  tensor_files ← checkpoint_tensor_files (ls_files s) (ls_metadata s);
  names ← projection_names s;
  mapM (rawint4_projection s tensor_files) (projection_specs names hidden_size intermediate_size).

(** ** BF16, and FP8 converted to BF16 *)

(** [_dequant_fp8_experts]; a scale may be missing. *)
Definition dequant_fp8_experts (weights : list tensor) (scales : list (option tensor)) (block_size : Z * Z) : res tensor :=
  match scales with
  | [] => Err (Raise IndexError "list index out of range")
  | None :: _ => w ← t_stack weights; mret (t_contiguous (t_cpu (t_to BF16 w)))
  | Some _ :: _ =>
      let '(bs_m, bs_n) := block_size in
      let n := Z.of_nat (length weights) in
      match t_shape <$> head weights with
      | Some [out_features; in_features] =>
          w ← t_stack weights;
          _ ← raise_if ((bs_m =? 0) || (bs_n =? 0)) ZeroDivisionError "integer division or modulo by zero";
          w ← t_reshape [n; out_features / bs_m; bs_m; in_features / bs_n; bs_n] w;
          scales ← of_option (mapM id scales) TypeError "expected Tensor as element";
          s ← t_stack scales;
          w ← t_scale_blocks (t_to BF16 w) (t_to BF16 s);
          w ← t_reshape [n; out_features; in_features] w;
          mret (t_contiguous w)
      | _ => Err (Raise ValueError "not enough or too many values to unpack")
      end
  end.

(** [_canonicalize_qwen3_vl_fused_expert_weights] *)
Definition canonicalize_qwen3_vl_fused_expert_weights (gate_up down : tensor) (moe_config : MOEArchConfig)
    : res (option (tensor * tensor * tensor)) :=
  let expert_num := ma_expert_num moe_config in
  let intermediate_size := ma_intermediate_size moe_config in
  match t_shape gate_up, t_shape down with
  | [_; hidden_size; _], [_; _; _] =>
      if negb (bool_decide (t_shape gate_up = [expert_num; hidden_size; 2 * intermediate_size])) then mret None
      else if negb (bool_decide (t_shape down = [expert_num; intermediate_size; hidden_size])) then mret None
      else
        match (fun t => t_contiguous (t_transpose t)) <$> t_split intermediate_size gate_up with
        | [gate_proj; up_proj] => mret (Some (gate_proj, up_proj, t_contiguous (t_transpose down)))
        | _ => Err (Raise ValueError "not enough or too many values to unpack")
        end
  | _, _ => mret None
  end.

(** [gate_up.shape[1] // 2] *)
Definition split_fused (gate_up down : tensor) : res (tensor * tensor * tensor) :=
  intermediate ← of_option ((fun n => n / 2) <$> t_shape gate_up !! 1%nat) IndexError "tuple index out of range";
  mret (t_contiguous (t_rows 0 (Some intermediate) gate_up), t_contiguous (t_rows intermediate None gate_up), t_contiguous down).

(** The keys that the files have, of those that they are asked for. *)
Definition read_available (tensors : list (string * tensor)) (group : string * list string) : res (list (string * tensor)) :=
  handle ← safe_open group.1;
  mret (foldl (fun tensors key => match dict_get key handle with Some t => dict_set key t tensors | None => tensors end)
          tensors group.2).

Definition bf16_keys (s : layer_source) (names : string * string * string) : list string :=
  let '(gate_name, up_name, down_name) := names in
  expert_range s ≫= fun e => [gate_name; up_name; down_name] ≫= fun name =>
    [weight_key (projection_base s name e); scale_inv_key (projection_base s name e)].

(** [file_path] of a key: of the weight map, or the first file. *)
Definition file_of_key (s : layer_source) (key : string) : option string :=
  match ls_metadata s with
  | Some weight_map => join_file (dirname (List.hd "" (ls_files s))) <$> dict_get key weight_map
  | None => head (ls_files s)
  end.

(** One projection's weights and scales, by expert. *)
Definition bf16_projection (block_size : Z * Z) (is_fp8 : bool) (weights : list tensor) (scales : list (option tensor)) : res tensor :=
  if is_fp8 then dequant_fp8_experts weights scales block_size
  else w ← t_stack weights; mret (t_contiguous (t_to BF16 (t_cpu w))).

Definition load_experts_from_checkpoint_files (s : layer_source) (block_size : option (Z * Z)) : res (tensor * tensor * tensor) :=
  _ ← raise_if (bool_decide (ls_files s = [])) FileNotFoundError "checkpoint_files is empty";
  names ← projection_names s;
  let fused_gate_up_key := experts_prefix s +:+ ".gate_up_proj" in
  let fused_down_key := experts_prefix s +:+ ".down_proj" in
  let is_fused := match ls_metadata s with
                  | Some weight_map => match dict_get fused_gate_up_key weight_map with Some _ => true | None => false end
                  | None => false
                  end in
  let keys := if is_fused then [fused_gate_up_key; fused_down_key] else bf16_keys s names in
  tensor_map ← for_each (group_keys (file_of_key s) keys) [] read_available;
  if is_fused then
    match dict_get fused_gate_up_key tensor_map, dict_get fused_down_key tensor_map with
    | Some gate_up, Some down =>
        let gate_up := t_contiguous (t_to BF16 (t_cpu gate_up)) in
        let down := t_to BF16 (t_cpu down) in
        vlm_weights ← canonicalize_qwen3_vl_fused_expert_weights gate_up down (ls_config s);
        match vlm_weights with Some weights => mret weights | None => split_fused gate_up down end
    | _, _ => Err (Raise FileNotFoundError "Missing fused expert weights")
    end
  else
    let '(gate_name, up_name, down_name) := names in
    rows ← mapM (fun e =>
      mapM (fun name => of_option (dict_get (weight_key (projection_base s name e)) tensor_map) FileNotFoundError "Missing expert weights")
        [gate_name; up_name; down_name]) (expert_range s);
    let weights p := omap (fun row : list tensor => row !! p) rows in
    let scales name := (fun e => dict_get (scale_inv_key (projection_base s name e)) tensor_map) <$> expert_range s in
    first ← of_option (head (weights 0%nat)) IndexError "list index out of range";
    let convert := bf16_projection (default (128, 128) block_size) (String.eqb (t_dtype first) FP8) in
    gate_proj ← convert (weights 0%nat) (scales gate_name);
    up_proj ← convert (weights 1%nat) (scales up_name);
    down_proj ← convert (weights 2%nat) (scales down_name);
    mret (gate_proj, up_proj, down_proj).

(** ** INT8 partitions *)

(** [os.listdir] of a directory *)
Context (list_dir : string -> option (list string)).

Definition find_safetensor_files (kt_weight_path : string) : res (list string) :=
  names ← of_option (list_dir kt_weight_path) FileNotFoundError "kt_weight_path directory not found";
  let safetensor_files := join_file kt_weight_path <$> List.filter (ends_with ".safetensors") (merge_sort text_le names) in
  _ ← raise_if (bool_decide (safetensor_files = [])) FileNotFoundError "No safetensors files found";
  mret safetensor_files.

Definition load_kt_weight_index (kt_weight_path : string) : res (list (string * string)) :=
  safetensor_files ← find_safetensor_files kt_weight_path;
  for_each safetensor_files [] (fun index file_path =>
    handle ← safe_open file_path;
    mret (foldl (fun index key => dict_set key file_path index) index handle.*1)).

(** [s.split(p)[0]] *)
Fixpoint before (p s : string) : string :=
  match s with
  | EmptyString => ""
  | String c s' => if starts_with p s then "" else String c (before p s')
  end.

Definition numa_prefix (layer_idx : Z) : string := "blk." +:+ str_of_Z layer_idx +:+ ".ffn_gate_exps.0.numa.".

(** [int(key.split("numa.")[1].split(".")[0])] of a key that starts so *)
Definition numa_of_key (layer_idx : Z) (key : string) : res Z :=
  match strip_prefix (numa_prefix layer_idx) key with
  | Some rest => int_of_text (before "." (before "numa." rest))
  | None => Err (Raise IndexError "list index out of range")
  end.

Definition count_numa (layer_idx : Z) (index : list (string * string)) : res Z :=
  for_each (List.filter (fun key => starts_with (numa_prefix layer_idx) key && ends_with ".weight" key) index.*1) 0
    (fun numa_count key => numa_idx ← numa_of_key layer_idx key; mret (Z.max numa_count (numa_idx + 1))).

Definition int8_base (layer_idx : Z) (projection : string) (expert_idx numa_idx : Z) : string :=
  "blk." +:+ str_of_Z layer_idx +:+ "." +:+ projection +:+ "." +:+ str_of_Z expert_idx +:+ ".numa." +:+ str_of_Z numa_idx.

(** One partition of an expert's projection: its weight and its scale, from the
    file of the weight. *)
Definition int8_part (index : list (string * string)) (base : string) : res (tensor * tensor) :=
  file_path ← of_option (dict_get (base +:+ ".weight") index) FileNotFoundError "Weight key not found";
  handle ← safe_open file_path;
  w ← get_tensor handle (base +:+ ".weight");
  s ← get_tensor handle (base +:+ ".scale");
  mret (w, s).

Definition int8_expert (index : list (string * string)) (layer_idx numa_count rows cols : Z) (projection : string) (expert_idx : Z)
    : res (tensor * tensor) :=
  parts ← mapM (fun numa_idx => int8_part index (int8_base layer_idx projection expert_idx numa_idx)) (seqZ 0 numa_count);
  w ← t_cat parts.*1;
  s ← t_cat parts.*2;
  w ← t_view [rows; cols] w;
  mret (w, s).

(** An expert's three projections, before those of the next expert. *)
Definition int8_row (index : list (string * string)) (layer_idx numa_count hidden_size intermediate_size expert_idx : Z)
    : res (list (tensor * tensor)) :=
  mapM (fun '(projection, (rows, cols)) => int8_expert index layer_idx numa_count rows cols projection expert_idx)
    [("ffn_gate_exps", (intermediate_size, hidden_size)); ("ffn_up_exps", (intermediate_size, hidden_size));
     ("ffn_down_exps", (hidden_size, intermediate_size))].

(** [INT8ExpertWeights]: per projection, the stacked weights and scales. *)
Definition load_experts_from_kt_weight_path (kt_weight_path : string) (layer_idx num_experts hidden_size intermediate_size : Z)
    : res (list (tensor * tensor)) :=
  index ← load_kt_weight_index kt_weight_path;
  numa_count ← count_numa layer_idx index;
  _ ← raise_if (numa_count =? 0) FileNotFoundError "No weights found for layer";
  rows ← mapM (int8_row index layer_idx numa_count hidden_size intermediate_size) (seqZ 0 num_experts);
  mapM (fun p => let column := omap (fun row : list (tensor * tensor) => row !! p) rows in
                 w ← t_stack column.*1; s ← t_stack column.*2; mret (w, s)) (seq 0 3).
End loaders.
