(* ===== verification/ExpertWeightsSpec.v ===== *)
(** * Loading the experts of a layer: properties

    Reading files group by group is reading each key; a layer that a loader
    returns is made of the tensors that the checkpoint has for each expert, in
    the order of experts, with the types and shapes that the engine is given; the
    two packings of RAWINT4 are the same bytes; fused layouts are told apart. *)
From S2P Require Import Prelude PyStr PyVal Backend WeightSource Arch Checkpoint ExpertWeights.
From Stdlib Require Import Ascii.

Local Open Scope string_scope.
Local Open Scope list_scope.
Local Open Scope Z_scope.

(** ** Loops over results *)

Lemma mapM_res_Ok {A B} (f : A → res B) l k : mapM f l = Ok k ↔ Forall2 (λ x y, f x = Ok y) l k.
Proof.
  revert k. induction l as [|x l IH]; intros k; simpl.
  - split; [by intros [= <-]|by inversion 1].
  - rewrite bind_ok. setoid_rewrite bind_ok. setoid_rewrite IH. split.
    + intros (y & Hy & k' & Hk & [= <-]). by constructor.
    + inversion 1; subst. naive_solver.
Qed.

(** A list of equally long rows, by column. *)
Lemma omap_column {A} (rows : list (list A)) p n : Forall (λ row, length row = n) rows → (p < n)%nat →
  ∀ e, omap (λ row, row !! p) rows !! e = (rows !! e) ≫= (λ row, row !! p).
Proof.
  intros Hr Hp. induction Hr as [|row rows Hrow Hr IH]; intros e; [done|]. simpl.
  destruct (lookup_lt_is_Some_2 row p ltac:(lia)) as [x Hx]. rewrite Hx. destruct e as [|e]; simpl; [done|]. apply IH.
Qed.

Lemma length_omap_column {A} (rows : list (list A)) p n : Forall (λ row, length row = n) rows → (p < n)%nat →
  length (omap (λ row, row !! p) rows) = length rows.
Proof.
  intros Hr Hp. induction Hr as [|row rows Hrow Hr IH]; [done|].
  destruct (lookup_lt_is_Some_2 row p ltac:(lia)) as [x Hx].
  change (length (match row !! p with Some y => y :: omap (λ row, row !! p) rows | None => omap (λ row, row !! p) rows end)
          = S (length rows)). rewrite Hx. simpl. by f_equal.
Qed.

(** ** Reading by groups *)

Section reading.
Context `{Tensors} (safe_open : string → res (list (string * tensor))).

(** One key, read from its file. *)
Definition read_key (file_of : string → option string) (key : string) : res tensor :=
  file ← of_option (file_of key) KeyError "no such tensor";
  handle ← safe_open file;
  get_tensor handle key.

Section file_of.
Context (file_of : string → option string).

(** Every group asks a file for keys that are in it, and every key is asked for. *)
Definition well_grouped (keys : list string) (groups : list (string * list string)) : Prop :=
  (∀ file ks k, (file, ks) ∈ groups → k ∈ ks → file_of k = Some file) ∧
  (∀ k file, k ∈ keys → file_of k = Some file → ∃ ks, (file, ks) ∈ groups ∧ k ∈ ks) ∧
  (∀ file ks, (file, ks) ∈ groups → ks ≠ []).

Lemma dict_set_elem {A} k (v : A) d kv : NoDup d.*1 → kv ∈ dict_set k v d ↔ kv = (k, v) ∨ (kv ∈ d ∧ kv.1 ≠ k).
Proof.
  induction d as [|[k' v'] d IH]; intros Hnd; simpl.
  - rewrite list_elem_of_singleton. split; [by left|]. intros [|[?%elem_of_nil _]]; done.
  - rewrite fmap_cons in Hnd. apply NoDup_cons in Hnd as [Hk Hnd]. destruct (String.eqb_spec k k') as [<-|Hne].
    + rewrite !elem_of_cons. split.
      * intros [->|Hin]; [by left|right]. split; [by right|]. intros <-. apply Hk. simpl. by apply list_elem_of_fmap_2.
      * intros [->|[[->|Hin] Hn]]; [by left|done|by right].
    + rewrite !elem_of_cons, IH by done. split.
      * intros [->|[->|[Hin Hn]]]; [right; split; [by left|simpl; congruence]|by left|right; split; [by right|done]].
      * intros [->|[[->|Hin] Hn]]; [by right; left|by left|by right; right].
Qed.

Lemma well_grouped_app keys key file groups : NoDup groups.*1 → well_grouped keys groups → file_of key = Some file →
  well_grouped (keys ++ [key]) (append_at file key groups).
Proof.
  intros Hnd (H1 & H2 & H3) Hf. unfold append_at. split_and!.
  - intros f ks k [[= -> ->]|[Hin _]]%dict_set_elem Hk; [|by eapply H1|done].
    apply elem_of_app in Hk as [Hk| ->%list_elem_of_singleton]; [|done].
    destruct (dict_get file groups) as [ks|] eqn:E; [|by apply elem_of_nil in Hk]. eapply H1; [by apply dict_get_In|done].
  - intros k f Hk Hkf. setoid_rewrite (dict_set_elem file _ groups); [|done..].
    destruct (decide (f = file)) as [->|Hne].
    + eexists. split; [by left|]. apply elem_of_app in Hk as [Hk| ->%list_elem_of_singleton].
      * apply elem_of_app. left. destruct (H2 k file Hk Hkf) as (ks & Hks & Hin). by rewrite (dict_get_NoDup _ _ _ Hnd Hks).
      * apply elem_of_app. right. by left.
    + apply elem_of_app in Hk as [Hk| ->%list_elem_of_singleton]; [|congruence].
      destruct (H2 k f Hk Hkf) as (ks & Hks & Hin). exists ks. split; [right; split; [done|]|done]. simpl. congruence.
  - intros f ks [[= -> ->]|[Hin _]]%dict_set_elem; [by destruct (default [] _)|by eapply H3|done].
Qed.

Lemma group_keys_grouped keys : NoDup (group_keys file_of keys).*1 ∧ well_grouped keys (group_keys file_of keys).
Proof.
  unfold group_keys. induction keys as [|key keys [Hnd Hg]] using rev_ind.
  { split; [constructor|]. split_and!; [by intros f ks k ?%elem_of_nil|by intros k f ?%elem_of_nil|by intros f ks ?%elem_of_nil]. }
  rewrite foldl_app. simpl. destruct (file_of key) as [file|] eqn:Ef.
  - split; [unfold append_at; by apply NoDup_dict_set|by apply well_grouped_app].
  - split; [done|]. destruct Hg as (H1 & H2 & H3). split_and!; [done| |done].
    intros k f [Hk| ->%list_elem_of_singleton]%elem_of_app Hf; [by apply H2|congruence].
Qed.

(** What has been read agrees with the files. *)
Definition faithful (tensors : list (string * tensor)) : Prop :=
  ∀ k t, dict_get k tensors = Some t → read_key file_of k = Ok t.

Lemma dict_get_set {A} k k' (v : A) d : dict_get k (dict_set k' v d) = if String.eqb k k' then Some v else dict_get k d.
Proof.
  destruct (String.eqb_spec k k') as [->|Hne]; [apply dict_get_set_eq|by apply dict_get_set_ne].
Qed.

Lemma read_file_faithful tensors file ks tensors' : (∀ k, k ∈ ks → file_of k = Some file) → faithful tensors →
  read_file safe_open tensors (file, ks) = Ok tensors' →
  faithful tensors' ∧ (∀ k, k ∈ ks ∨ is_Some (dict_get k tensors) → is_Some (dict_get k tensors')).
Proof.
  intros Hks Hf. unfold read_file. simpl. intros (handle & Ho & Hl)%bind_ok.
  revert tensors Hf Hl. induction ks as [|k ks IH]; intros tensors Hf Hl; simpl in Hl.
  - injection Hl as <-. split; [done|]. intros k [?%elem_of_nil|]; done.
  - apply bind_ok in Hl as (tensors1 & (t & Ht & [= <-])%bind_ok & Hl).
    destruct (IH ltac:(intros; apply Hks; by right) (dict_set k t tensors)) as [IH1 IH2]; [|done|].
    { intros k' t'. rewrite dict_get_set. destruct (String.eqb_spec k' k) as [->|]; [|apply Hf].
      intros [= <-]. unfold read_key. rewrite (Hks k ltac:(by left)). simpl. by rewrite Ho. }
    split; [done|]. intros k' [[->|Hk']%elem_of_cons|Hk']; apply IH2; [right|by left|right]; rewrite dict_get_set.
    + rewrite String.eqb_refl. by eexists.
    + destruct (String.eqb k' k); [by eexists|done].
Qed.

(** Reading group by group is reading each key from its file. *)
Lemma grouped_reads keys tensors : read_groups safe_open (group_keys file_of keys) = Ok tensors →
  ∀ k, k ∈ keys → is_Some (file_of k) → ∃ t, dict_get k tensors = Some t ∧ read_key file_of k = Ok t.
Proof.
  intros Hr. destruct (group_keys_grouped keys) as [_ (H1 & H2 & _)]. unfold read_groups in Hr.
  assert (∀ groups acc, (∀ g, g ∈ groups → g ∈ group_keys file_of keys) → faithful acc →
    for_each groups acc (read_file safe_open) = Ok tensors →
    faithful tensors ∧ ∀ k, (∃ g, g ∈ groups ∧ k ∈ g.2) ∨ is_Some (dict_get k acc) → is_Some (dict_get k tensors)) as Hgen.
  { induction groups as [|[file ks] groups IH]; intros acc Hsub Hf Hl; simpl in Hl.
    - injection Hl as <-. split; [done|]. intros k [(g & ?%elem_of_nil & _)|]; done.
    - apply bind_ok in Hl as (acc1 & Hrf & Hl).
      destruct (read_file_faithful acc file ks acc1) as [F1 F2]; [|done|done|].
      { intros k Hk. by eapply H1; [apply Hsub; left|]. }
      destruct (IH acc1) as [G1 G2]; [by intros g Hg; apply Hsub; right|done|done|].
      split; [done|]. intros k [(g & [->|Hg]%elem_of_cons & Hk)|Hk]; apply G2; [right; apply F2; by left|by left; exists g|right; apply F2; by right]. }
  destruct (Hgen (group_keys file_of keys) []) as [F G]; [done|done|done|].
  intros k Hk [file Hfile]. destruct (H2 k file Hk Hfile) as (ks & Hks & Hin).
  destruct (G k) as [t Ht]; [left; by exists (file, ks)|]. exists t. split; [done|by apply F].
Qed.

(** Reading succeeds if every key can be read. *)
Lemma grouped_reads_succeed keys : (∀ k, k ∈ keys → is_Some (file_of k) ∧ is_ok (read_key file_of k) = true) →
  ∃ tensors, read_groups safe_open (group_keys file_of keys) = Ok tensors.
Proof.
  intros Hall. destruct (group_keys_grouped keys) as [_ Hg].
  assert (∀ file ks k, (file, ks) ∈ group_keys file_of keys → k ∈ ks → k ∈ keys) as Hkeys.
  { clear. unfold group_keys. induction keys as [|key keys IH] using rev_ind; [by intros f ks k ?%elem_of_nil|].
    intros f ks k. rewrite foldl_app. simpl. destruct (file_of key) as [file|]; [|intros; apply elem_of_app; left; by eapply IH].
    intros [[= -> ->]|[Hin _]]%dict_set_elem Hk; [..|apply group_keys_grouped]; apply elem_of_app; [|left; by eapply IH].
    apply elem_of_app in Hk as [Hk| ->%list_elem_of_singleton]; [left|right; by left].
    destruct (dict_get file _) as [ks|] eqn:E; [|by apply elem_of_nil in Hk]. eapply IH; [by apply dict_get_In|done]. }
  destruct Hg as (H1 & _ & H3). unfold read_groups. generalize (@nil (string * tensor)).
  assert (∀ g, g ∈ group_keys file_of keys → g ∈ group_keys file_of keys) as Hsub by done. revert Hsub.
  generalize (group_keys file_of keys) at 1 3 as groups. induction groups as [|[file ks] groups IH]; intros Hsub acc; [by eexists|].
  assert (∃ acc', read_file safe_open acc (file, ks) = Ok acc') as [acc' Hacc].
  { assert ((file, ks) ∈ group_keys file_of keys) as Hin by (apply Hsub; left).
    assert (∀ k, k ∈ ks → ∃ handle t, safe_open file = Ok handle ∧ get_tensor handle k = Ok t) as Hk.
    { intros k Hk. destruct (Hall k) as [_ Hok]; [by eapply Hkeys|]. unfold read_key in Hok. rewrite (H1 _ _ _ Hin Hk) in Hok. simpl in Hok.
      destruct (safe_open file) as [handle|]; [|done]. simpl in Hok. destruct (get_tensor handle k) as [t|] eqn:E; [|done].
      by exists handle, t. }
    destruct ks as [|k0 ks]; [by apply H3 in Hin|]. destruct (Hk k0) as (handle & _ & Ho & _); [by left|].
    unfold read_file. cbn [fst snd]. rewrite Ho. cbn [mbind res_bind]. clear Hin. revert acc Hk. generalize (k0 :: ks) as l.
    induction l as [|k l IHl]; intros acc Hk; [by exists acc|]. destruct (Hk k) as (h' & t & Ho' & Ht); [by left|].
    assert (h' = handle) as -> by congruence. simpl. rewrite Ht. simpl. apply IHl. intros k' Hk'. apply Hk. by right. }
  destruct (IH (λ g Hgin, Hsub g (list_elem_of_further _ _ _ Hgin)) acc') as [tensors Ht].
  exists tensors. simpl. by rewrite Hacc.
Qed.

(** After grouped reads a key has what its file has. *)
Lemma grouped_reads_same keys tensors : (∀ k, k ∈ keys → is_Some (file_of k)) →
  read_groups safe_open (group_keys file_of keys) = Ok tensors →
  ∀ k, k ∈ keys → ∀ t, dict_get k tensors = Some t ↔ read_key file_of k = Ok t.
Proof.
  intros Hp Hr k Hk t. destruct (grouped_reads keys tensors Hr k Hk (Hp k Hk)) as (t' & -> & ->). split; intros [= ->]; done.
Qed.
End file_of.
End reading.

(** ** Block FP8 *)

Section fp8.
Context `{Tensors} (safe_open : string → res (list (string * tensor))).

Abbreviation stored files key := (read_key safe_open (λ k, dict_get k files) key).

(** One expert's part of a projection: the two tensors that the checkpoint has
    under its keys, with the types and shapes of 128x128 blocks, made contiguous,
    the scale in single precision. *)
Definition fp8_pair (files : list (string * string)) (s : layer_source) (e : Z) (spec : string * (Z * Z)) (pair : tensor * tensor) : Prop :=
  let base := projection_base s spec.1 e in
  ∃ weight scale, stored files (weight_key base) = Ok weight ∧ stored files (scale_inv_key base) = Ok scale ∧
    t_device weight = "cpu" ∧ t_dtype weight = FP8 ∧ t_shape weight = [spec.2.1; spec.2.2] ∧
    t_device scale = "cpu" ∧ t_dtype scale ∈ [BF16; FP32] ∧ t_shape scale = [spec.2.1 / 128; spec.2.2 / 128] ∧
    pair = (t_contiguous weight, t_contiguous (t_cpu (t_to FP32 scale))).

Lemma value_error_ok c msg : value_error c msg = Ok tt ↔ c = false.
Proof. apply raise_if_ok. Qed.

Lemma fp8_projection_spec tensors base shape pair :
  fp8_projection tensors base shape = Ok pair ↔
  ∃ weight scale, dict_get (weight_key base) tensors = Some weight ∧ dict_get (scale_inv_key base) tensors = Some scale ∧
    t_device weight = "cpu" ∧ t_dtype weight = FP8 ∧ t_shape weight = [shape.1; shape.2] ∧
    t_device scale = "cpu" ∧ t_dtype scale ∈ [BF16; FP32] ∧ t_shape scale = [shape.1 / 128; shape.2 / 128] ∧
    pair = (t_contiguous weight, t_contiguous (t_cpu (t_to FP32 scale))).
Proof.
  unfold fp8_projection, tensor_of. rewrite bind_ok. setoid_rewrite bind_ok. setoid_rewrite of_option_ok. split.
  - intros (w & Hw & sc & Hs & Hrest). exists w, sc. unfold value_error in Hrest. repeat rewrite bind_ok in Hrest.
    destruct Hrest as (u1 & H1%raise_if_ok & Hrest). apply bind_ok in Hrest as (u2 & H2%raise_if_ok & Hrest).
    apply bind_ok in Hrest as (u3 & H3%raise_if_ok & Hrest). apply bind_ok in Hrest as (u4 & H4%raise_if_ok & [= <-]).
    rewrite ?orb_false_iff, ?negb_false_iff, ?String.eqb_eq, ?bool_decide_eq_true in *. naive_solver.
  - intros (w & sc & Hw & Hs & H1 & H2 & H3 & H4 & H5 & H6 & ->). exists w. split; [done|]. exists sc. split; [done|].
    rewrite H1, H2, H4. rewrite !String.eqb_refl. rewrite !bool_decide_true by done. done.
Qed.

Lemma bind_res_ok {A B} (m : res A) (f : A → res B) b : (m ≫= f) = Ok b → ∃ a, m = Ok a ∧ f a = Ok b.
Proof. apply bind_ok. Qed.

Lemma present_ok keys files msg : check_present keys files msg = Ok tt ↔ ∀ k, k ∈ keys → is_Some (dict_get k files).
Proof.
  unfold check_present. rewrite raise_if_ok. rewrite <-not_true_iff_false, existsb_exists. split.
  - intros Hn k Hk. destruct (dict_get k files) eqn:E; [by eexists|]. exfalso. apply Hn. exists k. rewrite E. by rewrite <-list_elem_of_In.
  - intros Hall (k & Hk%list_elem_of_In & Hd). destruct (Hall k Hk) as [f Hf]. by rewrite Hf in Hd.
Qed.

Lemma fp8_keys_elem s specs k : k ∈ fp8_keys s specs ↔ ∃ e spec, e ∈ expert_range s ∧ spec ∈ specs ∧
  (k = weight_key (projection_base s spec.1 e) ∨ k = scale_inv_key (projection_base s spec.1 e)).
Proof.
  unfold fp8_keys. rewrite list_elem_of_bind. setoid_rewrite list_elem_of_bind. setoid_rewrite elem_of_cons.
  setoid_rewrite list_elem_of_singleton. naive_solver.
Qed.

Lemma Forall2_iff_in {A B} (P Q : A → B → Prop) l k : (∀ x y, x ∈ l → P x y ↔ Q x y) → Forall2 P l k ↔ Forall2 Q l k.
Proof. intros Hi. split; intros Hf; (eapply Forall2_impl_in; [exact Hf|]); intros x y Hx; by apply Hi. Qed.

(** Rows by expert, read from grouped files, are the stored tensors. *)
Lemma fp8_rows files s specs tensors rows :
  (∀ k, k ∈ fp8_keys s specs → is_Some (dict_get k files)) →
  read_groups safe_open (group_keys (λ key, dict_get key files) (fp8_keys s specs)) = Ok tensors →
  mapM (λ e, mapM (λ spec, fp8_projection tensors (projection_base s spec.1 e) spec.2) specs) (expert_range s) = Ok rows ↔
  Forall2 (λ e row, Forall2 (fp8_pair files s e) specs row) (expert_range s) rows.
Proof.
  intros Hp Hr. rewrite mapM_res_Ok. apply Forall2_iff_in. intros e row He. rewrite mapM_res_Ok. apply Forall2_iff_in.
  intros spec pair Hspec. rewrite fp8_projection_spec. unfold fp8_pair.
  pose proof (grouped_reads_same safe_open _ _ _ Hp Hr) as Hsame.
  split; intros (w & sc & Hw & Hs & Hrest); exists w, sc; (split; [|split; [|done]]); apply Hsame; try done; apply fp8_keys_elem; eauto 10.
Qed.

(** What the loader promises for a layer. *)
Definition fp8_layer (s : layer_source) (hidden_size : Z) (out : fp8_experts) : Prop := ∃ names files rows,
  projection_names s = Ok names ∧ checkpoint_tensor_files safe_open (ls_files s) (ls_metadata s) = Ok files ∧
  (∀ suffix, suffix ∈ [".gate_up_proj"; ".gate_up_proj.weight"; ".down_proj"; ".down_proj.weight"] →
     dict_get (experts_prefix s +:+ suffix) files = None) ∧
  Forall2 (λ e row, Forall2 (fp8_pair files s e) (projection_specs names hidden_size (ma_intermediate_size (ls_config s))) row)
    (expert_range s) rows ∧
  length out = 3%nat ∧
  ∀ p, (p < 3)%nat → ∃ column, out !! p = Some column ∧ ∀ i, column !! i = rows !! i ≫= (λ row, row !! p).

Lemma rows_of_three {A B} (P : A → string * (Z * Z) → B → Prop) names h i (l : list A) (rows : list (list B)) :
  Forall2 (λ e row, Forall2 (P e) (projection_specs names h i) row) l rows → Forall (λ row, length row = 3%nat) rows.
Proof.
  induction 1 as [|e row l rows Hrow _ IH]; constructor; [|done].
  rewrite <-(Forall2_length _ _ _ Hrow). by destruct names as [[]].
Qed.

(** The three columns of rows of three, and nothing else. *)
Lemma three_columns {A} (rows : list (list A)) out : Forall (λ row, length row = 3%nat) rows →
  out = (λ p, omap (λ row, row !! p) rows) <$> seq 0 3 ↔
  length out = 3%nat ∧ ∀ p, (p < 3)%nat → ∃ column, out !! p = Some column ∧ ∀ i, column !! i = rows !! i ≫= (λ row, row !! p).
Proof.
  intros Hr. split.
  - intros ->. split; [done|]. intros p Hp. exists (omap (λ row, row !! p) rows). split.
    + rewrite list_lookup_fmap, lookup_seq_lt by done. done.
    + by apply (omap_column rows p 3).
  - intros [Hlen Hall]. apply list_eq. intros p. destruct (decide (p < 3)%nat) as [Hp|Hp].
    + destruct (Hall p Hp) as (column & -> & Hc). rewrite list_lookup_fmap, lookup_seq_lt by done. simpl. f_equal.
      apply list_eq. intros i. rewrite Hc. by rewrite (omap_column rows p 3).
    + rewrite !lookup_ge_None_2; [done|rewrite length_fmap, length_seq; lia|lia].
Qed.

Lemma no_rest n m : has_rest n m = false ↔ n mod m = 0.
Proof. unfold has_rest. rewrite negb_false_iff. apply Z.eqb_eq. Qed.

(** C24. The loader of block-FP8 experts returns exactly when the checkpoint has
    files, the blocks are 128x128 and divide both dimensions, no fused tensor is
    there, and every projection of every expert has its weight and its scale in
    the file that the index names, on the CPU, with the type and the shape of
    blocks; and what it returns is those tensors, each in the place of its
    expert and projection. *)
Theorem loaded_fp8_experts_are_exact s hidden_size block_size out :
  load_block_fp8_experts_from_checkpoint_files safe_open s hidden_size block_size = Ok out ↔
  ls_files s ≠ [] ∧ block_size = (128, 128) ∧ hidden_size mod 128 = 0 ∧ ma_intermediate_size (ls_config s) mod 128 = 0 ∧
  fp8_layer s hidden_size out.
Proof.
  unfold load_block_fp8_experts_from_checkpoint_files, fp8_layer.
  set (fused := [".gate_up_proj"; ".gate_up_proj.weight"; ".down_proj"; ".down_proj.weight"]).
  assert (∀ files, existsb (λ key, match dict_get key files with Some _ => true | None => false end)
                     ((λ suffix, experts_prefix s +:+ suffix) <$> fused) = false
                   ↔ ∀ suffix, suffix ∈ fused → dict_get (experts_prefix s +:+ suffix) files = @None string) as Hfused.
  { intros files. rewrite <-not_true_iff_false, existsb_exists. split.
    - intros Hn suffix Hs. destruct (dict_get _ files) as [f|] eqn:E; [|done]. exfalso. apply Hn. exists (experts_prefix s +:+ suffix).
      rewrite E. split; [|done]. apply list_elem_of_In. by apply (list_elem_of_fmap_2 (λ suffix, experts_prefix s +:+ suffix)).
    - intros Hall (k & Hk%list_elem_of_In & Hd). apply list_elem_of_fmap_1 in Hk as (suffix & -> & Hs). by rewrite Hall in Hd. }
  split.
  - intros (u1 & H1%raise_if_ok & Hx)%bind_ok. apply bind_ok in Hx as (u2 & H2%raise_if_ok & Hx).
    apply bind_ok in Hx as (u3 & H3%raise_if_ok & Hx). apply bind_ok in Hx as (names & Hn & Hx).
    apply bind_ok in Hx as (files & Hf & Hx). apply bind_ok in Hx as (u4 & H4%raise_if_ok & Hx).
    apply bind_ok in Hx as ([] & H5 & Hx). apply bind_ok in Hx as (tensors & Ht & Hx). apply bind_ok in Hx as (rows & Hrows & [= <-]).
    pose proof (proj1 (present_ok _ _ _) H5) as Hp. pose proof (proj1 (fp8_rows files s _ tensors rows Hp Ht) Hrows) as Hrel.
    apply orb_false_iff in H3 as [H3a%no_rest H3b%no_rest]. apply bool_decide_eq_false in H1. apply negb_false_iff, bool_decide_eq_true in H2.
    split_and!; [done|done|done|done|]. exists names, files, rows. split_and!; [done|done|exact (proj1 (Hfused files) H4)|done|done|].
    apply three_columns; [|done]. by eapply rows_of_three.
  - intros (H1 & -> & H3 & H4 & names & files & rows & Hn & Hf & Hnf & Hrel & Hlen & Hcols).
    rewrite (bool_decide_false (ls_files s = [])), (bool_decide_true ((128, 128) = (128, 128))) by done.
    unfold value_error. rewrite (proj2 (no_rest _ _) H3), (proj2 (no_rest _ _) H4). cbn [negb orb raise_if mbind res_bind].
    rewrite Hn. cbn [mbind res_bind]. rewrite Hf. cbn [mbind res_bind]. rewrite (proj2 (Hfused files) Hnf). cbn [raise_if mbind res_bind].
    set (specs := projection_specs _ _ _) in *.
    assert (∀ k, k ∈ fp8_keys s specs → is_ok (stored files k) = true) as Hok.
    { intros k (e & spec & He & Hs & Hk)%fp8_keys_elem. apply list_elem_of_lookup in He as [i Hi].
      destruct (Forall2_lookup_l _ _ _ _ _ Hrel Hi) as (row & _ & Hrow). apply list_elem_of_lookup in Hs as [p Hp].
      destruct (Forall2_lookup_l _ _ _ _ _ Hrow Hp) as (pair & _ & w & sc & Hw & Hsc & _). by destruct Hk as [->| ->]; rewrite ?Hw, ?Hsc. }
    assert (∀ k, k ∈ fp8_keys s specs → is_Some (dict_get k files)) as Hsome.
    { intros k Hk. specialize (Hok k Hk). unfold read_key in Hok. destruct (dict_get k files); [by eexists|done]. }
    rewrite (proj2 (present_ok (fp8_keys s specs) files _) Hsome). cbn [mbind res_bind].
    destruct (grouped_reads_succeed safe_open (λ k, dict_get k files) (fp8_keys s specs)) as [tensors Ht]; [by auto|].
    rewrite Ht. cbn [mbind res_bind]. rewrite (proj2 (fp8_rows files s specs tensors rows Hsome Ht) Hrel). cbn [mbind res_bind].
    unfold mret, res_ret. f_equal. symmetry. apply three_columns; [|done]. by eapply rows_of_three.
Qed.
End fp8.

(** ** RAWINT4 *)

(** *** Two packings of the same nibbles *)

(** The bytes of a 32-bit word, the lowest first. *)
Definition le_bytes (w : Z) : list Z := [w mod 256; (w / 256) mod 256; (w / 65536) mod 256; (w / 16777216) mod 256].

(** What torch documents of views: they reinterpret the memory of a contiguous
    tensor, on a little-endian machine. *)
Class ByteLaws `{Tensors} := {
  contiguous_values t : t_values (t_contiguous t) = t_values t;
  view_values shape t v : t_view shape t = Ok v → t_values v = t_values t;
  bytes_values t : t_dtype t = "int32" → t_values (t_bytes (t_contiguous t)) = t_values t ≫= le_bytes;
}.

(** Nibbles in bytes, two in each, and in signed 32-bit words, eight in each; the
    first is the lowest. *)
Fixpoint pack_uint8 (nibbles : list Z) : list Z :=
  match nibbles with n0 :: n1 :: l => (n0 + 16 * n1) :: pack_uint8 l | _ => [] end.

Definition signed32 (u : Z) : Z := if u <? 2147483648 then u else u - 4294967296.

Fixpoint pack_int32 (nibbles : list Z) : list Z :=
  match nibbles with
  | n0 :: n1 :: n2 :: n3 :: n4 :: n5 :: n6 :: n7 :: l =>
      signed32 (n0 + 16 * n1 + 256 * n2 + 4096 * n3 + 65536 * n4 + 1048576 * n5 + 16777216 * n6 + 268435456 * n7) :: pack_int32 l
  | _ => []
  end.

Lemma le_bytes_signed b0 b1 b2 b3 : 0 <= b0 < 256 → 0 <= b1 < 256 → 0 <= b2 < 256 → 0 <= b3 < 256 →
  le_bytes (signed32 (b0 + 256 * b1 + 65536 * b2 + 16777216 * b3)) = [b0; b1; b2; b3].
Proof.
  intros. unfold le_bytes, signed32. destruct (Z.ltb_spec (b0 + 256 * b1 + 65536 * b2 + 16777216 * b3) 2147483648);
    repeat f_equal; Z.to_euclidean_division_equations; lia.
Qed.

Lemma pack_bytes k nibbles : length nibbles = (8 * k)%nat → Forall (λ n, 0 <= n < 16) nibbles →
  pack_int32 nibbles ≫= le_bytes = pack_uint8 nibbles.
Proof.
  revert nibbles. induction k as [|k IH]; intros l Hl Hn; [by destruct l|].
  destruct l as [|n0 [|n1 [|n2 [|n3 [|n4 [|n5 [|n6 [|n7 l]]]]]]]]; simpl in Hl; try lia.
  repeat match goal with H : Forall _ (_ :: _) |- _ => apply Forall_cons in H as [? H] end.
  cbn [pack_int32 pack_uint8]. rewrite bind_cons, IH by (done || lia).
  replace (n0 + 16 * n1 + 256 * n2 + 4096 * n3 + 65536 * n4 + 1048576 * n5 + 16777216 * n6 + 268435456 * n7) with
    ((n0 + 16 * n1) + 256 * (n2 + 16 * n3) + 65536 * (n4 + 16 * n5) + 16777216 * (n6 + 16 * n7)) by lia.
  by rewrite le_bytes_signed by lia.
Qed.

(** A weight may be packed in 32-bit words or in bytes: of the same nibbles,
    both become the same bytes, whatever their signs as words, with one row of
    [cols / 2] bytes for each row. *)
Theorem rawint4_packings_agree `{ByteLaws} words bytes rows cols nibbles k v v' :
  length nibbles = (8 * k)%nat → Forall (λ n, 0 <= n < 16) nibbles →
  t_dtype words = "int32" → t_values words = pack_int32 nibbles →
  t_dtype bytes = "uint8" → t_values bytes = pack_uint8 nibbles →
  normalize_rawint4_packed_weight words rows cols = Ok v →
  normalize_rawint4_packed_weight bytes rows cols = Ok v' →
  t_values v = t_values v' ∧ t_values v = pack_uint8 nibbles ∧ t_shape bytes = [rows; cols / 2] ∧ t_shape words = [rows; cols / 8].
Proof.
  intros Hl Hn Hw Hwv Hb Hbv. unfold normalize_rawint4_packed_weight, value_error. rewrite Hw, Hb. cbn [String.eqb Ascii.eqb Bool.eqb].
  intros (u1 & _ & (u2 & _ & (u3 & H3%raise_if_ok & (v0 & Hv0 & [= <-])%bind_ok)%bind_ok)%bind_ok)%bind_ok.
  intros (u4 & _ & (u5 & _ & (u6 & H6%raise_if_ok & [= <-])%bind_ok)%bind_ok)%bind_ok.
  apply negb_false_iff, bool_decide_eq_true in H3, H6.
  rewrite !contiguous_values, (view_values _ _ _ Hv0), bytes_values, Hwv, Hbv by done.
  rewrite (pack_bytes k) by done. done.
Qed.

(** *** A layer *)

Section rawint4.
Context `{Tensors} (safe_open : string → res (list (string * tensor))).

Abbreviation stored files key := (read_key safe_open (λ k, dict_get k files) key).

(** One expert's part of a projection: what the checkpoint has under its three
    keys, whose recorded shape is the expected one. *)
Definition rawint4_part (files : list (string * string)) (rows cols : Z) (base : string) (part : tensor * tensor) : Prop :=
  ∃ shape packed scale weight, stored files (shape_key base) = Ok shape ∧ stored files (packed_key base) = Ok packed ∧
    stored files (scale_key base) = Ok scale ∧
    t_device shape = "cpu" ∧ t_dtype shape ∈ ["int32"; "int64"] ∧ t_values shape = [rows; cols] ∧
    normalize_rawint4_packed_weight packed rows cols = Ok weight ∧
    t_device scale = "cpu" ∧ t_dtype scale ∈ [BF16; FP32] ∧ t_shape scale = [rows; cols / 32] ∧
    part = (weight, t_contiguous (t_cpu (t_to BF16 scale))).

Lemma rawint4_expert_spec tensors rows cols base part : rawint4_expert tensors rows cols base = Ok part ↔
  ∃ shape packed scale weight, dict_get (shape_key base) tensors = Some shape ∧ dict_get (packed_key base) tensors = Some packed ∧
    dict_get (scale_key base) tensors = Some scale ∧
    t_device shape = "cpu" ∧ t_dtype shape ∈ ["int32"; "int64"] ∧ t_values shape = [rows; cols] ∧
    normalize_rawint4_packed_weight packed rows cols = Ok weight ∧
    t_device scale = "cpu" ∧ t_dtype scale ∈ [BF16; FP32] ∧ t_shape scale = [rows; cols / 32] ∧
    part = (weight, t_contiguous (t_cpu (t_to BF16 scale))).
Proof.
  unfold rawint4_expert, tensor_of, value_error. split.
  - intros (shape & Hsh%of_option_ok & Hx)%bind_ok. apply bind_ok in Hx as (u1 & H1%raise_if_ok & Hx).
    apply bind_ok in Hx as (u2 & H2%raise_if_ok & Hx). apply bind_ok in Hx as (packed & Hp%of_option_ok & Hx).
    apply bind_ok in Hx as (weight & Hw & Hx). apply bind_ok in Hx as (scale & Hs%of_option_ok & Hx).
    apply bind_ok in Hx as (u3 & H3%raise_if_ok & Hx). apply bind_ok in Hx as (u4 & H4%raise_if_ok & [= <-]).
    exists shape, packed, scale, weight.
    rewrite ?orb_false_iff, ?negb_false_iff, ?String.eqb_eq, ?bool_decide_eq_true in *. naive_solver.
  - intros (shape & packed & scale & weight & -> & -> & -> & H1 & H2 & H3 & H4 & H5 & H6 & H7 & ->). cbn [of_option mbind res_bind].
    rewrite H1, H5, !String.eqb_refl, (bool_decide_true (t_dtype shape ∈ _)), (bool_decide_true (t_values shape = _)) by done.
    cbn [negb orb raise_if mbind res_bind]. rewrite H4. cbn [mbind res_bind].
    rewrite (bool_decide_true (t_dtype scale ∈ _)), (bool_decide_true (t_shape scale = _)) by done. done.
Qed.

(** The keys of a projection that give an asymmetric weight away. *)
Definition no_zero_points (files : list (string * string)) (bases : list string) : Prop :=
  ∀ base suffix, base ∈ bases → suffix ∈ [".weight_zero_point"; ".zero_point"] → dict_get (base +:+ suffix) files = None.

Lemma zero_points_absent files bases :
  existsb (λ base, existsb (λ key, match dict_get key files with Some _ => true | None => false end)
                     [base +:+ ".weight_zero_point"; base +:+ ".zero_point"]) bases = false ↔ no_zero_points files bases.
Proof.
  unfold no_zero_points. rewrite <-not_true_iff_false, existsb_exists. split.
  - intros Hn base suffix Hb Hs. destruct (dict_get (base +:+ suffix) files) eqn:E; [|done]. exfalso. apply Hn.
    exists base. split; [by apply list_elem_of_In|]. apply existsb_exists. exists (base +:+ suffix). rewrite E. split; [|done].
    apply elem_of_cons in Hs as [->|Hs]; [by left|]. apply list_elem_of_singleton in Hs as ->. right. by left.
  - intros Hall (base & Hb%list_elem_of_In & Hx). apply existsb_exists in Hx as (key & Hk & Hd).
    destruct Hk as [<-|[<-|[]]]; rewrite (Hall base) in Hd; set_solver.
Qed.

(** What one projection of a layer is made of. *)
Definition rawint4_stacked (files : list (string * string)) (s : layer_source) (spec : string * (Z * Z)) (out : tensor * tensor) : Prop :=
  let bases := projection_base s spec.1 <$> expert_range s in
  no_zero_points files bases ∧
  ∃ parts packed scales, Forall2 (rawint4_part files spec.2.1 spec.2.2) bases parts ∧
    t_stack parts.*1 = Ok packed ∧ t_stack parts.*2 = Ok scales ∧ out = (t_contiguous packed, t_contiguous scales).

Lemma rawint4_projection_spec s files spec out : rawint4_projection safe_open s files spec = Ok out ↔ rawint4_stacked files s spec out.
Proof.
  destruct spec as [name [rows cols]]. unfold rawint4_projection, rawint4_stacked. simpl fst. simpl snd.
  set (bases := projection_base s name <$> expert_range s). set (keys := bases ≫= _).
  assert (∀ base, base ∈ bases → packed_key base ∈ keys ∧ scale_key base ∈ keys ∧ shape_key base ∈ keys) as Hkeys.
  { intros base Hb. unfold keys. rewrite !list_elem_of_bind. split_and!; exists base; (split; [|done]); set_solver. }
  assert (∀ tensors parts, (∀ k, k ∈ keys → is_Some (dict_get k files)) →
    read_groups safe_open (group_keys (λ k, dict_get k files) keys) = Ok tensors →
    mapM (rawint4_expert tensors rows cols) bases = Ok parts ↔ Forall2 (rawint4_part files rows cols) bases parts) as Hparts.
  { intros tensors parts Hp Ht. rewrite mapM_res_Ok. apply Forall2_iff_in. intros base part Hb.
    rewrite rawint4_expert_spec. unfold rawint4_part. pose proof (grouped_reads_same safe_open _ _ _ Hp Ht) as Hsame.
    destruct (Hkeys base Hb) as (K1 & K2 & K3). do 4 (apply exist_proper; intros ?). by rewrite !Hsame by done. }
  unfold value_error. split.
  - intros ([] & H1 & Hx)%bind_ok. pose proof (proj1 (present_ok _ _ _) H1) as Hp. apply bind_ok in Hx as (u & H2%raise_if_ok & Hx).
    apply bind_ok in Hx as (tensors & Ht & Hx). apply bind_ok in Hx as (parts & Hps & Hx).
    apply bind_ok in Hx as (packed & Hpk & (scales & Hsc & [= <-])%bind_ok).
    split; [by apply zero_points_absent|]. exists parts, packed, scales. split_and!; [by eapply Hparts|done..].
  - intros (Hz & parts & packed & scales & Hf & Hpk & Hsc & ->).
    assert (∀ k, k ∈ keys → is_ok (stored files k) = true) as Hok.
    { intros k (base & Hk & Hb)%list_elem_of_bind. apply list_elem_of_lookup in Hb as [i Hi].
      destruct (Forall2_lookup_l _ _ _ _ _ Hf Hi) as (part & _ & sh & pk & sc & w & Hs1 & Hs2 & Hs3 & _).
      assert (k = packed_key base ∨ k = scale_key base ∨ k = shape_key base) as [->|[->| ->]] by set_solver; by rewrite ?Hs1, ?Hs2, ?Hs3. }
    assert (∀ k, k ∈ keys → is_Some (dict_get k files)) as Hsome.
    { intros k Hk. specialize (Hok k Hk). unfold read_key in Hok. destruct (dict_get k files); [by eexists|done]. }
    rewrite (proj2 (present_ok keys files _) Hsome). cbn [mbind res_bind]. rewrite (proj2 (zero_points_absent files bases) Hz).
    cbn [raise_if mbind res_bind].
    destruct (grouped_reads_succeed safe_open (λ k, dict_get k files) keys) as [tensors Ht]; [by auto|].
    rewrite Ht. cbn [mbind res_bind]. rewrite (proj2 (Hparts tensors parts Hsome Ht) Hf). cbn [mbind res_bind].
    rewrite Hpk. cbn [mbind res_bind]. rewrite Hsc. done.
Qed.

(** The loader of RAWINT4 experts returns exactly when the checkpoint has
    files, the groups are of 32 and divide both dimensions, no projection has a
    zero point, and every expert has its packed weight, its scales and its
    recorded shape as that projection needs them; and what it returns is, for
    each projection, the stacks of the experts' tensors in their order. *)
Theorem loaded_rawint4_experts_are_exact s hidden_size group_size out :
  load_rawint4_experts_from_checkpoint_files safe_open s hidden_size group_size = Ok out ↔
  ls_files s ≠ [] ∧ group_size = 32 ∧ hidden_size mod 32 = 0 ∧ ma_intermediate_size (ls_config s) mod 32 = 0 ∧
  ∃ files names, checkpoint_tensor_files safe_open (ls_files s) (ls_metadata s) = Ok files ∧ projection_names s = Ok names ∧
    Forall2 (rawint4_stacked files s) (projection_specs names hidden_size (ma_intermediate_size (ls_config s))) out.
Proof.
  unfold load_rawint4_experts_from_checkpoint_files, value_error. split.
  - intros (u1 & H1%raise_if_ok & Hx)%bind_ok. apply bind_ok in Hx as (u2 & H2%raise_if_ok & Hx).
    apply bind_ok in Hx as (u3 & H3%raise_if_ok & Hx). apply bind_ok in Hx as (files & Hf & (names & Hn & Hm)%bind_ok).
    apply negb_false_iff, Z.eqb_eq in H2. subst group_size. apply orb_false_iff in H3 as [H3a%no_rest H3b%no_rest].
    apply bool_decide_eq_false in H1. split_and!; [done..|]. exists files, names. split_and!; [done|done|].
    apply mapM_res_Ok in Hm. eapply Forall2_impl; [exact Hm|]. intros spec o. apply rawint4_projection_spec.
  - intros (H1 & -> & H3 & H4 & files & names & Hf & Hn & Hm).
    rewrite bool_decide_false by done. unfold RAWINT4_GROUP_SIZE. rewrite (proj2 (no_rest _ _) H3), (proj2 (no_rest _ _) H4).
    cbn [raise_if mbind res_bind negb orb Z.eqb Pos.eqb]. rewrite Hf. cbn [mbind res_bind]. rewrite Hn. cbn [mbind res_bind].
    apply mapM_res_Ok. eapply Forall2_impl; [exact Hm|]. intros spec o. apply rawint4_projection_spec.
Qed.
End rawint4.

(** ** Fused layouts *)

(** The two fused layouts have shapes that are never confused, whatever the
    hidden size, also where it is twice the intermediate size: tensors in the
    usual layout are left to be split by rows, tensors in the transposed layout
    are transposed back. *)
Theorem fused_layouts_are_told_apart `{Tensors} (gate_up down gate up : tensor) moe_config hidden_size :
  let expert_num := ma_expert_num moe_config in
  let intermediate_size := ma_intermediate_size moe_config in
  0 < intermediate_size →
  (t_shape gate_up = [expert_num; 2 * intermediate_size; hidden_size] → t_shape down = [expert_num; hidden_size; intermediate_size] →
   canonicalize_qwen3_vl_fused_expert_weights gate_up down moe_config = Ok None ∧
   split_fused gate_up down = Ok (t_contiguous (t_rows 0 (Some intermediate_size) gate_up),
                                  t_contiguous (t_rows intermediate_size None gate_up), t_contiguous down)) ∧
  (t_shape gate_up = [expert_num; hidden_size; 2 * intermediate_size] → t_shape down = [expert_num; intermediate_size; hidden_size] →
   t_split intermediate_size gate_up = [gate; up] →
   canonicalize_qwen3_vl_fused_expert_weights gate_up down moe_config =
     Ok (Some (t_contiguous (t_transpose gate), t_contiguous (t_transpose up), t_contiguous (t_transpose down)))).
Proof.
  intros E I HI. unfold canonicalize_qwen3_vl_fused_expert_weights, split_fused. fold E I. split.
  - intros -> ->. split.
    + case_bool_decide as H1; [|done]. simpl. case_bool_decide as H2; [|done]. exfalso. simplify_eq. lia.
    + simpl. rewrite Z.mul_comm, Z.div_mul by lia. done.
  - intros -> -> Hs. rewrite !bool_decide_true by done. simpl. by rewrite Hs.
Qed.

(** ** INT8 partitions *)

Section int8.
Context `{Tensors} (safe_open : string → res (list (string * tensor))) (list_dir : string → option (list string)).

Lemma count_numa_max layer_idx index n : count_numa layer_idx index = Ok n →
  0 <= n ∧ ∀ key k, key ∈ index.*1 → starts_with (numa_prefix layer_idx) key = true → ends_with ".weight" key = true →
    numa_of_key layer_idx key = Ok k → k < n.
Proof.
  unfold count_numa. intros Hf.
  assert (∀ l acc, for_each l acc (λ numa_count key, numa_idx ← numa_of_key layer_idx key; mret (Z.max numa_count (numa_idx + 1))) = Ok n →
    acc <= n ∧ ∀ key k, key ∈ l → numa_of_key layer_idx key = Ok k → k < n) as Hgen.
  { induction l as [|key l IH]; intros acc Hl; simpl in Hl; [injection Hl as ->; split; [lia|]; by intros key k ?%elem_of_nil|].
    apply bind_ok in Hl as (acc1 & (k0 & Hk0 & [= <-])%bind_ok & Hl). destruct (IH _ Hl) as [IH1 IH2]. split; [lia|].
    intros key' k [->|Hin]%elem_of_cons Hk; [rewrite Hk0 in Hk; injection Hk as ->; lia|by eapply IH2]. }
  destruct (Hgen _ _ Hf) as [H1 H2]. split; [done|]. intros key k Hin Hs He. apply H2. rewrite list_elem_of_In, filter_In, <-list_elem_of_In.
  by rewrite Hs, He.
Qed.

(** A layer that loads has every partition of every expert's projections, each
    with its scale in the file of its weight; and no partition that the first
    expert's gate has is left out. *)
Theorem loaded_int8_partitions_are_complete path layer_idx num_experts hidden_size intermediate_size out :
  load_experts_from_kt_weight_path safe_open list_dir path layer_idx num_experts hidden_size intermediate_size = Ok out →
  ∃ index n, load_kt_weight_index safe_open list_dir path = Ok index ∧ count_numa layer_idx index = Ok n ∧ 0 < n ∧ length out = 3%nat ∧
  (∀ e k projection, 0 <= e < num_experts → 0 <= k < n → projection ∈ ["ffn_gate_exps"; "ffn_up_exps"; "ffn_down_exps"] →
     is_ok (int8_part safe_open index (int8_base layer_idx projection e k)) = true) ∧
  (∀ key k, key ∈ index.*1 → starts_with (numa_prefix layer_idx) key = true → ends_with ".weight" key = true →
     numa_of_key layer_idx key = Ok k → k < n).
Proof.
  unfold load_experts_from_kt_weight_path. intros (index & Hi & Hx)%bind_ok. apply bind_ok in Hx as (n & Hn & Hx).
  apply bind_ok in Hx as (u & Hz%raise_if_ok & Hx). apply bind_ok in Hx as (rows & Hr & Hx).
  apply Z.eqb_neq in Hz. destruct (count_numa_max _ _ _ Hn) as [Hn0 Hmax]. exists index, n.
  apply mapM_res_Ok in Hr, Hx. split_and!; [done|done|lia|by rewrite <-(Forall2_length _ _ _ Hx)| |done].
  intros e k projection He Hk Hp. assert (e ∈ seqZ 0 num_experts) as [i Hie]%list_elem_of_lookup by (apply elem_of_seqZ; lia).
  destruct (Forall2_lookup_l _ _ _ _ _ Hr Hie) as (row & _ & Hrow%mapM_res_Ok).
  assert (∃ rc, (projection, rc) ∈ [("ffn_gate_exps", (intermediate_size, hidden_size)); ("ffn_up_exps", (intermediate_size, hidden_size));
     ("ffn_down_exps", (hidden_size, intermediate_size))]) as ([rs cs] & [j Hj]%list_elem_of_lookup) by set_solver.
  destruct (Forall2_lookup_l _ _ _ _ _ Hrow Hj) as (part & _ & Hpart). unfold int8_expert in Hpart.
  apply bind_ok in Hpart as (parts & Hparts%mapM_res_Ok & _).
  assert (k ∈ seqZ 0 n) as [m Hm]%list_elem_of_lookup by (apply elem_of_seqZ; lia).
  destruct (Forall2_lookup_l _ _ _ _ _ Hparts Hm) as (y & _ & Hy). by rewrite Hy.
Qed.
End int8.
