(* ===== verification/ExpertWeightsExample.v ===== *)
(** * Loading the experts of a layer, on small checkpoints

    Tensors that are their shape, type, device and integer values; a block-FP8
    and a RAWINT4 layer in two files, which load; and witnesses of the properties
    of [ExpertWeightsSpec]. *)
From S2P Require Import Prelude PyStr PyVal Backend WeightSource Arch ExpertWeights ExpertWeightsSpec.
From Stdlib Require Import Ascii.

Local Open Scope string_scope.
Local Open Scope list_scope.
Local Open Scope Z_scope.

Module ExpertWeightsExample.

Record plain_tensor := PlainTensor { pt_shape : list Z; pt_dtype : string; pt_device : string; pt_values : list Z }.

Definition size_of (shape : list Z) : Z := foldr Z.mul 1 shape.

(** [t.view(shape)] keeps the number of elements. *)
Definition viewed (shape : list Z) (t : plain_tensor) : res plain_tensor :=
  if size_of shape =? size_of (pt_shape t) then mret (PlainTensor shape (pt_dtype t) (pt_device t) (pt_values t))
  else Err (Raise RuntimeError "shape is invalid for input").

(** [torch.stack] of tensors of one shape. *)
Definition stacked (ts : list plain_tensor) : res plain_tensor :=
  match ts with
  | [] => Err (Raise RuntimeError "stack expects a non-empty TensorList")
  | t :: _ =>
      if forallb (fun u => bool_decide (pt_shape u = pt_shape t)) ts
      then mret (PlainTensor (Z.of_nat (length ts) :: pt_shape t) (pt_dtype t) (pt_device t) (ts ≫= pt_values))
      else Err (Raise RuntimeError "stack expects each tensor to be equal size")
  end.

(** [t.view(torch.uint8)]: four bytes of each 32-bit word. *)
Definition bytes_of (t : plain_tensor) : plain_tensor :=
  PlainTensor (match rev (pt_shape t) with n :: l => rev (4 * n :: l) | [] => [] end) "uint8" (pt_device t) (pt_values t ≫= le_bytes).

Definition swapped (shape : list Z) : list Z := match shape with [a; b; c] => [a; c; b] | _ => shape end.

#[local] Instance plain_tensors : Tensors := {
  tensor := plain_tensor;
  t_shape := pt_shape; t_dtype := pt_dtype; t_device := pt_device; t_values := pt_values;
  t_contiguous t := t;
  t_to dtype t := PlainTensor (pt_shape t) dtype (pt_device t) (pt_values t);
  t_cpu t := PlainTensor (pt_shape t) (pt_dtype t) "cpu" (pt_values t);
  t_bytes := bytes_of;
  t_view := viewed;
  t_reshape := viewed;
  t_stack := stacked;
  t_cat ts := match ts with t :: _ => mret t | [] => Err (Raise RuntimeError "expected a non-empty list") end;
  t_rows a b t := t;
  t_transpose t := PlainTensor (swapped (pt_shape t)) (pt_dtype t) (pt_device t) [];
  t_split n t := match pt_shape t with
                 | [a; b; c] => replicate (Z.to_nat (c / n)) (PlainTensor [a; b; n] (pt_dtype t) (pt_device t) [])
                 | _ => [] end;
  t_scale_blocks w s := mret w;
}.

#[local] Instance plain_bytes : ByteLaws.
Proof.
  split; [done| |done]. intros shape t v. simpl. unfold viewed. destruct (_ =? _); [|done]. by intros [= <-].
Qed.

(** ** Packings *)

Definition nibbles : list Z := [1; 2; 3; 4; 5; 6; 7; 15; 0; 8; 9; 10; 11; 12; 13; 14].

Definition as_words : plain_tensor := PlainTensor [1; 2] "int32" "cpu" (pack_int32 nibbles).
Definition as_bytes : plain_tensor := PlainTensor [1; 8] "uint8" "cpu" (pack_uint8 nibbles).

Lemma rawint4_packings_agree_witness :
  pack_int32 nibbles = [-144358623; -305419904] ∧
  normalize_rawint4_packed_weight as_words 1 16 = Ok as_bytes ∧
  t_values as_bytes = pack_uint8 nibbles.
Proof.
  assert (normalize_rawint4_packed_weight as_words 1 16 = Ok as_bytes) as Hw by (vm_compute; reflexivity).
  assert (normalize_rawint4_packed_weight as_bytes 1 16 = Ok as_bytes) as Hb by (vm_compute; reflexivity).
  split; [vm_compute; reflexivity|]. split; [exact Hw|].
  apply (@rawint4_packings_agree plain_tensors plain_bytes as_words as_bytes 1 16 nibbles 2 as_bytes as_bytes); try (vm_compute; reflexivity).
  repeat (apply Forall_cons; split; [lia|]). apply Forall_nil. exact I.
Defined.

(** ** Fused layouts *)

Definition square : MOEArchConfig := Arch "mlp" "gate" "experts" ["gate_proj"; "up_proj"; "down_proj"] 2 4 1 false "linear".
Definition of_shape (shape : list Z) : plain_tensor := PlainTensor shape BF16 "cpu" [].

Lemma fused_layouts_are_told_apart_witness :
  canonicalize_qwen3_vl_fused_expert_weights (of_shape [2; 8; 8]) (of_shape [2; 8; 4]) square = Ok None ∧
  canonicalize_qwen3_vl_fused_expert_weights (of_shape [2; 8; 8]) (of_shape [2; 4; 8]) square =
    Ok (Some (of_shape [2; 4; 8], of_shape [2; 4; 8], of_shape [2; 8; 4])).
Proof.
  destruct (@fused_layouts_are_told_apart plain_tensors (of_shape [2; 8; 8]) (of_shape [2; 8; 4]) (of_shape [2; 8; 4]) (of_shape [2; 8; 4])
              square 8 ltac:(simpl; lia)) as [H1 _].
  destruct (@fused_layouts_are_told_apart plain_tensors (of_shape [2; 8; 8]) (of_shape [2; 4; 8]) (of_shape [2; 8; 4]) (of_shape [2; 8; 4])
              square 8 ltac:(simpl; lia)) as [_ H2].
  split; [apply H1; reflexivity|apply H2; vm_compute; reflexivity].
Defined.

(** ** Layers *)

(** One expert whose three projections are in two files. *)
Definition one_expert (intermediate : Z) : MOEArchConfig :=
  Arch "mlp" "gate" "experts" ["gate_proj"; "up_proj"; "down_proj"] 1 intermediate 1 false "linear".

Definition key (name suffix : string) : string := "model.layers.3.mlp.experts.0." +:+ name +:+ suffix.
Definition fp8_weight : plain_tensor := PlainTensor [128; 128] FP8 "cpu" [].
Definition fp8_scale : plain_tensor := PlainTensor [1; 1] BF16 "cpu" [].

Definition fp8_index : list (string * string) :=
  [(key "gate_proj" ".weight", "a"); (key "gate_proj" ".weight_scale_inv", "b"); (key "up_proj" ".weight", "a");
   (key "up_proj" ".weight_scale_inv", "a"); (key "down_proj" ".weight", "b"); (key "down_proj" ".weight_scale_inv", "b")].

Definition fp8_open (file : string) : res (list (string * tensor)) :=
  if String.eqb file "/m/a" then mret [(key "gate_proj" ".weight", fp8_weight); (key "up_proj" ".weight", fp8_weight);
                                       (key "up_proj" ".weight_scale_inv", fp8_scale)]
  else if String.eqb file "/m/b" then mret [(key "gate_proj" ".weight_scale_inv", fp8_scale); (key "down_proj" ".weight", fp8_weight);
                                            (key "down_proj" ".weight_scale_inv", fp8_scale)]
  else Err (Raise FileNotFoundError "No such file or directory").

Definition fp8_source : layer_source := LayerSource ["/m/a"; "/m/b"] (Some fp8_index) "model.layers" (one_expert 128) 3.

Definition fp8_loaded : tensor * tensor := (fp8_weight, PlainTensor [1; 1] FP32 "cpu" []).

Example fp8_layer_loads :
  load_block_fp8_experts_from_checkpoint_files fp8_open fp8_source 128 (128, 128) = Ok [[fp8_loaded]; [fp8_loaded]; [fp8_loaded]].
Proof. vm_compute. reflexivity. Qed.

(** A RAWINT4 layer in one file without an index. *)
Definition int4_entries (name : string) : list (string * tensor) :=
  [(key name ".weight_packed", PlainTensor [32; 4] "int32" "cpu" []); (key name ".weight_scale", PlainTensor [32; 1] FP32 "cpu" []);
   (key name ".weight_shape", PlainTensor [2] "int64" "cpu" [32; 32])].

Definition int4_open (file : string) : res (list (string * tensor)) :=
  mret (int4_entries "gate_proj" ++ int4_entries "up_proj" ++ int4_entries "down_proj").

Definition int4_source : layer_source := LayerSource ["/m/c"] None "model.layers" (one_expert 32) 3.

Example rawint4_layer_loads :
  load_rawint4_experts_from_checkpoint_files int4_open int4_source 32 32 =
    Ok (replicate 3 (PlainTensor [1; 32; 16] "uint8" "cpu" [], PlainTensor [1; 32; 1] BF16 "cpu" [])).
Proof. vm_compute. reflexivity. Qed.

(** A fused BF16 layer in one file: it loads if an index names its tensors, and
    is taken for one tensor per expert if the checkpoint has no index. *)
Definition fused_open (file : string) : res (list (string * tensor)) :=
  mret [("model.layers.3.mlp.experts.gate_up_proj", of_shape [1; 8; 4]); ("model.layers.3.mlp.experts.down_proj", of_shape [1; 4; 4])].

Definition fused_source (index : option (list (string * string))) : layer_source :=
  LayerSource ["/m/model.safetensors"] index "model.layers" (one_expert 4) 3.

Definition fused_index : list (string * string) :=
  [("model.layers.3.mlp.experts.gate_up_proj", "model.safetensors"); ("model.layers.3.mlp.experts.down_proj", "model.safetensors")].

Example fused_layer_needs_an_index :
  is_ok (load_experts_from_checkpoint_files fused_open (fused_source (Some fused_index)) None) = true ∧
  load_experts_from_checkpoint_files fused_open (fused_source None) None = Err (Raise FileNotFoundError "Missing expert weights").
Proof. vm_compute. auto. Qed.

End ExpertWeightsExample.
