(* ===== verification/Placeholders.v ===== *)
(** * Placeholders of routed experts

    Models [_clear_original_expert_weights] and [get_kt_expert_placeholders] of
    [kt-kernel/python/sft/weights.py]: the parameters of a wrapped layer's
    experts are replaced by placeholders that record their shape, and the
    placeholders of a model are found by names that are fixed at the first call.

    Gathering parameters of DeepSpeed, during which they are replaced, leaves the
    registries alone.  What [_iter_weight_params] yields was obtained by
    [getattr], so where it is not registered the container has the attribute and
    is skipped: the branch that sets it is never reached. *)
From S2P Require Import Prelude PyStr PyVal Backend WeightSource Arch Artifacts Modules Ownership.

Local Open Scope string_scope.
Local Open Scope list_scope.
Local Open Scope Z_scope.

#[export] Instance string_order_dec : RelDecision string_le := fun a b => decide (String.leb a b = true).

(** [make_placeholder(parameter)] *)
Definition make_placeholder (empty_placeholders : bool) (t : tensor_obj) : tensor_obj :=
  TensorObj true (if empty_placeholders then [0] else to_shape t) (to_dtype t) "cpu" false true (Some (to_shape t)).

(** [module._parameters[name] = make_placeholder(parameter)] *)
Definition put_placeholder (empty_placeholders : bool) (module : Z) (name : string) (t : tensor_obj) (o : objects) : objects :=
  let '(i, o) := new_tensor (make_placeholder empty_placeholders t) o in
  Objects (set_entry Parameters module name (Some i) (ob_modules o)) (ob_tensors o).

(** The tensor that a value is, if it is a [Parameter]. *)
Definition parameter_of (o : objects) (v : option value) : option tensor_obj :=
  match v with
  | Some (VTensor i) => match ob_tensors o !! i with Some t => if to_parameter t then Some t else None | None => None end
  | _ => None
  end.

Section placeholders.
Context `{Torch}.

(** [detect_fused_experts], of experts in the heap *)
Definition fused_experts (o : objects) (experts : Z) : bool :=
  let three_dimensional name :=
    match get_attribute (ob_modules o) experts name with
    | Some (VTensor i) => match ob_tensors o !! i with Some t => bool_decide (length (to_shape t) = 3%nat) | None => false end
    | _ => false
    end in
  three_dimensional "gate_up_proj" && three_dimensional "down_proj".

(** One name of fused experts. *)
Definition clear_fused (empty_placeholders : bool) (experts : Z) (o : objects) (name : string) : objects :=
  match parameter_of o (get_attribute (ob_modules o) experts name) with
  | Some t => put_placeholder empty_placeholders experts name t o
  | None => o
  end.

(** [_iter_weight_params] for one projection: the module and the name under which
    its parameter is kept, and the parameter. *)
Definition weight_parameter (o : objects) (expert : Z) (weight_name : string) : option (Z * string * tensor_obj) :=
  let ms := ob_modules o in
  match get_attribute ms expert weight_name with
  | Some (VModule proj) =>
      match get_attribute ms proj "weight" with
      | None => None
      | weight_attr =>
          let parametrized_weight := attr_value ms (attr_value ms (Some (VModule proj)) "parametrizations") "weight" in
          match parametrized_weight, parameter_of o (attr_value ms parametrized_weight "original") with
          | Some (VModule container), Some original => Some (container, "original", original)
          | _, _ =>
              match parameter_of o (VTensor <$> (get_entry Parameters proj "weight" ms ≫= id)) with
              | Some direct_weight => Some (proj, "weight", direct_weight)
              | None => (fun t => (proj, "weight", t)) <$> parameter_of o weight_attr
              end
          end
      end
  | _ => None
  end.

(** One projection of one expert. *)
Definition clear_weight (empty_placeholders : bool) (expert : Z) (o : objects) (weight_name : string) : objects :=
  match weight_parameter o expert weight_name with
  | Some (container, param_name, t) =>
      match get_entry Parameters container param_name (ob_modules o) with
      | Some _ => put_placeholder empty_placeholders container param_name t o
      | None => o
      end
  | None => o
  end.

Definition clear_original_expert_weights (empty_placeholders : bool) (moe_module : Z) (moe_config : MOEArchConfig) (o : objects)
    : res objects :=
  match get_attribute (ob_modules o) moe_module (ma_experts_attr moe_config) with
  | None | Some VNone => mret o
  | Some (VModule experts) =>
      if fused_experts o experts
      then mret (foldl (clear_fused empty_placeholders experts) o ["gate_up_proj"; "down_proj"])
      else if match ob_modules o !! experts with Some m => md_is_list m | None => false end
      then mret (foldl (fun o expert => foldl (clear_weight empty_placeholders expert) o (ma_weight_names moe_config)) o
                   (list_items (ob_modules o) experts))
      else Err (Raise TypeError "object is not iterable")
  | Some _ => Err (Raise TypeError "object is not iterable")
  end.

(** ** The inventory of placeholders *)

(** [_is_kt_moe_wrapper] and [_experts_attr] of a module, where it is a wrapper. *)
Context (wrapper_experts_attr : Z -> option (option string)).

(** The placeholders of one module's experts, after those of earlier modules. *)
Definition wrapper_placeholders (o : objects) (placeholder_ids : list Z) (module : Z) : res (list Z) :=
  match wrapper_experts_attr module with
  | None => mret placeholder_ids
  | Some experts_attr =>
      match experts_attr ≫= get_attribute (ob_modules o) module with
      | Some (VModule experts) =>
          mret (placeholder_ids ++ List.filter (fun i => match ob_tensors o !! i with Some t => to_zero_storage t | None => false end)
                                     (parameters_of o experts))
      | _ => Err (Raise RuntimeError "KT MoE wrapper does not expose a valid expert subtree")
      end
  end.

(** One name of the model, beside the names seen and the placeholders found. *)
Definition discover (placeholder_ids : list Z) (acc : list (string * Z) * list (string * Z)) (entry : string * Z)
    : res (list (string * Z) * list (string * Z)) :=
  let '(fqn, parameter) := entry in
  let conflicts d := match dict_get fqn d with Some i => negb (i =? parameter) | None => false end in
  _ ← raise_if (conflicts acc.1) RuntimeError "Model parameter FQN resolves to conflicting Parameter identities";
  let named_parameters := dict_set fqn parameter acc.1 in
  if negb (bool_decide (parameter ∈ placeholder_ids)) then mret (named_parameters, acc.2)
  else
    _ ← raise_if (conflicts acc.2) RuntimeError "KT expert placeholder FQN resolves to conflicting Parameter identities";
    mret (named_parameters, dict_set fqn parameter acc.2).

(** [sorted] of texts *)
Definition sorted_texts (l : list string) : list string := merge_sort string_le l.

Definition RANK_LOCAL_PARAMETER_NAMES : string := "_kt_rank_local_parameter_names".

(** [cached_names], a tuple of texts that are not empty *)
Definition names_of (a : attr) : option (list string) :=
  match a with
  | ATuple l => mapM (fun i => match i with IText "" => None | IText s => Some s | _ => None end) l
  | AVal _ => None
  end.

(** The names under which placeholders are looked up, fixed at the first call. *)
Definition cached_placeholder_names (model : Z) (discovered : list string) : M heap (list string) := fun h =>
  let cached := private h model RANK_LOCAL_PARAMETER_NAMES in
  if is_none cached then
    let names := sorted_texts discovered in
    (set_attr model RANK_LOCAL_PARAMETER_NAMES (ATuple (IText <$> names)) h, Ok names)
  else
    match names_of cached with
    | None => (h, Err (Raise RuntimeError "KT rank-local parameter-name cache is invalid"))
    | Some names =>
        if negb (bool_decide (sorted_texts (remove_dups names) = names))
        then (h, Err (Raise RuntimeError "KT rank-local parameter-name cache is invalid"))
        else if negb (bool_decide (Forall (fun n => n ∈ names) discovered))
        then (h, Err (Raise RuntimeError "KT expert placeholder inventory changed after its initial discovery"))
        else (h, Ok names)
    end.

Definition get_kt_expert_placeholders (model : Z) : M heap (list (string * Z)) :=
  h ← get;
  let o := hp_objects h in
  placeholder_ids ← lift (for_each (submodules (ob_modules o) model) [] (wrapper_placeholders o));
  found ← lift (for_each (named_parameters false (ob_modules o) model) ([], []) (discover placeholder_ids));
  let '(all_parameters, discovered) := found in
  _ ← lift (raise_if (negb (forallb (fun i => bool_decide (i ∈ discovered.*2)) placeholder_ids))
              RuntimeError "KT expert placeholder is not registered in the model parameter tree");
  cached_names ← cached_placeholder_names model discovered.*1;
  lift (mapM (fun fqn => parameter ← of_option (dict_get fqn all_parameters) RuntimeError
                                       "Cached KT rank-local parameter FQN is no longer registered";
                         mret (fqn, parameter)) cached_names).
End placeholders.
