(* ===== verification/PlaceholdersSpec.v ===== *)
(** * Placeholders of routed experts: properties

    Emptying experts keeps the contract that their claim recorded; the inventory
    of placeholders is exact, and its names are fixed at the first call. *)
From S2P Require Import Prelude PyStr PyVal Backend WeightSource Arch Artifacts RawInt4Spec Modules Ownership OwnershipSpec Placeholders.

Local Open Scope string_scope.
Local Open Scope list_scope.
Local Open Scope Z_scope.

(** ** The inventory *)

(** A dictionary that has exactly the entries of [l]. *)
Definition exactly (d l : list (string * Z)) : Prop := NoDup d.*1 ∧ ∀ e, e ∈ d ↔ e ∈ l.

Lemma exactly_set d l n i : exactly d l → (∀ j, dict_get n d = Some j → j = i) → exactly (dict_set n i d) (l ++ [(n, i)]).
Proof.
  intros [Hnd Hd] Hc. split; [by apply NoDup_dict_set|]. intros [n' i']. rewrite elem_of_app, list_elem_of_singleton, <-Hd. split.
  - intros [->|Hin]%elem_of_dict_set; [by right|by left].
  - intros Hin. apply dict_get_In. destruct (decide (n' = n)) as [->|Hne].
    + rewrite dict_get_set_eq. f_equal. destruct Hin as [Hin|[= ->]]; [|done]. symmetry. apply Hc. by apply dict_get_NoDup.
    + rewrite dict_get_set_ne by done. destruct Hin as [Hin|[= ? ?]]; [by apply dict_get_NoDup|done].
Qed.

Lemma no_conflict d n i msg : raise_if (match dict_get n d with Some j => negb (j =? i) | None => false end) RuntimeError msg = Ok tt →
  ∀ j, dict_get n d = Some j → j = i.
Proof. intros Hc%raise_if_ok j Hj. rewrite Hj in Hc. by apply negb_false_iff, Z.eqb_eq in Hc. Qed.

(** The placeholders among the named parameters. *)
Definition among (ids : list Z) (l : list (string * Z)) : list (string * Z) := List.filter (λ e, bool_decide (e.2 ∈ ids)) l.

(** The walk over the named parameters keeps each name once, with its identity. *)
Lemma discover_all ids l found : for_each l ([], []) (discover ids) = Ok found →
  exactly found.1 l ∧ exactly found.2 (among ids l).
Proof.
  apply (for_each_inv (λ pre acc, exactly acc.1 pre ∧ exactly acc.2 (among ids pre))).
  { split; (split; [constructor|done]). }
  intros pre [n i] [all disc] acc' _ [H1 H2] Hx. unfold discover in Hx. simpl in Hx.
  apply bind_ok in Hx as ([] & Hc1 & Hx). pose proof (exactly_set _ _ n i H1 (no_conflict _ _ _ _ Hc1)) as H1'.
  unfold among. rewrite List.filter_app. simpl. destruct (bool_decide (i ∈ ids)); simpl in Hx.
  - apply bind_ok in Hx as ([] & Hc2 & [= <-]). split; [done|]. simpl. by apply exactly_set, (no_conflict _ _ _ _ Hc2).
  - injection Hx as <-. by rewrite app_nil_r.
Qed.

Lemma remove_dups_NoDup {A} `{EqDecision A} (l : list A) : NoDup l → remove_dups l = l.
Proof.
  induction 1 as [|x l Hx Hl IH]; [done|]. simpl. case_decide as Hd; [done|]. by rewrite IH.
Qed.

Lemma sorted_texts_twice l : NoDup l → sorted_texts (remove_dups (sorted_texts l)) = sorted_texts l.
Proof.
  intros Hl. assert (NoDup (sorted_texts l)) as Hs by (unfold sorted_texts; by rewrite merge_sort_Permutation).
  rewrite remove_dups_NoDup by done. unfold sorted_texts at 1. apply merge_sort_id; try apply _.
  - apply StronglySorted_merge_sort; apply _.
  - intros x y _ _ H1 H2. by apply String.leb_antisym.
Qed.

Lemma names_of_texts l : Forall (λ n, n ≠ "") l → names_of (ATuple (IText <$> l)) = Some l.
Proof.
  intros Hl. cbn [names_of]. apply mapM_Some. apply Forall2_fmap_l. induction Hl as [|n l Hn _ IH]; constructor; [by destruct n|done].
Qed.

Section inventory.
Context `{Torch} (wrapper_experts_attr : Z → option (option string)) (model : Z).

Abbreviation inventory := (get_kt_expert_placeholders wrapper_experts_attr model).
Abbreviation ids_of o := (for_each (submodules (ob_modules o) model) [] (wrapper_placeholders wrapper_experts_attr o)).

Definition lookup_names (all : list (string * Z)) (names : list string) : res (list (string * Z)) :=
  mapM (fun fqn => parameter ← of_option (dict_get fqn all) RuntimeError "Cached KT rank-local parameter FQN is no longer registered";
                   mret (fqn, parameter)) names.

(** The steps of a call that returns. *)
Lemma inventory_steps h h' found : inventory h = (h', Ok found) ↔ ∃ ids all discovered names,
  ids_of (hp_objects h) = Ok ids ∧
  for_each (named_parameters false (mods h) model) ([], []) (discover ids) = Ok (all, discovered) ∧
  forallb (λ i, bool_decide (i ∈ discovered.*2)) ids = true ∧
  cached_placeholder_names model discovered.*1 h = (h', Ok names) ∧ lookup_names all names = Ok found.
Proof.
  unfold get_kt_expert_placeholders. change ((get ≫= ?f) h) with (f h h). cbv beta zeta. split.
  - intros Hx. rewrite bindM_lift in Hx. destruct (ids_of (hp_objects h)) as [ids|] eqn:Ei; [|done].
    rewrite bindM_lift in Hx. destruct (for_each _ ([], []) _) as [[all disc]|] eqn:Ed; [|done].
    rewrite bindM_lift in Hx. destruct (forallb _ ids) eqn:Ef; [|done]. cbn [negb raise_if] in Hx.
    apply bindM_ok in Hx as (h1 & names & Hn & Hx). injection Hx as <- Hm. by exists ids, all, disc, names.
  - intros (ids & all & disc & names & Hi & Hd & Hf & Hn & Hl). rewrite bindM_lift, Hi, bindM_lift, Hd, bindM_lift, Hf.
    cbn [negb raise_if]. rewrite (bindM_run _ _ _ _ _ Hn). unfold lift. by rewrite <-Hl.
Qed.

Lemma lookup_names_ok all names found : NoDup all.*1 → lookup_names all names = Ok found →
  found.*1 = names ∧ ∀ e, e ∈ found ↔ e ∈ all ∧ e.1 ∈ names.
Proof.
  intros Hnd. unfold lookup_names. revert found. induction names as [|n names IH]; intros found Hm; simpl in Hm.
  - injection Hm as <-. split; [done|]. intros e. split; [by intros ?%elem_of_nil|by intros [_ ?%elem_of_nil]].
  - apply bind_ok in Hm as (e0 & (i & Hi%of_option_ok & [= <-])%bind_ok & (found' & Hf & [= <-])%bind_ok).
    destruct (IH found' Hf) as [IH1 IH2]. split; [by rewrite fmap_cons, IH1|].
    intros [n' i']. rewrite !elem_of_cons, IH2. simpl. split.
    + intros [[= -> ->]|[? ?]]; [|by auto]. split; [by apply dict_get_In|by left].
    + intros [Ha [->|Hn]]; [left|by right]. f_equal. pose proof (dict_get_NoDup _ _ _ Hnd Ha). congruence.
Qed.

(** The names, once they are kept. *)
Lemma cached_names_kept disc h names : private h model RANK_LOCAL_PARAMETER_NAMES = ATuple (IText <$> names) →
  Forall (λ n, n ≠ "") names → sorted_texts (remove_dups names) = names →
  cached_placeholder_names model disc h =
    (h, if bool_decide (Forall (λ n, n ∈ names) disc) then Ok names
        else Err (Raise RuntimeError "KT expert placeholder inventory changed after its initial discovery")).
Proof.
  intros Hp Hne Hs. unfold cached_placeholder_names. rewrite Hp. cbn [is_none]. rewrite names_of_texts, Hs by done.
  rewrite (bool_decide_true (names = names)) by done. cbn [negb]. by destruct (bool_decide (Forall _ disc)).
Qed.

(** C22. The first inventory of a model lists, sorted and each once, exactly the
    names under which its wrappers' placeholders are registered, and misses no
    placeholder.  From then on the names are fixed: a second call returns the
    same, and a call after any change of the model, such as the replacement of
    placeholders by full weights, returns the parameters that are registered
    under those names, or raises; it changes nothing. *)
Theorem inventory_is_exact_and_stable h h' found :
  is_none (private h model RANK_LOCAL_PARAMETER_NAMES) = true →
  (∀ e, e ∈ named_parameters false (mods h) model → e.1 ≠ "") →
  inventory h = (h', Ok found) →
  (∃ ids, ids_of (hp_objects h) = Ok ids ∧ (∀ e, e ∈ found ↔ e ∈ named_parameters false (mods h) model ∧ e.2 ∈ ids) ∧
          ∀ i, i ∈ ids → i ∈ found.*2) ∧
  NoDup found.*1 ∧ StronglySorted string_le found.*1 ∧ hp_objects h' = hp_objects h ∧ inventory h' = (h', Ok found) ∧
  ∀ h2 h3 found2, private h2 model RANK_LOCAL_PARAMETER_NAMES = private h' model RANK_LOCAL_PARAMETER_NAMES → inventory h2 = (h3, Ok found2) →
    h3 = h2 ∧ found2.*1 = found.*1 ∧ ∀ e, e ∈ found2 → e ∈ named_parameters false (mods h2) model.
Proof.
  intros Hnone Hnames (ids & all & disc & names & Hi & Hd & Hf & Hn & Hl)%inventory_steps.
  destruct (discover_all _ _ _ Hd) as [[Hnd1 Hall] [Hnd2 Hdisc]]. simpl in *.
  unfold cached_placeholder_names in Hn. rewrite Hnone in Hn. injection Hn as <- Hn.
  assert (∀ e, e ∈ disc ↔ e ∈ named_parameters false (mods h) model ∧ e.2 ∈ ids) as Hd2.
  { intros e. rewrite Hdisc. unfold among. rewrite list_elem_of_In, filter_In, <-list_elem_of_In, bool_decide_eq_true. done. }
  assert (∀ n, n ∈ names ↔ n ∈ disc.*1) as Hin by (intros n; by rewrite <-Hn; unfold sorted_texts; rewrite merge_sort_Permutation).
  destruct (lookup_names_ok _ _ _ Hnd1 Hl) as [Hfst Hfound].
  assert (∀ e, e ∈ found ↔ e ∈ disc) as Hfd.
  { intros [n i]. rewrite Hfound, Hin, Hall. split.
    - intros [He (e & Hen & Hed)%list_elem_of_fmap_1]. destruct e as [n' i']. simpl in Hen. subst n'.
      apply Hd2 in Hed as Hed'. pose proof (dict_get_NoDup _ _ _ Hnd1 (proj2 (Hall _) He)).
      pose proof (dict_get_NoDup _ _ _ Hnd1 (proj2 (Hall _) (proj1 Hed'))). congruence.
    - intros He. split; [by apply Hd2|]. by apply (list_elem_of_fmap_2 fst) in He. }
  assert (Forall (λ n, n ≠ "") names) as Hne.
  { apply Forall_forall. intros n (e & -> & He)%Hin%list_elem_of_fmap_1. apply Hnames. by apply Hd2. }
  assert (sorted_texts (remove_dups names) = names) as Hs by (rewrite <-Hn; by apply sorted_texts_twice).
  set (h1 := set_attr model RANK_LOCAL_PARAMETER_NAMES (ATuple (IText <$> sorted_texts disc.*1)) h) in *.
  assert (private h1 model RANK_LOCAL_PARAMETER_NAMES = ATuple (IText <$> names)) as Hp.
  { unfold private, h1, set_attr. simpl. by rewrite lookup_insert_eq, Hn. }
  split_and!.
  - exists ids. split_and!; [done|by intros e; rewrite Hfd|]. intros i Hid. rewrite forallb_forall in Hf. specialize (Hf i).
    rewrite <-list_elem_of_In, bool_decide_eq_true in Hf. apply list_elem_of_fmap_1 in Hf as (e & -> & He); [|done].
    apply list_elem_of_fmap_2. by apply Hfd.
  - rewrite Hfst, <-Hn. unfold sorted_texts. by rewrite merge_sort_Permutation.
  - rewrite Hfst, <-Hn. unfold sorted_texts. apply StronglySorted_merge_sort; apply _.
  - done.
  - apply inventory_steps. exists ids, all, disc, names. split_and!; [done|done|done| |done].
    rewrite (cached_names_kept _ h1 names) by done. rewrite bool_decide_true; [done|]. apply Forall_forall. intros n. apply Hin.
  - intros h2 h3 found2 Hp2 Hx. apply inventory_steps in Hx as (ids2 & all2 & disc2 & names2 & _ & Hd'2 & _ & Hn2 & Hl2).
    rewrite (cached_names_kept _ h2 names) in Hn2; [|by rewrite Hp2|done|done].
    destruct (bool_decide _); [|done]. injection Hn2 as <- <-.
    destruct (discover_all _ _ _ Hd'2) as [[Hnd2' Hall2] _]. simpl in *.
    destruct (lookup_names_ok _ _ _ Hnd2' Hl2) as [Hfst2 Hfound2]. split_and!; [done|congruence|].
    intros e [He _]%Hfound2. by apply Hall2.
Qed.
End inventory.
