(* ===== verification/EmptyingSpec.v ===== *)
(** * Emptying experts: properties

    [_clear_original_expert_weights] replaces every weight of a layer's experts
    by a placeholder and touches nothing else, and what a claim recorded of the
    experts, their names and shapes, still holds of the placeholders. *)
From S2P Require Import Prelude PyStr PyVal Backend WeightSource Arch Artifacts RawInt4Spec Modules Ownership OwnershipSpec Placeholders.

Local Open Scope string_scope.
Local Open Scope list_scope.
Local Open Scope Z_scope.

(** ** Placeholders of placeholders *)

(** [t'] is a placeholder that was made of [t]. *)
Definition emptied (e : bool) (T : tensor_map) (t t' : Z) : Prop :=
  ∃ A, T !! t = Some A ∧ T !! t' = Some (make_placeholder e A).

Abbreviation became e T := (rtc (emptied e T)).

Lemma became_mono e T T' t t' : T ⊆ T' → became e T t t' → became e T' t t'.
Proof.
  intros Hs. apply rtc_subrel. intros x y (A & Hx & Hy). exists A. split; by eapply lookup_weaken.
Qed.

(** What is recorded of a placeholder is its shape, or it has none any more. *)
Definition recorded (A : tensor_obj) : Prop :=
  to_zero_storage A = true → to_original_shape A = Some (to_shape A) ∨ to_shape A = [0].

Definition all_recorded (T : tensor_map) : Prop := map_Forall (λ _, recorded) T.

(** No placeholder was made of an emptied tensor. *)
Definition none_lost (T : tensor_map) : Prop := map_Forall (λ _ A, to_original_shape A ≠ Some [0]) T.

Lemma make_placeholder_recorded e A : recorded (make_placeholder e A).
Proof. intros _. destruct e; [by right|by left]. Qed.

Lemma became_shape e T t t' A s : all_recorded T → none_lost T → became e T t t' → T !! t = Some A →
  effective_runtime_shape A = Ok s → ∃ B, T !! t' = Some B ∧ effective_runtime_shape B = Ok s.
Proof.
  intros Hr Hl Hb HA Hs. revert t' Hb. apply rtc_ind_r; [by exists A|]. intros t2 t3 _ (B & HB & HC) IH. destruct IH as (B' & HB' & IH). simplify_eq. eexists. split; [exact HC|].
  pose proof (Hr _ _ HB) as HrB. apply Hl in HC as HlC. simpl in HlC.
  unfold effective_runtime_shape in *. cbn [make_placeholder to_zero_storage to_original_shape].
  destruct (to_zero_storage B) eqn:Ez; [|done]. destruct (HrB Ez) as [HrB'|HrB']; [by rewrite HrB' in IH|by rewrite HrB' in HlC].
Qed.

(** ** Trees with the same names *)

(** Modules that differ in the tensors that they register as parameters. *)
Record same_but (R : Z → Z → Prop) (m m' : module) : Prop := {
  sb_list : md_is_list m' = md_is_list m;
  sb_modules : md_modules m' = md_modules m;
  sb_buffers : md_buffers m' = md_buffers m;
  sb_parameters : Forall2 (λ a b, a.1 = b.1 ∧ option_Forall2 R a.2 b.2) (md_parameters m) (md_parameters m');
}.

Definition same_trees (R : Z → Z → Prop) (ms ms' : module_map) : Prop := ∀ i, option_Forall2 (same_but R) (ms !! i) (ms' !! i).

(** Which attribute it is, whatever tensor it is. *)
Definition forget (v : value) : value := match v with VTensor _ => VTensor 0 | _ => v end.

(** What torch documents of attributes and of walks: a registered parameter is an
    attribute; to replace it changes attributes in which tensor they are alone;
    and walks follow the registries. *)
Class RegistryLaws `{Torch} := {
  parameter_attribute ms i n v : get_entry Parameters i n ms = Some v →
    get_attribute ms i n = Some (match v with Some t => VTensor t | None => VNone end);
  replaced_attribute ms i n t t' j m : get_entry Parameters i n ms = Some (Some t) →
    forget <$> get_attribute (set_entry Parameters i n (Some t') ms) j m = forget <$> get_attribute ms j m;
  list_items_by_children ms ms' i : same_children ms ms' → list_items ms i = list_items ms' i;
  named_parameters_related R ms ms' i : same_trees R ms ms' →
    Forall2 (λ a b, a.1 = b.1 ∧ R a.2 b.2) (named_parameters false ms i) (named_parameters false ms' i);
  named_buffers_same R ms ms' i : same_trees R ms ms' → named_buffers false ms i = named_buffers false ms' i;
}.

Lemma same_trees_get R ms ms' i n : same_trees R ms ms' →
  option_Forall2 (option_Forall2 R) (get_entry Parameters i n ms) (get_entry Parameters i n ms').
Proof.
  intros Hs. specialize (Hs i). unfold get_entry. destruct Hs as [m m' [_ _ _ Hp]|]; [|constructor]. simpl.
  induction Hp as [|[k v] [k' v'] l l' [Hk Hv] _ IH]; [constructor|]. simpl in *. subst k'.
  destruct (String.eqb n k); [by constructor|done].
Qed.

Lemma same_trees_children R ms ms' : same_trees R ms ms' → same_children ms ms'.
Proof. intros Hs j. destruct (Hs j) as [m m' Hm|]; [|done]. simpl. by rewrite (sb_modules _ _ _ Hm). Qed.

(** ** From before to after *)

Record empties `{Torch} (e : bool) (o o' : objects) : Prop := {
  em_attributes j m : forget <$> get_attribute (ob_modules o') j m = forget <$> get_attribute (ob_modules o) j m;
  em_tensors : ob_tensors o ⊆ ob_tensors o';
  em_trees : same_trees (became e (ob_tensors o')) (ob_modules o) (ob_modules o');
  em_recorded : all_recorded (ob_tensors o) → all_recorded (ob_tensors o');
}.

Lemma same_but_refl R m : (∀ t, R t t) → same_but R m m.
Proof.
  intros HR. split; [done..|]. apply Forall_Forall2_diag, Forall_forall. intros [k v] _. split; [done|]. simpl.
  destruct v; by constructor.
Qed.

Lemma same_but_trans (R R' R2 : Z → Z → Prop) m1 m2 m3 : (∀ a b, R a b → R2 a b) → (∀ a b c, R2 a b → R' b c → R2 a c) →
  same_but R m1 m2 → same_but R' m2 m3 → same_but R2 m1 m3.
Proof.
  intros HR Ht [??? H1] [??? H2]. split; [congruence..|]. revert H2. generalize (md_parameters m3).
  induction H1 as [|[ka va] [kb vb] l1 l2 [Hk1 Ho1] _ IH]; intros l3 H2; inversion H2 as [|? [kc vc] ? ? [Hk2 Ho2]]; subst; constructor; [|by auto].
  split; [by etrans|]. simpl in *. destruct Ho1; inversion Ho2; constructor; eauto.
Qed.

Lemma empties_refl `{Torch} e o : empties e o o.
Proof. split; [done..| |done]. intros i. destruct (ob_modules o !! i); [constructor|constructor]. apply same_but_refl. done. Qed.

Lemma empties_trans `{Torch} e o1 o2 o3 : empties e o1 o2 → empties e o2 o3 → empties e o1 o3.
Proof.
  intros [Ha1 Ht1 Hs1 Hr1] [Ha2 Ht2 Hs2 Hr2]. split; [intros; by rewrite Ha2|by etrans| |by auto]. intros i. specialize (Hs1 i). specialize (Hs2 i).
  destruct Hs1 as [m1 m2 H1|]; inversion Hs2 as [m2' m3 H2|]; constructor. subst.
  eapply same_but_trans; [| |exact H1|exact H2].
  - intros a b. by apply became_mono.
  - intros a b c Hab Hbc. by etrans.
Qed.

Lemma empties_foldl `{Torch} {A} e (f : objects → A → objects) l o : (∀ o x, empties e o (f o x)) → empties e o (foldl f o l).
Proof.
  intros Hf. revert o. induction l as [|x l IH]; intros o; [apply empties_refl|]. simpl. eapply empties_trans; [apply Hf|apply IH].
Qed.

Lemma put_placeholder_empties `{RegistryLaws} e i n t A o : get_entry Parameters i n (ob_modules o) = Some (Some t) → ob_tensors o !! t = Some A →
  empties e o (put_placeholder e i n A o).
Proof.
  intros Hg HA. unfold put_placeholder, new_tensor. simpl. pose proof (proj2 (fresh_id_new o)) as Hnew.
  set (T := <[fresh_id o := make_placeholder e A]> (ob_tensors o)).
  assert (became e T t (fresh_id o)) as Hb.
  { apply rtc_once. exists A. split; [|by apply lookup_insert_eq]. unfold T. rewrite lookup_insert_ne; [done|]. congruence. }
  split; simpl.
  - intros j m. by eapply replaced_attribute.
  - by apply insert_subseteq.
  - intros j. unfold set_entry. destruct (decide (j = i)) as [->|Hj].
    + rewrite lookup_alter_eq. unfold get_entry in Hg. destruct (ob_modules o !! i) as [m|]; [|done]. constructor.
      destruct m as [b cs ps bs]. split; [done..|]. simpl in *. induction ps as [|[k v] ps IH]; [done|]. simpl in *.
      destruct (String.eqb n k) eqn:E.
      * injection Hg as ->. constructor; [by split; [apply String.eqb_eq in E as ->|constructor]|]. apply Forall_Forall2_diag, Forall_forall.
        intros [k' v'] _. split; [done|]. destruct v'; by constructor.
      * constructor; [|by apply IH]. split; [done|]. destruct v; by constructor.
    + rewrite lookup_alter_ne by done. destruct (ob_modules o !! j); constructor. by apply same_but_refl.
  - intros Hr. apply map_Forall_insert_2; [apply make_placeholder_recorded|done].
Qed.

(** *** What is registered stays registered *)

Section emptying.
Context `{RegistryLaws} (e : bool).

Abbreviation entry o i n := (get_entry Parameters i n (ob_modules o)).

Lemma empties_entry o o' i n t : empties e o o' → entry o i n = Some (Some t) →
  ∃ t', entry o' i n = Some (Some t') ∧ became e (ob_tensors o') t t'.
Proof.
  intros [_ _ Hs _] Ht. pose proof (same_trees_get _ _ _ i n Hs) as Hg. rewrite Ht in Hg.
  inversion Hg as [a b Hab Ha Hb|]; subst. inversion Hab; subst. eauto.
Qed.

(** A placeholder stays one. *)
Lemma became_placeholder T t t' A : became e T t t' → T !! t = Some A → to_zero_storage A = true →
  ∃ B, T !! t' = Some B ∧ to_zero_storage B = true.
Proof.
  intros Hb HA Hz. revert t' Hb. apply rtc_ind_r; [by exists A|]. intros t2 t3 _ (B & _ & HC) _. by eexists.
Qed.

Definition placeholder_at (o : objects) (i : Z) (n : string) : Prop :=
  ∃ t A, entry o i n = Some (Some t) ∧ ob_tensors o !! t = Some A ∧ to_zero_storage A = true.

Lemma placeholder_stays o o' i n : empties e o o' → placeholder_at o i n → placeholder_at o' i n.
Proof.
  intros Hem (t & A & Ht & HA & Hz). destruct (empties_entry _ _ _ _ _ Hem Ht) as (t' & Ht' & Hb).
  destruct (became_placeholder _ _ _ A Hb) as (B & HB & HzB); [eapply lookup_weaken; [done|apply Hem]|done|]. by exists t', B.
Qed.

Lemma put_placeholder_at o i n v A : entry o i n = Some v → placeholder_at (put_placeholder e i n A o) i n.
Proof.
  intros Hv. eexists _, _. split; [|split; [apply lookup_insert_eq|done]]. simpl. apply get_set_entry_eq.
  unfold get_entry in Hv. destruct (ob_modules o !! i); [by eexists|done].
Qed.

(** What is registered as a parameter is one. *)
Definition all_parameters (o : objects) : Prop :=
  ∀ i n t, entry o i n = Some (Some t) → ∃ A, ob_tensors o !! t = Some A ∧ to_parameter A = true.

Lemma parameters_stay o o' : empties e o o' → all_parameters o → all_parameters o'.
Proof.
  intros [_ Hsub Hs _] Hp i n t' Ht'. pose proof (same_trees_get _ _ _ i n Hs) as Hg. rewrite Ht' in Hg.
  inversion Hg as [a b Hab Ha Hb|]; subst. inversion Hab as [t ? Hbec|]; subst. symmetry in Ha.
  destruct (Hp _ _ _ Ha) as (A & HA & HpA). clear -Hbec HA HpA Hsub. revert t' Hbec. apply rtc_ind_r.
  - exists A. split; [by eapply lookup_weaken|done].
  - intros t2 t3 _ (B & _ & HC) _. by eexists.
Qed.

(** *** One weight *)

Lemma parameter_of_spec o v A : parameter_of o v = Some A ↔ ∃ t, v = Some (VTensor t) ∧ ob_tensors o !! t = Some A ∧ to_parameter A = true.
Proof.
  unfold parameter_of. split.
  - destruct v as [[]|]; try done. destruct (ob_tensors o !! i) as [B|] eqn:EB; [|done].
    destruct (to_parameter B) eqn:Ep; [|done]. intros [= ->]. eauto.
  - intros (t & -> & -> & ->). done.
Qed.

Lemma registered_parameter o i n v A : entry o i n = Some v → parameter_of o (get_attribute (ob_modules o) i n) = Some A →
  ∃ t, v = Some t ∧ ob_tensors o !! t = Some A.
Proof.
  intros Hv (t & Ht & HA & _)%parameter_of_spec. rewrite (parameter_attribute _ _ _ _ Hv) in Ht. destruct v; [|done].
  injection Ht as ->. eauto.
Qed.

Lemma clear_fused_registered experts o n : all_parameters o → (∃ t, entry o experts n = Some (Some t)) →
  empties e o (clear_fused e experts o n) ∧ placeholder_at (clear_fused e experts o n) experts n.
Proof.
  intros Hp (t & Ht). destruct (Hp _ _ _ Ht) as (A & HA & HpA). unfold clear_fused.
  rewrite (parameter_attribute _ _ _ _ Ht). unfold parameter_of. rewrite HA, HpA.
  split; [by eapply put_placeholder_empties|by eapply put_placeholder_at].
Qed.

Lemma direct_weight_attribute o proj c n A v :
  match parameter_of o (VTensor <$> (entry o proj "weight" ≫= id)) with
  | Some direct_weight => Some (proj, "weight", direct_weight)
  | None => (λ t, (proj, "weight", t)) <$> parameter_of o (get_attribute (ob_modules o) proj "weight")
  end = Some (c, n, A) → entry o c n = Some v → ∃ t, v = Some t ∧ ob_tensors o !! t = Some A.
Proof.
  destruct (parameter_of o (VTensor <$> _)) as [d|] eqn:Ed.
  - intros [= -> <- ->] Hv. apply parameter_of_spec in Ed as (t & Ht & HA & _). rewrite Hv in Ht. simpl in Ht.
    destruct v; [|done]. injection Ht as ->. eauto.
  - destruct (parameter_of o (get_attribute _ proj "weight")) as [B|] eqn:EB; [|done].
    intros [= -> <- ->] Hv. by eapply registered_parameter.
Qed.

Lemma weight_parameter_attribute o expert w c n A v : weight_parameter o expert w = Some (c, n, A) → entry o c n = Some v →
  ∃ t, v = Some t ∧ ob_tensors o !! t = Some A.
Proof.
  intros Hw Hv. unfold weight_parameter in Hw. destruct (get_attribute _ expert w) as [[proj| | | |]|]; try done.
  destruct (get_attribute _ proj "weight") as [a|] eqn:Ea; [|done]. rewrite <-Ea in Hw.
  destruct (attr_value _ (attr_value _ _ _) "weight") as [[container| | | |]|]; [cbn [attr_value] in Hw|by eapply direct_weight_attribute..].
  destruct (parameter_of o (get_attribute _ container _)) as [original|] eqn:Eo; [|by eapply direct_weight_attribute].
  injection Hw as -> <- ->. by eapply registered_parameter.
Qed.

Lemma clear_weight_empties expert o w : empties e o (clear_weight e expert o w).
Proof.
  unfold clear_weight. destruct (weight_parameter o expert w) as [[[c n] A]|] eqn:Ew; [|apply empties_refl].
  destruct (entry o c n) as [v|] eqn:Ev; [|apply empties_refl].
  destruct (weight_parameter_attribute _ _ _ _ _ _ _ Ew Ev) as (t & -> & HA). by eapply put_placeholder_empties.
Qed.

(** A weight of an expert: registered by its projection or, where that is
    parametrized, by the parametrization. *)
Inductive weight_of (ms : module_map) (expert : Z) (w : string) : Z → string → Prop :=
  | weight_direct proj t : get_attribute ms expert w = Some (VModule proj) →
      (∀ i, get_attribute ms proj "parametrizations" ≠ Some (VModule i)) →
      get_entry Parameters proj "weight" ms = Some (Some t) → weight_of ms expert w proj "weight"
  | weight_parametrized proj ps c t : get_attribute ms expert w = Some (VModule proj) → is_Some (get_attribute ms proj "weight") →
      get_attribute ms proj "parametrizations" = Some (VModule ps) → get_attribute ms ps "weight" = Some (VModule c) →
      get_entry Parameters c "original" ms = Some (Some t) → weight_of ms expert w c "original".

Lemma module_attribute_stays o o' j m k : empties e o o' →
  get_attribute (ob_modules o') j m = Some (VModule k) ↔ get_attribute (ob_modules o) j m = Some (VModule k).
Proof.
  intros Hem. pose proof (em_attributes _ _ _ Hem j m) as Ha.
  destruct (get_attribute (ob_modules o') j m) as [[]|], (get_attribute (ob_modules o) j m) as [[]|]; try done; simplify_eq/=; done.
Qed.

Lemma attribute_stays o o' j m : empties e o o' →
  is_Some (get_attribute (ob_modules o) j m) → is_Some (get_attribute (ob_modules o') j m).
Proof.
  intros Hem. pose proof (em_attributes _ _ _ Hem j m) as Ha.
  destruct (get_attribute (ob_modules o') j m), (get_attribute (ob_modules o) j m); naive_solver.
Qed.

Lemma weight_of_stays o o' expert w c n : empties e o o' → weight_of (ob_modules o) expert w c n → weight_of (ob_modules o') expert w c n.
Proof.
  intros Hem. destruct 1 as [proj t Hw Hps Ht|proj ps c t Hw Hwt Hps Hc Ht]; destruct (empties_entry _ _ _ _ _ Hem Ht) as (t' & Ht' & _).
  - apply weight_direct with t'; [by apply (module_attribute_stays _ _ _ _ _ Hem)| |done]. intros i Hi. apply (Hps i). by apply (module_attribute_stays _ _ _ _ _ Hem).
  - apply weight_parametrized with proj ps t'; [by apply (module_attribute_stays _ _ _ _ _ Hem)|by eapply attribute_stays|..|done];
      by apply (module_attribute_stays _ _ _ _ _ Hem).
Qed.

Lemma clear_weight_at expert o w c n : all_parameters o → weight_of (ob_modules o) expert w c n →
  placeholder_at (clear_weight e expert o w) c n.
Proof.
  intros Hp Hw. assert (∃ A, weight_parameter o expert w = Some (c, n, A)) as [A HA].
  { destruct Hw as [proj t Hw Hps Ht|proj ps c t Hw [a Ha] Hps Hc Ht]; destruct (Hp _ _ _ Ht) as (A & HA & HpA); exists A; unfold weight_parameter; rewrite Hw.
    - rewrite (parameter_attribute _ _ _ _ Ht). cbn [attr_value]. rewrite Ht. cbn [mbind option_bind id fmap option_fmap option_map parameter_of]. rewrite HA, HpA.
      destruct (get_attribute _ proj "parametrizations") as [[]|] eqn:Eps; try done. by destruct (Hps i).
    - rewrite Ha. cbn [attr_value]. rewrite Hps. cbn [attr_value]. rewrite Hc. cbn [attr_value].
      rewrite (parameter_attribute _ _ _ _ Ht). cbn [parameter_of]. by rewrite HA, HpA. }
  unfold clear_weight. rewrite HA. assert (∃ v, entry o c n = Some v) as [v Hv] by (destruct Hw; eauto).
  rewrite Hv. by eapply put_placeholder_at.
Qed.

(** A walk that empties, and that reaches [P] at [x] from wherever it comes. *)
Lemma foldl_reaches {A} (f : objects → A → objects) (I : objects → Prop) c n l x o :
  (∀ o y, empties e o (f o y)) → (∀ o o', empties e o o' → I o → I o') → (∀ o, I o → placeholder_at (f o x) c n) →
  x ∈ l → I o → placeholder_at (foldl f o l) c n.
Proof.
  intros Hf HI Hx (l1 & l2 & ->)%list_elem_of_split Ho. rewrite foldl_app. simpl.
  eapply placeholder_stays; [by apply empties_foldl|]. apply Hx. eapply HI; [by apply empties_foldl|done].
Qed.

Abbreviation clear moe_module moe_config o := (clear_original_expert_weights e moe_module moe_config o).

(** The weights that belong to a layer's experts. *)
Definition expert_weight (moe_config : MOEArchConfig) (o : objects) (experts c : Z) (n : string) : Prop :=
  if fused_experts o experts then c = experts ∧ n ∈ ["gate_up_proj"; "down_proj"]
  else ∃ expert w, expert ∈ list_items (ob_modules o) experts ∧ w ∈ ma_weight_names moe_config ∧ weight_of (ob_modules o) expert w c n.

Lemma clear_fused_both experts o : all_parameters o → (∀ n, n ∈ ["gate_up_proj"; "down_proj"] → ∃ t, entry o experts n = Some (Some t)) →
  let o' := foldl (clear_fused e experts) o ["gate_up_proj"; "down_proj"] in
  empties e o o' ∧ ∀ n, n ∈ ["gate_up_proj"; "down_proj"] → placeholder_at o' experts n.
Proof.
  intros Hp Hreg. simpl. destruct (clear_fused_registered experts o "gate_up_proj" Hp) as [H1 Hat1]; [apply Hreg; set_solver|].
  destruct (clear_fused_registered experts (clear_fused e experts o "gate_up_proj") "down_proj") as [H2 Hat2].
  { by eapply parameters_stay. }
  { destruct (Hreg "down_proj") as [t Ht]; [set_solver|]. destruct (empties_entry _ _ _ _ _ H1 Ht) as (t' & Ht' & _). eauto. }
  split; [by eapply empties_trans|]. intros n Hn. repeat (apply elem_of_cons in Hn as [->|Hn]); [|done|by apply elem_of_nil in Hn].
  by eapply placeholder_stays.
Qed.

Lemma clear_weights_all moe_config items o : all_parameters o →
  let o' := foldl (fun o expert => foldl (clear_weight e expert) o (ma_weight_names moe_config)) o items in
  empties e o o' ∧ ∀ expert w c n, expert ∈ items → w ∈ ma_weight_names moe_config → weight_of (ob_modules o) expert w c n → placeholder_at o' c n.
Proof.
  intros Hp. assert (∀ o expert, empties e o (foldl (clear_weight e expert) o (ma_weight_names moe_config))) as Hf.
  { intros o1 expert. apply empties_foldl. intros. apply clear_weight_empties. }
  split; [by apply empties_foldl|]. intros expert w c n Hx Hw Hof.
  assert (∀ o1 o2, empties e o1 o2 → all_parameters o1 ∧ weight_of (ob_modules o1) expert w c n → all_parameters o2 ∧ weight_of (ob_modules o2) expert w c n) as HI.
  { intros o1 o2 Hem [H1 H2]. split; [by eapply parameters_stay|by eapply weight_of_stays]. }
  eapply (foldl_reaches _ _ c n _ expert); [exact Hf|exact HI| |done|done]. intros o1 Ho1.
  eapply (foldl_reaches _ _ c n _ w); [intros; apply clear_weight_empties|exact HI| |done|done].
  intros o2 [H1 H2]. by apply clear_weight_at.
Qed.

(** ** The contract *)

Lemma named_entries_bound o o' m : empties e o o' →
  Forall2 (λ a b, a.1 = b.1 ∧ became e (ob_tensors o') a.2 b.2)
    (((λ '(name, i), ("parameter", name, i)) <$> named_parameters false (ob_modules o) m)
       ++ ((λ '(name, i), ("buffer", name, i)) <$> named_buffers false (ob_modules o) m))
    (((λ '(name, i), ("parameter", name, i)) <$> named_parameters false (ob_modules o') m)
       ++ ((λ '(name, i), ("buffer", name, i)) <$> named_buffers false (ob_modules o') m)).
Proof.
  intros [_ _ Hs _]. apply Forall2_app.
  - apply Forall2_fmap. eapply Forall2_impl; [by apply named_parameters_related|]. intros [k a] [k' b] [Hk Hab]. simpl in *. by subst.
  - rewrite (named_buffers_same _ _ _ m Hs). apply Forall_Forall2_diag, Forall_forall. done.
Qed.

Lemma add_contract_entry_same o o' acc acc' a b : empties e o o' → all_recorded (ob_tensors o') → none_lost (ob_tensors o') →
  a.1 = b.1 → became e (ob_tensors o') a.2 b.2 → add_contract_entry o acc a = Ok acc' → add_contract_entry o' acc b = Ok acc'.
Proof.
  intros Hem Hr Hl. destruct a as [[kind name] t], b as [ka t']. simpl. intros <- Hb. destruct (artifact_raise_if _ _); [|done]. simpl.
  unfold tensor_at. destruct (ob_tensors o !! t) as [A|] eqn:HA; [|done]. simpl.
  destruct (effective_runtime_shape A) as [s|] eqn:Es; [|done].
  eapply lookup_weaken in HA; [|apply Hem]. destruct (became_shape _ _ _ _ _ _ Hr Hl Hb HA Es) as (B & -> & HB). simpl. by rewrite HB.
Qed.

Lemma contract_stays o o' m c : empties e o o' → all_recorded (ob_tensors o) → none_lost (ob_tensors o') →
  runtime_tensor_contract o m = Ok c → runtime_tensor_contract o' m = Ok c.
Proof.
  intros Hem Hr Hl. pose proof (em_recorded _ _ _ Hem Hr) as Hr'. unfold runtime_tensor_contract.
  intros (entries & Hx & Hc)%bind_ok. assert (∀ l l' acc, Forall2 (λ a b, a.1 = b.1 ∧ became e (ob_tensors o') a.2 b.2) l l' →
    for_each l acc (add_contract_entry o) = Ok entries → for_each l' acc (add_contract_entry o') = Ok entries) as Hfor.
  { intros l l' acc Hl2. revert acc. induction Hl2 as [|a b l l' [Hk Hab] _ IH]; intros acc; [done|]. simpl.
    intros (acc' & Ha & Hfe)%bind_ok. rewrite (add_contract_entry_same o o' _ _ _ b Hem Hr' Hl Hk Hab Ha). by apply IH. }
  by rewrite (Hfor _ _ _ (named_entries_bound _ _ m Hem) Hx).
Qed.

(** C21. Emptying the experts of a layer makes a placeholder of every weight that
    is theirs, registered or behind a parametrization; it replaces parameters
    by placeholders that record their shape and type, and leaves modules,
    buffers, and tensors as they are.  So the contract that a claim records of
    any module, its names and shapes, is the same afterwards, unless a tensor
    was emptied that had been emptied before. *)
Theorem emptied_experts_keep_their_contract moe_module moe_config experts o o' : all_parameters o →
  get_attribute (ob_modules o) moe_module (ma_experts_attr moe_config) = Some (VModule experts) →
  (fused_experts o experts = true → ∀ n, n ∈ ["gate_up_proj"; "down_proj"] → ∃ t, entry o experts n = Some (Some t)) →
  clear moe_module moe_config o = Ok o' →
  (∀ c n, expert_weight moe_config o experts c n → placeholder_at o' c n) ∧
  ob_tensors o ⊆ ob_tensors o' ∧ same_trees (became e (ob_tensors o')) (ob_modules o) (ob_modules o') ∧
  (all_recorded (ob_tensors o) → none_lost (ob_tensors o') →
     ∀ m c, runtime_tensor_contract o m = Ok c → runtime_tensor_contract o' m = Ok c).
Proof.
  intros Hp Hexp Hreg Hx. assert (empties e o o' ∧ ∀ c n, expert_weight moe_config o experts c n → placeholder_at o' c n) as [Hem Hat].
  { unfold clear_original_expert_weights in Hx. rewrite Hexp in Hx. unfold expert_weight. destruct (fused_experts o experts).
    - injection Hx as <-. destruct (clear_fused_both experts o Hp (Hreg eq_refl)) as [Hem Hat]. split; [done|]. intros c n [-> Hn]. by apply Hat.
    - destruct (match _ with Some _ => _ | None => false end); [|done]. injection Hx as <-.
      destruct (clear_weights_all moe_config (list_items (ob_modules o) experts) o Hp) as [Hem Hat]. split; [done|].
      intros c n (expert & w & ? & ? & ?). by eapply Hat. }
  split_and!; [done|apply Hem|apply Hem|]. intros Hr Hl m c. by apply contract_stays.
Qed.
End emptying.
