(* ===== verification/Extraction.v ===== *)
(** * Extracting the weights of a layer's experts

    Models [extract_moe_weights] and [_require_materialized_expert_weight] of
    [kt-kernel/python/sft/weights.py] over the heap of [Modules]: what a tensor
    holds is an argument, and operations on it are those of [ExpertWeights].  An
    object that is neither a tensor nor a module has no attribute [data]. *)
From S2P Require Import Prelude PyStr PyVal Backend WeightSource Arch Artifacts ExpertWeights Modules Placeholders.

Local Open Scope string_scope.
Local Open Scope list_scope.
Local Open Scope Z_scope.

Section extraction.
Context `{Torch, Tensors}.

(** [tensor.data], and [tensor.untyped_storage().nbytes()] where it does not raise *)
Context (data : Z -> tensor) (storage_bytes : Z -> option Z).

(** [tensor.element_size()] of a type *)
Context (element_size : string -> Z).

Definition require_materialized_expert_weight (o : objects) (weight : Z) : res unit :=
  t ← tensor_at o weight;
  _ ← raise_if (bool_decide (device_type (to_device t) = Some "meta") || to_zero_storage t) RuntimeError
        "routed expert weight is an unmaterialized placeholder";
  match storage_bytes weight with
  | None => mret tt
  | Some storage_bytes =>
      let required_bytes := foldr Z.mul 1 (to_shape t) * element_size (to_dtype t) in
      raise_if (negb (required_bytes =? 0) && (storage_bytes <? required_bytes)) RuntimeError
        "routed expert weight is a zero-storage placeholder"
  end.

(** [get_weight_tensor(mod, projection_name)] *)
Definition get_weight_tensor (o : objects) (mod_ : value) : res Z :=
  weight ← of_option (attr_value (ob_modules o) (Some mod_) "weight") AttributeError "object has no attribute 'weight'";
  tensor ← match weight with
           | VTensor i => mret i
           | VModule _ =>
               match attr_value (ob_modules o) (Some weight) "data" with
               | Some (VTensor i) => mret i
               | Some _ => Err (Raise AttributeError "object has no attribute 'device'")
               | None => Err (Raise ValueError "Cannot extract weight")
               end
           | _ => Err (Raise ValueError "Cannot extract weight")
           end;
  _ ← require_materialized_expert_weight o tensor;
  mret tensor.

(** [getattr(expert, name)] *)
Definition projection_of (o : objects) (expert : Z) (name : string) : res value :=
  of_option (get_attribute (ob_modules o) expert name) AttributeError "object has no attribute".

(** One expert, after those before it: gate, up and down weights. *)
Definition extract_expert (o : objects) (names : string * string * string) (weights : list Z * list Z * list Z) (expert : Z)
    : res (list Z * list Z * list Z) :=
  let '(gate_name, up_name, down_name) := names in
  let '(gate_weights, up_weights, down_weights) := weights in
  gate_proj ← projection_of o expert gate_name;
  up_proj_mod ← projection_of o expert up_name;
  down_proj_mod ← projection_of o expert down_name;
  gate ← get_weight_tensor o gate_proj;
  up ← get_weight_tensor o up_proj_mod;
  down ← get_weight_tensor o down_proj_mod;
  mret (gate_weights ++ [gate], up_weights ++ [up], down_weights ++ [down]).

Definition extract_list (o : objects) (experts : Z) (moe_config : MOEArchConfig) : res (tensor * tensor * tensor) :=
  names ← match ma_weight_names moe_config with
          | [gate_name; up_name; down_name] => mret (gate_name, up_name, down_name)
          | _ => Err (Raise ValueError "not enough or too many values to unpack")
          end;
  _ ← raise_if (negb match ob_modules o !! experts with Some m => md_is_list m | None => false end) TypeError
        "object is not iterable";
  weights ← for_each (list_items (ob_modules o) experts) ([], [], []) (extract_expert o names);
  let '(gate_weights, up_weights, down_weights) := weights in
  gate_proj ← t_stack (data <$> gate_weights);
  up_proj ← t_stack (data <$> up_weights);
  down_proj ← t_stack (data <$> down_weights);
  mret (gate_proj, up_proj, down_proj).

Definition extract_fused (o : objects) (gate_up down : option value) (moe_config : MOEArchConfig) : res (tensor * tensor * tensor) :=
  match gate_up, down with
  | Some (VTensor gate_up_parameter), Some (VTensor down_parameter) =>
      _ ← require_materialized_expert_weight o gate_up_parameter;
      _ ← require_materialized_expert_weight o down_parameter;
      vlm_weights ← canonicalize_qwen3_vl_fused_expert_weights (data gate_up_parameter) (data down_parameter) moe_config;
      match vlm_weights with
      | Some weights => mret weights
      | None => split_fused (data gate_up_parameter) (data down_parameter)
      end
  | _, _ => Err (Raise AttributeError "object has no attribute")
  end.

Definition extract_moe_weights (o : objects) (moe_module : Z) (moe_config : MOEArchConfig) : res (tensor * tensor * tensor) :=
  experts ← of_option (get_attribute (ob_modules o) moe_module (ma_experts_attr moe_config)) AttributeError "object has no attribute";
  match experts with
  | VModule experts =>
      if fused_experts o experts
      then extract_fused o (get_attribute (ob_modules o) experts "gate_up_proj") (get_attribute (ob_modules o) experts "down_proj") moe_config
      else extract_list o experts moe_config
  | _ => Err (Raise TypeError "object is not iterable")
  end.
End extraction.
