(* ===== verification/ExtractionSpec.v ===== *)
(** * Extracting the weights of a layer's experts: properties

    A layer whose experts are a list yields, projection by projection, the stack
    of its experts' weights in their order; one weight that is not there makes
    the whole extraction raise.  After its experts were emptied nothing can be
    extracted from a layer any more. *)
From S2P Require Import Prelude PyStr PyVal Backend WeightSource Arch Artifacts ExpertWeights Modules Ownership OwnershipSpec.
From S2P Require Import Placeholders EmptyingSpec Extraction.

Local Open Scope string_scope.
Local Open Scope list_scope.
Local Open Scope Z_scope.

Section extraction.
Context `{RegistryLaws, Tensors} (data : Z → tensor) (storage_bytes : Z → option Z) (element_size : string → Z).

Abbreviation materialized := (require_materialized_expert_weight storage_bytes element_size).
Abbreviation weight_tensor := (get_weight_tensor storage_bytes element_size).
Abbreviation extract := (extract_moe_weights data storage_bytes element_size).

(** The tensor of one projection of one expert. *)
Definition expert_tensor (o : objects) (name : string) (expert : Z) : res Z :=
  proj ← projection_of o expert name; weight_tensor o proj.

Lemma extract_expert_ok o g u d (ws ws' : list Z * list Z * list Z) expert :
  extract_expert storage_bytes element_size o (g, u, d) ws expert = Ok ws' ↔
  ∃ tg tu td, expert_tensor o g expert = Ok tg ∧ expert_tensor o u expert = Ok tu ∧ expert_tensor o d expert = Ok td ∧
    ws' = (ws.1.1 ++ [tg], ws.1.2 ++ [tu], ws.2 ++ [td]).
Proof.
  destruct ws as [[gs us] ds]. unfold expert_tensor, extract_expert. split.
  - intros (pg & Hpg & (pu & Hpu & (pd & Hpd & (tg & Htg & (tu & Htu & (td & Htd & [= <-])%bind_ok)%bind_ok)%bind_ok)%bind_ok)%bind_ok)%bind_ok.
    exists tg, tu, td. rewrite Hpg, Hpu, Hpd. done.
  - intros (tg & tu & td & (pg & Hpg & Htg)%bind_ok & (pu & Hpu & Htu)%bind_ok & (pd & Hpd & Htd)%bind_ok & ->).
    rewrite Hpg, Hpu, Hpd. simpl. by rewrite Htg, Htu, Htd.
Qed.

(** Every expert's tensors are collected, in order. *)
Lemma extract_experts_ok o g u d items (ws ws' : list Z * list Z * list Z) :
  for_each items ws (extract_expert storage_bytes element_size o (g, u, d)) = Ok ws' ↔
  ∃ gs us ds, mapM (expert_tensor o g) items = Ok gs ∧ mapM (expert_tensor o u) items = Ok us ∧ mapM (expert_tensor o d) items = Ok ds ∧
    ws' = (ws.1.1 ++ gs, ws.1.2 ++ us, ws.2 ++ ds).
Proof.
  revert ws. induction items as [|expert items IH]; intros ws; simpl.
  - split; [intros [= <-]; exists [], [], []|intros (gs & us & ds & [= <-] & [= <-] & [= <-] & ->)]; rewrite !app_nil_r; by destruct ws as [[]].
  - split.
    + intros (ws1 & (tg & tu & td & Hg & Hu & Hd & ->)%extract_expert_ok & (gs & us & ds & Hgs & Hus & Hds & ->)%IH)%bind_ok.
      exists (tg :: gs), (tu :: us), (td :: ds). rewrite Hg, Hu, Hd. simpl. rewrite Hgs, Hus, Hds. by rewrite <-!app_assoc.
    + intros (gs' & us' & ds' & (tg & Hg & (gs & Hgs & [= <-])%bind_ok)%bind_ok & (tu & Hu & (us & Hus & [= <-])%bind_ok)%bind_ok
              & (td & Hd & (ds & Hds & [= <-])%bind_ok)%bind_ok & ->).
      apply bind_ok. exists (ws.1.1 ++ [tg], ws.1.2 ++ [tu], ws.2 ++ [td]). split; [apply extract_expert_ok; by exists tg, tu, td|].
      apply IH. exists gs, us, ds. simpl. by rewrite <-!app_assoc.
Qed.

(** A list of experts yields the stacks of their weights, and nothing else. *)
Lemma extracted_list_is_exact o experts moe_config g u d r : ma_weight_names moe_config = [g; u; d] →
  extract_list data storage_bytes element_size o experts moe_config = Ok r ↔
  (∃ m, ob_modules o !! experts = Some m ∧ md_is_list m = true) ∧ ∃ gs us ds,
    mapM (expert_tensor o g) (list_items (ob_modules o) experts) = Ok gs ∧ t_stack (data <$> gs) = Ok r.1.1 ∧
    mapM (expert_tensor o u) (list_items (ob_modules o) experts) = Ok us ∧ t_stack (data <$> us) = Ok r.1.2 ∧
    mapM (expert_tensor o d) (list_items (ob_modules o) experts) = Ok ds ∧ t_stack (data <$> ds) = Ok r.2.
Proof.
  intros Hnames. unfold extract_list. rewrite Hnames. simpl. split.
  - intros ([] & Hl%raise_if_ok & ([[gs us] ds] & (gs' & us' & ds' & Hg & Hu & Hd & [= -> -> ->])%extract_experts_ok
      & (G & HG & (U & HU & (D & HD & [= <-])%bind_ok)%bind_ok)%bind_ok)%bind_ok)%bind_ok.
    apply negb_false_iff in Hl. destruct (ob_modules o !! experts) as [m|]; [|done]. split; [by exists m|]. by exists gs', us', ds'.
  - intros [(m & Hm & Hl) (gs & us & ds & Hg & HG & Hu & HU & Hd & HD)]. rewrite Hm, Hl. simpl.
    assert (for_each (list_items (ob_modules o) experts) ([], [], []) (extract_expert storage_bytes element_size o (g, u, d)) = Ok (gs, us, ds)) as ->.
    { apply extract_experts_ok. by exists gs, us, ds. }
    simpl. rewrite HG, HU, HD. by destruct r as [[]].
Qed.

(** *** After emptying *)

Lemma placeholder_is_not_materialized o i n : placeholder_at o i n →
  ∃ t ex, get_attribute (ob_modules o) i n = Some (VTensor t) ∧ materialized o t = Err ex.
Proof.
  intros (t & A & Ht & HA & Hz). exists t. eexists. split; [by rewrite (parameter_attribute _ _ _ _ Ht)|].
  unfold require_materialized_expert_weight, tensor_at. rewrite HA. simpl. by rewrite Hz, orb_true_r.
Qed.

Lemma placeholder_projection o name expert proj : get_attribute (ob_modules o) expert name = Some (VModule proj) →
  placeholder_at o proj "weight" → ∃ ex, expert_tensor o name expert = Err ex.
Proof.
  intros Hproj (t & ex & Ht & Hm)%placeholder_is_not_materialized. exists ex.
  unfold expert_tensor, projection_of, get_weight_tensor. rewrite Hproj. simpl. rewrite Ht. simpl. by rewrite Hm.
Qed.

Lemma mapM_raises {A B} (f : A → res B) l x : x ∈ l → (∃ ex, f x = Err ex) → ∀ r, mapM f l ≠ Ok r.
Proof.
  intros Hx [ex Hex]. induction l as [|y l IH]; [by apply elem_of_nil in Hx|]. intros r (b & Hb & (r' & Hr & _)%bind_ok)%bind_ok.
  apply elem_of_cons in Hx as [->|Hx]; [congruence|]. by apply (IH Hx r').
Qed.

Lemma materialized_before e o o' experts : empties e o o' → get_attribute (ob_modules o) experts "gate_up_proj" = None →
  fused_experts o experts = false ∧ fused_experts o' experts = false.
Proof.
  intros Hem Hno. pose proof (em_attributes _ _ _ Hem experts "gate_up_proj") as Ha. rewrite Hno in Ha.
  unfold fused_experts. rewrite Hno. by destruct (get_attribute (ob_modules o') experts "gate_up_proj").
Qed.

(** C25. Of a layer whose experts are a list, extraction returns exactly when every
    expert has all three weights, in memory, and they stack; it returns the
    stacks, in the order of experts.  After the layer's experts were emptied,
    extraction raises, if one of the weights was registered by its projection. *)
Theorem extraction_is_exact_until_emptied o moe_module moe_config experts g u d : all_parameters o →
  get_attribute (ob_modules o) moe_module (ma_experts_attr moe_config) = Some (VModule experts) →
  get_attribute (ob_modules o) experts "gate_up_proj" = None →
  ma_weight_names moe_config = [g; u; d] →
  (∀ r, extract o moe_module moe_config = Ok r ↔ (∃ m, ob_modules o !! experts = Some m ∧ md_is_list m = true) ∧ ∃ gs us ds,
     mapM (expert_tensor o g) (list_items (ob_modules o) experts) = Ok gs ∧ t_stack (data <$> gs) = Ok r.1.1 ∧
     mapM (expert_tensor o u) (list_items (ob_modules o) experts) = Ok us ∧ t_stack (data <$> us) = Ok r.1.2 ∧
     mapM (expert_tensor o d) (list_items (ob_modules o) experts) = Ok ds ∧ t_stack (data <$> ds) = Ok r.2) ∧
  ∀ e o' expert w proj, clear_original_expert_weights e moe_module moe_config o = Ok o' →
    expert ∈ list_items (ob_modules o) experts → w ∈ [g; u; d] →
    get_attribute (ob_modules o) expert w = Some (VModule proj) → weight_of (ob_modules o) expert w proj "weight" →
    ∃ ex, extract o' moe_module moe_config = Err ex.
Proof.
  intros Hp Hexp Hno Hnames. assert (fused_experts o experts = false) as Hf by (unfold fused_experts; by rewrite Hno). split.
  - intros r. unfold extract_moe_weights. rewrite Hexp. simpl. rewrite Hf. by apply extracted_list_is_exact.
  - intros e o' expert w proj Hc Hx Hw Hproj Hof.
    assert (empties e o o' ∧ placeholder_at o' proj "weight") as [Hem Hat].
    { unfold clear_original_expert_weights in Hc. rewrite Hexp, Hf in Hc.
      destruct (match _ with Some _ => _ | None => false end); [|done]. injection Hc as <-.
      destruct (clear_weights_all e moe_config (list_items (ob_modules o) experts) o Hp) as [Hem Hat]. split; [done|].
      eapply Hat; [done| |done]. by rewrite Hnames. }
    destruct (extract o' moe_module moe_config) as [r|ex] eqn:Ex; [|by exists ex]. exfalso.
    unfold extract_moe_weights in Ex. rewrite (proj2 (module_attribute_stays _ _ _ _ _ _ Hem) Hexp) in Ex. simpl in Ex.
    rewrite (proj2 (materialized_before _ _ _ _ Hem Hno)) in Ex.
    apply (extracted_list_is_exact o' experts moe_config g u d r Hnames) in Ex as (_ & gs & us & ds & Hg & _ & Hu & _ & Hd & _).
    rewrite <-(list_items_by_children _ _ experts (same_trees_children _ _ _ (em_trees _ _ _ Hem))) in Hg, Hu, Hd.
    assert (∃ ex, expert_tensor o' w expert = Err ex) as Hraise.
    { eapply placeholder_projection; [|exact Hat]. by apply (module_attribute_stays _ _ _ _ _ _ Hem). }
    repeat (apply elem_of_cons in Hw as [->|Hw]; [by eapply mapM_raises|]). by apply elem_of_nil in Hw.
Qed.

(** Fused experts that were emptied are not extracted either. *)
Lemma emptied_fused_experts_are_not_extracted e o o' moe_module moe_config experts m : all_parameters o →
  get_attribute (ob_modules o) moe_module (ma_experts_attr moe_config) = Some (VModule experts) →
  ob_modules o !! experts = Some m → md_is_list m = false → fused_experts o experts = true →
  (∀ n, n ∈ ["gate_up_proj"; "down_proj"] → ∃ t, get_entry Parameters experts n (ob_modules o) = Some (Some t)) →
  clear_original_expert_weights e moe_module moe_config o = Ok o' → ∃ ex, extract o' moe_module moe_config = Err ex.
Proof.
  intros Hp Hexp Hm Hl Hf Hreg Hc. unfold clear_original_expert_weights in Hc. rewrite Hexp, Hf in Hc. injection Hc as Hc.
  pose proof (clear_fused_both e experts o Hp Hreg) as Hb. simpl in Hb. rewrite Hc in Hb. destruct Hb as [Hem Hat]. clear Hc.
  destruct (placeholder_is_not_materialized _ _ _ (Hat "gate_up_proj" ltac:(left))) as (t & ex & Ht & Hraise).
  unfold extract_moe_weights. rewrite (proj2 (module_attribute_stays _ _ _ _ _ _ Hem) Hexp). simpl.
  destruct (fused_experts o' experts) eqn:Ef'.
  - unfold extract_fused. rewrite Ht. unfold fused_experts in Ef'. apply andb_true_iff in Ef' as [_ Ed].
    destruct (get_attribute (ob_modules o') experts "down_proj") as [[]|]; try done. rewrite Hraise. by eexists.
  - pose proof (em_trees _ _ _ Hem experts) as Ht'. rewrite Hm in Ht'. inversion Ht' as [m0 m' [Hlist _ _ _] Heq Hm'|]; subst.
    unfold extract_list. destruct (ma_weight_names moe_config) as [|g [|u [|d [|]]]]; try by eexists. simpl. rewrite <-Hm', Hlist, Hl. by eexists.
Qed.
End extraction.
