(* ===== verification/PlaceholdersExample.v ===== *)
(** * Placeholders on small models

    The torch of [OwnershipExample], with properties of parametrized modules, and
    its laws.  The routed layers of its model are emptied, fused experts, and so
    is a layer whose experts are a list and one of whose projections is
    parametrized; then the placeholders are listed, and weights are extracted
    from a layer before it is emptied.  The properties of [EmptyingSpec],
    [PlaceholdersSpec] and [ExtractionSpec] hold of them. *)
From S2P Require Import Prelude PyStr PyVal Backend WeightSource Arch Modules Ownership OwnershipSpec OwnershipExample.
From S2P Require Import Placeholders PlaceholdersSpec EmptyingSpec ExpertWeights ExpertWeightsExample Extraction ExtractionSpec.

Local Open Scope string_scope.
Local Open Scope list_scope.
Local Open Scope Z_scope.

Module PlaceholdersExample.
Import OwnershipExample ExpertWeightsExample.

(** ** Torch *)

Definition child (ms : module_map) (i : Z) (name : string) : option Z := get_entry Children i name ms ≫= id.

(** A parametrized attribute is computed. *)
Definition property (ms : module_map) (i : Z) (name : string) : option value :=
  if bool_decide (is_Some (child ms i "parametrizations" ≫= λ ps, child ms ps name)) then Some VOther else None.

Definition attribute (ms : module_map) (i : Z) (name : string) : option value :=
  match get_entry Parameters i name ms, get_entry Buffers i name ms, get_entry Children i name ms with
  | Some v, _, _ | None, Some v, _ => Some (match v with Some t => VTensor t | None => VNone end)
  | None, None, Some v => Some (match v with Some j => VModule j | None => VNone end)
  | None, None, None => property ms i name
  end.

#[local] Instance parametrizing : Torch := {
  get_attribute := attribute;
  base_model_of := @base_model_of torch;
  list_items := @list_items torch;
  submodules := @submodules torch;
  Modules.named_children := @Modules.named_children torch;
  named_parameters := @named_parameters torch;
  named_buffers := @named_buffers torch;
  get_submodule := @get_submodule torch;
  device_type := @device_type torch;
}.

Lemma replaced_property ms i n t j m : property (set_entry Parameters i n t ms) j m = property ms j m.
Proof.
  assert (∀ j m, child (set_entry Parameters i n t ms) j m = child ms j m) as Hc.
  { intros j' m'. unfold child. by rewrite get_set_entry_ne. }
  unfold property. rewrite Hc. destruct (child ms j "parametrizations"); [|done]. simpl. by rewrite Hc.
Qed.

Lemma related_entries R prefix (l l' : list (string * option Z)) : Forall2 (λ a b, a.1 = b.1 ∧ option_Forall2 R a.2 b.2) l l' →
  Forall2 (λ a b, a.1 = b.1 ∧ R a.2 b.2)
    (omap (λ e : string * option Z, (λ t, (dotted prefix e.1, t)) <$> e.2) l) (omap (λ e : string * option Z, (λ t, (dotted prefix e.1, t)) <$> e.2) l').
Proof.
  induction 1 as [|[k v] [k' v'] l l' [Hk Hv] _ IH]; [constructor|]. simpl in *. subst k'.
  destruct Hv as [a b Hab|]; [|exact IH]. cbn. constructor; [by split|exact IH].
Qed.

#[local] Instance registry_laws : RegistryLaws.
Proof.
  split.
  - intros ms i n v Hv. simpl. unfold attribute. by rewrite Hv.
  - intros ms i n t t' j m Ht. simpl. unfold attribute. rewrite replaced_property, (get_set_entry_ne _ _ _ _ _ Buffers), (get_set_entry_ne _ _ _ _ _ Children) by done.
    destruct (decide ((i, n) = (j, m))) as [[= <- <-]|Hne].
    + rewrite get_set_entry_eq, Ht; [done|]. unfold get_entry in Ht. destruct (ms !! i); [by eexists|done].
    + rewrite get_set_entry_ne; [done|]. congruence.
  - intros ms ms' i Hs. simpl. by rewrite (child_list_same ms ms' i).
  - intros R ms ms' i Hs. change (@named_parameters parametrizing false) with (named_entries Parameters false). unfold named_entries. rewrite (named_modules_same 8 ms ms') by by eapply same_trees_children.
    induction (named_modules 8 ms' "" i) as [|[prefix j] l IH]; [constructor|]. apply Forall2_app; [|exact IH].
    apply related_entries. unfold entries_of. simpl. destruct (Hs j) as [m m' [_ _ _ Hp]|]; [exact Hp|constructor].
  - intros R ms ms' i Hs. change (@named_buffers parametrizing false) with (named_entries Buffers false). unfold named_entries. rewrite (named_modules_same 8 ms ms') by by eapply same_trees_children.
    apply list_bind_ext; [|done]. intros [prefix j]. f_equal. unfold entries_of. simpl. destruct (Hs j) as [m m' [_ _ Hb _]|]; [by simpl; rewrite Hb|done].
Qed.

(** ** Emptying *)

(** Layer 0 is module 1, whose experts are a list of 2 and 3; the first has a
    plain projection 4, the second a parametrized one, 5. *)
Definition list_modules : module_map := list_to_map [
  (1, plain [("experts", 10)] [] []);
  (10, Module_ true [("0", Some 2); ("1", Some 3)] [] []);
  (2, plain [("gate_proj", 4)] [] []);
  (3, plain [("gate_proj", 5)] [] [("weight_scale", 102)]);
  (4, Module_ false [] [("weight", Some 100); ("bias", None)] []);
  (5, plain [("parametrizations", 6)] [] []);
  (6, plain [("weight", 7)] [] []);
  (7, plain [] [("original", 101)] [])].

Definition list_model : objects := Objects list_modules (list_to_map [
  (100, parameter [3; 4]); (101, parameter [3; 4]); (102, buffer [1; 1])]).

Definition gate_only : MOEArchConfig := Arch "mlp" "gate" "experts" ["gate_proj"] 2 3 1 false "linear".

Definition parameters_checked (o : objects) : bool :=
  bool_decide (map_Forall (λ _ m, Is_true (forallb (λ e : string * option Z,
    match e.2 with Some t => match ob_tensors o !! t with Some A => to_parameter A | None => false end | None => true end)
    (md_parameters m))) (ob_modules o)).

Lemma all_parameters_checked o : parameters_checked o = true → all_parameters o.
Proof.
  intros Hc%bool_decide_eq_true i n t (m & Hm & He)%get_entry_elem_of. specialize (Hc i m Hm). simpl in Hc.
  apply Is_true_eq_true in Hc. rewrite forallb_forall in Hc. pose proof (Hc _ (proj1 (list_elem_of_In _ _) He)) as Hx.
  simpl in Hx. destruct (ob_tensors o !! t) as [A|]; [by exists A|done].
Qed.

#[local] Instance recorded_dec A : Decision (recorded A).
Proof. unfold recorded. apply _. Defined.

Definition result_or (o : objects) (r : res objects) : objects := match r with Ok o' => o' | Err _ => o end.

Definition emptied_list : objects := result_or list_model (clear_original_expert_weights true 1 gate_only list_model).

(** Both weights become empty placeholders; the contract of the experts holds. *)
Lemma emptied_experts_keep_their_contract_witness :
  clear_original_expert_weights true 1 gate_only list_model = Ok emptied_list ∧
  placeholder_at emptied_list 4 "weight" ∧ placeholder_at emptied_list 7 "original" ∧
  (λ e, to_shape <$> ob_tensors emptied_list !! e.2) <$> named_parameters false (ob_modules emptied_list) 10 = [Some [0]; Some [0]] ∧
  runtime_tensor_contract list_model 10 = runtime_tensor_contract emptied_list 10 ∧
  runtime_tensor_contract emptied_list 10 =
    Ok [("buffer", "1.weight_scale", [1; 1]); ("parameter", "0.gate_proj.weight", [3; 4]);
        ("parameter", "1.gate_proj.parametrizations.weight.original", [3; 4])].
Proof.
  assert (clear_original_expert_weights true 1 gate_only list_model = Ok emptied_list) as Hc by (vm_compute; reflexivity).
  destruct (emptied_experts_keep_their_contract true 1 gate_only 10 list_model emptied_list) as (Hat & _ & _ & Hkeep);
    [apply all_parameters_checked; vm_compute; reflexivity|vm_compute; reflexivity|vm_compute; discriminate|exact Hc|].
  assert (runtime_tensor_contract emptied_list 10 = runtime_tensor_contract list_model 10) as Hsame.
  { destruct (runtime_tensor_contract list_model 10) as [c|] eqn:E; [|vm_compute in E; discriminate].
    apply Hkeep; [..|exact E]; apply (bool_decide_unpack _); vm_compute; exact I. }
  split; [exact Hc|]. split; [|split; [|split; [vm_compute; reflexivity|split; [by symmetry|vm_compute; reflexivity]]]].
  - apply Hat. exists 2, "gate_proj". split; [left|]. split; [left|].
    apply weight_direct with 100; vm_compute; [reflexivity|discriminate|reflexivity].
  - apply Hat. exists 3, "gate_proj". split; [right; left|]. split; [left|].
    apply weight_parametrized with 5 6 101; vm_compute; [reflexivity|by eexists|reflexivity..].
Defined.

(** ** The inventory *)

(** The routed layers of the model of [OwnershipExample] are wrapped: their fused
    experts are emptied. *)
Definition deepseek_mlp : MOEArchConfig := Arch "mlp" "gate" "experts" ["gate_proj"; "up_proj"; "down_proj"] 2 3 1 true "deepseek".

Definition wrapper_experts (i : Z) : option (option string) := if bool_decide (i ∈ [6; 11]) then Some (Some "experts") else None.

Definition wrapped_model : heap := Heap
  (result_or (hp_objects fresh_model) (o ← clear_original_expert_weights false 6 deepseek_mlp (hp_objects fresh_model);
                                       clear_original_expert_weights false 11 deepseek_mlp o)) ∅.

Abbreviation inventory := (get_kt_expert_placeholders wrapper_experts 0).

Definition listed : list (string * Z) :=
  [("model.layers.1.mlp.experts.down_proj", 111); ("model.layers.1.mlp.experts.gate_up_proj", 110);
   ("model.layers.2.mlp.experts.down_proj", 113); ("model.layers.2.mlp.experts.gate_up_proj", 112)].

(** A full weight is put back for one placeholder: its name stays listed. *)
Definition restored_model : heap := on_modules (set_entry Parameters 7 "down_proj" (Some 102)) (inventory wrapped_model).1.

(** A placeholder appears under a new name. *)
Definition grown_model : heap := on_modules (set_entry Parameters 7 "extra" (Some 111)) (inventory wrapped_model).1.

Lemma inventory_is_exact_and_stable_witness :
  (inventory wrapped_model).2 = Ok listed ∧ inventory (inventory wrapped_model).1 = ((inventory wrapped_model).1, Ok listed) ∧
  (inventory restored_model).2 = Ok (<[0%nat := ("model.layers.1.mlp.experts.down_proj", 102)]> listed) ∧
  (inventory grown_model).2 = Err (Raise RuntimeError "KT expert placeholder inventory changed after its initial discovery").
Proof.
  assert ((inventory wrapped_model).2 = Ok listed) as Hl by (vm_compute; reflexivity).
  split; [exact Hl|]. split; [|split; vm_compute; reflexivity].
  destruct (inventory_is_exact_and_stable wrapper_experts 0 wrapped_model (inventory wrapped_model).1 listed) as (_ & _ & _ & _ & Hagain & _).
  - reflexivity.
  - assert (Forall (λ e : string * Z, e.1 ≠ "") (named_parameters false (mods wrapped_model) 0)) as Hne
      by (apply (bool_decide_unpack _); vm_compute; exact I).
    rewrite Forall_forall in Hne. exact Hne.
  - apply run_result. exact Hl.
  - exact Hagain.
Defined.

(** ** Extraction *)

#[local] Instance numbered_tensors : Tensors := plain_tensors.

Definition loaded (shape : list Z) : tensor_obj := TensorObj true shape "bfloat16" "cpu" true false None.

(** Two experts, 2 and 3, with three projections each. *)
Definition two_experts : objects := Objects (list_to_map [
  (1, plain [("experts", 10)] [] []);
  (10, Module_ true [("0", Some 2); ("1", Some 3)] [] []);
  (2, plain [("gate_proj", 20); ("up_proj", 21); ("down_proj", 22)] [] []);
  (3, plain [("gate_proj", 30); ("up_proj", 31); ("down_proj", 32)] [] []);
  (20, plain [] [("weight", 120)] []); (21, plain [] [("weight", 121)] []); (22, plain [] [("weight", 122)] []);
  (30, plain [] [("weight", 130)] []); (31, plain [] [("weight", 131)] []); (32, plain [] [("weight", 132)] [])])
  (list_to_map [(120, loaded [1; 2]); (121, loaded [1; 2]); (122, loaded [2; 1]);
                (130, loaded [1; 2]); (131, loaded [1; 2]); (132, loaded [2; 1])]).

(** Each tensor holds its number twice, in four bytes. *)
Definition numbered (i : Z) : tensor := PlainTensor [1; 2] "bfloat16" "cpu" [i; i].
Definition four_bytes : Z -> option Z := fun _ => Some 4.
Definition two_each : string -> Z := fun _ => 2.

Abbreviation extract := (extract_moe_weights numbered four_bytes two_each).

Definition stack_of (l : list Z) : tensor := PlainTensor [2; 1; 2] "bfloat16" "cpu" l.

Lemma extraction_is_exact_until_emptied_witness :
  extract two_experts 1 deepseek_mlp = Ok (stack_of [120; 120; 130; 130], stack_of [121; 121; 131; 131], stack_of [122; 122; 132; 132]) ∧
  ∀ o', clear_original_expert_weights true 1 deepseek_mlp two_experts = Ok o' → ∃ ex, extract o' 1 deepseek_mlp = Err ex.
Proof.
  destruct (extraction_is_exact_until_emptied numbered four_bytes two_each two_experts 1 deepseek_mlp 10 "gate_proj" "up_proj" "down_proj")
    as [Hexact Hempty]; [apply all_parameters_checked; vm_compute; reflexivity|vm_compute; reflexivity..|]. split.
  - apply Hexact. split; [by eexists|]. exists [120; 130], [121; 131], [122; 132]. split_and!; vm_compute; reflexivity.
  - intros o' Ho'. apply (Hempty true o' 3 "up_proj" 31 Ho').
    + right. left.
    + right. left.
    + vm_compute. reflexivity.
    + apply weight_direct with 131; vm_compute; [reflexivity|discriminate|reflexivity].
Defined.

(** Emptied fused experts that keep no shape are no longer taken for fused. *)
Example emptied_fused_experts_are_not_recognised :
  let o := result_or (hp_objects fresh_model) (clear_original_expert_weights true 6 deepseek_mlp (hp_objects fresh_model)) in
  fused_experts (hp_objects fresh_model) 7 = true ∧ fused_experts o 7 = false ∧
  extract o 6 deepseek_mlp = Err (Raise TypeError "object is not iterable").
Proof. vm_compute. split_and!; reflexivity. Qed.

End PlaceholdersExample.
