(* ===== verification/Lora.v ===== *)
(** * LoRA parameters of routed experts

    Models [kt-kernel/python/sft/lora.py] up to its adapter files: which
    parameters of a model's wrappers are trained and under which names, and the
    adaptation of PEFT's LoRA, which moves the weights of all experts into
    contiguous buffers and leaves each parameter a view of its row.

    Tensors share storage, so buffers live in a heap and a parameter's data is a
    place in one: a row, or the whole.  What is in a row is a block of numbers,
    opaque but for the conversion to bfloat16 and for broadcasting.  What
    [getattr] finds on an expert's projections is recorded with its wrapper.  The
    backend is [AMXSFTMoEWrapper] of [amx.py], as far as LoRA goes. *)
From S2P Require Import Prelude PyStr PyVal Backend WeightSource Arch Artifacts Modules Ownership Placeholders.

Local Open Scope string_scope.
Local Open Scope list_scope.
Local Open Scope Z_scope.

(** ** Storage *)

(** The data of a tensor: a buffer, or one row of it. *)
Inductive place := Whole (buffer : Z) | Row (buffer : Z) (row : nat).
#[export] Instance place_eq_dec : EqDecision place.
Proof. solve_decision. Defined.

(** What a buffer holds: rows that are viewed one by one, or one block. *)
Inductive contents (block : Type) := Solid (b : block) | Rows (l : list block).
Arguments Solid {block}. Arguments Rows {block}.

(** A contiguous bfloat16 tensor on the host, and its shape. *)
Record buffer (block : Type) := Buffer { bu_shape : list Z; bu_contents : contents block }.
Arguments Buffer {block}. Arguments bu_shape {block}. Arguments bu_contents {block}.

(** The modules and tensors; and each tensor's data and gradient. *)
Record lora_heap (block : Type) := LoraHeap {
  lh_heap : heap;
  lh_buffers : gmap Z (buffer block);
  lh_data : gmap Z place;
  lh_grad : gmap Z place;
}.
Arguments LoraHeap {block}. Arguments lh_heap {block}. Arguments lh_buffers {block}.
Arguments lh_data {block}. Arguments lh_grad {block}.

(** ** Wrappers *)

(** [lora_A] and [lora_B]: a [Linear], by its weight, or a [ModuleDict] of them. *)
Inductive lora_module := LLinear (weight : Z) | LModuleDict (adapters : list (string * Z)).

(** [proj.active_adapter]: names, or anything else. *)
Record projection := Projection {
  pj_lora_A : option lora_module;
  pj_lora_B : option lora_module;
  pj_active_adapter : option (list string);
}.

(** An expert's projections by name. *)
Abbreviation expert := (list (string * projection)).

(** [{expert_idx: {proj_name: (lora_A, lora_B)}}] *)
Abbreviation expert_loras := (list (string * (lora_module * lora_module))).
Abbreviation peft_loras := (list (Z * expert_loras)).

(** [_AuthoritativeOptimizerGrad] *)
Record grad_binding := Binding { bi_name : string; bi_parameter : Z; bi_view : place }.

(** The backend. *)
Record backend := KTBackend {
  kb_gate_proj_buf : option Z;
  kb_up_proj_buf : option Z;
  kb_down_proj_buf : option Z;
  kb_num_experts : Z;
  kb_lora_rank : Z;
  kb_hidden_size : Z;
  kb_moe_intermediate_size : Z;
  kb_uses_authoritative : bool;
  kb_bindings : list grad_binding;
  (** the buffers that [init_lora_weights] keeps, once it was called *)
  kb_lora : option (list (string * Z));
  (** [_weights_loaded], [moe is not None] and [_is_skip_lora] *)
  kb_weights_loaded : bool;
  kb_moe : bool;
  kb_skip_lora : bool;
}.

Record kt_wrapper := KTWrapper {
  kw_layer_idx : pyval;
  (** the module, and what [_experts_attr] names, if anything *)
  kw_experts_module : option Z;
  kw_experts : list expert;
  kw_use_fused_expert_lora : bool;
  kw_fused_experts : bool;
  kw_lora_rank : option Z;
  kw_uses_authoritative : bool;
  kw_full_weight_grad : bool;
  kw_moe_config : MOEArchConfig;
  kw_hidden_size : Z;
  kw_lora_experts : option Z;
  kw_world_size_at_wrap : option Z;
  (** what adaptation sets *)
  kw_backend : option backend;
  kw_adapted : bool;
  kw_managed : bool;
  kw_fused_params : option (list Z);
  kw_peft : option peft_loras;
}.

Definition set_backend (b : option backend) (w : kt_wrapper) : kt_wrapper :=
  KTWrapper (kw_layer_idx w) (kw_experts_module w) (kw_experts w) (kw_use_fused_expert_lora w) (kw_fused_experts w) (kw_lora_rank w)
    (kw_uses_authoritative w) (kw_full_weight_grad w) (kw_moe_config w) (kw_hidden_size w) (kw_lora_experts w) (kw_world_size_at_wrap w)
    b (kw_adapted w) (kw_managed w) (kw_fused_params w) (kw_peft w).
Definition set_adapted (w : kt_wrapper) : kt_wrapper :=
  KTWrapper (kw_layer_idx w) (kw_experts_module w) (kw_experts w) (kw_use_fused_expert_lora w) (kw_fused_experts w) (kw_lora_rank w)
    (kw_uses_authoritative w) (kw_full_weight_grad w) (kw_moe_config w) (kw_hidden_size w) (kw_lora_experts w) (kw_world_size_at_wrap w)
    (kw_backend w) true (kw_managed w) (kw_fused_params w) (kw_peft w).
Definition set_managed (w : kt_wrapper) : kt_wrapper :=
  KTWrapper (kw_layer_idx w) (kw_experts_module w) (kw_experts w) (kw_use_fused_expert_lora w) (kw_fused_experts w) (kw_lora_rank w)
    (kw_uses_authoritative w) (kw_full_weight_grad w) (kw_moe_config w) (kw_hidden_size w) (kw_lora_experts w) (kw_world_size_at_wrap w)
    (kw_backend w) (kw_adapted w) true (kw_fused_params w) (kw_peft w).
Definition set_loras (fused_params : option (list Z)) (peft : option peft_loras) (w : kt_wrapper) : kt_wrapper :=
  KTWrapper (kw_layer_idx w) (kw_experts_module w) (kw_experts w) (kw_use_fused_expert_lora w) (kw_fused_experts w) (kw_lora_rank w)
    (kw_uses_authoritative w) (kw_full_weight_grad w) (kw_moe_config w) (kw_hidden_size w) (kw_lora_experts w) (kw_world_size_at_wrap w)
    (kw_backend w) (kw_adapted w) (kw_managed w) fused_params peft.

(** ** Trained parameters *)

(** An identity that is not in use. *)
Definition unused {A} (m : gmap Z A) : Z := 1 + max_key m.

Section parameters.
Context `{Torch}.

(** [lora.weight] of a parameter that is trained, if the module has a weight *)
Definition trained_weight (o : objects) (m : lora_module) : list Z :=
  match m with
  | LLinear weight => match ob_tensors o !! weight with Some t => if to_requires_grad t then [weight] else [] | None => [] end
  | LModuleDict _ => []
  end.

Definition collect_wrapper_managed_lora_params (o : objects) (w : kt_wrapper) : list Z :=
  (default [] (kw_peft w) ≫= fun '(_, loras) => loras ≫= fun '(_, (lora_A, lora_B)) => trained_weight o lora_A ++ trained_weight o lora_B)
    ++ default [] (kw_fused_params w).

Definition collect_kt_lora_params (o : objects) (wrappers : list kt_wrapper) : list Z :=
  wrappers ≫= fun w => collect_wrapper_managed_lora_params o w
                       ++ match kw_lora_experts w with Some m => parameters_of o m | None => [] end.

Definition base_buffers (b : backend) : list (string * option Z) :=
  [("gate_proj", kb_gate_proj_buf b); ("up_proj", kb_up_proj_buf b); ("down_proj", kb_down_proj_buf b)].

Definition collect_kt_full_weight_params (wrappers : list kt_wrapper) : list Z :=
  wrappers ≫= fun w =>
    match kw_backend w with
    | Some b => if kw_full_weight_grad w then omap snd (base_buffers b) else []
    | None => []
    end.

Definition get_kt_trainable_params (o : objects) (wrappers : list kt_wrapper) : list Z :=
  if existsb kw_full_weight_grad wrappers
  then collect_kt_full_weight_params wrappers ++ collect_kt_lora_params o wrappers
  else collect_kt_lora_params o wrappers.

Definition FUSED_NAMES : list string :=
  ["gate_lora_a"; "gate_lora_b"; "up_lora_a"; "up_lora_b"; "down_lora_a"; "down_lora_b"].

(** [registered_names], the first name of each parameter *)
Definition registered_names (o : objects) (model : Z) : gmap Z string :=
  foldl (fun names '(name, parameter) => match names !! parameter with Some _ => names | None => <[parameter := name]> names end) ∅
    (named_parameters false (ob_modules o) model).

(** The names that one wrapper gives. *)
Definition add_owned_names (o : objects) (owned_names : gmap Z string) (w : kt_wrapper) : res (gmap Z string) :=
  layer_idx ← match kw_layer_idx w with
              | PInt n => mret n
              | _ => Err (Raise RuntimeError "KT wrapper has an invalid layer index")
              end;
  let prefix := "kt.layers." +:+ str_of_Z layer_idx +:+ ".experts" in
  let base := match kw_backend w with Some b => if kw_full_weight_grad w then base_buffers b else [] | None => [] end in
  let owned_names := foldl (fun names '(name, parameter) =>
    match parameter with
    | Some i => if is_parameter o (Some (VTensor i)) then <[i := prefix +:+ ".base." +:+ name]> names else names
    | None => names
    end) owned_names base in
  let fused := default [] (kw_fused_params w) in
  _ ← raise_if (negb (bool_decide (length fused = 0%nat ∨ length fused = 6%nat))) RuntimeError
        "expected six fused LoRA parameters";
  mret (foldl (fun names '(name, i) => <[i := prefix +:+ ".fused_lora." +:+ name]> names) owned_names (zip FUSED_NAMES fused)).

(** [registered_names.get(identity) or owned_names.get(identity)] *)
Definition stable_name (registered_names owned_names : gmap Z string) (parameter : Z) : option string :=
  match registered_names !! parameter with
  | Some name => if String.eqb name "" then owned_names !! parameter else Some name
  | None => owned_names !! parameter
  end.

Definition add_named (registered_names owned_names : gmap Z string) (result : list (string * Z)) (parameter : Z)
    : res (list (string * Z)) :=
  if bool_decide (parameter ∈ result.*2) then mret result
  else
    name ← of_option (stable_name registered_names owned_names parameter) RuntimeError
             "KT optimizer parameter has no stable registered or owned name";
    _ ← raise_if (bool_decide (name ∈ result.*1)) RuntimeError "KT optimizer parameter name is not unique";
    mret (result ++ [(name, parameter)]).

Definition get_kt_named_trainable_params (o : objects) (model : Z) (wrappers : list kt_wrapper) : res (list (string * Z)) :=
  match wrappers with
  | [] => mret []
  | _ =>
      owned_names ← for_each wrappers ∅ (add_owned_names o);
      for_each (get_kt_trainable_params o wrappers) [] (add_named (registered_names o model) owned_names)
  end.
End parameters.

(** *** Who owns gradients *)

Section ownership.
Context `{Torch} {block : Type}.

(** [backend.validate_authoritative_optimizer_grad_state()], if it raises *)
Context (validates : backend -> res unit).

Definition check_owner (h : lora_heap block) (world_size rank : Z) (w : kt_wrapper) : res unit :=
  let wrapped_world_size := default world_size (kw_world_size_at_wrap w) in
  _ ← raise_if (negb (wrapped_world_size =? world_size)) RuntimeError "KT wrapper was created for another world size";
  if rank =? 0 then
    match kw_backend w with
    | None => Err (Raise RuntimeError "rank 0 does not own a KT backend")
    | Some b => if kw_uses_authoritative w then validates b else mret tt
    end
  else
    _ ← raise_if (bool_decide (is_Some (kw_backend w))) RuntimeError "rank unexpectedly owns a KT backend";
    raise_if (kw_uses_authoritative w
              && existsb (fun p => bool_decide (is_Some (lh_grad h !! p)))
                   (collect_wrapper_managed_lora_params (hp_objects (lh_heap h)) w))
      RuntimeError "non-rank-0 KT LoRA Parameter unexpectedly has a gradient".

(** World size and rank, if a process group is initialised. *)
Definition sync_kt_lora_gradients (h : lora_heap block) (dist : option (Z * Z)) (wrappers : option (list kt_wrapper)) : res unit :=
  match dist, wrappers with
  | Some (world_size, rank), Some wrappers =>
      if world_size <=? 1 then mret tt
      else
        _ ← raise_if (existsb kw_uses_authoritative wrappers && negb (forallb kw_uses_authoritative wrappers)) RuntimeError
              "Mixed authoritative and legacy KT SFT backends are unsupported in one model";
        for_each wrappers tt (fun _ w => check_owner h world_size rank w)
  | _, _ => mret tt
  end.
End ownership.

(** *** Where the wrappers are *)

(** [_find_kt_wrappers]: the list that the model, or what it wraps, holds. *)
Section find.
Context `{Torch} {A : Type} (kt_wrappers : Z -> option (list A)).

Definition wrappers_of (v : value) : option (list A) := match v with VModule i => kt_wrappers i | _ => None end.

Fixpoint find_unwrapping (ms : module_map) (attrs : list string) (base_model : value) (wrappers : option (list A)) : option (list A) :=
  match attrs with
  | [] => wrappers
  | attr :: attrs =>
      match attr_value ms (Some base_model) attr with
      | None => find_unwrapping ms attrs base_model wrappers
      | Some base_model =>
          match wrappers_of base_model with
          | Some (_ :: _) as wrappers => wrappers
          | wrappers => find_unwrapping ms attrs base_model wrappers
          end
      end
  end.

Definition find_kt_wrappers (ms : module_map) (model : Z) : option (list A) :=
  match kt_wrappers model with
  | Some wrappers => Some wrappers
  | None => find_unwrapping ms ["base_model"; "model"] (VModule model) None
  end.
End find.
