(* ===== verification/LoraViews.v ===== *)
(** * LoRA weights as views of buffers

    Models the second half of [kt-kernel/python/sft/lora.py]: the contiguous
    buffers of a layer's LoRA weights and gradients, for PEFT's modules and for
    fused experts; the replacement of PEFT's weights by views; and what a backend
    does with them ([init_lora_weights] of [amx.py] and
    [register_authoritative_optimizer_grad] of [base.py]).

    Buffers are bfloat16 on the host and contiguous when they are made, so
    [init_lora_weights] can refuse them for their shape alone.  The engine's
    update of its pointers may raise. *)
From S2P Require Import Prelude PyStr PyVal Backend WeightSource Arch Artifacts Modules Ownership Placeholders Lora.

Local Open Scope string_scope.
Local Open Scope list_scope.
Local Open Scope Z_scope.

Section views.
Context `{Torch} {block : Type}.

(** The blocks that [torch.zeros] and [kaiming_uniform_] make, [t.to(bfloat16)],
    and a block broadcast from one shape to another, where that can be. *)
Context (zeros kaiming : list Z -> block) (to_bf16 : block -> block) (expand : list Z -> list Z -> block -> option block).

(** [self.moe.update_lora_weights(...)] of buffers, if it raises *)
Context (engine_refuses : list (string * Z) -> option pyexn).

Abbreviation lora_state := (kt_wrapper * lora_heap block)%type.
Abbreviation objs h := (hp_objects (lh_heap h)).

Definition on_objects (f : objects -> objects) (h : lora_heap block) : lora_heap block :=
  LoraHeap (Heap (f (hp_objects (lh_heap h))) (hp_attrs (lh_heap h))) (lh_buffers h) (lh_data h) (lh_grad h).

Definition on_tensor (f : tensor_obj -> tensor_obj) (i : Z) (o : objects) : objects :=
  Objects (ob_modules o) (alter f i (ob_tensors o)).

Definition with_buffers (f : gmap Z (buffer block) -> gmap Z (buffer block)) (h : lora_heap block) : lora_heap block :=
  LoraHeap (lh_heap h) (f (lh_buffers h)) (lh_data h) (lh_grad h).

(** [p.data = v], and [p.grad = v] *)
Definition set_data (p : Z) (v : place) (h : lora_heap block) : lora_heap block :=
  LoraHeap (lh_heap h) (lh_buffers h) (<[p := v]> (lh_data h)) (lh_grad h).
Definition put_grad (p : Z) (v : option place) (h : lora_heap block) : lora_heap block :=
  LoraHeap (lh_heap h) (lh_buffers h) (lh_data h)
    (match v with Some v => <[p := v]> (lh_grad h) | None => delete p (lh_grad h) end).

(** ** Buffers *)

Definition new_buffer (b : buffer block) : M (lora_heap block) Z := fun h =>
  let i := unused (lh_buffers h) in (with_buffers (<[i := b]>) h, Ok i).

(** The shape of one expert's block of a buffer: rank, hidden and intermediate size. *)
Definition row_shape (r H I : Z) (key : string) : list Z :=
  if bool_decide (key ∈ ["gate_lora_a"; "up_lora_a"]) then [r; H]
  else if bool_decide (key ∈ ["gate_lora_b"; "up_lora_b"]) then [I; r]
  else if String.eqb key "down_lora_a" then [r; I]
  else [H; r].

(** [{key: torch.zeros(E, ..., dtype=dtype, device="cpu") for key in ...}] *)
Definition zero_buffers (prefix : string) (E r H I : Z) (contents_of : string -> list Z -> contents block) : M (lora_heap block) (list (string * Z)) :=
  _ ← raise_ifM (existsb (fun d => d <? 0) [E; r; H; I]) RuntimeError "Trying to create tensor with negative dimension";
  mapM (fun key => i ← new_buffer (Buffer (E :: row_shape r H I key) (contents_of key (row_shape r H I key)));
                   mret (prefix +:+ key, i)) FUSED_NAMES.

Definition zero_rows (E : Z) (shape : list Z) : contents block := Rows (replicate (Z.to_nat E) (zeros shape)).

(** [lora.weight], which is a parameter *)
Definition weight_of_lora (m : lora_module) : res Z :=
  match m with LLinear weight => mret weight | LModuleDict _ => Err (Raise AttributeError "object has no attribute 'weight'") end.

Definition weight_shape (o : objects) (m : lora_module) : res (list Z) :=
  weight ← weight_of_lora m; t ← tensor_at o weight; mret (to_shape t).

Definition dimension (shape : list Z) (i : nat) : res Z := of_option (shape !! i) IndexError "tuple index out of range".

(** [gate_name, up_name, down_name = moe_config.weight_names] *)
Definition three_names (moe_config : MOEArchConfig) : res (string * string * string) :=
  match ma_weight_names moe_config with
  | [gate_name; up_name; down_name] => mret (gate_name, up_name, down_name)
  | _ => Err (Raise ValueError "not enough or too many values to unpack")
  end.

(** [expert_loras.get(name)] *)
Definition loras_of (peft : peft_loras) (expert_idx : Z) : expert_loras :=
  default [] (list_find (fun e => e.1 = expert_idx) peft ≫= fun e => Some e.2.2).

(** Rank, hidden and intermediate size, of the first expert's gate. *)
Definition lora_sizes (peft : peft_loras) (moe_config : MOEArchConfig) (o : objects) : res (Z * Z * Z) :=
  '(gate_name, _, _) ← three_names moe_config;
  let first_expert_loras := loras_of peft 0 in
  _ ← raise_if (bool_decide (first_expert_loras = [])) RuntimeError "No PEFT LoRA found on expert 0";
  gate_lora ← of_option (dict_get gate_name first_expert_loras) RuntimeError "No PEFT LoRA found on expert 0";
  a ← weight_shape o gate_lora.1;
  lora_rank ← dimension a 0;
  hidden_size ← dimension a 1;
  b ← weight_shape o gate_lora.2;
  intermediate_size ← dimension b 0;
  mret (lora_rank, hidden_size, intermediate_size).

(** [proj_to_keys] *)
Definition proj_to_keys (names : string * string * string) : list (string * (string * string)) :=
  let '(gate_name, up_name, down_name) := names in
  dict_set down_name ("down_lora_a", "down_lora_b")
    (dict_set up_name ("up_lora_a", "up_lora_b") [(gate_name, ("gate_lora_a", "gate_lora_b"))]).

(** What a tensor holds. *)
Definition read_data (h : lora_heap block) (i : Z) : res block :=
  of_option (v ← lh_data h !! i;
             match v with
             | Whole b => b ← lh_buffers h !! b; match bu_contents b with Solid x => Some x | Rows _ => None end
             | Row b n => b ← lh_buffers h !! b; match bu_contents b with Rows l => l !! n | Solid _ => None end
             end) AttributeError "no data".

Definition set_row (n : nat) (x : block) (b : buffer block) : buffer block :=
  match bu_contents b with Rows l => Buffer (bu_shape b) (Rows (<[n := x]> l)) | Solid _ => b end.

(** [buffer[expert_idx].copy_(lora.weight.data.to(dtype=dtype))] *)
Definition copy_row (b : Z) (row : list Z) (n : nat) (m : lora_module) : M (lora_heap block) unit :=
  h ← get;
  weight ← lift (weight_of_lora m);
  shape ← lift (weight_shape (objs h) m);
  x ← lift (read_data h weight);
  x ← lift (of_option (expand row shape (to_bf16 x)) RuntimeError "The expanded size of the tensor must match");
  modify (with_buffers (alter (set_row n x) b)).

(** [buffers[key]] *)
Definition buffer_of (buffers : list (string * Z)) (key : string) : res Z := of_option (dict_get key buffers) KeyError "no such key".

(** The same, of a buffer by its key. *)
Definition copy_weight (buffers : list (string * Z)) (row : string -> list Z) (n : nat) (key : string) (m : lora_module) : M (lora_heap block) unit :=
  b ← lift (buffer_of buffers key);
  copy_row b (row key) n m.

(** One pair of weights: its expert, their buffers, and the modules. *)
Record lora_pair := LoraPair { lp_expert : nat; lp_key_a : string; lp_key_b : string; lp_A : lora_module; lp_B : lora_module }.

(** [for expert_idx in range(num_experts): for proj_name, keys in proj_to_keys.items(): ...] *)
Definition lora_pairs (names : string * string * string) (peft : peft_loras) (moe_config : MOEArchConfig) : list lora_pair :=
  seq 0 (Z.to_nat (ma_expert_num moe_config)) ≫= fun n =>
    omap (fun '(proj_name, (key_a, key_b)) =>
            (fun '(lora_A, lora_B) => LoraPair n key_a key_b lora_A lora_B) <$> dict_get proj_name (loras_of peft (Z.of_nat n)))
      (proj_to_keys names).

Definition create_lora_view_buffers (peft : peft_loras) (moe_config : MOEArchConfig) : M (lora_heap block) (list (string * Z)) :=
  h ← get;
  names ← lift (three_names moe_config);
  '(r, hidden, inter) ← lift (lora_sizes peft moe_config (objs h));
  buffers ← zero_buffers "" (ma_expert_num moe_config) r hidden inter (fun _ => zero_rows (ma_expert_num moe_config));
  _ ← for_M (lora_pairs names peft moe_config) (fun p =>
        _ ← copy_weight buffers (row_shape r hidden inter) (lp_expert p) (lp_key_a p) (lp_A p);
        copy_weight buffers (row_shape r hidden inter) (lp_expert p) (lp_key_b p) (lp_B p));
  mret buffers.

Definition create_lora_grad_buffers (peft : peft_loras) (moe_config : MOEArchConfig) : M (lora_heap block) (list (string * Z)) :=
  h ← get;
  '(r, hidden, inter) ← lift (lora_sizes peft moe_config (objs h));
  zero_buffers "grad_" (ma_expert_num moe_config) r hidden inter (fun _ => zero_rows (ma_expert_num moe_config)).

(** [nn.Parameter(buffer, requires_grad=True)] *)
Definition new_parameter (b : Z) : M (lora_heap block) Z := fun h =>
  let shape := default [] (bu_shape <$> lh_buffers h !! b) in
  let '(i, o) := new_tensor (TensorObj true shape "bfloat16" "cpu" true false None) (objs h) in
  (set_data i (Whole b) (on_objects (fun _ => o) h), Ok i).

Definition fused_contents (E : Z) (key : string) (row : list Z) : contents block :=
  Solid (if bool_decide (key ∈ ["gate_lora_a"; "up_lora_a"; "down_lora_a"]) then kaiming (E :: row) else zeros (E :: row)).

Definition create_fused_expert_lora_buffers (hidden_size : Z) (moe_config : MOEArchConfig) (lora_rank : Z) (preassign_grads : bool)
    : M (lora_heap block) (list (string * Z) * list (string * Z) * list Z) :=
  let E := ma_expert_num moe_config in
  let inter := ma_intermediate_size moe_config in
  lora_buffers ← zero_buffers "" E lora_rank hidden_size inter (fused_contents E);
  lora_grad_buffers ← zero_buffers "grad_" E lora_rank hidden_size inter (fun _ row => Solid (zeros (E :: row)));
  lora_params ← mapM (fun key =>
    b ← lift (buffer_of lora_buffers key);
    param ← new_parameter b;
    _ ← (if preassign_grads then g ← lift (buffer_of lora_grad_buffers ("grad_" +:+ key)); modify (put_grad param (Some (Whole g)))
         else mret tt);
    mret param) FUSED_NAMES;
  mret (lora_buffers, lora_grad_buffers, lora_params).

(** ** The backend *)

Definition on_store {A} (m : M (lora_heap block) A) : M lora_state A := fun s =>
  let '(h, r) := m s.2 in ((s.1, h), r).
Definition on_wrapper (f : kt_wrapper -> kt_wrapper) : M lora_state unit := modify (fun s => (f s.1, s.2)).

(** The shape of a tensor with this data. *)
Definition place_shape (h : lora_heap block) (v : place) : list Z :=
  match v with
  | Whole b => default [] (bu_shape <$> lh_buffers h !! b)
  | Row b _ => tail (default [] (bu_shape <$> lh_buffers h !! b))
  end.

Definition set_lora (buffers : list (string * Z)) (b : backend) : backend :=
  KTBackend (kb_gate_proj_buf b) (kb_up_proj_buf b) (kb_down_proj_buf b) (kb_num_experts b) (kb_lora_rank b) (kb_hidden_size b)
    (kb_moe_intermediate_size b) (kb_uses_authoritative b) (kb_bindings b) (Some buffers) (kb_weights_loaded b) (kb_moe b) (kb_skip_lora b).
Definition add_binding (g : grad_binding) (b : backend) : backend :=
  KTBackend (kb_gate_proj_buf b) (kb_up_proj_buf b) (kb_down_proj_buf b) (kb_num_experts b) (kb_lora_rank b) (kb_hidden_size b)
    (kb_moe_intermediate_size b) (kb_uses_authoritative b) (kb_bindings b ++ [g]) (kb_lora b) (kb_weights_loaded b) (kb_moe b) (kb_skip_lora b).

(** [AMXSFTMoEWrapper.update_lora_weights], of weights that are loaded *)
Definition update_lora_weights (b : backend) (buffers : list (string * Z)) : res unit :=
  if kb_skip_lora b then mret tt
  else match engine_refuses (filter (fun e => e.1 ∈ FUSED_NAMES) buffers) with Some e => Err e | None => mret tt end.

Definition check_lora_shape (h : lora_heap block) (b : backend) (buffers : list (string * Z)) (prefix name : string) : res unit :=
  i ← buffer_of buffers (prefix +:+ name);
  raise_if (negb (bool_decide (place_shape h (Whole i) =
      kb_num_experts b :: row_shape (kb_lora_rank b) (kb_hidden_size b) (kb_moe_intermediate_size b) name)))
    ValueError "shape mismatch".

(** [AMXSFTMoEWrapper.init_lora_weights( **buffers )] *)
Definition init_lora_weights (b : backend) (buffers : list (string * Z)) : M lora_state unit :=
  h ← gets snd;
  _ ← lift (for_each FUSED_NAMES tt (fun _ name => check_lora_shape h b buffers "" name));
  _ ← lift (for_each FUSED_NAMES tt (fun _ name => check_lora_shape h b buffers "grad_" name));
  _ ← on_wrapper (set_backend (Some (set_lora buffers b)));
  if kb_weights_loaded b && kb_moe b then lift (update_lora_weights b buffers) else mret tt.

(** [register_authoritative_optimizer_grad]: no view is registered twice, since
    each was just made. *)
Definition register_authoritative_optimizer_grad (name : string) (parameter : Z) (grad_view : place) : M lora_state unit :=
  s ← get;
  match kw_backend s.1 with
  | Some b =>
      if negb (kb_uses_authoritative b) then mret tt
      else
        t ← lift (tensor_at (objs s.2) parameter);
        _ ← raise_ifM (negb (bool_decide (to_shape t = place_shape s.2 grad_view))) ValueError "Parameter/grad shape mismatch";
        _ ← raise_ifM (negb (bool_decide (to_dtype t = "bfloat16" ∧ to_device t = "cpu"))) ValueError
              "Parameter/grad dtype or device mismatch";
        _ ← raise_ifM (bool_decide (parameter ∈ bi_parameter <$> kb_bindings b)) RuntimeError "Parameter is already registered";
        _ ← on_store (modify (put_grad parameter None));
        on_wrapper (set_backend (Some (add_binding (Binding name parameter grad_view) b)))
  | None => mret tt
  end.

(** ** Views *)

(** [weight.data = v], a bfloat16 tensor on the host *)
Definition view_of (h : lora_heap block) (v : place) (t : tensor_obj) : tensor_obj :=
  TensorObj (to_parameter t) (place_shape h v) "bfloat16" "cpu" (to_requires_grad t) (to_zero_storage t) (to_original_shape t).
Definition trainable (t : tensor_obj) : tensor_obj :=
  TensorObj (to_parameter t) (to_shape t) (to_dtype t) (to_device t) true (to_zero_storage t) (to_original_shape t).

Definition view_data (p : Z) (v : place) (h : lora_heap block) : lora_heap block :=
  set_data p v (on_objects (on_tensor (view_of h v) p) h).
Definition require_grad (p : Z) (h : lora_heap block) : lora_heap block := on_objects (on_tensor trainable p) h.

Definition expert_text (key : string) (n : nat) : string := "lora." +:+ key +:+ ".expert_" +:+ str_of_Z (Z.of_nat n).

(** One pair of weights. *)
Definition replace_pair (buffers grad_buffers : list (string * Z)) (authoritative_mode registers : bool) (p : lora_pair) : M lora_state unit :=
  a ← lift (weight_of_lora (lp_A p));
  buffer_a ← lift (buffer_of buffers (lp_key_a p));
  _ ← on_store (modify (view_data a (Row buffer_a (lp_expert p))));
  b ← lift (weight_of_lora (lp_B p));
  buffer_b ← lift (buffer_of buffers (lp_key_b p));
  _ ← on_store (modify (view_data b (Row buffer_b (lp_expert p))));
  _ ← on_store (modify (require_grad a));
  _ ← on_store (modify (require_grad b));
  grad_a ← lift (buffer_of grad_buffers ("grad_" +:+ lp_key_a p));
  grad_b ← lift (buffer_of grad_buffers ("grad_" +:+ lp_key_b p));
  if authoritative_mode then
    _ ← on_store (modify (put_grad a None));
    _ ← on_store (modify (put_grad b None));
    if registers then
      _ ← register_authoritative_optimizer_grad (expert_text (lp_key_a p) (lp_expert p)) a (Row grad_a (lp_expert p));
      register_authoritative_optimizer_grad (expert_text (lp_key_b p) (lp_expert p)) b (Row grad_b (lp_expert p))
    else mret tt
  else
    _ ← on_store (modify (put_grad a (Some (Row grad_a (lp_expert p)))));
    on_store (modify (put_grad b (Some (Row grad_b (lp_expert p))))).

Definition replace_peft_weights_with_views (peft : peft_loras) (buffers grad_buffers : list (string * Z)) (moe_config : MOEArchConfig)
    (authoritative_mode registers : bool) : M lora_state unit :=
  names ← lift (three_names moe_config);
  for_M (lora_pairs names peft moe_config) (replace_pair buffers grad_buffers authoritative_mode registers).
End views.
