(* ===== verification/LoraAdapt.v ===== *)
(** * Adapting PEFT's LoRA

    Models [kt_adapt_peft_lora] of [kt-kernel/python/sft/lora.py]: wrapper by
    wrapper, then the placeholders whose storage it removes, then its result.  A
    call that raises leaves what was done before.

    The wrappers are one list, that the model or what it wraps holds; each is an
    object of its own.  How many bytes a tensor's storage has is an argument. *)
From S2P Require Import Prelude PyStr PyVal Backend WeightSource Arch Artifacts Modules Ownership Placeholders Lora LoraViews.
From Stdlib Require Import Ascii.

Local Open Scope string_scope.
Local Open Scope list_scope.
Local Open Scope Z_scope.

(** What became of one wrapper. *)
Inductive outcome := AlreadyAdapted | Skipped | Adapted.
#[export] Instance outcome_eq_dec : EqDecision outcome.
Proof. solve_decision. Defined.

Record adaptation_result := AdaptationResult {
  ar_adapted_layers : nat;
  ar_already_adapted_layers : nat;
  ar_named_optimizer_parameters : list (string * Z);
  ar_placeholders : list (string * Z);
  ar_placeholder_names : list string;
}.

(** The wrappers, the heap, and [model._kt_peft_lora_adaptation_result]. *)
Record model_state (block : Type) := ModelState {
  ms_wrappers : list kt_wrapper;
  ms_heap : lora_heap block;
  ms_result : option adaptation_result;
}.
Arguments ModelState {block}. Arguments ms_wrappers {block}. Arguments ms_heap {block}. Arguments ms_result {block}.

Section adapt.
Context `{Torch} {block : Type}.
Context (zeros kaiming : list Z -> block) (to_bf16 : block -> block) (expand : list Z -> list Z -> block -> option block).
Context (engine_refuses : list (string * Z) -> option pyexn).

Abbreviation lora_state := (kt_wrapper * lora_heap block)%type.
Abbreviation objs h := (hp_objects (lh_heap h)).

(** ** PEFT's modules *)

(** [lora[adapter_name] if adapter_name in lora else None] *)
Definition adapter_of (adapter_name : string) (m : lora_module) : res (option lora_module) :=
  match m with
  | LModuleDict adapters => mret (LLinear <$> dict_get adapter_name adapters)
  | LLinear _ => Err (Raise TypeError "argument is not iterable")
  end.

(** The pair of one projection, if it has both. *)
Definition lora_of_projection (proj : projection) : res (option (lora_module * lora_module)) :=
  match pj_lora_A proj, pj_lora_B proj with
  | Some (LModuleDict _ as lora_A), Some lora_B =>
      let adapter_name := match pj_active_adapter proj with Some (name :: _) => name | _ => "default" end in
      lora_A ← adapter_of adapter_name lora_A;
      lora_B ← adapter_of adapter_name lora_B;
      mret (match lora_A, lora_B with Some lora_A, Some lora_B => Some (lora_A, lora_B) | _, _ => None end)
  | Some lora_A, Some lora_B => mret (Some (lora_A, lora_B))
  | _, _ => mret None
  end.

Definition loras_of_expert (names : string * string * string) (e : expert) : res expert_loras :=
  let '(gate_name, up_name, down_name) := names in
  for_each [gate_name; up_name; down_name] [] (fun loras proj_name =>
    match dict_get proj_name e with
    | None => mret loras
    | Some proj =>
        both ← lora_of_projection proj;
        mret (match both with Some both => dict_set proj_name both loras | None => loras end)
    end).

(** [peft_lora_modules] *)
Definition collect_peft_loras (names : string * string * string) (experts : list expert) : res peft_loras :=
  for_each (zip (seq 0 (length experts)) experts) [] (fun peft '(n, e) =>
    loras ← loras_of_expert names e;
    mret (match loras with [] => peft | _ => peft ++ [(Z.of_nat n, loras)] end)).

(** ** One wrapper *)

Abbreviation init_lora_weights := (init_lora_weights engine_refuses).

Definition done_with (fused_params : option (list Z)) (peft : option peft_loras) : M lora_state outcome :=
  _ ← on_wrapper (set_loras fused_params peft);
  _ ← on_wrapper set_adapted;
  mret Adapted.

Definition adapt_fused (is_rank_0 : bool) : M lora_state outcome :=
  w ← gets fst;
  let lora_rank := default 1 (kw_lora_rank w) in
  let authoritative_mode := kw_uses_authoritative w in
  if lora_rank =? 0 then done_with (Some []) None
  else
    _ ← on_wrapper set_managed;
    if authoritative_mode && negb is_rank_0 then done_with (Some []) None
    else
      '(lora_buffers, lora_grad_buffers, lora_params) ←
        on_store (create_fused_expert_lora_buffers zeros kaiming (kw_hidden_size w) (kw_moe_config w) lora_rank (negb authoritative_mode));
      _ ← match is_rank_0, kw_backend w with
          | true, Some b =>
              _ ← init_lora_weights b (lora_buffers ++ lora_grad_buffers);
              if authoritative_mode then
                for_M (zip FUSED_NAMES lora_params) (fun '(key, param) =>
                  g ← lift (buffer_of lora_grad_buffers ("grad_" +:+ key));
                  register_authoritative_optimizer_grad ("lora." +:+ key) param (Whole g))
              else mret tt
          | _, _ => raise_ifM authoritative_mode RuntimeError "rank 0 authoritative LoRA requires a KT backend"
          end;
      done_with (Some lora_params) None.

Definition adapt_list (is_rank_0 : bool) : M lora_state outcome :=
  w ← gets fst;
  names ← lift (three_names (kw_moe_config w));
  peft ← lift (collect_peft_loras names (kw_experts w));
  _ ← on_wrapper (set_loras (kw_fused_params w) (Some peft));
  match peft with
  | [] =>
      if kw_full_weight_grad w && (default 0 (kw_lora_rank w) =? 0)
      then _ ← on_wrapper set_adapted; mret Adapted
      else lift (Err (Raise RuntimeError "No PEFT LoRA found on any expert"))
  | _ =>
      _ ← on_wrapper set_managed;
      let authoritative_mode := kw_uses_authoritative w in
      lora_buffers ← on_store (create_lora_view_buffers zeros to_bf16 expand peft (kw_moe_config w));
      lora_grad_buffers ← on_store (create_lora_grad_buffers zeros peft (kw_moe_config w));
      _ ← match is_rank_0, kw_backend w with
          | true, Some b => init_lora_weights b (lora_buffers ++ lora_grad_buffers)
          | _, _ => mret tt
          end;
      _ ← replace_peft_weights_with_views peft lora_buffers lora_grad_buffers (kw_moe_config w) authoritative_mode
            (authoritative_mode && is_rank_0);
      _ ← on_wrapper set_adapted;
      mret Adapted
  end.

Definition adapt_wrapper (is_rank_0 : bool) : M lora_state outcome :=
  w ← gets fst;
  if kw_adapted w then mret AlreadyAdapted
  else
    match kw_experts_module w with
    | None => mret Skipped
    | Some _ =>
        if kw_use_fused_expert_lora w || kw_fused_experts w then adapt_fused is_rank_0
        else if bool_decide (kw_experts w = []) then mret Skipped
        else if default 1 (kw_lora_rank w) =? 0 then done_with (Some []) None
        else adapt_list is_rank_0
    end.

(** ** Placeholders without storage *)

(** [param.data.untyped_storage().nbytes()], where it does not raise *)
Context (storage_bytes : objects -> Z -> option Z).

(** [container = getattr(container, p)] for each part *)
Definition container_of (o : objects) (expert : Z) (parts : list string) : res value :=
  for_each parts (VModule expert) (fun container p =>
    of_option (attr_value (ob_modules o) (Some container) p) AttributeError "object has no attribute").

Definition without_storage (original_shape : list Z) (t : tensor_obj) : tensor_obj :=
  TensorObj true [0] (to_dtype t) "cpu" false true (Some original_shape).

(** [param._kt_original_shape = tuple(original_shape)] *)
Definition set_original_shape (original_shape : list Z) (t : tensor_obj) : tensor_obj :=
  TensorObj (to_parameter t) (to_shape t) (to_dtype t) (to_device t) (to_requires_grad t) (to_zero_storage t) (Some original_shape).

(** [container_params[local_name] = empty_param], where it is registered *)
Definition put_empty (container : value) (local_name : string) (empty_param : tensor_obj) (o : objects) : objects :=
  match container with
  | VModule container =>
      match get_entry Parameters container local_name (ob_modules o) with
      | Some _ =>
          let '(i, o) := new_tensor empty_param o in
          Objects (set_entry Parameters container local_name (Some i) (ob_modules o)) (ob_tensors o)
      | None => o
      end
  | _ => o
  end.

(** One parameter of an expert. *)
Definition shrink_parameter (expert : Z) (entry : string * Z) : M objects unit :=
  let '(param_name, param) := entry in
  o ← get;
  t ← lift (tensor_at o param);
  let original_shape := default (to_shape t) (to_original_shape t) in
  let parts := split_on "." param_name in
  match storage_bytes o param with
  | Some storage_bytes =>
      if to_requires_grad t || (2 <? storage_bytes) then mret tt
      else if foldr Z.mul 1 (to_shape t) =? 0 then modify (on_tensor (set_original_shape original_shape) param)
      else
        container ← lift (container_of o expert (removelast parts));
        modify (put_empty container (List.last parts "") (without_storage original_shape t))
  | None => mret tt
  end.

Definition shrink_expert (expert : Z) : M objects unit :=
  o ← get; for_M (named_parameters true (ob_modules o) expert) (shrink_parameter expert).

Definition shrink_wrapper (w : kt_wrapper) : M objects unit :=
  match kw_experts_module w with
  | None => mret tt
  | Some experts =>
      if kw_fused_experts w then mret tt
      else
        o ← get;
        _ ← raise_ifM (negb match ob_modules o !! experts with Some m => md_is_list m | None => false end) TypeError
              "object is not iterable";
        for_M (list_items (ob_modules o) experts) shrink_expert
  end.

(** ** The whole call *)

(** Which object holds [_kt_wrappers], and which module is a wrapper whose experts
    have which name. *)
Context (holds_wrappers : Z -> bool) (wrapper_experts_attr : Z -> option (option string)).

Abbreviation state := (model_state block).

Definition found_wrappers (s : state) (model : Z) : option (list kt_wrapper) :=
  find_kt_wrappers (fun i => if holds_wrappers i then Some (ms_wrappers s) else None) (ob_modules (objs (ms_heap s))) model.

(** A step of one wrapper, in the list. *)
Definition at_wrapper {A} (n : nat) (m : M lora_state A) : M state A := fun s =>
  match ms_wrappers s !! n with
  | Some w => let '((w, h), r) := m (w, ms_heap s) in (ModelState (<[n := w]> (ms_wrappers s)) h (ms_result s), r)
  | None => (s, Err (Raise IndexError "list index out of range"))
  end.

Definition at_heap {A} (m : M heap A) : M state A := fun s =>
  let '(h, r) := m (lh_heap (ms_heap s)) in
  (ModelState (ms_wrappers s) (LoraHeap h (lh_buffers (ms_heap s)) (lh_data (ms_heap s)) (lh_grad (ms_heap s))) (ms_result s), r).

Definition at_objects {A} (m : M objects A) : M state A :=
  at_heap (fun h => let '(o, r) := m (hp_objects h) in (Heap o (hp_attrs h), r)).

Definition result_of (model : Z) (adapted_layers already_adapted_layers : nat) : M state adaptation_result :=
  placeholders ← at_heap (get_kt_expert_placeholders wrapper_experts_attr model);
  again ← at_heap (get_kt_expert_placeholders wrapper_experts_attr model);
  let placeholder_names := sorted_texts again.*1 in
  named_placeholders ← lift (mapM (fun name => i ← of_option (dict_get name placeholders) KeyError "no such key"; mret (name, i))
                               placeholder_names);
  s ← get;
  named ← lift (get_kt_named_trainable_params (objs (ms_heap s)) model (default [] (found_wrappers s model)));
  mret (AdaptationResult adapted_layers already_adapted_layers named named_placeholders placeholder_names).

Definition count (o : outcome) (l : list outcome) : nat := length (filter (fun x => x = o) l).

Definition kt_adapt_peft_lora (is_rank_0 : bool) (model : Z) : M state adaptation_result :=
  s ← get;
  match found_wrappers s model with
  | None | Some [] => result_of model 0 0
  | Some wrappers =>
      outcomes ← mapM (fun n => at_wrapper n (adapt_wrapper is_rank_0)) (seq 0 (length wrappers));
      _ ← for_M wrappers (fun w => at_objects (shrink_wrapper w));
      result ← result_of model (count Adapted outcomes) (count AlreadyAdapted outcomes);
      _ ← modify (fun s => ModelState (ms_wrappers s) (ms_heap s) (Some result));
      mret result
  end.
End adapt.
