(* ===== verification/LoraSpec.v ===== *)
(** * LoRA parameters: properties

    Every trained parameter is named once, by where it is registered or by the
    layer that owns it, or the call raises for a reason that is there; and the
    check of gradient ownership accepts exactly the states in which rank 0 alone
    owns the backends. *)
From S2P Require Import Prelude PyStr PyVal Backend WeightSource Arch Artifacts RawInt4Spec Modules Ownership Placeholders Lora.

Local Open Scope string_scope.
Local Open Scope list_scope.
Local Open Scope Z_scope.

Section names.
Context (registered owned : gmap Z string).

Abbreviation name_of := (stable_name registered owned).

(** What naming some parameters amounts to. *)
Record named (params : list Z) (result : list (string * Z)) : Prop := {
  nd_order : result.*2 `sublist_of` params;
  nd_all p : p ∈ params → p ∈ result.*2;
  nd_once : NoDup result.*2;
  nd_names : NoDup result.*1;
  nd_stable e : e ∈ result → name_of e.2 = Some e.1;
}.

(** A parameter without a name, or two with the same. *)
Definition unnameable (params : list Z) : Prop :=
  (∃ p, p ∈ params ∧ name_of p = None) ∨ (∃ p q n, p ∈ params ∧ q ∈ params ∧ p ≠ q ∧ name_of p = Some n ∧ name_of q = Some n).

Lemma add_named_step pre p result : named pre result →
  match add_named registered owned result p with
  | Ok result' => named (pre ++ [p]) result'
  | Err e => exn_cls e = RuntimeError ∧ ∀ post, unnameable (pre ++ p :: post)
  end.
Proof.
  intros [Ho Ha Hnd Hn Hs]. unfold add_named. destruct (bool_decide_reflect (p ∈ result.*2)) as [Hp|Hp].
  - split; [by apply sublist_inserts_r| |done..]. intros q [Hq| ->%list_elem_of_singleton]%elem_of_app; [by apply Ha|done].
  - destruct (name_of p) as [name|] eqn:En; simpl.
    + destruct (bool_decide_reflect (name ∈ result.*1)) as [Hin|Hin]; simpl.
      * split; [done|]. intros post. right. apply list_elem_of_fmap_1 in Hin as ([n q] & -> & Hq). exists p, q, n.
        split_and!; [set_solver| |intros ->|done|by apply Hs in Hq].
        -- apply elem_of_app. left. eapply elem_of_sublist; [|exact Ho]. by apply (list_elem_of_fmap_2 snd) in Hq.
        -- apply Hp. by apply (list_elem_of_fmap_2 snd) in Hq.
      * split; rewrite ?fmap_app; simpl.
        -- by apply sublist_app.
        -- intros q [Hq| ->%list_elem_of_singleton]%elem_of_app; [apply elem_of_app; left; by apply Ha|apply elem_of_app; right; left].
        -- apply NoDup_app. split_and!; [done| |apply NoDup_singleton]. intros q Hq ->%list_elem_of_singleton. done.
        -- apply NoDup_app. split_and!; [done| |apply NoDup_singleton]. intros q Hq ->%list_elem_of_singleton. done.
        -- intros e [He| ->%list_elem_of_singleton]%elem_of_app; [by apply Hs|done].
    + split; [done|]. intros post. left. exists p. split; [set_solver|done].
Qed.

Lemma named_all params : match for_each params [] (add_named registered owned) with
  | Ok result => named params result
  | Err e => exn_cls e = RuntimeError ∧ unnameable params
  end.
Proof.
  assert (∀ l pre result, named pre result → match for_each l result (add_named registered owned) with
    | Ok result' => named (pre ++ l) result' | Err e => exn_cls e = RuntimeError ∧ unnameable (pre ++ l) end) as Hgen.
  { induction l as [|p l IH]; intros pre result Hr; simpl; [by rewrite app_nil_r|]. pose proof (add_named_step pre p result Hr) as Hx.
    destruct (add_named registered owned result p) as [result'|e]; simpl.
    - specialize (IH _ _ Hx). by rewrite <-app_assoc in IH.
    - destruct Hx as [He Hu]. split; [done|apply Hu]. }
  apply (Hgen params [] []). split; [constructor|by intros ? ?%elem_of_nil|constructor|constructor|by intros ? ?%elem_of_nil].
Qed.
End names.

(** *** Registered and owned names *)

Lemma first_name l p n : (foldl (fun names '(name, parameter) =>
      match names !! parameter with Some _ => names | None => <[parameter := name]> names end) ∅ l : gmap Z string) !! p = Some n ↔
  ∃ l1 l2, l = l1 ++ (n, p) :: l2 ∧ p ∉ l1.*2.
Proof.
  set (f := λ (names : gmap Z string) (e : string * Z), _).
  assert (∀ l (m : gmap Z string), foldl f m l !! p = Some n ↔
    m !! p = Some n ∨ m !! p = None ∧ ∃ l1 l2, l = l1 ++ (n, p) :: l2 ∧ p ∉ l1.*2) as Hgen.
  { clear l. induction l as [|[name q] l IH]; intros m; simpl.
    - split; [by left|]. intros [?|(_ & l1 & l2 & Hl & _)]; [done|]. by destruct l1.
    - rewrite IH. clear IH. change (f m (name, q)) with (match m !! q with Some _ => m | None => <[q := name]> m end). destruct (m !! q) as [n'|] eqn:Eq; simpl.
      + split; (intros [?|(Hm & Hx)]; [by left|right]; split; [done|]).
        * destruct Hx as (l1 & l2 & -> & Hp). exists ((name, q) :: l1), l2. split; [done|]. simpl. apply not_elem_of_cons. split; [congruence|done].
        * destruct Hx as ([|e l1] & l2 & Hl & Hp); simplify_eq/=. exists l1, l2. split; [done|]. by apply not_elem_of_cons in Hp as [_ ?].
      + destruct (decide (q = p)) as [->|Hq].
        * rewrite lookup_insert_eq. split.
          -- intros [[= ->]|[? _]]; [|done]. right. split; [done|]. exists [], l. split; [done|]. apply not_elem_of_nil.
          -- intros [?|(_ & [|e l1] & l2 & Hl & Hp)]; [congruence| |]; simplify_eq/=; [by left|]. by destruct Hp; left.
        * rewrite lookup_insert_ne by done. split; (intros [?|(Hm & Hx)]; [by left|right]; split; [done|]).
          -- destruct Hx as (l1 & l2 & -> & Hp). exists ((name, q) :: l1), l2. split; [done|]. simpl. by apply not_elem_of_cons.
          -- destruct Hx as ([|e l1] & l2 & Hl & Hp); simplify_eq/=. exists l1, l2. split; [done|]. by apply not_elem_of_cons in Hp as [_ ?]. }
  rewrite Hgen, lookup_empty. naive_solver.
Qed.

#[local] Arguments is_parameter : simpl never.

Section parameters.
Context `{Torch} (o : objects) (model : Z).

Definition valid_wrapper (w : kt_wrapper) : Prop :=
  (∃ n, kw_layer_idx w = PInt n) ∧ (length (default [] (kw_fused_params w)) = 0%nat ∨ length (default [] (kw_fused_params w)) = 6%nat).

(** The names that a wrapper gives: of the base weights that it trains, and of its
    fused LoRA. *)
Definition owned_entries (w : kt_wrapper) : list (string * Z) :=
  let prefix := "kt.layers." +:+ match kw_layer_idx w with PInt n => str_of_Z n | _ => "" end +:+ ".experts" in
  omap (λ '(name, i), match i with
                      | Some i => if is_parameter o (Some (VTensor i)) then Some (prefix +:+ ".base." +:+ name, i) else None
                      | None => None
                      end)
    (match kw_backend w with Some b => if kw_full_weight_grad w then base_buffers b else [] | None => [] end)
  ++ ((λ '(name, i), (prefix +:+ ".fused_lora." +:+ name, i)) <$> zip FUSED_NAMES (default [] (kw_fused_params w))).

(** The last name of each. *)
Definition last_names (m : gmap Z string) (l : list (string * Z)) : gmap Z string := foldl (λ m e, <[e.2 := e.1]> m) m l.

Lemma last_names_app m l1 l2 : last_names m (l1 ++ l2) = last_names (last_names m l1) l2.
Proof. apply foldl_app. Qed.

Lemma add_owned_names_ok m w m' : add_owned_names o m w = Ok m' ↔ valid_wrapper w ∧ m' = last_names m (owned_entries w).
Proof.
  unfold add_owned_names, valid_wrapper, owned_entries. rewrite last_names_app.
  assert (∀ (m : gmap Z string) prefix l, foldl (fun names '(name, parameter) =>
    match parameter with
    | Some i => if is_parameter o (Some (VTensor i)) then <[i := prefix +:+ ".base." +:+ name]> names else names
    | None => names
    end) m l = last_names m (omap (λ '(name, i), match i with
                      | Some i => if is_parameter o (Some (VTensor i)) then Some (prefix +:+ ".base." +:+ name, i) else None
                      | None => None
                      end) l)) as Hb.
  { intros m1 prefix l. revert m1. induction l as [|[name [i|]] l IH]; intros m1; [done| |]; simpl; [destruct (is_parameter o (Some (VTensor i)))|]; apply IH. }
  assert (∀ (m : gmap Z string) prefix l, foldl (fun names '(name, i) => <[i := prefix +:+ ".fused_lora." +:+ name]> names) m l
    = last_names m ((λ '(name, i), (prefix +:+ ".fused_lora." +:+ name, i)) <$> l)) as Hf.
  { intros m1 prefix l. revert m1. induction l as [|[name i] l IH]; intros m1; [done|]. simpl. by rewrite IH. }
  destruct (kw_layer_idx w); try (split; [done|by intros [[[n ?] _] _]]). cbn [mbind res_bind mret res_ret]. rewrite Hb. split.
  - intros ([] & Hc%raise_if_ok & [= <-])%bind_ok. apply negb_false_iff, bool_decide_eq_true in Hc. rewrite Hf. split; [|done]. eauto.
  - intros [[_ Hc] ->]. rewrite bool_decide_true by done. simpl. by rewrite Hf.
Qed.

Lemma owned_names_all ws m : match for_each ws m (add_owned_names o) with
  | Ok m' => Forall valid_wrapper ws ∧ m' = last_names m (ws ≫= owned_entries)
  | Err e => exn_cls e = RuntimeError ∧ ¬ Forall valid_wrapper ws
  end.
Proof.
  revert m. induction ws as [|w ws IH]; intros m; simpl; [done|]. destruct (add_owned_names o m w) as [m1|e] eqn:Ea.
  - apply add_owned_names_ok in Ea as [Hw ->]. simpl. specialize (IH (last_names m (owned_entries w))).
    destruct (for_each ws _ _); [rewrite last_names_app|]; [destruct IH; split; [by constructor|done]|].
    destruct IH as [? Hn]. split; [done|]. intros Hf. apply Hn. by inversion Hf.
  - simpl. split.
    + unfold add_owned_names in Ea. destruct (kw_layer_idx w); try (by injection Ea as <-).
      cbn [mbind res_bind mret res_ret] in Ea. destruct (negb _); [by injection Ea as <-|done].
    + intros Hf. inversion Hf as [|? ? Hw]; subst. rewrite (proj2 (add_owned_names_ok m w _)) in Ea by done. done.
Qed.

(** C26. A call that returns lists the trained parameters, each once and in their
    order, under names that are all different: the first name under which the
    model registers it, or else the one that its layer gives to a base weight or
    to fused LoRA.  It raises RuntimeError, and only if a wrapper has no integer
    index or not six fused parameters, or if a trained parameter has no name or
    shares its name with another. *)
Theorem trained_parameters_are_named_once ws :
  match get_kt_named_trainable_params o model ws with
  | Ok result => Forall valid_wrapper ws ∧
                 named (registered_names o model) (last_names ∅ (ws ≫= owned_entries)) (get_kt_trainable_params o ws) result
  | Err e => exn_cls e = RuntimeError ∧
             (¬ Forall valid_wrapper ws ∨
              unnameable (registered_names o model) (last_names ∅ (ws ≫= owned_entries)) (get_kt_trainable_params o ws))
  end.
Proof.
  destruct ws as [|w ws]; [split; [constructor|]; split; [constructor|by intros ? ?%elem_of_nil|constructor|constructor|by intros ? ?%elem_of_nil]|].
  unfold get_kt_named_trainable_params. pose proof (owned_names_all (w :: ws) ∅) as Hown.
  destruct (for_each (w :: ws) ∅ _) as [owned|e]; cbn [mbind res_bind]; [|destruct Hown; split; [done|by left]].
  destruct Hown as [Hv ->]. pose proof (named_all (registered_names o model) (last_names ∅ ((w :: ws) ≫= owned_entries))
    (get_kt_trainable_params o (w :: ws))) as Hn.
  destruct (for_each (get_kt_trainable_params o (w :: ws)) [] _); [done|]. destruct Hn; split; [done|by right].
Qed.
End parameters.

(** ** Gradient ownership *)

Lemma bind_unit_ok {B} (m : res unit) (f : unit → res B) b : (m ≫= f) = Ok b ↔ m = Ok tt ∧ f tt = Ok b.
Proof. rewrite bind_ok. split; [by intros ([] & ? & ?)|by exists tt]. Qed.

Section ownership.
Context `{Torch} {block : Type} (validates : backend → res unit).

(** In a group of several processes the check passes exactly when all layers
    keep authoritative gradients or none does, every layer was wrapped for this
    world size, rank 0 owns a valid backend of each, and any other rank owns none
    and has no gradient of authoritative LoRA. *)
Theorem gradient_ownership_is_exact (h : lora_heap block) world_size rank ws : 1 < world_size →
  sync_kt_lora_gradients validates h (Some (world_size, rank)) (Some ws) = Ok tt ↔
  ((∀ w, w ∈ ws → kw_uses_authoritative w = true) ∨ (∀ w, w ∈ ws → kw_uses_authoritative w = false)) ∧
  ∀ w, w ∈ ws →
    (∀ n, kw_world_size_at_wrap w = Some n → n = world_size) ∧
    (rank = 0 → ∃ b, kw_backend w = Some b ∧ (kw_uses_authoritative w = true → validates b = Ok tt)) ∧
    (rank ≠ 0 → kw_backend w = None ∧ (kw_uses_authoritative w = true →
       ∀ p, p ∈ collect_wrapper_managed_lora_params (hp_objects (lh_heap h)) w → lh_grad h !! p = None)).
Proof.
  intros Hw. unfold sync_kt_lora_gradients. rewrite (proj2 (Z.leb_gt _ _) Hw). rewrite bind_unit_ok.
  assert (∀ w, check_owner validates h world_size rank w = Ok tt ↔
    (∀ n, kw_world_size_at_wrap w = Some n → n = world_size) ∧
    (rank = 0 → ∃ b, kw_backend w = Some b ∧ (kw_uses_authoritative w = true → validates b = Ok tt)) ∧
    (rank ≠ 0 → kw_backend w = None ∧ (kw_uses_authoritative w = true →
       ∀ p, p ∈ collect_wrapper_managed_lora_params (hp_objects (lh_heap h)) w → lh_grad h !! p = None))) as Hone.
  { intros w. unfold check_owner. rewrite bind_unit_ok.
    assert (default world_size (kw_world_size_at_wrap w) = world_size ↔ ∀ n, kw_world_size_at_wrap w = Some n → n = world_size) as Hn
      by (destruct (kw_world_size_at_wrap w); simpl; naive_solver).
    rewrite <-Hn. rewrite raise_if_ok. rewrite negb_false_iff, Z.eqb_eq. destruct (Z.eqb_spec rank 0) as [->|Hr].
    - destruct (kw_backend w) as [b|]; [destruct (kw_uses_authoritative w)|]; naive_solver.
    - rewrite bind_unit_ok, !raise_if_ok. rewrite bool_decide_eq_false, <-eq_None_not_Some, andb_false_iff.
      assert (existsb (λ p, bool_decide (is_Some (lh_grad h !! p))) (collect_wrapper_managed_lora_params (hp_objects (lh_heap h)) w) = false ↔
        ∀ p, p ∈ collect_wrapper_managed_lora_params (hp_objects (lh_heap h)) w → lh_grad h !! p = None) as ->.
      { rewrite <-not_true_iff_false, existsb_exists. setoid_rewrite <-list_elem_of_In. setoid_rewrite eq_None_not_Some. split.
        - intros Hx p Hp Hg. apply Hx. exists p. split; [done|]. by apply bool_decide_eq_true.
        - intros Hx (p & Hp & Hg%(bool_decide_eq_true (is_Some _))). by apply (Hx p). }
      destruct (kw_uses_authoritative w); naive_solver. }
  assert (∀ ws, for_each ws tt (λ _ w, check_owner validates h world_size rank w) = Ok tt ↔
    ∀ w, w ∈ ws → check_owner validates h world_size rank w = Ok tt) as Hall.
  { clear ws. induction ws as [|w ws IH]; simpl; [split; [by intros _ ? ?%elem_of_nil|done]|]. rewrite bind_unit_ok. setoid_rewrite elem_of_cons.
    naive_solver. }
  rewrite raise_if_ok. setoid_rewrite Hall. setoid_rewrite Hone. rewrite andb_false_iff, negb_false_iff, forallb_forall, <-not_true_iff_false, existsb_exists.
  setoid_rewrite <-list_elem_of_In. setoid_rewrite <-not_true_iff_false. naive_solver.
Qed.
End ownership.
