(* ===== verification/LoraViewsSpec.v ===== *)
(** * LoRA weights as views of buffers: properties

    The buffers that are made are new and all different; copying fills, row by
    row, what the weights held; and the replacement leaves each weight the view of
    its own row, with its gradient in the same row of the gradient's buffer. *)
From S2P Require Import Prelude PyStr PyVal Backend WeightSource Arch Artifacts RawInt4Spec Modules Ownership Placeholders Lora LoraViews.

Local Open Scope string_scope.
Local Open Scope list_scope.
Local Open Scope Z_scope.

Lemma unused_new {A} (m : gmap Z A) : m !! unused m = None.
Proof. apply eq_None_not_Some. intros [x Hx%max_key_ge]. unfold unused in *. lia. Qed.

Section views.
Context {block : Type} (zeros : list Z → block).

(** ** Making buffers *)

(** From [h] to [h'], new buffers were made for [keys], and nothing else changed. *)
Record made (prefix : string) (E : Z) (row : string → list Z) (c : string → list Z → contents block) (keys : list string)
    (h h' : lora_heap block) (bufs : list (string * Z)) : Prop := {
  mk_heap : lh_heap h' = lh_heap h;
  mk_data : lh_data h' = lh_data h;
  mk_grad : lh_grad h' = lh_grad h;
  mk_old : lh_buffers h ⊆ lh_buffers h';
  mk_new i : i ∈ bufs.*2 → lh_buffers h !! i = None;
  mk_once : NoDup bufs.*2;
  mk_keys : Forall2 (λ key e, e.1 = prefix +:+ key ∧ lh_buffers h' !! e.2 = Some (Buffer (E :: row key) (c key (row key)))) keys bufs;
}.

Lemma zero_buffers_made prefix E r H I c h h' bufs : zero_buffers prefix E r H I c h = (h', Ok bufs) →
  made prefix E (row_shape r H I) c FUSED_NAMES h h' bufs.
Proof.
  unfold zero_buffers. rewrite bindM_raise_if. destruct (existsb _ _); [done|]. generalize FUSED_NAMES. intros keys. revert h bufs.
  induction keys as [|key keys IH]; intros h bufs; simpl.
  - intros [= <- <-]. split; [done..| |constructor|constructor]. by intros ? ?%elem_of_nil.
  - intros (h1 & e & Hn & (h2 & l & Hl & [= <- <-])%bindM_ok)%bindM_ok. injection Hn as <- <-. apply IH in Hl as [H1 H2 H3 H4 H5 H6 H7].
    simpl in *. pose proof (unused_new (lh_buffers h)) as Hu. set (i := unused (lh_buffers h)) in *.
    split; simpl; [done..| | | |].
    + etrans; [by apply insert_subseteq|done].
    + intros j [->|Hj]%elem_of_cons; [done|]. apply H5 in Hj. by apply lookup_insert_None in Hj as [? _].
    + constructor; [|done]. intros Hi. apply H5 in Hi. by rewrite lookup_insert_eq in Hi.
    + constructor; [|done]. simpl. split; [done|]. eapply lookup_weaken; [|exact H4]. apply lookup_insert_eq.
Qed.

(** [buffers[key]] *)
Lemma made_buffer prefix E row c keys h h' bufs key i : made prefix E row c keys h h' bufs → key ∈ keys →
  buffer_of bufs (prefix +:+ key) = Ok i → i ∈ bufs.*2 ∧ lh_buffers h' !! i = Some (Buffer (E :: row key) (c key (row key))).
Proof.
  intros Hm Hk Hb%of_option_ok%dict_get_In. split; [by apply (list_elem_of_fmap_2 snd) in Hb|].
  pose proof (mk_keys _ _ _ _ _ _ _ _ Hm) as Hf. clear Hm Hk. induction Hf as [|key' e keys bufs [He Hx] _ IH]; [by apply elem_of_nil in Hb|].
  apply elem_of_cons in Hb as [<-|Hb]; [|by apply IH]. simpl in *. apply str_app_inj_l in He as <-. done.
Qed.

Lemma made_has prefix E row c keys h h' bufs key : made prefix E row c keys h h' bufs → key ∈ keys →
  ∃ i, buffer_of bufs (prefix +:+ key) = Ok i.
Proof.
  intros Hm Hk. pose proof (mk_keys _ _ _ _ _ _ _ _ Hm) as Hf. clear Hm. induction Hf as [|key' e keys bufs [He Hx] _ IH]; [by apply elem_of_nil in Hk|].
  unfold buffer_of in *. destruct e as [k i]. simpl in *. subst k. destruct (String.eqb_spec (prefix +:+ key) (prefix +:+ key')) as [_|Hne]; [by exists i|].
  apply elem_of_cons in Hk as [->|Hk]; [done|by apply IH].
Qed.

Lemma made_there prefix E row c keys h h' bufs i : made prefix E row c keys h h' bufs → i ∈ bufs.*2 → is_Some (lh_buffers h' !! i).
Proof.
  intros Hm (e & -> & He)%list_elem_of_fmap_1. pose proof (mk_keys _ _ _ _ _ _ _ _ Hm) as Hf.
  clear Hm. induction Hf as [|key e' keys bufs' [_ Hx] _ IH]; [by apply elem_of_nil in He|].
  apply elem_of_cons in He as [->|He]; [by eexists|by apply IH].
Qed.

(** Different keys have different buffers. *)
Lemma made_apart prefix E row c keys h h' bufs k1 k2 i : made prefix E row c keys h h' bufs →
  buffer_of bufs k1 = Ok i → buffer_of bufs k2 = Ok i → k1 = k2.
Proof.
  intros Hm H1%of_option_ok%dict_get_In H2%of_option_ok%dict_get_In. pose proof (mk_once _ _ _ _ _ _ _ _ Hm) as Hnd.
  apply list_elem_of_lookup in H1 as [n1 H1]. apply list_elem_of_lookup in H2 as [n2 H2].
  assert (n1 = n2) as ->; [|congruence]. eapply NoDup_lookup; [exact Hnd|..]; rewrite list_lookup_fmap; [by rewrite H1|by rewrite H2].
Qed.

(** ** Jobs *)

Abbreviation job := (nat * string * lora_module)%type.

Definition jobs_of (p : lora_pair) : list job := [(lp_expert p, lp_key_a p, lp_A p); (lp_expert p, lp_key_b p, lp_B p)].

Lemma proj_to_keys_keys names : let l := proj_to_keys names ≫= λ e, [e.2.1; e.2.2] in NoDup l ∧ ∀ k, k ∈ l → k ∈ FUSED_NAMES.
Proof.
  destruct names as [[g u] d]. unfold proj_to_keys. simpl.
  destruct (String.eqb u g), (String.eqb d g), (String.eqb d u) eqn:?; simpl; repeat match goal with |- context [String.eqb ?a ?b] => destruct (String.eqb a b) end;
    simpl; (split; [apply (bool_decide_unpack _); vm_compute; exact I|]; apply Forall_forall, (bool_decide_unpack _); vm_compute; exact I).
Qed.

Definition jobs (names : string * string * string) (peft : peft_loras) (moe_config : MOEArchConfig) : list job :=
  lora_pairs names peft moe_config ≫= jobs_of.

Lemma jobs_within names peft moe_config : (jobs names peft moe_config).*1 `sublist_of`
  (seq 0 (Z.to_nat (ma_expert_num moe_config)) ≫= λ n, (λ k, (n, k)) <$> (proj_to_keys names ≫= λ e, [e.2.1; e.2.2])).
Proof.
  unfold jobs, lora_pairs. generalize (seq 0 (Z.to_nat (ma_expert_num moe_config))), (proj_to_keys names). intros ns l.
  induction ns as [|n ns IH]; [constructor|]. rewrite !bind_cons, bind_app, fmap_app. apply sublist_app; [|exact IH]. clear IH.
  induction l as [|[name [ka kb]] l IH]; [constructor|]. rewrite bind_cons, fmap_app. simpl.
  destruct (dict_get name _) as [[A B]|]; simpl.
  - by do 2 apply sublist_skip.
  - by do 2 apply sublist_cons.
Qed.

(** A row of a buffer is one job's. *)
Lemma jobs_apart names peft moe_config : NoDup (jobs names peft moe_config).*1 ∧
  ∀ n key m, (n, key, m) ∈ jobs names peft moe_config → (n < Z.to_nat (ma_expert_num moe_config))%nat ∧ key ∈ FUSED_NAMES.
Proof.
  destruct (proj_to_keys_keys names) as [Hnd Hin]. pose proof (jobs_within names peft moe_config) as Hs. split.
  - eapply sublist_NoDup; [|exact Hs]. apply NoDup_bind; [| |apply NoDup_seq].
    + intros n1 n2 y _ _ (k1 & -> & _)%list_elem_of_fmap_1 (k2 & [= -> _] & _)%list_elem_of_fmap_1. done.
    + intros n _. apply NoDup_fmap_2; [|exact Hnd]. by intros k1 k2 [= ->].
  - intros n key m Hj. apply (list_elem_of_fmap_2 fst) in Hj. simpl in Hj. eapply elem_of_sublist in Hj; [|exact Hs].
    apply list_elem_of_bind in Hj as (n' & (k & [= -> ->] & Hk)%list_elem_of_fmap_1 & Hn%elem_of_seq). split; [lia|by apply Hin].
Qed.

(** A loop over pairs whose body does both jobs is a loop over jobs. *)
Lemma for_M_jobs {S} (f : job → M S unit) (body : lora_pair → M S unit) pairs s :
  (∀ p s, body p s = (_ ← f (lp_expert p, lp_key_a p, lp_A p); f (lp_expert p, lp_key_b p, lp_B p)) s) →
  for_M pairs body s = for_M (pairs ≫= jobs_of) f s.
Proof.
  intros Hb. revert s. induction pairs as [|p pairs IH]; intros s; [done|]. rewrite bind_cons. unfold for_M in *. simpl.
  unfold mbind, M_bind. rewrite Hb. unfold mbind, M_bind.
  destruct (f _ s) as [s1 [[]|]]; [destruct (f _ s1) as [s2 [[]|]]|]; [apply IH|done..].
Qed.

(** ** Copying *)

Context (to_bf16 : block → block) (expand : list Z → list Z → block → option block).

(** The tensors that have data have it in a buffer. *)
Definition placed (h : lora_heap block) : Prop := ∀ p v, lh_data h !! p = Some v →
  is_Some (lh_buffers h !! match v with Whole b | Row b _ => b end).

Abbreviation tensor h w := (ob_tensors (hp_objects (lh_heap h)) !! w).
Abbreviation expert_row E b h n := (match lh_buffers h !! b with Some (Buffer _ (Rows l)) => if bool_decide (length l = Z.to_nat E) then l !! n else None | _ => None end).

(** What a job copies. *)
Definition copies (h : lora_heap block) (row : list Z) (m : lora_module) (w : Z) (y : block) : Prop :=
  m = LLinear w ∧ ∃ t x, tensor h w = Some t ∧ read_data h w = Ok x ∧ expand row (to_shape t) (to_bf16 x) = Some y.

#[local] Ltac no := split; [done|intros (? & ? & ? & ? & (? & ? & ? & ? & ? & ?) & ?); simplify_eq; congruence].

Lemma copy_weight_ok bufs row n key m h h' u : copy_weight to_bf16 expand bufs row n key m h = (h', Ok u) ↔
  ∃ b w y, buffer_of bufs key = Ok b ∧ copies h (row key) m w y ∧ h' = with_buffers (alter (set_row n y) b) h.
Proof.
  destruct u. unfold copy_weight, copy_row, copies, weight_shape. rewrite bindM_lift. destruct (buffer_of bufs key) as [b|]; [|no].
  change ((get ≫= ?f) h) with (f h h). cbv beta. rewrite bindM_lift. destruct m as [w|]; simpl; [|no]. rewrite bindM_lift.
  unfold tensor_at. destruct (tensor h w) as [t|] eqn:Et; simpl; [|no]. rewrite bindM_lift. destruct (read_data h w) as [x|] eqn:Ex; [|no].
  rewrite bindM_lift. destruct (expand _ _ _) as [y|] eqn:Ey; simpl; [|no]. split.
  - intros [= <-]. exists b, w, y. split; [done|]. split; [|done]. split; [done|]. by exists t, x.
  - intros (b' & w' & y' & [= <-] & ([= <-] & t' & x' & Ht & Hx & Hy) & ->). rewrite Et in Ht. rewrite Ex in Hx. simplify_eq. done.
Qed.

Lemma read_data_same (h h' : lora_heap block) w : placed h → lh_data h' = lh_data h → lh_buffers h ⊆ lh_buffers h' → read_data h' w = read_data h w.
Proof.
  intros Hp Hd Hb. unfold read_data. rewrite Hd. destruct (lh_data h !! w) as [v|] eqn:Ev; [|done]. simpl.
  destruct (Hp _ _ Ev) as [bu Hbu]. destruct v as [b|b n]; simpl; by rewrite (lookup_weaken _ _ _ _ Hbu Hb), Hbu.
Qed.

(** The rows of buffers after some jobs, from [h]. *)
Record copied (h : lora_heap block) (E : Z) (row : string → list Z) (bufs : list (string * Z)) (js : list job) (hh : lora_heap block) : Prop := {
  cp_heap : lh_heap hh = lh_heap h;
  cp_data : lh_data hh = lh_data h;
  cp_grad : lh_grad hh = lh_grad h;
  cp_old : lh_buffers h ⊆ lh_buffers hh;
  cp_there i : i ∈ bufs.*2 → is_Some (lh_buffers hh !! i);
  cp_rows key b : key ∈ FUSED_NAMES → buffer_of bufs key = Ok b → ∃ l, lh_buffers hh !! b = Some (Buffer (E :: row key) (Rows l)) ∧
    length l = Z.to_nat E ∧ ∀ n m, (n, key, m) ∈ js → ∃ w y, copies h (row key) m w y ∧ l !! n = Some y;
}.

Lemma copy_weights_all h h1 h2 E row bufs js u : placed h → made "" E row (λ _, zero_rows zeros E) FUSED_NAMES h h1 bufs →
  NoDup js.*1 → (∀ n key m, (n, key, m) ∈ js → (n < Z.to_nat E)%nat ∧ key ∈ FUSED_NAMES) →
  for_M js (λ '(n, key, m), copy_weight to_bf16 expand bufs row n key m) h1 = (h2, Ok u) → copied h E row bufs js h2.
Proof.
  intros Hp Hmade Hnd Hjs. apply (for_M_ok (λ pre hh, copied h E row bufs pre hh)).
  { split; [apply Hmade..| |]; [intros i; by eapply made_there|]. intros key b Hk Hb. destruct (made_buffer _ _ _ _ _ _ _ _ _ _ Hmade Hk Hb) as [_ Hl].
    eexists. split; [exact Hl|]. split; [by rewrite length_replicate|]. by intros n m ?%elem_of_nil. }
  intros pre [[n key] m] post hh hh' v Hsplit [I1 I2 I3 I4 I6 I5] Hx. destruct (Hjs n key m) as [Hn Hkey]; [rewrite Hsplit; set_solver|].
  apply copy_weight_ok in Hx as (b & w & y & Hb & Hc & ->).
  assert (copies h (row key) m w y) as Hc'.
  { destruct Hc as (-> & t & x & Ht & Hr & Hy). split; [done|]. exists t, x. rewrite I1 in Ht. by rewrite (read_data_same h) in Hr. }
  assert (∀ i, is_Some (lh_buffers h !! i) → b ≠ i) as Hnew.
  { intros i [bu Hbu] ->. destruct (made_buffer _ _ _ _ _ _ _ _ _ _ Hmade Hkey Hb) as [Hi _]. rewrite (mk_new _ _ _ _ _ _ _ _ Hmade i Hi) in Hbu. done. }
  split; [done..| | |]; simpl; [|intros i Hi%I6; by apply lookup_alter_is_Some|].
  - apply map_subseteq_spec. intros i bu Hi. rewrite lookup_alter_ne by (apply Hnew; by exists bu). by eapply lookup_weaken.
  - intros key' b' Hk' Hb'. destruct (I5 key' b' Hk' Hb') as (l & Hl & Hlen & Hrows). destruct (decide (b' = b)) as [->|Hne].
    + assert (key' = key) as -> by by eapply (made_apart "").
      rewrite lookup_alter_eq, Hl. simpl. eexists. split; [done|]. split; [by rewrite length_insert|].
      intros n' m' [Hj| [= -> ->]%list_elem_of_singleton]%elem_of_app.
      * destruct (Hrows n' m' Hj) as (w' & y' & Hc1 & Hy'). exists w', y'. split; [done|].
        rewrite list_lookup_insert_ne; [done|]. intros ->. rewrite Hsplit, fmap_app, fmap_cons in Hnd.
        apply NoDup_app in Hnd as (_ & Hnd & _). apply (Hnd (n', key)); [|by left]. by apply (list_elem_of_fmap_2 fst) in Hj.
      * exists w, y. split; [done|]. apply list_lookup_insert_eq. lia.
    + rewrite lookup_alter_ne by done. exists l. split; [done|]. split; [done|].
      intros n' m' [Hj| [= -> -> ->]%list_elem_of_singleton]%elem_of_app; [by apply Hrows|congruence].
Qed.

(** *** The buffers of a layer *)

Lemma view_buffers_ok peft moe_config h h' bufs : placed h → create_lora_view_buffers zeros to_bf16 expand peft moe_config h = (h', Ok bufs) →
  ∃ names r hid inter h1, three_names moe_config = Ok names ∧ lora_sizes peft moe_config (hp_objects (lh_heap h)) = Ok (r, hid, inter) ∧
    made "" (ma_expert_num moe_config) (row_shape r hid inter) (λ _, zero_rows zeros (ma_expert_num moe_config)) FUSED_NAMES h h1 bufs ∧
    copied h (ma_expert_num moe_config) (row_shape r hid inter) bufs (jobs names peft moe_config) h'.
Proof.
  intros Hp. unfold create_lora_view_buffers. change ((get ≫= ?f) h) with (f h h). cbv beta. rewrite bindM_lift.
  destruct (three_names moe_config) as [names|]; [|done]. rewrite bindM_lift. destruct (lora_sizes _ _ _) as [[[r hid] inter]|]; [|done].
  intros (h1 & bufs' & Hz%zero_buffers_made & (h2 & u & Hcopy & [= -> ->])%bindM_ok)%bindM_ok.
  exists names, r, hid, inter, h1. split; [done|]. split; [done|]. split; [done|]. destruct (jobs_apart names peft moe_config).
  eapply copy_weights_all; [done..|]. unfold jobs. rewrite <-(for_M_jobs _ (λ p, _ ← copy_weight to_bf16 expand bufs (row_shape r hid inter) (lp_expert p) (lp_key_a p) (lp_A p);
        copy_weight to_bf16 expand bufs (row_shape r hid inter) (lp_expert p) (lp_key_b p) (lp_B p))); [exact Hcopy|done].
Qed.

Lemma grad_buffers_ok peft moe_config h h' bufs : create_lora_grad_buffers zeros peft moe_config h = (h', Ok bufs) →
  ∃ r hid inter, lora_sizes peft moe_config (hp_objects (lh_heap h)) = Ok (r, hid, inter) ∧
    made "grad_" (ma_expert_num moe_config) (row_shape r hid inter) (λ _, zero_rows zeros (ma_expert_num moe_config)) FUSED_NAMES h h' bufs.
Proof.
  unfold create_lora_grad_buffers. change ((get ≫= ?f) h) with (f h h). cbv beta. rewrite bindM_lift.
  destruct (lora_sizes _ _ _) as [[[r hid] inter]|]; [|done]. intros Hz%zero_buffers_made. by exists r, hid, inter.
Qed.

(** ** Replacing *)

Abbreviation lora_state := (kt_wrapper * lora_heap block)%type.

(** What a wrapper's backend keeps of bindings. *)
Definition bind_one (w : kt_wrapper) (g : grad_binding) : kt_wrapper :=
  match kw_backend w with
  | Some b => if kb_uses_authoritative b then set_backend (Some (add_binding g b)) w else w
  | None => w
  end.
Definition bind_all (w : kt_wrapper) (gs : list grad_binding) : kt_wrapper := foldl bind_one w gs.

Lemma bind_all_backend w b gs : kw_backend w = Some b → kb_uses_authoritative b = true →
  ∃ b', bind_all w gs = set_backend (Some b') w ∧ kb_bindings b' = kb_bindings b ++ gs ∧ kb_lora b' = kb_lora b.
Proof.
  intros Hb Hu. assert (∀ b0 gs, kb_uses_authoritative b0 = true → kw_backend w = Some b →
    ∃ b', foldl bind_one (set_backend (Some b0) w) gs = set_backend (Some b') w ∧ kb_bindings b' = kb_bindings b0 ++ gs ∧ kb_lora b' = kb_lora b0) as Hgen.
  { clear gs Hu. intros b0 gs. revert b0. induction gs as [|g gs IH]; intros b0 Hu _; [exists b0; by rewrite app_nil_r|]. simpl.
    unfold bind_one at 2. simpl. rewrite Hu. destruct (IH (add_binding g b0)) as (b' & Heq & Hg & Hl); [done|done|].
    exists b'. split; [exact Heq|]. split; [|exact Hl]. rewrite Hg. simpl. by rewrite <-app_assoc. }
  destruct (Hgen b gs Hu Hb) as (b' & Heq & Hx). exists b'. split; [|done]. rewrite <-Heq. unfold bind_all. f_equal.
  destruct w. simpl in *. by subst.
Qed.

Lemma register_ok name p v (s s' : lora_state) u : register_authoritative_optimizer_grad name p v s = (s', Ok u) → lh_grad s.2 !! p = None →
  s' = (bind_one s.1 (Binding name p v), s.2).
Proof.
  unfold register_authoritative_optimizer_grad, bind_one. change ((get ≫= ?f) s) with (f s s). cbv beta.
  destruct (kw_backend s.1) as [b|]; [|intros [= <-] _; by destruct s]. destruct (kb_uses_authoritative b); [|intros [= <-] _; by destruct s].
  cbn [negb]. rewrite bindM_lift. destruct (tensor_at _ p) as [t|]; [|done]. rewrite !bindM_raise_if.
  repeat (destruct (negb _) || destruct (bool_decide _); [done|]). intros [= <-] Hg. simpl. f_equal.
  destruct s as [w [? ? ? g]]. simpl in *. unfold put_grad. simpl. by rewrite delete_id.
Qed.

(** The tensor that a weight is afterwards. *)
Definition viewed (h : lora_heap block) (v : place) (t : tensor_obj) : tensor_obj := trainable (view_of h v t).

(** From [h] to [h'], the weights of [js] have become views, and nothing else. *)
Record replaced (h : lora_heap block) (bufs grads : list (string * Z)) (authoritative : bool) (js : list job) (h' : lora_heap block) : Prop := {
  rp_buffers : lh_buffers h' = lh_buffers h;
  rp_modules : ob_modules (hp_objects (lh_heap h')) = ob_modules (hp_objects (lh_heap h));
  rp_attrs : hp_attrs (lh_heap h') = hp_attrs (lh_heap h);
  rp_other q : (∀ n key, (n, key, LLinear q) ∉ js) → lh_data h' !! q = lh_data h !! q ∧ lh_grad h' !! q = lh_grad h !! q ∧ tensor h' q = tensor h q;
  rp_jobs n key m : (n, key, m) ∈ js → ∃ w b g, m = LLinear w ∧ buffer_of bufs key = Ok b ∧ buffer_of grads ("grad_" +:+ key) = Ok g ∧
    lh_data h' !! w = Some (Row b n) ∧ lh_grad h' !! w = (if authoritative then None else Some (Row g n)) ∧
    tensor h' w = viewed h (Row b n) <$> tensor h w;
}.

(** The bindings of some jobs. *)
Definition binding_of (grads : list (string * Z)) (j : job) : list grad_binding :=
  let '(n, key, m) := j in
  match m, buffer_of grads ("grad_" +:+ key) with LLinear w, Ok g => [Binding (expert_text key n) w (Row g n)] | _, _ => [] end.

Lemma bind_store {A} (f : lora_heap block → lora_heap block) (k : unit → M lora_state A) s :
  (on_store (modify f) ≫= k) s = k tt (s.1, f s.2).
Proof. done. Qed.

(** The store after one pair. *)
Definition after_pair (authoritative : bool) (a b : Z) (va vb ga gb : place) (h : lora_heap block) : lora_heap block :=
  let h := require_grad b (require_grad a (view_data b vb (view_data a va h))) in
  if authoritative then put_grad b None (put_grad a None h) else put_grad b (Some gb) (put_grad a (Some ga) h).

Lemma replace_pair_ok bufs grads authoritative registers p (s s' : lora_state) u :
  replace_pair bufs grads authoritative registers p s = (s', Ok u) → (∀ w, lp_A p = LLinear w → lp_B p ≠ LLinear w) →
  ∃ a b ba bb ga gb, lp_A p = LLinear a ∧ lp_B p = LLinear b ∧ a ≠ b ∧
    buffer_of bufs (lp_key_a p) = Ok ba ∧ buffer_of bufs (lp_key_b p) = Ok bb ∧
    buffer_of grads ("grad_" +:+ lp_key_a p) = Ok ga ∧ buffer_of grads ("grad_" +:+ lp_key_b p) = Ok gb ∧
    s'.2 = after_pair authoritative a b (Row ba (lp_expert p)) (Row bb (lp_expert p)) (Row ga (lp_expert p)) (Row gb (lp_expert p)) s.2 ∧
    s'.1 = if authoritative && registers then bind_all s.1 (jobs_of p ≫= binding_of grads) else s.1.
Proof.
  intros Hr Hab. unfold replace_pair in Hr. destruct (lp_A p) as [a|] eqn:EA; [|done]. destruct (lp_B p) as [b|] eqn:EB; [|rewrite bindM_lift in Hr; simpl in Hr; rewrite bindM_lift in Hr; destruct (buffer_of bufs _); done].
  rewrite bindM_lift in Hr. cbn [weight_of_lora mret res_ret] in Hr. rewrite bindM_lift in Hr. destruct (buffer_of bufs (lp_key_a p)) as [ba|] eqn:Eba; [|done].
  rewrite bind_store, bindM_lift in Hr. cbn [weight_of_lora mret res_ret] in Hr. rewrite bindM_lift in Hr. destruct (buffer_of bufs (lp_key_b p)) as [bb|] eqn:Ebb; [|done].
  rewrite !bind_store, bindM_lift in Hr. destruct (buffer_of grads ("grad_" +:+ lp_key_a p)) as [ga|] eqn:Ega; [|done].
  rewrite bindM_lift in Hr. destruct (buffer_of grads ("grad_" +:+ lp_key_b p)) as [gb|] eqn:Egb; [|done].
  assert (a ≠ b) as Hne by (intros ->; by apply (Hab b)).
  exists a, b, ba, bb, ga, gb. split_and!; try done; unfold after_pair, jobs_of; rewrite ?EA, ?EB; cbn [mbind list_bind binding_of app]; rewrite ?Ega, ?Egb; cbn [app].
  - destruct authoritative; [destruct registers|]; [|by injection Hr as <-|by injection Hr as <-].
    rewrite !bind_store in Hr. apply bindM_ok in Hr as (s1 & [] & H1 & H2). apply register_ok in H1 as ->.
    + apply register_ok in H2 as ->; [done|]. simpl. by rewrite lookup_delete_eq.
    + simpl. rewrite lookup_delete_ne by done. by rewrite lookup_delete_eq.
  - destruct authoritative; [destruct registers|]; [|by injection Hr as <-|by injection Hr as <-].
    rewrite !bind_store in Hr. apply bindM_ok in Hr as (s1 & [] & H1 & H2). apply register_ok in H1 as ->.
    + apply register_ok in H2 as ->; [done|]. simpl. by rewrite lookup_delete_eq.
    + simpl. rewrite lookup_delete_ne by done. by rewrite lookup_delete_eq.
Qed.

(** Lookups after one pair. *)
Lemma after_pair_lookup authoritative a b va vb ga gb h : a ≠ b →
  let h' := after_pair authoritative a b va vb ga gb h in
  lh_buffers h' = lh_buffers h ∧ ob_modules (hp_objects (lh_heap h')) = ob_modules (hp_objects (lh_heap h)) ∧ hp_attrs (lh_heap h') = hp_attrs (lh_heap h) ∧
  (∀ q, q ≠ a → q ≠ b → lh_data h' !! q = lh_data h !! q ∧ lh_grad h' !! q = lh_grad h !! q ∧ tensor h' q = tensor h q) ∧
  (lh_data h' !! a = Some va ∧ lh_grad h' !! a = (if authoritative then None else Some ga) ∧ tensor h' a = viewed h va <$> tensor h a) ∧
  (lh_data h' !! b = Some vb ∧ lh_grad h' !! b = (if authoritative then None else Some gb) ∧ tensor h' b = viewed h vb <$> tensor h b).
Proof.
  intros Hne. simpl. destruct authoritative; simpl; split_and!; try done; intros;
    repeat first [rewrite lookup_insert_eq | rewrite lookup_insert_ne by congruence | rewrite lookup_delete_eq | rewrite lookup_delete_ne by congruence
                 | rewrite lookup_alter_eq | rewrite lookup_alter_ne by congruence]; try done; by destruct (tensor h _).
Qed.

Definition weights (js : list job) : list Z := js ≫= λ j, match j.2 with LLinear w => [w] | LModuleDict _ => [] end.

Lemma elem_of_weights js n key w : (n, key, LLinear w) ∈ js → w ∈ weights js.
Proof. intros Hj. apply list_elem_of_bind. exists (n, key, LLinear w). split; [left|done]. Qed.

Lemma replaced_step h h1 h2 bufs grads authoritative js p a b ba bb ga gb :
  replaced h bufs grads authoritative js h1 → lp_A p = LLinear a → lp_B p = LLinear b → a ≠ b → a ∉ weights js → b ∉ weights js →
  buffer_of bufs (lp_key_a p) = Ok ba → buffer_of bufs (lp_key_b p) = Ok bb →
  buffer_of grads ("grad_" +:+ lp_key_a p) = Ok ga → buffer_of grads ("grad_" +:+ lp_key_b p) = Ok gb →
  h2 = after_pair authoritative a b (Row ba (lp_expert p)) (Row bb (lp_expert p)) (Row ga (lp_expert p)) (Row gb (lp_expert p)) h1 →
  replaced h bufs grads authoritative (js ++ jobs_of p) h2.
Proof.
  intros [R1 R2 R3 R4 R5] EA EB Hne Ha Hb Eba Ebb Ega Egb ->.
  destruct (after_pair_lookup authoritative a b (Row ba (lp_expert p)) (Row bb (lp_expert p)) (Row ga (lp_expert p)) (Row gb (lp_expert p)) h1 Hne)
    as (A1 & A2 & A3 & A4 & A5 & A6). split; [congruence..| |].
  - intros q Hq. destruct (R4 q) as (? & ? & ?); [intros n key Hj; apply (Hq n key), elem_of_app; by left|].
    assert (q ≠ a ∧ q ≠ b) as [Hqa Hqb].
    { split; intros ->; eapply Hq, elem_of_app; right; unfold jobs_of; rewrite EA, EB; [by left|by right; left]. }
    by destruct (A4 q Hqa Hqb) as (-> & -> & ->).
  - assert (∀ q, (∀ n key, (n, key, LLinear q) ∉ js) → ∀ v, viewed h1 v <$> tensor h1 q = viewed h v <$> tensor h q) as Hview.
    { intros q Hq v. destruct (R4 q Hq) as (_ & _ & ->). unfold viewed, view_of, place_shape. by rewrite R1. }
    intros n key m [Hj|Hj]%elem_of_app.
    + destruct (R5 n key m Hj) as (w & b' & g & -> & ? & ? & ? & ? & ?). apply elem_of_weights in Hj as Hw.
      exists w, b', g. destruct (A4 w) as (-> & -> & ->); [by intros ->|by intros ->|done].
    + unfold jobs_of in Hj. rewrite EA, EB in Hj.
      repeat (apply elem_of_cons in Hj as [[= -> -> ->]|Hj]); [exists a, ba, ga|exists b, bb, gb|by apply elem_of_nil in Hj].
      * destruct A5 as (-> & -> & ->). split_and!; try done. apply Hview. intros n key Hj. by apply elem_of_weights in Hj.
      * destruct A6 as (-> & -> & ->). split_and!; try done. apply Hview. intros n key Hj'. by apply elem_of_weights in Hj'.
Qed.

Lemma weights_app js1 js2 : weights (js1 ++ js2) = weights js1 ++ weights js2.
Proof. apply bind_app. Qed.

Lemma bind_all_app w gs1 gs2 : bind_all w (gs1 ++ gs2) = bind_all (bind_all w gs1) gs2.
Proof. apply foldl_app. Qed.

Lemma replace_all pairs bufs grads authoritative registers (s s' : lora_state) u : NoDup (weights (pairs ≫= jobs_of)) →
  for_M pairs (replace_pair bufs grads authoritative registers) s = (s', Ok u) →
  replaced s.2 bufs grads authoritative (pairs ≫= jobs_of) s'.2 ∧
  s'.1 = if authoritative && registers then bind_all s.1 ((pairs ≫= jobs_of) ≫= binding_of grads) else s.1.
Proof.
  intros Hnd. apply (for_M_ok (λ pre t, replaced s.2 bufs grads authoritative (pre ≫= jobs_of) t.2 ∧
    t.1 = if authoritative && registers then bind_all s.1 ((pre ≫= jobs_of) ≫= binding_of grads) else s.1)).
  { split; [|by destruct (authoritative && registers)]. split; [done..|]. by intros ? ? ? ?%elem_of_nil. }
  intros pre p post t t' v Hsplit [HR Hw] Hp. rewrite Hsplit, bind_app, bind_cons, weights_app, weights_app in Hnd.
  apply NoDup_app in Hnd as (_ & Hout & (Hpair & _ & _)%NoDup_app).
  assert (∀ w, lp_A p = LLinear w → lp_B p ≠ LLinear w) as Hab.
  { intros w EA EB. unfold weights, jobs_of in Hpair. rewrite EA, EB in Hpair. simpl in Hpair. apply NoDup_cons in Hpair as [Hx _]. apply Hx. left. }
  apply replace_pair_ok in Hp as (a & b & ba & bb & ga & gb & EA & EB & Hne & Eba & Ebb & Ega & Egb & Ht2 & Ht1); [|done].
  rewrite !bind_app. rewrite bind_cons. simpl (mbind jobs_of []). rewrite app_nil_r. split.
  - refine (replaced_step _ _ _ _ _ _ _ _ _ _ _ _ _ _ HR EA EB Hne _ _ Eba Ebb Ega Egb Ht2); intros Hin; apply (Hout _ Hin), elem_of_app; left; unfold weights, jobs_of; rewrite EA, EB; set_solver.
  - rewrite Ht1, Hw. destruct (authoritative && registers); [|done]. by rewrite bind_all_app.
Qed.
End views.
