(* ===== verification/LoraAdaptSpec.v ===== *)
(** * Adapting PEFT's LoRA: properties

    Once a layer whose experts are a list was adapted, each of PEFT's weights is
    the view of its own row of a contiguous buffer, with the value that it had,
    and the backend on rank 0 holds those buffers. *)
From S2P Require Import Prelude PyStr PyVal Backend WeightSource Arch Artifacts RawInt4Spec Modules Ownership Placeholders.
From S2P Require Import Lora LoraViews LoraViewsSpec LoraAdapt.

Local Open Scope string_scope.
Local Open Scope list_scope.
Local Open Scope Z_scope.

Section adapt.
Context {block : Type} (zeros kaiming : list Z → block) (to_bf16 : block → block) (expand : list Z → list Z → block → option block).
Context (engine_refuses : list (string * Z) → option pyexn).

Abbreviation lora_state := (kt_wrapper * lora_heap block)%type.
Abbreviation tensor h w := (ob_tensors (hp_objects (lh_heap h)) !! w).
Abbreviation adapt_wrapper := (adapt_wrapper zeros kaiming to_bf16 expand engine_refuses).

Lemma init_lora_weights_ok b bufs (s s' : lora_state) u : init_lora_weights engine_refuses b bufs s = (s', Ok u) →
  s' = (set_backend (Some (set_lora bufs b)) s.1, s.2).
Proof.
  unfold init_lora_weights. rewrite bindM_gets, bindM_lift. destruct (for_each FUSED_NAMES tt _) as [[]|]; [|done].
  rewrite bindM_lift. destruct (for_each FUSED_NAMES tt _) as [[]|]; [|done].
  intros (s1 & [] & Hs1 & Hx)%bindM_ok. injection Hs1 as <-. destruct (_ && _); [|by injection Hx as <-].
  unfold lift in Hx. by injection Hx as <-.
Qed.

(** One weight after adaptation: its value is what it was, converted, in its row. *)
Definition weight_adapted (s s' : lora_state) (row : string → list Z) (bufs grads : list (string * Z)) (n : nat) (key : string)
    (m : lora_module) : Prop :=
  ∃ w y b g t, copies to_bf16 expand s.2 (row key) m w y ∧ buffer_of bufs key = Ok b ∧ buffer_of grads ("grad_" +:+ key) = Ok g ∧
    lh_data s'.2 !! w = Some (Row b n) ∧ read_data s'.2 w = Ok y ∧
    lh_grad s'.2 !! w = (if kw_uses_authoritative s.1 then None else Some (Row g n)) ∧
    tensor s'.2 w = Some t ∧ to_shape t = row key ∧ to_dtype t = "bfloat16" ∧ to_requires_grad t = true.

(** What adaptation leaves. *)
Record layer_adapted (is_rank_0 : bool) (peft : peft_loras) (js : list (nat * string * lora_module)) (row : string → list Z)
    (bufs grads : list (string * Z)) (s s' : lora_state) : Prop := {
  la_weights n key m : (n, key, m) ∈ js → weight_adapted s s' row bufs grads n key m;
  la_other q : q ∉ weights js → lh_data s'.2 !! q = lh_data s.2 !! q ∧ lh_grad s'.2 !! q = lh_grad s.2 !! q ∧ tensor s'.2 q = tensor s.2 q;
  la_apart w1 w2 : w1 ∈ weights js → w2 ∈ weights js → lh_data s'.2 !! w1 = lh_data s'.2 !! w2 → w1 = w2;
  la_new i : i ∈ bufs.*2 ++ grads.*2 → lh_buffers s.2 !! i = None;
  la_buffers : NoDup (bufs.*2 ++ grads.*2) ∧ lh_buffers s.2 ⊆ lh_buffers s'.2;
  la_wrapper : kw_adapted s'.1 = true ∧ kw_managed s'.1 = true ∧ kw_peft s'.1 = Some peft;
  la_backend b : is_rank_0 = true → kw_backend s.1 = Some b → ∃ b', kw_backend s'.1 = Some b' ∧ kb_lora b' = Some (bufs ++ grads) ∧
    kb_bindings b' = kb_bindings b ++ if kw_uses_authoritative s.1 && kb_uses_authoritative b then js ≫= binding_of grads else [];
}.

(** The stores between the steps of an adaptation that ends. *)
Lemma adapt_list_steps is_rank_0 (s s' : lora_state) peft names o : three_names (kw_moe_config s.1) = Ok names →
  collect_peft_loras names (kw_experts s.1) = Ok peft → peft ≠ [] →
  adapt_list zeros to_bf16 expand engine_refuses is_rank_0 s = (s', Ok o) → o = Adapted ∧
  ∃ h1 h2 bufs grads w2 w3,
    create_lora_view_buffers zeros to_bf16 expand peft (kw_moe_config s.1) s.2 = (h1, Ok bufs) ∧
    create_lora_grad_buffers zeros peft (kw_moe_config s.1) h1 = (h2, Ok grads) ∧
    w2 = match is_rank_0, kw_backend s.1 with
         | true, Some b => set_backend (Some (set_lora (bufs ++ grads) b)) (set_managed (set_loras (kw_fused_params s.1) (Some peft) s.1))
         | _, _ => set_managed (set_loras (kw_fused_params s.1) (Some peft) s.1)
         end ∧
    for_M (lora_pairs names peft (kw_moe_config s.1)) (replace_pair bufs grads (kw_uses_authoritative s.1) (kw_uses_authoritative s.1 && is_rank_0))
      (w2, h2) = ((w3, s'.2), Ok tt) ∧
    s'.1 = set_adapted w3.
Proof.
  intros Hnames Hpeft Hne. unfold adapt_list. rewrite bindM_gets, bindM_lift, Hnames, bindM_lift, Hpeft.
  change ((on_wrapper ?f ≫= ?k) s) with (k tt (f s.1, s.2)). cbv beta. destruct peft as [|e peft]; [done|].
  change ((on_wrapper ?f ≫= ?k) ?t) with (k tt (f t.1, t.2)). cbv beta.
  intros ((w1 & h1) & bufs & H1 & ((w1' & h2) & grads & H2 & ((w2 & h2') & [] & H3 & ((w3 & h3) & [] & H4 & H5)%bindM_ok)%bindM_ok)%bindM_ok)%bindM_ok.
  unfold on_store in H1, H2. cbn [fst snd] in H1, H2.
  destruct (create_lora_view_buffers _ _ _ _ _ _) as [h1' r1] eqn:E1. injection H1 as <- <- ->.
  destruct (create_lora_grad_buffers _ _ _ _) as [h2'' r2] eqn:E2. injection H2 as <- <- ->.
  unfold replace_peft_weights_with_views in H4. rewrite bindM_lift, Hnames in H4.
  injection H5 as <- <-. split; [done|]. simpl. exists h1', h2'', bufs, grads.
  destruct is_rank_0; [destruct (kw_backend s.1) as [b|] eqn:Eb|].
  - apply init_lora_weights_ok in H3 as [= -> ->]. by eexists _, w3.
  - injection H3 as <- <-. by eexists _, w3.
  - injection H3 as <- <-. by eexists _, w3.
Qed.

Lemma replaced_weights names peft moe_config bufs grads authoritative (h h' : lora_heap block) : replaced h bufs grads authoritative (jobs names peft moe_config) h' →
  ∀ q, q ∉ weights (jobs names peft moe_config) → lh_data h' !! q = lh_data h !! q ∧ lh_grad h' !! q = lh_grad h !! q ∧ tensor h' q = tensor h q.
Proof. intros HR q Hq. apply (rp_other _ _ _ _ _ _ HR). intros n key Hj. by apply elem_of_weights in Hj. Qed.

Lemma weights_elem (js : list (nat * string * lora_module)) w : w ∈ weights js → ∃ n key, (n, key, LLinear w) ∈ js.
Proof.
  intros ([[n key] [w'|]] & Hw & Hj)%list_elem_of_bind; [|by apply elem_of_nil in Hw]. apply list_elem_of_singleton in Hw as ->. by exists n, key.
Qed.

Lemma backend_of_bindings w gs : (∀ b, kw_backend w = Some b → ∃ b', kw_backend (bind_all w gs) = Some b' ∧ kb_lora b' = kb_lora b ∧
    kb_bindings b' = kb_bindings b ++ if kb_uses_authoritative b then gs else []) ∧
  kw_managed (bind_all w gs) = kw_managed w ∧ kw_peft (bind_all w gs) = kw_peft w.
Proof.
  assert (∀ gs w, (∀ b, kw_backend w = Some b → kb_uses_authoritative b = false) → bind_all w gs = w) as Hnone.
  { clear. induction gs as [|g gs IH]; intros w Hw; [done|]. simpl. assert (bind_one w g = w) as ->; [|by apply IH].
    unfold bind_one. destruct (kw_backend w) as [b|]; [|done]. by rewrite (Hw b). }
  destruct (kw_backend w) as [b|] eqn:Eb; [destruct (kb_uses_authoritative b) eqn:Eu|].
  - destruct (bind_all_backend w b gs Eb Eu) as (b' & -> & Hg & Hl). split; [|done]. intros b0 [= <-]. exists b'. by rewrite Eu.
  - rewrite Hnone; [|intros ? Hb; rewrite Eb in Hb; by injection Hb as <-]. split; [|done]. intros b0 [= <-]. exists b. by rewrite Eu, app_nil_r.
  - rewrite Hnone; [done|]. intros ? Hb. by rewrite Eb in Hb.
Qed.

(** Copied, then replaced: the weight is its row, with its value. *)
Lemma copied_and_replaced h E row bufs grads authoritative js h1 h2 h' n key m : copied to_bf16 expand h E row bufs js h1 →
  lh_heap h2 = lh_heap h → lh_buffers h1 ⊆ lh_buffers h2 → replaced h2 bufs grads authoritative js h' → key ∈ FUSED_NAMES → (n, key, m) ∈ js →
  ∃ w y b g t, copies to_bf16 expand h (row key) m w y ∧ buffer_of bufs key = Ok b ∧ buffer_of grads ("grad_" +:+ key) = Ok g ∧
    lh_data h' !! w = Some (Row b n) ∧ read_data h' w = Ok y ∧ lh_grad h' !! w = (if authoritative then None else Some (Row g n)) ∧
    tensor h' w = Some t ∧ to_shape t = row key ∧ to_dtype t = "bfloat16" ∧ to_requires_grad t = true.
Proof.
  intros Hc Eh Hold HR Hkey Hj. destruct (rp_jobs _ _ _ _ _ _ HR n key m Hj) as (w & b & g & -> & Hb & Hgr & Hd & Hgd & Ht).
  destruct (cp_rows _ _ _ _ _ _ _ _ Hc key b Hkey Hb) as (l & Hl & Hlen & Hrows). destruct (Hrows n _ Hj) as (w' & y & Hcp & Hy).
  destruct Hcp as ([= <-] & t & x & Htw & Hx). rewrite Eh, Htw in Ht. eapply lookup_weaken in Hl; [|exact Hold].
  exists w, y, b, g. eexists. split_and!; [split; [done|by exists t, x]|done|done|done| |done|exact Ht| |done|done].
  - unfold read_data. rewrite Hd. simpl. rewrite (rp_buffers _ _ _ _ _ _ HR), Hl. simpl. by rewrite Hy.
  - simpl. by rewrite Hl.
Qed.

(** C23. A layer that is not fused, has experts and LoRA, and on whose experts PEFT
    put LoRA, each of whose weights is one projection's.  When its adaptation
    ends, every weight is the same parameter and the view of a row of its own in
    a new buffer; the row holds what the weight held, converted to bfloat16.  Its
    gradient is the same row of the gradient's buffer or, where gradients are
    authoritative, absent and bound with the backend.  On rank 0 the backend
    holds those very buffers.  All other tensors are as they were, and adapting
    again does nothing. *)
Theorem adapted_weights_are_views is_rank_0 (s s' : lora_state) peft names o : placed s.2 →
  kw_adapted s.1 = false → is_Some (kw_experts_module s.1) → kw_use_fused_expert_lora s.1 = false → kw_fused_experts s.1 = false →
  kw_experts s.1 ≠ [] → kw_lora_rank s.1 ≠ Some 0 →
  three_names (kw_moe_config s.1) = Ok names → collect_peft_loras names (kw_experts s.1) = Ok peft → peft ≠ [] →
  NoDup (weights (jobs names peft (kw_moe_config s.1))) →
  adapt_wrapper is_rank_0 s = (s', Ok o) →
  o = Adapted ∧ adapt_wrapper is_rank_0 s' = (s', Ok AlreadyAdapted) ∧
  ∃ r hid inter bufs grads, lora_sizes peft (kw_moe_config s.1) (hp_objects (lh_heap s.2)) = Ok (r, hid, inter) ∧
    layer_adapted is_rank_0 peft (jobs names peft (kw_moe_config s.1)) (row_shape r hid inter) bufs grads s s'.
Proof.
  intros Hplaced Had [ex Hex] Hf1 Hf2 Hexps Hrank Hnames Hpeft Hne Hnd Hrun.
  assert (adapt_list zeros to_bf16 expand engine_refuses is_rank_0 s = (s', Ok o)) as Hlist.
  { unfold LoraAdapt.adapt_wrapper in Hrun. rewrite bindM_gets, Had, Hex, Hf1, Hf2, bool_decide_false in Hrun by done. simpl in Hrun.
    destruct (kw_lora_rank s.1) as [k|]; [|done]. simpl in Hrun. destruct (Z.eqb_spec k 0); [congruence|done]. }
  destruct (adapt_list_steps _ _ _ _ _ _ Hnames Hpeft Hne Hlist) as (-> & h1 & h2 & bufs & grads & w2 & w3 & H1 & H2 & Hw2 & H3 & Hw).
  destruct (view_buffers_ok _ _ _ _ _ _ _ _ Hplaced H1) as (names' & r & hid & inter & h0 & Hn' & Hsizes & Hm & Hc).
  rewrite Hnames in Hn'. injection Hn' as <-.
  destruct (grad_buffers_ok _ _ _ _ _ _ H2) as (r' & hid' & inter' & Hsizes' & Hg). rewrite (cp_heap _ _ _ _ _ _ _ _ Hc), Hsizes in Hsizes'. injection Hsizes' as <- <- <-.
  destruct (replace_all _ _ _ _ _ _ _ _ Hnd H3) as [HR Hw3]. simpl in HR, Hw3. fold (jobs names peft (kw_moe_config s.1)) in HR, Hw3.
  set (js := jobs names peft (kw_moe_config s.1)) in *. clear Hlist Hrun H1 H2 H3. split; [done|].
  split; [unfold LoraAdapt.adapt_wrapper; by rewrite bindM_gets, Hw|]. exists r, hid, inter, bufs, grads. split; [done|].
  assert (lh_heap h2 = lh_heap s.2 ∧ lh_data h2 = lh_data s.2 ∧ lh_grad h2 = lh_grad s.2) as (Eh & Ed & Eg).
  { destruct Hc, Hg. split_and!; congruence. }
  destruct (jobs_apart names peft (kw_moe_config s.1)) as [Hapart Hjobs]. fold js in Hapart, Hjobs. split.
  - intros n key m Hj. eapply copied_and_replaced; [exact Hc|exact Eh|exact (mk_old _ _ _ _ _ _ _ _ Hg)|exact HR| |exact Hj]. by apply (Hjobs _ _ _ Hj).
  - intros q Hq. rewrite <-Ed, <-Eg. assert (tensor s.2 q = tensor h2 q) as -> by by rewrite Eh. by eapply replaced_weights.
  - intros u1 u2 (n1 & k1 & Hj1)%weights_elem (n2 & k2 & Hj2)%weights_elem.
    destruct (rp_jobs _ _ _ _ _ _ HR _ _ _ Hj1) as (? & b1 & ? & [= <-] & Hb1 & _ & -> & _).
    destruct (rp_jobs _ _ _ _ _ _ HR _ _ _ Hj2) as (? & b2 & ? & [= <-] & Hb2 & _ & -> & _). intros [= -> ->].
    assert (k1 = k2) as -> by exact (made_apart _ _ _ _ _ _ _ _ _ _ _ Hm Hb1 Hb2). apply list_elem_of_lookup in Hj1 as [i1 Hj1]. apply list_elem_of_lookup in Hj2 as [i2 Hj2].
    assert (i1 = i2) as ->; [|congruence]. eapply NoDup_lookup; [exact Hapart|..]; rewrite list_lookup_fmap; [by rewrite Hj1|by rewrite Hj2].
  - intros i [Hi|Hi]%elem_of_app; [by eapply mk_new|]. eapply lookup_weaken_None; [by eapply (mk_new _ _ _ _ _ _ _ _ Hg)|apply Hc].
  - split; [|rewrite (rp_buffers _ _ _ _ _ _ HR); etrans; [apply Hc|apply Hg]]. apply NoDup_app. split_and!; [apply Hm| |apply Hg].
    intros i Hi1 Hi2. apply (cp_there _ _ _ _ _ _ _ _ Hc) in Hi1 as [bu Hbu]. by rewrite (mk_new _ _ _ _ _ _ _ _ Hg i Hi2) in Hbu.
  - assert (kw_managed w3 = kw_managed w2 ∧ kw_peft w3 = kw_peft w2) as [Hmg Hpf].
    { rewrite Hw3. destruct (_ && (_ && _)); [apply backend_of_bindings|done]. }
    rewrite Hw. simpl. rewrite Hmg, Hpf, Hw2. by destruct is_rank_0, (kw_backend s.1).
  - intros b -> Hb. rewrite Hb in Hw2. rewrite Hw. simpl. rewrite andb_true_r in Hw3. destruct (kw_uses_authoritative s.1); rewrite Hw3.
    + destruct (proj1 (backend_of_bindings w2 (js ≫= binding_of grads)) (set_lora (bufs ++ grads) b)) as (b' & Hb' & Hl & Hbi); [by rewrite Hw2|].
      exists b'. done.
    + rewrite Hw2. eexists. split; [done|]. split; [done|]. simpl. by rewrite app_nil_r.
Qed.
End adapt.
