(* ===== verification/LoraExample.v ===== *)
(** * LoRA on a small model

    Two experts with three projections each, on each of which PEFT put LoRA.  The
    properties of [LoraAdaptSpec] and [LoraSpec] hold of them: their weights
    become views, the names of trained parameters are those of the model or of
    the layer, and ownership of gradients is checked.  A whole call of
    [kt_adapt_peft_lora] lists the placeholders. *)
From S2P Require Import Prelude PyStr PyVal Backend WeightSource Arch Modules Ownership OwnershipSpec OwnershipExample Placeholders.
From S2P Require Import Lora LoraViews LoraViewsSpec LoraAdapt LoraSpec LoraAdaptSpec.

Local Open Scope string_scope.
Local Open Scope list_scope.
Local Open Scope Z_scope.

Module LoraExample.
Import OwnershipExample.

#[local] Instance example_torch : Torch := torch.

(** ** The model *)

(** Projection [i] of six: its module is [20 + i], its weight [100 + i], and its
    LoRA's weights are [140 + 2 i] and [141 + 2 i]. *)
Definition six : list Z := [0; 1; 2; 3; 4; 5].
Definition is_down (i : Z) : bool := i mod 3 =? 2.
Definition shape_A (i : Z) : list Z := [2; if is_down i then 3 else 4].
Definition shape_B (i : Z) : list Z := [if is_down i then 4 else 3; 2].

Definition placeholder (shape : list Z) : tensor_obj := TensorObj true shape "bfloat16" "cpu" false true (Some shape).
Definition lora_weight (shape : list Z) : tensor_obj := TensorObj true shape "float32" "cpu" true false None.

Definition lora_modules : module_map := list_to_map ([
  (0, plain [("mlp", 1)] [("gate", 200)] []);
  (1, plain [("experts", 10)] [] []);
  (10, Module_ true [("0", Some 2); ("1", Some 3)] [] []);
  (2, plain [("gate_proj", 20); ("up_proj", 21); ("down_proj", 22)] [] []);
  (3, plain [("gate_proj", 23); ("up_proj", 24); ("down_proj", 25)] [] [])]
  ++ (six ≫= fun i => [(20 + i, plain [("lora_A", 40 + 2 * i); ("lora_B", 41 + 2 * i)] [("weight", 100 + i)] []);
                        (40 + 2 * i, plain [] [("weight", 140 + 2 * i)] []); (41 + 2 * i, plain [] [("weight", 141 + 2 * i)] [])])).

Definition lora_tensors : tensor_map := list_to_map ((200, parameter [1])
  :: (six ≫= fun i => [(100 + i, placeholder (if is_down i then [4; 3] else [3; 4]));
                        (140 + 2 * i, lora_weight (shape_A i)); (141 + 2 * i, lora_weight (shape_B i))])).

Definition lora_model : heap := Heap (Objects lora_modules lora_tensors) ∅.

(** A weight's block is its number. *)
Definition own_weights : list Z := (fun i => 140 + i) <$> [0; 1; 2; 3; 4; 5; 6; 7; 8; 9; 10; 11].
Definition start : lora_heap Z := LoraHeap lora_model
  (list_to_map ((fun w => (w, Buffer (default [] (to_shape <$> lora_tensors !! w)) (Solid w))) <$> own_weights))
  (list_to_map ((fun w => (w, Whole w)) <$> own_weights)) ∅.

Definition peft_projection (i : Z) : projection :=
  Projection (Some (LModuleDict [("default", 140 + 2 * i)])) (Some (LModuleDict [("default", 141 + 2 * i)])) (Some ["default"]).

Definition two_lora_experts : list expert :=
  [[("gate_proj", peft_projection 0); ("up_proj", peft_projection 1); ("down_proj", peft_projection 2)];
   [("gate_proj", peft_projection 3); ("up_proj", peft_projection 4); ("down_proj", peft_projection 5)]].

Definition amx : backend := KTBackend None None None 2 2 4 3 true [] None true true false.

Definition layer_config : MOEArchConfig := Arch "mlp" "gate" "experts" ["gate_proj"; "up_proj"; "down_proj"] 2 3 1 false "linear".

Definition layer : kt_wrapper :=
  KTWrapper (PInt 7) (Some 10) two_lora_experts false false (Some 2) true false layer_config 4 None (Some 2) (Some amx) false false None None.

(** ** Operations on blocks: the shape must fit, and zero is the block of zeros. *)

Definition blank : list Z -> Z := fun _ => 0.
Definition same_block : Z -> Z := fun x => x.
Definition exactly_fits (target source : list Z) (x : Z) : option Z := if bool_decide (target = source) then Some x else None.
Definition obliging : list (string * Z) -> option pyexn := fun _ => None.

Abbreviation adapt := (LoraAdapt.adapt_wrapper blank blank same_block exactly_fits obliging true).

Lemma start_placed : placed start.
Proof.
  assert (map_Forall (λ _ v, is_Some (lh_buffers start !! match v with Whole b | Row b _ => b end)) (lh_data start)) as Hp
    by (apply (bool_decide_unpack _); vm_compute; exact I).
  exact Hp.
Qed.

Definition loras : peft_loras := match collect_peft_loras ("gate_proj", "up_proj", "down_proj") two_lora_experts with Ok l => l | Err _ => [] end.

(** Every weight is the row of its expert, with its own number in it; the backend
    holds the buffers 152 to 163 and twelve bindings. *)
Lemma adapted_weights_are_views_witness :
  (adapt (layer, start)).2 = Ok Adapted ∧ adapt (adapt (layer, start)).1 = ((adapt (layer, start)).1, Ok AlreadyAdapted) ∧
  ((λ w, (lh_data (adapt (layer, start)).1.2 !! w, read_data (adapt (layer, start)).1.2 w)) <$> [140; 141; 150; 151]) =
    [(Some (Row 152 0), Ok 140); (Some (Row 153 0), Ok 141); (Some (Row 156 1), Ok 150); (Some (Row 157 1), Ok 151)] ∧
  (length ∘ kb_bindings <$> kw_backend (adapt (layer, start)).1.1) = Some 12%nat.
Proof.
  assert ((adapt (layer, start)).2 = Ok Adapted) as Hr by (vm_compute; reflexivity). split; [exact Hr|].
  split; [|split; vm_compute; reflexivity].
  destruct (adapted_weights_are_views blank blank same_block exactly_fits obliging true (layer, start) (adapt (layer, start)).1
              loras ("gate_proj", "up_proj", "down_proj") Adapted) as (_ & Hagain & _).
  - exact start_placed.
  - reflexivity.
  - by eexists.
  - reflexivity.
  - reflexivity.
  - discriminate.
  - discriminate.
  - reflexivity.
  - vm_compute. reflexivity.
  - vm_compute. discriminate.
  - apply (bool_decide_unpack _). vm_compute. exact I.
  - apply run_result. exact Hr.
  - exact Hagain.
Defined.

(** ** Ownership of gradients *)

(** Rank 0 passes; rank 1 does not, as it must not own the backend. *)
Lemma gradient_ownership_is_exact_witness :
  sync_kt_lora_gradients (fun _ => mret tt) start (Some (2, 0)) (Some [layer]) = Ok tt ∧
  sync_kt_lora_gradients (fun _ => mret tt) start (Some (2, 1)) (Some [layer]) ≠ Ok tt.
Proof.
  split.
  - apply (gradient_ownership_is_exact (fun _ => mret tt) start 2 0 [layer]); [reflexivity|]. split.
    + left. intros w ->%list_elem_of_singleton. reflexivity.
    + intros w ->%list_elem_of_singleton. split; [intros n [= <-]; reflexivity|]. split; [|intros Hx; by destruct Hx].
      intros _. exists amx. split; reflexivity.
  - intros Hx. apply (gradient_ownership_is_exact (fun _ => mret tt) start 2 1 [layer]) in Hx as [_ Hx]; [|reflexivity].
    destruct (Hx layer) as (_ & _ & Hno); [left|]. destruct Hno as [Hno _]; [discriminate|]. discriminate Hno.
Defined.

(** ** A whole call *)

Definition bytes (o : objects) (i : Z) : option Z :=
  t ← ob_tensors o !! i; Some (if to_zero_storage t then (if bool_decide (to_shape t = [0]) then 0 else 1) else 2 * foldr Z.mul 1 (to_shape t)).

Abbreviation adapt_model := (kt_adapt_peft_lora blank blank same_block exactly_fits obliging bytes
  (fun i => i =? 0) (fun i => if i =? 1 then Some (Some "experts") else None) true 0).

Definition model_start : model_state Z := ModelState [layer] start None.

Definition expert_texts (suffix : string -> string -> string) : list string :=
  ["0"; "1"] ≫= fun e => suffix e <$> ["gate_proj"; "up_proj"; "down_proj"].

Example model_is_adapted :
  let result := (adapt_model model_start).2 in
  ((fun r => (ar_adapted_layers r, ar_already_adapted_layers r)) <$> result) = Ok (1%nat, 0%nat) ∧
  (ar_placeholder_names <$> result) = Ok ["mlp.experts.0.down_proj.weight"; "mlp.experts.0.gate_proj.weight"; "mlp.experts.0.up_proj.weight";
                                          "mlp.experts.1.down_proj.weight"; "mlp.experts.1.gate_proj.weight"; "mlp.experts.1.up_proj.weight"] ∧
  ((fun r => take 2 (ar_named_optimizer_parameters r)) <$> result) =
    Ok [("mlp.experts.0.gate_proj.lora_A.weight", 140); ("mlp.experts.0.gate_proj.lora_B.weight", 141)].
Proof. vm_compute. split_and!; reflexivity. Qed.

(** A second call adapts no layer. *)
Example adapting_again_adapts_nothing :
  let again := adapt_model (adapt_model model_start).1 in
  ((fun r => (ar_adapted_layers r, ar_already_adapted_layers r)) <$> again.2) = Ok (0%nat, 1%nat).
Proof. vm_compute. reflexivity. Qed.

(** A frozen bfloat16 parameter of one element has two bytes of storage, and is
    taken for a placeholder: its value is lost. *)
Example frozen_scalar_is_removed :
  let o := Objects (<[2 := plain [] [("scale", 300)] []]> lora_modules) (<[300 := TensorObj true [1] "bfloat16" "cpu" false false None]> lora_tensors) in
  let o' := (shrink_expert bytes 2 o).1 in
  named_parameters true (ob_modules o') 2 = [("scale", 301)] ∧ to_shape <$> (ob_tensors o' !! 301) = Some [0].
Proof. vm_compute. split; reflexivity. Qed.
End LoraExample.
