(* ===== verification/Adapter.v ===== *)
(** * What an adapter's manifest says of its model

    Models the fused LoRA contract and the provenance of an adapter in
    [kt-kernel/python/sft/artifacts.py] ([_find_wrappers] to
    [_adapter_provenance]), and [_find_kt_wrappers] of
    [kt-kernel/python/sft/lora.py].  A model is a heap of wrapping objects, and
    a heap of KT wrappers that they list. *)
From S2P Require Import Prelude PyStr PyVal FS KTConfig Artifacts RawInt4Identity Backend PretrainedLoad ModelGraph.
From Stdlib Require Import Ascii SpecFloat.

Local Open Scope string_scope.
Local Open Scope list_scope.
Local Open Scope Z_scope.

Definition KT_ADAPTER_MANIFEST_NAME : string := "kt_adapter_manifest.json".
Definition FUSED_EXPERT_LORA_NAME : string := "fused_expert_lora.safetensors".
Definition KT_ADAPTER_MANIFEST_VERSION : Z := 1.
Definition STANDARD_ADAPTER_NAMES : list string := ["adapter_model.safetensors"; "adapter_model.bin"].
Definition FUSED_LORA_NAMES : list string :=
  ["gate_lora_a"; "gate_lora_b"; "up_lora_a"; "up_lora_b"; "down_lora_a"; "down_lora_b"].

(** ** Models *)

Record tensor := Tensor { tn_shape : list Z; tn_dtype : string; tn_data : string }.
#[export] Instance tensor_eq_dec : EqDecision tensor.
Proof. solve_decision. Defined.

(** A KT wrapper.  Attributes whose type the code tests are values, [PNone] when
    absent. *)
Record moe_wrapper := MoeWrapper {
  mw_layer_idx : pyval;
  mw_lora_rank : pyval;
  mw_lora_alpha : pyval;
  mw_use_fused_expert_lora : bool;
  mw_fused_experts : bool;
  mw_fused_params : option (list tensor);
  mw_expert_num : pyval;
  mw_intermediate_size : pyval;
  mw_hidden_size : pyval;
  mw_weight_format : pyval;
  mw_rawint4_quantization : pyval;
  mw_lora_experts : option (list (tensor * tensor * tensor));
  mw_full_weight_grad : bool;
  mw_pointers_dirty : bool;
}.

(** What the searches read of an object around the model. *)
Record holder := Holder {
  h_wrappers : option (list Z);
  h_plan : option KTPretrainedLoadPlan;
  h_weight_format : pyval;
  h_config_weight_format : pyval;
  h_rawint4_quantization : pyval;
  h_config_private_name : pyval;
  h_config_name : pyval;
}.

Record model := Model {
  m_objects : gmap Z (object holder);
  m_root : Z;
  m_wrappers : gmap Z moe_wrapper;
}.

Definition holders (m : model) : list holder := unwrapped (m_objects m) (m_root m).

Definition find_wrappers (m : model) : list moe_wrapper :=
  default [] (first_of (m_objects m) h_wrappers (m_root m)) ≫= fun i => option_list (m_wrappers m !! i).

Definition find_plan (m : model) : option KTPretrainedLoadPlan := first_of (m_objects m) h_plan (m_root m).

(** [_find_kt_wrappers] of lora.py: the model, then its [base_model], then the
    [model] of that. *)
Definition find_kt_wrappers (m : model) : list Z :=
  let wrappers_of i := o ← m_objects m !! i; h_wrappers (ob_data o) in
  let root := m_root m in
  default [] (match wrappers_of root with
    | Some wrappers => Some wrappers
    | None =>
        let '(base, wrappers) := match m_objects m !! root ≫= ob_base_model with
          | Some base => (base, wrappers_of base)
          | None => (root, None)
          end in
        match wrappers with
        | Some (_ :: _) => wrappers
        | _ => match m_objects m !! base ≫= ob_model with
               | Some inner => wrappers_of inner
               | None => wrappers
               end
        end
    end).

(** ** The contract of the fused tensors *)

Definition dtype_name (dtype : string) : res string :=
  of_option (dict_get dtype [("torch.bfloat16", "BF16"); ("torch.float16", "F16"); ("torch.float32", "F32");
                             ("torch.float64", "F64")]) KTArtifactError "unsupported fused expert LoRA dtype".

Definition positive (v : pyval) : option Z := match v with PInt n => if 0 <? n then Some n else None | _ => None end.

Definition wrapper_uses_fused_lora (w : moe_wrapper) : bool :=
  match positive (mw_lora_rank w) with
  | Some _ => mw_use_fused_expert_lora w || mw_fused_experts w
              || match mw_fused_params w with Some _ => true | None => false end
  | None => false
  end.

(** [fused] when it is not empty. *)
Definition fused_of (w : moe_wrapper) : list tensor := default [] (mw_fused_params w).

Definition fused_key (layer_idx : pyval) (name : string) `{Platform} : string :=
  ("layers." ++ py_str layer_idx ++ ".experts." ++ name)%string.

(** Shape and dtype of a tensor, by name. *)
Definition contract : Type := list (string * (list Z * string)).

Section provenance.
Context `{Platform}.

Definition derived_shapes (w : moe_wrapper) : option (list (list Z)) :=
  expert_num ← positive (mw_expert_num w);
  intermediate_size ← positive (mw_intermediate_size w);
  hidden_size ← positive (mw_hidden_size w);
  rank ← positive (mw_lora_rank w);
  Some [[expert_num; rank; hidden_size]; [expert_num; intermediate_size; rank];
        [expert_num; rank; hidden_size]; [expert_num; intermediate_size; rank];
        [expert_num; rank; intermediate_size]; [expert_num; hidden_size; rank]].

Definition layer_contract (w : moe_wrapper) : res (list (list Z * string)) :=
  match fused_of w with
  | [] => shapes ← of_option (derived_shapes w) KTArtifactError "cannot derive its fused LoRA contract";
          mret ((fun shape => (shape, "BF16")) <$> (shapes : list (list Z)))
  | fused =>
      _ ← raise_if (negb (length fused =? length FUSED_LORA_NAMES)%nat) KTArtifactError
            "expected six fused LoRA parameters";
      for_each fused [] (fun acc p => dtype ← dtype_name (tn_dtype p); mret (acc ++ [(tn_shape p, dtype)]))
  end.

Definition add_layer (acc : contract * list Z) (w : moe_wrapper) : res (contract * list Z) :=
  let '(entries, seen_layers) := acc in
  if bool_decide (fused_of w = []) && negb (wrapper_uses_fused_lora w) then mret acc
  else
    layer_idx ← of_option (match mw_layer_idx w with
                           | PInt n => if bool_decide (n ∈ seen_layers) then None else Some n
                           | _ => None end) KTArtifactError "invalid or duplicate KT wrapper layer";
    tensors ← layer_contract w;
    mret (fold_left (fun d '(name, t) => dict_set (fused_key (PInt layer_idx) name) t d)
            (zip FUSED_LORA_NAMES tensors) entries, layer_idx :: seen_layers).

Definition by_key (a b : string * (list Z * string)) : Prop := is_true (String.leb a.1 b.1).
#[export] Instance by_key_dec : RelDecision by_key := fun a b => decide (String.leb a.1 b.1 = true).

Definition fused_lora_contract (m : model) : res contract :=
  '(entries, _) ← for_each (find_wrappers m) ([], []) add_layer;
  mret (merge_sort by_key entries).

Definition tensor_value (t : list Z * string) : pyval :=
  PDict [("shape", PList (PInt <$> t.1)); ("dtype", PStr t.2)].
Definition contract_value (c : contract) : pyval := PDict ((fun kt => (kt.1, tensor_value kt.2)) <$> c).

(** ** Precision and quantisation *)

Definition EXPERT_WEIGHT_FORMATS : list string := ["bf16"; "int8"; "fp8"; "rawint4"].

Definition present (v : pyval) : list pyval := if is_none v then [] else [v].

(** The values that the runtime states, in the order of the search. *)
Definition format_values (m : model) (plan : option KTPretrainedLoadPlan) : list pyval :=
  (holders m ≫= fun h => present (h_weight_format h) ++ present (h_config_weight_format h))
  ++ (find_wrappers m ≫= fun w => present (mw_weight_format w))
  ++ match plan with Some p => [pget "expert_weight_format" (lp_routed_manifest p)] | None => [] end.

Definition normalize_format (v : pyval) : res string :=
  of_option (match v with
             | PStr s => let n := lower (strip s) in
                         if bool_decide (n ∈ EXPERT_WEIGHT_FORMATS) then Some n else None
             | _ => None end) KTArtifactError "invalid expert_weight_format".

Definition runtime_expert_weight_format (m : model) (plan : option KTPretrainedLoadPlan) : res string :=
  normalized ← for_each (format_values m plan) [] (fun acc v => n ← normalize_format v; mret (acc ++ [n]));
  match remove_dups normalized with
  | [] => match plan with
          | Some _ => artifact_error "validated pretrained plan lacks routed expert format provenance"
          | None => mret "bf16"
          end
  | [format] => mret format
  | _ => artifact_error "conflicting KT expert weight provenance"
  end.

Definition expected_rawint4 : list (string * pyval) :=
  [("bits", PInt 4); ("group_size", PInt 32); ("signed", PBool true); ("symmetric", PBool true);
   ("zero_point", PBool false); ("format", PStr "pack-quantized"); ("weight_layout", PStr RAWINT4_WEIGHT_LAYOUT)].

(** Equal in type and value. *)
Definition same_scalar (a b : pyval) : bool :=
  match a, b with
  | PInt n, PInt m => n =? m
  | PBool x, PBool y => Bool.eqb x y
  | PStr s, PStr t => String.eqb s t
  | _, _ => false
  end.

Definition check_rawint4 (v : pyval) : res unit :=
  d ← of_option (as_dict v) KTArtifactError "invalid RAWINT4 quantization provenance";
  _ ← raise_if (negb (bool_decide (list_to_set (fst <$> d) =@{gset string} list_to_set (fst <$> expected_rawint4))))
        KTArtifactError "invalid RAWINT4 quantization provenance";
  for_each expected_rawint4 tt (fun _ '(name, expected) =>
    raise_if (negb (same_scalar (pget name d) expected)) KTArtifactError "invalid RAWINT4 quantization provenance").

Definition runtime_rawint4_quantization (m : model) : res pyval :=
  let provenance := (holders m ≫= fun h => present (h_rawint4_quantization h))
                    ++ (find_wrappers m ≫= fun w => present (mw_rawint4_quantization w)) in
  _ ← raise_if (match provenance with [] => true | _ => false end) KTArtifactError
        "RAWINT4 runtime lacks quantization provenance";
  _ ← for_each provenance tt (fun _ v => check_rawint4 v);
  mret (PDict expected_rawint4).

(** ** The base model *)

(** [getattr(config, "_name_or_path", None) or getattr(config, "name_or_path", None)] *)
Definition config_name_of (h : holder) : pyval :=
  if truthy (h_config_private_name h) then h_config_private_name h else h_config_name h.

(** [None], or the name of the first object that has one. *)
Definition base_model_name (m : model) (plan : option KTPretrainedLoadPlan) : res (option string) :=
  match plan with
  | Some p => mret (Some (lp_source_model_name_or_path p))
  | None =>
      match first_of (m_objects m)
              (fun h => if truthy (config_name_of h) then Some (config_name_of h) else None) (m_root m) with
      | None => mret None
      | Some (PStr name) => mret (Some name)
      | Some _ => Err (Raise TypeError "expected str, bytes or os.PathLike object")
      end
  end.

(** ** The provenance *)

Definition single_rank (wrappers : list moe_wrapper) : res Z :=
  match mw_lora_rank <$> wrappers with
  | PInt rank :: others =>
      if forallb (fun v => py_eq v (PInt rank)) others then mret rank
      else artifact_error "fused wrappers have inconsistent LoRA ranks"
  | _ => artifact_error "fused wrappers have inconsistent LoRA ranks"
  end.

Definition single_alpha (wrappers : list moe_wrapper) : res spec_float :=
  let alphas := mw_lora_alpha <$> wrappers in
  _ ← raise_if (existsb (fun v => is_list v || is_dict v) alphas) TypeError "unhashable type";
  let bad := artifact_error "fused wrappers have invalid or inconsistent LoRA alpha" in
  match alphas with
  | [] => bad
  | alpha :: others =>
      if negb (forallb (fun v => py_eq v alpha) others) then bad
      else
        f ← match alpha with PInt n => float_of_int n | PFloat f => mret f | _ => bad end;
        match f with
        | S754_finite false _ _ => mret f
        | _ => bad
        end
  end.

Context (t : fs) (observe : path -> observation) (json_compact : pyval -> string).

(** The fields that a validated plan adds, and the fingerprint of its source. *)
Definition plan_fields (plan : KTPretrainedLoadPlan) : res (string * list (string * pyval)) :=
  source ← of_option (as_dict (pget "source" (lp_manifest plan))) KTArtifactError
             "validated non-expert manifest lost its source provenance";
  fingerprint ← require_sha256 (pget "fingerprint" source);
  cache_fingerprint ← require_sha256 (pget "fingerprint" (lp_manifest plan));
  let routed_path := path_parts (lp_routed_manifest_path plan) in
  manifest_sha256 ← sha256_file t routed_path;
  let routed_fingerprint := pget "fingerprint" (lp_routed_manifest plan) in
  mret (fingerprint,
    [("non_expert_cache", PDict [("path", PStr (lp_weight_path plan)); ("fingerprint", PStr cache_fingerprint)]);
     ("int8_experts", PDict [("path", PStr (lp_routed_weight_path plan)); ("manifest", PStr (path_name routed_path));
                             ("manifest_sha256", PStr manifest_sha256);
                             ("fingerprint", if truthy routed_fingerprint then routed_fingerprint
                                             else PStr manifest_sha256)])]).

Definition opt_str (s : option string) : pyval := match s with Some s => PStr s | None => PNone end.

Definition adapter_provenance (m : model) (plan : option KTPretrainedLoadPlan) : res (list (string * pyval)) :=
  let wrappers := List.filter wrapper_uses_fused_lora (find_wrappers m) in
  rank ← single_rank wrappers;
  alpha ← single_alpha wrappers;
  _ ← raise_if (match plan ≫= lp_lora_rank with Some r => negb (r =? rank) | None => false end) KTArtifactError
        "LoRA rank does not match the pretrained plan";
  _ ← raise_if (match plan ≫= lp_lora_alpha with Some a => negb (SFeqb a alpha) | None => false end) KTArtifactError
        "LoRA alpha does not match the pretrained plan";
  expert_weight_format ← runtime_expert_weight_format m plan;
  _ ← raise_if (bool_decide (is_Some plan) && negb (String.eqb expert_weight_format "int8")) KTArtifactError
        "a KT non-expert load plan requires INT8 routed expert provenance";
  name ← base_model_name m plan;
  '(base, quantization) ← (if String.eqb expert_weight_format "rawint4" then
      q ← runtime_rawint4_quantization m;
      base_name ← of_option (match name with Some "" => None | n => n end) KTArtifactError
                    "RAWINT4 adapter provenance requires a local base checkpoint path";
      base ← rawint4_base_identity json_compact t observe base_name;
      mret (base, [("expert_quantization", q)])
    else mret (PDict [("model_name_or_path", opt_str name)], []));
  '(base, fields) ← match plan with
    | Some p => '(fingerprint, fields) ← plan_fields p;
                mret (PDict (default [] (as_dict base) ++ [("fingerprint", PStr fingerprint)]), fields)
    | None => mret (base, [])
    end;
  mret ([("expert_weight_format", PStr expert_weight_format); ("base", base);
         ("lora", PDict [("rank", PInt rank); ("alpha", PFloat alpha)])] ++ quantization ++ fields).
End provenance.
