(* ===== verification/AdapterFiles.v ===== *)
(** * Publishing and loading an adapter

    Models [save_kt_adapter_artifacts], [_validate_adapter_manifest] and
    [load_kt_adapter_artifacts] of [kt-kernel/python/sft/artifacts.py], and
    [save_kt_moe_to_adapter], [_save_fused_expert_lora],
    [save_lora_experts_to_adapter], [_load_fused_expert_lora] and
    [load_kt_moe_from_adapter] of [kt-kernel/python/sft/lora.py].  The output
    directory and the staging directory below it are maps from names to entries;
    every state of the output directory is kept, and every file operation may
    fail.  The safetensors format and [torch.load] are parameters. *)
From S2P Require Import Prelude PyStr PyVal FS KTConfig Artifacts RawInt4Identity PretrainedLoad ModelGraph Adapter.
From Stdlib Require Import Ascii.

Local Open Scope string_scope.
Local Open Scope list_scope.
Local Open Scope Z_scope.

(** ** Directories *)

(** A regular file, a symbolic link with the contents of the regular file it
    leads to, or something else. *)
Inductive dentry := File (data : string) | Link (target : option string) | Special.
#[export] Instance dentry_eq_dec : EqDecision dentry.
Proof. solve_decision. Defined.

Abbreviation dir := (gmap string dentry).

Definition content_of (e : dentry) : option string :=
  match e with File data => Some data | Link target => target | Special => None end.
Definition regular (d : dir) (name : string) : option string :=
  match d !! name with Some (File data) => Some data | _ => None end.
(** [(d / name).is_file()] *)
Definition is_file (d : dir) (name : string) : bool := bool_decide (is_Some (d !! name ≫= content_of)).

(** [os.path.exists] *)
Definition exists_in (d : dir) (name : string) : bool :=
  match d !! name with None | Some (Link None) => false | _ => true end.

(** What becomes of an operation: it works, it fails, or it fails and leaves
    some bytes in the file it was writing. *)
Inductive io_outcome := Fine | Fails | Leaves (data : string).

(** The output directory, its earlier states, and the staging directory. *)
Record shelf := Shelf { sf_out : dir; sf_past : list dir; sf_stage : dir; sf_clock : nat }.

Inductive place := Out | Stage.

Definition dir_of (pl : place) (s : shelf) : dir := match pl with Out => sf_out s | Stage => sf_stage s end.
Definition set_dir (pl : place) (d : dir) (s : shelf) : shelf :=
  match pl with
  | Out => Shelf d (sf_past s ++ [sf_out s]) (sf_stage s) (sf_clock s)
  | Stage => Shelf (sf_out s) (sf_past s) d (sf_clock s)
  end.
Definition tick (s : shelf) : shelf := Shelf (sf_out s) (sf_past s) (sf_stage s) (S (sf_clock s)).

(** A manifest that was validated or written. *)
Record KTAdapterManifest := { am_payload : list (string * pyval); am_artifact_names : list string }.

Section files.
Context `{Platform}.
(** The outcome of the n-th operation. *)
Context (io : nat -> io_outcome).
(** [safetensors.torch]: the bytes of a file with these tensors, the tensors of a
    file, and the name that a file has for a dtype; [torch.load]. *)
Context (st_encode : list (string * tensor) -> string) (st_decode : string -> option (list (string * tensor)))
  (st_dtype : string -> string) (torch_load : string -> option (list (string * tensor))).

(** An operation that changes the shelf in one step. *)
Definition operation (change : shelf -> shelf) : M shelf unit := fun s =>
  match io (sf_clock s) with
  | Fine => (change (tick s), Ok tt)
  | _ => (tick s, Err (Raise OSError "os error"))
  end.

Definition put (pl : place) (name : string) (e : dentry) (s : shelf) : shelf :=
  set_dir pl (<[name := e]> (dir_of pl s)) s.

(** Writing a file at a name: through a link, and not where a directory is. *)
Definition written (old : option dentry) (data : string) : dentry :=
  match old with Some (Link _) => Link (Some data) | _ => File data end.
Definition write_file (pl : place) (name data : string) : M shelf unit := fun s =>
  let old := dir_of pl s !! name in
  match old, io (sf_clock s) with
  | Some Special, _ | _, Fails => (tick s, Err (Raise OSError "os error"))
  | _, Fine => (put pl name (written old data) (tick s), Ok tt)
  | _, Leaves junk => (put pl name (written old junk) (tick s), Err (Raise OSError "os error"))
  end.

(** [os.remove] *)
Definition remove_file (pl : place) (name : string) : M shelf unit := fun s =>
  match dir_of pl s !! name with
  | None => (tick s, Err (Raise FileNotFoundError name))
  | Some Special => (tick s, Err (Raise OSError "os error"))
  | Some _ => operation (fun s => set_dir pl (delete name (dir_of pl s)) s) s
  end.
Definition remove_if_there (pl : place) (name : string) : M shelf unit :=
  catchM (remove_file pl name) (fun c => bool_decide (c = FileNotFoundError)) (fun _ => mret tt).

(** [os.replace(src, dst)] inside a directory. *)
Definition rename (pl : place) (src dst : string) : M shelf unit := fun s =>
  match dir_of pl s !! src, dir_of pl s !! dst with
  | None, _ => (tick s, Err (Raise FileNotFoundError src))
  | Some _, Some Special => (tick s, Err (Raise OSError "os error"))
  | Some e, _ => operation (fun s => set_dir pl (<[dst := e]> (delete src (dir_of pl s))) s) s
  end.

(** [os.replace(staging / name, output / name)] *)
Definition publish_file (name : string) : M shelf unit := fun s =>
  match sf_stage s !! name, sf_out s !! name with
  | None, _ => (tick s, Err (Raise FileNotFoundError name))
  | Some _, Some Special => (tick s, Err (Raise OSError "os error"))
  | Some e, _ => operation (fun s => put Out name e (set_dir Stage (delete name (sf_stage s)) s)) s
  end.

Definition fsync : M shelf unit := operation (fun s => s).

(** ** Writing the model's tensors *)

Definition FUSED_TEMPORARY (rnd : string) : string := (".fused_expert_lora." ++ rnd ++ ".safetensors.tmp")%string.

(** The six tensors of each layer, by name; a shorter list gives its own names. *)
Definition fused_tensors (ws : list moe_wrapper) : list (string * tensor) :=
  fold_left (fun d w => fold_left (fun d '(p, name) => dict_set (fused_key (mw_layer_idx w) name) p d)
                          (zip (fused_of w) FUSED_LORA_NAMES) d) ws [].

Definition save_fused_expert_lora (pl : place) (rnd : string) (ws : list moe_wrapper) : M shelf unit :=
  match fused_tensors ws with
  | [] => mret tt
  | tensors =>
      _ ← (fun s => match dir_of pl s !! FUSED_TEMPORARY rnd with
                    | Some _ => (tick s, Err (Raise FileExistsError "no usable temporary file name"))
                    | None => write_file pl (FUSED_TEMPORARY rnd) "" s
                    end);
      finallyM (_ ← write_file pl (FUSED_TEMPORARY rnd) (st_encode tensors);
                rename pl (FUSED_TEMPORARY rnd) FUSED_EXPERT_LORA_NAME)
        (remove_if_there pl (FUSED_TEMPORARY rnd))
  end.

Definition expert_prefix (layer_idx : pyval) (expert_idx : nat) : string :=
  ("base_model.model.model.layers." ++ py_str layer_idx ++ ".mlp.lora_experts." ++ str_of_Z (Z.of_nat expert_idx))%string.

Definition add_experts (state_dict : list (string * tensor)) (w : moe_wrapper) : list (string * tensor) :=
  fold_left (fun d '(i, (gate, up, down)) =>
      let base_key := expert_prefix (mw_layer_idx w) i in
      dict_set (base_key ++ ".le_down.weight") down
        (dict_set (base_key ++ ".le_up.weight") up (dict_set (base_key ++ ".le_gate.weight") gate d)))
    (imap (fun i e => (i, e)) (default [] (mw_lora_experts w))) state_dict.

(** The tensors of the adapter that is already there. *)
Definition adapter_state_dict (d : dir) : res (list (string * tensor)) :=
  let read name parse : res (list (string * tensor)) :=
    data ← of_option (d !! name ≫= content_of) OSError "not a file";
    of_option (parse data) SafetensorError "Error while deserializing header" in
  if exists_in d "adapter_model.safetensors" then read "adapter_model.safetensors" st_decode
  else if exists_in d "adapter_model.bin" then read "adapter_model.bin" torch_load
  else mret [].

Definition save_lora_experts_to_adapter (pl : place) (ws : list moe_wrapper) : M shelf unit :=
  state_dict ← gets_res (fun s => adapter_state_dict (dir_of pl s));
  write_file pl "adapter_model.safetensors" (st_encode (fold_left add_experts ws state_dict)).

(** [save_full_weight_checkpoint(wrappers, output_dir)] in this directory. *)
Context (save_full_weights : place -> list moe_wrapper -> M shelf unit).

Definition has_fused_lora (ws : list moe_wrapper) : bool :=
  existsb (fun w => match fused_of w with [] => false | _ => true end) ws.

Definition save_kt_moe_to_adapter (pl : place) (rnd : string) (ws : list moe_wrapper) : M shelf unit :=
  match ws with
  | [] => mret tt
  | _ =>
      _ ← (if existsb mw_full_weight_grad ws then save_full_weights pl ws else mret tt);
      _ ← (if existsb (fun w => bool_decide (is_Some (mw_lora_experts w))) ws
           then save_lora_experts_to_adapter pl ws else mret tt);
      if has_fused_lora ws then save_fused_expert_lora pl rnd ws else mret tt
  end.

(** ** Records *)

Definition validate_fused_file (d : dir) (name : string) (c : contract) : res unit :=
  data ← of_option (regular d name) KTArtifactError "missing regular fused expert LoRA file";
  tensors ← of_option (st_decode data) SafetensorError "Error while deserializing header";
  _ ← raise_if (negb (bool_decide (list_to_set (fst <$> tensors) =@{gset string} list_to_set (fst <$> c))))
        KTArtifactError "invalid fused LoRA keys";
  for_each c tt (fun _ '(key, (shape, dtype)) =>
    p ← of_option (dict_get key tensors) SafetensorError "no such tensor";
    _ ← raise_if (negb (bool_decide (tn_shape p = shape))) KTArtifactError "shape does not match the runtime";
    raise_if (negb (String.eqb (st_dtype (tn_dtype p)) dtype)) KTArtifactError "dtype does not match the runtime").

Definition artifact_record (d : dir) (name : string) (c : option contract) : res pyval :=
  data ← of_option (regular d name) KTArtifactError "adapter artifact must be a regular file";
  mret (PDict ([("size", PInt (FS.file_size data)); ("sha256", PStr (sha256 data))]
               ++ match c with
                  | Some c => [("tensor_count", PInt (Z.of_nat (length c))); ("tensors", contract_value c)]
                  | None => []
                  end)).

(** ** Saving *)

Context (t : fs) (observe : path -> observation) (json_compact : pyval -> string).

(** The artifacts of the plan still are what was loaded. *)
Definition check_plan_current (plan : KTPretrainedLoadPlan) : res unit :=
  current_cache ← read_json t (path_parts (lp_manifest_path plan));
  current_routed ← read_json t (path_parts (lp_routed_manifest_path plan));
  raise_if (negb (py_eq (PDict current_cache) (PDict (lp_manifest plan)))
            || negb (py_eq (PDict current_routed) (PDict (lp_routed_manifest plan)))) KTArtifactError
    "KT pretrained artifact provenance changed after model loading".

Definition invalidate_ready_manifest : M shelf unit :=
  entry ← gets (fun s => sf_out s !! KT_ADAPTER_MANIFEST_NAME);
  match entry with
  | None => mret tt
  | Some (File _) => _ ← remove_file Out KT_ADAPTER_MANIFEST_NAME; fsync
  | Some _ => raise KTArtifactError "existing KT adapter manifest must be a regular file"
  end.

(** [_write_json_atomic(manifest_path, payload)] *)
Definition temporary_manifest (rnd : string) : string := temp_json_name KT_ADAPTER_MANIFEST_NAME rnd.

Definition write_manifest_atomic (rnd : string) (payload : list (string * pyval)) : M shelf unit :=
  let tmp := temporary_manifest rnd in
  _ ← (fun s => match sf_out s !! tmp with
                | Some _ => (tick s, Err (Raise FileExistsError "no usable temporary file name"))
                | None => write_file Out tmp "" s
                end);
  on_exception
    (_ ← write_file Out tmp (json_dumps (sort_keys (PDict payload)) ++ String "010" "")%string;
     _ ← fsync;
     _ ← rename Out tmp KT_ADAPTER_MANIFEST_NAME;
     fsync)
    (remove_if_there Out tmp).

Definition artifact_records (d : dir) (c : contract) (produced : list string) : res (list (string * pyval)) :=
  config ← artifact_record d "adapter_config.json" None;
  for_each produced [("adapter_config.json", config)] (fun artifacts name =>
    record ← artifact_record d name (if String.eqb name FUSED_EXPERT_LORA_NAME then Some c else None);
    mret (dict_set name record artifacts)).

Definition manifest_payload (provenance artifacts : list (string * pyval)) : list (string * pyval) :=
  [("version", PInt KT_ADAPTER_MANIFEST_VERSION); ("status", PStr "ready")] ++ provenance
  ++ [("artifacts", PDict artifacts)].

(** [for entry in staging.iterdir(): ...] and the names, sorted. *)
Definition flush_staged : M shelf (list string) :=
  d ← gets sf_stage;
  _ ← for_M (elements (dom d)) (fun name =>
        _ ← lift (raise_if (bool_decide (regular d name = None)) KTArtifactError "unsafe staged adapter entry");
        fsync);
  mret (sorted_names (dom d)).

(** Filling the staging directory and moving its files into place: the names. *)
Definition publish_members (rnd : string) (ws : list moe_wrapper) (c : contract) (standard : string)
    : M shelf (list string) :=
  data ← gets_res (fun s => of_option (sf_out s !! standard ≫= content_of) FileNotFoundError standard);
  _ ← write_file Stage standard data;
  _ ← save_kt_moe_to_adapter Stage rnd ws;
  _ ← gets_res (fun s => validate_fused_file (sf_stage s) FUSED_EXPERT_LORA_NAME c);
  produced ← flush_staged;
  _ ← lift (raise_if (negb (bool_decide (FUSED_EXPERT_LORA_NAME ∈ produced))) KTArtifactError
              "staging did not produce the fused expert LoRA");
  _ ← for_M produced publish_file;
  _ ← fsync;
  mret produced.

Definition publish_bundle (rnd : string) (m : model) (ws : list moe_wrapper) (plan : option KTPretrainedLoadPlan)
    (c : contract) (standard : string) : M shelf KTAdapterManifest :=
  produced ← publish_members rnd ws c standard;
  artifacts ← gets_res (fun s => artifact_records (sf_out s) c produced);
  provenance ← lift (adapter_provenance t observe json_compact m plan);
  let payload := manifest_payload provenance artifacts in
  _ ← write_manifest_atomic rnd payload;
  mret {| am_payload := payload; am_artifact_names := sorted_names (list_to_set (fst <$> artifacts)) |}.

(** [shutil.rmtree(staging, ignore_errors=True)] *)
Definition drop_staging : M shelf unit := fun s => (set_dir Stage ∅ (tick s), Ok tt).

Definition save_kt_adapter_artifacts (rnd : string) (output_is_symlink : bool) (m : model)
    : M shelf (option KTAdapterManifest) :=
  c ← lift (fused_lora_contract m);
  _ ← lift (raise_if output_is_symlink KTArtifactError "adapter output must not be a symlink");
  _ ← invalidate_ready_manifest;
  let ws := find_kt_wrappers m ≫= fun i => option_list (m_wrappers m !! i) in
  match c with
  | [] => _ ← save_kt_moe_to_adapter Out rnd ws; mret None
  | _ =>
      out ← gets sf_out;
      let standard := List.filter (is_file out) STANDARD_ADAPTER_NAMES in
      _ ← lift (raise_if (bool_decide (regular out "adapter_config.json" = None)) KTArtifactError
                  "KT adapter save requires adapter_config.json");
      name ← lift (of_option (match standard with [name] => Some name | _ => None end) KTArtifactError
                     "KT adapter save requires exactly one standard adapter file");
      let plan := find_plan m in
      _ ← lift (match plan with Some p => check_plan_current p | None => mret tt end);
      _ ← operation (set_dir Stage ∅);
      manifest ← finallyM (publish_bundle rnd m ws plan c name) drop_staging;
      mret (Some manifest)
  end.

(** ** Validating *)

Definition read_manifest (d : dir) : res (list (string * pyval)) :=
  text ← of_option (regular d KT_ADAPTER_MANIFEST_NAME) KTArtifactError "must be a regular file";
  payload ← of_option (json_loads text) KTArtifactError "could not read";
  of_option (as_dict payload) KTArtifactError "must contain a JSON object".

Definition has_key (key : string) (d : list (string * pyval)) : bool :=
  match dict_get key d with Some _ => true | None => false end.

(** One artifact: its record is what the directory holds. *)
Definition check_artifact (d : dir) (name : string) (record : pyval) : res unit :=
  record ← of_option (if String.eqb name (basename name) then as_dict record else None) KTArtifactError
             "invalid artifact record";
  let size := match regular d name with Some data => PInt (FS.file_size data) | None => PNone end in
  _ ← raise_if (negb (py_eq (pget "size" record) size)) KTArtifactError "size mismatch";
  digest ← of_option (as_str (pget "sha256" record)) KTArtifactError "SHA256 mismatch";
  data ← of_option (d !! name ≫= content_of) FileNotFoundError name;
  raise_if (negb (String.eqb (sha256 data) digest)) KTArtifactError "SHA256 mismatch".

(** The precision that a manifest records; old manifests imply it. *)
Definition saved_format (payload : list (string * pyval)) : pyval :=
  let format := pget "expert_weight_format" payload in
  if is_none format && has_key "non_expert_cache" payload && has_key "int8_experts" payload then PStr "int8" else format.

Definition check_provenance (cwd : path) (payload expected : list (string * pyval)) : res unit :=
  let format := saved_format payload in
  _ ← raise_if (negb (py_eq format (pget "expert_weight_format" expected))) KTArtifactError
        "expert_weight_format does not match the runtime";
  _ ← (if py_eq format (PStr "rawint4")
       then validate_rawint4_base_identity json_compact t cwd (pget "base" payload) (pget "base" expected)
       else raise_if (negb (py_eq (pget "base" payload) (pget "base" expected))) KTArtifactError
              "base does not match the runtime");
  _ ← raise_if (negb (py_eq (pget "lora" payload) (pget "lora" expected))) KTArtifactError
        "lora does not match the runtime";
  for_each ["non_expert_cache"; "int8_experts"; "expert_quantization"] tt (fun _ field =>
    raise_if (negb (py_eq (pget field payload) (pget field expected))) KTArtifactError
      "does not match the runtime").

Definition check_fused_record (record : list (string * pyval)) (c : contract) : res unit :=
  raise_if (negb (py_eq (pget "tensor_count" record) (PInt (Z.of_nat (length c))))
            || negb (py_eq (pget "tensors" record) (contract_value c))) KTArtifactError
    "fused tensor contract does not match the runtime".

Definition validate_adapter_manifest (cwd : path) (m : model) (d : dir) : res KTAdapterManifest :=
  payload ← read_manifest d;
  _ ← raise_if (negb (py_eq (pget "version" payload) (PInt KT_ADAPTER_MANIFEST_VERSION))
                || negb (py_eq (pget "status" payload) (PStr "ready"))) KTArtifactError
        "expected version=1 and status='ready'";
  expected ← adapter_provenance t observe json_compact m (find_plan m);
  _ ← check_provenance cwd payload expected;
  artifacts ← of_option (as_dict (pget "artifacts" payload)) KTArtifactError "artifacts must include fused expert LoRA";
  _ ← raise_if (negb (has_key FUSED_EXPERT_LORA_NAME artifacts)) KTArtifactError
        "artifacts must include fused expert LoRA";
  let standard := List.filter (fun name => bool_decide (name ∈ STANDARD_ADAPTER_NAMES)) (fst <$> artifacts) in
  _ ← raise_if (negb (length standard =? 1)%nat || negb (has_key "adapter_config.json" artifacts)) KTArtifactError
        "invalid standard adapter inventory";
  _ ← for_each artifacts tt (fun _ '(name, record) => check_artifact d name record);
  c ← fused_lora_contract m;
  _ ← check_fused_record (default [] (as_dict (pget FUSED_EXPERT_LORA_NAME artifacts))) c;
  _ ← validate_fused_file d FUSED_EXPERT_LORA_NAME c;
  mret {| am_payload := payload; am_artifact_names := sorted_names (list_to_set (fst <$> artifacts)) |}.

(** ** Loading *)

(** Where each tensor of a file goes: a wrapper and the place in its list. *)
Abbreviation targets := (list (string * (Z * nat))).

Definition add_targets (ws : gmap Z moe_wrapper) (acc : targets * list pyval) (i : Z) : res (targets * list pyval) :=
  let '(expected, owned) := acc in
  match ws !! i with
  | None => mret acc
  | Some w =>
      match fused_of w with
      | [] => mret acc
      | fused =>
          _ ← raise_if (negb (length fused =? length FUSED_LORA_NAMES)%nat) RuntimeError
                "expected 6 fused expert LoRA parameters";
          _ ← raise_if (existsb (py_eq (mw_layer_idx w)) owned) RuntimeError
                "Duplicate owned fused expert LoRA layer";
          mret (fold_left (fun d '(k, name) => dict_set (fused_key (mw_layer_idx w) name) (i, k) d)
                  (imap pair FUSED_LORA_NAMES) expected, mw_layer_idx w :: owned)
      end
  end.

Definition target_tensor (ws : gmap Z moe_wrapper) (target : Z * nat) : option tensor :=
  w ← ws !! target.1; fused_of w !! target.2.

(** [param.data.copy_(saved[key])] and [_lora_pointers_dirty = True] *)
Definition copy_tensor (ws : gmap Z moe_wrapper) (target : Z * nat) (p : tensor) : gmap Z moe_wrapper :=
  alter (fun w => MoeWrapper (mw_layer_idx w) (mw_lora_rank w) (mw_lora_alpha w) (mw_use_fused_expert_lora w)
           (mw_fused_experts w) ((fun l => <[target.2 := p]> l) <$> mw_fused_params w) (mw_expert_num w)
           (mw_intermediate_size w) (mw_hidden_size w) (mw_weight_format w) (mw_rawint4_quantization w)
           (mw_lora_experts w) (mw_full_weight_grad w) true) target.1 ws.

Definition with_wrappers (ws : gmap Z moe_wrapper) (m : model) : model := Model (m_objects m) (m_root m) ws.

Definition check_target (ws : gmap Z moe_wrapper) (saved : list (string * tensor)) (key : string) (target : Z * nat)
    : res unit :=
  p ← of_option (dict_get key saved) KeyError key;
  param ← of_option (target_tensor ws target) IndexError "list index out of range";
  _ ← raise_if (negb (bool_decide (tn_shape p = tn_shape param))) RuntimeError "shape mismatch";
  raise_if (negb (String.eqb (tn_dtype p) (tn_dtype param))) RuntimeError "dtype mismatch".

Definition load_fused_expert_lora (d : dir) (ids : list Z) : M model Z :=
  ws ← gets m_wrappers;
  '(expected, _) ← lift (for_each ids ([], []) (add_targets ws));
  match expected with
  | [] => mret 0
  | _ =>
      data ← lift (of_option (d !! FUSED_EXPERT_LORA_NAME ≫= content_of) FileNotFoundError
                     "Missing fused_expert_lora.safetensors");
      saved ← lift (of_option (st_decode data) SafetensorError "Error while deserializing header");
      _ ← lift (raise_if (negb (bool_decide (list_to_set (fst <$> saved)
                                             =@{gset string} list_to_set (fst <$> expected)))) RuntimeError
                  "Invalid fused_expert_lora.safetensors key set");
      _ ← lift (for_each expected tt (fun _ '(key, target) => check_target ws saved key target));
      _ ← modify (with_wrappers (fold_left (fun ws '(key, target) =>
            match dict_get key saved with Some p => copy_tensor ws target p | None => ws end) expected ws));
      mret (Z.of_nat (length expected))
  end.

(** [kt_adapt_peft_lora(model)], [load_full_weight_checkpoint] and
    [load_lora_experts_from_adapter] on this model. *)
Context (kt_adapt_peft_lora load_full_weights load_lora_experts : M model unit).

Definition load_kt_moe_from_adapter (d : dir) : M model unit :=
  m ← get;
  let ids := find_kt_wrappers m in
  let ws := ids ≫= fun i => option_list (m_wrappers m !! i) in
  _ ← (if existsb mw_full_weight_grad ws then load_full_weights else mret tt);
  _ ← (if existsb (fun w => bool_decide (is_Some (mw_lora_experts w))) ws then load_lora_experts else mret tt);
  if has_fused_lora ws then _ ← load_fused_expert_lora d ids; mret tt else mret tt.

(** [adapts]: some wrapper has an engine of its own. *)
Definition load_kt_adapter_artifacts (cwd : path) (adapts : model -> bool) (d : dir)
    : M model (option KTAdapterManifest) :=
  m ← get;
  _ ← (if adapts m then kt_adapt_peft_lora else mret tt);
  m ← get;
  c ← lift (fused_lora_contract m);
  manifest ← (if exists_in d KT_ADAPTER_MANIFEST_NAME
              then manifest ← lift (validate_adapter_manifest cwd m d); mret (Some manifest)
              else _ ← lift (raise_if (match c with [] => false | _ => true end) KTArtifactError
                               "fused adapter is missing its manifest");
                   mret None);
  _ ← load_kt_moe_from_adapter d;
  mret manifest.
End files.
