(* ===== verification/AdapterSpec.v ===== *)
(** * The ready manifest is published last

    In every state that a save of an adapter goes through, whatever operation
    fails, the output directory is what it was, or has no ready manifest, or
    holds a complete bundle. *)
From S2P Require Import Prelude PyStr PyVal FS KTConfig Artifacts ArtifactsSpec RawInt4Identity PretrainedLoad ModelGraph Adapter AdapterFiles.
From Stdlib Require Import Ascii SpecFloat.

Local Open Scope string_scope.
Local Open Scope list_scope.
Local Open Scope Z_scope.

Abbreviation MANIFEST := KT_ADAPTER_MANIFEST_NAME.

(** ** The records and the provenance *)

Section records.
Context `{Platform} (t : fs) (observe : path → observation) (json_compact : pyval → string).

(** The text that a manifest's file holds. *)
Definition manifest_text (payload : list (string * pyval)) : string :=
  (json_dumps (sort_keys (PDict payload)) ++ String "010" "")%string.

(** A ready manifest whose artifacts are all there, as it records them; the
    fused tensors are those of the contract. *)
Record complete_bundle (d : dir) (c : contract) (payload : list (string * pyval)) : Prop := {
  cb_text : regular d MANIFEST = Some (manifest_text payload);
  cb_records : ∃ artifacts, dict_get "artifacts" payload = Some (PDict artifacts) ∧
    "adapter_config.json" ∈ fst <$> artifacts ∧ FUSED_EXPERT_LORA_NAME ∈ fst <$> artifacts ∧
    ∀ name record, (name, record) ∈ artifacts →
      artifact_record d name (if String.eqb name FUSED_EXPERT_LORA_NAME then Some c else None) = Ok record;
}.

Definition record_contract (c : contract) (name : string) : option contract :=
  if String.eqb name FUSED_EXPERT_LORA_NAME then Some c else None.

Lemma artifact_records_ok d c produced artifacts : artifact_records d c produced = Ok artifacts →
  "adapter_config.json" ∈ fst <$> artifacts ∧ (∀ name, name ∈ produced → name ∈ fst <$> artifacts) ∧
  ∀ name record, (name, record) ∈ artifacts → artifact_record d name (record_contract c name) = Ok record.
Proof.
  unfold artifact_records. intros Hx. inv_bind Hx as config Hconfig.
  eapply (for_each_inv (fun pre artifacts => "adapter_config.json" ∈ fst <$> artifacts ∧
    (∀ name, name ∈ pre → name ∈ fst <$> artifacts) ∧
    ∀ name record, (name, record) ∈ artifacts → artifact_record d name (record_contract c name) = Ok record)) in Hx;
    [exact Hx| |].
  - split; [by left|]. split; [by intros name ?%elem_of_nil|].
    intros name record [= -> ->]%list_elem_of_singleton. exact Hconfig.
  - intros pre name a b _ (H1 & H2 & H3) Hb. inv_bind Hb as record Hr. injection Hb as <-.
    destruct (dict_set_has name record a) as [Hk Hold]. split; [by apply Hold|]. split.
    + intros n [Hn| ->%list_elem_of_singleton]%elem_of_app; [by apply Hold, H2|done].
    + intros n rec [[= -> ->]|Hin]%elem_of_dict_set; [exact Hr|by apply H3].
Qed.

(** A record that is exact stays so when the manifest joins the directory. *)
Lemma artifact_record_mark d name c record text : d !! MANIFEST = None → artifact_record d name c = Ok record →
  artifact_record (<[MANIFEST := File text]> d) name c = Ok record.
Proof.
  intros Hd. unfold artifact_record, regular. destruct (decide (name = MANIFEST)) as [->|].
  - by rewrite Hd.
  - by rewrite lookup_insert_ne.
Qed.

Lemma payload_artifacts provenance artifacts : dict_get "artifacts" provenance = None →
  dict_get "artifacts" (manifest_payload provenance artifacts) = Some (PDict artifacts).
Proof. intros Hp. unfold manifest_payload. simpl. by rewrite dict_get_app, Hp. Qed.

Lemma marked_bundle d c produced artifacts provenance : d !! MANIFEST = None →
  artifact_records d c produced = Ok artifacts → FUSED_EXPERT_LORA_NAME ∈ produced →
  dict_get "artifacts" provenance = None →
  let payload := manifest_payload provenance artifacts in
  complete_bundle (<[MANIFEST := File (manifest_text payload)]> d) c payload.
Proof.
  intros Hd Ha Hf Hp payload. destruct (artifact_records_ok _ _ _ _ Ha) as (H1 & H2 & H3). split.
  - unfold regular. by rewrite lookup_insert_eq.
  - exists artifacts. split; [by apply payload_artifacts|]. split; [done|]. split; [by apply H2|].
    intros name record Hin. apply artifact_record_mark; [done|]. by apply H3.
Qed.

(** A plan whose routed fingerprint has no floats. *)
Definition plain_plan (plan : option KTPretrainedLoadPlan) : Prop :=
  ∀ p, plan = Some p → plain (pget "fingerprint" (lp_routed_manifest p)) = true.

Lemma single_alpha_self ws alpha : single_alpha ws = Ok alpha → SFeqb alpha alpha = true.
Proof.
  unfold single_alpha. cbv zeta. intros Hx. inv_guard Hx as H1. destruct (_ <$> ws) as [|v others]; [done|].
  destruct (negb _) in Hx; [done|]. inv_bind Hx as f Hf. destruct f as [| | |[] mant e]; try done. injection Hx as <-.
  unfold SFeqb. simpl. by rewrite Z.compare_refl, Pos.compare_cont_refl.
Qed.

Lemma plan_fields_form p fp fields : plan_fields t p = Ok (fp, fields) →
  (fst <$> fields) = ["non_expert_cache"; "int8_experts"] ∧
  (plain (pget "fingerprint" (lp_routed_manifest p)) = true → Forall (fun kv => plain kv.2 = true) fields).
Proof.
  intros Hp. unfold plan_fields in Hp. inv_bind Hp as source Hs. inv_bind Hp as f1 Hf1. inv_bind Hp as f2 Hf2.
  inv_bind Hp as f3 Hf3. injection Hp as _ <-. split; [done|]. intros Hpl.
  constructor; [done|]. constructor; [|constructor]. cbn [snd]. revert Hpl.
  generalize (pget "fingerprint" (lp_routed_manifest p)). intros v Hv.
  destruct (truthy v); cbn [plain forallb snd]; by rewrite ?Hv.
Qed.

(** The form of a provenance. *)
Lemma adapter_provenance_form m plan provenance :
  adapter_provenance t observe json_compact m plan = Ok provenance →
  ∃ format base rank alpha more,
    provenance = [("expert_weight_format", PStr format); ("base", base);
                  ("lora", PDict [("rank", PInt rank); ("alpha", PFloat alpha)])] ++ more ∧
    (∀ k, k ∈ fst <$> more → k ∈ ["expert_quantization"; "non_expert_cache"; "int8_experts"]) ∧
    (plain_plan plan → Forall (fun kv => plain kv.2 = true) more) ∧ SFeqb alpha alpha = true ∧
    (if String.eqb format "rawint4" then ∃ name, rawint4_base_identity json_compact t observe name = Ok base
     else plain base = true).
Proof.
  unfold adapter_provenance. cbv zeta. intros Hx. inv_bind Hx as rank Hrank. inv_bind Hx as alpha Halpha.
  inv_guard Hx as H1. inv_guard Hx as H2. inv_bind Hx as format Hformat. inv_guard Hx as H3.
  inv_bind Hx as name Hname. inv_bind Hx as [base q] Hbase. inv_bind Hx as [base' fields] Hfields. injection Hx as <-.
  exists format, base', rank, alpha, (q ++ fields). split; [done|].
  assert ((fst <$> q) ⊆ ["expert_quantization"] ∧ Forall (fun kv => plain kv.2 = true) q ∧
          if String.eqb format "rawint4" then ∃ name, rawint4_base_identity json_compact t observe name = Ok base
          else base = PDict [("model_name_or_path", opt_str name)]) as (Hq1 & Hq2 & Hb).
  { destruct (String.eqb format "rawint4").
    - inv_bind Hbase as q' Hq. inv_bind Hbase as bn Hbn. inv_bind Hbase as b Hb. injection Hbase as <- <-.
      unfold runtime_rawint4_quantization in Hq. cbv zeta in Hq. inv_guard Hq as Hq1. inv_bind Hq as u Hu. injection Hq as <-.
      split_and!; [done|by constructor|by exists bn].
    - injection Hbase as <- <-. split_and!; [set_solver|constructor|done]. }
  assert ((fst <$> fields) ⊆ ["non_expert_cache"; "int8_experts"] ∧
          (plain_plan plan → Forall (fun kv => plain kv.2 = true) fields) ∧
          if String.eqb format "rawint4" then base' = base else plain base' = true) as (Hf1 & Hf2 & Hb').
  { destruct plan as [p|].
    - inv_bind Hfields as [fp fs'] Hp. injection Hfields as <- <-. apply plan_fields_form in Hp as [Ek Hpl].
      split_and!; [by rewrite Ek|intros Hpp; by apply Hpl, Hpp|]. simpl in H3.
      apply negb_false_iff, String.eqb_eq in H3 as ->. simpl in Hb |- *. rewrite Hb. simpl. by destruct name.
    - injection Hfields as <- <-. split_and!; [set_solver|constructor|]. destruct (String.eqb format "rawint4"); [done|].
      rewrite Hb. simpl. by destruct name. }
  split_and!.
  - intros k Hk. rewrite fmap_app in Hk. set_solver.
  - intros Hpp. apply Forall_app. split; [done|by apply Hf2].
  - by eapply single_alpha_self.
  - destruct (String.eqb format "rawint4"); [by rewrite Hb'|done].
Qed.

Lemma provenance_without k m plan provenance : adapter_provenance t observe json_compact m plan = Ok provenance →
  k ∉ ["expert_weight_format"; "base"; "lora"; "expert_quantization"; "non_expert_cache"; "int8_experts"] →
  dict_get k provenance = None.
Proof.
  intros (format & base & rank & alpha & more & -> & Hmore & _)%adapter_provenance_form Hk. apply dict_get_None.
  rewrite fmap_app. intros [Hin|Hin%Hmore]%elem_of_app; set_solver.
Qed.

End records.

(** ** The manifest *)

Section manifest.
Context `{Platform} (io : nat → io_outcome).

(** What a write of the manifest leaves, from a directory [d] without one. *)
Definition marked_last (d d' : dir) (payload : list (string * pyval)) : Prop :=
  d' !! MANIFEST = None ∨ d' = <[MANIFEST := File (manifest_text payload)]> d.

Section write_manifest.
Context (d : dir) (s0 : shelf) (tmp : string) (payload : list (string * pyval)).
Context (Hd : d !! MANIFEST = None) (Htmp : d !! tmp = None) (Hne : tmp ≠ MANIFEST).

(** While it is written, the manifest is not there, and but for the temporary
    file the directory is as before. *)
Record writing (s : shelf) : Prop := {
  wr_stage : sf_stage s = sf_stage s0;
  wr_past : ∃ l, sf_past s = sf_past s0 ++ l ∧ Forall (fun d' => marked_last d d' payload) l;
  wr_out : delete tmp (sf_out s) = d;
}.
Record renamed (s : shelf) : Prop := {
  rn_stage : sf_stage s = sf_stage s0;
  rn_past : ∃ l, sf_past s = sf_past s0 ++ l ∧ Forall (fun d' => marked_last d d' payload) l;
  rn_out : sf_out s = <[MANIFEST := File (manifest_text payload)]> d;
}.

Lemma writing_unmarked s : writing s → sf_out s !! MANIFEST = None.
Proof. intros [_ _ Ho]. rewrite <- Ho in Hd. by rewrite lookup_delete_ne in Hd. Qed.

Lemma writing_past s : writing s → ∃ l, sf_past s ++ [sf_out s] = sf_past s0 ++ l ∧
  Forall (fun d' => marked_last d d' payload) l.
Proof.
  intros Hs. destruct (wr_past _ Hs) as (l & Hp & Hl). exists (l ++ [sf_out s]). split; [by rewrite Hp, app_assoc|].
  apply Forall_app. split; [done|]. constructor; [left; by apply writing_unmarked|constructor].
Qed.

Lemma writing_tick s : writing s → writing (tick s).
Proof. by intros [? ? ?]. Qed.

Lemma writing_set s o : writing s → delete tmp o = d → writing (set_dir Out o s).
Proof. intros Hs Ho. split; [apply Hs|by apply writing_past|exact Ho]. Qed.

Lemma writing_write data s s' r : writing s → (∀ e, sf_out s !! tmp = Some e → ∃ x, e = File x) →
  write_file io Out tmp data s = (s', r) →
  writing s' ∧ (r = Ok tt → sf_out s' !! tmp = Some (File data)) ∧ (∀ e, sf_out s' !! tmp = Some e → ∃ x, e = File x).
Proof.
  intros Hs Hf. unfold write_file, put. simpl.
  assert (written (sf_out s !! tmp) data = File data ∧ ∀ x, written (sf_out s !! tmp) x = File x) as [Ew Ew'].
  { destruct (sf_out s !! tmp) as [e|] eqn:Ee; [|done]. by destruct (Hf _ eq_refl) as [x ->]. }
  assert (∀ x, writing (set_dir Out (<[tmp := File x]> (sf_out s)) (tick s))) as Hput.
  { intros x. apply writing_set; [by apply writing_tick|]. rewrite delete_insert_eq. apply Hs. }
  destruct (sf_out s !! tmp) as [[]|] eqn:Ee, (io (sf_clock s)); rewrite ?Ew, ?Ew'; intros Hx;
    injection Hx as <- <-; simpl; rewrite ?lookup_insert_eq;
    (split; [first [apply Hput|by apply writing_tick]|]); (split; [done|]); try (by eauto); naive_solver.
Qed.

Lemma writing_fsync s s' r : writing s → fsync io s = (s', r) → writing s' ∧ sf_out s' = sf_out s.
Proof.
  intros Hs. unfold fsync, operation. destruct (io _); intros Hx; injection Hx as <- _; (split; [by apply writing_tick|done]).
Qed.

Lemma renamed_fsync s s' r : renamed s → fsync io s = (s', r) → renamed s'.
Proof. intros [? ? ?]. unfold fsync, operation. destruct (io _); intros Hx; by injection Hx as <- _. Qed.

Lemma writing_rename s s' r : writing s → sf_out s !! tmp = Some (File (manifest_text payload)) →
  rename io Out tmp MANIFEST s = (s', r) → (r = Ok tt ∧ renamed s') ∨ (writing s' ∧ ∃ e, r = Err e).
Proof.
  intros Hs Ht. unfold rename, operation. simpl. rewrite Ht, (writing_unmarked _ Hs).
  destruct (io _); intros Hx; injection Hx as <- <-; [left|right; split; [by apply writing_tick|by eexists]..].
  split; [done|]. split; simpl; [apply Hs|by apply writing_past|]. by rewrite (wr_out _ Hs).
Qed.

Lemma writing_remove s s' r : writing s → remove_if_there io Out tmp s = (s', r) → writing s'.
Proof.
  intros Hs. unfold remove_if_there, catchM, remove_file, operation. simpl.
  assert (writing (set_dir Out (delete tmp (sf_out (tick s))) (tick s))) as Hdel.
  { apply writing_set; [by apply writing_tick|]. rewrite delete_delete_eq. apply Hs. }
  destruct (sf_out s !! tmp) as [[]|]; [destruct (io (sf_clock s))..|]; simpl;
    intros Hx; injection Hx as <- _; first [apply Hdel|by apply writing_tick].
Qed.

Lemma renamed_remove s s' r : renamed s → remove_if_there io Out tmp s = (s', r) → renamed s'.
Proof.
  intros Hs. unfold remove_if_there, catchM, remove_file. simpl.
  rewrite (rn_out _ Hs), lookup_insert_ne, Htmp by done. simpl. intros Hx. injection Hx as <- _. by destruct Hs.
Qed.

(** The body and its handler, once the temporary file is there. *)
Lemma writing_body s s' r : writing s → (∀ e, sf_out s !! tmp = Some e → ∃ x, e = File x) →
  on_exception (_ ← write_file io Out tmp (manifest_text payload); _ ← fsync io;
                _ ← rename io Out tmp MANIFEST; fsync io) (remove_if_there io Out tmp) s = (s', r) →
  (writing s' ∨ renamed s') ∧ (r = Ok tt → renamed s').
Proof.
  intros Hs Hf. unfold on_exception.
  match goal with |- context[match ?m s with _ => _ end] => destruct (m s) as [s1 r1] eqn:E end.
  assert ((writing s1 ∧ ∃ e, r1 = Err e) ∨ renamed s1) as H1.
  { apply bindM_inv in E as [(s2 & [] & E2 & E)|(e & E & ->)].
    2: { left. split; [by destruct (writing_write _ _ _ _ Hs Hf E)|by eexists]. }
    destruct (writing_write _ _ _ _ Hs Hf E2) as (Hs2 & Ht & _). specialize (Ht eq_refl).
    apply bindM_inv in E as [(s3 & [] & E3 & E)|(e & E & ->)].
    2: { left. split; [by destruct (writing_fsync _ _ _ Hs2 E)|by eexists]. }
    destruct (writing_fsync _ _ _ Hs2 E3) as [Hs3 Eo]. rewrite <- Eo in Ht.
    apply bindM_inv in E as [(s4 & [] & E4 & E)|(e & E & ->)].
    2: { destruct (writing_rename _ _ _ Hs3 Ht E) as [[? _]|[? _]]; [done|]. left. split; [done|by eexists]. }
    destruct (writing_rename _ _ _ Hs3 Ht E4) as [[_ Hs4]|[_ [e ?]]]; [|done]. right. by eapply renamed_fsync. }
  destruct r1 as [[]|e].
  - intros Hx. injection Hx as <- <-. destruct H1 as [[_ [e ?]]|H1]; [done|]. split; [by right|done].
  - destruct (remove_if_there _ _ _ _) as [s2 [[]|e2]] eqn:E2; intros Hx; injection Hx as <- <-;
      (split; [|done]); (destruct H1 as [[H1 _]|H1]; [left; by eapply writing_remove|right; by eapply renamed_remove]).
Qed.
End write_manifest.

Lemma write_manifest_run rnd payload s s' r :
  write_manifest_atomic io rnd payload s = (s', r) → sf_out s !! MANIFEST = None →
  sf_stage s' = sf_stage s ∧ marked_last (sf_out s) (sf_out s') payload ∧
  (∃ l, sf_past s' = sf_past s ++ l ∧ Forall (fun d => marked_last (sf_out s) d payload) l) ∧
  (r = Ok tt → sf_out s' = <[MANIFEST := File (manifest_text payload)]> (sf_out s)).
Proof.
  intros Hx Hm. unfold write_manifest_atomic in Hx. set (tmp := temporary_manifest rnd) in *.
  assert (tmp ≠ MANIFEST) as Hne by (by intros [=]).
  assert (∀ d, writing (sf_out s) s tmp payload d ∨ renamed (sf_out s) s payload d →
    sf_stage d = sf_stage s ∧ marked_last (sf_out s) (sf_out d) payload ∧
    ∃ l, sf_past d = sf_past s ++ l ∧ Forall (fun d => marked_last (sf_out s) d payload) l) as Hend.
  { intros d [Hd|Hd]; (split; [apply Hd|]); (split; [|apply Hd]).
    - left. by eapply writing_unmarked.
    - right. apply Hd. }
  destruct (sf_out s !! tmp) as [e|] eqn:Et.
  - apply bindM_inv in Hx as [(s1 & a & E & _)|(e' & E & ->)]; rewrite Et in E; [done|]. injection E as <- _.
    split; [done|]. split; [by left|]. split; [|done]. exists []. split; [by rewrite app_nil_r|constructor].
  - assert (writing (sf_out s) s tmp payload s) as H0.
    { split; [done|exists []; split; [by rewrite app_nil_r|constructor]|by rewrite delete_id]. }
    assert (∀ e, sf_out s !! tmp = Some e → ∃ x, e = File x) as Hf by congruence.
    apply bindM_inv in Hx as [(s1 & a & E & Hx)|(e' & E & ->)]; rewrite Et in E;
      destruct (writing_write _ _ _ _ Hm Hne _ _ _ _ H0 Hf E) as (H1 & _ & Hf1).
    + destruct (writing_body _ _ _ _ Hm Et Hne _ _ _ H1 Hf1 Hx) as [H2 H3].
      destruct (Hend _ H2) as (? & ? & ?). split_and!; try done. intros Hr. apply H3 in Hr. apply Hr.
    + destruct (Hend _ (or_introl H1)) as (? & ? & ?). by split_and!.
Qed.
End manifest.

Section saving.
Context `{Platform}.
Context (io : nat → io_outcome).
Context (st_encode : list (string * tensor) → string) (st_decode : string → option (list (string * tensor)))
  (st_dtype : string → string) (torch_load : string → option (list (string * tensor))).
Context (save_full_weights : place → list moe_wrapper → M shelf unit).
Context (t : fs) (observe : path → observation) (json_compact : pyval → string).

Abbreviation save := (save_kt_adapter_artifacts io st_encode st_decode st_dtype torch_load save_full_weights t observe json_compact).

(** The full-weight checkpoint is written under names of its own. *)
Definition leaves_manifest (save_full_weights : place → list moe_wrapper → M shelf unit) : Prop :=
  ∀ pl ws s s' r, save_full_weights pl ws s = (s', r) →
    sf_out s' !! MANIFEST = sf_out s !! MANIFEST ∧ sf_stage s' !! MANIFEST = sf_stage s !! MANIFEST ∧
    ∃ l, sf_past s' = sf_past s ++ l ∧ Forall (fun d => d !! MANIFEST = sf_out s !! MANIFEST) l.

(** ** Elementary steps *)

Section without_manifest.
Context (good : dir → Prop) (past : list dir).

(** A state without a ready manifest, after states that are all good. *)
Record unmarked (s : shelf) : Prop := {
  um_past : ∃ l, sf_past s = past ++ l ∧ Forall good l;
  um_out : sf_out s !! MANIFEST = None;
  um_stage : sf_stage s !! MANIFEST = None;
}.
Context (good_none : ∀ d, d !! MANIFEST = None → good d).

Lemma unmarked_tick s : unmarked s → unmarked (tick s).
Proof. by intros [? ? ?]. Qed.

Lemma unmarked_set pl d s : unmarked s → d !! MANIFEST = None → unmarked (set_dir pl d s).
Proof.
  intros [(l & Hp & Hl) Ho Hs] Hd. destruct pl; split; simpl; try done; [|by exists l].
  exists (l ++ [sf_out s]). split; [by rewrite Hp, app_assoc|]. apply Forall_app. split; [done|].
  constructor; [by apply good_none|constructor].
Qed.

Lemma unmarked_dir pl s : unmarked s → dir_of pl s !! MANIFEST = None.
Proof. by intros [? ? ?]; destruct pl. Qed.

Lemma keeps_operation change : (∀ s, unmarked s → unmarked (change s)) → keeps unmarked (operation io change).
Proof.
  intros Hc s s' r Hs. unfold operation.
  destruct (io _); intros Hx; injection Hx as <- _; [apply Hc|..]; by apply unmarked_tick.
Qed.

Lemma keeps_write_file pl name data : name ≠ MANIFEST → keeps unmarked (write_file io pl name data).
Proof.
  intros Hn s s' r Hs. unfold write_file, put.
  assert (∀ e, unmarked (set_dir pl (<[name := e]> (dir_of pl (tick s))) (tick s))) as Hput.
  { intros e. apply unmarked_set; [by apply unmarked_tick|]. rewrite lookup_insert_ne by done.
    by apply unmarked_dir, unmarked_tick. }
  destruct (dir_of pl s !! name) as [[]|], (io (sf_clock s)); intros Hx; injection Hx as <- _;
    first [apply Hput|by apply unmarked_tick].
Qed.

Lemma keeps_remove_file pl name : keeps unmarked (remove_file io pl name).
Proof.
  intros s s' r Hs. unfold remove_file.
  destruct (dir_of pl s !! name) as [[]|]; try (by intros Hx; injection Hx as <- _; apply unmarked_tick);
    eapply (keeps_operation _); try exact Hs; intros s1 Hs1; (apply unmarked_set; [done|]);
    destruct (decide (name = MANIFEST)) as [->|]; rewrite ?lookup_delete_eq, ?lookup_delete_ne by done; try done;
    by apply unmarked_dir.
Qed.

Lemma keeps_remove_if_there pl name : keeps unmarked (remove_if_there io pl name).
Proof. unfold remove_if_there. keeps. apply keeps_remove_file. Qed.

Lemma keeps_rename pl src dst : dst ≠ MANIFEST → keeps unmarked (rename io pl src dst).
Proof.
  intros Hn s s' r Hs. unfold rename.
  destruct (dir_of pl s !! src) as [e|]; [|by intros Hx; injection Hx as <- _; apply unmarked_tick].
  assert (keeps unmarked (operation io (fun s => set_dir pl (<[dst := e]> (delete src (dir_of pl s))) s))) as Hk.
  { apply keeps_operation. intros s1 Hs1. apply unmarked_set; [done|]. rewrite lookup_insert_ne by done.
    apply lookup_delete_None. right. by apply unmarked_dir. }
  destruct (dir_of pl s !! dst) as [[]|]; try (by eapply Hk). by intros Hx; injection Hx as <- _; apply unmarked_tick.
Qed.

Lemma keeps_publish_file name : keeps unmarked (publish_file io name).
Proof.
  intros s s' r Hs. unfold publish_file.
  destruct (sf_stage s !! name) as [e|] eqn:Ee; [|by intros Hx; injection Hx as <- _; apply unmarked_tick].
  assert (name ≠ MANIFEST) as Hn by (intros ->; pose proof (um_stage _ Hs); congruence).
  assert (keeps unmarked (operation io (fun s => put Out name e (set_dir Stage (delete name (sf_stage s)) s)))) as Hk.
  { apply keeps_operation. intros s1 Hs1. unfold put.
    assert (unmarked (set_dir Stage (delete name (sf_stage s1)) s1)) as Hs2.
    { apply unmarked_set; [done|]. apply lookup_delete_None. right. apply Hs1. }
    apply unmarked_set; [done|]. rewrite lookup_insert_ne by done. apply Hs1. }
  destruct (sf_out s !! name) as [[]|]; try (by eapply Hk). by intros Hx; injection Hx as <- _; apply unmarked_tick.
Qed.

Lemma keeps_fsync : keeps unmarked (fsync io).
Proof. by apply keeps_operation. Qed.

Lemma keeps_finally {A} (m : M shelf A) h : keeps unmarked m → keeps unmarked h → keeps unmarked (finallyM m h).
Proof.
  intros Hm Hh s s' r Hs. unfold finallyM. destruct (m s) as [s1 r1] eqn:E.
  assert (unmarked s1) as H1 by by eapply Hm.
  destruct (h s1) as [s2 [u|e]] eqn:Eh; intros Hx; injection Hx as <- _; by eapply Hh.
Qed.

(** ** The members of the bundle *)

Lemma keeps_temporary pl name : name ≠ MANIFEST →
  keeps unmarked (fun s => match dir_of pl s !! name with
                           | Some _ => (tick s, Err (Raise FileExistsError "no usable temporary file name"))
                           | None => write_file io pl name "" s
                           end).
Proof.
  intros Hn s s' r Hs. destruct (dir_of pl s !! name).
  - intros Hx. injection Hx as <- _. by apply unmarked_tick.
  - by apply keeps_write_file.
Qed.

Lemma keeps_save_fused pl rnd ws : keeps unmarked (save_fused_expert_lora io st_encode pl rnd ws).
Proof.
  unfold save_fused_expert_lora. destruct (fused_tensors ws); [apply keeps_ret|].
  apply keeps_bind; [by apply keeps_temporary|]. intros _. apply keeps_finally; [|apply keeps_remove_if_there].
  apply keeps_bind; [by apply keeps_write_file|]. intros _. by apply keeps_rename.
Qed.

Context (quiet : leaves_manifest save_full_weights).

Lemma keeps_full pl ws : keeps unmarked (save_full_weights pl ws).
Proof.
  intros s s' r [(l & Hp & Hl) Ho Hs] Hx. destruct (quiet _ _ _ _ _ Hx) as (Ho' & Hs' & l' & Hp' & Hl').
  split; [|by rewrite Ho'|by rewrite Hs']. exists (l ++ l'). split; [by rewrite Hp', Hp, app_assoc|].
  apply Forall_app. split; [done|]. eapply Forall_impl; [exact Hl'|]. intros d Hd. apply good_none. by rewrite Hd.
Qed.

Lemma keeps_save_kt_moe pl rnd ws :
  keeps unmarked (save_kt_moe_to_adapter io st_encode st_decode torch_load save_full_weights pl rnd ws).
Proof.
  unfold save_kt_moe_to_adapter. destruct ws as [|w ws]; [apply keeps_ret|].
  apply keeps_bind; [destruct (existsb _ _); [apply keeps_full|apply keeps_ret]|]. intros _.
  apply keeps_bind; [|intros _; destruct (has_fused_lora _); [apply keeps_save_fused|apply keeps_ret]].
  destruct (existsb _ _); [|apply keeps_ret]. unfold save_lora_experts_to_adapter.
  apply keeps_bind; [apply keeps_gets_res|]. intros sd. by apply keeps_write_file.
Qed.

Lemma keeps_flush : keeps unmarked (flush_staged io).
Proof.
  unfold flush_staged. apply keeps_bind; [apply keeps_read|]. intros d. apply keeps_bind; [|intros _; apply keeps_ret].
  apply keeps_for_M. intros name _. apply keeps_bind; [apply keeps_lift|]. intros _. apply keeps_fsync.
Qed.

Lemma standard_not_manifest name : name ∈ STANDARD_ADAPTER_NAMES → name ≠ MANIFEST.
Proof. intros Hn ->. by apply elem_of_cons in Hn as [?|[?|?%elem_of_nil]%elem_of_cons]. Qed.

Lemma keeps_publish_members rnd ws c standard : standard ∈ STANDARD_ADAPTER_NAMES →
  keeps unmarked (publish_members io st_encode st_decode st_dtype torch_load save_full_weights rnd ws c standard).
Proof.
  intros Hst. unfold publish_members. apply keeps_bind; [apply keeps_gets_res|]. intros data.
  apply keeps_bind; [by apply keeps_write_file, standard_not_manifest|]. intros _.
  apply keeps_bind; [apply keeps_save_kt_moe|]. intros _. apply keeps_bind; [apply keeps_gets_res|]. intros _.
  apply keeps_bind; [apply keeps_flush|]. intros produced. apply keeps_bind; [apply keeps_lift|]. intros _.
  apply keeps_bind; [apply keeps_for_M; intros; apply keeps_publish_file|]. intros _.
  apply keeps_bind; [apply keeps_fsync|]. intros _. apply keeps_ret.
Qed.
End without_manifest.

(** ** The members *)

Lemma publish_members_ok rnd ws c standard s s' produced :
  publish_members io st_encode st_decode st_dtype torch_load save_full_weights rnd ws c standard s = (s', Ok produced) →
  FUSED_EXPERT_LORA_NAME ∈ produced.
Proof.
  unfold publish_members. intros (s1 & data & _ & Hx)%bindM_ok. apply bindM_ok in Hx as (s2 & [] & _ & Hx).
  apply bindM_ok in Hx as (s3 & [] & _ & Hx). apply bindM_ok in Hx as (s4 & [] & _ & Hx).
  apply bindM_ok in Hx as (s5 & names & _ & Hx). rewrite bindM_lift in Hx.
  destruct (bool_decide _) eqn:Eb in Hx; simpl in Hx; [|done]. apply bool_decide_eq_true in Eb.
  apply bindM_ok in Hx as (s6 & [] & _ & Hx). apply bindM_ok in Hx as (s7 & [] & _ & Hx). by injection Hx as _ <-.
Qed.

(** ** The save *)

Section save.
Context (quiet : leaves_manifest save_full_weights) (rnd : string) (m : model) (s0 : shelf).

(** What the output directory may be: as before, without a manifest, complete. *)
Definition good (d : dir) : Prop :=
  d = sf_out s0 ∨ d !! MANIFEST = None ∨
  ∃ c payload, fused_lora_contract m = Ok c ∧ complete_bundle d c payload.

Lemma good_none d : d !! MANIFEST = None → good d.
Proof. intros Hd. right. by left. Qed.

(** All states up to this one are good. *)
Definition all_good (s : shelf) : Prop :=
  (∃ l, sf_past s = sf_past s0 ++ l ∧ Forall good l) ∧ good (sf_out s).

Lemma unmarked_good s : unmarked good (sf_past s0) s → all_good s.
Proof. intros [Hp Ho _]. split; [done|]. by apply good_none. Qed.

Lemma all_good_start : all_good s0.
Proof. split; [exists []; split; [by rewrite app_nil_r|constructor]|by left]. Qed.

Lemma invalidate_run s1 r : sf_stage s0 = ∅ → invalidate_ready_manifest io s0 = (s1, r) →
  all_good s1 ∧ (r = Ok tt → unmarked good (sf_past s0) s1).
Proof.
  intros Hst. unfold invalidate_ready_manifest. rewrite bindM_gets.
  assert (sf_stage s0 !! MANIFEST = None) as Hs by by rewrite Hst.
  assert (∀ s, sf_out s = sf_out s0 → sf_past s = sf_past s0 → all_good s) as Hsame.
  { intros s Ho Hp. split; [exists []; split; [by rewrite Hp, app_nil_r|constructor]|by left]. }
  destruct (sf_out s0 !! MANIFEST) as [e|] eqn:Ee.
  - destruct e as [data|l|]; [|by intros Hx; injection Hx as <- <-; split; [apply all_good_start|done]..].
    intros Hx. assert (unmarked good (sf_past s0) (set_dir Out (delete MANIFEST (sf_out (tick s0))) (tick s0))) as Hdel.
    { split; simpl; [|by rewrite lookup_delete_eq|done].
      exists [sf_out s0]. split; [done|]. constructor; [by left|constructor]. }
    apply bindM_inv in Hx as [(s2 & [] & E & Hx)|(e & E & ->)]; unfold remove_file in E; simpl in E; rewrite Ee in E;
      unfold operation in E; destruct (io (sf_clock s0)); try done; injection E as <-; try (by split; [apply Hsame|]).
    assert (unmarked good (sf_past s0) s1) as H1 by by eapply (keeps_fsync good).
    split; [by apply unmarked_good|done].
  - intros Hx. injection Hx as <- <-. split; [apply all_good_start|]. intros _. split; [|done|done].
    exists []. split; [by rewrite app_nil_r|constructor].
Qed.

Lemma publish_bundle_run ws c standard s1 s' r :
  standard ∈ STANDARD_ADAPTER_NAMES → fused_lora_contract m = Ok c → unmarked good (sf_past s0) s1 →
  publish_bundle io st_encode st_decode st_dtype torch_load save_full_weights t observe json_compact
    rnd m ws (find_plan m) c standard s1 = (s', r) →
  all_good s' ∧ (∀ mf, r = Ok mf → complete_bundle (sf_out s') c (am_payload mf)).
Proof.
  intros Hst Hc Hs1. unfold publish_bundle. intros [(s2 & produced & E & Hx)|(e & E & ->)]%bindM_inv.
  2: { split; [|done]. apply unmarked_good. eapply (keeps_publish_members good); [apply good_none|done|done|exact Hs1|exact E]. }
  assert (unmarked good (sf_past s0) s2) as Hs2
    by (eapply (keeps_publish_members good); [apply good_none|done|done|exact Hs1|exact E]).
  apply publish_members_ok in E as Hfused.
  rewrite bindM_gets_res in Hx. destruct (artifact_records (sf_out s2) c produced) as [artifacts|e] eqn:Ea;
    [|injection Hx as <- <-; split; [by apply unmarked_good|done]].
  rewrite bindM_lift in Hx. destruct (adapter_provenance _ _ _ _ _) as [provenance|e] eqn:Ep;
    [|injection Hx as <- <-; split; [by apply unmarked_good|done]].
  cbv zeta in Hx. set (payload := manifest_payload provenance artifacts) in *.
  assert (complete_bundle (<[MANIFEST := File (manifest_text payload)]> (sf_out s2)) c payload) as Hcb.
  { apply (marked_bundle _ _ produced); [apply Hs2|done|done|]. eapply provenance_without; [exact Ep|set_solver]. }
  assert (∀ d, marked_last (sf_out s2) d payload → good d) as Hgood.
  { intros d [Hd| ->]; [by apply good_none|]. right. right. by exists c, payload. }
  assert (∀ s3 r3, write_manifest_atomic io rnd payload s2 = (s3, r3) → all_good s3) as Hall.
  { intros s3 r3 Hw. destruct (write_manifest_run _ _ _ _ _ _ Hw (um_out _ _ _ Hs2)) as (_ & Hm & (l & Hp & Hl) & _).
    split; [|by apply Hgood]. destruct (um_past _ _ _ Hs2) as (l0 & Hp0 & Hl0). exists (l0 ++ l).
    split; [by rewrite Hp, Hp0, app_assoc|]. apply Forall_app. split; [done|]. by eapply Forall_impl. }
  apply bindM_inv in Hx as [(s3 & [] & Ew & Hx)|(e & Ew & ->)]; [|by split; [by eapply Hall|]].
  injection Hx as <- <-. split; [by eapply Hall|]. intros mf Hmf. injection Hmf as <-. simpl.
  destruct (write_manifest_run _ _ _ _ _ _ Ew (um_out _ _ _ Hs2)) as (_ & _ & _ & Hok). by rewrite (Hok eq_refl).
Qed.

(** [finally: shutil.rmtree(staging)] leaves the output directory. *)
Lemma drop_staging_run {A} (body : M shelf A) s s' r : finallyM body drop_staging s = (s', r) →
  ∃ s1, body s = (s1, r) ∧ sf_out s' = sf_out s1 ∧ sf_past s' = sf_past s1.
Proof.
  unfold finallyM. destruct (body s) as [s1 r1]. simpl. intros Hx. injection Hx as <- <-. by exists s1.
Qed.

Lemma all_good_same s s' : sf_out s' = sf_out s → sf_past s' = sf_past s → all_good s → all_good s'.
Proof. unfold all_good. by intros -> ->. Qed.

Lemma standard_name out name : List.filter (is_file out) STANDARD_ADAPTER_NAMES = [name] → name ∈ STANDARD_ADAPTER_NAMES.
Proof.
  intros E. assert (name ∈ List.filter (is_file out) STANDARD_ADAPTER_NAMES) as Hin by (rewrite E; by left).
  by apply list_elem_of_In, filter_In in Hin as [?%list_elem_of_In _].
Qed.

(** What a save returns. *)
Definition returned (s' : shelf) (r : res (option KTAdapterManifest)) : Prop :=
  match r with
  | Ok (Some mf) => ∃ c, fused_lora_contract m = Ok c ∧ complete_bundle (sf_out s') c (am_payload mf)
  | Ok None => fused_lora_contract m = Ok [] ∧ sf_out s' !! MANIFEST = None
  | Err _ => True
  end.

(** C27. The ready manifest of an adapter is published last.  Whatever file
    operation of a save fails, in every state that the output directory goes
    through it is as it was before the save, or has no ready manifest, or has one
    whose every artifact is there with the recorded size, digest and tensors.
    A save that returns a manifest leaves such a bundle; one without fused
    tensors leaves no ready manifest. *)
Theorem ready_manifest_is_last link s' r : sf_stage s0 = ∅ → save rnd link m s0 = (s', r) →
  (∃ l, sf_past s' = sf_past s0 ++ l ∧ Forall good l) ∧ good (sf_out s') ∧ returned s' r.
Proof.
  intros Hst Hx. cut (all_good s' ∧ returned s' r); [by intros [[? ?] ?]|].
  unfold save_kt_adapter_artifacts in Hx. rewrite bindM_lift in Hx.
  destruct (fused_lora_contract m) as [c|e] eqn:Ec; [|injection Hx as <- <-; split; [apply all_good_start|done]].
  rewrite bindM_lift in Hx. destruct link; [injection Hx as <- <-; split; [apply all_good_start|done]|].
  simpl raise_if in Hx. cbv iota in Hx.
  apply bindM_inv in Hx as [(s1 & [] & E & Hx)|(e & E & ->)]; destruct (invalidate_run _ _ Hst E) as [Hg Hu]; [|done].
  specialize (Hu eq_refl). cbv zeta in Hx. destruct c as [|entry c].
  { apply bindM_inv in Hx as [(s2 & [] & E2 & Hx)|(e & E2 & ->)].
    - injection Hx as <- <-. eapply (keeps_save_kt_moe good) in E2; [|apply good_none|done|exact Hu].
      split; [by apply unmarked_good|]. split; [done|apply E2].
    - split; [|done]. apply unmarked_good. eapply (keeps_save_kt_moe good); [apply good_none|done|exact Hu|exact E2]. }
  rewrite bindM_gets, bindM_lift in Hx.
  destruct (raise_if _ _ _); [|injection Hx as <- <-; split; [by apply unmarked_good|done]].
  rewrite bindM_lift in Hx. destruct (of_option _ _ _) as [name|e] eqn:En;
    [|injection Hx as <- <-; split; [by apply unmarked_good|done]].
  apply of_option_ok in En. destruct (List.filter _ _) as [|n0 [|]] eqn:Ef; try done. injection En as ->.
  apply standard_name in Ef. rewrite bindM_lift in Hx.
  match type of Hx with match ?x with _ => _ end = _ => destruct x as [u|e] end;
    [|injection Hx as <- <-; split; [by apply unmarked_good|done]].
  assert (keeps (unmarked good (sf_past s0)) (operation io (set_dir Stage ∅))) as Hop
    by (apply keeps_operation; intros s Hs; by apply unmarked_set; [apply good_none|done|]).
  apply bindM_inv in Hx as [(s2 & [] & E2 & Hx)|(e & E2 & ->)]; [|by split; [by eapply unmarked_good, Hop|]].
  assert (unmarked good (sf_past s0) s2) as Hu2 by by eapply Hop.
  assert (∀ s3 r3, finallyM (publish_bundle io st_encode st_decode st_dtype torch_load save_full_weights t observe
            json_compact rnd m (find_kt_wrappers m ≫= fun i => option_list (m_wrappers m !! i)) (find_plan m)
            (entry :: c) name) drop_staging s2 = (s3, r3) →
          all_good s3 ∧ ∀ mf, r3 = Ok mf → complete_bundle (sf_out s3) (entry :: c) (am_payload mf)) as Hfin.
  { intros s3 r3 (s4 & E4 & Ho & Hp)%drop_staging_run.
    destruct (publish_bundle_run _ _ _ _ _ _ Ef Ec Hu2 E4) as [H1 H2]. rewrite Ho.
    split; [by apply (all_good_same s4)|done]. }
  apply bindM_inv in Hx as [(s3 & mf & E3 & Hx)|(e & E3 & ->)]; destruct (Hfin _ _ E3) as [H1 H2]; [|done].
  injection Hx as <- <-. split; [done|]. exists (entry :: c). split; [done|by apply H2].
Qed.
End save.
End saving.
