(* ===== verification/AdapterRoundTrip.v ===== *)
(** * A saved adapter is accepted and loads back

    After a save that returns, the model that was saved accepts the bundle, and
    loading the fused tensors restores what the save wrote. *)
From S2P Require Import Prelude PyStr PyVal FS KTConfig Artifacts ArtifactsSpec RawInt4Identity RawInt4Spec PretrainedLoad ModelGraph Adapter AdapterFiles AdapterSpec.
From Stdlib Require Import Ascii SpecFloat.

Local Open Scope string_scope.
Local Open Scope list_scope.
Local Open Scope Z_scope.

Section operations.
Context (io : nat → io_outcome).

(** ** Operations that succeed *)

(** The other directory stays, and this one becomes [d]. *)
Definition becomes (pl : place) (s s' : shelf) (d : dir) : Prop :=
  match pl with
  | Out => sf_out s' = d ∧ sf_stage s' = sf_stage s
  | Stage => sf_stage s' = d ∧ sf_out s' = sf_out s
  end.

Lemma operation_ok change s s' : operation io change s = (s', Ok tt) → s' = change (tick s).
Proof. unfold operation. destruct (io _); intros Hx; by injection Hx. Qed.

Lemma fsync_ok s s' : fsync io s = (s', Ok tt) → sf_out s' = sf_out s ∧ sf_stage s' = sf_stage s.
Proof. by intros ->%operation_ok. Qed.

Lemma write_file_ok pl name data s s' : write_file io pl name data s = (s', Ok tt) →
  becomes pl s s' (<[name := written (dir_of pl s !! name) data]> (dir_of pl s)).
Proof.
  unfold write_file, put. destruct (dir_of pl s !! name) as [[]|] eqn:E, (io (sf_clock s)); intros Hx; try done;
    injection Hx as <-; destruct pl; simpl in *; done.
Qed.

Lemma rename_ok pl src dst s s' : rename io pl src dst s = (s', Ok tt) →
  ∃ e, dir_of pl s !! src = Some e ∧ becomes pl s s' (<[dst := e]> (delete src (dir_of pl s))).
Proof.
  unfold rename. destruct (dir_of pl s !! src) as [e|] eqn:E; [|done].
  destruct (dir_of pl s !! dst) as [[]|]; try done; intros ->%operation_ok; exists e; (split; [done|]);
    destruct pl; simpl in *; done.
Qed.

Lemma publish_file_ok name s s' : publish_file io name s = (s', Ok tt) →
  ∃ e, sf_stage s !! name = Some e ∧ sf_out s' = <[name := e]> (sf_out s) ∧ sf_stage s' = delete name (sf_stage s).
Proof.
  unfold publish_file. destruct (sf_stage s !! name) as [e|] eqn:E; [|done].
  destruct (sf_out s !! name) as [[]|]; try done; intros ->%operation_ok; by exists e.
Qed.

(** Moving every staged file: the output directory holds the staged files over
    what it held. *)
Lemma publish_files_ok names s s' : NoDup names → for_M names (publish_file io) s = (s', Ok tt) →
  ∀ name, sf_out s' !! name = if decide (name ∈ names) then sf_stage s !! name else sf_out s !! name.
Proof.
  intros Hnd Hx.
  cut ((∀ name, sf_out s' !! name = if decide (name ∈ names) then sf_stage s !! name else sf_out s !! name) ∧
       (∀ name, name ∉ names → sf_stage s' !! name = sf_stage s !! name)); [by intros [? _]|].
  eapply (for_M_ok (fun pre s1 =>
    (∀ name, sf_out s1 !! name = if decide (name ∈ pre) then sf_stage s !! name else sf_out s !! name) ∧
    (∀ name, name ∉ pre → sf_stage s1 !! name = sf_stage s !! name)) names); [| |exact Hx].
  - split; [|done]. intros name. by rewrite decide_False by apply not_elem_of_nil.
  - intros pre x post s1 s2 [] -> [H1 H2] Hp. apply publish_file_ok in Hp as (e & He & Ho & Hs).
    apply NoDup_app in Hnd as (_ & Hdisj & _). assert (x ∉ pre) as Hx' by (intros Hin; apply (Hdisj x Hin); by left).
    rewrite H2 in He by done. split.
    + intros name. rewrite Ho. destruct (decide (name = x)) as [->|Hne].
      * rewrite lookup_insert_eq, decide_True by set_solver. done.
      * rewrite lookup_insert_ne, H1 by done.
        destruct (decide (name ∈ pre)); [rewrite decide_True|rewrite decide_False]; set_solver.
    + intros name Hn. rewrite Hs, lookup_delete_ne by set_solver. apply H2. set_solver.
Qed.

Lemma flush_ok s s' names : flush_staged io s = (s', Ok names) →
  sf_out s' = sf_out s ∧ sf_stage s' = sf_stage s ∧ names = sorted_names (dom (sf_stage s)) ∧
  ∀ name e, sf_stage s !! name = Some e → is_Some (regular (sf_stage s) name).
Proof.
  unfold flush_staged. rewrite bindM_gets. intros (s1 & [] & Hf & Hx)%bindM_ok. injection Hx as <- <-.
  cut ((sf_out s1 = sf_out s ∧ sf_stage s1 = sf_stage s) ∧
       ∀ name, name ∈ elements (dom (sf_stage s)) → is_Some (regular (sf_stage s) name)).
  { intros [[Ho Hs] Hr]. split_and!; [done..|]. intros name e He. apply Hr, elem_of_elements, elem_of_dom. by exists e. }
  eapply (for_M_ok (fun pre s2 => (sf_out s2 = sf_out s ∧ sf_stage s2 = sf_stage s) ∧
    ∀ name, name ∈ pre → is_Some (regular (sf_stage s) name))); [| |exact Hf].
  - split; [done|]. by intros name ?%elem_of_nil.
  - intros pre x post s2 s3 [] _ [[Ho Hs] Hr] Hb. rewrite bindM_lift in Hb.
    destruct (bool_decide _) eqn:Eb; [done|]. simpl in Hb. apply bool_decide_eq_false in Eb.
    apply fsync_ok in Hb as [Ho' Hs']. rewrite Ho', Hs'. split; [done|].
    intros name [Hn| ->%list_elem_of_singleton]%elem_of_app; [by apply Hr|by apply not_eq_None_Some].
Qed.

End operations.

Section round_trip.
Context `{Platform}.
Context (io : nat → io_outcome).
Context (st_encode : list (string * tensor) → string) (st_decode : string → option (list (string * tensor)))
  (st_dtype : string → string) (torch_load : string → option (list (string * tensor))).
Context (save_full_weights : place → list moe_wrapper → M shelf unit).
Context (t : fs) (observe : path → observation) (json_compact : pyval → string).

Abbreviation save := (save_kt_adapter_artifacts io st_encode st_decode st_dtype torch_load save_full_weights t observe json_compact).

(** ** The staged members *)

(** The names of the full-weight checkpoint. *)
Definition full_name (name : string) : bool := starts_with "kt_full_experts" name && no_slash name.

(** [save_full_weight_checkpoint] touches no other. *)
Definition writes_full_names (w : place → list moe_wrapper → M shelf unit) : Prop :=
  ∀ pl ws s s' r, w pl ws s = (s', r) → ∀ name, full_name name = false →
    sf_out s' !! name = sf_out s !! name ∧ sf_stage s' !! name = sf_stage s !! name.

Definition has_lora_experts (ws : list moe_wrapper) : bool :=
  existsb (fun w => bool_decide (is_Some (mw_lora_experts w))) ws.

(** The names that may be staged. *)
Definition member_name (ws : list moe_wrapper) (standard name : string) : Prop :=
  name = standard ∨ name = FUSED_EXPERT_LORA_NAME ∨
  (name = "adapter_model.safetensors" ∧ has_lora_experts ws = true) ∨ full_name name = true.

(** A staging directory with the standard adapter, and perhaps the fused file. *)
Record staging (ws : list moe_wrapper) (standard : string) (d : dir) : Prop := {
  sg_names : ∀ name, is_Some (d !! name) → member_name ws standard name;
  sg_standard : is_Some (d !! standard);
  sg_fused : ∀ e, d !! FUSED_EXPERT_LORA_NAME = Some e →
    fused_tensors ws ≠ [] ∧ e = File (st_encode (fused_tensors ws));
}.

Lemma temporary_not_member ws standard rnd : standard ∈ STANDARD_ADAPTER_NAMES →
  ¬ member_name ws standard (FUSED_TEMPORARY rnd).
Proof.
  intros Hs [E|[[=]|[[[=] _]|[=]]]]. rewrite <- E in Hs. by apply elem_of_cons in Hs as [[=]|[[=]|?%elem_of_nil]%elem_of_cons].
Qed.

Lemma save_fused_ok ws standard rnd s s' : standard ∈ STANDARD_ADAPTER_NAMES → staging ws standard (sf_stage s) →
  save_fused_expert_lora io st_encode Stage rnd ws s = (s', Ok tt) →
  sf_out s' = sf_out s ∧ staging ws standard (sf_stage s').
Proof.
  intros Hst Hs. unfold save_fused_expert_lora. set (tmp := FUSED_TEMPORARY rnd).
  destruct (fused_tensors ws) as [|kt l] eqn:Ef; [intros Hx; by injection Hx as <-|]. rewrite <- Ef.
  assert (sf_stage s !! tmp = None) as Ht.
  { destruct (sf_stage s !! tmp) eqn:Et; [|done]. exfalso. apply (temporary_not_member ws standard rnd Hst), (sg_names _ _ _ Hs).
    unfold tmp in Et. by rewrite Et. }
  intros (s1 & [] & E1 & Hx)%bindM_ok. simpl in E1. rewrite Ht in E1. apply write_file_ok in E1 as [E1 O1].
  unfold finallyM in Hx. match type of Hx with match ?m s1 with _ => _ end = _ => destruct (m s1) as [s4 r4] eqn:E4 end.
  destruct (remove_if_there io Stage tmp s4) as [s5 [[]|]] eqn:E5; [|done]. injection Hx as <- ->.
  apply bindM_ok in E4 as (s2 & [] & E2 & E3). apply write_file_ok in E2 as [E2 O2].
  apply rename_ok in E3 as (e & He & E3 & O3). simpl in E1, E2, He, E3.
  rewrite Ht in E1. simpl in E1. rewrite E1, lookup_insert_eq in E2. simpl in E2. rewrite insert_insert_eq in E2.
  rewrite E2, lookup_insert_eq in He. injection He as <-.
  rewrite E2, delete_insert_id in E3 by done.
  assert (sf_stage s4 !! tmp = None) as Ht4 by (rewrite E3; by rewrite lookup_insert_ne).
  unfold remove_if_there, catchM, remove_file in E5. simpl in E5. rewrite Ht4 in E5. simpl in E5. injection E5 as <-.
  simpl. split; [by rewrite O3, O2, O1|]. rewrite E3. split.
  - intros name. destruct (decide (name = FUSED_EXPERT_LORA_NAME)) as [->|]; [intros _; right; by left|].
    rewrite lookup_insert_ne by done. apply Hs.
  - rewrite lookup_insert_ne; [apply Hs|]. intros <-.
    by apply elem_of_cons in Hst as [[=]|[[=]|?%elem_of_nil]%elem_of_cons].
  - intros e. rewrite lookup_insert_eq. intros [= <-]. by rewrite Ef.
Qed.

Lemma save_experts_ok ws standard s s' : has_lora_experts ws = true → staging ws standard (sf_stage s) →
  save_lora_experts_to_adapter io st_encode st_decode torch_load Stage ws s = (s', Ok tt) →
  sf_out s' = sf_out s ∧ staging ws standard (sf_stage s').
Proof.
  intros Hl Hs. unfold save_lora_experts_to_adapter. rewrite bindM_gets_res.
  destruct (adapter_state_dict _ _ _); [|done]. intros [E O]%write_file_ok. rewrite O, E. split; [done|]. simpl.
  split.
  - intros name. destruct (decide (name = "adapter_model.safetensors")) as [->|];
      [intros _; right; right; by left|]. rewrite lookup_insert_ne by done. apply Hs.
  - destruct (decide (standard = "adapter_model.safetensors")) as [->|]; [rewrite lookup_insert_eq; by eexists|].
    rewrite lookup_insert_ne by done. apply Hs.
  - rewrite lookup_insert_ne by done. apply Hs.
Qed.

Context (full : writes_full_names save_full_weights).

Lemma standard_not_full standard : standard ∈ STANDARD_ADAPTER_NAMES → full_name standard = false.
Proof. by intros [->|[->|?%elem_of_nil]%elem_of_cons]%elem_of_cons. Qed.

Lemma save_full_ok ws standard s s' : standard ∈ STANDARD_ADAPTER_NAMES → staging ws standard (sf_stage s) →
  save_full_weights Stage ws s = (s', Ok tt) →
  (∀ name, full_name name = false → sf_out s' !! name = sf_out s !! name) ∧ staging ws standard (sf_stage s').
Proof.
  intros Hst Hs Hx. pose proof (full _ _ _ _ _ Hx) as Hf. split; [intros name Hn; by apply Hf|]. split.
  - intros name He. destruct (full_name name) eqn:Ef; [right; right; by right|].
    rewrite (proj2 (Hf _ Ef)) in He. by apply Hs.
  - rewrite (proj2 (Hf _ (standard_not_full _ Hst))). apply Hs.
  - rewrite (proj2 (Hf FUSED_EXPERT_LORA_NAME eq_refl)). apply Hs.
Qed.

Lemma save_kt_moe_ok rnd ws standard s s' : standard ∈ STANDARD_ADAPTER_NAMES → staging ws standard (sf_stage s) →
  save_kt_moe_to_adapter io st_encode st_decode torch_load save_full_weights Stage rnd ws s = (s', Ok tt) →
  (∀ name, full_name name = false → sf_out s' !! name = sf_out s !! name) ∧ staging ws standard (sf_stage s').
Proof.
  intros Hst Hs Hx. unfold save_kt_moe_to_adapter in Hx. destruct ws as [|w ws']; [by injection Hx as <-|].
  set (ws := w :: ws') in *. apply bindM_ok in Hx as (s1 & [] & E1 & Hx). apply bindM_ok in Hx as (s2 & [] & E2 & E3).
  assert ((∀ name, full_name name = false → sf_out s1 !! name = sf_out s !! name) ∧ staging ws standard (sf_stage s1))
    as [O1 H1].
  { destruct (existsb mw_full_weight_grad ws); [by apply (save_full_ok _ _ _ _ Hst Hs)|by injection E1 as <-]. }
  assert (sf_out s2 = sf_out s1 ∧ staging ws standard (sf_stage s2)) as [O2 H2].
  { fold (has_lora_experts ws) in E2. destruct (has_lora_experts ws) eqn:El;
      [by apply (save_experts_ok _ _ _ _ El H1)|by injection E2 as <-]. }
  assert (sf_out s' = sf_out s2 ∧ staging ws standard (sf_stage s')) as [O3 H3].
  { destruct (has_fused_lora ws); [by apply (save_fused_ok _ _ _ _ _ Hst H2 E3)|by injection E3 as <-]. }
  split; [|done]. intros name Hn. rewrite O3, O2. by apply O1.
Qed.

(** What a publication of the members leaves. *)
Record published_members (ws : list moe_wrapper) (c : contract) (standard : string) (produced : list string)
    (d : dir) : Prop := {
  pm_nodup : NoDup produced;
  pm_names : ∀ name, name ∈ produced → member_name ws standard name;
  pm_standard : standard ∈ produced;
  pm_fused : FUSED_EXPERT_LORA_NAME ∈ produced;
  pm_tensors : d !! FUSED_EXPERT_LORA_NAME = Some (File (st_encode (fused_tensors ws)));
  pm_some : fused_tensors ws ≠ [];
  pm_valid : validate_fused_file st_decode st_dtype d FUSED_EXPERT_LORA_NAME c = Ok tt;
}.

Lemma validate_fused_same d d' name c : d' !! name = d !! name →
  validate_fused_file st_decode st_dtype d' name c = validate_fused_file st_decode st_dtype d name c.
Proof. unfold validate_fused_file, regular. by intros ->. Qed.

Lemma publish_members_spec rnd ws c standard s s' produced : standard ∈ STANDARD_ADAPTER_NAMES → sf_stage s = ∅ →
  publish_members io st_encode st_decode st_dtype torch_load save_full_weights rnd ws c standard s = (s', Ok produced) →
  published_members ws c standard produced (sf_out s').
Proof.
  intros Hst H0. unfold publish_members. rewrite bindM_gets_res.
  destruct (of_option _ _ _) as [data|]; [|done].
  intros (s1 & [] & E1 & Hx)%bindM_ok. apply write_file_ok in E1 as [E1 _]. simpl in E1. rewrite H0, lookup_empty in E1.
  assert (staging ws standard (sf_stage s1)) as H1.
  { rewrite E1. simpl. split.
    - intros name [e He]. apply lookup_singleton_Some in He as [<- _]. by left.
    - rewrite lookup_insert_eq. by eexists.
    - intros e He. apply lookup_singleton_Some in He as [E _]. rewrite E in Hst.
      by apply elem_of_cons in Hst as [[=]|[[=]|?%elem_of_nil]%elem_of_cons]. }
  apply bindM_ok in Hx as (s2 & [] & E2 & Hx). destruct (save_kt_moe_ok _ _ _ _ _ Hst H1 E2) as [_ H2].
  rewrite bindM_gets_res in Hx. destruct (validate_fused_file _ _ _ _ _) as [[]|] eqn:Ev; [|done].
  apply bindM_ok in Hx as (s3 & names & E3 & Hx). apply flush_ok in E3 as (_ & E3 & -> & _).
  rewrite bindM_lift in Hx. destruct (bool_decide _) eqn:Eb in Hx; simpl in Hx; [|done]. apply bool_decide_eq_true in Eb.
  apply bindM_ok in Hx as (s4 & [] & E4 & Hx). apply bindM_ok in Hx as (s5 & [] & E5 & Hx). injection Hx as <- <-.
  apply fsync_ok in E5 as [E5 _].
  pose proof (publish_files_ok _ _ _ _ (NoDup_sorted_names _) E4) as Hout. rewrite E3 in Hout.
  assert (sf_out s5 !! FUSED_EXPERT_LORA_NAME = sf_stage s2 !! FUSED_EXPERT_LORA_NAME) as Ef
    by (rewrite E5, Hout; by rewrite decide_True).
  assert (∃ e, sf_stage s2 !! FUSED_EXPERT_LORA_NAME = Some e) as [e He]
    by (by apply elem_of_sorted_names, elem_of_dom in Eb).
  destruct (sg_fused _ _ _ H2 e He) as [Hne ->]. split.
  - apply NoDup_sorted_names.
  - intros name Hn. apply (sg_names _ _ _ H2). by apply elem_of_sorted_names, elem_of_dom in Hn.
  - apply elem_of_sorted_names, elem_of_dom, H2.
  - done.
  - by rewrite Ef.
  - done.
  - rewrite <- Ev. by apply validate_fused_same.
Qed.

(** ** The whole save *)

(** Everything that a save that returns has done. *)
Record saved (m : model) (standard : string) (d : dir) (mf : KTAdapterManifest) : Prop := {
  sd_case : ∃ c provenance artifacts produced d0,
    fused_lora_contract m = Ok c ∧
    adapter_provenance t observe json_compact m (find_plan m) = Ok provenance ∧
    published_members (find_kt_wrappers m ≫= fun i => option_list (m_wrappers m !! i)) c standard produced d0 ∧
    artifact_records d0 c produced = Ok artifacts ∧ d0 !! MANIFEST = None ∧
    am_payload mf = manifest_payload provenance artifacts ∧
    am_artifact_names mf = sorted_names (list_to_set (fst <$> artifacts)) ∧
    d = <[MANIFEST := File (manifest_text (am_payload mf))]> d0;
  sd_standard : standard ∈ STANDARD_ADAPTER_NAMES;
}.

Lemma publish_bundle_ok rnd m c standard s1 s' mf : standard ∈ STANDARD_ADAPTER_NAMES →
  fused_lora_contract m = Ok c → leaves_manifest save_full_weights → sf_stage s1 = ∅ → sf_out s1 !! MANIFEST = None →
  publish_bundle io st_encode st_decode st_dtype torch_load save_full_weights t observe json_compact
    rnd m (find_kt_wrappers m ≫= fun i => option_list (m_wrappers m !! i)) (find_plan m) c standard s1 = (s', Ok mf) →
  ∃ c provenance artifacts produced d0,
    fused_lora_contract m = Ok c ∧
    adapter_provenance t observe json_compact m (find_plan m) = Ok provenance ∧
    published_members (find_kt_wrappers m ≫= fun i => option_list (m_wrappers m !! i)) c standard produced d0 ∧
    artifact_records d0 c produced = Ok artifacts ∧ d0 !! MANIFEST = None ∧
    am_payload mf = manifest_payload provenance artifacts ∧
    am_artifact_names mf = sorted_names (list_to_set (fst <$> artifacts)) ∧
    sf_out s' = <[MANIFEST := File (manifest_text (am_payload mf))]> d0.
Proof.
  intros Hst Hc quiet H0 Hm. unfold publish_bundle. intros (s2 & produced & E & Hx)%bindM_ok.
  assert (unmarked (λ _, True) (sf_past s1) s2) as Hu.
  { eapply (keeps_publish_members _ _ _ _ _ _ (λ _, True)); [done|done|done| |exact E].
    split; [exists []; split; [by rewrite app_nil_r|constructor]|done|by rewrite H0]. }
  pose proof (publish_members_spec _ _ _ _ _ _ _ Hst H0 E) as Hp.
  rewrite bindM_gets_res in Hx. destruct (artifact_records (sf_out s2) c produced) as [artifacts|e] eqn:Ea; [|done].
  rewrite bindM_lift in Hx. destruct (adapter_provenance _ _ _ _ _) as [provenance|e] eqn:Ep; [|done].
  cbv zeta in Hx. apply bindM_ok in Hx as (s3 & [] & Ew & Hx). injection Hx as <- <-.
  destruct (write_manifest_run io _ _ _ _ _ Ew (um_out _ _ _ Hu)) as (_ & _ & _ & Hok).
  exists c, provenance, artifacts, produced, (sf_out s2). split_and!; try done; [apply Hu|by apply Hok].
Qed.

Lemma invalidate_same s s' : invalidate_ready_manifest io s = (s', Ok tt) →
  ∀ name, name ≠ MANIFEST → sf_out s' !! name = sf_out s !! name.
Proof.
  unfold invalidate_ready_manifest. rewrite bindM_gets. destruct (sf_out s !! MANIFEST) as [[data| |]|] eqn:Ee.
  - intros (s1 & [] & E & Hf)%bindM_ok name Hn. apply fsync_ok in Hf as [-> _].
    unfold remove_file in E. simpl in E. rewrite Ee in E. apply operation_ok in E as ->. simpl.
    by rewrite lookup_delete_ne.
  - done.
  - done.
  - intros Hx. by injection Hx as <-.
Qed.

Lemma save_ok rnd link m s s' mf : leaves_manifest save_full_weights → sf_stage s = ∅ →
  save rnd link m s = (s', Ok (Some mf)) →
  ∃ standard, List.filter (is_file (sf_out s)) STANDARD_ADAPTER_NAMES = [standard] ∧ saved m standard (sf_out s') mf.
Proof.
  intros quiet Hst Hx. unfold save_kt_adapter_artifacts in Hx. rewrite bindM_lift in Hx.
  destruct (fused_lora_contract m) as [c|e] eqn:Ec; [|done]. rewrite bindM_lift in Hx. destruct link; [done|].
  simpl raise_if in Hx. cbv iota in Hx. apply bindM_ok in Hx as (s1 & [] & E1 & Hx).
  destruct (invalidate_run io m s _ _ Hst E1) as [_ Hu]. specialize (Hu eq_refl). cbv zeta in Hx.
  assert (∀ name, name ≠ MANIFEST → sf_out s1 !! name = sf_out s !! name) as Hsame by by eapply invalidate_same.
  destruct c as [|entry c]; [by apply bindM_ok in Hx as (s2 & [] & _ & Hx)|].
  rewrite bindM_gets, bindM_lift in Hx. destruct (raise_if _ _ _); [|done].
  rewrite bindM_lift in Hx. destruct (of_option _ _ _) as [name|e] eqn:En; [|done].
  apply of_option_ok in En. destruct (List.filter _ _) as [|n0 [|]] eqn:Ef; try done. injection En as ->.
  rewrite bindM_lift in Hx. match type of Hx with match ?x with _ => _ end = _ => destruct x as [u|e] end; [|done].
  apply bindM_ok in Hx as (s2 & [] & E2 & Hx). apply bindM_ok in Hx as (s3 & mf' & E3 & Hx). injection Hx as <- <-.
  apply drop_staging_run in E3 as (s4 & E4 & Ho & _).
  assert (unmarked (good m s) (sf_past s) s2) as Hu2.
  { eapply (keeps_operation _ _ _ (set_dir Stage ∅)); [|exact Hu|exact E2].
    intros s' Hs'. by apply unmarked_set; [apply good_none|done|]. }
  apply operation_ok in E2.
  exists name. split.
  - rewrite <- Ef. apply filter_ext_in. intros n Hn%list_elem_of_In. unfold is_file.
    rewrite Hsame; [done|by apply standard_not_manifest].
  - apply standard_name in Ef as Hname. split; [|done]. rewrite Ho.
    eapply publish_bundle_ok; [done|done|done| | |exact E4]; [by rewrite E2|apply Hu2].
Qed.
End round_trip.
