(* ===== verification/AdapterAccept.v ===== *)
(** * A saved adapter is accepted

    What a save that returns has published passes [_validate_adapter_manifest]
    for the model that was saved: the manifest reads back, its provenance is the
    runtime's, and every artifact is what its record says. *)
From S2P Require Import Prelude PyStr PyVal FS KTConfig Artifacts ArtifactsSpec RawInt4Identity RawInt4Spec PretrainedLoad ModelGraph Adapter AdapterFiles AdapterSpec AdapterRoundTrip.
From Stdlib Require Import Ascii SpecFloat.

Local Open Scope string_scope.
Local Open Scope list_scope.
Local Open Scope Z_scope.

Section accept.
Context `{Platform}.
Context (st_encode : list (string * tensor) → string) (st_decode : string → option (list (string * tensor)))
  (st_dtype : string → string).
Context (t : fs) (observe : path → observation) (json_compact : pyval → string).
Context (sha256_hex : ∀ s, sha256_text (sha256 s) = true) (round_trip : json_round_trip).

(** ** The provenance *)

(** What a manifest states under a key of the provenance. *)
Lemma payload_provenance m plan provenance artifacts k : adapter_provenance t observe json_compact m plan = Ok provenance →
  k ∈ ["expert_weight_format"; "base"; "lora"; "expert_quantization"; "non_expert_cache"; "int8_experts"] →
  pget k (manifest_payload provenance artifacts) = pget k provenance.
Proof.
  intros _ Hk. unfold manifest_payload, pget. rewrite !dict_get_app.
  assert (k ∉ ["version"; "status"; "artifacts"]) as Hn.
  { intros Hin. repeat (apply elem_of_cons in Hk as [->|Hk]; [by vm_compute in Hin; set_solver|]).
    by apply elem_of_nil in Hk. }
  rewrite (dict_get_None k [("version", _); ("status", _)]) by set_solver.
  destruct (dict_get k provenance); [done|]. rewrite dict_get_None; [done|set_solver].
Qed.

(** The check of a base identity that was just written. *)
Lemma base_written cwd name base : rawint4_base_identity json_compact t observe name = Ok base →
  validate_rawint4_base_identity json_compact t cwd (sort_keys base) base = Ok tt.
Proof.
  intros (root & cd & id & rs & _ & Eb & Hrs & Hcd & Hid & _)%rawint4_base_identity_sound; [|done].
  change (base = base_value json_compact root cd id rs) in Eb. rewrite Eb.
  rewrite identity_check_decided by done. rewrite String.eqb_refl. simpl.
  rewrite bool_decide_true by done. by rewrite andb_false_r.
Qed.

Lemma check_provenance_written cwd m plan provenance artifacts D :
  adapter_provenance t observe json_compact m plan = Ok provenance → plain_plan plan →
  (∀ k, pget k D = sort_keys (pget k (manifest_payload provenance artifacts))) →
  check_provenance t json_compact cwd D provenance = Ok tt.
Proof.
  intros Hp Hplain HD.
  assert (∀ k, k ∈ ["expert_weight_format"; "base"; "lora"; "expert_quantization"; "non_expert_cache"; "int8_experts"] →
            pget k D = sort_keys (pget k provenance)) as HD'.
  { intros k Hk. rewrite HD. by rewrite (payload_provenance _ _ _ _ _ Hp). }
  clear HD. apply adapter_provenance_form in Hp as (format & base & rank & alpha & more & -> & _ & Hmore & Ha & Hb).
  assert (pget "expert_weight_format" D = PStr format) as Ef by (rewrite HD' by set_solver; done).
  assert (pget "base" D = sort_keys base) as Eb by (rewrite HD' by set_solver; done).
  assert (pget "lora" D = PDict [("alpha", PFloat alpha); ("rank", PInt rank)]) as El
    by (rewrite HD' by set_solver; done).
  unfold check_provenance, saved_format. cbv zeta. rewrite Ef, Eb, El. cbn [is_none andb].
  rewrite (bind_run (raise_if _ _ _) _ tt) by (cbn; by rewrite String.eqb_refl).
  rewrite (bind_run _ _ tt); [|clear HD' El Ef Eb].
  2: { cbn [py_eq]. change (pget "base" _) with base. destruct (String.eqb format "rawint4").
       - destruct Hb as [name Hb]. by eapply base_written.
       - by rewrite py_eq_sort_keys. }
  rewrite (bind_run (raise_if _ _ _) _ tt) by (cbn; by rewrite Ha, Z.eqb_refl).
  apply for_each_unit, Forall_forall. intros field Hf.
  assert (plain (pget field (("expert_weight_format", PStr format) :: ("base", base) ::
            ("lora", PDict [("rank", PInt rank); ("alpha", PFloat alpha)]) :: more)) = true) as Hpl.
  { unfold pget. cbn [dict_get].
    rewrite (proj2 (String.eqb_neq field "expert_weight_format")), (proj2 (String.eqb_neq field "base")),
      (proj2 (String.eqb_neq field "lora")) by (intros ->; set_solver).
    destruct (dict_get field more) as [v|] eqn:Ev; [|done]. specialize (Hmore Hplain). rewrite Forall_forall in Hmore.
    by apply (Hmore (field, v)), dict_get_In. }
  rewrite HD' by set_solver. cbn [app]. by rewrite py_eq_sort_keys.
Qed.

(** ** The artifacts *)

Lemma artifact_records_keys d c produced artifacts : artifact_records d c produced = Ok artifacts →
  NoDup (fst <$> artifacts) ∧ ∀ name, name ∈ fst <$> artifacts → name = "adapter_config.json" ∨ name ∈ produced.
Proof.
  unfold artifact_records. intros Hx. inv_bind Hx as config Hconfig.
  eapply (for_each_inv (fun pre artifacts => NoDup (fst <$> artifacts) ∧
    ∀ name, name ∈ fst <$> artifacts → name = "adapter_config.json" ∨ name ∈ pre)) in Hx; [exact Hx| |].
  - split; [apply NoDup_singleton|]. intros name ->%list_elem_of_singleton. by left.
  - intros pre x a b _ [H1 H2] Hb. inv_bind Hb as record Hr. injection Hb as <-.
    split; [by apply NoDup_dict_set|]. intros name ([k v] & -> & [[= -> ->]|Hin]%elem_of_dict_set)%list_elem_of_fmap.
    + right. apply elem_of_app. right. by left.
    + destruct (H2 k) as [->|Hk]; [apply list_elem_of_fmap; by exists (k, v)|by left|].
      right. apply elem_of_app. by left.
Qed.

Lemma basename_of_no_slash s : no_slash s = true → basename s = s.
Proof. intros Hs. unfold basename. by rewrite split_on_no. Qed.

Lemma check_artifact_written d name c record : no_slash name = true → artifact_record d name c = Ok record →
  check_artifact d name (sort_keys record) = Ok tt.
Proof.
  intros Hn Hr. unfold artifact_record in Hr. inv_bind Hr as data Hd. apply of_option_ok in Hd. injection Hr as <-.
  unfold check_artifact. rewrite basename_of_no_slash, String.eqb_refl by done. rewrite sort_keys_dict.
  cbn [as_dict of_option mbind res_bind]. cbv zeta. rewrite !pget_sort_dict, Hd.
  cbn [app pget dict_get String.eqb default sort_keys].
  rewrite (bind_run (raise_if _ _ _) _ tt) by (cbn; by rewrite Z.eqb_refl).
  rewrite (bind_run (of_option _ _ _) _ (sha256 data)) by done.
  unfold regular in Hd. destruct (d !! name) as [[x| |]|]; try done. injection Hd as ->.
  rewrite (bind_run (of_option _ _ _) _ data) by done. by rewrite String.eqb_refl.
Qed.

(** One element satisfies the test, in a list without duplicates. *)
Lemma filter_one {A} (f : A → bool) (l : list A) x : NoDup l → x ∈ l → f x = true →
  (∀ y, y ∈ l → f y = true → y = x) → length (List.filter f l) = 1%nat.
Proof.
  intros Hl Hx Hf Hu. assert (List.filter f l = [x]) as ->; [|done].
  apply list_elem_of_split in Hx as (l1 & l2 & ->). apply NoDup_app in Hl as (_ & H1 & [H2 _]%NoDup_cons).
  assert (∀ k, (∀ y, y ∈ k → y ≠ x ∧ y ∈ l1 ++ x :: l2) → List.filter f k = []) as Hnil.
  { intros k Hk. induction k as [|y k IH]; [done|]. simpl. destruct (f y) eqn:Ey.
    - destruct (Hk y) as [Hne Hin]; [by left|]. by destruct (Hne (Hu y Hin Ey)).
    - apply IH. intros z Hz. apply Hk. by right. }
  rewrite List.filter_app. simpl. rewrite Hf, !Hnil; [done|..].
  - intros y Hy. split; [by intros ->|]. apply elem_of_app. right. by right.
  - intros y Hy. split; [|apply elem_of_app; by left]. intros ->. apply (H1 x Hy). by left.
Qed.

Lemma fused_record_written d c record : NoDup (fst <$> c) →
  artifact_record d FUSED_EXPERT_LORA_NAME (Some c) = Ok record →
  check_fused_record (default [] (as_dict (sort_keys record))) c = Ok tt.
Proof.
  intros Hc Hr. unfold artifact_record in Hr. inv_bind Hr as data Hd. injection Hr as <-.
  rewrite sort_keys_dict. cbn [as_dict default]. unfold default, id, check_fused_record. rewrite !pget_sort_dict.
  match goal with |- context [sort_keys (pget "tensor_count" ?f)] => set (fields := f) end.
  assert (pget "tensor_count" fields = PInt (Z.of_nat (length c))) as -> by done.
  assert (pget "tensors" fields = contract_value c) as -> by done. clear fields.
  assert (plain (contract_value c) = true) as Hp.
  { unfold contract_value. cbn [plain]. rewrite <-list_fmap_compose.
    change (fst ∘ _) with (fst (A := string) (B := list Z * string)). rewrite bool_decide_true by done. simpl.
    apply forallb_forall. intros kv (kt & -> & _)%list_elem_of_In%list_elem_of_fmap. destruct kt as [k [shape dtype]].
    simpl. rewrite andb_true_r. apply forallb_forall. by intros v (n & -> & _)%list_elem_of_In%list_elem_of_fmap. }
  rewrite (py_eq_sort_keys _ Hp). simpl. by rewrite Z.eqb_refl.
Qed.

(** The contract's keys are distinct. *)
Lemma NoDup_fold_dict_set {A} (key : string → string) (l : list (string * A)) d : NoDup (fst <$> d) →
  NoDup (fst <$> fold_left (fun d '(name, v) => dict_set (key name) v d) l d).
Proof. revert d. induction l as [|[name x] l IH]; intros d Hd; [done|]. simpl. apply IH. by apply NoDup_dict_set. Qed.

Lemma fused_contract_keys m c : fused_lora_contract m = Ok c → NoDup (fst <$> c).
Proof.
  unfold fused_lora_contract. intros Hx. inv_bind Hx as [entries seen] He. injection Hx as <-.
  rewrite merge_sort_Permutation.
  eapply (for_each_inv (fun _ acc => NoDup (fst <$> acc.1)) _ _ (entries, seen)) in He; [exact He|constructor|].
  intros pre w [e1 s1] [e2 s2] _ H1 Hb. unfold add_layer in Hb. destruct (_ && _); [by injection Hb as <- _|].
  inv_bind Hb as layer Hl. inv_bind Hb as tensors Ht. injection Hb as <- _. cbn [fst] in *.
  by apply (NoDup_fold_dict_set _ (zip FUSED_LORA_NAMES tensors)).
Qed.

Lemma artifacts_written d c produced artifacts text : artifact_records d c produced = Ok artifacts →
  d !! MANIFEST = None → (∀ name, name ∈ produced → no_slash name = true) →
  for_each (sort_dict artifacts) tt
    (fun _ '(name, record) => check_artifact (<[MANIFEST := File text]> d) name record) = Ok tt.
Proof.
  intros Ha Hd Hn. destruct (artifact_records_ok _ _ _ _ Ha) as (_ & _ & Hr).
  destruct (artifact_records_keys _ _ _ _ Ha) as [_ Hk].
  apply (for_each_unit _ (fun kv => let '(name, record) := kv in check_artifact _ name record) tt).
  apply Forall_forall. intros [name sorted] Hin. rewrite sort_dict_perm in Hin.
  apply list_elem_of_fmap in Hin as ([name' record] & [= -> ->] & Hin). cbn [fst snd].
  eapply check_artifact_written; [|by apply artifact_record_mark, Hr].
  destruct (Hk name') as [->|Hp]; [apply list_elem_of_fmap; by exists (name', record)|done|by apply Hn].
Qed.

(** ** The names of the members *)

Lemma full_name_ok name : full_name name = true → no_slash name = true ∧ name ∉ STANDARD_ADAPTER_NAMES.
Proof.
  unfold full_name. intros Hf. bools. split; [done|].
  intros [->|[->|?%elem_of_nil]%elem_of_cons]%elem_of_cons; by vm_compute in *.
Qed.

Lemma standard_no_slash name : name ∈ STANDARD_ADAPTER_NAMES → no_slash name = true.
Proof. by intros [->|[->|?%elem_of_nil]%elem_of_cons]%elem_of_cons. Qed.

Lemma member_no_slash ws standard name : standard ∈ STANDARD_ADAPTER_NAMES → member_name ws standard name →
  no_slash name = true.
Proof. intros Hs [->|[->|[[-> _]|Hf]]]; [by apply standard_no_slash|done|done|by apply full_name_ok]. Qed.

Lemma one_standard ws c standard produced d0 artifacts d : standard ∈ STANDARD_ADAPTER_NAMES →
  standard = "adapter_model.safetensors" ∨ has_lora_experts ws = false →
  published_members st_encode st_decode st_dtype ws c standard produced d0 →
  artifact_records d c produced = Ok artifacts →
  length (List.filter (fun name => bool_decide (name ∈ STANDARD_ADAPTER_NAMES)) (fst <$> sort_dict artifacts)) = 1%nat.
Proof.
  intros Hst Hone Hp Ha. destruct (artifact_records_keys _ _ _ _ Ha) as [Hnd Hk].
  destruct (artifact_records_ok _ _ _ _ Ha) as (_ & Hin & _).
  assert (fst <$> sort_dict artifacts ≡ₚ fst <$> artifacts) as Hperm.
  { rewrite sort_dict_perm, <-list_fmap_compose. done. }
  apply (filter_one _ _ standard).
  - by rewrite Hperm.
  - rewrite Hperm. apply Hin, (pm_standard _ _ _ _ _ _ _ _ Hp).
  - by apply bool_decide_true.
  - intros name Hn Hs%bool_decide_eq_true. rewrite Hperm in Hn. destruct (Hk name Hn) as [->|Hn'].
    { by apply elem_of_cons in Hs as [[=]|[[=]|?%elem_of_nil]%elem_of_cons]. }
    destruct (pm_names _ _ _ _ _ _ _ _ Hp name Hn') as [->|[->|[[-> Hl]|Hf]]]; [done| | |].
    + by apply elem_of_cons in Hs as [[=]|[[=]|?%elem_of_nil]%elem_of_cons].
    + destruct Hone as [->|Hone]; [done|congruence].
    + by apply full_name_ok in Hf as [_ []].
Qed.
End accept.

Section accepted.
Context `{Platform} (io : nat → io_outcome).
Context (st_encode : list (string * tensor) → string) (st_decode : string → option (list (string * tensor)))
  (st_dtype : string → string) (torch_load : string → option (list (string * tensor))).
Context (save_full_weights : place → list moe_wrapper → M shelf unit).
Context (t : fs) (observe : path → observation) (json_compact : pyval → string).

(** The wrappers that a save of the model writes. *)
Definition saved_wrappers (m : model) : list moe_wrapper := find_kt_wrappers m ≫= fun i => option_list (m_wrappers m !! i).

Lemma has_key_sorted k d : k ∈ fst <$> d → has_key k (sort_dict d) = true.
Proof.
  intros ([k' v] & -> & Hin)%list_elem_of_fmap. unfold has_key. rewrite dict_get_sort_dict. cbn [fst].
  destruct (dict_get k' d) eqn:E; [done|]. exfalso. clear -E Hin.
  induction d as [|[k1 v1] d IH]; [by apply elem_of_nil in Hin|]. simpl in E.
  apply elem_of_cons in Hin as [[= <- <-]|Hin]; [by rewrite String.eqb_refl in E|].
  destruct (String.eqb k' k1); [done|by apply IH].
Qed.

Lemma sorted_artifact_names d :
  sorted_names (list_to_set (fst <$> sort_dict d)) = sorted_names (list_to_set (fst <$> d)).
Proof.
  f_equal. apply list_to_set_perm_L. by rewrite sort_dict_perm, <-list_fmap_compose.
Qed.

(** C28. A model accepts the adapter that it saved: after a save that returned a
    manifest, the check reads the manifest back, finds the runtime's provenance
    in it, one standard adapter, every artifact with its recorded size and
    digest, and the contract of the fused tensors.  It needs that LoRA experts
    were not written beside a pickled adapter, that the routed fingerprint of the
    model's plan has no floats, and that the full-weight checkpoint is written
    under names of its own. *)
Theorem saved_adapter_is_accepted rnd link m s s' mf cwd :
  (∀ data, sha256_text (sha256 data) = true) → json_round_trip →
  leaves_manifest save_full_weights → writes_full_names save_full_weights → sf_stage s = ∅ →
  plain_plan (find_plan m) →
  is_file (sf_out s) "adapter_model.bin" = false ∨ has_lora_experts (saved_wrappers m) = false →
  save_kt_adapter_artifacts io st_encode st_decode st_dtype torch_load save_full_weights t observe json_compact
    rnd link m s = (s', Ok (Some mf)) →
  validate_adapter_manifest st_decode st_dtype t observe json_compact cwd m (sf_out s') =
    Ok {| am_payload := sort_dict (am_payload mf); am_artifact_names := am_artifact_names mf |}.
Proof.
  intros hex json quiet full Hst Hplain Hbin Hs.
  apply save_ok in Hs as (standard & Hone & [(c & provenance & artifacts & produced & d0 & Hc & Hp & Hm & Ha & Hd0 &
    Hpay & Hnames & ->) Hstd]); [|done..].
  assert (standard = "adapter_model.safetensors" ∨ has_lora_experts (saved_wrappers m) = false) as Hsel.
  { destruct Hbin as [Hbin|]; [left|by right]. simpl in Hone. rewrite Hbin in Hone.
    destruct (is_file _ "adapter_model.safetensors"); by simplify_eq Hone. }
  rewrite Hpay, Hnames. clear Hpay Hnames mf Hbin.
  set (payload := manifest_payload provenance artifacts).
  assert (∀ k, pget k (sort_dict payload) = sort_keys (pget k payload)) as HD by (intros k; apply pget_sort_dict).
  assert (pget "artifacts" payload = PDict artifacts) as Hart.
  { unfold pget, payload. rewrite payload_artifacts; [done|].
    eapply provenance_without; [exact Hp|]. by vm_compute; set_solver. }
  unfold validate_adapter_manifest.
  rewrite (bind_run (read_manifest _) _ (sort_dict payload)).
  2: { unfold read_manifest, regular. rewrite lookup_insert_eq. cbn [of_option mbind res_bind].
       unfold manifest_text. rewrite json. cbn [of_option mbind res_bind]. by rewrite sort_keys_dict. }
  rewrite (bind_run (raise_if _ _ _) _ tt) by (by rewrite !HD).
  rewrite (bind_run _ _ provenance Hp).
  rewrite (bind_run (check_provenance _ _ _ _ _) _ tt) by (by eapply check_provenance_written).
  rewrite (bind_run (of_option _ _ _) _ (sort_dict artifacts)) by (by rewrite HD, Hart, sort_keys_dict).
  destruct (artifact_records_ok _ _ _ _ Ha) as (Hcfg & Hprod & Hrec).
  destruct (artifact_records_keys _ _ _ _ Ha) as [Hnd Hkeys].
  assert (∃ record, dict_get FUSED_EXPERT_LORA_NAME artifacts = Some record ∧
            artifact_record d0 FUSED_EXPERT_LORA_NAME (Some c) = Ok record) as (record & Hget & Hr).
  { pose proof (Hprod _ (pm_fused _ _ _ _ _ _ _ _ Hm)) as Hin.
    apply list_elem_of_fmap in Hin as ([k record] & [= <-] & Hin). exists record. split; [by apply dict_get_NoDup|].
    exact (Hrec _ _ Hin). }
  assert (pget FUSED_EXPERT_LORA_NAME (sort_dict artifacts) = sort_keys record) as Hf
    by (rewrite pget_sort_dict; unfold pget; by rewrite Hget).
  rewrite (bind_run (raise_if _ _ _) _ tt).
  2: { rewrite has_key_sorted; [done|]. by apply Hprod, (pm_fused _ _ _ _ _ _ _ _ Hm). }
  rewrite (bind_run (raise_if _ _ _) _ tt).
  2: { rewrite has_key_sorted by done. by erewrite one_standard. }
  rewrite (bind_run (for_each _ _ _) _ tt).
  2: { eapply artifacts_written; [exact Ha|done|]. intros name Hn. eapply member_no_slash; [exact Hstd|].
       by apply (pm_names _ _ _ _ _ _ _ _ Hm). }
  rewrite (bind_run _ _ c Hc), Hf.
  rewrite (bind_run (check_fused_record _ _) _ tt) by (eapply fused_record_written; [by eapply fused_contract_keys|exact Hr]).
  rewrite (bind_run (validate_fused_file _ _ _ _ _) _ tt).
  2: { rewrite <- (pm_valid _ _ _ _ _ _ _ _ Hm). apply validate_fused_same. by rewrite lookup_insert_ne. }
  unfold mret, res_ret. do 2 f_equal. by rewrite sorted_artifact_names.
Qed.
End accepted.
