(* ===== verification/AdapterLoad.v ===== *)
(** * Loading restores the fused tensors

    [_load_fused_expert_lora] of a file that [_save_fused_expert_lora] wrote puts
    every tensor back where it was, whatever the current values are. *)
From S2P Require Import Prelude PyStr PyVal FS KTConfig Artifacts PretrainedLoad ModelGraph Adapter AdapterFiles.
From Stdlib Require Import Ascii.

Local Open Scope string_scope.
Local Open Scope list_scope.
Local Open Scope Z_scope.

(** ** Keys *)

Definition dot : ascii := "."%char.
Definition no_dot (s : string) : bool := str_forall (fun c => negb (Ascii.eqb c dot)) s.

Lemma str_of_Z_no_dot n : no_dot (str_of_Z n) = true.
Proof.
  assert (∀ m, 0 ≤ m → no_dot (str_of_Z m) = true) as Hpos.
  { intros m Hm. eapply str_forall_impl, str_of_Z_digits; [|done]. intros c Hc.
    destruct (Ascii.eqb_spec c dot) as [->|]; [by vm_compute in Hc|done]. }
  destruct n as [|q|q]; [by apply Hpos|by apply Hpos|].
  change (str_of_Z (Z.neg q)) with ("-" ++ str_of_Z (Z.pos q))%string.
  pose proof (Hpos (Z.pos q) ltac:(done)) as Hq. revert Hq. unfold no_dot. by simpl.
Qed.

(** The text before the first dot is the same. *)
Lemma dot_split s s' r r' : no_dot s = true → no_dot s' = true →
  (s ++ String dot r)%string = (s' ++ String dot r')%string → s = s' ∧ r = r'.
Proof.
  revert s'. induction s as [|c s IH]; intros [|c' s'] Hs Hs' E; simpl in *.
  - by injection E.
  - injection E as <- _. by vm_compute in Hs'.
  - injection E as -> _. by vm_compute in Hs.
  - injection E as -> E. unfold no_dot in *. simpl in *. bools. destruct (IH s') as [-> ->]; done.
Qed.

Lemma fused_key_inj `{Platform} n m a b : fused_key (PInt n) a = fused_key (PInt m) b → n = m ∧ a = b.
Proof.
  unfold fused_key. intros E%str_app_inj_l. cbn [py_str] in E.
  change (".experts." ++ a)%string with (String dot ("experts." ++ a)) in E.
  change (".experts." ++ b)%string with (String dot ("experts." ++ b)) in E.
  apply dot_split in E as [E1%str_of_Z_inj E2%str_app_inj_l]; [done|apply str_of_Z_no_dot..].
Qed.

(** ** Dictionaries of fresh keys *)

(** Assigning fresh keys in order appends them. *)
Lemma fold_dict_set_fresh {A B} (key : B → string) (val : B → A) (l : list B) d :
  NoDup ((fst <$> d) ++ (key <$> l)) →
  fold_left (fun d x => dict_set (key x) (val x) d) l d = d ++ ((fun x => (key x, val x)) <$> l).
Proof.
  revert d. induction l as [|x l IH]; intros d Hnd; simpl; [by rewrite app_nil_r|].
  pose proof Hnd as (_ & Hk & _)%NoDup_app. rewrite dict_set_fresh.
  - rewrite IH; [by rewrite <-app_assoc|]. rewrite fmap_app, <-app_assoc. exact Hnd.
  - intros Hin. apply (Hk _ Hin). by left.
Qed.

(** A nested loop is a loop over the pairs. *)
Lemma fold_left_bind {A B C} (f : C → B → C) (g : A → list B) (l : list A) c :
  fold_left (fun c x => fold_left f (g x) c) l c = fold_left f (l ≫= g) c.
Proof. revert c. induction l as [|x l IH]; intros c; [done|]. simpl. by rewrite IH, fold_left_app. Qed.

Lemma fold_left_fmap {A B C} (f : C → B → C) (g : A → B) (l : list A) c :
  fold_left f (g <$> l) c = fold_left (fun c x => f c (g x)) l c.
Proof. revert c. induction l as [|x l IH]; intros c; [done|]. simpl. apply IH. Qed.

Lemma fold_left_ext {A C} (f g : C → A → C) (l : list A) c : (∀ c x, x ∈ l → f c x = g c x) →
  fold_left f l c = fold_left g l c.
Proof.
  revert c. induction l as [|x l IH]; intros c Hf; [done|]. simpl. rewrite Hf by left.
  apply IH. intros c' y Hy. apply Hf. by right.
Qed.

Lemma fmap_bind_list {A B C} (f : B → C) (g : A → list B) (l : list A) : f <$> (l ≫= g) = l ≫= (fun x => f <$> g x).
Proof. induction l as [|x l IH]; [done|]. rewrite !bind_cons, fmap_app. by rewrite IH. Qed.

Lemma bind_ext_in {A B} (f g : A → list B) (l : list A) : (∀ x, x ∈ l → f x = g x) → l ≫= f = l ≫= g.
Proof.
  induction l as [|x l IH]; intros Hf; [done|]. rewrite !bind_cons, Hf by left. f_equal. apply IH. intros y Hy. apply Hf. by right.
Qed.

(** ** The wrappers *)

Section layers.
Context `{Platform}.

(** The wrappers of a model that carry fused tensors: each has its own layer and
    the six tensors of the contract. *)
Definition well_layered (ws : gmap Z moe_wrapper) (ids : list Z) : Prop :=
  NoDup ids ∧
  (∀ i w, i ∈ ids → ws !! i = Some w → fused_of w ≠ [] →
    length (fused_of w) = length FUSED_LORA_NAMES ∧ ∃ n, mw_layer_idx w = PInt n) ∧
  (∀ i j w v, i ∈ ids → j ∈ ids → ws !! i = Some w → ws !! j = Some v → fused_of w ≠ [] → fused_of v ≠ [] →
    mw_layer_idx w = mw_layer_idx v → i = j).

(** The tensors of a wrapper, by their place: the key of the tensor, the place,
    the tensor. *)
Definition places (ws : gmap Z moe_wrapper) (i : Z) : list (string * (Z * nat)) :=
  match ws !! i with
  | Some w => match fused_of w with
              | [] => []
              | _ => imap (fun k name => (fused_key (mw_layer_idx w) name, (i, k))) FUSED_LORA_NAMES
              end
  | None => []
  end.

Lemma elem_of_places ws i key target : (key, target) ∈ places ws i ↔
  ∃ w k name, ws !! i = Some w ∧ fused_of w ≠ [] ∧ FUSED_LORA_NAMES !! k = Some name ∧
    key = fused_key (mw_layer_idx w) name ∧ target = (i, k).
Proof.
  unfold places. destruct (ws !! i) as [w|] eqn:E; [|split; [by intros ?%elem_of_nil|naive_solver]].
  destruct (fused_of w) as [|x l] eqn:Ef.
  - split; [by intros ?%elem_of_nil|]. intros (w' & k & name & [= <-] & Hne & _). congruence.
  - rewrite elem_of_lookup_imap. split.
    + intros (k & name & [= -> ->] & Hk). exists w, k, name. split_and!; try done. by rewrite Ef.
    + intros (w' & k & name & [= <-] & _ & Hk & -> & ->). by exists k, name.
Qed.

Lemma FUSED_LORA_NAMES_inj k1 k2 name : FUSED_LORA_NAMES !! k1 = Some name → FUSED_LORA_NAMES !! k2 = Some name → k1 = k2.
Proof. intros H1 H2. eapply (NoDup_lookup FUSED_LORA_NAMES); [|exact H1|exact H2]. by apply (bool_decide_unpack _); vm_compute. Qed.

(** The keys are distinct, over all layers. *)
Lemma places_NoDup ws ids : well_layered ws ids → NoDup (fst <$> (ids ≫= places ws)).
Proof.
  intros (Hnd & Hsix & Hlay). rewrite fmap_bind_list. apply NoDup_bind; [| |done].
  - intros i j key Hi Hj ([? t1] & -> & H1)%list_elem_of_fmap ([? t2] & E & H2)%list_elem_of_fmap. simpl in E. subst.
    apply elem_of_places in H1 as (w & k1 & n1 & Hw & Hwf & Hk1 & -> & _).
    apply elem_of_places in H2 as (v & k2 & n2 & Hv & Hvf & Hk2 & E & _).
    destruct (Hsix i w Hi Hw Hwf) as [_ [n Hn]], (Hsix j v Hj Hv Hvf) as [_ [m Hm]].
    apply (Hlay i j w v); try done. rewrite Hn, Hm in *. by apply fused_key_inj in E as [-> _].
  - intros i Hi. unfold places. destruct (ws !! i) as [w|] eqn:Hw; [|constructor].
    destruct (fused_of w) as [|x l] eqn:Ef; [constructor|]. assert (fused_of w ≠ []) as Hne by congruence.
    destruct (Hsix i w Hi Hw Hne) as [_ [n ->]]. rewrite fmap_imap.
    apply NoDup_alt. intros k1 k2 key. rewrite !list_lookup_imap.
    intros (n1 & Hn1 & E1)%fmap_Some (n2 & Hn2 & E2)%fmap_Some. simpl in *. subst.
    apply fused_key_inj in E2 as [_ ->]. by eapply FUSED_LORA_NAMES_inj.
Qed.

(** What the loop over the wrappers collects. *)
Lemma targets_step ws i expected owned : NoDup (fst <$> (expected ++ places ws i)) →
  (∀ w, ws !! i = Some w → fused_of w ≠ [] → length (fused_of w) = length FUSED_LORA_NAMES ∧
     ∀ v, v ∈ owned → py_eq (mw_layer_idx w) v = false) →
  ∃ owned', add_targets ws (expected, owned) i = Ok (expected ++ places ws i, owned') ∧
    ∀ v, v ∈ owned' → v ∈ owned ∨ ∃ w, ws !! i = Some w ∧ fused_of w ≠ [] ∧ mw_layer_idx w = v.
Proof.
  unfold add_targets, places. intros Hkeys Hw. destruct (ws !! i) as [w|] eqn:E.
  2: { exists owned. rewrite app_nil_r. split; [done|by left]. }
  destruct (fused_of w) as [|x l] eqn:Ef.
  { exists owned. rewrite app_nil_r. split; [done|by left]. }
  destruct (Hw w eq_refl ltac:(congruence)) as [Hlen Hown]. rewrite Ef in Hlen.
  exists (mw_layer_idx w :: owned). split.
  - rewrite (bind_run (raise_if _ _ _) _ tt) by (by rewrite Hlen).
    rewrite (bind_run (raise_if _ _ _) _ tt).
    2: { destruct (existsb _ _) eqn:Eo; [|done]. apply existsb_exists in Eo as (v & Hv & Hq).
         by rewrite Hown in Hq by by apply list_elem_of_In. }
    unfold mret, res_ret. do 2 f_equal.
    rewrite (fold_left_ext _ (fun d x => dict_set (fused_key (mw_layer_idx w) x.2) (i, x.1) d)) by (by intros c [k name] _).
    rewrite fold_dict_set_fresh; [done|]. by rewrite fmap_app in Hkeys.
  - intros v [->|Hv]%elem_of_cons; [right; exists w; split_and!; [done|congruence|done]|by left].
Qed.

Lemma targets_of ws ids : well_layered ws ids →
  ∃ owned, for_each ids ([], []) (add_targets ws) = Ok (ids ≫= places ws, owned).
Proof.
  intros Hwl. pose proof (places_NoDup ws ids Hwl) as Hkeys. destruct Hwl as (Hnd & Hsix & Hlay).
  assert (∀ post pre owned, ids = pre ++ post →
    (∀ v, v ∈ owned → ∃ j w, j ∈ pre ∧ ws !! j = Some w ∧ fused_of w ≠ [] ∧ mw_layer_idx w = v) →
    ∃ owned', for_each post (pre ≫= places ws, owned) (add_targets ws) = Ok (ids ≫= places ws, owned')) as Hgen.
  2: { apply (Hgen ids [] []); [done|]. by intros v ?%elem_of_nil. }
  induction post as [|i post IH]; intros pre owned Hids Hown.
  { exists owned. simpl. by rewrite Hids, app_nil_r. }
  assert (ids = (pre ++ [i]) ++ post) as Hids' by (by rewrite <-app_assoc).
  assert (i ∉ pre) as Hfresh by (rewrite Hids in Hnd; apply NoDup_app in Hnd; set_solver).
  destruct (targets_step ws i (pre ≫= places ws) owned) as (owned' & Hrun & Hown').
  - rewrite Hids', bind_app, bind_app, bind_singleton, fmap_app in Hkeys. by apply NoDup_app in Hkeys as (? & _).
  - intros w Hw Hne. assert (i ∈ ids) as Hi by (rewrite Hids; set_solver).
    destruct (Hsix i w Hi Hw Hne) as [Hlen [n Hn]]. split; [done|]. intros v (j & w' & Hj & Hw' & Hne' & <-)%Hown.
    assert (j ∈ ids) as Hj' by (rewrite Hids; set_solver).
    destruct (Hsix j w' Hj' Hw' Hne') as [_ [m Hm]]. rewrite Hn, Hm. apply Z.eqb_neq. intros <-.
    apply Hfresh. assert (i = j) as -> by (apply (Hlay i j w w'); congruence). done.
  - cbn [for_each]. rewrite (bind_run _ _ _ Hrun).
    destruct (IH (pre ++ [i]) owned') as [o Ho]; [done| |].
    + intros v [(j & w & Hj & Hw)%Hown|(w & Hw)]%Hown'; [exists j, w|exists i, w]; (split; [set_solver|done]).
    + exists o. rewrite bind_app, bind_singleton in Ho. exact Ho.
Qed.

(** The tensors at these places. *)
Definition tensors_at (ws : gmap Z moe_wrapper) (l : list (string * (Z * nat))) : list (string * tensor) :=
  omap (fun kt => (fun p => (kt.1, p)) <$> target_tensor ws kt.2) l.

Lemma wrapper_tensors ws i w : ws !! i = Some w → (fused_of w ≠ [] → length (fused_of w) = length FUSED_LORA_NAMES) →
  tensors_at ws (places ws i) = (fun pn => (fused_key (mw_layer_idx w) pn.2, pn.1)) <$> zip (fused_of w) FUSED_LORA_NAMES.
Proof.
  intros Hw Hlen. unfold tensors_at, places, target_tensor. rewrite Hw.
  destruct (fused_of w) as [|x l] eqn:Ef; [done|]. specialize (Hlen ltac:(done)). rewrite <- Ef in Hlen |- *.
  simpl. rewrite Hw. simpl. destruct (fused_of w) as [|a [|b [|c [|d [|e [|f [|]]]]]]]; done.
Qed.

(** What the writer collects. *)
Lemma fused_tensors_places ws ids : well_layered ws ids →
  fused_tensors (ids ≫= fun i => option_list (ws !! i)) = tensors_at ws (ids ≫= places ws).
Proof.
  intros Hwl. pose proof (places_NoDup ws ids Hwl) as Hkeys. destruct Hwl as (_ & Hsix & _).
  assert ((ids ≫= fun i => option_list (ws !! i)) ≫= (fun w => (fun pn => (fused_key (mw_layer_idx w) pn.2, pn.1)) <$>
            zip (fused_of w) FUSED_LORA_NAMES) = tensors_at ws (ids ≫= places ws)) as Hall.
  { clear Hkeys. induction ids as [|i ids IH]; [done|]. rewrite !bind_cons, bind_app. unfold tensors_at.
    rewrite omap_app. fold (tensors_at ws). f_equal; [|apply IH; intros j v Hj; apply Hsix; by right].
    destruct (ws !! i) as [w|] eqn:Hw; [|unfold places; by rewrite Hw]. change (option_list (Some w)) with [w].
    rewrite bind_singleton.
    symmetry. apply (wrapper_tensors ws i w Hw). intros Hne. by apply (Hsix i w); [left|..]. }
  unfold fused_tensors.
  rewrite (fold_left_ext _ (fun d w => fold_left (fun d kt => dict_set kt.1 kt.2 d)
    ((fun pn => (fused_key (mw_layer_idx w) pn.2, pn.1)) <$> zip (fused_of w) FUSED_LORA_NAMES) d)).
  2: { intros d w _. rewrite fold_left_fmap. apply fold_left_ext. by intros c [p name] _. }
  rewrite fold_left_bind, Hall, fold_dict_set_fresh.
  - simpl. rewrite <-(list_fmap_id (tensors_at ws (ids ≫= places ws))) at 2. apply list_fmap_ext. by intros _ [k v] _.
  - simpl. eapply sublist_NoDup; [exact Hkeys|]. unfold tensors_at. clear.
    induction (ids ≫= places ws) as [|[k tg] l IHl]; [done|]. simpl.
    destruct (target_tensor ws tg); simpl; by constructor.
Qed.

(** ** Copying *)

(** A wrapper whose tensors were replaced. *)
Definition refill (w : moe_wrapper) (l : list tensor) : moe_wrapper :=
  MoeWrapper (mw_layer_idx w) (mw_lora_rank w) (mw_lora_alpha w) (mw_use_fused_expert_lora w) (mw_fused_experts w)
    (Some l) (mw_expert_num w) (mw_intermediate_size w) (mw_hidden_size w) (mw_weight_format w)
    (mw_rawint4_quantization w) (mw_lora_experts w) (mw_full_weight_grad w) true.

Lemma copy_insert ws i w l k p : mw_fused_params w = Some l →
  copy_tensor (<[i := w]> ws) (i, k) p = <[i := refill w (<[k := p]> l)]> ws.
Proof. intros Hl. unfold copy_tensor. rewrite alter_insert_eq. unfold refill. simpl. by rewrite Hl. Qed.

(** One step of the loop that copies. *)
Definition copy_step (saved : list (string * tensor)) (ws : gmap Z moe_wrapper) (kt : string * (Z * nat)) :=
  match dict_get kt.1 saved with Some p => copy_tensor ws kt.2 p | None => ws end.

Lemma copy_wrapper saved ws0 ws i w v :
  (∀ key target, (key, target) ∈ places ws0 i → dict_get key saved = target_tensor ws0 target) →
  ws0 !! i = Some w → ws !! i = Some v → fused_of w ≠ [] →
  length (fused_of w) = length FUSED_LORA_NAMES → length (fused_of v) = length FUSED_LORA_NAMES →
  fold_left (copy_step saved) (places ws0 i) ws = <[i := refill v (fused_of w)]> ws.
Proof.
  intros Hs Hw Hv Hne Hlw Hlv. rewrite <-(insert_id ws i v Hv) at 1.
  assert (∃ l, mw_fused_params v = Some l ∧ length l = 6%nat) as (l & Hl & Hlen).
  { unfold fused_of in Hlv. destruct (mw_fused_params v) as [l|]; [by exists l|done]. }
  assert (∀ k name u m p, FUSED_LORA_NAMES !! k = Some name → fused_of w !! k = Some p → mw_fused_params u = Some m →
            copy_step saved (<[i := u]> ws) (fused_key (mw_layer_idx w) name, (i, k)) = <[i := refill u (<[k := p]> m)]> ws)
    as Hstep.
  { intros k name u m p Hk Hp Hu. unfold copy_step. cbn [fst snd]. rewrite (Hs _ (i, k)).
    - unfold target_tensor. cbn [fst snd]. rewrite Hw. simpl. rewrite Hp. by apply copy_insert.
    - apply elem_of_places. exists w, k, name. by split_and!. }
  unfold places. rewrite Hw. destruct (fused_of w) as [|a [|b [|c [|d [|e [|f [|]]]]]]] eqn:Ef; try done.
  destruct l as [|a' [|b' [|c' [|d' [|e' [|f' [|]]]]]]]; try done. cbn [imap FUSED_LORA_NAMES fold_left compose].
  erewrite (Hstep 0%nat) by done. erewrite (Hstep 1%nat) by done. erewrite (Hstep 2%nat) by done.
  erewrite (Hstep 3%nat) by done. erewrite (Hstep 4%nat) by done. erewrite (Hstep 5%nat) by done. done.
Qed.

(** ** Loading *)

(** Wrappers of the same layer whose fused tensors have the same shapes and
    dtypes; the values may differ. *)
Definition same_layout (w v : moe_wrapper) : Prop :=
  mw_layer_idx v = mw_layer_idx w ∧ tn_shape <$> fused_of v = tn_shape <$> fused_of w ∧
  tn_dtype <$> fused_of v = tn_dtype <$> fused_of w.
Definition same_layouts (ws ws' : gmap Z moe_wrapper) (ids : list Z) : Prop :=
  ∀ i, i ∈ ids → option_Forall2 same_layout (ws !! i) (ws' !! i).

Lemma same_layout_length w v : same_layout w v → length (fused_of v) = length (fused_of w).
Proof. intros (_ & Hs & _). by rewrite <-(length_fmap tn_shape), Hs, length_fmap. Qed.

Lemma same_places ws ws' ids i : same_layouts ws ws' ids → i ∈ ids → places ws' i = places ws i.
Proof.
  intros Hl Hi. unfold places. destruct (Hl i Hi) as [w v Hwv|]; [|done].
  pose proof (same_layout_length _ _ Hwv) as Hlen. destruct Hwv as [-> _].
  by destruct (fused_of v), (fused_of w).
Qed.

Lemma same_layered ws ws' ids : same_layouts ws ws' ids → well_layered ws ids → well_layered ws' ids.
Proof.
  intros Hl (Hnd & Hsix & Hlay).
  assert (∀ i v, i ∈ ids → ws' !! i = Some v → ∃ w, ws !! i = Some w ∧ same_layout w v ∧ (fused_of v ≠ [] → fused_of w ≠ []))
    as Hback.
  { intros i v Hi Hv. specialize (Hl i Hi). rewrite Hv in Hl. inversion Hl as [w ? Hwv E|]; subst.
    exists w. split_and!; try done. apply same_layout_length in Hwv. intros Hne Hw. rewrite Hw in Hwv.
    by apply nil_length_inv in Hwv. }
  split; [done|]. split.
  - intros i v Hi Hv Hne. destruct (Hback i v Hi Hv) as (w & Hw & Hwv & Hn). rewrite (same_layout_length _ _ Hwv).
    destruct Hwv as [-> _]. apply (Hsix i w); auto.
  - intros i j v1 v2 Hi Hj Hv1 Hv2 Hn1 Hn2 E. destruct (Hback i v1 Hi Hv1) as (w1 & Hw1 & [E1 _] & H1).
    destruct (Hback j v2 Hj Hv2) as (w2 & Hw2 & [E2 _] & H2). apply (Hlay i j w1 w2); auto. congruence.
Qed.

(** A place of a layered model holds a tensor. *)
Lemma place_tensor ws ids key i k : well_layered ws ids → (key, (i, k)) ∈ ids ≫= places ws →
  ∃ w p, i ∈ ids ∧ ws !! i = Some w ∧ fused_of w !! k = Some p ∧ target_tensor ws (i, k) = Some p.
Proof.
  intros (_ & Hsix & _) (j & Hp & Hj)%list_elem_of_bind. apply elem_of_places in Hp as (w & k' & name & Hw & Hne & Hk & _ & [= <- <-]).
  destruct (Hsix i w Hj Hw Hne) as [Hlen _]. apply lookup_lt_Some in Hk. rewrite <-Hlen in Hk.
  apply lookup_lt_is_Some in Hk as [p Hp]. exists w, p. split_and!; try done. unfold target_tensor. simpl. by rewrite Hw.
Qed.

Lemma tensors_at_keys ws l : (∀ key target, (key, target) ∈ l → is_Some (target_tensor ws target)) →
  fst <$> tensors_at ws l = fst <$> l.
Proof.
  induction l as [|[key target] l IH]; intros Hl; [done|]. unfold tensors_at. simpl.
  destruct (Hl key target) as [p Hp]; [by left|]. rewrite Hp. simpl. f_equal. apply IH. intros key' t' Hin. eapply Hl. by right.
Qed.

(** What loading leaves of a wrapper. *)
Definition restored (w v : option moe_wrapper) : option moe_wrapper :=
  match w, v with
  | Some w, Some v => match fused_of w with [] => Some v | l => Some (refill v l) end
  | _, _ => v
  end.

Lemma well_layered_tail ws i ids : well_layered ws (i :: ids) → well_layered ws ids.
Proof.
  intros ([_ Hnd]%NoDup_cons & Hsix & Hlay). split; [done|]. split.
  - intros j w Hj. apply Hsix. by right.
  - intros j k w v Hj Hk. apply Hlay; by right.
Qed.

Lemma copy_one saved ws0 ws i ids : well_layered ws0 (i :: ids) → same_layouts ws0 ws (i :: ids) →
  (∀ key target, (key, target) ∈ places ws0 i → dict_get key saved = target_tensor ws0 target) →
  ∀ j, fold_left (copy_step saved) (places ws0 i) ws !! j = if decide (j = i) then restored (ws0 !! i) (ws !! i) else ws !! j.
Proof.
  intros (_ & Hsix & _) Hl Hs j. specialize (Hl i ltac:(by left)).
  destruct (ws0 !! i) as [w|] eqn:Hw, (ws !! i) as [v|] eqn:Hv; inversion Hl as [? ? Hwv|]; subst.
  - simpl. destruct (fused_of w) as [|p l] eqn:Ef.
    + unfold places. rewrite Hw, Ef. simpl. by destruct (decide (j = i)) as [->|].
    + assert (fused_of w ≠ []) as Hne by congruence. destruct (Hsix i w ltac:(by left) Hw Hne) as [Hlen _].
      rewrite (copy_wrapper saved ws0 ws i w v), <-Ef; [|done..|by rewrite (same_layout_length _ _ Hwv)].
      destruct (decide (j = i)) as [->|Hj]; [by rewrite lookup_insert_eq|by rewrite lookup_insert_ne].
  - unfold places. rewrite Hw. simpl. by destruct (decide (j = i)) as [->|].
Qed.

Lemma copy_all saved ws0 ids ws : well_layered ws0 ids → same_layouts ws0 ws ids →
  (∀ key target, (key, target) ∈ ids ≫= places ws0 → dict_get key saved = target_tensor ws0 target) →
  ∀ j, fold_left (copy_step saved) (ids ≫= places ws0) ws !! j =
    if decide (j ∈ ids) then restored (ws0 !! j) (ws !! j) else ws !! j.
Proof.
  revert ws. induction ids as [|i ids IH]; intros ws Hwl Hl Hs j; [done|].
  rewrite bind_cons in Hs |- *. rewrite fold_left_app. set (ws1 := fold_left _ (places ws0 i) ws).
  assert (∀ j, ws1 !! j = if decide (j = i) then restored (ws0 !! i) (ws !! i) else ws !! j) as H1.
  { eapply copy_one; [done..|]. intros key target Hin. apply Hs, elem_of_app. by left. }
  pose proof Hwl as [[Hi _]%NoDup_cons _]. rewrite IH.
  - rewrite H1. destruct (decide (j = i)) as [->|Hne].
    + rewrite decide_False by done. by rewrite decide_True by left.
    + destruct (decide (j ∈ ids)); [rewrite decide_True by (by right)|rewrite decide_False by set_solver]; done.
  - by eapply well_layered_tail.
  - intros k Hk. rewrite H1, decide_False by (by intros ->). apply Hl. by right.
  - intros key target Hin. apply Hs, elem_of_app. by right.
Qed.

(** Every saved tensor fits the place it goes to. *)
Lemma targets_match ws0 ws ids saved key i k : well_layered ws0 ids → same_layouts ws0 ws ids →
  (key, (i, k)) ∈ ids ≫= places ws0 → dict_get key saved = target_tensor ws0 (i, k) →
  check_target ws saved key (i, k) = Ok tt.
Proof.
  intros Hwl Hl Hin Hget. destruct (place_tensor _ _ _ _ _ Hwl Hin) as (w & p & Hi & Hw & Hp & Ht).
  specialize (Hl i Hi). rewrite Hw in Hl. inversion Hl as [? v (_ & Hsh & Hdt) E1 E2|]; subst.
  assert ((tn_shape <$> fused_of v) !! k = Some (tn_shape p)) as Hshape by (by rewrite Hsh, list_lookup_fmap, Hp).
  assert ((tn_dtype <$> fused_of v) !! k = Some (tn_dtype p)) as Hdtype by (by rewrite Hdt, list_lookup_fmap, Hp).
  apply list_lookup_fmap_Some in Hshape as (q & Es & Hq), Hdtype as (q' & Ed & Hq').
  assert (q' = q) as -> by congruence.
  assert (target_tensor ws (i, k) = Some q) as Hq'' by (unfold target_tensor; simpl; by rewrite <-E2).
  unfold check_target. rewrite Hget, Ht, Hq''. cbn [of_option mbind res_bind].
  rewrite Es, bool_decide_true by done. cbn [negb raise_if mbind res_bind]. by rewrite Ed, String.eqb_refl.
Qed.
End layers.

Section load.
Context `{Platform}.
Context (st_encode : list (string * tensor) → string) (st_decode : string → option (list (string * tensor))).

(** C29. Loading restores what a save wrote: when the fused tensors of some
    wrappers are in the file, loading them into a model with wrappers of the same
    layers, shapes and dtypes succeeds, gives each wrapper the saved tensors in
    their order and marks it dirty, and touches no other wrapper. *)
Theorem fused_tensors_load_back d ids m m' :
  (∀ ts, NoDup (fst <$> ts) → ∃ ts', st_decode (st_encode ts) = Some ts' ∧ ts' ≡ₚ ts) →
  well_layered (m_wrappers m) ids → same_layouts (m_wrappers m) (m_wrappers m') ids →
  d !! FUSED_EXPERT_LORA_NAME = Some (File (st_encode (fused_tensors (ids ≫= fun i => option_list (m_wrappers m !! i))))) →
  ∃ ws, load_fused_expert_lora st_decode d ids m' = (with_wrappers ws m', Ok (Z.of_nat (length (ids ≫= places (m_wrappers m))))) ∧
    ∀ j, ws !! j = if decide (j ∈ ids) then restored (m_wrappers m !! j) (m_wrappers m' !! j) else m_wrappers m' !! j.
Proof.
  intros codec Hwl Hl Hd. rewrite (fused_tensors_places _ _ Hwl) in Hd. set (ws0 := m_wrappers m) in *.
  assert (ids ≫= places (m_wrappers m') = ids ≫= places ws0) as Hsame.
  { apply bind_ext_in. intros i Hi. by eapply same_places. }
  pose proof (places_NoDup _ _ Hwl) as Hnd. pose proof (same_layered _ _ _ Hl Hwl) as Hwl'.
  destruct (targets_of _ _ Hwl') as [owned Ht]. rewrite Hsame in Ht.
  assert (fst <$> tensors_at ws0 (ids ≫= places ws0) = fst <$> (ids ≫= places ws0)) as Hkeys.
  { apply tensors_at_keys. intros key [i k] Hin. destruct (place_tensor _ _ _ _ _ Hwl Hin) as (w & p & _ & _ & _ & ->).
    by eexists. }
  destruct (codec (tensors_at ws0 (ids ≫= places ws0))) as (saved & Hdec & Hperm); [by rewrite Hkeys|].
  assert (∀ key target, (key, target) ∈ ids ≫= places ws0 → dict_get key saved = target_tensor ws0 target) as Hget.
  { intros key [i k] Hin. destruct (place_tensor _ _ _ _ _ Hwl Hin) as (w & p & _ & _ & _ & Hp). rewrite Hp.
    apply dict_get_NoDup; [by rewrite Hperm, Hkeys|]. rewrite Hperm. unfold tensors_at. apply list_elem_of_omap.
    exists (key, (i, k)). split; [done|]. cbn [fst snd]. by rewrite Hp. }
  assert (Forall (fun kt => check_target (m_wrappers m') saved kt.1 kt.2 = Ok tt) (ids ≫= places ws0)) as Hcheck.
  { apply Forall_forall. intros [key [i k]] Hin. cbn [fst snd].
    by apply (targets_match ws0 _ ids); [..|apply Hget]. }
  exists (fold_left (copy_step saved) (ids ≫= places ws0) (m_wrappers m')). split; [|by apply copy_all].
  unfold load_fused_expert_lora. rewrite bindM_gets, bindM_lift, Ht. clear Hsame Hwl Hwl' Hl Hget Ht.
  revert Hd Hdec Hperm Hkeys Hcheck Hnd. generalize (ids ≫= places ws0). intros l Hd Hdec Hperm Hkeys Hcheck _.
  destruct l as [|x l]; [by destruct m'|]. rewrite bindM_lift, Hd. cbn [mbind option_bind content_of of_option].
  rewrite bindM_lift, Hdec. cbn [of_option]. rewrite bindM_lift, bool_decide_true
    by (rewrite <-Hkeys; by apply list_to_set_perm_L, fmap_Permutation). cbn [negb raise_if].
  rewrite bindM_lift, (proj2 (for_each_unit (x :: l) (fun kt => let '(key, target) := kt in check_target _ saved key target) tt)).
  2: { eapply Forall_impl; [exact Hcheck|]. by intros [key target]. }
  rewrite bindM_modify. erewrite (fold_left_ext _ (copy_step saved)); [done|]. by intros ws [key target] _.
Qed.
End load.
