(* ===== verification/AdapterExample.v ===== *)
(** * A small adapter

    A model of one layer with six fused tensors: its adapter is saved, accepted
    and loaded into a model with other values; and a model with LoRA experts
    beside a pickled adapter, whose bundle its own check refuses. *)
From S2P Require Import Prelude PyStr PyVal JsonCodec FS KTConfig Artifacts ArtifactsExample RawInt4Identity PretrainedLoad ModelGraph Adapter AdapterFiles AdapterSpec AdapterRoundTrip AdapterAccept AdapterLoad.
From Stdlib Require Import Ascii SpecFloat.

Local Open Scope string_scope.
Local Open Scope list_scope.
Local Open Scope Z_scope.

#[local] Existing Instance ArtifactsExample.demo.

(** ** A tensor file *)

Definition tensor_tree (kt : string * tensor) : pyval :=
  PList [PStr kt.1; PList (PInt <$> tn_shape kt.2); PStr (tn_dtype kt.2); PStr (tn_data kt.2)].
Definition tensor_of_tree (v : pyval) : option (string * tensor) :=
  match v with
  | PList [PStr key; PList shape; PStr dtype; PStr data] =>
      dims ← mapM as_int shape; Some (key, Tensor dims dtype data)
  | _ => None
  end.

Definition encode_tensors (ts : list (string * tensor)) : string := text (PList (tensor_tree <$> ts)).
Definition decode_tensors (data : string) : option (list (string * tensor)) :=
  v ← json_loads data; l ← as_list v; mapM tensor_of_tree l.

Lemma decode_encode_tensors ts : decode_tensors (encode_tensors ts) = Some ts.
Proof.
  unfold decode_tensors, encode_tensors, text. rewrite (codec_round_trip : @json_round_trip demo). simpl.
  apply mapM_Some, Forall2_fmap_l, Forall_Forall2_diag, Forall_forall. intros [key [shape dtype data]] _. simpl.
  assert (mapM as_int (PInt <$> shape) = Some shape) as Hs.
  { by apply mapM_Some, Forall2_fmap_l, Forall_Forall2_diag, Forall_forall. }
  cbn in Hs. by rewrite Hs.
Qed.

Lemma tensor_codec ts : NoDup (fst <$> ts) → ∃ ts', decode_tensors (encode_tensors ts) = Some ts' ∧ ts' ≡ₚ ts.
Proof. intros _. exists ts. by rewrite decode_encode_tensors. Qed.

Definition short_dtype (dtype : string) : string :=
  match dtype_name dtype with Ok name => name | Err _ => "" end.

(** ** The models *)

Definition fused (data : string) : list tensor :=
  [Tensor [2; 1; 3] "torch.bfloat16" (data ++ "0"); Tensor [2; 4; 1] "torch.bfloat16" (data ++ "1");
   Tensor [2; 1; 3] "torch.bfloat16" (data ++ "2"); Tensor [2; 4; 1] "torch.bfloat16" (data ++ "3");
   Tensor [2; 1; 4] "torch.bfloat16" (data ++ "4"); Tensor [2; 3; 1] "torch.bfloat16" (data ++ "5")]%string.

Definition wrapper (data : string) (experts : option (list (tensor * tensor * tensor))) : moe_wrapper :=
  MoeWrapper (PInt 3) (PInt 1) (PInt 2) true false (Some (fused data)) (PInt 2) (PInt 4) (PInt 3) PNone PNone
    experts false false.

(** A wrapped model: the inner object lists the wrapper. *)
Definition plain_holder (wrappers : option (list Z)) : holder := Holder wrappers None PNone PNone PNone PNone (PStr "base").
Definition model_with (data : string) (experts : option (list (tensor * tensor * tensor))) : model :=
  Model {[ 0 := Object (Some 1) None None (plain_holder None); 1 := Object None None None (plain_holder (Some [10])) ]}
    0 {[ 10 := wrapper data experts ]}.

Definition observe_nothing (p : path) : observation :=
  Observation (StatResult 0 0 0 0) (fun _ _ => "") (StatResult 0 0 0 0) (StatResult 0 0 0 0).
Definition no_full_weights (pl : place) (ws : list moe_wrapper) : M shelf unit := mret tt.

Definition saved_to (torch_load : string → option (list (string * tensor))) (m : model) (d : dir) :=
  save_kt_adapter_artifacts (fun _ => Fine) encode_tensors decode_tensors short_dtype torch_load no_full_weights ∅
    observe_nothing json_dumps "r" false m (Shelf d [] ∅ 0).

Definition adapter_dir : dir :=
  {[ "adapter_config.json" := File "{}"; "adapter_model.safetensors" := File "standard" ]}.
Definition trained : model := model_with "trained" None.
Definition outcome := saved_to (fun _ => None) trained adapter_dir.
Definition manifest : KTAdapterManifest :=
  match outcome.2 with Ok (Some mf) => mf | _ => {| am_payload := []; am_artifact_names := [] |} end.

Lemma saved_ok : outcome.2 = Ok (Some manifest).
Proof. vm_compute. reflexivity. Qed.

Lemma quiet_none : leaves_manifest no_full_weights.
Proof. intros pl ws s s' r Hx. injection Hx as <- <-. split_and!; [done..|]. exists []. by rewrite app_nil_r. Qed.
Lemma full_none : writes_full_names no_full_weights.
Proof. intros pl ws s s' r Hx. by injection Hx as <- <-. Qed.

(** ** The save *)

Definition start : shelf := Shelf adapter_dir [] ∅ 0.

Lemma ready_manifest_is_last_witness :
  good trained start (sf_out outcome.1) ∧ returned trained outcome.1 (Ok (Some manifest)).
Proof.
  destruct (ready_manifest_is_last (fun _ => Fine) encode_tensors decode_tensors short_dtype (fun _ => None)
    no_full_weights ∅ observe_nothing json_dumps quiet_none "r" trained start false outcome.1 (Ok (Some manifest)) eq_refl
    (run_result _ _ _ saved_ok)) as (_ & Hg & Hr).
  exact (conj Hg Hr).
Defined.

Lemma saved_adapter_is_accepted_witness :
  validate_adapter_manifest decode_tensors short_dtype ∅ observe_nothing json_dumps [] trained (sf_out outcome.1) =
    Ok {| am_payload := sort_dict (am_payload manifest); am_artifact_names := am_artifact_names manifest |}.
Proof.
  refine (saved_adapter_is_accepted (fun _ => Fine) encode_tensors decode_tensors short_dtype (fun _ => None)
    no_full_weights ∅ observe_nothing json_dumps "r" false trained start outcome.1 manifest [] demo_hex codec_round_trip
    quiet_none full_none eq_refl _ _ (run_result _ _ _ saved_ok)).
  - intros p. assert (find_plan trained = None) as -> by (vm_compute; reflexivity). done.
  - left. vm_compute. reflexivity.
Defined.

(** ** The load *)

Definition fresh : model := model_with "fresh" None.

Lemma trained_layered : well_layered (m_wrappers trained) [10].
Proof.
  split; [apply NoDup_singleton|]. split.
  - intros i w ->%list_elem_of_singleton [= <-] _. split; [done|]. by exists 3.
  - by intros i j w v ->%list_elem_of_singleton ->%list_elem_of_singleton.
Qed.

Lemma fresh_layouts : same_layouts (m_wrappers trained) (m_wrappers fresh) [10].
Proof. intros i ->%list_elem_of_singleton. by constructor. Qed.

Lemma fused_tensors_load_back_witness :
  ∃ ws, load_fused_expert_lora decode_tensors (sf_out outcome.1) [10] fresh = (with_wrappers ws fresh, Ok 6) ∧
    (ws !! 10) ≫= mw_fused_params = Some (fused "trained").
Proof.
  destruct (fused_tensors_load_back encode_tensors decode_tensors (sf_out outcome.1) [10] trained fresh tensor_codec
    trained_layered fresh_layouts ltac:(vm_compute; reflexivity)) as (ws & Hrun & Hws).
  exists ws. split; [exact Hrun|]. rewrite Hws. reflexivity.
Defined.

(** ** A pickled adapter beside LoRA experts *)

(** The tensors of [adapter_model.bin], as [torch.load] gives them. *)
Definition unpickle (data : string) : option (list (string * tensor)) := Some [].
Definition with_experts : model :=
  model_with "trained" (Some [(Tensor [1] "torch.bfloat16" "g", Tensor [1] "torch.bfloat16" "u", Tensor [1] "torch.bfloat16" "d")]).
Definition pickled_dir : dir := {[ "adapter_config.json" := File "{}"; "adapter_model.bin" := File "pickle" ]}.

(** A save with LoRA experts beside [adapter_model.bin] returns a ready
    manifest that its own check refuses: the experts are written to
    [adapter_model.safetensors], so the bundle lists two standard adapters.  The
    next save into the directory is refused too. *)
Theorem pickled_adapter_is_refused :
  ∃ s' mf, saved_to unpickle with_experts pickled_dir = (s', Ok (Some mf)) ∧
    validate_adapter_manifest decode_tensors short_dtype ∅ observe_nothing json_dumps [] with_experts (sf_out s') =
      artifact_error "invalid standard adapter inventory" ∧
    (saved_to unpickle with_experts (sf_out s')).2 = artifact_error "KT adapter save requires exactly one standard adapter file".
Proof.
  set (o := saved_to unpickle with_experts pickled_dir).
  exists o.1, (match o.2 with Ok (Some mf) => mf | _ => {| am_payload := []; am_artifact_names := [] |} end).
  split_and!; vm_compute; reflexivity.
Qed.
